(* ===== verification/_CoqProject ===== *)
-Q . S2P
Prelude.v
Pqueue.v
ChannelModel.v
SsdConfig.v
Ssd.v
SsdFacts.v
SsdInit.v
ConvGeom.v
ConvNand.v
Nvme.v
Prp.v
PrpFacts.v
HostMem.v
WorkQueue.v
WorkQueueSpec.v
IoDev.v
DmaChan.v
IoDma.v
IoQueue.v
IoSteps.v
IoCalls.v
ZnsData.v
ZnsIo.v
ZnsMgmt.v
ZnsInv.v
ZnsState.v
ZnsWrite.v
ZnsCmd.v
ZnsZrwa.v
ZnsProc.v
ZnsInit.v
Lines.v
PqueueSpec.v
ConvFtl.v
ConvLines.v
ConvInv.v
ConvWrite.v
ConvGc.v
ConvErase.v
ConvCount.v
ConvCollect.v
ConvCmd.v
ConvInit.v
ConvParams.v
Demo.v
CqRing.v
IoDeliver.v
Admin.v
IoDoorbell.v
AdminFacts.v
Ctrl.v
IoUnits.v
Boot.v
Pci.v
CtrlFacts.v
CtrlCalls.v
BootFacts.v
PciFacts.v
Layout.v
NvmeStructs.v
PciStructs.v
Life.v
ModLifeFacts.v
KvData.v
KvFtl.v
HostStructs.v
KvTable.v
KvAlloc.v
KvState.v
KvCommands.v
KvBatch.v
KvIter.v
IoFtl.v
SsdTheorems.v
ConvTheorems.v
ZnsTheorems.v
IoTheorems.v
KvTheorems.v
CtrlTheorems.v
