(* ===== verification/Prelude.v ===== *)
(** * NVMeVirt in Rocq

    NVMeVirt is a Linux kernel module that emulates an NVMe device in software:
    a dispatcher thread polls the registers and doorbells that the host writes,
    serves the administration queue, hands each I/O command to the flash
    translation layer (FTL) of its namespace, which computes when a device of
    the configured kind would complete it, and queues the request for an I/O
    worker, which moves the data between host pages and the reserved memory,
    waits for that time and posts the completion.  The development models this
    from the parameters of the module to the completion of a command and proves
    that it keeps its invariants, refines small abstract machines and delivers
    data and completions.

    ** Conventions

    [Prelude] (this file) defines the monad of the development: an operation
    returns [Ok], stops at a failed [NVMEV_ASSERT] or [BUG_ON] ([Bug]), makes an
    access that C does not define ([Fault]: index out of range, NULL, division
    by zero, uninitialised object), or has used up the fuel of a loop
    ([NoFuel]).  Theorems that an operation "returns" exclude the last three.
    A machine integer is a [Z] with its wrap-around written out ([u32], [u64],
    [s32]); bit-fields are [getf]/[setf]; arrays are lists read by [nthZ] and
    written by [updZ], which fault out of range.  [ASSERT(X)] expands to nothing
    in the source and has no counterpart.  Records have the members of the
    structures of the source, functions its names; state that the source keeps
    behind pointers is passed and returned.  The clock ([Clock]: [cpu_clock],
    [local_clock]) is a stream of readings.  Printing is left out.

    ** Parts and their files

    - Victim queue: [Pqueue] is src/pqueue/pqueue.c, a binary heap over an
      abstract node type whose callbacks are the class [PqNode] with the laws
      [PqNodeLaws] and [PqOrder]; [PqueueSpec] states that it represents a set of elements.
      [Lines] is the instance of src/conv_ftl.c (lines ordered by valid pages).
    - Device timing: [ChannelModel] (src/channel_model.c), [SsdConfig]
      (src/ssd_config.h), [Ssd] (src/ssd.h, src/ssd.c: geometry, physical
      addresses, the state of the flash array, write buffers, NAND and link
      timing); [SsdFacts], [SsdInit] their invariants, [SsdTheorems] the results.
    - Page-mapping FTL (src/conv_ftl.c): [ConvFtl] is the code; [ConvGeom],
      [ConvNand] relate the address space to the flash array, [ConvLines],
      [ConvInv] state the invariant (maps inverse to each other, valid-page
      counters, every line in exactly one of free list, victim queue, full list,
      write pointer), [ConvWrite], [ConvGc], [ConvErase], [ConvCollect],
      [ConvCount], [ConvCmd], [ConvInit], [ConvParams] prove it of every
      operation, [ConvTheorems] draws the conclusions.
    - Zoned FTL: [ZnsData] (src/nvme_zns.h, src/zns_ftl.h, src/zns_ftl.c),
      [ZnsIo] (src/zns_read_write.c), [ZnsMgmt] (src/zns_mgmt_send.c,
      src/zns_mgmt_recv.c); [ZnsInv] the invariant, [ZnsState] the state machine
      of a zone, [ZnsWrite], [ZnsCmd], [ZnsZrwa], [ZnsProc], [ZnsInit] the
      operations, [ZnsTheorems] the results.
    - Commands and data: [Nvme] (src/nvme.h), [Prp] with [PrpFacts] (the copy
      loop over physical region pages of src/io.c and src/zns_mgmt_recv.c),
      [HostMem] (structures as bytes of memory).
    - Structures of the headers: [Layout] lays out members and bit-fields as C
      does and says what reads and writes of members do, [NvmeStructs]
      (src/nvme.h, src/nvme_zns.h, src/nvme_kv.h) and [PciStructs] (src/pci.h)
      are the structures as lists of members, the latter with the assignments
      to configuration space; [HostStructs] shows that the commands and pages
      of the other files are these structures.
    - Queues and workers (src/io.c): [WorkQueue] (the two index lists in the
      array of a worker), [WorkQueueSpec] (the lists it represents), [IoDev] (queues, device, and the class [IoHandler]: what an
      FTL offers to the queues), [IoQueue] (dispatcher and workers), [IoSteps]
      (their interleavings as a transition system), [IoCalls] (the functions as
      sequences of steps), [CqRing] (the completion ring seen by the host),
      [IoDeliver] (what a round of a worker posts to it),
      [IoDoorbell] (a doorbell of a queue with room, for every FTL of the class
      [IoServes]), [IoFtl] (the FTLs as instances of [IoHandler]), [IoTheorems].
    - Data by DMA: [DmaChan] (src/dma.c: claiming channels from the kernel,
      classes [DmaKernel] and [DmaKernelLaws], and giving a copy to a channel,
      classes [DmaEngine] and [DmaEngineLaws]), [IoDma] (the variant of the data
      copy in src/io.c that gives runs of adjacent pages to the engine).
    - Simple FTL: [IoUnits] (src/simple_ftl.c).
    - Key-value FTL: [KvData] (src/kv_ftl.h, src/nvme_kv.h, the hash table of
      src/kv_ftl.c, and src/append_only.c, src/bitmap.c as instances of
      [AllocatorOps]), [KvFtl] (the commands, batches and iterators of
      src/kv_ftl.c); [KvTable] what the table represents,
      [KvAlloc] the contract [AllocatorLaws] and its two instances, [KvState]
      the map of a namespace, [KvCommands], [KvBatch], [KvIter] the commands on
      it, [KvTheorems] the results.
    - Controller: [Admin] (src/admin.c: every administration command; the record
      [nvmev_ctrl] holds the device of [IoDev], the administration queue,
      registers and doorbells with their last copies), [Ctrl] (nvmev_proc_bars
      and __init_nvme_ctrl_regs of src/pci.c, nvmev_proc_dbs and the loop of
      nvmev_dispatcher of src/main.c); [AdminFacts] the answer of each command,
      [CtrlFacts] the set-up by a host of its own pace, [CtrlCalls] host,
      dispatcher and workers as one transition system, [CtrlTheorems].
    - Configuration space: [Pci] (the rest of src/pci.c, src/pci.h: a page of
      bytes), [PciFacts].
    - Module: [Boot] (src/main.c: parameters, namespaces, NVMeV_init, /proc
      files), [BootFacts]; [Life] (the init and remove functions of src/ssd.c,
      src/conv_ftl.c, src/zns_ftl.c, src/kv_ftl.c as allocations and releases;
      NVMeV_init, the events of a running device, NVMeV_exit), [ModLifeFacts].
    - [Demo] holds the small devices on which the theorems are instantiated.

    ** How the parts interact

    The dispatcher ([__nvmev_proc_io]) calls [proc_io_cmd] of the namespace.  An
    FTL reads and writes its own state and the shared [hw] (link, write buffer,
    clock); releases of write buffers that it schedules for later are logged in
    [hw_sched] and queued by the dispatcher as internal requests, so that the
    FTLs do not depend on the queues.  In the source the calls of
    [schedule_internal_operation] happen inside the FTL; the model performs them
    in the same order when [proc_io_cmd] returns, which only moves their
    readings of the clock.  The workers apply them through [release_buffer].
    Theorems on queues are proved for every instance of [IoHandler]; [IoFtl]
    provides the instances and [append_read_back] combines both sides.

    ** What the theorems show

    - The page-mapping FTL refines a machine on the set of logical pages that
      hold data, for every sequence of commands within the capacity; its
      collector picks a line with the fewest valid pages and terminates given
      the over-provisioning; from initialisation through any such run, maps and
      counters agree; what the write path changes; with several partitions only
      the first is collected.
    - The zoned FTL keeps its invariant on every command; zone management
      implements the transition table with its resources; writes succeed exactly
      when admissible; the write buffer is charged and given back page by page
      (a write that fails its checks is charged for nothing); reports arrive at
      the host.
    - Every request is completed exactly once and not before its time, for every
      interleaving, where completions are the entries that appear in the rings;
      passes of a worker end and drain what is due; a round of a
      worker delivers it to the host, in order and with an interrupt; appended
      data is read back.
    - A module that loads leaves namespaces side by side in the storage, idle
      queues and a controller that the host can set up in any rhythm; from there
      every administration command but Abort that names what exists is answered
      once and in order, a
      doorbell is served up to the first command that is refused, and the
      promises of the queues hold for any behaviour of the host.  The kernel
      finds the device whatever it writes into configuration space.
    - The structures laid over a command are views of the same bytes, and the
      pages of the identify commands read back member by member.
    - From insmod to rmmod no object is released twice or used after its
      release, and what is left is known exactly: nothing, for a host that
      deletes its queues and without a key-value namespace; a run that does not
      end stops at a queue id above 72, a handle above 15, or an iterator opened
      when fifteen are, which reads the one pointer that is never initialised.
    - The heap represents its set; timing functions complete, account for the
      credits they take and serialise a LUN; addresses round-trip.
    - The key-value commands implement a map, for keys of one length and every
      allocator with the contract, a batch the sequence of its stores; a read
      of an iterator delivers the keys.  A DMA channel is claimed when one is
      free, and the copy by DMA then equals the page-wise one; the simple
      device completes a command when its slowest unit does.

    ** Fuel and bounds

    The collection loop runs on [(T + 1) * ppl] units for threshold [T] and
    [ppl] pages per line, enough because every collection frees a page;
    [gc_loop_without_victim] shows where no fuel is enough.  The walks of a
    heap have 65 units, one per bit of an index; the credit search of the
    channel model one per slot of its ring; transfers of a NAND read one per
    unit transferred; the loops of the zoned FTL one per page; a PRP loop one
    per byte, each chunk having at least one; the walks of a work queue its
    length; the chains of the key-value table its length and one, enough since
    links have no cycle, and the search of a free slot the same, which a full
    table never ends; [proc_cq_loop] what its caller gives, since a doorbell
    beyond the queue keeps it from ending; the list of CPUs the length of its
    text and one; the claim of DMA channels more than are free.

    ** Limits

    Steps of dispatcher and workers are atomic at the granularity stated in
    [IoSteps]: the lists of a worker are read and written by two threads without
    a lock, and reorderings inside one step are not modelled.  Completion and
    submission queues are arrays of entries apart from the memory that holds
    data, so a host that aliases them is not modelled: the pages of a new queue
    are decoded when it is created, and what the host writes into them later is
    a step of the host ([sys_host]).  The dispatcher moves by
    the steps of [CtrlCalls], a look at the registers or at one doorbell; the
    host writes between two of them and not while a doorbell is served.
    Allocation never fails.  In [Life] an address is given out once.

    [IoQueue] copies data page by page ([io_using_dma] false);
    [dma_copy_equivalent] relates the two copies.  Parameters: the DMA engine
    and the pool of its channels, the search of the kernel in a bitmap, the
    contents of fresh memory, the memory map of the kernel and its parser of
    numbers, the functions that initialise a namespace.  Not modelled: kernel
    threads, delivery of interrupts, what the kernel does with the /proc files
    and the bus, the DMA channel among the resources of [Life], and the
    functions that only print. Memory mapped, /proc entries and objects are
    resources in [Life]; their contents are the subject of the other files.
    *)
From stdpp Require Import base list numbers gmap sorting.
From Stdlib Require Import ZArith Lia.

Open Scope Z_scope.

(** ** Outcomes of C code

    A kernel function either returns, stops the machine on a failed
    [NVMEV_ASSERT]/[BUG_ON] ([Bug]), performs an access the C program may not
    perform - an array index out of range, a NULL dereference, a division by
    zero, a read of an uninitialised object ([Fault]) - or, for a loop that the
    model runs on fuel, has not finished yet ([NoFuel]). *)
Inductive outcome (A : Type) : Type :=
| Ok (a : A)
| Bug
| Fault
| NoFuel.
Arguments Ok {A} a.
Arguments Bug {A}.
Arguments Fault {A}.
Arguments NoFuel {A}.

Definition obind {A B : Type} (m : outcome A) (k : A -> outcome B) : outcome B :=
  match m with
  | Ok a => k a
  | Bug => Bug
  | Fault => Fault
  | NoFuel => NoFuel
  end.

Declare Scope nvmev_scope.
Delimit Scope nvmev_scope with nvmev.
Notation "'let*' p ':=' m 'in' k" := (obind m (fun p => k))
  (at level 10, p pattern, m at level 100, k at level 200)
  : nvmev_scope.
Notation "'ASSERT!' b ; k" := (if (b : bool) then k else Bug)
  (at level 10, b at level 100, k at level 200)
  : nvmev_scope.
Notation "'GUARD!' b ; k" := (if (b : bool) then k else Fault)
  (at level 10, b at level 100, k at level 200)
  : nvmev_scope.
Open Scope nvmev_scope.

Definition of_option {A : Type} (o : option A) : outcome A :=
  match o with Some a => Ok a | None => Fault end.

(** ** Machine integers *)
Definition u8 (x : Z) : Z := x mod 256.
Definition u16 (x : Z) : Z := x mod 65536.
Definition u32 (x : Z) : Z := x mod 4294967296.
Definition u64 (x : Z) : Z := x mod 18446744073709551616.
(** Conversion to [int]: two's complement, as gcc defines it. *)
Definition s32 (x : Z) : Z := (x + 2147483648) mod 4294967296 - 2147483648.

(** [DIV_ROUND_UP(n, d)] of <linux/kernel.h>. *)
Definition DIV_ROUND_UP (n d : Z) : Z := (n + d - 1) / d.
(** The same on 64-bit operands. *)
Definition DIV_ROUND_UP64 (n d : Z) : Z := u64 (n + d - 1) / d.

Definition KB (k : Z) : Z := Z.shiftl k 10.
Definition MB (m : Z) : Z := Z.shiftl m 20.
Definition GB (g : Z) : Z := Z.shiftl g 30.

(** Division and remainder of unsigned operands. *)
Definition divO (a b : Z) : outcome Z := GUARD! negb (b =? 0); Ok (a / b).
Definition modO (a b : Z) : outcome Z := GUARD! negb (b =? 0); Ok (a mod b).

(** Bit-fields: [w] bits of [x] from bit [off]. *)
Definition getf (x off w : Z) : Z := Z.land (Z.shiftr x off) (Z.ones w).
Definition setf (x off w v : Z) : Z :=
  Z.lor (Z.ldiff x (Z.shiftl (Z.ones w) off)) (Z.shiftl (Z.land v (Z.ones w)) off).

(** ** Arrays *)
Definition nthZ {A : Type} (l : list A) (i : Z) : outcome A :=
  if 0 <=? i then of_option (l !! Z.to_nat i) else Fault.

Definition updZ {A : Type} (l : list A) (i : Z) (x : A) : outcome (list A) :=
  if (0 <=? i) && (i <? Z.of_nat (length l)) then Ok (<[Z.to_nat i := x]> l) else Fault.

Definition alterZ {A : Type} (f : A -> outcome A) (l : list A) (i : Z) : outcome (list A) :=
  let* x := nthZ l i in
  let* y := f x in
  updZ l i y.

(** ** Loops *)
Fixpoint foldO {A S : Type} (f : S -> A -> outcome S) (s : S) (l : list A) : outcome S :=
  match l with
  | [] => Ok s
  | x :: l' => let* s' := f s x in foldO f s' l'
  end.

(** [for (i = a; i < b; i++)] *)
Definition forO {S : Type} (a b : Z) (s : S) (f : S -> Z -> outcome S) : outcome S :=
  foldO f s (seqZ a (b - a)).

Definition sumZ (l : list Z) : Z := foldr Z.add 0 l.

(** ** Automation *)
Create HintDb nvmev discriminated.

Ltac simpl_outcome :=
  repeat match goal with
  | H : Ok _ = Ok _ |- _ => injection H as H; try subst
  | H : Bug = Ok _ |- _ => discriminate H
  | H : Fault = Ok _ |- _ => discriminate H
  | H : NoFuel = Ok _ |- _ => discriminate H
  | H : obind ?m _ = Ok _ |- _ =>
      let E := fresh "E" in destruct m eqn:E; simpl in H; try discriminate H
  end.

Ltac boolify :=
  repeat match goal with
  | H : _ && _ = true |- _ => apply andb_true_iff in H as [? ?]
  | H : (_ <=? _) = true |- _ => apply Z.leb_le in H
  | H : (_ <=? _) = false |- _ => apply Z.leb_gt in H
  | H : (_ <? _) = true |- _ => apply Z.ltb_lt in H
  | H : (_ <? _) = false |- _ => apply Z.ltb_ge in H
  | H : (_ =? _) = true |- _ => apply Z.eqb_eq in H
  | H : (_ =? _) = false |- _ => apply Z.eqb_neq in H
  end.

(** Decides a boolean comparison of the goal by [lia]. *)
Ltac zdec b :=
  let E := fresh "E" in
  destruct b eqn:E; boolify; try (exfalso; lia).

(** ** Lemmas on integers *)
Lemma u8_id x : 0 <= x < 256 -> u8 x = x.
Proof. apply Z.mod_small. Qed.
Lemma u16_id x : 0 <= x < 65536 -> u16 x = x.
Proof. apply Z.mod_small. Qed.
Lemma u32_id x : 0 <= x < 4294967296 -> u32 x = x.
Proof. apply Z.mod_small. Qed.
Lemma u64_id x : 0 <= x < 18446744073709551616 -> u64 x = x.
Proof. apply Z.mod_small. Qed.
Lemma s32_id x : -2147483648 <= x < 2147483648 -> s32 x = x.
Proof. intros H. unfold s32. rewrite Z.mod_small by lia. lia. Qed.
Lemma u8_range x : 0 <= u8 x < 256.
Proof. by apply Z.mod_pos_bound. Qed.
Lemma u16_range x : 0 <= u16 x < 65536.
Proof. by apply Z.mod_pos_bound. Qed.
Lemma u32_range x : 0 <= u32 x < 4294967296.
Proof. by apply Z.mod_pos_bound. Qed.
Lemma u64_range x : 0 <= u64 x < 18446744073709551616.
Proof. by apply Z.mod_pos_bound. Qed.
#[export] Hint Resolve u8_range u16_range u32_range u64_range : nvmev.

Lemma divO_Ok a b : b <> 0 -> divO a b = Ok (a / b).
Proof. intros H. unfold divO. by rewrite (proj2 (Z.eqb_neq b 0)). Qed.
Lemma modO_Ok a b : b <> 0 -> modO a b = Ok (a mod b).
Proof. intros H. unfold modO. by rewrite (proj2 (Z.eqb_neq b 0)). Qed.

Lemma getf_div x off w : 0 <= off -> 0 <= w -> getf x off w = (x / 2 ^ off) mod 2 ^ w.
Proof.
  intros ??. unfold getf. by rewrite Z.land_ones, Z.shiftr_div_pow2.
Qed.

Lemma getf_range x off w : 0 <= w -> 0 <= getf x off w < 2 ^ w.
Proof.
  intros ?. unfold getf. rewrite Z.land_ones by done.
  apply Z.mod_pos_bound, Z.pow_pos_nonneg; lia.
Qed.

Lemma getf_setf_eq x off w v :
  0 <= off -> 0 <= w -> getf (setf x off w v) off w = v mod 2 ^ w.
Proof.
  intros Ho Hw. rewrite <- Z.land_ones by done. unfold getf, setf.
  apply Z.bits_inj'. intros n Hn.
  rewrite !Z.land_spec, Z.shiftr_spec, Z.lor_spec, Z.ldiff_spec by done.
  rewrite !Z.shiftl_spec by lia. replace (n + off - off) with n by lia.
  rewrite Z.land_spec. destruct (Z.testbit (Z.ones w) n); simpl.
  - by rewrite andb_false_r, !andb_true_r.
  - by rewrite !andb_false_r.
Qed.

Lemma getf_setf_ne x off w v off' w' :
  0 <= off -> 0 <= w -> 0 <= off' -> 0 <= w' -> off + w <= off' \/ off' + w' <= off ->
  getf (setf x off w v) off' w' = getf x off' w'.
Proof.
  intros ?? ?? Hd. unfold getf, setf. apply Z.bits_inj'. intros n Hn.
  rewrite !Z.land_spec, !Z.shiftr_spec, Z.lor_spec, Z.ldiff_spec by done.
  destruct (Z.testbit (Z.ones w') n) eqn:E; [|by rewrite !andb_false_r].
  rewrite !andb_true_r. rewrite Z.testbit_ones in E by lia. boolify.
  rewrite !Z.shiftl_spec, Z.land_spec by lia.
  rewrite !Z.testbit_ones by lia.
  destruct (decide (off + w <= off')).
  - replace (n + off' - off <? w) with false by (symmetry; apply Z.ltb_ge; lia).
    by rewrite !andb_false_r, orb_false_r, andb_true_r.
  - replace (0 <=? n + off' - off) with false by (symmetry; apply Z.leb_gt; lia).
    simpl. by rewrite andb_false_r, orb_false_r, andb_true_r.
Qed.

(** ** Lemmas on arrays *)
Lemma nthZ_Ok {A} (l : list A) i x :
  nthZ l i = Ok x <-> 0 <= i /\ l !! Z.to_nat i = Some x.
Proof.
  unfold nthZ, of_option. zdec (0 <=? i).
  - destruct (l !! Z.to_nat i); naive_solver.
  - split; [done|lia].
Qed.

Lemma nthZ_range {A} (l : list A) i x : nthZ l i = Ok x -> 0 <= i < Z.of_nat (length l).
Proof. rewrite nthZ_Ok. intros [? H%lookup_lt_Some]. lia. Qed.

Lemma nthZ_in_range {A} (l : list A) i :
  0 <= i < Z.of_nat (length l) -> exists x, nthZ l i = Ok x.
Proof.
  intros H. destruct (lookup_lt_is_Some_2 l (Z.to_nat i)) as [x Hx]; [lia|].
  exists x. apply nthZ_Ok. split; [lia|done].
Qed.

Lemma nthZ_not_nofuel {A} (l : list A) i : nthZ l i <> NoFuel.
Proof. unfold nthZ, of_option. by repeat case_match. Qed.
Lemma updZ_not_nofuel {A} (l : list A) i (x : A) : updZ l i x <> NoFuel.
Proof. unfold updZ. by case_match. Qed.

Lemma updZ_Ok {A} (l : list A) i x :
  0 <= i < Z.of_nat (length l) -> updZ l i x = Ok (<[Z.to_nat i := x]> l).
Proof.
  intros ?. unfold updZ.
  by rewrite (proj2 (Z.leb_le 0 i)), (proj2 (Z.ltb_lt i _)) by lia.
Qed.

Lemma updZ_inv {A} (l l' : list A) i x :
  updZ l i x = Ok l' -> 0 <= i < Z.of_nat (length l) /\ l' = <[Z.to_nat i := x]> l.
Proof.
  unfold updZ. destruct ((0 <=? i) && (i <? Z.of_nat (length l))) eqn:E; [|done].
  boolify. intros [= <-]. split; [lia|done].
Qed.

Lemma nthZ_insert {A} (l : list A) i j x :
  0 <= i < Z.of_nat (length l) ->
  nthZ (<[Z.to_nat i := x]> l) j = if j =? i then Ok x else nthZ l j.
Proof.
  intros Hi. unfold nthZ. zdec (0 <=? j); zdec (j =? i); subst; try done.
  - rewrite list_lookup_insert_eq; [done|lia].
  - rewrite list_lookup_insert_ne; [done|lia].
Qed.

Lemma alterZ_Ok {A} (f : A -> outcome A) l i x y :
  nthZ l i = Ok x -> f x = Ok y -> alterZ f l i = Ok (<[Z.to_nat i := y]> l).
Proof.
  intros Hx Hy. unfold alterZ. rewrite Hx. simpl. rewrite Hy. simpl.
  apply updZ_Ok. by eapply nthZ_range.
Qed.

Lemma alterZ_inv {A} (f : A -> outcome A) l l' i :
  alterZ f l i = Ok l' ->
  exists x y, nthZ l i = Ok x /\ f x = Ok y /\ l' = <[Z.to_nat i := y]> l.
Proof.
  unfold alterZ. intros H. simpl_outcome.
  match goal with H : updZ _ _ _ = _ |- _ => apply updZ_inv in H as [_ ->] end. eauto.
Qed.

(** ** Lemmas on loops *)
Lemma foldO_app {A S} (f : S -> A -> outcome S) s l1 l2 :
  foldO f s (l1 ++ l2) = let* s' := foldO f s l1 in foldO f s' l2.
Proof.
  revert s. induction l1 as [|x l1 IH]; intros s; simpl; [done|].
  destruct (f s x); simpl; auto.
Qed.

Lemma foldO_keeps {A S} (P : S -> Prop) (f : S -> A -> outcome S) l s s' :
  P s -> (forall x t t', P t -> f t x = Ok t' -> P t') -> foldO f s l = Ok s' -> P s'.
Proof.
  intros H0 Hs. revert s H0. induction l as [|x l IH]; intros s H0; simpl; [by intros [= <-]|].
  destruct (f s x) as [t| | |] eqn:E; try done. simpl. apply IH. by eapply Hs.
Qed.
Lemma forO_keeps {S} (P : S -> Prop) a b s s' f :
  P s -> (forall i t t', P t -> f t i = Ok t' -> P t') -> forO a b s f = Ok s' -> P s'.
Proof. apply foldO_keeps. Qed.

Lemma forO_ind {S} (P : Z -> S -> Prop) a b s f :
  a <= b -> P a s ->
  (forall i t, a <= i < b -> P i t -> exists t', f t i = Ok t' /\ P (i + 1) t') ->
  exists s', forO a b s f = Ok s' /\ P b s'.
Proof.
  intros Hab H0 Hstep. unfold forO. remember (Z.to_nat (b - a)) as n eqn:En.
  revert a s Hab H0 Hstep En. induction n as [|n IH]; intros a s Hab H0 Hstep En.
  - replace (b - a) with 0 by lia. exists s. replace b with a by lia. done.
  - rewrite seqZ_cons by lia. simpl.
    destruct (Hstep a s) as (t & -> & Ht); [lia|done|]. simpl.
    destruct (IH (a + 1) t) as (s' & Hs' & HP); [lia|done|naive_solver lia|lia|].
    exists s'. replace (Z.succ a) with (a + 1) by lia.
    replace (Z.pred (b - a)) with (b - (a + 1)) by lia. done.
Qed.

Lemma forO_empty {S} a b (s : S) f : b <= a -> forO a b s f = Ok s.
Proof. intros ?. unfold forO. by rewrite seqZ_nil by lia. Qed.

Lemma forO_step {S} a b (s : S) f :
  a < b -> forO a b s f = let* s' := f s a in forO (a + 1) b s' f.
Proof.
  intros ?. unfold forO. rewrite seqZ_cons by lia. simpl.
  replace (Z.succ a) with (a + 1) by lia. by replace (Z.pred (b - a)) with (b - (a + 1)) by lia.
Qed.

(** An invariant of a loop that has returned. *)
Lemma forO_Ok_ind {S} (P : Z -> S -> Prop) a b s s' f :
  forO a b s f = Ok s' -> a <= b -> P a s ->
  (forall i t t', a <= i < b -> P i t -> f t i = Ok t' -> P (i + 1) t') ->
  P b s'.
Proof.
  intros HE Hab H0 Hstep. remember (Z.to_nat (b - a)) as n eqn:En.
  revert a s Hab H0 Hstep HE En. induction n as [|n IH]; intros a s Hab H0 Hstep HE En.
  - rewrite forO_empty in HE by lia. injection HE as <-. by replace b with a by lia.
  - rewrite forO_step in HE by lia. simpl_outcome.
    eapply (IH (a + 1)); [lia| |naive_solver lia|eassumption|lia].
    eapply Hstep; eauto. lia.
Qed.

Lemma sumZ_app l1 l2 : sumZ (l1 ++ l2) = sumZ l1 + sumZ l2.
Proof. induction l1 as [|x l IH]; simpl; lia. Qed.

Lemma sumZ_insert l (i : nat) x y :
  l !! i = Some x -> sumZ (<[i := y]> l) = sumZ l - x + y.
Proof.
  revert i. induction l as [|z l IH]; intros [|i] H; simpl in *; try done.
  - injection H as ->. lia.
  - rewrite (IH i H). lia.
Qed.

Lemma sumZ_map_upd {A} (f g : A -> Z) l a :
  NoDup l -> a ∈ l -> (forall b, b ∈ l -> b <> a -> f b = g b) ->
  sumZ (map f l) = sumZ (map g l) - g a + f a.
Proof.
  induction 1 as [|x l Hx Hnd IH]; intros Ha Hne; [by apply elem_of_nil in Ha|].
  simpl. apply elem_of_cons in Ha as [->|Ha].
  - enough (sumZ (map f l) = sumZ (map g l)) by lia. f_equal. apply map_ext_in.
    intros b Hb%list_elem_of_In. apply Hne; [set_solver|]. congruence.
  - rewrite IH; [|done|naive_solver set_solver].
    rewrite (Hne x); [lia|set_solver|congruence].
Qed.

Lemma sumZ_map_ext {A} (f g : A -> Z) l :
  (forall a, a ∈ l -> f a = g a) -> sumZ (map f l) = sumZ (map g l).
Proof. intros H. f_equal. apply map_ext_in. intros a Ha%list_elem_of_In. auto. Qed.

Lemma sumZ_map_nonneg {A} (f : A -> Z) l : (forall a, a ∈ l -> 0 <= f a) -> 0 <= sumZ (map f l).
Proof.
  induction l as [|x l IH]; simpl; intros H; [done|].
  assert (0 <= f x) by (apply H; set_solver).
  assert (0 <= sumZ (map f l)) by (apply IH; set_solver). lia.
Qed.

Lemma sumZ_map_ge {A} (f : A -> Z) l a :
  a ∈ l -> (forall b, b ∈ l -> 0 <= f b) -> f a <= sumZ (map f l).
Proof.
  induction l as [|x l IH]; simpl; intros Ha H; [by apply elem_of_nil in Ha|].
  apply elem_of_cons in Ha as [->|Ha].
  - assert (0 <= sumZ (map f l)) by (apply sumZ_map_nonneg; set_solver). lia.
  - assert (f a <= sumZ (map f l)) by (apply IH; set_solver).
    assert (0 <= f x) by (apply H; set_solver). lia.
Qed.

Lemma StronglySorted_weaken {A} (R R' : relation A) l :
  (forall x y, R x y -> R' x y) -> StronglySorted R l -> StronglySorted R' l.
Proof. intros HR. induction 1 as [|x l _ IH Hf]; constructor; [done|]. eapply Forall_impl; [exact Hf|]. intros y. apply HR. Qed.
