(* ===== verification/Pqueue.v ===== *)
(** * Pqueue: the binary heap of src/pqueue/pqueue.c

    The queue stores pointers to nodes it does not own; priority and position
    are read and written through callbacks.  Here a node pointer is a [Z], the
    callbacks are the class [PqNode] over the client's store, and the client
    (conv_ftl.c, whose nodes are the lines) gives the instance.  Slot 0 of the
    array is not used; slots beyond the last written one are uninitialised, so
    [d] is a finite map and reading an absent slot is a [Fault]. *)
From stdpp Require Import base list numbers gmap.
From Stdlib Require Import ZArith Lia.
From S2P Require Import Prelude.

Open Scope Z_scope.
Open Scope nvmev_scope.

(** The callbacks [getpri], [setpri], [getpos], [setpos]. *)
Class PqNode (St : Type) := {
  getpri : St -> Z -> outcome Z;
  setpri : St -> Z -> Z -> outcome St;
  getpos : St -> Z -> outcome Z;
  setpos : St -> Z -> Z -> outcome St;
}.

(** What the queue relies on from its client: on live nodes the callbacks
    succeed and behave as the fields of a record ([pri_ok] delimits the
    priorities that the field can hold); [pos_frame st st'] says that [st']
    differs from [st] in positions only. *)
Class PqNodeLaws (St : Type) `{PqNode St} := {
  live : St -> Z -> Prop;
  pri_ok : Z -> Prop;
  pos_frame : St -> St -> Prop;
  pos_frame_pre :: PreOrder pos_frame;
  getpri_live : forall st x, live st x -> exists p, getpri st x = Ok p;
  setpos_live : forall st x p, live st x -> exists st', setpos st x p = Ok st';
  setpri_live : forall st x p, live st x -> exists st', setpri st x p = Ok st';
  setpos_frame : forall st st' x p, setpos st x p = Ok st' -> pos_frame st st';
  frame_live : forall st st' y, pos_frame st st' -> live st' y <-> live st y;
  frame_getpri : forall st st' y, pos_frame st st' -> getpri st' y = getpri st y;
  getpos_setpos : forall st st' x p y, setpos st x p = Ok st' ->
    getpos st' y = if y =? x then Ok p else getpos st y;
  setpri_keeps : forall st st' x p y, setpri st x p = Ok st' -> live st' y <-> live st y;
  getpri_setpri : forall st st' x p y, pri_ok p -> setpri st x p = Ok st' ->
    getpri st' y = if y =? x then Ok p else getpri st y;
  getpos_setpri : forall st st' x p y, setpri st x p = Ok st' -> getpos st' y = getpos st y;
}.

(** [cmppri a b] tells that [b] is to be nearer the top than [a]; its negation
    is a total preorder. *)
Class PqOrder (cmppri : Z -> Z -> bool) := {
  cmppri_irrefl : forall a, cmppri a a = false;
  cmppri_asym : forall a b, cmppri a b = true -> cmppri b a = false;
  cmppri_trans : forall a b c, cmppri a b = false -> cmppri b c = false -> cmppri a c = false;
}.

(** [pqueue_t]; the comparison callback is the parameter [cmppri] below. *)
Record pqueue := mk_pqueue {
  pq_size : Z;
  pq_avail : Z;
  pq_step : Z;
  pq_d : gmap Z Z;
}.

Definition set_d (q : pqueue) (d : gmap Z Z) : pqueue :=
  mk_pqueue (pq_size q) (pq_avail q) (pq_step q) d.
Definition set_size (q : pqueue) (n : Z) : pqueue :=
  mk_pqueue n (pq_avail q) (pq_step q) (pq_d q).

(** [q->d[i]] *)
Definition dget (q : pqueue) (i : Z) : outcome Z :=
  GUARD! (0 <=? i) && (i <? pq_avail q);
  of_option (pq_d q !! i).

Definition dset (q : pqueue) (i x : Z) : outcome pqueue :=
  GUARD! (0 <=? i) && (i <? pq_avail q);
  Ok (set_d q (<[i := x]> (pq_d q))).

Definition left (i : Z) : Z := u64 (Z.shiftl i 1).
Definition right (i : Z) : Z := u64 (Z.shiftl i 1 + 1).
Definition parent (i : Z) : Z := Z.shiftr i 1.

Definition pqueue_init (q_alloc d_alloc : bool) (n : Z) : option pqueue :=
  if negb q_alloc then None
  else if negb d_alloc then None
  else Some (mk_pqueue 1 (u64 (n + 1)) (u64 (n + 1)) ∅).

Definition pqueue_size (q : pqueue) : Z := u64 (pq_size q - 1).

(** A 64-bit index can be halved or doubled at most 64 times. *)
Definition INDEX_FUEL : nat := 65.

Section Heap.
Context {St : Type} `{PqNode St}.
Variable cmppri : Z -> Z -> bool.

Fixpoint bubble_up_loop (fuel : nat) (st : St) (q : pqueue) (i moving_pri : Z)
  : outcome (St * pqueue * Z) :=
  match fuel with
  | O => NoFuel
  | S fuel' =>
      if 1 <? i then
        let* pn := dget q (parent i) in
        let* pp := getpri st pn in
        if cmppri pp moving_pri then
          let* q' := dset q i pn in
          let* st' := setpos st pn i in
          bubble_up_loop fuel' st' q' (parent i) moving_pri
        else Ok (st, q, i)
      else Ok (st, q, i)
  end.

Definition bubble_up (st : St) (q : pqueue) (i : Z) : outcome (St * pqueue) :=
  let* moving_node := dget q i in
  let* moving_pri := getpri st moving_node in
  let* (st', q', i') := bubble_up_loop INDEX_FUEL st q i moving_pri in
  let* q'' := dset q' i' moving_node in
  let* st'' := setpos st' moving_node i' in
  Ok (st'', q'').

Definition maxchild (st : St) (q : pqueue) (i : Z) : outcome Z :=
  let child_node := left i in
  if pq_size q <=? child_node then Ok 0
  else if child_node + 1 <? pq_size q then
    let* l := dget q child_node in
    let* lp := getpri st l in
    let* r := dget q (child_node + 1) in
    let* rp := getpri st r in
    if cmppri lp rp then Ok (child_node + 1) else Ok child_node
  else Ok child_node.

Fixpoint percolate_down_loop (fuel : nat) (st : St) (q : pqueue) (i moving_pri : Z)
  : outcome (St * pqueue * Z) :=
  match fuel with
  | O => NoFuel
  | S fuel' =>
      let* child_node := maxchild st q i in
      if child_node =? 0 then Ok (st, q, i)
      else
        let* cn := dget q child_node in
        let* cp := getpri st cn in
        if cmppri moving_pri cp then
          let* q' := dset q i cn in
          let* st' := setpos st cn i in
          percolate_down_loop fuel' st' q' child_node moving_pri
        else Ok (st, q, i)
  end.

Definition percolate_down (st : St) (q : pqueue) (i : Z) : outcome (St * pqueue) :=
  let* moving_node := dget q i in
  let* moving_pri := getpri st moving_node in
  let* (st', q', i') := percolate_down_loop INDEX_FUEL st q i moving_pri in
  let* q'' := dset q' i' moving_node in
  let* st'' := setpos st' moving_node i' in
  Ok (st'', q'').

Definition pqueue_insert (st : St) (oq : option pqueue) (d : Z)
  : outcome (Z * St * option pqueue) :=
  match oq with
  | None => Ok (1, st, None)
  | Some q =>
      let i := pq_size q in
      let* q1 := dset (set_size q (u64 (pq_size q + 1))) i d in
      let* (st', q') := bubble_up st q1 i in
      Ok (0, st', Some q')
  end.

Definition pqueue_change_priority (st : St) (oq : option pqueue) (new_pri d : Z)
  : outcome (St * option pqueue) :=
  let* q := of_option oq in
  let* old_pri := getpri st d in
  let* st1 := setpri st d new_pri in
  let* posn := getpos st1 d in
  let* (st2, q') := (if cmppri old_pri new_pri then bubble_up st1 q posn
                     else percolate_down st1 q posn) in
  Ok (st2, Some q').

Definition pqueue_remove (st : St) (oq : option pqueue) (d : Z)
  : outcome (Z * St * option pqueue) :=
  let* q := of_option oq in
  let* posn := getpos st d in
  let q1 := set_size q (u64 (pq_size q - 1)) in
  let* last := dget q1 (pq_size q1) in
  let* q2 := dset q1 posn last in
  let* dp := getpri st d in
  let* n := dget q2 posn in
  let* np := getpri st n in
  let* (st', q') := (if cmppri dp np then bubble_up st q2 posn
                     else percolate_down st q2 posn) in
  Ok (0, st', Some q').

Definition pqueue_pop (st : St) (oq : option pqueue) : outcome (option Z * St * option pqueue) :=
  match oq with
  | None => Ok (None, st, None)
  | Some q =>
      if pq_size q =? 1 then Ok (None, st, Some q)
      else
        let* head := dget q 1 in
        let q1 := set_size q (u64 (pq_size q - 1)) in
        let* last := dget q1 (pq_size q1) in
        let* q2 := dset q1 1 last in
        let* (st', q') := percolate_down st q2 1 in
        Ok (Some head, st', Some q')
  end.

Definition pqueue_peek (oq : option pqueue) : outcome (option Z) :=
  match oq with
  | None => Ok None
  | Some q =>
      if pq_size q =? 1 then Ok None
      else let* d := dget q 1 in Ok (Some d)
  end.

(** The macros [left] and [right] on an [int], converted to an index. *)
Definition left_int (pos : Z) : Z := u64 (s32 (Z.shiftl pos 1)).
Definition right_int (pos : Z) : Z := u64 (s32 (Z.shiftl pos 1 + 1)).

(** [if (child < q->size) ...] of the check below; [sub] is the recursive call. *)
Definition child_is_valid (st : St) (q : pqueue) (pos child : Z) (sub : outcome bool)
  : outcome bool :=
  if child <? pq_size q then
    let* n := dget q pos in
    let* p := getpri st n in
    let* c := dget q child in
    let* cp := getpri st c in
    if cmppri p cp then Ok false else sub
  else Ok true.

(** [pos] is an [int]; the recursion of the source doubles it. *)
Fixpoint subtree_is_valid (fuel : nat) (st : St) (q : pqueue) (pos : Z) : outcome bool :=
  match fuel with
  | O => NoFuel
  | S fuel' =>
      let* lok := child_is_valid st q pos (left_int pos)
                    (subtree_is_valid fuel' st q (s32 (left_int pos))) in
      if negb lok then Ok false
      else child_is_valid st q pos (right_int pos)
             (subtree_is_valid fuel' st q (s32 (right_int pos)))
  end.

Definition pqueue_is_valid (st : St) (q : pqueue) : outcome bool :=
  subtree_is_valid INDEX_FUEL st q 1.

End Heap.

(** ** The invariant *)
Section Invariant.
Context {St : Type} `{PqNodeLaws St}.
Variable cmppri : Z -> Z -> bool.

Definition inq (q : pqueue) (x : Z) : Prop :=
  exists j, 1 <= j < pq_size q /\ pq_d q !! j = Some x.

Record pq_wf (st : St) (q : pqueue) : Prop := {
  wf_size : 1 <= pq_size q <= pq_avail q;
  wf_avail : pq_avail q < 4611686018427387904;
  wf_node : forall j, 1 <= j < pq_size q ->
    exists x, pq_d q !! j = Some x /\ live st x /\ getpos st x = Ok j;
}.

Definition pri (st : St) (x : Z) : Z :=
  match getpri st x with Ok p => p | _ => 0 end.

(** The node at index [j] when the node [m] stands at the hole [i]. *)
Definition vnode (q : pqueue) (i m j : Z) : Z :=
  if j =? i then m else default 0 (pq_d q !! j).
Definition vpri (st : St) (q : pqueue) (i m j : Z) : Z := pri st (vnode q i m j).

Definition ple (a b : Z) : Prop := cmppri a b = false.

Definition heap_order (st : St) (q : pqueue) : Prop :=
  forall j x y, 2 <= j < pq_size q ->
    pq_d q !! (j / 2) = Some x -> pq_d q !! j = Some y -> ple (pri st x) (pri st y).

Record pq_inv (st : St) (q : pqueue) : Prop := {
  inv_wf :: pq_wf st q;
  inv_heap : heap_order st q;
}.

(** The state of the loops: [m] has been taken out and the hole is at [i]. *)
Record hole (st : St) (q : pqueue) (i m : Z) : Prop := {
  h_size : 1 <= i < pq_size q;
  h_avail : pq_size q <= pq_avail q < 4611686018427387904;
  h_live : live st m;
  h_node : forall j, 1 <= j < pq_size q -> j <> i ->
    exists x, pq_d q !! j = Some x /\ live st x /\ getpos st x = Ok j /\ x <> m;
}.

Definition hole_mem (q : pqueue) (i m x : Z) : Prop :=
  x = m \/ exists j, 1 <= j < pq_size q /\ j <> i /\ pq_d q !! j = Some x.

(** What the loops keep. *)
Record hole_rel (st : St) (q : pqueue) (i m : Z) (st' : St) (q' : pqueue) (i' : Z) : Prop := {
  hr_hole : hole st' q' i' m;
  hr_mem : forall x, hole_mem q' i' m x <-> hole_mem q i m x;
  hr_frame : pos_frame st st';
  hr_pos : forall x, ~ hole_mem q i m x -> getpos st' x = getpos st x;
  hr_size : pq_size q' = pq_size q /\ pq_avail q' = pq_avail q;
}.

(** What every operation does to the store and to the bounds of the queue. *)
Record pq_frame (st : St) (q : pqueue) (st' : St) (q' : pqueue) : Prop := {
  pf_frame : pos_frame st st';
  pf_avail : pq_avail q' = pq_avail q;
  pf_pos : forall x, ~ inq q' x -> getpos st' x = getpos st x;
}.

End Invariant.

(** ** Lemmas on indices *)
Lemma parent_div i : parent i = i / 2.
Proof. unfold parent. by rewrite Z.shiftr_div_pow2. Qed.

Lemma left_double i : 0 <= i < 4611686018427387904 -> left i = 2 * i.
Proof.
  intros ?. unfold left. rewrite Z.shiftl_mul_pow2 by lia. rewrite u64_id; lia.
Qed.

Lemma right_double i : 0 <= i < 4611686018427387904 -> right i = 2 * i + 1.
Proof.
  intros ?. unfold right. rewrite Z.shiftl_mul_pow2 by lia. rewrite u64_id; lia.
Qed.

Ltac heap_lia := Z.div_mod_to_equations; lia.

Section Facts.
Context {St : Type} `{PqNodeLaws St}.
Variable cmppri : Z -> Z -> bool.
Context `{!PqOrder cmppri}.

Lemma dget_Ok q i x :
  dget q i = Ok x <-> 0 <= i < pq_avail q /\ pq_d q !! i = Some x.
Proof.
  unfold dget, of_option.
  zdec (0 <=? i); zdec (i <? pq_avail q); simpl; try (split; [done|lia]).
  destruct (pq_d q !! i); naive_solver.
Qed.

Lemma dset_Ok q i x :
  0 <= i < pq_avail q -> dset q i x = Ok (set_d q (<[i := x]> (pq_d q))).
Proof.
  intros ?. unfold dset. by rewrite (proj2 (Z.leb_le 0 i)), (proj2 (Z.ltb_lt i _)) by lia.
Qed.

Lemma pri_frame (st st' : St) x : pos_frame st st' -> pri st' x = pri st x.
Proof. intros Hf. unfold pri. by rewrite (frame_getpri st st' x Hf). Qed.

Lemma getpri_pri (st : St) x : live st x -> getpri st x = Ok (pri st x).
Proof. intros Hl. unfold pri. by destruct (getpri_live st x Hl) as [p ->]. Qed.

Lemma vnode_ne q i m j x : j <> i -> pq_d q !! j = Some x -> vnode q i m j = x.
Proof. intros Hj Hx. unfold vnode. zdec (j =? i). by rewrite Hx. Qed.

Lemma vnode_eq q i m : vnode q i m i = m.
Proof. unfold vnode. by rewrite Z.eqb_refl. Qed.

Lemma hole_rel_refl (st : St) q i m : hole st q i m -> hole_rel st q i m st q i.
Proof. intros Hh. split; try done. Qed.

Lemma hole_rel_trans (st st' st'' : St) q q' q'' i i' i'' m :
  hole_rel st q i m st' q' i' -> hole_rel st' q' i' m st'' q'' i'' ->
  hole_rel st q i m st'' q'' i''.
Proof.
  intros [Hh1 Hm1 Hf1 Hp1 [Hs1 Ha1]] [Hh2 Hm2 Hf2 Hp2 [Hs2 Ha2]]. split.
  - done.
  - intros x. rewrite Hm2. apply Hm1.
  - by etransitivity.
  - intros x Hx. rewrite Hp2; [by apply Hp1|]. by rewrite Hm1.
  - split; congruence.
Qed.

(** Moving the node [x] of index [k] into the hole. *)
Lemma hole_move (st : St) q i m k x :
  hole st q i m -> 1 <= k < pq_size q -> k <> i -> pq_d q !! k = Some x ->
  exists q' st', dset q i x = Ok q' /\ setpos st x i = Ok st' /\
    hole_rel st q i m st' q' k /\
    (forall j, vnode q' k m j = if j =? k then m else if j =? i then x else vnode q i m j).
Proof.
  intros [Hi Ha Hm Hn] Hk Hki Hx.
  destruct (Hn k Hk Hki) as (x' & Hx' & Hlx & Hpx & Hxm). assert (x' = x) as -> by congruence. clear Hx'.
  destruct (setpos_live st x i Hlx) as [st' Hst'].
  pose proof (setpos_frame _ _ _ _ Hst') as Hf.
  exists (set_d q (<[i := x]> (pq_d q))), st'.
  split; [apply dset_Ok; lia|]. split; [done|]. split; [split|]; simpl.
  - split; simpl; [lia|lia|by apply (frame_live st)|].
    intros j Hj Hjk. destruct (decide (j = i)) as [->|Hji].
    + exists x. rewrite lookup_insert_eq. rewrite (getpos_setpos _ _ _ _ _ Hst'), Z.eqb_refl.
      by rewrite (frame_live st).
    + rewrite lookup_insert_ne by done.
      destruct (Hn j Hj Hji) as (y & Hy & Hly & Hpy & Hym). exists y.
      rewrite (getpos_setpos _ _ _ _ _ Hst'), (frame_live st) by done.
      zdec (y =? x); [|done]. subst y. congruence.
  - intros y. unfold hole_mem; simpl. split.
    + intros [->|(j & Hj & Hjk & Hy)]; [by left|right].
      destruct (decide (j = i)) as [->|Hji].
      * rewrite lookup_insert_eq in Hy. simplify_eq. by exists k.
      * rewrite lookup_insert_ne in Hy by done. by exists j.
    + intros [->|(j & Hj & Hji & Hy)]; [by left|right].
      destruct (decide (j = k)) as [->|Hjk].
      * simplify_eq. exists i. by rewrite lookup_insert_eq.
      * exists j. by rewrite lookup_insert_ne.
  - done.
  - intros y Hy. rewrite (getpos_setpos _ _ _ _ _ Hst'). zdec (y =? x); [|done].
    subst y. destruct Hy. right. by exists k.
  - done.
  - intros j. unfold vnode; simpl. zdec (j =? k); [done|]. zdec (j =? i).
    + subst. by rewrite lookup_insert_eq.
    + by rewrite lookup_insert_ne.
Qed.

(** Putting [m] down in the hole. *)
Lemma hole_close (st : St) q i m :
  hole st q i m ->
  exists q' st', dset q i m = Ok q' /\ setpos st m i = Ok st' /\ pq_wf st' q' /\
    (forall x, inq q' x <-> hole_mem q i m x) /\ pos_frame st st' /\
    (forall x, x <> m -> getpos st' x = getpos st x) /\
    pq_size q' = pq_size q /\ pq_avail q' = pq_avail q /\
    (forall j y, 1 <= j < pq_size q -> pq_d q' !! j = Some y -> vnode q i m j = y).
Proof.
  intros [Hi Ha Hm Hn].
  destruct (setpos_live st m i Hm) as [st' Hst'].
  pose proof (setpos_frame _ _ _ _ Hst') as Hf.
  exists (set_d q (<[i := m]> (pq_d q))), st'.
  split; [apply dset_Ok; lia|]. split; [done|]. split; [|split; [|split; [|split; [|split; [|split]]]]]; simpl.
  - split; simpl; [lia|lia|]. intros j Hj. destruct (decide (j = i)) as [->|Hji].
    + exists m. rewrite lookup_insert_eq, (getpos_setpos _ _ _ _ _ Hst'), Z.eqb_refl.
      by rewrite (frame_live st).
    + rewrite lookup_insert_ne by done.
      destruct (Hn j Hj Hji) as (y & Hy & Hly & Hpy & Hym). exists y.
      rewrite (getpos_setpos _ _ _ _ _ Hst'), (frame_live st) by done. by zdec (y =? m).
  - intros y. unfold inq, hole_mem; simpl. split.
    + intros (j & Hj & Hy). destruct (decide (j = i)) as [->|Hji].
      * rewrite lookup_insert_eq in Hy. simplify_eq. by left.
      * rewrite lookup_insert_ne in Hy by done. right. by exists j.
    + intros [->|(j & Hj & Hji & Hy)].
      * exists i. by rewrite lookup_insert_eq.
      * exists j. by rewrite lookup_insert_ne.
  - done.
  - intros x Hx. rewrite (getpos_setpos _ _ _ _ _ Hst'). by zdec (x =? m).
  - done.
  - done.
  - intros j y Hj Hy. unfold vnode. zdec (j =? i).
    + subst. rewrite lookup_insert_eq in Hy. by simplify_eq.
    + rewrite lookup_insert_ne in Hy by done. by rewrite Hy.
Qed.

(** *** bubble_up *)

(** All edges hold but the one above the hole, and the hole may be skipped. *)
Record up_order (st : St) (q : pqueue) (i m : Z) : Prop := {
  up_edge : forall j, 2 <= j < pq_size q -> j <> i ->
    ple cmppri (vpri st q i m (j / 2)) (vpri st q i m j);
  up_skip : forall j, 2 <= j < pq_size q -> 2 <= i -> j / 2 = i ->
    ple cmppri (vpri st q i m (i / 2)) (vpri st q i m j);
}.

Definition all_edges (st : St) (q : pqueue) (i m : Z) : Prop :=
  forall j, 2 <= j < pq_size q -> ple cmppri (vpri st q i m (j / 2)) (vpri st q i m j).

Lemma ple_refl a : ple cmppri a a.
Proof. apply cmppri_irrefl. Qed.
Lemma ple_trans a b c : ple cmppri a b -> ple cmppri b c -> ple cmppri a c.
Proof. apply cmppri_trans. Qed.
Lemma ple_asym a b : cmppri a b = true -> ple cmppri b a.
Proof. apply cmppri_asym. Qed.

Lemma up_order_move (st st' : St) q q' i m x :
  up_order st q i m -> 1 < i < pq_size q -> pq_size q' = pq_size q ->
  pq_d q !! (i / 2) = Some x -> cmppri (pri st x) (pri st m) = true -> pos_frame st st' ->
  (forall j, vnode q' (i / 2) m j = if j =? i / 2 then m else if j =? i then x else vnode q i m j) ->
  up_order st' q' (i / 2) m.
Proof.
  intros [He Hs] Hi Hsz Hx Hc Hf Hv.
  assert (Hk : 1 <= i / 2 < i) by heap_lia.
  assert (Hvx : vnode q i m (i / 2) = x) by (apply vnode_ne; [lia|done]).
  assert (Hp : forall j, vpri st' q' (i / 2) m j =
    if j =? i / 2 then pri st m else if j =? i then pri st x else vpri st q i m j).
  { intros j. unfold vpri. rewrite Hv, (pri_frame st) by done. by zdec (j =? i / 2); zdec (j =? i). }
  assert (Hvk : vpri st q i m (i / 2) = pri st x) by (unfold vpri; by rewrite Hvx).
  apply ple_asym in Hc. split; intros j Hj; rewrite Hsz in Hj.
  - intros Hjk. rewrite !Hp. rewrite (proj2 (Z.eqb_neq j (i / 2)) Hjk).
    destruct (decide (j = i)) as [->|Hji].
    { by rewrite !Z.eqb_refl. }
    rewrite (proj2 (Z.eqb_neq j i) Hji). destruct (decide (j / 2 = i / 2)) as [Ejk|].
    + rewrite Ejk, Z.eqb_refl. eapply ple_trans; [exact Hc|]. rewrite <- Hvk, <- Ejk. apply He; lia.
    + rewrite (proj2 (Z.eqb_neq (j / 2) (i / 2))) by done.
      destruct (Z.eqb_spec (j / 2) i); [|apply He; lia]. rewrite <- Hvk. apply Hs; lia.
  - intros Hk2 Hjk. rewrite !Hp. zdec (i / 2 / 2 =? i / 2); [heap_lia|].
    zdec (i / 2 / 2 =? i); [heap_lia|]. zdec (j =? i / 2); [heap_lia|].
    assert (Hgp : ple cmppri (vpri st q i m (i / 2 / 2)) (pri st x))
      by (rewrite <- Hvk; apply He; heap_lia).
    destruct (Z.eqb_spec j i); [done|]. eapply ple_trans; [exact Hgp|]. rewrite <- Hvk, <- Hjk. apply He; lia.
Qed.

Lemma bubble_up_loop_S n (st : St) q i moving_pri :
  bubble_up_loop cmppri (S n) st q i moving_pri =
      if 1 <? i then
        let* pn := dget q (parent i) in
        let* pp := getpri st pn in
        if cmppri pp moving_pri then
          let* q' := dset q i pn in
          let* st' := setpos st pn i in
          bubble_up_loop cmppri n st' q' (parent i) moving_pri
        else Ok (st, q, i)
      else Ok (st, q, i).
Proof. done. Qed.

Lemma bubble_up_loop_spec n (st : St) q i m :
  hole st q i m -> up_order st q i m -> i < 2 ^ Z.of_nat n ->
  exists st' q' i', bubble_up_loop cmppri (S n) st q i (pri st m) = Ok (st', q', i') /\
    hole_rel st q i m st' q' i' /\ all_edges st' q' i' m.
Proof.
  revert st q i. induction n as [|n IH]; intros st q i Hh Hup Hn.
  all: pose proof (h_size _ _ _ _ Hh) as Hi; rewrite bubble_up_loop_S.
  - destruct (Z.ltb_spec 1 i); [simpl in Hn; lia|]. exists st, q, i. split; [done|]. split; [by apply hole_rel_refl|].
    intros j Hj. apply Hup; lia.
  - zdec (1 <? i).
    2: { exists st, q, i. split; [done|]. split; [by apply hole_rel_refl|].
         intros j Hj. apply Hup; lia. }
    rewrite !parent_div. assert (Hk : 1 <= i / 2 < i) by heap_lia.
    destruct (h_node _ _ _ _ Hh (i / 2)) as (x & Hx & Hlx & Hpx & Hxm); [lia|lia|].
    pose proof Hh as [Hi' Ha Hm Hnd].
    rewrite (proj2 (dget_Ok q (i / 2) x)) by (split; [lia|done]). cbn [obind].
    rewrite (getpri_pri st x Hlx). cbn [obind].
    destruct (cmppri (pri st x) (pri st m)) eqn:Ec.
    + destruct (hole_move st q i m (i / 2) x) as (q' & st' & -> & -> & Hr & Hv); [done|lia|lia|done|].
      cbn [obind]. pose proof Hr as [Hh' Hm' Hf' Hp' [Hs' Ha']].
      rewrite <- (pri_frame st st') by done.
      destruct (IH st' q' (i / 2)) as (st2 & q2 & i2 & -> & Hr2 & Hall); [done| | |].
      * eapply up_order_move; eauto; lia.
      * rewrite Nat2Z.inj_succ, Z.pow_succ_r in Hn by lia. heap_lia.
      * exists st2, q2, i2. split; [done|]. split; [|done]. by eapply hole_rel_trans.
    + exists st, q, i. split; [done|]. split; [by apply hole_rel_refl|].
      intros j Hj. destruct (decide (j = i)) as [->|]; [|by apply Hup].
      unfold vpri. rewrite (vnode_ne q i m (i / 2) x), vnode_eq by (done || lia). done.
Qed.

(** Closing the hole after a loop. *)
Lemma hole_rel_close (st st' : St) q q' i i' m :
  hole_rel st q i m st' q' i' -> all_edges st' q' i' m ->
  exists q'' st'', dset q' i' m = Ok q'' /\ setpos st' m i' = Ok st'' /\
    pq_inv cmppri st'' q'' /\ (forall x, inq q'' x <-> hole_mem q i m x) /\
    pq_frame st q st'' q'' /\ pq_size q'' = pq_size q.
Proof.
  intros [Hh Hm Hf Hp [Hs Ha]] Hall.
  destruct (hole_close st' q' i' m Hh)
    as (q'' & st'' & Hd & Hset & Hwf & Hin & Hf2 & Hp2 & Hs2 & Ha2 & Hv).
  exists q'', st''. split; [done|]. split; [done|]. split; [|split; [|split; [|lia]]].
  - split; [done|]. intros j x y Hj Hx Hy. rewrite Hs2 in Hj.
    specialize (Hall j Hj). unfold vpri in Hall.
    rewrite (Hv (j / 2) x), (Hv j y) in Hall; [|lia|done|heap_lia|done].
    by rewrite !(pri_frame st' st'').
  - intros x. rewrite Hin. apply Hm.
  - split; [by etransitivity|lia|]. intros x Hx.
    assert (Hx' : ~ hole_mem q i m x) by (rewrite <- Hm, <- Hin; done).
    rewrite Hp2, Hp; [done|done|]. intros ->. apply Hx'. by left.
Qed.

Lemma bubble_up_spec (st : St) q i m :
  hole st q i m -> pq_d q !! i = Some m -> up_order st q i m ->
  exists st' q', bubble_up cmppri st q i = Ok (st', q') /\
    pq_inv cmppri st' q' /\ (forall x, inq q' x <-> hole_mem q i m x) /\
    pq_frame st q st' q' /\ pq_size q' = pq_size q.
Proof.
  intros Hh Hm Hup. unfold bubble_up, INDEX_FUEL. pose proof Hh as [Hi Ha Hl _].
  rewrite (proj2 (dget_Ok q i m)) by (split; [lia|done]). cbn [obind].
  rewrite (getpri_pri st m Hl). cbn [obind].
  destruct (bubble_up_loop_spec 64 st q i m Hh Hup) as (st' & q' & i' & -> & Hr & Hall); [lia|].
  cbn [obind].
  destruct (hole_rel_close _ _ _ _ _ _ _ Hr Hall) as (q'' & st'' & -> & Hset & ?).
  cbn [obind]. rewrite Hset. simpl. eauto.
Qed.

(** *** percolate_down *)

Record down_order (st : St) (q : pqueue) (i m : Z) : Prop := {
  down_edge : forall j, 2 <= j < pq_size q -> j / 2 <> i ->
    ple cmppri (vpri st q i m (j / 2)) (vpri st q i m j);
  down_skip : forall j, 2 <= j < pq_size q -> 2 <= i -> j / 2 = i ->
    ple cmppri (vpri st q i m (i / 2)) (vpri st q i m j);
}.

Lemma maxchild_spec (st : St) q i m :
  hole st q i m ->
  exists c, maxchild cmppri st q i = Ok c /\
    ((c = 0 /\ pq_size q <= 2 * i) \/
     (2 <= c < pq_size q /\ c / 2 = i /\
      forall j, 2 <= j < pq_size q -> j / 2 = i ->
        ple cmppri (vpri st q i m c) (vpri st q i m j))).
Proof.
  intros [Hi Ha Hl Hn]. unfold maxchild. rewrite left_double by lia.
  zdec (pq_size q <=? 2 * i); [exists 0; split; [done|left; lia]|].
  destruct (Hn (2 * i)) as (x & Hx & Hlx & _); [lia|lia|].
  zdec (2 * i + 1 <? pq_size q).
  - destruct (Hn (2 * i + 1)) as (y & Hy & Hly & _); [lia|lia|].
    rewrite (proj2 (dget_Ok q (2 * i) x)), (proj2 (dget_Ok q (2 * i + 1) y)) by (split; [lia|done]).
    simpl. rewrite (getpri_pri st x Hlx), (getpri_pri st y Hly). simpl.
    assert (Hvx : vpri st q i m (2 * i) = pri st x) by (unfold vpri; rewrite (vnode_ne q i m _ x); [done|lia|done]).
    assert (Hvy : vpri st q i m (2 * i + 1) = pri st y) by (unfold vpri; rewrite (vnode_ne q i m _ y); [done|lia|done]).
    destruct (cmppri (pri st x) (pri st y)) eqn:Ec; eexists; (split; [done|right]);
      (split; [lia|split; [heap_lia|]]); intros j Hj Hji;
      assert (j = 2 * i \/ j = 2 * i + 1) as [-> | ->] by heap_lia;
      rewrite ?Hvx, ?Hvy; auto using ple_refl, ple_asym.
  - eexists. split; [done|right]. split; [lia|split; [heap_lia|]].
    intros j Hj Hji. assert (j = 2 * i) as -> by heap_lia. apply ple_refl.
Qed.

Lemma down_order_move (st st' : St) q q' i m c x :
  down_order st q i m -> 1 <= i < pq_size q -> pq_size q' = pq_size q ->
  2 <= c < pq_size q -> c / 2 = i -> pq_d q !! c = Some x ->
  (forall j, 2 <= j < pq_size q -> j / 2 = i -> ple cmppri (vpri st q i m c) (vpri st q i m j)) ->
  cmppri (pri st m) (pri st x) = true -> pos_frame st st' ->
  (forall j, vnode q' c m j = if j =? c then m else if j =? i then x else vnode q i m j) ->
  down_order st' q' c m.
Proof.
  intros [He Hs] Hi Hsz Hcr Hci Hx Hmax Hc Hf Hv.
  assert (Hne : c <> i) by heap_lia.
  assert (Hvc : vpri st q i m c = pri st x) by (unfold vpri; by rewrite (vnode_ne q i m c x)).
  assert (Hp : forall j, vpri st' q' c m j =
    if j =? c then pri st m else if j =? i then pri st x else vpri st q i m j).
  { intros j. unfold vpri. rewrite Hv, (pri_frame st) by done. by zdec (j =? c); zdec (j =? i). }
  apply ple_asym in Hc. rewrite Hvc in Hmax. split; intros j Hj; rewrite Hsz in Hj.
  - intros Hjc. rewrite !Hp. rewrite (proj2 (Z.eqb_neq (j / 2) c) Hjc).
    destruct (Z.eqb_spec (j / 2) i).
    + destruct (Z.eqb_spec j c); [done|]. destruct (Z.eqb_spec j i); [heap_lia|].
      by apply Hmax.
    + destruct (Z.eqb_spec j c); [congruence|]. destruct (Z.eqb_spec j i); [|by apply He].
      subst j. rewrite <- Hvc. apply Hs; lia.
  - intros Hc2 Hjc. rewrite !Hp, Hci. rewrite (proj2 (Z.eqb_neq i c)), Z.eqb_refl by done.
    destruct (Z.eqb_spec j c); [heap_lia|]. destruct (Z.eqb_spec j i); [heap_lia|].
    rewrite <- Hvc, <- Hjc. apply He; lia.
Qed.

Lemma percolate_down_loop_S n (st : St) q i moving_pri :
  percolate_down_loop cmppri (S n) st q i moving_pri =
      let* child_node := maxchild cmppri st q i in
      if child_node =? 0 then Ok (st, q, i)
      else
        let* cn := dget q child_node in
        let* cp := getpri st cn in
        if cmppri moving_pri cp then
          let* q' := dset q i cn in
          let* st' := setpos st cn i in
          percolate_down_loop cmppri n st' q' child_node moving_pri
        else Ok (st, q, i).
Proof. done. Qed.

Lemma percolate_down_loop_spec n (st : St) q i m :
  hole st q i m -> down_order st q i m -> pq_size q <= i * 2 ^ Z.of_nat n ->
  exists st' q' i', percolate_down_loop cmppri (S n) st q i (pri st m) = Ok (st', q', i') /\
    hole_rel st q i m st' q' i' /\ all_edges st' q' i' m.
Proof.
  revert st q i. induction n as [|n IH]; intros st q i Hh Hdn Hn.
  all: pose proof Hh as [Hi Ha Hm Hnd]; rewrite percolate_down_loop_S;
    destruct (maxchild_spec st q i m Hh) as (c & -> & Hc); cbn [obind].
  - simpl in Hn. lia.
  - destruct Hc as [[-> Hsz]|(Hcr & Hci & Hmax)].
    { exists st, q, i. split; [done|]. split; [by apply hole_rel_refl|].
      intros j Hj. apply Hdn; [done|heap_lia]. }
    zdec (c =? 0). assert (Hne : c <> i) by heap_lia.
    destruct (Hnd c) as (x & Hx & Hlx & _); [lia|done|].
    rewrite (proj2 (dget_Ok q c x)) by (split; [lia|done]). cbn [obind].
    rewrite (getpri_pri st x Hlx). cbn [obind].
    destruct (cmppri (pri st m) (pri st x)) eqn:Ec.
    + destruct (hole_move st q i m c x) as (q' & st' & -> & -> & Hr & Hv); [done|lia|lia|done|].
      cbn [obind]. pose proof Hr as [Hh' Hm' Hf' Hp' [Hs' Ha']].
      rewrite <- (pri_frame st st') by done.
      destruct (IH st' q' c) as (st2 & q2 & i2 & -> & Hr2 & Hall); [done| | |].
      * eapply down_order_move; eauto; lia.
      * rewrite Nat2Z.inj_succ, Z.pow_succ_r in Hn by lia.
        assert (2 * i <= c) by heap_lia. nia.
      * exists st2, q2, i2. split; [done|]. split; [|done]. by eapply hole_rel_trans.
    + exists st, q, i. split; [done|]. split; [by apply hole_rel_refl|].
      intros j Hj. destruct (decide (j / 2 = i)) as [Hji|]; [|by apply Hdn].
      rewrite Hji. eapply ple_trans; [|by apply Hmax].
      unfold vpri at 1. rewrite vnode_eq. unfold vpri. by rewrite (vnode_ne q i m c x).
Qed.

Lemma percolate_down_spec (st : St) q i m :
  hole st q i m -> pq_d q !! i = Some m -> down_order st q i m ->
  exists st' q', percolate_down cmppri st q i = Ok (st', q') /\
    pq_inv cmppri st' q' /\ (forall x, inq q' x <-> hole_mem q i m x) /\
    pq_frame st q st' q' /\ pq_size q' = pq_size q.
Proof.
  intros Hh Hm Hdn. unfold percolate_down, INDEX_FUEL. pose proof Hh as [Hi Ha Hl _].
  rewrite (proj2 (dget_Ok q i m)) by (split; [lia|done]). cbn [obind].
  rewrite (getpri_pri st m Hl). cbn [obind].
  destruct (percolate_down_loop_spec 64 st q i m Hh Hdn) as (st' & q' & i' & -> & Hr & Hall); [lia|].
  cbn [obind].
  destruct (hole_rel_close _ _ _ _ _ _ _ Hr Hall) as (q'' & st'' & -> & Hset & ?).
  cbn [obind]. rewrite Hset. simpl. eauto.
Qed.

(** *** Operations *)

Lemma wf_hole (st : St) q i m :
  pq_wf st q -> 1 <= i < pq_size q -> pq_d q !! i = Some m -> hole st q i m.
Proof.
  intros [Hs Ha Hn] Hi Hm. split; [done|lia| |].
  - destruct (Hn i Hi) as (x & Hx & Hl & _). by simplify_eq.
  - intros j Hj Hji. destruct (Hn j Hj) as (x & Hx & Hl & Hp). exists x. repeat split; try done.
    intros ->. destruct (Hn i Hi) as (y & Hy & _ & Hpy). congruence.
Qed.

Lemma wf_hole_mem q i m x :
  1 <= i < pq_size q -> pq_d q !! i = Some m -> hole_mem q i m x <-> inq q x.
Proof.
  intros Hi Hm. split.
  - intros [->|(j & Hj & _ & Hx)]; [by exists i|by exists j].
  - intros (j & Hj & Hx). destruct (decide (j = i)) as [->|]; [left; congruence|right; by exists j].
Qed.

Lemma vpri_self (st : St) q i m j x :
  pq_d q !! i = Some m -> pq_d q !! j = Some x -> vpri st q i m j = pri st x.
Proof.
  intros Hm Hx. unfold vpri, vnode. destruct (Z.eqb_spec j i); [congruence|by rewrite Hx].
Qed.

Lemma inq_pos (st : St) q x :
  pq_wf st q -> inq q x ->
  live st x /\ exists j, getpos st x = Ok j /\ 1 <= j < pq_size q /\ pq_d q !! j = Some x.
Proof.
  intros [_ _ Hn] (j & Hj & Hx). destruct (Hn j Hj) as (y & Hy & Hl & Hp). simplify_eq. eauto.
Qed.

Lemma insert_spec (st : St) q x :
  pq_inv cmppri st q -> live st x -> ~ inq q x -> pq_size q < pq_avail q ->
  exists st' q', pqueue_insert cmppri st (Some q) x = Ok (0, st', Some q') /\
    pq_inv cmppri st' q' /\ (forall y, inq q' y <-> y = x \/ inq q y) /\
    pq_frame st q st' q' /\ pq_size q' = pq_size q + 1.
Proof.
  intros [[Hs Ha Hn] Ho] Hl Hx Hsz. unfold pqueue_insert.
  rewrite u64_id by lia. rewrite dset_Ok by (simpl; lia). cbn [obind].
  set (q1 := set_d _ _). assert (Hd : pq_d q1 !! pq_size q = Some x) by (simpl; by rewrite lookup_insert_eq).
  assert (Hlk : forall j, 1 <= j < pq_size q -> pq_d q1 !! j = pq_d q !! j)
    by (intros j Hj; simpl; rewrite lookup_insert_ne by lia; done).
  assert (Hh : hole st q1 (pq_size q) x).
  { split; simpl; [lia|lia|done|]. intros j Hj Hji. destruct (Hn j) as (y & Hy & Hly & Hpy); [lia|].
    exists y. rewrite lookup_insert_ne by lia. repeat split; try done. intros ->. apply Hx. exists j. split; [lia|done]. }
  assert (Hup : up_order st q1 (pq_size q) x).
  { split; simpl; intros j Hj; [|intros; heap_lia]. intros Hji.
    destruct (Hn j) as (y & Hy & _); [lia|]. destruct (Hn (j / 2)) as (z & Hz & _); [heap_lia|].
    rewrite (vpri_self st q1 _ x j y), (vpri_self st q1 _ x (j / 2) z);
      try done; try (rewrite Hlk; [done|heap_lia]). apply (Ho j); [lia|done|done]. }
  destruct (bubble_up_spec st q1 (pq_size q) x Hh Hd Hup) as (st' & q' & -> & Hinv & Hin & [Hf Hav Hp] & Hs').
  cbn [obind]. exists st', q'. split; [done|]. split; [done|]. split; [|split; [by split|]].
  - intros y. rewrite Hin. split.
    + intros [->|(j & Hj & Hji & Hy)]; [by left|right]. simpl in Hj. exists j.
      rewrite Hlk in Hy by lia. split; [lia|done].
    + intros [->|(j & Hj & Hy)]; [by left|right]. exists j. rewrite Hlk by lia. simpl. split; [lia|]. split; [lia|done].
  - done.
Qed.

Lemma change_priority_spec (st : St) q new_pri x :
  pq_inv cmppri st q -> inq q x -> pri_ok new_pri ->
  exists st1 st' q', setpri st x new_pri = Ok st1 /\
    pqueue_change_priority cmppri st (Some q) new_pri x = Ok (st', Some q') /\
    pq_inv cmppri st' q' /\ (forall y, inq q' y <-> inq q y) /\
    pq_frame st1 q st' q' /\ pq_size q' = pq_size q.
Proof.
  intros [Hwf Ho] Hx Hok. destruct (inq_pos st q x Hwf Hx) as (Hl & i & Hp & Hi & Hd).
  pose proof Hwf as [Hs Ha Hn].
  destruct (setpri_live st x new_pri Hl) as [st1 Hst1]. exists st1.
  unfold pqueue_change_priority. cbn [obind of_option]. rewrite (getpri_pri st x Hl). cbn [obind].
  rewrite Hst1. cbn [obind]. rewrite (getpos_setpri _ _ _ _ _ Hst1), Hp. cbn [obind].
  assert (Hwf1 : pq_wf st1 q).
  { split; [done|done|]. intros j Hj. destruct (Hn j Hj) as (y & Hy & Hly & Hpy). exists y.
    by rewrite (setpri_keeps _ _ _ _ _ Hst1), (getpos_setpri _ _ _ _ _ Hst1). }
  assert (Hpri : forall y, pri st1 y = if y =? x then new_pri else pri st y).
  { intros y. unfold pri. rewrite (getpri_setpri _ _ _ _ _ Hok Hst1). by destruct (y =? x). }
  assert (Hvp : forall j, 1 <= j < pq_size q ->
    vpri st1 q i x j = if j =? i then new_pri else vpri st q i x j).
  { intros j Hj. unfold vpri. rewrite Hpri. destruct (Z.eqb_spec j i) as [->|Hji].
    - by rewrite vnode_eq, Z.eqb_refl.
    - destruct (Hn j Hj) as (y & Hy & _ & Hpy). rewrite (vnode_ne q i x j y) by done.
      destruct (Z.eqb_spec y x); [|done]. subst. congruence. }
  assert (Hho : forall j, 2 <= j < pq_size q -> ple cmppri (vpri st q i x (j / 2)) (vpri st q i x j)).
  { intros j Hj. destruct (Hn j) as (y & Hy & _); [lia|]. destruct (Hn (j / 2)) as (z & Hz & _); [heap_lia|].
    rewrite (vpri_self st q i x j y), (vpri_self st q i x (j / 2) z) by done. by apply (Ho j). }
  assert (Hvi : vpri st q i x i = pri st x) by (by rewrite (vpri_self st q i x i x)).
  assert (Hh : hole st1 q i x) by (by apply wf_hole).
  assert (Hmem : forall y, hole_mem q i x y <-> inq q y) by (intros; by apply wf_hole_mem).
  destruct (cmppri (pri st x) new_pri) eqn:Ec.
  - apply ple_asym in Ec.
    destruct (bubble_up_spec st1 q i x Hh Hd) as (st' & q' & -> & Hinv & Hin & Hfr & Hs').
    { split; intros j Hj.
      - intros Hji. rewrite !Hvp by heap_lia. rewrite (proj2 (Z.eqb_neq j i) Hji).
        destruct (Z.eqb_spec (j / 2) i) as [Ej|]; [|by apply Hho].
        eapply ple_trans; [exact Ec|]. pose proof (Hho j Hj) as E. by rewrite Ej, Hvi in E.
      - intros Hi2 Hji. rewrite !Hvp by heap_lia. destruct (Z.eqb_spec (i / 2) i); [heap_lia|].
        destruct (Z.eqb_spec j i); [heap_lia|].
        eapply ple_trans; [apply Hho; lia|]. pose proof (Hho j Hj) as E. by rewrite Hji in E. }
    cbn [obind]. exists st', q'. do 3 (split; [done|]).
    split; [intros; by rewrite Hin, Hmem|done].
  - destruct (percolate_down_spec st1 q i x Hh Hd) as (st' & q' & -> & Hinv & Hin & Hfr & Hs').
    { split; intros j Hj.
      - intros Hji. rewrite !Hvp by heap_lia. rewrite (proj2 (Z.eqb_neq (j / 2) i) Hji).
        destruct (Z.eqb_spec j i) as [->|]; [|by apply Hho].
        eapply ple_trans; [by apply Hho|]. by rewrite Hvi.
      - intros Hi2 Hji. rewrite !Hvp by heap_lia. destruct (Z.eqb_spec (i / 2) i); [heap_lia|].
        destruct (Z.eqb_spec j i); [heap_lia|].
        eapply ple_trans; [apply Hho; lia|]. pose proof (Hho j Hj) as E. by rewrite Hji in E. }
    cbn [obind]. exists st', q'. do 3 (split; [done|]).
    split; [intros; by rewrite Hin, Hmem|done].
Qed.

(** The top is the best node. *)
Lemma heap_top (st : St) q x y :
  pq_inv cmppri st q -> pq_d q !! 1 = Some x -> inq q y -> ple cmppri (pri st x) (pri st y).
Proof.
  intros [[Hs Ha Hn] Ho] Hx (j & Hj & Hy). remember (Z.to_nat j) as n eqn:En.
  revert j y Hj Hy En. induction n as [n IH] using lt_wf_ind. intros j y Hj Hy En.
  destruct (decide (j = 1)) as [->|Hj1]; [simplify_eq; apply ple_refl|].
  destruct (Hn (j / 2)) as (z & Hz & _); [heap_lia|].
  eapply ple_trans; [|apply (Ho j z y); [lia|done|done]].
  eapply (IH (Z.to_nat (j / 2))); [heap_lia| |done|done]. heap_lia.
Qed.

Lemma peek_spec (st : St) q :
  pq_inv cmppri st q ->
  (pq_size q = 1 /\ pqueue_peek (Some q) = Ok None) \/
  (exists x, pqueue_peek (Some q) = Ok (Some x) /\ 2 <= pq_size q /\
     pq_d q !! 1 = Some x /\ inq q x /\ forall y, inq q y -> ple cmppri (pri st x) (pri st y)).
Proof.
  intros Hinv. pose proof Hinv as [[Hs Ha Hn] Ho]. unfold pqueue_peek.
  destruct (Z.eqb_spec (pq_size q) 1) as [E|E]; [by left|right].
  destruct (Hn 1) as (x & Hx & Hl & Hp); [lia|]. exists x.
  rewrite (proj2 (dget_Ok q 1 x)) by (split; [lia|done]). repeat split; try done; [lia| |].
  - exists 1. split; [lia|done].
  - intros y. by apply heap_top.
Qed.

Lemma pop_spec (st : St) q x :
  pq_inv cmppri st q -> 2 <= pq_size q -> pq_d q !! 1 = Some x ->
  exists st' q', pqueue_pop cmppri st (Some q) = Ok (Some x, st', Some q') /\
    (forall y, inq q' y <-> inq q y /\ y <> x) /\ pos_frame st st' /\
    (forall y, y <> x -> ~ inq q y -> getpos st' y = getpos st y) /\
    pq_avail q' = pq_avail q /\ pq_size q' = pq_size q - 1 /\
    pq_inv cmppri st' q'.
Proof.
  intros Hinv Hsz Hx. pose proof Hinv as [[Hs Ha Hn] Ho]. unfold pqueue_pop.
  destruct (Z.eqb_spec (pq_size q) 1) as [E1|_]; [lia|].
  rewrite (proj2 (dget_Ok q 1 x)) by (split; [lia|done]). cbn [obind].
  rewrite u64_id by lia. set (n := pq_size q - 1). cbn [pq_size set_size].
  destruct (Hn n) as (m & Hm & Hlm & Hpm); [lia|].
  rewrite (proj2 (dget_Ok _ n m)) by (split; [simpl; lia|done]). cbn [obind].
  rewrite dset_Ok by (simpl; lia). cbn [obind]. set (q2 := set_d _ _).
  assert (Hq1 : pq_d q2 !! 1 = Some m) by (simpl; by rewrite lookup_insert_eq).
  assert (Hqj : forall j, j <> 1 -> pq_d q2 !! j = pq_d q !! j)
    by (intros j Hj; simpl; by rewrite lookup_insert_ne).
  assert (Hxm : forall j, 1 <= j < pq_size q -> j <> 1 -> pq_d q !! j <> Some x).
  { intros j Hj Hj1 Hjx. destruct (Hn j Hj) as (? & ? & _ & ?). destruct (Hn 1) as (? & ? & _ & ?); [lia|]. congruence. }
  destruct (decide (n = 1)) as [En|En].
  - (* the queue becomes empty: the hole is past its end *)
    assert (m = x) as -> by (rewrite En in Hm; congruence).
    unfold percolate_down, INDEX_FUEL. rewrite (proj2 (dget_Ok _ 1 x)) by (split; [simpl; lia|done]). cbn [obind].
    rewrite (getpri_pri st x Hlm). cbn [obind]. rewrite percolate_down_loop_S.
    unfold maxchild. rewrite left_double by lia. simpl (pq_size q2).
    destruct (Z.leb_spec n (2 * 1)); [|lia]. cbn [obind]. simpl (0 =? 0). cbn [obind].
    rewrite dset_Ok by (simpl; lia). cbn [obind].
    destruct (setpos_live st x 1 Hlm) as [st' Hst']. rewrite Hst'. cbn [obind].
    pose proof (setpos_frame _ _ _ _ Hst') as Hf.
    eexists _, _. split; [done|]. split; [|split; [done|split; [|split; [done|split; [done|]]]]].
    + intros y. split; [intros (j & Hj & _); simpl in Hj; lia|].
      intros [(j & Hj & Hy) Hyx]. assert (j = 1) as -> by lia. congruence.
    + intros y Hyx _. rewrite (getpos_setpos _ _ _ _ _ Hst'). destruct (Z.eqb_spec y x); done.
    + split; [split; simpl; [lia|done|lia]|]. intros j ? ? Hj. simpl in Hj. lia.
  - assert (Hh : hole st q2 1 m).
    { split; simpl; [lia|lia|done|]. intros j Hj Hj1. rewrite lookup_insert_ne by done.
      destruct (Hn j) as (y & Hy & Hly & Hpy); [lia|]. exists y. repeat split; try done.
      intros ->. assert (n = j) by congruence. lia. }
    destruct (percolate_down_spec st q2 1 m Hh Hq1) as (st' & q' & -> & Hinv' & Hin & [Hf Hav Hp] & Hs').
    { split; simpl; intros j Hj; [|lia]. intros Hj1.
      destruct (Hn j) as (y & Hy & _); [lia|]. destruct (Hn (j / 2)) as (z & Hz & _); [heap_lia|].
      rewrite (vpri_self st q2 1 m j y), (vpri_self st q2 1 m (j / 2) z);
        try done; try (rewrite Hqj; [done|heap_lia]). apply (Ho j); [lia|done|done]. }
    cbn [obind]. exists st', q'. split; [done|].
    assert (Hin' : forall y, inq q' y <-> inq q y /\ y <> x).
    { intros y. rewrite Hin. split.
      - intros [->|(j & Hj & Hj1 & Hy)].
        + split; [exists n; split; [lia|done]|]. intros ->. by apply (Hxm n); [lia|lia|].
        + simpl in Hj. rewrite Hqj in Hy by done.
          split; [exists j; split; [lia|done]|]. intros ->. by apply (Hxm j); [lia|lia|].
      - intros [(j & Hj & Hy) Hyx]. destruct (decide (j = 1)) as [->|Hj1]; [congruence|].
        destruct (decide (j = n)) as [->|Hjn]; [left; congruence|right]. exists j. simpl. rewrite lookup_insert_ne by done. split; [lia|done]. }
    split; [done|]. split; [done|]. split; [|split; [done|split; [done|done]]].
    intros y Hyx Hy. apply Hp. rewrite Hin'. tauto.
Qed.

End Facts.
