(* ===== verification/ChannelModel.v ===== *)
(** * ChannelModel: the bandwidth model of src/channel_model.c

    A channel hands out credits per interval of [UNIT_TIME_INTERVAL]
    nanoseconds from a ring of [NR_CREDIT_ENTRIES] bytes.  The clock of the
    kernel ([cpu_clock]) is not part of the program: it is the class [Clock], a
    value per reading, and the number of readings so far is passed along. *)
From stdpp Require Import base list numbers.
From Stdlib Require Import ZArith Lia.
From S2P Require Import Prelude.

Open Scope Z_scope.
Open Scope nvmev_scope.

(** [cpu_clock(cpu)]: the [n]-th reading of the clock of the dispatcher's CPU. *)
Class Clock := cpu_clock : nat -> Z.
Class ClockRange `{Clock} := clock_range : forall n, 0 <= cpu_clock n < 18446744073709551616.

Definition NR_CREDIT_ENTRIES : Z := 1024 * 96.
Definition UNIT_TIME_INTERVAL : Z := 4000.
Definition UNIT_XFER_SIZE : Z := 128.
Definition UNIT_XFER_CREDITS : Z := 1.

Definition NS_PER_SEC (s : Z) : Z := s * 1000 * 1000 * 1000.

Record channel_model := mk_channel_model {
  cm_cur_time : Z;
  cm_head : Z;
  cm_valid_len : Z;
  cm_max_credits : Z;
  cm_command_credits : Z;
  cm_xfer_lat : Z;
  cm_avail_credits : list Z;
}.

Definition BANDWIDTH_TO_TX_TIME (mb_s : Z) : Z :=
  u64 (UNIT_XFER_SIZE * NS_PER_SEC 1) / u64 (MB mb_s).
Definition BANDWIDTH_TO_MAX_CREDITS (mb_s : Z) : Z :=
  u64 (u64 (u64 (MB mb_s) * UNIT_TIME_INTERVAL) / NS_PER_SEC 1 / UNIT_XFER_SIZE * UNIT_XFER_CREDITS).

(** [MEMSET(&a[off], value, len)]: bytes, so the value is truncated to 8 bits
    ([SIZE_OF_CREDIT_T] is 1). *)
Definition MEMSET (a : list Z) (off value len : Z) : outcome (list Z) :=
  GUARD! (0 <=? off) && (0 <=? len) && (off + len <=? Z.of_nat (length a));
  Ok (take (Z.to_nat off) a ++ replicate (Z.to_nat len) (u8 value) ++
      drop (Z.to_nat (off + len)) a).

(** The array as [kmalloc] hands it out; [chmodel_init] overwrites all of it. *)
Definition credit_array : list Z := replicate (Z.to_nat NR_CREDIT_ENTRIES) 0.

Definition chmodel_init (bandwidth : Z) : outcome channel_model :=
  GUARD! negb (u64 (MB bandwidth) =? 0);
  let max_credits := u32 (BANDWIDTH_TO_MAX_CREDITS bandwidth) in
  let* a := MEMSET credit_array 0 max_credits NR_CREDIT_ENTRIES in
  Ok (mk_channel_model 0 0 0 max_credits 0 (u32 (BANDWIDTH_TO_TX_TIME bandwidth)) a).

(** The [while (1)] loop: takes credits from slot [pos] on until none remain or
    the ring is full.  Returns the ring, the last slot and the slots skipped. *)
Fixpoint consume (fuel : nat) (a : list Z) (head pos remaining delay : Z)
  : outcome (list Z * Z * Z) :=
  match fuel with
  | O => NoFuel
  | S fuel' =>
      let* c := nthZ a pos in
      let consumed := if remaining <=? c then remaining else c in
      let* a' := updZ a pos (u8 (c - consumed)) in
      let remaining' := u32 (remaining - consumed) in
      if negb (remaining' =? 0) then
        let next_pos := (pos + 1) mod NR_CREDIT_ENTRIES in
        if negb (next_pos =? head) then
          consume fuel' a' head next_pos remaining' (u32 (delay + 1))
        else Ok (a', pos, delay)
      else Ok (a', pos, delay)
  end.

(** Lines 88-103 of the request: retires the slots that lie in the past. *)
Definition advance_head (ch : channel_model) (cur_time : Z) : outcome channel_model :=
  let cur_time_offs := u32 (cur_time / UNIT_TIME_INTERVAL - cm_cur_time ch / UNIT_TIME_INTERVAL) in
  let cur_time_offs := if cur_time_offs <? cm_valid_len ch then cur_time_offs else cm_valid_len ch in
  let head := cm_head ch in
  let* a :=
    (if NR_CREDIT_ENTRIES <=? head + cur_time_offs then
       let* a1 := MEMSET (cm_avail_credits ch) head (cm_max_credits ch) (NR_CREDIT_ENTRIES - head) in
       MEMSET a1 0 (cm_max_credits ch) (cur_time_offs - (NR_CREDIT_ENTRIES - head))
     else MEMSET (cm_avail_credits ch) head (cm_max_credits ch) cur_time_offs) in
  Ok (mk_channel_model cur_time ((head + cur_time_offs) mod NR_CREDIT_ENTRIES)
        (u32 (cm_valid_len ch - cur_time_offs))
        (cm_max_credits ch) (cm_command_credits ch) (cm_xfer_lat ch) a).

Section Request.
Context `{Clock}.

(** The result, the channel and the number of clock readings after the call. *)
Definition chmodel_request (n : nat) (ch : channel_model) (request_time length : Z)
  : outcome (Z * channel_model * nat) :=
  let cur_time := cpu_clock n in
  let units_to_xfer := u32 (DIV_ROUND_UP64 length UNIT_XFER_SIZE) in
  let* ch := advance_head ch cur_time in
  ASSERT! cm_valid_len ch <=? NR_CREDIT_ENTRIES;
  if request_time <? cur_time then Ok (request_time, ch, S n)
  else
    let request_time_offs :=
      u32 (request_time / UNIT_TIME_INTERVAL - cur_time / UNIT_TIME_INTERVAL) in
    if NR_CREDIT_ENTRIES <=? request_time_offs then Ok (request_time, ch, S n)
    else
      let pos := (cm_head ch + request_time_offs) mod NR_CREDIT_ENTRIES in
      let remaining_credits :=
        u32 (u32 (units_to_xfer * UNIT_XFER_CREDITS) + cm_command_credits ch) in
      GUARD! negb (cm_max_credits ch =? 0);
      let default_delay := remaining_credits / cm_max_credits ch in
      let* (a, pos, delay) :=
        consume (Z.to_nat NR_CREDIT_ENTRIES) (cm_avail_credits ch) (cm_head ch) pos
          remaining_credits 0 in
      let valid_length :=
        if cm_head ch <=? pos then u32 (pos - cm_head ch + 1)
        else u32 (NR_CREDIT_ENTRIES - (cm_head ch - pos - 1)) in
      let valid_len := if cm_valid_len ch <? valid_length then valid_length else cm_valid_len ch in
      let delay := if default_delay <? delay then delay - default_delay else 0 in
      let total_latency :=
        u64 (u32 (cm_xfer_lat ch * units_to_xfer) + u64 (delay * UNIT_TIME_INTERVAL)) in
      Ok (u64 (request_time + total_latency),
          mk_channel_model (cm_cur_time ch) (cm_head ch) valid_len (cm_max_credits ch)
            (cm_command_credits ch) (cm_xfer_lat ch) a,
          S n).

End Request.

(** ** The invariant *)
Record ch_inv (ch : channel_model) : Prop := {
  ci_head : 0 <= cm_head ch < NR_CREDIT_ENTRIES;
  ci_valid : 0 <= cm_valid_len ch <= NR_CREDIT_ENTRIES;
  ci_max : 0 < cm_max_credits ch < 256;
  ci_command : cm_command_credits ch = 0;
  ci_len : Z.of_nat (length (cm_avail_credits ch)) = NR_CREDIT_ENTRIES;
  ci_credits : Forall (fun c => 0 <= c <= cm_max_credits ch) (cm_avail_credits ch);
}.

(** ** Facts *)

(** The number is kept folded: no proof should count to it. *)
Lemma NR_val : NR_CREDIT_ENTRIES = 98304.
Proof. done. Qed.
#[local] Opaque NR_CREDIT_ENTRIES.

Lemma NR_nat : Z.of_nat (Z.to_nat NR_CREDIT_ENTRIES) = 98304.
Proof. rewrite Z2Nat.id; rewrite NR_val; lia. Qed.

Lemma NR_mod x : 0 <= x mod NR_CREDIT_ENTRIES < 98304.
Proof. rewrite NR_val. apply Z.mod_pos_bound. lia. Qed.

Ltac nr_lia := pose proof NR_val; lia.

Lemma MEMSET_spec a off v len :
  0 <= off -> 0 <= len -> off + len <= Z.of_nat (length a) ->
  exists a', MEMSET a off v len = Ok a' /\ length a' = length a /\
    forall (P : Z -> Prop), Forall P a -> P (u8 v) -> Forall P a'.
Proof.
  intros H1 H2 H3. unfold MEMSET.
  rewrite (proj2 (Z.leb_le 0 off)), (proj2 (Z.leb_le 0 len)), (proj2 (Z.leb_le (off + len) _)) by lia.
  eexists. split; [done|]. split.
  - rewrite !length_app, length_replicate, length_take, length_drop. lia.
  - intros P Ha Hv. rewrite !Forall_app. split; [by apply Forall_take|].
    split; [by apply Forall_replicate|by apply Forall_drop].
Qed.

Lemma advance_head_spec ch t :
  ch_inv ch -> exists ch', advance_head ch t = Ok ch' /\ ch_inv ch' /\
    cm_cur_time ch' = t /\ cm_valid_len ch' <= cm_valid_len ch /\
    cm_max_credits ch' = cm_max_credits ch /\ cm_xfer_lat ch' = cm_xfer_lat ch.
Proof.
  intros [Hh Hv Hm Hc Hl Hf]. unfold advance_head.
  set (o0 := u32 _). set (o := if o0 <? _ then _ else _).
  assert (Ho : 0 <= o <= cm_valid_len ch).
  { pose proof (u32_range (t / UNIT_TIME_INTERVAL - cm_cur_time ch / UNIT_TIME_INTERVAL)).
    subst o. destruct (Z.ltb_spec o0 (cm_valid_len ch)); lia. }
  assert (Hu : u8 (cm_max_credits ch) = cm_max_credits ch) by (apply u8_id; lia).
  assert (Hset : exists a, (if NR_CREDIT_ENTRIES <=? cm_head ch + o then
       let* a1 := MEMSET (cm_avail_credits ch) (cm_head ch) (cm_max_credits ch) (NR_CREDIT_ENTRIES - cm_head ch) in
       MEMSET a1 0 (cm_max_credits ch) (o - (NR_CREDIT_ENTRIES - cm_head ch))
     else MEMSET (cm_avail_credits ch) (cm_head ch) (cm_max_credits ch) o) = Ok a /\
     Z.of_nat (length a) = NR_CREDIT_ENTRIES /\ Forall (fun c => 0 <= c <= cm_max_credits ch) a).
  { destruct (Z.leb_spec NR_CREDIT_ENTRIES (cm_head ch + o)).
    - destruct (MEMSET_spec (cm_avail_credits ch) (cm_head ch) (cm_max_credits ch) (NR_CREDIT_ENTRIES - cm_head ch))
        as (a1 & -> & Hl1 & Hf1); [lia..|]. cbn [obind].
      destruct (MEMSET_spec a1 0 (cm_max_credits ch) (o - (NR_CREDIT_ENTRIES - cm_head ch)))
        as (a2 & -> & Hl2 & Hf2); [lia..|].
      exists a2. split; [done|]. split; [lia|]. apply Hf2; [apply Hf1; [done|lia]|lia].
    - destruct (MEMSET_spec (cm_avail_credits ch) (cm_head ch) (cm_max_credits ch) o)
        as (a1 & -> & Hl1 & Hf1); [lia..|].
      exists a1. split; [done|]. split; [lia|]. apply Hf1; [done|lia]. }
  destruct Hset as (a & -> & Hla & Hfa). cbn [obind]. eexists. split; [done|].
  rewrite u32_id by nr_lia.
  split; [|simpl; repeat split; try done; lia].
  split; simpl; try done; try lia. pose proof (NR_mod (cm_head ch + o)). nr_lia.
Qed.

(** The credits of the slots from [pos] up to the head of the ring, excluded. *)
Definition ring_dist (head pos : Z) : Z := (head - pos - 1) mod NR_CREDIT_ENTRIES.

Lemma ring_dist_next head pos :
  0 <= head < NR_CREDIT_ENTRIES -> 0 <= pos < NR_CREDIT_ENTRIES ->
  (pos + 1) mod NR_CREDIT_ENTRIES <> head ->
  ring_dist head ((pos + 1) mod NR_CREDIT_ENTRIES) = ring_dist head pos - 1.
Proof.
  unfold ring_dist. rewrite NR_val. intros H1 H2 H3. revert H3. Z.div_mod_to_equations. lia.
Qed.

Lemma consume_spec fuel mc : forall a head pos remaining delay,
  0 <= head < NR_CREDIT_ENTRIES -> 0 <= pos < NR_CREDIT_ENTRIES ->
  Z.of_nat (length a) = NR_CREDIT_ENTRIES -> mc < 256 ->
  Forall (fun c => 0 <= c <= mc) a ->
  0 <= remaining < 4294967296 -> 0 <= delay -> delay + Z.of_nat fuel < 4294967296 ->
  ring_dist head pos < Z.of_nat fuel ->
  exists a' pos' delay', consume fuel a head pos remaining delay = Ok (a', pos', delay') /\
    length a' = length a /\ Forall (fun c => 0 <= c <= mc) a' /\
    0 <= pos' < NR_CREDIT_ENTRIES /\ delay <= delay' < 4294967296 /\
    sumZ a - remaining <= sumZ a' <= sumZ a /\
    (sumZ a' = sumZ a - remaining \/ (pos' + 1) mod NR_CREDIT_ENTRIES = head).
Proof.
  induction fuel as [|fuel IH]; intros a head pos remaining delay Hh Hp Hl Hmc Hf Hr Hd Hdf Hdist.
  { unfold ring_dist in Hdist. pose proof (NR_mod (head - pos - 1)). nr_lia. }
  cbn [consume]. destruct (nthZ_in_range a pos) as [c Hc]; [lia|]. rewrite Hc. cbn [obind].
  apply nthZ_Ok in Hc as [_ Hc].
  assert (Hcr : 0 <= c <= mc) by (by eapply Forall_lookup_1 in Hf).
  set (k := if remaining <=? c then remaining else c).
  assert (Hk : 0 <= k <= c /\ k <= remaining /\ (k = remaining \/ k = c))
    by (subst k; destruct (Z.leb_spec remaining c); lia).
  rewrite updZ_Ok by lia. cbn [obind]. rewrite u8_id by lia. rewrite (u32_id (remaining - k)) by lia.
  set (a1 := <[Z.to_nat pos := c - k]> a).
  assert (Hs1 : sumZ a1 = sumZ a - k) by (unfold a1; rewrite (sumZ_insert _ _ c) by done; lia).
  assert (Hl1 : length a1 = length a) by (unfold a1; apply length_insert).
  assert (Hf1 : Forall (fun c => 0 <= c <= mc) a1) by (apply Forall_insert; [done|simpl; lia]).
  destruct (Z.eqb_spec (remaining - k) 0) as [E0|E0]; simpl.
  { exists a1, pos, delay. split; [done|]. repeat split; try done; lia. }
  destruct (Z.eqb_spec ((pos + 1) mod NR_CREDIT_ENTRIES) head) as [E1|E1]; simpl.
  { exists a1, pos, delay. split; [done|]. repeat split; try done; try (by right); lia. }
  pose proof (NR_mod (pos + 1)) as Hnp. pose proof NR_val as HN.
  rewrite u32_id by lia. pose proof (ring_dist_next head pos Hh Hp E1) as Hrd.
  destruct (IH a1 head ((pos + 1) mod NR_CREDIT_ENTRIES) (remaining - k) (delay + 1))
    as (a' & pos' & delay' & -> & Hl' & Hf' & Hp' & Hd' & Hsum & Hend); try done; try lia.
  exists a', pos', delay'. split; [done|]. repeat split; try done; try lia.
  all: destruct Hend; [left; lia|by right].
Qed.

Section RequestFacts.
Context `{Clock}.

Lemma chmodel_request_spec n ch t len :
  ch_inv ch -> 0 <= t < 18446744073709551616 ->
  exists t' ch', chmodel_request n ch t len = Ok (t', ch', S n) /\ ch_inv ch' /\
    0 <= t' < 18446744073709551616.
Proof.
  intros Hinv Ht. unfold chmodel_request.
  destruct (advance_head_spec ch (cpu_clock n) Hinv) as (ch1 & -> & Hinv1 & _). cbn [obind].
  destruct Hinv1 as [Hh Hv Hm Hc Hl Hf].
  rewrite (proj2 (Z.leb_le _ _)) by lia.
  destruct (t <? cpu_clock n); [by eauto 6 using Build_ch_inv|].
  set (ro := u32 _). destruct (Z.leb_spec NR_CREDIT_ENTRIES ro); [by eauto 6 using Build_ch_inv|].
  rewrite (proj2 (Z.eqb_neq _ 0)) by lia. cbn [negb].
  set (rem := u32 (u32 _ + _)). set (pos := _ mod NR_CREDIT_ENTRIES).
  pose proof NR_val as HN. pose proof NR_nat as HNn.
  assert (Hpos : 0 <= pos < NR_CREDIT_ENTRIES) by (rewrite HN; apply NR_mod).
  pose proof (u32_range (u32 (u32 (DIV_ROUND_UP64 len UNIT_XFER_SIZE) * UNIT_XFER_CREDITS) + cm_command_credits ch1)) as Hrem.
  remember (Z.to_nat NR_CREDIT_ENTRIES) as fuel eqn:Efuel. clear Efuel.
  destruct (consume_spec fuel (cm_max_credits ch1) (cm_avail_credits ch1)
    (cm_head ch1) pos rem 0) as (a' & pos' & d' & -> & Hl' & Hf' & Hp' & _); try assumption; try lia.
  { unfold ring_dist. pose proof (NR_mod (cm_head ch1 - pos - 1)). lia. }
  cbn [obind]. eexists _, _. split; [done|]. split; [|auto with nvmev].
  split; simpl; try done; [|lia].
  destruct (Z.leb_spec (cm_head ch1) pos'); rewrite u32_id by lia;
    match goal with |- context [if ?b then _ else _] => destruct b end; lia.
Qed.

End RequestFacts.

Lemma length_credit_array : Z.of_nat (length credit_array) = NR_CREDIT_ENTRIES.
Proof. unfold credit_array. rewrite length_replicate, NR_nat. symmetry. apply NR_val. Qed.
#[local] Opaque credit_array.

Lemma MEMSET_all a v n :
  Z.of_nat (length a) = n -> MEMSET a 0 v n = Ok (replicate (length a) (u8 v)).
Proof.
  intros <-. unfold MEMSET.
  destruct (Z.leb_spec 0 0); [|lia]. destruct (Z.leb_spec 0 (Z.of_nat (length a))); [|lia].
  destruct (Z.leb_spec (0 + Z.of_nat (length a)) (Z.of_nat (length a))); [|lia]. cbn [andb].
  by rewrite Z.add_0_l, Nat2Z.id, drop_all, app_nil_r.
Qed.

Lemma chmodel_init_inv bw :
  0 < u64 (MB bw) -> 0 < u32 (BANDWIDTH_TO_MAX_CREDITS bw) < 256 ->
  exists ch, chmodel_init bw = Ok ch /\ ch_inv ch.
Proof.
  intros H0 Hb. unfold chmodel_init. rewrite (proj2 (Z.eqb_neq _ 0)) by lia. cbn [negb].
  pose proof (MEMSET_all _ (u32 (BANDWIDTH_TO_MAX_CREDITS bw)) _ length_credit_array) as E. cbv zeta. rewrite E. cbn [obind]. eexists. split; [reflexivity|].
  assert (Hu : u8 (u32 (BANDWIDTH_TO_MAX_CREDITS bw)) = u32 (BANDWIDTH_TO_MAX_CREDITS bw)) by (apply u8_id; lia).
  rewrite Hu. pose proof length_credit_array as HL. pose proof NR_val as HN. clear E.
  generalize dependent (u32 (BANDWIDTH_TO_MAX_CREDITS bw)). intros m Hb Hu.
  constructor; cbn [cm_head cm_valid_len cm_max_credits cm_command_credits cm_avail_credits].
  - lia.
  - lia.
  - lia.
  - reflexivity.
  - rewrite length_replicate. exact HL.
  - apply Forall_replicate. lia.
Qed.
