(* ===== verification/SsdConfig.v ===== *)
(** * SsdConfig: the device configurations of src/ssd_config.h

    [BASE_SSD] selects one block of macros at compile time; here each block is
    a value.  The macros that describe flash are the record [ssd_config]; what
    every block defines (namespaces, MDTS, cell mode) is [base_config]. *)
From stdpp Require Import base list numbers.
From Stdlib Require Import ZArith Lia.
From Stdlib Require Import Floats.SpecFloat.
From S2P Require Import Prelude.

Open Scope Z_scope.

Definition CELL_MODE_UNKNOWN : Z := 0.
Definition CELL_MODE_SLC : Z := 1.
Definition CELL_MODE_MLC : Z := 2.
Definition CELL_MODE_TLC : Z := 3.
Definition CELL_MODE_QLC : Z := 4.

Definition LBA_BITS : Z := 9.
Definition LBA_SIZE : Z := Z.shiftl 1 LBA_BITS.

Definition LBA_TO_BYTE (lba : Z) : Z := Z.shiftl lba LBA_BITS.
Definition BYTE_TO_LBA (byte : Z) : Z := Z.shiftr byte LBA_BITS.

Inductive ssd_type := SSD_TYPE_NVM | SSD_TYPE_CONV | SSD_TYPE_ZNS | SSD_TYPE_KV | SSD_TYPE_DFTL.

Record base_config := {
  NR_NAMESPACES : Z;
  NS_SSD_TYPE_0 : ssd_type;
  NS_CAPACITY_0 : Z;
  NS_SSD_TYPE_1 : ssd_type;
  NS_CAPACITY_1 : Z;
  MDTS : Z;
  CELL_MODE : Z;
}.

(** The binary64 values of the macros [OP_AREA_PERCENT]: 0.07 and 0. *)
Definition double_0_07 : spec_float := S754_finite false 5044031582654956 (-56).
Definition double_0 : spec_float := S754_zero false.

Record ssd_config := {
  SSD_PARTITIONS : Z;
  NAND_CHANNELS : Z;
  LUNS_PER_NAND_CH : Z;
  PLNS_PER_LUN : Z;
  FLASH_PAGE_SIZE : Z;
  ONESHOT_PAGE_SIZE : Z;
  BLKS_PER_PLN : Z;
  BLK_SIZE : Z;
  CFG_CELL_MODE : Z;
  MAX_CH_XFER_SIZE : Z;
  WRITE_UNIT_SIZE : Z;
  NAND_CHANNEL_BANDWIDTH : Z;
  PCIE_BANDWIDTH : Z;
  NAND_4KB_READ_LATENCY : list Z; (* LSB, MSB, CSB *)
  NAND_READ_LATENCY : list Z; (* LSB, MSB, CSB *)
  NAND_PROG_LATENCY : Z;
  NAND_ERASE_LATENCY : Z;
  FW_4KB_READ_LATENCY : Z;
  FW_READ_LATENCY : Z;
  FW_WBUF_LATENCY0 : Z;
  FW_WBUF_LATENCY1 : Z;
  FW_CH_XFER_LATENCY : Z;
  GLOBAL_WB_SIZE : Z;
  WRITE_EARLY_COMPLETION : bool;
  OP_AREA_PERCENT : spec_float; (* a double *)
}.

(** The macros of the zoned devices only. *)
Record zone_config := {
  DIES_PER_ZONE : Z;
  ZONE_SIZE : Z;
  ZONE_WB_SIZE : Z;
  MAX_ZRWA_ZONES : Z;
  ZRWAFG_SIZE : Z;
  ZRWA_SIZE : Z;
  ZRWA_BUFFER_SIZE : Z;
}.

Definition INTEL_OPTANE : base_config := {|
  NR_NAMESPACES := 1;
  NS_SSD_TYPE_0 := SSD_TYPE_NVM; NS_CAPACITY_0 := 0;
  NS_SSD_TYPE_1 := SSD_TYPE_NVM; NS_CAPACITY_1 := 0;
  MDTS := 5; CELL_MODE := CELL_MODE_UNKNOWN |}.

Definition KV_PROTOTYPE : base_config := {|
  NR_NAMESPACES := 1;
  NS_SSD_TYPE_0 := SSD_TYPE_KV; NS_CAPACITY_0 := 0;
  NS_SSD_TYPE_1 := SSD_TYPE_KV; NS_CAPACITY_1 := 0;
  MDTS := 5; CELL_MODE := CELL_MODE_MLC |}.

Definition KV_MAPPING_TABLE_SIZE : Z := GB 1.

Definition SAMSUNG_970PRO : base_config := {|
  NR_NAMESPACES := 1;
  NS_SSD_TYPE_0 := SSD_TYPE_CONV; NS_CAPACITY_0 := 0;
  NS_SSD_TYPE_1 := SSD_TYPE_CONV; NS_CAPACITY_1 := 0;
  MDTS := 6; CELL_MODE := CELL_MODE_MLC |}.

Definition SAMSUNG_970PRO_flash : ssd_config := {|
  SSD_PARTITIONS := 1;
  NAND_CHANNELS := 8;
  LUNS_PER_NAND_CH := 8;
  PLNS_PER_LUN := 1;
  FLASH_PAGE_SIZE := KB 32;
  ONESHOT_PAGE_SIZE := KB 32 * 1;
  BLKS_PER_PLN := 8192;
  BLK_SIZE := 0;
  CFG_CELL_MODE := CELL_MODE_MLC;
  MAX_CH_XFER_SIZE := KB 16;
  WRITE_UNIT_SIZE := 512;
  NAND_CHANNEL_BANDWIDTH := 800;
  PCIE_BANDWIDTH := 3360;
  NAND_4KB_READ_LATENCY := [35760 - 6000; 35760 + 6000; 0];
  NAND_READ_LATENCY := [36013 - 6000; 36013 + 6000; 0];
  NAND_PROG_LATENCY := 185000;
  NAND_ERASE_LATENCY := 0;
  FW_4KB_READ_LATENCY := 21500;
  FW_READ_LATENCY := 30490;
  FW_WBUF_LATENCY0 := 4000;
  FW_WBUF_LATENCY1 := 460;
  FW_CH_XFER_LATENCY := 0;
  GLOBAL_WB_SIZE := 8 * 8 * (KB 32 * 1) * 2;
  WRITE_EARLY_COMPLETION := true;
  OP_AREA_PERCENT := double_0_07 |}.

Definition SAMSUNG_970PRO_DFTL : base_config := {|
  NR_NAMESPACES := 1;
  NS_SSD_TYPE_0 := SSD_TYPE_DFTL; NS_CAPACITY_0 := 0;
  NS_SSD_TYPE_1 := SSD_TYPE_DFTL; NS_CAPACITY_1 := 0;
  MDTS := 6; CELL_MODE := CELL_MODE_MLC |}.

Definition SAMSUNG_970PRO_DFTL_flash : ssd_config := {|
  SSD_PARTITIONS := 4;
  NAND_CHANNELS := 8;
  LUNS_PER_NAND_CH := 2;
  PLNS_PER_LUN := 1;
  FLASH_PAGE_SIZE := KB 32;
  ONESHOT_PAGE_SIZE := KB 32 * 1;
  BLKS_PER_PLN := 8192;
  BLK_SIZE := 0;
  CFG_CELL_MODE := CELL_MODE_MLC;
  MAX_CH_XFER_SIZE := KB 16;
  WRITE_UNIT_SIZE := 512;
  NAND_CHANNEL_BANDWIDTH := 800;
  PCIE_BANDWIDTH := 3360;
  NAND_4KB_READ_LATENCY := [35760 - 6000; 35760 + 6000; 0];
  NAND_READ_LATENCY := [36013 - 6000; 36013 + 6000; 0];
  NAND_PROG_LATENCY := 185000;
  NAND_ERASE_LATENCY := 0;
  FW_4KB_READ_LATENCY := 21500;
  FW_READ_LATENCY := 30490;
  FW_WBUF_LATENCY0 := 4000;
  FW_WBUF_LATENCY1 := 460;
  FW_CH_XFER_LATENCY := 0;
  GLOBAL_WB_SIZE := 8 * 2 * (KB 32 * 1) * 2;
  WRITE_EARLY_COMPLETION := true;
  OP_AREA_PERCENT := double_0_07 |}.

Definition ZNS_PROTOTYPE : base_config := {|
  NR_NAMESPACES := 1;
  NS_SSD_TYPE_0 := SSD_TYPE_ZNS; NS_CAPACITY_0 := 0;
  NS_SSD_TYPE_1 := SSD_TYPE_ZNS; NS_CAPACITY_1 := 0;
  MDTS := 6; CELL_MODE := CELL_MODE_TLC |}.

Definition ZNS_PROTOTYPE_flash : ssd_config := {|
  SSD_PARTITIONS := 1;
  NAND_CHANNELS := 8;
  LUNS_PER_NAND_CH := 16;
  PLNS_PER_LUN := 1;
  FLASH_PAGE_SIZE := KB 64;
  ONESHOT_PAGE_SIZE := KB 64 * 2;
  BLKS_PER_PLN := 0;
  BLK_SIZE := MB 32 / 1;
  CFG_CELL_MODE := CELL_MODE_TLC;
  MAX_CH_XFER_SIZE := KB 64;
  WRITE_UNIT_SIZE := KB 64 * 2;
  NAND_CHANNEL_BANDWIDTH := 800;
  PCIE_BANDWIDTH := 3200;
  NAND_4KB_READ_LATENCY := [25485; 25485; 25485];
  NAND_READ_LATENCY := [40950; 40950; 40950];
  NAND_PROG_LATENCY := 1913640;
  NAND_ERASE_LATENCY := 0;
  FW_4KB_READ_LATENCY := 37540 - 7390 + 2000;
  FW_READ_LATENCY := 37540 - 7390 + 2000;
  FW_WBUF_LATENCY0 := 0;
  FW_WBUF_LATENCY1 := 0;
  FW_CH_XFER_LATENCY := 413;
  GLOBAL_WB_SIZE := 8 * 16 * (KB 64 * 2) * 2;
  WRITE_EARLY_COMPLETION := false;
  OP_AREA_PERCENT := double_0 |}.

Definition ZNS_PROTOTYPE_zones : zone_config := {|
  DIES_PER_ZONE := 1;
  ZONE_SIZE := MB 32;
  ZONE_WB_SIZE := 0;
  MAX_ZRWA_ZONES := 0; ZRWAFG_SIZE := 0; ZRWA_SIZE := 0; ZRWA_BUFFER_SIZE := 0 |}.

Definition WD_ZN540 : base_config := {|
  NR_NAMESPACES := 1;
  NS_SSD_TYPE_0 := SSD_TYPE_ZNS; NS_CAPACITY_0 := 0;
  NS_SSD_TYPE_1 := SSD_TYPE_ZNS; NS_CAPACITY_1 := 0;
  MDTS := 6; CELL_MODE := CELL_MODE_TLC |}.

Definition WD_ZN540_flash : ssd_config := {|
  SSD_PARTITIONS := 1;
  NAND_CHANNELS := 8;
  LUNS_PER_NAND_CH := 4;
  PLNS_PER_LUN := 1;
  FLASH_PAGE_SIZE := KB 32;
  ONESHOT_PAGE_SIZE := KB 32 * 3;
  BLKS_PER_PLN := 0;
  BLK_SIZE := GB 2 / (8 * 4);
  CFG_CELL_MODE := CELL_MODE_TLC;
  MAX_CH_XFER_SIZE := KB 32;
  WRITE_UNIT_SIZE := 512;
  NAND_CHANNEL_BANDWIDTH := 450;
  PCIE_BANDWIDTH := 3050;
  NAND_4KB_READ_LATENCY := [50000; 50000; 50000];
  NAND_READ_LATENCY := [58000; 58000; 58000];
  NAND_PROG_LATENCY := 561000;
  NAND_ERASE_LATENCY := 0;
  FW_4KB_READ_LATENCY := 20000;
  FW_READ_LATENCY := 13000;
  FW_WBUF_LATENCY0 := 5600;
  FW_WBUF_LATENCY1 := 600;
  FW_CH_XFER_LATENCY := 0;
  GLOBAL_WB_SIZE := 0;
  WRITE_EARLY_COMPLETION := true;
  OP_AREA_PERCENT := double_0 |}.

Definition WD_ZN540_zones : zone_config := {|
  DIES_PER_ZONE := 8 * 4;
  ZONE_SIZE := GB 2;
  ZONE_WB_SIZE := 10 * (KB 32 * 3);
  MAX_ZRWA_ZONES := 0; ZRWAFG_SIZE := 0; ZRWA_SIZE := 0; ZRWA_BUFFER_SIZE := 0 |}.
