(* ===== verification/Ssd.v ===== *)
(** * Ssd: the flash device of src/ssd.c and src/ssd.h

    Geometry ([ssdparams] and [ssd_init_params]), physical page addresses
    ([ppa], a 64-bit word of bit-fields), the tree of channels, LUNs, planes,
    blocks and pages with its page and block counters, the write buffer and the
    timing of NAND commands.  The PCIe link and the global write buffer are
    shared by the FTL instances of a namespace through pointers, so they live
    in [hw], beside the clock and the log of the internal operations that the
    FTL hands to the I/O workers ([schedule_internal_operation] of io.c). *)
From stdpp Require Import base list numbers.
From Stdlib Require Import ZArith Lia.
From S2P Require Import Prelude ChannelModel SsdConfig.

Open Scope Z_scope.
Open Scope nvmev_scope.

(** ** Constants *)
Definition INVALID_PPA : Z := 18446744073709551615.
Definition INVALID_LPN : Z := 18446744073709551615.
Definition UNMAPPED_PPA : Z := 18446744073709551615.

Definition NAND_READ : Z := 0.
Definition NAND_WRITE : Z := 1.
Definition NAND_ERASE : Z := 2.
Definition NAND_NOP : Z := 3.

Definition USER_IO : Z := 0.
Definition GC_IO : Z := 1.

Definition SEC_FREE : Z := 0.
Definition PG_FREE : Z := 0.
Definition PG_INVALID : Z := 1.
Definition PG_VALID : Z := 2.

Definition CELL_TYPE_LSB : Z := 0.
Definition CELL_TYPE_MSB : Z := 1.
Definition CELL_TYPE_CSB : Z := 2.
Definition MAX_CELL_TYPES : Z := 3.

Definition PAGE_BITS : Z := 16.
Definition BLK_BITS : Z := 16.
Definition PL_BITS : Z := 8.
Definition LUN_BITS : Z := 8.
Definition CH_BITS : Z := 8.

(** ** Physical page addresses *)
Definition ppa_pg (p : Z) : Z := getf p 0 PAGE_BITS.
Definition ppa_blk (p : Z) : Z := getf p 16 BLK_BITS.
Definition ppa_pl (p : Z) : Z := getf p 32 PL_BITS.
Definition ppa_lun (p : Z) : Z := getf p 40 LUN_BITS.
Definition ppa_ch (p : Z) : Z := getf p 48 CH_BITS.
(** The second view of the union: the block number in the whole SSD. *)
Definition ppa_blk_in_ssd (p : Z) : Z := getf p 16 (BLK_BITS + PL_BITS + LUN_BITS + CH_BITS).

Definition set_pg (p v : Z) : Z := setf p 0 PAGE_BITS v.
Definition set_blk (p v : Z) : Z := setf p 16 BLK_BITS v.
Definition set_pl (p v : Z) : Z := setf p 32 PL_BITS v.
Definition set_lun (p v : Z) : Z := setf p 40 LUN_BITS v.
Definition set_ch (p v : Z) : Z := setf p 48 CH_BITS v.

(** ** Parameters *)
Record ssdparams := {
  secsz : Z;
  secs_per_pg : Z;
  pgsz : Z;
  pgs_per_flashpg : Z;
  flashpgs_per_blk : Z;
  pgs_per_oneshotpg : Z;
  oneshotpgs_per_blk : Z;
  pgs_per_blk : Z;
  blks_per_pl : Z;
  pls_per_lun : Z;
  luns_per_ch : Z;
  nchs : Z;
  cell_mode : Z;
  write_unit_size : Z;
  write_early_completion : bool;
  pg_4kb_rd_lat : list Z;
  pg_rd_lat : list Z;
  pg_wr_lat : Z;
  blk_er_lat : Z;
  max_ch_xfer_size : Z;
  fw_4kb_rd_lat : Z;
  fw_rd_lat : Z;
  fw_wbuf_lat0 : Z;
  fw_wbuf_lat1 : Z;
  fw_ch_xfer_lat : Z;
  ch_bandwidth : Z;
  pcie_bandwidth : Z;
  secs_per_blk : Z;
  secs_per_pl : Z;
  secs_per_lun : Z;
  secs_per_ch : Z;
  tt_secs : Z;
  pgs_per_pl : Z;
  pgs_per_lun : Z;
  pgs_per_ch : Z;
  tt_pgs : Z;
  blks_per_lun : Z;
  blks_per_ch : Z;
  tt_blks : Z;
  secs_per_line : Z;
  pgs_per_line : Z;
  blks_per_line : Z;
  tt_lines : Z;
  pls_per_ch : Z;
  tt_pls : Z;
  tt_luns : Z;
  write_buffer_size : Z;
}.

(** [int] products wrap (the kernel is built with -fno-strict-overflow) and are
    then converted to [unsigned long]. *)
Definition imul (a b : Z) : Z := s32 (a * b).

Definition ssd_init_params (cfg : ssd_config) (capacity nparts : Z) : outcome ssdparams :=
  let secsz_ := LBA_SIZE in
  let secs_per_pg_ := 4096 / LBA_SIZE in
  let pgsz_ := imul secsz_ secs_per_pg_ in
  let nchs_ := NAND_CHANNELS cfg in
  let pls_per_lun_ := PLNS_PER_LUN cfg in
  let luns_per_ch_ := LUNS_PER_NAND_CH cfg in
  let cell_mode_ := CFG_CELL_MODE cfg in
  let* r := modO (u32 nchs_) nparts in
  ASSERT! r =? 0;
  let nchs_ := s32 (u32 nchs_ / nparts) in
  let capacity := capacity / nparts in
  let* (blks_per_pl_, blk_size) :=
    (if 0 <? BLKS_PER_PLN cfg then
       let blks_per_pl_ := BLKS_PER_PLN cfg in
       let d := u64 (imul (imul (imul blks_per_pl_ pls_per_lun_) luns_per_ch_) nchs_) in
       GUARD! negb (d =? 0);
       Ok (blks_per_pl_, DIV_ROUND_UP64 capacity d)
     else
       ASSERT! 0 <? BLK_SIZE cfg;
       let blk_size := BLK_SIZE cfg in
       let d := u64 (blk_size * pls_per_lun_ * luns_per_ch_ * nchs_) in
       GUARD! negb (d =? 0);
       Ok (s32 (DIV_ROUND_UP64 capacity d), blk_size)) in
  ASSERT! (ONESHOT_PAGE_SIZE cfg mod pgsz_ =? 0) && (FLASH_PAGE_SIZE cfg mod pgsz_ =? 0);
  ASSERT! ONESHOT_PAGE_SIZE cfg mod FLASH_PAGE_SIZE cfg =? 0;
  let pgs_per_oneshotpg_ := ONESHOT_PAGE_SIZE cfg / pgsz_ in
  let oneshotpgs_per_blk_ := s32 (DIV_ROUND_UP64 blk_size (ONESHOT_PAGE_SIZE cfg)) in
  let pgs_per_flashpg_ := FLASH_PAGE_SIZE cfg / pgsz_ in
  let flashpgs_per_blk_ := imul (ONESHOT_PAGE_SIZE cfg / FLASH_PAGE_SIZE cfg) oneshotpgs_per_blk_ in
  let pgs_per_blk_ := imul pgs_per_oneshotpg_ oneshotpgs_per_blk_ in
  let secs_per_blk_ := u64 (imul secs_per_pg_ pgs_per_blk_) in
  let secs_per_pl_ := u64 (secs_per_blk_ * blks_per_pl_) in
  let secs_per_lun_ := u64 (secs_per_pl_ * pls_per_lun_) in
  let secs_per_ch_ := u64 (secs_per_lun_ * luns_per_ch_) in
  let tt_secs_ := u64 (secs_per_ch_ * nchs_) in
  let pgs_per_pl_ := u64 (imul pgs_per_blk_ blks_per_pl_) in
  let pgs_per_lun_ := u64 (pgs_per_pl_ * pls_per_lun_) in
  let pgs_per_ch_ := u64 (pgs_per_lun_ * luns_per_ch_) in
  let tt_pgs_ := u64 (pgs_per_ch_ * nchs_) in
  let blks_per_lun_ := u64 (imul blks_per_pl_ pls_per_lun_) in
  let blks_per_ch_ := u64 (blks_per_lun_ * luns_per_ch_) in
  let tt_blks_ := u64 (blks_per_ch_ * nchs_) in
  let pls_per_ch_ := u64 (imul pls_per_lun_ luns_per_ch_) in
  let tt_pls_ := u64 (pls_per_ch_ * nchs_) in
  let tt_luns_ := u64 (imul luns_per_ch_ nchs_) in
  let blks_per_line_ := tt_luns_ in
  let pgs_per_line_ := u64 (blks_per_line_ * pgs_per_blk_) in
  let secs_per_line_ := u64 (pgs_per_line_ * secs_per_pg_) in
  Ok {| secsz := secsz_; secs_per_pg := secs_per_pg_; pgsz := pgsz_;
        pgs_per_flashpg := pgs_per_flashpg_; flashpgs_per_blk := flashpgs_per_blk_;
        pgs_per_oneshotpg := pgs_per_oneshotpg_; oneshotpgs_per_blk := oneshotpgs_per_blk_;
        pgs_per_blk := pgs_per_blk_; blks_per_pl := blks_per_pl_; pls_per_lun := pls_per_lun_;
        luns_per_ch := luns_per_ch_; nchs := nchs_; cell_mode := cell_mode_;
        write_unit_size := WRITE_UNIT_SIZE cfg;
        write_early_completion := WRITE_EARLY_COMPLETION cfg;
        pg_4kb_rd_lat := NAND_4KB_READ_LATENCY cfg; pg_rd_lat := NAND_READ_LATENCY cfg;
        pg_wr_lat := NAND_PROG_LATENCY cfg; blk_er_lat := NAND_ERASE_LATENCY cfg;
        max_ch_xfer_size := MAX_CH_XFER_SIZE cfg;
        fw_4kb_rd_lat := FW_4KB_READ_LATENCY cfg; fw_rd_lat := FW_READ_LATENCY cfg;
        fw_wbuf_lat0 := FW_WBUF_LATENCY0 cfg; fw_wbuf_lat1 := FW_WBUF_LATENCY1 cfg;
        fw_ch_xfer_lat := FW_CH_XFER_LATENCY cfg;
        ch_bandwidth := NAND_CHANNEL_BANDWIDTH cfg; pcie_bandwidth := PCIE_BANDWIDTH cfg;
        secs_per_blk := secs_per_blk_; secs_per_pl := secs_per_pl_;
        secs_per_lun := secs_per_lun_; secs_per_ch := secs_per_ch_; tt_secs := tt_secs_;
        pgs_per_pl := pgs_per_pl_; pgs_per_lun := pgs_per_lun_; pgs_per_ch := pgs_per_ch_;
        tt_pgs := tt_pgs_; blks_per_lun := blks_per_lun_; blks_per_ch := blks_per_ch_;
        tt_blks := tt_blks_; secs_per_line := secs_per_line_; pgs_per_line := pgs_per_line_;
        blks_per_line := blks_per_line_; tt_lines := blks_per_lun_;
        pls_per_ch := pls_per_ch_; tt_pls := tt_pls_; tt_luns := tt_luns_;
        write_buffer_size := u64 (GLOBAL_WB_SIZE cfg) |}.

(** ** The flash array *)
Record nand_page := mk_nand_page { pg_sec : list Z; pg_nsecs : Z; pg_status : Z }.

Record nand_block := mk_nand_block {
  nb_pg : list nand_page;
  nb_npgs : Z;
  nb_ipc : Z;
  nb_vpc : Z;
  nb_erase_cnt : Z;
  nb_wp : Z;
}.

(** [None] is a member that [kmalloc] left uninitialised. *)
Record nand_plane := mk_nand_plane {
  np_blk : list nand_block;
  np_next_pln_avail_time : option Z;
  np_nblks : Z;
}.

Record nand_lun := mk_nand_lun {
  nl_pl : list nand_plane;
  nl_npls : Z;
  nl_next_lun_avail_time : Z;
  nl_busy : bool;
  nl_gc_endtime : option Z;
}.

Record ssd_channel := mk_ssd_channel {
  sc_lun : list nand_lun;
  sc_nluns : Z;
  sc_gc_endtime : option Z;
  sc_perf_model : channel_model;
}.

Record ssd := mk_ssd { sp : ssdparams; ssd_chs : list ssd_channel; cpu_nr_dispatcher : Z }.

Definition set_pg_status (p : nand_page) (st : Z) : nand_page :=
  mk_nand_page (pg_sec p) (pg_nsecs p) st.
Definition set_nl_time (l : nand_lun) (t : Z) : nand_lun :=
  mk_nand_lun (nl_pl l) (nl_npls l) t (nl_busy l) (nl_gc_endtime l).
Definition set_nl_gc (l : nand_lun) (t : Z) : nand_lun :=
  mk_nand_lun (nl_pl l) (nl_npls l) (nl_next_lun_avail_time l) (nl_busy l) (Some t).
Definition set_sc_lun (c : ssd_channel) (l : list nand_lun) : ssd_channel :=
  mk_ssd_channel l (sc_nluns c) (sc_gc_endtime c) (sc_perf_model c).
Definition set_sc_perf (c : ssd_channel) (m : channel_model) : ssd_channel :=
  mk_ssd_channel (sc_lun c) (sc_nluns c) (sc_gc_endtime c) m.
Definition set_chs (s : ssd) (c : list ssd_channel) : ssd := mk_ssd (sp s) c (cpu_nr_dispatcher s).

Definition get_ch (s : ssd) (ppa : Z) : outcome ssd_channel := nthZ (ssd_chs s) (ppa_ch ppa).
Definition get_lun (s : ssd) (ppa : Z) : outcome nand_lun :=
  let* ch := get_ch s ppa in nthZ (sc_lun ch) (ppa_lun ppa).
Definition get_pl (s : ssd) (ppa : Z) : outcome nand_plane :=
  let* lun := get_lun s ppa in nthZ (nl_pl lun) (ppa_pl ppa).
Definition get_blk (s : ssd) (ppa : Z) : outcome nand_block :=
  let* pl := get_pl s ppa in nthZ (np_blk pl) (ppa_blk ppa).
Definition get_pg (s : ssd) (ppa : Z) : outcome nand_page :=
  let* blk := get_blk s ppa in nthZ (nb_pg blk) (ppa_pg ppa).

(** [u32] is the type of the result in the source. *)
Definition get_cell (s : ssd) (ppa : Z) : outcome Z :=
  let* q := divO (ppa_pg ppa) (pgs_per_flashpg (sp s)) in
  let* r := modO q (cell_mode (sp s) + 1) in
  Ok (u32 r).

(** Assignments through the pointers that [get_ch] .. [get_pg] return. *)
Definition with_ch (s : ssd) (ppa : Z) (f : ssd_channel -> outcome ssd_channel) : outcome ssd :=
  let* l := alterZ f (ssd_chs s) (ppa_ch ppa) in Ok (set_chs s l).
Definition with_lun (s : ssd) (ppa : Z) (f : nand_lun -> outcome nand_lun) : outcome ssd :=
  with_ch s ppa (fun ch =>
    let* l := alterZ f (sc_lun ch) (ppa_lun ppa) in Ok (set_sc_lun ch l)).
Definition with_pl (s : ssd) (ppa : Z) (f : nand_plane -> outcome nand_plane) : outcome ssd :=
  with_lun s ppa (fun lun =>
    let* l := alterZ f (nl_pl lun) (ppa_pl ppa) in
    Ok (mk_nand_lun l (nl_npls lun) (nl_next_lun_avail_time lun) (nl_busy lun) (nl_gc_endtime lun))).
Definition with_blk (s : ssd) (ppa : Z) (f : nand_block -> outcome nand_block) : outcome ssd :=
  with_pl s ppa (fun pl =>
    let* l := alterZ f (np_blk pl) (ppa_blk ppa) in
    Ok (mk_nand_plane l (np_next_pln_avail_time pl) (np_nblks pl))).
Definition with_pg (s : ssd) (ppa : Z) (f : nand_page -> outcome nand_page) : outcome ssd :=
  with_blk s ppa (fun blk =>
    let* l := alterZ f (nb_pg blk) (ppa_pg ppa) in
    Ok (mk_nand_block l (nb_npgs blk) (nb_ipc blk) (nb_vpc blk) (nb_erase_cnt blk) (nb_wp blk))).

(** ** Write buffers and the hardware shared by the instances *)
Record buffer := mk_buffer { buf_size : Z; buf_remaining : Z }.

(** Which [struct buffer] an internal operation points to. *)
Inductive buf_id := WB_GLOBAL | WB_ZONE (zid : Z) | WB_ZRWA (zid : Z).

(** The arguments of a call of [schedule_internal_operation]. *)
Record internal_op := mk_internal_op {
  io_sqid : Z;
  io_nsecs_target : Z;
  io_buffer : buf_id;
  io_buffs_to_release : Z;
}.

Record hw := mk_hw {
  hw_pcie : channel_model;
  hw_write_buffer : buffer;
  hw_clk : nat;
  hw_sched : list internal_op;
}.

Definition set_pcie (h : hw) (m : channel_model) (n : nat) : hw :=
  mk_hw m (hw_write_buffer h) n (hw_sched h).
Definition set_clk (h : hw) (n : nat) : hw :=
  mk_hw (hw_pcie h) (hw_write_buffer h) n (hw_sched h).
Definition set_write_buffer (h : hw) (b : buffer) : hw :=
  mk_hw (hw_pcie h) b (hw_clk h) (hw_sched h).
Definition log_internal_op (h : hw) (o : internal_op) : hw :=
  mk_hw (hw_pcie h) (hw_write_buffer h) (hw_clk h) (hw_sched h ++ [o]).

Definition buffer_init (size : Z) : buffer := mk_buffer size size.

(** The lock makes each operation atomic. *)
Definition buffer_allocate (b : buffer) (size : Z) : Z * buffer :=
  let size := if buf_remaining b <? size then 0 else size in
  (u32 size, mk_buffer (buf_size b) (u64 (buf_remaining b - size))).

Definition buffer_release (b : buffer) (size : Z) : bool * buffer :=
  (true, mk_buffer (buf_size b) (u64 (buf_remaining b + size))).

Definition buffer_refill (b : buffer) : buffer := mk_buffer (buf_size b) (buf_size b).

(** ** Initialisation *)
Definition ssd_init_nand_page (spp : ssdparams) : nand_page :=
  mk_nand_page (replicate (Z.to_nat (secs_per_pg spp)) SEC_FREE) (secs_per_pg spp) PG_FREE.

Definition ssd_init_nand_blk (spp : ssdparams) : nand_block :=
  mk_nand_block (replicate (Z.to_nat (pgs_per_blk spp)) (ssd_init_nand_page spp))
    (pgs_per_blk spp) 0 0 0 0.

Definition ssd_init_nand_plane (spp : ssdparams) : nand_plane :=
  mk_nand_plane (replicate (Z.to_nat (blks_per_pl spp)) (ssd_init_nand_blk spp)) None
    (blks_per_pl spp).

Definition ssd_init_nand_lun (spp : ssdparams) : nand_lun :=
  mk_nand_lun (replicate (Z.to_nat (pls_per_lun spp)) (ssd_init_nand_plane spp))
    (pls_per_lun spp) 0 false None.

Definition ssd_init_ch (spp : ssdparams) : outcome ssd_channel :=
  let luns := replicate (Z.to_nat (luns_per_ch spp)) (ssd_init_nand_lun spp) in
  let* m := chmodel_init (ch_bandwidth spp) in
  let lat := u32 (cm_xfer_lat m + u64 (fw_ch_xfer_lat spp * UNIT_XFER_SIZE) / KB 4) in
  let m := mk_channel_model (cm_cur_time m) (cm_head m) (cm_valid_len m) (cm_max_credits m)
             (cm_command_credits m) lat (cm_avail_credits m) in
  Ok (mk_ssd_channel luns (luns_per_ch spp) None m).

Definition ssd_init_pcie (spp : ssdparams) : outcome channel_model :=
  chmodel_init (pcie_bandwidth spp).

(** The device, its PCIe link and its write buffer. *)
Definition ssd_init (spp : ssdparams) (cpu : Z) : outcome (ssd * channel_model * buffer) :=
  let* chs := forO 0 (nchs spp) [] (fun l _ => let* c := ssd_init_ch spp in Ok (l ++ [c])) in
  let* pcie := ssd_init_pcie spp in
  Ok (mk_ssd spp chs cpu, pcie, buffer_init (write_buffer_size spp)).

(** ** Timing *)
Record nand_cmd := mk_nand_cmd {
  nc_type : Z;
  nc_cmd : Z;
  nc_xfer_size : Z;
  nc_stime : Z;
  nc_interleave_pci_dma : bool;
  nc_ppa : Z;
}.

Section Timing.
Context `{Clock}.

Definition ssd_advance_pcie (h : hw) (request_time length : Z) : outcome (Z * hw) :=
  let* (t, m, n) := chmodel_request (hw_clk h) (hw_pcie h) request_time length in
  Ok (t, set_pcie h m n).

Definition ssd_advance_write_buffer (s : ssd) (h : hw) (request_time length : Z)
  : outcome (Z * hw) :=
  let nsecs_latest := u64 (request_time + fw_wbuf_lat0 (sp s)) in
  let nsecs_latest := u64 (nsecs_latest + u64 (fw_wbuf_lat1 (sp s) * DIV_ROUND_UP64 length (KB 4))) in
  ssd_advance_pcie h nsecs_latest length.

(** The transfer loop of a read: channel [m], link [h], start of the next
    transfer, and the two times the loop assigns, unassigned before its first
    iteration. *)
Fixpoint read_xfer (fuel : nat) (spp : ssdparams) (interleave : bool) (m : channel_model) (h : hw)
  (chnl_stime remaining : Z) (times : option (Z * Z))
  : outcome (channel_model * hw * option (Z * Z)) :=
  if remaining =? 0 then Ok (m, h, times)
  else
    match fuel with
    | O => NoFuel
    | S fuel' =>
        let xfer_size := Z.min remaining (max_ch_xfer_size spp) in
        let* (chnl_etime, m, n) := chmodel_request (hw_clk h) m chnl_stime xfer_size in
        let h := set_clk h n in
        let* (completed_time, h) :=
          (if interleave then ssd_advance_pcie h chnl_etime xfer_size
           else Ok (chnl_etime, h)) in
        read_xfer fuel' spp interleave m h chnl_etime (u64 (remaining - xfer_size))
          (Some (chnl_etime, completed_time))
    end.

Definition ssd_advance_nand (s : ssd) (h : hw) (ncmd : nand_cmd) : outcome (Z * ssd * hw) :=
  let c := nc_cmd ncmd in
  let '(cmd_stime, h) :=
    (if nc_stime ncmd =? 0 then (cpu_clock (hw_clk h), set_clk h (S (hw_clk h)))
     else (nc_stime ncmd, h)) in
  let ppa := nc_ppa ncmd in
  if ppa =? UNMAPPED_PPA then Ok (cmd_stime, s, h)
  else
    let spp := sp s in
    let* lun := get_lun s ppa in
    let* ch := get_ch s ppa in
    let* cell := get_cell s ppa in
    let finish (m : channel_model) (lun_time completed_time : Z) (h : hw) :=
      let* s1 := with_ch s ppa (fun ch => Ok (set_sc_perf ch m)) in
      let* s2 := with_lun s1 ppa (fun lun => Ok (set_nl_time lun lun_time)) in
      Ok (completed_time, s2, h) in
    if c =? NAND_READ then
      let nand_stime := Z.max (nl_next_lun_avail_time lun) cmd_stime in
      let* lat := (if nc_xfer_size ncmd =? 4096 then nthZ (pg_4kb_rd_lat spp) cell
                   else nthZ (pg_rd_lat spp) cell) in
      let nand_etime := u64 (nand_stime + lat) in
      let fuel := Z.to_nat (nc_xfer_size ncmd / max_ch_xfer_size spp + 1) in
      let* (m, h, times) :=
        read_xfer fuel spp (nc_interleave_pci_dma ncmd) (sc_perf_model ch) h nand_etime
          (nc_xfer_size ncmd) None in
      let* (chnl_etime, completed_time) := of_option times in
      finish m chnl_etime completed_time h
    else if c =? NAND_WRITE then
      let chnl_stime := Z.max (nl_next_lun_avail_time lun) cmd_stime in
      let* (chnl_etime, m, n) :=
        chmodel_request (hw_clk h) (sc_perf_model ch) chnl_stime (nc_xfer_size ncmd) in
      let nand_etime := u64 (chnl_etime + pg_wr_lat spp) in
      finish m nand_etime nand_etime (set_clk h n)
    else if c =? NAND_ERASE then
      let nand_etime := u64 (Z.max (nl_next_lun_avail_time lun) cmd_stime + blk_er_lat spp) in
      finish (sc_perf_model ch) nand_etime nand_etime h
    else if c =? NAND_NOP then
      let nand_stime := Z.max (nl_next_lun_avail_time lun) cmd_stime in
      finish (sc_perf_model ch) nand_stime nand_stime h
    else Ok (0, s, h).

Definition ssd_next_idle_time (s : ssd) (h : hw) : outcome (Z * hw) :=
  let spp := sp s in
  let latest := cpu_clock (hw_clk h) in
  let h := set_clk h (S (hw_clk h)) in
  let* latest :=
    forO 0 (nchs spp) latest (fun latest i =>
      let* ch := nthZ (ssd_chs s) i in
      forO 0 (luns_per_ch spp) latest (fun latest j =>
        let* lun := nthZ (sc_lun ch) j in
        Ok (Z.max latest (nl_next_lun_avail_time lun)))) in
  Ok (latest, h).

End Timing.
