(* ===== verification/SsdFacts.v ===== *)
(** * SsdFacts: the flash device seen through its blocks

    [blk_at], [ltime_at] and [perf_at] are the views of the tree of channels,
    LUNs, planes and blocks that the FTLs depend on.  The assignments of Ssd
    through [with_*] change one entry of one view; the timing of a NAND command
    leaves every block alone ([nand_equiv]) and cannot fail on a device that
    satisfies [ssd_ok]. *)
From stdpp Require Import base list numbers.
From Stdlib Require Import ZArith Lia.
From S2P Require Import Prelude ChannelModel SsdConfig Ssd.

Open Scope Z_scope.
Open Scope nvmev_scope.

(** ** Page addresses

    Each field reads back what was written to it and is left alone by the
    assignments to the others. *)
Definition ppa_rsv (p : Z) : Z := getf p 56 8.

Create HintDb ppa.

Ltac field_eq :=
  unfold ppa_pg, ppa_blk, ppa_pl, ppa_lun, ppa_ch, set_pg, set_blk, set_pl, set_lun, set_ch,
    PAGE_BITS, BLK_BITS, PL_BITS, LUN_BITS, CH_BITS;
  rewrite getf_setf_eq by lia; reflexivity.
Ltac field_ne :=
  unfold ppa_pg, ppa_blk, ppa_pl, ppa_lun, ppa_ch, ppa_rsv, set_pg, set_blk, set_pl, set_lun, set_ch,
    PAGE_BITS, BLK_BITS, PL_BITS, LUN_BITS, CH_BITS;
  apply getf_setf_ne; lia.

Lemma ppa_pg_set p v : ppa_pg (set_pg p v) = u16 v.
Proof. field_eq. Qed.
Lemma ppa_blk_set p v : ppa_blk (set_blk p v) = u16 v.
Proof. field_eq. Qed.
Lemma ppa_pl_set p v : ppa_pl (set_pl p v) = u8 v.
Proof. field_eq. Qed.
Lemma ppa_lun_set p v : ppa_lun (set_lun p v) = u8 v.
Proof. field_eq. Qed.
Lemma ppa_ch_set p v : ppa_ch (set_ch p v) = u8 v.
Proof. field_eq. Qed.
Lemma ppa_blk_set_pg p v : ppa_blk (set_pg p v) = ppa_blk p.
Proof. field_ne. Qed.
Lemma ppa_pl_set_pg p v : ppa_pl (set_pg p v) = ppa_pl p.
Proof. field_ne. Qed.
Lemma ppa_lun_set_pg p v : ppa_lun (set_pg p v) = ppa_lun p.
Proof. field_ne. Qed.
Lemma ppa_ch_set_pg p v : ppa_ch (set_pg p v) = ppa_ch p.
Proof. field_ne. Qed.
Lemma ppa_rsv_set_pg p v : ppa_rsv (set_pg p v) = ppa_rsv p.
Proof. field_ne. Qed.
Lemma ppa_pg_set_blk p v : ppa_pg (set_blk p v) = ppa_pg p.
Proof. field_ne. Qed.
Lemma ppa_pl_set_blk p v : ppa_pl (set_blk p v) = ppa_pl p.
Proof. field_ne. Qed.
Lemma ppa_lun_set_blk p v : ppa_lun (set_blk p v) = ppa_lun p.
Proof. field_ne. Qed.
Lemma ppa_ch_set_blk p v : ppa_ch (set_blk p v) = ppa_ch p.
Proof. field_ne. Qed.
Lemma ppa_rsv_set_blk p v : ppa_rsv (set_blk p v) = ppa_rsv p.
Proof. field_ne. Qed.
Lemma ppa_pg_set_pl p v : ppa_pg (set_pl p v) = ppa_pg p.
Proof. field_ne. Qed.
Lemma ppa_blk_set_pl p v : ppa_blk (set_pl p v) = ppa_blk p.
Proof. field_ne. Qed.
Lemma ppa_lun_set_pl p v : ppa_lun (set_pl p v) = ppa_lun p.
Proof. field_ne. Qed.
Lemma ppa_ch_set_pl p v : ppa_ch (set_pl p v) = ppa_ch p.
Proof. field_ne. Qed.
Lemma ppa_rsv_set_pl p v : ppa_rsv (set_pl p v) = ppa_rsv p.
Proof. field_ne. Qed.
Lemma ppa_pg_set_lun p v : ppa_pg (set_lun p v) = ppa_pg p.
Proof. field_ne. Qed.
Lemma ppa_blk_set_lun p v : ppa_blk (set_lun p v) = ppa_blk p.
Proof. field_ne. Qed.
Lemma ppa_pl_set_lun p v : ppa_pl (set_lun p v) = ppa_pl p.
Proof. field_ne. Qed.
Lemma ppa_ch_set_lun p v : ppa_ch (set_lun p v) = ppa_ch p.
Proof. field_ne. Qed.
Lemma ppa_rsv_set_lun p v : ppa_rsv (set_lun p v) = ppa_rsv p.
Proof. field_ne. Qed.
Lemma ppa_pg_set_ch p v : ppa_pg (set_ch p v) = ppa_pg p.
Proof. field_ne. Qed.
Lemma ppa_blk_set_ch p v : ppa_blk (set_ch p v) = ppa_blk p.
Proof. field_ne. Qed.
Lemma ppa_pl_set_ch p v : ppa_pl (set_ch p v) = ppa_pl p.
Proof. field_ne. Qed.
Lemma ppa_lun_set_ch p v : ppa_lun (set_ch p v) = ppa_lun p.
Proof. field_ne. Qed.
Lemma ppa_rsv_set_ch p v : ppa_rsv (set_ch p v) = ppa_rsv p.
Proof. field_ne. Qed.
#[export] Hint Rewrite
  ppa_pg_set ppa_blk_set ppa_pl_set ppa_lun_set ppa_ch_set ppa_blk_set_pg ppa_pl_set_pg
  ppa_lun_set_pg ppa_ch_set_pg ppa_rsv_set_pg ppa_pg_set_blk ppa_pl_set_blk ppa_lun_set_blk
  ppa_ch_set_blk ppa_rsv_set_blk ppa_pg_set_pl ppa_blk_set_pl ppa_lun_set_pl ppa_ch_set_pl
  ppa_rsv_set_pl ppa_pg_set_lun ppa_blk_set_lun ppa_pl_set_lun ppa_ch_set_lun
  ppa_rsv_set_lun ppa_pg_set_ch ppa_blk_set_ch ppa_pl_set_ch ppa_lun_set_ch ppa_rsv_set_ch : ppa.

Lemma ppa_ranges p :
  0 <= ppa_pg p < 65536 /\ 0 <= ppa_blk p < 65536 /\ 0 <= ppa_pl p < 256 /\
  0 <= ppa_lun p < 256 /\ 0 <= ppa_ch p < 256.
Proof.
  unfold ppa_pg, ppa_blk, ppa_pl, ppa_lun, ppa_ch, PAGE_BITS, BLK_BITS, PL_BITS, LUN_BITS, CH_BITS.
  pose proof (getf_range p 0 16). pose proof (getf_range p 16 16). pose proof (getf_range p 32 8).
  pose proof (getf_range p 40 8). pose proof (getf_range p 48 8). lia.
Qed.

(** An address whose reserved byte is clear is not the unmapped one. *)
Lemma ppa_rsv_mapped p : ppa_rsv p = 0 -> p <> UNMAPPED_PPA.
Proof. by intros H ->. Qed.

#[global] Opaque ppa_pg ppa_blk ppa_pl ppa_lun ppa_ch ppa_blk_in_ssd
  set_pg set_blk set_pl set_lun set_ch.

(** ** Views *)
Definition nthO {A : Type} (l : list A) (i : Z) : option A :=
  if 0 <=? i then l !! Z.to_nat i else None.

Definition ch_at (s : ssd) (c : Z) : option ssd_channel := nthO (ssd_chs s) c.
Definition lun_at (s : ssd) (c l : Z) : option nand_lun := ch ← ch_at s c; nthO (sc_lun ch) l.
Definition blk_at (s : ssd) (c l p b : Z) : option nand_block :=
  lun ← lun_at s c l; pl ← nthO (nl_pl lun) p; nthO (np_blk pl) b.
Definition perf_at (s : ssd) (c : Z) : option channel_model := sc_perf_model <$> ch_at s c.
Definition ltime_at (s : ssd) (c l : Z) : option Z := nl_next_lun_avail_time <$> lun_at s c l.

(** Devices with the same blocks. *)
Definition nand_equiv (s s' : ssd) : Prop :=
  sp s' = sp s /\ forall c l p b, blk_at s' c l p b = blk_at s c l p b.

#[export] Instance nand_equiv_equivalence : Equivalence nand_equiv.
Proof.
  split.
  - by intros s.
  - intros s s' [H1 H2]. split; [done|]. intros. by rewrite H2.
  - intros s1 s2 s3 [H1 H2] [H3 H4]. split; [congruence|]. intros. by rewrite H4, H2.
Qed.

#[export] Instance blk_at_proper : Proper (nand_equiv ==> eq ==> eq ==> eq ==> eq ==> eq) blk_at.
Proof. intros s s' [_ H] c ? <- l ? <- p ? <- b ? <-. by rewrite H. Qed.

#[export] Instance sp_proper : Proper (nand_equiv ==> eq) sp.
Proof. by intros s s' [H _]. Qed.

(** ** Facts on the views *)
Lemma nthO_nthZ {A} (l : list A) i x : nthO l i = Some x <-> nthZ l i = Ok x.
Proof.
  unfold nthO, nthZ, of_option. destruct (0 <=? i); [|done].
  destruct (l !! _); [|done]. by split; intros [= ->].
Qed.

Lemma nthO_insert {A} (l : list A) i j x y :
  nthO l i = Some y -> nthO (<[Z.to_nat i := x]> l) j = if j =? i then Some x else nthO l j.
Proof.
  intros H%nthO_nthZ. pose proof (nthZ_insert l i j x (nthZ_range _ _ _ H)) as E.
  destruct (j =? i); [by apply nthO_nthZ|].
  unfold nthZ, nthO, of_option in *. destruct (0 <=? j); [|done].
  destruct (<[Z.to_nat i := x]> l !! Z.to_nat j), (l !! Z.to_nat j); simpl in E; congruence.
Qed.

Lemma alterZ_nthO {A} (f : A -> outcome A) l i x y :
  nthO l i = Some x -> f x = Ok y ->
  alterZ f l i = Ok (<[Z.to_nat i := y]> l) /\
  forall j, nthO (<[Z.to_nat i := y]> l) j = if j =? i then Some y else nthO l j.
Proof.
  intros Hx Hf. split; [by apply (alterZ_Ok f l i x); [apply nthO_nthZ|]|].
  intros j. by apply (nthO_insert l i j y x).
Qed.

Lemma with_ch_spec s ppa f ch ch' :
  ch_at s (ppa_ch ppa) = Some ch -> f ch = Ok ch' ->
  exists s', with_ch s ppa f = Ok s' /\ sp s' = sp s /\
    forall c, ch_at s' c = if c =? ppa_ch ppa then Some ch' else ch_at s c.
Proof.
  intros Hc Hf. unfold with_ch.
  destruct (alterZ_nthO f _ _ _ _ Hc Hf) as [-> Hv]. cbn [obind].
  eexists. split; [reflexivity|]. split; [reflexivity|exact Hv].
Qed.

Lemma with_lun_spec s ppa f lun lun' :
  lun_at s (ppa_ch ppa) (ppa_lun ppa) = Some lun -> f lun = Ok lun' ->
  exists s', with_lun s ppa f = Ok s' /\ sp s' = sp s /\
    (forall c, perf_at s' c = perf_at s c) /\
    forall c l, lun_at s' c l =
      if (c =? ppa_ch ppa) && (l =? ppa_lun ppa) then Some lun' else lun_at s c l.
Proof.
  unfold lun_at. intros (ch & Hc & Hl)%bind_Some Hf.
  destruct (alterZ_nthO f _ _ _ _ Hl Hf) as [Ha Hv].
  set (g := fun ch => let* l := alterZ f (sc_lun ch) (ppa_lun ppa) in Ok (set_sc_lun ch l)).
  assert (Hg : g ch = Ok (set_sc_lun ch (<[Z.to_nat (ppa_lun ppa) := lun']> (sc_lun ch))))
    by (unfold g; by rewrite Ha).
  destruct (with_ch_spec s ppa g ch _ Hc Hg) as (s' & Hw & Hsp & Hch).
  exists s'. split; [exact Hw|]. split; [done|]. split.
  - intros c. unfold perf_at. rewrite Hch. destruct (Z.eqb_spec c (ppa_ch ppa)); [subst; by rewrite Hc|done].
  - intros c l. rewrite Hch. destruct (Z.eqb_spec c (ppa_ch ppa)) as [->|]; simpl; [|done].
    rewrite Hv, Hc. simpl. by destruct (l =? ppa_lun ppa).
Qed.

Lemma with_blk_spec s ppa f b b' :
  blk_at s (ppa_ch ppa) (ppa_lun ppa) (ppa_pl ppa) (ppa_blk ppa) = Some b -> f b = Ok b' ->
  exists s', with_blk s ppa f = Ok s' /\ sp s' = sp s /\
    (forall c, perf_at s' c = perf_at s c) /\ (forall c l, ltime_at s' c l = ltime_at s c l) /\
    forall c l p k, blk_at s' c l p k =
      if (c =? ppa_ch ppa) && (l =? ppa_lun ppa) && (p =? ppa_pl ppa) && (k =? ppa_blk ppa)
      then Some b' else blk_at s c l p k.
Proof.
  unfold blk_at. intros (lun & Hl & (pl & Hp & Hb)%bind_Some)%bind_Some Hf.
  destruct (alterZ_nthO f _ _ _ _ Hb Hf) as [Hab Hvb].
  set (pl' := mk_nand_plane (<[Z.to_nat (ppa_blk ppa) := b']> (np_blk pl))
                (np_next_pln_avail_time pl) (np_nblks pl)).
  set (g := fun pl => let* l := alterZ f (np_blk pl) (ppa_blk ppa) in
              Ok (mk_nand_plane l (np_next_pln_avail_time pl) (np_nblks pl))).
  assert (Hg : g pl = Ok pl') by (unfold g; by rewrite Hab).
  destruct (alterZ_nthO g _ _ _ _ Hp Hg) as [Hap Hvp].
  unfold with_blk, with_pl. fold g.
  set (k0 := fun lun => let* l := alterZ g (nl_pl lun) (ppa_pl ppa) in
    Ok (mk_nand_lun l (nl_npls lun) (nl_next_lun_avail_time lun) (nl_busy lun) (nl_gc_endtime lun))).
  assert (Hk0 : k0 lun = Ok (mk_nand_lun (<[Z.to_nat (ppa_pl ppa) := pl']> (nl_pl lun)) (nl_npls lun)
    (nl_next_lun_avail_time lun) (nl_busy lun) (nl_gc_endtime lun))) by (unfold k0; by rewrite Hap).
  destruct (with_lun_spec s ppa k0 lun _ Hl Hk0) as (s' & Hw & Hsp & Hpf & Hlun).
  exists s'. split; [exact Hw|]. split; [done|]. split; [done|]. split.
  - intros c l. unfold ltime_at. rewrite Hlun.
    destruct (Z.eqb_spec c (ppa_ch ppa)), (Z.eqb_spec l (ppa_lun ppa)); simpl; try done.
    subst. by rewrite Hl.
  - intros c l p k. rewrite Hlun.
    destruct (Z.eqb_spec c (ppa_ch ppa)), (Z.eqb_spec l (ppa_lun ppa)); simpl; try done.
    subst. rewrite Hl. simpl. rewrite Hvp. destruct (Z.eqb_spec p (ppa_pl ppa)); simpl; [|done].
    subst. rewrite Hp. simpl. rewrite Hvb. by destruct (k =? ppa_blk ppa).
Qed.

Lemma nand_equiv_luns s s' :
  sp s' = sp s ->
  (forall c l, nl_pl <$> lun_at s' c l = nl_pl <$> lun_at s c l) -> nand_equiv s s'.
Proof.
  intros Hsp Hl. split; [done|]. intros c l p b. specialize (Hl c l). unfold blk_at.
  destruct (lun_at s' c l), (lun_at s c l); simpl in *; congruence.
Qed.

Lemma get_blk_at s ppa b :
  get_blk s ppa = Ok b <->
  blk_at s (ppa_ch ppa) (ppa_lun ppa) (ppa_pl ppa) (ppa_blk ppa) = Some b.
Proof.
  unfold get_blk, get_pl, get_lun, get_ch, blk_at, lun_at, ch_at. split.
  - intros Hb. destruct (nthZ (ssd_chs s) (ppa_ch ppa)) as [ch| | |] eqn:Hc; try discriminate.
    apply nthO_nthZ in Hc. rewrite Hc. simpl in *.
    destruct (nthZ (sc_lun ch) (ppa_lun ppa)) as [lun| | |] eqn:Hl; try discriminate.
    apply nthO_nthZ in Hl. rewrite Hl. simpl in *.
    destruct (nthZ (nl_pl lun) (ppa_pl ppa)) as [pl| | |] eqn:Hp; try discriminate.
    apply nthO_nthZ in Hp. rewrite Hp. by apply nthO_nthZ.
  - intros (lun & (ch & Hc & Hl)%bind_Some & (pl & Hp & Hb)%bind_Some)%bind_Some.
    apply nthO_nthZ in Hc, Hl, Hp, Hb. rewrite Hc. simpl. rewrite Hl. simpl. by rewrite Hp.
Qed.

Lemma get_pg_at s ppa b :
  blk_at s (ppa_ch ppa) (ppa_lun ppa) (ppa_pl ppa) (ppa_blk ppa) = Some b ->
  get_pg s ppa = nthZ (nb_pg b) (ppa_pg ppa).
Proof. intros Hb%get_blk_at. unfold get_pg. by rewrite Hb. Qed.

(** An assignment to a page is one to its block. *)
Lemma with_pg_spec s ppa f b pg pg' :
  blk_at s (ppa_ch ppa) (ppa_lun ppa) (ppa_pl ppa) (ppa_blk ppa) = Some b ->
  nthZ (nb_pg b) (ppa_pg ppa) = Ok pg -> f pg = Ok pg' ->
  exists s', with_pg s ppa f = Ok s' /\ sp s' = sp s /\
    (forall c, perf_at s' c = perf_at s c) /\ (forall c l, ltime_at s' c l = ltime_at s c l) /\
    forall c l p k, blk_at s' c l p k =
      if (c =? ppa_ch ppa) && (l =? ppa_lun ppa) && (p =? ppa_pl ppa) && (k =? ppa_blk ppa)
      then Some (mk_nand_block (<[Z.to_nat (ppa_pg ppa) := pg']> (nb_pg b)) (nb_npgs b) (nb_ipc b)
                   (nb_vpc b) (nb_erase_cnt b) (nb_wp b))
      else blk_at s c l p k.
Proof.
  intros Hb Hpg Hf. unfold with_pg.
  match goal with |- context [with_blk s ppa ?g] =>
    apply (with_blk_spec s ppa g b); [exact Hb|] end.
  by rewrite (alterZ_Ok f _ _ pg pg').
Qed.

(** ** Timing *)

(** The parameters that the timing of a command depends on. *)
Record timing_ok (spp : ssdparams) : Prop := {
  to_flashpg : 0 < pgs_per_flashpg spp;
  to_cell : 0 < cell_mode spp + 1 <= MAX_CELL_TYPES;
  to_4kb : length (pg_4kb_rd_lat spp) = 3%nat;
  to_rd : length (pg_rd_lat spp) = 3%nat;
  to_xfer : 0 < max_ch_xfer_size spp;
}.

Definition u64_ok (x : Z) : Prop := 0 <= x < 18446744073709551616.

Record ssd_ok (s : ssd) : Prop := {
  so_perf : forall c, 0 <= c < nchs (sp s) -> exists m, perf_at s c = Some m /\ ch_inv m;
  so_time : forall c l, 0 <= c < nchs (sp s) -> 0 <= l < luns_per_ch (sp s) ->
    exists t, ltime_at s c l = Some t /\ u64_ok t;
}.

Definition hw_ok (h : hw) : Prop := ch_inv (hw_pcie h).

(** What commands on the device leave alone of the shared hardware. *)
Definition hw_frame (h h' : hw) : Prop :=
  hw_write_buffer h' = hw_write_buffer h /\ hw_sched h' = hw_sched h.

#[export] Instance hw_frame_pre : PreOrder hw_frame.
Proof. split; [done|]. intros h1 h2 h3 [] []. split; congruence. Qed.

Lemma ssd_ok_same s s' :
  ssd_ok s -> sp s' = sp s -> (forall c, perf_at s' c = perf_at s c) ->
  (forall c l, ltime_at s' c l = ltime_at s c l) -> ssd_ok s'.
Proof. intros [H1 H2] Hsp Hp Hl. split; intros *; rewrite ?Hsp, ?Hp, ?Hl; auto. Qed.

Section Timing.
Context `{ClockRange}.

Lemma ssd_advance_pcie_spec h t len :
  hw_ok h -> u64_ok t ->
  exists t' h', ssd_advance_pcie h t len = Ok (t', h') /\ hw_ok h' /\ hw_frame h h' /\ u64_ok t'.
Proof.
  intros Hh Ht. unfold ssd_advance_pcie.
  destruct (chmodel_request_spec (hw_clk h) (hw_pcie h) t len Hh Ht) as (t' & m & -> & Hm & Ht').
  simpl. eexists _, _. done.
Qed.

Lemma ssd_advance_write_buffer_spec s h t len :
  hw_ok h ->
  exists t' h', ssd_advance_write_buffer s h t len = Ok (t', h') /\ hw_ok h' /\ hw_frame h h' /\ u64_ok t'.
Proof. intros Hh. apply ssd_advance_pcie_spec; [done|apply u64_range]. Qed.

Lemma read_xfer_spec fuel spp inter : forall m h t rem times,
  0 < max_ch_xfer_size spp -> ch_inv m -> hw_ok h -> u64_ok t -> u64_ok rem ->
  rem <= Z.of_nat fuel * max_ch_xfer_size spp ->
  (forall p, times = Some p -> u64_ok p.1 /\ u64_ok p.2) -> (rem = 0 -> times <> None) ->
  exists m' h' t1 t2, read_xfer fuel spp inter m h t rem times = Ok (m', h', Some (t1, t2)) /\
    ch_inv m' /\ hw_ok h' /\ hw_frame h h' /\ u64_ok t1 /\ u64_ok t2.
Proof.
  induction fuel as [|fuel IH]; intros m h t rem times Hx Hm Hh Ht Hr Hf Htm Hne; simpl;
    destruct (Z.eqb_spec rem 0) as [E|E].
  1, 3: destruct times as [[t1 t2]|]; [|by destruct (Hne E)]; exists m, h, t1, t2;
    destruct (Htm _ eq_refl); done.
  - unfold u64_ok in *. lia.
  - set (x := Z.min rem (max_ch_xfer_size spp)).
    destruct (chmodel_request_spec (hw_clk h) m t x Hm Ht) as (t' & m' & -> & Hm' & Ht'). simpl.
    assert (Hpc : exists tc h', (if inter then ssd_advance_pcie (set_clk h (S (hw_clk h))) t' x
        else Ok (t', set_clk h (S (hw_clk h)))) = Ok (tc, h') /\ hw_ok h' /\ hw_frame h h' /\ u64_ok tc).
    { destruct inter; [|by eexists _, _].
      destruct (ssd_advance_pcie_spec (set_clk h (S (hw_clk h))) t' x) as (tc & h' & -> & ? & [? ?] & ?); [done|done|].
      by exists tc, h'. }
    destruct Hpc as (tc & h' & -> & Hh' & Hfr & Htc). simpl. unfold u64_ok in *.
    rewrite u64_id by lia.
    destruct (IH m' h' t' (rem - x) (Some (t', tc))) as (m2 & h2 & t1 & t2 & -> & Hm2 & Hh2 & Hfr2 & ? & ?);
      try done; try lia.
    { intros p [= <-]. done. }
    exists m2, h2, t1, t2. split; [done|]. repeat (split; [done|]). split; [|done]. by etransitivity.
Qed.

Lemma get_lun_at s ppa lun :
  lun_at s (ppa_ch ppa) (ppa_lun ppa) = Some lun -> get_lun s ppa = Ok lun.
Proof.
  unfold lun_at, get_lun, get_ch, ch_at. intros (ch & Hc & Hl)%bind_Some.
  apply nthO_nthZ in Hc, Hl. rewrite Hc. done.
Qed.

Lemma get_ch_at s ppa ch : ch_at s (ppa_ch ppa) = Some ch -> get_ch s ppa = Ok ch.
Proof. unfold ch_at, get_ch. by intros Hc%nthO_nthZ. Qed.

(** The tables of latencies, and the cell of a page that indexes them. *)
Record latency_ok (spp : ssdparams) : Prop := {
  lo_4kb : length (pg_4kb_rd_lat spp) = 3%nat;
  lo_rd : length (pg_rd_lat spp) = 3%nat;
  lo_xfer : 0 < max_ch_xfer_size spp;
}.

Lemma timing_latency spp : timing_ok spp -> latency_ok spp.
Proof. by intros []. Qed.

Definition cell_ok (s : ssd) (ppa : Z) : Prop := exists c, get_cell s ppa = Ok c /\ 0 <= c < 3.

Lemma get_cell_spec s ppa :
  timing_ok (sp s) -> exists c, get_cell s ppa = Ok c /\ 0 <= c < 3.
Proof.
  intros [Hf Hc _ _ _]. unfold get_cell, MAX_CELL_TYPES in *. rewrite divO_Ok by lia. cbn [obind].
  rewrite modO_Ok by lia. cbn [obind]. eexists. split; [done|].
  set (q := ppa_pg ppa / _). pose proof (Z.mod_pos_bound q (cell_mode (sp s) + 1)).
  rewrite u32_id; lia.
Qed.

(** The two assignments that end every command. *)
Lemma advance_finish s ppa m lt :
  ssd_ok s -> ch_inv m -> u64_ok lt ->
  0 <= ppa_ch ppa < nchs (sp s) -> 0 <= ppa_lun ppa < luns_per_ch (sp s) ->
  exists s1 s2, with_ch s ppa (fun ch => Ok (set_sc_perf ch m)) = Ok s1 /\
    with_lun s1 ppa (fun lun => Ok (set_nl_time lun lt)) = Ok s2 /\
    ssd_ok s2 /\ nand_equiv s s2.
Proof.
  intros [Hp Ht] Hm Hlt Hc Hl.
  destruct (Hp _ Hc) as (m0 & (ch & Hch & _)%fmap_Some & _).
  destruct (Ht _ _ Hc Hl) as (t0 & (lun & Hlun & _)%fmap_Some & _).
  destruct (with_ch_spec s ppa (fun ch => Ok (set_sc_perf ch m)) ch _ Hch eq_refl) as (s1 & Hw1 & Hsp1 & Hc1).
  assert (Hlun1 : forall c l, lun_at s1 c l = lun_at s c l).
  { intros c l. unfold lun_at. rewrite Hc1.
    destruct (Z.eqb_spec c (ppa_ch ppa)) as [->|]; [by rewrite Hch|done]. }
  destruct (with_lun_spec s1 ppa (fun lun => Ok (set_nl_time lun lt)) lun _
    ltac:(rewrite Hlun1; exact Hlun) eq_refl) as (s2 & Hw2 & Hsp2 & Hpf2 & Hl2).
  exists s1, s2. split; [done|]. split; [done|]. split; [split|].
  - intros c. rewrite Hpf2, Hsp2, Hsp1. unfold perf_at. rewrite Hc1.
    destruct (Z.eqb_spec c (ppa_ch ppa)); [|by apply Hp]. intros _. exists m. done.
  - intros c l. rewrite Hsp2, Hsp1. intros Hc' Hl'. unfold ltime_at. rewrite Hl2.
    destruct ((c =? ppa_ch ppa) && (l =? ppa_lun ppa)); [by exists lt|].
    rewrite Hlun1. by apply Ht.
  - apply nand_equiv_luns; [congruence|]. intros c l. rewrite Hl2.
    destruct (Z.eqb_spec c (ppa_ch ppa)), (Z.eqb_spec l (ppa_lun ppa)); simpl;
      rewrite ?Hlun1; try done. subst. by rewrite Hlun.
Qed.

(** A command on a page in range. *)
Record cmd_in_range (s : ssd) (ncmd : nand_cmd) : Prop := {
  cr_ch : 0 <= ppa_ch (nc_ppa ncmd) < nchs (sp s);
  cr_lun : 0 <= ppa_lun (nc_ppa ncmd) < luns_per_ch (sp s);
  cr_cmd : nc_cmd ncmd = NAND_READ /\ 0 < nc_xfer_size ncmd < 18446744073709551616 \/
           nc_cmd ncmd = NAND_WRITE \/ nc_cmd ncmd = NAND_ERASE \/ nc_cmd ncmd = NAND_NOP;
  cr_stime : u64_ok (nc_stime ncmd);
}.

Lemma ssd_advance_nand_cell s h ncmd :
  ssd_ok s -> latency_ok (sp s) -> cell_ok s (nc_ppa ncmd) -> hw_ok h -> cmd_in_range s ncmd ->
  exists t s' h', ssd_advance_nand s h ncmd = Ok (t, s', h') /\
    ssd_ok s' /\ nand_equiv s s' /\ hw_ok h' /\ hw_frame h h' /\ u64_ok t.
Proof.
  intros Hs Ht (cell & Hce & Hcell) Hh [Hc Hl Hcmd Hst]. unfold ssd_advance_nand.
  assert (Hst' : exists t0 h0, (if nc_stime ncmd =? 0 then (cpu_clock (hw_clk h), set_clk h (S (hw_clk h)))
      else (nc_stime ncmd, h)) = (t0, h0) /\ u64_ok t0 /\ hw_ok h0 /\ hw_frame h h0).
  { destruct (nc_stime ncmd =? 0); eexists _, _; (split; [done|]); repeat split; try apply Hst; try apply Hh;
      apply (clock_range (hw_clk h)). }
  destruct Hst' as (t0 & h0 & -> & Ht0 & Hh0 & Hfr0).
  destruct (nc_ppa ncmd =? UNMAPPED_PPA); [by exists t0, s, h0|].
  pose proof Hs as [Hp Htm]. destruct (Hp _ Hc) as (m & (ch & Hch & ->)%fmap_Some & Hm).
  destruct (Htm _ _ Hc Hl) as (lt & (lun & Hlun & ->)%fmap_Some & Hlt).
  rewrite (get_lun_at _ _ _ Hlun), (get_ch_at _ _ _ Hch). cbn [obind].
  rewrite Hce. cbn [obind].
  set (t1 := Z.max (nl_next_lun_avail_time lun) t0).
  assert (Ht1 : u64_ok t1) by (unfold u64_ok in *; lia).
  destruct Ht as [H4k Hrd Hmx].
  destruct Hcmd as [[-> Hx]|[->|[->| ->]]]; cbn [Z.eqb NAND_READ NAND_WRITE NAND_ERASE NAND_NOP Pos.eqb].
  - destruct (nthZ_in_range (pg_4kb_rd_lat (sp s)) cell) as [x1 Hx1]; [lia|].
    destruct (nthZ_in_range (pg_rd_lat (sp s)) cell) as [x2 Hx2]; [lia|].
    rewrite Hx1, Hx2. assert (Hif : (if nc_xfer_size ncmd =? 4096 then Ok x1 else Ok x2) =
      Ok (if nc_xfer_size ncmd =? 4096 then x1 else x2)) by (by destruct (_ =? 4096)).
    rewrite Hif. cbn [obind]. set (fuel := Z.to_nat _).
    destruct (read_xfer_spec fuel (sp s) (nc_interleave_pci_dma ncmd) (sc_perf_model ch) h0
      (u64 (t1 + (if nc_xfer_size ncmd =? 4096 then x1 else x2))) (nc_xfer_size ncmd) None)
      as (m' & h' & ta & tb & -> & Hm' & Hh' & Hfr' & Hta & Htb); try done; try lia.
    { apply u64_range. }
    { unfold u64_ok. lia. }
    { unfold fuel. assert (0 <= nc_xfer_size ncmd / max_ch_xfer_size (sp s)) by (apply Z.div_pos; lia).
      rewrite Z2Nat.id by lia. pose proof (Z.mul_succ_div_gt (nc_xfer_size ncmd) (max_ch_xfer_size (sp s)) Hmx). lia. }
    cbn [obind of_option].
    destruct (advance_finish s (nc_ppa ncmd) m' ta Hs Hm' Hta Hc Hl) as (s1 & s2 & -> & E & Hs2 & Heq).
    cbn [obind]. rewrite E. cbn [obind]. exists tb, s2, h'. repeat (split; [done|]). split; [|done].
    by etransitivity.
  - destruct (chmodel_request_spec (hw_clk h0) (sc_perf_model ch) t1 (nc_xfer_size ncmd) Hm Ht1)
      as (te & m' & -> & Hm' & Hte). cbn [obind].
    destruct (advance_finish s (nc_ppa ncmd) m' (u64 (te + pg_wr_lat (sp s))) Hs Hm' (u64_range _) Hc Hl)
      as (s1 & s2 & -> & E & Hs2 & Heq). cbn [obind]. rewrite E. cbn [obind].
    eexists _, s2, _. split; [done|]. repeat (split; [done|]). apply u64_range.
  - destruct (advance_finish s (nc_ppa ncmd) (sc_perf_model ch) (u64 (t1 + blk_er_lat (sp s))) Hs Hm (u64_range _) Hc Hl)
      as (s1 & s2 & -> & E & Hs2 & Heq). cbn [obind]. rewrite E. cbn [obind].
    eexists _, s2, _. split; [done|]. repeat (split; [done|]). apply u64_range.
  - destruct (advance_finish s (nc_ppa ncmd) (sc_perf_model ch) t1 Hs Hm Ht1 Hc Hl)
      as (s1 & s2 & -> & E & Hs2 & Heq). cbn [obind]. rewrite E. cbn [obind].
    eexists _, s2, _. split; [done|]. repeat (split; [done|]). done.
Qed.

Lemma ssd_advance_nand_spec s h ncmd :
  ssd_ok s -> timing_ok (sp s) -> hw_ok h -> cmd_in_range s ncmd ->
  exists t s' h', ssd_advance_nand s h ncmd = Ok (t, s', h') /\
    ssd_ok s' /\ nand_equiv s s' /\ hw_ok h' /\ hw_frame h h' /\ u64_ok t.
Proof.
  intros Hs Ht Hh Hc. apply ssd_advance_nand_cell; [done|by apply timing_latency|by apply get_cell_spec|done|done].
Qed.

Lemma ssd_next_idle_time_Ok s h :
  ssd_ok s -> exists t, ssd_next_idle_time s h = Ok (t, set_clk h (S (hw_clk h))).
Proof.
  intros [Hp Ht]. unfold ssd_next_idle_time.
  destruct (decide (0 <= nchs (sp s))) as [Hn|Hn]; [|rewrite forO_empty by lia; by eexists].
  destruct (forO_ind (fun (_ _ : Z) => True) 0 (nchs (sp s)) (cpu_clock (hw_clk h))
    (fun latest i => let* ch := nthZ (ssd_chs s) i in
      forO 0 (luns_per_ch (sp s)) latest (fun latest j =>
        let* lun := nthZ (sc_lun ch) j in Ok (Z.max latest (nl_next_lun_avail_time lun))))) as (t & -> & _).
  - done.
  - done.
  - intros i t Hi _. destruct (Hp i Hi) as (m & (ch & Hch & _)%fmap_Some & _).
    pose proof Hch as Hch'. apply nthO_nthZ in Hch'. rewrite Hch'. cbn [obind].
    destruct (decide (0 <= luns_per_ch (sp s))) as [Hl|Hl]; [|rewrite forO_empty by lia; by eexists].
    destruct (forO_ind (fun (_ _ : Z) => True) 0 (luns_per_ch (sp s)) t (fun latest j =>
        let* lun := nthZ (sc_lun ch) j in Ok (Z.max latest (nl_next_lun_avail_time lun)))) as (t' & -> & _); [done|done| |by eexists].
    intros j t' Hj _. destruct (Ht i j Hi Hj) as (x & (lun & Hlun & _)%fmap_Some & _).
    unfold lun_at in Hlun. rewrite Hch in Hlun. simpl in Hlun. apply nthO_nthZ in Hlun. rewrite Hlun. by eexists.
  - cbn [obind]. by eexists.
Qed.

End Timing.
