(* ===== verification/SsdInit.v ===== *)
(** * SsdInit: a fresh device

    [ssd_init] succeeds for every configuration whose bandwidths fit a ring of
    credits, and the device it hands out can take commands. *)
From stdpp Require Import base list numbers.
From Stdlib Require Import ZArith Lia.
From S2P Require Import Prelude ChannelModel SsdConfig Ssd SsdFacts.

Open Scope Z_scope.
Open Scope nvmev_scope.

(** A bandwidth whose credits fit the byte of a ring slot. *)
Definition bandwidth_ok (bw : Z) : Prop :=
  0 < u64 (MB bw) /\ 0 < u32 (BANDWIDTH_TO_MAX_CREDITS bw) < 256.

Lemma nthO_replicate {A} (x : A) n i : 0 <= i < n -> nthO (replicate (Z.to_nat n) x) i = Some x.
Proof.
  intros Hi. unfold nthO. rewrite (proj2 (Z.leb_le 0 i)) by lia. apply lookup_replicate. split; [done|lia].
Qed.

Record fresh (spp : ssdparams) (s : ssd) : Prop := {
  fs_sp : sp s = spp;
  fs_ch : forall c, 0 <= c < nchs spp -> exists ch, ch_at s c = Some ch /\
    sc_lun ch = replicate (Z.to_nat (luns_per_ch spp)) (ssd_init_nand_lun spp) /\
    ch_inv (sc_perf_model ch);
}.

Section Init.
Variable spp : ssdparams.
Hypotheses (Hbw : bandwidth_ok (ch_bandwidth spp)) (Hpbw : bandwidth_ok (pcie_bandwidth spp)).
Hypothesis Hn : 0 <= nchs spp.

Lemma ssd_init_ch_Ok : exists ch, ssd_init_ch spp = Ok ch /\
  sc_lun ch = replicate (Z.to_nat (luns_per_ch spp)) (ssd_init_nand_lun spp) /\ ch_inv (sc_perf_model ch).
Proof.
  destruct Hbw as [H1 H2]. destruct (chmodel_init_inv _ H1 H2) as (m & Hm & [? ? ? ? ? ?]).
  unfold ssd_init_ch. rewrite Hm. cbn [obind]. eexists. split; [reflexivity|]. split; [done|]. by split.
Qed.

Lemma ssd_init_fresh cpu : exists s pcie,
  ssd_init spp cpu = Ok (s, pcie, buffer_init (write_buffer_size spp)) /\ fresh spp s /\ ch_inv pcie.
Proof.
  destruct Hpbw as [H1 H2]. destruct (chmodel_init_inv _ H1 H2) as (pcie & Hp & Hpi).
  destruct ssd_init_ch_Ok as (ch & Hch & Hcl & Hci).
  unfold ssd_init. rewrite Hch. cbn [obind].
  destruct (forO_ind (fun i (l : list ssd_channel) => l = replicate (Z.to_nat i) ch) 0 (nchs spp) []
    (fun l _ => Ok (l ++ [ch]))) as (chs & -> & ->); [lia|done| |].
  - intros i l Hi ->. eexists. split; [done|]. rewrite Z2Nat.inj_add, Nat.add_comm by lia. simpl.
    by rewrite replicate_cons_app.
  - cbn [obind]. unfold ssd_init_pcie. rewrite Hp. cbn [obind].
    exists (mk_ssd spp (replicate (Z.to_nat (nchs spp)) ch) cpu), pcie. split; [done|]. split; [split; [done|]|done].
    intros c Hc. exists ch. split; [|done]. unfold ch_at. simpl. by apply nthO_replicate.
Qed.

Lemma fresh_ssd_ok s : fresh spp s -> ssd_ok s.
Proof.
  intros [Hsp Hch]. split; rewrite Hsp; intros c *.
  - intros Hc. destruct (Hch c Hc) as (ch & E & _ & Hm). unfold perf_at. rewrite E. by eexists.
  - intros Hc Hl. destruct (Hch c Hc) as (ch & E & Hlun & _). unfold ltime_at, lun_at. rewrite E. simpl.
    rewrite Hlun, nthO_replicate by done. by exists 0.
Qed.
End Init.
