(* ===== verification/ConvGeom.v ===== *)
(** * ConvGeom: the geometry that conv_ftl.c counts on

    [geom_ok] collects what [ssd_init_params] establishes for a device with one
    plane per LUN and what the widths of the fields of an address allow.  Pages
    are counted in two ways: [idx], the order in which the write pointer visits
    the pages of a line, and [pgidx], the index of a page in the reverse map. *)
From stdpp Require Import base list numbers.
From Stdlib Require Import ZArith Lia.
From S2P Require Import Prelude ChannelModel SsdConfig Ssd SsdFacts.

Open Scope Z_scope.
Open Scope nvmev_scope.

Record geom_ok (spp : ssdparams) : Prop := {
  g_chs : 0 < nchs spp < 256;
  g_luns : 0 < luns_per_ch spp < 256;
  g_pls : pls_per_lun spp = 1;
  g_blks : 0 < blks_per_pl spp < 65536;
  g_pgs : 0 < pgs_per_blk spp < 65536;
  g_os : 0 < pgs_per_oneshotpg spp;
  g_fp : 0 < pgs_per_flashpg spp;
  g_blk_os : exists w, 0 < w /\ pgs_per_blk spp = w * pgs_per_oneshotpg spp;
  g_blk_fp : 0 < flashpgs_per_blk spp /\
             pgs_per_blk spp = flashpgs_per_blk spp * pgs_per_flashpg spp;
  g_pl : pgs_per_pl spp = blks_per_pl spp * pgs_per_blk spp;
  g_lun : pgs_per_lun spp = pgs_per_pl spp;
  g_ch : pgs_per_ch spp = luns_per_ch spp * pgs_per_lun spp;
  g_tt : tt_pgs spp = nchs spp * pgs_per_ch spp;
  g_tt_max : tt_pgs spp < 2147483648;
  g_line : pgs_per_line spp = pgs_per_blk spp * luns_per_ch spp * nchs spp;
  g_lines : tt_lines spp = blks_per_pl spp;
  g_secs : 0 < secs_per_pg spp;
  g_pgsz : 0 < pgsz spp;
  g_wordline : pgsz spp * pgs_per_oneshotpg spp < 2147483648;
  g_flashpage : pgsz spp * pgs_per_flashpg spp < 2147483648;
}.

(** ** Mixed-radix numbers *)
Lemma radix_range a b A B : 0 <= a < A -> 0 <= b < B -> 0 <= a * B + b < A * B.
Proof. nia. Qed.

Lemma radix_inj a b a' b' B :
  0 <= b < B -> 0 <= b' < B -> a * B + b = a' * B + b' -> a = a' /\ b = b'.
Proof. intros ???. assert (a = a') by nia. lia. Qed.

(** ** The order of the write pointer *)
Section Idx.
Variable spp : ssdparams.

Definition idx (c l pg : Z) : Z :=
  ((pg / pgs_per_oneshotpg spp * luns_per_ch spp + l) * nchs spp + c) * pgs_per_oneshotpg spp
  + pg mod pgs_per_oneshotpg spp.

Definition in_page (c l pg : Z) : Prop :=
  0 <= c < nchs spp /\ 0 <= l < luns_per_ch spp /\ 0 <= pg < pgs_per_blk spp.

(** The branches of [advance_write_pointer]: the next page of the line. *)
Definition next_page (c l pg : Z) : option (Z * Z * Z) :=
  if negb ((pg + 1) mod pgs_per_oneshotpg spp =? 0) then Some (c, l, pg + 1)
  else if negb (c + 1 =? nchs spp) then Some (c + 1, l, pg + 1 - pgs_per_oneshotpg spp)
  else if negb (l + 1 =? luns_per_ch spp) then Some (0, l + 1, pg + 1 - pgs_per_oneshotpg spp)
  else if negb (pg + 1 =? pgs_per_blk spp) then Some (0, 0, pg + 1)
  else None.

Definition pgidx (c l b pg : Z) : Z :=
  c * pgs_per_ch spp + l * pgs_per_lun spp + b * pgs_per_blk spp + pg.

Context (G : geom_ok spp).

Lemma idx_range c l pg : in_page c l pg -> 0 <= idx c l pg < pgs_per_line spp.
Proof.
  intros (Hc & Hl & Hp). destruct G. destruct g_blk_os0 as (w & Hw & Ew). unfold idx.
  rewrite g_line0, Ew.
  assert (H0 : 0 <= pg / pgs_per_oneshotpg spp < w).
  { split; [apply Z.div_pos; lia|]. apply Z.div_lt_upper_bound; lia. }
  pose proof (radix_range _ _ _ _ H0 Hl) as H1.
  pose proof (radix_range _ _ _ _ H1 Hc) as H2.
  pose proof (radix_range _ _ _ _ H2 (Z.mod_pos_bound pg _ g_os0)) as H3.
  replace (w * pgs_per_oneshotpg spp * luns_per_ch spp * nchs spp)
    with (w * luns_per_ch spp * nchs spp * pgs_per_oneshotpg spp) by ring. exact H3.
Qed.

Lemma idx_inj c l pg c' l' pg' :
  in_page c l pg -> in_page c' l' pg' -> idx c l pg = idx c' l' pg' ->
  c = c' /\ l = l' /\ pg = pg'.
Proof.
  intros (Hc & Hl & Hp) (Hc' & Hl' & Hp') E. destruct G. unfold idx in E.
  apply radix_inj in E as [E E3]; [|by apply Z.mod_pos_bound..].
  apply radix_inj in E as [E ->]; [|lia..].
  apply radix_inj in E as [E ->]; [|lia..].
  split; [done|]. split; [done|].
  rewrite (Z.div_mod pg (pgs_per_oneshotpg spp)), (Z.div_mod pg' (pgs_per_oneshotpg spp)) by lia. lia.
Qed.

(** The write pointer visits the pages in the order of [idx]. *)
Lemma next_page_idx c l pg :
  in_page c l pg ->
  match next_page c l pg with
  | Some (c', l', pg') => in_page c' l' pg' /\ idx c' l' pg' = idx c l pg + 1
  | None => idx c l pg + 1 = pgs_per_line spp
  end.
Proof.
  intros (Hc & Hl & Hp). destruct G. destruct g_blk_os0 as (w & Hw & Ew).
  unfold next_page. set (os := pgs_per_oneshotpg spp) in *.
  pose proof (Z.div_mod pg os) as Hdm. pose proof (Z.mod_pos_bound pg os) as Hm.
  set (q := pg / os) in *. set (r := pg mod os) in *.
  assert (Hq : 0 <= q < w) by nia.
  assert (Hnext : forall k s, 0 <= s < os -> (os * k + s) / os = k /\ (os * k + s) mod os = s).
  { intros k s Hs. split.
    - symmetry. by apply (Z.div_unique_pos _ _ _ s); lia.
    - symmetry. by apply (Z.mod_unique_pos _ _ k s); lia. }
  destruct (Z.eqb_spec ((pg + 1) mod os) 0) as [E|E]; cbn [negb].
  - assert (Er : r = os - 1).
    { destruct (decide (r = os - 1)) as [|Hne]; [done|]. exfalso.
      destruct (Hnext q (r + 1)) as [_ E']; [lia|].
      replace (os * q + (r + 1)) with (pg + 1) in E' by lia. lia. }
    assert (Epg : pg + 1 = os * (q + 1)) by lia.
    destruct (Z.eqb_spec (c + 1) (nchs spp)); cbn [negb].
    + destruct (Z.eqb_spec (l + 1) (luns_per_ch spp)); cbn [negb].
      * destruct (Z.eqb_spec (pg + 1) (pgs_per_blk spp)) as [Ep|Ep]; cbn [negb].
        -- unfold idx. fold os q r. rewrite g_line0, Er.
           assert (q + 1 = w) by nia. replace (pgs_per_blk spp) with (os * (q + 1)) by lia.
           replace c with (nchs spp - 1) by lia. replace l with (luns_per_ch spp - 1) by lia. ring.
        -- assert (q + 1 < w) by nia.
           split; [split; [lia|split; [lia|nia]]|]. unfold idx. fold os. rewrite Epg.
           destruct (Hnext (q + 1) 0) as [E1 E2]; [lia|]. rewrite Z.add_0_r in E1, E2. rewrite E1, E2.
           fold q r. rewrite Er. replace c with (nchs spp - 1) by lia.
           replace l with (luns_per_ch spp - 1) by lia. ring.
      * split; [split; [lia|split; [lia|lia]]|]. unfold idx. fold os.
        replace (pg + 1 - os) with (os * q) by lia.
        destruct (Hnext q 0) as [E1 E2]; [lia|]. rewrite Z.add_0_r in E1, E2. rewrite E1, E2.
        fold q r. rewrite Er. replace c with (nchs spp - 1) by lia. ring.
    + split; [split; [lia|split; [lia|lia]]|]. unfold idx. fold os.
      replace (pg + 1 - os) with (os * q) by lia.
      destruct (Hnext q 0) as [E1 E2]; [lia|]. rewrite Z.add_0_r in E1, E2. rewrite E1, E2.
      fold q r. rewrite Er. ring.
  - assert (Hr : r + 1 < os).
    { destruct (decide (r + 1 < os)); [done|]. exfalso. apply E.
      replace (pg + 1) with (os * (q + 1)) by lia. rewrite Z.mul_comm. by apply Z_mod_mult. }
    replace (pg + 1) with (os * q + (r + 1)) by lia.
    destruct (Hnext q (r + 1)) as [E1 E2]; [lia|].
    split; [split; [lia|split; [lia|nia]]|]. unfold idx. fold os. rewrite E1, E2. fold q r. ring.
Qed.

Lemma in_page_first : in_page 0 0 0 /\ idx 0 0 0 = 0.
Proof.
  destruct G. split; [split; [lia|split; lia]|]. unfold idx.
  by rewrite Z.div_0_l, Z.mod_0_l by lia.
Qed.

(** ** The index of the reverse map *)
Lemma pgidx_range c l b pg :
  in_page c l pg -> 0 <= b < blks_per_pl spp -> 0 <= pgidx c l b pg < tt_pgs spp.
Proof.
  intros (Hc & Hl & Hp) Hb. destruct G.
  pose proof (radix_range _ _ _ _ Hb Hp) as H1. rewrite <- g_pl0 in H1.
  pose proof (radix_range _ _ _ _ Hl H1) as H2. rewrite g_lun0 in *. rewrite <- g_ch0 in H2.
  pose proof (radix_range _ _ _ _ Hc H2) as H3. rewrite <- g_tt0 in H3.
  unfold pgidx. rewrite g_lun0. lia.
Qed.

Lemma pgidx_inj c l b pg c' l' b' pg' :
  in_page c l pg -> 0 <= b < blks_per_pl spp -> in_page c' l' pg' -> 0 <= b' < blks_per_pl spp ->
  pgidx c l b pg = pgidx c' l' b' pg' -> c = c' /\ l = l' /\ b = b' /\ pg = pg'.
Proof.
  intros (Hc & Hl & Hp) Hb (Hc' & Hl' & Hp') Hb' E. destruct G.
  pose proof (radix_range _ _ _ _ Hb Hp) as H1. pose proof (radix_range _ _ _ _ Hb' Hp') as H1'.
  rewrite <- g_pl0 in H1, H1'.
  pose proof (radix_range _ _ _ _ Hl H1) as H2. pose proof (radix_range _ _ _ _ Hl' H1') as H2'.
  rewrite g_lun0 in *. rewrite <- g_ch0 in H2, H2'.
  unfold pgidx in E. rewrite g_lun0 in E.
  rewrite <- !Z.add_assoc in E.
  apply (radix_inj c _ c' _ (pgs_per_ch spp)) in E as [-> E]; [|lia..].
  apply (radix_inj l _ l' _ (pgs_per_pl spp)) in E as [-> E]; [|lia..].
  apply (radix_inj b _ b' _ (pgs_per_blk spp)) in E as [-> ->]; [|lia..]. done.
Qed.

End Idx.
