(* ===== verification/ConvNand.v ===== *)
(** * ConvNand: page and block status under the operations of conv_ftl.c

    What [mark_page_valid], [mark_page_invalid] and [mark_block_free] do to the
    flash array, in terms of the status of each page and of the valid-page
    count of each block.  Only plane 0 is used by the FTL. *)
From stdpp Require Import base list numbers.
From Stdlib Require Import ZArith Lia.
From S2P Require Import Prelude ChannelModel SsdConfig Ssd SsdFacts ConvGeom.

Open Scope Z_scope.
Open Scope nvmev_scope.

(** ** Blocks *)
Definition is_status (st : Z) (p : nand_page) : Z := if pg_status p =? st then 1 else 0.
Definition cnt (st : Z) (pgs : list nand_page) : Z := sumZ (map (is_status st) pgs).

Definition page_ok (spp : ssdparams) (p : nand_page) : Prop :=
  pg_nsecs p = secs_per_pg spp /\
  (pg_status p = PG_FREE \/ pg_status p = PG_INVALID \/ pg_status p = PG_VALID).

Record blk_ok (spp : ssdparams) (b : nand_block) : Prop := {
  bo_len : Z.of_nat (length (nb_pg b)) = pgs_per_blk spp;
  bo_npgs : nb_npgs b = pgs_per_blk spp;
  bo_pages : forall i p, nb_pg b !! i = Some p -> page_ok spp p;
  bo_vpc : nb_vpc b = cnt PG_VALID (nb_pg b);
  bo_ipc : nb_ipc b = cnt PG_INVALID (nb_pg b);
}.

(** The block after the status of page [i] has become [st]. *)
Definition blk_set (b : nand_block) (i : Z) (p : nand_page) (st : Z) : nand_block :=
  mk_nand_block (<[Z.to_nat i := set_pg_status p st]> (nb_pg b)) (nb_npgs b)
    (nb_ipc b - is_status PG_INVALID p + is_status PG_INVALID (set_pg_status p st))
    (nb_vpc b - is_status PG_VALID p + is_status PG_VALID (set_pg_status p st))
    (nb_erase_cnt b) (nb_wp b).

Lemma is_status_range st p : 0 <= is_status st p <= 1.
Proof. unfold is_status. destruct (_ =? _); lia. Qed.

Lemma cnt_insert st pgs (i : nat) p p' :
  pgs !! i = Some p -> cnt st (<[i := p']> pgs) = cnt st pgs - is_status st p + is_status st p'.
Proof.
  intros Hp. unfold cnt. rewrite (list_fmap_insert (is_status st)).
  apply sumZ_insert. by rewrite list_lookup_fmap, Hp.
Qed.

Lemma cnt_range st pgs : 0 <= cnt st pgs <= Z.of_nat (length pgs).
Proof.
  induction pgs as [|p pgs IH]; unfold cnt in *; simpl; [lia|].
  pose proof (is_status_range st p). lia.
Qed.

(** A page of one status bounds the count of another. *)
Lemma cnt_lt st pgs (i : nat) p :
  pgs !! i = Some p -> pg_status p <> st -> cnt st pgs < Z.of_nat (length pgs).
Proof.
  revert i. induction pgs as [|q pgs IH]; intros i Hp Hne; [done|].
  unfold cnt in *. simpl. destruct i as [|i].
  - simpl in Hp. injection Hp as ->. pose proof (cnt_range st pgs) as Hr. unfold cnt in Hr.
    unfold is_status at 1. destruct (Z.eqb_spec (pg_status p) st); [done|]. lia.
  - specialize (IH i Hp Hne). pose proof (is_status_range st q). lia.
Qed.

Lemma cnt_pos st pgs (i : nat) p : pgs !! i = Some p -> pg_status p = st -> 0 < cnt st pgs.
Proof.
  revert i. induction pgs as [|q pgs IH]; intros i Hp Hst; [done|].
  unfold cnt in *. simpl. destruct i as [|i].
  - simpl in Hp. injection Hp as ->. pose proof (cnt_range st pgs) as Hr. unfold cnt in Hr.
    unfold is_status at 1. rewrite Hst, Z.eqb_refl. lia.
  - specialize (IH i Hp Hst). pose proof (is_status_range st q). lia.
Qed.

(** A block whose pages are all counted has no page of another status. *)
Lemma cnt_full st pgs (i : nat) p :
  pgs !! i = Some p -> cnt st pgs = Z.of_nat (length pgs) -> pg_status p = st.
Proof.
  intros Hp Hc. destruct (decide (pg_status p = st)) as [|Hne]; [done|].
  pose proof (cnt_lt st pgs i p Hp Hne). lia.
Qed.

Lemma cnt_all_free pgs :
  (forall i p, pgs !! i = Some p -> pg_status p = PG_FREE) ->
  cnt PG_VALID pgs = 0 /\ cnt PG_INVALID pgs = 0.
Proof.
  unfold cnt. induction pgs as [|q pgs IH]; intros H; [done|]. simpl.
  destruct IH as [-> ->]; [intros i p Hp; by apply (H (S i))|].
  unfold is_status. by rewrite (H 0%nat q).
Qed.

Lemma blk_set_ok spp b i p st :
  blk_ok spp b -> nthZ (nb_pg b) i = Ok p ->
  st = PG_FREE \/ st = PG_INVALID \/ st = PG_VALID -> blk_ok spp (blk_set b i p st).
Proof.
  intros [Hl Hn Hp Hv Hi] [Hi0 Hlk]%nthZ_Ok Hst. split; simpl.
  - by rewrite length_insert.
  - done.
  - intros j q [(<- & <- & _)|[_ Hq]]%list_lookup_insert_Some; [|by eapply Hp].
    destruct (Hp _ _ Hlk) as [Hs _]. done.
  - by rewrite (cnt_insert _ _ _ p), Hv.
  - by rewrite (cnt_insert _ _ _ p), Hi.
Qed.

(** ** The array *)
Section Nand.
Variable spp : ssdparams.

Definition in_line (b : Z) : Prop := 0 <= b < blks_per_pl spp.

Definition status_at (s : ssd) (c l b pg : Z) : option Z :=
  blk ← blk_at s c l 0 b; pg_status <$> nthO (nb_pg blk) pg.

Definition valid_at (s : ssd) (c l b pg : Z) : Prop := status_at s c l b pg = Some PG_VALID.

Definition vpc_at (s : ssd) (b : Z) (cl : Z * Z) : Z :=
  default 0 (nb_vpc <$> blk_at s cl.1 cl.2 0 b).

(** The LUNs of the device. *)
Definition all_luns : list (Z * Z) :=
  seqZ 0 (nchs spp) ≫= fun c => (fun l => (c, l)) <$> seqZ 0 (luns_per_ch spp).

Definition sum_vpc (s : ssd) (b : Z) : Z := sumZ (map (vpc_at s b) all_luns).

Record nand_ok (s : ssd) : Prop := {
  no_sp : sp s = spp;
  no_ssd : ssd_ok s;
  no_blk : forall c l b, 0 <= c < nchs spp -> 0 <= l < luns_per_ch spp -> in_line b ->
    exists blk, blk_at s c l 0 b = Some blk /\ blk_ok spp blk;
}.

(** A page address of plane 0 in range. *)
Record ppa_ok (p : Z) : Prop := {
  po_page : in_page spp (ppa_ch p) (ppa_lun p) (ppa_pg p);
  po_blk : in_line (ppa_blk p);
  po_pl : ppa_pl p = 0;
}.

Definition same_page (p c l b pg : Z) : Prop :=
  c = ppa_ch p /\ l = ppa_lun p /\ b = ppa_blk p /\ pg = ppa_pg p.

Lemma elem_of_all_luns c l :
  (c, l) ∈ all_luns <-> 0 <= c < nchs spp /\ 0 <= l < luns_per_ch spp.
Proof.
  unfold all_luns. rewrite list_elem_of_bind. split.
  - intros (c' & (l' & [= <- <-] & Hl)%list_elem_of_fmap & Hc).
    apply elem_of_seqZ in Hl, Hc. lia.
  - intros [Hc Hl]. exists c. rewrite list_elem_of_fmap, elem_of_seqZ. split; [|lia].
    exists l. rewrite elem_of_seqZ. split; [done|lia].
Qed.

Lemma NoDup_all_luns : NoDup all_luns.
Proof.
  unfold all_luns. apply NoDup_bind.
  - intros c1 c2 [c l] _ _ (l1 & [= <- <-] & _)%list_elem_of_fmap (l2 & [= <- _] & _)%list_elem_of_fmap.
    done.
  - intros c _. apply NoDup_fmap_2; [by intros ? ? [= ->]|apply NoDup_seqZ].
  - apply NoDup_seqZ.
Qed.

Lemma length_all_luns :
  0 <= nchs spp -> 0 <= luns_per_ch spp ->
  Z.of_nat (length all_luns) = nchs spp * luns_per_ch spp.
Proof.
  intros Hc Hl. unfold all_luns.
  assert (H : forall cs, Z.of_nat (length (cs ≫= fun c : Z => (fun l => (c, l)) <$> seqZ 0 (luns_per_ch spp)))
    = Z.of_nat (length cs) * luns_per_ch spp).
  { induction cs as [|c cs IH]; [done|].
    rewrite bind_cons, length_app, length_fmap, length_seqZ, Nat2Z.inj_add, IH.
    rewrite length_cons. lia. }
  rewrite H, length_seqZ. lia.
Qed.

Lemma nand_ok_blk s p :
  nand_ok s -> ppa_ok p ->
  exists blk pg, blk_at s (ppa_ch p) (ppa_lun p) (ppa_pl p) (ppa_blk p) = Some blk /\
    blk_ok spp blk /\ nthZ (nb_pg blk) (ppa_pg p) = Ok pg /\ page_ok spp pg /\
    get_pg s p = Ok pg /\ get_blk s p = Ok blk /\
    status_at s (ppa_ch p) (ppa_lun p) (ppa_blk p) (ppa_pg p) = Some (pg_status pg).
Proof.
  intros [Hsp _ Hb] [[Hc [Hl Hpg]] Hbl Hpl].
  destruct (Hb _ _ _ Hc Hl Hbl) as (blk & Hblk & Hok). pose proof Hok as [Hlen _ Hpages _ _].
  destruct (nthZ_in_range (nb_pg blk) (ppa_pg p)) as [pg Hx]; [lia|].
  exists blk, pg. rewrite Hpl. split; [done|]. split; [done|]. split; [done|].
  split; [apply nthZ_Ok in Hx as [_ Hx]; by eapply Hpages|].
  assert (Hblk' : blk_at s (ppa_ch p) (ppa_lun p) (ppa_pl p) (ppa_blk p) = Some blk) by (by rewrite Hpl).
  split; [by rewrite (get_pg_at s p blk)|]. split; [by apply get_blk_at|].
  unfold status_at. rewrite Hblk. simpl. apply nthO_nthZ in Hx. by rewrite Hx.
Qed.

(** The page [p] has taken the status [st] and everything else is as before. *)
Record status_set (s s' : ssd) (p st : Z) : Prop := {
  ss_ok : nand_ok s';
  ss_page : forall c l b pg, same_page p c l b pg -> status_at s' c l b pg = Some st;
  ss_other : forall c l b pg, ~ same_page p c l b pg -> 0 <= pg ->
    status_at s' c l b pg = status_at s c l b pg;
  ss_vpc : forall b, sum_vpc s' b = sum_vpc s b +
    if b =? ppa_blk p then
      (if st =? PG_VALID then 1 else 0) -
      (if bool_decide (status_at s (ppa_ch p) (ppa_lun p) (ppa_blk p) (ppa_pg p) = Some PG_VALID)
       then 1 else 0)
    else 0;
}.

(** Replacing the block of [p] by [blk_set]. *)
Lemma status_set_intro s s' p blk pg st :
  nand_ok s -> ppa_ok p ->
  blk_at s (ppa_ch p) (ppa_lun p) 0 (ppa_blk p) = Some blk -> blk_ok spp blk ->
  nthZ (nb_pg blk) (ppa_pg p) = Ok pg -> st = PG_FREE \/ st = PG_INVALID \/ st = PG_VALID ->
  sp s' = sp s -> (forall c, perf_at s' c = perf_at s c) ->
  (forall c l, ltime_at s' c l = ltime_at s c l) ->
  (forall c l q k, blk_at s' c l q k =
     if (c =? ppa_ch p) && (l =? ppa_lun p) && (q =? 0) && (k =? ppa_blk p)
     then Some (blk_set blk (ppa_pg p) pg st) else blk_at s c l q k) ->
  status_set s s' p st.
Proof.
  intros Hs Hp Hblk Hbok Hpg Hst Hsp Hpf Hlt Hb. pose proof Hs as [Hs1 Hs2 Hs3].
  pose proof (nthZ_range _ _ _ Hpg) as Hrng.
  assert (Hstat : status_at s (ppa_ch p) (ppa_lun p) (ppa_blk p) (ppa_pg p) = Some (pg_status pg)).
  { unfold status_at. rewrite Hblk. simpl. apply nthO_nthZ in Hpg. by rewrite Hpg. }
  split.
  - split; [congruence|by apply (ssd_ok_same s)|].
    intros c l b Hc Hl Hbl. rewrite Hb.
    destruct ((c =? ppa_ch p) && (l =? ppa_lun p) && (0 =? 0) && (b =? ppa_blk p)); [|by apply Hs3].
    eexists. split; [done|]. by apply blk_set_ok.
  - intros c l b k (-> & -> & -> & ->). unfold status_at. rewrite Hb, !Z.eqb_refl. simpl.
    rewrite (nthO_insert _ _ _ _ pg), Z.eqb_refl by (by apply nthO_nthZ). done.
  - intros c l b k Hne Hk. unfold status_at. rewrite Hb.
    destruct (Z.eqb_spec c (ppa_ch p)), (Z.eqb_spec l (ppa_lun p)), (Z.eqb_spec b (ppa_blk p)); simpl; try done.
    subst. rewrite Hblk. simpl. rewrite (nthO_insert _ _ _ _ pg) by (by apply nthO_nthZ).
    destruct (Z.eqb_spec k (ppa_pg p)); [|done]. subst. by destruct Hne.
  - intros b. unfold sum_vpc. destruct (Z.eqb_spec b (ppa_blk p)) as [->|Hne].
    + rewrite (sumZ_map_upd (vpc_at s' (ppa_blk p)) (vpc_at s (ppa_blk p)) all_luns (ppa_ch p, ppa_lun p)).
      * assert (E1 : vpc_at s (ppa_blk p) (ppa_ch p, ppa_lun p) = nb_vpc blk)
          by (unfold vpc_at; simpl; by rewrite Hblk).
        assert (E2 : vpc_at s' (ppa_blk p) (ppa_ch p, ppa_lun p) = nb_vpc (blk_set blk (ppa_pg p) pg st))
          by (unfold vpc_at; simpl; by rewrite Hb, !Z.eqb_refl).
        rewrite E1, E2, Hstat. simpl. unfold is_status. simpl.
        case_bool_decide as E;
          destruct (Z.eqb_spec (pg_status pg) PG_VALID); try congruence; lia.
      * apply NoDup_all_luns.
      * apply elem_of_all_luns. destruct Hp as [(? & ? & ?) _ _]. done.
      * intros [c l] _ Hcl. unfold vpc_at. simpl. rewrite Hb.
        destruct (Z.eqb_spec c (ppa_ch p)), (Z.eqb_spec l (ppa_lun p)); simpl; try done. by subst.
    + rewrite Z.add_0_r. apply sumZ_map_ext. intros [c l] _. unfold vpc_at. simpl. rewrite Hb.
      destruct (Z.eqb_spec b (ppa_blk p)); [done|]. by rewrite andb_false_r.
Qed.

(** The two assignments of [mark_page_valid] and [mark_page_invalid]. *)
Lemma mark_pg_blk s p st fb blk pg :
  nand_ok s -> ppa_ok p ->
  blk_at s (ppa_ch p) (ppa_lun p) (ppa_pl p) (ppa_blk p) = Some blk -> blk_ok spp blk ->
  nthZ (nb_pg blk) (ppa_pg p) = Ok pg -> st = PG_FREE \/ st = PG_INVALID \/ st = PG_VALID ->
  fb (mk_nand_block (<[Z.to_nat (ppa_pg p) := set_pg_status pg st]> (nb_pg blk)) (nb_npgs blk)
        (nb_ipc blk) (nb_vpc blk) (nb_erase_cnt blk) (nb_wp blk))
    = Ok (blk_set blk (ppa_pg p) pg st) ->
  exists s1 blk1 s2, with_pg s p (fun pg => Ok (set_pg_status pg st)) = Ok s1 /\
    get_blk s1 p = Ok blk1 /\ nb_ipc blk1 = nb_ipc blk /\ nb_vpc blk1 = nb_vpc blk /\
    with_blk s1 p fb = Ok s2 /\ status_set s s2 p st.
Proof.
  intros Hs Hp Hblk Hbok Hpg Hst Hfb.
  destruct (with_pg_spec s p (fun pg => Ok (set_pg_status pg st)) blk pg _ Hblk Hpg eq_refl)
    as (s1 & Hw1 & Hsp1 & Hpf1 & Hlt1 & Hb1).
  set (b1 := mk_nand_block _ _ _ _ _ _) in *.
  assert (Hblk1 : blk_at s1 (ppa_ch p) (ppa_lun p) (ppa_pl p) (ppa_blk p) = Some b1).
  { rewrite Hb1. by rewrite !Z.eqb_refl. }
  destruct (with_blk_spec s1 p fb b1 _ Hblk1 Hfb) as (s2 & Hw2 & Hsp2 & Hpf2 & Hlt2 & Hb2).
  exists s1, b1, s2. split; [done|]. split; [by apply get_blk_at|]. do 2 (split; [done|]).
  split; [done|]. pose proof Hp as [_ _ Hpl]. rewrite Hpl in *.
  apply (status_set_intro s s2 p blk pg st); try done.
  - congruence.
  - intros c. by rewrite Hpf2.
  - intros c l. by rewrite Hlt2.
  - intros c l q k. rewrite Hb2, Hb1.
    by destruct ((c =? ppa_ch p) && (l =? ppa_lun p) && (q =? 0) && (k =? ppa_blk p)).
Qed.

End Nand.
