(* ===== verification/Nvme.v ===== *)
(** * Nvme: commands, requests and results (src/nvme.h, src/nvme_zns.h, src/nvmev.h)

    A command is the 64 bytes of [struct nvme_common_command]; the members of
    the other structures of the union are views of the same double words. *)
From stdpp Require Import base list numbers.
From Stdlib Require Import ZArith Lia.
From S2P Require Import Prelude.

Open Scope Z_scope.
Open Scope nvmev_scope.

Record nvme_command := mk_nvme_command {
  opcode : Z;
  flags : Z;
  command_id : Z;
  nsid : Z;
  cdw2 : Z;
  cdw3 : Z;
  metadata : Z;
  prp1 : Z;
  prp2 : Z;
  cdw10 : Z;
  cdw11 : Z;
  cdw12 : Z;
  cdw13 : Z;
  cdw14 : Z;
  cdw15 : Z;
}.

(** [struct nvme_rw_command] *)
Definition rw_slba (c : nvme_command) : Z := cdw10 c + Z.shiftl (cdw11 c) 32.
Definition rw_length (c : nvme_command) : Z := getf (cdw12 c) 0 16.
Definition rw_control (c : nvme_command) : Z := getf (cdw12 c) 16 16.
Definition set_rw_slba (c : nvme_command) (v : Z) : nvme_command :=
  mk_nvme_command (opcode c) (flags c) (command_id c) (nsid c) (cdw2 c) (cdw3 c) (metadata c)
    (prp1 c) (prp2 c) (u32 v) (u32 (Z.shiftr v 32)) (cdw12 c) (cdw13 c) (cdw14 c) (cdw15 c).

(** [struct nvme_zone_mgmt_send] and [struct nvme_zone_mgmt_recv] *)
Definition zms_slba (c : nvme_command) : Z := rw_slba c.
Definition zms_zsa (c : nvme_command) : Z := getf (cdw13 c) 0 8.
Definition zms_select_all (c : nvme_command) : Z := getf (cdw13 c) 8 1.
Definition zms_zsaso (c : nvme_command) : Z := getf (cdw13 c) 9 1.
Definition zmr_slba (c : nvme_command) : Z := rw_slba c.
Definition zmr_nr_dw (c : nvme_command) : Z := cdw12 c.
Definition zmr_zra (c : nvme_command) : Z := getf (cdw13 c) 0 8.
Definition zmr_zra_specific_field (c : nvme_command) : Z := getf (cdw13 c) 8 8.
Definition zmr_zra_specific_features (c : nvme_command) : Z := getf (cdw13 c) 16 1.

(** ** Opcodes *)
Definition nvme_cmd_flush : Z := 0.
Definition nvme_cmd_write : Z := 1.
Definition nvme_cmd_read : Z := 2.
Definition nvme_cmd_zone_mgmt_send : Z := 121.
Definition nvme_cmd_zone_mgmt_recv : Z := 122.
Definition nvme_cmd_zone_append : Z := 125.
Definition nvme_cmd_kv_store : Z := 129.
Definition nvme_cmd_kv_append : Z := 131.
Definition nvme_cmd_kv_batch : Z := 133.
Definition nvme_cmd_kv_retrieve : Z := 144.
Definition nvme_cmd_kv_delete : Z := 161.
Definition nvme_cmd_kv_iter_req : Z := 177.
Definition nvme_cmd_kv_iter_read : Z := 178.
Definition nvme_cmd_kv_exist : Z := 179.
Definition nvme_cmd_print_cmt : Z := 255.

(** [NVME_RW_FUA]: bit 14 of [control]. *)
Definition NVME_RW_FUA_BIT : Z := 14.

(** ** Command set identifiers and status codes *)
Definition NVME_CSI_NVM : Z := 0.
Definition NVME_CSI_KV : Z := 1.
Definition NVME_CSI_ZNS : Z := 2.

Definition NVME_SC_SUCCESS : Z := 0.
Definition NVME_SC_INVALID_FIELD : Z := 2.
Definition NVME_SC_ZNS_INVALID_ZONE_OPERATION : Z := 438.
Definition NVME_SC_ZNS_ZRWA_RSRC_UNAVAIL : Z := 439.
Definition NVME_SC_ZNS_ERR_BOUNDARY : Z := 440.
Definition NVME_SC_ZNS_ERR_FULL : Z := 441.
Definition NVME_SC_ZNS_ERR_READ_ONLY : Z := 442.
Definition NVME_SC_ZNS_ERR_OFFLINE : Z := 443.
Definition NVME_SC_ZNS_INVALID_WRITE : Z := 444.
Definition NVME_SC_ZNS_NO_ACTIVE_ZONE : Z := 445.
Definition NVME_SC_ZNS_NO_OPEN_ZONE : Z := 446.
Definition NVME_SC_ZNS_INVALID_TRANSITION : Z := 447.

(** ** Requests and results *)
Record nvmev_request := mk_nvmev_request {
  req_cmd : nvme_command;
  req_sq_id : Z;
  req_nsecs_start : Z;
}.

Record nvmev_result := mk_nvmev_result {
  ret_status : Z;
  ret_nsecs_target : Z;
}.

(** Sizes of the members, as the hardware interface fixes them. *)
Definition cmd_ok (c : nvme_command) : Prop :=
  0 <= cdw10 c < 4294967296 /\ 0 <= cdw11 c < 4294967296 /\ 0 <= cdw12 c < 4294967296.

Lemma rw_slba_range c : cmd_ok c -> 0 <= rw_slba c < 18446744073709551616.
Proof.
  intros (H1 & H2 & _). unfold rw_slba. rewrite Z.shiftl_mul_pow2 by lia.
  change (2 ^ 32) with 4294967296. lia.
Qed.

Lemma rw_length_range c : 0 <= rw_length c < 65536.
Proof. apply (getf_range (cdw12 c) 0 16). lia. Qed.
