(* ===== verification/Prp.v ===== *)
(** * Prp: physical region pages

    The data of a command is scattered over pages of host memory: the first
    page is [prp1], the rest is [prp2] or, for more than one further page, the
    list of 64-bit addresses that [prp2] points to.  The same loop stands in
    [__do_perform_io] (io.c) and in [__prp_transfer_data] (zns_mgmt_recv.c).
    Host and device memory are maps from byte addresses to bytes. *)
From stdpp Require Import base list numbers.
From Stdlib Require Import ZArith Lia.
From S2P Require Import Prelude.

Open Scope Z_scope.
Open Scope nvmev_scope.

Definition PAGE_SIZE : Z := 4096.
Definition PAGE_OFFSET_MASK : Z := PAGE_SIZE - 1.

Definition mem : Type := Z -> Z.

Definition memcpy (dst : mem) (d : Z) (src : mem) (s n : Z) : mem :=
  fun a => if (d <=? a) && (a <? d + n) then src (s + (a - d)) else dst a.
Definition memset0 (m : mem) (d n : Z) : mem :=
  fun a => if (d <=? a) && (a <? d + n) then 0 else m a.

(** A little-endian [u64]. *)
Definition read64 (m : mem) (a : Z) : Z :=
  foldr (fun i x => m (a + i) + 256 * x) 0 (seqZ 0 8).

(** The direction of a transfer; [PRP_NONE] is an opcode that copies nothing. *)
Inductive prp_dir := PRP_TO_DEV | PRP_TO_HOST | PRP_NONE.

Record prp_state := mk_prp {
  ps_host : mem;
  ps_dev : mem;
  ps_offset : Z; (* device offset of the next byte *)
  ps_remaining : Z;
  ps_prp_offs : Z;
  ps_prp2_offs : Z;
  ps_list : option Z; (* [paddr_list]: its physical address *)
}.

(** [paddr_list[i]]: the list is mapped up to the end of its page. *)
Definition prp_list_ent (host : mem) (base : option Z) (i : Z) : outcome Z :=
  match base with
  | None => Fault
  | Some b =>
      GUARD! Z.land b PAGE_OFFSET_MASK + 8 * i + 8 <=? PAGE_SIZE;
      Ok (read64 host (b + 8 * i))
  end.

(** The page of the next chunk, the list and its next index. *)
Definition prp_next (prp1 prp2 : Z) (st : prp_state) : outcome (Z * option Z * Z) :=
  let offs := ps_prp_offs st + 1 in
  if offs =? 1 then Ok (prp1, ps_list st, ps_prp2_offs st)
  else if offs =? 2 then
    if PAGE_SIZE <? ps_remaining st then
      let* p := prp_list_ent (ps_host st) (Some prp2) (ps_prp2_offs st) in
      Ok (p, Some prp2, ps_prp2_offs st + 1)
    else Ok (prp2, ps_list st, ps_prp2_offs st)
  else
    let* p := prp_list_ent (ps_host st) (ps_list st) (ps_prp2_offs st) in
    Ok (p, ps_list st, ps_prp2_offs st + 1).

(** The bytes of a chunk: up to the end of the page. *)
Definition prp_chunk (paddr remaining : Z) : Z :=
  let io_size := Z.min remaining PAGE_SIZE in
  let mem_offs := Z.land paddr PAGE_OFFSET_MASK in
  if negb (mem_offs =? 0) && (PAGE_SIZE <? io_size + mem_offs) then PAGE_SIZE - mem_offs
  else io_size.

(** One iteration; [dlen] is the size of the device memory. *)
Definition prp_step (prp1 prp2 dlen : Z) (dir : prp_dir) (st : prp_state) : outcome prp_state :=
  let* (paddr, l, offs2) := prp_next prp1 prp2 st in
  let io_size := prp_chunk paddr (ps_remaining st) in
  let off := ps_offset st in
  let* (host, dev) :=
    (match dir with
     | PRP_NONE => Ok (ps_host st, ps_dev st)
     | PRP_TO_DEV =>
         GUARD! off + io_size <=? dlen;
         Ok (ps_host st, memcpy (ps_dev st) off (ps_host st) paddr io_size)
     | PRP_TO_HOST =>
         GUARD! off + io_size <=? dlen;
         Ok (memcpy (ps_host st) paddr (ps_dev st) off io_size, ps_dev st)
     end) in
  Ok (mk_prp host dev (off + io_size) (ps_remaining st - io_size) (ps_prp_offs st + 1) offs2 l).

(** [while (remaining)]. *)
Fixpoint prp_loop (fuel : nat) (prp1 prp2 dlen : Z) (dir : prp_dir) (st : prp_state)
  : outcome prp_state :=
  if ps_remaining st =? 0 then Ok st
  else
    match fuel with
    | O => NoFuel
    | S fuel' =>
        let* st := prp_step prp1 prp2 dlen dir st in
        prp_loop fuel' prp1 prp2 dlen dir st
    end.

(** The whole transfer: host and device memory after it.  Every chunk has at
    least a byte, so [length] iterations are enough. *)
Definition prp_transfer (host dev : mem) (prp1 prp2 offset length dlen : Z) (dir : prp_dir)
  : outcome (mem * mem) :=
  let* st := prp_loop (Z.to_nat length) prp1 prp2 dlen dir
               (mk_prp host dev offset length 0 0 None) in
  Ok (ps_host st, ps_dev st).
