(* ===== verification/PrpFacts.v ===== *)
(** * PrpFacts: what a PRP transfer copies

    [prp_addr] is the address of a byte of the data as the NVMe specification
    defines it; on well-formed pointers the loop copies exactly these bytes. *)
From stdpp Require Import base list numbers.
From Stdlib Require Import ZArith Lia.
From S2P Require Import Prelude Prp.

Open Scope Z_scope.
Open Scope nvmev_scope.

Lemma page_mask a : Z.land a PAGE_OFFSET_MASK = a mod 4096.
Proof. unfold PAGE_OFFSET_MASK, PAGE_SIZE. change (4096 - 1) with (Z.ones 12). by rewrite Z.land_ones. Qed.

Lemma prp_chunk_min a rem : 0 < rem -> prp_chunk a rem = Z.min rem (4096 - a mod 4096).
Proof.
  intros Hr. unfold prp_chunk. rewrite page_mask. unfold PAGE_SIZE.
  pose proof (Z.mod_pos_bound a 4096 ltac:(lia)).
  destruct (Z.eqb_spec (a mod 4096) 0); simpl; [lia|].
  destruct (Z.ltb_spec 4096 (Z.min rem 4096 + a mod 4096)); lia.
Qed.

Lemma prp_chunk_pos a rem : 0 < rem -> 1 <= prp_chunk a rem <= rem.
Proof. intros Hr. rewrite prp_chunk_min by done. pose proof (Z.mod_pos_bound a 4096). lia. Qed.

(** Fuel for every byte is enough, whatever the pointers are. *)
Lemma prp_step_dec p1 p2 dlen dir st :
  0 < ps_remaining st ->
  match prp_step p1 p2 dlen dir st with
  | Ok st' => 0 <= ps_remaining st' < ps_remaining st
  | Fault => True
  | _ => False
  end.
Proof.
  intros Hr. unfold prp_step.
  assert (Hn : match prp_next p1 p2 st with Ok _ | Fault => True | _ => False end).
  { unfold prp_next, prp_list_ent. repeat (case_match; try done). }
  destruct (prp_next p1 p2 st) as [[[a l] o]| | |]; try done. cbn [obind].
  pose proof (prp_chunk_pos a _ Hr). destruct dir; cbn [obind];
    try (destruct (_ <=? dlen); [|done]); cbn [obind]; simpl; lia.
Qed.

Lemma prp_loop_fuel fuel p1 p2 dlen dir st :
  0 <= ps_remaining st <= Z.of_nat fuel ->
  match prp_loop fuel p1 p2 dlen dir st with Ok _ | Fault => True | _ => False end.
Proof.
  revert st. induction fuel as [|fuel IH]; intros st Hf; simpl.
  - by rewrite (proj2 (Z.eqb_eq _ 0)) by lia.
  - destruct (Z.eqb_spec (ps_remaining st) 0); [done|].
    pose proof (prp_step_dec p1 p2 dlen dir st ltac:(lia)) as Hd.
    destruct (prp_step p1 p2 dlen dir st) as [st'| | |]; try done. cbn [obind]. apply IH. lia.
Qed.

Lemma prp_transfer_ends host dev p1 p2 off len dlen dir :
  0 <= len ->
  match prp_transfer host dev p1 p2 off len dlen dir with Ok _ | Fault => True | _ => False end.
Proof.
  intros Hl. unfold prp_transfer.
  pose proof (prp_loop_fuel (Z.to_nat len) p1 p2 dlen dir (mk_prp host dev off len 0 0 None)) as Hf.
  simpl in Hf. specialize (Hf ltac:(lia)). destruct (prp_loop _ _ _ _ _ _); try done.
Qed.

(** ** The bytes of the data *)
Section Addr.
Variables (host0 dev0 : mem) (prp1 prp2 off len dlen : Z).

(** Bytes up to the end of the first page, and whether there is a list. *)
Definition prp_first : Z := 4096 - prp1 mod 4096.
Definition prp_big : bool := 4096 <? len - prp_first.

Definition prp_addr (k : Z) : Z :=
  if k <? prp_first then prp1 + k
  else if prp_big then
    read64 host0 (prp2 + 8 * ((k - prp_first) / 4096)) + (k - prp_first) mod 4096
  else prp2 + (k - prp_first).

Record prp_wf : Prop := {
  pw_len : 0 < len;
  pw_one : prp_first < len -> prp_big = false -> prp2 mod 4096 = 0;
  pw_list : prp_big = true -> forall p, 0 <= p -> prp_first + p * 4096 < len ->
    prp2 mod 4096 + 8 * p + 8 <= 4096 /\ read64 host0 (prp2 + 8 * p) mod 4096 = 0;
}.

(** The data does not overwrite the list nor itself. *)
Record prp_disjoint : Prop := {
  pd_inj : forall j k, 0 <= j < len -> 0 <= k < len -> prp_addr j = prp_addr k -> j = k;
  pd_list : prp_big = true -> forall p b k, 0 <= p -> prp_first + p * 4096 < len -> 0 <= b < 8 ->
    0 <= k < len -> prp_addr k <> prp2 + 8 * p + b;
}.

Context (W : prp_wf).

Lemma prp_first_range : 1 <= prp_first <= 4096.
Proof. unfold prp_first. pose proof (Z.mod_pos_bound prp1 4096). lia. Qed.

(** Bytes before the [j]-th chunk. *)
Definition kpos (j : Z) : Z := if j =? 0 then 0 else Z.min len (prp_first + (j - 1) * 4096).

Lemma kpos_step j :
  0 <= j -> kpos j < len ->
  kpos (j + 1) = kpos j + prp_chunk (prp_addr (kpos j)) (len - kpos j) /\ kpos j < kpos (j + 1) <= len /\
  forall t, 0 <= t < kpos (j + 1) - kpos j -> prp_addr (kpos j + t) = prp_addr (kpos j) + t.
Proof.
  destruct W as [Hlen Hone Hlist]. pose proof prp_first_range as Hf. intros Hj Hk.
  rewrite prp_chunk_min by lia. unfold kpos in *.
  rewrite (proj2 (Z.eqb_neq (j + 1) 0)) by lia. replace (j + 1 - 1) with j by lia.
  destruct (Z.eqb_spec j 0) as [->|E].
  - assert (E0 : prp_addr 0 = prp1).
    { unfold prp_addr. rewrite (proj2 (Z.ltb_lt _ _)) by lia. lia. }
    rewrite E0. fold prp_first. split; [lia|]. split; [lia|]. intros t Ht. unfold prp_addr.
    rewrite (proj2 (Z.ltb_lt _ _)) by lia. lia.
  - assert (Ek : Z.min len (prp_first + (j - 1) * 4096) = prp_first + (j - 1) * 4096) by lia. rewrite Ek in *.
    assert (Ea : forall t, 0 <= t < 4096 -> prp_addr (prp_first + (j - 1) * 4096 + t) =
      if prp_big then read64 host0 (prp2 + 8 * (j - 1)) + t else prp2 + (j - 1) * 4096 + t).
    { intros t Ht. unfold prp_addr. rewrite (proj2 (Z.ltb_ge _ _)) by lia.
      replace (prp_first + (j - 1) * 4096 + t - prp_first) with (t + (j - 1) * 4096) by lia.
      rewrite Z.div_add, Z.mod_add, Z.div_small, Z.mod_small, Z.add_0_l by lia. destruct prp_big; lia. }
    assert (Hal : prp_addr (prp_first + (j - 1) * 4096) mod 4096 = 0).
    { replace (prp_first + (j - 1) * 4096) with (prp_first + (j - 1) * 4096 + 0) by lia. rewrite Ea by lia.
      destruct prp_big eqn:Eb; [apply Hlist in Hk; [|done|lia]; destruct Hk as [_ Hk]; by rewrite Z.add_0_r|].
      unfold prp_big in Eb. boolify. assert (j = 1) as -> by lia. rewrite !Z.add_0_r. apply Hone; [lia|done]. }
    rewrite Hal. split; [lia|]. split; [lia|]. intros t Ht.
    replace (prp_addr (prp_first + (j - 1) * 4096)) with (prp_addr (prp_first + (j - 1) * 4096 + 0)) by (f_equal; lia).
    rewrite !Ea by lia. destruct prp_big; lia.
Qed.

(** ** The loop *)
Definition list_at (j : Z) : option Z := if prp_big && (2 <=? j) then Some prp2 else None.
Definition offs2_at (j : Z) : Z := if prp_big then Z.max 0 (j - 1) else 0.

(** The memories after [k] bytes. *)
Definition copied (dir : prp_dir) (k : Z) (host dev : mem) : Prop :=
  match dir with
  | PRP_TO_DEV => host = host0 /\
      forall a, dev a = if (off <=? a) && (a <? off + k) then host0 (prp_addr (a - off)) else dev0 a
  | PRP_TO_HOST => dev = dev0 /\ (forall t, 0 <= t < k -> host (prp_addr t) = dev0 (off + t)) /\
      forall a, (forall t, 0 <= t < k -> prp_addr t <> a) -> host a = host0 a
  | PRP_NONE => host = host0 /\ dev = dev0
  end.

Record loop_at (dir : prp_dir) (j : Z) (st : prp_state) : Prop := {
  la_offs : ps_prp_offs st = j;
  la_off : ps_offset st = off + kpos j;
  la_rem : ps_remaining st = len - kpos j;
  la_list : ps_list st = list_at j;
  la_offs2 : ps_prp2_offs st = offs2_at j;
  la_mem : copied dir (kpos j) (ps_host st) (ps_dev st);
}.

Lemma read64_ext (m m' : mem) a : (forall b, 0 <= b < 8 -> m' (a + b) = m (a + b)) -> read64 m' a = read64 m a.
Proof. intros Hb. unfold read64. change (seqZ 0 8) with [0; 1; 2; 3; 4; 5; 6; 7]. simpl. by rewrite !Hb by lia. Qed.

Lemma copied_list dir k host dev p :
  (dir = PRP_TO_HOST -> prp_disjoint) -> copied dir k host dev -> k <= len ->
  prp_big = true -> 0 <= p -> prp_first + p * 4096 < len ->
  read64 host (prp2 + 8 * p) = read64 host0 (prp2 + 8 * p).
Proof.
  intros Hd Hc Hk Hb Hp Hl. apply read64_ext. intros b Hb8. destruct dir; simpl in Hc.
  - by destruct Hc as [-> _].
  - destruct Hc as (_ & _ & Hc). apply Hc. intros t Ht. apply (pd_list (Hd eq_refl)); auto; lia.
  - by destruct Hc as [-> _].
Qed.

Lemma prp_next_spec dir j st :
  (dir = PRP_TO_HOST -> prp_disjoint) -> 0 <= j -> kpos j < len -> loop_at dir j st ->
  prp_next prp1 prp2 st = Ok (prp_addr (kpos j), list_at (j + 1), offs2_at (j + 1)).
Proof.
  intros Hd Hj Hk [L1 L2 L3 L4 L5 L6]. pose proof prp_first_range as Hf. unfold prp_next.
  rewrite L1, L3, L4, L5. unfold list_at, offs2_at, kpos in *.
  destruct (Z.eqb_spec j 0) as [->|E].
  - simpl. f_equal. unfold prp_addr. rewrite (proj2 (Z.ltb_lt _ _)) by lia. rewrite andb_false_r. simpl.
    destruct prp_big; repeat f_equal; lia.
  - assert (Ek : Z.min len (prp_first + (j - 1) * 4096) = prp_first + (j - 1) * 4096) by lia. rewrite Ek in *.
    rewrite (proj2 (Z.eqb_neq (j + 1) 1)) by lia.
    assert (Ea : prp_addr (prp_first + (j - 1) * 4096) =
      if prp_big then read64 host0 (prp2 + 8 * (j - 1)) else prp2 + (j - 1) * 4096).
    { unfold prp_addr. rewrite (proj2 (Z.ltb_ge _ _)) by lia.
      replace (prp_first + (j - 1) * 4096 - prp_first) with ((j - 1) * 4096) by lia.
      rewrite Z.div_mul, Z.mod_mul by lia. destruct prp_big; lia. }
    rewrite Ea.
    assert (Hent : prp_big = true -> prp_list_ent (ps_host st) (Some prp2) (j - 1) =
      Ok (read64 host0 (prp2 + 8 * (j - 1)))).
    { intros Hb. unfold prp_list_ent. rewrite page_mask. unfold PAGE_SIZE.
      destruct (pw_list W Hb (j - 1)) as [H1 _]; [lia|lia|].
      rewrite (proj2 (Z.leb_le _ _)) by lia. f_equal.
      eapply (copied_list dir); eauto; lia. }
    rewrite (Z.max_r 0 (j - 1)) by lia.
    unfold PAGE_SIZE. destruct (Z.eqb_spec (j + 1) 2) as [E2|E2].
    + assert (j = 1) as -> by lia. destruct prp_big eqn:Eb; unfold prp_big in Eb; boolify.
      * rewrite (proj2 (Z.ltb_lt 4096 _)) by lia. rewrite Hent by done. cbn [obind]. done.
      * rewrite (proj2 (Z.ltb_ge 4096 _)) by lia. simpl. repeat f_equal. lia.
    + destruct prp_big eqn:Eb; unfold prp_big in Eb; boolify; [|lia].
      rewrite !(proj2 (Z.leb_le 2 _)) by lia. cbn [andb].
      rewrite Hent by done. cbn [obind]. repeat f_equal; lia.
Qed.

Lemma prp_step_spec dir j st :
  (dir = PRP_TO_HOST -> prp_disjoint) -> off + len <= dlen -> 0 <= j -> kpos j < len -> loop_at dir j st ->
  exists st', prp_step prp1 prp2 dlen dir st = Ok st' /\ loop_at dir (j + 1) st'.
Proof.
  intros Hd Hdl Hj Hk L. pose proof (prp_next_spec dir j st Hd Hj Hk L) as Hn.
  pose proof L as [L1 L2 L3 L4 L5 L6]. destruct (kpos_step j Hj Hk) as (Ek & Hr & Hc).
  assert (H0 : 0 <= kpos j).
  { unfold kpos. pose proof prp_first_range. destruct W. destruct (Z.eqb_spec j 0); lia. }
  unfold prp_step. rewrite Hn. cbn [obind]. rewrite L1, L2, L3.
  set (n := prp_chunk _ _) in *. assert (En : n = kpos (j + 1) - kpos j) by lia.
  rewrite (proj2 (Z.leb_le (off + kpos j + n) dlen)) by lia. destruct dir; simpl in L6; cbn [obind].
  - destruct L6 as [Hh Hdev]. rewrite Hh. eexists. split; [reflexivity|]. split; simpl; try lia; try done.
    split; [done|]. intros a. unfold memcpy. rewrite Ek.
    destruct (Z.leb_spec (off + kpos j) a), (Z.ltb_spec a (off + kpos j + n)); simpl.
    + rewrite !(proj2 (Z.leb_le off a)), (proj2 (Z.ltb_lt a _)) by lia. simpl. f_equal.
      rewrite <- Hc by lia. f_equal. lia.
    + rewrite Hdev. rewrite !(proj2 (Z.ltb_ge a _)) by lia. by rewrite !andb_false_r.
    + rewrite Hdev. rewrite !(proj2 (Z.ltb_lt a _)) by lia. done.
    + rewrite Hdev. rewrite !(proj2 (Z.ltb_ge a _)) by lia. by rewrite !andb_false_r.
  - destruct L6 as (Hde & Hin & Hout). rewrite Hde. eexists. split; [reflexivity|].
    split; simpl; try lia; try done. split; [done|]. specialize (Hd eq_refl). unfold memcpy. split.
    + intros t Ht. destruct (Z.ltb_spec t (kpos j)) as [Hlt|Hge].
      * assert (Hne : (prp_addr (kpos j) <=? prp_addr t) && (prp_addr t <? prp_addr (kpos j) + n) = false).
        { destruct (Z.leb_spec (prp_addr (kpos j)) (prp_addr t)); [|done].
          destruct (Z.ltb_spec (prp_addr t) (prp_addr (kpos j) + n)); [|done]. exfalso.
          assert (t = kpos j + (prp_addr t - prp_addr (kpos j))); [|lia].
          apply (pd_inj Hd); [lia|lia|]. rewrite Hc by lia. lia. }
        rewrite Hne. apply Hin. lia.
      * replace t with (kpos j + (t - kpos j)) by lia. rewrite Hc by lia.
        rewrite (proj2 (Z.leb_le _ _)), (proj2 (Z.ltb_lt _ _)) by lia. simpl. f_equal. lia.
    + intros a Ha. destruct (Z.leb_spec (prp_addr (kpos j)) a), (Z.ltb_spec a (prp_addr (kpos j) + n)); simpl.
      * exfalso. apply (Ha (kpos j + (a - prp_addr (kpos j)))); [lia|]. rewrite Hc by lia. lia.
      * apply Hout. intros t Ht. apply Ha. lia.
      * apply Hout. intros t Ht. apply Ha. lia.
      * apply Hout. intros t Ht. apply Ha. lia.
  - destruct L6 as [-> ->]. eexists. split; [reflexivity|]. split; simpl; try lia; try done.
Qed.

Lemma prp_loop_spec fuel dir j st :
  (dir = PRP_TO_HOST -> prp_disjoint) -> off + len <= dlen -> 0 <= j -> loop_at dir j st ->
  len - kpos j <= Z.of_nat fuel ->
  exists st', prp_loop fuel prp1 prp2 dlen dir st = Ok st' /\ copied dir len (ps_host st') (ps_dev st').
Proof.
  revert j st. induction fuel as [|fuel IH]; intros j st Hd Hdl Hj L Hf; pose proof L as [L1 L2 L3 L4 L5 L6];
    assert (kpos j <= len) by (unfold kpos; destruct (j =? 0); destruct W; lia); simpl; rewrite L3.
  - rewrite (proj2 (Z.eqb_eq _ 0)) by lia. exists st. split; [done|]. replace len with (kpos j) by lia. done.
  - destruct (Z.eqb_spec (len - kpos j) 0).
    + exists st. split; [done|]. replace len with (kpos j) by lia. done.
    + destruct (prp_step_spec dir j st Hd Hdl Hj ltac:(lia) L) as (st1 & -> & L'). cbn [obind].
      destruct (kpos_step j Hj ltac:(lia)) as (_ & Hlt & _).
      apply (IH (j + 1)); [done|done|lia|done|lia].
Qed.

Lemma prp_transfer_spec dir :
  (dir = PRP_TO_HOST -> prp_disjoint) -> off + len <= dlen ->
  exists host dev, prp_transfer host0 dev0 prp1 prp2 off len dlen dir = Ok (host, dev) /\ copied dir len host dev.
Proof.
  intros Hd Hdl. unfold prp_transfer.
  destruct (prp_loop_spec (Z.to_nat len) dir 0 (mk_prp host0 dev0 off len 0 0 None) Hd Hdl) as (st & -> & Hc).
  - lia.
  - destruct W. split; simpl; try done; unfold kpos; simpl; try lia.
    + unfold list_at. by rewrite andb_false_r.
    + unfold offs2_at. by destruct prp_big.
    + destruct dir; simpl; repeat split; try done; try lia. intros a.
      destruct (Z.leb_spec off a), (Z.ltb_spec a (off + 0)); simpl; try done; lia.
  - unfold kpos. simpl. lia.
  - cbn [obind]. eauto.
Qed.

End Addr.
