(* ===== verification/HostMem.v ===== *)
(** * HostMem: structures in host memory

    The pages that the host hands to the device are bytes; the members of a
    structure are little-endian integers at fixed offsets. *)
From stdpp Require Import base list numbers.
From Stdlib Require Import ZArith Lia.
From S2P Require Import Prelude Prp.

Open Scope Z_scope.
Open Scope nvmev_scope.

(** The bytes of a range. *)
Definition bytes (m : mem) (off n : Z) : list Z := map (fun i => m (off + i)) (seqZ 0 n).

Definition write_bytes (m : mem) (a : Z) (l : list Z) : mem :=
  fun x => if (a <=? x) && (x <? a + Z.of_nat (length l)) then default 0 (l !! Z.to_nat (x - a)) else m x.

(** The [n] bytes of an integer, and the integer of some bytes. *)
Definition le_bytes (n : nat) (x : Z) : list Z :=
  map (fun i => getf x (8 * Z.of_nat i) 8) (seq 0 n).
Definition le_value (l : list Z) : Z := foldr (fun b v => b + 256 * v) 0 l.

(** A member of [n] bytes at [a]: reading and assigning it. *)
Definition get_le (m : mem) (a n : Z) : Z := le_value (bytes m a n).
Definition put_le (m : mem) (a n v : Z) : mem := write_bytes m a (le_bytes (Z.to_nat n) v).

(** Assignments to members [(offset, size, value)] of the structure at [a]. *)
Definition put_fields (m : mem) (a : Z) (l : list (Z * Z * Z)) : mem :=
  foldl (fun m '(o, n, v) => put_le m (a + o) n v) m l.

(** ** Ranges *)
Lemma map_seqZ_ext {B} (f g : Z -> B) n :
  (forall i, 0 <= i < n -> f i = g i) -> map f (seqZ 0 n) = map g (seqZ 0 n).
Proof. intros E. apply map_ext_in. intros i Hi%list_elem_of_In%elem_of_seqZ. apply E. lia. Qed.

Lemma bytes_same (m m' : mem) off n :
  (forall x, off <= x < off + n -> m' x = m x) -> bytes m' off n = bytes m off n.
Proof. intros E. apply map_seqZ_ext. intros i Hi. apply E. lia. Qed.

Lemma length_bytes m off n : 0 <= n -> Z.of_nat (length (bytes m off n)) = n.
Proof. intros Hn. unfold bytes. rewrite length_map, length_seqZ. lia. Qed.

Lemma bytes_app m a n1 n2 : 0 <= n1 -> 0 <= n2 -> bytes m a (n1 + n2) = bytes m a n1 ++ bytes m (a + n1) n2.
Proof.
  intros H1 H2. unfold bytes. rewrite seqZ_app by done. rewrite map_app. f_equal.
  rewrite Z.add_0_l. apply list_eq. intros i. rewrite !list_lookup_fmap.
  destruct (decide (Z.of_nat i < n2)).
  - rewrite !lookup_seqZ_lt by lia. simpl. f_equal. f_equal. lia.
  - by rewrite !lookup_seqZ_ge by lia.
Qed.

Lemma bytes_write m a l : bytes (write_bytes m a l) a (Z.of_nat (length l)) = l.
Proof.
  apply list_eq. intros i. unfold bytes. rewrite list_lookup_fmap. destruct (decide (i < length l)%nat) as [Hi|Hi].
  - rewrite lookup_seqZ_lt by lia. simpl. unfold write_bytes.
    rewrite (proj2 (Z.leb_le _ _)), (proj2 (Z.ltb_lt _ _)) by lia. simpl.
    replace (Z.to_nat (a + (0 + Z.of_nat i) - a)) with i by lia.
    destruct (lookup_lt_is_Some_2 l i Hi) as [x Hx]. by rewrite Hx.
  - rewrite lookup_seqZ_ge by lia. symmetry. apply lookup_ge_None_2. lia.
Qed.

Lemma write_other m a l x : ~ (a <= x < a + Z.of_nat (length l)) -> write_bytes m a l x = m x.
Proof.
  intros Hx. unfold write_bytes. destruct (Z.leb_spec a x), (Z.ltb_spec x (a + Z.of_nat (length l))); simpl; try done; lia.
Qed.

(** ** Integers *)
Lemma length_le_bytes n x : length (le_bytes n x) = n.
Proof. unfold le_bytes. by rewrite length_map, length_seq. Qed.

Lemma le_bytes_cons n x : le_bytes (S n) x = getf x 0 8 :: le_bytes n (Z.shiftr x 8).
Proof.
  unfold le_bytes. simpl. f_equal. rewrite <- seq_shift, map_map. apply map_ext. intros i.
  unfold getf. rewrite Z.shiftr_shiftr by lia. f_equal. f_equal. lia.
Qed.

Lemma le_value_bytes n x : le_value (le_bytes n x) = x mod 2 ^ (8 * Z.of_nat n).
Proof.
  revert x. induction n as [|n IH]; intros x.
  - simpl. by rewrite Z.mod_1_r.
  - rewrite le_bytes_cons. simpl le_value. fold (le_value (le_bytes n (Z.shiftr x 8))). rewrite IH.
    rewrite getf_div by lia. rewrite Z.div_1_r, Z.shiftr_div_pow2 by lia. change (2 ^ 8) with 256.
    replace (8 * Z.of_nat (S n)) with (8 + 8 * Z.of_nat n) by lia. rewrite Z.pow_add_r by lia.
    change (2 ^ 8) with 256. rewrite Z.rem_mul_r by lia. done.
Qed.

Lemma get_put m a n v : 0 <= n -> get_le (put_le m a n v) a n = v mod 2 ^ (8 * n).
Proof.
  intros Hn. unfold get_le, put_le. rewrite <- (Z2Nat.id n) at 2 by done.
  rewrite <- (length_le_bytes (Z.to_nat n) v) at 2. rewrite bytes_write, le_value_bytes. by rewrite Z2Nat.id.
Qed.

Lemma put_other m a n v x : 0 <= n -> ~ (a <= x < a + n) -> put_le m a n v x = m x.
Proof. intros Hn Hx. apply write_other. by rewrite length_le_bytes, Z2Nat.id. Qed.

Lemma get_put_other m a n v b k : 0 <= n -> b + k <= a \/ a + n <= b -> get_le (put_le m a n v) b k = get_le m b k.
Proof. intros Hn Hd. unfold get_le. f_equal. apply bytes_same. intros x Hx. apply put_other; lia. Qed.

Lemma get_le_range m a n : (forall x, 0 <= m x < 256) -> 0 <= n -> 0 <= get_le m a n < 2 ^ (8 * n).
Proof.
  intros Hm Hn. unfold get_le, bytes. rewrite <- (Z2Nat.id n) by done. generalize (Z.to_nat n) as k.
  assert (Hl : forall l, Forall (fun b => 0 <= b < 256) l -> 0 <= le_value l < 2 ^ (8 * Z.of_nat (length l))).
  { induction 1 as [|b l Hb _ IH]; simpl; [lia|].
    fold (le_value l). replace (8 * Z.of_nat (S (length l))) with (8 + 8 * Z.of_nat (length l)) by lia.
    rewrite Z.pow_add_r by lia. change (2 ^ 8) with 256. lia. }
  intros k. match goal with |- context [le_value ?l] => pose proof (Hl l) as H; replace (length l) with k in H end.
  - apply H. apply Forall_map, Forall_forall. intros i _. apply Hm.
  - rewrite length_map, length_seqZ. lia.
Qed.

(** ** Structures *)
Lemma put_fields_other m a l x :
  Forall (fun '(o, n, _) => 0 <= n /\ ~ (a + o <= x < a + o + n)) l -> put_fields m a l x = m x.
Proof.
  unfold put_fields. revert m. induction l as [|[[o n] v] l IH]; intros m Hl; simpl; [done|].
  apply Forall_cons_1 in Hl as [[Hn Hx] Hl]. rewrite IH by done. by apply put_other; [|lia].
Qed.

(** A member that is assigned once keeps its value. *)
Definition apart (o n : Z) (f : Z * Z * Z) : bool :=
  let '(o', n', _) := f in (0 <=? n') && ((o + n <=? o') || (o' + n' <=? o)).

Lemma get_fields_other m a l o n : forallb (apart o n) l = true -> get_le (put_fields m a l) (a + o) n = get_le m (a + o) n.
Proof.
  unfold put_fields. revert m. induction l as [|[[o' n'] v] l IH]; intros m Hl; simpl in *; [done|].
  apply andb_true_iff in Hl as [Ho Hl]. rewrite IH by done. apply andb_true_iff in Ho as [Hn Ho]. apply Z.leb_le in Hn.
  apply get_put_other; [done|]. apply orb_true_iff in Ho as [Ho|Ho]; apply Z.leb_le in Ho; lia.
Qed.

Lemma get_fields m a l1 o n v l2 : 0 <= n -> forallb (apart o n) l2 = true ->
  get_le (put_fields m a (l1 ++ (o, n, v) :: l2)) (a + o) n = v mod 2 ^ (8 * n).
Proof.
  intros Hn Hl. unfold put_fields. rewrite foldl_app. simpl. fold (put_fields (put_le (foldl (fun m '(o, n, v) => put_le m (a + o) n v) m l1) (a + o) n v) a l2).
  rewrite get_fields_other by done. by apply get_put.
Qed.
