(* ===== verification/WorkQueue.v ===== *)
(** * WorkQueue: the request lists of an I/O worker (src/nvmev.h, src/io.c)

    A worker owns an array of [NR_MAX_PARALLEL_IO] work items.  Two lists are
    threaded through it by the indexes [next] and [prev]: the requests in
    flight, from [io_seq] to [io_seq_end] in the order of completion, and the
    free items, from [free_seq] to [free_seq_end].  The dispatcher takes items
    from the head of the free list, inserts them into the list of requests and
    moves completed requests from its head to the tail of the free list. *)
From stdpp Require Import base list numbers.
From Stdlib Require Import ZArith Lia.
From S2P Require Import Prelude ChannelModel SsdConfig Ssd.

Open Scope Z_scope.
Open Scope nvmev_scope.

Definition NR_MAX_PARALLEL_IO : Z := 16384.
(** [-1] in an [unsigned int]: the end of a list. *)
Definition NIL : Z := 4294967295.

(** [write_buffer] is a pointer: the namespace and the buffer in it. *)
Record nvmev_io_work := mk_work {
  w_sqid : Z;
  w_cqid : Z;
  w_sq_entry : Z;
  w_command_id : Z;
  w_nsecs_start : Z;
  w_nsecs_target : Z;
  w_nsecs_enqueue : Z;
  w_is_copied : bool;
  w_is_completed : bool;
  w_status : Z;
  w_result0 : Z;
  w_result1 : Z;
  w_is_internal : bool;
  w_write_buffer : Z * buf_id;
  w_buffs_to_release : Z;
  w_next : Z;
  w_prev : Z;
}.

Definition set_links (w : nvmev_io_work) (next prev : Z) : nvmev_io_work :=
  mk_work (w_sqid w) (w_cqid w) (w_sq_entry w) (w_command_id w) (w_nsecs_start w)
    (w_nsecs_target w) (w_nsecs_enqueue w) (w_is_copied w) (w_is_completed w) (w_status w)
    (w_result0 w) (w_result1 w) (w_is_internal w) (w_write_buffer w) (w_buffs_to_release w)
    next prev.
Definition set_next (w : nvmev_io_work) (v : Z) : nvmev_io_work := set_links w v (w_prev w).
Definition set_prev (w : nvmev_io_work) (v : Z) : nvmev_io_work := set_links w (w_next w) v.
(** The progress of a request. *)
Definition set_progress (w : nvmev_io_work) (copied completed : bool) (status result0 : Z)
  : nvmev_io_work :=
  mk_work (w_sqid w) (w_cqid w) (w_sq_entry w) (w_command_id w) (w_nsecs_start w)
    (w_nsecs_target w) (w_nsecs_enqueue w) copied completed status
    result0 (w_result1 w) (w_is_internal w) (w_write_buffer w) (w_buffs_to_release w)
    (w_next w) (w_prev w).
Definition set_copied (w : nvmev_io_work) (status result0 : Z) : nvmev_io_work :=
  set_progress w true (w_is_completed w) status result0.
Definition set_completed (w : nvmev_io_work) : nvmev_io_work :=
  set_progress w (w_is_copied w) true (w_status w) (w_result0 w).

Record nvmev_io_worker := mk_worker {
  work_queue : list nvmev_io_work;
  free_seq : Z;
  free_seq_end : Z;
  io_seq : Z;
  io_seq_end : Z;
  latest_nsecs : Z;
  worker_id : Z;
}.

Definition set_queue (k : nvmev_io_worker) (q : list nvmev_io_work) : nvmev_io_worker :=
  mk_worker q (free_seq k) (free_seq_end k) (io_seq k) (io_seq_end k) (latest_nsecs k) (worker_id k).
Definition set_io_seq (k : nvmev_io_worker) (v : Z) : nvmev_io_worker :=
  mk_worker (work_queue k) (free_seq k) (free_seq_end k) v (io_seq_end k) (latest_nsecs k) (worker_id k).
Definition set_io_seq_end (k : nvmev_io_worker) (v : Z) : nvmev_io_worker :=
  mk_worker (work_queue k) (free_seq k) (free_seq_end k) (io_seq k) v (latest_nsecs k) (worker_id k).
Definition set_free_seq (k : nvmev_io_worker) (v : Z) : nvmev_io_worker :=
  mk_worker (work_queue k) v (free_seq_end k) (io_seq k) (io_seq_end k) (latest_nsecs k) (worker_id k).
Definition set_free_seq_end (k : nvmev_io_worker) (v : Z) : nvmev_io_worker :=
  mk_worker (work_queue k) (free_seq k) v (io_seq k) (io_seq_end k) (latest_nsecs k) (worker_id k).
Definition set_latest (k : nvmev_io_worker) (v : Z) : nvmev_io_worker :=
  mk_worker (work_queue k) (free_seq k) (free_seq_end k) (io_seq k) (io_seq_end k) v (worker_id k).

(** [worker->work_queue[i]] and an assignment to its members. *)
Definition work (k : nvmev_io_worker) (i : Z) : outcome nvmev_io_work := nthZ (work_queue k) i.
Definition with_work (k : nvmev_io_worker) (i : Z) (g : nvmev_io_work -> nvmev_io_work)
  : outcome nvmev_io_worker :=
  let* q := alterZ (fun w => Ok (g w)) (work_queue k) i in
  Ok (set_queue k q).

(** ** Insertion *)

(** The loop from the tail: the item to insert after, or [NIL]. *)
Fixpoint insert_after (fuel : nat) (k : nvmev_io_worker) (nsecs_target curr : Z) : outcome Z :=
  if curr =? NIL then Ok NIL
  else
    match fuel with
    | O => NoFuel
    | S fuel' =>
        let* w := work k curr in
        if w_nsecs_target w <=? latest_nsecs k then Ok curr
        else if w_nsecs_target w <=? nsecs_target then Ok curr
        else insert_after fuel' k nsecs_target (w_prev w)
    end.

Definition __insert_req_sorted (entry : Z) (k : nvmev_io_worker) (nsecs_target : Z)
  : outcome nvmev_io_worker :=
  if io_seq k =? NIL then Ok (set_io_seq_end (set_io_seq k entry) entry)
  else
    let* curr := insert_after (length (work_queue k)) k nsecs_target (io_seq_end k) in
    if curr =? NIL then
      let* k := with_work k (io_seq k) (fun w => set_prev w entry) in
      let* k := with_work k entry (fun w => set_next w (io_seq k)) in
      Ok (set_io_seq k entry)
    else
      let* c := work k curr in
      if w_next c =? NIL then
        let* k := with_work k entry (fun w => set_prev w curr) in
        let k := set_io_seq_end k entry in
        with_work k curr (fun w => set_next w entry)
      else
        let* k := with_work k entry (fun w => set_prev w curr) in
        let* c := work k curr in
        let* k := with_work k entry (fun w => set_next w (w_next c)) in
        let* e := work k entry in
        let* k := with_work k (w_next e) (fun w => set_prev w entry) in
        with_work k curr (fun w => set_next w entry).

(** ** Allocation: [None] when only one free item is left *)
Definition take_free (k : nvmev_io_worker) : outcome (option (Z * nvmev_io_worker)) :=
  let e := free_seq k in
  let* w := work k e in
  if NR_MAX_PARALLEL_IO <=? w_next w then Ok None
  else
    let k := set_free_seq k (w_next w) in
    ASSERT! free_seq k <? NR_MAX_PARALLEL_IO;
    Ok (Some (e, k)).

(** ** Reclaiming *)

(** The completed requests at the head: the last of them. *)
Fixpoint reclaim_scan (fuel : nat) (k : nvmev_io_worker) (curr last_entry : Z) : outcome Z :=
  if curr =? NIL then Ok last_entry
  else
    match fuel with
    | O => NoFuel
    | S fuel' =>
        let* w := work k curr in
        if w_is_completed w && w_is_copied w && (w_nsecs_target w <=? latest_nsecs k) then
          reclaim_scan fuel' k (w_next w) curr
        else Ok last_entry
    end.

(** The body of [__reclaim_completed_reqs] for one worker. *)
Definition reclaim_worker (k : nvmev_io_worker) : outcome nvmev_io_worker :=
  let first_entry := io_seq k in
  let* last_entry := reclaim_scan (length (work_queue k)) k first_entry NIL in
  if last_entry =? NIL then Ok k
  else
    let* w := work k last_entry in
    let k := set_io_seq k (w_next w) in
    let* k :=
      (if negb (w_next w =? NIL) then with_work k (w_next w) (fun w => set_prev w NIL) else Ok k) in
    let* k := with_work k last_entry (fun w => set_next w NIL) in
    let* k := with_work k first_entry (fun w => set_prev w (free_seq_end k)) in
    let* k := with_work k (free_seq_end k) (fun w => set_next w first_entry) in
    Ok (set_free_seq_end k last_entry).

(** ** Initialisation: the zeroed items, chained into the free list *)
Definition work_0 : nvmev_io_work :=
  mk_work 0 0 0 0 0 0 0 false false 0 0 0 false (0, WB_GLOBAL) 0 0 0.

Definition init_lists (n worker_id : Z) : outcome nvmev_io_worker :=
  let k := mk_worker (replicate (Z.to_nat n) work_0) 0 0 0 0 0 0 in
  let* k := forO 0 n k (fun k i => with_work k i (fun w => set_links w (u32 (i + 1)) (u32 (i - 1)))) in
  let* k := with_work k (n - 1) (fun w => set_next w NIL) in
  Ok (mk_worker (work_queue k) 0 (n - 1) NIL NIL (latest_nsecs k) worker_id).
Definition init_worker (worker_id : Z) : outcome nvmev_io_worker :=
  init_lists NR_MAX_PARALLEL_IO worker_id.
