(* ===== verification/WorkQueueSpec.v ===== *)
(** * WorkQueueSpec: the lists that the work queue represents

    [wq_lists k io fr out]: [io] are the requests in flight in list order, [fr]
    the free items and [out] the items on neither list.  Each operation of
    WorkQueue is described by what it does to [io] and [fr]. *)
From stdpp Require Import base list numbers sorting sets.
From Stdlib Require Import ZArith Lia.
From S2P Require Import Prelude ChannelModel SsdConfig Ssd WorkQueue.

Open Scope Z_scope.
Open Scope nvmev_scope.

Definition hdZ (l : list Z) : Z := default NIL (head l).
Definition lastZ (l : list Z) : Z := default NIL (last l).

Lemma lastZ_snoc l x : lastZ (l ++ [x]) = x.
Proof. unfold lastZ. by rewrite last_snoc. Qed.
Lemma hdZ_reverse l : hdZ (reverse l) = lastZ l.
Proof. unfold hdZ, lastZ. by rewrite head_reverse. Qed.
Lemma lastZ_app l x l' : lastZ (l ++ x :: l') = lastZ (x :: l').
Proof. unfold lastZ. rewrite last_app_cons. done. Qed.

Lemma lastZ_in (l : list Z) : l <> [] -> lastZ l ∈ l.
Proof. intros Hl. destruct l as [|c l _] using rev_ind; [done|]. rewrite lastZ_snoc. set_solver. Qed.
Lemma hdZ_in (l : list Z) : l <> [] -> hdZ l ∈ l.
Proof. destruct l; [done|]. left. Qed.

(** ** Chains through a field of the items *)
Section Seg.
Variable g : nvmev_io_work -> Z.

Fixpoint seg (q : list nvmev_io_work) (l : list Z) (n : Z) : Prop :=
  match l with
  | [] => True
  | x :: r => (exists w, nthZ q x = Ok w /\ g w = default n (head r)) /\ seg q r n
  end.

(** The items of [l] have the same field in [q']. *)
Definition agree (q q' : list nvmev_io_work) (l : list Z) : Prop :=
  forall x w, x ∈ l -> nthZ q x = Ok w -> exists w', nthZ q' x = Ok w' /\ g w' = g w.

Lemma seg_agree q q' l n : agree q q' l -> seg q l n -> seg q' l n.
Proof.
  revert n. induction l as [|x r IH]; intros n Ha; simpl; [done|].
  intros [(w & Hw & Hg) Hr]. split.
  - destruct (Ha x w) as (w' & ? & Eg); [left|done|]. exists w'. by rewrite Eg.
  - apply IH; [|done]. intros y v Hy. apply Ha. by right.
Qed.

Lemma seg_app q l1 l2 n : seg q (l1 ++ l2) n <-> seg q l1 (default n (head l2)) /\ seg q l2 n.
Proof.
  induction l1 as [|x r IH]; simpl; [tauto|]. rewrite IH.
  assert (Eh : default n (head (r ++ l2)) = default (default n (head l2)) (head r)) by (destruct r; done).
  rewrite Eh. tauto.
Qed.

Lemma seg_snoc q l x n : seg q (l ++ [x]) n <-> seg q l x /\ exists w, nthZ q x = Ok w /\ g w = n.
Proof. rewrite seg_app. simpl. tauto. Qed.

Lemma seg_in q l n x : seg q l n -> x ∈ l -> exists w, nthZ q x = Ok w.
Proof.
  induction l as [|y r IH]; simpl; [by intros _ ?%elem_of_nil|].
  intros [(w & Hw & _) Hr] [->|Hx]%elem_of_cons; eauto.
Qed.
End Seg.

(** ** The lists of a worker *)
Record wq_lists (k : nvmev_io_worker) (io fr out : list Z) : Prop := {
  wl_len : length (work_queue k) = Z.to_nat NR_MAX_PARALLEL_IO;
  wl_all : io ++ fr ++ out ≡ₚ seqZ 0 NR_MAX_PARALLEL_IO;
  wl_io : io_seq k = hdZ io;
  wl_io_next : seg w_next (work_queue k) io NIL;
  wl_io_prev : seg w_prev (work_queue k) (reverse io) NIL;
  wl_io_end : io <> [] -> io_seq_end k = lastZ io;
  wl_fr : free_seq k = hdZ fr;
  wl_fr_next : seg w_next (work_queue k) fr NIL;
  wl_fr_end : free_seq_end k = lastZ fr;
  wl_fr_some : fr <> [];
}.

(** The members other than the links. *)
Definition same_work (w w' : nvmev_io_work) : Prop := exists n p, w' = set_links w n p.
Definition same_queue (q q' : list nvmev_io_work) : Prop :=
  length q' = length q /\ forall x w, nthZ q x = Ok w -> exists w', nthZ q' x = Ok w' /\ same_work w w'.

#[export] Instance same_work_preorder : PreOrder same_work.
Proof.
  split.
  - intros w. exists (w_next w), (w_prev w). by destruct w.
  - intros w1 w2 w3 (n & p & ->) (n' & p' & ->). by exists n', p'.
Qed.
#[export] Instance same_queue_preorder : PreOrder same_queue.
Proof.
  split.
  - intros q. split; [done|]. intros x w Hw. by exists w.
  - intros q1 q2 q3 [L1 S1] [L2 S2]. split; [congruence|]. intros x w Hw.
    destruct (S1 x w Hw) as (w2 & H2 & E2). destruct (S2 x w2 H2) as (w3 & H3 & E3).
    exists w3. split; [done|]. by etransitivity.
Qed.

Lemma same_work_target w w' : same_work w w' -> w_nsecs_target w' = w_nsecs_target w.
Proof. by intros (n & p & ->). Qed.

Section Facts.
Variables (k : nvmev_io_worker) (io fr out : list Z).
Context (W : wq_lists k io fr out).

Lemma wl_range x : x ∈ io ++ fr ++ out <-> 0 <= x < NR_MAX_PARALLEL_IO.
Proof. rewrite (wl_all _ _ _ _ W), elem_of_seqZ. lia. Qed.

Lemma wl_nodup : NoDup (io ++ fr ++ out).
Proof. rewrite (wl_all _ _ _ _ W). apply NoDup_seqZ. Qed.

Lemma wl_work x : 0 <= x < NR_MAX_PARALLEL_IO -> exists w, work k x = Ok w.
Proof. intros Hx. apply nthZ_in_range. rewrite (wl_len _ _ _ _ W). unfold NR_MAX_PARALLEL_IO in *. lia. Qed.

Lemma work_nil : work k NIL = Fault.
Proof.
  unfold work, nthZ. rewrite (proj2 (lookup_ge_None _ _)); [done|].
  rewrite (wl_len _ _ _ _ W). unfold NIL, NR_MAX_PARALLEL_IO. lia.
Qed.

Lemma wl_not_nil x : x ∈ io ++ fr ++ out -> x <> NIL.
Proof. intros Hx%wl_range. unfold NIL, NR_MAX_PARALLEL_IO in *. lia. Qed.

Lemma wl_count : (length io + length fr + length out = Z.to_nat NR_MAX_PARALLEL_IO)%nat.
Proof.
  pose proof (Permutation_length (wl_all _ _ _ _ W)) as E. rewrite !length_app, length_seqZ in E.
  unfold NR_MAX_PARALLEL_IO in *. lia.
Qed.

End Facts.

Lemma with_work_Ok k x g w : work k x = Ok w ->
  with_work k x g = Ok (set_queue k (<[Z.to_nat x := g w]> (work_queue k))).
Proof. intros Hw. unfold with_work. by rewrite (alterZ_Ok _ _ x w (g w)). Qed.

Lemma work_update k x g w y : work k x = Ok w ->
  work (set_queue k (<[Z.to_nat x := g w]> (work_queue k))) y = if y =? x then Ok (g w) else work k y.
Proof. intros Hw. unfold work. simpl. apply nthZ_insert. by eapply nthZ_range. Qed.

Lemma with_work_ex k0 x g v : work k0 x = Ok v ->
  exists q, with_work k0 x g = Ok (set_queue k0 q) /\ length q = length (work_queue k0) /\
    forall y, nthZ q y = if y =? x then Ok (g v) else work k0 y.
Proof.
  intros Hv. eexists. split; [by apply with_work_Ok|]. split; [by rewrite length_insert|].
  intros y. exact (work_update k0 x g v y Hv).
Qed.

Lemma same_update k x w n p : work k x = Ok w ->
  same_queue (work_queue k) (<[Z.to_nat x := set_links w n p]> (work_queue k)).
Proof.
  intros Hw. split; [by rewrite length_insert|]. intros y v Hv.
  pose proof (work_update k x (fun w => set_links w n p) w y Hw) as E. unfold work in E. simpl in E. rewrite E.
  destruct (Z.eqb_spec y x) as [->|].
  - unfold work in Hw. rewrite Hw in Hv. injection Hv as <-. eexists. split; [done|]. by exists n, p.
  - by exists v.
Qed.

(** Decides the comparisons of items that are equal or distinct. *)
Ltac eqb_off := repeat match goal with
  | |- context [?x =? ?y] => first
      [ rewrite (proj2 (Z.eqb_eq x y)) by congruence
      | rewrite (proj2 (Z.eqb_neq x y)) by congruence ] end.

(** ** Insertion *)
Section Insert.
Variables (k : nvmev_io_worker) (io fr out : list Z) (e : Z) (w : nvmev_io_work) (t : Z).
Context (W : wq_lists k io fr (e :: out)).
Context (We : work k e = Ok w) (Wn : w_next w = NIL) (Wp : w_prev w = NIL).

Definition req_early (x : Z) : Prop :=
  exists v, work k x = Ok v /\ (w_nsecs_target v <= latest_nsecs k \/ w_nsecs_target v <= t).
Definition req_late (x : Z) : Prop :=
  exists v, work k x = Ok v /\ latest_nsecs k < w_nsecs_target v /\ t < w_nsecs_target v.

Lemma insert_after_spec a fuel :
  a `prefix_of` io -> seg w_prev (work_queue k) (reverse a) NIL -> (length a <= fuel)%nat ->
  exists a1 a2, a = a1 ++ a2 /\ insert_after fuel k t (lastZ a) = Ok (lastZ a1) /\
    Forall req_late a2 /\ (a1 = [] \/ req_early (lastZ a1)).
Proof.
  revert fuel. induction a as [|c a IH] using rev_ind; intros fuel Hin Hs Hf.
  { exists [], []. destruct fuel; simpl; auto. }
  rewrite lastZ_snoc. rewrite reverse_snoc in Hs. simpl in Hs. destruct Hs as [(v & Hv & Hp) Hs].
  assert (Hc : c <> NIL).
  { apply (wl_not_nil k io fr (e :: out) W). destruct Hin as [b ->]. rewrite !elem_of_app. left. left. right. left. }
  rewrite length_app in Hf. simpl in Hf. destruct fuel as [|fuel]; [lia|]. simpl.
  rewrite (proj2 (Z.eqb_neq c NIL)) by done. unfold work at 1. rewrite Hv. cbn [obind].
  destruct (Z.leb_spec (w_nsecs_target v) (latest_nsecs k)) as [H1|H1];
    [|destruct (Z.leb_spec (w_nsecs_target v) t) as [H2|H2]].
  - exists (a ++ [c]), []. rewrite app_nil_r, lastZ_snoc. split; [done|]. split; [done|]. split; [done|].
    right. exists v. auto.
  - exists (a ++ [c]), []. rewrite app_nil_r, lastZ_snoc. split; [done|]. split; [done|]. split; [done|].
    right. exists v. auto.
  - destruct (IH fuel) as (a1 & a2 & -> & E & Hl & He); [by eapply prefix_app_l|done|lia|].
    rewrite Hp. fold (hdZ (reverse (a1 ++ a2))). rewrite hdZ_reverse, E.
    exists a1, (a2 ++ [c]). split; [by rewrite app_assoc|]. split; [done|]. split; [|done].
    apply Forall_app. split; [done|]. constructor; [|done]. by exists v.
Qed.

(** What the four branches of the insertion write. *)
Definition ins_work (a b : list Z) (y : Z) : outcome nvmev_io_work :=
  if y =? e then Ok (set_links w (hdZ b) (lastZ a))
  else if y =? lastZ a then (let* v := work k y in Ok (set_next v e))
  else if y =? hdZ b then (let* v := work k y in Ok (set_prev v e))
  else work k y.

Lemma ins_entries a b : io = a ++ b ->
  (a <> [] -> lastZ a <> e /\ exists v, work k (lastZ a) = Ok v /\ w_next v = hdZ b) /\
  (b <> [] -> hdZ b <> e /\ exists v, work k (hdZ b) = Ok v) /\
  (a <> [] -> b <> [] -> lastZ a <> hdZ b) /\
  (a = [] -> lastZ a = NIL) /\ (b = [] -> hdZ b = NIL).
Proof.
  intros ->. pose proof (wl_nodup _ _ _ _ W) as Hn. pose proof (wl_io_next _ _ _ _ W) as Hs.
  apply seg_app in Hs as [Ha Hb].
  split; [|split; [|split; [|by split; intros ->]]].
  - intros Hne. destruct a as [|c a _] using rev_ind; [done|]. rewrite lastZ_snoc.
    apply seg_snoc in Ha as [_ (v & Hv & Hvn)]. split; [|by exists v].
    intros ->. rewrite <- !app_assoc in Hn. simpl in Hn.
    apply NoDup_app in Hn as (_ & _ & Hn). apply NoDup_cons in Hn as [Hn _]. apply Hn. set_solver.
  - intros Hne. destruct b as [|c b]; [done|]. simpl in Hb. destruct Hb as [(v & Hv & _) _].
    change (hdZ (c :: b)) with c. split; [|by exists v]. intros ->. rewrite <- app_assoc in Hn. simpl in Hn.
    apply NoDup_app in Hn as (_ & _ & Hn). apply NoDup_cons in Hn as [Hn _]. apply Hn. set_solver.
  - intros Hna Hnb. destruct a as [|c a _] using rev_ind; [done|]. destruct b as [|d b]; [done|]. rewrite lastZ_snoc.
    change (hdZ (d :: b)) with d. intros ->. rewrite <- !app_assoc in Hn. simpl in Hn.
    apply NoDup_app in Hn as (_ & _ & Hn). apply NoDup_cons in Hn as [Hn _]. apply Hn. set_solver.
Qed.

(** A worker after the insertion between [a] and [b]. *)
Record inserted (k' : nvmev_io_worker) (a b : list Z) : Prop := {
  ins_len : length (work_queue k') = length (work_queue k);
  ins_at : forall y, work k' y = ins_work a b y;
  ins_io : io_seq k' = hdZ (a ++ e :: b);
  ins_end : io_seq_end k' = lastZ (e :: b) \/ b <> [] /\ io_seq_end k' = io_seq_end k;
  ins_rest : free_seq k' = free_seq k /\ free_seq_end k' = free_seq_end k /\
    latest_nsecs k' = latest_nsecs k /\ worker_id k' = worker_id k;
}.

Lemma w_links_id v : set_links v (w_next v) (w_prev v) = v.
Proof. by destruct v. Qed.

Lemma insert_nil : io = [] ->
  exists k', __insert_req_sorted e k t = Ok k' /\ inserted k' [] [].
Proof.
  intros ->. unfold __insert_req_sorted. rewrite (wl_io _ _ _ _ W). simpl.
  eexists. split; [reflexivity|]. split; try done; [|by left].
  intros y. unfold ins_work. change (lastZ []) with NIL. change (hdZ []) with NIL.
  destruct (Z.eqb_spec y e) as [->|].
  - rewrite <- Wn at 1. rewrite <- Wp. rewrite w_links_id. exact We.
  - destruct (Z.eqb_spec y NIL) as [->|]; [|done].
    change (work k NIL = (let* v := work k NIL in Ok (set_next v e))).
    by rewrite (work_nil _ _ _ _ W).
Qed.

Lemma insert_head b : io = b -> b <> [] ->
  insert_after (length (work_queue k)) k t (io_seq_end k) = Ok NIL ->
  exists k', __insert_req_sorted e k t = Ok k' /\ inserted k' [] b.
Proof.
  intros Eb Hb Hw. destruct (ins_entries [] b Eb) as (_ & Hhd & _). destruct (Hhd Hb) as [Hne (v & Hv)].
  assert (Hio : io_seq k = hdZ b) by (rewrite (wl_io _ _ _ _ W); by rewrite Eb).
  assert (Hnil : hdZ b <> NIL) by (intros E; rewrite E, (work_nil _ _ _ _ W) in Hv; done).
  unfold __insert_req_sorted. rewrite Hio, (proj2 (Z.eqb_neq _ _) Hnil), Hw. cbn [obind].
  rewrite Z.eqb_refl. destruct (with_work_ex k (hdZ b) (fun w => set_prev w e) v Hv) as (q1 & -> & L1 & E1).
  cbn [obind]. set (k1 := set_queue k q1).
  assert (He1 : work k1 e = Ok w) by (unfold work, k1; simpl; rewrite E1; by eqb_off).
  destruct (with_work_ex k1 e (fun w => set_next w (io_seq k1)) w He1) as (q2 & -> & L2 & E2).
  cbn [obind]. eexists. split; [reflexivity|]. split; simpl.
  - rewrite L2. exact L1.
  - intros y. unfold ins_work, work. simpl. rewrite E2. change (lastZ []) with NIL.
    destruct (Z.eqb_spec y e) as [->|]; [unfold set_next; rewrite Wp; unfold k1; simpl; by rewrite Hio|]. unfold work, k1. simpl. rewrite E1.
    destruct (Z.eqb_spec y NIL) as [->|].
    + eqb_off. unfold work. by rewrite (work_nil _ _ _ _ W : nthZ _ _ = _).
    + destruct (Z.eqb_spec y (hdZ b)) as [->|]; [|done]. by rewrite (Hv : nthZ _ _ = _).
  - done.
  - by right.
  - done.
Qed.

Lemma insert_mid a b : io = a ++ b -> a <> [] ->
  insert_after (length (work_queue k)) k t (io_seq_end k) = Ok (lastZ a) ->
  exists k', __insert_req_sorted e k t = Ok k' /\ inserted k' a b.
Proof.
  intros Eb Ha Hw. destruct (ins_entries a b Eb) as (Hla & Hhd & Hd & _ & Hbn).
  destruct (Hla Ha) as [Hne (v & Hv & Hvn)].
  assert (Hio : io_seq k <> NIL).
  { rewrite (wl_io _ _ _ _ W), Eb. destruct a as [|x a]; [done|]. simpl.
    apply (wl_not_nil k io fr (e :: out) W). rewrite Eb. simpl. left. }
  assert (Hin : io_seq k = hdZ (a ++ e :: b)) by (rewrite (wl_io _ _ _ _ W), Eb; by destruct a).
  assert (Hnil : lastZ a <> NIL) by (intros E; rewrite E, (work_nil _ _ _ _ W) in Hv; done).
  unfold __insert_req_sorted. rewrite (proj2 (Z.eqb_neq _ _) Hio), Hw. cbn [obind].
  rewrite (proj2 (Z.eqb_neq _ _) Hnil), Hv. cbn [obind]. rewrite Hvn.
  destruct (with_work_ex k e (fun w => set_prev w (lastZ a)) w We) as (q1 & E & L1 & E1).
  set (k1 := set_queue k q1) in *. destruct (Z.eqb_spec (hdZ b) NIL) as [Hb|Hb].
  - assert (b = []) as ->.
    { destruct b as [|x b]; [done|]. exfalso. apply (wl_not_nil k io fr (e :: out) W x); [|done].
      rewrite Eb. set_solver. }
    rewrite E. cbn [obind]. set (k2 := set_io_seq_end k1 e).
    assert (Hv2 : work k2 (lastZ a) = Ok v) by (unfold work; simpl; rewrite E1; by eqb_off).
    destruct (with_work_ex k2 (lastZ a) (fun w => set_next w e) v Hv2) as (q2 & -> & L2 & E2).
    eexists. split; [reflexivity|]. split; simpl; [rewrite L2; exact L1|..|done|by left|done].
    intros y. unfold ins_work. unfold work at 1. simpl. rewrite E2. unfold work. simpl. rewrite E1.
    change (hdZ []) with NIL.
    destruct (Z.eqb_spec y (lastZ a)) as [->|]; eqb_off; [unfold work in Hv; by rewrite Hv|].
    destruct (Z.eqb_spec y e) as [->|]; [unfold set_prev; by rewrite Wn|].
    destruct (Z.eqb_spec y NIL) as [->|]; [|done]. fold (work k NIL). by rewrite (work_nil _ _ _ _ W).
  - assert (Hb' : b <> []) by (intros ->; by apply Hb).
    destruct (Hhd Hb') as [Hbe (u & Hu)]. specialize (Hd Ha Hb'). rewrite E. cbn [obind].
    assert (Hv1 : work k1 (lastZ a) = Ok v) by (unfold work; simpl; rewrite E1; by eqb_off).
    rewrite Hv1. cbn [obind]. rewrite Hvn.
    assert (He1 : work k1 e = Ok (set_prev w (lastZ a))) by (unfold work; simpl; rewrite E1; by eqb_off).
    destruct (with_work_ex k1 e (fun w => set_next w (hdZ b)) _ He1) as (q2 & -> & L2 & E2). cbn [obind].
    set (k2 := set_queue k1 q2).
    assert (He2 : work k2 e = Ok (set_next (set_prev w (lastZ a)) (hdZ b))) by (unfold work; simpl; rewrite E2; by eqb_off).
    rewrite He2. cbn [obind]. change (w_next (set_next (set_prev w (lastZ a)) (hdZ b))) with (hdZ b).
    assert (Hu2 : work k2 (hdZ b) = Ok u).
    { unfold work; simpl. rewrite E2. eqb_off. unfold work. simpl. rewrite E1. by eqb_off. }
    destruct (with_work_ex k2 (hdZ b) (fun w => set_prev w e) _ Hu2) as (q3 & -> & L3 & E3). cbn [obind].
    set (k3 := set_queue k2 q3).
    assert (Hv3 : work k3 (lastZ a) = Ok v).
    { unfold work; simpl. rewrite E3. eqb_off. unfold work; simpl. rewrite E2. eqb_off. done. }
    destruct (with_work_ex k3 (lastZ a) (fun w => set_next w e) _ Hv3) as (q4 & -> & L4 & E4).
    eexists. split; [reflexivity|]. split; simpl; [rewrite L4; etransitivity; [exact L3|]; etransitivity; [exact L2|exact L1]|..|done|by right|done].
    intros y. unfold ins_work. unfold work at 1. simpl. rewrite E4. unfold work at 1; simpl. rewrite E3.
    unfold work at 1; simpl. rewrite E2. unfold work at 1; simpl. rewrite E1.
    destruct (Z.eqb_spec y (lastZ a)) as [->|]; eqb_off; [by rewrite Hv|].
    destruct (Z.eqb_spec y (hdZ b)) as [->|]; eqb_off; [by rewrite Hu|].
    destruct (Z.eqb_spec y e) as [->|]; done.
Qed.

Lemma ins_agree g k' a b l :
  io = a ++ b -> inserted k' a b -> e ∉ l ->
  (lastZ a ∈ l -> forall v, g (set_next v e) = g v) -> (hdZ b ∈ l -> forall v, g (set_prev v e) = g v) ->
  agree g (work_queue k) (work_queue k') l.
Proof.
  intros Eb I He Hn Hp x v Hx Hv. pose proof (ins_at _ _ _ I x) as E. unfold work in E at 1. rewrite E.
  unfold ins_work, work. rewrite (proj2 (Z.eqb_neq x e)) by (by intros ->). rewrite Hv. cbn [obind].
  destruct (Z.eqb_spec x (lastZ a)) as [->|]; [|destruct (Z.eqb_spec x (hdZ b)) as [->|]]; eauto.
Qed.

Lemma seg_after_insert g k' l n :
  seg g (work_queue k) l n -> agree g (work_queue k) (work_queue k') l -> seg g (work_queue k') l n.
Proof. intros Hs Ha. by eapply seg_agree. Qed.

(** The chain through [e] in one of the two directions. *)
Lemma seg_insert g k' l r n m x v :
  seg g (work_queue k) (l ++ r) n ->
  agree g (work_queue k) (work_queue k') r ->
  (forall l0 c, l = l0 ++ [c] -> agree g (work_queue k) (work_queue k') l0 /\
     exists u, work k' c = Ok u /\ g u = x) ->
  work k' x = Ok v -> g v = m -> m = default n (head r) ->
  seg g (work_queue k') (l ++ x :: r) n.
Proof.
  intros [Hl Hr]%seg_app Hra Hla Hx Hg ->. apply seg_app. simpl. split.
  - destruct l as [|c l _] using rev_ind; [done|]. destruct (Hla l c eq_refl) as [Hag (u & Hu & Hgu)].
    apply seg_snoc. split; [|by exists u]. apply seg_snoc in Hl as [Hl _]. by eapply seg_agree.
  - split; [by exists v|]. by eapply seg_agree.
Qed.

Lemma ins_same k' a b : io = a ++ b -> inserted k' a b -> same_queue (work_queue k) (work_queue k').
Proof.
  intros Eb I. split; [apply I|]. intros x v Hv.
  pose proof (ins_at _ _ _ I x) as E. unfold work in E at 1. rewrite E. unfold ins_work, work. rewrite Hv. cbn [obind].
  destruct (Z.eqb_spec x e) as [->|].
  { assert (w = v) as -> by (unfold work in We; congruence). eexists. split; [done|]. by eexists _, _. }
  destruct (x =? lastZ a); [|destruct (x =? hdZ b)]; eexists; (split; [done|]);
    [by eexists _, _|by eexists _, _|done].
Qed.

Lemma io_nodup a b : io = a ++ b -> NoDup (a ++ b) /\ e ∉ a ++ b /\ (forall x, x ∈ a ++ b -> x ∉ fr) /\ e ∉ fr.
Proof.
  intros <-. pose proof (wl_nodup _ _ _ _ W) as Hnd. rewrite app_assoc in Hnd.
  apply NoDup_app in Hnd as (Hnd & Hout & _). apply NoDup_app in Hnd as (Hn & Hf & _).
  split; [done|]. split; [|split; [done|]]; intros Hin; apply (Hout e); set_solver.
Qed.


(** [NIL] and the neighbours are off every list of other items. *)
Lemma ends_off a b l : io = a ++ b -> l ⊆ io ++ fr ->
  (forall x, x ∈ a -> x ∉ l) -> lastZ a ∉ l.
Proof.
  intros Eb Hl Ha Hin. destruct (decide (a = [])) as [->|Hn]; [|by apply (Ha _ (lastZ_in a Hn))].
  apply Hl in Hin. apply (wl_not_nil k io fr (e :: out) W NIL); [set_solver|done].
Qed.
Lemma ends_off' a b l : io = a ++ b -> l ⊆ io ++ fr ->
  (forall x, x ∈ b -> x ∉ l) -> hdZ b ∉ l.
Proof.
  intros Eb Hl Ha Hin. destruct (decide (b = [])) as [->|Hn]; [|by apply (Ha _ (hdZ_in b Hn))].
  apply Hl in Hin. apply (wl_not_nil k io fr (e :: out) W NIL); [set_solver|done].
Qed.

Lemma insert_frame g k' a b : io = a ++ b -> inserted k' a b -> agree g (work_queue k) (work_queue k') fr.
Proof.
  intros Eb I. destruct (io_nodup a b Eb) as (_ & _ & Hf & He). apply (ins_agree g k' a b); [done|done|done|..].
  - intros Hin. exfalso. revert Hin. apply (ends_off a b); [done|set_solver|]. intros x Hx. apply Hf. set_solver.
  - intros Hin. exfalso. revert Hin. apply (ends_off' a b); [done|set_solver|]. intros x Hx. apply Hf. set_solver.
Qed.

Lemma insert_entry k' a b : inserted k' a b -> work k' e = Ok (set_links w (hdZ b) (lastZ a)).
Proof. intros I. rewrite (ins_at _ _ _ I). unfold ins_work. by rewrite Z.eqb_refl. Qed.

Lemma insert_next k' a b : io = a ++ b -> inserted k' a b -> seg w_next (work_queue k') (a ++ e :: b) NIL.
Proof.
  intros Eb I. destruct (io_nodup a b Eb) as (Hnd & He & _ & _). destruct (ins_entries a b Eb) as (Hla & _).
  eapply (seg_insert w_next k' a b NIL (hdZ b));
    [rewrite <- Eb; apply W|..|exact (insert_entry _ _ _ I)|reflexivity|reflexivity].
  - apply (ins_agree _ k' a b); [done|done|set_solver|..|done].
    intros Hin. exfalso. revert Hin. apply (ends_off a b); [done|set_solver|]. intros x Hx.
    apply NoDup_app in Hnd as (_ & Hnd & _). by apply Hnd.
  - intros l0 c ->. split.
    + apply (ins_agree _ k' (l0 ++ [c]) b); [done|done|set_solver|..|done].
      rewrite lastZ_snoc. intros Hin. exfalso. apply NoDup_app in Hnd as (Hnd & _ & _).
      apply NoDup_app in Hnd as (_ & Hnd & _). apply (Hnd c); set_solver.
    + destruct (Hla ltac:(by destruct l0)) as [Hne (v & Hv & _)]. rewrite lastZ_snoc in *.
      rewrite (ins_at _ _ _ I). unfold ins_work. rewrite (proj2 (Z.eqb_neq c e)) by done.
      rewrite lastZ_snoc, Z.eqb_refl, Hv. by exists (set_next v e).
Qed.

Lemma insert_prev k' a b : io = a ++ b -> inserted k' a b ->
  seg w_prev (work_queue k') (reverse (a ++ e :: b)) NIL.
Proof.
  intros Eb I. destruct (io_nodup a b Eb) as (Hnd & He & _ & _).
  destruct (ins_entries a b Eb) as (_ & Hhd & Hd & Han & _).
  rewrite reverse_app, reverse_cons, <- app_assoc. simpl.
  eapply (seg_insert w_prev k' (reverse b) (reverse a) NIL (lastZ a));
    [rewrite <- reverse_app, <- Eb; apply W|..|exact (insert_entry _ _ _ I)|reflexivity|by rewrite <- hdZ_reverse].
  - apply (ins_agree _ k' a b); [done|done|set_solver|done|].
    intros Hin. exfalso. revert Hin. apply (ends_off' a b); [done|set_solver|]. intros x Hx.
    apply NoDup_app in Hnd as (_ & Hnd & _). rewrite elem_of_reverse. intros Hx'. by apply (Hnd x).
  - intros l0 c Hl0. assert (Hb' : b = c :: reverse l0).
    { rewrite <- (reverse_involutive b), Hl0, reverse_snoc. done. } subst b. change (hdZ (c :: reverse l0)) with c in *. split.
    + apply (ins_agree _ k' a (c :: reverse l0)); [done|done|set_solver|done|].
      change (hdZ (c :: reverse l0)) with c. intros Hin. exfalso. apply NoDup_app in Hnd as (_ & _ & Hnd).
      apply NoDup_cons in Hnd as [Hnd _]. apply Hnd. by apply elem_of_reverse.
    + destruct (Hhd ltac:(done)) as [Hne (v & Hv)].
      rewrite (ins_at _ _ _ I). unfold ins_work. rewrite (proj2 (Z.eqb_neq c e)) by done.
      change (hdZ (c :: reverse l0)) with c. destruct (Z.eqb_spec c (lastZ a)) as [E|E].
      * exfalso. destruct (decide (a = [])) as [Ea|Ea]; [|by apply (Hd Ea ltac:(done))].
        rewrite Han in E by done. rewrite E, (work_nil _ _ _ _ W) in Hv. done.
      * rewrite Z.eqb_refl, Hv. by exists (set_prev v e).
Qed.

Lemma insert_lists k' a b :
  io = a ++ b -> inserted k' a b -> wq_lists k' (a ++ e :: b) fr out.
Proof.
  intros Eb I. pose proof I as [I1 _ I3 I4 (I5 & I6 & _ & _)]. split; [..|apply W].
  - rewrite I1. apply W.
  - rewrite <- (wl_all _ _ _ _ W), Eb, <- !app_assoc. simpl. apply Permutation_app_head.
    rewrite !(app_assoc b). apply Permutation_middle.
  - done.
  - by apply insert_next.
  - by apply insert_prev.
  - intros _. rewrite lastZ_app. destruct I4 as [->|[Hb ->]]; [done|].
    destruct b as [|c b]; [done|]. rewrite (wl_io_end _ _ _ _ W), Eb by (rewrite Eb; by destruct a).
    rewrite lastZ_app. done.
  - by rewrite I5, (wl_fr _ _ _ _ W).
  - eapply seg_agree; [by apply (insert_frame _ k' a b)|apply W].
  - by rewrite I6, (wl_fr_end _ _ _ _ W).
Qed.

(** The request goes after the last one that is not later. *)
Theorem insert_req_sorted_spec :
  exists k' a b, __insert_req_sorted e k t = Ok k' /\ io = a ++ b /\
    wq_lists k' (a ++ e :: b) fr out /\ same_queue (work_queue k) (work_queue k') /\
    latest_nsecs k' = latest_nsecs k /\ worker_id k' = worker_id k /\
    Forall req_late b /\ (a = [] \/ req_early (lastZ a)).
Proof.
  assert (Hc : exists k' a b, __insert_req_sorted e k t = Ok k' /\ io = a ++ b /\ inserted k' a b /\
    Forall req_late b /\ (a = [] \/ req_early (lastZ a))).
  { destruct (decide (io = [])) as [Hio|Hio].
    { destruct (insert_nil Hio) as (k' & E & I). exists k', [], []. split_and!; try done. by left. }
    pose proof (wl_count _ _ _ _ W) as Hcnt. pose proof (wl_len _ _ _ _ W) as Hlen.
    destruct (insert_after_spec io (length (work_queue k))) as (a & b & Eb & E & Hl & He);
      [done|apply W|lia|]. rewrite <- (wl_io_end _ _ _ _ W Hio) in E.
    destruct (decide (a = [])) as [->|Ha].
    - destruct (insert_head b Eb) as (k' & E' & I); [by intros ->|done|]. exists k', [], b. by split_and!.
    - destruct (insert_mid a b Eb Ha E) as (k' & E' & I). exists k', a, b. by split_and!. }
  destruct Hc as (k' & a & b & E & Eb & I & Hl & He). exists k', a, b.
  split; [done|]. split; [done|]. split; [by apply insert_lists|]. split; [by apply (ins_same k' a b)|].
  destruct (ins_rest _ _ _ I) as (_ & _ & ? & ?). auto.
Qed.

End Insert.

(** * Allocation, reclaiming and initialisation of the lists

    [take_free] moves the first free item off the lists unless it is the last
    one, [reclaim_worker] moves the finished prefix of the requests to the end
    of the free list, [init_worker] makes every item free. *)

Section Take.
Variables (k : nvmev_io_worker) (io fr : list Z).
Context (W : wq_lists k io fr []).

Lemma take_free_spec :
  exists e fr', fr = e :: fr' /\
    (fr' = [] -> take_free k = Ok None) /\
    (fr' <> [] -> exists k', take_free k = Ok (Some (e, k')) /\ wq_lists k' io fr' [e] /\
       work_queue k' = work_queue k /\ latest_nsecs k' = latest_nsecs k /\ worker_id k' = worker_id k).
Proof.
  pose proof W as [W1 W2 W3 W4 W5 W6 W7 W8 W9 W10]. destruct fr as [|e fr']; [done|].
  exists e, fr'. split; [done|]. simpl in W8. destruct W8 as [(w & Hw & Hn) Hfr].
  unfold take_free. rewrite W7. change (hdZ (e :: fr')) with e. unfold work. rewrite Hw. cbn [obind]. rewrite Hn.
  split; [by intros ->|]. intros Hne. destruct fr' as [|x fr']; [done|]. simpl.
  assert (Hx : 0 <= x < NR_MAX_PARALLEL_IO).
  { apply (wl_range _ _ _ _ W). set_solver. }
  rewrite (proj2 (Z.leb_gt _ _)), (proj2 (Z.ltb_lt _ _)) by lia.
  eexists. split; [reflexivity|]. split; [|done]. split; simpl; try done.
  rewrite <- W2, app_nil_r. apply Permutation_app_head.
  symmetry. apply (Permutation_cons_append (x :: fr') e).
Qed.
End Take.

Section Reclaim.
Variables (k : nvmev_io_worker) (io fr out : list Z).
Context (W : wq_lists k io fr out).

Definition reclaimable (w : nvmev_io_work) : bool :=
  w_is_completed w && w_is_copied w && (w_nsecs_target w <=? latest_nsecs k).
Definition is_done (x : Z) : Prop := exists w, work k x = Ok w /\ reclaimable w = true.
Definition not_done (x : Z) : Prop := exists w, work k x = Ok w /\ reclaimable w = false.

Lemma reclaim_scan_spec a b fuel :
  io = a ++ b -> (length b <= fuel)%nat ->
  exists a' b', b = a' ++ b' /\ reclaim_scan fuel k (hdZ b) (lastZ a) = Ok (lastZ (a ++ a')) /\
    Forall is_done a' /\ (b' = [] \/ not_done (hdZ b')).
Proof.
  revert a fuel. induction b as [|c b IH]; intros a fuel Eb Hf.
  { exists [], []. rewrite (app_nil_r a). split; [done|]. split; [by destruct fuel|]. split; [done|by left]. }
  simpl in Hf. destruct fuel as [|fuel]; [lia|]. change (hdZ (c :: b)) with c. simpl.
  assert (Hc : c ∈ io ++ fr ++ out) by (rewrite Eb; set_solver).
  rewrite (proj2 (Z.eqb_neq c NIL)) by (by apply (wl_not_nil k io fr out W)).
  pose proof (wl_io_next _ _ _ _ W) as Hs. rewrite Eb in Hs. apply seg_app in Hs as [_ [(w & Hw & Hn) _]].
  unfold work at 1. rewrite Hw. cbn [obind]. destruct (reclaimable w) eqn:Er; unfold reclaimable in Er; rewrite Er.
  - rewrite Hn. fold (hdZ b). destruct (IH (a ++ [c]) fuel) as (a' & b' & -> & E & Hd & Hn');
      [by rewrite <- app_assoc|lia|]. rewrite lastZ_snoc in E. exists (c :: a'), b'.
    split; [done|]. split; [rewrite E; by rewrite <- app_assoc|]. split; [|done]. constructor; [|done]. by exists w.
  - exists [], (c :: b). rewrite (app_nil_r a). split; [done|]. split; [done|]. split; [done|]. right. by exists w.
Qed.

(** The items after the prefix [a] of [a ++ b] went to the free list. *)
Definition rec_work (a b : list Z) (y : Z) : outcome nvmev_io_work :=
  let* v := work k y in
  Ok (set_links v
    (if y =? lastZ fr then hdZ a else if y =? lastZ a then NIL else w_next v)
    (if y =? hdZ a then lastZ fr else if y =? hdZ b then NIL else w_prev v)).

Record reclaimed (k' : nvmev_io_worker) (a b : list Z) : Prop := {
  rec_len : length (work_queue k') = length (work_queue k);
  rec_at : forall y, work k' y = rec_work a b y;
  rec_io : io_seq k' = hdZ b;
  rec_fe : free_seq_end k' = lastZ a;
  rec_rest : free_seq k' = free_seq k /\ io_seq_end k' = io_seq_end k /\
    latest_nsecs k' = latest_nsecs k /\ worker_id k' = worker_id k;
}.

Lemma rec_entries a b : io = a ++ b -> a <> [] ->
  NoDup (a ++ b) /\ (forall x, x ∈ a ++ b -> x ∉ fr) /\
  hdZ a ∈ a /\ lastZ a ∈ a /\ lastZ fr ∈ fr /\ (b <> [] -> hdZ b ∈ b) /\
  (forall x, x ∈ a ++ b ++ fr -> x <> NIL /\ exists w, work k x = Ok w) /\
  exists w, work k (lastZ a) = Ok w /\ w_next w = hdZ b.
Proof.
  intros Eb Ha. pose proof (wl_nodup _ _ _ _ W) as Hn. rewrite app_assoc in Hn.
  apply NoDup_app in Hn as (Hn & _ & _). apply NoDup_app in Hn as (Hn & Hd & _). rewrite Eb in Hn, Hd.
  split; [done|]. split; [done|]. split; [by apply hdZ_in|]. split; [by apply lastZ_in|].
  split; [apply lastZ_in, W|]. split; [apply hdZ_in|]. split.
  - intros x Hx. assert (Hin : x ∈ io ++ fr ++ out) by (rewrite Eb; set_solver).
    split; [by apply (wl_not_nil _ _ _ _ W)|]. apply (wl_work _ _ _ _ W). by apply (wl_range _ _ _ _ W).
  - pose proof (wl_io_next _ _ _ _ W) as Hs. rewrite Eb in Hs. apply seg_app in Hs as [Hs _].
    destruct a as [|c a _] using rev_ind; [done|]. rewrite lastZ_snoc. by apply seg_snoc in Hs as [_ Hs].
Qed.

Lemma reclaim_writes a b : io = a ++ b -> a <> [] ->
  reclaim_scan (length (work_queue k)) k (io_seq k) NIL = Ok (lastZ a) ->
  exists k', reclaim_worker k = Ok k' /\ reclaimed k' a b.
Proof.
  intros Eb Ha Es. destruct (rec_entries a b Eb Ha) as (Hnd & Hdis & Hf & Hl & Hfe & Hb & Hex & (wl & Hwl & Hnl)).
  assert (Hio : io_seq k = hdZ a) by (rewrite (wl_io _ _ _ _ W), Eb; by destruct a).
  assert (Hfree : free_seq_end k = lastZ fr) by apply W.
  destruct (Hex (lastZ a) ltac:(set_solver)) as [Hln _]. destruct (Hex (hdZ a) ltac:(set_solver)) as [Hfn (wf & Hwf)].
  destruct (Hex (lastZ fr) ltac:(set_solver)) as [Hen (we & Hwe)].
  assert (Hlf : lastZ a <> lastZ fr) by (intros E; apply (Hdis (lastZ a)); [set_solver|by rewrite E]).
  assert (Hff : hdZ a <> lastZ fr) by (intros E; apply (Hdis (hdZ a)); [set_solver|by rewrite E]).
  unfold reclaim_worker. rewrite Es. cbn [obind]. rewrite (proj2 (Z.eqb_neq _ _) Hln), Hwl. cbn [obind].
  rewrite Hnl. set (k0 := set_io_seq k (hdZ b)).
  assert (H1 : exists q1, (if negb (hdZ b =? NIL) then with_work k0 (hdZ b) (fun w => set_prev w NIL) else Ok k0) =
      Ok (set_queue k0 q1) /\ length q1 = length (work_queue k) /\
      (hdZ b <> lastZ a /\ hdZ b <> hdZ a /\ hdZ b <> lastZ fr) /\
      forall y, nthZ q1 y = let* v := work k y in Ok (if y =? hdZ b then set_prev v NIL else v)).
  { destruct (decide (b = [])) as [->|Hbn].
    - exists (work_queue k). split; [done|]. split; [done|]. split; [by split_and!; apply not_eq_sym|].
      intros y. change (hdZ []) with NIL. destruct (Z.eqb_spec y NIL) as [->|].
      + rewrite (work_nil _ _ _ _ W). exact (work_nil _ _ _ _ W).
      + fold (work k y). by destruct (work k y).
    - specialize (Hb Hbn). destruct (Hex (hdZ b) ltac:(set_solver)) as [Hbnil (wb & Hwb)].
      destruct (with_work_ex k0 (hdZ b) (fun w => set_prev w NIL) wb Hwb) as (q1 & E & L1 & E1).
      exists q1. rewrite (proj2 (Z.eqb_neq _ _) Hbnil). split; [done|]. split; [done|]. split.
      + apply NoDup_app in Hnd as (_ & Hnd & _). split_and!; intros E'.
        * apply (Hnd (lastZ a)); [done|by rewrite <- E'].
        * apply (Hnd (hdZ a)); [done|by rewrite <- E'].
        * apply (Hdis (hdZ b)); [set_solver|by rewrite E'].
      + intros y. rewrite E1. destruct (Z.eqb_spec y (hdZ b)) as [->|]; [by rewrite Hwb|].
        change (work k0 y) with (work k y). by destruct (work k y). }
  destruct H1 as (q1 & -> & L1 & (Hb1 & Hb2 & Hb3) & E1). cbn [obind]. set (k1 := set_queue k0 q1).
  assert (Hl1 : work k1 (lastZ a) = Ok wl) by (unfold work; simpl; rewrite E1, Hwl; cbn [obind]; by eqb_off).
  destruct (with_work_ex k1 (lastZ a) (fun w => set_next w NIL) wl Hl1) as (q2 & -> & L2 & E2). cbn [obind].
  set (k2 := set_queue k1 q2). change (io_seq k) with (io_seq k) in *. rewrite Hio.
  assert (Hf2 : exists vf, work k2 (hdZ a) = Ok vf /\ vf = if hdZ a =? lastZ a then set_next wf NIL else wf).
  { unfold work. simpl. rewrite E2. destruct (Z.eqb_spec (hdZ a) (lastZ a)) as [E|E].
    - rewrite <- E, Hwf in Hwl. injection Hwl as ->. by eexists.
    - unfold work. simpl. rewrite E1, Hwf. cbn [obind]. eqb_off. by eexists. }
  destruct Hf2 as (vf & Hf2 & Evf).
  destruct (with_work_ex k2 (hdZ a) (fun w => set_prev w (free_seq_end k2)) vf Hf2) as (q3 & -> & L3 & E3). cbn [obind].
  set (k3 := set_queue k2 q3). change (free_seq_end k3) with (free_seq_end k). change (free_seq_end k2) with (free_seq_end k) in *.
  rewrite Hfree in *.
  assert (He3 : work k3 (lastZ fr) = Ok we).
  { unfold work. simpl. rewrite E3. eqb_off. unfold work. simpl. rewrite E2. eqb_off. unfold work. simpl.
    rewrite E1, Hwe. cbn [obind]. by eqb_off. }
  destruct (with_work_ex k3 (lastZ fr) (fun w => set_next w (hdZ a)) we He3) as (q4 & -> & L4 & E4). cbn [obind].
  eexists. split; [reflexivity|]. split; simpl; try done.
  - rewrite L4. etransitivity; [exact L3|]. etransitivity; [exact L2|exact L1].
  - intros y. unfold rec_work. unfold work at 1. simpl. rewrite E4. unfold work at 1. simpl. rewrite E3.
    unfold work at 1. simpl. rewrite E2. unfold work at 1. simpl. rewrite E1.
    destruct (Z.eqb_spec y (lastZ fr)) as [->|N1]; [eqb_off; by rewrite Hwe|].
    destruct (Z.eqb_spec y (hdZ a)) as [->|N2].
    { rewrite Hwf, Evf. cbn [obind]. by destruct (Z.eqb_spec (hdZ a) (lastZ a)). }
    destruct (Z.eqb_spec y (lastZ a)) as [->|N3]; [eqb_off; rewrite Hwl; done|].
    destruct (work k y) as [v| | |]; try done. cbn [obind]. destruct (y =? hdZ b); [done|]. by destruct v.
Qed.

Lemma rec_agree g k' a b l : reclaimed k' a b ->
  (forall x v, x ∈ l -> work k x = Ok v ->
     g (set_links v (if x =? lastZ fr then hdZ a else if x =? lastZ a then NIL else w_next v)
          (if x =? hdZ a then lastZ fr else if x =? hdZ b then NIL else w_prev v)) = g v) ->
  agree g (work_queue k) (work_queue k') l.
Proof.
  intros R Hg x v Hx Hv. pose proof (rec_at _ _ _ R x) as E. unfold rec_work in E.
  rewrite (Hv : work k x = _) in E. cbn [obind] in E. eexists. split; [exact E|]. by apply Hg.
Qed.

Lemma reclaim_free k' a b : io = a ++ b -> a <> [] -> reclaimed k' a b ->
  seg w_next (work_queue k') (fr ++ a) NIL.
Proof.
  intros Eb Ha R. destruct (rec_entries a b Eb Ha) as (Hnd & Hdis & Hf & Hl & Hfe & Hb & Hex & (wl & Hwl & Hnl)).
  apply NoDup_app in Hnd as (Hna & _ & _). pose proof (rec_at _ _ _ R) as R2.
  assert (Efr : exists fr0 y, fr = fr0 ++ [y]).
  { destruct fr as [|y fr0 _] using rev_ind; [by destruct (wl_fr_some _ _ _ _ W)|eauto]. }
  destruct Efr as (fr0 & y & Efr). assert (Ey : lastZ fr = y) by (rewrite Efr; apply lastZ_snoc).
  apply seg_app. split.
  - pose proof (wl_fr_next _ _ _ _ W) as Hs. rewrite Efr in Hs |- *. apply seg_snoc in Hs as [Hs (v & Hv & _)].
    apply seg_snoc. split.
    + eapply seg_agree; [|exact Hs]. apply (rec_agree w_next k' a b); [done|]. intros x u Hx _. rewrite Ey.
      rewrite (proj2 (Z.eqb_neq x y)), (proj2 (Z.eqb_neq x (lastZ a))); [done|..].
      * intros ->. apply (Hdis (lastZ a)); [set_solver|rewrite Efr; set_solver].
      * intros ->. pose proof (wl_nodup _ _ _ _ W) as Hn. apply NoDup_app in Hn as (_ & _ & Hn).
        apply NoDup_app in Hn as (Hn & _ & _). rewrite Efr in Hn. apply NoDup_app in Hn as (_ & Hn & _).
        apply (Hn y); set_solver.
    + pose proof (R2 y) as E. unfold rec_work in E. rewrite (Hv : work k y = _) in E. cbn [obind] in E.
      eexists. split; [exact E|]. simpl. rewrite Ey, Z.eqb_refl. by destruct a.
  - pose proof (wl_io_next _ _ _ _ W) as Hi. rewrite Eb in Hi. apply seg_app in Hi as [Hi _].
    destruct a as [|z a0 _] using rev_ind; [done|]. rewrite lastZ_snoc in *.
    apply seg_snoc in Hi as [Hi _]. apply seg_snoc.
    assert (Hay : forall x, x ∈ a0 ++ [z] -> x <> y).
    { intros x Hx ->. apply (Hdis y); [set_solver|]. rewrite Efr. set_solver. } split.
    + eapply seg_agree; [|exact Hi]. apply (rec_agree w_next k' (a0 ++ [z]) b); [done|]. intros x u Hx _.
      rewrite Ey, lastZ_snoc, (proj2 (Z.eqb_neq x y)), (proj2 (Z.eqb_neq x z)); [done|..].
      * intros ->. apply NoDup_app in Hna as (_ & Hna & _). apply (Hna z); set_solver.
      * apply Hay. set_solver.
    + pose proof (R2 z) as E. unfold rec_work in E. rewrite Hwl in E. cbn [obind] in E.
      eexists. split; [exact E|]. simpl. rewrite Ey, lastZ_snoc, Z.eqb_refl.
      rewrite (proj2 (Z.eqb_neq z y)); [done|]. apply Hay. set_solver.
Qed.

Lemma reclaim_lists k' a b : io = a ++ b -> a <> [] -> reclaimed k' a b ->
  wq_lists k' b (fr ++ a) out /\ same_queue (work_queue k) (work_queue k').
Proof.
  intros Eb Ha R. destruct (rec_entries a b Eb Ha) as (Hnd & Hdis & Hf & Hl & Hfe & Hb & Hex & (wl & Hwl & Hnl)).
  apply NoDup_app in Hnd as (Hna & Hab & Hnb).
  assert (Hne : forall x (l : list Z) y, x ∈ l -> y ∉ l -> x <> y) by (intros x l y Hx Hy ->; done).
  pose proof R as [R1 R2 R3 R4 (R5 & R6 & _ & _)]. split; [split|].
  - rewrite R1. apply W.
  - rewrite <- (wl_all _ _ _ _ W), Eb, <- !app_assoc, (app_assoc b fr).
    rewrite (Permutation_app_swap_app (b ++ fr) a out), <- app_assoc. done.
  - done.
  - pose proof (wl_io_next _ _ _ _ W) as Hs. rewrite Eb in Hs. apply seg_app in Hs as [_ Hs].
    eapply seg_agree; [|exact Hs]. apply (rec_agree w_next k' a b); [done|]. intros x v Hx _.
    rewrite (proj2 (Z.eqb_neq x (lastZ fr))), (proj2 (Z.eqb_neq x (lastZ a))); [done|..].
    + intros ->. by apply (Hab (lastZ a)).
    + intros ->. apply (Hdis (lastZ fr)); [set_solver|done].
  - pose proof (wl_io_prev _ _ _ _ W) as Hs. rewrite Eb, reverse_app in Hs. apply seg_app in Hs as [Hs _].
    destruct b as [|c b]; [done|]. rewrite reverse_cons in *. apply seg_snoc in Hs as [Hs (v & Hv & _)].
    apply seg_snoc. split.
    + eapply seg_agree; [|exact Hs]. apply (rec_agree w_prev k' a (c :: b)); [done|].
      intros x u Hx _. rewrite elem_of_reverse in Hx. apply NoDup_cons in Hnb as [Hnb _]. change (hdZ (c :: b)) with c.
      rewrite (proj2 (Z.eqb_neq x (hdZ a))), (proj2 (Z.eqb_neq x c)); [done|by intros ->|].
      intros ->. apply (Hab (hdZ a)); [done|set_solver].
    + pose proof (R2 c) as E. unfold rec_work in E. rewrite (Hv : work k c = _) in E. cbn [obind] in E.
      eexists. split; [exact E|]. simpl. change (hdZ (c :: b)) with c. rewrite Z.eqb_refl.
      rewrite (proj2 (Z.eqb_neq c (hdZ a))); [done|]. intros ->. apply (Hab (hdZ a)); [done|set_solver].
  - intros Hbn. rewrite R6, (wl_io_end _ _ _ _ W), Eb by (rewrite Eb; by destruct a).
    destruct b as [|c b]; [done|]. by rewrite lastZ_app.
  - rewrite R5, (wl_fr _ _ _ _ W). pose proof (wl_fr_some _ _ _ _ W). by destruct fr.
  - by apply (reclaim_free k' a b).
  - rewrite R4. destruct a as [|z a0 _] using rev_ind; [done|]. by rewrite app_assoc, !lastZ_snoc.
  - destruct fr; [|done]. by destruct (wl_fr_some _ _ _ _ W).
  - split; [done|]. intros x v Hv. pose proof (R2 x) as E. unfold rec_work in E.
    rewrite (Hv : work k x = _) in E. cbn [obind] in E. eexists. split; [exact E|]. by eexists _, _.
Qed.

(** The longest finished prefix becomes free. *)
Theorem reclaim_worker_spec :
  exists k' a b, reclaim_worker k = Ok k' /\ io = a ++ b /\ wq_lists k' b (fr ++ a) out /\
    same_queue (work_queue k) (work_queue k') /\ latest_nsecs k' = latest_nsecs k /\
    worker_id k' = worker_id k /\ Forall is_done a /\ (b = [] \/ not_done (hdZ b)).
Proof.
  pose proof (wl_count _ _ _ _ W) as Hc. pose proof (wl_len _ _ _ _ W) as Hl.
  destruct (reclaim_scan_spec [] io (length (work_queue k)) eq_refl ltac:(lia)) as (a & b & Eb & E & Hd & Hn).
  change (lastZ []) with NIL in E. rewrite <- (wl_io _ _ _ _ W) in E. simpl in E.
  destruct (decide (a = [])) as [->|Ha].
  - exists k, [], b. unfold reclaim_worker. rewrite E. simpl. rewrite app_nil_r. simpl in Eb. subst b.
    split_and!; try done; try apply W.
  - destruct (reclaim_writes a b Eb Ha E) as (k' & Ek & R). exists k', a, b.
    destruct (reclaim_lists k' a b Eb Ha R) as [HL HS]. destruct (rec_rest _ _ _ R) as (_ & _ & ? & ?).
    by split_and!.
Qed.

End Reclaim.

(** ** Initialisation *)
Lemma seg_seqZ q n a :
  0 <= n -> (forall i, a <= i < a + n -> exists w, nthZ q i = Ok w /\ w_next w = i + 1) ->
  seg w_next q (seqZ a n) (a + n).
Proof.
  intros Hn. revert a. pattern n. apply natlike_ind; [done| |done]. clear n Hn. intros n Hn IH a Hw.
  rewrite seqZ_cons by lia. replace (Z.pred (Z.succ n)) with n by lia. simpl. split.
  - destruct (Hw a) as (w & H1 & H2); [lia|]. exists w. split; [done|]. rewrite H2.
    destruct (decide (n = 0)) as [->|]; [simpl; lia|]. rewrite seqZ_cons by lia. simpl. lia.
  - replace (a + Z.succ n) with (Z.succ a + n) by lia. apply IH. intros i Hi. apply Hw. lia.
Qed.

Definition linked (i : Z) : nvmev_io_work := set_links work_0 (u32 (i + 1)) (u32 (i - 1)).

Section Init.
Variable n : Z.
Context (Hn : 0 < n < NIL).

Lemma init_chain k0 :
  length (work_queue k0) = Z.to_nat n -> (forall j, 0 <= j < n -> work k0 j = Ok work_0) ->
  exists k, forO 0 n k0 (fun k i => with_work k i (fun w => set_links w (u32 (i + 1)) (u32 (i - 1)))) = Ok k /\
    length (work_queue k) = Z.to_nat n /\ latest_nsecs k = latest_nsecs k0 /\
    forall i, 0 <= i < n -> work k i = Ok (if i <? n then linked i else work_0).
Proof.
  intros L0 H0. apply (forO_ind (fun i k => length (work_queue k) = Z.to_nat n /\ latest_nsecs k = latest_nsecs k0 /\
    forall j, 0 <= j < n -> work k j = Ok (if j <? i then linked j else work_0))); [lia|..].
  - split; [done|]. split; [done|]. intros j Hj. rewrite (proj2 (Z.ltb_ge j 0)) by lia. by apply H0.
  - intros i k Hi (L & T & Hk). pose proof (Hk i Hi) as Hw. rewrite Z.ltb_irrefl in Hw.
    destruct (with_work_ex k i (fun w => set_links w (u32 (i + 1)) (u32 (i - 1))) work_0 Hw) as (q & -> & Lq & Eq).
    eexists. split; [reflexivity|]. simpl. split; [lia|]. split; [done|]. intros j Hj. unfold work. simpl.
    rewrite Eq. destruct (Z.eqb_spec j i) as [->|Hne]; [by rewrite (proj2 (Z.ltb_lt i (i + 1))) by lia|].
    rewrite Hk by done. destruct (Z.ltb_spec j i), (Z.ltb_spec j (i + 1)); try done; lia.
Qed.

Lemma seqZ_last : seqZ 0 n = seqZ 0 (n - 1) ++ [n - 1].
Proof.
  replace n with ((n - 1) + 1) at 1 by lia. rewrite seqZ_app by lia. rewrite Z.add_0_l.
  by change (seqZ (n - 1) 1) with [n - 1].
Qed.

Lemma init_lists_spec id :
  exists k, init_lists n id = Ok k /\ length (work_queue k) = Z.to_nat n /\
    free_seq k = 0 /\ free_seq_end k = n - 1 /\ io_seq k = NIL /\ worker_id k = id /\ latest_nsecs k = 0 /\
    seg w_next (work_queue k) (seqZ 0 n) NIL /\ forall i w, work k i = Ok w -> same_work work_0 w.
Proof.
  unfold init_lists.
  destruct (init_chain (mk_worker (replicate (Z.to_nat n) work_0) 0 0 0 0 0 0)) as (k1 & -> & L1 & T1 & H1).
  { apply length_replicate. }
  { intros j Hj. apply nthZ_Ok. split; [lia|]. apply lookup_replicate. split; [done|lia]. }
  cbn [obind]. assert (Hl : work k1 (n - 1) = Ok (linked (n - 1))).
  { rewrite H1 by lia. by rewrite (proj2 (Z.ltb_lt (n - 1) n)) by lia. }
  destruct (with_work_ex k1 (n - 1) (fun w => set_next w NIL) _ Hl) as (q & -> & Lq & Eq). cbn [obind].
  eexists. split; [reflexivity|]. simpl. split; [lia|]. do 5 (split; [done|]). split.
  - rewrite seqZ_last. apply seg_snoc. split; [|exists (set_next (linked (n - 1)) NIL); by rewrite Eq, Z.eqb_refl].
    apply (seg_seqZ q (n - 1) 0); [lia|]. intros i Hi. rewrite Eq, (proj2 (Z.eqb_neq i (n - 1))) by lia.
    rewrite H1 by lia. rewrite (proj2 (Z.ltb_lt i n)) by lia. eexists. split; [reflexivity|]. simpl.
    apply u32_id. unfold NIL in Hn. lia.
  - intros i w Hw. unfold work in Hw. simpl in Hw. rewrite Eq in Hw.
    destruct (Z.eqb_spec i (n - 1)); [injection Hw as <-; by eexists _, _|].
    pose proof (nthZ_range _ _ _ Hw) as Hr. rewrite H1 in Hw by lia. injection Hw as <-.
    destruct (i <? n); [by eexists _, _|reflexivity].
Qed.
End Init.

Lemma init_worker_spec id :
  exists k, init_worker id = Ok k /\ wq_lists k [] (seqZ 0 NR_MAX_PARALLEL_IO) [] /\
    worker_id k = id /\ latest_nsecs k = 0 /\ forall i w, work k i = Ok w -> same_work work_0 w.
Proof.
  assert (HN : 0 < NR_MAX_PARALLEL_IO < NIL) by done.
  destruct (init_lists_spec _ HN id) as (k & E & L & F & Fe & I & Ei & T & S & Hw).
  pose proof (seqZ_last _ HN) as El. pose proof (seqZ_cons 0 NR_MAX_PARALLEL_IO ltac:(lia)) as Ec.
  exists k. split; [exact E|]. split; [|auto].
  refine (Build_wq_lists k [] (seqZ 0 NR_MAX_PARALLEL_IO) [] L _ I _ _ _ _ S _ _).
  - rewrite app_nil_r, app_nil_l. apply Permutation_refl.
  - exact Logic.I.
  - exact Logic.I.
  - intros Hne. by destruct Hne.
  - by rewrite F, Ec.
  - by rewrite Fe, El, lastZ_snoc.
  - rewrite Ec. discriminate.
Qed.
