(* ===== verification/IoDev.v ===== *)
(** * IoDev: I/O queues and workers (src/io.c, src/nvmev.h)

    The dispatcher takes commands from the submission queues, lets the FTL
    compute their time of completion and queues them for an I/O worker; the
    workers copy the data, wait for that time and fill completion queues.  The
    FTL is known through [IoHandler] only.  Queue pages are arrays of entries,
    apart from the pages that hold the data of commands. *)
From stdpp Require Import base list numbers.
From Stdlib Require Import ZArith Lia.
From S2P Require Import Prelude ChannelModel SsdConfig Ssd Nvme Prp WorkQueue.

Open Scope Z_scope.
Open Scope nvmev_scope.

Definition NR_MAX_IO_QUEUE : Z := 72.

(** ** Queues *)
Record nvmev_sq_stat := mk_stat {
  nr_dispatched : Z;
  nr_dispatch : Z;
  nr_in_flight : Z;
  max_nr_in_flight : Z;
  total_io : Z;
}.

Record nvmev_submission_queue := mk_sq {
  sq_qid : Z;
  sq_cqid : Z;
  sq_priority : Z;
  sq_phys_contig : bool;
  sq_queue_size : Z;
  sq_stat : nvmev_sq_stat;
  sq_entries : list nvme_command;
}.

Record nvme_completion := mk_cqe {
  cqe_result0 : Z;
  cqe_result1 : Z;
  cqe_sq_head : Z;
  cqe_sq_id : Z;
  cqe_command_id : Z;
  cqe_status : Z;
}.

Record nvmev_completion_queue := mk_cq {
  cq_qid : Z;
  cq_irq_vector : Z;
  cq_irq_enabled : bool;
  cq_interrupt_ready : bool;
  cq_phys_contig : bool;
  cq_queue_size : Z;
  cq_phase : Z;
  cq_head : Z;
  cq_tail : Z;
  cq_entries : list nvme_completion;
}.

Definition set_stat (q : nvmev_submission_queue) (s : nvmev_sq_stat) : nvmev_submission_queue :=
  mk_sq (sq_qid q) (sq_cqid q) (sq_priority q) (sq_phys_contig q) (sq_queue_size q) s (sq_entries q).
Definition set_sq_entries (q : nvmev_submission_queue) (l : list nvme_command)
  : nvmev_submission_queue :=
  mk_sq (sq_qid q) (sq_cqid q) (sq_priority q) (sq_phys_contig q) (sq_queue_size q) (sq_stat q) l.
Definition set_interrupt_ready (q : nvmev_completion_queue) (b : bool) : nvmev_completion_queue :=
  mk_cq (cq_qid q) (cq_irq_vector q) (cq_irq_enabled q) b (cq_phys_contig q) (cq_queue_size q)
    (cq_phase q) (cq_head q) (cq_tail q) (cq_entries q).
Definition set_cq_tail (q : nvmev_completion_queue) (v : Z) : nvmev_completion_queue :=
  mk_cq (cq_qid q) (cq_irq_vector q) (cq_irq_enabled q) (cq_interrupt_ready q) (cq_phys_contig q)
    (cq_queue_size q) (cq_phase q) (cq_head q) v (cq_entries q).

(** ** The interface of an FTL *)

(** What [proc_io_cmd] leaves: acceptance, namespace, clock, host memory, the
    command (a zone append writes its start address), the result and the calls
    of [schedule_internal_operation] in their order. *)
Record io_outcome (F : Type) := mk_out {
  o_ok : bool;
  o_ns : F;
  o_clk : nat;
  o_host : mem;
  o_cmd : nvme_command;
  o_ret : nvmev_result;
  o_sched : list internal_op;
}.
Arguments mk_out {F}.
Arguments o_ok {F}.
Arguments o_ns {F}.
Arguments o_clk {F}.
Arguments o_host {F}.
Arguments o_cmd {F}.
Arguments o_ret {F}.
Arguments o_sched {F}.

(** [ns_index] is the namespace of a command; [perform_io] is what the worker
    does with the data of a request: from host memory, namespace, command,
    status and result to the new ones. *)
Class IoHandler (F : Type) := {
  ns_index : nvme_command -> Z;
  proc_io_cmd : F -> nat -> mem -> nvmev_request -> nvmev_result -> outcome (io_outcome F);
  release_buffer : F -> buf_id -> Z -> outcome F;
  perform_io : F -> mem -> nvme_command -> Z -> Z -> outcome (F * mem * Z * Z);
}.

(** What the workers need of it: these operations end. *)
Class IoHandlerEnds (F : Type) `{IoHandler F} : Prop := {
  release_buffer_ends : forall (ns : F) b n, release_buffer ns b n <> NoFuel;
  perform_io_ends : forall (ns : F) m c st r, perform_io ns m c st r <> NoFuel;
}.

(** ** The device *)
Record nvmev_dev (F : Type) := mk_dev {
  d_sqes : list (option nvmev_submission_queue);
  d_cqes : list (option nvmev_completion_queue);
  d_ns : list F;
  d_host : mem;
  d_clk : nat;
  d_io_workers : list nvmev_io_worker;
  d_io_worker_turn : Z;
  d_nr_io_workers : Z; (* config.nr_io_workers *)
  d_nr_sq : Z;
  d_nr_cq : Z;
  d_irqs : list Z; (* the vectors of the calls of [nvmev_signal_irq] *)
}.
Arguments mk_dev {F}.
Arguments d_sqes {F}.
Arguments d_cqes {F}.
Arguments d_ns {F}.
Arguments d_host {F}.
Arguments d_clk {F}.
Arguments d_io_workers {F}.
Arguments d_io_worker_turn {F}.
Arguments d_nr_io_workers {F}.
Arguments d_nr_sq {F}.
Arguments d_nr_cq {F}.
Arguments d_irqs {F}.

Section Setters.
Context {F : Type}.
Implicit Type d : nvmev_dev F.

Definition set_sqes d l := mk_dev l (d_cqes d) (d_ns d) (d_host d) (d_clk d) (d_io_workers d)
  (d_io_worker_turn d) (d_nr_io_workers d) (d_nr_sq d) (d_nr_cq d) (d_irqs d).
Definition set_cqes d l := mk_dev (d_sqes d) l (d_ns d) (d_host d) (d_clk d) (d_io_workers d)
  (d_io_worker_turn d) (d_nr_io_workers d) (d_nr_sq d) (d_nr_cq d) (d_irqs d).
Definition set_ns d (l : list F) m := mk_dev (d_sqes d) (d_cqes d) l m (d_clk d) (d_io_workers d)
  (d_io_worker_turn d) (d_nr_io_workers d) (d_nr_sq d) (d_nr_cq d) (d_irqs d).
Definition set_dclk d n := mk_dev (d_sqes d) (d_cqes d) (d_ns d) (d_host d) n (d_io_workers d)
  (d_io_worker_turn d) (d_nr_io_workers d) (d_nr_sq d) (d_nr_cq d) (d_irqs d).
Definition set_workers d l t := mk_dev (d_sqes d) (d_cqes d) (d_ns d) (d_host d) (d_clk d) l
  t (d_nr_io_workers d) (d_nr_sq d) (d_nr_cq d) (d_irqs d).
Definition set_irqs d l := mk_dev (d_sqes d) (d_cqes d) (d_ns d) (d_host d) (d_clk d)
  (d_io_workers d) (d_io_worker_turn d) (d_nr_io_workers d) (d_nr_sq d) (d_nr_cq d) l.

(** A pointer that must not be NULL. *)
Definition get_sq d (sqid : Z) : outcome nvmev_submission_queue :=
  let* q := nthZ (d_sqes d) sqid in of_option q.
Definition get_cq d (cqid : Z) : outcome nvmev_completion_queue :=
  let* q := nthZ (d_cqes d) cqid in of_option q.
Definition put_sq d (sqid : Z) (q : nvmev_submission_queue) : outcome (nvmev_dev F) :=
  let* l := updZ (d_sqes d) sqid (Some q) in Ok (set_sqes d l).
Definition put_cq d (cqid : Z) (q : nvmev_completion_queue) : outcome (nvmev_dev F) :=
  let* l := updZ (d_cqes d) cqid (Some q) in Ok (set_cqes d l).
Definition get_worker d (i : Z) : outcome nvmev_io_worker := nthZ (d_io_workers d) i.
Definition put_worker d (i : Z) (k : nvmev_io_worker) : outcome (nvmev_dev F) :=
  let* l := updZ (d_io_workers d) i k in Ok (set_workers d l (d_io_worker_turn d)).
End Setters.

Definition sq_entry (q : nvmev_submission_queue) (i : Z) : outcome nvme_command :=
  nthZ (sq_entries q) i.
Definition cq_entry (q : nvmev_completion_queue) (i : Z) : outcome nvme_completion :=
  nthZ (cq_entries q) i.

(** ** The data of a command *)
Definition __cmd_io_offset (cmd : nvme_command) : Z := u64 (Z.shiftl (rw_slba cmd) LBA_BITS).
Definition __cmd_io_size (cmd : nvme_command) : Z := Z.shiftl (rw_length cmd + 1) LBA_BITS.

Definition io_dir (cmd : nvme_command) : prp_dir :=
  if (opcode cmd =? nvme_cmd_write) || (opcode cmd =? nvme_cmd_zone_append) then PRP_TO_DEV
  else if opcode cmd =? nvme_cmd_read then PRP_TO_HOST
  else PRP_NONE.

(** [dlen] is the size of the mapped storage: host and storage after it. *)
Definition __do_perform_io (host mapped : mem) (dlen : Z) (cmd : nvme_command) : outcome (mem * mem) :=
  prp_transfer host mapped (prp1 cmd) (prp2 cmd) (__cmd_io_offset cmd) (__cmd_io_size cmd) dlen
    (io_dir cmd).
