(* ===== verification/DmaChan.v ===== *)
(** * DmaChan: channels of the DMA engine (src/dma.c)

    [ioat_dma_chan_set] claims the free channels with a given name from the
    kernel; [ioat_dma_submit] gives one copy to the channel claimed last and
    polls it to its end; [ioat_dma_cleanup] gives the channels back.  The kernel
    and the drivers of the channels are parameters. *)
From Stdlib Require Import Strings.String.
From stdpp Require Import base list numbers strings.
From Stdlib Require Import ZArith Lia.
From S2P Require Import Prelude Nvme Prp.

Open Scope Z_scope.
Open Scope nvmev_scope.

Definition ENOMEM : Z := 12.
Definition EBUSY : Z := 16.
Definition DMA_EINVAL : Z := 22.

(** ** What the kernel offers *)

(** A channel: [dma_chan_name], the name of its device, and the capabilities
    DMA_MEMCPY and DMA_COMPLETION_NO_ORDER. *)
Record dma_chan := mk_chan {
  dma_chan_name : string;
  dma_dev_name : string;
  cap_memcpy : bool;
  cap_no_order : bool;
}.

Inductive dma_status := DMA_COMPLETE | DMA_IN_PROGRESS | DMA_PAUSED | DMA_ERROR | DMA_OUT_OF_ORDER.

(** How a copy ends: no descriptor, a cookie that is an error, or the status
    after [dma_sync_wait]. *)
Inductive dma_answer := NoDescriptor | SubmitError | Waited (s : dma_status).

(** The driver of a channel: memory, destination, source, length. *)
Class DmaEngine := device_dma_memcpy : dma_chan -> mem -> Z -> Z -> Z -> dma_answer * mem.

(** A working driver copies between ranges that do not overlap. *)
Class DmaEngineLaws `{DmaEngine} : Prop :=
  dma_copies : forall c m dst src n, src + n <= dst \/ dst + n <= src ->
    exists m', device_dma_memcpy c m dst src n = (Waited DMA_COMPLETE, m') /\
      forall a, m' a = memcpy m dst m src n a.

(** [dma_request_channel] for the capability DMA_MEMCPY, [dma_release_channel],
    and [strim]. *)
Class DmaKernel (K : Type) := {
  dma_request_channel : K -> (dma_chan -> bool) -> option (dma_chan * K);
  dma_release_channel : K -> dma_chan -> K;
  strim : string -> string;
}.

(** The free channels: a request takes one that passes the filter, and fails
    only when there is none. *)
Class DmaKernelLaws (K : Type) `{DmaKernel K} := {
  free_channels : K -> list dma_chan;
  request_takes : forall k f c k', dma_request_channel k f = Some (c, k') ->
    f c = true /\ cap_memcpy c = true /\ free_channels k ≡ₚ c :: free_channels k';
  request_none : forall k f, dma_request_channel k f = None ->
    Forall (fun c => cap_memcpy c && f c = false) (free_channels k);
  release_frees : forall k c, free_channels (dma_release_channel k c) ≡ₚ c :: free_channels k;
  strim_short : forall s, (String.length (strim s) <= String.length s)%nat;
}.

(** ** State *)
Record ioat_dma_params := mk_dma_params {
  par_buf_size : Z;
  par_channel : string;
  par_device : string;
  par_max_channels : Z;
  par_timeout : Z;
  par_transfer_size : Z;
  par_polled : bool;
}.

(** [test_info], [test_channel] and the channel of [dma_thread]; the type of the
    thread is always DMA_MEMCPY. *)
Record ioat_dma_info := mk_info {
  params : ioat_dma_params;
  channels : list dma_chan;
  nr_channels : Z;
  last_error : Z;
  test_channel : string;
  dma_thread : option dma_chan;
}.

Definition set_channels (i : ioat_dma_info) (p : ioat_dma_params) (l : list dma_chan) (n : Z) (t : option dma_chan) :=
  mk_info p l n (last_error i) (test_channel i) t.
Definition set_last_error (i : ioat_dma_info) (e : Z) :=
  mk_info (params i) (channels i) (nr_channels i) e (test_channel i) (dma_thread i).
Definition set_test_channel (i : ioat_dma_info) (s : string) :=
  mk_info (params i) (channels i) (nr_channels i) (last_error i) s (dma_thread i).
Definition set_polled (p : ioat_dma_params) (b : bool) : ioat_dma_params :=
  mk_dma_params (par_buf_size p) (par_channel p) (par_device p) (par_max_channels p) (par_timeout p) (par_transfer_size p) b.

(** The static variables, and memory that is zero at the start. *)
Definition test_buf_size : Z := 4096.
Definition test_device : string := "".
Definition max_channels : Z := 0.
Definition timeout : Z := 3000.
Definition transfer_size : Z := 1024.
Definition polled : bool := true.
Definition CHANNEL_NAME_LEN : nat := 20.
Definition test_info : ioat_dma_info := mk_info (mk_dma_params 0 "" "" 0 0 0 false) [] 0 0 "" None.

Section Channels.
Context {K : Type} `{DmaKernel K}.
Implicit Type info : ioat_dma_info.

Definition ioat_dma_match_channel (p : ioat_dma_params) (chan : dma_chan) : bool :=
  if String.eqb (par_channel p) "" then true else String.eqb (dma_chan_name chan) (par_channel p).
Definition ioat_dma_match_device (p : ioat_dma_params) (chan : dma_chan) : bool :=
  if String.eqb (par_device p) "" then true else String.eqb (dma_dev_name chan) (par_device p).
Definition filter_chan (p : ioat_dma_params) (chan : dma_chan) : bool :=
  ioat_dma_match_channel p chan && ioat_dma_match_device p chan.

(** The return value is 0: the allocation succeeds. *)
Definition ioat_dma_add_channel info (chan : dma_chan) : ioat_dma_info :=
  let p := params info in
  let p := if cap_no_order chan && par_polled p then set_polled p false else p in
  let t := if cap_memcpy chan then Some chan else dma_thread info in
  set_channels info p (channels info ++ [chan]) (u32 (nr_channels info + 1)) t.

(** [for (;;)]: ends when no channel is left. *)
Fixpoint request_channels (fuel : nat) info (k : K) : outcome (ioat_dma_info * K) :=
  match fuel with
  | O => NoFuel
  | S fuel' =>
      match dma_request_channel k (filter_chan (params info)) with
      | None => Ok (info, k)
      | Some (chan, k) =>
          let info := ioat_dma_add_channel info chan in
          if negb (par_max_channels (params info) =? 0) && (par_max_channels (params info) <=? nr_channels info)
          then Ok (info, k)
          else request_channels fuel' info k
      end
  end.

(** [strscpy] cuts a string to the array. *)
Definition strscpy (s : string) (size : nat) : string := String.substring 0 (size - 1) s.

Definition add_threaded_dma (fuel : nat) info (k : K) : outcome (ioat_dma_info * K) :=
  let p := mk_dma_params test_buf_size (strscpy (strim (test_channel info)) CHANNEL_NAME_LEN)
    (strscpy (strim test_device) 32) max_channels timeout transfer_size polled in
  request_channels fuel (set_channels info p (channels info) (nr_channels info) (dma_thread info)) k.

Definition chan_set_err (ret : Z) info (k : K) : outcome (Z * ioat_dma_info * K) :=
  Ok (ret, set_last_error info ret, k).

Definition ioat_dma_chan_set (fuel : nat) info (k : K) (val : string) : outcome (Z * ioat_dma_info * K) :=
  if (CHANNEL_NAME_LEN <=? String.length val)%nat then Bug
  else
    let info := set_test_channel info val in
    if existsb (fun dtc => String.eqb (dma_chan_name dtc) (strim (test_channel info))) (channels info)
    then chan_set_err (- EBUSY) info k
    else
      let* (info, k) := add_threaded_dma fuel info k in
      match last (channels info) with
      | Some dtc =>
          if negb (String.eqb (dma_chan_name dtc) (strim (test_channel info)))
             && negb (String.eqb "" (strim (test_channel info)))
          then chan_set_err (- DMA_EINVAL) info k
          else Ok (0, set_last_error info 0, k)
      | None => chan_set_err (- EBUSY) info k
      end.

(** The thread keeps its channel. *)
Definition ioat_dma_cleanup info (k : K) : ioat_dma_info * K :=
  (set_channels info (params info) [] 0 (dma_thread info), foldl dma_release_channel k (channels info)).

(** [io_using_dma], when it was set, after [NVMeV_init]. *)
Definition init_dma (fuel : nat) (io_using_dma : bool) info (k : K) : outcome (bool * ioat_dma_info * K) :=
  if io_using_dma then
    let* (ret, info, k) := ioat_dma_chan_set fuel info k "dma7chan0" in
    Ok (ret =? 0, info, k)
  else Ok (false, info, k).
End Channels.

Section Submit.
Context `{DmaEngine}.

(** The result and the memory; without a channel [chan->device] faults.  [size]
    is an [unsigned int]. *)
Definition ioat_dma_submit (info : ioat_dma_info) (m : mem) (src_addr dst_addr size : Z) : outcome (Z * mem) :=
  match dma_thread info with
  | None => Fault
  | Some chan =>
      match device_dma_memcpy chan m dst_addr src_addr (u32 size) with
      | (NoDescriptor, m) => Ok (- ENOMEM, m)
      | (SubmitError, m) => Ok (- ENOMEM, m)
      | (Waited DMA_COMPLETE, m) => Ok (0, m)
      | (Waited DMA_OUT_OF_ORDER, m) => if cap_no_order chan then Ok (0, m) else Ok (- ENOMEM, m)
      | (Waited _, m) => Ok (- ENOMEM, m)
      end
  end.
End Submit.

(** * Claiming and giving back channels

    [dma_inv] says that every registered channel can copy and that the thread
    uses the last one.  Channels that are registered are not free, so that
    claiming and giving back conserve them, and the loop over the free channels
    ends. *)

Lemma substring_all n s : (String.length s <= n)%nat -> String.substring 0 n s = s.
Proof.
  revert n. induction s as [|a s IH]; intros [|n] Hn; simpl in *; try done; [lia|]. rewrite IH by lia. done.
Qed.

Record dma_inv (info : ioat_dma_info) : Prop := {
  di_memcpy : Forall (fun c => cap_memcpy c = true) (channels info);
  di_thread : channels info <> [] -> dma_thread info = last (channels info);
  di_count : nr_channels info = u32 (Z.of_nat (length (channels info)));
}.

Lemma test_info_inv : dma_inv test_info.
Proof. split; [constructor|done|done]. Qed.

Section Facts.
Context {K : Type} `{DmaKernelLaws K}.
Implicit Type info : ioat_dma_info.

(** The filter reads only names. *)
Lemma add_channel_filter info c x :
  filter_chan (params (ioat_dma_add_channel info c)) x = filter_chan (params info) x /\
  par_max_channels (params (ioat_dma_add_channel info c)) = par_max_channels (params info).
Proof. unfold ioat_dma_add_channel. simpl. by destruct (cap_no_order c && par_polled (params info)). Qed.

Lemma add_channel_inv info c : dma_inv info -> cap_memcpy c = true -> dma_inv (ioat_dma_add_channel info c).
Proof.
  intros [M T N] Hc. split; simpl.
  - apply Forall_app. by split; [|constructor].
  - intros _. by rewrite Hc, last_snoc.
  - rewrite N, length_app. simpl. rewrite Nat2Z.inj_add. unfold u32. rewrite Zplus_mod_idemp_l. done.
Qed.

(** The loop takes every free channel that the filter lets through. *)
Lemma request_channels_spec fuel info k :
  (length (free_channels k) < fuel)%nat -> par_max_channels (params info) = 0 -> dma_inv info ->
  exists info' k' l, request_channels fuel info k = Ok (info', k') /\ dma_inv info' /\
    channels info' = channels info ++ l /\ free_channels k ≡ₚ l ++ free_channels k' /\
    Forall (fun c => cap_memcpy c && filter_chan (params info) c = true) l /\
    Forall (fun c => cap_memcpy c && filter_chan (params info) c = false) (free_channels k') /\
    test_channel info' = test_channel info.
Proof.
  revert info k. induction fuel as [|fuel IH]; intros info k Hf Hm I; [lia|]. cbn [request_channels].
  destruct (dma_request_channel k (filter_chan (params info))) as [[c k1]|] eqn:E.
  - destruct (request_takes _ _ _ _ E) as (Hc & Hcap & Hfree). destruct (add_channel_filter info c c) as [_ Em].
    rewrite Em, Hm. change (negb (0 =? 0)) with false. cbn [andb]. destruct (IH (ioat_dma_add_channel info c) k1) as (info' & k' & l & -> & I' & C & P & A & B & T).
    + apply Permutation_length in Hfree. simpl in Hfree. lia.
    + by rewrite Em.
    + by apply add_channel_inv.
    + exists info', k', (c :: l). split; [done|]. split; [done|]. split; [rewrite C; simpl; by rewrite <- app_assoc|].
      split; [by rewrite Hfree, P|]. split; [constructor; [by rewrite Hcap, Hc|]|split; [|done]].
      * eapply Forall_impl; [exact A|]. intros x. by destruct (add_channel_filter info c x) as [-> _].
      * eapply Forall_impl; [exact B|]. intros x. by destruct (add_channel_filter info c x) as [-> _].
  - exists info, k, []. rewrite app_nil_r. by split_and!; [| | | |constructor|by apply request_none|].
Qed.

(** A channel is registered under [name]; a free one has it. *)
Definition registered info (name : string) : Prop := Exists (fun c => dma_chan_name c = name) (channels info).
Definition available (k : K) (name : string) : Prop :=
  Exists (fun c => dma_chan_name c = name /\ cap_memcpy c = true) (free_channels k).

Lemma match_name info name c :
  name <> ""%string -> par_channel (params info) = name -> par_device (params info) = ""%string ->
  filter_chan (params info) c = String.eqb (dma_chan_name c) name.
Proof.
  intros Hn Hc Hd. unfold filter_chan, ioat_dma_match_channel, ioat_dma_match_device. rewrite Hc, Hd. simpl.
  rewrite (proj2 (String.eqb_neq name "") Hn). by rewrite andb_true_r.
Qed.

Lemma strim_name val : (String.length val < CHANNEL_NAME_LEN)%nat -> strscpy (strim val) CHANNEL_NAME_LEN = strim val.
Proof. intros Hv. apply substring_all. pose proof (strim_short val). unfold CHANNEL_NAME_LEN in *. simpl. lia. Qed.

Lemma strim_nil n : strscpy (strim "") n = ""%string.
Proof.
  pose proof (strim_short "") as Hs. destruct (strim "") as [|a s]; simpl in Hs; [|lia].
  unfold strscpy. by destruct (n - 1)%nat.
Qed.

(** The channels that are claimed with a name. *)
Lemma add_threaded_spec fuel info k :
  (length (free_channels k) < fuel)%nat -> dma_inv info -> (String.length (test_channel info) < CHANNEL_NAME_LEN)%nat ->
  strim (test_channel info) <> ""%string ->
  exists info' k' l, add_threaded_dma fuel info k = Ok (info', k') /\ dma_inv info' /\
    channels info' = channels info ++ l /\ free_channels k ≡ₚ l ++ free_channels k' /\
    Forall (fun c => dma_chan_name c = strim (test_channel info) /\ cap_memcpy c = true) l /\
    ~ available k' (strim (test_channel info)) /\ test_channel info' = test_channel info.
Proof.
  intros Hf I Hv Hn. set (name := strim (test_channel info)) in *. unfold add_threaded_dma. set (i1 := set_channels _ _ _ _ _).
  assert (Hm : forall c, filter_chan (params i1) c = String.eqb (dma_chan_name c) name).
  { intros c. apply (match_name i1 name); [done|by apply strim_name|apply strim_nil]. }
  destruct (request_channels_spec fuel i1 k Hf eq_refl) as (info' & k' & l & E & I' & C & P & A & B & T).
  { by destruct I; split. }
  exists info', k', l. split; [exact E|]. split; [done|]. split; [exact C|]. split; [done|].
  split; [|split; [|exact T]].
  - eapply Forall_impl; [exact A|]. intros c [Hc1 Hc2]%andb_true_iff. rewrite Hm in Hc2. by apply String.eqb_eq in Hc2.
  - intros (c & Hc & [Hc1 Hc2])%Exists_exists. rewrite Forall_forall in B. specialize (B c Hc).
    rewrite Hc2, Hm, Hc1, String.eqb_refl in B. done.
Qed.

Lemma registered_spec info name :
  existsb (fun c => String.eqb (dma_chan_name c) name) (channels info) = true <-> registered info name.
Proof.
  unfold registered. rewrite existsb_exists, Exists_exists. split.
  - intros (c & Hc & Hn%String.eqb_eq). exists c. split; [by apply list_elem_of_In|done].
  - intros (c & Hc & <-). exists c. split; [by apply list_elem_of_In|apply String.eqb_refl].
Qed.

(** [ioat_dma_chan_set] ends and succeeds exactly when no channel of this name
    is registered and one is free; then copies go to a channel of this name.  A
    failure claims nothing. *)
Theorem chan_set_claims fuel info k val :
  (length (free_channels k) < fuel)%nat -> dma_inv info ->
  (String.length val < CHANNEL_NAME_LEN)%nat -> strim val <> ""%string ->
  let name := strim val in
  exists ret info' k' l, ioat_dma_chan_set fuel info k val = Ok (ret, info', k') /\ dma_inv info' /\
    channels info' = channels info ++ l /\ free_channels k ≡ₚ l ++ free_channels k' /\
    (ret = 0 <-> ~ registered info name /\ available k name) /\
    (ret = 0 -> exists c, dma_thread info' = Some c /\ dma_chan_name c = name /\ cap_memcpy c = true) /\
    (ret <> 0 -> l = []).
Proof.
  intros Hf I Hv Hn name. unfold ioat_dma_chan_set. rewrite (proj2 (Nat.leb_gt _ _)) by done.
  set (i1 := set_test_channel info val). change (test_channel i1) with val. fold name.
  pose proof (registered_spec info name) as Hreg. change (channels i1) with (channels info).
  destruct (existsb _ (channels info)).
  { exists (- EBUSY), (set_last_error i1 (- EBUSY)), k, []. rewrite app_nil_r.
    split_and!; try done; [by destruct I; split|]. split; [done|]. intros [Hr _]. destruct Hr. by apply Hreg. }
  assert (Hnr : ~ registered info name) by (intros Hr; by apply Hreg in Hr).
  destruct (add_threaded_spec fuel i1 k Hf) as (i2 & k' & l & -> & I2 & C & P & A & B & T); [by destruct I; split|done|done|].
  cbn [obind]. rewrite T. change (test_channel i1) with val in *. fold name in A, B |- *. change (channels i1) with (channels info) in C.
  assert (Hav : available k name <-> l <> []).
  { unfold available. rewrite P, Exists_app. split; [intros [Hx|Hx]; [by intros ->; apply Exists_nil in Hx|by destruct B]|].
    intros Hl. left. destruct l as [|c l]; [done|]. apply Forall_cons in A as [A _]. by left. }
  destruct l as [|c l _] using rev_ind.
  - rewrite app_nil_r in C. rewrite C. destruct (last (channels info)) as [c|] eqn:Ec.
    + assert (Hc : String.eqb (dma_chan_name c) name = false).
      { apply String.eqb_neq. intros <-. apply Hnr, Exists_exists. exists c. split; [by apply last_Some_elem_of|done]. }
      rewrite Hc, (proj2 (String.eqb_neq "" name)) by (intros E; by apply Hn). simpl.
      exists (- DMA_EINVAL), (set_last_error i2 (- DMA_EINVAL)), k', []. rewrite app_nil_r.
      split_and!; try done; [by destruct I2; split|]. split; [done|]. intros [_ Hx]. by apply Hav in Hx.
    + exists (- EBUSY), (set_last_error i2 (- EBUSY)), k', []. rewrite app_nil_r.
      split_and!; try done; [by destruct I2; split|]. split; [done|]. intros [_ Hx]. by apply Hav in Hx.
  - assert (Hne : l ++ [c] <> []) by (by destruct l). rewrite C, app_assoc, last_snoc.
    apply Forall_app in A as [_ A]. apply Forall_cons in A as [[Hc Hcap] _]. rewrite Hc, String.eqb_refl. simpl.
    exists 0, (set_last_error i2 0), k', (l ++ [c]). split_and!; try done; [by destruct I2; split|split; [|done]; intros _; by rewrite Hav|].
    intros _. exists c. split; [|done]. simpl. rewrite (di_thread _ I2) by (rewrite C; by destruct (channels info), l).
    by rewrite C, app_assoc, last_snoc.
Qed.

(** Giving back frees what was claimed. *)
Theorem cleanup_frees info k info' k' :
  ioat_dma_cleanup info k = (info', k') -> dma_inv info' /\ channels info' = [] /\
  free_channels k' ≡ₚ channels info ++ free_channels k.
Proof.
  intros [= <- <-]. split; [by split; [constructor| |]|]. split; [done|].
  generalize (channels info) as l. intros l. revert k. induction l as [|c l IH]; intros k; simpl; [done|].
  rewrite IH, (release_frees k c). by rewrite Permutation_middle.
Qed.
End Facts.

(** A kernel with a list of free channels, on which the laws hold. *)
Fixpoint take_chan (f : dma_chan -> bool) (l : list dma_chan) : option (dma_chan * list dma_chan) :=
  match l with
  | [] => None
  | c :: l' =>
      if cap_memcpy c && f c then Some (c, l')
      else match take_chan f l' with Some (x, r) => Some (x, c :: r) | None => None end
  end.
#[export] Instance list_kernel : DmaKernel (list dma_chan) := {|
  dma_request_channel k f := take_chan f k;
  dma_release_channel k c := c :: k;
  strim s := s;
|}.
#[export] Instance list_kernel_laws : DmaKernelLaws (list dma_chan).
Proof.
  refine {| free_channels k := k |}; simpl; try done.
  - induction k as [|x k IH]; intros f c k' E; simpl in E; [done|].
    destruct (cap_memcpy x && f x) eqn:Ex; [injection E as <- <-; by apply andb_true_iff in Ex as [-> ->]|].
    destruct (take_chan f k) as [[y r]|] eqn:Et; [|done]. injection E as <- <-.
    destruct (IH f y r Et) as (H1 & H2 & ->). split; [done|]. split; [done|]. apply Permutation_swap.
  - induction k as [|x k IH]; intros f E; simpl in E; [constructor|].
    destruct (cap_memcpy x && f x) eqn:Ex; [done|]. destruct (take_chan f k) as [[]|] eqn:Et; [done|].
    constructor; [done|by apply IH].
Defined.

(** The name that [NVMeV_init] asks for. *)
Lemma chan_set_claims_witness : exists info' k',
  ioat_dma_chan_set 3 test_info [mk_chan "dma0chan0" "dma0" true false; mk_chan "dma7chan0" "dma7" true false] "dma7chan0"
    = Ok (0, info', k') /\
  exists c, dma_thread info' = Some c /\ dma_chan_name c = "dma7chan0"%string.
Proof.
  destruct (chan_set_claims (K := list dma_chan) 3 test_info
    [mk_chan "dma0chan0" "dma0" true false; mk_chan "dma7chan0" "dma7" true false] "dma7chan0")
    as (ret & info' & k' & l & E & _ & _ & _ & R & T & _); [simpl; lia|apply test_info_inv|simpl; unfold CHANNEL_NAME_LEN; lia|done|].
  assert (Hr : ret = 0).
  { apply R. split; [intros Hx; by apply Exists_nil in Hx|]. right. left. done. }
  subst ret. exists info', k'. split; [exact E|]. destruct (T eq_refl) as (c & Hc & Hn & _). by exists c.
Defined.
