(* ===== verification/IoDma.v ===== *)
(** * IoDma: copying the data of a command with a DMA engine (src/io.c)

    [__do_perform_io_using_dma] first collects the physical addresses of the
    pages of a command, then gives runs of adjacent pages to the engine as one
    copy.  It works on physical memory, which holds the pages of the host and
    the storage. *)
From stdpp Require Import base list numbers sets.
From Stdlib Require Import ZArith Lia.
From S2P Require Import Prelude SsdConfig Ssd Nvme Prp PrpFacts WorkQueue IoDev DmaChan.

Open Scope Z_scope.
Open Scope nvmev_scope.

Section Dma.
Context `{DmaEngine}.
(** The registered channels. *)
Variable info : ioat_dma_info.

(** ** The code *)
Definition NR_PADDR : nat := 513.

(** The first loop: the addresses go to [paddr_list[1]] and up. *)
Fixpoint dma_collect (fuel : nat) (p1 p2 dlen : Z) (st : prp_state) (paddr_list : list Z)
  : outcome (prp_state * list Z) :=
  if ps_remaining st =? 0 then Ok (st, paddr_list)
  else
    match fuel with
    | O => NoFuel
    | S fuel' =>
        let* (paddr, _, _) := prp_next p1 p2 st in
        let* l := updZ paddr_list (ps_prp_offs st + 1) paddr in
        let* st := prp_step p1 p2 dlen PRP_NONE st in
        dma_collect fuel' p1 p2 dlen st l
    end.

(** [for (prp_offs++; prp_offs <= num_prps; prp_offs++)]: the run of pages. *)
Fixpoint dma_merge (fuel : nat) (paddr_list : list Z) (num_prps prp_offs page_size : Z)
  : outcome (Z * Z) :=
  if num_prps <? prp_offs then Ok (prp_offs, page_size)
  else
    match fuel with
    | O => NoFuel
    | S fuel' =>
        let* a := nthZ paddr_list prp_offs in
        let* b := nthZ paddr_list (prp_offs - 1) in
        if a =? u64 (b + PAGE_SIZE) then
          dma_merge fuel' paddr_list num_prps (prp_offs + 1) (page_size + PAGE_SIZE)
        else Ok (prp_offs, page_size)
    end.

(** The second loop; what [ioat_dma_submit] returns is not looked at. *)
Fixpoint dma_transfer (fuel : nat) (dir : prp_dir) (paddr_list : list Z) (num_prps storage : Z)
  (phys : mem) (offset remaining prp_offs : Z) : outcome mem :=
  if remaining =? 0 then Ok phys
  else
    match fuel with
    | O => NoFuel
    | S fuel' =>
        let* paddr := nthZ paddr_list prp_offs in
        let* (prp_offs, page_size) :=
          dma_merge (length paddr_list) paddr_list num_prps (prp_offs + 1) (prp_chunk paddr remaining) in
        let io_size := Z.min remaining page_size in
        let* (_, phys) :=
          match dir with
          | PRP_TO_DEV => ioat_dma_submit info phys paddr (storage + offset) io_size
          | PRP_TO_HOST => ioat_dma_submit info phys (storage + offset) paddr io_size
          | PRP_NONE => Ok (0, phys)
          end in
        dma_transfer fuel' dir paddr_list num_prps storage phys (offset + io_size) (remaining - io_size)
          prp_offs
    end.

(** [storage] is [config.storage_start], whatever the namespace. *)
Definition __do_perform_io_using_dma (phys : mem) (storage dlen : Z) (cmd : nvme_command) : outcome mem :=
  let offset := __cmd_io_offset cmd in
  let length := __cmd_io_size cmd in
  let* (st, l) := dma_collect (Z.to_nat length) (prp1 cmd) (prp2 cmd) dlen
                    (mk_prp phys phys offset length 0 0 None) (replicate NR_PADDR 0) in
  dma_transfer (Z.to_nat length) (io_dir cmd) l (ps_prp_offs st) storage phys offset length 1.
End Dma.

(** * The DMA copy is the page-wise copy *)

Section Facts.
Context `{DmaEngineLaws}.
Context (info : ioat_dma_info) (dc : dma_chan) (Hchan : dma_thread info = Some dc).
Variables (phys : mem) (p1 p2 off len dlen storage : Z).
Notation addr := (prp_addr phys p1 p2 len).
Notation first := (prp_first p1).
Notation kp := (kpos p1 len).
Notation at_ := (loop_at phys phys p1 p2 off len).
Context (W : prp_wf phys p1 p2 len) (Hdl : off + len <= dlen).

(** Address of chunk [i]. *)
Definition chunk (i : Z) : Z := addr (kp i).

Lemma kp_range i j : 0 <= i <= j -> 0 <= kp i <= kp j /\ kp j <= len.
Proof.
  intros Hi. pose proof (prp_first_range p1) as Hf. destruct W as [Hlen _ _]. unfold kpos.
  destruct (Z.eqb_spec i 0), (Z.eqb_spec j 0); lia.
Qed.

(** The chunks after the first are whole pages. *)
Lemma kp_next i : 1 <= i -> kp i < len -> kp (i + 1) = Z.min len (kp i + 4096).
Proof.
  intros Hi. unfold kpos. rewrite (proj2 (Z.eqb_neq i 0)), (proj2 (Z.eqb_neq (i + 1) 0)) by lia. lia.
Qed.

Lemma chunk_aligned i : 1 <= i -> kp i < len -> chunk i mod 4096 = 0.
Proof.
  intros Hi Hk. pose proof (prp_first_range p1) as Hf. unfold chunk, kpos in *. rewrite (proj2 (Z.eqb_neq i 0)) in * by lia.
  assert (Ek : Z.min len (first + (i - 1) * 4096) = first + (i - 1) * 4096) by lia. rewrite Ek in *.
  unfold prp_addr. rewrite (proj2 (Z.ltb_ge _ _)) by lia.
  replace (first + (i - 1) * 4096 - first) with ((i - 1) * 4096) by lia. rewrite Z.div_mul, Z.mod_mul by lia.
  destruct (prp_big p1 len) eqn:Eb.
  - destruct (pw_list _ _ _ _ W Eb (i - 1)) as [_ Ha]; [lia|lia|]. by rewrite Z.add_0_r.
  - unfold prp_big in Eb. boolify. assert (i = 1) as -> by lia. rewrite Z.add_0_r. apply (pw_one _ _ _ _ W); [lia|].
    unfold prp_big. by apply Z.ltb_ge.
Qed.

(** ** The list of addresses *)
Definition collected (l : list Z) (j : Z) : Prop :=
  length l = NR_PADDR /\ forall i, 0 <= i < j -> nthZ l (i + 1) = Ok (chunk i).

Context (Hpages : len <= first + 511 * 4096).

Lemma chunk_index i : 0 <= i -> kp i < len -> i < 512.
Proof. unfold kpos. destruct (Z.eqb_spec i 0); lia. Qed.

Lemma collect_spec fuel j st l :
  0 <= j -> (0 < j -> kp (j - 1) < len) -> at_ PRP_NONE j st -> collected l j -> len - kp j <= Z.of_nat fuel ->
  exists st' l' N, dma_collect fuel p1 p2 dlen st l = Ok (st', l') /\ ps_prp_offs st' = N /\ j <= N /\
    kp N = len /\ (0 < N -> kp (N - 1) < len) /\ collected l' N.
Proof.
  revert j st l. induction fuel as [|fuel IH]; intros j st l Hj Hprev L C Hf; pose proof L as [L1 L2 L3 L4 L5 L6];
    pose proof (kp_range j j ltac:(lia)) as [_ Hk]; cbn [dma_collect]; rewrite L3.
  - rewrite (proj2 (Z.eqb_eq _ 0)) by lia. exists st, l, j. split; [done|]. split; [done|]. split; [done|]. split; [lia|done].
  - destruct (Z.eqb_spec (len - kp j) 0).
    { exists st, l, j. split; [done|]. split; [done|]. split; [done|]. split; [lia|done]. }
    assert (Hlt : kp j < len) by lia. pose proof (chunk_index j Hj Hlt) as Hi. destruct C as [C1 C2].
    rewrite (prp_next_spec phys phys p1 p2 off len W PRP_NONE j st) by done. cbn [obind]. rewrite L1.
    assert (Hr : 0 <= j + 1 < Z.of_nat (length l)) by (rewrite C1; unfold NR_PADDR; lia).
    rewrite updZ_Ok by done. cbn [obind].
    destruct (prp_step_spec phys phys p1 p2 off len dlen W PRP_NONE j st) as (st1 & -> & L'); [done|done|done|done|done|].
    cbn [obind]. destruct (kpos_step phys p1 p2 len W j Hj Hlt) as (_ & Hst & _).
    destruct (IH (j + 1) st1 (<[Z.to_nat (j + 1) := chunk j]> l)) as (st' & l' & N & E & A1 & A2 & A3 & A4 & A5); try done; try lia.
    + intros _. by replace (j + 1 - 1) with j by lia.
    + split; [by rewrite length_insert|]. intros i Hii. rewrite nthZ_insert by done.
      destruct (Z.eqb_spec (i + 1) (j + 1)); [by replace i with j by lia|apply C2; lia].
    + exists st', l', N. split; [exact E|]. split; [done|]. split; [lia|done].
Qed.

(** ** Runs of adjacent pages *)
Context (Haddr : forall k, 0 <= k < len -> 0 <= addr k < 18446744073709547520).
Variables (l : list Z) (N : Z).
Context (C : collected l N) (HN : 0 < N) (Nlast : kp (N - 1) < len) (Nend : kp N = len).

Lemma before_N i : 0 <= i < N -> kp i < len.
Proof. intros Hi. pose proof (kp_range i (N - 1)). lia. Qed.

(** Bytes [kp j] to [kp i - 1] are one range of memory from chunk [j]. *)
Record run_at (j i page_size : Z) : Prop := {
  ra_bytes : forall t, 0 <= t < kp i - kp j -> addr (kp j + t) = chunk j + t;
  ra_more : i < N -> page_size = kp i - kp j /\
    (chunk (i - 1) + 4096 = chunk j + page_size \/ i = j + 1 /\ chunk j mod 4096 <> 0);
  ra_size : Z.min (len - kp j) page_size = kp i - kp j;
}.

Lemma run_start j : 0 <= j < N -> run_at j (j + 1) (prp_chunk (chunk j) (len - kp j)).
Proof.
  intros Hj. pose proof (before_N j Hj) as Hk. destruct (kpos_step phys p1 p2 len W j ltac:(lia) Hk) as (Ek & Hr & Hb).
  fold (chunk j) in *. split.
  - done.
  - intros Hi. split; [lia|]. replace (j + 1 - 1) with j by lia. pose proof (before_N (j + 1) ltac:(lia)) as Hk1.
    rewrite prp_chunk_min in * by lia. destruct (decide (chunk j mod 4096 = 0)) as [E|E]; [left|by right].
    rewrite E in *. lia.
  - lia.
Qed.

Lemma run_extend j i page_size :
  0 <= j < i -> i < N -> run_at j i page_size -> chunk i = u64 (chunk (i - 1) + PAGE_SIZE) ->
  run_at j (i + 1) (page_size + PAGE_SIZE).
Proof.
  intros Hj Hi [R1 R2 R3] E. unfold PAGE_SIZE in *. pose proof (before_N i ltac:(lia)) as Hk.
  pose proof (before_N (i - 1) ltac:(lia)) as Hk1. pose proof (kp_range (i - 1) (i - 1) ltac:(lia)) as [Hp _].
  pose proof (Haddr (kp (i - 1)) ltac:(lia)) as Ha. fold (chunk (i - 1)) in Ha. rewrite u64_id in E by lia.
  destruct (R2 Hi) as [Ep Hc]. pose proof (chunk_aligned i ltac:(lia) Hk) as Hal.
  destruct Hc as [Hc|[-> Hmis]].
  2:{ exfalso. apply Hmis. replace (j + 1 - 1) with j in E by lia. rewrite E in Hal.
      rewrite <- Hal. rewrite <- (Z.mul_1_l 4096) at 2. by rewrite Z.mod_add. }
  destruct (kpos_step phys p1 p2 len W i ltac:(lia) Hk) as (_ & Hr & Hb). fold (chunk i) in Hb.
  pose proof (kp_next i ltac:(lia) Hk) as Hn. pose proof (kp_range j i ltac:(lia)) as [Hji _]. split.
  - intros t Ht. destruct (Z.lt_ge_cases t (kp i - kp j)); [by apply R1; lia|].
    replace (kp j + t) with (kp i + (t - (kp i - kp j))) by lia. rewrite Hb by lia. lia.
  - intros Hi1. pose proof (before_N (i + 1) ltac:(lia)). replace (i + 1 - 1) with i by lia. split; [lia|]. left. lia.
  - lia.
Qed.

Lemma merge_spec fuel j i page_size :
  0 <= j < i -> i <= N -> N - i <= Z.of_nat fuel -> run_at j i page_size ->
  exists i' page_size', dma_merge fuel l N (i + 1) page_size = Ok (i' + 1, page_size') /\
    i <= i' <= N /\ run_at j i' page_size'.
Proof.
  revert i page_size. destruct C as [C1 C2]. induction fuel as [|fuel IH]; intros i ps Hj Hi Hf R; cbn [dma_merge].
  - rewrite (proj2 (Z.ltb_lt _ _)) by lia. exists i, ps. split; [done|]. split; [lia|done].
  - destruct (Z.ltb_spec N (i + 1)).
    { exists i, ps. split; [done|]. split; [lia|done]. }
    rewrite (C2 i) by lia. cbn [obind]. replace (i + 1 - 1) with (i - 1 + 1) by lia. rewrite (C2 (i - 1)) by lia. cbn [obind].
    destruct (Z.eqb_spec (chunk i) (u64 (chunk (i - 1) + PAGE_SIZE))) as [E|E].
    + pose proof (run_extend j i ps Hj ltac:(lia) R E) as R'.
      destruct (IH (i + 1) (ps + PAGE_SIZE)) as (i' & ps' & Em & A1 & A2); [lia|lia|lia|done|].
      exists i', ps'. split; [exact Em|]. split; [lia|done].
    + exists i, ps. split; [done|]. split; [lia|done].
Qed.

(** ** The copies *)
Context (Hoff : 0 <= off) (Hlen : len < 4294967296).
Context (Hapart : forall k, 0 <= k < len -> ~ (storage + off <= addr k < storage + off + len)).

(** Physical memory after [k] bytes. *)
Definition dma_done (dir : prp_dir) (k : Z) (m : mem) : Prop :=
  match dir with
  | PRP_TO_DEV => forall a, m a =
      if (storage + off <=? a) && (a <? storage + off + k) then phys (addr (a - (storage + off))) else phys a
  | PRP_TO_HOST => (forall t, 0 <= t < k -> m (addr t) = phys (storage + off + t)) /\
      forall a, (forall t, 0 <= t < k -> addr t <> a) -> m a = phys a
  | PRP_NONE => forall a, m a = phys a
  end.

(** A range of the data and a range of the storage do not overlap. *)
Lemma run_apart j n :
  0 <= j -> 0 < n -> kp j + n <= len -> (forall t, 0 <= t < n -> addr (kp j + t) = chunk j + t) ->
  chunk j + n <= storage + (off + kp j) \/ storage + (off + kp j) + n <= chunk j.
Proof.
  intros Hj Hn Hk Hb. pose proof (kp_range j j ltac:(lia)) as [H0' _].
  destruct (Z.le_gt_cases (chunk j + n) (storage + (off + kp j))); [by left|]. right.
  destruct (Z.le_gt_cases (storage + (off + kp j) + n) (chunk j)); [done|]. exfalso.
  destruct (Z.le_gt_cases (chunk j) (storage + (off + kp j))).
  - apply (Hapart (kp j + (storage + (off + kp j) - chunk j))); [lia|]. rewrite Hb by lia. lia.
  - apply (Hapart (kp j + 0)); [lia|]. rewrite Hb by lia. lia.
Qed.

Definition dma_copy (dir : prp_dir) (m : mem) (paddr offset n : Z) : outcome (Z * mem) :=
  match dir with
  | PRP_TO_DEV => ioat_dma_submit info m paddr (storage + offset) n
  | PRP_TO_HOST => ioat_dma_submit info m (storage + offset) paddr n
  | PRP_NONE => Ok (0, m)
  end.

Lemma submit_spec m src dst n :
  0 <= n < 4294967296 -> src + n <= dst \/ dst + n <= src ->
  exists m', ioat_dma_submit info m src dst n = Ok (0, m') /\ forall a, m' a = memcpy m dst m src n a.
Proof.
  intros Hn Ha. unfold ioat_dma_submit. rewrite Hchan, u32_id by done.
  destruct (dma_copies dc m dst src n Ha) as (m' & -> & Hm). by exists m'.
Qed.

Lemma copy_spec dir j n m :
  (dir = PRP_TO_HOST -> prp_disjoint phys p1 p2 len) -> 0 <= j -> 0 < n -> kp j + n <= len ->
  (forall t, 0 <= t < n -> addr (kp j + t) = chunk j + t) -> dma_done dir (kp j) m ->
  exists m', dma_copy dir m (chunk j) (off + kp j) n = Ok (0, m') /\ dma_done dir (kp j + n) m'.
Proof.
  intros Hd Hj Hn Hk Hb M. pose proof (kp_range j j ltac:(lia)) as [H0' _]. pose proof (run_apart j n Hj Hn Hk Hb) as Ha.
  destruct dir; simpl in *; [..|by exists m].
  - destruct (submit_spec m (chunk j) (storage + (off + kp j)) n) as (m' & E & Hm'); [lia|lia|]. exists m'. split; [done|].
    intros a. rewrite Hm'. unfold memcpy.
    destruct (Z.leb_spec (storage + (off + kp j)) a), (Z.ltb_spec a (storage + (off + kp j) + n)); simpl; rewrite M;
      destruct (Z.leb_spec (storage + off) a), (Z.ltb_spec a (storage + off + (kp j + n))); simpl; try lia.
    1:{ assert (Hs : ~ (storage + off <= chunk j + (a - (storage + (off + kp j))) < storage + off + len)).
        { rewrite <- Hb by lia. apply Hapart. lia. }
        destruct (Z.leb_spec (storage + off) (chunk j + (a - (storage + (off + kp j))))),
          (Z.ltb_spec (chunk j + (a - (storage + (off + kp j)))) (storage + off + kp j)); simpl; try lia;
          rewrite <- Hb by lia; f_equal; f_equal; lia. }
    all: destruct (Z.ltb_spec a (storage + off + kp j)); simpl; try done; lia.
  - destruct (submit_spec m (storage + (off + kp j)) (chunk j) n) as (m' & E & Hcopy); [lia|lia|]. exists m'. split; [done|].
    destruct M as [M1 M2]. specialize (Hd eq_refl). split.
    + intros t Ht. rewrite Hcopy. unfold memcpy. destruct (Z.lt_ge_cases t (kp j)) as [Hlt|Hge].
      * assert (Hne : (chunk j <=? addr t) && (addr t <? chunk j + n) = false).
        { destruct (Z.leb_spec (chunk j) (addr t)); [|done]. destruct (Z.ltb_spec (addr t) (chunk j + n)); [|done]. exfalso.
          assert (t = kp j + (addr t - chunk j)); [|lia]. apply (pd_inj _ _ _ _ Hd); [lia|lia|]. rewrite Hb by lia. lia. }
        rewrite Hne. apply M1. lia.
      * replace t with (kp j + (t - kp j)) by lia. rewrite Hb by lia.
        rewrite (proj2 (Z.leb_le _ _)), (proj2 (Z.ltb_lt _ _)) by lia. simpl. rewrite M2; [f_equal; lia|].
        intros t' Ht' E'. apply (Hapart t'); lia.
    + intros a Hne. rewrite Hcopy. unfold memcpy.
      destruct (Z.leb_spec (chunk j) a), (Z.ltb_spec a (chunk j + n)); simpl; try (apply M2; intros t Ht; apply Hne; lia).
      exfalso. apply (Hne (kp j + (a - chunk j))); [lia|]. rewrite Hb by lia. lia.
Qed.

Lemma transfer_spec fuel dir j m :
  (dir = PRP_TO_HOST -> prp_disjoint phys p1 p2 len) -> 0 <= j <= N -> dma_done dir (kp j) m ->
  len - kp j <= Z.of_nat fuel ->
  exists m', dma_transfer info fuel dir l N storage m (off + kp j) (len - kp j) (j + 1) = Ok m' /\ dma_done dir len m'.
Proof.
  revert j m. induction fuel as [|fuel IH]; intros j m Hd Hj M Hf; pose proof (kp_range j j ltac:(lia)) as [H0' Hk];
    cbn [dma_transfer].
  - rewrite (proj2 (Z.eqb_eq _ 0)) by lia. exists m. split; [done|]. by replace len with (kp j) at 1 by lia.
  - destruct (Z.eqb_spec (len - kp j) 0) as [E|E].
    { exists m. split; [done|]. by replace len with (kp j) at 1 by lia. }
    assert (Hlt : j < N) by (destruct (decide (j = N)) as [->|]; lia).
    destruct C as [C1 C2]. rewrite (C2 j) by lia. cbn [obind].
    destruct (merge_spec (length l) j (j + 1) (prp_chunk (chunk j) (len - kp j))) as (i & ps & Em & Hi & [R1 R2 R3]);
      [lia|lia|rewrite C1; unfold NR_PADDR; pose proof (chunk_index (N - 1) ltac:(lia) Nlast); lia|apply run_start; lia|].
    rewrite Em. cbn [obind]. rewrite R3. pose proof (kp_range i i ltac:(lia)) as [_ Hki].
    destruct (kpos_step phys p1 p2 len W j ltac:(lia) ltac:(lia)) as (_ & Hst & _). pose proof (kp_range (j + 1) i ltac:(lia)) as [Hm _].
    fold (dma_copy dir m (chunk j) (off + kp j) (kp i - kp j)).
    destruct (copy_spec dir j (kp i - kp j) m) as (m1 & -> & M1); [done|lia|lia|lia|done|done|]. cbn [obind].
    replace (off + kp j + (kp i - kp j)) with (off + kp i) by lia. replace (len - kp j - (kp i - kp j)) with (len - kp i) by lia.
    apply (IH i); [done|lia| |lia]. by replace (kp i) with (kp j + (kp i - kp j)) at 1 by lia.
Qed.
End Facts.

(** Where the physical memory of the DMA copy holds host pages and storage. *)
Lemma dma_split phys p1 p2 off len dlen storage :
  0 <= off -> off + len <= dlen ->
  (forall k, 0 <= k < len -> ~ (storage <= prp_addr phys p1 p2 len k < storage + dlen)) ->
  forall dir m host dev, dma_done phys p1 p2 off len storage dir len m ->
  copied phys (fun a => phys (storage + a)) p1 p2 off len dir len host dev ->
  forall a, m a = if (storage <=? a) && (a <? storage + dlen) then dev (a - storage) else host a.
Proof.
  intros Hoff Hdl Hap dir m host dev M Hc a. destruct dir; simpl in M, Hc.
  - destruct Hc as [-> Hdev]. rewrite M, Hdev.
    destruct (Z.leb_spec storage a), (Z.ltb_spec a (storage + dlen)), (Z.leb_spec (storage + off) a),
      (Z.ltb_spec a (storage + off + len)), (Z.leb_spec off (a - storage)), (Z.ltb_spec (a - storage) (off + len));
      simpl; try lia; f_equal; try lia; f_equal; lia.
  - destruct M as [M1 M2], Hc as (-> & C1 & C2). destruct (decide (Exists (fun t => prp_addr phys p1 p2 len t = a) (seqZ 0 len))) as [Hx|Hx].
    + apply Exists_exists in Hx as (t & Ht%elem_of_seqZ & <-). pose proof (Hap t ltac:(lia)).
      rewrite M1, C1 by lia. destruct (Z.leb_spec storage (prp_addr phys p1 p2 len t)),
        (Z.ltb_spec (prp_addr phys p1 p2 len t) (storage + dlen)); simpl; try lia; f_equal; lia.
    + assert (Hne : forall t, 0 <= t < len -> prp_addr phys p1 p2 len t <> a).
      { intros t Ht E. apply Hx, Exists_exists. exists t. split; [apply elem_of_seqZ; lia|done]. }
      rewrite M2, C2 by done. destruct (_ && _); [f_equal; lia|done].
  - destruct Hc as [-> ->]. rewrite M. destruct (_ && _); [f_equal; lia|done].
Qed.

Lemma loop_start phys p1 p2 off len dir :
  prp_wf phys p1 p2 len -> loop_at phys phys p1 p2 off len dir 0 (mk_prp phys phys off len 0 0 None).
Proof.
  intros [Hl _ _]. split; simpl; try done; unfold kpos; simpl; try lia.
  - unfold list_at. by rewrite andb_false_r.
  - unfold offs2_at. by destruct (prp_big p1 len).
  - destruct dir; simpl; repeat split; try done; try lia. intros a.
    destruct (Z.leb_spec off a), (Z.ltb_spec a (off + 0)); simpl; try done; lia.
Qed.

Lemma dma_done_0 phys p1 p2 off len storage dir : dma_done phys p1 p2 off len storage dir 0 phys.
Proof.
  destruct dir; simpl; [|split; [lia|done]|done]. intros a.
  destruct (Z.leb_spec (storage + off) a), (Z.ltb_spec a (storage + off + 0)); simpl; try done; lia.
Qed.

(** A driver that refuses every copy loses the data of a command silently: the
    function returns as if it had copied. *)
Theorem dma_errors_ignored `{DmaEngine} info phys storage dlen cmd phys' :
  (forall c m dst src n, device_dma_memcpy c m dst src n = (NoDescriptor, m)) ->
  __do_perform_io_using_dma info phys storage dlen cmd = Ok phys' -> phys' = phys.
Proof.
  intros Hno. unfold __do_perform_io_using_dma. destruct (dma_collect _ _ _ _ _ _) as [[st l]| | |]; try done. cbn [obind].
  assert (Hs : forall m src dst n r, ioat_dma_submit info m src dst n = Ok r -> r.2 = m).
  { intros m src dst n r. unfold ioat_dma_submit. destruct (dma_thread info) as [c|]; [|done]. rewrite Hno. by intros [= <-]. }
  set (fuel := Z.to_nat _). clearbody fuel. generalize 1 as i, (__cmd_io_size cmd) as rem, (__cmd_io_offset cmd) as off.
  induction fuel as [|fuel IH]; intros i rem off E; cbn [dma_transfer] in E;
    (destruct (rem =? 0); [congruence|]); [done|].
  destruct (nthZ l i) as [pa| | |]; try done. cbn [obind] in E. destruct (dma_merge _ _ _ _ _) as [[i' ps]| | |]; try done.
  cbn [obind] in E. destruct (io_dir cmd).
  - destruct (ioat_dma_submit _ _ _ _ _) as [[ret m]| | |] eqn:Es; try done. apply Hs in Es. simpl in Es. subst m. by eapply IH.
  - destruct (ioat_dma_submit _ _ _ _ _) as [[ret m]| | |] eqn:Es; try done. apply Hs in Es. simpl in Es. subst m. by eapply IH.
  - by eapply IH.
Qed.
