(* ===== verification/IoQueue.v ===== *)
(** * IoQueue: the operations of dispatcher and workers (src/io.c) *)
From stdpp Require Import base list numbers.
From Stdlib Require Import ZArith Lia.
From S2P Require Import Prelude ChannelModel SsdConfig Ssd Nvme Prp WorkQueue IoDev.

Open Scope Z_scope.
Open Scope nvmev_scope.

Section Queue.
Context {F : Type} `{IoHandler F} `{Clock}.
Implicit Type d : nvmev_dev F.

(** [CONFIG_NVMEV_IO_WORKER_BY_SQ] *)
Definition __get_io_worker d (sqid : Z) : outcome Z := modO (u32 (sqid - 1)) (d_nr_io_workers d).

(** A reading of the clock. *)
Definition local_clock d : Z * nvmev_dev F := (cpu_clock (d_clk d), set_dclk d (S (d_clk d))).

(** ** Queueing *)
Definition __allocate_work_queue_entry d (sqid : Z) : outcome (option (Z * Z) * nvmev_dev F) :=
  let* turn := __get_io_worker d sqid in
  let* k := get_worker d turn in
  let* r := take_free k in
  match r with
  | None => Ok (None, d)
  | Some (e, k) =>
      let next := if turn + 1 =? d_nr_io_workers d then 0 else turn + 1 in
      let* l := updZ (d_io_workers d) turn k in
      Ok (Some (turn, e), set_workers d l next)
  end.

(** The members set for a request of the host; the results are left alone. *)
Definition fill_request (sqid cqid sq_entry command_id nsecs_start nsecs_enqueue : Z)
  (ret : nvmev_result) (w : nvmev_io_work) : nvmev_io_work :=
  mk_work sqid cqid sq_entry command_id nsecs_start (ret_nsecs_target ret) nsecs_enqueue
    false false (ret_status ret) (w_result0 w) (w_result1 w) false (w_write_buffer w)
    (w_buffs_to_release w) NIL NIL.

(** The members set for the release of a write buffer. *)
Definition fill_internal (sqid now nsecs_target : Z) (buf : Z * buf_id) (size : Z)
  (w : nvmev_io_work) : nvmev_io_work :=
  mk_work sqid (w_cqid w) (w_sq_entry w) (w_command_id w) now nsecs_target now
    true false (w_status w) (w_result0 w) (w_result1 w) true buf size NIL NIL.

(** Fills the allocated item and inserts it. *)
Definition queue_work d (turn e : Z) (g : nvmev_io_work -> nvmev_io_work) (nsecs_target : Z)
  : outcome (nvmev_dev F) :=
  let* k := get_worker d turn in
  let* k := with_work k e g in
  let* k := __insert_req_sorted e k nsecs_target in
  put_worker d turn k.

Definition __enqueue_io_req d (sqid cqid sq_entry_ nsecs_start : Z) (ret : nvmev_result)
  : outcome (nvmev_dev F) :=
  let* (r, d) := __allocate_work_queue_entry d sqid in
  match r with
  | None => Ok d
  | Some (turn, e) =>
      let* q := get_sq d sqid in
      let* cmd := sq_entry q sq_entry_ in
      let '(now, d) := local_clock d in
      queue_work d turn e
        (fill_request sqid cqid sq_entry_ (command_id cmd) nsecs_start now ret)
        (ret_nsecs_target ret)
  end.

(** [write_buffer] is a buffer of namespace [nsid]. *)
Definition schedule_internal_operation d (sqid nsecs_target : Z) (write_buffer : Z * buf_id)
  (buffs_to_release : Z) : outcome (nvmev_dev F) :=
  let* (r, d) := __allocate_work_queue_entry d sqid in
  match r with
  | None => Ok d
  | Some (turn, e) =>
      let '(now, d) := local_clock d in
      queue_work d turn e (fill_internal sqid now nsecs_target write_buffer buffs_to_release)
        nsecs_target
  end.

Definition __reclaim_completed_reqs d : outcome (nvmev_dev F) :=
  forO 0 (d_nr_io_workers d) d (fun d turn =>
    let* k := get_worker d turn in
    let* k := reclaim_worker k in
    put_worker d turn k).

(** ** The dispatcher *)

(** [None] when the FTL refuses the command, otherwise [*io_size]. *)
Definition __nvmev_proc_io d (sqid sq_entry_ : Z) : outcome (option Z * nvmev_dev F) :=
  let* q := get_sq d sqid in
  let '(nsecs_start, d) := local_clock d in
  let* cmd := sq_entry q sq_entry_ in
  let nsid := ns_index cmd in
  let* ns := nthZ (d_ns d) nsid in
  let* o := proc_io_cmd ns (d_clk d) (d_host d) (mk_nvmev_request cmd sqid nsecs_start)
              (mk_nvmev_result NVME_SC_SUCCESS nsecs_start) in
  let* l := updZ (d_ns d) nsid (o_ns o) in
  let d := set_dclk (set_ns d l (o_host o)) (o_clk o) in
  let* es := updZ (sq_entries q) sq_entry_ (o_cmd o) in
  let* d := put_sq d sqid (set_sq_entries q es) in
  let* d := foldO (fun d op =>
    schedule_internal_operation d (io_sqid op) (io_nsecs_target op) (nsid, io_buffer op)
      (io_buffs_to_release op)) d (o_sched o) in
  if negb (o_ok o) then Ok (None, d)
  else
    let* d := __enqueue_io_req d sqid (sq_cqid q) sq_entry_ nsecs_start (o_ret o) in
    let* d := __reclaim_completed_reqs d in
    Ok (Some (__cmd_io_size (o_cmd o)), d).

Definition count_dispatched (q : nvmev_submission_queue) (io_size : Z) : nvmev_submission_queue :=
  let s := sq_stat q in
  set_stat q (mk_stat (u32 (nr_dispatched s + 1)) (nr_dispatch s) (u32 (nr_in_flight s + 1))
    (max_nr_in_flight s) (u64 (total_io s + io_size))).

(** [for (seq = 0; seq < num_proc; seq++)]: the final [seq]. *)
Fixpoint proc_sq_loop (n : nat) d (sqid sq_entry_ seq : Z) : outcome (Z * nvmev_dev F) :=
  match n with
  | O => Ok (seq, d)
  | S n' =>
      let* (r, d) := __nvmev_proc_io d sqid sq_entry_ in
      match r with
      | None => Ok (seq, d)
      | Some io_size =>
          let* q := get_sq d sqid in
          let sq_entry_ := if sq_entry_ + 1 =? sq_queue_size q then 0 else sq_entry_ + 1 in
          let* d := put_sq d sqid (count_dispatched q io_size) in
          proc_sq_loop n' d sqid sq_entry_ (seq + 1)
      end
  end.

(** The doorbell up to which commands were taken. *)
Definition nvmev_proc_io_sq d (sqid new_db old_db : Z) : outcome (Z * nvmev_dev F) :=
  let* r := nthZ (d_sqes d) sqid in
  match r with
  | None => Ok (old_db, d)
  | Some q =>
      let num_proc := s32 (new_db - old_db) in
      let num_proc := if num_proc <? 0 then num_proc + sq_queue_size q else num_proc in
      let* (seq, d) := proc_sq_loop (Z.to_nat num_proc) d sqid old_db 0 in
      let* q := get_sq d sqid in
      let s := sq_stat q in
      let* d := put_sq d sqid (set_stat q (mk_stat (nr_dispatched s) (u32 (nr_dispatch s + 1))
        (nr_in_flight s) (u32 (Z.max (s32 (max_nr_in_flight s)) (s32 (nr_in_flight s))))
        (total_io s))) in
      GUARD! negb (sq_queue_size q =? 0);
      Ok (Z.rem (old_db + seq) (sq_queue_size q), d)
  end.

(** [for (i = old_db; i != new_db; i++)] *)
Fixpoint proc_cq_loop (fuel : nat) d (q : nvmev_completion_queue) (i new_db : Z)
  : outcome (nvmev_dev F) :=
  if i =? new_db then Ok d
  else
    match fuel with
    | O => NoFuel
    | S fuel' =>
        let* cqe := cq_entry q i in
        if cq_queue_size q <=? i then proc_cq_loop fuel' d q 0 new_db
        else
          let* r := nthZ (d_sqes d) (cqe_sq_id cqe) in
          match r with
          | None => proc_cq_loop fuel' d q (i + 1) new_db
          | Some sq =>
              let s := sq_stat sq in
              let* d := put_sq d (cqe_sq_id cqe) (set_stat sq (mk_stat (nr_dispatched s)
                (nr_dispatch s) (u32 (nr_in_flight s - 1)) (max_nr_in_flight s) (total_io s))) in
              proc_cq_loop fuel' d q (i + 1) new_db
          end
    end.

Definition nvmev_proc_io_cq (fuel : nat) d (cqid new_db old_db : Z) : outcome (nvmev_dev F) :=
  let* q := get_cq d cqid in
  let* d := proc_cq_loop fuel d q old_db new_db in
  put_cq d cqid (set_cq_tail q (if new_db =? -1 then cq_queue_size q - 1 else new_db - 1)).

(** ** The workers *)

(** A completion at the head of its queue; the lock makes it atomic. *)
Definition post_cqe (q : nvmev_completion_queue) (w : nvmev_io_work) : outcome nvmev_completion_queue :=
  let* es := updZ (cq_entries q) (cq_head q)
    (mk_cqe (w_result0 w) (w_result1 w) (u16 (w_sq_entry w)) (u16 (w_sqid w)) (u16 (w_command_id w))
      (u16 (Z.lor (cq_phase q) (Z.shiftl (w_status w) 1)))) in
  let wrap := cq_head q + 1 =? cq_queue_size q in
  Ok (mk_cq (cq_qid q) (cq_irq_vector q) (cq_irq_enabled q) true (cq_phys_contig q)
    (cq_queue_size q) (if wrap then (if cq_phase q =? 0 then 1 else 0) else cq_phase q)
    (if wrap then 0 else cq_head q + 1) (cq_tail q) es).

Definition __fill_cq_result d (w : nvmev_io_work) : outcome (nvmev_dev F) :=
  let* q := get_cq d (w_cqid w) in
  let* q := post_cqe q w in
  put_cq d (w_cqid w) q.

(** The data of a request that is not copied yet. *)
Definition copy_data d (w : nvmev_io_work) : outcome (nvmev_dev F * nvmev_io_work) :=
  if w_is_copied w then Ok (d, w)
  else if w_is_internal w then Ok (d, set_copied w (w_status w) (w_result0 w))
  else
    let* q := get_sq d (w_sqid w) in
    let* cmd := sq_entry q (w_sq_entry w) in
    let* ns := nthZ (d_ns d) (ns_index cmd) in
    let* (ns, host, status, result0) := perform_io ns (d_host d) cmd (w_status w) (w_result0 w) in
    let* l := updZ (d_ns d) (ns_index cmd) ns in
    Ok (set_ns d l host, set_copied w status result0).

(** The completion of a request whose time has come. *)
Definition complete d (w : nvmev_io_work) : outcome (nvmev_dev F) :=
  if w_is_internal w then
    let '(nsid, buf) := w_write_buffer w in
    let* ns := nthZ (d_ns d) nsid in
    let* ns := release_buffer ns buf (w_buffs_to_release w) in
    let* l := updZ (d_ns d) nsid ns in
    Ok (set_ns d l (d_host d))
  else __fill_cq_result d w.

(** The body of the inner loop of [nvmev_io_worker] for item [curr]; the step
    to the next item is apart. *)
Definition worker_visit d (wi curr delta : Z) : outcome (nvmev_dev F) :=
  let* k := get_worker d wi in
  let* w := work k curr in
  let '(now, d) := local_clock d in
  let curr_nsecs := u64 (now + delta) in
  let k := set_latest k curr_nsecs in
  if w_is_completed w then put_worker d wi k
  else
    let* (d, w) := copy_data d w in
    if w_nsecs_target w <=? curr_nsecs then
      let* d := complete d w in
      let* k := with_work k curr (fun _ => set_completed w) in
      put_worker d wi k
    else
      let* k := with_work k curr (fun _ => w) in
      put_worker d wi k.

Fixpoint worker_scan (fuel : nat) d (wi curr delta : Z) : outcome (nvmev_dev F) :=
  if curr =? NIL then Ok d
  else
    match fuel with
    | O => NoFuel
    | S fuel' =>
        let* d := worker_visit d wi curr delta in
        let* k := get_worker d wi in
        let* w := work k curr in
        worker_scan fuel' d wi (w_next w) delta
    end.

(** The interrupts of the queues of a worker. *)
Definition worker_irqs d (wi : Z) : outcome (nvmev_dev F) :=
  let* k := get_worker d wi in
  forO 1 (d_nr_cq d + 1) d (fun d qidx =>
    let* r := nthZ (d_cqes d) qidx in
    let* turn := __get_io_worker d qidx in
    if negb (worker_id k =? turn) then Ok d
    else
      match r with
      | None => Ok d
      | Some q =>
          if negb (cq_irq_enabled q) then Ok d
          else if cq_interrupt_ready q then
            let* d := put_cq d qidx (set_interrupt_ready q false) in
            Ok (set_irqs d (d_irqs d ++ [cq_irq_vector q]))
          else Ok d
      end).

(** One iteration of [while (!kthread_should_stop())]. *)
Definition nvmev_io_worker_round (fuel : nat) d (wi : Z) : outcome (nvmev_dev F) :=
  let '(wall, d) := local_clock d in
  let '(local, d) := local_clock d in
  let* k := get_worker d wi in
  let* d := worker_scan fuel d wi (io_seq k) (wall - local) in
  worker_irqs d wi.

Definition NVMEV_IO_WORKER_INIT d : outcome (nvmev_dev F) :=
  let* l := forO 0 (d_nr_io_workers d) [] (fun l i => let* k := init_worker i in Ok (l ++ [k])) in
  Ok (set_workers d l 0).

End Queue.
