(* ===== verification/IoSteps.v ===== *)
(** * IoSteps: dispatcher and workers as a transition system

    The dispatcher and the workers share the work queues without locks.  A step
    is one call of the dispatcher ([__enqueue_io_req],
    [schedule_internal_operation], [__reclaim_completed_reqs]), one visit of a
    worker to an item, or its move along [next]: between the two the dispatcher
    may have reclaimed the item.  Everything else that happens to the device is
    [st_other].  Events record the requests queued and the completions that the
    host finds in the rings: what a step posted is read off the completion queues
    before and after it. *)
From stdpp Require Import base list numbers sorting sets.
From Stdlib Require Import ZArith Lia.
From S2P Require Import Prelude ChannelModel SsdConfig Ssd Nvme Prp.
From S2P Require Import WorkQueue WorkQueueSpec IoDev IoQueue.

Open Scope Z_scope.
Open Scope nvmev_scope.

(** ** Requests and events *)
Record io_tag := mk_tag {
  t_sqid : Z;
  t_cqid : Z;
  t_sq_entry : Z;
  t_command_id : Z;
  t_target : Z;
}.

(** A request queued; an entry that appeared in a completion queue, and when. *)
Inductive io_event := EvSubmit (t : io_tag) | EvPost (cqid : Z) (c : nvme_completion) (now : Z).

Definition tag_of (w : nvmev_io_work) : io_tag :=
  mk_tag (w_sqid w) (w_cqid w) (w_sq_entry w) (w_command_id w) (w_nsecs_target w).

Definition submitted (evs : list io_event) : list io_tag :=
  omap (fun e => match e with EvSubmit t => Some t | _ => None end) evs.
Definition posted (evs : list io_event) : list (Z * nvme_completion * Z) :=
  omap (fun e => match e with EvPost cqid c now => Some (cqid, c, now) | _ => None end) evs.

(** How the host tells a completion apart: queue, slot and command id. *)
Definition cqe_seen (e : nvme_completion) : Z * Z * Z := (cqe_sq_id e, cqe_sq_head e, cqe_command_id e).
Definition tag_seen (t : io_tag) : Z * Z * Z := (u16 (t_sqid t), u16 (t_sq_entry t), u16 (t_command_id t)).

(** The entry answers the request, in its queue and not before its time. *)
Definition completes (t : io_tag) (p : Z * nvme_completion * Z) : Prop :=
  let '(cqid, c, now) := p in cqid = t_cqid t /\ cqe_seen c = tag_seen t /\ t_target t <= now.

(** ** What the host finds in the rings *)

(** [n] entries of a ring from position [i] on. *)
Fixpoint ring_take (n : nat) (es : list nvme_completion) (size i : Z) : list nvme_completion :=
  match n with
  | O => []
  | S n' =>
      match nthZ es i with Ok c => [c] | _ => [] end ++
      ring_take n' es size (if i + 1 =? size then 0 else i + 1)
  end.

(** The entries between the head and phase of a queue and those it has later. *)
Definition ring_news (q q' : nvmev_completion_queue) : list nvme_completion :=
  ring_take (Z.to_nat (cq_head q' - cq_head q + (if cq_phase q' =? cq_phase q then 0 else cq_queue_size q)))
    (cq_entries q') (cq_queue_size q) (cq_head q).

(** The entries that appeared in the completion queues. *)
Definition cqes_news (now : Z) (l l' : list (option nvmev_completion_queue)) : list io_event :=
  flat_map (fun i =>
    match nthZ l i, nthZ l' i with
    | Ok (Some q), Ok (Some q') => map (fun c => EvPost i c now) (ring_news q q')
    | _, _ => []
    end) (seqZ 0 (Z.of_nat (length l))).

(** ** The requests of the host that are in flight *)
Definition pending (w : nvmev_io_work) : list io_tag :=
  if w_is_internal w || w_is_completed w then [] else [tag_of w].

Fixpoint walk (fuel : nat) (k : nvmev_io_worker) (curr : Z) : list nvmev_io_work :=
  if curr =? NIL then []
  else
    match fuel, work k curr with
    | S fuel', Ok w => w :: walk fuel' k (w_next w)
    | _, _ => []
    end.

Definition worker_pending (k : nvmev_io_worker) : list io_tag :=
  flat_map pending (walk (length (work_queue k)) k (io_seq k)).
Definition dev_pending {F} (d : nvmev_dev F) : list io_tag := flat_map worker_pending (d_io_workers d).

(** All items but one hold requests. *)
Definition worker_full (k : nvmev_io_worker) : Prop :=
  Z.of_nat (length (walk (length (work_queue k)) k (io_seq k))) = NR_MAX_PARALLEL_IO - 1.

(** ** The position of a worker: idle, before an item, after it *)
Inductive pc := PcIdle | PcAt (e : Z) | PcNext (e : Z).
Definition set_pc (pcs : Z -> pc) (i : Z) (p : pc) : Z -> pc := fun j => if j =? i then p else pcs j.

Section Steps.
Context {F : Type} `{IoHandler F} `{Clock}.
Implicit Type d : nvmev_dev F.

Definition enqueue_event d (sqid cqid sq_entry_ : Z) (ret : nvmev_result) : list io_event :=
  match __allocate_work_queue_entry d sqid, get_sq d sqid with
  | Ok (Some _, _), Ok q =>
      match sq_entry q sq_entry_ with
      | Ok cmd => [EvSubmit (mk_tag sqid cqid sq_entry_ (command_id cmd) (ret_nsecs_target ret))]
      | _ => []
      end
  | _, _ => []
  end.

Definition visit_time d (delta : Z) : Z := u64 (cpu_clock (d_clk d) + delta).
Definition news d (now : Z) d' : list io_event := cqes_news now (d_cqes d) (d_cqes d').

Definition sys : Type := nvmev_dev F * (Z -> pc).

Inductive io_step : sys -> list io_event -> sys -> Prop :=
| do_enqueue d pcs sqid cqid ent nsecs_start ret d' now :
    __enqueue_io_req d sqid cqid ent nsecs_start ret = Ok d' ->
    io_step (d, pcs) (enqueue_event d sqid cqid ent ret ++ news d now d') (d', pcs)
| do_internal d pcs sqid target buf size d' now :
    schedule_internal_operation d sqid target buf size = Ok d' ->
    io_step (d, pcs) (news d now d') (d', pcs)
| do_reclaim d pcs d' now :
    __reclaim_completed_reqs d = Ok d' -> io_step (d, pcs) (news d now d') (d', pcs)
| st_other d pcs d' :
    d_io_workers d' = d_io_workers d -> d_nr_io_workers d' = d_nr_io_workers d ->
    io_step (d, pcs) [] (d', pcs)
| st_start d pcs wi k :
    pcs wi = PcIdle -> get_worker d wi = Ok k ->
    io_step (d, pcs) [] (d, set_pc pcs wi (PcAt (io_seq k)))
| st_visit d pcs wi e k delta d' :
    pcs wi = PcAt e -> e <> NIL -> get_worker d wi = Ok k ->
    worker_visit d wi e delta = Ok d' ->
    io_step (d, pcs) (news d (visit_time d delta) d') (d', set_pc pcs wi (PcNext e))
| st_next d pcs wi e k w :
    pcs wi = PcNext e -> get_worker d wi = Ok k -> work k e = Ok w ->
    io_step (d, pcs) [] (d, set_pc pcs wi (PcAt (w_next w)))
| do_stop d pcs wi d' now :
    pcs wi = PcAt NIL -> worker_irqs d wi = Ok d' ->
    io_step (d, pcs) (news d now d') (d', set_pc pcs wi PcIdle).

Inductive io_steps : sys -> list io_event -> sys -> Prop :=
| steps_nil s : io_steps s [] s
| steps_cons s evs s' evs' s'' : io_step s evs s' -> io_steps s' evs' s'' -> io_steps s (evs ++ evs') s''.

Lemma io_steps_one s evs s' : io_step s evs s' -> io_steps s evs s'.
Proof. intros Hs. rewrite <- (app_nil_r evs). econstructor; [done|constructor]. Qed.

Lemma io_steps_trans s evs s' evs' s'' :
  io_steps s evs s' -> io_steps s' evs' s'' -> io_steps s (evs ++ evs') s''.
Proof.
  induction 1 as [|s evs s1 evs1 s2 Hs _ IH]; [done|]. intros Hr. rewrite <- app_assoc.
  econstructor; [done|]. by apply IH.
Qed.

(** ** Only a completion is news *)
Lemma flat_map_nil {A B} (f : A -> list B) l : (forall x, x ∈ l -> f x = []) -> flat_map f l = [].
Proof. induction l as [|x l IH]; intros Hf; simpl; [done|]. rewrite Hf by set_solver. apply IH. set_solver. Qed.

Lemma flat_map_single {A B} (f : A -> list B) l x r :
  x ∈ l -> NoDup l -> (forall y, y <> x -> f y = []) -> f x = r -> flat_map f l = r.
Proof.
  intros (a & b & ->)%list_elem_of_split Hn Hf <-. apply NoDup_app in Hn as (_ & Ha & Hb).
  apply NoDup_cons in Hb as [Hb _]. rewrite flat_map_app. simpl.
  rewrite (flat_map_nil f a), (flat_map_nil f b); [by rewrite app_nil_r|..]; intros y Hy; apply Hf; intros ->; [done|].
  apply (Ha x Hy). set_solver.
Qed.

Lemma post_cqe_news q w q' : post_cqe q w = Ok q' -> exists c, ring_news q q' = [c] /\ cqe_seen c = tag_seen (tag_of w).
Proof.
  unfold post_cqe. destruct (updZ _ _ _) as [es| | |] eqn:E; try done. apply updZ_inv in E as [Hr ->]. cbn [obind].
  intros [= <-]. unfold ring_news. cbn [cq_head cq_phase cq_entries].
  assert (Hn : Z.to_nat ((if cq_head q + 1 =? cq_queue_size q then 0 else cq_head q + 1) - cq_head q +
    (if (if cq_head q + 1 =? cq_queue_size q then if cq_phase q =? 0 then 1 else 0 else cq_phase q) =? cq_phase q
     then 0 else cq_queue_size q)) = 1%nat).
  { destruct (Z.eqb_spec (cq_head q + 1) (cq_queue_size q)); [|rewrite Z.eqb_refl; lia].
    destruct (Z.eqb_spec (cq_phase q) 0) as [->|Hp]; [simpl; lia|]. rewrite (proj2 (Z.eqb_neq _ _)) by congruence. lia. }
  rewrite Hn. cbn [ring_take]. rewrite nthZ_insert by done. rewrite Z.eqb_refl. cbn [app]. by eexists.
Qed.

Lemma ring_news_still q q' : cq_head q' = cq_head q -> cq_phase q' = cq_phase q -> ring_news q q' = [].
Proof. intros Hh Hp. unfold ring_news. by rewrite Hh, Hp, Z.eqb_refl, Z.sub_diag. Qed.

Lemma news_still d now d' :
  (forall i q', nthZ (d_cqes d') i = Ok (Some q') ->
     exists q, nthZ (d_cqes d) i = Ok (Some q) /\ cq_head q' = cq_head q /\ cq_phase q' = cq_phase q) ->
  news d now d' = [].
Proof.
  intros Hs. unfold news, cqes_news. apply flat_map_nil. intros i _. destruct (nthZ (d_cqes d) i) as [[q|]| | |] eqn:E; try done.
  destruct (nthZ (d_cqes d') i) as [[q'|]| | |] eqn:E'; try done. destruct (Hs i q' E') as (q0 & E0 & Hh & Hp).
  assert (q0 = q) as -> by congruence. by rewrite ring_news_still.
Qed.

Lemma news_same d now d' : d_cqes d' = d_cqes d -> news d now d' = [].
Proof. intros E. apply news_still. intros i q' Hq. exists q'. by rewrite <- E. Qed.

Lemma news_one d now d' i q q' c :
  nthZ (d_cqes d) i = Ok (Some q) -> d_cqes d' = <[Z.to_nat i := Some q']> (d_cqes d) -> ring_news q q' = [c] ->
  news d now d' = [EvPost i c now].
Proof.
  intros Hq E Hc. pose proof (nthZ_range _ _ _ Hq) as Hi. unfold news, cqes_news. rewrite E.
  apply (flat_map_single _ _ i).
  - apply elem_of_seqZ. lia.
  - apply NoDup_seqZ.
  - intros j Hj. rewrite nthZ_insert by done. rewrite (proj2 (Z.eqb_neq j i)) by done.
    destruct (nthZ (d_cqes d) j) as [[qj|]| | |]; try done. by rewrite ring_news_still.
  - rewrite Hq, nthZ_insert by done. by rewrite Z.eqb_refl, Hc.
Qed.

Lemma put_worker_cqes d i k d' : put_worker d i k = Ok d' -> d_cqes d' = d_cqes d.
Proof. unfold put_worker. destruct (updZ _ _ _); try done. by intros [= <-]. Qed.

Lemma allocate_cqes d sqid r d' : __allocate_work_queue_entry d sqid = Ok (r, d') -> d_cqes d' = d_cqes d.
Proof.
  unfold __allocate_work_queue_entry. intros E. simpl_outcome. repeat case_match; simpl_outcome; done.
Qed.

Lemma queue_work_cqes d turn e g t d' : queue_work d turn e g t = Ok d' -> d_cqes d' = d_cqes d.
Proof. unfold queue_work. intros E. simpl_outcome. by eapply put_worker_cqes. Qed.

Lemma enqueue_cqes d sqid cqid ent t0 ret d' : __enqueue_io_req d sqid cqid ent t0 ret = Ok d' -> d_cqes d' = d_cqes d.
Proof.
  unfold __enqueue_io_req. destruct (__allocate_work_queue_entry d sqid) as [[r d1]| | |] eqn:Ea; try done.
  apply allocate_cqes in Ea. cbn [obind]. destruct r as [[turn e]|]; [|intros [= <-]; done].
  destruct (get_sq d1 sqid) as [q| | |]; try done. cbn [obind]. destruct (sq_entry q ent) as [cmd| | |]; try done.
  cbn [obind local_clock]. intros E. apply queue_work_cqes in E. by rewrite <- Ea.
Qed.

Lemma internal_cqes d sqid target buf size d' : schedule_internal_operation d sqid target buf size = Ok d' -> d_cqes d' = d_cqes d.
Proof.
  unfold schedule_internal_operation. destruct (__allocate_work_queue_entry d sqid) as [[r d1]| | |] eqn:Ea; try done.
  apply allocate_cqes in Ea. cbn [obind]. destruct r as [[turn e]|]; [|intros [= <-]; done].
  cbn [local_clock]. intros E. apply queue_work_cqes in E. by rewrite <- Ea.
Qed.

Lemma reclaim_cqes d d' : __reclaim_completed_reqs d = Ok d' -> d_cqes d' = d_cqes d.
Proof.
  unfold __reclaim_completed_reqs. apply (forO_keeps (fun d1 => d_cqes d1 = d_cqes d)); [done|].
  intros i d1 d2 P E. simpl_outcome. rewrite <- P. by eapply put_worker_cqes.
Qed.

Lemma irqs_still d wi d' i q' : worker_irqs d wi = Ok d' -> nthZ (d_cqes d') i = Ok (Some q') ->
  exists q, nthZ (d_cqes d) i = Ok (Some q) /\ cq_head q' = cq_head q /\ cq_phase q' = cq_phase q.
Proof.
  unfold worker_irqs. destruct (get_worker d wi) as [k| | |]; try done. cbn [obind]. intros E. revert i q'.
  revert E. apply (forO_keeps (fun d1 => forall i q', nthZ (d_cqes d1) i = Ok (Some q') ->
    exists q, nthZ (d_cqes d) i = Ok (Some q) /\ cq_head q' = cq_head q /\ cq_phase q' = cq_phase q)); [by eauto|].
  intros j d1 d2 P E. destruct (nthZ (d_cqes d1) j) as [r| | |] eqn:Ej; try done. cbn [obind] in E.
  destruct (__get_io_worker d1 j) as [turn| | |]; try done. cbn [obind] in E.
  destruct (negb (worker_id k =? turn)); [by injection E as <-|]. destruct r as [q|]; [|by injection E as <-].
  destruct (negb (cq_irq_enabled q)); [by injection E as <-|].
  destruct (cq_interrupt_ready q); [|by injection E as <-]. unfold put_cq in E.
  destruct (updZ _ _ _) as [l| | |] eqn:El; try done. injection E as <-. apply updZ_inv in El as [Hr ->].
  intros i q'. simpl. rewrite nthZ_insert by done. destruct (Z.eqb_spec i j) as [->|]; [|by apply P].
  intros [= <-]. exact (P j q Ej).
Qed.

Lemma st_enqueue d pcs sqid cqid ent t0 ret d' :
  __enqueue_io_req d sqid cqid ent t0 ret = Ok d' -> io_step (d, pcs) (enqueue_event d sqid cqid ent ret) (d', pcs).
Proof.
  intros E. rewrite <- (app_nil_r (enqueue_event d sqid cqid ent ret)).
  rewrite <- (news_same d 0 d' (enqueue_cqes _ _ _ _ _ _ _ E)). exact (do_enqueue d pcs _ _ _ _ _ d' 0 E).
Qed.
Lemma st_internal d pcs sqid target buf size d' :
  schedule_internal_operation d sqid target buf size = Ok d' -> io_step (d, pcs) [] (d', pcs).
Proof. intros E. rewrite <- (news_same d 0 d' (internal_cqes _ _ _ _ _ _ E)). exact (do_internal d pcs _ _ _ _ d' 0 E). Qed.
Lemma st_reclaim d pcs d' : __reclaim_completed_reqs d = Ok d' -> io_step (d, pcs) [] (d', pcs).
Proof. intros E. rewrite <- (news_same d 0 d' (reclaim_cqes _ _ E)). exact (do_reclaim d pcs d' 0 E). Qed.
Lemma st_stop d pcs wi d' : pcs wi = PcAt NIL -> worker_irqs d wi = Ok d' -> io_step (d, pcs) [] (d', set_pc pcs wi PcIdle).
Proof.
  intros Hp E. rewrite <- (news_still d 0 d'); [exact (do_stop d pcs wi d' 0 Hp E)|]. intros i q'. by eapply irqs_still.
Qed.

(** ** The invariant *)

(** A worker may stand on a request in flight, or on a free item that is
    completed like all free items behind it. *)
Definition completed_at (k : nvmev_io_worker) (x : Z) : Prop :=
  exists w, work k x = Ok w /\ w_is_completed w = true.
Definition here (k : nvmev_io_worker) (io fr : list Z) (e : Z) : Prop :=
  e ∈ io \/ exists f1 f2, fr = f1 ++ e :: f2 /\ Forall (completed_at k) (e :: f2).
Definition pc_ok (k : nvmev_io_worker) (io fr : list Z) (p : pc) : Prop :=
  match p with
  | PcIdle => True
  | PcAt e => e = NIL \/ here k io fr e
  | PcNext e => here k io fr e
  end.

(** Every completed request was copied before. *)
Definition copied_first (k : nvmev_io_worker) : Prop :=
  forall x w, work k x = Ok w -> w_is_completed w = true -> w_is_copied w = true.

Definition worker_inv (p : pc) (k : nvmev_io_worker) : Prop :=
  copied_first k /\ exists io fr, wq_lists k io fr [] /\ pc_ok k io fr p.

Record io_inv (s : sys) : Prop := {
  ii_nr : 0 < d_nr_io_workers s.1 < 4294967296;
  ii_len : Z.of_nat (length (d_io_workers s.1)) = d_nr_io_workers s.1;
  ii_workers : forall i k, get_worker s.1 i = Ok k -> worker_inv (s.2 i) k;
}.

(** ** In-flight requests as a function of the list *)
Definition pend (k : nvmev_io_worker) (x : Z) : list io_tag :=
  match work k x with Ok w => pending w | _ => [] end.

Lemma walk_lists k io fr out a b fuel :
  wq_lists k io fr out -> io = a ++ b -> (length b <= fuel)%nat ->
  flat_map pending (walk fuel k (hdZ b)) = flat_map (pend k) b.
Proof.
  intros W. revert a fuel. induction b as [|c b IH]; intros a fuel Eb Hf; [by destruct fuel|].
  simpl in Hf. destruct fuel as [|fuel]; [lia|]. change (hdZ (c :: b)) with c. simpl.
  rewrite (proj2 (Z.eqb_neq c NIL)) by (apply (wl_not_nil _ _ _ _ W); rewrite Eb; set_solver).
  pose proof (wl_io_next _ _ _ _ W) as Hs. rewrite Eb in Hs. apply seg_app in Hs as [_ [(w & Hw & Hn) _]].
  unfold pend at 1. unfold work. rewrite Hw. simpl. f_equal. rewrite Hn.
  apply (IH (a ++ [c])); [by rewrite <- app_assoc|lia].
Qed.

Lemma walk_length k io fr out a b fuel :
  wq_lists k io fr out -> io = a ++ b -> (length b <= fuel)%nat -> length (walk fuel k (hdZ b)) = length b.
Proof.
  intros W. revert a fuel. induction b as [|c b IH]; intros a fuel Eb Hf; [by destruct fuel|].
  simpl in Hf. destruct fuel as [|fuel]; [lia|]. change (hdZ (c :: b)) with c. simpl.
  rewrite (proj2 (Z.eqb_neq c NIL)) by (apply (wl_not_nil _ _ _ _ W); rewrite Eb; set_solver).
  pose proof (wl_io_next _ _ _ _ W) as Hs. rewrite Eb in Hs. apply seg_app in Hs as [_ [(w & Hw & Hn) _]].
  unfold work. rewrite Hw. simpl. f_equal. rewrite Hn. apply (IH (a ++ [c])); [by rewrite <- app_assoc|lia].
Qed.

Lemma worker_pending_lists k io fr out :
  wq_lists k io fr out -> worker_pending k = flat_map (pend k) io.
Proof.
  intros W. unfold worker_pending. rewrite (wl_io _ _ _ _ W). apply (walk_lists k io fr out []); [done|done|].
  rewrite (wl_len _ _ _ _ W). pose proof (wl_count _ _ _ _ W). lia.
Qed.

Lemma pend_ext k k' l :
  (forall x, x ∈ l -> pend k' x = pend k x) -> flat_map (pend k') l = flat_map (pend k) l.
Proof.
  induction l as [|x l IH]; intros Hp; simpl; [done|]. rewrite Hp by set_solver.
  f_equal. apply IH. intros y Hy. apply Hp. set_solver.
Qed.

Lemma same_pending w w' : same_work w w' -> pending w' = pending w.
Proof. by intros (n & p & ->). Qed.
Lemma pend_same k k' x :
  length (work_queue k') = length (work_queue k) ->
  (forall w, work k x = Ok w -> exists w', work k' x = Ok w' /\ same_work w w') -> pend k' x = pend k x.
Proof.
  intros L S. unfold pend. destruct (decide (0 <= x < Z.of_nat (length (work_queue k)))) as [Hx|Hx].
  - destruct (nthZ_in_range _ _ Hx) as [w Hw]. unfold work at 2. rewrite Hw.
    destruct (S w Hw) as (w' & -> & Hs). by apply same_pending.
  - assert (Hno : forall k0, length (work_queue k0) = length (work_queue k) ->
      match work k0 x with Ok w => pending w | _ => [] end = []).
    { intros k0 L0. destruct (work k0 x) as [w| | |] eqn:E; [|done..]. apply nthZ_range in E. lia. }
    by rewrite !Hno.
Qed.

Lemma same_queue_pend k k' x : same_queue (work_queue k) (work_queue k') -> pend k' x = pend k x.
Proof. intros [L S]. apply pend_same; [done|]. intros w. apply S. Qed.

Lemma same_queue_completed k k' x :
  same_queue (work_queue k) (work_queue k') -> completed_at k x -> completed_at k' x.
Proof.
  intros [_ S] (w & Hw & Hc). destruct (S x w Hw) as (w' & Hw' & n & p & ->). by eexists.
Qed.

(** Each item of [k'] comes from the one of [k]. *)
Lemma work_back k k' x w' :
  length (work_queue k') = length (work_queue k) ->
  work k' x = Ok w' -> exists w, work k x = Ok w.
Proof. intros L Hw. apply nthZ_range in Hw. rewrite L in Hw. by apply nthZ_in_range. Qed.

Lemma same_queue_copied k k' :
  same_queue (work_queue k) (work_queue k') -> copied_first k -> copied_first k'.
Proof.
  intros [L S] Hc x w' Hw Hd. destruct (work_back k k' x w' L Hw) as [w Hx].
  destruct (S x w Hx) as (v & Hv & (n & p & ->)). unfold work in Hw. rewrite Hv in Hw. injection Hw as <-.
  by apply (Hc x w).
Qed.

(** ** Items off the lists, and progress of items on them *)
Lemma lists_update k q io fr out :
  wq_lists k io fr out -> length q = length (work_queue k) ->
  (forall x w, x ∈ io ++ fr -> work k x = Ok w ->
     exists w', nthZ q x = Ok w' /\ w_next w' = w_next w /\ w_prev w' = w_prev w) ->
  wq_lists (set_queue k q) io fr out.
Proof.
  intros W L Hq. assert (Ha : forall g l, l ⊆ io ++ fr -> g = w_next \/ g = w_prev -> agree g (work_queue k) q l).
  { intros g l Hl Hg x w Hx Hw. destruct (Hq x w (Hl x Hx) Hw) as (w' & Hw' & Hn & Hp).
    exists w'. split; [done|]. by destruct Hg as [-> | ->]. }
  split; simpl; try apply W; [by rewrite L; apply W|..]; (eapply seg_agree; [apply Ha; [|auto]|apply W]).
  - set_solver.
  - intros x. rewrite elem_of_reverse. set_solver.
  - set_solver.
Qed.

(** The new worker state after filling item [e] and inserting it. *)
Lemma fill_insert_spec k io fr e w g t :
  wq_lists k io fr [e] -> work k e = Ok w -> w_next (g w) = NIL -> w_prev (g w) = NIL ->
  exists k1 k' a b, with_work k e g = Ok k1 /\ __insert_req_sorted e k1 t = Ok k' /\ io = a ++ b /\
    wq_lists k' (a ++ e :: b) fr [] /\ latest_nsecs k' = latest_nsecs k /\ worker_id k' = worker_id k /\
    (forall y v, y <> e -> work k y = Ok v -> exists v', work k' y = Ok v' /\ same_work v v') /\
    (exists v', work k' e = Ok v' /\ same_work (g w) v').
Proof.
  intros W Hw Hn Hp. destruct (with_work_ex k e g w Hw) as (q & E & L & Eq). rewrite E.
  pose proof (wl_nodup _ _ _ _ W) as Hnd. rewrite app_assoc in Hnd. apply NoDup_app in Hnd as (_ & Hne & _).
  assert (W1 : wq_lists (set_queue k q) io fr [e]).
  { apply lists_update; [done|done|]. intros x v Hx Hv. exists v. split; [|done]. rewrite Eq.
    rewrite (proj2 (Z.eqb_neq x e)); [done|]. intros ->. apply (Hne e Hx). set_solver. }
  assert (He1 : work (set_queue k q) e = Ok (g w)) by (unfold work; simpl; by rewrite Eq, Z.eqb_refl).
  destruct (insert_req_sorted_spec (set_queue k q) io fr [] e (g w) t W1 He1 Hn Hp)
    as (k' & a & b & E' & Eb & W' & [_ S] & T & I & _).
  exists (set_queue k q), k', a, b. split; [done|]. split; [done|]. split; [done|]. split; [done|].
  split; [done|]. split; [done|]. split.
  - intros y v Hy Hv. apply (S y v). simpl. rewrite Eq. by rewrite (proj2 (Z.eqb_neq y e)) by done.
  - apply (S e). simpl. by rewrite Eq, Z.eqb_refl.
Qed.

Lemma flat_map_insert (f g : Z -> list io_tag) a b e :
  e ∉ a ++ b -> (forall y, y <> e -> g y = f y) ->
  flat_map g (a ++ e :: b) ≡ₚ g e ++ flat_map f (a ++ b).
Proof.
  intros He Hg. assert (Hl : forall l, e ∉ l -> flat_map g l = flat_map f l).
  { induction l as [|x l IH]; intros Hx; simpl; [done|]. rewrite Hg by set_solver. rewrite IH by set_solver. done. }
  rewrite !flat_map_app. simpl. rewrite !Hl by set_solver. apply Permutation_app_swap_app.
Qed.

(** ** Devices that differ in one worker *)
Lemma get_worker_put d i k d' j :
  put_worker d i k = Ok d' -> get_worker d' j = if j =? i then Ok k else get_worker d j.
Proof.
  unfold put_worker. intros Hp. simpl_outcome. apply updZ_inv in E as [Hr ->].
  unfold get_worker. simpl. by apply nthZ_insert.
Qed.

Lemma put_worker_Ok d i k k0 : get_worker d i = Ok k0 ->
  put_worker d i k = Ok (set_workers d (<[Z.to_nat i := k]> (d_io_workers d)) (d_io_worker_turn d)).
Proof. intros Hk. unfold put_worker. rewrite updZ_Ok; [done|]. by eapply nthZ_range. Qed.

Lemma flat_map_update (l : list nvmev_io_worker) (i : nat) k k' (r1 r2 : list io_tag) :
  l !! i = Some k -> r1 ++ worker_pending k ≡ₚ r2 ++ worker_pending k' ->
  r1 ++ flat_map worker_pending l ≡ₚ r2 ++ flat_map worker_pending (<[i := k']> l).
Proof.
  intros Hi Hr. pose proof (lookup_lt_Some _ _ _ Hi) as Hlt.
  rewrite insert_take_drop by done. rewrite <- (take_drop_middle l i k Hi) at 1.
  rewrite !flat_map_app. simpl. rewrite (Permutation_app_swap_app r1), (Permutation_app_swap_app r2).
  apply Permutation_app_head. rewrite !app_assoc. by apply Permutation_app_tail.
Qed.

Lemma dev_pending_update d i k k' d' r1 r2 :
  get_worker d i = Ok k -> d_io_workers d' = <[Z.to_nat i := k']> (d_io_workers d) ->
  r1 ++ worker_pending k ≡ₚ r2 ++ worker_pending k' -> r1 ++ dev_pending d ≡ₚ r2 ++ dev_pending d'.
Proof.
  intros Hk Hw Hr. unfold dev_pending. rewrite Hw. apply nthZ_Ok in Hk as [_ Hk]. by eapply flat_map_update.
Qed.

(** The invariant when worker [i] goes from [k] to [k'] and nobody moves. *)
Lemma io_inv_update d pcs i k k' d' :
  io_inv (d, pcs) -> get_worker d i = Ok k -> d_io_workers d' = <[Z.to_nat i := k']> (d_io_workers d) ->
  d_nr_io_workers d' = d_nr_io_workers d -> worker_inv (pcs i) k' -> io_inv (d', pcs).
Proof.
  intros [I1 I2 I3] Hk Hw Hn Hi. simpl in *. split; simpl; [by rewrite Hn|by rewrite Hw, length_insert, Hn|].
  intros j kj Hj. unfold get_worker in Hj. rewrite Hw, nthZ_insert in Hj by (by eapply nthZ_range).
  destruct (Z.eqb_spec j i) as [->|]; [by injection Hj as <-|by apply I3].
Qed.

(** ** Enqueueing *)
Lemma allocate_spec d pcs sqid r d' :
  io_inv (d, pcs) -> __allocate_work_queue_entry d sqid = Ok (r, d') ->
  match r with
  | None => d' = d
  | Some (turn, e) => exists k k1 io fr, get_worker d turn = Ok k /\ wq_lists k io (e :: fr) [] /\
      copied_first k /\ pc_ok k io (e :: fr) (pcs turn) /\ wq_lists k1 io fr [e] /\ work_queue k1 = work_queue k /\
      worker_id k1 = worker_id k /\ latest_nsecs k1 = latest_nsecs k /\
      d_io_workers d' = <[Z.to_nat turn := k1]> (d_io_workers d) /\
      d_nr_io_workers d' = d_nr_io_workers d /\ d_sqes d' = d_sqes d /\ d_clk d' = d_clk d
  end.
Proof.
  intros [_ _ I3] E. unfold __allocate_work_queue_entry in E.
  destruct (__get_io_worker d sqid) as [turn| | |]; try done. cbn [obind] in E.
  destruct (get_worker d turn) as [k| | |] eqn:Ek; try done. cbn [obind] in E.
  destruct (I3 turn k Ek) as (Hcf & io & fr & W & Hpc). simpl in Hpc.
  destruct (take_free_spec k io fr W) as (e & fr' & -> & Hone & Hmore).
  destruct (decide (fr' = [])) as [Hf|Hf].
  - rewrite (Hone Hf) in E. cbn [obind] in E. injection E as <- <-. done.
  - destruct (Hmore Hf) as (k1 & E1 & W1 & Q & T & I). rewrite E1 in E. cbn [obind] in E.
    rewrite updZ_Ok in E by (by eapply nthZ_range). cbn [obind] in E. injection E as <- <-.
    exists k, k1, io, fr'. by split_and!.
Qed.

Lemma here_insert k k' io fr a b e x :
  NoDup (e :: fr) -> io = a ++ b ->
  (forall y v, y <> e -> work k y = Ok v -> exists v', work k' y = Ok v' /\ same_work v v') ->
  here k io (e :: fr) x -> here k' (a ++ e :: b) fr x.
Proof.
  intros [Hn _]%NoDup_cons -> Hs [Hx|(f1 & f2 & Ef & Hc)]; [left; set_solver|].
  destruct f1 as [|y f1]; injection Ef as <- Ef; [left; set_solver|]. right. exists f1, f2. split; [done|].
  apply Forall_forall. intros z Hz. apply (proj1 (Forall_forall _ _) Hc) in Hz as Hd. destruct Hd as (w & Hw & Hd).
  destruct (Hs z w) as (w' & Hw' & (n & p & ->)); [|done|by eexists]. intros ->. apply Hn. rewrite Ef. set_solver.
Qed.

Lemma queue_work_spec d pcs turn e k k1 io fr d1 g t d' :
  io_inv (d, pcs) -> get_worker d turn = Ok k -> wq_lists k io (e :: fr) [] -> copied_first k ->
  pc_ok k io (e :: fr) (pcs turn) ->
  wq_lists k1 io fr [e] -> work_queue k1 = work_queue k ->
  d_io_workers d1 = <[Z.to_nat turn := k1]> (d_io_workers d) -> d_nr_io_workers d1 = d_nr_io_workers d ->
  (forall w, w_next (g w) = NIL /\ w_prev (g w) = NIL /\ w_is_completed (g w) = false) ->
  queue_work d1 turn e g t = Ok d' ->
  io_inv (d', pcs) /\ d_nr_io_workers d' = d_nr_io_workers d /\
  exists w, pending (g w) ++ dev_pending d ≡ₚ dev_pending d'.
Proof.
  intros I Hk W Hcf Hpc W1 Q Hd1 Hn1 Hg E. unfold queue_work in E.
  assert (Hk1 : get_worker d1 turn = Ok k1).
  { unfold get_worker. rewrite Hd1, nthZ_insert by (by eapply nthZ_range). by rewrite Z.eqb_refl. }
  rewrite Hk1 in E. cbn [obind] in E.
  assert (He : exists w, work k1 e = Ok w).
  { apply (wl_work _ _ _ _ W1), (wl_range _ _ _ _ W1). set_solver. }
  destruct He as [w Hw].
  destruct (fill_insert_spec k1 io fr e w g t W1 Hw) as (k2 & k' & a & b & E1 & E2 & -> & W' & _ & _ & Hs & (v' & Hv' & Hsv));
    [apply Hg|apply Hg|].
  rewrite E1 in E. cbn [obind] in E. rewrite E2 in E. cbn [obind] in E.
  rewrite (put_worker_Ok d1 turn k' k1 Hk1) in E. injection E as <-.
  assert (Hwk : forall y, work k1 y = work k y) by (intros y; unfold work; by rewrite Q).
  pose proof (wl_nodup _ _ _ _ W) as Hnd.
  assert (Hws : <[Z.to_nat turn := k']> (d_io_workers d1) = <[Z.to_nat turn := k']> (d_io_workers d))
    by (rewrite Hd1; apply list_insert_insert_eq).
  split; [|split; [done|exists w]].
  - eapply (io_inv_update d pcs turn k k'); [done|done|done|done|].
    split.
    { intros x v0 Hx Hd. destruct (work_back k1 k' x v0) as [v Hv]; [|done|].
      { by rewrite (wl_len _ _ _ _ W'), (wl_len _ _ _ _ W1). }
      destruct (decide (x = e)) as [->|Hne].
      - destruct Hsv as (n & p & ->). rewrite Hv' in Hx. injection Hx as <-. simpl in Hd.
        destruct (Hg w) as (_ & _ & Hgc). congruence.
      - destruct (Hs x v Hne Hv) as (v2 & Hv2 & (n & p & ->)). rewrite Hv2 in Hx. injection Hx as <-.
        apply (Hcf x v); [by rewrite <- Hwk|done]. }
    exists (a ++ e :: b), fr. split; [done|].
    assert (Hh : forall x, here k (a ++ b) (e :: fr) x -> here k' (a ++ e :: b) fr x).
    { intros x. apply here_insert; [|done|]. { apply NoDup_app in Hnd as (_ & _ & Hnd). by rewrite app_nil_r in Hnd. }
      intros y v Hy Hv. apply Hs; [done|by rewrite Hwk]. }
    destruct (pcs turn) as [|x|x]; simpl in Hpc |- *; [done| |by apply Hh].
    destruct Hpc as [?|?]; [by left|right; by apply Hh].
  - eapply (dev_pending_update d turn k k' _ (pending (g w)) []); [done|done|]. simpl.
    rewrite (worker_pending_lists _ _ _ _ W), (worker_pending_lists _ _ _ _ W').
    rewrite (flat_map_insert (pend k) (pend k')).
    + apply Permutation_app_tail. unfold pend. rewrite Hv'. by rewrite (same_pending _ _ Hsv).
    + apply NoDup_app in Hnd as (_ & Hnd & _). intros Hin. apply (Hnd e Hin). set_solver.
    + intros y Hy. apply pend_same; [by rewrite (wl_len _ _ _ _ W'), (wl_len _ _ _ _ W)|].
      intros v Hv. apply Hs; [done|by rewrite Hwk].
Qed.

Lemma enqueue_inv d pcs sqid cqid ent t0 ret d' :
  io_inv (d, pcs) -> __enqueue_io_req d sqid cqid ent t0 ret = Ok d' ->
  io_inv (d', pcs) /\ d_nr_io_workers d' = d_nr_io_workers d /\
  submitted (enqueue_event d sqid cqid ent ret) ++ dev_pending d ≡ₚ dev_pending d'.
Proof.
  intros I E. unfold __enqueue_io_req in E. unfold enqueue_event.
  destruct (__allocate_work_queue_entry d sqid) as [[r d1]| | |] eqn:Ea; try done. cbn [obind] in E.
  pose proof (allocate_spec d pcs sqid r d1 I Ea) as Hs. destruct r as [[turn e]|].
  2: { subst d1. injection E as <-. done. }
  destruct Hs as (k & k1 & io & fr & Hk & W & Hcf & Hpc & W1 & Q & _ & _ & Hd1 & Hn1 & Hsq & _).
  unfold get_sq in *. rewrite Hsq in E.
  destruct (let* q := nthZ (d_sqes d) sqid in of_option q) as [q| | |]; try done. cbn [obind] in E.
  destruct (sq_entry q ent) as [cmd| | |]; try done. cbn [obind local_clock] in E.
  pose proof (fun Hg => queue_work_spec d pcs turn e k k1 io fr (set_dclk d1 (S (d_clk d1))) _ _ d' I Hk W Hcf Hpc W1 Q Hd1 Hn1 Hg E) as Hq.
  destruct Hq as (I' & Hn & w & Hp); [by split|].
  split; [done|]. split; [done|]. exact Hp.
Qed.

Lemma internal_inv d pcs sqid target buf size d' :
  io_inv (d, pcs) -> schedule_internal_operation d sqid target buf size = Ok d' ->
  io_inv (d', pcs) /\ d_nr_io_workers d' = d_nr_io_workers d /\ dev_pending d ≡ₚ dev_pending d'.
Proof.
  intros I E. unfold schedule_internal_operation in E.
  destruct (__allocate_work_queue_entry d sqid) as [[r d1]| | |] eqn:Ea; try done. cbn [obind] in E.
  pose proof (allocate_spec d pcs sqid r d1 I Ea) as Hs. destruct r as [[turn e]|].
  2: { subst d1. injection E as <-. done. }
  destruct Hs as (k & k1 & io & fr & Hk & W & Hcf & Hpc & W1 & Q & _ & _ & Hd1 & Hn1 & _).
  cbn [obind local_clock] in E.
  pose proof (fun Hg => queue_work_spec d pcs turn e k k1 io fr (set_dclk d1 (S (d_clk d1))) _ _ d' I Hk W Hcf Hpc W1 Q Hd1 Hn1 Hg E) as Hq.
  destruct Hq as (I' & Hn & w & Hp); [by split|].
  split; [done|]. split; [done|]. exact Hp.
Qed.

(** Enqueueing always returns, and refuses only when one free item is left. *)
Lemma allocate_total d pcs sqid :
  io_inv (d, pcs) -> exists turn k io fr, get_worker d turn = Ok k /\ wq_lists k io fr [] /\
    match fr with
    | [] => False
    | [_] => __allocate_work_queue_entry d sqid = Ok (None, d)
    | e :: _ => exists d', __allocate_work_queue_entry d sqid = Ok (Some (turn, e), d')
    end.
Proof.
  intros [I1 I2 I3]. simpl in *. unfold __allocate_work_queue_entry, __get_io_worker. rewrite modO_Ok by lia. cbn [obind].
  set (turn := u32 (sqid - 1) mod d_nr_io_workers d).
  assert (Ht : 0 <= turn < d_nr_io_workers d) by (apply Z.mod_pos_bound; lia).
  destruct (nthZ_in_range (d_io_workers d) turn) as [k Hk]; [lia|]. fold (get_worker d turn) in Hk. rewrite Hk. cbn [obind].
  destruct (I3 turn k Hk) as (_ & io & fr & W & _). exists turn, k, io, fr. split; [done|]. split; [done|].
  destruct (take_free_spec k io fr W) as (e & fr' & -> & Hone & Hmore).
  destruct fr' as [|x fr']; [by rewrite (Hone eq_refl)|].
  destruct (Hmore ltac:(done)) as (k1 & -> & _). cbn [obind].
  rewrite updZ_Ok by (by eapply nthZ_range). cbn [obind]. by eexists.
Qed.

Lemma enqueue_total d pcs sqid cqid ent t0 ret q cmd :
  io_inv (d, pcs) -> get_sq d sqid = Ok q -> sq_entry q ent = Ok cmd ->
  exists d', __enqueue_io_req d sqid cqid ent t0 ret = Ok d' /\
    (enqueue_event d sqid cqid ent ret = [EvSubmit (mk_tag sqid cqid ent (command_id cmd) (ret_nsecs_target ret))] \/
     enqueue_event d sqid cqid ent ret = [] /\ d' = d /\
       exists turn k, get_worker d turn = Ok k /\ worker_full k).
Proof.
  intros I Hq Hc. destruct (allocate_total d pcs sqid I) as (turn & k & io & fr & Hk & W & Ha).
  unfold __enqueue_io_req, enqueue_event. destruct fr as [|e [|x fr]]; [done|..].
  { rewrite Ha. cbn [obind]. exists d. split; [done|]. right. split; [done|]. split; [done|]. exists turn, k.
    split; [done|]. unfold worker_full. rewrite (wl_io _ _ _ _ W). pose proof (wl_count _ _ _ _ W) as Hn.
    pose proof (wl_len _ _ _ _ W) as Hl. simpl in Hn.
    rewrite (walk_length k io [e] [] [] io) by (done || lia). unfold NR_MAX_PARALLEL_IO in *. lia. }
  destruct Ha as [d1 Ha]. pose proof (allocate_spec d pcs sqid _ d1 I Ha) as Hs. rewrite Ha. cbn [obind]. rewrite Hq, Hc.
  destruct Hs as (k0 & k1 & io' & fr' & Hk0 & _ & _ & _ & W1 & _ & _ & _ & Hd1 & Hn1 & Hsq & Hclk).
  unfold get_sq in *. rewrite Hsq, Hq. cbn [obind]. rewrite Hc. cbn [obind local_clock].
  unfold queue_work. change (get_worker (set_dclk d1 (S (d_clk d1))) turn) with (get_worker d1 turn).
  assert (Hk1 : get_worker d1 turn = Ok k1).
  { unfold get_worker. rewrite Hd1, nthZ_insert by (by eapply nthZ_range). by rewrite Z.eqb_refl. }
  rewrite Hk1. cbn [obind].
  assert (He : exists w, work k1 e = Ok w).
  { apply (wl_work _ _ _ _ W1), (wl_range _ _ _ _ W1). set_solver. }
  destruct He as [w Hw].
  destruct (fill_insert_spec k1 io' fr' e w
    (fill_request sqid cqid ent (command_id cmd) t0 (cpu_clock (d_clk d1)) ret) (ret_nsecs_target ret) W1 Hw eq_refl eq_refl)
    as (k2 & k' & a & b & E1 & E2 & _).
  rewrite E1. cbn [obind]. rewrite E2. cbn [obind]. rewrite (put_worker_Ok (set_dclk d1 (S (d_clk d1))) turn k' k1 Hk1). eexists. split; [done|]. by left.
Qed.

(** ** Reclaiming *)
Lemma here_reclaim k k' a b fr x :
  same_queue (work_queue k) (work_queue k') -> Forall (is_done k) a ->
  here k (a ++ b) fr x -> here k' b (fr ++ a) x.
Proof.
  intros S Ha. assert (Hc : Forall (completed_at k') a).
  { eapply Forall_impl; [exact Ha|]. intros y (w & Hw & Hr). unfold reclaimable in Hr. boolify.
    eapply same_queue_completed; [done|]. by exists w. }
  intros [[Hx|Hx]%elem_of_app|(f1 & f2 & -> & Hf)]; [|by left|].
  - right. apply list_elem_of_split in Hx as (l1 & l2 & ->). exists (fr ++ l1), l2. split; [by rewrite <- app_assoc|].
    by apply Forall_app in Hc as [_ Hc].
  - right. exists f1, (f2 ++ a). rewrite <- app_assoc. split; [done|].
    change (x :: f2 ++ a) with ((x :: f2) ++ a). apply Forall_app. split; [|done].
    eapply Forall_impl; [exact Hf|]. intros y. by apply same_queue_completed.
Qed.

Lemma done_pend k a : Forall (is_done k) a -> flat_map (pend k) a = [].
Proof.
  induction 1 as [|x a (w & Hw & Hr) _ IH]; simpl; [done|]. rewrite IH. unfold pend, pending. rewrite Hw.
  unfold reclaimable in Hr. boolify. destruct (w_is_completed w); [|done]. by rewrite orb_true_r.
Qed.

Lemma reclaim_worker_inv p k :
  worker_inv p k -> exists k', reclaim_worker k = Ok k' /\ worker_inv p k' /\ worker_id k' = worker_id k /\
    worker_pending k' = worker_pending k.
Proof.
  intros (Hcf & io & fr & W & Hpc).
  destruct (reclaim_worker_spec k io fr [] W) as (k' & a & b & E & -> & W' & S & _ & Ei & Hd & _).
  exists k'. split; [done|]. split; [|split; [done|]].
  - split; [by eapply same_queue_copied|]. exists b, (fr ++ a). split; [done|]. destruct p as [|x|x]; simpl in *; [done| |by eapply here_reclaim].
    destruct Hpc as [?|?]; [by left|]. right. by eapply here_reclaim.
  - rewrite (worker_pending_lists _ _ _ _ W), (worker_pending_lists _ _ _ _ W').
    rewrite flat_map_app, (done_pend k a Hd). simpl. apply pend_ext. intros x _. by apply same_queue_pend.
Qed.

Lemma reclaim_inv d pcs :
  io_inv (d, pcs) -> exists d', __reclaim_completed_reqs d = Ok d' /\ io_inv (d', pcs) /\
    d_nr_io_workers d' = d_nr_io_workers d /\ dev_pending d ≡ₚ dev_pending d'.
Proof.
  intros I. unfold __reclaim_completed_reqs.
  destruct (forO_ind (fun _ d1 => io_inv (d1, pcs) /\ d_nr_io_workers d1 = d_nr_io_workers d /\
    dev_pending d ≡ₚ dev_pending d1) 0 (d_nr_io_workers d) d
    (fun d turn => let* k := get_worker d turn in let* k := reclaim_worker k in put_worker d turn k))
    as (d' & E & Hd'); [destruct I as [? _ _]; simpl in *; lia|done| |by exists d'].
  intros i d1 Hi (I1 & N1 & P1). pose proof I1 as [J1 J2 J3]. simpl in *.
  destruct (nthZ_in_range (d_io_workers d1) i) as [k Hk]; [lia|]. fold (get_worker d1 i) in Hk. rewrite Hk. cbn [obind].
  destruct (reclaim_worker_inv (pcs i) k (J3 i k Hk)) as (k' & -> & Wk & _ & Hp). cbn [obind].
  rewrite (put_worker_Ok d1 i k' k Hk). eexists. split; [reflexivity|]. split; [|split; [done|]].
  - by eapply (io_inv_update d1 pcs i k k').
  - rewrite P1. eapply (dev_pending_update d1 i k k' _ [] []); [done|done|]. simpl. by rewrite Hp.
Qed.

(** ** Visits of a worker *)

(** What stays of a request while it is copied and completed. *)
Definition same_request (w w' : nvmev_io_work) : Prop :=
  exists copied completed status result0, w' = set_progress w copied completed status result0.

Lemma same_request_tag w w' : same_request w w' ->
  tag_of w' = tag_of w /\ w_next w' = w_next w /\ w_prev w' = w_prev w /\
  w_is_internal w' = w_is_internal w /\ w_nsecs_target w' = w_nsecs_target w.
Proof. by intros (c & m & st & r & ->). Qed.

Lemma copy_data_spec d w d' w' :
  copy_data d w = Ok (d', w') ->
  d_io_workers d' = d_io_workers d /\ d_nr_io_workers d' = d_nr_io_workers d /\ d_clk d' = d_clk d /\
  same_request w w' /\ w_is_completed w' = w_is_completed w /\ w_is_copied w' = true.
Proof.
  intros E. unfold copy_data in E. destruct (w_is_copied w) eqn:Ec.
  { injection E as <- <-. split_and!; try done. exists (w_is_copied w), (w_is_completed w), (w_status w), (w_result0 w).
    by destruct w. }
  destruct (w_is_internal w) eqn:Ei.
  { injection E as <- <-. split_and!; try done. by eexists _, _, _, _. }
  destruct (get_sq d (w_sqid w)) as [q| | |]; try done. cbn [obind] in E.
  destruct (sq_entry q (w_sq_entry w)) as [cmd| | |]; try done. cbn [obind] in E.
  destruct (nthZ (d_ns d) (ns_index cmd)) as [ns| | |]; try done. cbn [obind] in E.
  destruct (perform_io _ _ _ _ _) as [[[[ns' host'] status] result0]| | |]; try done. cbn [obind] in E.
  destruct (updZ _ _ _) as [l| | |]; try done. injection E as <- <-. split_and!; try done. by eexists _, _, _, _.
Qed.

Lemma complete_spec d w d' :
  complete d w = Ok d' -> d_io_workers d' = d_io_workers d /\ d_nr_io_workers d' = d_nr_io_workers d.
Proof.
  intros E. unfold complete in E. destruct (w_is_internal w).
  - destruct (w_write_buffer w) as [nsid buf]. destruct (nthZ (d_ns d) nsid) as [ns| | |]; try done. cbn [obind] in E.
    destruct (release_buffer _ _ _) as [ns'| | |]; try done. cbn [obind] in E.
    destruct (updZ _ _ _) as [l| | |]; try done. by injection E as <-.
  - unfold __fill_cq_result in E. destruct (get_cq d (w_cqid w)) as [q| | |]; try done. cbn [obind] in E.
    destruct (post_cqe q w) as [q'| | |]; try done. cbn [obind] in E. unfold put_cq in E.
    destruct (updZ _ _ _) as [l| | |]; try done. by injection E as <-.
Qed.

Lemma copy_data_cqes d w d' w' : copy_data d w = Ok (d', w') -> d_cqes d' = d_cqes d.
Proof.
  unfold copy_data. destruct (w_is_copied w); [by intros [= <- _]|]. destruct (w_is_internal w); [by intros [= <- _]|].
  intros E. simpl_outcome. repeat case_match; simpl_outcome; done.
Qed.

(** Completing a request is one new entry in its queue, releasing none. *)
Lemma complete_news d w d' now :
  complete d w = Ok d' ->
  if w_is_internal w then news d now d' = []
  else exists c, news d now d' = [EvPost (w_cqid w) c now] /\ cqe_seen c = tag_seen (tag_of w).
Proof.
  intros E. unfold complete in E. destruct (w_is_internal w).
  - apply news_same. destruct (w_write_buffer w) as [nsid buf]. destruct (nthZ (d_ns d) nsid) as [ns| | |]; try done.
    cbn [obind] in E. destruct (release_buffer _ _ _) as [ns'| | |]; try done. cbn [obind] in E.
    destruct (updZ _ _ _) as [l| | |]; try done. by injection E as <-.
  - unfold __fill_cq_result, get_cq, put_cq in E. destruct (nthZ (d_cqes d) (w_cqid w)) as [[q|]| | |] eqn:Eq; try done.
    cbn [obind of_option] in E. destruct (post_cqe q w) as [q'| | |] eqn:Ep; try done. cbn [obind] in E.
    destruct (updZ _ _ _) as [l| | |] eqn:El; try done. injection E as <-. apply updZ_inv in El as [_ ->].
    destruct (post_cqe_news q w q' Ep) as (c & Hn & Hc). exists c. split; [|done]. by apply (news_one _ _ _ _ q q').
Qed.

Lemma lists_latest k io fr out t : wq_lists k io fr out -> wq_lists (set_latest k t) io fr out.
Proof. by intros []. Qed.

(** A request in flight makes progress. *)
Lemma progress_spec k io fr e w w' :
  wq_lists k io fr [] -> e ∈ io -> work k e = Ok w -> same_request w w' ->
  exists k', with_work k e (fun _ => w') = Ok k' /\ wq_lists k' io fr [] /\ here k' io fr e /\
    pend k e ++ worker_pending k' ≡ₚ pending w' ++ worker_pending k /\
    (forall y, y <> e -> work k' y = work k y) /\ work k' e = Ok w'.
Proof.
  intros W He Hw Hs. destruct (with_work_ex k e (fun _ => w') w Hw) as (q & -> & L & Eq).
  exists (set_queue k q). split; [done|].
  assert (Hy : forall y, y <> e -> work (set_queue k q) y = work k y).
  { intros y Hy. unfold work at 1. simpl. by rewrite Eq, (proj2 (Z.eqb_neq y e)). }
  assert (W' : wq_lists (set_queue k q) io fr []).
  { apply lists_update; [done|done|]. intros x v _ Hv. rewrite Eq. destruct (Z.eqb_spec x e) as [->|]; [|by exists v].
    assert (v = w) as -> by congruence. exists w'. split; [done|]. apply same_request_tag in Hs. tauto. }
  split; [done|]. split; [by left|].
  split; [|split; [done|unfold work; simpl; by rewrite Eq, Z.eqb_refl]].
  rewrite (worker_pending_lists _ _ _ _ W), (worker_pending_lists _ _ _ _ W').
  pose proof (wl_nodup _ _ _ _ W) as Hnd. apply NoDup_app in Hnd as (Hnd & _ & _).
  apply list_elem_of_split in He as (a & b & ->).
  assert (Hn : e ∉ a ++ b).
  { apply NoDup_app in Hnd as (_ & Hd & Hb). apply NoDup_cons in Hb as [Hb _]. intros [Hi|Hi]%elem_of_app; [|done].
    apply (Hd e Hi). set_solver. }
  rewrite (flat_map_insert (pend k) (pend k) a b e Hn) by done.
  rewrite (flat_map_insert (pend k) (pend (set_queue k q)) a b e Hn) by (intros y ?; unfold pend; by rewrite Hy).
  unfold pend at 2. unfold work at 1. simpl. rewrite Eq, Z.eqb_refl. apply Permutation_app_swap_app.
Qed.

Lemma io_inv_move d pcs i p k k' d' :
  io_inv (d, pcs) -> get_worker d i = Ok k -> d_io_workers d' = <[Z.to_nat i := k']> (d_io_workers d) ->
  d_nr_io_workers d' = d_nr_io_workers d -> worker_inv p k' -> io_inv (d', set_pc pcs i p).
Proof.
  intros [I1 I2 I3] Hk Hw Hn Hi. simpl in *. split; simpl; [by rewrite Hn|by rewrite Hw, length_insert, Hn|].
  intros j kj Hj. unfold get_worker in Hj. rewrite Hw, nthZ_insert in Hj by (by eapply nthZ_range).
  unfold set_pc. destruct (Z.eqb_spec j i) as [->|]; [by injection Hj as <-|by apply I3].
Qed.

Lemma progress_copied k k' e w' :
  copied_first k -> (forall y, y <> e -> work k' y = work k y) -> work k' e = Ok w' ->
  (w_is_completed w' = true -> w_is_copied w' = true) -> copied_first k'.
Proof.
  intros Hc Hy He Hw x v Hx Hd. destruct (decide (x = e)) as [->|Hne].
  - rewrite He in Hx. injection Hx as <-. by apply Hw.
  - rewrite Hy in Hx by done. by apply (Hc x v).
Qed.

(** The request that a visit completes. *)
Definition visit_tags d (k : nvmev_io_worker) (e delta : Z) : list io_tag :=
  match work k e with
  | Ok w => if w_nsecs_target w <=? visit_time d delta then pending w else []
  | _ => []
  end.

Lemma visit_inv d pcs wi e k delta d' :
  io_inv (d, pcs) -> pcs wi = PcAt e -> e <> NIL -> get_worker d wi = Ok k ->
  worker_visit d wi e delta = Ok d' ->
  io_inv (d', set_pc pcs wi (PcNext e)) /\ d_nr_io_workers d' = d_nr_io_workers d /\
  dev_pending d ≡ₚ visit_tags d k e delta ++ dev_pending d' /\
  Forall2 completes (visit_tags d k e delta) (posted (news d (visit_time d delta) d')) /\
  submitted (news d (visit_time d delta) d') = [].
Proof.
  intros I Hpc Hne Hk E. pose proof I as [_ _ I3]. destruct (I3 wi k Hk) as (Hcf & io & fr & W & Hh). simpl in Hh.
  rewrite Hpc in Hh. simpl in Hh. destruct Hh as [?|Hh]; [done|].
  unfold worker_visit in E. rewrite Hk in E. cbn [obind] in E.
  destruct (work k e) as [w| | |] eqn:Hw; try done. cbn [obind local_clock] in E.
  set (now := u64 (cpu_clock (d_clk d) + delta)) in *. set (d1 := set_dclk d (S (d_clk d))) in *.
  pose proof (lists_latest k io fr [] now W) as Wl.
  assert (Hlat : worker_pending (set_latest k now) = worker_pending k)
    by (by rewrite (worker_pending_lists _ _ _ _ W), (worker_pending_lists _ _ _ _ Wl)).
  unfold visit_tags, visit_time. fold now. rewrite Hw. unfold pending.
  destruct (w_is_completed w) eqn:Ec.
  { rewrite (put_worker_Ok d1 wi _ k Hk) in E. injection E as <-. rewrite orb_true_r. split; [|split; [done|split]].
    - eapply (io_inv_move d pcs wi _ k (set_latest k now)); [done|done|done|done|]. split; [done|]. exists io, fr. split; [done|].
      destruct Hh as [?|(f1 & f2 & ? & Hf)]; [by left|right]. by exists f1, f2.
    - destruct (w_nsecs_target w <=? now);
        (eapply (dev_pending_update d wi k (set_latest k now) _ [] []); [done|done|by rewrite Hlat]).
    - rewrite news_same by done. by destruct (w_nsecs_target w <=? now). }
  assert (Hio : e ∈ io).
  { destruct Hh as [?|(f1 & f2 & _ & Hf)]; [done|]. apply Forall_cons in Hf as [(v & Hv & Hc) _].
    exfalso. unfold work in *. congruence. }
  destruct (copy_data d1 w) as [[d2 w2]| | |] eqn:E2; try done. cbn [obind] in E.
  destruct (copy_data_spec _ _ _ _ E2) as (D2 & N2 & _ & S2 & C2 & C2').
  pose proof (same_request_tag _ _ S2) as (Tg & _ & _ & Ti & Tt). rewrite Tt in E.
  apply copy_data_cqes in E2 as Q2.
  assert (Hpk : pend k e = if w_is_internal w then [] else [tag_of w]).
  { unfold pend. unfold work in *. rewrite Hw. unfold pending. rewrite Ec. by destruct (w_is_internal w). }
  destruct (Z.leb_spec (w_nsecs_target w) now) as [Hdue|Hdue].
  - destruct (complete d2 w2) as [d3| | |] eqn:E3; try done. cbn [obind] in E.
    destruct (complete_spec _ _ _ E3) as (D3 & N3).
    assert (S3 : same_request w (set_completed w2)).
    { destruct S2 as (? & ? & ? & ? & ->). by eexists _, _, _, _. }
    destruct (progress_spec (set_latest k now) io fr e w _ Wl Hio Hw S3) as (k' & E4 & W' & Hh' & Hp & Hy & Hke).
    rewrite E4 in E. cbn [obind] in E.
    assert (Hk3 : get_worker d3 wi = Ok k) by (unfold get_worker; by rewrite D3, D2).
    rewrite (put_worker_Ok d3 wi k' k Hk3) in E. injection E as <-.
    split; [|split; [by simpl; rewrite N3, N2|split]].
    + eapply (io_inv_move d pcs wi _ k k'); [done|done|simpl; by rewrite D3, D2|simpl; by rewrite N3, N2|].
      split; [|by exists io, fr]. eapply progress_copied; [exact Hcf|exact Hy|exact Hke|]. intros _. exact C2'.
    + assert (Ho : (if w_is_internal w || false then [] else [tag_of w]) = pend k e)
        by (rewrite Hpk; by destruct (w_is_internal w)).
      rewrite Ho. eapply (dev_pending_update d wi k k' _ [] (pend k e) Hk); [simpl; by rewrite D3, D2|]. simpl.
      change (pend (set_latest k now) e) with (pend k e) in Hp. rewrite Hp, Hlat. unfold pending. simpl.
      by rewrite orb_true_r.
    + pose proof (complete_news d2 w2 d3 now E3) as Hn. rewrite Ti, Tg in Hn. unfold news in *. simpl.
      rewrite Q2 in Hn. simpl in Hn. destruct (w_is_internal w); simpl; [by rewrite Hn|]. destruct Hn as (c & -> & Hc).
      split; [|done]. constructor; [|constructor]. split; [by rewrite <- Tg|done].
  - destruct (progress_spec (set_latest k now) io fr e w _ Wl Hio Hw S2) as (k' & E4 & W' & Hh' & Hp & Hy & Hke).
    rewrite E4 in E. cbn [obind] in E.
    assert (Hk3 : get_worker d2 wi = Ok k) by (unfold get_worker; by rewrite D2).
    rewrite (put_worker_Ok d2 wi k' k Hk3) in E. injection E as <-.
    split; [|split; [by simpl; rewrite N2|split; [|rewrite news_same by done; by split]]].
    + eapply (io_inv_move d pcs wi _ k k'); [done|done|simpl; by rewrite D2|simpl; by rewrite N2|].
      split; [|by exists io, fr]. eapply progress_copied; [exact Hcf|exact Hy|exact Hke|]. intros _. exact C2'.
    + eapply (dev_pending_update d wi k k' _ [] [] Hk); [simpl; by rewrite D2|]. simpl.
      change (pend (set_latest k now) e) with (pend k e) in Hp.
      assert (Hpe : pending w2 = pend k e) by (rewrite Hpk; unfold pending; rewrite C2, Ec, Ti, Tg; by destruct (w_is_internal w)).
      rewrite Hpe, Hlat in Hp. by apply Permutation_app_inv_l in Hp.
Qed.

(** ** Every step keeps the invariant and the balance of requests *)
Lemma here_next k io fr e w :
  wq_lists k io fr [] -> here k io fr e -> work k e = Ok w -> w_next w = NIL \/ here k io fr (w_next w).
Proof.
  intros W [He|(f1 & f2 & -> & Hf)] Hw.
  - apply list_elem_of_split in He as (a & b & ->). pose proof (wl_io_next _ _ _ _ W) as Hs.
    apply seg_app in Hs as [_ [(v & Hv & Hn) _]]. assert (v = w) as -> by (unfold work in Hw; congruence).
    rewrite Hn. destruct b as [|y b]; [by left|]. right. left. simpl. set_solver.
  - pose proof (wl_fr_next _ _ _ _ W) as Hs. apply seg_app in Hs as [_ [(v & Hv & Hn) _]].
    assert (v = w) as -> by (unfold work in Hw; congruence). rewrite Hn. destruct f2 as [|y f2]; [by left|].
    right. right. exists (f1 ++ [e]), f2. simpl. rewrite <- app_assoc. split; [done|]. by apply Forall_cons in Hf as [_ Hf].
Qed.

Lemma io_inv_pc d pcs i k p :
  io_inv (d, pcs) -> get_worker d i = Ok k -> worker_inv p k -> io_inv (d, set_pc pcs i p).
Proof.
  intros [I1 I2 I3] Hk Hp. split; [done|done|]. intros j kj Hj. simpl in *. unfold set_pc.
  destruct (Z.eqb_spec j i) as [->|]; [congruence|by apply I3].
Qed.

Lemma worker_irqs_workers d wi d' :
  worker_irqs d wi = Ok d' -> d_io_workers d' = d_io_workers d /\ d_nr_io_workers d' = d_nr_io_workers d.
Proof.
  unfold worker_irqs. destruct (get_worker d wi) as [k| | |]; try done. cbn [obind].
  apply (forO_keeps (fun d1 => d_io_workers d1 = d_io_workers d /\ d_nr_io_workers d1 = d_nr_io_workers d)); [done|].
  intros i d1 d2 [P1 P2] E. destruct (nthZ (d_cqes d1) i) as [r| | |]; try done. cbn [obind] in E.
  destruct (__get_io_worker d1 i) as [turn| | |]; try done. cbn [obind] in E.
  destruct (negb (worker_id k =? turn)); [by injection E as <-|]. destruct r as [q|]; [|by injection E as <-].
  destruct (negb (cq_irq_enabled q)); [by injection E as <-|].
  destruct (cq_interrupt_ready q); [|by injection E as <-]. unfold put_cq in E.
  destruct (updZ _ _ _) as [l| | |]; try done. by injection E as <-.
Qed.

Lemma io_step_inv s evs s' :
  io_step s evs s' -> io_inv s ->
  io_inv s' /\ exists ts, Forall2 completes ts (posted evs) /\
    submitted evs ++ dev_pending s.1 ≡ₚ ts ++ dev_pending s'.1.
Proof.
  intros Hs I. destruct Hs as [d pcs sqid cqid ent t0 ret d' now E|d pcs sqid t b z d' now E|d pcs d' now E|d pcs d' E1 E2|
    d pcs wi k Hp Hk|d pcs wi e k delta d' Hp Hne Hk E|d pcs wi e k w Hp Hk Hw|d pcs wi d' now Hp E]; simpl.
  - rewrite (news_same d now d' (enqueue_cqes _ _ _ _ _ _ _ E)), app_nil_r.
    destruct (enqueue_inv _ _ _ _ _ _ _ _ I E) as (I' & _ & Hb). split; [done|]. exists []. split; [|done].
    assert (Hx : posted (enqueue_event d sqid cqid ent ret) = []) by (unfold enqueue_event; repeat case_match; done).
    by rewrite Hx.
  - rewrite (news_same d now d' (internal_cqes _ _ _ _ _ _ E)).
    destruct (internal_inv _ _ _ _ _ _ _ I E) as (I' & _ & Hb). split; [done|]. by exists [].
  - rewrite (news_same d now d' (reclaim_cqes _ _ E)).
    destruct (reclaim_inv _ _ I) as (d2 & E' & I' & _ & Hb). rewrite E' in E. injection E as <-. split; [done|]. by exists [].
  - destruct I as [I1 I2 I3]. simpl in *. split; [split; simpl; [by rewrite E2|by rewrite E1, E2|]|].
    + intros i k. unfold get_worker. rewrite E1. apply I3.
    + exists []. unfold dev_pending. by rewrite E1.
  - split; [|by exists []]. apply (io_inv_pc d pcs wi k); [done|done|].
    destruct (ii_workers _ I wi k Hk) as (Hcf & io & fr & W & _). split; [done|]. exists io, fr. split; [done|]. simpl.
    rewrite (wl_io _ _ _ _ W). destruct io as [|x io]; [by left|]. right. left. simpl. set_solver.
  - destruct (visit_inv _ _ _ _ _ _ _ I Hp Hne Hk E) as (I' & _ & Hb & Ht & Hx). split; [done|].
    exists (visit_tags d k e delta). by rewrite Hx.
  - split; [|by exists []]. apply (io_inv_pc d pcs wi k); [done|done|].
    destruct (ii_workers _ I wi k Hk) as (Hcf & io & fr & W & Hh). split; [done|]. exists io, fr. split; [done|]. simpl in Hh.
    rewrite Hp in Hh. by apply (here_next k io fr e w).
  - rewrite (news_still d now d') by (intros i q'; by eapply irqs_still).
    destruct (worker_irqs_workers _ _ _ E) as [E1 E2]. destruct I as [I1 I2 I3]. simpl in *. split; [|exists []; split; [done|]].
    + split; simpl; [by rewrite E2|by rewrite E1, E2|]. intros i k. unfold get_worker, set_pc. rewrite E1. intros Hi.
      destruct (Z.eqb_spec i wi) as [->|]; [|by apply I3]. destruct (I3 wi k Hi) as (Hcf & io & fr & W & _).
      split; [done|]. by exists io, fr.
    + unfold dev_pending. by rewrite E1.
Qed.

Lemma io_steps_inv s evs s' :
  io_steps s evs s' -> io_inv s ->
  io_inv s' /\ exists ts, Forall2 completes ts (posted evs) /\
    submitted evs ++ dev_pending s.1 ≡ₚ ts ++ dev_pending s'.1.
Proof.
  induction 1 as [s|s evs s1 evs1 s2 Hs _ IH]; intros I; [split; [done|]; by exists []|].
  destruct (io_step_inv _ _ _ Hs I) as (I1 & t1 & T1 & B1). destruct (IH I1) as (I2 & t2 & T2 & B2).
  split; [done|]. exists (t1 ++ t2). unfold submitted, posted in *. rewrite !omap_app.
  split; [by apply Forall2_app|]. rewrite <- !app_assoc, <- B2.
  rewrite (Permutation_app_swap_app _ _ (dev_pending s.1)), B1. apply Permutation_app_swap_app.
Qed.

(** ** The start *)
Definition all_idle : Z -> pc := fun _ => PcIdle.

Lemma init_inv d :
  0 < d_nr_io_workers d < 4294967296 ->
  exists d', NVMEV_IO_WORKER_INIT d = Ok d' /\ io_inv (d', all_idle) /\ dev_pending d' = [].
Proof.
  intros Hn. unfold NVMEV_IO_WORKER_INIT.
  destruct (forO_ind (fun i l => Z.of_nat (length l) = i /\
     forall j k, nthZ l j = Ok k -> worker_inv PcIdle k /\ worker_pending k = [])
    0 (d_nr_io_workers d) [] (fun l i => let* k := init_worker i in Ok (l ++ [k]))) as (l & -> & Hl & Hk).
  - lia.
  - split; [done|]. intros j k Hj. by apply nthZ_range in Hj as [? ?]; simpl in *; lia.
  - intros i l Hi [Hl Hk]. destruct (init_worker_spec i) as (k & -> & W & _ & _ & Hw0). cbn [obind].
    eexists. split; [reflexivity|]. rewrite length_app. split; [simpl; lia|]. intros j kj Hj.
    apply nthZ_Ok in Hj as [H1 H2]. apply lookup_app_Some in H2 as [H2|[_ H2]].
    + apply (Hk j). by apply nthZ_Ok.
    + apply list_lookup_singleton_Some in H2 as [_ <-]. split; [split; [|by eexists _, _]|].
      { intros x w Hx. destruct (Hw0 x w Hx) as (n & p & ->). done. }
      by rewrite (worker_pending_lists _ _ _ _ W).
  - cbn [obind]. eexists. split; [reflexivity|]. split.
    + split; simpl; [done|done|]. intros i k Hi. by apply (Hk i).
    + unfold dev_pending. simpl. clear Hl.
      assert (Hf : forall k, k ∈ l -> worker_pending k = []).
      { intros k [i Hi]%list_elem_of_lookup. apply (Hk (Z.of_nat i)). apply nthZ_Ok. split; [lia|]. by rewrite Nat2Z.id. }
      clear Hk. induction l as [|k l IH]; simpl; [done|]. rewrite Hf by set_solver. apply IH. set_solver.
Qed.
End Steps.
