(* ===== verification/IoCalls.v ===== *)
(** * IoCalls: the functions of io.c as sequences of steps

    What the dispatcher does for a doorbell and what a worker does in one round
    are sequences of the steps of IoSteps, so that its invariants hold for any
    interleaving of them; a round of a worker ends and completes every request
    that is due. *)
From stdpp Require Import base list numbers sorting sets.
From Stdlib Require Import ZArith Lia.
From S2P Require Import Prelude ChannelModel SsdConfig Ssd Nvme Prp.
From S2P Require Import WorkQueue WorkQueueSpec IoDev IoQueue IoSteps.

Open Scope Z_scope.
Open Scope nvmev_scope.

Section Calls.
Context {F : Type} `{IoHandler F} `{Clock}.
Implicit Type d : nvmev_dev F.

Lemma st_same d pcs d' :
  d_io_workers d' = d_io_workers d -> d_nr_io_workers d' = d_nr_io_workers d -> io_steps (d, pcs) [] (d', pcs).
Proof. intros H1 H2. by apply io_steps_one, st_other. Qed.

Lemma put_sq_same d i q d' : put_sq d i q = Ok d' ->
  d_io_workers d' = d_io_workers d /\ d_nr_io_workers d' = d_nr_io_workers d.
Proof. unfold put_sq. destruct (updZ _ _ _); try done. by intros [= <-]. Qed.

Lemma sched_steps pcs nsid ops d d' :
  foldO (fun d op => schedule_internal_operation d (io_sqid op) (io_nsecs_target op) (nsid, io_buffer op)
      (io_buffs_to_release op)) d ops = Ok d' -> io_steps (d, pcs) [] (d', pcs).
Proof.
  revert d. induction ops as [|op ops IH]; intros d E; simpl in E; [injection E as <-; constructor|].
  destruct (schedule_internal_operation _ _ _ _ _) as [d1| | |] eqn:E1; try done. cbn [obind] in E.
  apply (steps_cons _ [] (d1, pcs)); [by eapply st_internal|]. by apply IH.
Qed.

Lemma proc_io_steps pcs d sqid ent r d' :
  __nvmev_proc_io d sqid ent = Ok (r, d') -> exists evs, io_steps (d, pcs) evs (d', pcs).
Proof.
  intros E. unfold __nvmev_proc_io in E. destruct (get_sq d sqid) as [q| | |]; try done. cbn [obind local_clock] in E.
  destruct (sq_entry q ent) as [cmd| | |]; try done. cbn [obind] in E.
  destruct (nthZ _ _) as [ns| | |]; try done. cbn [obind] in E.
  destruct (proc_io_cmd _ _ _ _ _) as [o| | |]; try done. cbn [obind] in E.
  destruct (updZ _ _ _) as [l| | |]; try done. cbn [obind] in E.
  destruct (updZ (sq_entries q) _ _) as [es| | |]; try done. cbn [obind] in E.
  destruct (put_sq _ sqid _) as [d1| | |] eqn:E1; try done. cbn [obind] in E. apply put_sq_same in E1 as [P1 P2].
  destruct (foldO _ d1 _) as [d2| | |] eqn:E2; try done. cbn [obind] in E.
  assert (H2 : io_steps (d, pcs) [] (d2, pcs)).
  { apply (io_steps_trans _ [] (d1, pcs) []); [by apply st_same|by eapply sched_steps]. }
  destruct (negb (o_ok o)); [injection E as <- <-; by exists []|].
  destruct (__enqueue_io_req _ _ _ _ _ _) as [d3| | |] eqn:E3; try done. cbn [obind] in E.
  destruct (__reclaim_completed_reqs d3) as [d4| | |] eqn:E4; try done. injection E as <- <-.
  eexists. eapply (io_steps_trans _ [] (d2, pcs)); [done|].
  eapply steps_cons; [by eapply st_enqueue|]. apply io_steps_one. by apply st_reclaim.
Qed.

Lemma proc_sq_loop_steps pcs n d sqid ent seq r :
  proc_sq_loop n d sqid ent seq = Ok r -> exists evs, io_steps (d, pcs) evs (r.2, pcs).
Proof.
  revert d ent seq. induction n as [|n IH]; intros d ent seq E; simpl in E.
  { injection E as <-. exists []. constructor. }
  destruct (__nvmev_proc_io d sqid ent) as [[o d1]| | |] eqn:E1; try done. cbn [obind] in E.
  destruct (proc_io_steps pcs _ _ _ _ _ E1) as (evs & Hs). destruct o as [sz|]; [|injection E as <-; by exists evs].
  destruct (get_sq d1 sqid) as [q| | |]; try done. cbn [obind] in E.
  destruct (put_sq d1 sqid _) as [d2| | |] eqn:E2; try done. cbn [obind] in E. apply put_sq_same in E2 as [P1 P2].
  destruct (IH _ _ _ E) as (evs2 & Hs2). eexists. eapply io_steps_trans; [exact Hs|].
  eapply (io_steps_trans _ [] (d2, pcs)); [by apply st_same|exact Hs2].
Qed.

Lemma proc_io_sq_steps pcs d sqid new_db old_db db d' :
  nvmev_proc_io_sq d sqid new_db old_db = Ok (db, d') -> exists evs, io_steps (d, pcs) evs (d', pcs).
Proof.
  intros E. unfold nvmev_proc_io_sq in E. destruct (nthZ (d_sqes d) sqid) as [[q|]| | |]; try done; cbn [obind] in E.
  2: { injection E as <- <-. exists []. constructor. }
  destruct (proc_sq_loop _ _ _ _ _) as [[seq d1]| | |] eqn:E1; try done. cbn [obind] in E.
  destruct (get_sq d1 sqid) as [q1| | |]; try done. cbn [obind] in E.
  destruct (put_sq d1 sqid _) as [d2| | |] eqn:E2; try done. cbn [obind] in E. apply put_sq_same in E2 as [P1 P2].
  destruct (negb (sq_queue_size q1 =? 0)); [|done]. injection E as <- <-.
  destruct (proc_sq_loop_steps pcs _ _ _ _ _ _ E1) as (evs & Hs). exists (evs ++ []).
  eapply io_steps_trans; [exact Hs|]. by apply st_same.
Qed.

(** ** A round of a worker *)
Lemma scan_steps pcs fuel d wi curr delta d' :
  pcs wi = PcAt curr -> worker_scan fuel d wi curr delta = Ok d' ->
  exists evs pcs', io_steps (d, pcs) evs (d', pcs') /\ pcs' wi = PcAt NIL /\ forall j, j <> wi -> pcs' j = pcs j.
Proof.
  revert pcs d curr. induction fuel as [|fuel IH]; intros pcs d curr Hp E; simpl in E.
  { destruct (Z.eqb_spec curr NIL) as [->|]; [|done]. injection E as <-. exists [], pcs. split; [constructor|done]. }
  destruct (Z.eqb_spec curr NIL) as [->|Hne].
  { injection E as <-. exists [], pcs. split; [constructor|done]. }
  destruct (worker_visit d wi curr delta) as [d1| | |] eqn:E1; try done. cbn [obind] in E.
  destruct (get_worker d1 wi) as [k1| | |] eqn:E2; try done. cbn [obind] in E.
  destruct (work k1 curr) as [w| | |] eqn:E3; try done. cbn [obind] in E.
  assert (Hk : exists k, get_worker d wi = Ok k).
  { unfold worker_visit in E1. destruct (get_worker d wi); try done. eauto. }
  destruct Hk as [k Hk]. set (pcs1 := set_pc pcs wi (PcNext curr)). set (pcs2 := set_pc pcs1 wi (PcAt (w_next w))).
  destruct (IH pcs2 d1 (w_next w)) as (evs & pcs' & Hs & Hw & Ho); [unfold pcs2, set_pc; by rewrite Z.eqb_refl|done|].
  eexists _, pcs'. split; [|split; [done|]].
  - eapply (steps_cons _ _ (d1, pcs1)); [by eapply st_visit|].
    eapply (steps_cons _ [] (d1, pcs2)); [|exact Hs]. eapply st_next; [|done|done].
    unfold pcs1, set_pc. by rewrite Z.eqb_refl.
  - intros j Hj. rewrite Ho by done. unfold pcs2, pcs1, set_pc. by rewrite (proj2 (Z.eqb_neq j wi)).
Qed.

Lemma worker_round_steps pcs fuel d wi d' :
  pcs wi = PcIdle -> nvmev_io_worker_round fuel d wi = Ok d' ->
  exists evs pcs', io_steps (d, pcs) evs (d', pcs') /\ pcs' wi = PcIdle /\ forall j, j <> wi -> pcs' j = pcs j.
Proof.
  intros Hp E. unfold nvmev_io_worker_round in E. cbn [local_clock] in E.
  destruct (get_worker _ wi) as [k| | |] eqn:Hk; try done. cbn [obind] in E.
  destruct (worker_scan _ _ _ _ _) as [d1| | |] eqn:E1; try done. cbn [obind] in E.
  set (d0 := set_dclk _ _) in E1 at 1. set (pcs0 := set_pc pcs wi (PcAt (io_seq k))).
  destruct (scan_steps pcs0 _ _ _ _ _ _ ltac:(unfold pcs0, set_pc; by rewrite Z.eqb_refl) E1)
    as (evs & pcs1 & Hs & Hw & Ho).
  exists (evs ++ []), (set_pc pcs1 wi PcIdle). split; [|split].
  - apply (io_steps_trans _ [] (d0, pcs) (evs ++ [])); [by apply st_same|].
    apply (steps_cons _ [] (d0, pcs0) (evs ++ [])); [by apply st_start|].
    eapply io_steps_trans; [exact Hs|]. apply io_steps_one. by apply st_stop.
  - unfold set_pc. by rewrite Z.eqb_refl.
  - intros j Hj. unfold set_pc. rewrite (proj2 (Z.eqb_neq j wi)) by done. rewrite Ho by done.
    unfold pcs0, set_pc. by rewrite (proj2 (Z.eqb_neq j wi)).
Qed.

(** ** A round completes what is due *)
Context `{!IoHandlerEnds F}.

Definition finished_at (k : nvmev_io_worker) (x : Z) : Prop :=
  exists w, work k x = Ok w /\ w_is_completed w = true /\ w_is_copied w = true.
Definition target_at (k : nvmev_io_worker) (x : Z) : Z :=
  match work k x with Ok w => w_nsecs_target w | _ => 0 end.

(** Runs through the binds of operations that end. *)
Ltac ends :=
  repeat match goal with
  | |- context [obind (nthZ ?l ?i) _] =>
      pose proof (nthZ_not_nofuel l i); destruct (nthZ l i) eqn:?; try done; cbn [obind]
  | |- context [obind (updZ ?l ?i ?x) _] =>
      pose proof (updZ_not_nofuel l i x); destruct (updZ l i x) eqn:?; try done; cbn [obind]
  | |- context [perform_io ?a ?b ?c ?e ?g] =>
      pose proof (perform_io_ends a b c e g);
      destruct (perform_io a b c e g) as [[[[? ?] ?] ?]| | |]; try done; cbn [obind]
  | |- context [release_buffer ?a ?b ?c] =>
      pose proof (release_buffer_ends a b c); destruct (release_buffer a b c); try done; cbn [obind]
  | |- context [obind (of_option ?o) _] => destruct o; try done; cbn [obind of_option]
  end.

Lemma copy_data_ends d w : w_is_completed w = false ->
  match copy_data d w with
  | Ok (d', w') => d_io_workers d' = d_io_workers d /\ d_nr_io_workers d' = d_nr_io_workers d /\
      d_clk d' = d_clk d /\ same_request w w' /\ w_is_copied w' = true
  | NoFuel => False
  | _ => True
  end.
Proof.
  intros Hc. destruct (copy_data d w) as [[d' w']| | |] eqn:E; try done.
  - destruct (copy_data_spec _ _ _ _ E) as (H1 & H2 & H3 & H4 & _ & H5). by split_and!.
  - revert E. unfold copy_data, get_sq, sq_entry. destruct (w_is_copied w); [done|]. destruct (w_is_internal w); [done|].
    by ends.
Qed.

Lemma complete_ends d w :
  match complete d w with
  | Ok d' => d_io_workers d' = d_io_workers d /\ d_nr_io_workers d' = d_nr_io_workers d
  | NoFuel => False
  | _ => True
  end.
Proof.
  destruct (complete d w) as [d'| | |] eqn:E; try done; [by eapply complete_spec|]. revert E. unfold complete.
  destruct (w_is_internal w).
  - destruct (w_write_buffer w) as [nsid buf]. by ends.
  - unfold __fill_cq_result, get_cq, put_cq, post_cqe. by ends.
Qed.

Lemma visit_late d wi e delta k io fr :
  get_worker d wi = Ok k -> wq_lists k io fr [] -> e ∈ io ->
  (forall n, target_at k e <= u64 (cpu_clock n + delta)) -> copied_first k ->
  match worker_visit d wi e delta with
  | Ok d' => exists k', get_worker d' wi = Ok k' /\ wq_lists k' io fr [] /\ finished_at k' e /\
      target_at k' e = target_at k e /\ (forall y, y <> e -> work k' y = work k y) /\ copied_first k' /\
      exists n, latest_nsecs k' = u64 (cpu_clock n + delta)
  | NoFuel => False
  | _ => True
  end.
Proof.
  intros Hk W He Hlate Hcf. unfold worker_visit. rewrite Hk. cbn [obind local_clock].
  assert (Hw : exists w, work k e = Ok w).
  { apply (wl_work _ _ _ _ W), (wl_range _ _ _ _ W). set_solver. }
  destruct Hw as [w Hw]. rewrite Hw. cbn [obind]. set (now := u64 (cpu_clock (d_clk d) + delta)).
  set (d1 := set_dclk d (S (d_clk d))). pose proof (lists_latest k io fr [] now W) as Wl.
  assert (Ht : w_nsecs_target w = target_at k e) by (unfold target_at; by rewrite Hw).
  destruct (w_is_completed w) eqn:Ec.
  { rewrite (put_worker_Ok d1 wi _ k Hk). exists (set_latest k now). split_and!; try done.
    - unfold get_worker. simpl. rewrite nthZ_insert by (by eapply nthZ_range). by rewrite Z.eqb_refl.
    - exists w. split; [done|]. split; [done|]. by eapply Hcf.
    - by exists (d_clk d). }
  pose proof (copy_data_ends d1 w Ec) as Hcd. destruct (copy_data d1 w) as [[d2 w2]| | |]; try done. cbn [obind].
  destruct Hcd as (D2 & N2 & C2 & S2 & Cp). pose proof (same_request_tag _ _ S2) as (_ & _ & _ & _ & Tt).
  rewrite (proj2 (Z.leb_le _ _)) by (rewrite Tt, Ht; apply Hlate).
  pose proof (complete_ends d2 w2) as Hce. destruct (complete d2 w2) as [d3| | |]; try done. cbn [obind].
  destruct Hce as [D3 N3]. assert (S3 : same_request w (set_completed w2)).
  { destruct S2 as (? & ? & ? & ? & ->). by eexists _, _, _, _. }
  destruct (progress_spec (set_latest k now) io fr e w _ Wl He Hw S3) as (k' & E4 & W' & _ & _ & Hy & Hke).
  rewrite E4. cbn [obind]. assert (Hk3 : get_worker d3 wi = Ok k) by (unfold get_worker; by rewrite D3, D2).
  rewrite (put_worker_Ok d3 wi k' k Hk3). exists k'.
  assert (El : latest_nsecs k' = now).
  { destruct (with_work_ex (set_latest k now) e (fun _ => set_completed w2) w Hw) as (q & E5 & _).
    rewrite E5 in E4. by injection E4 as <-. }
  split_and!.
  - unfold get_worker. simpl. rewrite D3, D2. simpl. rewrite nthZ_insert by (by eapply nthZ_range). by rewrite Z.eqb_refl.
  - done.
  - by eexists.
  - unfold target_at. by rewrite Hke, Hw.
  - done.
  - eapply (progress_copied k k' e); [done|exact Hy|exact Hke|]. intros _. exact Cp.
  - by exists (d_clk d).
Qed.

Lemma target_same k k' x : same_queue (work_queue k) (work_queue k') -> target_at k' x = target_at k x.
Proof.
  intros [L S]. unfold target_at, work. destruct (decide (0 <= x < Z.of_nat (length (work_queue k)))) as [Hx|Hx].
  - destruct (nthZ_in_range _ _ Hx) as [w Hw]. rewrite Hw. destruct (S x w Hw) as (w' & -> & (n & p & ->)). done.
  - assert (Hno : forall q, length q = length (work_queue k) ->
      match nthZ q x with Ok w => w_nsecs_target w | _ => 0 end = 0).
    { intros q Lq. destruct (nthZ q x) as [w| | |] eqn:E; [|done..]. apply nthZ_range in E. lia. }
    by rewrite !Hno.
Qed.

Lemma walk_in k io fr out a b fuel x w :
  wq_lists k io fr out -> io = a ++ b -> (length b <= fuel)%nat -> x ∈ b -> work k x = Ok w ->
  w ∈ walk fuel k (hdZ b).
Proof.
  intros W. revert a fuel. induction b as [|c b IH]; intros a fuel Eb Hf Hx Hw; [by apply elem_of_nil in Hx|].
  simpl in Hf. destruct fuel as [|fuel]; [lia|]. change (hdZ (c :: b)) with c. simpl.
  rewrite (proj2 (Z.eqb_neq c NIL)) by (apply (wl_not_nil _ _ _ _ W); rewrite Eb; set_solver).
  pose proof (wl_io_next _ _ _ _ W) as Hs. rewrite Eb in Hs. apply seg_app in Hs as [_ [(v & Hv & Hn) _]].
  unfold work at 1. rewrite Hv, Hn. apply elem_of_cons in Hx as [->|Hx].
  - unfold work in Hw. rewrite Hv in Hw. injection Hw as <-. left.
  - right. apply (IH (a ++ [c])); [by rewrite <- app_assoc|lia|done|done].
Qed.

Lemma scan_drains fuel d wi delta k io fr a b :
  get_worker d wi = Ok k -> wq_lists k io fr [] -> io = a ++ b -> (length b <= fuel)%nat ->
  (forall n x, x ∈ io -> target_at k x <= u64 (cpu_clock n + delta)) -> copied_first k ->
  Forall (finished_at k) a ->
  (a <> [] -> exists n, latest_nsecs k = u64 (cpu_clock n + delta)) ->
  match worker_scan fuel d wi (hdZ b) delta with
  | Ok d' => exists k', get_worker d' wi = Ok k' /\ wq_lists k' io fr [] /\ Forall (finished_at k') io /\
      (forall x, x ∈ io -> target_at k' x = target_at k x) /\
      (io <> [] -> exists n, latest_nsecs k' = u64 (cpu_clock n + delta))
  | NoFuel => False
  | _ => True
  end.
Proof.
  intros Hk W Eb Hf Hlate Hcf Ha Hl. revert d k a b W Hk Eb Hf Hlate Hcf Ha Hl.
  induction fuel as [|fuel IH]; intros d k a b W Hk Eb Hf Hlate Hcf Ha Hl.
  { destruct b; [|simpl in Hf; lia]. simpl. rewrite app_nil_r in Eb. subst a. by exists k. }
  destruct b as [|e b].
  { simpl. rewrite app_nil_r in Eb. subst a. by exists k. }
  change (hdZ (e :: b)) with e. simpl in Hf |- *.
  assert (He : e ∈ io) by (rewrite Eb; set_solver).
  rewrite (proj2 (Z.eqb_neq e NIL)) by (apply (wl_not_nil _ _ _ _ W); set_solver).
  pose proof (visit_late d wi e delta k io fr Hk W He (fun n => Hlate n e He) Hcf) as Hv.
  destruct (worker_visit d wi e delta) as [d1| | |]; try done. cbn [obind].
  destruct Hv as (k1 & Hk1 & W1 & He1 & Ht1 & Hy1 & Hcf1 & Hn1). rewrite Hk1. cbn [obind].
  pose proof (wl_io_next _ _ _ _ W1) as Hs. rewrite Eb in Hs. apply seg_app in Hs as [_ [(w & Hw & Hn) _]].
  unfold work. rewrite Hw. cbn [obind]. rewrite Hn. fold (hdZ b).
  assert (Htgt : forall x, target_at k1 x = target_at k x).
  { intros x. destruct (decide (x = e)) as [->|Hne]; [done|]. unfold target_at. by rewrite Hy1. }
  specialize (IH d1 k1 (a ++ [e]) b W1 Hk1). destruct (worker_scan fuel d1 wi (hdZ b) delta) as [d2| | |].
  2-3: done.
  - destruct IH as (k2 & Hk2 & W2 & Hf2 & Ht2 & Hn2); [by rewrite Eb, <- app_assoc|lia|..].
    + intros n x Hx. rewrite Htgt. by apply Hlate.
    + done.
    + apply Forall_app. split; [|by constructor]. eapply Forall_impl; [exact Ha|]. intros x (v & Hx & Hd).
      destruct (decide (x = e)) as [->|Hne]; [done|]. exists v. by rewrite Hy1.
    + intros _. done.
    + exists k2. split_and!; try done. intros x Hx. by rewrite Ht2, Htgt.
  - apply IH; [by rewrite Eb, <- app_assoc|lia|..].
    + intros n x Hx. rewrite Htgt. by apply Hlate.
    + done.
    + apply Forall_app. split; [|by constructor]. eapply Forall_impl; [exact Ha|]. intros x (v & Hx & Hd).
      destruct (decide (x = e)) as [->|Hne]; [done|]. exists v. by rewrite Hy1.
    + intros _. done.
Qed.

Lemma finished_reclaimed k io fr :
  wq_lists k io fr [] -> Forall (finished_at k) io -> (forall x, x ∈ io -> target_at k x <= latest_nsecs k) ->
  exists k', reclaim_worker k = Ok k' /\ wq_lists k' [] (fr ++ io) [].
Proof.
  intros W Hf Ht. destruct (reclaim_worker_spec k io fr [] W) as (k' & a & b & E & -> & W' & _ & _ & _ & _ & Hb).
  destruct b as [|x b]; [exists k'; by rewrite app_nil_r|]. exfalso. destruct Hb as [?|(w & Hw & Hr)]; [done|].
  change (hdZ (x :: b)) with x in Hw. apply Forall_app in Hf as [_ Hf]. apply Forall_cons in Hf as [(v & Hv & Hc & Hp) _].
  assert (v = w) as -> by congruence. specialize (Ht x ltac:(set_solver)). unfold target_at in Ht. rewrite Hw in Ht.
  unfold reclaimable in Hr. rewrite Hc, Hp, (proj2 (Z.leb_le _ _) Ht) in Hr. done.
Qed.
End Calls.
