(* ===== verification/ZnsData.v ===== *)
(** * ZnsData: the state of the zoned FTL (src/zns_ftl.h, src/zns_ftl.c, src/nvme_zns.h)

    Zones and their descriptors, the resources that limit how many may be
    active, open or random-write, the address arithmetic between sectors, pages
    and zones, and the initialisation of all of it. *)
From stdpp Require Import base list numbers.
From Stdlib Require Import ZArith Lia.
From S2P Require Import Prelude ChannelModel SsdConfig Ssd Nvme Prp HostMem.

Open Scope Z_scope.
Open Scope nvmev_scope.

Inductive zone_state :=
| ZONE_STATE_EMPTY
| ZONE_STATE_OPENED_IMPL
| ZONE_STATE_OPENED_EXPL
| ZONE_STATE_CLOSED
| ZONE_STATE_READ_ONLY
| ZONE_STATE_FULL
| ZONE_STATE_OFFLINE.

#[export] Instance zone_state_eq_dec : EqDecision zone_state.
Proof. solve_decision. Defined.

(** The values of the enumerators. *)
Definition zone_state_code (s : zone_state) : Z :=
  match s with
  | ZONE_STATE_EMPTY => 1
  | ZONE_STATE_OPENED_IMPL => 2
  | ZONE_STATE_OPENED_EXPL => 3
  | ZONE_STATE_CLOSED => 4
  | ZONE_STATE_READ_ONLY => 13
  | ZONE_STATE_FULL => 14
  | ZONE_STATE_OFFLINE => 15
  end.

Definition ZONE_TYPE_SEQ_WRITE_REQUIRED : Z := 2.

(** [enum zone_resource_type] *)
Definition ACTIVE_ZONE : Z := 0.
Definition OPEN_ZONE : Z := 1.
Definition ZRWA_ZONE : Z := 2.

(** [enum zone_send_action] *)
Definition ZSA_CLOSE_ZONE : Z := 1.
Definition ZSA_FINISH_ZONE : Z := 2.
Definition ZSA_OPEN_ZONE : Z := 3.
Definition ZSA_RESET_ZONE : Z := 4.
Definition ZSA_OFFLINE_ZONE : Z := 5.
Definition ZSA_FLUSH_EXPL_ZRWA : Z := 17.

Record znsparams := mk_znsparams {
  nr_zones : Z;
  nr_active_zones : Z;
  nr_open_zones : Z;
  dies_per_zone : Z;
  zone_size : Z;
  zone_wb_size : Z;
  nr_zrwa_zones : Z;
  zrwafg_size : Z;
  zrwa_size : Z;
  zrwa_buffer_size : Z;
  lbas_per_zrwafg : Z;
  lbas_per_zrwa : Z;
}.

Record zone_resource_info := mk_res { acquired_cnt : Z; total_cnt : Z }.

(** [zd_za] is the byte of attributes; the reserved members stay 0. *)
Record zone_descriptor := mk_zd {
  zd_type : Z;
  zd_state : zone_state;
  zd_za : Z;
  zone_capacity : Z;
  zslba : Z;
  zd_wp : Z;
}.

(** [za.zrwav]: bit 3. *)
Definition zrwav (z : zone_descriptor) : Z := getf (zd_za z) 3 1.
Definition set_zrwav (z : zone_descriptor) (v : Z) : zone_descriptor :=
  mk_zd (zd_type z) (zd_state z) (setf (zd_za z) 3 1 v) (zone_capacity z) (zslba z) (zd_wp z).
Definition set_zd_state (z : zone_descriptor) (s : zone_state) : zone_descriptor :=
  mk_zd (zd_type z) s (zd_za z) (zone_capacity z) (zslba z) (zd_wp z).
Definition set_zd_wp (z : zone_descriptor) (w : Z) : zone_descriptor :=
  mk_zd (zd_type z) (zd_state z) (zd_za z) (zone_capacity z) (zslba z) w.

(** The 64 bytes of a descriptor. *)
Definition zd_bytes (z : zone_descriptor) : list Z :=
  [getf (zd_type z) 0 4; Z.shiftl (zone_state_code (zd_state z)) 4; getf (zd_za z) 0 8; 0]
  ++ le_bytes 4 0 ++ le_bytes 8 (zone_capacity z) ++ le_bytes 8 (zslba z) ++ le_bytes 8 (zd_wp z)
  ++ replicate 32 0.
Definition sizeof_zone_descriptor : Z := 64.
Definition sizeof_zone_report : Z := 128.

(** [None] is a pointer that is NULL. *)
Record zns_ftl := mk_zns_ftl {
  zf_ssd : ssd;
  zp : znsparams;
  res_infos : list zone_resource_info;
  zone_descs : list zone_descriptor;
  report_buffer : list Z;
  zone_write_buffer : option (list buffer);
  zwra_buffer : option (list buffer);
  zf_storage : mem; (* bytes from [storage_base_addr] *)
}.

Definition zset_ssd (f : zns_ftl) (s : ssd) : zns_ftl :=
  mk_zns_ftl s (zp f) (res_infos f) (zone_descs f) (report_buffer f) (zone_write_buffer f)
    (zwra_buffer f) (zf_storage f).
Definition set_res (f : zns_ftl) (r : list zone_resource_info) : zns_ftl :=
  mk_zns_ftl (zf_ssd f) (zp f) r (zone_descs f) (report_buffer f) (zone_write_buffer f)
    (zwra_buffer f) (zf_storage f).
Definition set_descs (f : zns_ftl) (d : list zone_descriptor) : zns_ftl :=
  mk_zns_ftl (zf_ssd f) (zp f) (res_infos f) d (report_buffer f) (zone_write_buffer f)
    (zwra_buffer f) (zf_storage f).
Definition set_report (f : zns_ftl) (r : list Z) : zns_ftl :=
  mk_zns_ftl (zf_ssd f) (zp f) (res_infos f) (zone_descs f) r (zone_write_buffer f)
    (zwra_buffer f) (zf_storage f).
Definition set_zwb (f : zns_ftl) (b : list buffer) : zns_ftl :=
  mk_zns_ftl (zf_ssd f) (zp f) (res_infos f) (zone_descs f) (report_buffer f) (Some b)
    (zwra_buffer f) (zf_storage f).
Definition set_zrwab (f : zns_ftl) (b : list buffer) : zns_ftl :=
  mk_zns_ftl (zf_ssd f) (zp f) (res_infos f) (zone_descs f) (report_buffer f)
    (zone_write_buffer f) (Some b) (zf_storage f).
Definition set_storage (f : zns_ftl) (m : mem) : zns_ftl :=
  mk_zns_ftl (zf_ssd f) (zp f) (res_infos f) (zone_descs f) (report_buffer f)
    (zone_write_buffer f) (zwra_buffer f) m.

Definition zsp (f : zns_ftl) : ssdparams := sp (zf_ssd f).

(** [zone_descs[zid]], read and written. *)
Definition get_zone (f : zns_ftl) (zid : Z) : outcome zone_descriptor := nthZ (zone_descs f) zid.
Definition with_zone (f : zns_ftl) (zid : Z) (g : zone_descriptor -> zone_descriptor)
  : outcome zns_ftl :=
  let* d := alterZ (fun z => Ok (g z)) (zone_descs f) zid in Ok (set_descs f d).

(** ** zns_ftl.h *)
Definition get_storage_addr_from_zid (f : zns_ftl) (zid : Z) : Z := u64 (zid * zone_size (zp f)).

Definition is_zone_resource_avail (f : zns_ftl) (type : Z) : outcome bool :=
  let* r := nthZ (res_infos f) type in Ok (acquired_cnt r <? total_cnt r).

Definition is_zone_resource_full (f : zns_ftl) (type : Z) : outcome bool :=
  let* r := nthZ (res_infos f) type in Ok (acquired_cnt r =? total_cnt r).

Definition acquire_zone_resource (f : zns_ftl) (type : Z) : outcome (bool * zns_ftl) :=
  let* a := is_zone_resource_avail f type in
  if (a : bool) then
    let* l := alterZ (fun r => Ok (mk_res (u32 (acquired_cnt r + 1)) (total_cnt r)))
                (res_infos f) type in
    Ok (true, set_res f l)
  else Ok (false, f).

(** [ASSERT] expands to nothing. *)
Definition release_zone_resource (f : zns_ftl) (type : Z) : outcome zns_ftl :=
  let* l := alterZ (fun r => Ok (mk_res (u32 (acquired_cnt r - 1)) (total_cnt r)))
              (res_infos f) type in
  Ok (set_res f l).

Definition change_zone_state (f : zns_ftl) (zid : Z) (state : zone_state) : outcome zns_ftl :=
  with_zone f zid (fun z => set_zd_state z state).

(** The quotients are 32-bit; the results of the first and third are cut. *)
Definition lpn_to_zone (f : zns_ftl) (lpn : Z) : outcome Z :=
  let* d := divO (zone_size (zp f)) (pgsz (zsp f)) in
  let* q := divO lpn d in Ok (u32 q).
Definition zone_to_slpn (f : zns_ftl) (zid : Z) : outcome Z :=
  let* d := divO (zone_size (zp f)) (pgsz (zsp f)) in Ok (u32 (u32 zid * d)).
Definition lba_to_zone (f : zns_ftl) (lba : Z) : outcome Z :=
  let* d := divO (zone_size (zp f)) (secsz (zsp f)) in
  let* q := divO lba d in Ok (u32 q).
Definition zone_to_slba (f : zns_ftl) (zid : Z) : outcome Z :=
  let* d := divO (zone_size (zp f)) (secsz (zsp f)) in Ok (u32 (u32 zid * d)).
Definition zone_to_elba (f : zns_ftl) (zid : Z) : outcome Z :=
  let* s := zone_to_slba f (u32 (zid + 1)) in Ok (u64 (s - 1)).
Definition zone_to_elpn (f : zns_ftl) (zid : Z) : outcome Z :=
  let* e := zone_to_elba f zid in divO e (secs_per_pg (zsp f)).
Definition die_to_channel (f : zns_ftl) (die : Z) : outcome Z := modO die (nchs (zsp f)).
Definition die_to_lun (f : zns_ftl) (die : Z) : outcome Z := divO die (nchs (zsp f)).
Definition lba_to_lpn (f : zns_ftl) (lba : Z) : outcome Z := divO lba (secs_per_pg (zsp f)).

(** ** Initialisation *)
Definition zone_0 (zslba0 cap : Z) : zone_descriptor :=
  mk_zd ZONE_TYPE_SEQ_WRITE_REQUIRED ZONE_STATE_EMPTY 0 cap zslba0 zslba0.

(** [report0] is what [kmalloc] hands out for the report buffer. *)
Definition __init_descriptor (f : zns_ftl) (report0 : list Z) : outcome zns_ftl :=
  let z := zp f in
  let cap := BYTE_TO_LBA (zone_size z) in
  let* (_, descs) := forO 0 (nr_zones z) (0, []) (fun '(s, l) _ =>
    Ok (u64 (s + cap), l ++ [zone_0 s cap])) in
  let bufs size := replicate (Z.to_nat (nr_zones z)) (buffer_init size) in
  Ok (mk_zns_ftl (zf_ssd f) z (res_infos f) descs report0
        (if zone_wb_size z =? 0 then zone_write_buffer f else Some (bufs (zone_wb_size z)))
        (if zrwa_buffer_size z =? 0 then zwra_buffer f else Some (bufs (zrwa_buffer_size z)))
        (zf_storage f)).

Definition __init_resource (f : zns_ftl) : zns_ftl :=
  set_res f (replicate 3 (mk_res 0 (nr_zones (zp f)))).

(** [zpp] is the object before the assignment, which the initialiser reads. *)
Definition zns_init_params (zc : zone_config) (zpp : znsparams) (spp : ssdparams) (capacity : Z)
  : outcome znsparams :=
  let* n := divO capacity (ZONE_SIZE zc) in
  let* lz := divO (zrwa_size zpp) (secsz spp) in
  let* lf := divO (zrwafg_size zpp) (secsz spp) in
  let zpp' := mk_znsparams (u32 n) (nr_zones zpp) (nr_zones zpp) (u32 (DIES_PER_ZONE zc))
                (u32 (ZONE_SIZE zc)) (u32 (ZONE_WB_SIZE zc)) (u32 (MAX_ZRWA_ZONES zc))
                (u32 (ZRWAFG_SIZE zc)) (u32 (ZRWA_SIZE zc)) (u32 (ZRWA_BUFFER_SIZE zc)) lf lz in
  let* r1 := modO capacity (zone_size zpp') in
  ASSERT! r1 =? 0;
  let* r2 := modO (zone_size zpp') (pgsz spp) in
  ASSERT! r2 =? 0;
  Ok zpp'.

Definition zns_init_ftl (zpp : znsparams) (s : ssd) (mapped : mem) (report0 : list Z)
  : outcome zns_ftl :=
  let* f := __init_descriptor (mk_zns_ftl s zpp [] [] [] None None mapped) report0 in
  Ok (__init_resource f).

Record zns_ns := mk_zns_ns { zn_csi : Z; zn_nr_parts : Z; zn_size : Z; zn_ftl : zns_ftl }.
Definition set_zn_ftl (ns : zns_ns) (f : zns_ftl) : zns_ns :=
  mk_zns_ns (zn_csi ns) (zn_nr_parts ns) (zn_size ns) f.

(** The namespace, its PCIe link and its write buffer; [zpp0] and [report0] are
    the uninitialised objects. *)
Definition zns_init_namespace (cfg : ssd_config) (zc : zone_config) (zpp0 : znsparams)
  (report0 : list Z) (mapped : mem) (size cpu : Z) : outcome (zns_ns * channel_model * buffer) :=
  let* spp := ssd_init_params cfg size 1 in
  let* (s, pcie, wbuf) := ssd_init spp cpu in
  let* zpp := zns_init_params zc zpp0 spp size in
  let* f := zns_init_ftl zpp s mapped report0 in
  Ok (mk_zns_ns NVME_CSI_ZNS 1 size f, pcie, wbuf).
