(* ===== verification/ZnsIo.v ===== *)
(** * ZnsIo: writes, appends and reads of zones (src/zns_read_write.c)

    A handler returns whether it accepted the command, the state after it, the
    command (a zone append stores the write pointer into it, where the worker
    that copies the data reads it) and the result. *)
From stdpp Require Import base list numbers.
From Stdlib Require Import ZArith Lia.
From S2P Require Import Prelude ChannelModel SsdConfig Ssd Nvme Prp ZnsData.

Open Scope Z_scope.
Open Scope nvmev_scope.

Definition __nr_lbas_from_rw_cmd (cmd : nvme_command) : Z := u32 (rw_length cmd + 1).

(** Whether first and last sector lie in the same zone. *)
Definition __check_boundary_error (f : zns_ftl) (slba nr_lba : Z) : outcome bool :=
  let* z1 := lba_to_zone f slba in
  let* z2 := lba_to_zone f (u64 (slba + nr_lba - 1)) in
  Ok (z1 =? z2).

Definition __increase_write_ptr (f : zns_ftl) (zid nr_lba : Z) : outcome zns_ftl :=
  let* z := get_zone f zid in
  let cur_write_ptr := u64 (zd_wp z + nr_lba) in
  let* f := with_zone f zid (fun z => set_zd_wp z cur_write_ptr) in
  let* s := zone_to_slba f zid in
  if cur_write_ptr =? u64 (s + zone_capacity z) then
    let* f := release_zone_resource f OPEN_ZONE in
    let* f := release_zone_resource f ACTIVE_ZONE in
    change_zone_state f zid ZONE_STATE_FULL
  else Ok f.

Definition __lpn_to_ppa (f : zns_ftl) (lpn : Z) : outcome Z :=
  let spp := zsp f in
  let zpp := zp f in
  let* zone := lpn_to_zone f lpn in
  let* slpn := zone_to_slpn f zone in
  let off := u64 (lpn - slpn) in
  let* sdie := modO (u64 (zone * dies_per_zone zpp)) (tt_luns spp) in
  let* q := divO off (pgs_per_oneshotpg spp) in
  let* r := modO q (dies_per_zone zpp) in
  let die := u32 (u32 sdie + r) in
  let* channel := die_to_channel f die in
  let* lun := die_to_lun f die in
  let* pg := modO off (pgs_per_oneshotpg spp) in
  Ok (set_pg (set_ch (set_lun 0 lun) channel) pg).

Section Timed.
Context `{Clock}.

Definition zns_advance_nand (f : zns_ftl) (h : hw) (ncmd : nand_cmd)
  : outcome (Z * zns_ftl * hw) :=
  let* (t, s, h) := ssd_advance_nand (zf_ssd f) h ncmd in Ok (t, zset_ssd f s, h).

(** The buffer of the zone where zones have one, else that of the device;
    the answer of [buffer_allocate] and which buffer it was. *)
Definition zns_wb_allocate (f : zns_ftl) (h : hw) (zid size : Z)
  : outcome (Z * zns_ftl * hw * buf_id) :=
  if negb (zone_wb_size (zp f) =? 0) then
    let* l := of_option (zone_write_buffer f) in
    let* b := nthZ l zid in
    let '(n, b) := buffer_allocate b size in
    let* l := updZ l zid b in
    Ok (n, set_zwb f l, h, WB_ZONE zid)
  else
    let '(n, b) := buffer_allocate (hw_write_buffer h) size in
    Ok (n, f, set_write_buffer h b, WB_GLOBAL).

(** The [switch (state)] of [__zns_write]: the status, success to go on. *)
Definition zns_open_for_write (f : zns_ftl) (zid slba : Z) : outcome (Z * zns_ftl) :=
  let* z := get_zone f zid in
  let closed (f : zns_ftl) :=
    let* (ok, f) := acquire_zone_resource f OPEN_ZONE in
    if (ok : bool) then
      let* f := change_zone_state f zid ZONE_STATE_OPENED_IMPL in Ok (NVME_SC_SUCCESS, f)
    else Ok (NVME_SC_ZNS_NO_OPEN_ZONE, f) in
  match zd_state z with
  | ZONE_STATE_EMPTY =>
      if negb (slba =? zslba z) then Ok (NVME_SC_ZNS_INVALID_WRITE, f)
      else
        let* a := is_zone_resource_full f ACTIVE_ZONE in
        if (a : bool) then Ok (NVME_SC_ZNS_NO_ACTIVE_ZONE, f)
        else
          let* o := is_zone_resource_full f OPEN_ZONE in
          if (o : bool) then Ok (NVME_SC_ZNS_NO_OPEN_ZONE, f)
          else
            let* (_, f) := acquire_zone_resource f ACTIVE_ZONE in
            closed f
  | ZONE_STATE_CLOSED => closed f
  | ZONE_STATE_OPENED_IMPL | ZONE_STATE_OPENED_EXPL => Ok (NVME_SC_SUCCESS, f)
  | ZONE_STATE_FULL => Ok (NVME_SC_ZNS_ERR_FULL, f)
  | ZONE_STATE_READ_ONLY => Ok (NVME_SC_ZNS_ERR_READ_ONLY, f)
  | ZONE_STATE_OFFLINE => Ok (NVME_SC_ZNS_ERR_OFFLINE, f)
  end.

(** The checks of [__zns_write] that lead to [out], the opening and the move of
    the write pointer. *)
Definition zns_write_admit (f : zns_ftl) (zid slba nr_lba : Z) : outcome (Z * zns_ftl) :=
  let* m := modO (LBA_TO_BYTE nr_lba) (u64 (write_unit_size (zsp f))) in
  if negb (m =? 0) then Ok (NVME_SC_ZNS_INVALID_WRITE, f)
  else
    let* same := __check_boundary_error f slba nr_lba in
    if negb same then Ok (NVME_SC_ZNS_ERR_BOUNDARY, f)
    else
      let* z := get_zone f zid in
      if negb (slba =? zd_wp z) then Ok (NVME_SC_ZNS_INVALID_WRITE, f)
      else
        let* (status, f) := zns_open_for_write f zid slba in
        if negb (status =? NVME_SC_SUCCESS) then Ok (status, f)
        else
          let* f := __increase_write_ptr f zid (u32 nr_lba) in
          Ok (NVME_SC_SUCCESS, f).

(** An iteration of the program loop: pages [lpn, lpn + pgs) of a one-shot page. *)
Definition zns_program (sq_id stime zone_elpn elpn : Z) (wb : buf_id)
  (f : zns_ftl) (h : hw) (nsecs_latest lpn : Z) : outcome (zns_ftl * hw * Z * Z) :=
  let spp := zsp f in
  let* ppa := __lpn_to_ppa f lpn in
  let* pg_off := modO (ppa_pg ppa) (pgs_per_oneshotpg spp) in
  let pgs := Z.min (u64 (elpn - lpn + 1)) (u64 (pgs_per_oneshotpg spp - pg_off)) in
  let oneshot := imul (pgs_per_oneshotpg spp) (pgsz spp) in
  let last := u64 (lpn + pgs - 1) =? zone_elpn in
  if (u64 (pg_off + pgs) =? pgs_per_oneshotpg spp) || last then
    let* unaligned_space := modO (zone_size (zp f)) (u32 oneshot) in
    let* (nsecs_completed, f, h) := zns_advance_nand f h
      (mk_nand_cmd USER_IO NAND_WRITE (u64 oneshot) stime false ppa) in
    let bufs_to_release :=
      if last && (0 <? unaligned_space) then unaligned_space else u64 oneshot in
    let h := log_internal_op h (mk_internal_op sq_id nsecs_completed wb bufs_to_release) in
    Ok (f, h, Z.max nsecs_completed nsecs_latest, pgs)
  else Ok (f, h, nsecs_latest, pgs).

(** [for (lpn = slpn; lpn <= elpn; lpn += pgs)] *)
Fixpoint zns_write_loop (fuel : nat) (sq_id stime zone_elpn elpn : Z) (wb : buf_id)
  (f : zns_ftl) (h : hw) (nsecs_latest lpn : Z) : outcome (zns_ftl * hw * Z) :=
  if elpn <? lpn then Ok (f, h, nsecs_latest)
  else
    match fuel with
    | O => NoFuel
    | S fuel' =>
        let* (f, h, nsecs_latest, pgs) :=
          zns_program sq_id stime zone_elpn elpn wb f h nsecs_latest lpn in
        zns_write_loop fuel' sq_id stime zone_elpn elpn wb f h nsecs_latest (u64 (lpn + pgs))
    end.

(** [out:] *)
Definition zns_out (spp : ssdparams) (cmd : nvme_command) (status nsecs_latest nsecs_xfer : Z)
  : nvmev_result :=
  mk_nvmev_result status
    (if Z.testbit (rw_control cmd) NVME_RW_FUA_BIT || negb (write_early_completion spp)
     then nsecs_latest else nsecs_xfer).

(** Every page is programmed at most once, so a page is enough fuel. *)
Definition __zns_write (f : zns_ftl) (h : hw) (req : nvmev_request) (ret : nvmev_result)
  : outcome (bool * zns_ftl * hw * nvme_command * nvmev_result) :=
  let cmd := req_cmd req in
  let slba := rw_slba cmd in
  let nr_lba := __nr_lbas_from_rw_cmd cmd in
  let* zid := lba_to_zone f slba in
  let* z := get_zone f zid in
  let nsecs_start := req_nsecs_start req in
  let '(slba, cmd) :=
    (if opcode cmd =? nvme_cmd_zone_append then (zd_wp z, set_rw_slba cmd (zd_wp z))
     else (slba, cmd)) in
  let* slpn := lba_to_lpn f slba in
  let* elpn := lba_to_lpn f (u64 (slba + nr_lba - 1)) in
  let* zone_elpn := zone_to_elpn f zid in
  let* (n, f, h, wb) := zns_wb_allocate f h zid (LBA_TO_BYTE nr_lba) in
  if n <? LBA_TO_BYTE nr_lba then Ok (false, f, h, cmd, ret)
  else
    let* (status, f) := zns_write_admit f zid slba nr_lba in
    if negb (status =? NVME_SC_SUCCESS) then
      Ok (true, f, h, cmd, zns_out (zsp f) cmd status nsecs_start nsecs_start)
    else
      let* (xfer, h) := ssd_advance_write_buffer (zf_ssd f) h nsecs_start (LBA_TO_BYTE nr_lba) in
      let* (f, h, latest) :=
        zns_write_loop (Z.to_nat (elpn - slpn + 1)) (req_sq_id req) xfer zone_elpn elpn wb
          f h xfer slpn in
      Ok (true, f, h, cmd, zns_out (zsp f) cmd NVME_SC_SUCCESS latest xfer).

(** ** Random-write areas *)

(** [buffer_allocate(&zns_ftl->zwra_buffer[zid], size)] *)
Definition zrwa_allocate (f : zns_ftl) (zid size : Z) : outcome (Z * zns_ftl) :=
  let* l := of_option (zwra_buffer f) in
  let* b := nthZ l zid in
  let '(n, b) := buffer_allocate b size in
  let* l := updZ l zid b in
  Ok (n, set_zrwab f l).

Definition zrwa_open_for_write (f : zns_ftl) (zid : Z) : outcome (Z * zns_ftl) :=
  let* z := get_zone f zid in
  match zd_state z with
  | ZONE_STATE_CLOSED | ZONE_STATE_EMPTY =>
      let* (ok, f) := acquire_zone_resource f OPEN_ZONE in
      if negb ok then Ok (NVME_SC_ZNS_NO_OPEN_ZONE, f)
      else
        let* (n, f) := zrwa_allocate f zid (zrwa_size (zp f)) in
        ASSERT! negb (n =? 0);
        let* f := change_zone_state f zid ZONE_STATE_OPENED_IMPL in
        Ok (NVME_SC_SUCCESS, f)
  | ZONE_STATE_OPENED_IMPL | ZONE_STATE_OPENED_EXPL => Ok (NVME_SC_SUCCESS, f)
  | ZONE_STATE_FULL => Ok (NVME_SC_ZNS_ERR_FULL, f)
  | ZONE_STATE_READ_ONLY => Ok (NVME_SC_ZNS_ERR_READ_ONLY, f)
  | ZONE_STATE_OFFLINE => Ok (NVME_SC_ZNS_ERR_OFFLINE, f)
  end.

Definition zrwa_admit (f : zns_ftl) (zid slba nr_lba elba impl_end : Z) : outcome (Z * zns_ftl) :=
  let* m := modO (LBA_TO_BYTE nr_lba) (u64 (write_unit_size (zsp f))) in
  if negb (m =? 0) then Ok (NVME_SC_ZNS_INVALID_WRITE, f)
  else
    let* same := __check_boundary_error f slba nr_lba in
    if negb same then Ok (NVME_SC_ZNS_ERR_BOUNDARY, f)
    else
      let* z := get_zone f zid in
      if (slba <? zd_wp z) || (impl_end <? elba) then Ok (NVME_SC_ZNS_INVALID_WRITE, f)
      else zrwa_open_for_write f zid.

(** The sectors that the write pushes out of the random-write area. *)
Definition zrwa_flush (f : zns_ftl) (zid prev_wp elba impl_start : Z) : outcome Z :=
  if impl_start <=? elba then
    let fg := lbas_per_zrwafg (zp f) in
    let* q := divO (u64 (u64 (elba - impl_start + 1) + fg - 1)) fg in
    Ok (u64 (q * fg))
  else
    let* e := zone_to_elba f zid in
    if elba =? e then Ok (u64 (elba - prev_wp + 1)) else Ok 0.

(** [while (remaining > 0)] *)
Fixpoint zrwa_write_loop (fuel : nat) (sq_id stime zid : Z)
  (f : zns_ftl) (h : hw) (nsecs_latest lpn remaining : Z) : outcome (zns_ftl * hw * Z) :=
  if remaining =? 0 then Ok (f, h, nsecs_latest)
  else
    match fuel with
    | O => NoFuel
    | S fuel' =>
        let spp := zsp f in
        let* ppa := __lpn_to_ppa f lpn in
        let* pg_off := modO (ppa_pg ppa) (pgs_per_oneshotpg spp) in
        let pgs := Z.min remaining (u64 (pgs_per_oneshotpg spp - pg_off)) in
        let oneshot := u64 (imul (pgs_per_oneshotpg spp) (pgsz spp)) in
        let* (f, h, nsecs_latest) :=
          (if u64 (pg_off + pgs) =? pgs_per_oneshotpg spp then
             let* (t, f, h) := zns_advance_nand f h
               (mk_nand_cmd USER_IO NAND_WRITE oneshot stime false ppa) in
             let h := log_internal_op h (mk_internal_op sq_id t (WB_ZRWA zid) oneshot) in
             Ok (f, h, Z.max t nsecs_latest)
           else Ok (f, h, nsecs_latest)) in
        zrwa_write_loop fuel' sq_id stime zid f h nsecs_latest (u64 (lpn + pgs))
          (remaining - pgs)
    end.

Definition __zns_write_zrwa (f : zns_ftl) (h : hw) (req : nvmev_request) (ret : nvmev_result)
  : outcome (bool * zns_ftl * hw * nvme_command * nvmev_result) :=
  let cmd := req_cmd req in
  let slba := rw_slba cmd in
  let nr_lba := __nr_lbas_from_rw_cmd cmd in
  let elba := u64 (slba + nr_lba - 1) in
  let* zid := lba_to_zone f slba in
  let* z := get_zone f zid in
  let prev_wp := zd_wp z in
  let zrwa := lbas_per_zrwa (zp f) in
  let impl_start := u64 (prev_wp + zrwa) in
  let impl_end := u64 (prev_wp + u32 (2 * zrwa) - 1) in
  let nsecs_start := req_nsecs_start req in
  let* (status, f) := zrwa_admit f zid slba nr_lba elba impl_end in
  if negb (status =? NVME_SC_SUCCESS) then
    Ok (true, f, h, cmd, zns_out (zsp f) cmd status nsecs_start nsecs_start)
  else
    let* nr_lbas_flush := zrwa_flush f zid prev_wp elba impl_start in
    let* (ok, f) :=
      (if 0 <? nr_lbas_flush then
         let* (n, f) := zrwa_allocate f zid (u64 (LBA_TO_BYTE nr_lbas_flush)) in
         if n =? 0 then Ok (false, f)
         else let* f := __increase_write_ptr f zid (u32 nr_lbas_flush) in Ok (true, f)
       else Ok (true, f)) in
    if negb ok then Ok (false, f, h, cmd, ret)
    else
      let* (xfer, h) := ssd_advance_write_buffer (zf_ssd f) h nsecs_start (LBA_TO_BYTE nr_lba) in
      let* lpn := lba_to_lpn f prev_wp in
      let* remaining := divO nr_lbas_flush (secs_per_pg (zsp f)) in
      let* (f, h, latest) :=
        zrwa_write_loop (Z.to_nat remaining) (req_sq_id req) xfer zid f h xfer lpn remaining in
      Ok (true, f, h, cmd, zns_out (zsp f) cmd NVME_SC_SUCCESS latest xfer).

Definition zns_write (f : zns_ftl) (h : hw) (req : nvmev_request) (ret : nvmev_result)
  : outcome (bool * zns_ftl * hw * nvme_command * nvmev_result) :=
  let* slpn := lba_to_lpn f (rw_slba (req_cmd req)) in
  let* zid := lpn_to_zone f slpn in
  let* z := get_zone f zid in
  if zrwav z =? 0 then __zns_write f h req ret else __zns_write_zrwa f h req ret.

(** ** Reads *)
Fixpoint zns_read_loop (fuel : nat) (stime elpn : Z)
  (f : zns_ftl) (h : hw) (nsecs_latest lpn : Z) : outcome (zns_ftl * hw * Z) :=
  if elpn <? lpn then Ok (f, h, nsecs_latest)
  else
    match fuel with
    | O => NoFuel
    | S fuel' =>
        let spp := zsp f in
        let* ppa := __lpn_to_ppa f lpn in
        let* pg_off := modO (ppa_pg ppa) (pgs_per_flashpg spp) in
        let pgs := Z.min (u64 (elpn - lpn + 1)) (u64 (pgs_per_flashpg spp - pg_off)) in
        let* (t, f, h) := zns_advance_nand f h
          (mk_nand_cmd USER_IO NAND_READ (u64 (pgs * pgsz spp)) stime false ppa) in
        zns_read_loop fuel' stime elpn f h (Z.max t nsecs_latest) (u64 (lpn + pgs))
    end.

Definition zns_read (f : zns_ftl) (h : hw) (req : nvmev_request) (ret : nvmev_result)
  : outcome (bool * zns_ftl * hw * nvmev_result) :=
  let spp := zsp f in
  let cmd := req_cmd req in
  let slba := rw_slba cmd in
  let nr_lba := __nr_lbas_from_rw_cmd cmd in
  let* slpn := lba_to_lpn f slba in
  let* elpn := lba_to_lpn f (u64 (slba + nr_lba - 1)) in
  let* zid := lpn_to_zone f slpn in
  let nsecs_start := req_nsecs_start req in
  let* z := get_zone f zid in
  let* status :=
    (if decide (zd_state z = ZONE_STATE_OFFLINE) then Ok NVME_SC_ZNS_ERR_OFFLINE
     else
       let* same := __check_boundary_error f slba nr_lba in
       Ok (if same : bool then NVME_SC_SUCCESS else NVME_SC_ZNS_ERR_BOUNDARY)) in
  let stime :=
    if LBA_TO_BYTE nr_lba <=? KB 4 then u64 (nsecs_start + fw_4kb_rd_lat spp)
    else u64 (nsecs_start + fw_rd_lat spp) in
  let* (f, h, latest) :=
    zns_read_loop (Z.to_nat (elpn - slpn + 1)) stime elpn f h stime slpn in
  let* (t, h) := ssd_advance_pcie h latest (u64 (nr_lba * secsz spp)) in
  Ok (true, f, h, mk_nvmev_result status (Z.max t latest)).

End Timed.
