(* ===== verification/ZnsMgmt.v ===== *)
(** * ZnsMgmt: zone management and dispatch (src/zns_mgmt_send.c, src/zns_mgmt_recv.c,
    src/zns_ftl.c) *)
From stdpp Require Import base list numbers.
From Stdlib Require Import ZArith Lia.
From S2P Require Import Prelude ChannelModel SsdConfig Ssd Nvme Prp HostMem ZnsData ZnsIo.

Open Scope Z_scope.
Open Scope nvmev_scope.

(** ** Zone management send *)
Definition __zmgmt_send_close_zone (f : zns_ftl) (zid : Z) : outcome (Z * zns_ftl) :=
  let* z := get_zone f zid in
  match zd_state z with
  | ZONE_STATE_OPENED_IMPL | ZONE_STATE_OPENED_EXPL =>
      let* f := change_zone_state f zid ZONE_STATE_CLOSED in
      let* f := release_zone_resource f OPEN_ZONE in
      Ok (NVME_SC_SUCCESS, f)
  | ZONE_STATE_CLOSED => Ok (NVME_SC_SUCCESS, f)
  | _ => Ok (NVME_SC_ZNS_INVALID_TRANSITION, f)
  end.

(** What finish and reset share: an opened or closed zone gives back its
    resources. *)
Definition release_zone (f : zns_ftl) (z : zone_descriptor) : outcome zns_ftl :=
  let closed (f : zns_ftl) :=
    let* f := release_zone_resource f ACTIVE_ZONE in
    if negb (zrwav z =? 0) then release_zone_resource f ZRWA_ZONE else Ok f in
  match zd_state z with
  | ZONE_STATE_OPENED_IMPL | ZONE_STATE_OPENED_EXPL =>
      let* f := release_zone_resource f OPEN_ZONE in closed f
  | ZONE_STATE_CLOSED => closed f
  | _ => Ok f
  end.

Definition __zmgmt_send_finish_zone (f : zns_ftl) (zid : Z) : outcome (Z * zns_ftl) :=
  let* z := get_zone f zid in
  match zd_state z with
  | ZONE_STATE_OPENED_IMPL | ZONE_STATE_OPENED_EXPL | ZONE_STATE_CLOSED =>
      let* f := release_zone f z in
      let* f := change_zone_state f zid ZONE_STATE_FULL in
      Ok (NVME_SC_SUCCESS, f)
  | ZONE_STATE_EMPTY =>
      let* f := change_zone_state f zid ZONE_STATE_FULL in Ok (NVME_SC_SUCCESS, f)
  | ZONE_STATE_FULL => Ok (NVME_SC_SUCCESS, f)
  | _ => Ok (NVME_SC_ZNS_INVALID_TRANSITION, f)
  end.

Definition __zmgmt_send_open_zone (f : zns_ftl) (zid zrwa : Z) : outcome (Z * zns_ftl) :=
  let* z := get_zone f zid in
  let opened (f : zns_ftl) :=
    let* f := change_zone_state f zid ZONE_STATE_OPENED_EXPL in Ok (NVME_SC_SUCCESS, f) in
  let closed (f : zns_ftl) :=
    let* (ok, f) := acquire_zone_resource f OPEN_ZONE in
    if (ok : bool) then opened f else Ok (NVME_SC_ZNS_NO_OPEN_ZONE, f) in
  match zd_state z with
  | ZONE_STATE_EMPTY =>
      let* a := is_zone_resource_full f ACTIVE_ZONE in
      if (a : bool) then Ok (NVME_SC_ZNS_NO_ACTIVE_ZONE, f)
      else
        let* o := is_zone_resource_full f OPEN_ZONE in
        if (o : bool) then Ok (NVME_SC_ZNS_NO_OPEN_ZONE, f)
        else
          let* r := is_zone_resource_full f ZRWA_ZONE in
          if negb (zrwa =? 0) && (r : bool) then Ok (NVME_SC_ZNS_ZRWA_RSRC_UNAVAIL, f)
          else
            let* f :=
              (if negb (zrwa =? 0) then
                 let* (_, f) := acquire_zone_resource f ZRWA_ZONE in
                 with_zone f zid (fun z => set_zrwav z 1)
               else Ok f) in
            let* (_, f) := acquire_zone_resource f ACTIVE_ZONE in
            closed f
  | ZONE_STATE_CLOSED => closed f
  | ZONE_STATE_OPENED_IMPL => opened f
  | ZONE_STATE_OPENED_EXPL => Ok (NVME_SC_SUCCESS, f)
  | _ => Ok (NVME_SC_ZNS_INVALID_TRANSITION, f)
  end.

Definition __reset_zone (f : zns_ftl) (zid : Z) : outcome zns_ftl :=
  let f := set_storage f
    (memset0 (zf_storage f) (get_storage_addr_from_zid f zid) (zone_size (zp f))) in
  let* f := with_zone f zid (fun z => set_zrwav (set_zd_wp z (zslba z)) 0) in
  if negb (zrwa_buffer_size (zp f) =? 0) then
    let* l := of_option (zwra_buffer f) in
    let* l := alterZ (fun b => Ok (buffer_refill b)) l zid in
    Ok (set_zrwab f l)
  else Ok f.

Definition __zmgmt_send_reset_zone (f : zns_ftl) (zid : Z) : outcome (Z * zns_ftl) :=
  let* z := get_zone f zid in
  match zd_state z with
  | ZONE_STATE_OPENED_IMPL | ZONE_STATE_OPENED_EXPL | ZONE_STATE_CLOSED
  | ZONE_STATE_FULL | ZONE_STATE_EMPTY =>
      let* f := release_zone f z in
      let* f := change_zone_state f zid ZONE_STATE_EMPTY in
      let* f := __reset_zone f zid in
      Ok (NVME_SC_SUCCESS, f)
  | _ => Ok (NVME_SC_ZNS_INVALID_TRANSITION, f)
  end.

Definition __zmgmt_send_offline_zone (f : zns_ftl) (zid : Z) : outcome (Z * zns_ftl) :=
  let* z := get_zone f zid in
  match zd_state z with
  | ZONE_STATE_READ_ONLY =>
      let* f := change_zone_state f zid ZONE_STATE_OFFLINE in Ok (NVME_SC_SUCCESS, f)
  | ZONE_STATE_OFFLINE => Ok (NVME_SC_SUCCESS, f)
  | _ => Ok (NVME_SC_ZNS_INVALID_TRANSITION, f)
  end.

Definition __zmgmt_send_flush_explicit_zrwa (f : zns_ftl) (slba : Z) : outcome (Z * zns_ftl) :=
  let* zid := lba_to_zone f slba in
  let* z := get_zone f zid in
  let wp := zd_wp z in
  let* s := zone_to_slba f zid in
  let zrwa_end := Z.min (u64 (wp + lbas_per_zrwa (zp f) - 1)) (u64 (s + zone_capacity z - 1)) in
  let nr_lbas_flush := u64 (slba - wp + 1) in
  if zrwav z =? 0 then Ok (NVME_SC_ZNS_INVALID_ZONE_OPERATION, f)
  else if negb ((wp <=? slba) && (slba <=? zrwa_end)) then
    Ok (NVME_SC_ZNS_INVALID_ZONE_OPERATION, f)
  else
    let* r := modO nr_lbas_flush (lbas_per_zrwafg (zp f)) in
    if negb (r =? 0) then Ok (NVME_SC_INVALID_FIELD, f)
    else
      match zd_state z with
      | ZONE_STATE_OPENED_EXPL | ZONE_STATE_OPENED_IMPL | ZONE_STATE_CLOSED =>
          let wp := u64 (slba + 1) in
          let* f := with_zone f zid (fun z => set_zd_wp z wp) in
          if wp =? u64 (s + zone_capacity z) then
            let* f :=
              (if decide (zd_state z = ZONE_STATE_CLOSED) then Ok f
               else release_zone_resource f OPEN_ZONE) in
            let* f := release_zone_resource f ACTIVE_ZONE in
            let* f := release_zone_resource f ZRWA_ZONE in
            let* f := change_zone_state f zid ZONE_STATE_FULL in
            Ok (NVME_SC_SUCCESS, f)
          else Ok (NVME_SC_SUCCESS, f)
      | _ => Ok (NVME_SC_ZNS_INVALID_ZONE_OPERATION, f)
      end.

(** The status is not initialised for an action without a case ([None]). *)
Definition __zmgmt_send (f : zns_ftl) (slba action opt : Z) : outcome (option Z * zns_ftl) :=
  let* zid := lba_to_zone f slba in
  let some (m : outcome (Z * zns_ftl)) := let* (s, f) := m in Ok (Some s, f) in
  if action =? ZSA_CLOSE_ZONE then some (__zmgmt_send_close_zone f zid)
  else if action =? ZSA_FINISH_ZONE then some (__zmgmt_send_finish_zone f zid)
  else if action =? ZSA_OPEN_ZONE then some (__zmgmt_send_open_zone f zid opt)
  else if action =? ZSA_RESET_ZONE then some (__zmgmt_send_reset_zone f zid)
  else if action =? ZSA_OFFLINE_ZONE then some (__zmgmt_send_offline_zone f zid)
  else if action =? ZSA_FLUSH_EXPL_ZRWA then some (__zmgmt_send_flush_explicit_zrwa f slba)
  else Ok (None, f).

Definition zns_zmgmt_send (f : zns_ftl) (req : nvmev_request) : outcome (zns_ftl * nvmev_result) :=
  let cmd := req_cmd req in
  let action := zms_zsa cmd in
  let opt := zms_zsaso cmd in
  let slba := zms_slba cmd in
  let* _ := lba_to_zone f slba in
  let* (status, f) :=
    (if negb (zms_select_all cmd =? 0) then
       let* f := forO 0 (nr_zones (zp f)) f (fun f zid =>
         let* s := zone_to_slba f zid in
         let* (_, f) := __zmgmt_send f s action opt in
         Ok f) in
       Ok (Some NVME_SC_SUCCESS, f)
     else __zmgmt_send f slba action opt) in
  let* status := of_option status in
  Ok (f, mk_nvmev_result status (req_nsecs_start req)).

(** ** Zone management receive *)
Definition put_bytes (l : list Z) (off : Z) (bs : list Z) : outcome (list Z) :=
  GUARD! (0 <=? off) && (off + Z.of_nat (length bs) <=? Z.of_nat (length l));
  Ok (take (Z.to_nat off) l ++ bs ++ drop (Z.to_nat off + length bs) l).

Definition zmr_bytes (cmd : nvme_command) : Z := u32 (zmr_nr_dw cmd + 1) * 4.

(** The number of descriptors to report. *)
Definition zones_to_report (f : zns_ftl) (cmd : nvme_command) (start_zid : Z) : Z :=
  if zmr_zra_specific_features cmd =? 0 then u64 (nr_zones (zp f) - start_zid)
  else u64 (zmr_bytes cmd / sizeof_zone_descriptor - 1).

(** Both [memcpy]s are bounded by the arrays. *)
Definition __fill_zone_report (f : zns_ftl) (cmd : nvme_command) : outcome zns_ftl :=
  let* start_zid := lba_to_zone f (zmr_slba cmd) in
  let n := zones_to_report f cmd start_zid in
  let* r := put_bytes (report_buffer f) 0 (le_bytes 8 n) in
  GUARD! start_zid + n <=? Z.of_nat (length (zone_descs f));
  let zds := take (Z.to_nat n) (drop (Z.to_nat start_zid) (zone_descs f)) in
  let* r := put_bytes r 64 (concat (map zd_bytes zds)) in
  Ok (set_report f r).

Definition __check_zmgmt_rcv_option_supported (f : zns_ftl) (cmd : nvme_command) : outcome bool :=
  let* zid := lba_to_zone f (zmr_slba cmd) in
  Ok ((zid <? nr_zones (zp f)) && (zmr_zra cmd =? 0) && (zmr_zra_specific_field cmd =? 0)).

(** [io == 0]: from the buffer to the host. *)
Definition __prp_transfer_data (host : mem) (prp1 prp2 : Z) (buffer : list Z) (length_ : Z)
  : outcome mem :=
  let* (host, _) := prp_transfer host (fun a => nth (Z.to_nat a) buffer 0) prp1 prp2 0 length_
                      (Z.of_nat (length buffer)) PRP_TO_HOST in
  Ok host.

Definition zns_zmgmt_recv (f : zns_ftl) (host : mem) (req : nvmev_request)
  : outcome (zns_ftl * mem * nvmev_result) :=
  let cmd := req_cmd req in
  let* ok := __check_zmgmt_rcv_option_supported f cmd in
  if (ok : bool) then
    let* f := __fill_zone_report f cmd in
    let* host := __prp_transfer_data host (prp1 cmd) (prp2 cmd) (report_buffer f) (zmr_bytes cmd) in
    Ok (f, host, mk_nvmev_result NVME_SC_SUCCESS (req_nsecs_start req))
  else Ok (f, host, mk_nvmev_result NVME_SC_INVALID_FIELD (req_nsecs_start req)).

(** ** Flush and dispatch *)
Section Timed.
Context `{Clock}.

Definition zns_flush (ns : zns_ns) (h : hw) : outcome (hw * nvmev_result) :=
  let start := cpu_clock (hw_clk h) in
  let h := set_clk h (S (hw_clk h)) in
  let* (h, latest) :=
    forO 0 (zn_nr_parts ns) (h, start) (fun '(h, latest) i =>
      let* f := nthZ [zn_ftl ns] i in
      let* (t, h) := ssd_next_idle_time (zf_ssd f) h in
      Ok (h, Z.max latest t)) in
  Ok (h, mk_nvmev_result NVME_SC_SUCCESS latest).

(** What a command leaves: acceptance, namespace, hardware, host memory, the
    command and the result. *)
Record zns_done := mk_zns_done {
  zd_ok : bool;
  zd_ns : zns_ns;
  zd_hw : hw;
  zd_host : mem;
  zd_cmd : nvme_command;
  zd_ret : nvmev_result;
}.

Definition zns_proc_nvme_io_cmd (ns : zns_ns) (h : hw) (host : mem) (req : nvmev_request)
  (ret : nvmev_result) : outcome zns_done :=
  let cmd := req_cmd req in
  let f := zn_ftl ns in
  ASSERT! zn_csi ns =? NVME_CSI_ZNS;
  ASSERT! zn_nr_parts ns =? 1;
  let op := opcode cmd in
  if (op =? nvme_cmd_write) || (op =? nvme_cmd_zone_append) then
    let* (ok, f, h, cmd, ret) := zns_write f h req ret in
    Ok (mk_zns_done ok (set_zn_ftl ns f) h host cmd ret)
  else if op =? nvme_cmd_read then
    let* (ok, f, h, ret) := zns_read f h req ret in
    Ok (mk_zns_done ok (set_zn_ftl ns f) h host cmd ret)
  else if op =? nvme_cmd_flush then
    let* (h, ret) := zns_flush ns h in
    Ok (mk_zns_done true ns h host cmd ret)
  else if op =? nvme_cmd_zone_mgmt_send then
    let* (f, ret) := zns_zmgmt_send f req in
    Ok (mk_zns_done true (set_zn_ftl ns f) h host cmd ret)
  else if op =? nvme_cmd_zone_mgmt_recv then
    let* (f, host, ret) := zns_zmgmt_recv f host req in
    Ok (mk_zns_done true (set_zn_ftl ns f) h host cmd ret)
  else Ok (mk_zns_done true ns h host cmd ret).

End Timed.
