(* ===== verification/ZnsInv.v ===== *)
(** * ZnsInv: the invariant of the zoned FTL and its address arithmetic

    [zgeom] is what the configuration must satisfy, [zns_inv] what every command
    preserves: each zone's write pointer lies in the zone as its state demands,
    and the resource counters count the zones that hold the resource. *)
From stdpp Require Import base list numbers.
From Stdlib Require Import ZArith Lia.
From S2P Require Import Prelude ChannelModel SsdConfig Ssd SsdFacts Nvme Prp ZnsData ZnsIo ZnsMgmt.

Open Scope Z_scope.
Open Scope nvmev_scope.

(** ** Static assumptions *)
Record zgeom (spp : ssdparams) (z : znsparams) : Prop := {
  zg_chs : 0 < nchs spp < 256;
  zg_luns : 0 < luns_per_ch spp < 256;
  zg_tt : tt_luns spp = luns_per_ch spp * nchs spp;
  zg_os : 0 < pgs_per_oneshotpg spp < 65536;
  zg_fp : 0 < pgs_per_flashpg spp < 65536;
  zg_secsz : secsz spp = 512;
  zg_secs : secs_per_pg spp = 8;
  zg_pgsz : pgsz spp = 4096;
  zg_wordline : pgs_per_oneshotpg spp * pgsz spp < 2147483648;
  zg_unit : 0 < write_unit_size spp < 2147483648;
  zg_size : 0 < zone_size z < 4294967296;
  zg_align : zone_size z mod 4096 = 0;
  zg_dies : 0 < dies_per_zone z < 4294967296;
  zg_div : (dies_per_zone z | tt_luns spp);
  zg_nr : 0 < nr_zones z;
  zg_cap : nr_zones z * (zone_size z / 512) < 4294967296;
  zg_lat : latency_ok spp;
  zg_cell : 0 <= cell_mode spp < 2147483647;
  zg_cells : pgs_per_oneshotpg spp <= 3 * pgs_per_flashpg spp;
}.

(** Random-write areas are configured. *)
Definition zrwa_cfg (z : znsparams) : Prop :=
  0 < lbas_per_zrwafg z <= lbas_per_zrwa z /\ lbas_per_zrwa z < 2147483648 /\
  0 < zrwa_size z /\ zrwa_buffer_size z <> 0.

(** ** Counting zones *)
Definition is_open (d : zone_descriptor) : bool :=
  match zd_state d with ZONE_STATE_OPENED_IMPL | ZONE_STATE_OPENED_EXPL => true | _ => false end.
Definition is_active (d : zone_descriptor) : bool :=
  is_open d || bool_decide (zd_state d = ZONE_STATE_CLOSED).
Definition is_zrwa (d : zone_descriptor) : bool := is_active d && negb (zrwav d =? 0).

Definition b2z (b : bool) : Z := if b then 1 else 0.
Definition count (P : zone_descriptor -> bool) (l : list zone_descriptor) : Z :=
  sumZ (map (fun d => b2z (P d)) l).

Lemma count_insert P l (i : nat) d d' :
  l !! i = Some d -> count P (<[i := d']> l) = count P l - b2z (P d) + b2z (P d').
Proof.
  intros H. unfold count. rewrite list_fmap_insert. apply sumZ_insert.
  by rewrite list_lookup_fmap, H.
Qed.

Lemma b2z_range b : 0 <= b2z b <= 1.
Proof. destruct b; simpl; lia. Qed.

Lemma count_range P l : 0 <= count P l <= Z.of_nat (length l).
Proof.
  unfold count. induction l as [|d l IH]; simpl; [lia|]. pose proof (b2z_range (P d)). lia.
Qed.

Lemma count_pos P l (i : nat) d : l !! i = Some d -> P d = true -> 0 < count P l.
Proof.
  revert i. unfold count. induction l as [|x l IH]; intros [|i] H HP; simpl in *; try done.
  - injection H as ->. rewrite HP. pose proof (count_range P l) as Hr. unfold count in Hr. simpl. lia.
  - pose proof (b2z_range (P x)). specialize (IH i H HP). lia.
Qed.

Lemma count_lt P l (i : nat) d :
  l !! i = Some d -> P d = false -> count P l < Z.of_nat (length l).
Proof.
  revert i. unfold count. induction l as [|x l IH]; intros [|i] H HP; simpl in *; try done.
  - injection H as ->. rewrite HP. pose proof (count_range P l) as Hr. unfold count in Hr. simpl. lia.
  - pose proof (b2z_range (P x)). specialize (IH i H HP). lia.
Qed.

Section Inv.
Variables (spp : ssdparams) (z : znsparams).

(** Sectors of a zone. *)
Definition zlbas : Z := zone_size z / 512.

Record zone_ok (i : Z) (d : zone_descriptor) : Prop := {
  zk_slba : zslba d = i * zlbas;
  zk_cap : zone_capacity d = zlbas;
  zk_wp : i * zlbas <= zd_wp d <= i * zlbas + zlbas;
  zk_active : is_active d = true -> zd_wp d < i * zlbas + zlbas;
  zk_empty : zd_state d = ZONE_STATE_EMPTY -> zd_wp d = i * zlbas /\ zrwav d = 0;
}.

(** The counters of the resources against the zones. *)
Record res_ok (l : list zone_descriptor) (a o r : zone_resource_info) : Prop := {
  rs_a : acquired_cnt a = count is_active l;
  rs_o : acquired_cnt o = count is_open l;
  rs_r : count is_zrwa l <= acquired_cnt r;
  rs_la : acquired_cnt a <= total_cnt a < 4294967296;
  rs_lo : acquired_cnt o <= total_cnt o < 4294967296;
  rs_lr : acquired_cnt r <= total_cnt r < 4294967296;
}.

Record zns_inv (f : zns_ftl) : Prop := {
  zi_sp : zsp f = spp;
  zi_zp : zp f = z;
  zi_len : Z.of_nat (length (zone_descs f)) = nr_zones z;
  zi_zone : forall i d, get_zone f i = Ok d -> zone_ok i d;
  zi_res : exists a o r, res_infos f = [a; o; r] /\ res_ok (zone_descs f) a o r;
  zi_wb : zone_wb_size z <> 0 ->
    exists l, zone_write_buffer f = Some l /\ Z.of_nat (length l) = nr_zones z;
  zi_zb : zrwa_buffer_size z <> 0 ->
    exists l, zwra_buffer f = Some l /\ Z.of_nat (length l) = nr_zones z;
  zi_zrwa : zrwa_cfg z \/ forall i d, get_zone f i = Ok d -> zrwav d = 0;
  zi_rep : Z.of_nat (length (report_buffer f)) = sizeof_zone_report + 64 * nr_zones z;
  zi_ssd : ssd_ok (zf_ssd f);
}.

(** ** Addresses *)
Context (G : zgeom spp z).

Lemma zlbas_pos : 0 < zlbas /\ zone_size z = 512 * zlbas /\ (8 | zlbas).
Proof.
  destruct G. unfold zlbas. apply Z.mod_divide in zg_align0 as [k Hk]; [|lia].
  rewrite Hk. replace (k * 4096) with (k * 8 * 512) by lia. rewrite Z.div_mul by lia.
  split; [lia|]. split; [lia|]. by exists k.
Qed.

Lemma zlbas_pages : zone_size z / 4096 = zlbas / 8 /\ 0 < zlbas / 8.
Proof.
  destruct zlbas_pos as (H0 & H1 & k & Hk). rewrite H1, Hk.
  replace (512 * (k * 8)) with (k * 4096) by lia. rewrite !Z.div_mul by lia. lia.
Qed.

Lemma cap_range : zlbas < 4294967296.
Proof. destruct zlbas_pos as [H _]. destruct G. unfold zlbas in *. nia. Qed.

Section Addr.
Variable f : zns_ftl.
Hypotheses (Hsp : zsp f = spp) (Hzp : zp f = z).

Lemma lba_to_zone_spec lba : 0 <= lba < nr_zones z * zlbas -> lba_to_zone f lba = Ok (lba / zlbas).
Proof.
  intros H. destruct zlbas_pos as (H0 & _). unfold lba_to_zone. rewrite Hsp, Hzp, (zg_secsz _ _ G).
  rewrite divO_Ok by lia. cbn [obind]. change (zone_size z / 512) with zlbas. rewrite divO_Ok by lia.
  cbn [obind]. f_equal. apply u32_id. split; [apply Z.div_pos; lia|].
  pose proof (zg_cap _ _ G) as Hc. fold zlbas in Hc.
  apply Z.div_lt_upper_bound; [lia|]. nia.
Qed.

(** Total on every 64-bit sector. *)
Lemma lba_to_zone_total lba : lba_to_zone f lba = Ok (u32 (lba / zlbas)).
Proof.
  destruct zlbas_pos as (H0 & _). unfold lba_to_zone. rewrite Hsp, Hzp, (zg_secsz _ _ G).
  rewrite divO_Ok by lia. cbn [obind]. change (zone_size z / 512) with zlbas. by rewrite divO_Ok by lia.
Qed.

Lemma zone_to_slba_spec i : 0 <= i <= nr_zones z -> zone_to_slba f i = Ok (i * zlbas).
Proof.
  intros H. destruct zlbas_pos as (H0 & _). pose proof (zg_cap _ _ G) as Hc. fold zlbas in Hc.
  unfold zone_to_slba. rewrite Hsp, Hzp, (zg_secsz _ _ G), divO_Ok by lia. cbn [obind].
  fold zlbas. rewrite (u32_id i) by nia. rewrite u32_id by nia. done.
Qed.

Lemma zone_to_elba_spec i : 0 <= i < nr_zones z -> zone_to_elba f i = Ok (i * zlbas + zlbas - 1).
Proof.
  intros H. destruct zlbas_pos as (H0 & _). pose proof (zg_cap _ _ G) as Hc. fold zlbas in Hc.
  unfold zone_to_elba. rewrite u32_id by nia. rewrite zone_to_slba_spec by lia. cbn [obind].
  rewrite u64_id by nia. f_equal. lia.
Qed.

Lemma zone_to_elpn_spec i :
  0 <= i < nr_zones z -> zone_to_elpn f i = Ok (i * (zlbas / 8) + zlbas / 8 - 1).
Proof.
  intros H. destruct zlbas_pos as (H0 & _ & k & Hk). unfold zone_to_elpn.
  rewrite zone_to_elba_spec by done. cbn [obind]. rewrite Hsp, (zg_secs _ _ G), divO_Ok by lia.
  f_equal. rewrite Hk, Z.div_mul by lia.
  symmetry. apply (Z.div_unique_pos _ 8 _ 7); lia.
Qed.

Lemma lba_to_lpn_spec lba : lba_to_lpn f lba = Ok (lba / 8).
Proof. unfold lba_to_lpn. rewrite Hsp, (zg_secs _ _ G). by apply divO_Ok. Qed.

Lemma lpn_to_zone_spec lpn : lpn_to_zone f lpn = Ok (u32 (lpn / (zlbas / 8))).
Proof.
  destruct zlbas_pages as [E Hp]. unfold lpn_to_zone. rewrite Hsp, Hzp, (zg_pgsz _ _ G).
  rewrite divO_Ok by lia. cbn [obind]. rewrite E. by rewrite divO_Ok by lia.
Qed.

Lemma zone_to_slpn_total i : zone_to_slpn f i = Ok (u32 (u32 i * (zlbas / 8))).
Proof.
  destruct zlbas_pages as [E Hp]. unfold zone_to_slpn. rewrite Hsp, Hzp, (zg_pgsz _ _ G).
  rewrite divO_Ok by lia. cbn [obind]. by rewrite E.
Qed.

(** Sectors and pages agree about the zone. *)
Lemma lpn_zone_of_lba lba : 0 <= lba -> lba / 8 / (zlbas / 8) = lba / zlbas.
Proof.
  intros H. destruct zlbas_pos as (H0 & _ & k & Hk). rewrite Hk, Z.div_mul by lia.
  rewrite Z.div_div by lia. f_equal. lia.
Qed.

Definition stripe_die (zone off : Z) : Z :=
  (zone * dies_per_zone z) mod tt_luns spp + (off / pgs_per_oneshotpg spp) mod dies_per_zone z.

Lemma stripe_die_range zone off : 0 <= zone -> 0 <= stripe_die zone off < tt_luns spp.
Proof.
  intros Hz. destruct G. destruct zg_div0 as [k Hk]. unfold stripe_die. rewrite Hk.
  assert (0 < k) by nia.
  rewrite Z.mul_mod_distr_r by lia.
  pose proof (Z.mod_pos_bound zone k ltac:(lia)).
  pose proof (Z.mod_pos_bound (off / pgs_per_oneshotpg spp) (dies_per_zone z) ltac:(lia)). nia.
Qed.

(** The page of [lpn]: the [off]-th page of a zone. *)
Definition page_at (ppa zone off : Z) : Prop :=
  ppa_ch ppa = stripe_die zone off mod nchs spp /\
  ppa_lun ppa = stripe_die zone off / nchs spp /\
  ppa_pg ppa = off mod pgs_per_oneshotpg spp.

Lemma __lpn_to_ppa_total lpn :
  0 <= lpn ->
  exists ppa, __lpn_to_ppa f lpn = Ok ppa /\
    page_at ppa (u32 (lpn / (zlbas / 8)))
      (u64 (lpn - u32 (u32 (u32 (lpn / (zlbas / 8))) * (zlbas / 8)))).
Proof.
  intros Hl. unfold __lpn_to_ppa. rewrite lpn_to_zone_spec. cbn [obind].
  rewrite zone_to_slpn_total. cbn [obind]. rewrite Hsp, Hzp.
  set (zone := u32 (lpn / (zlbas / 8))). set (off := u64 (lpn - _)).
  pose proof (u32_range (lpn / (zlbas / 8))) as Hz. fold zone in Hz.
  pose proof (u64_range (lpn - u32 (u32 zone * (zlbas / 8)))) as Ho. fold off in Ho.
  pose proof (stripe_die_range zone off ltac:(lia)) as Hd. destruct G.
  rewrite (u64_id (zone * _)) by nia. assert (0 < tt_luns spp) by (rewrite zg_tt0; nia).
  rewrite modO_Ok by lia. cbn [obind]. rewrite divO_Ok by lia. cbn [obind].
  rewrite modO_Ok by lia. cbn [obind].
  pose proof (Z.mod_pos_bound (zone * dies_per_zone z) (tt_luns spp) ltac:(lia)) as Hm.
  rewrite (u32_id (_ mod tt_luns spp)) by nia.
  change ((zone * dies_per_zone z) mod tt_luns spp + (off / pgs_per_oneshotpg spp) mod dies_per_zone z)
    with (stripe_die zone off).
  rewrite u32_id by nia. unfold die_to_channel, die_to_lun. rewrite Hsp.
  rewrite modO_Ok, divO_Ok, modO_Ok by lia. cbn [obind]. eexists. split; [done|].
  unfold page_at. autorewrite with ppa.
  pose proof (Z.mod_pos_bound (stripe_die zone off) (nchs spp) ltac:(lia)).
  pose proof (Z.mod_pos_bound off (pgs_per_oneshotpg spp) ltac:(lia)).
  assert (0 <= stripe_die zone off / nchs spp < luns_per_ch spp).
  { split; [apply Z.div_pos; lia|]. apply Z.div_lt_upper_bound; [lia|]. lia. }
  rewrite !u8_id, u16_id by lia. done.
Qed.

Lemma page_at_range ppa zone off :
  0 <= zone -> page_at ppa zone off ->
  0 <= ppa_ch ppa < nchs spp /\ 0 <= ppa_lun ppa < luns_per_ch spp.
Proof.
  intros Hz (-> & -> & _). pose proof (stripe_die_range zone off Hz). destruct G.
  split; [apply Z.mod_pos_bound; lia|].
  split; [apply Z.div_pos; lia|]. apply Z.div_lt_upper_bound; lia.
Qed.

Lemma page_at_cell ppa zone off : page_at ppa zone off -> cell_ok (zf_ssd f) ppa.
Proof.
  intros (_ & _ & Hp). unfold cell_ok, get_cell. change (sp (zf_ssd f)) with (zsp f). rewrite Hsp, Hp.
  destruct G. pose proof (Z.mod_pos_bound off (pgs_per_oneshotpg spp) ltac:(lia)) as Hm.
  rewrite divO_Ok by lia. cbn [obind]. rewrite modO_Ok by lia. cbn [obind]. eexists. split; [reflexivity|].
  set (q := off mod pgs_per_oneshotpg spp / pgs_per_flashpg spp).
  assert (Hq : 0 <= q < 3) by (split; [apply Z.div_pos|apply Z.div_lt_upper_bound]; lia).
  pose proof (Z.mod_pos_bound q (cell_mode spp + 1) ltac:(lia)).
  pose proof (Z.mod_le q (cell_mode spp + 1) ltac:(lia) ltac:(lia)). rewrite u32_id; lia.
Qed.

End Addr.
End Inv.
