(* ===== verification/ZnsState.v ===== *)
(** * ZnsState: the state machine of a zone

    [zone_next] is the abstract transition table of the management actions; the
    lemmas show that the handlers of zns_mgmt_send.c implement it and preserve
    [zns_inv]. *)
From stdpp Require Import base list numbers sets.
From Stdlib Require Import ZArith Lia.
From S2P Require Import Prelude ChannelModel SsdConfig Ssd SsdFacts Nvme Prp ZnsData ZnsIo ZnsMgmt.
From S2P Require Import ZnsInv.

Open Scope Z_scope.
Open Scope nvmev_scope.

(** ** The abstract machine *)
Inductive zaction := ACT_CLOSE | ACT_FINISH | ACT_OPEN | ACT_RESET | ACT_OFFLINE.

#[export] Instance zaction_eq_dec : EqDecision zaction.
Proof. solve_decision. Defined.

Definition zsa_code (a : zaction) : Z :=
  match a with
  | ACT_CLOSE => ZSA_CLOSE_ZONE
  | ACT_FINISH => ZSA_FINISH_ZONE
  | ACT_OPEN => ZSA_OPEN_ZONE
  | ACT_RESET => ZSA_RESET_ZONE
  | ACT_OFFLINE => ZSA_OFFLINE_ZONE
  end.

Definition zone_next (a : zaction) (s : zone_state) : option zone_state :=
  match a, s with
  | ACT_CLOSE, (ZONE_STATE_OPENED_IMPL | ZONE_STATE_OPENED_EXPL | ZONE_STATE_CLOSED) =>
      Some ZONE_STATE_CLOSED
  | ACT_FINISH, (ZONE_STATE_READ_ONLY | ZONE_STATE_OFFLINE) => None
  | ACT_FINISH, _ => Some ZONE_STATE_FULL
  | ACT_OPEN, (ZONE_STATE_FULL | ZONE_STATE_READ_ONLY | ZONE_STATE_OFFLINE) => None
  | ACT_OPEN, _ => Some ZONE_STATE_OPENED_EXPL
  | ACT_RESET, (ZONE_STATE_READ_ONLY | ZONE_STATE_OFFLINE) => None
  | ACT_RESET, _ => Some ZONE_STATE_EMPTY
  | ACT_OFFLINE, (ZONE_STATE_READ_ONLY | ZONE_STATE_OFFLINE) => Some ZONE_STATE_OFFLINE
  | _, _ => None
  end.

(** ** Updates of one zone *)

(** What management leaves alone. *)
Record zns_frame (f f' : zns_ftl) : Prop := {
  zf_ssd_eq : zf_ssd f' = zf_ssd f;
  zf_zp_eq : zp f' = zp f;
  zf_rep_eq : length (report_buffer f') = length (report_buffer f);
  zf_wb_eq : zone_write_buffer f' = zone_write_buffer f;
  zf_zb_eq : length <$> zwra_buffer f' = length <$> zwra_buffer f;
}.

#[export] Instance zns_frame_pre : PreOrder zns_frame.
Proof. split; [by intros f|]. intros f1 f2 f3 [] []. split; congruence. Qed.

Record zupd (f f' : zns_ftl) (i : Z) (d' : zone_descriptor) (rs : list zone_resource_info) : Prop := {
  zu_descs : zone_descs f' = <[Z.to_nat i := d']> (zone_descs f);
  zu_res : res_infos f' = rs;
  zu_frame : zns_frame f f';
}.

Lemma get_zone_lookup f i d :
  get_zone f i = Ok d -> 0 <= i < Z.of_nat (length (zone_descs f)) /\ zone_descs f !! Z.to_nat i = Some d.
Proof. intros H. pose proof (nthZ_range _ _ _ H). by apply nthZ_Ok in H as [_ H]. Qed.

Lemma zupd_get f f' i d d' rs j :
  get_zone f i = Ok d -> zupd f f' i d' rs ->
  get_zone f' j = if j =? i then Ok d' else get_zone f j.
Proof.
  intros [Hi _]%get_zone_lookup [E _ _]. unfold get_zone. rewrite E. by apply nthZ_insert.
Qed.

Lemma with_zone_eq f i d g :
  get_zone f i = Ok d ->
  with_zone f i g = Ok (set_descs f (<[Z.to_nat i := g d]> (zone_descs f))).
Proof. intros H. unfold with_zone. by rewrite (alterZ_Ok _ _ _ d (g d)). Qed.

Lemma get_zone_set f i d d' :
  get_zone f i = Ok d -> get_zone (set_descs f (<[Z.to_nat i := d']> (zone_descs f))) i = Ok d'.
Proof. intros [Hi _]%get_zone_lookup. unfold get_zone. simpl. rewrite nthZ_insert by done. by rewrite Z.eqb_refl. Qed.

Lemma with_zone_set f i d d' g :
  get_zone f i = Ok d ->
  with_zone (set_descs f (<[Z.to_nat i := d']> (zone_descs f))) i g =
  Ok (set_descs f (<[Z.to_nat i := g d']> (zone_descs f))).
Proof.
  intros H. rewrite (with_zone_eq _ _ d') by (by apply (get_zone_set f i d)).
  simpl. by rewrite list_insert_insert_eq.
Qed.

Section Res.
Variables (f : zns_ftl) (a o r : zone_resource_info).
Hypothesis Hr : res_infos f = [a; o; r].

Lemma release_active :
  release_zone_resource f ACTIVE_ZONE =
  Ok (set_res f [mk_res (u32 (acquired_cnt a - 1)) (total_cnt a); o; r]).
Proof. unfold release_zone_resource. by rewrite Hr. Qed.
Lemma release_open :
  release_zone_resource f OPEN_ZONE =
  Ok (set_res f [a; mk_res (u32 (acquired_cnt o - 1)) (total_cnt o); r]).
Proof. unfold release_zone_resource. by rewrite Hr. Qed.
Lemma release_zrwa :
  release_zone_resource f ZRWA_ZONE =
  Ok (set_res f [a; o; mk_res (u32 (acquired_cnt r - 1)) (total_cnt r)]).
Proof. unfold release_zone_resource. by rewrite Hr. Qed.

Lemma acquire_active :
  acquire_zone_resource f ACTIVE_ZONE =
  if acquired_cnt a <? total_cnt a
  then Ok (true, set_res f [mk_res (u32 (acquired_cnt a + 1)) (total_cnt a); o; r])
  else Ok (false, f).
Proof. unfold acquire_zone_resource, is_zone_resource_avail. rewrite Hr. simpl. by destruct (_ <? _). Qed.
Lemma acquire_open :
  acquire_zone_resource f OPEN_ZONE =
  if acquired_cnt o <? total_cnt o
  then Ok (true, set_res f [a; mk_res (u32 (acquired_cnt o + 1)) (total_cnt o); r])
  else Ok (false, f).
Proof. unfold acquire_zone_resource, is_zone_resource_avail. rewrite Hr. simpl. by destruct (_ <? _). Qed.
Lemma acquire_zrwa :
  acquire_zone_resource f ZRWA_ZONE =
  if acquired_cnt r <? total_cnt r
  then Ok (true, set_res f [a; o; mk_res (u32 (acquired_cnt r + 1)) (total_cnt r)])
  else Ok (false, f).
Proof. unfold acquire_zone_resource, is_zone_resource_avail. rewrite Hr. simpl. by destruct (_ <? _). Qed.

Lemma full_active : is_zone_resource_full f ACTIVE_ZONE = Ok (acquired_cnt a =? total_cnt a).
Proof. unfold is_zone_resource_full. by rewrite Hr. Qed.
Lemma full_open : is_zone_resource_full f OPEN_ZONE = Ok (acquired_cnt o =? total_cnt o).
Proof. unfold is_zone_resource_full. by rewrite Hr. Qed.
Lemma full_zrwa : is_zone_resource_full f ZRWA_ZONE = Ok (acquired_cnt r =? total_cnt r).
Proof. unfold is_zone_resource_full. by rewrite Hr. Qed.
End Res.

(** Computes the calls on resources and zones of the goal: [Hr] are the
    resources, [Hd] the zone of the state that the handler starts from. *)
Ltac zstep Hd Hr :=
  let side := first [exact Hr | reflexivity] in
  first
    [ erewrite release_active by side | erewrite release_open by side
    | erewrite release_zrwa by side
    | erewrite acquire_active by side | erewrite acquire_open by side
    | erewrite acquire_zrwa by side
    | erewrite full_active by side | erewrite full_open by side | erewrite full_zrwa by side ];
  cbn [obind].

(** ** Preservation of the invariant *)
Section Step.
Variables (spp : ssdparams) (z : znsparams).
Notation zinv := (zns_inv spp z).

Lemma zinv_upd f f' i d d' a o r a' o' r' :
  zinv f -> get_zone f i = Ok d -> res_infos f = [a; o; r] -> zupd f f' i d' [a'; o'; r'] ->
  zone_ok z i d' -> zrwa_cfg z \/ zrwav d' = 0 ->
  acquired_cnt a' = acquired_cnt a - b2z (is_active d) + b2z (is_active d') ->
  acquired_cnt o' = acquired_cnt o - b2z (is_open d) + b2z (is_open d') ->
  acquired_cnt r - b2z (is_zrwa d) + b2z (is_zrwa d') <= acquired_cnt r' ->
  acquired_cnt a' <= total_cnt a' < 4294967296 -> acquired_cnt o' <= total_cnt o' < 4294967296 ->
  acquired_cnt r' <= total_cnt r' < 4294967296 ->
  zinv f'.
Proof.
  intros I Hd Hr U Hz Hzr Ea Eo Er La Lo Lr. pose proof (get_zone_lookup f i d Hd) as [Hi Hl].
  destruct I as [I1 I2 I3 I4 (a0 & o0 & r0 & Hr0 & [R1 R2 R3 R4 R5 R6]) I6 I7 I8 I9 I10].
  rewrite Hr in Hr0. injection Hr0 as <- <- <-.
  pose proof (fun j => zupd_get f f' i d d' _ j Hd U) as Hg.
  destruct U as [U1 U2 [F1 F2 F3 F4 F5]]. split.
  - unfold zsp in *. congruence.
  - congruence.
  - rewrite U1, length_insert. done.
  - intros j dj. rewrite Hg. destruct (Z.eqb_spec j i) as [->|]; [by intros [= <-]|apply I4].
  - exists a', o', r'. split; [done|]. rewrite U1. split; try done; rewrite (count_insert _ _ _ d) by done; lia.
  - rewrite F4. done.
  - intros Hb. destruct (I7 Hb) as (l & Hl1 & Hl2). rewrite Hl1 in F5. simpl in F5.
    destruct (zwra_buffer f') as [l'|]; [|done]. injection F5 as F5. exists l'. by rewrite F5.
  - destruct I8 as [I8|I8]; [by left|]. destruct Hzr as [Hzr|Hzr]; [by left|]. right.
    intros j dj. rewrite Hg. destruct (Z.eqb_spec j i) as [->|]; [by intros [= <-]|apply I8].
  - by rewrite F3.
  - by rewrite F1.
Qed.

(** What the counters say about a zone. *)
Lemma zinv_counts f i d :
  zinv f -> get_zone f i = Ok d ->
  exists a o r, res_infos f = [a; o; r] /\
    0 <= acquired_cnt a <= total_cnt a /\ total_cnt a < 4294967296 /\
    0 <= acquired_cnt o <= total_cnt o /\ total_cnt o < 4294967296 /\
    0 <= acquired_cnt r <= total_cnt r /\ total_cnt r < 4294967296 /\
    b2z (is_active d) <= acquired_cnt a /\ b2z (is_open d) <= acquired_cnt o /\
    b2z (is_zrwa d) <= acquired_cnt r.
Proof.
  intros I Hd. destruct (get_zone_lookup f i d Hd) as [_ Hl].
  destruct (zi_res _ _ _ I) as (a & o & r & Hr & [R1 R2 R3 R4 R5 R6]). exists a, o, r.
  pose proof (fun P => count_range P (zone_descs f)) as Hc.
  assert (Hp : forall P, b2z (P d) <= count P (zone_descs f)).
  { intros P. destruct (P d) eqn:E; simpl; [|apply Hc]. pose proof (count_pos P _ _ _ Hl E). lia. }
  pose proof (Hp is_active). pose proof (Hp is_open). pose proof (Hp is_zrwa).
  pose proof (Hc is_active). pose proof (Hc is_open). pose proof (Hc is_zrwa).
  split; [done|]. lia.
Qed.

(** ** The management handlers *)
Context (G : zgeom spp z).

(** The descriptor after a transition to [s']. *)
Definition zone_after (a : zaction) (opt : Z) (d : zone_descriptor) (s' : zone_state)
  : zone_descriptor :=
  match a with
  | ACT_RESET => set_zrwav (set_zd_wp (set_zd_state d s') (zslba d)) 0
  | ACT_OPEN =>
      if bool_decide (zd_state d = ZONE_STATE_EMPTY) && negb (opt =? 0)
      then set_zd_state (set_zrwav d 1) s' else set_zd_state d s'
  | _ => set_zd_state d s'
  end.

Lemma zrwav_set d v : zrwav (set_zrwav d v) = v mod 2.
Proof. unfold zrwav, set_zrwav. simpl. by rewrite getf_setf_eq by lia. Qed.

Lemma zrwav_state d s : zrwav (set_zd_state d s) = zrwav d.
Proof. done. Qed.
Lemma zrwav_wp d w : zrwav (set_zd_wp d w) = zrwav d.
Proof. done. Qed.

Lemma zone_ok_after i d a opt s' :
  zone_ok z i d -> zone_next a (zd_state d) = Some s' -> zone_ok z i (zone_after a opt d s').
Proof.
  destruct (zlbas_pos spp z G) as (H0 & _). intros [K1 K2 K3 K4 K5] Hn.
  assert (Ha : forall d', zd_state d' = s' -> zone_capacity d' = zone_capacity d -> zslba d' = zslba d ->
    (is_active d' = true -> zd_wp d' < i * zlbas z + zlbas z) ->
    i * zlbas z <= zd_wp d' <= i * zlbas z + zlbas z ->
    (s' = ZONE_STATE_EMPTY -> zd_wp d' = i * zlbas z /\ zrwav d' = 0) -> zone_ok z i d').
  { intros d' E1 E2 E3 E4 E5 E6. split; rewrite ?E2, ?E3; auto. rewrite E1. auto. }
  unfold is_active, is_open in *.
  destruct a; simpl in Hn; destruct (zd_state d) eqn:Es; simplify_eq; unfold zone_after;
    try destruct (_ && _); apply Ha; simpl; auto; intros;
    rewrite ?zrwav_set; try (by apply K4); try lia; try (destruct K5; [done|]; lia); try done.
Qed.

(** The resources after a zone has become [d']. *)
Definition res_moved (f f' : zns_ftl) (d d' : zone_descriptor) : Prop :=
  forall a o r, res_infos f = [a; o; r] ->
  res_infos f' =
    [mk_res (acquired_cnt a - b2z (is_active d) + b2z (is_active d')) (total_cnt a);
     mk_res (acquired_cnt o - b2z (is_open d) + b2z (is_open d')) (total_cnt o);
     mk_res (acquired_cnt r - b2z (is_zrwa d) + b2z (is_zrwa d')) (total_cnt r)].

Lemma res_moved_id f d : res_moved f f d d.
Proof. intros [] [] [] ->. simpl. by rewrite !Z.sub_add. Qed.

Record act_post (f f' : zns_ftl) (i : Z) (d : zone_descriptor) (a : zaction) (opt st : Z) : Prop := {
  ap_inv : zinv f';
  ap_frame : zns_frame f f';
  ap_others : forall j, j <> i -> get_zone f' j = get_zone f j;
  ap_case : match zone_next a (zd_state d) with
    | None => st = NVME_SC_ZNS_INVALID_TRANSITION /\ f' = f
    | Some s' =>
        st = NVME_SC_SUCCESS /\ get_zone f' i = Ok (zone_after a opt d s') /\
        res_moved f f' d (zone_after a opt d s') /\
        zf_storage f' = (if bool_decide (a = ACT_RESET)
          then memset0 (zf_storage f) (get_storage_addr_from_zid f i) (zone_size z) else zf_storage f) \/
        a = ACT_OPEN /\ f' = f /\ exists ty, is_zone_resource_full f ty = Ok true /\
          (ty, st) ∈ [(ACTIVE_ZONE, NVME_SC_ZNS_NO_ACTIVE_ZONE); (OPEN_ZONE, NVME_SC_ZNS_NO_OPEN_ZONE);
                      (ZRWA_ZONE, NVME_SC_ZNS_ZRWA_RSRC_UNAVAIL)]
    end;
}.

Lemma act_success f f' i d a opt s' a0 o0 r0 a1 o1 r1 st :
  zinv f -> get_zone f i = Ok d -> zone_next a (zd_state d) = Some s' -> st = NVME_SC_SUCCESS ->
  res_infos f = [a0; o0; r0] -> zupd f f' i (zone_after a opt d s') [a1; o1; r1] ->
  zf_storage f' = (if bool_decide (a = ACT_RESET)
    then memset0 (zf_storage f) (get_storage_addr_from_zid f i) (zone_size z) else zf_storage f) ->
  zrwa_cfg z \/ opt = 0 ->
  let d' := zone_after a opt d s' in
  acquired_cnt a1 = acquired_cnt a0 - b2z (is_active d) + b2z (is_active d') ->
  acquired_cnt o1 = acquired_cnt o0 - b2z (is_open d) + b2z (is_open d') ->
  acquired_cnt r1 = acquired_cnt r0 - b2z (is_zrwa d) + b2z (is_zrwa d') ->
  total_cnt a1 = total_cnt a0 -> total_cnt o1 = total_cnt o0 -> total_cnt r1 = total_cnt r0 ->
  acquired_cnt a1 <= total_cnt a1 < 4294967296 -> acquired_cnt o1 <= total_cnt o1 < 4294967296 ->
  acquired_cnt r1 <= total_cnt r1 < 4294967296 ->
  act_post f f' i d a opt st.
Proof.
  intros I Hd Hn -> Hr U Hst Hz d' Ea Eo Er Ta To Tr La Lo Lr. split.
  - eapply (zinv_upd f f' i d d'); eauto; [| |lia].
    + eapply zone_ok_after; [|done]. by apply (zi_zone _ _ _ I).
    + destruct (zi_zrwa _ _ _ I) as [Hc|Hc]; [by left|]. destruct Hz as [Hz|Hz]; [by left|]. right.
      specialize (Hc i d Hd). subst d' opt. unfold zone_after. rewrite andb_false_r.
      destruct a; [exact Hc..| |exact Hc]. by rewrite zrwav_set.
  - apply U.
  - intros j Hj. rewrite (zupd_get f f' i d _ _ j Hd U). by rewrite (proj2 (Z.eqb_neq j i) Hj).
  - rewrite Hn. left. split; [done|]. split; [|split; [|done]].
    + rewrite (zupd_get f f' i d _ _ i Hd U). by rewrite Z.eqb_refl.
    + intros a2 o2 r2 Hr2. rewrite Hr in Hr2. injection Hr2 as <- <- <-. rewrite (zu_res _ _ _ _ _ U).
      destruct a1, o1, r1. simpl in *. by subst.
Qed.

(** A handler that leaves the state as it is. *)
Lemma act_same f i d a opt st :
  zinv f -> get_zone f i = Ok d ->
  match zone_next a (zd_state d) with
  | None => st = NVME_SC_ZNS_INVALID_TRANSITION
  | Some s' => st = NVME_SC_SUCCESS /\ zone_after a opt d s' = d /\ a <> ACT_RESET \/
      a = ACT_OPEN /\ exists ty, is_zone_resource_full f ty = Ok true /\
        (ty, st) ∈ [(ACTIVE_ZONE, NVME_SC_ZNS_NO_ACTIVE_ZONE); (OPEN_ZONE, NVME_SC_ZNS_NO_OPEN_ZONE);
                    (ZRWA_ZONE, NVME_SC_ZNS_ZRWA_RSRC_UNAVAIL)]
  end -> act_post f f i d a opt st.
Proof.
  intros I Hd Hc. split; [done..|]. destruct (zone_next a (zd_state d)) as [s'|]; [|done].
  destruct Hc as [(H1 & H2 & H3)|(H1 & H2)].
  - left. rewrite H2. rewrite bool_decide_eq_false_2 by done. split; [done|]. split; [done|].
    split; [apply res_moved_id|done].
  - right. done.
Qed.

Lemma set_zd_state_id d : set_zd_state d (zd_state d) = d.
Proof. by destruct d. Qed.

(** Closes the side conditions on the counters. *)
Ltac zcounts Es :=
  unfold zone_after, is_zrwa, is_active, is_open, b2z in *; simpl in *; rewrite ?Es in *; simpl in *;
  rewrite ?zrwav_set, ?zrwav_state, ?zrwav_wp in *; simpl in *;
  repeat match goal with H : context [zrwav ?d =? 0] |- _ => destruct (zrwav d =? 0); simpl in * end;
  rewrite ?u32_id by lia; try lia.

Lemma __zmgmt_send_close_zone_spec f i d opt :
  zinv f -> get_zone f i = Ok d -> zrwa_cfg z \/ opt = 0 ->
  exists st f', __zmgmt_send_close_zone f i = Ok (st, f') /\ act_post f f' i d ACT_CLOSE opt st.
Proof.
  intros I Hd Hz. destruct (zinv_counts f i d I Hd) as (a & o & r & Hr & C).
  unfold __zmgmt_send_close_zone. rewrite Hd. cbn [obind].
  destruct (zd_state d) eqn:Es;
    try (eexists _, _; split; [reflexivity|]; apply act_same; [done..|]; rewrite Es; simpl; done).
  3:{ eexists _, _; split; [reflexivity|]. apply act_same; [done..|]. rewrite Es. simpl. left.
      split; [done|]. split; [|done]. rewrite <- Es. apply set_zd_state_id. }
  all: unfold change_zone_state; rewrite (with_zone_eq f i d) by done; cbn [obind];
    zstep Hd Hr; eexists _, _; (split; [reflexivity|]);
    eapply (act_success f _ i d ACT_CLOSE opt ZONE_STATE_CLOSED a o r);
      [done|done|by rewrite Es|done|done|split; [reflexivity|reflexivity|by split]|done|done|..];
    zcounts Es.
Qed.

(** The resources of a zone that leaves the active states. *)
Lemma release_zone_spec f i d :
  zinv f -> get_zone f i = Ok d ->
  exists a o r a1 o1 r1, res_infos f = [a; o; r] /\ release_zone f d = Ok (set_res f [a1; o1; r1]) /\
    acquired_cnt a1 = acquired_cnt a - b2z (is_active d) /\ total_cnt a1 = total_cnt a /\
    acquired_cnt o1 = acquired_cnt o - b2z (is_open d) /\ total_cnt o1 = total_cnt o /\
    acquired_cnt r1 = acquired_cnt r - b2z (is_zrwa d) /\ total_cnt r1 = total_cnt r /\
    acquired_cnt a <= total_cnt a < 4294967296 /\ acquired_cnt o <= total_cnt o < 4294967296 /\
    acquired_cnt r <= total_cnt r < 4294967296.
Proof.
  intros I Hd. destruct (zinv_counts f i d I Hd) as (a & o & r & Hr & C). exists a, o, r.
  assert (Hid : set_res f [a; o; r] = f) by (rewrite <- Hr; by destruct f).
  unfold release_zone. destruct (zd_state d) eqn:Es;
    try (exists a, o, r; rewrite Hid; (split; [done|]); (split; [done|]); zcounts Es; lia).
  all: repeat zstep Hd Hr; destruct (zrwav d =? 0) eqn:Ez; simpl; try zstep Hd Hr.
  all: eexists _, _, _; (split; [done|]); (split; [reflexivity|]);
    unfold is_zrwa, is_active, is_open, b2z in *; rewrite ?Es, ?Ez in *; simpl in *;
    rewrite ?u32_id by lia; lia.
Qed.

Lemma __zmgmt_send_finish_zone_spec f i d opt :
  zinv f -> get_zone f i = Ok d -> zrwa_cfg z \/ opt = 0 ->
  exists st f', __zmgmt_send_finish_zone f i = Ok (st, f') /\ act_post f f' i d ACT_FINISH opt st.
Proof.
  intros I Hd Hz.
  destruct (release_zone_spec f i d I Hd) as (a & o & r & a1 & o1 & r1 & Hr & Hrel & C).
  unfold __zmgmt_send_finish_zone. rewrite Hd. cbn [obind]. rewrite ?Hrel.
  destruct (zd_state d) eqn:Es;
    try (eexists _, _; split; [reflexivity|]; apply act_same; [done..|]; rewrite Es; simpl; done).
  5:{ eexists _, _; split; [reflexivity|]. apply act_same; [done..|]. rewrite Es. simpl. left.
      split; [done|]. split; [|done]. rewrite <- Es. apply set_zd_state_id. }
  all: cbn [obind]; unfold change_zone_state; erewrite with_zone_eq by exact Hd; cbn [obind];
    eexists _, _; (split; [reflexivity|]).
  1: eapply (act_success f _ i d ACT_FINISH opt ZONE_STATE_FULL a o r a o r);
      [done|done|by rewrite Es|done|done|split; [reflexivity|done|by split]|done|done|..];
      zcounts Es.
  all: eapply (act_success f _ i d ACT_FINISH opt ZONE_STATE_FULL a o r a1 o1 r1);
      [done|done|by rewrite Es|done|done|split; [reflexivity|done|by split]|done|done|..];
      zcounts Es.
Qed.

Lemma __zmgmt_send_open_zone_spec f i d opt :
  zinv f -> get_zone f i = Ok d -> zrwa_cfg z \/ opt = 0 ->
  exists st f', __zmgmt_send_open_zone f i opt = Ok (st, f') /\ act_post f f' i d ACT_OPEN opt st.
Proof.
  intros I Hd Hz. destruct (zinv_counts f i d I Hd) as (a & o & r & Hr & C).
  pose proof (full_active f a o r Hr) as Fa. pose proof (full_open f a o r Hr) as Fo.
  pose proof (full_zrwa f a o r Hr) as Fr.
  unfold __zmgmt_send_open_zone. rewrite Hd. cbn [obind].
  assert (Hsame : forall st ty, zone_next ACT_OPEN (zd_state d) = Some ZONE_STATE_OPENED_EXPL ->
    is_zone_resource_full f ty = Ok true ->
    (ty, st) ∈ [(ACTIVE_ZONE, NVME_SC_ZNS_NO_ACTIVE_ZONE); (OPEN_ZONE, NVME_SC_ZNS_NO_OPEN_ZONE);
                (ZRWA_ZONE, NVME_SC_ZNS_ZRWA_RSRC_UNAVAIL)] ->
    exists st' f', Ok (st, f) = Ok (st', f') /\ act_post f f' i d ACT_OPEN opt st').
  { intros st ty Hn Hf Hin. exists st, f. split; [done|]. apply act_same; [done..|]. rewrite Hn.
    right. split; [done|]. by exists ty. }
  destruct (zd_state d) eqn:Es;
    try (eexists _, _; split; [reflexivity|]; apply act_same; [done..|]; rewrite Es; simpl; done).
  - rewrite Fa. cbn [obind]. destruct (acquired_cnt a =? total_cnt a) eqn:Ea;
      [apply (Hsame _ ACTIVE_ZONE); set_solver|]. boolify.
    rewrite Fo. cbn [obind]. destruct (acquired_cnt o =? total_cnt o) eqn:Eo;
      [apply (Hsame _ OPEN_ZONE); set_solver|]. boolify.
    rewrite Fr. cbn [obind]. destruct (negb (opt =? 0) && (acquired_cnt r =? total_cnt r)) eqn:Er;
      [apply andb_true_iff in Er as [_ Er]; rewrite Er in Fr; apply (Hsame _ ZRWA_ZONE); set_solver|].
    destruct (negb (opt =? 0)) eqn:Eopt; simpl in Er; boolify.
    + zstep Hd Hr. rewrite (proj2 (Z.ltb_lt (acquired_cnt r) _)) by lia. cbn [obind].
      erewrite with_zone_eq by exact Hd. cbn [obind].
      zstep Hd Hr. rewrite (proj2 (Z.ltb_lt (acquired_cnt a) _)) by lia. cbn [obind].
      zstep Hd Hr. rewrite (proj2 (Z.ltb_lt (acquired_cnt o) _)) by lia. cbn [obind].
      unfold change_zone_state. erewrite with_zone_eq by (by apply (get_zone_set f i d)). cbn [obind].
      eexists _, _. split; [reflexivity|].
      eapply (act_success f _ i d ACT_OPEN opt ZONE_STATE_OPENED_EXPL a o r);
        [done|done|by rewrite Es|done|done|split; [|reflexivity|by split]|done|done|..].
      { simpl. rewrite list_insert_insert_eq. unfold zone_after. by rewrite Es, Eopt. }
      all: zcounts Es; rewrite ?Eopt; simpl; zcounts Es; rewrite ?zrwav_state, ?zrwav_set; simpl; lia.
    + cbn [obind]. zstep Hd Hr. rewrite (proj2 (Z.ltb_lt (acquired_cnt a) _)) by lia. cbn [obind].
      zstep Hd Hr. rewrite (proj2 (Z.ltb_lt (acquired_cnt o) _)) by lia. cbn [obind].
      unfold change_zone_state. erewrite with_zone_eq by exact Hd. cbn [obind].
      eexists _, _. split; [reflexivity|].
      eapply (act_success f _ i d ACT_OPEN opt ZONE_STATE_OPENED_EXPL a o r);
        [done|done|by rewrite Es|done|done|split; [|reflexivity|by split]|done|done|..].
      { simpl. unfold zone_after. by rewrite Es, Eopt. }
      all: destruct (zk_empty _ _ _ (zi_zone _ _ _ I i d Hd) Es) as [_ E0];
        zcounts Es; rewrite ?Eopt; simpl; zcounts Es; rewrite ?zrwav_state, ?E0; simpl; lia.
  - unfold change_zone_state. erewrite with_zone_eq by exact Hd. cbn [obind].
    eexists _, _. split; [reflexivity|].
    eapply (act_success f _ i d ACT_OPEN opt ZONE_STATE_OPENED_EXPL a o r);
        [done|done|by rewrite Es|done|done|split; [by unfold zone_after; rewrite Es|done|by split]|done|done|..];
      zcounts Es.
  - eexists _, _; split; [reflexivity|]. apply act_same; [done..|]. rewrite Es. simpl. left.
    split; [done|]. split; [|done]. rewrite bool_decide_eq_false_2 by congruence. simpl.
    rewrite <- Es. apply set_zd_state_id.
  - zstep Hd Hr. destruct (acquired_cnt o <? total_cnt o) eqn:Eo; boolify; cbn [obind].
    + unfold change_zone_state. erewrite with_zone_eq by exact Hd. cbn [obind].
      eexists _, _. split; [reflexivity|].
      eapply (act_success f _ i d ACT_OPEN opt ZONE_STATE_OPENED_EXPL a o r);
        [done|done|by rewrite Es|done|done|split; [by unfold zone_after; rewrite Es|done|by split]|done|done|..];
      zcounts Es.
    + apply (Hsame _ OPEN_ZONE); [done| |set_solver]. rewrite Fo. f_equal. apply Z.eqb_eq. lia.
Qed.

Lemma __zmgmt_send_reset_zone_spec f i d opt :
  zinv f -> get_zone f i = Ok d -> zrwa_cfg z \/ opt = 0 ->
  exists st f', __zmgmt_send_reset_zone f i = Ok (st, f') /\ act_post f f' i d ACT_RESET opt st.
Proof.
  intros I Hd Hz.
  destruct (release_zone_spec f i d I Hd) as (a & o & r & a1 & o1 & r1 & Hr & Hrel & C).
  unfold __zmgmt_send_reset_zone. rewrite Hd. cbn [obind]. rewrite ?Hrel.
  destruct (zone_next ACT_RESET (zd_state d)) as [s'|] eqn:En.
  2:{ destruct (zd_state d) eqn:Es; try done;
      (eexists _, _; split; [reflexivity|]; apply act_same; [done..|]; rewrite Es; simpl; done). }
  set (d1 := set_zd_state d ZONE_STATE_EMPTY).
  set (f1 := set_descs (set_res f [a1; o1; r1]) (<[Z.to_nat i:=d1]> (zone_descs f))).
  assert (Hd1 : get_zone f1 i = Ok d1) by (apply (get_zone_set (set_res f [a1; o1; r1]) i d); exact Hd).
  assert (H1 : exists f', __reset_zone f1 i = Ok f' /\ zns_frame f1 f' /\
    zone_descs f' = <[Z.to_nat i := set_zrwav (set_zd_wp d1 (zslba d1)) 0]> (zone_descs f1) /\
    res_infos f' = res_infos f1 /\
    zf_storage f' = memset0 (zf_storage f1) (get_storage_addr_from_zid f1 i) (zone_size z)).
  { unfold __reset_zone. destruct (get_zone_lookup f i d Hd) as [Hi _].
    erewrite with_zone_eq by exact Hd1. cbn [obind]. simpl.
    rewrite (zi_zp _ _ _ I). destruct (Z.eqb_spec (zrwa_buffer_size z) 0) as [E|E]; simpl.
    - eexists. split; [reflexivity|]. by repeat split.
    - destruct (zi_zb _ _ _ I E) as (l & Hl & Hlen). rewrite Hl. simpl.
      rewrite (zi_len _ _ _ I) in Hi. destruct (nthZ_in_range l i) as [b Hb]; [lia|].
      erewrite alterZ_Ok by (exact Hb || reflexivity). cbn [obind].
      eexists. split; [reflexivity|]. repeat split; simpl. by rewrite Hl; simpl; rewrite length_insert. }
  destruct H1 as (f' & E & Fr & Ed & Er & Est).
  assert (Hmain : exists st f', (let* f := Ok (set_res f [a1; o1; r1]) in
     let* f := change_zone_state f i ZONE_STATE_EMPTY in
     let* f := __reset_zone f i in Ok (NVME_SC_SUCCESS, f)) = Ok (st, f') /\ act_post f f' i d ACT_RESET opt st).
  { unfold change_zone_state. cbn [obind]. erewrite with_zone_eq by exact Hd. cbn [obind].
    change (set_descs _ _) with f1. rewrite E. cbn [obind]. eexists _, _. split; [reflexivity|].
    assert (s' = ZONE_STATE_EMPTY) as -> by (simpl in En; destruct (zd_state d); congruence).
    eapply (act_success f _ i d ACT_RESET opt ZONE_STATE_EMPTY a o r a1 o1 r1);
      [done|done|done|done|done|split; [|by rewrite Er|]|done|done|..].
    - rewrite Ed. simpl. by rewrite list_insert_insert_eq.
    - etrans; [|exact Fr]. by split.
    - simpl. lia.
    - simpl. lia.
    - simpl. lia.
    - lia.
    - lia.
    - lia.
    - pose proof (b2z_range (is_active d)). lia.
    - pose proof (b2z_range (is_open d)). lia.
    - pose proof (b2z_range (is_zrwa d)). lia. }
  destruct (zd_state d) eqn:Es; exact Hmain || done.
Qed.

Lemma __zmgmt_send_offline_zone_spec f i d opt :
  zinv f -> get_zone f i = Ok d -> zrwa_cfg z \/ opt = 0 ->
  exists st f', __zmgmt_send_offline_zone f i = Ok (st, f') /\ act_post f f' i d ACT_OFFLINE opt st.
Proof.
  intros I Hd Hz. destruct (zinv_counts f i d I Hd) as (a & o & r & Hr & C).
  unfold __zmgmt_send_offline_zone. rewrite Hd. cbn [obind].
  destruct (zd_state d) eqn:Es;
    try (eexists _, _; split; [reflexivity|]; apply act_same; [done..|]; rewrite Es; simpl; done).
  - unfold change_zone_state. erewrite with_zone_eq by exact Hd. cbn [obind].
    eexists _, _. split; [reflexivity|].
    eapply (act_success f _ i d ACT_OFFLINE opt ZONE_STATE_OFFLINE a o r a o r);
      [done|done|by rewrite Es|done|done|split; [reflexivity|done|by split]|done|done|..]; zcounts Es.
  - eexists _, _; split; [reflexivity|]. apply act_same; [done..|]. rewrite Es. simpl. left.
    split; [done|]. split; [|done]. rewrite <- Es. apply set_zd_state_id.
Qed.

End Step.
