(* ===== verification/ZnsWrite.v ===== *)
(** * ZnsWrite: what a write does to its zone

    Admission (the checks, the implicit opening and the move of the write
    pointer) for plain and random-write zones, and the explicit flush of a
    random-write area. *)
From stdpp Require Import base list numbers sets.
From Stdlib Require Import ZArith Lia.
From S2P Require Import Prelude ChannelModel SsdConfig Ssd SsdFacts Nvme Prp ZnsData ZnsIo ZnsMgmt.
From S2P Require Import ZnsInv ZnsState.

Open Scope Z_scope.
Open Scope nvmev_scope.

Section Write.
Variables (spp : ssdparams) (z : znsparams).
Notation zinv := (zns_inv spp z).
Notation zl := (zlbas z).
Context (G : zgeom spp z).

(** The effect on one zone and on nothing else of the zones. *)
Record zone_upd (f f' : zns_ftl) (i : Z) (d' : zone_descriptor) : Prop := {
  zo_inv : zinv f';
  zo_frame : zns_frame f f';
  zo_get : get_zone f' i = Ok d';
  zo_others : forall j, j <> i -> get_zone f' j = get_zone f j;
  zo_store : zf_storage f' = zf_storage f;
}.

Lemma zone_upd_trans f f1 f2 i d1 d2 :
  zone_upd f f1 i d1 -> zone_upd f1 f2 i d2 -> zone_upd f f2 i d2.
Proof.
  intros [A1 A2 A3 A4 A5] [B1 B2 B3 B4 B5]. split; [done|by etrans|done| |congruence].
  intros j Hj. rewrite B4, A4; done.
Qed.

Lemma zone_upd_refl f i d : zinv f -> get_zone f i = Ok d -> zone_upd f f i d.
Proof. by split. Qed.

(** [zinv_upd] in the form of [zone_upd]. *)
Lemma zone_upd_intro f f' i d d' a o r a' o' r' :
  zinv f -> get_zone f i = Ok d -> res_infos f = [a; o; r] -> zupd f f' i d' [a'; o'; r'] ->
  zf_storage f' = zf_storage f ->
  zone_ok z i d' -> zrwav d' = zrwav d ->
  acquired_cnt a' = acquired_cnt a - b2z (is_active d) + b2z (is_active d') ->
  acquired_cnt o' = acquired_cnt o - b2z (is_open d) + b2z (is_open d') ->
  acquired_cnt r - b2z (is_zrwa d) + b2z (is_zrwa d') <= acquired_cnt r' ->
  acquired_cnt a' <= total_cnt a' < 4294967296 -> acquired_cnt o' <= total_cnt o' < 4294967296 ->
  acquired_cnt r' <= total_cnt r' < 4294967296 ->
  zone_upd f f' i d'.
Proof.
  intros I Hd Hr U Hs Hk Hz **. split.
  - eapply zinv_upd; eauto. rewrite Hz. destruct (zi_zrwa _ _ _ I); [by left|right; eauto].
  - apply U.
  - rewrite (zupd_get f f' i d _ _ i Hd U). by rewrite Z.eqb_refl.
  - intros j Hj. rewrite (zupd_get f f' i d _ _ j Hd U). by rewrite (proj2 (Z.eqb_neq j i) Hj).
  - done.
Qed.

(** ** The write pointer *)
Definition zone_end (i : Z) : Z := i * zl + zl.

(** The zone after [n] more sectors. *)
Definition zone_advance (i : Z) (d : zone_descriptor) (n : Z) : zone_descriptor :=
  let d' := set_zd_wp d (zd_wp d + n) in
  if zd_wp d + n =? zone_end i then set_zd_state d' ZONE_STATE_FULL else d'.

Lemma zone_bounds f i d :
  zinv f -> get_zone f i = Ok d ->
  0 <= i < nr_zones z /\ zone_ok z i d /\ 0 < zl /\ i * zl + zl <= nr_zones z * zl /\
  nr_zones z * zl < 4294967296.
Proof.
  intros I Hd. destruct (get_zone_lookup f i d Hd) as [Hi _]. rewrite (zi_len _ _ _ I) in Hi.
  destruct (zlbas_pos spp z G) as (H0 & _). pose proof (zg_cap _ _ G) as Hc. fold zl in Hc.
  split; [done|]. split; [by apply (zi_zone _ _ _ I)|]. split; [done|]. split; [nia|done].
Qed.

Lemma zone_ok_advance i d n :
  0 < zl -> zone_ok z i d -> is_active d = true -> 0 < n -> zd_wp d + n <= zone_end i ->
  zone_ok z i (zone_advance i d n).
Proof.
  intros H0 [K1 K2 K3 K4 K5] Ha Hn He. unfold zone_advance, zone_end in *.
  destruct (Z.eqb_spec (zd_wp d + n) (i * zl + zl)) as [E|E]; split; simpl; try done; try lia.
  intros Es. unfold is_active, is_open in Ha. by rewrite Es in Ha.
Qed.

Lemma is_open_wp d w : is_open (set_zd_wp d w) = is_open d.
Proof. done. Qed.
Lemma is_active_wp d w : is_active (set_zd_wp d w) = is_active d.
Proof. done. Qed.
Lemma is_zrwa_wp d w : is_zrwa (set_zd_wp d w) = is_zrwa d.
Proof. done. Qed.

Lemma __increase_write_ptr_spec f i d n :
  zinv f -> get_zone f i = Ok d -> is_open d = true -> 0 < n -> zd_wp d + n <= zone_end i ->
  exists f', __increase_write_ptr f i n = Ok f' /\ zone_upd f f' i (zone_advance i d n).
Proof.
  intros I Hd Ho Hn He. destruct (zinv_counts spp z f i d I Hd) as (a & o & r & Hr & C).
  destruct (zone_bounds f i d I Hd) as (Hi & Hk & H0 & Hm & Hc).
  pose proof Hk as [K1 K2 K3 _ _].
  assert (Ha : is_active d = true) by (unfold is_active; by rewrite Ho).
  assert (Hk' := zone_ok_advance i d n H0 Hk Ha Hn He). unfold zone_end in He.
  unfold __increase_write_ptr. rewrite Hd. cbn [obind]. rewrite (u64_id (_ + n)) by nia.
  erewrite with_zone_eq by exact Hd. cbn [obind].
  rewrite (zone_to_slba_spec spp z G) by (apply I || lia). cbn [obind]. rewrite K2, u64_id by nia.
  unfold zone_advance, zone_end in *. rewrite Ho, Ha in C. unfold b2z in C.
  destruct (Z.eqb_spec (zd_wp d + n) (i * zl + zl)) as [E|E].
  - zstep Hd Hr. zstep Hd Hr. unfold change_zone_state.
    erewrite with_zone_eq by (by apply (get_zone_set f i d)). cbn [obind]. eexists. split; [reflexivity|].
    eapply (zone_upd_intro f _ i d _ a o r); [done|done|done|split; [|reflexivity|by split]|done|done|done|..];
      simpl; rewrite ?list_insert_insert_eq, ?Ha, ?Ho; unfold is_zrwa, b2z; rewrite ?Ha; simpl;
      rewrite ?u32_id by lia; try done; try lia.
    destruct (negb _); lia.
  - eexists. split; [reflexivity|].
    eapply (zone_upd_intro f _ i d _ a o r a o r); [done|done|done|split; [done|done|by split]|done|done|done|..];
      rewrite ?is_active_wp, ?is_open_wp, ?is_zrwa_wp; lia.
Qed.

(** ** Implicit opening *)
Definition zone_opened (d : zone_descriptor) : zone_descriptor :=
  if is_open d then d else set_zd_state d ZONE_STATE_OPENED_IMPL.

(** The state admits a write, as far as the resources go. *)
Definition writable (f : zns_ftl) (d : zone_descriptor) : Prop :=
  match zd_state d with
  | ZONE_STATE_OPENED_IMPL | ZONE_STATE_OPENED_EXPL => True
  | ZONE_STATE_CLOSED => is_zone_resource_full f OPEN_ZONE = Ok false
  | ZONE_STATE_EMPTY => is_zone_resource_full f OPEN_ZONE = Ok false /\
                        is_zone_resource_full f ACTIVE_ZONE = Ok false
  | _ => False
  end.

Lemma zone_ok_opened i d :
  zone_ok z i d -> 0 < zl -> zd_state d = ZONE_STATE_EMPTY \/ is_active d = true ->
  zone_ok z i (zone_opened d).
Proof.
  intros [K1 K2 K3 K4 K5] H0 Hs. unfold zone_opened. destruct (is_open d) eqn:Eo; [by split|].
  split; simpl; try done. intros _. destruct Hs as [Hs|Hs]; [|auto]. destruct (K5 Hs). lia.
Qed.

Lemma zns_open_for_write_spec f i d :
  zinv f -> get_zone f i = Ok d ->
  exists st f', zns_open_for_write f i (zd_wp d) = Ok (st, f') /\
    (st = NVME_SC_SUCCESS /\ writable f d /\ zone_upd f f' i (zone_opened d) \/
     st <> NVME_SC_SUCCESS /\ ~ writable f d /\ f' = f /\
     (zd_state d = ZONE_STATE_FULL -> st = NVME_SC_ZNS_ERR_FULL)).
Proof.
  intros I Hd. destruct (zinv_counts spp z f i d I Hd) as (a & o & r & Hr & C).
  destruct (zone_bounds f i d I Hd) as (Hi & Hk & H0 & _).
  pose proof (zone_ok_opened i d Hk H0) as Hko.
  pose proof Hk as [K1 _ _ _ K5]. unfold writable, zns_open_for_write. rewrite Hd. cbn [obind].
  pose proof (full_active f a o r Hr) as Fa. pose proof (full_open f a o r Hr) as Fo.
  rewrite Fa, Fo. unfold zone_opened in *.
  destruct (zd_state d) eqn:Es; unfold is_open, is_active in Hko; rewrite Es in Hko; simpl in Hko.
  - destruct (K5 eq_refl) as [K5' Ez]. rewrite K1, K5', Z.eqb_refl. simpl.
    unfold b2z, is_zrwa, is_active, is_open in C. rewrite Es in C. simpl in C.
    destruct (acquired_cnt a =? total_cnt a) eqn:Ea; [eexists _, _; split; [reflexivity|]; right; naive_solver|].
    destruct (acquired_cnt o =? total_cnt o) eqn:Eo; [eexists _, _; split; [reflexivity|]; right; naive_solver|].
    boolify. zstep Hd Hr. rewrite (proj2 (Z.ltb_lt (acquired_cnt a) _)) by lia. cbn [obind].
    zstep Hd Hr. rewrite (proj2 (Z.ltb_lt (acquired_cnt o) _)) by lia. cbn [obind].
    unfold change_zone_state. erewrite with_zone_eq by exact Hd. cbn [obind].
    eexists _, _. split; [reflexivity|]. left. split; [done|]. split; [done|].
    unfold is_open. rewrite Es.
    eapply (zone_upd_intro f _ i d _ a o r); [done|done|done|split; [reflexivity|reflexivity|by split]|done| |done|..];
      [apply Hko; left; done|..]; unfold is_zrwa, is_active, is_open, b2z; simpl; rewrite ?Es; simpl;
      rewrite ?zrwav_state, ?Ez, ?u32_id by lia; simpl; lia.
  - eexists _, _. split; [reflexivity|]. left. split; [done|]. split; [done|]. unfold is_open. rewrite Es.
    by apply zone_upd_refl.
  - eexists _, _. split; [reflexivity|]. left. split; [done|]. split; [done|]. unfold is_open. rewrite Es.
    by apply zone_upd_refl.
  - unfold b2z, is_zrwa, is_active, is_open in C. rewrite Es in C. simpl in C.
    zstep Hd Hr. destruct (acquired_cnt o <? total_cnt o) eqn:Eo; boolify; cbn [obind].
    + unfold change_zone_state. erewrite with_zone_eq by exact Hd. cbn [obind].
      eexists _, _. split; [reflexivity|]. left. split; [done|].
      split; [f_equal; apply Z.eqb_neq; lia|]. unfold is_open. rewrite Es.
      eapply (zone_upd_intro f _ i d _ a o r); [done|done|done|split; [reflexivity|reflexivity|by split]|done| |done|..];
        [apply Hko; right; apply orb_true_r|..]; unfold is_zrwa, is_active, is_open, b2z; simpl; rewrite ?Es; simpl;
        rewrite ?zrwav_state, ?u32_id by lia; simpl; try lia.
    + eexists _, _. split; [reflexivity|]. right. split; [done|].
      rewrite (proj2 (Z.eqb_eq (acquired_cnt o) _)) by lia. naive_solver.
  - eexists _, _. split; [reflexivity|]. right. naive_solver.
  - eexists _, _. split; [reflexivity|]. right. naive_solver.
  - eexists _, _. split; [reflexivity|]. right. naive_solver.
Qed.

(** ** Admission of a write *)
Definition unit_aligned (n : Z) : Prop := (LBA_TO_BYTE n) mod write_unit_size spp = 0.

Record admissible (f : zns_ftl) (i : Z) (d : zone_descriptor) (slba n : Z) : Prop := {
  ad_unit : unit_aligned n;
  ad_wp : slba = zd_wp d;
  ad_fits : zd_wp d + n <= zone_end i;
  ad_state : writable f d;
}.

Lemma writable_wp f i d :
  0 < zl -> zone_ok z i d -> writable f d -> i * zl <= zd_wp d < zone_end i.
Proof.
  intros H0 [K1 K2 K3 K4 K5] Hw. unfold zone_end. split; [lia|]. unfold writable in Hw.
  unfold is_active, is_open in K4. destruct (zd_state d); try done; try (by apply K4).
  destruct (K5 eq_refl). lia.
Qed.

Lemma __check_boundary_error_spec f slba n :
  zinv f -> 0 <= slba < 4294967296 -> 0 < n <= 65536 ->
  __check_boundary_error f slba n = Ok (slba / zl =? (slba + n - 1) / zl).
Proof.
  intros I Hs Hn. destruct (zlbas_pos spp z G) as (H0 & _ & k & Hk). unfold __check_boundary_error.
  assert (Hq : forall x, 0 <= x < 8589934592 -> u32 (x / zl) = x / zl).
  { intros x Hx. apply u32_id. split; [apply Z.div_pos; lia|]. apply Z.div_lt_upper_bound; lia. }
  rewrite !(lba_to_zone_total spp z G) by apply I. cbn [obind]. rewrite u64_id by lia.
  by rewrite !Hq by lia.
Qed.

Lemma same_zone i x n :
  0 < zl -> 0 < n -> i * zl <= x < zone_end i -> (x / zl =? (x + n - 1) / zl) = (x + n <=? zone_end i).
Proof.
  unfold zone_end. intros H0 Hn Hx.
  assert (E : x / zl = i) by (symmetry; apply (Z.div_unique_pos _ _ _ (x - i * zl)); lia). rewrite E.
  destruct (Z.leb_spec (x + n) (i * zl + zl)).
  - apply Z.eqb_eq, (Z.div_unique_pos _ _ _ (x + n - 1 - i * zl)); lia.
  - apply Z.eqb_neq. intros E2. pose proof (Z.mul_succ_div_gt (x + n - 1) zl H0). nia.
Qed.

Lemma zns_write_admit_spec f i d slba n :
  zinv f -> get_zone f i = Ok d -> 0 <= slba < 4294967296 -> 0 < n <= 65536 ->
  exists st f', zns_write_admit f i slba n = Ok (st, f') /\
    (st = NVME_SC_SUCCESS /\ admissible f i d slba n /\
     zone_upd f f' i (zone_advance i (zone_opened d) n) \/
     st <> NVME_SC_SUCCESS /\ ~ admissible f i d slba n /\ f' = f).
Proof.
  intros I Hd Hs Hn. destruct (zone_bounds f i d I Hd) as (Hi & Hk & H0 & Hm & Hc).
  pose proof (zi_sp _ _ _ I) as Hsp. unfold zns_write_admit. rewrite Hsp.
  pose proof (zg_unit _ _ G) as Hu. rewrite u64_id by lia. rewrite modO_Ok by lia. cbn [obind].
  destruct (Z.eqb_spec (LBA_TO_BYTE n mod write_unit_size spp) 0) as [Eu|Eu]; simpl.
  2:{ eexists _, _. split; [reflexivity|]. right. split; [done|]. split; [by intros []|done]. }
  rewrite __check_boundary_error_spec by done. cbn [obind]. rewrite Hd.
  destruct (slba / zl =? (slba + n - 1) / zl) eqn:Eb; simpl.
  2:{ eexists _, _. split; [reflexivity|]. right. split; [done|]. split; [|done].
      intros [_ -> Hf Hw]. rewrite (same_zone i) in Eb by (lia || by eapply writable_wp). boolify. lia. }
  destruct (Z.eqb_spec slba (zd_wp d)) as [->|Ew]; simpl.
  2:{ eexists _, _. split; [reflexivity|]. right. split; [done|]. split; [by intros []|done]. }
  destruct (zns_open_for_write_spec f i d I Hd) as (st & f1 & -> & [(-> & Hw & U)|(Hst & Hw & -> & _)]);
    cbn [obind].
  - rewrite Z.eqb_refl. simpl. pose proof (writable_wp f i d H0 Hk Hw) as Hwp.
    rewrite (same_zone i) in Eb by (done || lia). boolify.
    assert (Ho : is_open (zone_opened d) = true) by (unfold zone_opened; by destruct (is_open d) eqn:?).
    assert (Ewp : zd_wp (zone_opened d) = zd_wp d) by (unfold zone_opened; by destruct (is_open d)).
    rewrite u32_id by lia.
    destruct (__increase_write_ptr_spec f1 i (zone_opened d) n) as (f2 & -> & U2);
      [apply U|apply U|done|lia|lia|]. cbn [obind].
    eexists _, _. split; [reflexivity|]. left. split; [done|]. split; [by split|]. by eapply zone_upd_trans.
  - rewrite (proj2 (Z.eqb_neq st _)) by done. simpl. eexists _, _. split; [reflexivity|]. right.
    split; [done|]. split; [by intros []|done].
Qed.

End Write.
