(* ===== verification/ZnsCmd.v ===== *)
(** * ZnsCmd: the commands of the zoned FTL

    The program and read loops, the buffers, and with them the whole of
    [__zns_write], [zns_read] and the dispatch. *)
From stdpp Require Import base list numbers sets.
From Stdlib Require Import ZArith Lia.
From S2P Require Import Prelude ChannelModel SsdConfig Ssd SsdFacts Nvme Prp ZnsData ZnsIo ZnsMgmt.
From S2P Require Import ZnsInv ZnsState ZnsWrite.

Open Scope Z_scope.
Open Scope nvmev_scope.

(** Bytes that a list of internal operations gives back. *)
Definition released (l : list internal_op) : Z := sumZ (map io_buffs_to_release l).

Lemma released_app l1 l2 : released (l1 ++ l2) = released l1 + released l2.
Proof. unfold released. by rewrite map_app, sumZ_app. Qed.

Section Cmd.
Context `{ClockRange}.
Variables (spp : ssdparams) (z : znsparams).
Notation zinv := (zns_inv spp z).
Notation zl := (zlbas z).
Notation os := (pgs_per_oneshotpg spp).
Context (G : zgeom spp z).

(** Pages of a zone. *)
Notation zpgs := (zl / 8).

(** A step of the device below the FTL. *)
Definition dev_step (f f' : zns_ftl) : Prop :=
  exists s, f' = zset_ssd f s /\ ssd_ok s /\ sp s = spp.

Lemma dev_step_refl f : zinv f -> dev_step f f.
Proof. intros I. exists (zf_ssd f). split; [by destruct f|]. split; apply I. Qed.

Lemma dev_step_trans f f1 f2 : dev_step f f1 -> dev_step f1 f2 -> dev_step f f2.
Proof. intros (s1 & -> & _) (s2 & -> & H2). by exists s2. Qed.

Lemma dev_step_inv f f' : zinv f -> dev_step f f' -> zinv f'.
Proof. intros [I1 I2 I3 I4 I5 I6 I7 I8 I9 I10] (s & -> & H1 & H2). by split. Qed.

(** What the hardware keeps while internal operations [ops] are scheduled. *)
Definition hw_ops (h h' : hw) (ops : list internal_op) : Prop :=
  hw_write_buffer h' = hw_write_buffer h /\ hw_sched h' = hw_sched h ++ ops.

Lemma hw_ops_trans h h1 h2 l1 l2 : hw_ops h h1 l1 -> hw_ops h1 h2 l2 -> hw_ops h h2 (l1 ++ l2).
Proof. intros [A1 A2] [B1 B2]. split; [congruence|]. by rewrite B2, A2, app_assoc. Qed.

Lemma hw_frame_ops h h' : hw_frame h h' -> hw_ops h h' [].
Proof. intros [A1 A2]. split; [done|]. by rewrite app_nil_r. Qed.

(** A command on a page of the device whose cell has a latency. *)
Definition cmd_ready (f : zns_ftl) (ncmd : nand_cmd) : Prop :=
  cmd_in_range (zf_ssd f) ncmd /\ cell_ok (zf_ssd f) (nc_ppa ncmd).

Lemma zns_advance_nand_spec f h ncmd :
  zinv f -> hw_ok h -> cmd_ready f ncmd ->
  exists t f' h', zns_advance_nand f h ncmd = Ok (t, f', h') /\ dev_step f f' /\
    hw_ok h' /\ hw_ops h h' [] /\ u64_ok t.
Proof.
  intros I Hh [Hc Hce]. unfold zns_advance_nand.
  destruct (ssd_advance_nand_cell (zf_ssd f) h ncmd) as (t & s & h' & -> & H1 & [H2 _] & H3 & H4 & H5).
  - apply I.
  - change (sp (zf_ssd f)) with (zsp f). rewrite (zi_sp _ _ _ I). apply G.
  - done.
  - done.
  - done.
  - cbn [obind]. eexists _, _, _. split; [reflexivity|]. split; [|split; [done|split; [by apply hw_frame_ops|done]]].
    exists s. split; [done|]. split; [done|]. rewrite H2. apply I.
Qed.

Lemma in_range f ppa zone off c x t b :
  zinv f -> 0 <= zone -> page_at spp z ppa zone off -> u64_ok t ->
  c = NAND_READ /\ 0 < x < 18446744073709551616 \/ c = NAND_WRITE ->
  cmd_ready f (mk_nand_cmd USER_IO c x t b ppa).
Proof.
  intros I Hz Hp Ht Hc. destruct (page_at_range spp z G ppa zone off Hz Hp) as [H1 H2].
  split; [|eapply (page_at_cell spp z G); [apply I|done]].
  change (sp (zf_ssd f)) with (zsp f). split; simpl; change (sp (zf_ssd f)) with (zsp f);
    rewrite ?(zi_sp _ _ _ I); try done. destruct Hc as [Hc| ->]; [by left|by right; left].
Qed.

(** The pages of a zone. *)
Lemma zpgs_pos : 0 < zpgs /\ zl = 8 * zpgs /\ zone_size z = 4096 * zpgs.
Proof.
  destruct (zlbas_pos spp z G) as (Hz0 & H1 & k & Hk). rewrite Hk, Z.div_mul in * by lia. lia.
Qed.

Lemma lpn_in_zone f i lpn :
  zinv f -> 0 <= i < nr_zones z -> i * zpgs <= lpn < i * zpgs + zpgs ->
  exists ppa, __lpn_to_ppa f lpn = Ok ppa /\ page_at spp z ppa i (lpn - i * zpgs).
Proof.
  intros I Hi Hl. destruct zpgs_pos as (Hz0 & H1 & _). pose proof (zg_cap _ _ G) as Hc. fold zl in Hc.
  assert (Hz : nr_zones z < 4294967296) by nia.
  destruct (__lpn_to_ppa_total spp z G f) with (lpn := lpn) as (ppa & -> & Hp); [apply I|apply I|nia|].
  exists ppa. split; [done|].
  assert (E : lpn / zpgs = i) by (symmetry; apply (Z.div_unique_pos _ _ _ (lpn - i * zpgs)); lia).
  rewrite E, !(u32_id i), (u32_id (i * zpgs)), u64_id in Hp by nia. done.
Qed.

(** ** Programming *)

(** Bytes handed to the flash once the first [off] pages of a zone are written. *)
Definition flushed (off : Z) : Z :=
  if off =? zpgs then zone_size z else off / os * (os * 4096).

Lemma flushed_step off n :
  0 <= off -> 0 < n -> off mod os + n <= os -> off + n <= zpgs ->
  flushed (off + n) - flushed off =
  if (off mod os + n =? os) || (off + n =? zpgs) then
    if (off + n =? zpgs) && (0 <? zone_size z mod (os * 4096)) then zone_size z mod (os * 4096)
    else os * 4096
  else 0.
Proof.
  intros Ho Hn Hm Hz. pose proof (zg_os _ _ G) as Hos. destruct zpgs_pos as (Hz0 & _ & Hzs).
  unfold flushed. rewrite (proj2 (Z.eqb_neq off zpgs)) by lia.
  pose proof (Z.div_mod off os ltac:(lia)) as Hd. pose proof (Z.mod_pos_bound off os ltac:(lia)) as Hb.
  set (q := off / os) in *. set (r := off mod os) in *.
  assert (Hq : (off + n) / os = if r + n =? os then q + 1 else q).
  { destruct (Z.eqb_spec (r + n) os).
    - symmetry. apply (Z.div_unique_pos _ _ _ 0); lia.
    - symmetry. apply (Z.div_unique_pos _ _ _ (r + n)); lia. }
  rewrite Hq. destruct (Z.eqb_spec (off + n) zpgs) as [E|E]; simpl.
  - rewrite orb_true_r, Hzs, <- E. replace (4096 * (off + n)) with ((off + n) * 4096) by lia.
    rewrite Z.mul_mod_distr_r by lia.
    destruct (Z.eqb_spec (r + n) os) as [E2|E2].
    + assert (Em : (off + n) mod os = 0) by (symmetry; apply (Z.mod_unique_pos _ _ (q + 1)); lia).
      rewrite Em. simpl. nia.
    + assert (Em : (off + n) mod os = r + n) by (symmetry; apply (Z.mod_unique_pos _ _ q); lia).
      rewrite Em. rewrite (proj2 (Z.ltb_lt 0 _)) by lia. nia.
  - rewrite orb_false_r. destruct (Z.eqb_spec (r + n) os); lia.
Qed.

Lemma zns_program_spec sq stime i elpn wb f h t lpn :
  zinv f -> hw_ok h -> u64_ok stime -> u64_ok t -> 0 <= i < nr_zones z ->
  i * zpgs <= lpn <= elpn -> elpn < i * zpgs + zpgs ->
  exists f' h' t' pgs ops,
    zns_program sq stime (i * zpgs + zpgs - 1) elpn wb f h t lpn = Ok (f', h', t', pgs) /\
    1 <= pgs <= elpn - lpn + 1 /\ dev_step f f' /\ hw_ok h' /\ u64_ok t' /\ hw_ops h h' ops /\
    Forall (fun o => io_buffer o = wb) ops /\
    released ops = flushed (lpn - i * zpgs + pgs) - flushed (lpn - i * zpgs).
Proof.
  intros I Hh Hst Ht Hi Hl He. pose proof (zg_os _ _ G) as Hos. pose proof (zg_wordline _ _ G) as Hw.
  rewrite (zg_pgsz _ _ G) in Hw. destruct zpgs_pos as (Hz0 & Hz8 & Hzs).
  pose proof (zg_cap _ _ G) as Hc. fold zl in Hc. pose proof (zg_size _ _ G) as Hsz.
  destruct (lpn_in_zone f i lpn I Hi ltac:(lia)) as (ppa & Hppa & Hp).
  set (off := lpn - i * zpgs) in *. pose proof Hp as (_ & _ & Hpg).
  pose proof (Z.mod_pos_bound off os ltac:(lia)) as Hb.
  unfold zns_program. rewrite Hppa. cbn [obind].
  change (zsp f) with (zsp f). rewrite (zi_sp _ _ _ I), (zi_zp _ _ _ I), (zg_pgsz _ _ G).
  rewrite modO_Ok by lia. cbn [obind]. rewrite Hpg, Z.mod_mod by lia.
  unfold imul. rewrite s32_id by lia. rewrite !(u64_id (elpn - lpn + 1)), (u64_id (os - _)) by nia.
  set (pgs := Z.min _ _). assert (Hpgs : 1 <= pgs <= elpn - lpn + 1 /\ off mod os + pgs <= os) by lia.
  rewrite (u64_id (_ + pgs)), (u64_id (lpn + pgs - 1)), (u64_id (os * 4096)), (u32_id (os * 4096)) by nia.
  pose proof (flushed_step off pgs ltac:(lia) ltac:(lia) ltac:(lia) ltac:(lia)) as Hfl.
  replace (lpn + pgs - 1 =? i * zpgs + zpgs - 1) with (off + pgs =? zpgs)
    by (destruct (Z.eqb_spec (off + pgs) zpgs), (Z.eqb_spec (lpn + pgs - 1) (i * zpgs + zpgs - 1)); lia).
  destruct ((off mod os + pgs =? os) || (off + pgs =? zpgs)).
  - rewrite modO_Ok by lia. cbn [obind].
    destruct (zns_advance_nand_spec f h (mk_nand_cmd USER_IO NAND_WRITE (os * 4096) stime false ppa) I Hh)
      as (t1 & f1 & h1 & -> & D & Hh1 & Ho & Ht1).
    { eapply (in_range f ppa i off); auto; lia. }
    cbn [obind]. eexists _, _, _, _, [mk_internal_op sq t1 wb _]. split; [reflexivity|].
    split; [lia|]. split; [done|]. split; [done|]. split; [unfold u64_ok in *; lia|]. split; [|split; [by constructor|]].
    + destruct Ho as [Ho1 Ho2]. split; simpl; [done|]. rewrite Ho2, app_nil_r. done.
    + rewrite Hfl. unfold released. simpl. lia.
  - eexists _, _, _, _, []. split; [reflexivity|]. split; [lia|]. split; [by apply dev_step_refl|].
    split; [done|]. split; [done|]. split; [by apply hw_frame_ops|]. split; [constructor|]. by rewrite Hfl.
Qed.

Lemma zns_write_loop_spec fuel sq stime i elpn wb f h t lpn :
  zinv f -> hw_ok h -> u64_ok stime -> u64_ok t -> 0 <= i < nr_zones z ->
  i * zpgs <= lpn <= elpn + 1 -> elpn < i * zpgs + zpgs -> elpn - lpn + 1 <= Z.of_nat fuel ->
  exists f' h' t' ops,
    zns_write_loop fuel sq stime (i * zpgs + zpgs - 1) elpn wb f h t lpn = Ok (f', h', t') /\
    dev_step f f' /\ hw_ok h' /\ u64_ok t' /\ hw_ops h h' ops /\
    Forall (fun o => io_buffer o = wb) ops /\
    released ops = flushed (elpn + 1 - i * zpgs) - flushed (lpn - i * zpgs).
Proof.
  revert f h t lpn. induction fuel as [|fuel IH]; intros f h t lpn I Hh Hst Ht Hi Hl He Hf; simpl.
  - rewrite (proj2 (Z.ltb_lt elpn lpn)) by lia. eexists _, _, _, []. split; [reflexivity|].
    split; [by apply dev_step_refl|]. split; [done|]. split; [done|]. split; [by apply hw_frame_ops|].
    split; [constructor|]. replace lpn with (elpn + 1) by lia. unfold released. simpl. lia.
  - destruct (Z.ltb_spec elpn lpn) as [E|E].
    + eexists _, _, _, []. split; [reflexivity|].
      split; [by apply dev_step_refl|]. split; [done|]. split; [done|]. split; [by apply hw_frame_ops|].
      split; [constructor|]. replace lpn with (elpn + 1) by lia. unfold released. simpl. lia.
    + destruct (zns_program_spec sq stime i elpn wb f h t lpn)
        as (f1 & h1 & t1 & pgs & ops & -> & Hp & D & Hh1 & Ht1 & Ho & Hwb & Hrel); [done..|lia|done|].
      cbn [obind]. pose proof (zg_cap _ _ G) as Hc. fold zl in Hc. destruct zpgs_pos as (Hz0 & Hz8 & _).
      rewrite u64_id by nia.
      destruct (IH f1 h1 t1 (lpn + pgs)) as (f2 & h2 & t2 & ops2 & -> & D2 & Hh2 & Ht2 & Ho2 & Hwb2 & Hrel2);
        [by eapply dev_step_inv|done|done|done|done|lia|done|lia|].
      eexists _, _, _, (ops ++ ops2). split; [reflexivity|]. split; [by eapply dev_step_trans|].
      split; [done|]. split; [done|]. split; [by eapply hw_ops_trans|]. split; [by apply Forall_app|].
      rewrite released_app, Hrel, Hrel2. replace (lpn + pgs - i * zpgs) with (lpn - i * zpgs + pgs) by lia. lia.
Qed.

(** ** The write buffer *)

(** Room in the buffer that a write to zone [i] uses. *)
Definition buffer_room (f : zns_ftl) (h : hw) (i : Z) : outcome Z :=
  if negb (zone_wb_size (zp f) =? 0) then
    let* l := of_option (zone_write_buffer f) in
    let* b := nthZ l i in Ok (buf_remaining b)
  else Ok (buf_remaining (hw_write_buffer h)).

Lemma buffer_room_same f f' h h' i :
  zp f' = zp f -> zone_write_buffer f' = zone_write_buffer f -> hw_write_buffer h' = hw_write_buffer h ->
  buffer_room f' h' i = buffer_room f h i.
Proof. unfold buffer_room. by intros -> -> ->. Qed.

Definition buffer_of (i : Z) : buf_id := if zone_wb_size z =? 0 then WB_GLOBAL else WB_ZONE i.

(** The zones, their resources and data. *)
Record zones_same (f f' : zns_ftl) : Prop := {
  zs_descs : zone_descs f' = zone_descs f;
  zs_res : res_infos f' = res_infos f;
  zs_store : zf_storage f' = zf_storage f;
}.

Lemma zns_wb_allocate_spec f h i d size :
  zinv f -> hw_ok h -> get_zone f i = Ok d -> 0 < size < 4294967296 ->
  exists n f' h' room, zns_wb_allocate f h i size = Ok (n, f', h', buffer_of i) /\
    buffer_room f h i = Ok room /\ n = (if room <? size then 0 else size) /\
    buffer_room f' h' i = Ok (u64 (room - n)) /\
    zinv f' /\ hw_ok h' /\ hw_sched h' = hw_sched h /\ zones_same f f'.
Proof.
  intros I Hh Hd Hs. destruct (zone_bounds spp z G f i d I Hd) as (Hi & _).
  unfold zns_wb_allocate, buffer_room, buffer_of. rewrite (zi_zp _ _ _ I).
  destruct (Z.eqb_spec (zone_wb_size z) 0) as [E|E]; simpl.
  - eexists _, f, _, _. split; [reflexivity|]. split; [reflexivity|].
    split; [by destruct (_ <? _); rewrite u32_id by lia|]. rewrite (zi_zp _ _ _ I), E. simpl.
    split; [|done]. by destruct (_ <? _); rewrite u32_id by lia.
  - destruct (zi_wb _ _ _ I E) as (l & Hl & Hlen). rewrite Hl. cbn [obind of_option].
    destruct (nthZ_in_range l i) as [b Hb]; [lia|]. rewrite Hb. cbn [obind]. simpl.
    rewrite updZ_Ok by lia. cbn [obind]. eexists _, _, h, _. split; [reflexivity|]. split; [reflexivity|].
    split; [by destruct (_ <? _); rewrite u32_id by lia|]. simpl.
    rewrite (zi_zp _ _ _ I), (proj2 (Z.eqb_neq _ _) E). cbn [negb obind of_option].
    rewrite nthZ_insert, Z.eqb_refl by lia. cbn [obind]. simpl.
    split; [by destruct (_ <? _); rewrite u32_id by lia|]. split; [|done].
    destruct I as [I1 I2 I3 I4 I5 I6 I7 I8 I9 I10]. split; try done.
    intros _. eexists. split; [reflexivity|]. by rewrite length_insert.
Qed.

Lemma admissible_same f f' i d slba n :
  zones_same f f' -> admissible spp z f' i d slba n <-> admissible spp z f i d slba n.
Proof.
  intros [_ E _]. assert (Hf : forall ty, is_zone_resource_full f' ty = is_zone_resource_full f ty).
  { intros ty. unfold is_zone_resource_full. by rewrite E. }
  split; intros [A1 A2 A3 A4]; split; try done; unfold writable in *; rewrite ?Hf in *; done.
Qed.

(** ** [__zns_write] *)
Definition write_lba (cmd : nvme_command) (d : zone_descriptor) : Z :=
  if opcode cmd =? nvme_cmd_zone_append then zd_wp d else rw_slba cmd.
Definition write_cmd (cmd : nvme_command) (d : zone_descriptor) : nvme_command :=
  if opcode cmd =? nvme_cmd_zone_append then set_rw_slba cmd (zd_wp d) else cmd.
Definition nlb (cmd : nvme_command) : Z := rw_length cmd + 1.

Lemma nlb_range cmd : 1 <= nlb cmd <= 65536.
Proof. unfold nlb. pose proof (rw_length_range cmd). lia. Qed.
Lemma __nr_lbas_eq cmd : __nr_lbas_from_rw_cmd cmd = nlb cmd.
Proof. pose proof (nlb_range cmd). unfold __nr_lbas_from_rw_cmd. by apply u32_id; unfold nlb in *; lia. Qed.
Lemma LBA_TO_BYTE_eq n : LBA_TO_BYTE n = n * 512.
Proof. unfold LBA_TO_BYTE, LBA_BITS. by rewrite Z.shiftl_mul_pow2 by lia. Qed.

(** What a write of [n] sectors at [slba] has done when it succeeds. *)
Record written (f f' : zns_ftl) (h h' : hw) (i : Z) (d : zone_descriptor) (slba n : Z) : Prop := {
  wr_zone : get_zone f' i = Ok (zone_advance z i (zone_opened d) n);
  wr_others : forall j, j <> i -> get_zone f' j = get_zone f j;
  wr_store : zf_storage f' = zf_storage f;
  wr_ops : exists ops, hw_sched h' = hw_sched h ++ ops /\
    Forall (fun o => io_buffer o = buffer_of i) ops /\
    released ops = flushed ((slba + n - 1) / 8 + 1 - i * zpgs) - flushed (slba / 8 - i * zpgs);
}.

Record write_post (f f' : zns_ftl) (h h' : hw) (i : Z) (d : zone_descriptor) (slba n : Z)
  (ok : bool) (st : Z) : Prop := {
  wp_inv : zinv f';
  wp_hw : hw_ok h';
  wp_room : exists room, buffer_room f h i = Ok room /\ (ok = true <-> n * 512 <= room) /\
    buffer_room f' h' i = Ok (u64 (room - if ok then n * 512 else 0));
  wp_case :
    ok = true /\ st = NVME_SC_SUCCESS /\ admissible spp z f i d slba n /\ written f f' h h' i d slba n \/
    (ok = false \/ st <> NVME_SC_SUCCESS /\ ~ admissible spp z f i d slba n) /\
    zones_same f f' /\ hw_sched h' = hw_sched h;
}.

Lemma __zns_write_spec f h req ret i d :
  zinv f -> hw_ok h -> u64_ok (req_nsecs_start req) ->
  0 <= rw_slba (req_cmd req) < nr_zones z * zl -> i = rw_slba (req_cmd req) / zl ->
  get_zone f i = Ok d ->
  exists ok f' h' ret', __zns_write f h req ret = Ok (ok, f', h', write_cmd (req_cmd req) d, ret') /\
    write_post f f' h h' i d (write_lba (req_cmd req) d) (nlb (req_cmd req)) ok (ret_status ret') /\
    (ok = false -> ret' = ret).
Proof.
  intros I Hh Hst Hs Ei Hd. set (cmd := req_cmd req) in *.
  destruct (zone_bounds spp z G f i d I Hd) as (Hi & Hk & Hz0 & Hm & Hc).
  destruct zpgs_pos as (Hp0 & Hz8 & _). pose proof (nlb_range cmd) as Hn.
  pose proof Hk as [K1 K2 K3 K4 K5].
  assert (Hsl : 0 <= write_lba cmd d < 4294967296) by (unfold write_lba; destruct (_ =? _); nia).
  unfold __zns_write. fold cmd. rewrite (lba_to_zone_spec spp z G) by (apply I || done). cbn [obind].
  rewrite <- Ei, Hd. cbn [obind]. rewrite __nr_lbas_eq.
  assert (Eif : (if opcode cmd =? nvme_cmd_zone_append then (zd_wp d, set_rw_slba cmd (zd_wp d))
    else (rw_slba cmd, cmd)) = (write_lba cmd d, write_cmd cmd d))
    by (unfold write_lba, write_cmd; by destruct (_ =? _)).
  rewrite Eif. clear Eif. set (slba := write_lba cmd d) in *. set (n := nlb cmd) in *.
  rewrite !(lba_to_lpn_spec spp z G) by apply I. cbn [obind]. rewrite u64_id by lia.
  rewrite (zone_to_elpn_spec spp z G) by (apply I || done). cbn [obind]. rewrite LBA_TO_BYTE_eq.
  destruct (zns_wb_allocate_spec f h i d (n * 512) I Hh Hd ltac:(lia))
    as (m & f1 & h1 & room & -> & Hroom & -> & Hroom' & I1 & Hh1 & Hs1 & Z1). cbn [obind].
  assert (Hd1 : get_zone f1 i = Ok d) by (unfold get_zone; rewrite (zs_descs _ _ Z1); exact Hd).
  destruct (Z.ltb_spec room (n * 512)) as [Er|Er].
  - rewrite (proj2 (Z.ltb_lt 0 _)) by lia. eexists _, _, _, _. split; [reflexivity|]. split; [|done].
    split; [done|done| |right; auto]. exists room. split; [done|]. split; [split; [done|lia]|done].
  - rewrite Z.ltb_irrefl.
    destruct (zns_write_admit_spec spp z G f1 i d slba n I1 Hd1 Hsl ltac:(lia))
      as (st & f2 & -> & [(-> & Ha & U)|(Hne & Ha & ->)]); cbn [obind].
    + rewrite Z.eqb_refl. simpl. apply (admissible_same f f1) in Ha; [|done].
      pose proof Ha as [_ Ewp Hfit Hwr]. pose proof (writable_wp z f i d Hz0 Hk Hwr) as Hwp.
      unfold zone_end in *.
      destruct (ssd_advance_write_buffer_spec (zf_ssd f2) h1 (req_nsecs_start req) (n * 512) Hh1)
        as (xfer & h2 & -> & Hh2 & [Hw2 Hs2] & Hx). cbn [obind].
      assert (I2 : zinv f2) by apply U.
      assert (Hlo : i * zpgs <= slba / 8) by (apply Z.div_le_lower_bound; lia).
      assert (Hhi : (slba + n - 1) / 8 < i * zpgs + zpgs) by (apply Z.div_lt_upper_bound; lia).
      assert (Hle : slba / 8 <= (slba + n - 1) / 8) by (apply Z.div_le_mono; lia).
      destruct (zns_write_loop_spec (Z.to_nat ((slba + n - 1) / 8 - slba / 8 + 1)) (req_sq_id req) xfer i
        ((slba + n - 1) / 8) (buffer_of i) f2 h2 xfer (slba / 8))
        as (f3 & h3 & t3 & ops & -> & D & Hh3 & Ht3 & Ho & Hwb & Hrel); [done..|lia|lia|lia|].
      cbn [obind]. eexists _, _, _, _. split; [reflexivity|]. split; [|done].
      destruct Ho as [Ho1 Ho].
      split; [by eapply dev_step_inv|done|exists room; split; [done|]; split; [split; [lia|done]|]|].
      { rewrite <- Hroom'. destruct D as (s & -> & _). destruct U as [_ [] _ _ _].
        apply buffer_room_same; [done..|congruence]. }
      left. split; [done|]. split; [done|]. split; [done|]. destruct D as (s & -> & _).
      destruct U as [U1 U2 U3 U4 U5]. split.
      * exact U3.
      * intros j Hj. etrans; [by apply U4|]. unfold get_zone. by rewrite (zs_descs _ _ Z1).
      * simpl. rewrite U5. apply Z1.
      * exists ops. split; [by rewrite Ho, Hs2, Hs1|]. split; [done|].
        rewrite Hrel. done.
    + rewrite (proj2 (Z.eqb_neq st _)) by done. simpl. eexists _, _, _, _. split; [reflexivity|].
      split; [|done]. split; [done|done|exists room; split; [done|]; split; [split; [lia|done]|done]|]. right.
      split; [|done]. right. split; [done|]. by rewrite <- (admissible_same f f1).
Qed.

End Cmd.
