(* ===== verification/ZnsZrwa.v ===== *)
(** * ZnsZrwa: writes to random-write areas

    A write inside the area leaves the write pointer; one beyond it moves the
    pointer by whole flush granules until its last sector lies in the area. *)
From stdpp Require Import base list numbers sets.
From Stdlib Require Import ZArith Lia.
From S2P Require Import Prelude ChannelModel SsdConfig Ssd SsdFacts Nvme Prp ZnsData ZnsIo ZnsMgmt.
From S2P Require Import ZnsInv ZnsState ZnsWrite ZnsCmd.

Open Scope Z_scope.
Open Scope nvmev_scope.

Section Zrwa.
Context `{ClockRange}.
Variables (spp : ssdparams) (z : znsparams).
Notation zinv := (zns_inv spp z).
Notation zl := (zlbas z).
Notation os := (pgs_per_oneshotpg spp).
Notation zpgs := (zl / 8).
Notation fg := (lbas_per_zrwafg z).
Notation zrwa := (lbas_per_zrwa z).
Context (G : zgeom spp z).

Lemma zrwa_cfg_of f i d : zinv f -> get_zone f i = Ok d -> zrwav d <> 0 -> zrwa_cfg z.
Proof. intros I Hd Hz. destruct (zi_zrwa _ _ _ I) as [|Hn]; [done|]. by destruct Hz; eapply Hn. Qed.

Lemma zrwa_allocate_eq f i l b size :
  zwra_buffer f = Some l -> nthZ l i = Ok b ->
  zrwa_allocate f i size =
  Ok ((buffer_allocate b size).1, set_zrwab f (<[Z.to_nat i := (buffer_allocate b size).2]> l)).
Proof.
  intros Hl Hb. unfold zrwa_allocate. rewrite Hl. cbn [obind of_option]. rewrite Hb. cbn [obind].
  destruct (buffer_allocate b size). rewrite updZ_Ok by (by eapply nthZ_range). done.
Qed.

Lemma zrwa_buffer_at f i d :
  zinv f -> get_zone f i = Ok d -> zrwa_cfg z ->
  exists l b, zwra_buffer f = Some l /\ nthZ l i = Ok b.
Proof.
  intros I Hd (_ & _ & _ & Hb). destruct (zone_bounds spp z G f i d I Hd) as (Hi & _).
  destruct (zi_zb _ _ _ I Hb) as (l & Hl & Hlen). destruct (nthZ_in_range l i) as [b Hb']; [lia|].
  by exists l, b.
Qed.

(** A state that differs in the buffer of a zone only. *)
Lemma zinv_zrwab f l l' : zinv f -> zwra_buffer f = Some l -> length l' = length l -> zinv (set_zrwab f l').
Proof.
  intros [I1 I2 I3 I4 I5 I6 I7 I8 I9 I10] Hl Hlen. split; try done. intros Hb.
  destruct (I7 Hb) as (l0 & Hl0 & Hn). exists l'. split; [done|]. rewrite Hlen. congruence.
Qed.

Lemma zrwa_open_for_write_spec f i d :
  zinv f -> get_zone f i = Ok d -> zrwav d <> 0 ->
  zrwa_open_for_write f i = Bug /\ zd_state d = ZONE_STATE_CLOSED /\ writable f d \/
  exists st f', zrwa_open_for_write f i = Ok (st, f') /\
    (st = NVME_SC_SUCCESS /\ is_active d = true /\ writable f d /\
       zone_upd spp z f f' i (zone_opened d) /\ (is_open d = true -> f' = f) \/
     st <> NVME_SC_SUCCESS /\ ~ writable f d /\ f' = f).
Proof.
  intros I Hd Hz. pose proof (zrwa_cfg_of f i d I Hd Hz) as Hcfg.
  destruct (zinv_counts spp z f i d I Hd) as (a & o & r & Hr & C).
  destruct (zone_bounds spp z G f i d I Hd) as (Hi & Hk & Hz0 & _).
  destruct (zrwa_buffer_at f i d I Hd Hcfg) as (l & b & Hl & Hb).
  unfold zrwa_open_for_write. rewrite Hd. cbn [obind].
  assert (Hopen : is_open d = true -> writable f d ->
    exists st f', Ok (NVME_SC_SUCCESS, f) = Ok (st, f') /\
    (st = NVME_SC_SUCCESS /\ is_active d = true /\ writable f d /\
       zone_upd spp z f f' i (zone_opened d) /\ (is_open d = true -> f' = f) \/
     st <> NVME_SC_SUCCESS /\ ~ writable f d /\ f' = f)).
  { intros Ho Hw. eexists _, _. split; [reflexivity|]. left. split; [done|].
    split; [unfold is_active; by rewrite Ho|]. split; [done|]. split; [|done].
    unfold zone_opened. rewrite Ho. by apply zone_upd_refl. }
  unfold writable in *. pose proof (full_open f a o r Hr) as Fo.
  destruct (zd_state d) eqn:Es; try (right; eexists _, _; split; [reflexivity|]; right; naive_solver).
  - destruct (zk_empty _ _ _ Hk Es). done.
  - right. apply Hopen; [unfold is_open; by rewrite Es|done].
  - right. apply Hopen; [unfold is_open; by rewrite Es|done].
  - pose proof (zone_ok_opened z i d Hk Hz0) as Hko. clear Hopen.
    zstep Hd Hr. destruct (acquired_cnt o <? total_cnt o) eqn:Eo; boolify; cbn [obind negb].
    2:{ right. eexists _, _. split; [reflexivity|]. right. split; [done|]. split; [|done].
        rewrite Fo, (proj2 (Z.eqb_eq (acquired_cnt o) _)) by lia. done. }
    assert (Hw : is_zone_resource_full f OPEN_ZONE = Ok false) by (rewrite Fo; f_equal; apply Z.eqb_neq; lia).
    erewrite (zrwa_allocate_eq _ i l b) by done. cbn [obind]. set (ba := buffer_allocate _ _).
    destruct (negb (ba.1 =? 0)); [right|by left]. unfold change_zone_state.
    erewrite with_zone_eq by exact Hd. cbn [obind]. eexists _, _. split; [reflexivity|]. left.
    split; [done|]. unfold zone_opened, is_active, is_open in *. rewrite Es in *. split; [done|].
    split; [done|]. split; [|done].
    eapply (zone_upd_intro spp z f _ i d _ a o r); [done|done|done|split; [reflexivity|reflexivity|split; try done]|done|
      apply Hko; by right|done|..].
    + simpl. by rewrite Hl; simpl; rewrite length_insert.
    + unfold is_active, is_open; simpl. rewrite Es. simpl. lia.
    + unfold is_open, b2z in *; simpl. rewrite Es in *. rewrite u32_id by lia. simpl. lia.
    + unfold is_zrwa, is_active, is_open; simpl. rewrite Es, zrwav_state. simpl. lia.
    + lia.
    + unfold b2z in C. simpl. rewrite u32_id by lia. lia.
    + lia.
Qed.

(** What a write of [n] sectors at [slba] must satisfy: it lies in the area or in
    the window of the same size behind it, and the zone can be open. *)
Record zrwa_admissible (f : zns_ftl) (i : Z) (d : zone_descriptor) (slba n : Z) : Prop := {
  za_unit : unit_aligned spp n;
  za_fits : slba + n <= zone_end z i;
  za_window : zd_wp d <= slba /\ slba + n <= zd_wp d + 2 * zrwa;
  za_state : writable f d;
}.

(** The checks in front of it. *)
Lemma zrwa_admit_spec f i d slba n :
  zinv f -> get_zone f i = Ok d -> zrwav d <> 0 ->
  0 <= slba < nr_zones z * zl -> i = slba / zl -> 0 < n <= 65536 ->
  let r := zrwa_admit f i slba n (slba + n - 1) (u64 (zd_wp d + u32 (2 * zrwa) - 1)) in
  r = Bug /\ zd_state d = ZONE_STATE_CLOSED /\ zrwa_admissible f i d slba n \/
  exists st f', r = Ok (st, f') /\
    (st = NVME_SC_SUCCESS /\ is_active d = true /\ zrwa_admissible f i d slba n /\
       zone_upd spp z f f' i (zone_opened d) /\ (is_open d = true -> f' = f) \/
     st <> NVME_SC_SUCCESS /\ ~ zrwa_admissible f i d slba n /\ f' = f).
Proof.
  intros I Hd Hz Hs Ei Hn r. destruct (zone_bounds spp z G f i d I Hd) as (Hi & Hk & Hz0 & Hm & Hc).
  pose proof (zrwa_cfg_of f i d I Hd Hz) as (Hfg & Hzr & _). pose proof (zk_wp _ _ _ Hk) as K3.
  pose proof (zi_sp _ _ _ I) as Hsp. unfold r, zrwa_admit. rewrite Hsp.
  rewrite (u32_id (2 * zrwa)), (u64_id (zd_wp d + _ - 1)) by nia.
  pose proof (zg_unit _ _ G) as Hu. rewrite u64_id by lia. rewrite modO_Ok by lia. cbn [obind].
  destruct (Z.eqb_spec (LBA_TO_BYTE n mod write_unit_size spp) 0) as [Eu|Eu]; simpl;
    [|right; eexists _, _; split; [reflexivity|]; right; split; [done|]; split; [by intros []|done]].
  rewrite (__check_boundary_error_spec spp z G) by (done || lia). cbn [obind].
  assert (Hin : i * zl <= slba < zone_end z i).
  { unfold zone_end. rewrite Ei. pose proof (Z.mul_div_le slba zl Hz0).
    pose proof (Z.mul_succ_div_gt slba zl Hz0). lia. }
  rewrite (same_zone z i) by (done || lia).
  destruct (Z.leb_spec (slba + n) (zone_end z i)) as [Eb|Eb]; simpl;
    [|right; eexists _, _; split; [reflexivity|]; right; split; [done|]; split; [intros []; lia|done]].
  rewrite Hd. cbn [obind].
  destruct ((slba <? zd_wp d) || (zd_wp d + 2 * zrwa - 1 <? slba + n - 1)) eqn:E.
  { right; eexists _, _; split; [reflexivity|]; right; split; [done|]; split; [|done].
    intros [_ _ Hw _]. apply orb_true_iff in E as [E|E]; boolify; lia. }
  apply orb_false_iff in E as [E1 E2]. boolify.
  assert (Ha : writable f d -> zrwa_admissible f i d slba n) by (split; [done|done|lia|done]).
  destruct (zrwa_open_for_write_spec f i d I Hd Hz)
    as [(-> & Hcl & Hw)|(st & f' & -> & [(-> & Hact & Hw & U & Hsame)|(Hne & Hw & ->)])]; [left; auto|..];
    right; eexists _, _; (split; [reflexivity|]); [left; auto|right].
  split; [done|]. split; [by intros []|done].
Qed.

(** The distance that the pointer moves for a write that ends at [elba]. *)
Record flush_ok (i wp elba n : Z) : Prop := {
  fk_range : 0 <= n /\ wp + n <= zone_end z i;
  fk_far : wp + zrwa <= elba -> (fg | n) /\ elba < wp + n + zrwa <= elba + fg;
  fk_near : elba < wp + zrwa -> n = if elba =? zone_end z i - 1 then zone_end z i - wp else 0;
}.

Lemma zrwa_flush_spec f i d elba :
  zinv f -> get_zone f i = Ok d -> zrwa_cfg z -> is_active d = true ->
  zd_wp d <= elba < zone_end z i ->
  exists n, zrwa_flush f i (zd_wp d) elba (u64 (zd_wp d + zrwa)) = Ok n /\
    flush_ok i (zd_wp d) elba n /\ n < 4294967296.
Proof.
  intros I Hd (Hf & Hzr & _) Ha He. destruct (zone_bounds spp z G f i d I Hd) as (Hi & Hk & Hz0 & Hm & Hc).
  pose proof Hk as [K1 K2 K3 K4 K5]. unfold zrwa_flush, zone_end in *. rewrite (zi_zp _ _ _ I).
  assert (Hwp : 0 <= zd_wp d) by nia. rewrite (u64_id (zd_wp d + zrwa)) by lia.
  destruct (Z.leb_spec (zd_wp d + zrwa) elba) as [E|E].
  - rewrite !(u64_id (elba - _ + 1)), u64_id by lia. rewrite divO_Ok by lia. cbn [obind].
    set (x := elba - (zd_wp d + zrwa) + 1). set (q := (x + fg - 1) / fg).
    assert (Hq : x <= q * fg < x + fg).
    { pose proof (Z.mul_div_le (x + fg - 1) fg ltac:(lia)) as Q1.
      pose proof (Z.mul_succ_div_gt (x + fg - 1) fg ltac:(lia)) as Q2. fold q in Q1, Q2. lia. }
    rewrite u64_id by lia. eexists. split; [reflexivity|]. split; [|lia]. split; unfold zone_end.
    + lia.
    + intros _. split; [by exists q|lia].
    + lia.
  - rewrite (zone_to_elba_spec spp z G) by (apply I || done). cbn [obind].
    destruct (Z.eqb_spec elba (i * zl + zl - 1)) as [E2|E2].
    + rewrite u64_id by lia. eexists. split; [reflexivity|]. split; [|lia].
      split; unfold zone_end; [lia|lia|]. intros _. rewrite (proj2 (Z.eqb_eq _ _)) by lia. lia.
    + eexists. split; [reflexivity|]. split; [|lia].
      split; unfold zone_end; [lia|lia|]. intros _. by rewrite (proj2 (Z.eqb_neq _ _)) by lia.
Qed.

Lemma zrwa_write_loop_spec fuel sq stime i f h t lpn rem :
  zinv f -> hw_ok h -> u64_ok stime -> u64_ok t -> 0 <= i < nr_zones z ->
  i * zpgs <= lpn -> 0 <= rem -> lpn + rem <= i * zpgs + zpgs -> rem <= Z.of_nat fuel ->
  exists f' h' t', zrwa_write_loop fuel sq stime i f h t lpn rem = Ok (f', h', t') /\
    dev_step spp f f' /\ hw_ok h' /\ u64_ok t' /\ hw_write_buffer h' = hw_write_buffer h.
Proof.
  revert f h t lpn rem.
  induction fuel as [|fuel IH]; intros f h t lpn rem I Hh Hst Ht Hi Hl Hr He Hf; simpl.
  - rewrite (proj2 (Z.eqb_eq rem 0)) by lia. eexists _, _, _. split; [reflexivity|].
    split; [by eapply dev_step_refl|done].
  - destruct (Z.eqb_spec rem 0) as [E|E].
    { eexists _, _, _. split; [reflexivity|]. split; [by eapply dev_step_refl|done]. }
    pose proof (zg_os _ _ G) as Hos. pose proof (zg_wordline _ _ G) as Hw.
    rewrite (zg_pgsz _ _ G) in Hw. destruct (zpgs_pos spp z G) as (Hz0 & Hz8 & Hzs).
    pose proof (zg_cap _ _ G) as Hc. fold zl in Hc.
    destruct (lpn_in_zone spp z G f i lpn I Hi ltac:(lia)) as (ppa & -> & Hp). cbn [obind].
    pose proof Hp as (_ & _ & Hpg). set (off := lpn - i * zpgs) in *.
    pose proof (Z.mod_pos_bound off os ltac:(lia)) as Hb.
    rewrite (zi_sp _ _ _ I), (zg_pgsz _ _ G). rewrite modO_Ok by lia. cbn [obind].
    rewrite Hpg, Z.mod_mod by lia. unfold imul. rewrite s32_id, (u64_id (os - _)), (u64_id (os * 4096)) by nia.
    set (pgs := Z.min _ _).
    assert (Hstep : exists f1 h1 t1,
      (if u64 (off mod os + pgs) =? os then
         let* (t0, f0, h0) := zns_advance_nand f h (mk_nand_cmd USER_IO NAND_WRITE (os * 4096) stime false ppa) in
         Ok (f0, log_internal_op h0 (mk_internal_op sq t0 (WB_ZRWA i) (os * 4096)), Z.max t0 t)
       else Ok (f, h, t)) = Ok (f1, h1, t1) /\ dev_step spp f f1 /\ hw_ok h1 /\ u64_ok t1 /\
      hw_write_buffer h1 = hw_write_buffer h).
    { destruct (u64 _ =? os).
      - destruct (zns_advance_nand_spec spp z G f h (mk_nand_cmd USER_IO NAND_WRITE (os * 4096) stime false ppa) I Hh)
          as (t1 & f1 & h1 & -> & D & Hh1 & [Ho _] & Ht1).
        { eapply (in_range spp z G f ppa i off); auto; lia. }
        cbn [obind]. eexists _, _, _. split; [reflexivity|]. split; [done|]. split; [done|].
        split; [unfold u64_ok in *; lia|done].
      - eexists _, _, _. split; [reflexivity|]. split; [by eapply dev_step_refl|done]. }
    destruct Hstep as (f1 & h1 & t1 & -> & D & Hh1 & Ht1 & Hwb1). cbn [obind].
    rewrite u64_id by nia.
    destruct (IH f1 h1 t1 (lpn + pgs) (rem - pgs)) as (f2 & h2 & t2 & -> & D2 & Hh2 & Ht2 & Hwb2);
      [by eapply dev_step_inv|done|done|done|done|lia|lia|lia|lia|].
    eexists _, _, _. split; [reflexivity|]. split; [by eapply dev_step_trans|]. split; [done|].
    split; [done|congruence].
Qed.

(** The zone after the pointer has moved by [n]. *)
Definition zone_slid (i : Z) (d : zone_descriptor) (n : Z) : zone_descriptor :=
  if 0 <? n then zone_advance z i (zone_opened d) n else zone_opened d.

(** Room in the buffer of an area. *)
Definition area_room (f : zns_ftl) (i : Z) : outcome Z :=
  let* l := of_option (zwra_buffer f) in
  let* b := nthZ l i in Ok (buf_remaining b).

(** What a write of [n] sectors at [slba] has done. *)
Record zrwa_post (f f' : zns_ftl) (h' : hw) (i : Z) (d : zone_descriptor) (slba n : Z) (ok : bool) (st : Z)
  : Prop := {
  zw_inv : zinv f';
  zw_hw : hw_ok h';
  zw_others : forall j, j <> i -> get_zone f' j = get_zone f j;
  zw_store : zf_storage f' = zf_storage f;
  zw_case :
    ~ zrwa_admissible f i d slba n /\ ok = true /\ st <> NVME_SC_SUCCESS /\ zones_same f f' \/
    zrwa_admissible f i d slba n /\
    exists m, flush_ok i (zd_wp d) (slba + n - 1) m /\
      get_zone f' i = Ok (if ok then zone_slid i d m else zone_opened d) /\
      (ok = true -> st = NVME_SC_SUCCESS) /\
      (ok = false -> 0 < m) /\
      (is_open d = true -> 0 < m -> exists room, area_room f i = Ok room /\ (ok = true <-> m * 512 <= room));
}.

(** Moving the pointer, when the buffer has room for it. *)
Lemma zrwa_slide_spec f i d n :
  zinv f -> get_zone f i = Ok d -> zrwa_cfg z -> is_open d = true -> 0 <= n < 4294967296 ->
  zd_wp d + n <= zone_end z i ->
  exists ok f' room, (if 0 <? n then
      let* (m, f) := zrwa_allocate f i (u64 (LBA_TO_BYTE n)) in
      if m =? 0 then Ok (false, f)
      else let* f := __increase_write_ptr f i (u32 n) in Ok (true, f)
    else Ok (true, f)) = Ok (ok, f') /\ area_room f i = Ok room /\
    (ok = false -> 0 < n) /\ (0 < n -> ok = true <-> n * 512 <= room) /\
    zinv f' /\ (forall j, j <> i -> get_zone f' j = get_zone f j) /\
    zf_storage f' = zf_storage f /\
    get_zone f' i = Ok (if ok && (0 <? n) then zone_advance z i d n else d).
Proof.
  intros I Hd Hcfg Ho Hn He.
  destruct (zrwa_buffer_at f i d I Hd Hcfg) as (l & b & Hl & Hb).
  assert (Ear : area_room f i = Ok (buf_remaining b)) by (unfold area_room; rewrite Hl; cbn; by rewrite Hb).
  destruct (Z.ltb_spec 0 n) as [E|E].
  2:{ eexists _, _, _. split; [reflexivity|]. split; [exact Ear|]. split; [done|]. split; [lia|]. done. }
  destruct (zone_bounds spp z G f i d I Hd) as (_ & [_ _ K3 _ _] & _).
  pose proof (zg_size _ _ G) as Hsz. destruct (zlbas_pos spp z G) as (_ & Hsz' & _). unfold zone_end in *.
  erewrite (zrwa_allocate_eq _ i l b) by done. cbn [obind].
  assert (Eba : ((buffer_allocate b (u64 (LBA_TO_BYTE n))).1 =? 0) = negb (n * 512 <=? buf_remaining b)).
  { unfold buffer_allocate. rewrite LBA_TO_BYTE_eq, u64_id by lia. simpl.
    destruct (Z.ltb_spec (buf_remaining b) (n * 512)); rewrite u32_id by lia;
      [rewrite (proj2 (Z.leb_gt _ _)) by lia|rewrite (proj2 (Z.leb_le _ _)) by lia];
      [done|apply Z.eqb_neq; lia]. }
  rewrite Eba. set (ba := buffer_allocate _ _) in *.
  pose proof (zinv_zrwab f l (<[Z.to_nat i := ba.2]> l) I Hl (length_insert _ _ _)) as I1.
  destruct (Z.leb_spec (n * 512) (buf_remaining b)) as [Er|Er]; cbn [negb].
  2:{ eexists _, _, _. split; [reflexivity|]. split; [exact Ear|]. split; [done|]. split; [|done].
      split; [done|lia]. }
  rewrite u32_id by lia.
  destruct (__increase_write_ptr_spec spp z G (set_zrwab f (<[Z.to_nat i := ba.2]> l)) i d n)
    as (f' & -> & [U1 U2 U3 U4 U5]); [done|done|done|done|done|].
  cbn [obind]. eexists _, _, _. split; [reflexivity|]. split; [exact Ear|]. done.
Qed.

Lemma __zns_write_zrwa_spec f h req ret i d :
  zinv f -> hw_ok h -> u64_ok (req_nsecs_start req) ->
  0 <= rw_slba (req_cmd req) < nr_zones z * zl -> i = rw_slba (req_cmd req) / zl ->
  get_zone f i = Ok d -> zrwav d <> 0 ->
  __zns_write_zrwa f h req ret = Bug /\ zd_state d = ZONE_STATE_CLOSED /\
    zrwa_admissible f i d (rw_slba (req_cmd req)) (nlb (req_cmd req)) \/
  exists ok f' h' ret', __zns_write_zrwa f h req ret = Ok (ok, f', h', req_cmd req, ret') /\
    zrwa_post f f' h' i d (rw_slba (req_cmd req)) (nlb (req_cmd req)) ok (ret_status ret').
Proof.
  intros I Hh Hst Hs Ei Hd Hz. set (cmd := req_cmd req) in *.
  pose proof (zrwa_cfg_of f i d I Hd Hz) as Hcfg.
  destruct (zone_bounds spp z G f i d I Hd) as (Hi & Hk & Hz0 & Hm & Hc).
  destruct (zpgs_pos spp z G) as (Hp0 & Hz8 & _). pose proof (nlb_range cmd) as Hn.
  pose proof Hk as [K1 K2 K3 K4 K5].
  unfold __zns_write_zrwa. fold cmd. rewrite (lba_to_zone_spec spp z G) by (apply I || done). cbn [obind].
  rewrite <- Ei, Hd. cbn [obind]. rewrite __nr_lbas_eq. set (slba := rw_slba cmd) in *.
  set (n := nlb cmd) in *. rewrite (u64_id (slba + n - 1)) by lia.
  rewrite (zi_zp _ _ _ I).
  destruct (zrwa_admit_spec f i d slba n I Hd Hz Hs Ei ltac:(lia))
    as [(-> & Hcl & Hadm)|(st & f1 & -> & [(-> & Ha & Hadm & U & Hsame)|(Hne & Hadm & ->)])];
    [left; auto|..]; right; cbn [obind].
  2:{ rewrite (proj2 (Z.eqb_neq st _)) by done. simpl. eexists _, _, _, _. split; [reflexivity|].
      split; try done. left. done. }
  pose proof Hadm as [_ Hend [Hwp _] _].
  rewrite Z.eqb_refl. cbn [negb].
  assert (I1 : zinv f1) by apply U. pose proof (zo_get _ _ _ _ _ _ U) as Hd1.
  assert (Ewp : zd_wp (zone_opened d) = zd_wp d) by (unfold zone_opened; by destruct (is_open d)).
  assert (Ho1 : is_open (zone_opened d) = true) by (unfold zone_opened; by destruct (is_open d) eqn:?).
  destruct (zrwa_flush_spec f1 i (zone_opened d) (slba + n - 1) I1 Hd1 Hcfg) as (m & Em & Hfk & Hm2);
    [unfold is_active; by rewrite Ho1|rewrite Ewp; lia|].
  rewrite Ewp in Em, Hfk. rewrite Em. cbn [obind]. pose proof Hfk as [[Hm0 Hme] _ _].
  destruct (zrwa_slide_spec f1 i (zone_opened d) m I1 Hd1 Hcfg Ho1 ltac:(lia) ltac:(lia))
    as (ok & f2 & room & E2 & Har & Hm0' & Hok & I2 & Hot & Hsto & Hd2).
  match goal with |- context [obind ?x _] => change x with (if 0 <? m then
      let* (m0, f) := zrwa_allocate f1 i (u64 (LBA_TO_BYTE m)) in
      if m0 =? 0 then Ok (false, f) else let* f := __increase_write_ptr f i (u32 m) in Ok (true, f)
    else Ok (true, f1)) end.
  rewrite E2. cbn [obind].
  assert (Hoth : forall j, j <> i -> get_zone f2 j = get_zone f j).
  { intros j Hj. rewrite Hot by done. by apply U. }
  assert (Hst2 : zf_storage f2 = zf_storage f) by (rewrite Hsto; apply U).
  assert (Hroom : is_open d = true -> 0 < m ->
    exists room, area_room f i = Ok room /\ (ok = true <-> m * 512 <= room)).
  { intros Hod Hm1. exists room. split; [by rewrite <- (Hsame Hod)|auto]. }
  destruct ok; cbn [negb].
  2:{ eexists _, _, _, _. split; [reflexivity|]. split; try done. right. split; [done|].
      exists m. split; [done|]. split; [done|]. split; [done|]. split; [done|]. exact Hroom. }
  rewrite LBA_TO_BYTE_eq.
  destruct (ssd_advance_write_buffer_spec (zf_ssd f2) h (req_nsecs_start req) (n * 512) Hh)
    as (xfer & h2 & -> & Hh2 & _ & Hx). cbn [obind].
  rewrite (lba_to_lpn_spec spp z G) by apply I2. cbn [obind]. rewrite (zi_sp _ _ _ I2), (zg_secs _ _ G).
  rewrite divO_Ok by lia. cbn [obind]. unfold zone_end in *.
  assert (Hlo : i * zpgs <= zd_wp d / 8) by (apply Z.div_le_lower_bound; lia).
  assert (Hr0 : 0 <= m / 8) by (apply Z.div_pos; lia).
  assert (Hhi : zd_wp d / 8 + m / 8 <= i * zpgs + zpgs).
  { pose proof (Z.mul_div_le (zd_wp d) 8 ltac:(lia)). pose proof (Z.mul_div_le m 8 ltac:(lia)). lia. }
  destruct (zrwa_write_loop_spec (Z.to_nat (m / 8)) (req_sq_id req) xfer i f2 h2 xfer (zd_wp d / 8) (m / 8))
    as (f3 & h3 & t3 & -> & D & Hh3 & Ht3 & _); [done..|lia|]. cbn [obind].
  eexists _, _, _, _. split; [reflexivity|]. pose proof (dev_step_inv spp z f2 f3 I2 D) as I3.
  destruct D as (s & -> & _). split; try done. right. split; [done|].
  exists m. split; [done|]. split; [exact Hd2|]. split; [done|]. split; [done|]. exact Hroom.
Qed.

End Zrwa.
