(* ===== verification/ZnsProc.v ===== *)
(** * ZnsProc: reads, management of all zones, reports, and the dispatch *)
From stdpp Require Import base list numbers sets.
From Stdlib Require Import ZArith Lia.
From S2P Require Import Prelude ChannelModel SsdConfig Ssd SsdFacts Nvme Prp PrpFacts HostMem ZnsData ZnsIo.
From S2P Require Import ZnsMgmt ZnsInv ZnsState ZnsWrite ZnsCmd ZnsZrwa.

Open Scope Z_scope.
Open Scope nvmev_scope.

Section Proc.
Context `{ClockRange}.
Variables (spp : ssdparams) (z : znsparams).
Notation zinv := (zns_inv spp z).
Notation zl := (zlbas z).
Context (G : zgeom spp z).

(** ** Reads *)
Lemma zns_read_loop_spec fuel stime elpn f h t lpn :
  zinv f -> hw_ok h -> u64_ok stime -> u64_ok t -> 0 <= lpn <= elpn + 1 ->
  elpn < 4611686018427387904 -> elpn - lpn + 1 <= Z.of_nat fuel ->
  exists f' h' t', zns_read_loop fuel stime elpn f h t lpn = Ok (f', h', t') /\
    dev_step spp f f' /\ hw_ok h' /\ u64_ok t' /\ hw_ops h h' [].
Proof.
  revert f h t lpn. induction fuel as [|fuel IH]; intros f h t lpn I Hh Hst Ht Hl He Hf; simpl.
  - rewrite (proj2 (Z.ltb_lt elpn lpn)) by lia. eexists _, _, _. split; [reflexivity|].
    split; [by apply dev_step_refl with z|]. split; [done|]. split; [done|]. by apply hw_frame_ops.
  - destruct (Z.ltb_spec elpn lpn) as [E|E].
    { eexists _, _, _. split; [reflexivity|]. split; [by apply dev_step_refl with z|].
      split; [done|]. split; [done|]. by apply hw_frame_ops. }
    pose proof (zg_fp _ _ G) as Hfp.
    destruct (__lpn_to_ppa_total spp z G f (zi_sp _ _ _ I) (zi_zp _ _ _ I) lpn ltac:(lia)) as (ppa & -> & Hp).
    cbn [obind]. rewrite (zi_sp _ _ _ I), (zg_pgsz _ _ G), modO_Ok by lia. cbn [obind].
    pose proof (ppa_ranges ppa) as (Hpg & _). pose proof (Z.mod_pos_bound (ppa_pg ppa) _ (proj1 Hfp)) as Hb.
    rewrite (u64_id (elpn - lpn + 1)), (u64_id (_ - _ mod _)) by lia. set (pgs := Z.min _ _).
    rewrite (u64_id (pgs * 4096)) by lia.
    destruct (zns_advance_nand_spec spp z G f h (mk_nand_cmd USER_IO NAND_READ (pgs * 4096) stime false ppa) I Hh)
      as (t1 & f1 & h1 & -> & D & Hh1 & Ho & Ht1).
    { eapply (in_range spp z G); eauto; [apply u32_range|]. left. split; [done|]. lia. }
    cbn [obind]. rewrite u64_id by lia.
    destruct (IH f1 h1 (Z.max t1 t) (lpn + pgs)) as (f2 & h2 & t2 & -> & D2 & Hh2 & Ht2 & Ho2);
      [by eapply dev_step_inv|done|done|unfold u64_ok in *; lia|lia|done|lia|].
    eexists _, _, _. split; [reflexivity|]. split; [by eapply dev_step_trans|]. split; [done|]. split; [done|].
    exact (hw_ops_trans _ _ _ [] [] Ho Ho2).
Qed.

(** The status of a read. *)
Definition read_status (d : zone_descriptor) (i slba n : Z) : Z :=
  if decide (zd_state d = ZONE_STATE_OFFLINE) then NVME_SC_ZNS_ERR_OFFLINE
  else if slba + n <=? zone_end z i then NVME_SC_SUCCESS else NVME_SC_ZNS_ERR_BOUNDARY.

Lemma zone_of_lba slba : 0 <= slba -> slba / zl * zl <= slba < zone_end z (slba / zl).
Proof.
  destruct (zlbas_pos spp z G) as (Hz0 & _). unfold zone_end. intros Hs.
  pose proof (Z.mul_div_le slba zl Hz0). pose proof (Z.mul_succ_div_gt slba zl Hz0). lia.
Qed.

Lemma zns_read_spec f h req ret i d :
  zinv f -> hw_ok h -> u64_ok (req_nsecs_start req) ->
  0 <= rw_slba (req_cmd req) < nr_zones z * zl -> i = rw_slba (req_cmd req) / zl ->
  get_zone f i = Ok d ->
  exists f' h' ret', zns_read f h req ret = Ok (true, f', h', ret') /\
    zinv f' /\ hw_ok h' /\ zones_same f f' /\ hw_sched h' = hw_sched h /\
    ret_status ret' = read_status d i (rw_slba (req_cmd req)) (nlb (req_cmd req)).
Proof.
  intros I Hh Hst Hs Ei Hd. set (cmd := req_cmd req) in *.
  destruct (zone_bounds spp z G f i d I Hd) as (Hi & Hk & Hz0 & Hm & Hc).
  pose proof (nlb_range cmd) as Hn. set (slba := rw_slba cmd) in *.
  pose proof (zone_of_lba slba ltac:(lia)) as Hin. rewrite <- Ei in Hin.
  unfold zns_read. fold cmd slba. rewrite !(lba_to_lpn_spec spp z G) by apply I. cbn [obind].
  rewrite (lpn_to_zone_spec spp z G) by apply I. cbn [obind].
  rewrite (lpn_zone_of_lba spp z G), <- Ei, u32_id, Hd by nia. cbn [obind]. rewrite __nr_lbas_eq.
  set (n := nlb cmd) in *. rewrite (__check_boundary_error_spec spp z G) by (done || lia). cbn [obind].
  rewrite (same_zone z i) by (done || lia). rewrite (u64_id (slba + n - 1)) by lia.
  assert (Est : (if decide (zd_state d = ZONE_STATE_OFFLINE) then Ok NVME_SC_ZNS_ERR_OFFLINE
     else Ok (if slba + n <=? zone_end z i then NVME_SC_SUCCESS else NVME_SC_ZNS_ERR_BOUNDARY)) =
     Ok (read_status d i slba n)) by (unfold read_status; by destruct (decide _)).
  rewrite Est. cbn [obind]. set (stime := if LBA_TO_BYTE n <=? KB 4 then _ else _).
  assert (Hstime : u64_ok stime) by (unfold stime; destruct (LBA_TO_BYTE n <=? KB 4); apply u64_range).
  assert (Hhi : (slba + n - 1) / 8 < 4611686018427387904) by (apply Z.div_lt_upper_bound; lia).
  assert (Hle : 0 <= slba / 8 <= (slba + n - 1) / 8) by (split; [apply Z.div_pos|apply Z.div_le_mono]; lia).
  destruct (zns_read_loop_spec (Z.to_nat ((slba + n - 1) / 8 - slba / 8 + 1)) stime ((slba + n - 1) / 8) f h stime (slba / 8))
    as (f1 & h1 & t1 & -> & D & Hh1 & Ht1 & [_ Ho]); [done..|lia|done|lia|]. cbn [obind].
  destruct (ssd_advance_pcie_spec h1 t1 (u64 (n * secsz (zsp f))) Hh1 Ht1) as (t2 & h2 & -> & Hh2 & [_ Ho2] & _).
  cbn [obind]. eexists _, _, _. split; [reflexivity|]. split; [by eapply dev_step_inv|]. split; [done|].
  destruct D as (s & -> & _). split; [done|]. split; [|done]. by rewrite Ho2, Ho, app_nil_r.
Qed.

(** ** The explicit flush of a random-write area *)
Lemma __zmgmt_send_flush_spec f i d slba :
  zinv f -> 0 <= slba < nr_zones z * zl -> i = slba / zl -> get_zone f i = Ok d ->
  exists st f', __zmgmt_send_flush_explicit_zrwa f slba = Ok (st, f') /\
    (st = NVME_SC_SUCCESS /\ is_active d = true /\ zrwav d <> 0 /\ zd_wp d <= slba < zone_end z i /\
       slba < zd_wp d + lbas_per_zrwa z /\
       zone_upd spp z f f' i (zone_advance z i d (slba + 1 - zd_wp d)) \/
     st <> NVME_SC_SUCCESS /\ f' = f).
Proof.
  intros I Hs Ei Hd. destruct (zone_bounds spp z G f i d I Hd) as (Hi & Hk & Hz0 & Hm & Hc).
  destruct (zinv_counts spp z f i d I Hd) as (a & o & r & Hr & C).
  pose proof Hk as [K1 K2 K3 K4 K5]. unfold __zmgmt_send_flush_explicit_zrwa, zone_end in *.
  rewrite (lba_to_zone_spec spp z G) by (apply I || done). cbn [obind]. rewrite <- Ei, Hd. cbn [obind].
  rewrite (zone_to_slba_spec spp z G) by (apply I || lia). cbn [obind].
  assert (Hno : forall st, st <> NVME_SC_SUCCESS -> exists st' f', Ok (st, f) = Ok (st', f') /\
    (st' = NVME_SC_SUCCESS /\ is_active d = true /\ zrwav d <> 0 /\ zd_wp d <= slba < i * zl + zl /\
       slba < zd_wp d + lbas_per_zrwa z /\
       zone_upd spp z f f' i (zone_advance z i d (slba + 1 - zd_wp d)) \/
     st' <> NVME_SC_SUCCESS /\ f' = f)) by (intros st Hst; eexists _, _; split; [reflexivity|]; by right).
  destruct (Z.eqb_spec (zrwav d) 0) as [Ez|Ez]; [by apply Hno|].
  pose proof (zrwa_cfg_of spp z f i d I Hd Ez) as (Hfg & Hzr & _).
  rewrite (zi_zp _ _ _ I), K2.
  destruct (negb _) eqn:Eb; [by apply Hno|]. apply negb_false_iff in Eb. boolify.
  assert (Hwp : 0 <= zd_wp d) by nia. rewrite modO_Ok by lia. cbn [obind].
  assert (He : u64 (i * zl + zl - 1) = i * zl + zl - 1) by (apply u64_id; nia).
  rewrite He, (u64_id (zd_wp d + lbas_per_zrwa z - 1)) in * by lia.
  destruct (negb _); [by apply Hno|].
  destruct (zd_state d) eqn:Es; try by apply Hno.
  all: assert (Ha : is_active d = true) by (unfold is_active, is_open; by rewrite Es).
  all: pose proof (zone_ok_advance z i d (slba + 1 - zd_wp d) Hz0 Hk Ha) as Hka; unfold zone_end in Hka.
  all: erewrite with_zone_eq by exact Hd; cbn [obind]; rewrite (u64_id (slba + 1)), (u64_id (i * zl + zl)) by nia.
  all: unfold zone_advance, zone_end in *; replace (zd_wp d + (slba + 1 - zd_wp d)) with (slba + 1) in * by lia.
  all: unfold b2z, is_zrwa, is_active, is_open in C; rewrite Es, (proj2 (Z.eqb_neq _ _) Ez) in C; simpl in C.
  all: destruct (Z.eqb_spec (slba + 1) (i * zl + zl)) as [E|E]; cbn [obind].
  all: rewrite ?decide_False, ?decide_True by done; cbn [obind].
  all: repeat zstep Hd Hr; unfold change_zone_state;
    try (erewrite with_zone_eq by (by apply (get_zone_set f i d)); cbn [obind]).
  all: eexists _, _; (split; [reflexivity|]); left; (split; [done|]); (split; [done|]); (split; [done|]);
    (split; [lia|]); (split; [lia|]).
  all: try (eapply (zone_upd_intro spp z f _ i d _ a o r a o r);
    [done|done|done|split; [done|done|by split]|done|apply Hka; lia|done|rewrite ?is_active_wp, ?is_open_wp, ?is_zrwa_wp; lia..]).
  all: eapply (zone_upd_intro spp z f _ i d _ a o r);
    [done|done|done|split; [simpl; by rewrite list_insert_insert_eq|reflexivity|by split]|done|apply Hka; lia|done|..];
    unfold is_zrwa, is_active, is_open, b2z; simpl; rewrite ?Es, ?(proj2 (Z.eqb_neq _ _) Ez); simpl;
    rewrite ?u32_id by lia; lia.
Qed.

(** ** Zone management send *)
Lemma __zmgmt_send_action f i d slba a opt :
  zinv f -> 0 <= slba < nr_zones z * zl -> i = slba / zl -> get_zone f i = Ok d ->
  zrwa_cfg z \/ opt = 0 ->
  exists st f', __zmgmt_send f slba (zsa_code a) opt = Ok (Some st, f') /\ act_post spp z f f' i d a opt st.
Proof.
  intros I Hs Ei Hd Hz. unfold __zmgmt_send. rewrite (lba_to_zone_spec spp z G) by (apply I || done).
  cbn [obind]. rewrite <- Ei. destruct a; simpl.
  - destruct (__zmgmt_send_close_zone_spec spp z G f i d opt I Hd Hz) as (st & f' & -> & Hp). by exists st, f'.
  - destruct (__zmgmt_send_finish_zone_spec spp z G f i d opt I Hd Hz) as (st & f' & -> & Hp). by exists st, f'.
  - destruct (__zmgmt_send_open_zone_spec spp z G f i d opt I Hd Hz) as (st & f' & -> & Hp). by exists st, f'.
  - destruct (__zmgmt_send_reset_zone_spec spp z G f i d opt I Hd Hz) as (st & f' & -> & Hp). by exists st, f'.
  - destruct (__zmgmt_send_offline_zone_spec spp z G f i d opt I Hd Hz) as (st & f' & -> & Hp). by exists st, f'.
Qed.

(** Any action at all keeps the invariant. *)
Lemma __zmgmt_send_inv f slba action opt :
  zinv f -> 0 <= slba < nr_zones z * zl -> zrwa_cfg z \/ opt = 0 ->
  exists st f', __zmgmt_send f slba action opt = Ok (st, f') /\ zinv f'.
Proof.
  intros I Hs Hz. destruct (zlbas_pos spp z G) as (Hz0 & _).
  assert (Hi : 0 <= slba / zl < nr_zones z) by (split; [apply Z.div_pos|apply Z.div_lt_upper_bound]; lia).
  destruct (nthZ_in_range (zone_descs f) (slba / zl)) as [d Hd]; [rewrite (zi_len _ _ _ I); lia|].
  assert (Ha : (exists a, action = zsa_code a) \/ action = ZSA_FLUSH_EXPL_ZRWA \/
    (forall a, action <> zsa_code a) /\ action <> ZSA_FLUSH_EXPL_ZRWA).
  { destruct (Z.eq_dec action ZSA_FLUSH_EXPL_ZRWA); [by right; left|].
    destruct (Z.eq_dec action ZSA_CLOSE_ZONE); [left; by exists ACT_CLOSE|].
    destruct (Z.eq_dec action ZSA_FINISH_ZONE); [left; by exists ACT_FINISH|].
    destruct (Z.eq_dec action ZSA_OPEN_ZONE); [left; by exists ACT_OPEN|].
    destruct (Z.eq_dec action ZSA_RESET_ZONE); [left; by exists ACT_RESET|].
    destruct (Z.eq_dec action ZSA_OFFLINE_ZONE); [left; by exists ACT_OFFLINE|].
    right. right. split; [by intros []|done]. }
  destruct Ha as [[a ->]|[->|[Hn Hn']]].
  - destruct (__zmgmt_send_action f _ d slba a opt I Hs eq_refl Hd Hz) as (st & f' & -> & Hp).
    eexists _, _. split; [reflexivity|]. apply Hp.
  - unfold __zmgmt_send. rewrite (lba_to_zone_spec spp z G) by (apply I || done). cbn [obind]. simpl.
    destruct (__zmgmt_send_flush_spec f _ d slba I Hs eq_refl Hd) as (st & f' & -> & [(_ & _ & _ & _ & _ & U)|(_ & ->)]);
      cbn [obind]; eexists _, _; (split; [reflexivity|]); [apply U|done].
  - unfold __zmgmt_send. rewrite (lba_to_zone_spec spp z G) by (apply I || done). cbn [obind].
    rewrite (proj2 (Z.eqb_neq action ZSA_CLOSE_ZONE) (Hn ACT_CLOSE)), (proj2 (Z.eqb_neq action ZSA_FINISH_ZONE) (Hn ACT_FINISH)),
      (proj2 (Z.eqb_neq action ZSA_OPEN_ZONE) (Hn ACT_OPEN)), (proj2 (Z.eqb_neq action ZSA_RESET_ZONE) (Hn ACT_RESET)),
      (proj2 (Z.eqb_neq action ZSA_OFFLINE_ZONE) (Hn ACT_OFFLINE)), (proj2 (Z.eqb_neq _ _) Hn').
    eexists _, _. by split.
Qed.

(** A zone after an action on all zones. *)
Definition zone_acted (a : zaction) (opt : Z) (d d' : zone_descriptor) : Prop :=
  match zone_next a (zd_state d) with
  | None => d' = d
  | Some s' => d' = zone_after a opt d s' \/ a = ACT_OPEN /\ d' = d
  end.

Lemma select_all_spec f a opt :
  zinv f -> zrwa_cfg z \/ opt = 0 ->
  exists f', forO 0 (nr_zones z) f (fun f zid =>
      let* s := zone_to_slba f zid in
      let* (_, f) := __zmgmt_send f s (zsa_code a) opt in Ok f) = Ok f' /\
    zinv f' /\ forall i d, get_zone f i = Ok d -> exists d', get_zone f' i = Ok d' /\ zone_acted a opt d d'.
Proof.
  intros I Hz. destruct (zlbas_pos spp z G) as (Hz0 & _).
  edestruct (forO_ind (fun k f' => zinv f' /\ forall i d, get_zone f i = Ok d ->
      exists d', get_zone f' i = Ok d' /\ if i <? k then zone_acted a opt d d' else d' = d)
    0 (nr_zones z) f) as (f' & -> & I' & Hall).
  - pose proof (zg_nr _ _ G). lia.
  - split; [done|]. intros i d Hd. exists d. split; [done|].
    destruct (get_zone_lookup f i d Hd) as [Hi _]. by rewrite (proj2 (Z.ltb_ge i 0)) by lia.
  - intros k fk Hk (Ik & Hk'). simpl.
    rewrite (zone_to_slba_spec spp z G) by (apply Ik || lia). cbn [obind].
    destruct (nthZ_in_range (zone_descs f) k) as [d Hd]; [rewrite (zi_len _ _ _ I); lia|].
    destruct (Hk' k d Hd) as (dk & Hdk & Edk). rewrite Z.ltb_irrefl in Edk. subst dk.
    destruct (__zmgmt_send_action fk k d (k * zl) a opt Ik) as (st & f1 & -> & [P1 P2 P3 P4]);
      [nia|by rewrite Z.div_mul by lia|done|done|]. cbn [obind].
    eexists. split; [reflexivity|]. split; [done|]. intros i di Hdi.
    destruct (Z.eq_dec i k) as [->|Hne].
    + assert (di = d) as -> by (unfold get_zone in Hdi; congruence).
      rewrite (proj2 (Z.ltb_lt k (k + 1))) by lia. unfold zone_acted.
      destruct (zone_next a (zd_state d)) as [s'|].
      * destruct P4 as [(_ & Hg & _)|(-> & -> & _)]; [by eauto|]. exists d. split; [done|]. by right.
      * destruct P4 as [_ ->]. by exists d.
    + rewrite P3 by done. destruct (Hk' i di Hdi) as (d' & Hd' & Hc). exists d'. split; [done|].
      destruct (Z.ltb_spec i k), (Z.ltb_spec i (k + 1)); try lia; done.
  - exists f'. split; [done|]. split; [done|]. intros i d Hd. destruct (Hall i d Hd) as (d' & Hd' & Hc).
    exists d'. split; [done|]. destruct (get_zone_lookup f i d Hd) as [Hi _]. rewrite (zi_len _ _ _ I) in Hi.
    by rewrite (proj2 (Z.ltb_lt i _)) in Hc by lia.
Qed.

(** The whole command: it returns unless it sets an unassigned status. *)
Lemma zns_zmgmt_send_inv f req :
  zinv f -> 0 <= zms_slba (req_cmd req) < nr_zones z * zl ->
  zrwa_cfg z \/ zms_zsaso (req_cmd req) = 0 ->
  match zns_zmgmt_send f req with
  | Ok (f', _) => zinv f'
  | Fault => exists f', __zmgmt_send f (zms_slba (req_cmd req)) (zms_zsa (req_cmd req))
                          (zms_zsaso (req_cmd req)) = Ok (None, f')
  | _ => False
  end.
Proof.
  intros I Hs Hz. unfold zns_zmgmt_send. set (cmd := req_cmd req) in *.
  rewrite (lba_to_zone_spec spp z G) by (apply I || done). cbn [obind]. rewrite (zi_zp _ _ _ I).
  destruct (negb (zms_select_all cmd =? 0)).
  - edestruct (forO_ind (fun _ f' => zinv f') 0 (nr_zones z) f) as (f' & -> & I').
    + pose proof (zg_nr _ _ G). lia.
    + done.
    + intros k fk Hk Ik. simpl. rewrite (zone_to_slba_spec spp z G) by (apply Ik || lia). cbn [obind].
      destruct (zlbas_pos spp z G) as (Hz0 & _).
      destruct (__zmgmt_send_inv fk (k * zl) (zms_zsa cmd) (zms_zsaso cmd) Ik) as (st & f1 & -> & I1);
        [nia|done|]. cbn [obind]. eauto.
    + done.
  - destruct (__zmgmt_send_inv f (zms_slba cmd) (zms_zsa cmd) (zms_zsaso cmd) I Hs Hz) as ([st|] & f1 & E & I1);
      rewrite E; cbn [obind of_option]; eauto.
Qed.

(** ** Zone management receive *)
Lemma put_bytes_spec l off bs :
  0 <= off -> off + Z.of_nat (length bs) <= Z.of_nat (length l) ->
  exists l', put_bytes l off bs = Ok l' /\ length l' = length l /\
    take (Z.to_nat off) l' = take (Z.to_nat off) l /\
    take (length bs) (drop (Z.to_nat off) l') = bs.
Proof.
  intros Ho Hl. unfold put_bytes. rewrite (proj2 (Z.leb_le 0 off)), (proj2 (Z.leb_le _ _)) by lia.
  cbn [andb]. eexists. split; [reflexivity|].
  assert (Ht : length (take (Z.to_nat off) l) = Z.to_nat off) by (rewrite length_take; lia).
  split; [rewrite !length_app, length_take, length_drop; lia|]. split.
  - rewrite <- Ht at 1. by rewrite take_app_length.
  - rewrite <- Ht at 1. rewrite drop_app_length. by rewrite take_app_length.
Qed.

Lemma length_zd_bytes d : length (zd_bytes d) = 64%nat.
Proof. done. Qed.

Lemma length_concat_zd l : length (concat (map zd_bytes l)) = (64 * length l)%nat.
Proof.
  induction l as [|d l IH]; [done|].
  change (concat (map zd_bytes (d :: l))) with (zd_bytes d ++ concat (map zd_bytes l)).
  rewrite length_app, IH, length_zd_bytes. simpl. lia.
Qed.

Lemma concat_zd_at l (k : nat) d :
  l !! k = Some d -> take 64 (drop (64 * k) (concat (map zd_bytes l))) = zd_bytes d.
Proof.
  revert k. induction l as [|x l IH]; intros [|k] Hk; simpl in Hk; try done.
  - injection Hk as ->. change (concat (map zd_bytes (d :: l))) with (zd_bytes d ++ concat (map zd_bytes l)).
    rewrite Nat.mul_0_r, drop_0.
    rewrite <- (length_zd_bytes d). apply take_app_length.
  - change (concat (map zd_bytes (x :: l))) with (zd_bytes x ++ concat (map zd_bytes l)).
    replace (64 * S k)%nat with (length (zd_bytes x) + 64 * k)%nat
      by (rewrite length_zd_bytes; lia). rewrite <- drop_drop, drop_app_length. by apply IH.
Qed.

(** Entry [k] of a report. *)
Definition report_entry (r : list Z) (k : nat) : list Z := take 64 (drop (64 + 64 * k) r).

Record report_of (f : zns_ftl) (start n : Z) (r : list Z) : Prop := {
  rp_nr : take 8 r = le_bytes 8 n;
  rp_entry : forall k d, 0 <= k < n -> get_zone f (start + k) = Ok d ->
    report_entry r (Z.to_nat k) = zd_bytes d;
}.

Lemma __fill_zone_report_spec f cmd :
  zinv f -> let start := u32 (zmr_slba cmd / zl) in let n := zones_to_report f cmd start in
  match __fill_zone_report f cmd with
  | Ok f' => zinv f' /\ zones_same f f' /\ report_of f start n (report_buffer f') /\
             start + n <= nr_zones z
  | Fault => nr_zones z < start + n
  | _ => False
  end.
Proof.
  intros I start n. unfold __fill_zone_report. rewrite (lba_to_zone_total spp z G) by apply I. cbn [obind].
  fold start. fold n. pose proof (zi_rep _ _ _ I) as Hrep. unfold sizeof_zone_report in Hrep.
  pose proof (zg_nr _ _ G) as Hnr. pose proof (zi_len _ _ _ I) as Hlen.
  assert (Hn0 : 0 <= n) by (unfold n, zones_to_report; destruct (_ =? 0); apply u64_range).
  pose proof (u32_range (zmr_slba cmd / zl)) as Hst. fold start in Hst.
  destruct (put_bytes_spec (report_buffer f) 0 (le_bytes 8 n)) as (r1 & -> & Hl1 & _ & Ht1);
    [done|simpl; lia|]. cbn [obind].
  rewrite Hlen. destruct (Z.leb_spec (start + n) (nr_zones z)) as [E|E]; [|done].
  set (zds := take _ _).
  assert (Hzl : Z.of_nat (length zds) = n) by (unfold zds; rewrite length_take, length_drop; lia).
  destruct (put_bytes_spec r1 64 (concat (map zd_bytes zds))) as (r2 & -> & Hl2 & Hp2 & Ht2).
  - done.
  - rewrite length_concat_zd. lia.
  - cbn [obind]. split; [|split; [done|split; [|done]]].
    + destruct I as [I1 I2 I3 I4 I5 I6 I7 I8 I9 I10]. split; try done. simpl. unfold sizeof_zone_report. lia.
    + split; simpl.
      * change (Z.to_nat 64) with 64%nat in Hp2. rewrite drop_0 in Ht1. change (length (le_bytes 8 n)) with 8%nat in Ht1.
        rewrite <- Ht1. transitivity (take 8 (take 64 r2)); [by rewrite take_take|].
        rewrite Hp2. by rewrite take_take.
      * intros k d Hk Hd. unfold report_entry. apply get_zone_lookup in Hd as [_ Hd].
        change (Z.to_nat 64) with 64%nat in Ht2. rewrite length_concat_zd in Ht2.
        assert (Hz : zds !! Z.to_nat k = Some d).
        { unfold zds. rewrite lookup_take_lt by lia. rewrite lookup_drop. rewrite <- Hd. f_equal. lia. }
        rewrite <- (concat_zd_at zds (Z.to_nat k) d Hz). rewrite <- Ht2 at 1.
        rewrite skipn_firstn_comm, take_take, drop_drop. f_equal.
        apply lookup_lt_Some in Hz. lia.
Qed.

(** The report of a command stays inside the zones, the report buffer and the
    pages of the host. *)
Record report_fits (f : zns_ftl) (host : mem) (cmd : nvme_command) : Prop := {
  rf_zones : u32 (zmr_slba cmd / zl) + zones_to_report f cmd (u32 (zmr_slba cmd / zl)) <= nr_zones z;
  rf_bytes : zmr_bytes cmd <= sizeof_zone_report + 64 * nr_zones z;
  rf_prp : prp_wf host (prp1 cmd) (prp2 cmd) (zmr_bytes cmd);
  rf_disjoint : prp_disjoint host (prp1 cmd) (prp2 cmd) (zmr_bytes cmd);
}.

Lemma zns_zmgmt_recv_inv f host req :
  zinv f ->
  match zns_zmgmt_recv f host req with
  | Ok (f', _, _) => zinv f'
  | Fault => ~ report_fits f host (req_cmd req)
  | _ => False
  end.
Proof.
  intros I. unfold zns_zmgmt_recv, __check_zmgmt_rcv_option_supported.
  rewrite (lba_to_zone_total spp z G) by apply I. cbn [obind].
  destruct (_ && _); [|done].
  pose proof (__fill_zone_report_spec f (req_cmd req) I) as Hf. simpl in Hf.
  destruct (__fill_zone_report f (req_cmd req)) as [f'| | |]; try done; cbn [obind].
  2:{ intros [Hz _ _ _]. lia. }
  unfold __prp_transfer_data. set (len := zmr_bytes _).
  assert (Hl : 0 <= len) by (unfold len, zmr_bytes; pose proof (u32_range (zmr_nr_dw (req_cmd req) + 1)); lia).
  pose proof (prp_transfer_ends host (fun a => nth (Z.to_nat a) (report_buffer f') 0) (prp1 (req_cmd req))
    (prp2 (req_cmd req)) 0 len (Z.of_nat (length (report_buffer f'))) PRP_TO_HOST Hl) as Ht.
  destruct (prp_transfer _ _ _ _ _ _ _ _) as [[h' ?]| | |] eqn:Et; try done; cbn [obind]; [apply Hf|].
  intros [_ Hb Hw Hd]. destruct Hf as (I' & _).
  destruct (prp_transfer_spec host (fun a => nth (Z.to_nat a) (report_buffer f') 0) (prp1 (req_cmd req))
    (prp2 (req_cmd req)) 0 len (Z.of_nat (length (report_buffer f'))) Hw PRP_TO_HOST) as (h' & dev & E & _);
    [done|rewrite (zi_rep _ _ _ I'); fold len in Hb; lia|congruence].
Qed.

(** ** The dispatch *)
Record ns_inv (ns : zns_ns) : Prop := {
  nz_csi : zn_csi ns = NVME_CSI_ZNS;
  nz_parts : zn_nr_parts ns = 1;
  nz_ftl : zinv (zn_ftl ns);
}.

Lemma zns_flush_spec ns h :
  ns_inv ns -> hw_ok h ->
  exists h' ret, zns_flush ns h = Ok (h', ret) /\ hw_ok h' /\ hw_ops h h' [] /\ ret_status ret = NVME_SC_SUCCESS.
Proof.
  intros [N1 N2 N3] Hh. unfold zns_flush. rewrite N2.
  set (h1 := set_clk h _). change (seqZ 0 1) with [0]. unfold forO. simpl.
  destruct (ssd_next_idle_time_Ok (zf_ssd (zn_ftl ns)) h1 (zi_ssd _ _ _ N3)) as (t & ->). cbn [obind].
  eexists _, _. split; [reflexivity|]. split; [done|]. split; [|done]. split; simpl; [done|]. by rewrite app_nil_r.
Qed.

(** The sector of a command that names one lies in the namespace. *)
Definition lba_in_range (cmd : nvme_command) : Prop :=
  opcode cmd ∈ [nvme_cmd_write; nvme_cmd_read; nvme_cmd_zone_append; nvme_cmd_zone_mgmt_send] ->
  0 <= rw_slba cmd < nr_zones z * zl.

Lemma zns_write_inv f h req ret :
  zinv f -> hw_ok h -> u64_ok (req_nsecs_start req) ->
  0 <= rw_slba (req_cmd req) < nr_zones z * zl ->
  match zns_write f h req ret with
  | Ok (_, f', h', _, _) => zinv f' /\ hw_ok h'
  | Bug => exists d, get_zone f (rw_slba (req_cmd req) / zl) = Ok d /\ zrwav d <> 0 /\
      zd_state d = ZONE_STATE_CLOSED
  | _ => False
  end.
Proof.
  intros I Hh Hst Hs. destruct (zlbas_pos spp z G) as (Hz0 & _).
  pose proof (zg_cap _ _ G) as Hc. fold zl in Hc.
  assert (Hi : 0 <= rw_slba (req_cmd req) / zl < nr_zones z)
    by (split; [apply Z.div_pos|apply Z.div_lt_upper_bound]; lia).
  destruct (nthZ_in_range (zone_descs f) (rw_slba (req_cmd req) / zl)) as [d Hd]; [rewrite (zi_len _ _ _ I); lia|].
  unfold zns_write. rewrite (lba_to_lpn_spec spp z G) by apply I. cbn [obind].
  rewrite (lpn_to_zone_spec spp z G) by apply I. cbn [obind].
  rewrite (lpn_zone_of_lba spp z G) by lia. rewrite u32_id by nia.
  change (nthZ (zone_descs f)) with (get_zone f) in Hd. rewrite Hd. cbn [obind].
  destruct (Z.eqb_spec (zrwav d) 0) as [E|E].
  - destruct (__zns_write_spec spp z G f h req ret _ d I Hh Hst Hs eq_refl Hd)
      as (ok & f' & h' & ret' & -> & [W1 W2 _ _] & _). done.
  - destruct (__zns_write_zrwa_spec spp z G f h req ret _ d I Hh Hst Hs eq_refl Hd E)
      as [(-> & Hc' & _)|(ok & f' & h' & ret' & -> & [W1 W2 _ _ _])]; [by exists d|done].
Qed.

End Proc.
