(* ===== verification/ZnsInit.v ===== *)
(** * ZnsInit: a fresh zoned namespace satisfies the invariant

    [zns_init_namespace] of zns_ftl.c, and the configuration WD_ZN540 of
    ssd_config.h for every capacity of whole zones below 2 TiB. *)
From stdpp Require Import base list numbers sets.
From Stdlib Require Import ZArith Lia.
From S2P Require Import Prelude ChannelModel SsdConfig Ssd SsdFacts SsdInit Nvme Prp ZnsData ZnsIo.
From S2P Require Import ZnsMgmt ZnsInv ZnsState ZnsWrite ZnsCmd ZnsZrwa ZnsProc.

Open Scope Z_scope.
Open Scope nvmev_scope.

Section Init.
Variables (spp : ssdparams) (z : znsparams).
Notation zl := (zlbas z).
Context (G : zgeom spp z).

Lemma byte_to_lba_zone : BYTE_TO_LBA (zone_size z) = zl.
Proof. unfold BYTE_TO_LBA, LBA_BITS, zlbas. by rewrite Z.shiftr_div_pow2. Qed.

Definition zones_0 (n : Z) : list zone_descriptor := map (fun i => zone_0 (i * zl) zl) (seqZ 0 n).

Lemma zones_0_at n i d : nthZ (zones_0 n) i = Ok d -> 0 <= i < n /\ d = zone_0 (i * zl) zl.
Proof.
  intros Hd. pose proof (nthZ_range _ _ _ Hd) as Hr. unfold zones_0 in *.
  rewrite length_map, length_seqZ in Hr. apply nthZ_Ok in Hd as [H0 Hd].
  rewrite list_lookup_fmap, lookup_seqZ_lt in Hd by lia. injection Hd as <-. split; [lia|].
  rewrite Z.add_0_l, Z2Nat.id by lia. done.
Qed.

Lemma count_zones_0 P n : P (zone_0 0 0) = false -> (forall s c, P (zone_0 s c) = P (zone_0 0 0)) -> count P (zones_0 n) = 0.
Proof.
  intros H0 HP. unfold count, zones_0. rewrite map_map.
  induction (seqZ 0 n) as [|x l IH]; simpl; [done|]. rewrite HP, H0, IH. done.
Qed.

Lemma init_descriptors : forO 0 (nr_zones z) (0, []) (fun '(s, l) _ =>
    Ok (u64 (s + zl), l ++ [zone_0 s zl])) = Ok (nr_zones z * zl, zones_0 (nr_zones z)).
Proof.
  destruct (zlbas_pos spp z G) as (H0 & _). pose proof (zg_cap _ _ G) as Hc. fold zl in Hc.
  pose proof (zg_nr _ _ G) as Hn.
  edestruct (forO_ind (fun k '(s, l) => s = k * zl /\ l = zones_0 k) 0 (nr_zones z) (0, [] : list zone_descriptor))
    as ([s l] & E & -> & ->); [lia|done| |exact E].
  intros k [s l] Hk [-> ->]. eexists. split; [reflexivity|]. split; [rewrite u64_id by nia; lia|].
  unfold zones_0. rewrite (seqZ_app 0 k 1) by lia. rewrite map_app. done.
Qed.

Lemma zns_init_ftl_spec s mapped report0 :
  ssd_ok s -> sp s = spp -> Z.of_nat (length report0) = sizeof_zone_report + 64 * nr_zones z ->
  exists f, zns_init_ftl z s mapped report0 = Ok f /\ zns_inv spp z f /\
    (forall i, 0 <= i < nr_zones z -> get_zone f i = Ok (zone_0 (i * zl) zl)) /\
    res_infos f = replicate 3 (mk_res 0 (nr_zones z)) /\ zf_storage f = mapped /\ zf_ssd f = s.
Proof.
  intros Hs Hsp Hrep. destruct (zlbas_pos spp z G) as (H0 & _). pose proof (zg_cap _ _ G) as Hc. fold zl in Hc.
  pose proof (zg_nr _ _ G) as Hn. unfold zns_init_ftl, __init_descriptor. simpl.
  rewrite byte_to_lba_zone, init_descriptors. cbn [obind]. eexists. split; [reflexivity|].
  unfold __init_resource. simpl.
  assert (Hz : forall i d, nthZ (zones_0 (nr_zones z)) i = Ok d -> zone_ok z i d /\ zrwav d = 0).
  { intros i d [Hi ->]%zones_0_at. split; [|done]. split; simpl; try lia; done. }
  split; [split; simpl|split; [|done]].
  - exact Hsp.
  - done.
  - unfold zones_0. rewrite length_map, length_seqZ. lia.
  - intros i d Hd. by apply Hz.
  - eexists _, _, _. split; [reflexivity|]. split; simpl; rewrite ?count_zones_0; try done; try lia; nia.
  - intros Hw. rewrite (proj2 (Z.eqb_neq _ _) Hw). eexists. split; [reflexivity|]. rewrite length_replicate. lia.
  - intros Hw. rewrite (proj2 (Z.eqb_neq _ _) Hw). eexists. split; [reflexivity|]. rewrite length_replicate. lia.
  - right. intros i d Hd. by apply Hz in Hd as [_ ?].
  - done.
  - done.
  - intros i Hi. destruct (nthZ_in_range (zones_0 (nr_zones z)) i) as [d Hd].
    + unfold zones_0. rewrite length_map, length_seqZ. lia.
    + unfold get_zone. simpl. rewrite Hd. by apply zones_0_at in Hd as [_ ->].
Qed.

Lemma zns_init_namespace_spec cfg zc zpp0 report0 mapped size cpu :
  bandwidth_ok (ch_bandwidth spp) -> bandwidth_ok (pcie_bandwidth spp) ->
  ssd_init_params cfg size 1 = Ok spp -> zns_init_params zc zpp0 spp size = Ok z ->
  Z.of_nat (length report0) = sizeof_zone_report + 64 * nr_zones z ->
  exists ns pcie wb, zns_init_namespace cfg zc zpp0 report0 mapped size cpu = Ok (ns, pcie, wb) /\
    ns_inv spp z ns /\ ch_inv pcie /\
    (forall i, 0 <= i < nr_zones z -> get_zone (zn_ftl ns) i = Ok (zone_0 (i * zl) zl)) /\
    zf_storage (zn_ftl ns) = mapped.
Proof.
  intros Hb1 Hb2 Hspp Hz Hrep. pose proof (zg_chs _ _ G) as Hch.
  destruct (ssd_init_fresh spp Hb1 Hb2 ltac:(lia) cpu) as (s & pcie & Es & Hf & Hp).
  destruct (zns_init_ftl_spec s mapped report0) as (f & Ef & I & Hzn & _ & Hst & _);
    [by apply (fresh_ssd_ok spp)|by apply (fs_sp spp)|done|].
  unfold zns_init_namespace. rewrite Hspp. cbn [obind]. rewrite Es. cbn [obind]. rewrite Hz. cbn [obind].
  rewrite Ef. cbn [obind]. by eexists _, _, _.
Qed.
End Init.

(** ** The configuration WD_ZN540 *)
Lemma params_zn540 k zpp0 :
  0 < k < 1024 ->
  exists spp z, ssd_init_params WD_ZN540_flash (k * GB 2) 1 = Ok spp /\
    zns_init_params WD_ZN540_zones zpp0 spp (k * GB 2) = Ok z /\
    zgeom spp z /\ nr_zones z = k /\ zone_size z = 2147483648 /\ bandwidth_ok (ch_bandwidth spp) /\ bandwidth_ok (pcie_bandwidth spp).
Proof.
  intros Hk. change (GB 2) with 2147483648.
  assert (Hex : exists spp, ssd_init_params WD_ZN540_flash (k * 2147483648) 1 = Ok spp /\
    nchs spp = 8 /\ luns_per_ch spp = 4 /\ tt_luns spp = 32 /\ pgs_per_oneshotpg spp = 24 /\
    pgs_per_flashpg spp = 8 /\ secsz spp = 512 /\ secs_per_pg spp = 8 /\ pgsz spp = 4096 /\
    write_unit_size spp = 512 /\ cell_mode spp = 3 /\ length (pg_4kb_rd_lat spp) = 3%nat /\
    length (pg_rd_lat spp) = 3%nat /\ max_ch_xfer_size spp = 32768 /\ ch_bandwidth spp = 450 /\
    pcie_bandwidth spp = 3050).
  { eexists. split; [reflexivity|]. repeat (split; [reflexivity|]). reflexivity. }
  destruct Hex as (spp & Hspp & E1 & E2 & E3 & E4 & E5 & E6 & E7 & E8 & E9 & E10 & E11 & E12 & E13 & E14 & E15).
  exists spp. unfold zns_init_params. rewrite E6, E8.
  change (ZONE_SIZE WD_ZN540_zones) with 2147483648. rewrite divO_Ok by lia. rewrite Z.div_mul by lia.
  cbn [obind]. rewrite !divO_Ok by lia. cbn [obind].
  change (zone_size (mk_znsparams _ _ _ _ (u32 2147483648) _ _ _ _ _ _ _)) with 2147483648.
  rewrite modO_Ok by lia. rewrite Z.mod_mul by lia. cbn [obind].
  eexists. split; [done|]. split; [reflexivity|]. rewrite u32_id by lia.
  split; [|split; [done|]; split; [done|]; split; [rewrite E14|rewrite E15]; by split].
  split; rewrite ?E1, ?E2, ?E3, ?E4, ?E5, ?E6, ?E7, ?E8, ?E9; try done; simpl;
    try (change (u32 2147483648) with 2147483648); try lia; try done.
  - change (2147483648 / 512) with 4194304. lia.
  - split; rewrite ?E5, ?E10, ?E13; done.
Qed.
