(* ===== verification/Lines.v ===== *)
(** * Lines: the super-blocks of src/conv_ftl.c as nodes of the victim queue

    [struct line] and the [victim_line_*] callbacks that conv_ftl.c hands to
    the priority queue, as the [PqNode] instance of Pqueue over the array
    [lm->lines], with its laws. *)
From stdpp Require Import base list numbers.
From Stdlib Require Import ZArith Lia.
From S2P Require Import Prelude Pqueue.

Open Scope Z_scope.
Open Scope nvmev_scope.

(** [struct line]; its list entry is kept in the lists of [line_mgmt]. *)
Record line := mk_line { ln_id : Z; ln_ipc : Z; ln_vpc : Z; ln_pos : Z }.

Definition set_ln_vpc (l : line) (v : Z) : line := mk_line (ln_id l) (ln_ipc l) v (ln_pos l).
Definition set_ln_ipc (l : line) (v : Z) : line := mk_line (ln_id l) v (ln_vpc l) (ln_pos l).
Definition set_ln_pos (l : line) (v : Z) : line := mk_line (ln_id l) (ln_ipc l) (ln_vpc l) v.

Definition victim_line_cmp_pri (next curr : Z) : bool := curr <? next.

Definition victim_line_get_pri (ls : list line) (a : Z) : outcome Z :=
  let* l := nthZ ls a in Ok (u64 (ln_vpc l)).
Definition victim_line_set_pri (ls : list line) (a pri : Z) : outcome (list line) :=
  alterZ (fun l => Ok (set_ln_vpc l (s32 pri))) ls a.
Definition victim_line_get_pos (ls : list line) (a : Z) : outcome Z :=
  let* l := nthZ ls a in Ok (ln_pos l).
Definition victim_line_set_pos (ls : list line) (a pos : Z) : outcome (list line) :=
  alterZ (fun l => Ok (set_ln_pos l pos)) ls a.

#[export] Instance line_node : PqNode (list line) := {
  getpri := victim_line_get_pri;
  setpri := victim_line_set_pri;
  getpos := victim_line_get_pos;
  setpos := victim_line_set_pos;
}.

#[export] Instance victim_order : PqOrder victim_line_cmp_pri.
Proof.
  split; unfold victim_line_cmp_pri; intros *; rewrite ?Z.ltb_lt, ?Z.ltb_ge; lia.
Qed.

(** Lines that agree in all but the position. *)
Definition same_line (l l' : line) : Prop :=
  ln_id l = ln_id l' /\ ln_ipc l = ln_ipc l' /\ ln_vpc l = ln_vpc l'.

Definition lines_frame (ls ls' : list line) : Prop := Forall2 same_line ls ls'.

#[export] Instance lines_frame_pre : PreOrder lines_frame.
Proof.
  split.
  - intros ls. apply Forall2_same_length_lookup_2; [done|].
    intros i x y Hx Hy. simplify_eq. by repeat split.
  - intros l1 l2 l3 H1. revert l3. induction H1 as [|a b l1 l2 Hab _ IH]; intros l3 H2;
      inversion H2; subst; constructor; [|by apply IH].
    unfold same_line in *. intuition congruence.
Qed.

Lemma lines_frame_lookup ls ls' i l :
  lines_frame ls ls' -> ls !! i = Some l -> exists l', ls' !! i = Some l' /\ same_line l l'.
Proof. intros. by eapply Forall2_lookup_l. Qed.

Lemma lines_frame_lookup_r ls ls' i l' :
  lines_frame ls ls' -> ls' !! i = Some l' -> exists l, ls !! i = Some l /\ same_line l l'.
Proof. intros. by eapply Forall2_lookup_r. Qed.

Lemma lines_frame_length ls ls' : lines_frame ls ls' -> length ls' = length ls.
Proof. intros H. symmetry. by eapply Forall2_length. Qed.

#[export] Program Instance line_laws : PqNodeLaws (list line) := {
  live := fun ls x => 0 <= x < Z.of_nat (length ls);
  pri_ok := fun p => 0 <= p < 2147483648;
  pos_frame := lines_frame;
}.
Next Obligation.
  intros ls x [l Hl]%nthZ_in_range. simpl. unfold victim_line_get_pri. rewrite Hl. simpl. eauto.
Qed.
Next Obligation.
  intros ls x p [l Hl]%nthZ_in_range. simpl. unfold victim_line_set_pos.
  erewrite alterZ_Ok; eauto.
Qed.
Next Obligation.
  intros ls x p [l Hl]%nthZ_in_range. simpl. unfold victim_line_set_pri.
  erewrite alterZ_Ok; eauto.
Qed.
Next Obligation.
  simpl. intros ls ls' x p (l & l' & [_ Hl]%nthZ_Ok & [= <-] & ->)%alterZ_inv.
  apply Forall2_same_length_lookup_2; [by rewrite length_insert|].
  intros i y z Hy Hz. apply list_lookup_insert_Some in Hz as [(<- & <- & _)|[_ Hz]];
    simplify_eq; by repeat split.
Qed.
Next Obligation. simpl. intros ls ls' y Hf%lines_frame_length. lia. Qed.
Next Obligation.
  simpl. intros ls ls' y Hf. unfold victim_line_get_pri, nthZ, of_option.
  destruct (0 <=? y); [|done]. destruct (ls !! Z.to_nat y) as [l|] eqn:E.
  - destruct (lines_frame_lookup _ _ _ _ Hf E) as (l' & -> & _ & _ & Hv). simpl. by rewrite Hv.
  - apply lookup_ge_None_1 in E. rewrite lookup_ge_None_2; [done|].
    by rewrite (lines_frame_length _ _ Hf).
Qed.
Next Obligation.
  simpl. intros ls ls' x p y (l & l' & Hl & [= <-] & ->)%alterZ_inv.
  unfold victim_line_get_pos. apply nthZ_range in Hl. rewrite nthZ_insert by done.
  by destruct (y =? x).
Qed.
Next Obligation.
  simpl. intros ls ls' x p y (l & l' & _ & _ & ->)%alterZ_inv. by rewrite length_insert.
Qed.
Next Obligation.
  simpl. intros ls ls' x p y Hp (l & l' & Hl & [= <-] & ->)%alterZ_inv.
  unfold victim_line_get_pri. apply nthZ_range in Hl. rewrite nthZ_insert by done.
  destruct (y =? x); [|done]. simpl. rewrite s32_id, u64_id by lia. done.
Qed.
Next Obligation.
  simpl. intros ls ls' x p y (l & l' & Hl & [= <-] & ->)%alterZ_inv.
  unfold victim_line_get_pos. pose proof (nthZ_range _ _ _ Hl). rewrite nthZ_insert by done.
  destruct (Z.eqb_spec y x); [|done]. subst. by rewrite Hl.
Qed.
