(* ===== verification/PqueueSpec.v ===== *)
(** * PqueueSpec: what the priority queue promises

    The abstract view of a queue is the finite set of its nodes; each operation
    of Pqueue refines the operation on that set, for every client that meets
    [PqNodeLaws] and every order that meets [PqOrder].  The witnesses use the
    lines of conv_ftl.c. *)
From stdpp Require Import base list numbers gmap sorting.
From Stdlib Require Import ZArith Lia.
From S2P Require Import Prelude Pqueue Lines.

Open Scope Z_scope.
Open Scope nvmev_scope.

Section Rep.
Context {St : Type} `{PqNodeLaws St}.
Variable cmppri : Z -> Z -> bool.

Definition pq_rep (st : St) (q : pqueue) (s : gset Z) : Prop :=
  pq_inv cmppri st q /\ forall x, x ∈ s <-> inq q x.

Definition is_best (st : St) (s : gset Z) (x : Z) : Prop :=
  x ∈ s /\ forall y, y ∈ s -> ple cmppri (pri st x) (pri st y).

(** Stores that agree on every priority. *)
Definition same_pri (st st' : St) : Prop := forall x, getpri st' x = getpri st x.

(** Pops [n] nodes, in the order they come out. *)
Fixpoint drain (n : nat) (st : St) (oq : option pqueue) : outcome (list Z * St * option pqueue) :=
  match n with
  | O => Ok ([], st, oq)
  | S n' =>
      let* (x, st, oq) := pqueue_pop cmppri st oq in
      match x with
      | None => Ok ([], st, oq)
      | Some x => let* (l, st, oq) := drain n' st oq in Ok (x :: l, st, oq)
      end
  end.

Definition pq_elems (q : pqueue) : list Z :=
  omap (fun j => pq_d q !! j) (seqZ 1 (pq_size q - 1)).

End Rep.

Section RepFacts.
Context {St : Type} `{PqNodeLaws St}.
Variable cmppri : Z -> Z -> bool.
Context `{!PqOrder cmppri}.

Lemma frame_same_pri (st st' : St) : pos_frame st st' -> same_pri st st'.
Proof. intros Hf x. by apply frame_getpri. Qed.

Lemma same_pri_pri (st st' : St) x : same_pri st st' -> pri st' x = pri st x.
Proof. intros Hs. unfold pri. by rewrite Hs. Qed.

Lemma elem_of_pq_elems q x : x ∈ pq_elems q <-> inq q x.
Proof.
  unfold pq_elems, inq. rewrite list_elem_of_omap. split; intros (j & Hj & Hx).
  - apply elem_of_seqZ in Hj. exists j. split; [lia|done].
  - exists j. rewrite elem_of_seqZ. split; [lia|done].
Qed.

Lemma pq_elems_spec (st : St) q (js : list Z) :
  pq_wf st q -> (forall j, j ∈ js -> 1 <= j < pq_size q) -> NoDup js ->
  NoDup (omap (fun j => pq_d q !! j) js) /\ length (omap (fun j => pq_d q !! j) js) = length js.
Proof.
  intros [_ _ Hn] Hjs. induction 1 as [|j js Hj Hnd IH]; simpl; [by split; [constructor|]|].
  destruct IH as [IH1 IH2]; [set_solver|].
  destruct (Hn j) as (x & Hx & _ & Hpx); [set_solver|]. rewrite Hx. simpl. split; [|f_equal; exact IH2].
  constructor; [|done]. rewrite list_elem_of_omap. intros (k & Hk & Hxk).
  destruct (Hn k) as (y & Hy & _ & Hpy); [set_solver|].
  assert (y = x) as -> by congruence. assert (j = k) as -> by congruence. done.
Qed.

Lemma rep_size (st : St) q s : pq_rep cmppri st q s -> Z.of_nat (size s) = pq_size q - 1.
Proof.
  intros [[Hwf _] Hs].
  destruct (pq_elems_spec st q (seqZ 1 (pq_size q - 1)) Hwf) as [Hnd Hlen];
    [intros j Hj%elem_of_seqZ; lia|apply NoDup_seqZ|].
  assert (s = list_to_set (pq_elems q)) as ->.
  { apply set_eq. intros x. by rewrite elem_of_list_to_set, elem_of_pq_elems, Hs. }
  rewrite size_list_to_set by done. unfold pq_elems. rewrite Hlen, length_seqZ.
  destruct Hwf. lia.
Qed.

Lemma rep_empty (st : St) q s : pq_rep cmppri st q s -> pq_size q = 1 -> s = ∅.
Proof.
  intros Hr Hq. apply leibniz_equiv, size_empty_inv. pose proof (rep_size _ _ _ Hr). lia.
Qed.

Lemma rep_head (st : St) q s :
  pq_rep cmppri st q s -> s <> ∅ ->
  exists x, pq_d q !! 1 = Some x /\ 2 <= pq_size q /\ is_best cmppri st s x.
Proof.
  intros Hr Hne. pose proof Hr as [Hinv Hs]. destruct (peek_spec cmppri st q Hinv) as [[E _]|(x & _ & Hsz & Hx & Hin & Hb)].
  - by apply (rep_empty _ _ _ Hr) in E.
  - exists x. split; [done|]. split; [done|]. split; [by apply Hs|]. intros y Hy. by apply Hb, Hs.
Qed.

Lemma rep_pop (st : St) q s x :
  pq_rep cmppri st q s -> pq_d q !! 1 = Some x -> 2 <= pq_size q ->
  exists st' q', pqueue_pop cmppri st (Some q) = Ok (Some x, st', Some q') /\
    pq_rep cmppri st' q' (s ∖ {[x]}) /\ same_pri st st'.
Proof.
  intros [Hinv Hs] Hx Hsz.
  destruct (pop_spec cmppri st q x Hinv Hsz Hx) as (st' & q' & Hp & Hin & Hf & _ & _ & _ & Hinv').
  exists st', q'. split; [done|]. split; [|by apply frame_same_pri]. split; [done|].
  intros y. rewrite Hin, <- Hs. set_solver.
Qed.

End RepFacts.

(** ** The operations *)
Section Claims.
Context {St : Type} `{PqNodeLaws St}.
Variable cmppri : Z -> Z -> bool.
Context `{!PqOrder cmppri}.

(** C35: pqueue_insert adds its element to the set the heap represents, whatever node type and
    order implement the interface. *)
Theorem pqueue_insert_refines (st : St) q s x :
  pq_rep cmppri st q s -> live st x -> x ∉ s -> Z.of_nat (size s) + 1 < pq_avail q ->
  exists st' q', pqueue_insert cmppri st (Some q) x = Ok (0, st', Some q') /\
    pq_rep cmppri st' q' ({[x]} ∪ s) /\ same_pri st st' /\
    pqueue_size q' = pqueue_size q + 1.
Proof.
  intros Hr Hl Hx Hav. pose proof (rep_size cmppri _ _ _ Hr) as Hsz. destruct Hr as [Hinv Hs].
  destruct (insert_spec cmppri st q x Hinv Hl) as (st' & q' & -> & Hinv' & Hin & Hfr & Hs');
    [by rewrite <- Hs|lia|].
  destruct (inv_wf _ _ _ Hinv). exists st', q'. split; [done|]. split; [|split].
  - split; [done|]. intros y. rewrite Hin, <- Hs. set_solver.
  - apply frame_same_pri, Hfr.
  - unfold pqueue_size. rewrite Hs', !u64_id by lia. lia.
Qed.

(** C36: pqueue_pop returns a best element of the represented set and removes exactly it, or
    returns NULL on an empty queue. *)
Theorem pqueue_pop_refines (st : St) q s :
  pq_rep cmppri st q s ->
  if decide (s = ∅) then pqueue_pop cmppri st (Some q) = Ok (None, st, Some q)
  else exists x st' q', pqueue_pop cmppri st (Some q) = Ok (Some x, st', Some q') /\
         pqueue_peek (Some q) = Ok (Some x) /\ is_best cmppri st s x /\
         pq_rep cmppri st' q' (s ∖ {[x]}) /\ same_pri st st'.
Proof.
  intros Hr. destruct (decide (s = ∅)) as [->|Hne].
  - pose proof (rep_size cmppri _ _ _ Hr) as Hsz. rewrite size_empty in Hsz.
    unfold pqueue_pop. by rewrite (proj2 (Z.eqb_eq _ 1)) by lia.
  - destruct (rep_head cmppri st q s Hr Hne) as (x & Hx & Hsz & Hb).
    destruct (rep_pop cmppri st q s x Hr Hx Hsz) as (st' & q' & Hp & Hr' & Hs').
    exists x, st', q'. split; [done|]. split; [|done].
    unfold pqueue_peek. rewrite (proj2 (Z.eqb_neq _ 1)) by lia.
    destruct Hr as [[[] _] _]. by rewrite (proj2 (dget_Ok q 1 x)) by (split; [lia|done]).
Qed.

Lemma pqueue_change_priority_refines (st : St) q s x new_pri :
  pq_rep cmppri st q s -> x ∈ s -> pri_ok new_pri ->
  exists st' q', pqueue_change_priority cmppri st (Some q) new_pri x = Ok (st', Some q') /\
    pq_rep cmppri st' q' s /\
    forall y, pri st' y = if y =? x then new_pri else pri st y.
Proof.
  intros [Hinv Hs] Hx Hok.
  destruct (change_priority_spec cmppri st q new_pri x Hinv) as (st1 & st' & q' & H1 & Hc & Hinv' & Hin & Hfr & _);
    [by apply Hs|done|].
  exists st', q'. split; [done|]. split; [split; [done|intros y; by rewrite Hin, <- Hs]|].
  intros y. rewrite (same_pri_pri st1 st') by apply frame_same_pri, Hfr. unfold pri.
  rewrite (getpri_setpri _ _ _ _ _ Hok H1). by destruct (y =? x).
Qed.

(** The nodes come out in order, each once; [st0] is the store at the start. *)
Lemma drain_spec n (st0 st : St) q s :
  pq_rep cmppri st q s -> size s = n -> same_pri st0 st ->
  exists l st' q', drain cmppri n st (Some q) = Ok (l, st', Some q') /\
    list_to_set l = s /\ NoDup l /\
    StronglySorted (fun a b => ple cmppri (pri st0 a) (pri st0 b)) l /\ pq_rep cmppri st' q' ∅.
Proof.
  revert st q s. induction n as [|n IH]; intros st q s Hr Hn Hst.
  - apply size_empty_inv, leibniz_equiv in Hn as ->. exists [], st, q.
    split; [done|]. split; [done|]. split; [constructor|]. split; [constructor|done].
  - destruct (rep_head cmppri st q s Hr) as (x & Hx & Hsz & [Hxs Hb]);
      [intros ->; by rewrite size_empty in Hn|].
    destruct (rep_pop cmppri st q s x Hr Hx Hsz) as (st1 & q1 & Hp & Hr1 & Hp1).
    cbn [drain]. rewrite Hp. cbn [obind].
    destruct (IH st1 q1 (s ∖ {[x]}) Hr1) as (l & st' & q' & -> & Hl & Hnd & Hso & Hr').
    { rewrite size_difference, size_singleton by set_solver. lia. }
    { intros y. by rewrite Hp1, Hst. }
    assert (Hel : forall y, y ∈ l <-> y ∈ s /\ y <> x).
    { intros y. rewrite <- (elem_of_list_to_set (C := gset Z)), Hl. set_solver. }
    simpl. exists (x :: l), st', q'. split; [done|]. split; [|split; [|split; [|done]]].
    + simpl. rewrite Hl. symmetry. by apply union_difference_singleton_L.
    + constructor; [|done]. rewrite Hel. tauto.
    + constructor; [done|]. apply Forall_forall. intros y [Hy _]%Hel.
      rewrite <- !(same_pri_pri st0 st) by done. by apply Hb.
Qed.

Theorem pqueue_drain_sorted (st : St) q s :
  pq_rep cmppri st q s ->
  exists l st' q', drain cmppri (size s) st (Some q) = Ok (l, st', Some q') /\
    list_to_set l = s /\ NoDup l /\
    StronglySorted (fun a b => ple cmppri (pri st a) (pri st b)) l /\
    pqueue_pop cmppri st' (Some q') = Ok (None, st', Some q').
Proof.
  intros Hr. destruct (drain_spec (size s) st st q s Hr) as (l & st' & q' & Hd & Hl & Hnd & Hso & Hr');
    [done|by intros x|].
  exists l, st', q'. repeat (split; [done|]). pose proof (rep_size cmppri _ _ _ Hr') as Hsz.
  rewrite size_empty in Hsz. unfold pqueue_pop. by rewrite (proj2 (Z.eqb_eq _ 1)) by lia.
Qed.

(** *** Removal of any node *)

(** The last node [m] put in the place of the node [x] of index [i]. *)
Lemma replace_last (st : St) q i x m :
  pq_inv cmppri st q -> 1 <= i < pq_size q - 1 ->
  pq_d q !! i = Some x -> pq_d q !! (pq_size q - 1) = Some m ->
  let q2 := set_d (set_size q (pq_size q - 1)) (<[i := m]> (pq_d q)) in
  hole st q2 i m /\ (forall y, hole_mem q2 i m y <-> inq q y /\ y <> x) /\
  (forall j, 1 <= j < pq_size q - 1 ->
     vpri st q2 i m j = if j =? i then pri st m else vpri st q i x j) /\
  (forall j, 2 <= j < pq_size q -> ple cmppri (vpri st q i x (j / 2)) (vpri st q i x j)).
Proof.
  intros [[Hs Ha Hn] Ho] Hi Hx Hm q2.
  assert (Hinj : forall j k y, 1 <= j < pq_size q -> 1 <= k < pq_size q ->
    pq_d q !! j = Some y -> pq_d q !! k = Some y -> j = k).
  { intros j k y Hj Hk Hjy Hky. destruct (Hn j Hj) as (? & ? & _ & ?).
    destruct (Hn k Hk) as (? & ? & _ & ?). congruence. }
  assert (Hlk : forall j, j <> i -> pq_d q2 !! j = pq_d q !! j)
    by (intros j Hj; simpl; by rewrite lookup_insert_ne).
  split; [|split; [|split]].
  - split; simpl; [lia|lia| |].
    + destruct (Hn (pq_size q - 1)) as (y & Hy & Hl & _); [lia|]. by simplify_eq.
    + intros j Hj Hji. rewrite lookup_insert_ne by done.
      destruct (Hn j) as (y & Hy & Hl & Hp); [lia|]. exists y. repeat (split; [done|]).
      intros ->. pose proof (Hinj j (pq_size q - 1) m) as E. lia || (specialize (E ltac:(lia) ltac:(lia) Hy Hm); lia).
  - intros y. split.
    + intros [->|(j & Hj & Hji & Hy)].
      * split; [exists (pq_size q - 1); split; [lia|done]|]. intros ->.
        specialize (Hinj i (pq_size q - 1) x ltac:(lia) ltac:(lia) Hx Hm). lia.
      * simpl in Hj. rewrite Hlk in Hy by done. split; [exists j; split; [lia|done]|]. intros ->.
        specialize (Hinj i j x ltac:(lia) ltac:(lia) Hx Hy). lia.
    + intros [(j & Hj & Hy) Hyx]. destruct (decide (j = pq_size q - 1)) as [->|Hjn]; [left; congruence|right].
      assert (j <> i) by congruence. exists j. rewrite Hlk by done. simpl. split; [lia|done].
  - intros j Hj. unfold vpri. destruct (Z.eqb_spec j i) as [->|Hji]; [by rewrite vnode_eq|].
    destruct (Hn j) as (y & Hy & _); [lia|].
    rewrite (vnode_ne q i x j y), (vnode_ne q2 i m j y); rewrite ?Hlk; done.
  - intros j Hj. destruct (Hn j) as (y & Hy & _); [lia|]. destruct (Hn (j / 2)) as (z & Hz & _); [heap_lia|].
    rewrite (vpri_self st q i x j y), (vpri_self st q i x (j / 2) z) by done. by apply (Ho j).
Qed.

(** The hole is past the end of the array: the node is put down where it was. *)
Lemma percolate_down_last (st : St) q x :
  pq_wf st q -> 2 <= pq_size q -> pq_d q !! (pq_size q - 1) = Some x ->
  let n := pq_size q - 1 in
  let q2 := set_d (set_size q n) (<[n := x]> (pq_d q)) in
  exists st', percolate_down cmppri st q2 n = Ok (st', set_d q2 (<[n := x]> (pq_d q2))) /\
    setpos st x n = Ok st'.
Proof.
  intros [Hs Ha Hn] Hsz Hx n q2. fold n in Hx.
  destruct (Hn n) as (y & Hy & Hl & Hp); [lia|]. assert (y = x) as -> by congruence.
  unfold percolate_down, INDEX_FUEL.
  rewrite (proj2 (dget_Ok q2 n x)) by (simpl; rewrite lookup_insert_eq; split; [lia|done]).
  cbn [obind]. rewrite (getpri_pri st x Hl). cbn [obind]. rewrite percolate_down_loop_S.
  unfold maxchild. rewrite left_double by lia. simpl (pq_size q2).
  destruct (Z.leb_spec n (2 * n)); [|lia]. cbn [obind]. simpl (0 =? 0). cbn [obind].
  rewrite dset_Ok by (simpl; lia). cbn [obind].
  destruct (setpos_live st x n Hl) as [st' Hst']. rewrite Hst'. eauto.
Qed.

Lemma rep_remove (st : St) q x :
  pq_inv cmppri st q -> inq q x ->
  exists st' q', pqueue_remove cmppri st (Some q) x = Ok (0, st', Some q') /\
    pq_inv cmppri st' q' /\ (forall y, inq q' y <-> inq q y /\ y <> x) /\ pos_frame st st'.
Proof.
  intros Hinv Hx. pose proof Hinv as [Hwf Ho]. destruct (inq_pos st q x Hwf Hx) as (Hl & i & Hp & Hi & Hd).
  pose proof Hwf as [Hs Ha Hn]. unfold pqueue_remove. cbn [obind of_option]. rewrite Hp. cbn [obind].
  rewrite u64_id by lia. cbn [pq_size set_size].
  destruct (Hn (pq_size q - 1)) as (m & Hm & Hlm & Hpm); [lia|].
  rewrite (proj2 (dget_Ok _ (pq_size q - 1) m)) by (split; [simpl; lia|done]). cbn [obind].
  rewrite dset_Ok by (simpl; lia). cbn [obind pq_d set_size].
  set (q2 := set_d _ _). rewrite (getpri_pri st x Hl). cbn [obind].
  rewrite (proj2 (dget_Ok q2 i m)) by (simpl; rewrite lookup_insert_eq; split; [lia|done]). cbn [obind].
  rewrite (getpri_pri st m Hlm). cbn [obind].
  destruct (decide (i = pq_size q - 1)) as [Ei|Ei].
  - assert (m = x) as -> by congruence. rewrite cmppri_irrefl.
    subst i. destruct (percolate_down_last st q x Hwf) as (st' & Hpd & Hst'); [lia|done|].
    fold q2 in Hpd. rewrite Hpd.
    cbn [obind]. eexists _, _. split; [done|].
    pose proof (setpos_frame _ _ _ _ Hst') as Hf.
    assert (Hlk : forall j, j <> pq_size q - 1 -> <[pq_size q - 1 := x]> (pq_d q2) !! j = pq_d q !! j).
    { intros j Hj. simpl. by rewrite !lookup_insert_ne. }
    assert (Hnx : forall j y, 1 <= j < pq_size q - 1 -> pq_d q !! j = Some y -> y <> x).
    { intros j y Hj Hy ->. destruct (Hn j) as (? & ? & _ & ?); [lia|].
      destruct (Hn (pq_size q - 1)) as (? & ? & _ & ?); [lia|]. assert (j = pq_size q - 1) by congruence. lia. }
    split; [split; [split|]; simpl|split; [|done]].
    + lia.
    + done.
    + intros j Hj. destruct (Hn j) as (y & Hy & Hly & Hpy); [lia|]. exists y.
      pose proof (Hlk j ltac:(lia)) as E. simpl in E. rewrite E. split; [done|].
      rewrite (frame_live st), (getpos_setpos _ _ _ _ _ Hst') by done. split; [done|].
      destruct (Z.eqb_spec y x) as [->|]; [by destruct (Hnx j x)|done].
    + intros j a b Hj Ha' Hb. cbn [pq_size pq_d set_d set_size q2] in *.
      rewrite Hlk in Ha' by heap_lia. rewrite Hlk in Hb by lia.
      rewrite !(pri_frame st st') by done. apply (Ho j); [lia|done|done].
    + intros y. unfold inq. cbn [pq_size pq_d set_d set_size q2]. split.
      * intros (j & Hj & Hy). rewrite Hlk in Hy by lia. split; [exists j; split; [lia|done]|by eapply Hnx].
      * intros [(j & Hj & Hy) Hyx]. assert (j <> pq_size q - 1) by congruence.
        exists j. rewrite Hlk by done. split; [lia|done].
  - destruct (replace_last st q i x m Hinv) as (Hh & Hmem & Hvp & Hho); [lia|done|done|].
    fold q2 in Hh, Hmem, Hvp.
    assert (Hq2 : pq_d q2 !! i = Some m) by (simpl; by rewrite lookup_insert_eq).
    assert (Hvi : vpri st q i x i = pri st x) by (by rewrite (vpri_self st q i x i x)).
    destruct (cmppri (pri st x) (pri st m)) eqn:Ec.
    + apply cmppri_asym in Ec.
      destruct (bubble_up_spec cmppri st q2 i m Hh Hq2) as (st' & q' & -> & Hinv' & Hin & [Hf _ _] & _).
      { split; intros j Hj; cbn [pq_size set_d set_size q2] in Hj.
        - intros Hji. rewrite !Hvp by heap_lia. rewrite (proj2 (Z.eqb_neq j i) Hji).
          destruct (Z.eqb_spec (j / 2) i) as [Ej|]; [|apply Hho; lia].
          eapply cmppri_trans; [exact Ec|]. pose proof (Hho j ltac:(lia)) as E. by rewrite Ej, Hvi in E.
        - intros Hi2 Hji. rewrite !Hvp by heap_lia. destruct (Z.eqb_spec (i / 2) i); [heap_lia|].
          destruct (Z.eqb_spec j i); [heap_lia|].
          eapply cmppri_trans; [apply Hho; lia|]. pose proof (Hho j ltac:(lia)) as E. by rewrite Hji in E. }
      cbn [obind]. exists st', q'. split; [done|]. split; [done|]. split; [intros; by rewrite Hin|done].
    + destruct (percolate_down_spec cmppri st q2 i m Hh Hq2) as (st' & q' & -> & Hinv' & Hin & [Hf _ _] & _).
      { split; intros j Hj; cbn [pq_size set_d set_size q2] in Hj.
        - intros Hji. rewrite !Hvp by heap_lia. rewrite (proj2 (Z.eqb_neq (j / 2) i) Hji).
          destruct (Z.eqb_spec j i) as [->|]; [|apply Hho; lia].
          eapply cmppri_trans; [apply Hho; lia|]. by rewrite Hvi.
        - intros Hi2 Hji. rewrite !Hvp by heap_lia. destruct (Z.eqb_spec (i / 2) i); [heap_lia|].
          destruct (Z.eqb_spec j i); [heap_lia|].
          eapply cmppri_trans; [apply Hho; lia|]. pose proof (Hho j ltac:(lia)) as E. by rewrite Hji in E. }
      cbn [obind]. exists st', q'. split; [done|]. split; [done|]. split; [intros; by rewrite Hin|done].
Qed.

Lemma pqueue_remove_refines (st : St) q s x :
  pq_rep cmppri st q s -> x ∈ s ->
  exists st' q', pqueue_remove cmppri st (Some q) x = Ok (0, st', Some q') /\
    pq_rep cmppri st' q' (s ∖ {[x]}) /\ same_pri st st'.
Proof.
  intros [Hinv Hs] Hx. destruct (rep_remove st q x Hinv) as (st' & q' & Hr & Hinv' & Hin & Hf); [by apply Hs|].
  exists st', q'. split; [done|]. split; [split; [done|]|by apply frame_same_pri].
  intros y. rewrite Hin, <- Hs. set_solver.
Qed.

(** A change of priority and a removal, on a member of the queue. *)
Theorem pqueue_update_refines (st : St) q s x :
  pq_rep cmppri st q s -> x ∈ s ->
  (forall new_pri, pri_ok new_pri ->
   exists st' q', pqueue_change_priority cmppri st (Some q) new_pri x = Ok (st', Some q') /\
     pq_rep cmppri st' q' s /\ forall y, pri st' y = if y =? x then new_pri else pri st y) /\
  (exists st' q', pqueue_remove cmppri st (Some q) x = Ok (0, st', Some q') /\
     pq_rep cmppri st' q' (s ∖ {[x]}) /\ same_pri st st').
Proof.
  intros Hr Hx. split; [|by apply (pqueue_remove_refines st q s x)].
  intros new_pri. by apply (pqueue_change_priority_refines st q s x new_pri).
Qed.

(** *** The check of the heap *)

(** The indices below [pos] in the tree. *)
Inductive desc (pos : Z) : Z -> Prop :=
| desc_refl : desc pos pos
| desc_child j : 2 <= j -> desc pos (j / 2) -> desc pos j.

Lemma desc_split pos j :
  1 <= pos -> desc pos j <-> j = pos \/ desc (2 * pos) j \/ desc (2 * pos + 1) j.
Proof.
  intros Hpos. split.
  - induction 1 as [|j Hj _ IH]; [by left|]. right. destruct IH as [E|[E|E]].
    + assert (j = 2 * pos \/ j = 2 * pos + 1) as [-> | ->] by heap_lia; [left|right]; constructor.
    + left. by constructor.
    + right. by constructor.
  - intros [->|[Hd|Hd]]; [constructor| |]; induction Hd as [|j Hj _ IH].
    1, 3: apply desc_child; [lia|]; match goal with |- desc _ ?k => replace k with pos by heap_lia end;
      constructor.
    all: by apply desc_child.
Qed.

Lemma desc_root j : 1 <= j -> desc 1 j.
Proof.
  intros Hj. remember (Z.to_nat j) as n eqn:En. revert j Hj En.
  induction n as [n IH] using lt_wf_ind. intros j Hj En.
  destruct (decide (j = 1)) as [->|]; [constructor|]. apply desc_child; [lia|].
  apply (IH (Z.to_nat (j / 2))); [heap_lia|heap_lia|done].
Qed.

Definition edge_ok (st : St) (q : pqueue) (j : Z) : Prop :=
  forall x y, pq_d q !! (j / 2) = Some x -> pq_d q !! j = Some y -> ple cmppri (pri st x) (pri st y).

Lemma child_is_valid_spec (st : St) q pos c sub b :
  pq_wf st q -> 1 <= pos -> c / 2 = pos -> (c < pq_size q -> sub = Ok b) ->
  exists b', child_is_valid cmppri st q pos c sub = Ok b' /\
    (b' = true <-> (c < pq_size q -> edge_ok st q c /\ b = true)).
Proof.
  intros [Hs Ha Hn] Hpos Hc Hsub. unfold child_is_valid.
  destruct (Z.ltb_spec c (pq_size q)); [|exists true; split; [done|split; [lia|done]]].
  destruct (Hn pos) as (x & Hx & Hlx & _); [heap_lia|]. destruct (Hn c) as (y & Hy & Hly & _); [heap_lia|].
  rewrite (proj2 (dget_Ok q pos x)), (proj2 (dget_Ok q c y)) by (split; [heap_lia|done]).
  cbn [obind]. rewrite (getpri_pri st x Hlx). cbn [obind]. rewrite (getpri_pri st y Hly). cbn [obind].
  assert (He : edge_ok st q c <-> ple cmppri (pri st x) (pri st y)).
  { unfold edge_ok. rewrite Hc. split; [intros E; by apply E|]. intros E ????. by simplify_eq. }
  unfold ple in He. destruct (cmppri (pri st x) (pri st y)).
  - exists false. split; [done|]. split; [done|]. intros E. destruct E as [E%He _]; [lia|done].
  - exists b. split; [by apply Hsub|]. split; [intros ->; by rewrite He|]. by intros [_ ?].
Qed.

Lemma child_int_ok pos :
  0 <= pos < 1073741824 ->
  left_int pos = 2 * pos /\ right_int pos = 2 * pos + 1 /\
  s32 (2 * pos) = 2 * pos /\ s32 (2 * pos + 1) = 2 * pos + 1.
Proof.
  intros ?. unfold left_int, right_int. rewrite Z.shiftl_mul_pow2 by lia.
  change (2 ^ 1) with 2. rewrite !s32_id, !u64_id by lia. lia.
Qed.

Lemma subtree_is_valid_spec n (st : St) q pos :
  pq_wf st q -> pq_size q <= 1073741824 -> 1 <= pos < 1073741824 ->
  pq_size q <= pos * 2 ^ Z.of_nat n ->
  exists b, subtree_is_valid cmppri (S n) st q pos = Ok b /\
    (b = true <-> forall j, 2 <= j < pq_size q -> desc pos (j / 2) -> edge_ok st q j).
Proof.
  intros Hwf Hsz. revert pos. induction n as [|n IH]; intros pos Hpos Hn; cbn [subtree_is_valid];
    destruct (child_int_ok pos) as (El & Er & E1 & E2); try lia; rewrite El, Er, ?E1, ?E2.
  - unfold child_is_valid. simpl in Hn. destruct (Z.ltb_spec (2 * pos) (pq_size q)); [lia|].
    destruct (Z.ltb_spec (2 * pos + 1) (pq_size q)); [lia|]. exists true. split; [done|]. split; [|done].
    intros _ j Hj Hd. exfalso. assert (Hge : forall k, desc pos k -> pos <= k)
      by (induction 1; heap_lia). apply Hge in Hd. heap_lia.
  - rewrite Nat2Z.inj_succ, Z.pow_succ_r in Hn by lia.
    assert (Hsub : forall c, c / 2 = pos -> exists b, (c < pq_size q -> subtree_is_valid cmppri (S n) st q c = Ok b) /\
      (b = true <-> (c < pq_size q -> forall j, 2 <= j < pq_size q -> desc c (j / 2) -> edge_ok st q j))).
    { intros c Hc. destruct (decide (c < pq_size q)) as [Hlt|Hge].
      - destruct (IH c) as (b & Hb & Hiff); [heap_lia| |exists b; split; [done|]; rewrite Hiff; tauto].
        assert (2 * pos <= c) by heap_lia. nia.
      - exists true. split; [done|]. split; [lia|done]. }
    destruct (Hsub (2 * pos)) as (b1 & Hb1 & Hi1); [heap_lia|].
    destruct (Hsub (2 * pos + 1)) as (b2 & Hb2 & Hi2); [heap_lia|].
    destruct (child_is_valid_spec st q pos (2 * pos) _ b1 Hwf ltac:(lia) ltac:(heap_lia) Hb1) as (c1 & Hc1 & Hj1).
    destruct (child_is_valid_spec st q pos (2 * pos + 1) _ b2 Hwf ltac:(lia) ltac:(heap_lia) Hb2) as (c2 & Hc2 & Hj2).
    cbn [subtree_is_valid] in Hc1, Hc2. rewrite Hc1. cbn [obind].
    exists (c1 && c2). split; [by destruct c1|].
    rewrite andb_true_iff, Hj1, Hj2, Hi1, Hi2. split.
    + intros [H1 H2] j Hj Hd. destruct (proj1 (desc_split pos (j / 2) ltac:(lia)) Hd) as [E|[Hd'|Hd']].
      * assert (j = 2 * pos \/ j = 2 * pos + 1) as [-> | ->] by heap_lia;
          [destruct H1 as [? _]|destruct H2 as [? _]]; (lia || done).
      * assert (Hge : forall k, desc (2 * pos) k -> 2 * pos <= k) by (induction 1; heap_lia).
        pose proof (Hge _ Hd'). destruct H1 as [_ H1']; [heap_lia|]. apply H1'; [heap_lia|done|done].
      * assert (Hge : forall k, desc (2 * pos + 1) k -> 2 * pos + 1 <= k) by (induction 1; heap_lia).
        pose proof (Hge _ Hd'). destruct H2 as [_ H2']; [heap_lia|]. apply H2'; [heap_lia|done|done].
    + intros Hall. split; intros Hc; (split; [apply Hall; [lia|]|intros _ j Hj Hd; apply Hall; [done|]]).
      1, 3: match goal with |- desc _ ?k => replace k with pos by heap_lia end; constructor.
      all: apply desc_split; [lia|tauto].
Qed.

(** [pqueue_is_valid] decides the heap order. *)
Theorem pqueue_is_valid_correct (st : St) q :
  pq_wf st q -> pq_size q <= 1073741824 ->
  exists b, pqueue_is_valid cmppri st q = Ok b /\ (b = true <-> heap_order cmppri st q).
Proof.
  intros Hwf Hsz. destruct (subtree_is_valid_spec 64 st q 1 Hwf Hsz) as (b & Hb & Hiff); [lia|lia|].
  exists b. split; [done|]. rewrite Hiff. unfold heap_order, edge_ok. split.
  - intros He j x y Hj. apply He; [done|]. apply desc_root. heap_lia.
  - intros He j Hj _ x y. by apply He.
Qed.
End Claims.

(** ** A queue of two of three lines *)
Definition demo_lines : list line := [mk_line 0 1 5 2; mk_line 1 3 3 1; mk_line 2 2 4 0].
Definition demo_q : pqueue := mk_pqueue 3 4 4 {[ 1 := 1; 2 := 0 ]}.
Definition demo_set : gset Z := {[ 0; 1 ]}.

Lemma demo_wf : pq_wf demo_lines demo_q.
Proof.
  split; [done|done|]. intros j Hj. simpl in Hj. assert (j = 1 \/ j = 2) as [-> | ->] by lia.
  - by exists 1.
  - by exists 0.
Qed.

Lemma demo_rep : pq_rep victim_line_cmp_pri demo_lines demo_q demo_set.
Proof.
  split; [split; [apply demo_wf|]|].
  - intros j x y Hj Hx Hy. simpl in Hj. assert (j = 2) as -> by lia.
    assert (x = 1) as -> by (by vm_compute in Hx; simplify_eq).
    assert (y = 0) as -> by (by vm_compute in Hy; simplify_eq). done.
  - intros x. unfold demo_set, inq. simpl. split.
    + intros Hx. assert (x = 0 \/ x = 1) as [-> | ->] by set_solver; [exists 2|exists 1]; done.
    + intros (j & Hj & Hx). assert (j = 1 \/ j = 2) as [-> | ->] by lia; vm_compute in Hx;
        simplify_eq; set_solver.
Qed.

Lemma pqueue_insert_refines_witness :
  exists st' q', pqueue_insert victim_line_cmp_pri demo_lines (Some demo_q) 2 = Ok (0, st', Some q') /\
    pq_rep victim_line_cmp_pri st' q' ({[2]} ∪ demo_set).
Proof.
  destruct (pqueue_insert_refines victim_line_cmp_pri demo_lines demo_q demo_set 2 demo_rep)
    as (st' & q' & Hi & Hr & _); [simpl; lia|by vm_compute|done|]. by exists st', q'.
Defined.

Lemma pqueue_pop_refines_witness :
  exists x st' q', pqueue_pop victim_line_cmp_pri demo_lines (Some demo_q) = Ok (Some x, st', Some q') /\
    is_best victim_line_cmp_pri demo_lines demo_set x.
Proof.
  pose proof (pqueue_pop_refines victim_line_cmp_pri demo_lines demo_q demo_set demo_rep) as Hp.
  destruct (decide (demo_set = ∅)) as [E|_]; [by vm_compute in E|].
  destruct Hp as (x & st' & q' & Hp & _ & Hb & _). by exists x, st', q'.
Defined.

Lemma pqueue_update_refines_witness :
  (exists st' q', pqueue_change_priority victim_line_cmp_pri demo_lines (Some demo_q) 2 0
                  = Ok (st', Some q') /\ pri st' 0 = 2 /\ pq_rep victim_line_cmp_pri st' q' demo_set) /\
  (exists st' q', pqueue_remove victim_line_cmp_pri demo_lines (Some demo_q) 0 = Ok (0, st', Some q') /\
     pq_rep victim_line_cmp_pri st' q' (demo_set ∖ {[0]})).
Proof.
  destruct (pqueue_update_refines victim_line_cmp_pri demo_lines demo_q demo_set 0 demo_rep) as [Hc (st2 & q2 & Hr & Hp & _)];
    [set_solver|]. split; [|by exists st2, q2].
  destruct (Hc 2) as (st' & q' & Hc' & Hr' & Hp'); [simpl; lia|]. exists st', q'. by rewrite Hp'.
Defined.

Lemma pqueue_drain_sorted_witness :
  exists l st' q', drain victim_line_cmp_pri 2 demo_lines (Some demo_q) = Ok (l, st', Some q') /\
    list_to_set l = demo_set.
Proof.
  destruct (pqueue_drain_sorted victim_line_cmp_pri demo_lines demo_q demo_set demo_rep)
    as (l & st' & q' & Hd & Hl & _). by exists l, st', q'.
Defined.

Lemma pqueue_is_valid_correct_witness :
  exists b, pqueue_is_valid victim_line_cmp_pri demo_lines demo_q = Ok b /\
    (b = true <-> heap_order victim_line_cmp_pri demo_lines demo_q).
Proof.
  apply (pqueue_is_valid_correct victim_line_cmp_pri demo_lines demo_q demo_wf). done.
Defined.
