(* ===== verification/ConvFtl.v ===== *)
(** * ConvFtl: the page-mapping FTL of src/conv_ftl.c

    One [conv_ftl] per partition; the PCIe link, the global write buffer and
    the clock are shared ([hw] of Ssd).  A [struct line *] is the index of the
    line in [lm_lines], the list heads of the line manager are lists of such
    indices, oldest first. *)
From stdpp Require Import base list numbers.
From Stdlib Require Import ZArith Lia Floats.SpecFloat.
From S2P Require Import Prelude Pqueue ChannelModel SsdConfig Ssd Nvme Lines.

Open Scope Z_scope.
Open Scope nvmev_scope.

(** ** State *)

(** [op_area_pcent] is a double that only enters [pba_pcent]. *)
Record convparams := {
  gc_thres_lines : Z;
  gc_thres_lines_high : Z;
  enable_gc_delay : bool;
  pba_pcent : Z;
}.

Record write_pointer := mk_wp {
  wp_curline : option Z;
  wp_ch : Z;
  wp_lun : Z;
  wp_pg : Z;
  wp_blk : Z;
  wp_pl : Z;
}.

Record line_mgmt := mk_lm {
  lm_lines : list line;
  free_line_list : list Z;
  victim_line_pq : option pqueue;
  full_line_list : list Z;
  lm_tt_lines : Z;
  free_line_cnt : Z;
  victim_line_cnt : Z;
  full_line_cnt : Z;
}.

Record write_flow_control := mk_wfc { write_credits : Z; credits_to_refill : Z }.

Record conv_ftl := mk_conv_ftl {
  cf_ssd : ssd;
  cf_cp : convparams;
  maptbl : list Z;
  rmap : list Z;
  cf_wp : write_pointer;
  cf_gc_wp : write_pointer;
  cf_lm : line_mgmt;
  cf_wfc : write_flow_control;
  gc_cnt : Z;
}.

(** *** Assignments to the members *)
Definition set_ssd (f : conv_ftl) (s : ssd) : conv_ftl :=
  mk_conv_ftl s (cf_cp f) (maptbl f) (rmap f) (cf_wp f) (cf_gc_wp f) (cf_lm f) (cf_wfc f) (gc_cnt f).
Definition set_maptbl (f : conv_ftl) (m : list Z) : conv_ftl :=
  mk_conv_ftl (cf_ssd f) (cf_cp f) m (rmap f) (cf_wp f) (cf_gc_wp f) (cf_lm f) (cf_wfc f) (gc_cnt f).
Definition set_rmap (f : conv_ftl) (m : list Z) : conv_ftl :=
  mk_conv_ftl (cf_ssd f) (cf_cp f) (maptbl f) m (cf_wp f) (cf_gc_wp f) (cf_lm f) (cf_wfc f) (gc_cnt f).
Definition set_lm (f : conv_ftl) (m : line_mgmt) : conv_ftl :=
  mk_conv_ftl (cf_ssd f) (cf_cp f) (maptbl f) (rmap f) (cf_wp f) (cf_gc_wp f) m (cf_wfc f) (gc_cnt f).
Definition set_wfc (f : conv_ftl) (w : write_flow_control) : conv_ftl :=
  mk_conv_ftl (cf_ssd f) (cf_cp f) (maptbl f) (rmap f) (cf_wp f) (cf_gc_wp f) (cf_lm f) w (gc_cnt f).
Definition set_gc_cnt (f : conv_ftl) (n : Z) : conv_ftl :=
  mk_conv_ftl (cf_ssd f) (cf_cp f) (maptbl f) (rmap f) (cf_wp f) (cf_gc_wp f) (cf_lm f) (cf_wfc f) n.

Definition set_lines (m : line_mgmt) (ls : list line) : line_mgmt :=
  mk_lm ls (free_line_list m) (victim_line_pq m) (full_line_list m) (lm_tt_lines m)
    (free_line_cnt m) (victim_line_cnt m) (full_line_cnt m).
Definition set_free (m : line_mgmt) (l : list Z) (n : Z) : line_mgmt :=
  mk_lm (lm_lines m) l (victim_line_pq m) (full_line_list m) (lm_tt_lines m)
    n (victim_line_cnt m) (full_line_cnt m).
Definition set_full (m : line_mgmt) (l : list Z) (n : Z) : line_mgmt :=
  mk_lm (lm_lines m) (free_line_list m) (victim_line_pq m) l (lm_tt_lines m)
    (free_line_cnt m) (victim_line_cnt m) n.
Definition set_victim (m : line_mgmt) (ls : list line) (q : option pqueue) (n : Z) : line_mgmt :=
  mk_lm ls (free_line_list m) q (full_line_list m) (lm_tt_lines m)
    (free_line_cnt m) n (full_line_cnt m).

(** [list_del_init]: takes the entry out of the list that holds it. *)
Definition list_del_init (m : line_mgmt) (l : Z) : line_mgmt :=
  mk_lm (lm_lines m) (filter (fun x => x <> l) (free_line_list m)) (victim_line_pq m)
    (filter (fun x => x <> l) (full_line_list m)) (lm_tt_lines m)
    (free_line_cnt m) (victim_line_cnt m) (full_line_cnt m).

Definition cf_sp (f : conv_ftl) : ssdparams := sp (cf_ssd f).

(** ** Small helpers *)
Definition last_pg_in_wordline (f : conv_ftl) (ppa : Z) : outcome bool :=
  let* r := modO (ppa_pg ppa) (pgs_per_oneshotpg (cf_sp f)) in
  Ok (r =? pgs_per_oneshotpg (cf_sp f) - 1).

Definition should_gc (f : conv_ftl) : bool :=
  free_line_cnt (cf_lm f) <=? gc_thres_lines (cf_cp f).

Definition should_gc_high (f : conv_ftl) : bool :=
  free_line_cnt (cf_lm f) <=? gc_thres_lines_high (cf_cp f).

Definition get_maptbl_ent (f : conv_ftl) (lpn : Z) : outcome Z := nthZ (maptbl f) lpn.

Definition set_maptbl_ent (f : conv_ftl) (lpn ppa : Z) : outcome conv_ftl :=
  ASSERT! lpn <? tt_pgs (cf_sp f);
  let* m := updZ (maptbl f) lpn ppa in
  Ok (set_maptbl f m).

Definition ppa2pgidx (f : conv_ftl) (ppa : Z) : outcome Z :=
  let spp := cf_sp f in
  let pgidx :=
    u64 (ppa_ch ppa * pgs_per_ch spp + ppa_lun ppa * pgs_per_lun spp + ppa_pl ppa * pgs_per_pl spp
         + u64 (imul (ppa_blk ppa) (pgs_per_blk spp)) + ppa_pg ppa) in
  ASSERT! pgidx <? tt_pgs spp;
  Ok pgidx.

Definition get_rmap_ent (f : conv_ftl) (ppa : Z) : outcome Z :=
  let* pgidx := ppa2pgidx f ppa in nthZ (rmap f) pgidx.

Definition set_rmap_ent (f : conv_ftl) (lpn ppa : Z) : outcome conv_ftl :=
  let* pgidx := ppa2pgidx f ppa in
  let* r := updZ (rmap f) pgidx lpn in
  Ok (set_rmap f r).

Definition valid_ppa (f : conv_ftl) (ppa : Z) : bool :=
  let spp := cf_sp f in
  if (ppa_ch ppa <? 0) || (nchs spp <=? ppa_ch ppa) then false
  else if (ppa_lun ppa <? 0) || (luns_per_ch spp <=? ppa_lun ppa) then false
  else if (ppa_pl ppa <? 0) || (pls_per_lun spp <=? ppa_pl ppa) then false
  else if (ppa_blk ppa <? 0) || (blks_per_pl spp <=? ppa_blk ppa) then false
  else if (ppa_pg ppa <? 0) || (pgs_per_blk spp <=? ppa_pg ppa) then false
  else true.

Definition valid_lpn (f : conv_ftl) (lpn : Z) : bool := lpn <? tt_pgs (cf_sp f).
Definition mapped_ppa (ppa : Z) : bool := negb (ppa =? UNMAPPED_PPA).
Definition get_line (ppa : Z) : Z := ppa_blk ppa.

Definition consume_write_credit (f : conv_ftl) : conv_ftl :=
  set_wfc f (mk_wfc (u32 (write_credits (cf_wfc f) - 1)) (credits_to_refill (cf_wfc f))).

(** [check_addr(int a, int max)] *)
Definition check_addr (a max : Z) : bool := (0 <=? s32 a) && (s32 a <? s32 max).

(** ** Lines and write pointers *)
Definition init_lines (spp : ssdparams) (q_alloc d_alloc : bool) : outcome line_mgmt :=
  let tt := u32 (blks_per_pl spp) in
  ASSERT! tt =? tt_lines spp;
  let q := pqueue_init q_alloc d_alloc (tt_lines spp) in
  let ids := seqZ 0 tt in
  let lines := map (fun i => mk_line i 0 0 0) ids in
  ASSERT! u32 (Z.of_nat (length ids)) =? tt;
  Ok (mk_lm lines ids q [] tt (u32 (Z.of_nat (length ids))) 0 0).

Definition get_next_free_line (m : line_mgmt) : option Z * line_mgmt :=
  match free_line_list m with
  | [] => (None, m)
  | l :: rest => (Some l, set_free m rest (u32 (free_line_cnt m - 1)))
  end.

Definition get_wp (f : conv_ftl) (io_type : Z) : outcome write_pointer :=
  if io_type =? USER_IO then Ok (cf_wp f)
  else if io_type =? GC_IO then Ok (cf_gc_wp f)
  else Bug.

Definition set_wp (f : conv_ftl) (io_type : Z) (wp : write_pointer) : conv_ftl :=
  if io_type =? USER_IO then
    mk_conv_ftl (cf_ssd f) (cf_cp f) (maptbl f) (rmap f) wp (cf_gc_wp f) (cf_lm f) (cf_wfc f) (gc_cnt f)
  else
    mk_conv_ftl (cf_ssd f) (cf_cp f) (maptbl f) (rmap f) (cf_wp f) wp (cf_lm f) (cf_wfc f) (gc_cnt f).

Definition prepare_write_pointer (f : conv_ftl) (io_type : Z) : outcome conv_ftl :=
  let* _ := get_wp f io_type in
  let '(cur, m) := get_next_free_line (cf_lm f) in
  match cur with
  | None => Bug
  | Some cur =>
      let* l := nthZ (lm_lines m) cur in
      Ok (set_wp (set_lm f m) io_type (mk_wp (Some cur) 0 0 0 (u32 (ln_id l)) 0))
  end.

(** The line that has been filled goes to the full list or to the victim queue. *)
Definition retire_line (spp : ssdparams) (m : line_mgmt) (cur : Z) : outcome line_mgmt :=
  let* l := nthZ (lm_lines m) cur in
  if u64 (ln_vpc l) =? pgs_per_line spp then
    ASSERT! ln_ipc l =? 0;
    Ok (set_full m (full_line_list m ++ [cur]) (u32 (full_line_cnt m + 1)))
  else
    ASSERT! (0 <=? ln_vpc l) && (u64 (ln_vpc l) <? pgs_per_line spp);
    ASSERT! 0 <? ln_ipc l;
    let* (_, ls, q) := pqueue_insert victim_line_cmp_pri (lm_lines m) (victim_line_pq m) cur in
    Ok (set_victim m ls q (u32 (victim_line_cnt m + 1))).

Definition advance_write_pointer (f : conv_ftl) (io_type : Z) : outcome conv_ftl :=
  let spp := cf_sp f in
  let* wpp := get_wp f io_type in
  ASSERT! check_addr (wp_pg wpp) (pgs_per_blk spp);
  let pg := u32 (wp_pg wpp + 1) in
  let out (pg ch lun : Z) :=
    Ok (set_wp f io_type (mk_wp (wp_curline wpp) ch lun pg (wp_blk wpp) (wp_pl wpp))) in
  let* r := modO pg (pgs_per_oneshotpg spp) in
  if negb (r =? 0) then out pg (wp_ch wpp) (wp_lun wpp)
  else
    let pg := u32 (pg - pgs_per_oneshotpg spp) in
    ASSERT! check_addr (wp_ch wpp) (nchs spp);
    let ch := u32 (wp_ch wpp + 1) in
    if negb (ch =? u32 (nchs spp)) then out pg ch (wp_lun wpp)
    else
      let ch := 0 in
      ASSERT! check_addr (wp_lun wpp) (luns_per_ch spp);
      let lun := u32 (wp_lun wpp + 1) in
      if negb (lun =? u32 (luns_per_ch spp)) then out pg ch lun
      else
        let lun := 0 in
        let pg := u32 (pg + pgs_per_oneshotpg spp) in
        if negb (pg =? u32 (pgs_per_blk spp)) then out pg ch lun
        else
          let pg := 0 in
          let* cur := of_option (wp_curline wpp) in
          let* m := retire_line spp (cf_lm f) cur in
          ASSERT! check_addr (wp_blk wpp) (blks_per_pl spp);
          let '(next, m) := get_next_free_line m in
          let* next := of_option next in
          let* l := nthZ (lm_lines m) next in
          let blk := u32 (ln_id l) in
          ASSERT! check_addr blk (blks_per_pl spp);
          ASSERT! (pg =? 0) && (lun =? 0) && (ch =? 0) && (wp_pl wpp =? 0);
          Ok (set_wp (set_lm f m) io_type (mk_wp (Some next) ch lun pg blk (wp_pl wpp))).

Definition get_new_page (f : conv_ftl) (io_type : Z) : outcome Z :=
  let* wp := get_wp f io_type in
  let ppa := set_ch 0 (wp_ch wp) in
  let ppa := set_lun ppa (wp_lun wp) in
  let ppa := set_pg ppa (wp_pg wp) in
  let ppa := set_blk ppa (wp_blk wp) in
  let ppa := set_pl ppa (wp_pl wp) in
  ASSERT! ppa_pl ppa =? 0;
  Ok ppa.

(** ** Initialisation *)
Definition init_maptbl (spp : ssdparams) : list Z := replicate (Z.to_nat (tt_pgs spp)) UNMAPPED_PPA.
Definition init_rmap (spp : ssdparams) : list Z := replicate (Z.to_nat (tt_pgs spp)) INVALID_LPN.
Definition init_write_flow_control (spp : ssdparams) : write_flow_control :=
  mk_wfc (u32 (pgs_per_line spp)) (u32 (pgs_per_line spp)).

(** The write pointers before [prepare_write_pointer]. *)
Definition wp_none : write_pointer := mk_wp None 0 0 0 0 0.

Definition conv_init_ftl (cpp : convparams) (s : ssd) (q_alloc d_alloc : bool) : outcome conv_ftl :=
  let spp := sp s in
  let* m := init_lines spp q_alloc d_alloc in
  let f := mk_conv_ftl s cpp (init_maptbl spp) (init_rmap spp) wp_none wp_none m
             (init_write_flow_control spp) 0 in
  let* f := prepare_write_pointer f USER_IO in
  prepare_write_pointer f GC_IO.

(** Double arithmetic, and the conversion of a double to [int] (towards zero). *)
Definition double_1 : spec_float := S754_finite false 4503599627370496 (-52).
Definition double_100 : spec_float := S754_finite false 7036874417766400 (-46).
Definition double_add : spec_float -> spec_float -> spec_float := SFadd 53 1024.
Definition double_mul : spec_float -> spec_float -> spec_float := SFmul 53 1024.
Definition double_to_int (x : spec_float) : Z :=
  match x with
  | S754_finite s m e =>
      let v := if 0 <=? e then Z.pos m * 2 ^ e else Z.pos m / 2 ^ (- e) in
      if s then - v else v
  | _ => 0
  end.

Definition conv_init_params (cfg : ssd_config) : convparams :=
  {| gc_thres_lines := 8; gc_thres_lines_high := 8; enable_gc_delay := true;
     pba_pcent := double_to_int (double_mul (double_add double_1 (OP_AREA_PERCENT cfg)) double_100) |}.

Example pba_970pro : pba_pcent (conv_init_params SAMSUNG_970PRO_flash) = 107.
Proof. reflexivity. Qed.

(** ** Page and block status *)
(** The last part of [mark_page_invalid]: the line loses a valid page and, when
    it was full, moves to the victim queue. *)
Definition invalidate_line (spp : ssdparams) (m : line_mgmt) (ln : Z) : outcome line_mgmt :=
  let* l := nthZ (lm_lines m) ln in
  ASSERT! (0 <=? ln_ipc l) && (u64 (ln_ipc l) <? pgs_per_line spp);
  let was_full_line := u64 (ln_vpc l) =? pgs_per_line spp in
  ASSERT! negb was_full_line || (ln_ipc l =? 0);
  let* ls := updZ (lm_lines m) ln (set_ln_ipc l (s32 (ln_ipc l + 1))) in
  ASSERT! (0 <? ln_vpc l) && (u64 (ln_vpc l) <=? pgs_per_line spp);
  let* m :=
    (if negb (ln_pos l =? 0) then
       let* (ls, q) := pqueue_change_priority victim_line_cmp_pri ls (victim_line_pq m)
                         (u64 (s32 (ln_vpc l - 1))) ln in
       Ok (set_victim m ls q (victim_line_cnt m))
     else
       let* ls := alterZ (fun l => Ok (set_ln_vpc l (s32 (ln_vpc l - 1)))) ls ln in
       Ok (set_lines m ls)) in
  if was_full_line then
    let m := list_del_init m ln in
    let m := set_full m (full_line_list m) (u32 (full_line_cnt m - 1)) in
    let* (_, ls, q) := pqueue_insert victim_line_cmp_pri (lm_lines m) (victim_line_pq m) ln in
    Ok (set_victim m ls q (u32 (victim_line_cnt m + 1)))
  else Ok m.

Definition mark_page_invalid (f : conv_ftl) (ppa : Z) : outcome conv_ftl :=
  let spp := cf_sp f in
  (* page *)
  let* pg := get_pg (cf_ssd f) ppa in
  ASSERT! pg_status pg =? PG_VALID;
  let* s := with_pg (cf_ssd f) ppa (fun pg => Ok (set_pg_status pg PG_INVALID)) in
  (* block *)
  let* blk := get_blk s ppa in
  ASSERT! (0 <=? nb_ipc blk) && (nb_ipc blk <? pgs_per_blk spp);
  ASSERT! (0 <? nb_vpc blk) && (nb_vpc blk <=? pgs_per_blk spp);
  let* s := with_blk s ppa (fun b =>
    Ok (mk_nand_block (nb_pg b) (nb_npgs b) (s32 (nb_ipc b + 1)) (s32 (nb_vpc b - 1))
          (nb_erase_cnt b) (nb_wp b))) in
  (* line *)
  let* m := invalidate_line spp (cf_lm f) (get_line ppa) in
  Ok (set_lm (set_ssd f s) m).

Definition mark_page_valid (f : conv_ftl) (ppa : Z) : outcome conv_ftl :=
  let spp := cf_sp f in
  let* pg := get_pg (cf_ssd f) ppa in
  ASSERT! pg_status pg =? PG_FREE;
  let* s := with_pg (cf_ssd f) ppa (fun pg => Ok (set_pg_status pg PG_VALID)) in
  let* blk := get_blk s ppa in
  ASSERT! (0 <=? nb_vpc blk) && (nb_vpc blk <? pgs_per_blk spp);
  let* s := with_blk s ppa (fun b =>
    Ok (mk_nand_block (nb_pg b) (nb_npgs b) (nb_ipc b) (s32 (nb_vpc b + 1))
          (nb_erase_cnt b) (nb_wp b))) in
  let m := cf_lm f in
  let ln := get_line ppa in
  let* l := nthZ (lm_lines m) ln in
  ASSERT! (0 <=? ln_vpc l) && (u64 (ln_vpc l) <? pgs_per_line spp);
  let* ls := updZ (lm_lines m) ln (set_ln_vpc l (s32 (ln_vpc l + 1))) in
  Ok (set_lm (set_ssd f s) (set_lines m ls)).

Definition mark_block_free (f : conv_ftl) (ppa : Z) : outcome conv_ftl :=
  let spp := cf_sp f in
  let* s := with_blk (cf_ssd f) ppa (fun blk =>
    let* pgs := forO 0 (pgs_per_blk spp) (nb_pg blk) (fun pgs i =>
      let* pg := nthZ pgs i in
      ASSERT! pg_nsecs pg =? secs_per_pg spp;
      updZ pgs i (set_pg_status pg PG_FREE)) in
    ASSERT! nb_npgs blk =? pgs_per_blk spp;
    Ok (mk_nand_block pgs (nb_npgs blk) 0 0 (s32 (nb_erase_cnt blk + 1)) (nb_wp blk))) in
  Ok (set_ssd f s).

(** ** Garbage collection *)
Section Timed.
Context `{Clock}.

(** [ssd_advance_nand] on the instance's device. *)
Definition conv_advance_nand (f : conv_ftl) (h : hw) (ncmd : nand_cmd)
  : outcome (Z * conv_ftl * hw) :=
  let* (t, s, h) := ssd_advance_nand (cf_ssd f) h ncmd in
  Ok (t, set_ssd f s, h).

Definition gc_read_page (f : conv_ftl) (h : hw) (ppa : Z) : outcome (conv_ftl * hw) :=
  if enable_gc_delay (cf_cp f) then
    let* (_, f, h) := conv_advance_nand f h
      (mk_nand_cmd GC_IO NAND_READ (u64 (pgsz (cf_sp f))) 0 false ppa) in
    Ok (f, h)
  else Ok (f, h).

Definition gc_write_page (f : conv_ftl) (h : hw) (old_ppa : Z) : outcome (conv_ftl * hw) :=
  let* lpn := get_rmap_ent f old_ppa in
  ASSERT! valid_lpn f lpn;
  let* new_ppa := get_new_page f GC_IO in
  let* f := set_maptbl_ent f lpn new_ppa in
  let* f := set_rmap_ent f lpn new_ppa in
  let* f := mark_page_valid f new_ppa in
  let* f := advance_write_pointer f GC_IO in
  if enable_gc_delay (cf_cp f) then
    let* last := last_pg_in_wordline f new_ppa in
    let gcw :=
      if last then
        mk_nand_cmd GC_IO NAND_WRITE (u64 (imul (pgsz (cf_sp f)) (pgs_per_oneshotpg (cf_sp f))))
          0 false new_ppa
      else mk_nand_cmd GC_IO NAND_NOP 0 0 false new_ppa in
    let* (_, f, h) := conv_advance_nand f h gcw in
    Ok (f, h)
  else Ok (f, h).

Definition select_victim_line (f : conv_ftl) (force : bool) : outcome (option Z * conv_ftl) :=
  let m := cf_lm f in
  let* victim := pqueue_peek (victim_line_pq m) in
  match victim with
  | None => Ok (None, f)
  | Some v =>
      let* l := nthZ (lm_lines m) v in
      if negb force && (pgs_per_line (cf_sp f) / 8 <? u64 (ln_vpc l)) then Ok (None, f)
      else
        let* (_, ls, q) := pqueue_pop victim_line_cmp_pri (lm_lines m) (victim_line_pq m) in
        let* ls := alterZ (fun l => Ok (set_ln_pos l 0)) ls v in
        Ok (Some v, set_lm f (set_victim m ls q (u32 (victim_line_cnt m - 1))))
  end.

(** Not called by the program (the caller cleans flash pages instead). *)
Definition clean_one_block (f : conv_ftl) (h : hw) (ppa : Z) : outcome (conv_ftl * hw) :=
  let spp := cf_sp f in
  let* (f, h, ppa, cnt) :=
    forO 0 (pgs_per_blk spp) (f, h, ppa, 0) (fun '(f, h, ppa, cnt) pg =>
      let ppa := set_pg ppa pg in
      let* pg_iter := get_pg (cf_ssd f) ppa in
      ASSERT! negb (pg_status pg_iter =? PG_FREE);
      if pg_status pg_iter =? PG_VALID then
        let* (f, h) := gc_read_page f h ppa in
        let* (f, h) := gc_write_page f h ppa in
        Ok (f, h, ppa, s32 (cnt + 1))
      else Ok (f, h, ppa, cnt)) in
  let* blk := get_blk (cf_ssd f) ppa in
  ASSERT! nb_vpc blk =? cnt;
  Ok (f, h).

(** The first loop of [clean_one_flashpg]: the number of valid pages. *)
Definition count_flashpg (f : conv_ftl) (ppa : Z) : outcome Z :=
  let* (_, cnt) :=
    forO 0 (pgs_per_flashpg (cf_sp f)) (ppa, 0) (fun '(ppa_copy, cnt) _ =>
      let* pg_iter := get_pg (cf_ssd f) ppa_copy in
      ASSERT! negb (pg_status pg_iter =? PG_FREE);
      Ok (set_pg ppa_copy (ppa_pg ppa_copy + 1),
          if pg_status pg_iter =? PG_VALID then s32 (cnt + 1) else cnt)) in
  Ok cnt.

(** The second loop. *)
Definition copy_flashpg (f : conv_ftl) (h : hw) (ppa : Z) : outcome (conv_ftl * hw) :=
  let* (f, h, _) :=
    forO 0 (pgs_per_flashpg (cf_sp f)) (f, h, ppa) (fun '(f, h, ppa_copy) _ =>
      let* pg_iter := get_pg (cf_ssd f) ppa_copy in
      let* (f, h) :=
        (if pg_status pg_iter =? PG_VALID then gc_write_page f h ppa_copy else Ok (f, h)) in
      Ok (f, h, set_pg ppa_copy (ppa_pg ppa_copy + 1))) in
  Ok (f, h).

Definition clean_one_flashpg (f : conv_ftl) (h : hw) (ppa : Z) : outcome (conv_ftl * hw) :=
  let* cnt := count_flashpg f ppa in
  if cnt <=? 0 then Ok (f, h)
  else
    let* (f, h) :=
      (if enable_gc_delay (cf_cp f) then
         let* (_, f, h) := conv_advance_nand f h
           (mk_nand_cmd GC_IO NAND_READ (u64 (imul (pgsz (cf_sp f)) cnt)) 0 false ppa) in
         Ok (f, h)
       else Ok (f, h)) in
    copy_flashpg f h ppa.

Definition mark_line_free (f : conv_ftl) (ppa : Z) : outcome conv_ftl :=
  let m := cf_lm f in
  let ln := get_line ppa in
  let* ls := alterZ (fun l => Ok (set_ln_vpc (set_ln_ipc l 0) 0)) (lm_lines m) ln in
  let m := set_lines m ls in
  Ok (set_lm f (set_free m (free_line_list m ++ [ln]) (u32 (free_line_cnt m + 1)))).

(** The body of the innermost loop of [do_gc]. *)
Definition gc_one_lun (flashpg ch lun : Z) (f : conv_ftl) (h : hw) (ppa : Z)
  : outcome (conv_ftl * hw * Z) :=
  let ppa := set_pl (set_lun (set_ch ppa ch) lun) 0 in
  let* (f, h) := clean_one_flashpg f h ppa in
  if flashpg =? flashpgs_per_blk (cf_sp f) - 1 then
    let* f := mark_block_free f ppa in
    let* (f, h) :=
      (if enable_gc_delay (cf_cp f) then
         let* (_, f, h) := conv_advance_nand f h (mk_nand_cmd GC_IO NAND_ERASE 0 0 false ppa) in
         Ok (f, h)
       else Ok (f, h)) in
    let* s := with_lun (cf_ssd f) ppa (fun l => Ok (set_nl_gc l (nl_next_lun_avail_time l))) in
    Ok (set_ssd f s, h, ppa)
  else Ok (f, h, ppa).

(** The copy loops of [do_gc]; [ppa] carries the block of the victim line. *)
Definition gc_copy (f : conv_ftl) (h : hw) (ppa : Z) : outcome (conv_ftl * hw * Z) :=
  let spp := cf_sp f in
  forO 0 (flashpgs_per_blk spp) (f, h, ppa) (fun '(f, h, ppa) flashpg =>
    let ppa := set_pg ppa (imul flashpg (pgs_per_flashpg spp)) in
    forO 0 (nchs spp) (f, h, ppa) (fun '(f, h, ppa) ch =>
      forO 0 (luns_per_ch spp) (f, h, ppa) (fun '(f, h, ppa) lun =>
        gc_one_lun flashpg ch lun f h ppa))).

(** [ppa0] is the uninitialised local [struct ppa ppa]. *)
Definition do_gc (ppa0 : Z) (f : conv_ftl) (h : hw) (force : bool)
  : outcome (Z * conv_ftl * hw) :=
  let* (victim, f) := select_victim_line f force in
  match victim with
  | None => Ok (-1, f, h)
  | Some v =>
      let f := set_gc_cnt f (s32 (gc_cnt f + 1)) in
      let* l := nthZ (lm_lines (cf_lm f)) v in
      let ppa := set_blk ppa0 (ln_id l) in
      let f := set_wfc f (mk_wfc (write_credits (cf_wfc f)) (u32 (ln_ipc l))) in
      let* (f, h, ppa) := gc_copy f h ppa in
      let* f := mark_line_free f ppa in
      Ok (0, f, h)
  end.

Definition foreground_gc (ppa0 : Z) (f : conv_ftl) (h : hw) : outcome (conv_ftl * hw) :=
  if should_gc_high f then
    let* (_, f, h) := do_gc ppa0 f h true in Ok (f, h)
  else Ok (f, h).

(** Not called: both calls are commented out in [conv_write]. *)
Definition check_and_refill_write_credit (ppa0 : Z) (f : conv_ftl) (h : hw)
  : outcome (conv_ftl * hw) :=
  if write_credits (cf_wfc f) <=? 0 then
    let* (f, h) := foreground_gc ppa0 f h in
    let w := cf_wfc f in
    Ok (set_wfc f (mk_wfc (u32 (write_credits w + credits_to_refill w)) (credits_to_refill w)), h)
  else Ok (f, h).

(** [while (should_gc_high(conv_ftl)) do_gc(conv_ftl, true);] *)
Fixpoint gc_loop (fuel : nat) (ppa0 : Z) (f : conv_ftl) (h : hw) : outcome (conv_ftl * hw) :=
  if should_gc_high f then
    match fuel with
    | O => NoFuel
    | S fuel' =>
        let* (_, f, h) := do_gc ppa0 f h true in
        gc_loop fuel' ppa0 f h
    end
  else Ok (f, h).

(** ** Commands *)
Record nvmev_ns := mk_ns {
  ns_csi : Z;
  ns_nr_parts : Z;
  ns_size : Z;
  ns_ftls : list conv_ftl;
}.
Definition set_ftls (ns : nvmev_ns) (l : list conv_ftl) : nvmev_ns :=
  mk_ns (ns_csi ns) (ns_nr_parts ns) (ns_size ns) l.

Definition is_same_flash_page (f : conv_ftl) (ppa1 ppa2 : Z) : outcome bool :=
  let* p1 := divO (ppa_pg ppa1) (pgs_per_flashpg (cf_sp f)) in
  let* p2 := divO (ppa_pg ppa2) (pgs_per_flashpg (cf_sp f)) in
  Ok ((ppa_blk_in_ssd ppa1 =? ppa_blk_in_ssd ppa2) && (p1 =? p2)).

(** The common reading of the command: sectors, first and last logical page. *)
Definition io_nr_lba (cmd : nvme_command) : Z := rw_length cmd + 1.
Definition io_start_lpn (spp : ssdparams) (cmd : nvme_command) : outcome Z :=
  divO (rw_slba cmd) (secs_per_pg spp).
Definition io_end_lpn (spp : ssdparams) (cmd : nvme_command) : outcome Z :=
  divO (u64 (rw_slba cmd + io_nr_lba cmd - 1)) (secs_per_pg spp).

(** [for (lpn = first; lpn <= last; lpn += step)]; the page numbers are below
    2^61, so the counter does not wrap. *)
Definition for_lpn {S : Type} (first last step : Z) (s : S) (body : S -> Z -> outcome S)
  : outcome S :=
  GUARD! negb (step =? 0);
  forO 0 (if first <=? last then (last - first) / step + 1 else 0) s
    (fun s i => body s (first + i * step)).

(** One iteration of the read loop on instance [f]; the state is the device,
    the link, the page read last, the bytes gathered and the latest time. *)
Definition read_lpn (nr_parts stime : Z)
  (st : conv_ftl * hw * Z * Z * Z) (lpn : Z) : outcome (conv_ftl * hw * Z * Z * Z) :=
  let '(f, h, prev_ppa, xfer_size, nsecs_latest) := st in
  let* local_lpn := divO lpn nr_parts in
  let* cur_ppa := get_maptbl_ent f local_lpn in
  if negb (mapped_ppa cur_ppa) || negb (valid_ppa f cur_ppa) then Ok st
  else
    let* same := (if mapped_ppa prev_ppa then is_same_flash_page f cur_ppa prev_ppa else Ok false) in
    if (same : bool) then Ok (f, h, prev_ppa, u32 (xfer_size + pgsz (cf_sp f)), nsecs_latest)
    else
      let* (f, h, nsecs_latest) :=
        (if 0 <? xfer_size then
           let* (t, f, h) := conv_advance_nand f h
             (mk_nand_cmd USER_IO NAND_READ xfer_size stime true prev_ppa) in
           Ok (f, h, Z.max t nsecs_latest)
         else Ok (f, h, nsecs_latest)) in
      Ok (f, h, cur_ppa, u32 (pgsz (cf_sp f)), nsecs_latest).

(** The read of the pages of one partition. *)
Definition read_part (nr_parts stime end_lpn : Z) (st : nvmev_ns * hw * Z) (start_lpn : Z)
  : outcome (nvmev_ns * hw * Z) :=
  let '(ns, h, nsecs_latest) := st in
  let* part := modO start_lpn nr_parts in
  let* f := nthZ (ns_ftls ns) part in
  let* local := divO start_lpn nr_parts in
  let* prev_ppa := get_maptbl_ent f local in
  let* (f, h, prev_ppa, xfer_size, nsecs_latest) :=
    for_lpn start_lpn end_lpn nr_parts (f, h, prev_ppa, 0, nsecs_latest)
      (read_lpn nr_parts stime) in
  let* (f, h, nsecs_latest) :=
    (if 0 <? xfer_size then
       let* (t, f, h) := conv_advance_nand f h
         (mk_nand_cmd USER_IO NAND_READ xfer_size stime true prev_ppa) in
       Ok (f, h, Z.max t nsecs_latest)
     else Ok (f, h, nsecs_latest)) in
  let* l := updZ (ns_ftls ns) part f in
  Ok (set_ftls ns l, h, nsecs_latest).

Definition conv_read (ns : nvmev_ns) (h : hw) (req : nvmev_request) (ret : nvmev_result)
  : outcome (bool * nvmev_ns * hw * nvmev_result) :=
  let* f0 := nthZ (ns_ftls ns) 0 in
  let spp := cf_sp f0 in
  let cmd := req_cmd req in
  let nr_lba := io_nr_lba cmd in
  let* start_lpn := io_start_lpn spp cmd in
  let* end_lpn := io_end_lpn spp cmd in
  let nsecs_start := req_nsecs_start req in
  let nr_parts := ns_nr_parts ns in
  let* q := divO end_lpn nr_parts in
  if tt_pgs spp <=? q then Ok (false, ns, h, ret)
  else
    let stime :=
      if LBA_TO_BYTE nr_lba <=? u32 (KB 4 * nr_parts) then u64 (nsecs_start + fw_4kb_rd_lat spp)
      else u64 (nsecs_start + fw_rd_lat spp) in
    let* (ns, h, nsecs_latest) :=
      forO 0 (Z.min nr_parts (end_lpn - start_lpn + 1)) (ns, h, nsecs_start)
        (fun st i => read_part nr_parts stime end_lpn st (start_lpn + i)) in
    Ok (true, ns, h, mk_nvmev_result NVME_SC_SUCCESS nsecs_latest).

(** Invalidates the page that the logical page was mapped to. *)
Definition invalidate_old (f : conv_ftl) (local_lpn : Z) : outcome conv_ftl :=
  let* ppa := get_maptbl_ent f local_lpn in
  if mapped_ppa ppa then
    let* f := mark_page_invalid f ppa in
    set_rmap_ent f INVALID_LPN ppa
  else Ok f.

(** Allocates, maps and marks the new page of [local_lpn]. *)
Definition map_new_page (f : conv_ftl) (local_lpn : Z) : outcome (conv_ftl * Z) :=
  let* ppa := get_new_page f USER_IO in
  let* f := set_maptbl_ent f local_lpn ppa in
  let* f := set_rmap_ent f local_lpn ppa in
  let* f := mark_page_valid f ppa in
  let* f := advance_write_pointer f USER_IO in
  Ok (f, ppa).

(** The end of the iteration: programs a word line that is complete. *)
Definition program_wordline (sq_id stime : Z) (f : conv_ftl) (h : hw) (ppa nsecs_latest : Z)
  : outcome (conv_ftl * hw * Z) :=
  let spp := cf_sp f in
  let* last := last_pg_in_wordline f ppa in
  if (last : bool) then
    let* (t, f, h) := conv_advance_nand f h
      (mk_nand_cmd USER_IO NAND_WRITE (u64 (imul (pgsz spp) (pgs_per_oneshotpg spp))) stime false
         ppa) in
    let h := log_internal_op h
      (mk_internal_op sq_id t WB_GLOBAL (u64 (imul (pgs_per_oneshotpg spp) (pgsz spp)))) in
    Ok (f, h, Z.max t nsecs_latest)
  else Ok (f, h, nsecs_latest).

(** One iteration of the write loop. *)
Definition write_lpn (sq_id nr_parts stime : Z) (st : nvmev_ns * hw * Z) (lpn : Z)
  : outcome (nvmev_ns * hw * Z) :=
  let '(ns, h, nsecs_latest) := st in
  let* part := modO lpn nr_parts in
  let* local_lpn := divO lpn nr_parts in
  let* f := nthZ (ns_ftls ns) part in
  let* f := invalidate_old f local_lpn in
  let* (f, ppa) := map_new_page f local_lpn in
  let* (f, h, nsecs_latest) := program_wordline sq_id stime f h ppa nsecs_latest in
  let* l := updZ (ns_ftls ns) part f in
  Ok (set_ftls ns l, h, nsecs_latest).

Definition conv_write (ns : nvmev_ns) (h : hw) (req : nvmev_request) (ret : nvmev_result)
  : outcome (bool * nvmev_ns * hw * nvmev_result) :=
  let* f0 := nthZ (ns_ftls ns) 0 in
  let spp := cf_sp f0 in
  let cmd := req_cmd req in
  let nr_lba := io_nr_lba cmd in
  let* start_lpn := io_start_lpn spp cmd in
  let* end_lpn := io_end_lpn spp cmd in
  let nr_parts := ns_nr_parts ns in
  let* q := divO end_lpn nr_parts in
  if tt_pgs spp <=? q then Ok (false, ns, h, ret)
  else
    let '(allocated_buf_size, wbuf) := buffer_allocate (hw_write_buffer h) (LBA_TO_BYTE nr_lba) in
    let h := set_write_buffer h wbuf in
    if allocated_buf_size <? LBA_TO_BYTE nr_lba then Ok (false, ns, h, ret)
    else
      let* (nsecs_xfer_completed, h) :=
        ssd_advance_write_buffer (cf_ssd f0) h (req_nsecs_start req) (LBA_TO_BYTE nr_lba) in
      let* (ns, h, nsecs_latest) :=
        for_lpn start_lpn end_lpn 1 (ns, h, nsecs_xfer_completed)
          (write_lpn (req_sq_id req) nr_parts nsecs_xfer_completed) in
      let target :=
        if Z.testbit (rw_control cmd) NVME_RW_FUA_BIT || negb (write_early_completion spp)
        then nsecs_latest else nsecs_xfer_completed in
      Ok (true, ns, h, mk_nvmev_result NVME_SC_SUCCESS target).

(** [local_clock()] reads the same clock. *)
Definition conv_flush (ns : nvmev_ns) (h : hw) (ret : nvmev_result)
  : outcome (nvmev_ns * hw * nvmev_result) :=
  let start := cpu_clock (hw_clk h) in
  let h := set_clk h (S (hw_clk h)) in
  let* (h, latest) :=
    forO 0 (ns_nr_parts ns) (h, start) (fun '(h, latest) i =>
      let* f := nthZ (ns_ftls ns) i in
      let* (t, h) := ssd_next_idle_time (cf_ssd f) h in
      Ok (h, Z.max latest t)) in
  Ok (ns, h, mk_nvmev_result NVME_SC_SUCCESS latest).

(** The dispatch of the command, before the collection. *)
Definition conv_dispatch (ns : nvmev_ns) (h : hw) (req : nvmev_request) (ret : nvmev_result)
  : outcome (bool * nvmev_ns * hw * nvmev_result) :=
  let op := opcode (req_cmd req) in
  if op =? nvme_cmd_write then conv_write ns h req ret
  else if op =? nvme_cmd_read then conv_read ns h req ret
  else if op =? nvme_cmd_print_cmt then Ok (true, ns, h, ret)
  else if op =? nvme_cmd_flush then
    let* (ns, h, ret) := conv_flush ns h ret in Ok (true, ns, h, ret)
  else Ok (true, ns, h, ret).

Definition conv_proc_nvme_io_cmd (fuel : nat) (ppa0 : Z) (ns : nvmev_ns) (h : hw)
  (req : nvmev_request) (ret : nvmev_result) : outcome (bool * nvmev_ns * hw * nvmev_result) :=
  ASSERT! ns_csi ns =? NVME_CSI_NVM;
  let* (ok, ns, h, ret) := conv_dispatch ns h req ret in
  if negb ok then Ok (false, ns, h, ret)
  else
    let* f0 := nthZ (ns_ftls ns) 0 in
    let* (f0, h) := gc_loop fuel ppa0 f0 h in
    let* l := updZ (ns_ftls ns) 0 f0 in
    Ok (true, set_ftls ns l, h, ret).

End Timed.

(** ** The namespace *)
Definition conv_init_namespace (cfg : ssd_config) (size cpu : Z)
  : outcome (nvmev_ns * channel_model * buffer) :=
  let nr_parts := SSD_PARTITIONS cfg in
  let* spp := ssd_init_params cfg size nr_parts in
  let cpp := conv_init_params cfg in
  let* (_, pcie0, wbuf0) := ssd_init spp cpu in
  let* ftls := forO 0 nr_parts [] (fun l _ =>
    let* (s, _, _) := ssd_init spp cpu in
    let* f := conv_init_ftl cpp s true true in
    Ok (l ++ [f])) in
  let* sz := divO (u64 (size * 100)) (pba_pcent cpp) in
  Ok (mk_ns NVME_CSI_NVM nr_parts sz ftls, pcie0, wbuf0).
