(* ===== verification/ConvLines.v ===== *)
(** * ConvLines: the line manager of conv_ftl.c

    Each line has a role: free, being filled by the host or by the collector,
    full, victim, or being cleaned.  [lm_ok] ties the lists, the victim queue
    and the counters of [line_mgmt] to the roles, to the number of pages written
    to each line ([fl]) and to the number of its valid pages in the flash array
    ([sv]); each operation on lines moves it to the next one. *)
From stdpp Require Import base list numbers gmap.
From Stdlib Require Import ZArith Lia.
From S2P Require Import Prelude Pqueue SsdConfig Ssd SsdFacts ConvGeom ConvNand Lines.
From S2P Require Import PqueueSpec ConvFtl.

Open Scope Z_scope.
Open Scope nvmev_scope.

Inductive role := RFree | RFull | RVictim | RUser | RGc | RClean.

#[export] Instance role_eq_dec : EqDecision role.
Proof. solve_decision. Defined.

Definition upd {A : Type} (f : Z -> A) (b : Z) (x : A) : Z -> A :=
  fun b' => if b' =? b then x else f b'.

Lemma upd_eq {A} (f : Z -> A) b x : upd f b x b = x.
Proof. unfold upd. by rewrite Z.eqb_refl. Qed.
Lemma upd_ne {A} (f : Z -> A) b b' x : b' <> b -> upd f b x b' = f b'.
Proof. unfold upd. intros H. by rewrite (proj2 (Z.eqb_neq b' b) H). Qed.

(** A queue does not depend on the nodes that it does not hold. *)
Lemma pq_inv_frame ls ls' q :
  pq_inv victim_line_cmp_pri ls q ->
  (forall x, inq q x -> exists l l', nthO ls x = Some l /\ nthO ls' x = Some l' /\
     ln_vpc l' = ln_vpc l /\ ln_pos l' = ln_pos l) ->
  pq_inv victim_line_cmp_pri ls' q.
Proof.
  intros [[Hs Ha Hn] Ho] Hf.
  assert (Hpri : forall x, inq q x -> pri ls' x = pri ls x).
  { intros x Hx. destruct (Hf x Hx) as (l & l' & H1%nthO_nthZ & H2%nthO_nthZ & Hv & _).
    unfold pri. simpl. unfold victim_line_get_pri. rewrite H1, H2. simpl. by rewrite Hv. }
  split; [split; [done|done|]|].
  - intros j Hj. destruct (Hn j Hj) as (x & Hx & _ & Hp). exists x. split; [done|].
    destruct (Hf x) as (l & l' & H1%nthO_nthZ & H2%nthO_nthZ & _ & Hpos); [by exists j|].
    split; [simpl; by eapply nthZ_range|]. simpl in *. unfold victim_line_get_pos in *.
    rewrite H1 in Hp. rewrite H2. simpl in *. congruence.
  - intros j x y Hj Hx Hy. rewrite !Hpri; [by apply (Ho j)|by exists j; split; [lia|]|].
    exists (j / 2). split; [heap_lia|done].
Qed.

(** A line across an operation of the queue. *)
Lemma frame_line ls ls' b l :
  lines_frame ls ls' -> nthO ls b = Some l ->
  exists l', nthO ls' b = Some l' /\ same_line l l'.
Proof.
  unfold nthO. intros Hf Hl. destruct (0 <=? b); [|done]. by eapply lines_frame_lookup.
Qed.

Lemma getpos_line ls b l p : nthO ls b = Some l -> getpos ls b = Ok p <-> ln_pos l = p.
Proof.
  intros Hl%nthO_nthZ. simpl. unfold victim_line_get_pos. rewrite Hl. simpl. split; congruence.
Qed.

Section LineMgmt.
Variable spp : ssdparams.
Context (G : geom_ok spp).

Notation ppl := (pgs_per_line spp).
Notation in_line := (in_line spp).

Record line_ok (rl : role) (fill sum : Z) (b : Z) (l : line) : Prop := {
  lo_id : ln_id l = b;
  lo_sum : rl <> RClean -> ln_vpc l = sum;
  lo_fill : rl <> RClean -> ln_vpc l + ln_ipc l = fill;
  lo_vpc : 0 <= ln_vpc l;
  lo_ipc : 0 <= ln_ipc l;
  lo_free : rl = RFree -> fill = 0;
  lo_used : rl = RFull \/ rl = RVictim -> fill = ppl;
  lo_full : rl = RFull -> ln_ipc l = 0;
  lo_victim : rl = RVictim -> 0 < ln_ipc l;
  lo_pos : rl <> RVictim -> ln_pos l = 0;
}.

Record lm_ok (rl : Z -> role) (fl sv : Z -> Z) (m : line_mgmt) : Prop := {
  lk_len : Z.of_nat (length (lm_lines m)) = blks_per_pl spp;
  lk_line : forall b, in_line b ->
    exists l, nthO (lm_lines m) b = Some l /\ line_ok (rl b) (fl b) (sv b) b l;
  lk_free_nd : NoDup (free_line_list m);
  lk_free : forall b, b ∈ free_line_list m <-> in_line b /\ rl b = RFree;
  lk_full_nd : NoDup (full_line_list m);
  lk_full : forall b, b ∈ full_line_list m <-> in_line b /\ rl b = RFull;
  lk_pq : exists q, victim_line_pq m = Some q /\ pq_inv victim_line_cmp_pri (lm_lines m) q /\
    pq_avail q = blks_per_pl spp + 1 /\ (forall b, inq q b <-> in_line b /\ rl b = RVictim) /\
    victim_line_cnt m = pq_size q - 1;
  lk_free_cnt : free_line_cnt m = Z.of_nat (length (free_line_list m));
  lk_full_cnt : full_line_cnt m = Z.of_nat (length (full_line_list m));
}.

Lemma lm_ok_ext rl fl sv rl' fl' sv' m :
  lm_ok rl fl sv m ->
  (forall b, in_line b -> rl' b = rl b /\ fl' b = fl b /\ sv' b = sv b) -> lm_ok rl' fl' sv' m.
Proof.
  intros [H1 H2 H3 H4 H5 H6 (q & Hq & Hi & Ha & Hin & Hc) H8 H9] He. split; try done.
  - intros b Hb. destruct (He b Hb) as (-> & -> & ->). by apply H2.
  - intros b. rewrite H4. split; intros [Hb Hr]; destruct (He b Hb) as (E & _ & _); by rewrite ?E, <- ?E in *.
  - intros b. rewrite H6. split; intros [Hb Hr]; destruct (He b Hb) as (E & _ & _); by rewrite ?E, <- ?E in *.
  - exists q. repeat (split; [done|]). split; [|done]. intros b. rewrite Hin.
    split; intros [Hb Hr]; destruct (He b Hb) as (E & _ & _); by rewrite ?E, <- ?E in *.
Qed.

Lemma line_list_bound l :
  NoDup l -> (forall b, b ∈ l -> in_line b) -> Z.of_nat (length l) <= blks_per_pl spp.
Proof.
  intros Hnd Hl. destruct G. assert (Hs : l ⊆+ seqZ 0 (blks_per_pl spp)).
  { apply NoDup_submseteq; [done|]. intros b Hb. apply elem_of_seqZ. specialize (Hl b Hb).
    unfold ConvNand.in_line in Hl. lia. }
  apply submseteq_length in Hs. rewrite length_seqZ in Hs. lia.
Qed.

(** There is room in the queue for a line that is not in it. *)
Lemma queue_room ls q b :
  pq_inv victim_line_cmp_pri ls q -> pq_avail q = blks_per_pl spp + 1 ->
  (forall x, inq q x -> in_line x) -> in_line b -> ~ inq q b -> pq_size q < pq_avail q.
Proof.
  intros Hi Ha Hin Hb Hn.
  set (s := list_to_set (pq_elems q) : gset Z).
  assert (Hr : pq_rep victim_line_cmp_pri ls q s).
  { split; [done|]. intros x. unfold s. by rewrite elem_of_list_to_set, elem_of_pq_elems. }
  pose proof (rep_size victim_line_cmp_pri _ _ _ Hr) as Hsz.
  assert (Hsub : {[b]} ∪ s ⊆ list_to_set (seqZ 0 (blks_per_pl spp))).
  { intros x. rewrite elem_of_union, elem_of_singleton, elem_of_list_to_set, elem_of_seqZ.
    unfold ConvNand.in_line in *. intros [->|Hx]; [lia|]. apply Hr, Hin in Hx. lia. }
  apply subseteq_size in Hsub. rewrite size_union in Hsub.
  - rewrite size_singleton, size_list_to_set, length_seqZ in Hsub by apply NoDup_seqZ.
    unfold ConvNand.in_line in Hb. lia.
  - intros x ->%elem_of_singleton Hx. by apply Hn, Hr.
Qed.

Lemma ppl_bound : 0 < ppl < 2147483648.
Proof.
  destruct G. rewrite g_line. rewrite g_tt, g_ch, g_lun, g_pl in g_tt_max.
  assert (0 < pgs_per_blk spp * luns_per_ch spp) by nia.
  assert (0 < pgs_per_blk spp * luns_per_ch spp * nchs spp) by nia. split; [done|].
  replace (nchs spp * (luns_per_ch spp * (blks_per_pl spp * pgs_per_blk spp)))
    with (blks_per_pl spp * (pgs_per_blk spp * luns_per_ch spp * nchs spp)) in g_tt_max by ring.
  nia.
Qed.

(** Replacing one line by one that the queue cannot tell apart. *)
Lemma lm_ok_set_line rl fl sv m b l fill sum :
  lm_ok rl fl sv m -> in_line b -> rl b <> RVictim -> line_ok (rl b) fill sum b l ->
  lm_ok rl (upd fl b fill) (upd sv b sum) (set_lines m (<[Z.to_nat b := l]> (lm_lines m))).
Proof.
  intros [H1 H2 H3 H4 H5 H6 (q & Hq & Hi & Ha & Hin & Hc) H8 H9] Hb Hrl Hl.
  destruct (H2 b Hb) as (l0 & Hl0 & Hok0).
  assert (Hlk : forall x, nthO (<[Z.to_nat b := l]> (lm_lines m)) x = if x =? b then Some l else nthO (lm_lines m) x)
    by (intros x; by apply (nthO_insert _ _ _ _ l0)).
  split; simpl; try done.
  - by rewrite length_insert.
  - intros x Hx. rewrite Hlk. destruct (Z.eqb_spec x b) as [->|Hne].
    + exists l. by rewrite !upd_eq.
    + rewrite !upd_ne by done. by apply H2.
  - exists q. repeat (split; [done|]). split; [|done]. apply (pq_inv_frame (lm_lines m)); [done|].
    intros x Hx%Hin. rewrite Hlk. destruct (Z.eqb_spec x b) as [->|Hne]; [tauto|].
    destruct Hx as [Hx _]. destruct (H2 x Hx) as (lx & Hlx & _). by exists lx, lx.
Qed.

Lemma line_ok_current rl fill sum b l :
  rl = RUser \/ rl = RGc ->
  line_ok rl fill sum b l <->
  ln_id l = b /\ ln_vpc l = sum /\ ln_vpc l + ln_ipc l = fill /\ 0 <= ln_vpc l /\ 0 <= ln_ipc l /\
  ln_pos l = 0.
Proof.
  intros Hr. split.
  - intros [Hid Hs Hf Hv Hi _ _ _ _ Hp].
    assert (rl <> RClean /\ rl <> RVictim) as [? ?] by (by destruct Hr as [-> | ->]).
    auto 10.
  - intros (Hid & Hs & Hf & Hv & Hi & Hp).
    split; try (intros; assumption); by destruct Hr as [-> | ->]; try intros [?|?].
Qed.

(** [mark_page_valid]: one more valid page in a line being filled. *)
Lemma lm_inc_valid rl fl sv m b l :
  lm_ok rl fl sv m -> in_line b -> rl b = RUser \/ rl b = RGc ->
  nthO (lm_lines m) b = Some l ->
  lm_ok rl (upd fl b (fl b + 1)) (upd sv b (sv b + 1))
    (set_lines m (<[Z.to_nat b := set_ln_vpc l (ln_vpc l + 1)]> (lm_lines m))).
Proof.
  intros Hm Hb Hr Hl. apply lm_ok_set_line; try done; [by destruct Hr as [-> | ->]|].
  destruct (lk_line _ _ _ _ Hm b Hb) as (l' & Hl' & Hok). assert (l' = l) as -> by congruence.
  apply line_ok_current in Hok as (Hid & Hs & Hf & Hv & Hi & Hp); [|done].
  apply line_ok_current; [done|]. simpl. repeat split; try done; lia.
Qed.

(** *** Lists of the lines of one role *)
Definition holds (r : role) (rl : Z -> role) (l : list Z) : Prop :=
  NoDup l /\ forall b, b ∈ l <-> in_line b /\ rl b = r.

Lemma holds_keep r rl l b rb : holds r rl l -> rl b <> r -> rb <> r -> holds r (upd rl b rb) l.
Proof.
  intros [Hnd Hl] H1 H2. split; [done|]. intros x. rewrite Hl.
  destruct (decide (x = b)) as [->|Hne]; [rewrite upd_eq|by rewrite upd_ne]. tauto.
Qed.

(** The same for the members of the queue. *)
Lemma queue_keep (P : Z -> Prop) rl b rb :
  (forall x, P x <-> in_line x /\ rl x = RVictim) -> rl b <> RVictim -> rb <> RVictim ->
  forall x, P x <-> in_line x /\ upd rl b rb x = RVictim.
Proof.
  intros HP H1 H2 x. rewrite HP.
  destruct (decide (x = b)) as [->|Hne]; [rewrite upd_eq|by rewrite upd_ne]. tauto.
Qed.

Lemma holds_add r rl l b : holds r rl l -> rl b <> r -> in_line b -> holds r (upd rl b r) (l ++ [b]).
Proof.
  intros [Hnd Hl] H1 H2. split.
  - apply NoDup_app. split; [done|]. split; [|apply NoDup_singleton].
    intros x Hx%Hl ->%list_elem_of_singleton. tauto.
  - intros x. rewrite elem_of_app, list_elem_of_singleton, Hl.
    destruct (decide (x = b)) as [->|Hne]; [rewrite upd_eq; tauto|rewrite upd_ne by done; tauto].
Qed.

Lemma holds_tail r rl b l rb : holds r rl (b :: l) -> rb <> r -> holds r (upd rl b rb) l.
Proof.
  intros [[Hb Hnd]%NoDup_cons Hl] H1. split; [done|]. intros x.
  destruct (decide (x = b)) as [->|Hne].
  - rewrite upd_eq. tauto.
  - rewrite upd_ne by done. rewrite <- Hl, elem_of_cons. tauto.
Qed.

Lemma holds_remove r rl l b rb :
  holds r rl l -> rb <> r -> holds r (upd rl b rb) (filter (fun x => x <> b) l).
Proof.
  intros [Hnd Hl] H1. split; [by apply NoDup_filter|]. intros x. rewrite list_elem_of_filter, Hl.
  destruct (decide (x = b)) as [->|Hne]; [rewrite upd_eq|rewrite upd_ne by done]; tauto.
Qed.

Lemma filter_ne_id (l : list Z) b : b ∉ l -> filter (fun x => x <> b) l = l.
Proof.
  induction l as [|x l IH]; [done|]. intros Hb. rewrite not_elem_of_cons in Hb.
  rewrite filter_cons_True by (intros ->; tauto). rewrite IH; tauto.
Qed.

Lemma filter_ne_length (l : list Z) b :
  NoDup l -> b ∈ l -> Z.of_nat (length (filter (fun x => x <> b) l)) = Z.of_nat (length l) - 1.
Proof.
  induction 1 as [|x l Hx Hnd IH]; [by intros ?%elem_of_nil|]. rewrite elem_of_cons.
  destruct (decide (x = b)) as [->|Hne].
  - intros _. rewrite filter_cons_False by tauto. rewrite filter_ne_id by done. simpl. lia.
  - intros [->|Hb]; [done|]. rewrite filter_cons_True by done.
    rewrite !length_cons, !Nat2Z.inj_succ, IH by done. lia.
Qed.

Lemma lk_holds rl fl sv m :
  lm_ok rl fl sv m -> holds RFree rl (free_line_list m) /\ holds RFull rl (full_line_list m).
Proof. intros Hm. by destruct Hm. Qed.

(** The manager after an operation that has changed the line [b], the order of
    the queue, and the lists. *)
Lemma lm_ok_rebuild rl fl sv m b rb fill sum ls' q' free' full' tt nf nv nu :
  lm_ok rl fl sv m -> in_line b -> length ls' = length (lm_lines m) ->
  (forall x l, x <> b -> nthO (lm_lines m) x = Some l ->
     exists l', nthO ls' x = Some l' /\ same_line l l' /\ (rl x <> RVictim -> ln_pos l' = ln_pos l)) ->
  (exists l', nthO ls' b = Some l' /\ line_ok rb fill sum b l') ->
  pq_inv victim_line_cmp_pri ls' q' -> pq_avail q' = blks_per_pl spp + 1 ->
  (forall x, inq q' x <-> in_line x /\ upd rl b rb x = RVictim) ->
  holds RFree (upd rl b rb) free' -> holds RFull (upd rl b rb) full' ->
  nf = Z.of_nat (length free') -> nu = Z.of_nat (length full') -> nv = pq_size q' - 1 ->
  lm_ok (upd rl b rb) (upd fl b fill) (upd sv b sum) (mk_lm ls' free' (Some q') full' tt nf nv nu).
Proof.
  intros [H1 H2 _ _ _ _ _ _ _] Hb Hlen Hot (lb & Hlb & Hokb) Hi Ha Hin [Hf1 Hf2] [Hu1 Hu2] -> -> ->.
  split; simpl; try done.
  - by rewrite Hlen.
  - intros x Hx. destruct (decide (x = b)) as [->|Hne].
    + exists lb. by rewrite !upd_eq.
    + rewrite !upd_ne by done. destruct (H2 x Hx) as (l & Hl & [? ? ? ? ? ? ? ? ? Hp]).
      destruct (Hot x l Hne Hl) as (l' & Hl' & (E1 & E2 & E3) & Hpos). exists l'. split; [done|].
      split; rewrite <- ?E1, <- ?E2, <- ?E3; try done. intros Hv. rewrite Hpos by done. auto.
  - by exists q'.
Qed.

(** *** The queue *)

(** The lines other than [b] across a queue operation that keeps positions
    outside of the queue. *)
Lemma frame_others rl fl sv m q b ls1 ls' :
  lm_ok rl fl sv m -> victim_line_pq m = Some q ->
  (forall x, x <> b -> nthO ls1 x = nthO (lm_lines m) x) ->
  lines_frame ls1 ls' ->
  (forall x, x <> b -> ~ inq q x -> getpos ls' x = getpos ls1 x) ->
  forall x l, x <> b -> nthO (lm_lines m) x = Some l ->
     exists l', nthO ls' x = Some l' /\ same_line l l' /\ (rl x <> RVictim -> ln_pos l' = ln_pos l).
Proof.
  intros Hm Hq H1 Hf Hp x l Hne Hl. destruct (lk_pq _ _ _ _ Hm) as (q0 & Hq0 & _ & _ & Hin & _).
  assert (q0 = q) as -> by congruence. rewrite <- H1 in Hl by done.
  destruct (frame_line _ _ _ _ Hf Hl) as (l' & Hl' & Hs). exists l'. split; [done|]. split; [done|].
  intros Hr. apply (getpos_line ls' x l' _ Hl'). rewrite Hp; [by apply (getpos_line ls1 x l _ Hl)|done|].
  rewrite Hin. tauto.
Qed.

Lemma lm_insert_victim rl fl sv m b l ls1 full' tt nu :
  lm_ok rl fl sv m -> in_line b -> rl b <> RVictim -> rl b <> RFree ->
  ls1 = <[Z.to_nat b := l]> (lm_lines m) ->
  line_ok RVictim (fl b) (ln_vpc l) b l -> ln_pos l = 0 ->
  holds RFull (upd rl b RVictim) full' -> nu = Z.of_nat (length full') ->
  exists q ls' q', victim_line_pq m = Some q /\
    pqueue_insert victim_line_cmp_pri ls1 (Some q) b = Ok (0, ls', Some q') /\
    lm_ok (upd rl b RVictim) (upd fl b (fl b)) (upd sv b (ln_vpc l))
      (mk_lm ls' (free_line_list m) (Some q') full' tt (free_line_cnt m)
         (u32 (victim_line_cnt m + 1)) nu).
Proof.
  intros Hm Hb Hrl Hrf -> Hok Hpos Hfull Hnu.
  pose proof Hm as [H1 H2 _ _ _ _ (q & Hq & Hi & Ha & Hin & Hc) H8 H9].
  destruct (H2 b Hb) as (l0 & Hl0 & _).
  assert (Hlk : forall x, nthO (<[Z.to_nat b := l]> (lm_lines m)) x = if x =? b then Some l else nthO (lm_lines m) x)
    by (intros x; by apply (nthO_insert _ _ _ _ l0)).
  assert (Hn : ~ inq q b) by (rewrite Hin; tauto).
  assert (Hroom : pq_size q < pq_avail q)
    by (apply (queue_room (lm_lines m) q b); try done; intros x; rewrite Hin; tauto).
  assert (Hi1 : pq_inv victim_line_cmp_pri (<[Z.to_nat b := l]> (lm_lines m)) q).
  { apply (pq_inv_frame (lm_lines m)); [done|]. intros x Hx. rewrite Hlk.
    destruct (Z.eqb_spec x b) as [->|]; [done|]. apply Hin in Hx as [Hx _].
    destruct (H2 x Hx) as (lx & Hlx & _). by exists lx, lx. }
  destruct (insert_spec victim_line_cmp_pri _ q b Hi1) as (ls' & q' & He & Hi' & Hin' & [Hf Hav Hp] & Hsz');
    [simpl; rewrite length_insert; unfold ConvNand.in_line in Hb; lia|done|done|].
  exists q, ls', q'. split; [done|]. split; [done|]. simpl in Hf. destruct (lk_holds _ _ _ _ Hm) as [Hhf _].
  destruct (inv_wf _ _ _ Hi). destruct G.
  apply (lm_ok_rebuild rl fl sv m); try done.
  - rewrite (lines_frame_length _ _ Hf). by rewrite length_insert.
  - apply (frame_others rl fl sv m q b (<[Z.to_nat b := l]> (lm_lines m))); try done.
    + intros x Hx. rewrite Hlk. by rewrite (proj2 (Z.eqb_neq x b)).
    + intros x Hx Hnx. apply Hp. rewrite Hin'. tauto.
  - destruct (frame_line _ _ b l Hf) as (l' & Hl' & E1 & E2 & E3); [by rewrite Hlk, Z.eqb_refl|].
    exists l'. split; [done|]. destruct Hok. split; rewrite <- ?E1, <- ?E2, <- ?E3; done.
  - lia.
  - intros x. rewrite Hin', Hin. destruct (decide (x = b)) as [->|Hne].
    + rewrite upd_eq. tauto.
    + rewrite upd_ne by done. tauto.
  - by apply holds_keep.
  - rewrite u32_id by lia. lia.
Qed.

(** The line [b] of the queue after a change of its priority. *)
Lemma lm_change_priority rl fl sv m b l :
  lm_ok rl fl sv m -> in_line b -> rl b = RVictim -> nthO (lm_lines m) b = Some l ->
  0 < ln_vpc l -> ln_vpc l + ln_ipc l = ppl ->
  exists q ls' q', victim_line_pq m = Some q /\
    pqueue_change_priority victim_line_cmp_pri (<[Z.to_nat b := set_ln_ipc l (ln_ipc l + 1)]> (lm_lines m))
      (Some q) (ln_vpc l - 1) b = Ok (ls', Some q') /\
    lm_ok (upd rl b RVictim) (upd fl b (fl b)) (upd sv b (ln_vpc l - 1))
      (set_victim m ls' (Some q') (victim_line_cnt m)).
Proof.
  intros Hm Hb Hrl Hl Hv Hvi. pose proof ppl_bound as Hppl.
  pose proof Hm as [H1 H2 _ _ _ _ (q & Hq & Hi & Ha & Hin & Hc) H8 H9].
  destruct (H2 b Hb) as (l0 & Hl0 & Hok). assert (l0 = l) as -> by congruence.
  set (l1 := set_ln_ipc l (ln_ipc l + 1)). set (ls1 := <[Z.to_nat b := l1]> (lm_lines m)).
  assert (Hlk : forall x, nthO ls1 x = if x =? b then Some l1 else nthO (lm_lines m) x)
    by (intros x; by apply (nthO_insert _ _ _ _ l)).
  assert (Hi1 : pq_inv victim_line_cmp_pri ls1 q).
  { apply (pq_inv_frame (lm_lines m)); [done|]. intros x Hx. rewrite Hlk.
    destruct (Z.eqb_spec x b) as [->|]; [by exists l, l1|]. apply Hin in Hx as [Hx _].
    destruct (H2 x Hx) as (lx & Hlx & _). by exists lx, lx. }
  destruct Hok.
  destruct (change_priority_spec victim_line_cmp_pri ls1 q (ln_vpc l - 1) b Hi1)
    as (st1 & ls' & q' & Hs1 & He & Hi' & Hin' & [Hf Hav Hp] & Hsz'); [by apply Hin|simpl; lia|].
  exists q, ls', q'. split; [done|]. split; [done|]. simpl in Hf, Hs1.
  apply alterZ_inv in Hs1 as (lx & ly & Hlx & [= <-] & ->).
  assert (lx = l1) as -> by (apply nthO_nthZ in Hlx; rewrite Hlk, Z.eqb_refl in Hlx; congruence).
  rewrite s32_id in * by lia. set (l2 := set_ln_vpc l1 (ln_vpc l - 1)) in *.
  assert (Hlk2 : forall x, nthO (<[Z.to_nat b := l2]> ls1) x = if x =? b then Some l2 else nthO (lm_lines m) x).
  { intros x. rewrite (nthO_insert _ _ _ _ l1) by (by rewrite Hlk, Z.eqb_refl). rewrite Hlk. by destruct (x =? b). }
  destruct (lk_holds _ _ _ _ Hm) as [Hhf Hhu].
  apply (lm_ok_rebuild rl fl sv m); try done.
  - rewrite (lines_frame_length _ _ Hf). unfold ls1. by rewrite !length_insert.
  - apply (frame_others rl fl sv m q b (<[Z.to_nat b := l2]> ls1)); try done.
    + intros x Hx. rewrite Hlk2. by rewrite (proj2 (Z.eqb_neq x b)).
    + intros x Hx Hnx. apply Hp. by rewrite Hin'.
  - destruct (frame_line _ _ b l2 Hf) as (l' & Hl' & E1 & E2 & E3); [by rewrite Hlk2, Z.eqb_refl|].
    exists l'. split; [done|]. unfold l2, l1 in E1, E2, E3. simpl in E1, E2, E3.
    rewrite Hrl in *. split; rewrite <- ?E1, <- ?E2, <- ?E3; try done; intros; try lia.
    specialize (lo_fill0 ltac:(done)). lia.
  - lia.
  - intros x. rewrite Hin', Hin. destruct (decide (x = b)) as [->|Hne].
    + rewrite upd_eq. tauto.
    + rewrite upd_ne by done. tauto.
  - by apply holds_keep; rewrite ?Hrl.
  - by apply holds_keep; rewrite ?Hrl.
  - lia.
Qed.

Lemma invalidate_line_spec rl fl sv m b :
  lm_ok rl fl sv m -> in_line b -> rl b <> RFree -> rl b <> RClean -> 0 < sv b -> fl b <= ppl ->
  (rl b = RUser \/ rl b = RGc -> fl b < ppl) ->
  exists m', invalidate_line spp m b = Ok m' /\
    lm_ok (upd rl b (if decide (rl b = RFull) then RVictim else rl b)) fl (upd sv b (sv b - 1)) m' /\
    free_line_list m' = free_line_list m.
Proof.
  intros Hm Hb Hrf Hrc Hsv Hfl Hcur. pose proof ppl_bound as Hppl.
  destruct (lk_line _ _ _ _ Hm b Hb) as (l & Hl & Hok). pose proof Hl as Hl'. apply nthO_nthZ in Hl'.
  pose proof (nthZ_range _ _ _ Hl') as Hrng. pose proof Hok as [Hid Hs Hf Hv0 Hi0 _ Hus Hfu Hvi Hpos].
  specialize (Hs Hrc). specialize (Hf Hrc). unfold invalidate_line. rewrite Hl'. cbn [obind].
  rewrite !u64_id by lia.
  destruct (Z.leb_spec 0 (ln_ipc l)); [|lia]. destruct (Z.ltb_spec (ln_ipc l) ppl); [|lia]. cbn [andb].
  rewrite (s32_id (ln_ipc l + 1)), (s32_id (ln_vpc l - 1)), (u64_id (ln_vpc l - 1)) by lia.
  assert (Has : negb (ln_vpc l =? ppl) || (ln_ipc l =? 0) = true).
  { destruct (Z.eqb_spec (ln_vpc l) ppl); [|done]. simpl. apply Z.eqb_eq. lia. }
  rewrite Has, updZ_Ok by done. cbn [obind].
  destruct (Z.ltb_spec 0 (ln_vpc l)); [|lia]. destruct (Z.leb_spec (ln_vpc l) ppl); [|lia]. cbn [andb].
  assert (Hupd : forall x, upd fl b (fl b) x = fl x)
    by (intros x; destruct (decide (x = b)) as [->|]; [by rewrite upd_eq|by rewrite upd_ne]).
  assert (Hupr : forall x, upd rl b (rl b) x = rl x)
    by (intros x; destruct (decide (x = b)) as [->|]; [by rewrite upd_eq|by rewrite upd_ne]).
  destruct (decide (rl b = RVictim)) as [Er|Er].
  - destruct (lk_pq _ _ _ _ Hm) as (q & Hq & Hi & _ & Hin & _).
    destruct (inq_pos (lm_lines m) q b (inv_wf _ _ _ Hi)) as (_ & j & Hj & Hjr & _); [by apply Hin|].
    apply (getpos_line _ _ _ _ Hl) in Hj. specialize (Hvi Er). specialize (Hus (or_intror Er)).
    destruct (Z.eqb_spec (ln_vpc l) ppl); [lia|]. destruct (Z.eqb_spec (ln_pos l) 0); [lia|]. cbn [negb].
    destruct (lm_change_priority rl fl sv m b l Hm Hb Er Hl) as (q0 & ls' & q' & Hq0 & He & Hm'); [lia|lia|].
    rewrite Hq0, He. cbn [obind]. eexists. split; [done|]. split; [|done].
    eapply lm_ok_ext; [exact Hm'|]. intros x Hx. rewrite Hupd, <- Hs.
    rewrite decide_False by (by rewrite Er). by rewrite Er.
  - rewrite Hpos by done. cbn [Z.eqb negb].
    rewrite (alterZ_Ok _ _ _ (set_ln_ipc l (ln_ipc l + 1)) (set_ln_vpc (set_ln_ipc l (ln_ipc l + 1)) (ln_vpc l - 1))).
    2: { apply nthO_nthZ. by rewrite (nthO_insert _ _ _ _ l), Z.eqb_refl. }
    2: { simpl. by rewrite s32_id by lia. }
    cbn [obind]. rewrite list_insert_insert_eq. set (l2 := set_ln_vpc _ _).
    destruct (decide (rl b = RFull)) as [Ef|Ef].
    + specialize (Hfu Ef). specialize (Hus (or_introl Ef)). destruct (Z.eqb_spec (ln_vpc l) ppl); [|lia].
      destruct (lk_holds _ _ _ _ Hm) as [Hhf Hhu].
      assert (Hbf : b ∈ full_line_list m) by (apply Hhu; done).
      pose proof (lk_full_cnt _ _ _ _ Hm) as Hfc.
      assert (Hnu : u32 (full_line_cnt m - 1) = Z.of_nat (length (filter (fun x => x <> b) (full_line_list m)))).
      { rewrite filter_ne_length by (by destruct Hhu). rewrite Hfc. apply u32_id.
        pose proof (line_list_bound (full_line_list m)) as Hbd. destruct G.
        assert (0 < length (full_line_list m))%nat by (destruct (full_line_list m); [by apply elem_of_nil in Hbf|simpl; lia]).
        specialize (Hbd ltac:(by destruct Hhu)). ospecialize (Hbd _); [intros x Hx; by apply Hhu|]. lia. }
      destruct (lm_insert_victim rl fl sv m b l2 (<[Z.to_nat b := l2]> (lm_lines m))
        (filter (fun x => x <> b) (full_line_list m)) (lm_tt_lines m) (u32 (full_line_cnt m - 1)))
        as (q & ls' & q' & Hq & He & Hm'); try done.
      * rewrite Hus. split; simpl; try done; intros; lia.
      * simpl. by apply Hpos.
      * by apply holds_remove.
      * unfold list_del_init, set_full, set_lines. cbn. rewrite Hq, He. cbn [obind].
        eexists. split; [done|]. cbn. rewrite filter_ne_id by (intros [_ Hx]%Hhf; congruence).
        split; [|done]. eapply lm_ok_ext; [exact Hm'|]. intros x Hx. rewrite Hupd. simpl. by rewrite Hs.
    + assert (Hc : rl b = RUser \/ rl b = RGc) by (destruct (rl b); tauto).
      specialize (Hcur Hc). destruct (Z.eqb_spec (ln_vpc l) ppl); [lia|].
      eexists. split; [done|]. split; [|done].
      eapply lm_ok_ext.
      * apply (lm_ok_set_line rl fl sv m b l2 (fl b) (sv b - 1) Hm Hb Er).
        apply line_ok_current; [done|]. unfold l2. simpl. rewrite Hpos by done. repeat split; try done; lia.
      * intros x Hx. by rewrite Hupd, Hupr.
Qed.

Lemma upd_same {A} (f : Z -> A) b x : upd f b (f b) x = f x.
Proof. destruct (decide (x = b)) as [->|]; [by rewrite upd_eq|by rewrite upd_ne]. Qed.

(** A line that has been filled leaves its write pointer. *)
Lemma retire_line_spec rl fl sv m b :
  lm_ok rl fl sv m -> in_line b -> rl b = RUser \/ rl b = RGc -> fl b = ppl ->
  exists m', retire_line spp m b = Ok m' /\
    lm_ok (upd rl b (if sv b =? ppl then RFull else RVictim)) fl sv m' /\
    free_line_list m' = free_line_list m.
Proof.
  intros Hm Hb Hr Hfl. pose proof ppl_bound as Hppl.
  destruct (lk_line _ _ _ _ Hm b Hb) as (l & Hl & Hok).
  pose proof Hl as Hl'. apply nthO_nthZ in Hl'. pose proof (nthZ_range _ _ _ Hl') as Hrng.
  apply line_ok_current in Hok as (Hid & Hs & Hf & Hv0 & Hi0 & Hp); [|done].
  unfold retire_line. rewrite Hl'. cbn [obind]. rewrite u64_id, Hs by lia.
  assert (Hrv : rl b <> RVictim /\ rl b <> RFree /\ rl b <> RFull) by (by destruct Hr as [-> | ->]).
  destruct (lk_holds _ _ _ _ Hm) as [Hhf Hhu].
  assert (Hid_lines : <[Z.to_nat b := l]> (lm_lines m) = lm_lines m)
    by (apply list_insert_id; apply nthZ_Ok in Hl'; tauto).
  destruct (Z.eqb_spec (sv b) ppl) as [E|E].
  - destruct (Z.eqb_spec (ln_ipc l) 0); [|lia]. eexists. split; [done|]. split; [|done].
    pose proof (line_list_bound (full_line_list m ++ [b])) as Hbd.
    pose proof (holds_add RFull rl _ b Hhu ltac:(tauto) Hb) as Hadd.
    specialize (Hbd ltac:(by destruct Hadd)). ospecialize (Hbd _); [intros x Hx; by apply Hadd|].
    rewrite length_app in Hbd. simpl in Hbd.
    destruct (lk_pq _ _ _ _ Hm) as (q & Hq & Hi & Ha & Hin & Hc).
    eapply lm_ok_ext.
    + unfold set_full. rewrite Hq.
      apply (lm_ok_rebuild rl fl sv m b RFull (fl b) (sv b)); try done.
      * intros x lx Hx Hlx. by exists lx.
      * exists l. split; [done|]. split; simpl; intros; (done || lia).
      * apply queue_keep; [done|tauto|done].
      * apply holds_keep; [done|tauto|done].
      * by destruct Hm.
      * pose proof (lk_full_cnt _ _ _ _ Hm). destruct G. rewrite length_app. simpl. rewrite u32_id; lia.
    + intros x Hx. by rewrite !upd_same.
  - assert (Hle : sv b < ppl) by lia.
    destruct (Z.leb_spec 0 (sv b)); [|lia]. destruct (Z.ltb_spec (sv b) ppl); [|lia]. cbn [andb].
    destruct (Z.ltb_spec 0 (ln_ipc l)); [|lia].
    destruct (lm_insert_victim rl fl sv m b l (lm_lines m) (full_line_list m) (lm_tt_lines m) (full_line_cnt m))
      as (q & ls' & q' & Hq & He & Hm'); try done.
    + tauto.
    + tauto.
    + apply holds_keep; [done|tauto|done].
    + by destruct Hm.
    + rewrite Hq, He. cbn [obind]. eexists. split; [done|]. split; [|done].
      eapply lm_ok_ext; [exact Hm'|]. intros x Hx. rewrite Hs, !upd_same. done.
Qed.

Lemma next_free_spec rl fl sv m b rest r :
  lm_ok rl fl sv m -> free_line_list m = b :: rest -> r = RUser \/ r = RGc ->
  in_line b /\ rl b = RFree /\ fl b = 0 /\
  exists m', get_next_free_line m = (Some b, m') /\ free_line_list m' = rest /\
    lm_lines m' = lm_lines m /\ lm_ok (upd rl b r) fl sv m'.
Proof.
  intros Hm Hfree Hr. destruct (lk_holds _ _ _ _ Hm) as [Hhf Hhu].
  assert (Hb : in_line b /\ rl b = RFree) by (apply Hhf; rewrite Hfree; apply list_elem_of_here).
  destruct Hb as [Hb Hrl]. destruct (lk_line _ _ _ _ Hm b Hb) as (l & Hl & Hok).
  split; [done|]. split; [done|]. split; [by apply Hok|].
  unfold get_next_free_line. rewrite Hfree. eexists. split; [done|]. do 2 (split; [done|]).
  destruct (lk_pq _ _ _ _ Hm) as (q & Hq & Hi & Ha & Hin & Hc).
  pose proof (line_list_bound (free_line_list m)) as Hbd.
  specialize (Hbd ltac:(by destruct Hhf)). ospecialize (Hbd _); [intros x Hx; by apply Hhf|].
  rewrite Hfree in Hbd. simpl in Hbd.
  assert (r <> RFree /\ r <> RFull /\ r <> RVictim) by (by destruct Hr as [-> | ->]).
  eapply lm_ok_ext.
  - unfold set_free. rewrite Hq.
    apply (lm_ok_rebuild rl fl sv m b r (fl b) (sv b)); try done.
    + intros x lx Hx Hlx. by exists lx.
    + exists l. split; [done|]. rewrite Hrl in Hok. destruct Hok. apply line_ok_current; [done|].
      repeat split; auto.
    + apply queue_keep; [done|by rewrite Hrl|tauto].
    + rewrite Hfree in Hhf. apply (holds_tail _ _ _ _ _ Hhf). tauto.
    + apply holds_keep; [done|by rewrite Hrl|tauto].
    + pose proof (lk_free_cnt _ _ _ _ Hm) as Hc'. rewrite Hfree in Hc'. simpl in Hc'. destruct G.
      rewrite u32_id; lia.
    + by destruct Hm.
  - intros x Hx. by rewrite !upd_same.
Qed.

(** The victim leaves the queue. *)
Lemma lm_select_victim rl fl sv m q v :
  lm_ok rl fl sv m -> victim_line_pq m = Some q -> 2 <= pq_size q -> pq_d q !! 1 = Some v ->
  in_line v /\ rl v = RVictim /\
  exists ls1 ls' q', pqueue_pop victim_line_cmp_pri (lm_lines m) (Some q) = Ok (Some v, ls1, Some q') /\
    alterZ (fun l => Ok (set_ln_pos l 0)) ls1 v = Ok ls' /\
    lm_ok (upd rl v RClean) fl sv (set_victim m ls' (Some q') (u32 (victim_line_cnt m - 1))).
Proof.
  intros Hm Hq Hsz Hv. pose proof Hm as [H1 H2 _ _ _ _ (q0 & Hq0 & Hi & Ha & Hin & Hc) H8 H9].
  assert (q0 = q) as -> by congruence. clear Hq0.
  assert (Hb : in_line v /\ rl v = RVictim) by (apply Hin; exists 1; split; [lia|done]).
  destruct Hb as [Hb Hrl]. split; [done|]. split; [done|].
  destruct (H2 v Hb) as (l & Hl & Hok). destruct (inv_wf _ _ _ Hi). destruct G.
  destruct (pop_spec victim_line_cmp_pri (lm_lines m) q v Hi Hsz Hv)
    as (ls1 & q' & Hpop & Hin' & Hf & Hp & Hav & Hs' & Hi'). simpl in Hf.
  destruct (frame_line _ _ v l Hf Hl) as (l1 & Hl1 & E1 & E2 & E3).
  exists ls1, (<[Z.to_nat v := set_ln_pos l1 0]> ls1), q'. split; [done|].
  assert (Hlk : forall x, nthO (<[Z.to_nat v := set_ln_pos l1 0]> ls1) x = if x =? v then Some (set_ln_pos l1 0) else nthO ls1 x)
    by (intros x; by apply (nthO_insert _ _ _ _ l1)).
  split; [apply (alterZ_Ok _ _ _ l1); [by apply nthO_nthZ|done]|].
  destruct (lk_holds _ _ _ _ Hm) as [Hhf Hhu].
  eapply lm_ok_ext.
  - unfold set_victim. apply (lm_ok_rebuild rl fl sv m v RClean (fl v) (sv v)); try done.
    + rewrite length_insert. apply (lines_frame_length _ _ Hf).
    + intros x lx Hx Hlx. rewrite Hlk, (proj2 (Z.eqb_neq x v)) by done.
      apply (frame_others rl fl sv m q v (lm_lines m) ls1 Hm Hq (fun _ _ => eq_refl) Hf Hp x lx Hx Hlx).
    + rewrite Hlk, Z.eqb_refl. eexists. split; [done|]. destruct Hok.
      split; simpl; rewrite <- ?E1, <- ?E2, <- ?E3; try done. by intros [?|?].
    + apply (pq_inv_frame ls1); [done|]. intros x [Hx Hxv]%Hin'. rewrite Hlk, (proj2 (Z.eqb_neq x v)) by done.
      apply Hin in Hx as [Hx _]. destruct (H2 x Hx) as (lx & Hlx & _).
      destruct (frame_line _ _ x lx Hf Hlx) as (lx' & Hlx' & _). by exists lx', lx'.
    + lia.
    + intros x. rewrite Hin', Hin. destruct (decide (x = v)) as [->|Hne]; [rewrite upd_eq; split; [tauto|by intros [_ ?]]|].
      rewrite upd_ne by done. tauto.
    + apply holds_keep; [done|by rewrite Hrl|done].
    + apply holds_keep; [done|by rewrite Hrl|done].
    + rewrite u32_id; lia.
  - intros x Hx. by rewrite !upd_same.
Qed.

Lemma lm_mark_free rl fl sv m v :
  lm_ok rl fl sv m -> in_line v -> rl v = RClean ->
  exists ls, alterZ (fun l => Ok (set_ln_vpc (set_ln_ipc l 0) 0)) (lm_lines m) v = Ok ls /\
    lm_ok (upd rl v RFree) (upd fl v 0) (upd sv v 0)
      (set_free (set_lines m ls) (free_line_list m ++ [v]) (u32 (free_line_cnt m + 1))).
Proof.
  intros Hm Hb Hrl. pose proof Hm as [H1 H2 _ _ _ _ (q & Hq & Hi & Ha & Hin & Hc) H8 H9].
  destruct (H2 v Hb) as (l & Hl & Hok). eexists.
  split; [by apply (alterZ_Ok _ _ _ l); [apply nthO_nthZ|done]|].
  assert (Hlk : forall x y, nthO (<[Z.to_nat v := y]> (lm_lines m)) x = if x =? v then Some y else nthO (lm_lines m) x)
    by (intros x y; by apply (nthO_insert _ _ _ _ l)).
  destruct (lk_holds _ _ _ _ Hm) as [Hhf Hhu].
  pose proof (holds_add RFree rl _ v Hhf ltac:(by rewrite Hrl) Hb) as Hadd.
  pose proof (line_list_bound (free_line_list m ++ [v])) as Hbd.
  specialize (Hbd ltac:(by destruct Hadd)). ospecialize (Hbd _); [intros x Hx; by apply Hadd|].
  rewrite length_app in Hbd. simpl in Hbd.
  unfold set_free, set_lines. cbn. rewrite Hq.
  apply (lm_ok_rebuild rl fl sv m); try done.
  - by rewrite length_insert.
  - intros x lx Hx Hlx. rewrite Hlk, (proj2 (Z.eqb_neq x v)) by done. by exists lx.
  - rewrite Hlk, Z.eqb_refl. eexists. split; [done|]. rewrite Hrl in Hok. destruct Hok.
    split; simpl; try done; try lia. { by intros [?|?]. } intros _. auto.
  - apply (pq_inv_frame (lm_lines m)); [done|]. intros x Hx. rewrite Hlk.
    destruct (Z.eqb_spec x v) as [->|]; [apply Hin in Hx as [_ Hx]; congruence|]. apply Hin in Hx as [Hx _].
    destruct (H2 x Hx) as (lx & Hlx & _). by exists lx, lx.
  - apply queue_keep; [done|by rewrite Hrl|done].
  - apply holds_keep; [done|by rewrite Hrl|done].
  - rewrite length_app. simpl. destruct G. rewrite u32_id; lia.
Qed.

End LineMgmt.
