(* ===== verification/ConvInv.v ===== *)
(** * ConvInv: the invariant of the page-mapping FTL and its primitive steps

    [ftl_inv] holds between any two steps of conv_ftl.c.  Its ghost state names
    the role and the number of written pages of every line, the logical page
    whose entry is about to be replaced ([gh_hole]), the write pointer that has
    not moved past the page just written ([gh_pend]) and the progress of the
    collector in the line it cleans ([gh_dead], [gh_freed]). *)
From stdpp Require Import base list numbers gmap.
From Stdlib Require Import ZArith Lia.
From S2P Require Import Prelude Pqueue ChannelModel SsdConfig Ssd SsdFacts ConvGeom ConvNand.
From S2P Require Import Nvme Lines PqueueSpec ConvFtl ConvLines.

Open Scope Z_scope.
Open Scope nvmev_scope.

Record ghost := mk_ghost {
  gh_role : Z -> role;
  gh_fill : Z -> Z;
  gh_vic : option Z;
  gh_hole : option Z;
  gh_pend : option Z;
  gh_dead : Z;
  gh_freed : Z;
}.

Definition set_gh_hole (g : ghost) (h : option Z) : ghost :=
  mk_ghost (gh_role g) (gh_fill g) (gh_vic g) h (gh_pend g) (gh_dead g) (gh_freed g).
Definition set_gh_dead (g : ghost) (n : Z) : ghost :=
  mk_ghost (gh_role g) (gh_fill g) (gh_vic g) (gh_hole g) (gh_pend g) n (gh_freed g).

Section Inv.
Variable spp : ssdparams.
Variable L : Z.

Notation ppl := (pgs_per_line spp).
Notation in_line := (in_line spp).
Notation in_page := (in_page spp).
Notation idx := (idx spp).
Notation pgidx := (pgidx spp).

(** The order in which the collector visits the pages of a line. *)
Definition gidx (c l pg : Z) : Z :=
  ((pg / pgs_per_flashpg spp * nchs spp + c) * luns_per_ch spp + l) * pgs_per_flashpg spp
  + pg mod pgs_per_flashpg spp.

(** Pages of the line being cleaned whose data has moved. *)
Definition dead_page (g : ghost) (c l b pg : Z) : Prop :=
  gh_role g b = RClean /\ gidx c l pg < gh_dead g.

Definition page_free (g : ghost) (c l b pg : Z) : Prop :=
  if decide (gh_role g b = RClean) then c * luns_per_ch spp + l < gh_freed g
  else gh_fill g b <= idx c l pg.

Definition pend (g : ghost) (io : Z) : Z := if decide (gh_pend g = Some io) then 1 else 0.

Definition wp_idx (wp : write_pointer) : Z := idx (wp_ch wp) (wp_lun wp) (wp_pg wp).

Record wp_ok (g : ghost) (r : role) (k : Z) (wp : write_pointer) : Prop := {
  wk_cur : wp_curline wp = Some (wp_blk wp);
  wk_line : in_line (wp_blk wp);
  wk_pl : wp_pl wp = 0;
  wk_page : in_page (wp_ch wp) (wp_lun wp) (wp_pg wp);
  wk_fill : gh_fill g (wp_blk wp) = wp_idx wp + k;
  wk_role : forall b, in_line b -> gh_role g b = r <-> b = wp_blk wp;
}.

Definition ppa_idx (p : Z) : Z := pgidx (ppa_ch p) (ppa_lun p) (ppa_blk p) (ppa_pg p).

Record map_ok (g : ghost) (s : ssd) (mt rm : list Z) : Prop := {
  mo_mlen : Z.of_nat (length mt) = tt_pgs spp;
  mo_rlen : Z.of_nat (length rm) = tt_pgs spp;
  mo_fwd : forall lpn p, nthO mt lpn = Some p -> p <> UNMAPPED_PPA -> gh_hole g <> Some lpn ->
    0 <= lpn < L /\ ppa_ok spp p /\ valid_at s (ppa_ch p) (ppa_lun p) (ppa_blk p) (ppa_pg p) /\
    ~ dead_page g (ppa_ch p) (ppa_lun p) (ppa_blk p) (ppa_pg p) /\ nthO rm (ppa_idx p) = Some lpn;
  mo_bwd : forall c l b pg, in_page c l pg -> in_line b -> valid_at s c l b pg ->
    ~ dead_page g c l b pg ->
    exists lpn p, nthO rm (pgidx c l b pg) = Some lpn /\ gh_hole g <> Some lpn /\
      nthO mt lpn = Some p /\ p <> UNMAPPED_PPA /\ same_page p c l b pg;
}.

Record ftl_inv (g : ghost) (f : conv_ftl) : Prop := {
  fi_geom : geom_ok spp;
  fi_timing : timing_ok spp;
  fi_nand : nand_ok spp (cf_ssd f);
  fi_free : forall c l b pg, in_page c l pg -> in_line b ->
    status_at (cf_ssd f) c l b pg = Some PG_FREE <-> page_free g c l b pg;
  fi_lm : lm_ok spp (gh_role g) (gh_fill g) (sum_vpc spp (cf_ssd f)) (cf_lm f);
  fi_user : wp_ok g RUser (pend g USER_IO) (cf_wp f);
  fi_gc : wp_ok g RGc (pend g GC_IO) (cf_gc_wp f);
  fi_vic : forall b, in_line b -> gh_role g b = RClean <-> gh_vic g = Some b;
  fi_map : map_ok g (cf_ssd f) (maptbl f) (rmap f);
}.

(** Pages that a write pointer can take before the free lines run out. *)
Definition room (io : Z) (f : conv_ftl) : Z :=
  ppl * Z.of_nat (length (free_line_list (cf_lm f))) +
  (ppl - wp_idx (if io =? USER_IO then cf_wp f else cf_gc_wp f)).

(** *** Timing leaves the invariant alone *)
Lemma status_at_equiv s s' c l b pg : nand_equiv s s' -> status_at s' c l b pg = status_at s c l b pg.
Proof. intros [_ H]. unfold status_at. by rewrite H. Qed.

Lemma sum_vpc_equiv s s' b : nand_equiv s s' -> sum_vpc spp s' b = sum_vpc spp s b.
Proof.
  intros [_ H]. apply sumZ_map_ext. intros cl _. unfold vpc_at. by rewrite H.
Qed.

Lemma ftl_inv_equiv g f s' :
  ftl_inv g f -> ssd_ok s' -> nand_equiv (cf_ssd f) s' -> ftl_inv g (set_ssd f s').
Proof.
  intros [H1 H2 [N1 N2 N3] H4 H5 H6 H7 H8 [M1 M2 M3 M4]] Hs He. split; simpl; try done.
  - destruct He as [E1 E2]. split; [congruence|done|]. intros c l b Hc Hl Hb. rewrite E2. by apply N3.
  - intros c l b pg Hp Hb. rewrite (status_at_equiv (cf_ssd f)) by done. by apply H4.
  - eapply lm_ok_ext; [exact H5|]. intros b Hb. by rewrite (sum_vpc_equiv (cf_ssd f)).
  - split; try done.
    + intros lpn p Hp Hu Hh. unfold valid_at. rewrite (status_at_equiv (cf_ssd f)) by done. by apply M3.
    + intros c l b pg Hp Hb. unfold valid_at. rewrite (status_at_equiv (cf_ssd f)) by done. by apply M4.
Qed.

(** *** Page numbers *)
Context (G : geom_ok spp).

Lemma pgidx_imul b : in_line b -> u64 (imul b (pgs_per_blk spp)) = b * pgs_per_blk spp.
Proof.
  intros Hb. unfold ConvNand.in_line in Hb. destruct G. unfold imul.
  assert (0 <= b * pgs_per_blk spp < 2147483648).
  { rewrite g_tt, g_ch, g_lun, g_pl in g_tt_max. split; [nia|].
    assert (b * pgs_per_blk spp < blks_per_pl spp * pgs_per_blk spp) by nia.
    assert (blks_per_pl spp * pgs_per_blk spp <= luns_per_ch spp * (blks_per_pl spp * pgs_per_blk spp)) by nia.
    assert (luns_per_ch spp * (blks_per_pl spp * pgs_per_blk spp) <=
      nchs spp * (luns_per_ch spp * (blks_per_pl spp * pgs_per_blk spp))) by nia. lia. }
  rewrite s32_id, u64_id by lia. done.
Qed.

Lemma ppa_idx_range p : ppa_ok spp p -> 0 <= ppa_idx p < tt_pgs spp.
Proof. intros [Hp Hb _]. by apply pgidx_range. Qed.

Lemma ppa2pgidx_spec f p : cf_sp f = spp -> ppa_ok spp p -> ppa2pgidx f p = Ok (ppa_idx p).
Proof.
  intros Hsp Hp. pose proof (ppa_idx_range p Hp) as Hr. destruct Hp as [Hpg Hb Hpl].
  unfold ppa2pgidx. rewrite Hsp, Hpl, pgidx_imul by done. destruct G.
  replace (ppa_ch p * pgs_per_ch spp + ppa_lun p * pgs_per_lun spp + 0 * pgs_per_pl spp +
    ppa_blk p * pgs_per_blk spp + ppa_pg p) with (ppa_idx p) by (unfold ppa_idx, ConvGeom.pgidx; lia).
  rewrite u64_id by lia. by rewrite (proj2 (Z.ltb_lt _ _)) by lia.
Qed.

Lemma ppa_idx_inj p c l b pg :
  ppa_ok spp p -> in_page c l pg -> in_line b -> ppa_idx p = pgidx c l b pg -> same_page p c l b pg.
Proof.
  intros [Hp Hb _] Hp' Hb' E. unfold same_page.
  destruct (pgidx_inj spp G _ _ _ _ _ _ _ _ Hp Hb Hp' Hb' E) as (E1 & E2 & E3 & E4). done.
Qed.

Lemma set_rmap_ent_spec f lpn p :
  cf_sp f = spp -> ppa_ok spp p -> Z.of_nat (length (rmap f)) = tt_pgs spp ->
  set_rmap_ent f lpn p = Ok (set_rmap f (<[Z.to_nat (ppa_idx p) := lpn]> (rmap f))).
Proof.
  intros Hsp Hp Hl. unfold set_rmap_ent. rewrite ppa2pgidx_spec by done. cbn [obind].
  pose proof (ppa_idx_range p Hp). by rewrite updZ_Ok by lia.
Qed.

Lemma set_maptbl_ent_spec f lpn p :
  cf_sp f = spp -> Z.of_nat (length (maptbl f)) = tt_pgs spp -> 0 <= lpn < tt_pgs spp ->
  set_maptbl_ent f lpn p = Ok (set_maptbl f (<[Z.to_nat lpn := p]> (maptbl f))).
Proof.
  intros Hsp Hl Hr. unfold set_maptbl_ent. rewrite Hsp, (proj2 (Z.ltb_lt _ _)) by lia.
  by rewrite updZ_Ok by lia.
Qed.

Lemma nthO_upd {A} (l : list A) i j x :
  0 <= i < Z.of_nat (length l) -> nthO (<[Z.to_nat i := x]> l) j = if j =? i then Some x else nthO l j.
Proof.
  intros Hi. destruct (nthZ_in_range l i Hi) as [y Hy]. apply (nthO_insert _ _ _ _ y). by apply nthO_nthZ.
Qed.

(** *** Marking pages *)

(** The page of the write pointer. *)
Lemma get_new_page_spec g f io r wp k :
  get_wp f io = Ok wp -> wp_ok g r k wp ->
  exists p, get_new_page f io = Ok p /\ ppa_ok spp p /\ p <> UNMAPPED_PPA /\
    same_page p (wp_ch wp) (wp_lun wp) (wp_blk wp) (wp_pg wp).
Proof.
  intros Hwp [_ Hl Hpl [Hc [Hlu Hpg]] _ _]. unfold get_new_page. rewrite Hwp. cbn [obind].
  set (p := set_pl _ _). unfold ConvNand.in_line in Hl. destruct G.
  assert (Hsame : ppa_ch p = wp_ch wp /\ ppa_lun p = wp_lun wp /\ ppa_blk p = wp_blk wp /\
    ppa_pg p = wp_pg wp /\ ppa_pl p = 0 /\ ppa_rsv p = 0).
  { unfold p. autorewrite with ppa. rewrite Hpl, !u8_id, !u16_id by lia. done. }
  destruct Hsame as (E1 & E2 & E3 & E4 & E5 & E6). rewrite E5. cbn [Z.eqb]. exists p.
  split; [done|]. split; [split|split].
  - rewrite E1, E2, E4. by split.
  - by rewrite E3.
  - done.
  - by apply ppa_rsv_mapped.
  - unfold same_page. by rewrite E1, E2, E3, E4.
Qed.

Lemma mark_page_valid_spec f p rl fl :
  nand_ok spp (cf_ssd f) -> ppa_ok spp p ->
  status_at (cf_ssd f) (ppa_ch p) (ppa_lun p) (ppa_blk p) (ppa_pg p) = Some PG_FREE ->
  lm_ok spp rl fl (sum_vpc spp (cf_ssd f)) (cf_lm f) ->
  rl (ppa_blk p) = RUser \/ rl (ppa_blk p) = RGc -> fl (ppa_blk p) < ppl ->
  exists s m, mark_page_valid f p = Ok (set_lm (set_ssd f s) m) /\
    status_set spp (cf_ssd f) s p PG_VALID /\
    free_line_list m = free_line_list (cf_lm f) /\
    lm_ok spp rl (upd fl (ppa_blk p) (fl (ppa_blk p) + 1)) (sum_vpc spp s) m.
Proof.
  intros Hn Hp Hst Hm Hr Hfl.
  destruct (nand_ok_blk spp _ p Hn Hp) as (blk & pg & Hblk & Hbok & Hpg & Hpok & Hgp & Hgb & Hs).
  assert (Hfree : pg_status pg = PG_FREE) by congruence.
  pose proof Hbok as [Hlen Hnpgs Hpages Hv Hi]. pose proof Hpg as [_ Hlk]%nthZ_Ok.
  destruct G. pose proof (cnt_lt PG_VALID _ _ _ Hlk ltac:(by rewrite Hfree)) as Hlt.
  pose proof (cnt_range PG_VALID (nb_pg blk)) as Hcr.
  unfold mark_page_valid. rewrite Hgp. cbn [obind]. rewrite Hfree. cbn [Z.eqb PG_FREE].
  edestruct (mark_pg_blk spp (cf_ssd f) p PG_VALID (fun b =>
    Ok (mk_nand_block (nb_pg b) (nb_npgs b) (nb_ipc b) (s32 (nb_vpc b + 1)) (nb_erase_cnt b) (nb_wp b))) blk pg)
    as (s1 & blk1 & s2 & -> & Hb1 & Ei & Ev & Hw & Hset); try done; [by right; right| |].
  { cbn. unfold blk_set. do 2 f_equal; unfold is_status; simpl; rewrite Hfree; cbn; rewrite ?s32_id; lia. }
  cbn [obind]. rewrite Hb1. cbn [obind]. unfold cf_sp. rewrite (no_sp _ _ Hn), Ev.
  destruct (Z.leb_spec 0 (nb_vpc blk)); [|lia]. destruct (Z.ltb_spec (nb_vpc blk) (pgs_per_blk spp)); [|lia].
  cbn [andb]. rewrite Hw. cbn [obind]. unfold get_line.
  pose proof Hp as [_ Hbl _]. destruct (lk_line _ _ _ _ _ Hm _ Hbl) as (l & Hl & Hok).
  pose proof Hl as Hl'. apply nthO_nthZ in Hl'. rewrite Hl'. cbn [obind].
  pose proof Hok as Hok'. apply line_ok_current in Hok' as (_ & Hs' & Hf' & Hv' & Hi' & _); [|done].
  pose proof (ppl_bound spp G) as Hppl.
  rewrite u64_id by lia. destruct (Z.leb_spec 0 (ln_vpc l)); [|lia].
  destruct (Z.ltb_spec (ln_vpc l) ppl); [|lia]. cbn [andb].
  rewrite updZ_Ok by (by eapply nthZ_range). cbn [obind]. rewrite s32_id by lia.
  eexists s2, _. split; [done|]. split; [done|]. split; [done|].
  eapply lm_ok_ext; [exact (lm_inc_valid spp rl fl _ (cf_lm f) (ppa_blk p) l Hm Hbl Hr Hl)|].
  intros b Hb. split; [done|]. split; [done|]. rewrite (ss_vpc _ _ _ _ _ Hset).
  destruct (Z.eqb_spec b (ppa_blk p)) as [->|Hne]; [rewrite upd_eq|rewrite upd_ne by done; lia].
  rewrite Hst, bool_decide_false by done. change (PG_VALID =? PG_VALID) with true. cbn iota. lia.
Qed.

Lemma mark_page_invalid_spec f p rl fl :
  nand_ok spp (cf_ssd f) -> ppa_ok spp p ->
  valid_at (cf_ssd f) (ppa_ch p) (ppa_lun p) (ppa_blk p) (ppa_pg p) ->
  lm_ok spp rl fl (sum_vpc spp (cf_ssd f)) (cf_lm f) ->
  rl (ppa_blk p) <> RFree -> rl (ppa_blk p) <> RClean -> fl (ppa_blk p) <= ppl ->
  (rl (ppa_blk p) = RUser \/ rl (ppa_blk p) = RGc -> fl (ppa_blk p) < ppl) ->
  exists s m, mark_page_invalid f p = Ok (set_lm (set_ssd f s) m) /\
    status_set spp (cf_ssd f) s p PG_INVALID /\
    free_line_list m = free_line_list (cf_lm f) /\
    lm_ok spp (upd rl (ppa_blk p) (if decide (rl (ppa_blk p) = RFull) then RVictim else rl (ppa_blk p)))
      fl (sum_vpc spp s) m.
Proof.
  intros Hn Hp Hst Hm Hrf Hrc Hfl Hcur. unfold valid_at in Hst.
  destruct (nand_ok_blk spp _ p Hn Hp) as (blk & pg & Hblk & Hbok & Hpg & Hpok & Hgp & Hgb & Hs).
  assert (Hvalid : pg_status pg = PG_VALID) by congruence.
  pose proof Hbok as [Hlen Hnpgs Hpages Hv Hi]. pose proof Hpg as [_ Hlk]%nthZ_Ok.
  destruct G. pose proof (cnt_lt PG_INVALID _ _ _ Hlk ltac:(by rewrite Hvalid)) as Hlt.
  pose proof (cnt_range PG_INVALID (nb_pg blk)) as Hcr. pose proof (cnt_range PG_VALID (nb_pg blk)) as Hcr2.
  pose proof (cnt_pos PG_VALID _ _ _ Hlk Hvalid) as Hpos.
  unfold mark_page_invalid. rewrite Hgp. cbn [obind]. rewrite Hvalid. cbn [Z.eqb PG_VALID Pos.eqb].
  edestruct (mark_pg_blk spp (cf_ssd f) p PG_INVALID (fun b =>
    Ok (mk_nand_block (nb_pg b) (nb_npgs b) (s32 (nb_ipc b + 1)) (s32 (nb_vpc b - 1)) (nb_erase_cnt b) (nb_wp b))) blk pg)
    as (s1 & blk1 & s2 & -> & Hb1 & Ei & Ev & Hw & Hset); try done; [by right; left| |].
  { cbn. unfold blk_set. do 2 f_equal; unfold is_status; simpl; rewrite Hvalid; cbn; rewrite ?s32_id; lia. }
  cbn [obind]. rewrite Hb1. cbn [obind]. unfold cf_sp. rewrite (no_sp _ _ Hn), Ev, Ei.
  destruct (Z.leb_spec 0 (nb_ipc blk)); [|lia]. destruct (Z.ltb_spec (nb_ipc blk) (pgs_per_blk spp)); [|lia].
  destruct (Z.ltb_spec 0 (nb_vpc blk)); [|lia]. destruct (Z.leb_spec (nb_vpc blk) (pgs_per_blk spp)); [|lia].
  cbn [andb]. rewrite Hw. cbn [obind]. unfold get_line.
  assert (Hsum : 0 < sum_vpc spp (cf_ssd f) (ppa_blk p)).
  { pose proof Hp as [[Hc [Hl _]] Hbl Hpl]. unfold sum_vpc.
    assert (Hge : vpc_at (cf_ssd f) (ppa_blk p) (ppa_ch p, ppa_lun p) <=
      sumZ (map (vpc_at (cf_ssd f) (ppa_blk p)) (all_luns spp))).
    { apply sumZ_map_ge; [by apply elem_of_all_luns|]. intros [c l] [Hc' Hl']%elem_of_all_luns.
      destruct (no_blk _ _ Hn c l (ppa_blk p) Hc' Hl' Hbl) as (b & Hb & []). unfold vpc_at. simpl. rewrite Hb. simpl.
      pose proof (cnt_range PG_VALID (nb_pg b)). lia. }
    unfold vpc_at at 1 in Hge. simpl in Hge. rewrite Hpl in Hblk. rewrite Hblk in Hge. simpl in Hge. lia. }
  destruct (invalidate_line_spec spp G rl fl (sum_vpc spp (cf_ssd f)) (cf_lm f) (ppa_blk p) Hm)
    as (m & -> & Hm' & Hfr); try done; [by destruct Hp|].
  cbn [obind]. exists s2, m. split; [done|]. split; [done|]. split; [done|].
  eapply lm_ok_ext; [exact Hm'|]. intros b Hb. split; [done|]. split; [done|].
  rewrite (ss_vpc _ _ _ _ _ Hset).
  destruct (Z.eqb_spec b (ppa_blk p)) as [->|Hne]; [rewrite upd_eq|rewrite upd_ne by done; lia].
  rewrite Hst, bool_decide_true by done. change (PG_INVALID =? PG_VALID) with false. cbn iota. lia.
Qed.

(** *** The two write pointers *)
Definition io_ok (io : Z) : Prop := io = USER_IO \/ io = GC_IO.
Definition wp_of (io : Z) (f : conv_ftl) : write_pointer :=
  if io =? USER_IO then cf_wp f else cf_gc_wp f.
Definition role_of (io : Z) : role := if io =? USER_IO then RUser else RGc.

Lemma fi_wp g f io : ftl_inv g f -> io_ok io -> wp_ok g (role_of io) (pend g io) (wp_of io f).
Proof. by intros [] [-> | ->]. Qed.

Lemma get_wp_of f io : io_ok io -> get_wp f io = Ok (wp_of io f).
Proof. by intros [-> | ->]. Qed.

Lemma role_of_cases io : io_ok io -> role_of io = RUser \/ role_of io = RGc.
Proof. by intros [-> | ->]; [left|right]. Qed.

Lemma check_addr_ok a max : 0 <= a < max -> max < 2147483648 -> check_addr a max = true.
Proof.
  intros Ha Hm. unfold check_addr. rewrite !s32_id by lia.
  destruct (Z.leb_spec 0 a); [|lia]. by destruct (Z.ltb_spec a max); [|lia].
Qed.

(** The end of [advance_write_pointer], when the line is used up. *)
Definition finish_line (f : conv_ftl) (io : Z) (wpp : write_pointer) : outcome conv_ftl :=
  let* cur := of_option (wp_curline wpp) in
  let* m := retire_line spp (cf_lm f) cur in
  ASSERT! check_addr (wp_blk wpp) (blks_per_pl spp);
  let '(next, m) := get_next_free_line m in
  let* next := of_option next in
  let* l := nthZ (lm_lines m) next in
  let blk := u32 (ln_id l) in
  ASSERT! check_addr blk (blks_per_pl spp);
  ASSERT! wp_pl wpp =? 0;
  Ok (set_wp (set_lm f m) io (mk_wp (Some next) 0 0 0 blk (wp_pl wpp))).

Lemma advance_shape f io :
  cf_sp f = spp -> io_ok io ->
  in_page (wp_ch (wp_of io f)) (wp_lun (wp_of io f)) (wp_pg (wp_of io f)) ->
  advance_write_pointer f io =
  let wp := wp_of io f in
  match next_page spp (wp_ch wp) (wp_lun wp) (wp_pg wp) with
  | Some (c, l, pg) => Ok (set_wp f io (mk_wp (wp_curline wp) c l pg (wp_blk wp) (wp_pl wp)))
  | None => finish_line f io wp
  end.
Proof.
  intros Hsp Hio (Hc & Hl & Hp). destruct G. destruct g_blk_os as (w & Hw & Ew).
  unfold advance_write_pointer. rewrite (get_wp_of f io Hio), Hsp. cbn [obind].
  rewrite check_addr_ok by lia. rewrite (u32_id (wp_pg _ + 1)) by lia.
  rewrite modO_Ok by lia. cbn [obind]. unfold next_page.
  set (wp := wp_of io f) in *. set (pg := wp_pg wp) in *. set (os := pgs_per_oneshotpg spp) in *.
  destruct (Z.eqb_spec ((pg + 1) mod os) 0) as [E|E]; cbn [negb]; [|done].
  assert (Hos : os <= pg + 1).
  { apply Z.mod_divide in E; [|lia]. apply Z.divide_pos_le in E; lia. }
  rewrite (u32_id (pg + 1 - os)) by lia.
  rewrite check_addr_ok by lia. rewrite (u32_id (wp_ch wp + 1)), (u32_id (nchs spp)) by lia.
  destruct (Z.eqb_spec (wp_ch wp + 1) (nchs spp)); cbn [negb]; [|done].
  rewrite check_addr_ok by lia. rewrite (u32_id (wp_lun wp + 1)), (u32_id (luns_per_ch spp)) by lia.
  destruct (Z.eqb_spec (wp_lun wp + 1) (luns_per_ch spp)); cbn [negb]; [|done].
  replace (pg + 1 - os + os) with (pg + 1) by lia.
  rewrite (u32_id (pg + 1)), (u32_id (pgs_per_blk spp)) by lia.
  by destruct (Z.eqb_spec (pg + 1) (pgs_per_blk spp)).
Qed.

(** What the steps on one write pointer leave alone. *)
Record ftl_frame (io : Z) (g g' : ghost) (f f' : conv_ftl) : Prop := {
  fr_cp : cf_cp f' = cf_cp f;
  fr_wfc : cf_wfc f' = cf_wfc f;
  fr_gcnt : gc_cnt f' = gc_cnt f;
  fr_wp : forall io', io_ok io' -> io' <> io -> wp_of io' f' = wp_of io' f;
  fr_vic : gh_vic g' = gh_vic g;
  fr_freed : gh_freed g' = gh_freed g;
}.

Lemma wp_of_set f io wp : wp_of io (set_wp f io wp) = wp.
Proof. unfold wp_of, set_wp. by destruct (io =? USER_IO). Qed.

Lemma wp_of_set_ne f io io' wp :
  io_ok io -> io_ok io' -> io' <> io -> wp_of io' (set_wp f io wp) = wp_of io' f.
Proof. by intros [-> | ->] [-> | ->]. Qed.

Lemma ftl_inv_wps g f :
  geom_ok spp -> timing_ok spp -> nand_ok spp (cf_ssd f) ->
  (forall c l b pg, in_page c l pg -> in_line b ->
    status_at (cf_ssd f) c l b pg = Some PG_FREE <-> page_free g c l b pg) ->
  lm_ok spp (gh_role g) (gh_fill g) (sum_vpc spp (cf_ssd f)) (cf_lm f) ->
  (forall io, io_ok io -> wp_ok g (role_of io) (pend g io) (wp_of io f)) ->
  (forall b, in_line b -> gh_role g b = RClean <-> gh_vic g = Some b) ->
  map_ok g (cf_ssd f) (maptbl f) (rmap f) -> ftl_inv g f.
Proof.
  intros ?????  Hw ??. split; try done; [apply (Hw USER_IO); by left|apply (Hw GC_IO); by right].
Qed.

(** [dead_page] only depends on the line that is being cleaned. *)
Lemma map_ok_ext g g' s mt rm :
  map_ok g s mt rm -> gh_hole g' = gh_hole g -> gh_dead g' = gh_dead g ->
  (forall b, in_line b -> gh_role g' b = RClean <-> gh_role g b = RClean) -> map_ok g' s mt rm.
Proof.
  intros [M1 M2 M3 M4] Hh Hd Hr. split; try done.
  - intros lpn p Hp Hu. rewrite Hh. intros Hho.
    destruct (M3 lpn p Hp Hu Hho) as (H1 & H2 & H3 & H4 & H5). repeat (split; [done|]). split; [|done].
    unfold dead_page in *. rewrite Hd, Hr; [done|]. by destruct H2.
  - intros c l b pg Hp Hb Hv Hdead. rewrite Hh. apply M4; try done.
    unfold dead_page in *. by rewrite Hd, Hr in Hdead.
Qed.

Lemma advance_spec g f io :
  ftl_inv g f -> io_ok io -> gh_pend g = Some io -> 2 <= room io f ->
  exists f' g', advance_write_pointer f io = Ok f' /\ ftl_inv g' f' /\ ftl_frame io g g' f f' /\
    gh_pend g' = None /\ gh_hole g' = gh_hole g /\ gh_dead g' = gh_dead g /\
    cf_ssd f' = cf_ssd f /\ maptbl f' = maptbl f /\ rmap f' = rmap f /\
    room io f' = room io f - 1 /\
    (length (free_line_list (cf_lm f')) <= length (free_line_list (cf_lm f)))%nat.
Proof.
  intros Hi Hio Hpend Hroom. pose proof (fi_wp g f io Hi Hio) as [Wc Wl Wp Wpg Wf Wr].
  assert (Hpd : pend g io = 1) by (unfold pend; by rewrite decide_True).
  rewrite Hpd in Wf. assert (Hpo : forall io', io' <> io -> pend g io' = 0)
    by (intros io' Hne; unfold pend; rewrite decide_False by congruence; done).
  pose proof Hi as [_ T N F Lm _ _ V M].
  rewrite advance_shape by (try done; by destruct N). cbv zeta.
  pose proof (next_page_idx spp G _ _ _ Wpg) as Hnext.
  destruct (next_page spp _ _ _) as [[[c l] pg]|] eqn:En.
  - destruct Hnext as [Hin Hidx].
    set (wp' := mk_wp _ _ _ _ _ _).
    set (g' := mk_ghost (gh_role g) (gh_fill g) (gh_vic g) (gh_hole g) None (gh_dead g) (gh_freed g)).
    exists (set_wp f io wp'), g'.
    assert (Hssd : cf_ssd (set_wp f io wp') = cf_ssd f /\ maptbl (set_wp f io wp') = maptbl f /\
      rmap (set_wp f io wp') = rmap f /\ cf_lm (set_wp f io wp') = cf_lm f /\
      cf_cp (set_wp f io wp') = cf_cp f /\ cf_wfc (set_wp f io wp') = cf_wfc f /\
      gc_cnt (set_wp f io wp') = gc_cnt f) by (unfold set_wp; by destruct (io =? USER_IO)).
    destruct Hssd as (E1 & E2 & E3 & E4 & E5 & E6 & E7).
    split; [done|]. split; [|split; [|repeat (split; [done|])]].
    + apply ftl_inv_wps; rewrite ?E1, ?E2, ?E3, ?E4; try done; [|by apply (map_ok_ext g)].
      intros io' Hio'. destruct (decide (io' = io)) as [->|Hne].
      * rewrite wp_of_set. split; simpl; try done. unfold wp_idx in *. simpl. rewrite Wf, Hidx. unfold pend. simpl. lia.
      * rewrite wp_of_set_ne by done. destruct (fi_wp g f io' Hi Hio'). split; try done.
        rewrite (Hpo io' Hne) in wk_fill0. exact wk_fill0.
    + split; try done. intros io' Hio' Hne. by apply wp_of_set_ne.
    + rewrite E4. split; [|lia]. unfold room. rewrite E4. fold (wp_of io (set_wp f io wp')) (wp_of io f).
      rewrite wp_of_set. unfold wp_idx. simpl. lia.
  - set (u := wp_blk (wp_of io f)) in *.
    assert (Hru : gh_role g u = role_of io) by (by apply Wr).
    pose proof (role_of_cases io Hio) as Hrc. unfold wp_idx in Wf.
    unfold finish_line. rewrite Wc. cbn [obind of_option].
    destruct (retire_line_spec spp G _ _ _ _ u Lm Wl) as (m1 & -> & Lm1 & Hfr1); [by rewrite Hru|lia|].
    cbn [obind]. destruct G as [? ? ? ? ? ? ? ? ? ? ? ? ? ? ? ? ? ? ? ?].
    rewrite check_addr_ok by (unfold ConvNand.in_line in *; lia).
    pose proof (ppl_bound spp G) as Hppl.
    destruct (free_line_list (cf_lm f)) as [|b rest] eqn:Efl.
    { exfalso. unfold room in Hroom. fold (wp_of io f) in Hroom. rewrite Efl in Hroom. unfold wp_idx in Hroom. simpl in Hroom. lia. }
    set (rb := if sum_vpc spp (cf_ssd f) u =? ppl then RFull else RVictim) in *.
    assert (Hrb : rb <> RFree /\ rb <> RUser /\ rb <> RGc /\ rb <> RClean)
      by (unfold rb; by destruct (_ =? ppl)).
    destruct (next_free_spec spp G _ _ _ m1 b rest (role_of io) Lm1) as (Hb & Hrlb & Hfb & m2 & -> & Hfr2 & Hln2 & Lm2);
      [congruence|done|]. cbn [obind of_option].
    assert (Hub : b <> u) by (intros ->; rewrite upd_eq in Hrlb; tauto).
    rewrite upd_ne in Hrlb by done.
    destruct (lk_line _ _ _ _ _ Lm2 b Hb) as (ln & Hln & Hlok).
    apply nthO_nthZ in Hln. rewrite Hln. cbn [obind]. rewrite (lo_id _ _ _ _ _ _ Hlok).
    unfold ConvNand.in_line in Hb, Wl. rewrite u32_id by lia. rewrite check_addr_ok by lia.
    rewrite Wp. cbn [Z.eqb].
    set (wp' := mk_wp (Some b) 0 0 0 b 0).
    set (rl' := upd (upd (gh_role g) u rb) b (role_of io)) in *.
    set (g' := mk_ghost rl' (gh_fill g) (gh_vic g) (gh_hole g) None (gh_dead g) (gh_freed g)).
    set (f' := set_wp (set_lm f m2) io wp').
    assert (Hssd : cf_ssd f' = cf_ssd f /\ maptbl f' = maptbl f /\ rmap f' = rmap f /\ cf_lm f' = m2 /\
      cf_cp f' = cf_cp f /\ cf_wfc f' = cf_wfc f /\ gc_cnt f' = gc_cnt f)
      by (unfold f', set_wp; by destruct (io =? USER_IO)).
    destruct Hssd as (E1 & E2 & E3 & E4 & E5 & E6 & E7).
    assert (Hcl : forall x, in_line x -> rl' x = RClean <-> gh_role g x = RClean).
    { intros x Hx. unfold rl'. destruct (decide (x = b)) as [->|Hxb].
      - rewrite upd_eq, Hrlb. by destruct Hrc as [-> | ->].
      - rewrite upd_ne by done. destruct (decide (x = u)) as [->|Hxu]; [|by rewrite upd_ne].
        rewrite upd_eq, Hru. split; [tauto|]. by destruct Hrc as [-> | ->]. }
    destruct (in_page_first spp G) as [Hip0 Hid0].
    exists f', g'. split; [done|]. split; [|split; [|repeat (split; [done|])]].
    + apply ftl_inv_wps; rewrite ?E1, ?E2, ?E3, ?E4; try done.
      * intros c l x pg Hp Hx. rewrite F by done. unfold page_free. simpl.
        destruct (decide (gh_role g x = RClean)) as [Ex|Ex];
          [by rewrite decide_True by (by apply Hcl)|by rewrite decide_False by (by rewrite Hcl)].
      * intros io' Hio'. destruct (decide (io' = io)) as [->|Hne].
        -- unfold f'. rewrite wp_of_set. split; simpl; try done.
           ++ intros x Hx. unfold rl'. destruct (decide (x = b)) as [->|Hxb]; [by rewrite upd_eq|].
              rewrite upd_ne by done. split; [|done]. destruct (decide (x = u)) as [->|Hxu].
              ** rewrite upd_eq. intros E. destruct Hrc as [Er|Er]; rewrite Er in E; tauto.
              ** rewrite upd_ne by done. intros E. apply Wr in E; [done|done].
        -- unfold f'. rewrite wp_of_set_ne by done. change (wp_of io' (set_lm f m2)) with (wp_of io' f).
           destruct (fi_wp g f io' Hi Hio') as [Oc Ol Op Opg Of Or]. split; try done.
           ++ rewrite (Hpo io' Hne) in Of. exact Of.
           ++ intros x Hx. simpl. rewrite <- Or by done. unfold rl'.
              assert (Hro : role_of io' <> role_of io) by (destruct Hio as [-> | ->], Hio' as [-> | ->]; done).
              destruct (decide (x = b)) as [->|Hxb].
              ** rewrite upd_eq, Hrlb. pose proof (role_of_cases io' Hio') as [E|E]; rewrite E in *; split; congruence.
              ** rewrite upd_ne by done. destruct (decide (x = u)) as [->|Hxu]; [|by rewrite upd_ne].
                 rewrite upd_eq, Hru. pose proof (role_of_cases io' Hio') as [E|E]; rewrite E in *; split; congruence || tauto.
      * intros x Hx. simpl. rewrite Hcl by done. by apply V.
      * by apply (map_ok_ext g).
    + split; try done. intros io' Hio' Hne. unfold f'. by rewrite wp_of_set_ne.
    + rewrite E4, Hfr2. simpl. split; [|lia].
      unfold room. rewrite E4, Efl, Hfr2. fold (wp_of io f') (wp_of io f). unfold f'. rewrite wp_of_set.
      change (wp_idx wp') with (idx 0 0 0). rewrite Hid0. unfold wp_idx. simpl. lia.
Qed.

Lemma ftl_frame_trans io g1 g2 g3 f1 f2 f3 :
  ftl_frame io g1 g2 f1 f2 -> ftl_frame io g2 g3 f2 f3 -> ftl_frame io g1 g3 f1 f3.
Proof.
  intros [] []. split; try congruence.
  intros io' H1 H2. rewrite fr_wp1, fr_wp0; done.
Qed.

(** *** Mapping a logical page to the page of a write pointer *)

(** The table entries after the mapping. *)
Lemma map_ok_install g g' s s' mt rm p lpn :
  map_ok g s mt rm -> gh_hole g = Some lpn -> gh_hole g' = None -> gh_dead g' = gh_dead g ->
  (forall b, in_line b -> gh_role g' b = gh_role g b) -> gh_role g (ppa_blk p) <> RClean ->
  0 <= lpn < L -> 0 <= lpn < tt_pgs spp -> ppa_ok spp p -> p <> UNMAPPED_PPA ->
  ~ valid_at s (ppa_ch p) (ppa_lun p) (ppa_blk p) (ppa_pg p) ->
  status_set spp s s' p PG_VALID ->
  map_ok g' s' (<[Z.to_nat lpn := p]> mt) (<[Z.to_nat (ppa_idx p) := lpn]> rm).
Proof.
  intros [M1 M2 M3 M4] Hh Hh' Hd Hr Hnc HL Htt Hp Hu Hnv [_ Spage Soth _].
  pose proof (ppa_idx_range p Hp) as Hidx.
  assert (Hmt : forall x, nthO (<[Z.to_nat lpn := p]> mt) x = if x =? lpn then Some p else nthO mt x)
    by (intros x; apply nthO_upd; lia).
  assert (Hrm : forall x, nthO (<[Z.to_nat (ppa_idx p) := lpn]> rm) x = if x =? ppa_idx p then Some lpn else nthO rm x)
    by (intros x; apply nthO_upd; lia).
  assert (Hvalid : forall c l b pg, in_page c l pg -> in_line b -> ~ same_page p c l b pg ->
    valid_at s' c l b pg <-> valid_at s c l b pg).
  { intros c l b pg (_ & _ & Hpg) _ Hne. unfold valid_at. rewrite Soth; [done|done|lia]. }
  assert (Hidxne : forall c l b pg, in_page c l pg -> in_line b -> ~ same_page p c l b pg ->
    pgidx c l b pg <> ppa_idx p).
  { intros c l b pg Hpg Hb Hne E. apply Hne. by apply (ppa_idx_inj p c l b pg). }
  assert (Hdead : forall c l b pg, in_line b -> dead_page g' c l b pg <-> dead_page g c l b pg).
  { intros c l b pg Hb. unfold dead_page. by rewrite Hd, Hr. }
  split; try by rewrite length_insert.
  - intros x q Hq Hqu _. rewrite Hmt in Hq. destruct (Z.eqb_spec x lpn) as [->|Hne].
    + injection Hq as <-. split; [done|]. split; [done|]. split; [by apply Spage|].
      split; [|by rewrite Hrm, Z.eqb_refl]. rewrite Hdead by (by destruct Hp). by intros [E _].
    + destruct (M3 x q Hq Hqu) as (H1 & H2 & H3 & H4 & H5); [congruence|].
      pose proof H2 as [Hqp Hqb _].
      assert (Hns : ~ same_page p (ppa_ch q) (ppa_lun q) (ppa_blk q) (ppa_pg q)).
      { intros (E1 & E2 & E3 & E4). rewrite E1, E2, E3, E4 in H3. done. }
      split; [done|]. split; [done|]. split; [by apply Hvalid|]. rewrite Hdead by done. split; [done|].
      rewrite Hrm, (proj2 (Z.eqb_neq _ _)) by (by apply Hidxne). done.
  - intros c l b pg Hpg Hb Hv. rewrite Hdead by done. intros Hde. rewrite Hh'.
    destruct (decide (c = ppa_ch p /\ l = ppa_lun p /\ b = ppa_blk p /\ pg = ppa_pg p)) as [(-> & -> & -> & ->)|Hns].
    + exists lpn, p. rewrite Hrm, Hmt, !Z.eqb_refl. done.
    + rewrite Hvalid in Hv by done. destruct (M4 c l b pg Hpg Hb Hv Hde) as (x & q & H1 & H2 & H3 & H4 & H5).
      exists x, q. rewrite Hrm, (proj2 (Z.eqb_neq _ _)) by (by apply Hidxne).
      rewrite Hmt, (proj2 (Z.eqb_neq x lpn)) by congruence. done.
Qed.

Lemma install_spec g f io lpn :
  ftl_inv g f -> io_ok io -> gh_hole g = Some lpn -> gh_pend g = None -> 2 <= room io f ->
  0 <= lpn < L -> 0 <= lpn < tt_pgs spp ->
  exists p f1 f2 f3 f' g', get_new_page f io = Ok p /\ set_maptbl_ent f lpn p = Ok f1 /\
    set_rmap_ent f1 lpn p = Ok f2 /\ mark_page_valid f2 p = Ok f3 /\
    advance_write_pointer f3 io = Ok f' /\
    ftl_inv g' f' /\ ftl_frame io g g' f f' /\ gh_pend g' = None /\ gh_hole g' = None /\
    gh_dead g' = gh_dead g /\ maptbl f' = <[Z.to_nat lpn := p]> (maptbl f) /\
    room io f' = room io f - 1 /\
    (length (free_line_list (cf_lm f')) <= length (free_line_list (cf_lm f)))%nat /\
    ppa_ok spp p /\ p <> UNMAPPED_PPA /\ gh_role g (ppa_blk p) = role_of io /\
    status_set spp (cf_ssd f) (cf_ssd f') p PG_VALID.
Proof.
  intros Hi Hio Hh Hpend Hroom HL Htt. pose proof Hi as [_ T N F Lm _ _ V M].
  pose proof (fi_wp g f io Hi Hio) as Hwp. destruct (get_new_page_spec g f io _ _ _ (get_wp_of f io Hio) Hwp)
    as (p & Hgp & Hp & Hpu & (Ec & El & Eb & Epg)).
  destruct Hwp as [_ _ _ Wpg Wf Wr]. rewrite Ec, El, Epg, Eb in *.
  assert (Hpd : forall io', pend g io' = 0) by (intros io'; unfold pend; by rewrite Hpend).
  rewrite Hpd, Z.add_0_r in Wf.
  assert (Hr : gh_role g (ppa_blk p) = role_of io) by (apply Wr; by destruct Hp).
  pose proof (role_of_cases io Hio) as Hrc.
  assert (Hnc : gh_role g (ppa_blk p) <> RClean) by (rewrite Hr; by destruct Hrc as [-> | ->]).
  assert (Hfree : status_at (cf_ssd f) (ppa_ch p) (ppa_lun p) (ppa_blk p) (ppa_pg p) = Some PG_FREE).
  { apply F; [by destruct Hp..|]. unfold page_free. rewrite decide_False by done.
    unfold wp_idx in Wf. rewrite Ec, El, Epg in Wf. lia. }
  pose proof (idx_range spp G _ _ _ Wpg) as Hidx.
  assert (Hsp : cf_sp f = spp) by (by destruct N). pose proof M as [M1 M2 _ _].
  set (f1 := set_maptbl f (<[Z.to_nat lpn := p]> (maptbl f))).
  set (f2 := set_rmap f1 (<[Z.to_nat (ppa_idx p) := lpn]> (rmap f1))).
  destruct (mark_page_valid_spec f2 p (gh_role g) (gh_fill g)) as (s & m & Hmv & Hset & Hfr & Lm'); try done.
  { by rewrite Hr. }
  { rewrite Wf. unfold wp_idx. rewrite Ec, El, Epg. lia. }
  change (cf_ssd f2) with (cf_ssd f) in *. change (cf_lm f2) with (cf_lm f) in *.
  set (f3 := set_lm (set_ssd f2 s) m) in *.
  set (g3 := mk_ghost (gh_role g) (upd (gh_fill g) (ppa_blk p) (gh_fill g (ppa_blk p) + 1)) (gh_vic g)
               None (Some io) (gh_dead g) (gh_freed g)).
  assert (Hi3 : ftl_inv g3 f3).
  { apply ftl_inv_wps; try done.
    - by destruct Hset.
    - intros c l b pg Hpg Hb. destruct (decide (c = ppa_ch p /\ l = ppa_lun p /\ b = ppa_blk p /\ pg = ppa_pg p))
        as [(-> & -> & -> & ->)|Hns].
      + rewrite (ss_page _ _ _ _ _ Hset) by done. split; [done|]. unfold page_free. simpl.
        rewrite decide_False by done. rewrite upd_eq, Wf. unfold wp_idx. rewrite Ec, El, Epg. lia.
      + rewrite (ss_other _ _ _ _ _ Hset) by (done || by destruct Hpg as (_ & _ & ? & _)).
        rewrite F by done. unfold page_free. simpl. destruct (decide (gh_role g b = RClean)); [done|].
        destruct (decide (b = ppa_blk p)) as [->|Hne]; [|by rewrite upd_ne].
        rewrite upd_eq, Wf. unfold wp_idx. rewrite Ec, El, Epg.
        assert (Hxne : idx c l pg <> idx (ppa_ch p) (ppa_lun p) (ppa_pg p)); [|lia].
        intros E. apply Hns. destruct (idx_inj spp G _ _ _ _ _ _ Hpg Wpg E) as (-> & -> & ->). done.
    - intros io' Hio'. change (wp_of io' f3) with (wp_of io' f).
      pose proof (fi_wp g f io' Hi Hio') as [Oc Ol Op Opg Of Or]. split; try done. simpl.
      rewrite Hpd, Z.add_0_r in Of. unfold pend. simpl. destruct (decide (io' = io)) as [->|Hne].
      + rewrite decide_True by done. rewrite Eb, upd_eq. lia.
      + rewrite decide_False by congruence. rewrite upd_ne; [lia|].
        intros E. rewrite E in Or. destruct Hp as [_ Hpb _]. pose proof (proj2 (Or _ Hpb) eq_refl) as E'.
        rewrite Hr in E'. by destruct Hio as [-> | ->], Hio' as [-> | ->].
    - apply (map_ok_install g g3 (cf_ssd f) s); try done.
      unfold valid_at. rewrite Hfree. done. }
  destruct (advance_spec g3 f3 io Hi3 Hio eq_refl) as (f' & g' & Hadv & Hi' & Hfr' & Hpe & Hho & Hde & E1 & E2 & E3 & Hrm & Hlen).
  { unfold room in *. simpl. rewrite Hfr. exact Hroom. }
  exists p, f1, f2, f3, f', g'. split; [done|].
  split; [by apply set_maptbl_ent_spec|].
  split; [by apply set_rmap_ent_spec|].
  split; [done|]. split; [done|]. split; [done|]. split; [|split; [done|]].
  - eapply ftl_frame_trans; [|exact Hfr']. by split.
  - split; [done|]. split; [done|]. split; [by rewrite E2|].
    split; [rewrite Hrm; unfold room; simpl; by rewrite Hfr|].
    split; [simpl in Hlen; by rewrite Hfr in Hlen|].
    split; [done|]. split; [done|]. split; [done|]. by rewrite E1.
Qed.

(** *** Overwriting *)

(** A line with a page that is not free is not a free line, and how far it is
    filled. *)
Lemma used_line g f c l b pg :
  ftl_inv g f -> in_page c l pg -> in_line b -> gh_vic g = None ->
  status_at (cf_ssd f) c l b pg <> Some PG_FREE ->
  gh_role g b <> RFree /\ gh_role g b <> RClean /\ gh_fill g b <= ppl + pend g USER_IO + pend g GC_IO /\
  (gh_role g b = RUser -> gh_fill g b < ppl + pend g USER_IO) /\
  (gh_role g b = RGc -> gh_fill g b < ppl + pend g GC_IO).
Proof.
  intros Hi Hp Hb Hv Hs. pose proof Hi as [_ T N F Lm [_ _ _ Up Uf Ur] [_ _ _ Gp Gf Gr] V M].
  rewrite F in Hs by done. unfold page_free in Hs.
  assert (Hnc : gh_role g b <> RClean) by (rewrite V by done; congruence).
  rewrite decide_False in Hs by done.
  pose proof (idx_range spp G _ _ _ Hp). pose proof (idx_range spp G _ _ _ Up).
  pose proof (idx_range spp G _ _ _ Gp).
  assert (Hpd : forall io, 0 <= pend g io) by (intros io; unfold pend; case_decide; lia).
  pose proof (Hpd USER_IO). pose proof (Hpd GC_IO).
  destruct (lk_line _ _ _ _ _ Lm b Hb) as (ln & _ & Hok).
  assert (Hcase : gh_role g b = RUser -> gh_fill g b < ppl + pend g USER_IO).
  { intros ->%Ur; [|done]. unfold wp_idx in Uf. lia. }
  assert (Hcase2 : gh_role g b = RGc -> gh_fill g b < ppl + pend g GC_IO).
  { intros ->%Gr; [|done]. unfold wp_idx in Gf. lia. }
  assert (Hnf : gh_role g b <> RFree).
  { intros E. rewrite (lo_free _ _ _ _ _ _ Hok E) in Hs. lia. }
  split; [done|]. split; [done|]. split; [|done].
  pose proof (lo_used _ _ _ _ _ _ Hok) as Hus.
  destruct (gh_role g b) eqn:E; try done.
  - rewrite Hus by (by left). lia.
  - rewrite Hus by (by right). lia.
  - specialize (Hcase eq_refl). lia.
  - specialize (Hcase2 eq_refl). lia.
Qed.

(** The tables after the old page of [lpn] has been invalidated. *)
Lemma map_ok_invalidate g g' s s' mt rm p lpn :
  map_ok g s mt rm -> gh_hole g = None -> gh_hole g' = Some lpn -> gh_dead g' = gh_dead g ->
  (forall b, in_line b -> gh_role g' b = RClean <-> gh_role g b = RClean) ->
  nthO mt lpn = Some p -> p <> UNMAPPED_PPA -> status_set spp s s' p PG_INVALID ->
  map_ok g' s' mt (<[Z.to_nat (ppa_idx p) := INVALID_LPN]> rm).
Proof.
  intros [M1 M2 M3 M4] Hh Hh' Hd Hr Hp Hu [_ Spage Soth _].
  destruct (M3 lpn p Hp Hu) as (HL & Hpok & Hvp & Hndp & Hrp); [congruence|].
  pose proof (ppa_idx_range p Hpok) as Hidx.
  assert (Hrm : forall x, nthO (<[Z.to_nat (ppa_idx p) := INVALID_LPN]> rm) x =
    if x =? ppa_idx p then Some INVALID_LPN else nthO rm x) by (intros x; apply nthO_upd; lia).
  assert (Hdead : forall c l b pg, in_line b -> dead_page g' c l b pg <-> dead_page g c l b pg).
  { intros c l b pg Hb. unfold dead_page. by rewrite Hd, Hr. }
  split; try done; try by rewrite length_insert.
  - intros x q Hq Hqu Hx. assert (Hxl : x <> lpn) by congruence.
    destruct (M3 x q Hq Hqu) as (H1 & H2 & H3 & H4 & H5); [congruence|]. pose proof H2 as [Hqp Hqb _].
    assert (Hns : ~ same_page p (ppa_ch q) (ppa_lun q) (ppa_blk q) (ppa_pg q)).
    { intros (E1 & E2 & E3 & E4). apply Hxl. assert (ppa_idx q = ppa_idx p) as E by (unfold ppa_idx; congruence).
      congruence. }
    split; [done|]. split; [done|]. split.
    { unfold valid_at. rewrite Soth; [done|done|]. destruct Hqp as (_ & _ & ?); lia. }
    rewrite Hdead by done. split; [done|]. rewrite Hrm, (proj2 (Z.eqb_neq _ _)); [done|].
    intros E. apply Hns. by apply (ppa_idx_inj p).
  - intros c l b pg Hpg Hb Hv. rewrite Hdead by done. intros Hde. rewrite Hh'.
    assert (Hns : ~ same_page p c l b pg).
    { intros Hs. unfold valid_at in Hv. rewrite (Spage c l b pg Hs) in Hv. done. }
    assert (Hv0 : valid_at s c l b pg).
    { unfold valid_at in *. rewrite Soth in Hv; [done|done|]. destruct Hpg as (_ & _ & ?); lia. }
    destruct (M4 c l b pg Hpg Hb Hv0 Hde) as (x & q & H1 & H2 & H3 & H4 & H5).
    exists x, q. rewrite Hrm, (proj2 (Z.eqb_neq _ _)).
    + split; [done|]. split; [|done]. intros [= ->]. apply Hns. assert (q = p) as -> by congruence. done.
    + intros E. apply Hns. by apply (ppa_idx_inj p).
Qed.

Lemma invalidate_old_spec g f lpn :
  ftl_inv g f -> gh_hole g = None -> gh_pend g = None -> gh_vic g = None -> 0 <= lpn < tt_pgs spp ->
  exists f' g', invalidate_old f lpn = Ok f' /\ ftl_inv g' f' /\ gh_hole g' = Some lpn /\
    gh_pend g' = None /\ gh_vic g' = None /\ maptbl f' = maptbl f /\ cf_cp f' = cf_cp f /\
    (forall io, room io f' = room io f) /\
    free_line_list (cf_lm f') = free_line_list (cf_lm f).
Proof.
  intros Hi Hh Hpend Hv Hlpn. pose proof Hi as [_ T N F Lm U GC V M]. pose proof M as [M1 M2 M3 M4].
  assert (Hsp : cf_sp f = spp) by (by destruct N).
  destruct (nthZ_in_range (maptbl f) lpn) as [p Hp]; [lia|].
  unfold invalidate_old, get_maptbl_ent. rewrite Hp. cbn [obind]. apply nthO_nthZ in Hp.
  unfold mapped_ppa. destruct (Z.eqb_spec p UNMAPPED_PPA) as [->|Hu]; cbn [negb].
  - exists f, (set_gh_hole g (Some lpn)). split; [done|]. split; [|done].
    apply ftl_inv_wps; try done.
    { intros io Hio. by destruct (fi_wp g f io Hi Hio). }
    split; try done.
    + intros x q Hq Hqu Hx. apply M3; congruence.
    + intros c l b pg Hpg Hb Hval Hde. destruct (M4 c l b pg Hpg Hb Hval Hde) as (x & q & H1 & H2 & H3 & H4 & H5).
      exists x, q. repeat (split; [done|]). split; [|done]. simpl. intros [= ->]. congruence.
  - destruct (M3 lpn p Hp Hu) as (HL & Hpok & Hvp & Hndp & Hrp); [congruence|].
    pose proof Hpok as [Hpp Hpb Hpl].
    assert (Hpd : forall io, pend g io = 0) by (intros io; unfold pend; by rewrite Hpend).
    destruct (used_line g f _ _ _ _ Hi Hpp Hpb Hv) as (Hnf & Hnc & Hfl & Hfu & Hfg); [by rewrite Hvp|].
    rewrite !Hpd, !Z.add_0_r in *.
    destruct (mark_page_invalid_spec f p (gh_role g) (gh_fill g)) as (s & m & -> & Hset & Hfr & Lm');
      try done; [by intros [?|?]; auto|].
    cbn [obind]. set (rb := if decide (gh_role g (ppa_blk p) = RFull) then RVictim else gh_role g (ppa_blk p)) in *.
    rewrite set_rmap_ent_spec; [|by destruct Hset as [[]]|done|done].
    set (g' := mk_ghost (upd (gh_role g) (ppa_blk p) rb) (gh_fill g) (gh_vic g) (Some lpn) None (gh_dead g) (gh_freed g)).
    assert (Hkeep : forall b r, r <> RFull -> r <> RVictim -> gh_role g' b = r <-> gh_role g b = r).
    { intros b r H1 H2. simpl. destruct (decide (b = ppa_blk p)) as [->|]; [|by rewrite upd_ne].
      rewrite upd_eq. unfold rb. case_decide as E; [|done]. rewrite E. split; congruence. }
    eexists _, g'. split; [reflexivity|]. split; [|repeat (split; [done|])].
    1: apply ftl_inv_wps; simpl; try done.
    + by destruct Hset.
    + intros c l b pg Hpg Hb. assert (Hpf : page_free g' c l b pg <-> page_free g c l b pg).
      { unfold page_free. pose proof (Hkeep b RClean ltac:(done) ltac:(done)) as Hk.
        destruct (decide (gh_role g b = RClean)) as [E|E];
          [by rewrite decide_True by (by apply Hk)|by rewrite decide_False by (by rewrite Hk)]. }
      rewrite Hpf, <- F by done.
      destruct (decide (c = ppa_ch p /\ l = ppa_lun p /\ b = ppa_blk p /\ pg = ppa_pg p)) as [(-> & -> & -> & ->)|Hns].
      * rewrite (ss_page _ _ _ _ _ Hset), Hvp by done. done.
      * rewrite (ss_other _ _ _ _ _ Hset); [done|done|]. destruct Hpg as (_ & _ & ?); lia.
    + intros io Hio. pose proof (fi_wp g f io Hi Hio) as [Oc Ol Op Opg Of Or]. split; try done.
      * rewrite Hpd in Of. exact Of.
      * intros b Hb. rewrite Hkeep; [by apply Or|by destruct Hio as [-> | ->]..].
    + intros b Hb. rewrite <- V by done. by apply Hkeep.
    + apply (map_ok_invalidate g g' (cf_ssd f) s _ _ _ lpn); try done. intros b _. by apply Hkeep.
    + split; [|done]. intros io. unfold room. simpl. by rewrite Hfr.
Qed.

End Inv.
