(* ===== verification/ConvWrite.v ===== *)
(** * ConvWrite: host reads, writes and flushes on the page-mapping FTL

    [ns_ok] is the invariant of a namespace between commands: every instance is
    idle ([ftl_inv] with nothing pending).  A write needs room in the lines of
    the instances it touches; a read and a flush always succeed and leave the
    tables alone. *)
From stdpp Require Import base list numbers gmap.
From Stdlib Require Import ZArith Lia.
From S2P Require Import Prelude Pqueue ChannelModel SsdConfig Ssd SsdFacts ConvGeom ConvNand.
From S2P Require Import Nvme Lines PqueueSpec ConvFtl ConvLines ConvInv.

Open Scope Z_scope.
Open Scope nvmev_scope.

Section Write.
Variable spp : ssdparams.
Variable cpp : convparams.
Variable L : Z.
Context `{ClockRange}.

Definition idle (f : conv_ftl) : Prop :=
  exists g, ftl_inv spp L g f /\ gh_hole g = None /\ gh_pend g = None /\ gh_vic g = None.

Record ftl_ok (f : conv_ftl) : Prop := {
  fk_idle : idle f;
  fk_cp : cf_cp f = cpp;
}.

Record ns_ok (ns : nvmev_ns) : Prop := {
  nk_csi : ns_csi ns = NVME_CSI_NVM;
  nk_parts : 0 < ns_nr_parts ns < 1048576;
  nk_len : Z.of_nat (length (ns_ftls ns)) = ns_nr_parts ns;
  nk_ftl : forall i f, nthO (ns_ftls ns) i = Some f -> ftl_ok f;
}.

(** The address that a logical page of the namespace is mapped to. *)
Definition entry (ns : nvmev_ns) (lpn : Z) : option Z :=
  f ← nthO (ns_ftls ns) (lpn mod ns_nr_parts ns); nthO (maptbl f) (lpn / ns_nr_parts ns).

(** The room of the host's write pointer in every instance. *)
Definition ns_room (ns : nvmev_ns) (n : Z) : Prop :=
  forall i f, nthO (ns_ftls ns) i = Some f -> n <= room spp USER_IO f.

(** ** Timing *)
Lemma idle_geom f : idle f -> geom_ok spp /\ timing_ok spp /\ cf_sp f = spp /\
  Z.of_nat (length (maptbl f)) = tt_pgs spp.
Proof. by intros (g & [? ? [? ? ?] ? ? ? ? ? [? ? ? ?]] & _). Qed.

Lemma conv_advance_nand_spec g f h ncmd :
  ftl_inv spp L g f -> hw_ok h -> cmd_in_range (cf_ssd f) ncmd ->
  exists t s h', conv_advance_nand f h ncmd = Ok (t, set_ssd f s, h') /\
    ftl_inv spp L g (set_ssd f s) /\ hw_ok h' /\ hw_frame h h' /\ u64_ok t /\
    nand_equiv (cf_ssd f) s.
Proof.
  intros Hi Hh Hc. pose proof (fi_nand _ _ _ _ Hi) as [N1 N2 N3].
  destruct (ssd_advance_nand_spec (cf_ssd f) h ncmd) as (t & s & h' & E & Hs & He & Hh' & Hfr & Ht);
    [done|rewrite N1; apply Hi|done|done|].
  exists t, s, h'. unfold conv_advance_nand. rewrite E. split; [done|].
  split; [by apply ftl_inv_equiv|]. done.
Qed.

Lemma ppa_cmd_in_range f p ty cmd xfer st inter :
  cf_sp f = spp -> ppa_ok spp p -> u64_ok st ->
  (cmd = NAND_READ /\ 0 < xfer < 18446744073709551616 \/
   cmd = NAND_WRITE \/ cmd = NAND_ERASE \/ cmd = NAND_NOP) ->
  cmd_in_range (cf_ssd f) (mk_nand_cmd ty cmd xfer st inter p).
Proof.
  intros Hsp [[Hc [Hl _]] _ _] Hst Hcmd. unfold cf_sp in Hsp. by split; simpl; rewrite ?Hsp.
Qed.

Lemma last_pg_Ok f p :
  cf_sp f = spp -> geom_ok spp -> exists b, last_pg_in_wordline f p = Ok b.
Proof.
  intros Hsp G. destruct G. unfold last_pg_in_wordline. rewrite Hsp, modO_Ok by lia. by eexists.
Qed.

Lemma program_wordline_spec g f h sq st p t :
  ftl_inv spp L g f -> hw_ok h -> ppa_ok spp p -> u64_ok st ->
  exists s h' t', program_wordline sq st f h p t = Ok (set_ssd f s, h', t') /\
    ftl_inv spp L g (set_ssd f s) /\ hw_ok h' /\
    hw_write_buffer h' = hw_write_buffer h.
Proof.
  intros Hi Hh Hp Hst. assert (Hsp : cf_sp f = spp) by (by destruct Hi as [_ _ [] _ _ _ _ _ _]).
  unfold program_wordline. destruct (last_pg_Ok f p Hsp (fi_geom _ _ _ _ Hi)) as (b & ->). cbn [obind].
  destruct b.
  - edestruct (conv_advance_nand_spec g f h) as (t' & s & h' & -> & Hi' & Hh' & [Hfr _] & _);
      [done|done|by apply ppa_cmd_in_range; [..|right; left]|].
    cbn [obind]. eexists s, _, _. split; [done|]. split; [done|]. done.
  - exists (cf_ssd f), h, t. replace (set_ssd f (cf_ssd f)) with f by (by destruct f). done.
Qed.

(** ** One page of a write *)
Record write_effect (ns ns' : nvmev_ns) (lo hi : Z) : Prop := {
  we_parts : ns_nr_parts ns' = ns_nr_parts ns;
  we_mapped : forall lpn, lo <= lpn < hi -> exists p, entry ns' lpn = Some p /\ p <> UNMAPPED_PPA;
  we_other : forall lpn, 0 <= lpn -> ~ lo <= lpn < hi -> entry ns' lpn = entry ns lpn;
}.

Lemma write_lpn_spec ns h sq st t lpn n :
  ns_ok ns -> hw_ok h -> u64_ok st -> 2 <= n -> ns_room ns n ->
  0 <= lpn -> lpn / ns_nr_parts ns < L -> lpn / ns_nr_parts ns < tt_pgs spp ->
  exists ns' h' t', write_lpn sq (ns_nr_parts ns) st (ns, h, t) lpn = Ok (ns', h', t') /\
    ns_ok ns' /\ hw_ok h' /\ hw_write_buffer h' = hw_write_buffer h /\
    ns_room ns' (n - 1) /\ write_effect ns ns' lpn (lpn + 1).
Proof.
  intros [K1 K2 K3 K4] Hh Hst Hn Hroom Hlpn HL Htt. unfold write_lpn.
  set (nr := ns_nr_parts ns) in *. pose proof (Z.mod_pos_bound lpn nr ltac:(lia)) as Hmod.
  rewrite modO_Ok, divO_Ok by lia. cbn [obind].
  destruct (nthZ_in_range (ns_ftls ns) (lpn mod nr)) as [f Hf]; [lia|]. rewrite Hf. cbn [obind].
  pose proof Hf as Hf'. apply nthO_nthZ in Hf'.
  destruct (K4 _ _ Hf') as [(g & Hi & Hho & Hpe & Hvi) Hcp]. pose proof (fi_geom _ _ _ _ Hi) as G.
  assert (Hq : 0 <= lpn / nr) by (apply Z.div_pos; lia).
  destruct (invalidate_old_spec spp L G g f (lpn / nr) Hi Hho Hpe Hvi)
    as (f1 & g1 & -> & Hi1 & Hho1 & Hpe1 & Hvi1 & Hmt1 & Hcp1 & Hrm1 & Hfl1); [lia|].
  cbn [obind]. specialize (Hroom _ _ Hf') as Hr0.
  destruct (install_spec spp L G g1 f1 USER_IO (lpn / nr) Hi1 ltac:(by left) Hho1 Hpe1)
    as (p & fa & fb & fc & f2 & g2 & E1 & E2 & E3 & E4 & E5 & Hi2 & Hfr2 & Hpe2 & Hho2 & Hde2 & Hmt2 & Hrm2 & Hln2 & Hpok & Hpu & Hrp & Hset);
    [rewrite Hrm1; lia|lia|lia|].
  unfold map_new_page. rewrite E1. cbn [obind]. rewrite E2. cbn [obind]. rewrite E3. cbn [obind].
  rewrite E4. cbn [obind]. rewrite E5. cbn [obind].
  destruct (program_wordline_spec g2 f2 h sq st p t Hi2 Hh Hpok Hst) as (s & h' & t' & -> & Hi3 & Hh' & Hwb).
  cbn [obind]. rewrite updZ_Ok by lia. cbn [obind].
  set (f3 := set_ssd f2 s) in *. set (ns' := set_ftls ns _).
  assert (Hlk : forall i, nthO (ns_ftls ns') i = if i =? lpn mod nr then Some f3 else nthO (ns_ftls ns) i)
    by (intros i; by apply nthO_upd; lia).
  assert (Hmt3 : forall x, nthO (maptbl f3) x = if x =? lpn / nr then Some p else nthO (maptbl f) x).
  { intros x. change (maptbl f3) with (maptbl f2). rewrite Hmt2, Hmt1. apply nthO_upd.
    destruct (fi_map _ _ _ _ Hi). lia. }
  exists ns', h', t'. split; [done|]. split; [|split; [done|split; [done|split]]].
  - split; [done|done|simpl; by rewrite length_insert|]. intros i fi. rewrite Hlk.
    destruct (i =? lpn mod nr); [intros [= <-]|by apply K4]. split.
    + exists g2. destruct Hfr2. repeat (split; [done|]). by rewrite fr_vic.
    + simpl. destruct Hfr2. congruence.
  - intros i fi. rewrite Hlk. destruct (i =? lpn mod nr); [intros [= <-]|].
    + change (room spp USER_IO f3) with (room spp USER_IO f2). rewrite Hrm2, Hrm1. lia.
    + intros Hfi. specialize (Hroom i fi Hfi). lia.
  - assert (Hen : forall x, entry ns' x = if x =? lpn then Some p else entry ns x).
    { intros x. unfold entry. change (ns_nr_parts ns') with nr. rewrite Hlk. fold nr.
      destruct (Z.eqb_spec (x mod nr) (lpn mod nr)) as [Em|Em].
      - simpl. rewrite Hmt3, Em, Hf'. simpl. destruct (Z.eqb_spec (x / nr) (lpn / nr)) as [Ed|Ed].
        + assert (x = lpn) as -> by (rewrite (Z.div_mod x nr), (Z.div_mod lpn nr) by lia; congruence).
          by rewrite Z.eqb_refl.
        + destruct (Z.eqb_spec x lpn); [congruence|done].
      - destruct (Z.eqb_spec x lpn); [congruence|done]. }
    split; [done| |].
    + intros x Hx. assert (x = lpn) as -> by lia. exists p. by rewrite Hen, Z.eqb_refl.
    + intros x _ Hx. rewrite Hen. destruct (Z.eqb_spec x lpn); [lia|done].
Qed.

Lemma write_effect_trans ns1 ns2 ns3 lo mid hi :
  0 <= lo -> lo <= mid <= hi -> write_effect ns1 ns2 lo mid -> write_effect ns2 ns3 mid hi -> write_effect ns1 ns3 lo hi.
Proof.
  intros Hlo Hm [A1 A2 A3] [B1 B2 B3]. split; [congruence| |].
  - intros lpn Hl. destruct (decide (mid <= lpn)); [apply B2; lia|]. rewrite B3 by lia. apply A2. lia.
  - intros lpn Hp Hl. rewrite B3, A3; [done|done|lia|done|lia].
Qed.

(** The loop of [conv_write]. *)
Lemma write_loop_spec ns h sq st first last n :
  ns_ok ns -> hw_ok h -> u64_ok st -> 0 <= first ->
  ns_room ns n -> Z.max 0 (last - first + 1) + 1 <= n ->
  last / ns_nr_parts ns < L -> last / ns_nr_parts ns < tt_pgs spp ->
  exists ns' h' t', for_lpn first last 1 (ns, h, st) (write_lpn sq (ns_nr_parts ns) st) = Ok (ns', h', t') /\
    ns_ok ns' /\ hw_ok h' /\ hw_write_buffer h' = hw_write_buffer h /\
    ns_room ns' (n - Z.max 0 (last - first + 1)) /\
    write_effect ns ns' first (Z.max first (last + 1)).
Proof.
  intros Hns Hh Hst Hfi Hroom Hn HL Htt. unfold for_lpn. cbn [Z.eqb negb].
  assert (Hparts := nk_parts _ Hns). rewrite Z.div_1_r.
  set (cnt := Z.max 0 (last - first + 1)) in *.
  assert (Hcnt : (if first <=? last then last - first + 1 else 0) = cnt)
    by (destruct (Z.leb_spec first last); lia).
  rewrite Hcnt. replace (Z.max first (last + 1)) with (first + cnt) by lia.
  set (P := fun i (s : nvmev_ns * hw * Z) => let '(ns', h', t') := s in
    ns_ok ns' /\ hw_ok h' /\ hw_write_buffer h' = hw_write_buffer h /\
    ns_room ns' (n - i) /\ write_effect ns ns' first (first + i)).
  destruct (forO_ind P 0 cnt (ns, h, st)
    (fun s i => write_lpn sq (ns_nr_parts ns) st s (first + i * 1))) as ([[ns' h'] t'] & -> & HP).
  - lia.
  - simpl. repeat (split; [done|]). split; [by rewrite Z.sub_0_r|]. split; [done|intros; lia|done].
  - intros i [[ns1 h1] t1] Hi (Hns1 & Hh1 & Hwb1 & Hr1 & He1).
    rewrite <- (we_parts _ _ _ _ He1), Z.mul_1_r. pose proof (we_parts _ _ _ _ He1) as Hp1.
    assert (Hle : (first + i) / ns_nr_parts ns <= last / ns_nr_parts ns) by (apply Z.div_le_mono; lia).
    destruct (write_lpn_spec ns1 h1 sq st t1 (first + i) (n - i))
      as (ns2 & h2 & t2 & -> & Hns2 & Hh2 & Hwb2 & Hr3 & He2); try done; rewrite ?Hp1; try lia.
    exists (ns2, h2, t2). split; [done|]. split; [done|]. split; [done|]. split; [congruence|]. split.
    + by replace (n - (i + 1)) with (n - i - 1) by lia.
    + rewrite Z.add_assoc. eapply (write_effect_trans _ _ _ _ (first + i)); try done; lia.
  - simpl in HP. destruct HP as (H1 & H2 & H3 & H4 & H5). by exists ns', h', t'.
Qed.

(** ** Commands *)
Lemma ns_first ns : ns_ok ns -> exists f, nthZ (ns_ftls ns) 0 = Ok f /\ nthO (ns_ftls ns) 0 = Some f /\ ftl_ok f.
Proof.
  intros [K1 K2 K3 K4]. destruct (nthZ_in_range (ns_ftls ns) 0) as [f Hf]; [lia|].
  exists f. pose proof Hf as Hf'. apply nthO_nthZ in Hf'. split; [done|]. split; [done|]. by eapply K4.
Qed.

Lemma io_nr_lba_range cmd : 1 <= io_nr_lba cmd <= 65536.
Proof. unfold io_nr_lba. pose proof (rw_length_range cmd). lia. Qed.

Lemma io_lpns cmd : geom_ok spp ->
  exists a b, io_start_lpn spp cmd = Ok a /\ io_end_lpn spp cmd = Ok b /\
    (cmd_ok cmd -> 0 <= a) /\ 0 <= b.
Proof.
  intros []. unfold io_start_lpn, io_end_lpn. rewrite !divO_Ok by lia. eexists _, _.
  split; [done|]. split; [done|]. split.
  - intros Hc. pose proof (rw_slba_range cmd Hc). apply Z.div_pos; lia.
  - apply Z.div_pos; [apply u64_range|lia].
Qed.

(** The pages a command touches. *)
Definition cmd_lpns (cmd : nvme_command) : Z * Z :=
  (rw_slba cmd / secs_per_pg spp, u64 (rw_slba cmd + io_nr_lba cmd - 1) / secs_per_pg spp).

Definition cmd_pages (cmd : nvme_command) : Z :=
  let '(first, last) := cmd_lpns cmd in Z.max 0 (last - first + 1).

Lemma conv_write_spec ns h req ret n :
  ns_ok ns -> hw_ok h -> cmd_ok (req_cmd req) -> ns_room ns n ->
  let '(first, last) := cmd_lpns (req_cmd req) in
  cmd_pages (req_cmd req) + 1 <= n -> last / ns_nr_parts ns < L ->
  exists ok ns' h' ret', conv_write ns h req ret = Ok (ok, ns', h', ret') /\
    ns_ok ns' /\ hw_ok h' /\
    if (ok : bool) then ret_status ret' = NVME_SC_SUCCESS /\ ns_room ns' (n - cmd_pages (req_cmd req)) /\
      write_effect ns ns' first (Z.max first (last + 1))
    else ns' = ns /\ ret' = ret.
Proof.
  intros Hns Hh Hcmd Hroom. destruct (cmd_lpns (req_cmd req)) as [first last] eqn:Ecl.
  unfold cmd_pages. rewrite Ecl. intros Hn HL.
  destruct (ns_first ns Hns) as (f & Hf & Hf' & [Hidle Hcp]).
  destruct (idle_geom f Hidle) as (G & T & Hsp & _).
  unfold conv_write. rewrite Hf. cbn [obind]. rewrite Hsp.
  unfold cmd_lpns in Ecl. injection Ecl as E1 E2. destruct G. pose proof (nk_parts _ Hns) as Hparts.
  assert (Hs0 : secs_per_pg spp <> 0) by lia.
  unfold io_start_lpn, io_end_lpn. rewrite !divO_Ok by lia. cbn [obind]. rewrite E1, E2.
  rewrite divO_Ok by lia. cbn [obind].
  destruct (Z.leb_spec (tt_pgs spp) (last / ns_nr_parts ns)).
  { exists false, ns, h, ret. done. }
  destruct (buffer_allocate _ _) as [asz wb] eqn:Eb. set (h1 := set_write_buffer h wb).
  destruct (asz <? LBA_TO_BYTE _).
  { exists false, ns, h1, ret. done. }
  destruct (ssd_advance_write_buffer_spec (cf_ssd f) h1 (req_nsecs_start req) (LBA_TO_BYTE (io_nr_lba (req_cmd req))))
    as (st & h2 & -> & Hh2 & _ & Hst); [done|]. cbn [obind].
  assert (Hf0 : 0 <= first).
  { rewrite <- E1. pose proof (rw_slba_range _ Hcmd). apply Z.div_pos; lia. }
  destruct (write_loop_spec ns h2 (req_sq_id req) st first last n)
    as (ns' & h' & t' & -> & Hns' & Hh' & _ & Hr' & He'); try done.
  cbn [obind]. eexists true, ns', h', _. split; [done|]. repeat (split; [done|]). done.
Qed.

(** ** Reads *)
Record read_keep (ns ns' : nvmev_ns) : Prop := {
  rk_parts : ns_nr_parts ns' = ns_nr_parts ns;
  rk_entry : forall lpn, entry ns' lpn = entry ns lpn;
  rk_room : forall n, ns_room ns n -> ns_room ns' n;
}.

#[export] Instance read_keep_pre : PreOrder read_keep.
Proof.
  split; [done|]. intros a b c [A1 A2 A3] [B1 B2 B3]. split; [congruence| |auto].
  intros lpn. by rewrite B2, A2.
Qed.

Lemma is_same_flash_page_Ok f p q :
  cf_sp f = spp -> geom_ok spp -> exists b, is_same_flash_page f p q = Ok b.
Proof.
  intros Hsp []. unfold is_same_flash_page. rewrite Hsp, !divO_Ok by lia. cbn [obind]. by eexists.
Qed.

Lemma read_advance g f h p xfer st t :
  ftl_inv spp L g f -> hw_ok h -> ppa_ok spp p -> u64_ok st -> 0 <= xfer < 4294967296 ->
  exists s h' t',
    (if 0 <? xfer then
       let* (t0, f, h) := conv_advance_nand f h (mk_nand_cmd USER_IO NAND_READ xfer st true p) in
       Ok (f, h, Z.max t0 t)
     else Ok (f, h, t)) = Ok (set_ssd f s, h', t') /\
    ftl_inv spp L g (set_ssd f s) /\ hw_ok h'.
Proof.
  intros Hi Hh Hp Hst Hx. destruct (Z.ltb_spec 0 xfer).
  - assert (Hsp : cf_sp f = spp) by (by destruct Hi as [_ _ [] _ _ _ _ _ _]).
    destruct (conv_advance_nand_spec g f h (mk_nand_cmd USER_IO NAND_READ xfer st true p))
      as (t' & s & h' & -> & Hi' & Hh' & _); [done|done|by apply ppa_cmd_in_range; [..|left; lia]|].
    cbn [obind]. by eexists s, h', _.
  - exists (cf_ssd f), h, t. by replace (set_ssd f (cf_ssd f)) with f by (by destruct f).
Qed.

Lemma mapped_ppa_ok g f lpn p :
  ftl_inv spp L g f -> gh_hole g = None -> nthO (maptbl f) lpn = Some p -> p <> UNMAPPED_PPA ->
  ppa_ok spp p.
Proof.
  intros Hi Hho Hp Hu. destruct (fi_map _ _ _ _ Hi) as [_ _ M3 _].
  destruct (M3 lpn p Hp Hu) as (_ & ? & _); [congruence|done].
Qed.

(** The state of the read loop. *)
Definition read_state (g : ghost) (f0 : conv_ftl) (st : conv_ftl * hw * Z * Z * Z) : Prop :=
  let '(f, h, prev_ppa, xfer_size, _) := st in
  (exists s, f = set_ssd f0 s) /\ ftl_inv spp L g f /\ hw_ok h /\ 0 <= xfer_size < 4294967296 /\
  (prev_ppa <> UNMAPPED_PPA -> ppa_ok spp prev_ppa) /\ (0 < xfer_size -> prev_ppa <> UNMAPPED_PPA).

Lemma read_lpn_spec g f0 nr stime st lpn :
  gh_hole g = None -> read_state g f0 st -> u64_ok stime -> 0 < nr -> 0 <= lpn -> lpn / nr < tt_pgs spp ->
  exists st', read_lpn nr stime st lpn = Ok st' /\ read_state g f0 st'.
Proof.
  destruct st as [[[[f h] prev] xfer] t]. intros Hho ((s & Hs) & Hi & Hh & Hx & Hp & Hxp) Hst Hnr Hl Htt.
  unfold read_lpn. rewrite divO_Ok by lia. cbn [obind].
  pose proof (fi_map _ _ _ _ Hi) as [M1 _ _ _].
  destruct (nthZ_in_range (maptbl f) (lpn / nr)) as [cur Hcur].
  { split; [apply Z.div_pos; lia|lia]. }
  unfold get_maptbl_ent. rewrite Hcur. cbn [obind]. apply nthO_nthZ in Hcur.
  unfold mapped_ppa at 1. destruct (Z.eqb_spec cur UNMAPPED_PPA) as [->|Hu]; cbn [negb orb].
  { eexists. split; [done|]. split; [by exists s|]. done. }
  destruct (negb (valid_ppa f cur)); [eexists; split; [done|]; split; [by exists s|done]|].
  assert (Hcok : ppa_ok spp cur) by (by eapply mapped_ppa_ok).
  assert (Hsp : cf_sp f = spp) by (by destruct Hi as [_ _ [] _ _ _ _ _ _]).
  assert (Hsame : exists b, (if mapped_ppa prev then is_same_flash_page f cur prev else Ok false) = Ok b /\
    (b = true -> prev <> UNMAPPED_PPA)).
  { unfold mapped_ppa. destruct (Z.eqb_spec prev UNMAPPED_PPA) as [->|Hpu]; cbn [negb]; [by exists false|].
    destruct (is_same_flash_page_Ok f cur prev Hsp (fi_geom _ _ _ _ Hi)) as [b Hb]. by exists b. }
  destruct Hsame as (b & -> & Hb). cbn [obind]. destruct b.
  - eexists. split; [done|]. split; [eauto|]. repeat (split; [done|]).
    split; [apply u32_range|]. split; [done|]. auto.
  - destruct (decide (0 < xfer)) as [Hpos|Hz].
    + destruct (read_advance g f h prev xfer stime t Hi Hh) as (s' & h' & t' & -> & Hi' & Hh');
        [auto|done|done|]. cbn [obind]. eexists. split; [done|].
      split; [exists s'; by rewrite Hs|]. repeat (split; [done|]). split; [apply u32_range|]. done.
    + destruct (Z.ltb_spec 0 xfer); [lia|]. cbn [obind]. eexists. split; [done|].
      split; [eauto|]. repeat (split; [done|]). split; [apply u32_range|]. done.
Qed.

Lemma read_part_spec ns h t nr stime last first :
  ns_ok ns -> hw_ok h -> u64_ok stime -> nr = ns_nr_parts ns -> 0 <= first -> first <= last ->
  last / nr < tt_pgs spp ->
  exists ns' h' t', read_part nr stime last (ns, h, t) first = Ok (ns', h', t') /\
    ns_ok ns' /\ hw_ok h' /\ read_keep ns ns'.
Proof.
  intros Hns Hh Hst -> Hf0 Hfl Htt. pose proof Hns as [K1 K2 K3 K4]. unfold read_part.
  set (nr := ns_nr_parts ns) in *. pose proof (Z.mod_pos_bound first nr ltac:(lia)) as Hmod.
  rewrite modO_Ok by lia. cbn [obind].
  destruct (nthZ_in_range (ns_ftls ns) (first mod nr)) as [f Hf]; [lia|]. rewrite Hf. cbn [obind].
  pose proof Hf as Hf'. apply nthO_nthZ in Hf'. destruct (K4 _ _ Hf') as [(g & Hi & Hho & Hpe & Hvi) Hcp].
  rewrite divO_Ok by lia. cbn [obind].
  assert (Hdiv : forall x, first <= x <= last -> 0 <= x / nr < tt_pgs spp).
  { intros x Hx. split; [apply Z.div_pos; lia|]. assert (x / nr <= last / nr) by (apply Z.div_le_mono; lia). lia. }
  destruct (fi_map _ _ _ _ Hi) as [M1 _ _ _].
  destruct (nthZ_in_range (maptbl f) (first / nr)) as [p Hp]; [pose proof (Hdiv first ltac:(lia)); lia|].
  unfold get_maptbl_ent. rewrite Hp. cbn [obind]. apply nthO_nthZ in Hp.
  unfold for_lpn. rewrite (proj2 (Z.eqb_neq nr 0)) by lia. cbn [negb].
  destruct (Z.leb_spec first last); [|lia].
  destruct (forO_ind (fun _ st => read_state g f st) 0 ((last - first) / nr + 1) (f, h, p, 0, t)
    (fun s i => read_lpn nr stime s (first + i * nr))) as ([[[[f1 h1] p1] x1] t1] & -> & ((s1 & Hs1) & Hi1 & Hh1 & Hx1 & Hp1 & Hxp1)).
  - assert (0 <= (last - first) / nr) by (apply Z.div_pos; lia). lia.
  - split; [exists (cf_ssd f); by destruct f|]. do 2 (split; [done|]). split; [lia|]. split; [|lia].
    intros Hu. by eapply mapped_ppa_ok.
  - intros i st Hir Hst'. apply read_lpn_spec; try done; [lia|nia|].
    apply Hdiv. assert (i * nr <= last - first); [|nia].
    assert ((last - first) / nr * nr <= last - first) by (rewrite Z.mul_comm; apply Z.mul_div_le; lia). nia.
  - cbn [obind].
    assert (Hend : exists s2 h2 t2, (if 0 <? x1 then
       let* (t0, f, h) := conv_advance_nand f1 h1 (mk_nand_cmd USER_IO NAND_READ x1 stime true p1) in
       Ok (f, h, Z.max t0 t1) else Ok (f1, h1, t1)) = Ok (set_ssd f s2, h2, t2) /\
       ftl_inv spp L g (set_ssd f s2) /\ hw_ok h2).
    { destruct (decide (0 < x1)) as [Hpos|Hz].
      - destruct (read_advance g f1 h1 p1 x1 stime t1 Hi1 Hh1) as (s2 & h2 & t2 & -> & Hi2 & Hh2);
          [auto|done|done|]. subst f1. by exists s2, h2, t2.
      - destruct (Z.ltb_spec 0 x1); [lia|]. subst f1. by exists s1, h1, t1. }
    destruct Hend as (s2 & h2 & t2 & -> & Hi2 & Hh2). cbn [obind].
    rewrite updZ_Ok by lia. cbn [obind]. set (f2 := set_ssd f s2) in *. set (ns' := set_ftls ns _).
    assert (Hlk : forall i, nthO (ns_ftls ns') i = if i =? first mod nr then Some f2 else nthO (ns_ftls ns) i)
      by (intros i; by apply nthO_upd; lia).
    exists ns', h2, t2. split; [done|]. split; [|split; [done|]].
    + split; [done|done|simpl; by rewrite length_insert|]. intros i fi. rewrite Hlk.
      destruct (i =? first mod nr); [intros [= <-]|by apply K4]. split; [by exists g|done].
    + split; [done| |].
      * intros x. unfold entry. change (ns_nr_parts ns') with nr. fold nr. rewrite Hlk.
        destruct (Z.eqb_spec (x mod nr) (first mod nr)) as [->|]; [by rewrite Hf'|done].
      * intros n Hn i fi. rewrite Hlk. destruct (Z.eqb_spec i (first mod nr)) as [->|]; [|by apply Hn].
        intros [= <-]. change (room spp USER_IO f2) with (room spp USER_IO f). by eapply Hn.
Qed.

Lemma conv_read_spec ns h req ret :
  ns_ok ns -> hw_ok h -> cmd_ok (req_cmd req) ->
  exists ok ns' h' ret', conv_read ns h req ret = Ok (ok, ns', h', ret') /\
    ns_ok ns' /\ hw_ok h' /\ read_keep ns ns' /\
    if (ok : bool) then ret_status ret' = NVME_SC_SUCCESS else ns' = ns /\ ret' = ret.
Proof.
  intros Hns Hh Hcmd. destruct (ns_first ns Hns) as (f & Hf & Hf' & [Hidle Hcp]).
  destruct (idle_geom f Hidle) as (G & T & Hsp & _).
  unfold conv_read. rewrite Hf. cbn [obind]. rewrite Hsp. pose proof (nk_parts _ Hns) as Hparts.
  destruct (io_lpns (req_cmd req) G) as (first & last & -> & -> & Ha & Hb). specialize (Ha Hcmd).
  cbn [obind]. rewrite divO_Ok by lia. cbn [obind].
  destruct (Z.leb_spec (tt_pgs spp) (last / ns_nr_parts ns)).
  { exists false, ns, h, ret. done. }
  set (stime := if LBA_TO_BYTE (io_nr_lba (req_cmd req)) <=? u32 (KB 4 * ns_nr_parts ns)
    then u64 (req_nsecs_start req + fw_4kb_rd_lat spp) else u64 (req_nsecs_start req + fw_rd_lat spp)). assert (Hst : u64_ok stime) by (unfold stime; destruct (_ <=? _); apply u64_range).
  set (nr := ns_nr_parts ns) in *.
  destruct (decide (first <= last)) as [Hle|Hgt].
  - destruct (forO_ind (fun (_ : Z) (s : nvmev_ns * hw * Z) => let '(ns', h', _) := s in
      ns_ok ns' /\ hw_ok h' /\ read_keep ns ns') 0 (Z.min nr (last - first + 1)) (ns, h, req_nsecs_start req)
      (fun st i => read_part nr stime last st (first + i))) as ([[ns' h'] t'] & -> & Hns' & Hh' & Hk).
    + lia.
    + done.
    + intros i [[ns1 h1] t1] Hi (Hns1 & Hh1 & Hk1).
      destruct (read_part_spec ns1 h1 t1 nr stime last (first + i)) as (ns2 & h2 & t2 & -> & Hns2 & Hh2 & Hk2);
        try done; try lia; [by rewrite (rk_parts _ _ Hk1)|].
      exists (ns2, h2, t2). split; [done|]. split; [done|]. split; [done|]. by etransitivity.
    + cbn [obind]. by eexists true, ns', h', _.
  - rewrite forO_empty by lia. cbn [obind]. by eexists true, ns, h, _.
Qed.

(** ** Flush *)
Lemma conv_flush_spec ns h ret :
  ns_ok ns -> hw_ok h ->
  exists h' ret', conv_flush ns h ret = Ok (ns, h', ret') /\ hw_ok h' /\ ret_status ret' = NVME_SC_SUCCESS.
Proof.
  intros [K1 K2 K3 K4] Hh. unfold conv_flush.
  destruct (forO_ind (fun (_ : Z) (st : hw * Z) => hw_ok st.1) 0 (ns_nr_parts ns)
    (set_clk h (S (hw_clk h)), cpu_clock (hw_clk h)) (fun '(h, latest) i =>
      let* f := nthZ (ns_ftls ns) i in
      let* (t, h) := ssd_next_idle_time (cf_ssd f) h in
      Ok (h, Z.max latest t))) as ([h' t'] & -> & Hh').
  - lia.
  - done.
  - intros i [h1 t1] Hi Hh1. destruct (nthZ_in_range (ns_ftls ns) i) as [f Hf]; [lia|].
    rewrite Hf. cbn [obind]. apply nthO_nthZ in Hf. destruct (K4 i f Hf) as [(g & Hi' & _) _].
    destruct (fi_nand _ _ _ _ Hi') as [_ N2 _]. destruct (ssd_next_idle_time_Ok (cf_ssd f) h1 N2) as (t & ->).
    cbn [obind]. eexists. done.
  - cbn [obind]. by eexists _, _.
Qed.

End Write.
