(* ===== verification/ConvGc.v ===== *)
(** * ConvGc: garbage collection in conv_ftl.c

    [do_gc] cleans one victim line: it copies every valid page to the line of
    the collector, frees the blocks and returns the line to the free list.  The
    number of pages still mapped into the victim ([in_victim]) and the room of
    the collector's write pointer fall together, so the free lines suffice; the
    room grows by the invalid pages of the victim, so the collection loop ends. *)
From stdpp Require Import base list numbers gmap.
From Stdlib Require Import ZArith Lia.
From S2P Require Import Prelude Pqueue ChannelModel SsdConfig Ssd SsdFacts ConvGeom ConvNand.
From S2P Require Import Nvme Lines PqueueSpec ConvFtl ConvLines ConvInv ConvWrite.

Open Scope Z_scope.
Open Scope nvmev_scope.

Section Gc.
Variable spp : ssdparams.
Variable cpp : convparams.
Variable L : Z.
Context `{ClockRange}.
Context (G : geom_ok spp).

Notation ppl := (pgs_per_line spp).
Notation in_line := (in_line spp).
Notation in_page := (in_page spp).
Notation idx := (idx spp).
Notation pgidx := (pgidx spp).
Notation gidx := (gidx spp).
Notation ftl_inv := (ftl_inv spp L).
Notation fp := (pgs_per_flashpg spp).

(** ** The order of the copy loops *)
Lemma gidx_inj c l pg c' l' pg' :
  in_page c l pg -> in_page c' l' pg' -> gidx c l pg = gidx c' l' pg' -> c = c' /\ l = l' /\ pg = pg'.
Proof.
  intros (Hc & Hl & Hp) (Hc' & Hl' & Hp') E. destruct G. unfold ConvInv.gidx in E.
  apply radix_inj in E as [E E3]; [|by apply Z.mod_pos_bound..].
  apply radix_inj in E as [E ->]; [|lia..].
  apply radix_inj in E as [E ->]; [|lia..].
  split; [done|]. split; [done|].
  rewrite (Z.div_mod pg fp), (Z.div_mod pg' fp) by lia. lia.
Qed.

Lemma flash_divmod j i : 0 <= i < fp -> (j * fp + i) / fp = j /\ (j * fp + i) mod fp = i.
Proof.
  intros Hi. split.
  - symmetry. apply (Z.div_unique_pos _ _ _ i); lia.
  - symmetry. apply (Z.mod_unique_pos _ _ j i); lia.
Qed.

Lemma gidx_flash c l j i :
  0 <= i < fp -> gidx c l (j * fp + i) = ((j * nchs spp + c) * luns_per_ch spp + l) * fp + i.
Proof. intros Hi. unfold ConvInv.gidx. destruct (flash_divmod j i Hi) as [-> ->]. done. Qed.

Lemma flash_page j i : 0 <= j < flashpgs_per_blk spp -> 0 <= i < fp -> 0 <= j * fp + i < pgs_per_blk spp.
Proof. intros Hj Hi. destruct G. destruct g_blk_fp as [_ ->]. by apply radix_range. Qed.

(** Every page of a block is visited by the end of its last flash page. *)
Lemma gidx_block c l pg :
  in_page c l pg ->
  gidx c l pg < (((flashpgs_per_blk spp - 1) * nchs spp + c) * luns_per_ch spp + l) * fp + fp.
Proof.
  intros (Hc & Hl & Hp). destruct G. destruct g_blk_fp as [Hf Ef]. unfold ConvInv.gidx.
  pose proof (Z.mod_pos_bound pg fp g_fp) as Hm.
  assert (Hq : pg / fp <= flashpgs_per_blk spp - 1).
  { assert (pg / fp < flashpgs_per_blk spp); [|lia]. apply Z.div_lt_upper_bound; lia. }
  assert (Hq1 : pg / fp * nchs spp + c <= (flashpgs_per_blk spp - 1) * nchs spp + c) by nia.
  assert (Hq2 : (pg / fp * nchs spp + c) * luns_per_ch spp + l <=
    ((flashpgs_per_blk spp - 1) * nchs spp + c) * luns_per_ch spp + l) by nia.
  nia.
Qed.

(** ** Counting the pages mapped into a line *)
Definition maps_into (mt : list Z) (v lpn : Z) : Z :=
  match nthO mt lpn with
  | Some p => if negb (p =? UNMAPPED_PPA) && (ppa_blk p =? v) then 1 else 0
  | None => 0
  end.

Definition in_victim (mt : list Z) (v : Z) : Z := sumZ (map (maps_into mt v) (seqZ 0 (tt_pgs spp))).

Lemma maps_into_range mt v lpn : 0 <= maps_into mt v lpn <= 1.
Proof. unfold maps_into. destruct (nthO mt lpn); [destruct (_ && _)|]; lia. Qed.

Lemma in_victim_upd mt v lpn p :
  Z.of_nat (length mt) = tt_pgs spp -> 0 <= lpn < tt_pgs spp ->
  in_victim (<[Z.to_nat lpn := p]> mt) v =
  in_victim mt v - maps_into mt v lpn + (if negb (p =? UNMAPPED_PPA) && (ppa_blk p =? v) then 1 else 0).
Proof.
  intros Hl Hlpn. unfold in_victim.
  rewrite (sumZ_map_upd (maps_into (<[Z.to_nat lpn := p]> mt) v) (maps_into mt v) _ lpn).
  - f_equal. unfold maps_into. rewrite nthO_upd by lia. by rewrite Z.eqb_refl.
  - apply NoDup_seqZ.
  - apply elem_of_seqZ. lia.
  - intros x Hx Hne. unfold maps_into. rewrite nthO_upd by lia. by rewrite (proj2 (Z.eqb_neq x lpn)).
Qed.

Lemma in_victim_pos mt v lpn p :
  0 <= lpn < tt_pgs spp -> nthO mt lpn = Some p -> p <> UNMAPPED_PPA -> ppa_blk p = v ->
  1 <= in_victim mt v /\ maps_into mt v lpn = 1.
Proof.
  intros Hl Hp Hu Hb. assert (Hm : maps_into mt v lpn = 1).
  { unfold maps_into. rewrite Hp, (proj2 (Z.eqb_neq _ _) Hu), Hb, Z.eqb_refl. done. }
  split; [|done]. rewrite <- Hm. apply (sumZ_map_ge (maps_into mt v)).
  - apply elem_of_seqZ. lia.
  - intros x _. apply maps_into_range.
Qed.

(** ** The state of the collector *)
Definition mapped (f : conv_ftl) (lpn : Z) : Prop :=
  exists p, nthO (maptbl f) lpn = Some p /\ p <> UNMAPPED_PPA.

(** What the collection of a line leaves alone. *)
Record gc_keep (f f' : conv_ftl) : Prop := {
  gk_cp : cf_cp f' = cf_cp f;
  gk_wp : cf_wp f' = cf_wp f;
  gk_mapped : forall lpn, mapped f' lpn <-> mapped f lpn;
}.

#[export] Instance gc_keep_pre : PreOrder gc_keep.
Proof.
  split; [done|]. intros a b c [A1 A2 A3] [B1 B2 B3]. split; [congruence|congruence|].
  intros lpn. by rewrite B3, A3.
Qed.

Record gc_st (v K n m : Z) (g : ghost) (f : conv_ftl) : Prop := {
  gs_inv : ftl_inv g f;
  gs_hole : gh_hole g = None;
  gs_pend : gh_pend g = None;
  gs_vic : gh_vic g = Some v;
  gs_dead : gh_dead g = n;
  gs_freed : gh_freed g = m;
  gs_room : room spp GC_IO f - in_victim (maptbl f) v = K;
}.

(** The pages of the victim keep their status. *)
Definition victim_same (v : Z) (f f' : conv_ftl) : Prop :=
  forall c l pg, 0 <= pg -> status_at (cf_ssd f') c l v pg = status_at (cf_ssd f) c l v pg.

Lemma gc_st_equiv v K n m g f s :
  gc_st v K n m g f -> ssd_ok s -> nand_equiv (cf_ssd f) s -> gc_st v K n m g (set_ssd f s).
Proof. intros [Hi ? ? ? ? ? ?] Hs He. split; try done. by apply ftl_inv_equiv. Qed.

(** A command on the device during the collection. *)
Lemma gc_advance v K n m g f h ncmd :
  gc_st v K n m g f -> hw_ok h -> cmd_in_range (cf_ssd f) ncmd ->
  exists t s h', conv_advance_nand f h ncmd = Ok (t, set_ssd f s, h') /\
    gc_st v K n m g (set_ssd f s) /\ hw_ok h' /\ nand_equiv (cf_ssd f) s.
Proof.
  intros [Hi ? ? ? ? ? ?] Hh Hc.
  destruct (conv_advance_nand_spec spp L g f h ncmd Hi Hh Hc) as (t & s & h' & E & Hi' & Hh' & _ & _ & He).
  exists t, s, h'. split; [done|]. split; [by split|done].
Qed.

Lemma gc_keep_ssd f s : gc_keep f (set_ssd f s).
Proof. by split. Qed.

Lemma victim_same_ssd v f s : nand_equiv (cf_ssd f) s -> victim_same v f (set_ssd f s).
Proof. intros He c l pg _. by apply status_at_equiv. Qed.

(** The dead pages grow by one that is not valid. *)
Lemma gc_skip v K n m g f :
  gc_st v K n m g f ->
  (forall c l pg, in_page c l pg -> gidx c l pg = n -> ~ valid_at (cf_ssd f) c l v pg) ->
  gc_st v K (n + 1) m (set_gh_dead g (n + 1)) f.
Proof.
  intros [Hi Hho Hpe Hvi Hde Hfr Hro] Hn. split; try done.
  pose proof Hi as [_ T N F Lm U GC V [M1 M2 M3 M4]]. apply ftl_inv_wps; try done.
  { intros io Hio. by destruct (fi_wp spp L g f io Hi Hio). }
  split; try done.
  - intros x q Hq Hqu Hx. destruct (M3 x q Hq Hqu Hx) as (H1 & H2 & H3 & H4 & H5).
    repeat (split; [done|]). split; [|done]. intros [E1 E2]. simpl in E1, E2.
    destruct H2 as [Hqp Hqb _]. apply V in E1 as E1'; [|done]. rewrite Hvi in E1'. injection E1' as Ev.
    destruct (decide (gidx (ppa_ch q) (ppa_lun q) (ppa_pg q) = n)) as [E|E].
    + apply (Hn _ _ _ Hqp E). by rewrite Ev.
    + apply H4. split; [done|]. rewrite Hde. lia.
  - intros c l b pg Hp Hb Hv Hd. apply M4; try done. intros [E1 E2]. apply Hd. split; [done|].
    simpl. lia.
Qed.

(** ** Copying a page *)
Lemma gc_hole v K n m g f p lpn q :
  gc_st v K n m g f -> ppa_ok spp p -> ppa_blk p = v -> gidx (ppa_ch p) (ppa_lun p) (ppa_pg p) = n ->
  nthO (rmap f) (ppa_idx spp p) = Some lpn -> nthO (maptbl f) lpn = Some q -> q <> UNMAPPED_PPA ->
  same_page q (ppa_ch p) (ppa_lun p) (ppa_blk p) (ppa_pg p) ->
  ftl_inv (mk_ghost (gh_role g) (gh_fill g) (gh_vic g) (Some lpn) None (n + 1) m) f.
Proof.
  intros [Hi Hho Hpe Hvi Hde Hfr Hro] Hp Hb Hn Hrp Hmq Hqu Hs.
  pose proof Hi as [_ T N F Lm U GC V [M1 M2 M3 M4]].
  set (g1 := mk_ghost _ _ _ _ _ _ _). apply ftl_inv_wps; try done.
  - intros c l b pg Hpg Hbl. rewrite F by done. unfold page_free. simpl. by rewrite Hfr.
  - intros io Hio. destruct (fi_wp spp L g f io Hi Hio) as [Oc Ol Op Opg Of Or]. split; try done.
    unfold ConvInv.pend in *. rewrite Hpe in Of. exact Of.
  - split; try done.
    + intros x y Hy Hyu Hx. simpl in Hx.
      destruct (M3 x y Hy Hyu) as (H1 & H2 & H3 & H4 & H5); [congruence|].
      repeat (split; [done|]). split; [|done]. intros [E1 E2]. simpl in E1, E2. pose proof H2 as [Hyp Hyb _].
      apply V in E1 as E1'; [|done]. rewrite Hvi in E1'. injection E1' as Ev.
      destruct (decide (gidx (ppa_ch y) (ppa_lun y) (ppa_pg y) = n)) as [E|E].
      * rewrite <- Hn in E. destruct Hp as [Hpp _ _].
        destruct (gidx_inj _ _ _ _ _ _ Hyp Hpp E) as (F1 & F2 & F3).
        assert (ppa_idx spp y = ppa_idx spp p) as Ei by (unfold ppa_idx; congruence). congruence.
      * apply H4. split; [done|]. lia.
    + intros c l b pg Hpg Hbl Hv Hd. destruct (M4 c l b pg Hpg Hbl Hv) as (x & y & H1 & H2 & H3 & H4 & H5).
      { intros [E1 E2]. apply Hd. split; [done|]. simpl. lia. }
      exists x, y. split; [done|]. split; [|done]. simpl. intros [= ->].
      assert (y = q) as -> by congruence. apply Hd. destruct H5 as (-> & -> & -> & ->).
      destruct Hs as (E1 & E2 & E3 & E4). split; simpl.
      * apply V; [by rewrite <- E3; destruct Hp|]. rewrite Hvi. congruence.
      * rewrite <- E1, <- E2, <- E4, Hn. lia.
Qed.

Lemma gc_write_page_spec v K n m g f h p :
  gc_st v K n m g f -> hw_ok h -> 1 <= K -> ppa_ok spp p -> ppa_blk p = v ->
  gidx (ppa_ch p) (ppa_lun p) (ppa_pg p) = n ->
  valid_at (cf_ssd f) (ppa_ch p) (ppa_lun p) v (ppa_pg p) ->
  exists f' h' g', gc_write_page f h p = Ok (f', h') /\ gc_st v K (n + 1) m g' f' /\ hw_ok h' /\
    gc_keep f f' /\ victim_same v f f'.
Proof.
  intros Hst Hh HK Hp Hb Hn Hv. pose proof Hst as [Hi Hho Hpe Hvi Hde Hfr Hro].
  pose proof Hi as [_ T N F Lm U GC V [M1 M2 M3 M4]]. pose proof Hp as [Hpp Hpb _].
  assert (Hsp : cf_sp f = spp) by (by destruct N).
  destruct (M4 (ppa_ch p) (ppa_lun p) (ppa_blk p) (ppa_pg p) Hpp Hpb) as (lpn & q & Hrp & _ & Hmq & Hqu & Hs).
  { by rewrite Hb. }
  { intros [_ E]. lia. }
  assert (Hlr : 0 <= lpn < tt_pgs spp) by (apply nthO_nthZ, nthZ_range in Hmq; lia).
  assert (HlL : 0 <= lpn < L) by (destruct (M3 lpn q Hmq Hqu) as (? & _); [congruence|done]).
  pose proof Hs as (S1 & S2 & S3 & S4).
  destruct (in_victim_pos (maptbl f) v lpn q Hlr Hmq Hqu ltac:(congruence)) as [Hiv Hmi].
  pose proof (gc_hole v K n m g f p lpn q Hst Hp Hb Hn Hrp Hmq Hqu Hs) as Hi1.
  set (g1 := mk_ghost _ _ _ _ _ _ _) in Hi1.
  destruct (install_spec spp L G g1 f GC_IO lpn Hi1 ltac:(by right) eq_refl eq_refl)
    as (p2 & f1 & f2 & f3 & f4 & g4 & E1 & E2 & E3 & E4 & E5 & Hi4 & Hfr4 & Hpe4 & Hho4 & Hde4 & Hmt4 & Hrm4 & _ & Hpok & Hpu & Hrp2 & Hset);
    [lia|done|done|].
  unfold gc_write_page, get_rmap_ent. rewrite (ppa2pgidx_spec spp G) by done. cbn [obind].
  assert (Hrp' : nthZ (rmap f) (ppa_idx spp p) = Ok lpn) by (by apply nthO_nthZ).
  rewrite Hrp'. cbn [obind].
  unfold valid_lpn. rewrite Hsp, (proj2 (Z.ltb_lt _ _)) by lia.
  rewrite E1. cbn [obind]. rewrite E2. cbn [obind]. rewrite E3. cbn [obind]. rewrite E4. cbn [obind].
  rewrite E5. cbn [obind].
  assert (Hp2v : ppa_blk p2 <> v).
  { intros E. rewrite E in Hrp2. assert (E' : gh_role g v = RClean) by (apply V; [by rewrite <- Hb|done]).
    simpl in Hrp2. rewrite E' in Hrp2. done. }
  assert (Hst4 : gc_st v K (n + 1) m g4 f4).
  { destruct Hfr4. split; try done; try congruence; try (by rewrite fr_vic); try (by rewrite fr_freed).
    - rewrite Hrm4, Hmt4, in_victim_upd by lia. rewrite Hmi, (proj2 (Z.eqb_neq _ _) Hp2v).
      rewrite andb_false_r. lia. }
  assert (Hk4 : gc_keep f f4).
  { destruct Hfr4. split; [done|by apply (fr_wp USER_IO); [left|]|].
    intros x. unfold mapped. rewrite Hmt4. rewrite nthO_upd by lia.
    destruct (Z.eqb_spec x lpn) as [->|]; [|done]. split; intros _; eauto. }
  assert (Hvs4 : victim_same v f f4).
  { intros c l pg Hpg. apply (ss_other _ _ _ _ _ Hset); [|done]. intros (_ & _ & E & _). congruence. }
  destruct (enable_gc_delay (cf_cp f4)); [|by exists f4, h, g4].
  assert (Hsp4 : cf_sp f4 = spp) by (by destruct Hi4 as [_ _ [] _ _ _ _ _ _]).
  destruct (last_pg_Ok spp f4 p2 Hsp4 G) as (b & ->). cbn [obind].
  set (gcw := if b then _ else _).
  assert (Hcr : cmd_in_range (cf_ssd f4) gcw)
    by (unfold gcw; destruct b; apply (ppa_cmd_in_range spp); try done; [by right; left|by right; right; right]).
  destruct (gc_advance v K (n + 1) m g4 f4 h gcw Hst4 Hh Hcr) as (t & s & h' & -> & Hst5 & Hh' & He).
  cbn [obind]. exists (set_ssd f4 s), h', g4. split; [done|]. split; [done|]. split; [done|].
  split; [by etransitivity; [exact Hk4|apply gc_keep_ssd]|].
  intros c l pg Hpg. rewrite (victim_same_ssd v f4 s He) by done. by apply Hvs4.
Qed.

(** ** A flash page of the victim *)

(** The address of a page of plane 0. *)
Definition at_page (p c l b pg : Z) : Prop := same_page p c l b pg /\ ppa_pl p = 0.

Lemma at_page_ok p c l b pg : at_page p c l b pg -> in_page c l pg -> in_line b -> ppa_ok spp p.
Proof. intros [(-> & -> & -> & ->) Hpl] Hp Hb. by split. Qed.

Lemma at_page_next p c l b pg :
  at_page p c l b pg -> 0 <= pg + 1 < 65536 -> at_page (set_pg p (ppa_pg p + 1)) c l b (pg + 1).
Proof.
  intros [(-> & -> & -> & ->) Hpl] Hr. unfold at_page, same_page. autorewrite with ppa.
  by rewrite u16_id.
Qed.

(** A page of a block of the victim that has not been erased. *)
Lemma victim_page v K n m g f p c l pg :
  gc_st v K n m g f -> in_line v -> in_page c l pg -> m <= c * luns_per_ch spp + l ->
  at_page p c l v pg ->
  exists x, get_pg (cf_ssd f) p = Ok x /\ pg_status x <> PG_FREE /\
    (pg_status x = PG_VALID <-> valid_at (cf_ssd f) c l v pg).
Proof.
  intros [Hi _ _ Hvi _ Hfr _] Hv Hp Hm Hat. pose proof Hi as [_ _ N F _ _ _ V _].
  pose proof (at_page_ok _ _ _ _ _ Hat Hp Hv) as Hok. destruct Hat as [(-> & -> & -> & ->) _].
  destruct (nand_ok_blk spp _ p N Hok) as (blk & x & _ & _ & _ & _ & Hg & _ & Hs).
  exists x. split; [done|]. split.
  - intros E. rewrite E in Hs. apply F in Hs; [|done..]. unfold page_free in Hs.
    rewrite decide_True in Hs by (by apply V). lia.
  - unfold valid_at. rewrite Hs. split; congruence.
Qed.

Section FlashPage.
Variables (v K m : Z) (j c l : Z).
Context (Hv : in_line v) (Hj : 0 <= j < flashpgs_per_blk spp).
Context (Hc : 0 <= c < nchs spp) (Hl : 0 <= l < luns_per_ch spp).
Context (Hm : m <= c * luns_per_ch spp + l).

Let n : Z := ((j * nchs spp + c) * luns_per_ch spp + l) * fp.

Lemma flash_in_page i : 0 <= i < fp -> in_page c l (j * fp + i).
Proof. intros Hi. split; [done|]. split; [done|]. by apply flash_page. Qed.

Lemma flash_next p i :
  0 <= i < fp -> at_page p c l v (j * fp + i) -> at_page (set_pg p (ppa_pg p + 1)) c l v (j * fp + (i + 1)).
Proof.
  intros Hi Hat. replace (j * fp + (i + 1)) with (j * fp + i + 1) by lia. apply at_page_next; [done|].
  pose proof (flash_page j i Hj Hi). destruct G. lia.
Qed.

Lemma count_flashpg_spec n' g f p :
  gc_st v K n' m g f -> at_page p c l v (j * fp) ->
  exists cnt, count_flashpg f p = Ok cnt /\ 0 <= cnt <= fp /\
    (cnt <= 0 -> forall i, 0 <= i < fp -> ~ valid_at (cf_ssd f) c l v (j * fp + i)).
Proof.
  intros Hst Hp. assert (Hsp : cf_sp f = spp) by (by destruct Hst as [[_ _ [] _ _ _ _ _ _] _ _ _ _ _ _]).
  destruct G. unfold count_flashpg. rewrite Hsp.
  edestruct (forO_ind (fun i '(q, k) => at_page q c l v (j * fp + i) /\ 0 <= k <= i /\
    (k <= 0 -> forall i', 0 <= i' < i -> ~ valid_at (cf_ssd f) c l v (j * fp + i')))
    0 fp (p, 0)) as ([q k] & -> & Hq & Hk & Hn); [lia| | |].
  - rewrite Z.add_0_r. split; [done|]. split; [lia|]. intros _ i'. lia.
  - intros i [q k] Hi (Hq & Hk & Hn).
    destruct (victim_page v K n' m g f q c l (j * fp + i)) as (x & -> & Hx & Hval);
      [done..|by apply flash_in_page|done|done|].
    cbn [obind]. rewrite (proj2 (Z.eqb_neq _ _) Hx). cbn [negb].
    eexists (_, _). split; [reflexivity|]. cbn beta iota. split; [by apply flash_next|].
    destruct (Z.eqb_spec (pg_status x) PG_VALID) as [E|E].
    + assert (Hfp : k + 1 < 2147483648) by nia. rewrite s32_id by lia. split; lia.
    + split; [lia|]. intros Hk0 i' Hi'. destruct (decide (i' = i)) as [->|]; [by rewrite <- Hval|].
      apply Hn; lia.
  - cbn [obind]. by exists k.
Qed.

Lemma copy_flashpg_spec g f h p :
  gc_st v K n m g f -> hw_ok h -> 1 <= K -> at_page p c l v (j * fp) ->
  exists f' h' g', copy_flashpg f h p = Ok (f', h') /\ gc_st v K (n + fp) m g' f' /\ hw_ok h' /\
    gc_keep f f'.
Proof.
  intros Hst Hh HK Hp. assert (Hsp : cf_sp f = spp) by (by destruct Hst as [[_ _ [] _ _ _ _ _ _] _ _ _ _ _ _]).
  unfold copy_flashpg. rewrite Hsp. pose proof (g_fp _ G) as Hfp.
  edestruct (forO_ind (fun i '(f', h', q) => at_page q c l v (j * fp + i) /\ hw_ok h' /\ gc_keep f f' /\
    exists g', gc_st v K (n + i) m g' f') 0 fp (f, h, p)) as ([[f' h'] q] & -> & Hq & Hh' & Hk & g' & Hst');
    [lia| | |].
  - rewrite !Z.add_0_r. split; [done|]. split; [done|]. split; [done|]. by exists g.
  - intros i [[f1 h1] q] Hi (Hq & Hh1 & Hk1 & g1 & Hst1).
    pose proof (flash_in_page i Hi) as Hip. pose proof (gidx_flash c l j i Hi) as Hgi. fold n in Hgi.
    pose proof (at_page_ok _ _ _ _ _ Hq Hip Hv) as Hqok.
    destruct (victim_page v K (n + i) m g1 f1 q c l (j * fp + i)) as (x & -> & _ & Hval); [done..|].
    cbn [obind]. pose proof (flash_next q i Hi Hq) as Hnx.
    destruct Hq as [(Ec & El & Eb & Ep) Hpl].
    destruct (Z.eqb_spec (pg_status x) PG_VALID) as [E|E].
    + destruct (gc_write_page_spec v K (n + i) m g1 f1 h1 q) as (f2 & h2 & g2 & -> & Hst2 & Hh2 & Hk2 & _);
        [done..|by rewrite <- Ec, <- El, <- Ep|by rewrite <- Ec, <- El, <- Ep; apply Hval|].
      cbn [obind]. eexists (_, _, _). split; [reflexivity|]. cbn beta iota. split; [done|]. split; [done|].
      split; [by etransitivity|]. exists g2. by replace (n + (i + 1)) with (n + i + 1) by lia.
    + cbn [obind]. eexists (_, _, _). split; [reflexivity|]. cbn beta iota. split; [done|]. split; [done|].
      split; [done|]. eexists. replace (n + (i + 1)) with (n + i + 1) by lia.
      apply (gc_skip v K (n + i) m g1 f1 Hst1). intros c' l' pg' Hp' Hg'. rewrite <- Hgi in Hg'.
      destruct (gidx_inj _ _ _ _ _ _ Hp' Hip Hg') as (-> & -> & ->). by rewrite <- Hval.
  - cbn [obind]. exists f', h', g'. done.
Qed.

(** No page of the flash page is valid. *)
Lemma skip_flashpg g f :
  gc_st v K n m g f -> (forall i, 0 <= i < fp -> ~ valid_at (cf_ssd f) c l v (j * fp + i)) ->
  exists g', gc_st v K (n + fp) m g' f.
Proof.
  intros Hst Hn. pose proof (g_fp _ G) as Hfp.
  edestruct (forO_ind (fun i (_ : unit) => exists g', gc_st v K (n + i) m g' f) 0 fp tt (fun s _ => Ok s))
    as ([] & _ & H1); [lia| | |exact H1].
  - rewrite Z.add_0_r. by exists g.
  - intros i [] Hi (g1 & Hst1). exists tt. split; [done|]. eexists.
    replace (n + (i + 1)) with (n + i + 1) by lia. apply (gc_skip v K (n + i) m g1 f Hst1).
    intros c' l' pg' Hp' Hg'. pose proof (flash_in_page i Hi) as Hip.
    pose proof (gidx_flash c l j i Hi) as Hgi. fold n in Hgi. rewrite <- Hgi in Hg'.
    destruct (gidx_inj _ _ _ _ _ _ Hp' Hip Hg') as (-> & -> & ->). by apply Hn.
Qed.

Lemma clean_one_flashpg_spec g f h p :
  gc_st v K n m g f -> hw_ok h -> 1 <= K -> at_page p c l v (j * fp) ->
  exists f' h' g', clean_one_flashpg f h p = Ok (f', h') /\ gc_st v K (n + fp) m g' f' /\ hw_ok h' /\
    gc_keep f f'.
Proof.
  intros Hst Hh HK Hp. assert (Hsp : cf_sp f = spp) by (by destruct Hst as [[_ _ [] _ _ _ _ _ _] _ _ _ _ _ _]).
  pose proof (g_fp _ G) as Hfp. unfold clean_one_flashpg.
  destruct (count_flashpg_spec n g f p Hst Hp) as (k & -> & Hk & Hno). cbn [obind].
  destruct (Z.leb_spec k 0) as [Hk0|Hk0].
  { destruct (skip_flashpg g f Hst (Hno Hk0)) as (g' & Hst'). by exists f, h, g'. }
  destruct (enable_gc_delay (cf_cp f)); [|cbn [obind]; by apply copy_flashpg_spec with (g := g)].
  assert (Hx : 0 < u64 (imul (pgsz spp) k) < 18446744073709551616).
  { pose proof (g_pgsz _ G). pose proof (g_flashpage _ G). unfold imul.
    assert (0 < pgsz spp * k <= pgsz spp * fp) by nia. rewrite s32_id, u64_id by lia. lia. }
  rewrite Hsp.
  destruct (gc_advance v K n m g f h (mk_nand_cmd GC_IO NAND_READ (u64 (imul (pgsz spp) k)) 0 false p) Hst Hh)
    as (t & s & h1 & -> & Hst1 & Hh1 & _).
  { apply (ppa_cmd_in_range spp); [done| |done|by left].
    apply (at_page_ok p c l v (j * fp)); [done| |done].
    rewrite <- (Z.add_0_r (j * fp)). apply flash_in_page. lia. }
  cbn [obind]. destruct (copy_flashpg_spec g (set_ssd f s) h1 p Hst1 Hh1 HK Hp) as (f' & h' & g' & E & H1 & H2 & H3).
  exists f', h', g'. split; [done|]. split; [done|]. split; [done|].
  etransitivity; [apply gc_keep_ssd|exact H3].
Qed.

End FlashPage.

End Gc.
