(* ===== verification/ConvErase.v ===== *)
(** * ConvErase: erasing the blocks of the victim line

    [mark_block_free] and the loops of [do_gc]: once the last flash page of a
    block has been copied, the block is erased; after the loops every block of
    the line has been. *)
From stdpp Require Import base list numbers gmap.
From Stdlib Require Import ZArith Lia.
From S2P Require Import Prelude Pqueue ChannelModel SsdConfig Ssd SsdFacts ConvGeom ConvNand.
From S2P Require Import Nvme Lines PqueueSpec ConvFtl ConvLines ConvInv ConvWrite ConvGc.

Open Scope Z_scope.
Open Scope nvmev_scope.

Section Erase.
Variable spp : ssdparams.
Variable L : Z.
Context `{ClockRange}.
Context (G : geom_ok spp).

Notation ppl := (pgs_per_line spp).
Notation in_line := (in_line spp).
Notation in_page := (in_page spp).
Notation gidx := (gidx spp).
Notation ftl_inv := (ftl_inv spp L).
Notation gc_st := (gc_st spp L).
Notation fp := (pgs_per_flashpg spp).

(** The block [c], [l], [b] has been erased and nothing else has changed. *)
Record blk_freed (s s' : ssd) (c l b : Z) : Prop := {
  bf_ok : nand_ok spp s';
  bf_blk : forall pg, 0 <= pg < pgs_per_blk spp -> status_at s' c l b pg = Some PG_FREE;
  bf_other : forall c' l' b' pg, ~ (c' = c /\ l' = l /\ b' = b) ->
    status_at s' c' l' b' pg = status_at s c' l' b' pg;
  bf_vpc : forall b' cl, b' <> b -> vpc_at s' b' cl = vpc_at s b' cl;
}.

(** The loop over the pages of a block. *)
Lemma free_pages blk :
  blk_ok spp blk ->
  exists pgs, forO 0 (pgs_per_blk spp) (nb_pg blk) (fun pgs i =>
      let* pg := nthZ pgs i in
      ASSERT! pg_nsecs pg =? secs_per_pg spp;
      updZ pgs i (set_pg_status pg PG_FREE)) = Ok pgs /\
    Z.of_nat (length pgs) = pgs_per_blk spp /\
    forall i p, pgs !! i = Some p -> pg_nsecs p = secs_per_pg spp /\ pg_status p = PG_FREE.
Proof.
  intros [Hlen _ Hpages _ _]. destruct G.
  edestruct (forO_ind (fun i (pgs : list nand_page) => Z.of_nat (length pgs) = pgs_per_blk spp /\
    forall k p, pgs !! k = Some p -> pg_nsecs p = secs_per_pg spp /\ (Z.of_nat k < i -> pg_status p = PG_FREE))
    0 (pgs_per_blk spp) (nb_pg blk)) as (pgs & -> & Hl & Hp); [lia| | |].
  - split; [done|]. intros k p Hk. split; [by eapply Hpages|lia].
  - intros i pgs Hi (Hl & Hp). destruct (nthZ_in_range pgs i) as [x Hx]; [lia|].
    rewrite Hx. cbn [obind]. apply nthZ_Ok in Hx as [_ Hx]. destruct (Hp _ _ Hx) as [Hn _].
    rewrite Hn, Z.eqb_refl. rewrite updZ_Ok by lia.
    eexists. split; [reflexivity|]. split; [by rewrite length_insert|].
    intros k p [(Ek & <- & _)|[Hne Hk]]%list_lookup_insert_Some; [done|].
    destruct (Hp _ _ Hk) as [H1 H2]. split; [done|]. intros Hlt. apply H2. lia.
  - exists pgs. split; [done|]. split; [done|]. intros i p Hi. destruct (Hp _ _ Hi) as [H1 H2].
    split; [done|]. apply H2. apply lookup_lt_Some in Hi. lia.
Qed.

Lemma mark_block_free_spec f p :
  nand_ok spp (cf_ssd f) -> ppa_ok spp p ->
  exists s, mark_block_free f p = Ok (set_ssd f s) /\
    blk_freed (cf_ssd f) s (ppa_ch p) (ppa_lun p) (ppa_blk p).
Proof.
  intros Hn Hp. destruct (nand_ok_blk spp _ p Hn Hp) as (blk & _ & Hblk & Hbok & _).
  pose proof Hn as [Hsp Hsok Hb]. destruct (free_pages blk Hbok) as (pgs & Hpgs & Hlen & Hall).
  destruct (cnt_all_free pgs) as [Hcv Hci]; [intros i x Hx; by apply (Hall i)|].
  set (b' := mk_nand_block pgs (pgs_per_blk spp) 0 0 (s32 (nb_erase_cnt blk + 1)) (nb_wp blk)).
  assert (Hb' : blk_ok spp b').
  { split; simpl; [done|done| |done|done]. intros i x Hx. destruct (Hall _ _ Hx) as [H1 H2].
    split; [done|by left]. }
  unfold mark_block_free. assert (Hsp' : cf_sp f = spp) by done. cbv zeta. rewrite !Hsp'.
  edestruct (with_blk_spec (cf_ssd f) p) as (s & -> & Es & Epf & Elt & Ebl);
    [exact Hblk|cbn beta; rewrite Hpgs; cbn [obind]; rewrite (bo_npgs _ _ Hbok), Z.eqb_refl; reflexivity|].
  cbn [obind]. exists s. split; [done|].
  pose proof Hp as [[Hc [Hl _]] Hbl Hpl]. rewrite Hpl in Ebl. split.
  - split; [congruence|by apply (ssd_ok_same (cf_ssd f))|]. intros c l b Hc' Hl' Hb0. rewrite Ebl.
    destruct ((c =? ppa_ch p) && (l =? ppa_lun p) && (0 =? 0) && (b =? ppa_blk p)); [|by apply Hb].
    eexists. split; [done|]. exact Hb'.
  - intros pg Hpg. unfold status_at. rewrite Ebl, !Z.eqb_refl. simpl.
    destruct (nthZ_in_range pgs pg) as [x Hx]; [lia|]. pose proof Hx as Hx'.
    apply nthO_nthZ in Hx. rewrite Hx. simpl. f_equal. apply nthZ_Ok in Hx' as [_ Hx'].
    by apply (Hall _ _ Hx').
  - intros c l b pg Hne. unfold status_at. rewrite Ebl.
    destruct (Z.eqb_spec c (ppa_ch p)), (Z.eqb_spec l (ppa_lun p)), (Z.eqb_spec b (ppa_blk p)); simpl; try done.
    by destruct Hne.
  - intros b [c l] Hne. unfold vpc_at. simpl. rewrite Ebl, (proj2 (Z.eqb_neq b (ppa_blk p)) Hne).
    by rewrite andb_false_r.
Qed.

(** A line without valid pages counts none. *)
Lemma free_line_sum s v :
  nand_ok spp s -> in_line v ->
  (forall c l pg, in_page c l pg -> status_at s c l v pg = Some PG_FREE) -> sum_vpc spp s v = 0.
Proof.
  intros [_ _ Hb] Hv Hs. unfold sum_vpc.
  rewrite (sumZ_map_ext _ (fun _ => 0)).
  - induction (all_luns spp); simpl; lia.
  - intros [c l] [Hc Hl]%elem_of_all_luns. destruct (Hb c l v Hc Hl Hv) as (blk & Hblk & Hok).
    unfold vpc_at. simpl. rewrite Hblk. simpl. rewrite (bo_vpc _ _ Hok).
    apply cnt_all_free. intros i p Hi. specialize (Hs c l (Z.of_nat i)).
    pose proof (lookup_lt_Some _ _ _ Hi). ospecialize (Hs _); [split; [done|split; [done|]]|].
    { rewrite <- (bo_len _ _ Hok). lia. }
    unfold status_at in Hs. rewrite Hblk in Hs. simpl in Hs. unfold nthO in Hs.
    rewrite (proj2 (Z.leb_le 0 _)), Nat2Z.id, Hi in Hs by lia. simpl in Hs. congruence.
Qed.

Lemma lm_ok_sums rl fl sv sv' m :
  lm_ok spp rl fl sv m -> (forall b, in_line b -> rl b <> RClean -> sv' b = sv b) ->
  lm_ok spp rl fl sv' m.
Proof.
  intros [H1 H2 H3 H4 H5 H6 H7 H8 H9] He. split; try done.
  intros b Hb. destruct (H2 b Hb) as (l & Hl & [? ? ? ? ? ? ? ? ? ?]). exists l. split; [done|].
  split; try done. intros Hr. rewrite He by done. auto.
Qed.

(** A block whose pages have all moved is erased. *)
Lemma gc_freed v K n m g f s c l :
  gc_st v K n m g f -> in_line v -> 0 <= c < nchs spp -> 0 <= l < luns_per_ch spp ->
  m = c * luns_per_ch spp + l -> (forall pg, in_page c l pg -> gidx c l pg < n) ->
  blk_freed (cf_ssd f) s c l v ->
  gc_st v K n (m + 1)
    (mk_ghost (gh_role g) (gh_fill g) (gh_vic g) (gh_hole g) (gh_pend g) (gh_dead g) (m + 1))
    (set_ssd f s).
Proof.
  intros [Hi Hho Hpe Hvi Hde Hfr Hro] Hv Hc Hl Hm Hdead [Fok Fblk Foth Fvpc].
  pose proof Hi as [_ T N F Lm U GC V [M1 M2 M3 M4]]. split; try done.
  apply ftl_inv_wps; try done.
  - intros c' l' b pg Hp Hb. unfold page_free. simpl.
    destruct (decide (gh_role g b = RClean)) as [Er|Er].
    + assert (b = v) as ->. { apply V in Er; [|done]. congruence. }
      destruct (decide (c' = c /\ l' = l)) as [[-> ->]|Hne].
      * destruct Hp as (_ & _ & Hpg). rewrite Fblk by done. split; [lia|done].
      * rewrite Foth by tauto. rewrite F by done. unfold page_free. rewrite decide_True by done. rewrite Hfr.
        assert (c' * luns_per_ch spp + l' <> m); [|lia].
        intros E. apply Hne. destruct Hp as (_ & Hl' & _).
        apply (radix_inj _ _ _ _ (luns_per_ch spp)); [done|done|congruence].
    + assert (b <> v). { intros ->. apply Er. by apply V. }
      rewrite Foth by tauto. rewrite F by done. unfold page_free. by rewrite decide_False.
  - apply (lm_ok_sums _ _ (sum_vpc spp (cf_ssd f))); [done|]. intros b Hb Hr.
    assert (b <> v). { intros ->. apply Hr. by apply V. }
    apply sumZ_map_ext. intros cl _. by apply Fvpc.
  - intros io Hio. by destruct (fi_wp spp L g f io Hi Hio).
  - split; try done.
    + intros x q Hq Hqu Hx. destruct (M3 x q Hq Hqu Hx) as (H1 & H2 & H3 & H4 & H5).
      split; [done|]. split; [done|]. split; [|done]. unfold valid_at. simpl. rewrite Foth; [done|].
      intros (E1 & E2 & E3). apply H4. split; [apply V; [by destruct H2|congruence]|].
      rewrite E1, E2, Hde. apply Hdead. rewrite <- E1, <- E2. by destruct H2.
    + intros c' l' b pg Hp Hb Hval Hd. apply M4; try done. unfold valid_at in *.
      destruct (decide (c' = c /\ l' = l /\ b = v)) as [(-> & -> & ->)|Hne]; [|by rewrite <- Foth].
      destruct Hp as (_ & _ & Hpg). simpl in Hval. rewrite Fblk in Hval by done. done.
Qed.

Lemma with_lun_gc_spec s p :
  ssd_ok s -> 0 <= ppa_ch p < nchs (sp s) -> 0 <= ppa_lun p < luns_per_ch (sp s) ->
  exists s', with_lun s p (fun l => Ok (set_nl_gc l (nl_next_lun_avail_time l))) = Ok s' /\
    ssd_ok s' /\ nand_equiv s s'.
Proof.
  intros [Hp Ht] Hc Hl. destruct (Ht _ _ Hc Hl) as (t0 & (lun & Hlun & Et)%fmap_Some & Ht0).
  destruct (with_lun_spec s p (fun l => Ok (set_nl_gc l (nl_next_lun_avail_time l))) lun _ Hlun eq_refl)
    as (s' & -> & Hsp & Hpf & Hl').
  exists s'. split; [done|]. split; [split|].
  - intros c. rewrite Hpf, Hsp. apply Hp.
  - intros c l. rewrite Hsp. intros Hc1 Hl1. unfold ltime_at. rewrite Hl'.
    destruct ((c =? ppa_ch p) && (l =? ppa_lun p)); [|by apply Ht]. exists t0. split; [by rewrite Et|done].
  - apply nand_equiv_luns; [done|]. intros c l. rewrite Hl'.
    destruct (Z.eqb_spec c (ppa_ch p)), (Z.eqb_spec l (ppa_lun p)); simpl; try done. subst. by rewrite Hlun.
Qed.

(** ** The loops of the collector *)
Section Copy.
Variables (v K : Z).
Context (Hv : in_line v) (HK : 1 <= K).

(** The progress of the loops before the flash page [j] of LUN [l] of channel
    [c]: how many pages are dead and how many blocks are erased. *)
Definition visited (j c l : Z) : Z := ((j * nchs spp + c) * luns_per_ch spp + l) * fp.
Definition erased (j c l : Z) : Z :=
  if j =? flashpgs_per_blk spp - 1 then c * luns_per_ch spp + l else 0.

Definition copy_st (f0 : conv_ftl) (n m : Z) (f : conv_ftl) (h : hw) (p : Z) : Prop :=
  (exists g, gc_st v K n m g f) /\ hw_ok h /\ gc_keep f0 f /\ ppa_blk p = v.

Lemma set_lun_at p j c l :
  0 <= c < nchs spp -> 0 <= l < luns_per_ch spp -> ppa_blk p = v -> ppa_pg p = j * fp ->
  at_page (set_pl (set_lun (set_ch p c) l) 0) c l v (j * fp).
Proof.
  intros Hc Hl Hb Hp. destruct G. unfold at_page, same_page. autorewrite with ppa.
  rewrite !u8_id by lia. by rewrite Hb, Hp.
Qed.

Lemma gc_one_lun_spec f0 f h p j c l :
  0 <= j < flashpgs_per_blk spp -> 0 <= c < nchs spp -> 0 <= l < luns_per_ch spp ->
  copy_st f0 (visited j c l) (erased j c l) f h p -> ppa_pg p = j * fp ->
  exists f' h' p', gc_one_lun j c l f h p = Ok (f', h', p') /\
    copy_st f0 (visited j c (l + 1)) (erased j c (l + 1)) f' h' p' /\ ppa_pg p' = j * fp.
Proof.
  intros Hj Hc Hl ((g & Hst) & Hh & Hk & Hb) Hpg. unfold gc_one_lun.
  pose proof (set_lun_at p j c l Hc Hl Hb Hpg) as Hat. set (p' := set_pl _ _) in *.
  assert (Hvis : visited j c (l + 1) = visited j c l + fp) by (unfold visited; ring).
  assert (Hm : erased j c l <= c * luns_per_ch spp + l)
    by (unfold erased; destruct G; destruct (_ =? _); nia).
  destruct (clean_one_flashpg_spec spp L G v K (erased j c l) j c l Hv Hj Hc Hl Hm g f h p' Hst Hh HK Hat)
    as (f1 & h1 & g1 & -> & Hst1 & Hh1 & Hk1).
  cbn [obind]. fold (visited j c l) in Hst1. rewrite <- Hvis in Hst1.
  assert (Hsp1 : cf_sp f1 = spp) by (by destruct Hst1 as [[_ _ [] _ _ _ _ _ _] _ _ _ _ _ _]).
  pose proof Hat as [(Ec & El & Eb & Ep) Epl]. rewrite Hsp1.
  destruct (Z.eqb_spec j (flashpgs_per_blk spp - 1)) as [Ej|Ej].
  2: { exists f1, h1, p'. split; [done|]. split; [|done]. split; [|split; [done|split; [|done]]].
       - exists g1. replace (erased j c (l + 1)) with (erased j c l); [done|]. unfold erased.
         by rewrite (proj2 (Z.eqb_neq _ _) Ej).
       - by etransitivity. }
  assert (Eer : erased j c l = c * luns_per_ch spp + l) by (unfold erased; by rewrite Ej, Z.eqb_refl).
  assert (Eer' : erased j c (l + 1) = erased j c l + 1) by (unfold erased; rewrite Ej, Z.eqb_refl; lia).
  assert (Hok : ppa_ok spp p').
  { apply (at_page_ok spp p' c l v (j * fp) Hat); [|done]. destruct G.
    rewrite <- (Z.add_0_r (j * fp)). apply flash_in_page; lia || done. }
  destruct (mark_block_free_spec f1 p') as (s & -> & Hbf); [by destruct Hst1 as [[] _ _ _ _ _ _]|done|].
  rewrite <- Ec, <- El, <- Eb in Hbf. cbn [obind].
  eapply gc_freed in Hst1; [|done|exact Hc|exact Hl|exact Eer| |exact Hbf].
  2: { intros pg Hp. rewrite Hvis. unfold visited. rewrite Ej. by apply gidx_block. }
  rewrite <- Eer' in Hst1. set (g2 := mk_ghost _ _ _ _ _ _ _) in Hst1. set (f2 := set_ssd f1 s) in *.
  assert (Hk2 : gc_keep f0 f2) by (etransitivity; [exact Hk|]; etransitivity; [exact Hk1|by split]).
  assert (Her : exists s3 h3, (if enable_gc_delay (cf_cp f2) then
      let* (_, f, h) := conv_advance_nand f2 h1 (mk_nand_cmd GC_IO NAND_ERASE 0 0 false p') in Ok (f, h)
      else Ok (f2, h1)) = Ok (set_ssd f2 s3, h3) /\
      gc_st v K (visited j c (l + 1)) (erased j c (l + 1)) g2 (set_ssd f2 s3) /\ hw_ok h3).
  { destruct (enable_gc_delay (cf_cp f2)).
    - destruct (gc_advance spp L v K _ _ g2 f2 h1 (mk_nand_cmd GC_IO NAND_ERASE 0 0 false p') Hst1 Hh1)
        as (t & s3 & h3 & -> & Hst3 & Hh3 & _); [|by exists s3, h3].
      apply (ppa_cmd_in_range spp); [|done|done|by right; right; left].
      by destruct (fi_nand _ _ _ _ (gs_inv _ _ _ _ _ _ _ _ Hst1)).
    - exists s, h1. done. }
  destruct Her as (s3 & h3 & -> & Hst3 & Hh3). cbn [obind].
  pose proof (fi_nand _ _ _ _ (gs_inv _ _ _ _ _ _ _ _ Hst3)) as [Hsp3 Hs3 _]. simpl in Hsp3, Hs3.
  destruct (with_lun_gc_spec s3 p') as (s4 & E4 & Hs4 & He4);
    [done|rewrite Hsp3, <- Ec; done|rewrite Hsp3, <- El; done|].
  change (cf_ssd (set_ssd f2 s3)) with s3. rewrite E4. cbn [obind].
  exists (set_ssd f2 s4), h3, p'. split; [done|]. split; [|done]. split; [|split; [done|split; [|done]]].
  - exists g2. by apply (gc_st_equiv spp L v K _ _ g2 (set_ssd f2 s3) s4).
  - etransitivity; [exact Hk2|by split].
Qed.

Lemma gc_copy_spec g f h p :
  gc_st v K 0 0 g f -> hw_ok h -> ppa_blk p = v ->
  exists f' h' p' g', gc_copy f h p = Ok (f', h', p') /\
    gc_st v K (visited (flashpgs_per_blk spp) 0 0) (nchs spp * luns_per_ch spp) g' f' /\
    hw_ok h' /\ gc_keep f f' /\ ppa_blk p' = v.
Proof.
  intros Hst Hh Hb. assert (Hsp : cf_sp f = spp) by (by destruct Hst as [[_ _ [] _ _ _ _ _ _] _ _ _ _ _ _]).
  unfold gc_copy. rewrite Hsp. destruct (g_blk_fp _ G) as [Hfpb Hppb]. pose proof (g_pgs _ G) as Hpgs.
  pose proof (g_chs _ G) as Hchs. pose proof (g_luns _ G) as Hluns. pose proof (g_fp _ G) as Hfp.
  set (m_at := fun j => if j =? flashpgs_per_blk spp then nchs spp * luns_per_ch spp else 0).
  edestruct (forO_ind (fun j '(f', h', q) => copy_st f (visited j 0 0) (m_at j) f' h' q)
    0 (flashpgs_per_blk spp) (f, h, p)) as ([[f' h'] q] & -> & (g' & Hst') & Hh' & Hk & Hb'); [lia| | |].
  - split; [|done]. exists g. unfold visited, m_at. rewrite (proj2 (Z.eqb_neq _ _)) by lia. done.
  - intros j [[f1 h1] q] Hj Hcs.
    set (q1 := set_pg q (imul j fp)).
    assert (Hq1 : ppa_pg q1 = j * fp).
    { unfold q1, imul. pose proof (flash_page spp G j 0 Hj ltac:(lia)). autorewrite with ppa.
      rewrite s32_id, u16_id by lia. done. }
    edestruct (forO_ind (fun c '(f', h', q) => copy_st f (visited j c 0) (erased j c 0) f' h' q /\ ppa_pg q = j * fp)
      0 (nchs spp) (f1, h1, q1)) as ([[f2 h2] q2] & -> & Hcs2 & Hq2); [lia| | |].
    + split; [|done]. replace (erased j 0 0) with (m_at j).
      * destruct Hcs as (? & ? & ? & E). repeat (split; [done|]). unfold q1. autorewrite with ppa. done.
      * unfold m_at, erased. rewrite (proj2 (Z.eqb_neq _ _)) by lia. by destruct (_ =? _).
    + intros c [[f2 h2] q2] Hc (Hcs2 & Hq2).
      edestruct (forO_ind (fun l '(f', h', q) => copy_st f (visited j c l) (erased j c l) f' h' q /\ ppa_pg q = j * fp)
        0 (luns_per_ch spp) (f2, h2, q2)) as ([[f3 h3] q3] & -> & Hcs3 & Hq3); [lia|done| |].
      * intros l [[f3 h3] q3] Hl (Hcs3 & Hq3).
        destruct (gc_one_lun_spec f f3 h3 q3 j c l Hj Hc Hl Hcs3 Hq3) as (f4 & h4 & q4 & -> & H4 & H5).
        by exists (f4, h4, q4).
      * exists (f3, h3, q3). split; [done|]. split; [|done].
        replace (visited j (c + 1) 0) with (visited j c (luns_per_ch spp)) by (unfold visited; ring).
        replace (erased j (c + 1) 0) with (erased j c (luns_per_ch spp)); [done|].
        unfold erased. destruct (_ =? _); lia.
    + exists (f2, h2, q2). split; [done|].
      replace (visited (j + 1) 0 0) with (visited j (nchs spp) 0) by (unfold visited; ring).
      replace (m_at (j + 1)) with (erased j (nchs spp) 0); [done|]. unfold m_at, erased.
      destruct (Z.eqb_spec j (flashpgs_per_blk spp - 1)), (Z.eqb_spec (j + 1) (flashpgs_per_blk spp)); lia.
  - exists f', h', q, g'. split; [done|]. unfold m_at in Hst'. rewrite Z.eqb_refl in Hst'. done.
Qed.

End Copy.

End Erase.
