(* ===== verification/ConvCount.v ===== *)
(** * ConvCount: valid pages and mapped logical pages

    Between commands the valid pages of any set of lines are in bijection with
    the logical pages mapped into them.  Hence a line that the collector cleans
    holds as many mapped pages as its valid-page count, and the full lines hold
    no more pages than the host has logical pages. *)
From stdpp Require Import base list numbers gmap.
From Stdlib Require Import ZArith Lia.
From S2P Require Import Prelude Pqueue ChannelModel SsdConfig Ssd SsdFacts ConvGeom ConvNand.
From S2P Require Import Nvme Lines PqueueSpec ConvFtl ConvLines ConvInv ConvWrite ConvGc.

Open Scope Z_scope.
Open Scope nvmev_scope.

(** ** Counting by filtering *)
Lemma sumZ_indicator {A} (f : A -> bool) (l : list A) :
  sumZ (map (fun x => if f x then 1 else 0) l) = Z.of_nat (length (filter (fun x => f x = true) l)).
Proof.
  induction l as [|x l IH]; [done|]. rewrite map_cons. simpl sumZ. rewrite IH, filter_cons.
  destruct (f x); [rewrite decide_True by done; rewrite length_cons; lia|by rewrite decide_False].
Qed.

Lemma sumZ_map_scale {A} (f : A -> Z) (l : list A) k :
  (forall x, x ∈ l -> f x = k) -> sumZ (map f l) = k * Z.of_nat (length l).
Proof.
  induction l as [|x l IH]; intros H; [simpl; lia|]. simpl map. simpl sumZ. rewrite length_cons.
  rewrite IH by (intros y Hy; apply H; by right). rewrite (H x) by (by left). lia.
Qed.

Lemma length_bind_sum {A B} (f : A -> list B) (l : list A) :
  Z.of_nat (length (l ≫= f)) = sumZ (map (fun x => Z.of_nat (length (f x))) l).
Proof.
  induction l as [|x l IH]; [done|]. rewrite bind_cons, length_app. simpl. lia.
Qed.

(** The pages of a block counted by their position. *)
Lemma cnt_positions st pgs :
  cnt st pgs = Z.of_nat (length (filter (fun i => pg_status <$> nthO pgs i = Some st)
                                   (seqZ 0 (Z.of_nat (length pgs))))).
Proof.
  rewrite (list_filter_iff _ (fun i => bool_decide (pg_status <$> nthO pgs i = Some st) = true))
    by (intros i; by rewrite bool_decide_eq_true).
  rewrite <- (sumZ_indicator (fun i => bool_decide (pg_status <$> nthO pgs i = Some st))).
  unfold cnt. f_equal. rewrite <- (list_fmap_id pgs) at 1.
  apply list_eq. intros i. rewrite !list_lookup_fmap.
  destruct (pgs !! i) as [p|] eqn:Hp; simpl.
  - pose proof (lookup_lt_Some _ _ _ Hp). rewrite lookup_seqZ_lt by lia. simpl.
    replace (0 + Z.of_nat i) with (Z.of_nat i) by lia. unfold nthO.
    rewrite (proj2 (Z.leb_le 0 _)), Nat2Z.id, Hp by lia. simpl. unfold is_status.
    f_equal. destruct (Z.eqb_spec (pg_status p) st) as [->|Hne]; [by rewrite bool_decide_true|].
    rewrite bool_decide_false; [done|congruence].
  - apply lookup_ge_None in Hp. rewrite lookup_seqZ_ge by lia. done.
Qed.

Section Count.
Variable spp : ssdparams.
Variable L : Z.
Context (G : geom_ok spp).

Notation ppl := (pgs_per_line spp).
Notation in_line := (in_line spp).
Notation in_page := (in_page spp).
Notation pgidx := (pgidx spp).
Notation ftl_inv := (ftl_inv spp L).

(** ** The two sides of the bijection *)
Definition page_addr : Type := Z * (Z * Z) * Z.

Definition valid_in (s : ssd) (b : Z) (cl : Z * Z) : list page_addr :=
  (fun pg => (b, cl, pg)) <$>
    filter (fun pg => status_at s cl.1 cl.2 b pg = Some PG_VALID) (seqZ 0 (pgs_per_blk spp)).

Definition valid_pages (s : ssd) (B : list Z) : list page_addr :=
  B ≫= fun b => all_luns spp ≫= valid_in s b.

Definition mapped_in (mt : list Z) (B : list Z) (lpn : Z) : bool :=
  match nthO mt lpn with
  | Some p => negb (p =? UNMAPPED_PPA) && bool_decide (ppa_blk p ∈ B)
  | None => false
  end.

Definition mapped_lpns (mt : list Z) (B : list Z) : list Z :=
  filter (fun lpn => mapped_in mt B lpn = true) (seqZ 0 (tt_pgs spp)).

(** The logical page of a physical one. *)
Definition owner (rm : list Z) (a : page_addr) : Z :=
  let '(b, cl, pg) := a in default 0 (nthO rm (pgidx cl.1 cl.2 b pg)).

Lemma elem_of_valid_pages s B b c l pg :
  (b, (c, l), pg) ∈ valid_pages s B <-> b ∈ B /\ in_page c l pg /\ valid_at s c l b pg.
Proof.
  unfold valid_pages, valid_in. rewrite list_elem_of_bind. split.
  - intros (b' & (cl & (pg' & [= <- <- <-] & [Hs Hpg]%list_elem_of_filter)%list_elem_of_fmap & Hcl)%list_elem_of_bind & Hb).
    apply elem_of_all_luns in Hcl as [Hc Hl]. apply elem_of_seqZ in Hpg. split; [done|].
    split; [|done]. split; [done|]. split; [done|lia].
  - intros (Hb & (Hc & Hl & Hpg) & Hs). exists b. split; [|done]. apply list_elem_of_bind.
    exists (c, l). split; [|by apply elem_of_all_luns]. apply list_elem_of_fmap. exists pg. split; [done|].
    apply list_elem_of_filter. split; [done|]. apply elem_of_seqZ. lia.
Qed.

Lemma NoDup_valid_pages s B : NoDup B -> NoDup (valid_pages s B).
Proof.
  intros HB. unfold valid_pages. apply NoDup_bind.
  - intros b1 b2 a _ _ (cl1 & (? & -> & _)%list_elem_of_fmap & _)%list_elem_of_bind
      (cl2 & (? & [=] & _)%list_elem_of_fmap & _)%list_elem_of_bind. done.
  - intros b _. apply NoDup_bind.
    + intros cl1 cl2 a _ _ (? & -> & _)%list_elem_of_fmap (? & [=] & _)%list_elem_of_fmap. done.
    + intros cl _. apply NoDup_fmap_2; [by intros ? ? [= ->]|]. apply NoDup_filter, NoDup_seqZ.
    + apply NoDup_all_luns.
  - done.
Qed.

Lemma length_valid_in s b cl :
  nand_ok spp s -> in_line b -> cl ∈ all_luns spp -> Z.of_nat (length (valid_in s b cl)) = vpc_at s b cl.
Proof.
  intros [_ _ Hb] Hbl Hcl. destruct cl as [c l]. apply elem_of_all_luns in Hcl as [Hc Hl].
  destruct (Hb c l b Hc Hl Hbl) as (blk & Hblk & Hok). unfold valid_in, vpc_at, status_at. simpl.
  rewrite Hblk. simpl. rewrite length_fmap, (bo_vpc _ _ Hok), cnt_positions, (bo_len _ _ Hok). done.
Qed.

Lemma length_valid_pages s B :
  nand_ok spp s -> (forall b, b ∈ B -> in_line b) ->
  Z.of_nat (length (valid_pages s B)) = sumZ (map (sum_vpc spp s) B).
Proof.
  intros Hn HB. unfold valid_pages. rewrite length_bind_sum. apply sumZ_map_ext. intros b Hb.
  rewrite length_bind_sum. unfold sum_vpc. apply sumZ_map_ext. intros cl Hcl.
  by apply length_valid_in; auto.
Qed.

(** ** The bijection *)
Lemma owners_mapped g f B :
  ftl_inv g f -> gh_hole g = None -> gh_vic g = None -> NoDup B -> (forall b, b ∈ B -> in_line b) ->
  owner (rmap f) <$> valid_pages (cf_ssd f) B ≡ₚ mapped_lpns (maptbl f) B.
Proof.
  intros Hi Hho Hvi HN HB. pose proof Hi as [_ T N F Lm U GC V [M1 M2 M3 M4]].
  assert (Hnd : forall c l b pg, in_line b -> ~ dead_page spp g c l b pg).
  { intros c l b pg Hb [E _]. apply V in E; [|done]. congruence. }
  assert (Hown : forall b c l pg, (b, (c, l), pg) ∈ valid_pages (cf_ssd f) B ->
    exists p, nthO (maptbl f) (owner (rmap f) (b, (c, l), pg)) = Some p /\ p <> UNMAPPED_PPA /\
      same_page p c l b pg).
  { intros b c l pg (Hb & Hp & Hval)%elem_of_valid_pages.
    destruct (M4 c l b pg Hp (HB b Hb) Hval) as (lpn & p & Hr & _ & Hm & Hu & Hs); [by apply Hnd; auto|].
    exists p. unfold owner. simpl. by rewrite Hr. }
  apply NoDup_Permutation.
  - apply NoDup_fmap_2_strong; [|by apply NoDup_valid_pages].
    intros [[b [c l]] pg] [[b' [c' l']] pg'] H1 H2 E.
    destruct (Hown _ _ _ _ H1) as (p & Hp & _ & (-> & -> & -> & ->)).
    destruct (Hown _ _ _ _ H2) as (p' & Hp' & _ & (-> & -> & -> & ->)).
    rewrite E in Hp. assert (p = p') as -> by congruence. done.
  - apply NoDup_filter, NoDup_seqZ.
  - intros lpn. rewrite list_elem_of_fmap. unfold mapped_lpns. rewrite list_elem_of_filter. split.
    + intros ([[b [c l]] pg] & -> & Ha). pose proof (Hown _ _ _ _ Ha) as (p & Hp & Hu & Hs).
      apply elem_of_valid_pages in Ha as (Hb & _). split.
      * unfold mapped_in. rewrite Hp, (proj2 (Z.eqb_neq _ _) Hu). destruct Hs as (_ & _ & <- & _).
        by rewrite bool_decide_true.
      * apply elem_of_seqZ. apply nthO_nthZ, nthZ_range in Hp. lia.
    + intros [Hm Hl]. unfold mapped_in in Hm. destruct (nthO (maptbl f) lpn) as [p|] eqn:Hp; [|done].
      apply andb_true_iff in Hm as [Hu Hb]. apply negb_true_iff, Z.eqb_neq in Hu.
      apply bool_decide_eq_true in Hb.
      destruct (M3 lpn p Hp Hu) as (_ & Hok & Hval & _ & Hr); [congruence|].
      exists (ppa_blk p, (ppa_ch p, ppa_lun p), ppa_pg p). split.
      * unfold owner. simpl. unfold ppa_idx in Hr. by rewrite Hr.
      * apply elem_of_valid_pages. split; [done|]. by destruct Hok.
Qed.

Lemma count_mapped g f B :
  ftl_inv g f -> gh_hole g = None -> gh_vic g = None -> NoDup B -> (forall b, b ∈ B -> in_line b) ->
  sumZ (map (sum_vpc spp (cf_ssd f)) B) = Z.of_nat (length (mapped_lpns (maptbl f) B)).
Proof.
  intros Hi Hho Hvi HN HB. rewrite <- (owners_mapped g f B) by done. rewrite length_fmap.
  symmetry. apply length_valid_pages; [by destruct Hi|done].
Qed.

Lemma in_victim_count g f v :
  ftl_inv g f -> gh_hole g = None -> gh_vic g = None -> in_line v ->
  in_victim spp (maptbl f) v = sum_vpc spp (cf_ssd f) v.
Proof.
  intros Hi Hho Hvi Hv. pose proof (count_mapped g f [v] Hi Hho Hvi) as Hc.
  simpl in Hc. rewrite Z.add_0_r in Hc. rewrite Hc.
  - unfold in_victim, mapped_lpns. rewrite <- sumZ_indicator. apply sumZ_map_ext. intros lpn _.
    unfold maps_into, mapped_in. destruct (nthO _ _) as [p|]; [|done]. destruct (p =? UNMAPPED_PPA); [done|].
    simpl. destruct (Z.eqb_spec (ppa_blk p) v) as [->|Hne]; [rewrite bool_decide_true; set_solver|].
    rewrite bool_decide_false; [done|set_solver].
  - apply NoDup_singleton.
  - intros b. by intros ->%list_elem_of_singleton.
Qed.

(** The lines of [B] cannot hold more valid pages than there are logical pages. *)
Lemma valid_bound g f B :
  ftl_inv g f -> gh_hole g = None -> gh_vic g = None -> NoDup B -> (forall b, b ∈ B -> in_line b) ->
  0 <= L -> sumZ (map (sum_vpc spp (cf_ssd f)) B) <= L.
Proof.
  intros Hi Hho Hvi HN HB HL. rewrite (count_mapped g f B) by done.
  assert (Hle : (length (mapped_lpns (maptbl f) B) <= length (seqZ 0 L))%nat).
  { apply submseteq_length, NoDup_submseteq; [apply NoDup_filter, NoDup_seqZ|].
    intros lpn [Hm Hl]%list_elem_of_filter. apply elem_of_seqZ. unfold mapped_in in Hm.
    destruct (nthO (maptbl f) lpn) as [p|] eqn:Hp; [|done].
    apply andb_true_iff in Hm as [Hu _]. apply negb_true_iff, Z.eqb_neq in Hu.
    destruct (mo_fwd _ _ _ _ _ _ (fi_map _ _ _ _ Hi) lpn p Hp Hu) as (? & _); [congruence|]. lia. }
  rewrite length_seqZ in Hle. lia.
Qed.

End Count.
