(* ===== verification/ConvCollect.v ===== *)
(** * ConvCollect: the collection of a line and the collection loop

    [do_gc] cleans the best victim and returns it to the free list; the loop at
    the end of [conv_proc_nvme_io_cmd] repeats it until enough lines are free.
    A victim exists as long as the host has fewer logical pages than the lines
    beyond the threshold hold, and every collection adds at least one page to
    the room of the collector, so the loop ends. *)
From stdpp Require Import base list numbers gmap.
From Stdlib Require Import ZArith Lia.
From S2P Require Import Prelude Pqueue ChannelModel SsdConfig Ssd SsdFacts ConvGeom ConvNand.
From S2P Require Import Nvme Lines PqueueSpec ConvFtl ConvLines ConvInv ConvWrite ConvGc.
From S2P Require Import ConvErase ConvCount.

Open Scope Z_scope.
Open Scope nvmev_scope.

Section Collect.
Variable spp : ssdparams.
Variable L : Z.
Context `{ClockRange}.
Context (G : geom_ok spp).

Notation ppl := (pgs_per_line spp).
Notation in_line := (in_line spp).
Notation in_page := (in_page spp).
Notation gidx := (gidx spp).
Notation ftl_inv := (ftl_inv spp L).
Notation gc_st := (gc_st spp L).
Notation idle := (idle spp L).
Notation room := (room spp).

Definition nfree (f : conv_ftl) : Z := Z.of_nat (length (free_line_list (cf_lm f))).

Lemma gidx_nonneg c l pg : in_page c l pg -> 0 <= gidx c l pg.
Proof.
  intros (Hc & Hl & Hp). destruct G. unfold ConvInv.gidx.
  pose proof (Z.mod_pos_bound pg _ g_fp). assert (0 <= pg / pgs_per_flashpg spp) by (apply Z.div_pos; lia). nia.
Qed.

(** ** Choosing the victim *)

(** Taking the victim [v] out of the queue starts a collection. *)
Lemma start_collection g f q v ls' q' w k :
  ftl_inv g f -> gh_hole g = None -> gh_pend g = None -> gh_vic g = None ->
  in_line v -> gh_role g v = RVictim ->
  let m := set_victim (cf_lm f) ls' q' (u32 (victim_line_cnt (cf_lm f) - 1)) in
  victim_line_pq (cf_lm f) = Some q ->
  lm_ok spp (upd (gh_role g) v RClean) (gh_fill g) (sum_vpc spp (cf_ssd f)) m ->
  gc_st v (room GC_IO f - in_victim spp (maptbl f) v) 0 0
    (mk_ghost (upd (gh_role g) v RClean) (gh_fill g) (Some v) None None 0 0)
    (set_wfc (set_gc_cnt (set_lm f m) k) w).
Proof.
  intros Hi Hho Hpe Hvi Hv Hr m Hq Hm. pose proof Hi as [_ T N F Lm U GC V [M1 M2 M3 M4]].
  destruct (lk_line _ _ _ _ _ Lm v Hv) as (l & Hl & Hok).
  pose proof (lo_used _ _ _ _ _ _ Hok ltac:(by right)) as Hfill.
  assert (Hnc : forall b, in_line b -> gh_role g b <> RClean).
  { intros b Hb E. apply V in E; [|done]. congruence. }
  split; try done. apply ftl_inv_wps; try done.
  - intros c l' b pg Hp Hb. rewrite F by done. unfold page_free. simpl.
    rewrite (decide_False (P := gh_role g b = RClean)) by (by apply Hnc).
    destruct (decide (b = v)) as [->|Hne].
    + rewrite decide_True by (by rewrite upd_eq). rewrite Hfill.
      pose proof (idx_range spp G _ _ _ Hp). destruct Hp as (? & ? & _). destruct G. split; [lia|]. nia.
    + rewrite decide_False by (rewrite upd_ne by done; by apply Hnc). done.
  - intros io Hio. pose proof (fi_wp spp L g f io Hi Hio) as [Oc Ol Op Opg Of Or]. split; try done.
    + unfold pend in *. rewrite Hpe in Of. exact Of.
    + intros b Hb. simpl. destruct (decide (b = v)) as [->|Hne]; [|rewrite upd_ne by done; by apply Or].
      rewrite upd_eq. rewrite <- Or, Hr by done. by destruct Hio as [-> | ->].
  - intros b Hb. simpl. destruct (decide (b = v)) as [->|Hne]; [by rewrite upd_eq|].
    rewrite upd_ne by done. split; [intros E; by apply Hnc in E|congruence].
  - split; try done.
    + intros lpn p Hp Hu Hh. destruct (M3 lpn p Hp Hu) as (H1 & H2 & H3 & H4 & H5); [congruence|].
      repeat (split; [done|]). split; [|done]. intros [_ E]. simpl in E. destruct H2 as [Hip _ _].
      pose proof (gidx_nonneg _ _ _ Hip). lia.
    + intros c l' b pg Hp Hb Hval _. destruct (M4 c l' b pg Hp Hb Hval) as (lpn & p & H1 & H2 & H3).
      { intros [E _]. by apply Hnc in E. }
      exists lpn, p. done.
Qed.

(** Every page of the victim is dead and erased: the line is free again. *)
Lemma end_collection v K n g f :
  gc_st v K n (nchs spp * luns_per_ch spp) g f -> in_line v ->
  (forall c l pg, in_page c l pg -> gidx c l pg < n) ->
  exists f' g', (forall p, ppa_blk p = v -> mark_line_free f p = Ok f') /\ ftl_inv g' f' /\
    gh_hole g' = None /\ gh_pend g' = None /\ gh_vic g' = None /\ gc_keep f f' /\
    room GC_IO f' = K + ppl /\ nfree f' = nfree f + 1.
Proof.
  intros [Hi Hho Hpe Hvi Hde Hfr Hro] Hv Hall. pose proof Hi as [_ T N F Lm U GC V [M1 M2 M3 M4]].
  assert (Hrv : gh_role g v = RClean) by (by apply V).
  assert (Hst : forall c l pg, in_page c l pg -> status_at (cf_ssd f) c l v pg = Some PG_FREE).
  { intros c l pg Hp. apply F; [done|done|]. unfold page_free. rewrite decide_True by done. rewrite Hfr.
    destruct Hp as (? & ? & _). nia. }
  pose proof (free_line_sum spp _ v N Hv Hst) as Hsum.
  assert (Hin : in_victim spp (maptbl f) v = 0).
  { unfold in_victim. rewrite (sumZ_map_ext _ (fun _ => 0)); [by rewrite (sumZ_map_scale _ _ 0)|].
    intros lpn _. unfold maps_into. destruct (nthO (maptbl f) lpn) as [p|] eqn:Hp; [|done].
    destruct (Z.eqb_spec p UNMAPPED_PPA) as [|Hu]; [done|]. destruct (Z.eqb_spec (ppa_blk p) v) as [E|]; [|done].
    destruct (M3 lpn p Hp Hu) as (_ & Hok & Hval & _); [congruence|]. destruct Hok as [Hip _ _].
    unfold valid_at in Hval. rewrite E, Hst in Hval by done. done. }
  destruct (lm_mark_free spp G _ _ _ _ v Lm Hv Hrv) as (ls & Els & Lm').
  set (m := set_free (set_lines (cf_lm f) ls) (free_line_list (cf_lm f) ++ [v]) (u32 (free_line_cnt (cf_lm f) + 1))) in *.
  set (g' := mk_ghost (upd (gh_role g) v RFree) (upd (gh_fill g) v 0) None None None 0 0).
  exists (set_lm f m), g'. split.
  { intros p Hp. unfold mark_line_free, get_line. rewrite Hp, Els. done. }
  assert (Hcl : forall b, in_line b -> b <> v -> gh_role g b <> RClean).
  { intros b Hb Hne E. apply V in E; [|done]. congruence. }
  split; [|split; [done|split; [done|split; [done|split; [done|split]]]]].
  - apply ftl_inv_wps; try done.
    + intros c l b pg Hp Hb. simpl. rewrite F by done. unfold page_free. simpl.
      destruct (decide (b = v)) as [->|Hne].
      * rewrite decide_True by done. rewrite decide_False by (by rewrite upd_eq). rewrite upd_eq, Hfr.
        pose proof (idx_range spp G _ _ _ Hp). destruct Hp as (? & ? & _). split; [lia|]. intros _. nia.
      * rewrite (decide_False (P := gh_role g b = RClean)) by (by apply Hcl).
        rewrite decide_False by (rewrite upd_ne by done; by apply Hcl). by rewrite upd_ne.
    + eapply lm_ok_ext; [exact Lm'|]. intros b Hb. split; [done|]. split; [done|]. simpl.
      destruct (decide (b = v)) as [->|Hne]; [by rewrite upd_eq|by rewrite upd_ne].
    + intros io Hio. pose proof (fi_wp spp L g f io Hi Hio) as [Oc Ol Op Opg Of Or].
      assert (Hne : wp_blk (wp_of io f) <> v).
      { intros E. pose proof (proj2 (Or _ Ol) eq_refl) as Er. rewrite E, Hrv in Er. by destruct Hio as [-> | ->]. }
      split; try done.
      * simpl. rewrite upd_ne by done. unfold pend in *. rewrite Hpe in Of. exact Of.
      * intros b Hb. simpl. destruct (decide (b = v)) as [->|Hnv]; [|rewrite upd_ne by done; by apply Or].
        rewrite upd_eq, <- Or, Hrv by done. by destruct Hio as [-> | ->].
    + intros b Hb. simpl. destruct (decide (b = v)) as [->|Hne]; [by rewrite upd_eq|].
      rewrite upd_ne by done. split; [intros E; by apply Hcl in E|congruence].
    + split; try done.
      * intros lpn p Hp Hu _. destruct (M3 lpn p Hp Hu) as (H1 & H2 & H3 & H4 & H5); [congruence|].
        repeat (split; [done|]). split; [|done]. intros [_ E]. simpl in E. destruct H2 as [Hip _ _].
        pose proof (gidx_nonneg _ _ _ Hip). lia.
      * intros c l b pg Hp Hb Hval _. destruct (decide (b = v)) as [->|Hne].
        { unfold valid_at in Hval. simpl in Hval. by rewrite Hst in Hval. }
        destruct (M4 c l b pg Hp Hb Hval) as (lpn & p & H1 & H2 & H3); [by intros [E _]; apply Hcl in E|].
        exists lpn, p. done.
  - unfold ConvInv.room in *. simpl. rewrite length_app. simpl. rewrite Hin in Hro. simpl in Hro. lia.
  - unfold nfree. simpl. rewrite length_app. simpl. lia.
Qed.

(** ** One collection *)
Definition has_victim (f : conv_ftl) : Prop :=
  exists q, victim_line_pq (cf_lm f) = Some q /\ 2 <= pq_size q.

Lemma room_lower g f io :
  ftl_inv g f -> io_ok io -> ppl * nfree f + 1 <= room io f <= ppl * nfree f + ppl.
Proof.
  intros Hi Hio. pose proof (fi_wp spp L g f io Hi Hio) as [_ _ _ Wp _ _].
  pose proof (idx_range spp G _ _ _ Wp). unfold ConvInv.room, nfree, wp_idx.
  unfold wp_of in *. lia.
Qed.

Lemma do_gc_step ppa0 f h :
  idle f -> hw_ok h -> 1 <= nfree f -> has_victim f ->
  exists f' h', do_gc ppa0 f h true = Ok (0, f', h') /\ idle f' /\ hw_ok h' /\ gc_keep f f' /\
    room GC_IO f + 1 <= room GC_IO f' /\ 1 <= nfree f'.
Proof.
  intros (g & Hi & Hho & Hpe & Hvi) Hh Hfree (q & Hq & Hsz).
  pose proof Hi as [_ T N F Lm U GC V M].
  destruct (lk_pq _ _ _ _ _ Lm) as (q0 & Hq0 & Hqi & _). assert (q0 = q) as -> by congruence.
  unfold do_gc, select_victim_line. rewrite Hq.
  destruct (peek_spec victim_line_cmp_pri (lm_lines (cf_lm f)) q Hqi) as [[E _]|(v & -> & _ & Hv1 & _ & _)]; [lia|].
  cbn [obind].
  destruct (lm_select_victim spp G _ _ _ (cf_lm f) q v Lm Hq Hsz Hv1)
    as (Hv & Hrv & ls1 & ls' & q' & Hpop & Halt & Lm').
  destruct (lk_line _ _ _ _ _ Lm v Hv) as (l & Hl & Hok). apply nthO_nthZ in Hl. rewrite Hl. cbn [obind negb andb].
  rewrite Hpop. cbn [obind]. rewrite Halt. cbn [obind].
  destruct (lk_line _ _ _ _ _ Lm' v Hv) as (l' & Hl' & Hok'). apply nthO_nthZ in Hl'.
  set (m := set_victim (cf_lm f) ls' (Some q') _) in *.
  set (f1 := set_gc_cnt (set_lm f m) _). change (lm_lines (cf_lm f1)) with (lm_lines m).
  rewrite Hl'. cbn [obind]. rewrite (lo_id _ _ _ _ _ _ Hok').
  set (f2 := set_wfc f1 _). set (p := set_blk ppa0 v).
  assert (Hp : ppa_blk p = v).
  { unfold p. autorewrite with ppa. unfold ConvNand.in_line in Hv. destruct G. by rewrite u16_id by lia. }
  assert (Hsum : 0 <= sum_vpc spp (cf_ssd f) v <= ppl - 1).
  { pose proof (lo_sum _ _ _ _ _ _ Hok ltac:(by rewrite Hrv)). pose proof (lo_fill _ _ _ _ _ _ Hok ltac:(by rewrite Hrv)).
    pose proof (lo_used _ _ _ _ _ _ Hok ltac:(by right)). pose proof (lo_victim _ _ _ _ _ _ Hok Hrv).
    pose proof (lo_vpc _ _ _ _ _ _ Hok). lia. }
  pose proof (in_victim_count spp L G g f v Hi Hho Hvi Hv) as Hin.
  pose proof (room_lower g f GC_IO Hi ltac:(by right)) as Hrm. pose proof (ppl_bound spp G) as Hppl.
  set (K := room GC_IO f - in_victim spp (maptbl f) v).
  assert (HK : 2 <= K) by (unfold K; nia).
  assert (Hst : gc_st v K 0 0 (mk_ghost (upd (gh_role g) v RClean) (gh_fill g) (Some v) None None 0 0) f2)
    by (by apply (start_collection g f q v ls' (Some q'))).
  destruct (gc_copy_spec spp L G v K Hv ltac:(lia) _ f2 h p Hst Hh Hp)
    as (f3 & h3 & p3 & g3 & -> & Hst3 & Hh3 & Hk3 & Hp3).
  cbn [obind].
  destruct (end_collection v K _ g3 f3 Hst3 Hv) as (f4 & g4 & Hmf & Hi4 & Hho4 & Hpe4 & Hvi4 & Hk4 & Hr4 & Hn4).
  { intros c l0 pg Hip. pose proof (gidx_block spp G c l0 pg Hip) as Hlt. destruct Hip as (Hc & Hl0 & _).
    eapply Z.lt_le_trans; [exact Hlt|]. unfold visited. destruct G.
    clear - Hc Hl0 g_fp. replace (flashpgs_per_blk spp * nchs spp + 0)
      with ((flashpgs_per_blk spp - 1) * nchs spp + c + (nchs spp - c)) by lia.
    set (x := (flashpgs_per_blk spp - 1) * nchs spp + c).
    assert (luns_per_ch spp <= (nchs spp - c) * luns_per_ch spp) by nia. nia. }
  rewrite (Hmf p3 Hp3). cbn [obind]. exists f4, h3. split; [done|].
  split; [by exists g4|]. split; [done|]. split.
  - etransitivity; [|exact Hk4]. etransitivity; [|exact Hk3]. by split.
  - split; [rewrite Hr4; unfold K; lia|]. rewrite Hn4. unfold nfree. lia.
Qed.

(** Without a victim nothing happens. *)
Lemma do_gc_no_victim ppa0 f h force :
  idle f -> ~ has_victim f -> do_gc ppa0 f h force = Ok (-1, f, h).
Proof.
  intros (g & Hi & _) Hv. pose proof Hi as [_ T N F Lm U GC V M].
  destruct (lk_pq _ _ _ _ _ Lm) as (q & Hq & Hqi & _). unfold do_gc, select_victim_line. rewrite Hq.
  unfold pqueue_peek. destruct (Z.eqb_spec (pq_size q) 1) as [E|E]; [done|].
  destruct Hv. exists q. split; [done|]. destruct (inv_wf _ _ _ Hqi). lia.
Qed.

(** ** A victim exists *)
Lemma victim_exists T f :
  idle f -> 0 <= L < (tt_lines spp - T - 2) * ppl -> nfree f <= T -> has_victim f.
Proof.
  intros (g & Hi & Hho & Hpe & Hvi) HL Hn. pose proof Hi as [_ _ N F Lm U GC V M].
  destruct (lk_pq _ _ _ _ _ Lm) as (q & Hq & Hqi & _ & Hin & _). exists q. split; [done|].
  destruct (inv_wf _ _ _ Hqi) as [Hsz _ _]. destruct (decide (pq_size q = 1)) as [E|]; [|lia]. exfalso.
  assert (Hnv : forall b, in_line b -> gh_role g b <> RVictim).
  { intros b Hb Hr. destruct (proj2 (Hin b) (conj Hb Hr)) as (j & Hj & _). lia. }
  set (full := full_line_list (cf_lm f)) in *.
  assert (Hlen : (length (seqZ 0 (blks_per_pl spp)) <=
    length (free_line_list (cf_lm f) ++ full ++ [wp_blk (cf_wp f); wp_blk (cf_gc_wp f)]))%nat).
  { apply submseteq_length, NoDup_submseteq; [apply NoDup_seqZ|]. intros b Hb%elem_of_seqZ.
    assert (Hbl : in_line b) by (unfold ConvNand.in_line; lia). rewrite !elem_of_app.
    destruct (gh_role g b) eqn:Er.
    - left. by apply (lk_free _ _ _ _ _ Lm).
    - right. left. by apply (lk_full _ _ _ _ _ Lm).
    - by apply Hnv in Er.
    - right. right. apply (wk_role _ _ _ _ _ U) in Er; [|done]. rewrite Er. by left.
    - right. right. apply (wk_role _ _ _ _ _ GC) in Er; [|done]. rewrite Er. by right; left.
    - apply V in Er; [|done]. congruence. }
  rewrite !length_app, length_seqZ in Hlen. simpl in Hlen.
  assert (Hfb : forall b, b ∈ full -> in_line b) by (intros b Hb; by apply (lk_full _ _ _ _ _ Lm)).
  pose proof (valid_bound spp L g f full Hi Hho Hvi (lk_full_nd _ _ _ _ _ Lm) Hfb ltac:(lia)) as Hvb.
  rewrite (sumZ_map_scale _ _ ppl) in Hvb.
  - pose proof (ppl_bound spp G). unfold nfree in Hn. rewrite (g_lines _ G) in HL. nia.
  - intros b Hb. apply (lk_full _ _ _ _ _ Lm) in Hb as [Hb Hr].
    destruct (lk_line _ _ _ _ _ Lm b Hb) as (l & _ & Hok).
    pose proof (lo_sum _ _ _ _ _ _ Hok ltac:(by rewrite Hr)). pose proof (lo_fill _ _ _ _ _ _ Hok ltac:(by rewrite Hr)).
    pose proof (lo_used _ _ _ _ _ _ Hok ltac:(by left)). pose proof (lo_full _ _ _ _ _ _ Hok Hr). lia.
Qed.

(** ** The loop *)
Lemma should_gc_high_nfree f :
  idle f -> should_gc_high f = (nfree f <=? gc_thres_lines_high (cf_cp f)).
Proof.
  intros (g & Hi & _). unfold should_gc_high, nfree. by rewrite (lk_free_cnt _ _ _ _ _ (fi_lm _ _ _ _ Hi)).
Qed.

Lemma gc_loop_ends T fuel : forall ppa0 f h,
  idle f -> hw_ok h -> gc_thres_lines_high (cf_cp f) = T -> 0 <= T -> 1 <= nfree f ->
  0 <= L < (tt_lines spp - T - 2) * ppl -> (T + 1) * ppl < room GC_IO f + Z.of_nat fuel ->
  exists f' h', gc_loop fuel ppa0 f h = Ok (f', h') /\ idle f' /\ hw_ok h' /\ gc_keep f f' /\
    T < nfree f' /\ room USER_IO f <= room USER_IO f'.
Proof.
  induction fuel as [|fuel IH]; intros ppa0 f h Hid Hh HT HT0 Hfree HL Hfuel; simpl gc_loop;
    rewrite should_gc_high_nfree, HT by done; destruct (Z.leb_spec (nfree f) T) as [Hle|Hgt];
    try (exists f, h; done).
  - exfalso. destruct Hid as (g & Hi & _). pose proof (room_lower g f GC_IO Hi ltac:(by right)).
    pose proof (ppl_bound spp G). nia.
  - destruct (do_gc_step ppa0 f h Hid Hh Hfree (victim_exists T f Hid HL Hle))
      as (f1 & h1 & -> & Hid1 & Hh1 & Hk1 & Hr1 & Hf1). cbn [obind].
    destruct (IH ppa0 f1 h1 Hid1 Hh1) as (f2 & h2 & E2 & Hid2 & Hh2 & Hk2 & Hf2 & _);
      [by rewrite (gk_cp _ _ Hk1)|done|done|done|lia|].
    exists f2, h2. split; [done|]. split; [done|]. split; [done|]. split; [by etransitivity|]. split; [done|].
    destruct Hid as (g & Hi & _), Hid2 as (g2 & Hi2 & _).
    pose proof (room_lower g f USER_IO Hi ltac:(by left)). pose proof (room_lower g2 f2 USER_IO Hi2 ltac:(by left)).
    pose proof (ppl_bound spp G). nia.
Qed.

End Collect.
