(* ===== verification/ConvCmd.v ===== *)
(** * ConvCmd: I/O commands of the page-mapping FTL, collection included

    [conv_proc_nvme_io_cmd] on a namespace that satisfies its invariant always
    returns: no assertion fails, no array is read out of range and the
    collection loop ends.  The invariant holds again, and the logical pages that
    are mapped are those mapped before and those written. *)
From stdpp Require Import base list numbers gmap.
From Stdlib Require Import ZArith Lia.
From S2P Require Import Prelude Pqueue ChannelModel SsdConfig Ssd SsdFacts ConvGeom ConvNand.
From S2P Require Import Nvme Lines PqueueSpec ConvFtl ConvLines ConvInv ConvWrite ConvGc.
From S2P Require Import ConvErase ConvCount ConvCollect.

Open Scope Z_scope.
Open Scope nvmev_scope.

Section Cmd.
Variable spp : ssdparams.
Variable cpp : convparams.
Variable L : Z.
Context `{ClockRange}.

Notation ppl := (pgs_per_line spp).
Notation T := (gc_thres_lines_high cpp).
Notation ns_ok := (ns_ok spp cpp L).
Notation ns_room := (ns_room spp).
Notation room := (room spp).
Notation idle := (idle spp L).

(** The host has fewer pages than the lines beyond the threshold hold. *)
Definition op_ok : Prop := 0 <= T /\ 0 <= L < (tt_lines spp - T - 2) * ppl.

(** The logical page is mapped. *)
Definition is_mapped (ns : nvmev_ns) (lpn : Z) : Prop :=
  exists p, entry ns lpn = Some p /\ p <> UNMAPPED_PPA.

(** The pages that a successful command maps. *)
Definition writes_page (cmd : nvme_command) (lpn : Z) : Prop :=
  opcode cmd = nvme_cmd_write /\ let '(first, last) := cmd_lpns spp cmd in first <= lpn <= last.

(** The command stays within the logical pages of the host. *)
Definition in_bounds (nr_parts : Z) (cmd : nvme_command) : Prop :=
  opcode cmd = nvme_cmd_write -> (cmd_lpns spp cmd).2 / nr_parts < L.

Definition cmd_cost (cmd : nvme_command) : Z :=
  if opcode cmd =? nvme_cmd_write then cmd_pages spp cmd else 0.

Lemma ns_geom ns : ns_ok ns -> geom_ok spp.
Proof.
  intros Hns. destruct (ns_first spp cpp L ns Hns) as (f & _ & _ & [Hid _]).
  by destruct (idle_geom spp L f Hid).
Qed.

Lemma room_nfree f io k :
  idle f -> io_ok io -> k * ppl + ppl < room io f -> k < nfree f.
Proof.
  intros Hid Hio Hr. assert (G : geom_ok spp) by (by destruct (idle_geom spp L f Hid)).
  destruct Hid as (g & Hi & _). pose proof (room_lower spp L G g f io Hi Hio).
  pose proof (ppl_bound spp G). nia.
Qed.

Lemma nfree_room f io k :
  idle f -> io_ok io -> k < nfree f -> k * ppl + ppl < room io f.
Proof.
  intros Hid Hio Hr. assert (G : geom_ok spp) by (by destruct (idle_geom spp L f Hid)).
  destruct Hid as (g & Hi & _). pose proof (room_lower spp L G g f io Hi Hio).
  pose proof (ppl_bound spp G). nia.
Qed.

(** ** Before the collection *)
Lemma dispatch_spec ns h req ret n :
  ns_ok ns -> hw_ok h -> cmd_ok (req_cmd req) -> ns_room ns n ->
  cmd_cost (req_cmd req) + 1 <= n -> in_bounds (ns_nr_parts ns) (req_cmd req) ->
  exists ok ns' h' ret', conv_dispatch ns h req ret = Ok (ok, ns', h', ret') /\
    ns_ok ns' /\ hw_ok h' /\ ns_nr_parts ns' = ns_nr_parts ns /\
    ns_room ns' (n - cmd_cost (req_cmd req)) /\
    (forall lpn, 0 <= lpn ->
       is_mapped ns' lpn <-> is_mapped ns lpn \/ (ok = true /\ writes_page (req_cmd req) lpn)) /\
    (ok = false -> ns' = ns /\ ret' = ret).
Proof.
  intros Hns Hh Hcmd Hroom Hn Hib. unfold conv_dispatch, cmd_cost, writes_page, in_bounds in *.
  set (op := opcode (req_cmd req)) in *.
  assert (Hnw : op <> nvme_cmd_write -> forall ns' (ok : bool),
    (forall lpn, entry ns' lpn = entry ns lpn) -> forall lpn, 0 <= lpn ->
    is_mapped ns' lpn <-> is_mapped ns lpn \/ (ok = true /\ op = nvme_cmd_write /\
      let '(first, last) := cmd_lpns spp (req_cmd req) in first <= lpn <= last)).
  { intros Hop ns' ok He lpn _. unfold is_mapped. rewrite He. tauto. }
  destruct (Z.eqb_spec op nvme_cmd_write) as [Ew|Ew].
  - pose proof (conv_write_spec spp cpp L ns h req ret n Hns Hh Hcmd Hroom) as Hw.
    specialize (Hib Ew). destruct (cmd_lpns spp (req_cmd req)) as [first last] eqn:Ecl. simpl in Hib.
    destruct (Hw Hn Hib) as (ok & ns' & h' & ret' & -> & Hns' & Hh' & Hok).
    exists ok, ns', h', ret'. split; [done|]. split; [done|]. split; [done|].
    destruct ok; [destruct Hok as (_ & Hr & [Hp Hm Ho])|destruct Hok as [-> ->]].
    + split; [done|]. split; [done|]. split; [|done]. intros lpn Hl. unfold is_mapped.
      destruct (decide (first <= lpn < Z.max first (last + 1))) as [Hin|Hout].
      * split; [|by intros _; apply Hm]. intros _. right. split; [done|]. split; [done|]. lia.
      * rewrite Ho by done. split; [by left|]. intros [|(_ & _ & ?)]; [done|lia].
    + assert (0 <= cmd_pages spp (req_cmd req)) by (unfold cmd_pages; rewrite Ecl; lia).
      split; [done|]. split; [intros i f Hf; specialize (Hroom i f Hf); lia|]. split; [|done].
      intros lpn Hl. split; [by left|]. by intros [|[]].
  - rewrite Z.sub_0_r. destruct (Z.eqb_spec op nvme_cmd_read) as [Er|Er].
    { destruct (conv_read_spec spp cpp L ns h req ret Hns Hh Hcmd)
        as (ok & ns' & h' & ret' & -> & Hns' & Hh' & [Hp He Hr] & Hok).
      exists ok, ns', h', ret'. split; [done|]. split; [done|]. split; [done|]. split; [done|].
      split; [by apply Hr|]. split; [by apply Hnw|]. by intros ->. }
    destruct (op =? nvme_cmd_print_cmt).
    { exists true, ns, h, ret. repeat (split; [done|]). split; [by apply Hnw|done]. }
    destruct (op =? nvme_cmd_flush).
    { destruct (conv_flush_spec spp cpp L ns h ret Hns Hh) as (h' & ret' & -> & Hh' & _). cbn [obind].
      exists true, ns, h', ret'. repeat (split; [done|]). split; [by apply Hnw|done]. }
    exists true, ns, h, ret. repeat (split; [done|]). split; [by apply Hnw|done].
Qed.

(** ** The command *)
Lemma proc_spec fuel ppa0 ns h req ret n :
  op_ok -> ns_ok ns -> hw_ok h -> cmd_ok (req_cmd req) -> ns_room ns n ->
  cmd_cost (req_cmd req) + ppl + 1 <= n -> in_bounds (ns_nr_parts ns) (req_cmd req) ->
  (T + 1) * ppl <= Z.of_nat fuel ->
  exists ok ns' h' ret', conv_proc_nvme_io_cmd fuel ppa0 ns h req ret = Ok (ok, ns', h', ret') /\
    ns_ok ns' /\ hw_ok h' /\ ns_nr_parts ns' = ns_nr_parts ns /\
    ns_room ns' (n - cmd_cost (req_cmd req)) /\
    (forall lpn, 0 <= lpn ->
       is_mapped ns' lpn <-> is_mapped ns lpn \/ (ok = true /\ writes_page (req_cmd req) lpn)) /\
    (if ok then exists f, nthO (ns_ftls ns') 0 = Some f /\ T < nfree f else ns' = ns /\ ret' = ret).
Proof.
  intros [HT HL] Hns Hh Hcmd Hroom Hn Hib Hfuel. pose proof (ns_geom ns Hns) as G.
  pose proof (ppl_bound spp G) as Hppl.
  unfold conv_proc_nvme_io_cmd. rewrite (nk_csi _ _ _ _ Hns), Z.eqb_refl.
  destruct (dispatch_spec ns h req ret n Hns Hh Hcmd Hroom) as
    (ok & ns1 & h1 & ret1 & -> & Hns1 & Hh1 & Hp1 & Hr1 & Hm1 & Hno); [lia|done|].
  cbn [obind]. destruct ok; cbn [negb].
  2: { destruct (Hno eq_refl) as [-> ->]. exists false, ns, h1, ret. done. }
  destruct (ns_first spp cpp L ns1 Hns1) as (f & Hf & Hf' & [Hid Hcp]). rewrite Hf. cbn [obind].
  pose proof (Hr1 0 f Hf') as Hrf.
  assert (Hnf : 1 <= nfree f).
  { assert (0 < nfree f); [|lia]. apply (room_nfree f USER_IO 0 Hid ltac:(by left)). lia. }
  assert (Hgr : 0 < room GC_IO f).
  { pose proof (nfree_room f GC_IO 0 Hid ltac:(by right) ltac:(lia)). lia. }
  destruct (gc_loop_ends spp L G T fuel ppa0 f h1 Hid Hh1) as (f2 & h2 & -> & Hid2 & Hh2 & Hk2 & Hf2 & Hru);
    [by rewrite Hcp|done|done|done|lia|].
  cbn [obind]. pose proof Hns1 as [K1 K2 K3 K4]. rewrite updZ_Ok by lia. cbn [obind].
  set (ns2 := set_ftls ns1 _).
  assert (Hlk : forall i, nthO (ns_ftls ns2) i = if i =? 0 then Some f2 else nthO (ns_ftls ns1) i)
    by (intros i; by apply nthO_upd; lia).
  exists true, ns2, h2, ret1. split; [done|]. split; [|split; [done|split; [done|split; [|split]]]].
  - split; [done|done|simpl; by rewrite length_insert|]. intros i fi. rewrite Hlk.
    destruct (i =? 0); [intros [= <-]|by apply K4]. split; [done|]. by rewrite (gk_cp _ _ Hk2).
  - intros i fi. rewrite Hlk. destruct (i =? 0); [intros [= <-]; lia|by apply Hr1].
  - intros lpn Hl. rewrite <- Hm1 by done. unfold is_mapped, entry. change (ns_nr_parts ns2) with (ns_nr_parts ns1).
    rewrite Hlk. destruct (Z.eqb_spec (lpn mod ns_nr_parts ns1) 0) as [E|E]; [|done].
    rewrite E, Hf'. simpl. apply (gk_mapped _ _ Hk2).
  - exists f2. by rewrite Hlk.
Qed.

(** The collection loop touches instance 0 and no other. *)
Lemma proc_others fuel ppa0 ns h req ret ok ns' h' ret' :
  conv_proc_nvme_io_cmd fuel ppa0 ns h req ret = Ok (ok, ns', h', ret') ->
  exists ns1 h1, conv_dispatch ns h req ret = Ok (ok, ns1, h1, ret') /\
    forall i, i <> 0 -> nthO (ns_ftls ns') i = nthO (ns_ftls ns1) i.
Proof.
  unfold conv_proc_nvme_io_cmd. destruct (ns_csi ns =? NVME_CSI_NVM); [|done].
  destruct (conv_dispatch ns h req ret) as [[[[ok1 ns1] h1] ret1]| | |]; try done. cbn [obind].
  destruct ok1; cbn [negb]; [|intros [= <- <- _ <-]; by exists ns1, h1].
  destruct (nthZ (ns_ftls ns1) 0) as [f0| | |] eqn:E0; try done. cbn [obind].
  destruct (gc_loop fuel ppa0 f0 h1) as [[f1 h2]| | |]; try done. cbn [obind].
  rewrite updZ_Ok by (by eapply nthZ_range). cbn [obind]. intros [= <- <- _ <-]. exists ns1, h1. split; [done|].
  intros i Hi. cbn [ns_ftls set_ftls]. rewrite nthO_upd by (by eapply nthZ_range). by rewrite (proj2 (Z.eqb_neq i 0)).
Qed.

(** ** Sequences of commands on one partition *)

(** The commands of the host in order, each with the value that the local
    [ppa] of [do_gc] happens to have. *)
Fixpoint conv_run (fuel : nat) (ns : nvmev_ns) (h : hw) (reqs : list (nvmev_request * Z))
  : outcome (nvmev_ns * hw) :=
  match reqs with
  | [] => Ok (ns, h)
  | (req, ppa0) :: reqs =>
      let* (_, ns, h, _) := conv_proc_nvme_io_cmd fuel ppa0 ns h req (mk_nvmev_result 0 0) in
      conv_run fuel ns h reqs
  end.

Record steady (ns : nvmev_ns) : Prop := {
  st_ok : ns_ok ns;
  st_parts : ns_nr_parts ns = 1;
  st_room : ns_room ns ((T + 1) * ppl + 1);
}.

(** A command of the host. *)
Definition host_cmd (cmd : nvme_command) : Prop :=
  cmd_ok cmd /\ in_bounds 1 cmd /\ cmd_cost cmd <= T * ppl.

Lemma steady_proc fuel ppa0 ns h req ret :
  op_ok -> steady ns -> hw_ok h -> host_cmd (req_cmd req) -> (T + 1) * ppl <= Z.of_nat fuel ->
  exists ok ns' h' ret', conv_proc_nvme_io_cmd fuel ppa0 ns h req ret = Ok (ok, ns', h', ret') /\
    steady ns' /\ hw_ok h' /\
    (forall lpn, 0 <= lpn ->
       is_mapped ns' lpn <-> is_mapped ns lpn \/ (ok = true /\ writes_page (req_cmd req) lpn)).
Proof.
  intros Hop [Hns Hp Hr] Hh (Hc & Hb & Hcost) Hfuel. pose proof (ns_geom ns Hns) as G.
  destruct (proc_spec fuel ppa0 ns h req ret ((T + 1) * ppl + 1)) as
    (ok & ns' & h' & ret' & -> & Hns' & Hh' & Hp' & Hr' & Hm & Hok); try done; [lia|by rewrite Hp|].
  exists ok, ns', h', ret'. split; [done|]. split; [|done].
  destruct ok; [|by destruct Hok as [-> _]]. destruct Hok as (f & Hf & Hn). split; [done|congruence|].
  intros i fi Hi. assert (i = 0) as ->.
  { pose proof (nk_len _ _ _ _ Hns'). apply nthO_nthZ, nthZ_range in Hi. lia. }
  assert (fi = f) as -> by congruence. destruct (nk_ftl _ _ _ _ Hns' 0 f Hf) as [Hid _].
  pose proof (nfree_room f USER_IO T Hid ltac:(by left) Hn). lia.
Qed.

Lemma run_spec fuel reqs : forall ns h,
  op_ok -> steady ns -> hw_ok h -> (T + 1) * ppl <= Z.of_nat fuel ->
  (forall req ppa0, (req, ppa0) ∈ reqs -> host_cmd (req_cmd req)) ->
  exists ns' h', conv_run fuel ns h reqs = Ok (ns', h') /\ steady ns' /\ hw_ok h' /\
    (forall lpn, 0 <= lpn -> is_mapped ns lpn -> is_mapped ns' lpn) /\
    (forall lpn, 0 <= lpn -> is_mapped ns' lpn -> is_mapped ns lpn \/
       exists req ppa0, (req, ppa0) ∈ reqs /\ writes_page (req_cmd req) lpn).
Proof.
  induction reqs as [|[req ppa0] reqs IH]; intros ns h Hop Hs Hh Hfuel Hreqs; simpl.
  - exists ns, h. split; [done|]. split; [done|]. split; [done|]. split; [done|]. by left.
  - destruct (steady_proc fuel ppa0 ns h req (mk_nvmev_result 0 0) Hop Hs Hh) as
      (ok & ns1 & h1 & ret1 & -> & Hs1 & Hh1 & Hm1); [by eapply Hreqs; left|done|]. cbn [obind].
    destruct (IH ns1 h1 Hop Hs1 Hh1 Hfuel) as (ns2 & h2 & E2 & Hs2 & Hh2 & Hk & Hm2).
    { intros r p Hr. eapply Hreqs. by right. }
    exists ns2, h2. split; [done|]. split; [done|]. split; [done|]. split.
    + intros lpn Hl Hm. apply Hk; [done|]. apply Hm1; [done|by left].
    + intros lpn Hl [Hm|(r & p & Hr & Hw)]%Hm2; [|right; exists r, p; split; [by right|done]|done].
      apply Hm1 in Hm as [|[_ Hw]]; [by left| |done]. right. exists req, ppa0. split; [by left|done].
Qed.

End Cmd.
