(* ===== verification/ConvInit.v ===== *)
(** * ConvInit: a fresh namespace satisfies the invariant

    [ssd_init], [conv_init_ftl] and [conv_init_namespace]: all pages free, all
    entries unmapped, two lines given to the write pointers and the others on
    the free list. *)
From stdpp Require Import base list numbers gmap.
From Stdlib Require Import ZArith Lia.
From S2P Require Import Prelude Pqueue ChannelModel SsdConfig Ssd SsdFacts ConvGeom ConvNand.
From S2P Require Import Nvme Lines PqueueSpec ConvFtl ConvLines ConvInv ConvWrite ConvErase.
From S2P Require Import ConvCollect ConvCmd SsdInit.

Open Scope Z_scope.
Open Scope nvmev_scope.

Record dev_ok (spp : ssdparams) : Prop := {
  dk_geom : geom_ok spp;
  dk_timing : timing_ok spp;
  dk_ch : bandwidth_ok (ch_bandwidth spp);
  dk_pcie : bandwidth_ok (pcie_bandwidth spp);
}.

Section Init.
Variable spp : ssdparams.
Context (D : dev_ok spp).

Notation ppl := (pgs_per_line spp).
Notation in_line := (in_line spp).
Notation in_page := (in_page spp).

(** ** The device *)
Lemma ssd_init_spec cpu : exists s pcie,
  ssd_init spp cpu = Ok (s, pcie, buffer_init (write_buffer_size spp)) /\ fresh spp s /\ ch_inv pcie.
Proof.
  apply ssd_init_fresh; [apply D|apply D|]. pose proof (g_chs _ (dk_geom _ D)). lia.
Qed.

Lemma init_blk_ok : blk_ok spp (ssd_init_nand_blk spp).
Proof.
  destruct (dk_geom _ D).
  assert (Hall : forall (i : nat) p, nb_pg (ssd_init_nand_blk spp) !! i = Some p -> p = ssd_init_nand_page spp)
    by (intros i p [-> _]%lookup_replicate; done).
  destruct (cnt_all_free (nb_pg (ssd_init_nand_blk spp))) as [Hv Hi]; [by intros i p ->%Hall|].
  split; [|done| |by rewrite Hv|by rewrite Hi].
  - simpl. rewrite length_replicate. lia.
  - intros i p ->%Hall. split; [done|by left].
Qed.

Lemma fresh_blk s c l b :
  fresh spp s -> 0 <= c < nchs spp -> 0 <= l < luns_per_ch spp -> in_line b ->
  blk_at s c l 0 b = Some (ssd_init_nand_blk spp).
Proof.
  intros [_ Hf] Hc Hl Hb. destruct (Hf c Hc) as (ch & Hch & Hlun & _). destruct (dk_geom _ D).
  unfold blk_at, lun_at. rewrite Hch. simpl. rewrite Hlun, nthO_replicate by done. simpl.
  rewrite nthO_replicate by lia. simpl. by rewrite nthO_replicate.
Qed.

Lemma fresh_nand s : fresh spp s -> nand_ok spp s.
Proof.
  intros Hf. pose proof Hf as [Hsp Hch]. split; [done| |].
  - by apply (fresh_ssd_ok spp).
  - intros c l b Hc Hl Hb. exists (ssd_init_nand_blk spp). split; [by apply fresh_blk|apply init_blk_ok].
Qed.

Lemma fresh_free s c l b pg :
  fresh spp s -> in_page c l pg -> in_line b -> status_at s c l b pg = Some PG_FREE.
Proof.
  intros Hf (Hc & Hl & Hp) Hb. unfold status_at. rewrite fresh_blk by done. simpl.
  by rewrite nthO_replicate.
Qed.

(** ** The lines *)
Lemma init_lines_spec sv :
  (forall b, in_line b -> sv b = 0) ->
  exists m, init_lines spp true true = Ok m /\
    lm_ok spp (fun _ => RFree) (fun _ => 0) sv m /\ free_line_list m = seqZ 0 (blks_per_pl spp) /\
    exists q, victim_line_pq m = Some q /\ pq_size q = 1.
Proof.
  intros Hsv. destruct (dk_geom _ D). unfold init_lines. rewrite u32_id by lia.
  rewrite g_lines, Z.eqb_refl, length_seqZ, Z2Nat.id, u32_id, Z.eqb_refl by lia.
  eexists. split; [reflexivity|]. split; [|split; [done|by eexists]]. split; simpl.
  - rewrite length_map, length_seqZ. lia.
  - intros b Hb. unfold ConvNand.in_line in Hb. exists (mk_line b 0 0 0). split; [|split; simpl; try done; [intros _; by rewrite Hsv|by intros [|]]].
    unfold nthO. rewrite (proj2 (Z.leb_le 0 b)) by lia. rewrite list_lookup_fmap, lookup_seqZ_lt by lia.
    simpl. do 2 f_equal. lia.
  - apply NoDup_seqZ.
  - intros b. rewrite elem_of_seqZ. unfold ConvNand.in_line. split; [intros; split; [lia|done]|lia].
  - constructor.
  - intros b. split; [by intros ?%not_elem_of_nil|by intros [_ [=]]].
  - eexists. split; [reflexivity|]. simpl. split; [split; [split; simpl; rewrite ?u64_id by lia; intros; lia|]|].
    + intros j x y Hj. simpl in Hj. lia.
    + rewrite u64_id by lia. split; [done|]. split; [|done]. intros b. split.
      * intros (j & Hj & _). simpl in Hj. lia.
      * by intros [_ [=]].
  - rewrite length_seqZ. lia.
  - done.
Qed.

(** ** The instance *)
Lemma wp_init_ok rl u r fl vic :
  in_line u -> (forall b, in_line b -> rl b = r <-> b = u) -> fl u = 0 ->
  wp_ok spp (mk_ghost rl fl vic None None 0 0) r 0 (mk_wp (Some u) 0 0 0 u 0).
Proof.
  intros Hu Hr Hf. destruct (in_page_first spp (dk_geom _ D)) as [Hp Hi]. by split.
Qed.

Lemma prepare_spec rl fl sv f io b rest :
  lm_ok spp rl fl sv (cf_lm f) -> free_line_list (cf_lm f) = b :: rest -> io_ok io ->
  exists m, prepare_write_pointer f io = Ok (set_wp (set_lm f m) io (mk_wp (Some b) 0 0 0 b 0)) /\
    in_line b /\ free_line_list m = rest /\ lm_ok spp (upd rl b (role_of io)) fl sv m /\
    victim_line_pq m = victim_line_pq (cf_lm f).
Proof.
  intros Lm Hfl Hio. pose proof (dk_geom _ D) as G'. pose proof (g_blks _ G').
  destruct (next_free_spec spp G' _ _ _ _ b rest (role_of io) Lm Hfl (role_of_cases io Hio))
    as (Hb & _ & _ & m & E & Hfl' & _ & Lm').
  assert (Hq : victim_line_pq m = victim_line_pq (cf_lm f)).
  { unfold get_next_free_line in E. rewrite Hfl in E. by injection E as <-. }
  exists m. split; [|done]. unfold prepare_write_pointer. rewrite get_wp_of by done. cbn [obind]. rewrite E.
  destruct (lk_line _ _ _ _ _ Lm' b Hb) as (l & Hl & Hok). apply nthO_nthZ in Hl. rewrite Hl. cbn [obind].
  rewrite (lo_id _ _ _ _ _ _ Hok). unfold ConvNand.in_line in Hb. by rewrite u32_id by lia.
Qed.

Lemma conv_init_ftl_spec cpp L s :
  fresh spp s -> 2 <= tt_lines spp ->
  exists f, conv_init_ftl cpp s true true = Ok f /\ idle spp L f /\ cf_cp f = cpp /\
    nfree f = tt_lines spp - 2 /\ ~ has_victim f /\
    (forall lpn, 0 <= lpn < tt_pgs spp -> nthO (maptbl f) lpn = Some UNMAPPED_PPA).
Proof.
  intros Hf Htt. pose proof (dk_geom _ D) as G. pose proof (fresh_nand s Hf) as Hn.
  assert (Hsv : forall b, in_line b -> sum_vpc spp s b = 0).
  { intros b Hb. apply (free_line_sum spp s b Hn Hb). intros c l pg Hp. by apply fresh_free. }
  destruct (init_lines_spec _ Hsv) as (m & Em & Lm & Hfl & q & Hq & Hqs).
  rewrite (g_lines _ G) in Htt. unfold conv_init_ftl. rewrite (fs_sp _ _ Hf), Em. cbn [obind].
  rewrite seqZ_cons in Hfl by lia. rewrite seqZ_cons in Hfl by lia.
  set (rest := seqZ _ _) in Hfl. change (Z.succ 0) with 1 in Hfl.
  set (f0 := mk_conv_ftl _ _ _ _ _ _ m _ _).
  destruct (prepare_spec _ _ _ f0 USER_IO 0 (1 :: rest) Lm Hfl ltac:(by left)) as (m1 & -> & Hb0 & Hfl1 & Lm1 & Hq1).
  cbn [obind]. set (f1 := set_wp _ _ _).
  destruct (prepare_spec _ _ _ f1 GC_IO 1 rest Lm1 Hfl1 ltac:(by right)) as (m2 & -> & Hb1 & Hfl2 & Lm2 & Hq2).
  set (rl := upd (upd (fun _ => RFree) 0 RUser) 1 RGc) in *.
  assert (Hrl : forall b, rl b = if b =? 1 then RGc else if b =? 0 then RUser else RFree) by done.
  set (f2 := set_wp _ _ _). exists f2. split; [done|].
  assert (Hnt : forall i, 0 <= i < tt_pgs spp -> nthO (maptbl f2) i = Some UNMAPPED_PPA)
    by (intros i Hi; by apply nthO_replicate).
  split; [|split; [done|split; [|split; [|done]]]].
  - exists (mk_ghost rl (fun _ => 0) None None None 0 0). split; [|done]. split; try done.
    + apply (dk_timing _ D).
    + intros c l b pg Hp Hb. split; [|intros _; by apply fresh_free]. intros _. unfold page_free. simpl.
      rewrite decide_False; [by apply (idx_range spp G)|]. rewrite Hrl. by repeat destruct (_ =? _).
    + apply wp_init_ok; [done| |done]. intros b Hb. rewrite Hrl.
      destruct (Z.eqb_spec b 1), (Z.eqb_spec b 0); subst; try done.
    + apply wp_init_ok; [done| |done]. intros b Hb. rewrite Hrl.
      destruct (Z.eqb_spec b 1), (Z.eqb_spec b 0); subst; try done.
    + intros b Hb. simpl. rewrite Hrl. by repeat destruct (_ =? _).
    + destruct (in_page_first spp G) as [Hp0 _].
      assert (Htp : 0 < tt_pgs spp).
      { assert (Hb0' : 0 <= 0 < blks_per_pl spp) by lia. pose proof (pgidx_range spp G _ _ 0 _ Hp0 Hb0'). lia. }
      split; try (simpl; unfold init_maptbl, init_rmap; rewrite length_replicate; lia).
      * intros lpn p Hp Hu. exfalso. apply Hu. pose proof Hp as Hr. apply nthO_nthZ, nthZ_range in Hr.
        simpl in Hr. unfold init_maptbl in Hr. rewrite length_replicate in Hr. rewrite Hnt in Hp by lia. congruence.
      * intros c l b pg Hp Hb Hval. unfold valid_at in Hval. simpl in Hval. rewrite fresh_free in Hval by done. done.
  - unfold nfree. change (cf_lm f2) with m2. rewrite Hfl2. unfold rest. rewrite length_seqZ, (g_lines _ G). lia.
  - intros (q' & Hq' & Hs). change (victim_line_pq (cf_lm f2)) with (victim_line_pq m2) in Hq'.
    rewrite Hq2 in Hq'. change (victim_line_pq (cf_lm f1)) with (victim_line_pq m1) in Hq'.
    rewrite Hq1 in Hq'. change (victim_line_pq (cf_lm f0)) with (victim_line_pq m) in Hq'.
    assert (q' = q) as -> by congruence. lia.
Qed.

(** ** The namespace *)
Lemma conv_init_namespace_spec cfg size cpu L :
  ssd_init_params cfg size (SSD_PARTITIONS cfg) = Ok spp -> 0 < SSD_PARTITIONS cfg < 1048576 ->
  2 <= tt_lines spp -> 0 < pba_pcent (conv_init_params cfg) ->
  exists ns pcie, conv_init_namespace cfg size cpu = Ok (ns, pcie, buffer_init (write_buffer_size spp)) /\
    ch_inv pcie /\ ns_ok spp (conv_init_params cfg) L ns /\ ns_nr_parts ns = SSD_PARTITIONS cfg /\
    ns_room spp ns ((tt_lines spp - 2) * ppl + 1) /\
    ns_size ns = u64 (size * 100) / pba_pcent (conv_init_params cfg) /\
    (forall lpn, ~ is_mapped ns lpn).
Proof.
  intros Hspp Hparts Htt Hpba. pose proof (dk_geom _ D) as G. unfold conv_init_namespace. rewrite Hspp. cbn [obind].
  destruct (ssd_init_spec cpu) as (s & pcie & Es & Hs & Hpcie). rewrite Es. cbn [obind].
  destruct (conv_init_ftl_spec (conv_init_params cfg) L s Hs Htt) as (f & Ef & Hid & Hcp & Hnf & _ & Hum).
  destruct (forO_ind (fun i (l : list conv_ftl) => l = replicate (Z.to_nat i) f) 0 (SSD_PARTITIONS cfg) []
    (fun l _ => Ok (l ++ [f]))) as (fs & Efs & Hfs); [lia|done| |].
  { intros i l Hi ->. eexists. split; [done|]. rewrite Z2Nat.inj_add, Nat.add_comm by lia. simpl.
    by rewrite replicate_cons_app. }
  rewrite Ef. cbn [obind]. rewrite Efs. cbn [obind]. rewrite divO_Ok by lia. cbn [obind].
  assert (Hlk : forall i x, nthO fs i = Some x -> x = f).
  { intros i x. unfold nthO. destruct (0 <=? i); [|done]. rewrite Hfs. by intros [-> _]%lookup_replicate. }
  eexists _, pcie. split; [reflexivity|]. split; [done|]. split; [split; try done|].
  - simpl. rewrite Hfs, length_replicate. lia.
  - intros i x ->%Hlk. by split.
  - split; [done|]. split; [|split; [done|]].
    + intros i x ->%Hlk. pose proof (nfree_room spp L f USER_IO (tt_lines spp - 3) Hid ltac:(by left)). lia.
    + intros lpn (p & Hp & Hu). unfold entry in Hp. apply bind_Some in Hp as (x & ->%Hlk & Hp). simpl in Hp.
      apply Hu. destruct Hid as (g & Hi & _). destruct (fi_map _ _ _ _ Hi) as [Hml _ _ _].
      pose proof Hp as Hr. apply nthO_nthZ, nthZ_range in Hr. rewrite Hum in Hp by lia. congruence.
Qed.

End Init.
