(* ===== verification/ConvParams.v ===== *)
(** * ConvParams: the geometry that [ssd_init_params] computes

    [params_geom]: the parameters of a configuration with one plane per LUN
    satisfy [geom_ok] when the sizes fit the fields of an address.  For the
    970 PRO configuration this holds for every capacity up to 4 TiB. *)
From stdpp Require Import base list numbers gmap.
From Stdlib Require Import ZArith Lia.
From S2P Require Import Prelude Pqueue ChannelModel SsdConfig Ssd SsdFacts ConvGeom ConvNand.
From S2P Require Import Nvme Lines PqueueSpec ConvFtl ConvLines ConvInv ConvWrite ConvCollect.
From S2P Require Import ConvCmd SsdInit ConvInit.

Open Scope Z_scope.
Open Scope nvmev_scope.

(** The basic sizes of a device. *)
Record sizes_ok (spp : ssdparams) : Prop := {
  sz_chs : 0 < nchs spp < 256;
  sz_luns : 0 < luns_per_ch spp < 256;
  sz_pls : pls_per_lun spp = 1;
  sz_blks : 0 < blks_per_pl spp < 65536;
  sz_os : 0 < pgs_per_oneshotpg spp;
  sz_opb : 0 < oneshotpgs_per_blk spp;
  sz_pgs : pgs_per_oneshotpg spp * oneshotpgs_per_blk spp < 65536;
  sz_tt : nchs spp * (luns_per_ch spp * (blks_per_pl spp * (pgs_per_oneshotpg spp * oneshotpgs_per_blk spp)))
          < 2147483648;
}.

Lemma ssd_init_params_inv cfg capacity nparts spp :
  ssd_init_params cfg capacity nparts = Ok spp ->
  ONESHOT_PAGE_SIZE cfg mod 4096 = 0 /\ FLASH_PAGE_SIZE cfg mod 4096 = 0 /\
  ONESHOT_PAGE_SIZE cfg mod FLASH_PAGE_SIZE cfg = 0 /\
  pgsz spp = 4096 /\ secs_per_pg spp = 4096 / LBA_SIZE /\
  pgs_per_oneshotpg spp = ONESHOT_PAGE_SIZE cfg / 4096 /\
  pgs_per_flashpg spp = FLASH_PAGE_SIZE cfg / 4096 /\
  flashpgs_per_blk spp = imul (ONESHOT_PAGE_SIZE cfg / FLASH_PAGE_SIZE cfg) (oneshotpgs_per_blk spp) /\
  pgs_per_blk spp = imul (pgs_per_oneshotpg spp) (oneshotpgs_per_blk spp) /\
  pgs_per_pl spp = u64 (imul (pgs_per_blk spp) (blks_per_pl spp)) /\
  pgs_per_lun spp = u64 (pgs_per_pl spp * pls_per_lun spp) /\
  pgs_per_ch spp = u64 (pgs_per_lun spp * luns_per_ch spp) /\
  tt_pgs spp = u64 (pgs_per_ch spp * nchs spp) /\
  tt_lines spp = u64 (imul (blks_per_pl spp) (pls_per_lun spp)) /\
  pgs_per_line spp = u64 (u64 (imul (luns_per_ch spp) (nchs spp)) * pgs_per_blk spp).
Proof.
  unfold ssd_init_params. change (imul LBA_SIZE (4096 / LBA_SIZE)) with 4096. cbv zeta.
  destruct (modO _ _) as [r| | |]; [|done..]. cbn [obind]. destruct (r =? 0); [|done].
  match goal with |- obind ?x _ = _ -> _ => destruct x as [[bpp bs]| | |]; [|done..] end. cbn [obind].
  destruct (Z.eqb_spec (ONESHOT_PAGE_SIZE cfg mod 4096) 0) as [E1|]; [|done].
  destruct (Z.eqb_spec (FLASH_PAGE_SIZE cfg mod 4096) 0) as [E2|]; [|done]. cbn [andb].
  destruct (Z.eqb_spec (ONESHOT_PAGE_SIZE cfg mod FLASH_PAGE_SIZE cfg) 0) as [E3|]; [|done].
  intros [= <-]. simpl. by repeat (split; [done|]).
Qed.

Lemma params_geom cfg capacity nparts spp :
  ssd_init_params cfg capacity nparts = Ok spp -> sizes_ok spp ->
  0 < FLASH_PAGE_SIZE cfg < 2147483648 -> 0 < ONESHOT_PAGE_SIZE cfg < 2147483648 -> geom_ok spp.
Proof.
  intros Hp [S1 S2 S3 S4 S5 S6 S7 S8] HF HO.
  destruct (ssd_init_params_inv _ _ _ _ Hp) as (E1 & E2 & E3 & Epg & Esec & Eos & Efp & Efpb & Eppb & Epl & Elun & Ech & Ett & Etl & Eline).
  clear Hp. set (os := pgs_per_oneshotpg spp) in *. set (opb := oneshotpgs_per_blk spp) in *.
  unfold imul in *. rewrite s32_id in Eppb by (clear - S5 S6 S7; nia).
  set (FL := FLASH_PAGE_SIZE cfg) in *. set (ON := ONESHOT_PAGE_SIZE cfg) in *.
  apply Z.mod_divide in E1 as [k1 K1]; [|lia]. apply Z.mod_divide in E2 as [k2 K2]; [|lia].
  apply Z.mod_divide in E3 as [k3 K3]; [|lia].
  rewrite K1, Z.div_mul in Eos by lia. rewrite K2, Z.div_mul in Efp by lia.
  assert (Hk : k1 = k3 * k2).
  { assert (k1 * 4096 = k3 * k2 * 4096) by (rewrite <- K1, K3, K2; ring). lia. }
  assert (Hk2 : 0 < k2) by lia. assert (Hk3 : 0 < k3) by (clear - K3 HO HF; nia).
  assert (E3' : ON / FL = k3) by (rewrite K3, Z.div_mul by lia; done).
  rewrite E3' in Efpb. assert (Hk31 : k3 <= k1) by (rewrite Hk; clear - Hk2 Hk3; nia).
  assert (Hfb : 0 < k3 * opb <= os * opb) by (rewrite Eos; clear - Hk31 Hk3 S6; nia). rewrite s32_id in Efpb by lia.
  set (n := nchs spp) in *. set (l := luns_per_ch spp) in *. set (b := blks_per_pl spp) in *.
  set (p := os * opb) in *.
  assert (Hp1 : 0 < p) by (unfold p; clear - S5 S6; nia).
  assert (Hbp : 0 < b * p) by (clear - Hp1 S4; nia).
  assert (Hlbp : 0 < l * (b * p)) by (clear - Hbp S2; nia).
  assert (B1 : b * p <= l * (b * p)) by (clear - Hbp S2; nia).
  assert (B2 : l * (b * p) <= n * (l * (b * p))) by (clear - Hlbp S1; nia).
  rewrite Eppb in *. rewrite (Z.mul_comm p b), s32_id, u64_id in Epl by lia.
  rewrite Epl, S3, Z.mul_1_r, u64_id in Elun by lia. rewrite Elun, (Z.mul_comm (b * p) l), u64_id in Ech by lia.
  rewrite Ech, (Z.mul_comm _ n), u64_id in Ett by lia.
  rewrite S3, Z.mul_1_r, s32_id, u64_id in Etl by lia.
  assert (Hln : 0 < l * n < 65536) by (clear - S1 S2; nia). rewrite s32_id, (u64_id (l * n)) in Eline by lia.
  rewrite u64_id in Eline by (fold p in S7; clear - Hln Hp1 S7; nia).
  assert (Hsec : 0 < 4096 / LBA_SIZE) by done.
  split; fold n l b os; try lia; try done.
  exists opb. split; [done|]. rewrite Eppb. unfold p. ring.
Qed.

(** ** The 970 PRO configuration *)
Lemma dru_range a b : 0 < a < 18446744073709551616 - b -> 0 < b -> 0 < DIV_ROUND_UP64 a b /\ b * (DIV_ROUND_UP64 a b - 1) < a <= b * DIV_ROUND_UP64 a b.
Proof.
  intros Ha Hb. unfold DIV_ROUND_UP64. rewrite u64_id by lia.
  pose proof (Z.div_mod (a + b - 1) b ltac:(lia)) as E. pose proof (Z.mod_pos_bound (a + b - 1) b Hb).
  split; [|split]; nia.
Qed.

Lemma params_970pro capacity :
  0 < capacity <= 4398046511104 ->
  exists spp, ssd_init_params SAMSUNG_970PRO_flash capacity 1 = Ok spp /\ dev_ok spp /\
    tt_lines spp = 8192 /\ pgs_per_oneshotpg spp = 8 /\ pgs_per_flashpg spp = 8 /\
    capacity <= tt_pgs spp * pgsz spp.
Proof.
  intros Hcap.
  destruct (dru_range capacity 524288 ltac:(lia) ltac:(lia)) as [H1 H1'].
  set (bs := DIV_ROUND_UP64 capacity 524288) in *.
  assert (Hbs : bs < 8388610) by lia.
  destruct (dru_range bs 32768 ltac:(lia) ltac:(lia)) as [H2 H2'].
  set (opb := DIV_ROUND_UP64 bs 32768) in *. assert (Hopb : opb <= 257) by lia.
  assert (Hex : exists spp, ssd_init_params SAMSUNG_970PRO_flash capacity 1 = Ok spp /\
    nchs spp = 8 /\ luns_per_ch spp = 8 /\ pls_per_lun spp = 1 /\ blks_per_pl spp = 8192 /\
    pgs_per_oneshotpg spp = 8 /\ oneshotpgs_per_blk spp = s32 opb /\ cell_mode spp = 2 /\
    length (pg_4kb_rd_lat spp) = 3%nat /\ length (pg_rd_lat spp) = 3%nat /\ max_ch_xfer_size spp = 16384 /\
    ch_bandwidth spp = 800 /\ pcie_bandwidth spp = 3360).
  { replace opb with (DIV_ROUND_UP64 (DIV_ROUND_UP64 (capacity / 1) 524288) 32768)
      by (unfold opb, bs; by rewrite Z.div_1_r).
    eexists. split; [reflexivity|].
    repeat (split; [reflexivity|]). reflexivity. }
  destruct Hex as (spp & Hspp & Ech & Elun & Epl & Ebl & Eos & Eopb & Ecell & E4k & Erd & Exf & Ebw & Epcie).
  rewrite s32_id in Eopb by lia.
  assert (Hgeom : geom_ok spp).
  { apply (params_geom _ _ _ _ Hspp); [|done..].
    split; rewrite ?Ech, ?Elun, ?Epl, ?Ebl, ?Eos, ?Eopb; lia. }
  destruct (ssd_init_params_inv _ _ _ _ Hspp) as (_ & _ & _ & Epg & _ & _ & Efp & _ & Eppb & Eppl & Eplun & Epch & Ett & Etl & _).
  change (pgs_per_flashpg spp = 8) in Efp.
  rewrite Eos, Eopb in Eppb. unfold imul in *. rewrite s32_id in Eppb by lia.
  exists spp. split; [done|]. split; [split; [done| | |]|].
  - split; rewrite ?Efp, ?Ecell, ?Exf; done.
  - rewrite Ebw. by split.
  - rewrite Epcie. by split.
  - split; [rewrite Etl, Ebl, Epl; done|]. split; [done|]. split; [done|]. rewrite Epg.
    destruct Hgeom. rewrite g_tt, g_ch, g_lun, g_pl, Ech, Elun, Ebl, Eppb. lia.
Qed.
