(* ===== verification/Demo.v ===== *)
(** * Demo: a small device for the witnesses

    [b] lines of four pages behind one channel, a fresh namespace on it and one
    of its instances. *)
From stdpp Require Import base list numbers gmap.
From Stdlib Require Import ZArith Lia.
From S2P Require Import Prelude Pqueue ChannelModel SsdConfig Ssd SsdFacts ConvGeom ConvNand.
From S2P Require Import Nvme Lines PqueueSpec ConvFtl ConvLines ConvInv ConvWrite ConvCollect.
From S2P Require Import ConvCmd SsdInit ConvInit.

Open Scope Z_scope.
Open Scope nvmev_scope.

Definition tiny_parts (n b : Z) : ssd_config := {|
  SSD_PARTITIONS := n;
  NAND_CHANNELS := n;
  LUNS_PER_NAND_CH := 1;
  PLNS_PER_LUN := 1;
  FLASH_PAGE_SIZE := KB 4;
  ONESHOT_PAGE_SIZE := KB 4 * 2;
  BLKS_PER_PLN := b;
  BLK_SIZE := 0;
  CFG_CELL_MODE := CELL_MODE_MLC;
  MAX_CH_XFER_SIZE := KB 16;
  WRITE_UNIT_SIZE := 512;
  NAND_CHANNEL_BANDWIDTH := 800;
  PCIE_BANDWIDTH := 3360;
  NAND_4KB_READ_LATENCY := [29760; 41760; 0];
  NAND_READ_LATENCY := [30013; 42013; 0];
  NAND_PROG_LATENCY := 185000;
  NAND_ERASE_LATENCY := 0;
  FW_4KB_READ_LATENCY := 21500;
  FW_READ_LATENCY := 30490;
  FW_WBUF_LATENCY0 := 4000;
  FW_WBUF_LATENCY1 := 460;
  FW_CH_XFER_LATENCY := 0;
  GLOBAL_WB_SIZE := KB 64;
  WRITE_EARLY_COMPLETION := true;
  OP_AREA_PERCENT := double_0_07 |}.
Definition tiny_cfg (b : Z) : ssd_config := tiny_parts 1 b.

Definition tiny (b : Z) : ssdparams := {|
  secsz := 512; secs_per_pg := 8; pgsz := 4096; pgs_per_flashpg := 1; flashpgs_per_blk := 4;
  pgs_per_oneshotpg := 2; oneshotpgs_per_blk := 2; pgs_per_blk := 4; blks_per_pl := b; pls_per_lun := 1;
  luns_per_ch := 1; nchs := 1; cell_mode := 2; write_unit_size := 512; write_early_completion := true;
  pg_4kb_rd_lat := [29760; 41760; 0]; pg_rd_lat := [30013; 42013; 0]; pg_wr_lat := 185000; blk_er_lat := 0;
  max_ch_xfer_size := 16384; fw_4kb_rd_lat := 21500; fw_rd_lat := 30490; fw_wbuf_lat0 := 4000;
  fw_wbuf_lat1 := 460; fw_ch_xfer_lat := 0; ch_bandwidth := 800; pcie_bandwidth := 3360;
  secs_per_blk := 32; secs_per_pl := 32 * b; secs_per_lun := 32 * b; secs_per_ch := 32 * b; tt_secs := 32 * b;
  pgs_per_pl := 4 * b; pgs_per_lun := 4 * b; pgs_per_ch := 4 * b; tt_pgs := 4 * b;
  blks_per_lun := b; blks_per_ch := b; tt_blks := b; secs_per_line := 32; pgs_per_line := 4; blks_per_line := 1;
  tt_lines := b; pls_per_ch := 1; tt_pls := 1; tt_luns := 1; write_buffer_size := 65536 |}.

Definition tiny_cpp : convparams := conv_init_params (tiny_cfg 16).

Lemma tiny_params b : b = 16 \/ b = 8 -> ssd_init_params (tiny_cfg b) (KB (16 * b)) 1 = Ok (tiny b).
Proof. by intros [-> | ->]; vm_compute. Qed.

Lemma tiny_geom b : 0 < b < 65536 -> geom_ok (tiny b).
Proof.
  intros Hb. split; simpl; try lia.
  - by exists 2.
Qed.

Lemma tiny_dev b : 0 < b < 65536 -> dev_ok (tiny b).
Proof. intros Hb. split; [by apply tiny_geom|by split|by split|by split]. Qed.

#[export] Instance demo_clock : Clock := fun n => Z.of_nat n mod 18446744073709551616.
#[export] Instance demo_clock_range : ClockRange.
Proof. intros n. by apply Z.mod_pos_bound. Qed.

Lemma tiny_op : op_ok (tiny 16) tiny_cpp 20.
Proof. by split. Qed.

(** A fresh namespace, a link and a write buffer. *)
Lemma tiny_ns : exists ns h, steady (tiny 16) tiny_cpp 20 ns /\ hw_ok h /\ (forall lpn, ~ is_mapped ns lpn).
Proof.
  destruct (conv_init_namespace_spec (tiny 16) (tiny_dev 16 ltac:(lia)) (tiny_cfg 16) (KB 256) 0 20)
    as (ns & pcie & _ & Hp & Hns & Hpar & Hr & _ & Hm); [apply (tiny_params 16); by left|done|done|done|].
  exists ns, (mk_hw pcie (buffer_init 65536) 0 []). split; [split; [done|done|]|done].
  intros i f Hf. specialize (Hr i f Hf). simpl in Hr. change (gc_thres_lines_high tiny_cpp) with 8. simpl. lia.
Qed.

(** A fresh namespace of two partitions, sixteen lines in each. *)
Lemma tiny_ns2 : exists ns h, ns_ok (tiny 16) tiny_cpp 20 ns /\ ns_nr_parts ns = 2 /\ ns_room (tiny 16) ns 57 /\ hw_ok h.
Proof.
  destruct (conv_init_namespace_spec (tiny 16) (tiny_dev 16 ltac:(lia)) (tiny_parts 2 16) (KB 512) 0 20)
    as (ns & pcie & _ & Hp & Hns & Hpar & Hr & _); [by vm_compute|done|done|done|].
  by exists ns, (mk_hw pcie (buffer_init 65536) 0 []).
Qed.

(** An instance of it. *)
Lemma tiny_ftl b : 2 <= b < 65536 ->
  exists f h, idle (tiny b) 20 f /\ cf_cp f = tiny_cpp /\ hw_ok h /\ nfree f = b - 2 /\ ~ has_victim f.
Proof.
  intros Hb. pose proof (tiny_dev b ltac:(lia)) as D.
  destruct (ssd_init_spec (tiny b) D 0) as (s & pcie & _ & Hs & Hp).
  destruct (conv_init_ftl_spec (tiny b) D tiny_cpp 20 s Hs) as (f & _ & Hid & Hcp & Hn & Hv & _); [simpl; lia|].
  by exists f, (mk_hw pcie (buffer_init 65536) 0 []).
Qed.

