(* ===== verification/CqRing.v ===== *)
(** * CqRing: a completion queue as the host sees it

    The host knows which entries are new by their phase bit, which flips with
    every pass over the ring.  [cq_at q T] is a queue into which [T] entries
    were posted in all; position [j] of this sequence is entry [j mod size],
    written with phase [phase_at size j].  [host_poll] is the consumer. *)
From stdpp Require Import base list numbers.
From Stdlib Require Import ZArith Lia.
From S2P Require Import Prelude ChannelModel SsdConfig Ssd Nvme Prp WorkQueue IoDev IoQueue.

Open Scope Z_scope.
Open Scope nvmev_scope.

Definition phase_at (size j : Z) : Z := 1 - (j / size) mod 2.
Definition cqe_phase (c : nvme_completion) : Z := cqe_status c mod 2.

(** The consumer: takes entries while they carry the expected phase. *)
Fixpoint host_poll (fuel : nat) (entries : list nvme_completion) (size head phase : Z)
  : list nvme_completion :=
  match fuel with
  | O => []
  | S fuel' =>
      match nthZ entries head with
      | Ok c =>
          if cqe_phase c =? phase then
            c :: (if head + 1 =? size then host_poll fuel' entries size 0 (1 - phase)
                  else host_poll fuel' entries size (head + 1) phase)
          else []
      | _ => []
      end
  end.

(** The completion of a request, but for its phase. *)
Definition cqe_of (phase : Z) (w : nvmev_io_work) : nvme_completion :=
  mk_cqe (w_result0 w) (w_result1 w) (u16 (w_sq_entry w)) (u16 (w_sqid w)) (u16 (w_command_id w))
    (u16 (Z.lor phase (Z.shiftl (w_status w) 1))).

Record cq_at (q : nvmev_completion_queue) (T : Z) : Prop := {
  ca_size : 0 < cq_queue_size q <= Z.of_nat (length (cq_entries q));
  ca_pos : 0 <= T;
  ca_head : cq_head q = T mod cq_queue_size q;
  ca_phase : cq_phase q = phase_at (cq_queue_size q) T;
  ca_entries : forall j, T - cq_queue_size q <= j < T ->
    exists c, nthZ (cq_entries q) (j mod cq_queue_size q) = Ok c /\
      cqe_phase c = phase_at (cq_queue_size q) j;
}.

Lemma phase_at_bit S j : phase_at S j = 0 \/ phase_at S j = 1.
Proof. unfold phase_at. pose proof (Z.mod_pos_bound (j / S) 2). lia. Qed.

Lemma phase_at_flip S j : 0 < S -> phase_at S (j - S) = 1 - phase_at S j.
Proof.
  intros HS. unfold phase_at. replace (j - S) with (j + (-1) * S) by lia. rewrite Z.div_add by lia.
  generalize (j / S) as x. intros x. change (x + -1) with (x - 1). rewrite Zminus_mod. change (1 mod 2) with 1.
  pose proof (Z.mod_pos_bound x 2 ltac:(lia)) as Hb.
  assert (x mod 2 = 0 \/ x mod 2 = 1) as [-> | ->] by (generalize dependent (x mod 2); lia); reflexivity.
Qed.

Lemma phase_at_next S j : 0 < S ->
  phase_at S (j + 1) = if j mod S + 1 =? S then 1 - phase_at S j else phase_at S j.
Proof.
  intros HS. pose proof (Z.mod_pos_bound j S HS). pose proof (Z.div_mod j S ltac:(lia)).
  destruct (Z.eqb_spec (j mod S + 1) S) as [E|E].
  - rewrite <- (phase_at_flip S j HS). unfold phase_at. f_equal. replace (j - S) with (j + (-1) * S) by lia.
    rewrite Z.div_add by lia. replace ((j + 1) / S) with (j / S + 1).
    + replace (j / S + 1) with (j / S + -1 + 1 * 2) by lia. by rewrite Z.mod_add.
    + apply (Z.div_unique_pos _ S _ 0); lia.
  - unfold phase_at. f_equal. f_equal. symmetry. apply (Z.div_unique_pos _ S _ (j mod S + 1)); lia.
Qed.

Lemma mod_next S j : 0 < S -> (j + 1) mod S = if j mod S + 1 =? S then 0 else j mod S + 1.
Proof.
  intros HS. pose proof (Z.mod_pos_bound j S HS). pose proof (Z.div_mod j S ltac:(lia)).
  destruct (Z.eqb_spec (j mod S + 1) S).
  - symmetry. apply (Z.mod_unique_pos _ S (j / S + 1)); lia.
  - symmetry. apply (Z.mod_unique_pos _ S (j / S)); lia.
Qed.

Lemma mod_window_inj S T i j : 0 < S -> T - S <= i < T -> T - S <= j < T -> i mod S = j mod S -> i = j.
Proof.
  intros HS Hi Hj E. pose proof (Z.div_mod i S ltac:(lia)). pose proof (Z.div_mod j S ltac:(lia)).
  assert (i / S = j / S); nia.
Qed.

Lemma cqe_of_phase p w : p = 0 \/ p = 1 -> cqe_phase (cqe_of p w) = p.
Proof.
  intros Hp. unfold cqe_phase, cqe_of, u16. simpl.
  rewrite <- (Znumtheory.Zmod_div_mod 2 65536) by (try lia; by exists 32768).
  rewrite <- Z.bit0_mod, Z.lor_spec, Z.shiftl_spec by lia. rewrite (Z.testbit_neg_r (w_status w)) by lia.
  rewrite orb_false_r, Z.bit0_mod. apply Z.mod_small. lia.
Qed.

Lemma post_cqe_spec q T w :
  cq_at q T ->
  exists q', post_cqe q w = Ok q' /\ cq_at q' (T + 1) /\ cq_queue_size q' = cq_queue_size q /\
    cq_interrupt_ready q' = true /\
    forall i, nthZ (cq_entries q') i =
      if i =? T mod cq_queue_size q then Ok (cqe_of (phase_at (cq_queue_size q) T) w)
      else nthZ (cq_entries q) i.
Proof.
  intros [[C1 C1'] C2 C3 C4 C5]. unfold post_cqe. set (S := cq_queue_size q) in *.
  pose proof (Z.mod_pos_bound T S C1) as Hm.
  rewrite C3, C4, updZ_Ok by lia. cbn [obind]. eexists. split; [reflexivity|]. simpl.
  fold (cqe_of (phase_at S T) w).
  assert (Hn : forall i, nthZ (<[Z.to_nat (T mod S):=cqe_of (phase_at S T) w]> (cq_entries q)) i =
    if i =? T mod S then Ok (cqe_of (phase_at S T) w) else nthZ (cq_entries q) i)
    by (intros i; apply nthZ_insert; lia).
  split; [|done]. split; simpl; fold S.
  - by rewrite length_insert.
  - lia.
  - by rewrite mod_next.
  - rewrite phase_at_next by done. destruct (_ =? S); [|done]. by destruct (phase_at_bit S T) as [-> | ->].
  - intros j Hj. rewrite Hn. destruct (decide (j = T)) as [->|Hne].
    + rewrite Z.eqb_refl. eexists. split; [done|]. apply cqe_of_phase, phase_at_bit.
    + rewrite (proj2 (Z.eqb_neq _ _)); [apply C5; lia|]. intros E. apply Hne.
      by apply (mod_window_inj S (T + 1)); [|lia|lia|].
Qed.

(** Posting a sequence of completions. *)
Definition post_all (q : nvmev_completion_queue) (ws : list nvmev_io_work) : outcome nvmev_completion_queue :=
  foldO post_cqe q ws.

Fixpoint cqes_from (S T : Z) (ws : list nvmev_io_work) : list nvme_completion :=
  match ws with
  | [] => []
  | w :: ws' => cqe_of (phase_at S T) w :: cqes_from S (T + 1) ws'
  end.

Lemma post_all_spec ws q T :
  cq_at q T -> Z.of_nat (length ws) <= cq_queue_size q ->
  exists q', post_all q ws = Ok q' /\ cq_at q' (T + Z.of_nat (length ws)) /\
    cq_queue_size q' = cq_queue_size q /\
    (forall i c, cqes_from (cq_queue_size q) T ws !! i = Some c ->
       nthZ (cq_entries q') ((T + Z.of_nat i) mod cq_queue_size q) = Ok c) /\
    (forall j, T - cq_queue_size q + Z.of_nat (length ws) <= j < T ->
       nthZ (cq_entries q') (j mod cq_queue_size q) = nthZ (cq_entries q) (j mod cq_queue_size q)).
Proof.
  revert q T. induction ws as [|w ws IH]; intros q T C Hl.
  { exists q. rewrite Z.add_0_r. by split_and!. }
  simpl in Hl. destruct (post_cqe_spec q T w C) as (q1 & E1 & C1 & S1 & _ & N1).
  destruct (IH q1 (T + 1) C1) as (q2 & E2 & C2 & S2 & N2 & K2); [rewrite S1; lia|].
  pose proof (ca_size _ _ C) as [HS _]. rewrite S1 in *.
  exists q2. unfold post_all in *. simpl. rewrite E1. cbn [obind]. split; [done|].
  split; [by replace (T + Z.of_nat (S (length ws))) with (T + 1 + Z.of_nat (length ws)) by lia|].
  split; [done|]. split.
  - intros [|i] c Hi; simpl in Hi.
    + injection Hi as <-. rewrite Z.add_0_r, K2 by lia. by rewrite N1, Z.eqb_refl.
    + replace (T + Z.of_nat (S i)) with (T + 1 + Z.of_nat i) by lia. by apply N2.
  - intros j Hj. rewrite K2 by lia. rewrite N1. rewrite (proj2 (Z.eqb_neq _ _)); [done|]. intros E.
    assert (j = T); [|lia]. by apply (mod_window_inj (cq_queue_size q) (T + 1)); [|lia|lia|].
Qed.

Lemma cqes_phase S T ws i c : cqes_from S T ws !! i = Some c -> cqe_phase c = phase_at S (T + Z.of_nat i).
Proof.
  revert T i. induction ws as [|w ws IH]; intros T i Hi; [done|]. destruct i as [|i]; simpl in Hi.
  - injection Hi as <-. rewrite Z.add_0_r. apply cqe_of_phase, phase_at_bit.
  - apply IH in Hi. rewrite Hi. f_equal. lia.
Qed.

Lemma length_cqes S T ws : length (cqes_from S T ws) = length ws.
Proof. revert T. induction ws; intros T; simpl; auto. Qed.

Lemma host_poll_spec S entries cs T fuel :
  0 < S -> (length cs < fuel)%nat ->
  (forall i c, cs !! i = Some c -> nthZ entries ((T + Z.of_nat i) mod S) = Ok c /\ cqe_phase c = phase_at S (T + Z.of_nat i)) ->
  (exists c, nthZ entries ((T + Z.of_nat (length cs)) mod S) = Ok c /\ cqe_phase c <> phase_at S (T + Z.of_nat (length cs))) ->
  host_poll fuel entries S (T mod S) (phase_at S T) = cs.
Proof.
  intros HS. revert T fuel. induction cs as [|c cs IH]; intros T fuel Hf Hc (e & He & Hp).
  - destruct fuel; [simpl in Hf; lia|]. simpl in *. rewrite Z.add_0_r in He, Hp. rewrite He.
    by rewrite (proj2 (Z.eqb_neq _ _) Hp).
  - destruct fuel as [|fuel]; simpl in Hf; [lia|]. destruct (Hc 0%nat c eq_refl) as [H1 H2]. rewrite Z.add_0_r in H1, H2.
    simpl. rewrite H1, H2, Z.eqb_refl. f_equal.
    assert (IH' : host_poll fuel entries S ((T + 1) mod S) (phase_at S (T + 1)) = cs).
    { apply IH; [lia|..].
      - intros i x Hx. specialize (Hc (Datatypes.S i) x Hx).
        by replace (T + 1 + Z.of_nat i) with (T + Z.of_nat (Datatypes.S i)) by lia.
      - exists e. simpl in He, Hp. by replace (T + 1 + Z.of_nat (length cs)) with (T + Z.of_nat (Datatypes.S (length cs))) by lia. }
    rewrite mod_next, phase_at_next in IH' by done. by destruct (T mod S + 1 =? S).
Qed.

(** The host receives what was posted. *)
Lemma post_all_polled q T ws :
  cq_at q T -> Z.of_nat (length ws) <= cq_queue_size q ->
  exists q', post_all q ws = Ok q' /\ cq_at q' (T + Z.of_nat (length ws)) /\
    host_poll (S (length ws)) (cq_entries q') (cq_queue_size q) (T mod cq_queue_size q)
      (phase_at (cq_queue_size q) T) = cqes_from (cq_queue_size q) T ws.
Proof.
  intros C Hl. destruct (post_all_spec ws q T C Hl) as (q' & E & C' & ES & Hn & Hk).
  exists q'. split; [done|]. split; [done|]. pose proof (ca_size _ _ C) as [HS _].
  set (Sz := cq_queue_size q) in *. apply host_poll_spec; [done|rewrite length_cqes; lia|..].
  - intros i c Hi. split; [by apply Hn|by apply (cqes_phase Sz T ws)].
  - rewrite length_cqes. set (n := Z.of_nat (length ws)) in *.
    assert (Hne : phase_at Sz (T + n - Sz) <> phase_at Sz (T + n)).
    { rewrite phase_at_flip by done. destruct (phase_at_bit Sz (T + n)) as [-> | ->]; lia. }
    destruct (ca_entries _ _ C' (T + n - Sz)) as (c & Hc & Hp); [rewrite ES; lia|]. rewrite ES in Hc, Hp.
    fold Sz in Hc, Hp. exists c. rewrite Hp. split; [|done]. rewrite <- Hc. f_equal.
    replace (T + n) with (T + n - Sz + 1 * Sz) at 1 by lia. by rewrite Z.mod_add by lia.
Qed.

(** The slots of a ring that a doorbell passes over. *)
Fixpoint ring_slots (size start : Z) (n : nat) : list Z :=
  match n with
  | O => []
  | S n' => start :: ring_slots size (if start + 1 =? size then 0 else start + 1) n'
  end.

Lemma ring_slots_range size start n x : 0 <= start < size -> x ∈ ring_slots size start n -> 0 <= x < size.
Proof.
  revert start. induction n as [|n IH]; intros start Hs Hx; [by apply elem_of_nil in Hx|]. simpl in Hx.
  apply elem_of_cons in Hx as [->|Hx]; [done|]. revert Hx. apply IH. destruct (Z.eqb_spec (start + 1) size); lia.
Qed.

Lemma length_ring_slots size start n : length (ring_slots size start n) = n.
Proof. revert start. induction n; intros start; simpl; auto. Qed.

(** Command, identifier and status of a completion. *)
Definition cqe_answer (e : nvme_completion) : Z * Z * Z := (cqe_sq_head e, cqe_command_id e, Z.shiftr (cqe_status e) 1).
Definition work_answer (w : nvmev_io_work) : Z * Z * Z := (u16 (w_sq_entry w), u16 (w_command_id w), w_status w).

Lemma cqes_answers S T ws :
  Forall (fun w => w_status w = 0 \/ w_status w = 1) ws -> map cqe_answer (cqes_from S T ws) = map work_answer ws.
Proof.
  revert T. induction ws as [|w ws IH]; intros T Hw; simpl; [done|]. apply Forall_cons_1 in Hw as [Hs Hw].
  rewrite IH by done. f_equal. unfold cqe_answer, work_answer, cqe_of. simpl. f_equal.
  destruct (phase_at_bit S T) as [-> | ->], Hs as [-> | ->]; reflexivity.
Qed.
