(* ===== verification/IoDeliver.v ===== *)
(** * IoDeliver: from the list of a worker to the host

    What a round of a worker means to the host that waits on a completion queue:
    the requests of the list that are due appear in the ring, in the order of
    the list, and then the interrupt of the queue is raised.  Lemmas about one
    visit, the scan and the loop over the interrupts. *)
From stdpp Require Import base list numbers sorting sets.
From Stdlib Require Import ZArith Lia.
From S2P Require Import Prelude ChannelModel SsdConfig Ssd Nvme Prp.
From S2P Require Import WorkQueue WorkQueueSpec IoDev IoQueue IoSteps IoCalls CqRing.

Open Scope Z_scope.
Open Scope nvmev_scope.

(** The requests that complete into a queue. *)
Definition for_cq (cqid : Z) (l : list io_tag) : list io_tag := filter (fun t => t_cqid t = cqid) l.

Lemma cqes_seen S T ws : map cqe_seen (cqes_from S T ws) = map tag_seen (map tag_of ws).
Proof. revert T. induction ws as [|w ws IH]; intros T; simpl; [done|]. by rewrite IH. Qed.

Lemma post_all_app q ws ws' q1 : post_all q ws = Ok q1 -> post_all q (ws ++ ws') = post_all q1 ws'.
Proof. unfold post_all. intros E. by rewrite foldO_app, E. Qed.

(** Attributes of the queue that completions leave alone. *)
Definition same_cq (q q' : nvmev_completion_queue) : Prop :=
  cq_queue_size q' = cq_queue_size q /\ cq_irq_vector q' = cq_irq_vector q /\ cq_irq_enabled q' = cq_irq_enabled q.

Lemma post_all_same q ws q' : post_all q ws = Ok q' -> same_cq q q' /\ (ws <> [] -> cq_interrupt_ready q' = true).
Proof.
  unfold post_all. revert q. induction ws as [|w ws IH]; intros q E; simpl in E; [by injection E as <-|].
  destruct (post_cqe q w) as [q1| | |] eqn:E1; try done. cbn [obind] in E.
  destruct (IH q1 E) as [(S1 & S2 & S3) R]. unfold post_cqe in E1.
  destruct (updZ _ _ _) as [es| | |]; try done. cbn [obind] in E1. injection E1 as <-. simpl in *.
  split; [by split_and!|]. intros _. destruct ws; [by injection E as <-|by apply R].
Qed.

Section Deliver.
Context {F : Type} `{IoHandler F} `{Clock}.
Implicit Type d : nvmev_dev F.

(** The fields that interrupts depend on. *)
Definition same_irq d d' : Prop :=
  d_irqs d' = d_irqs d /\ d_nr_cq d' = d_nr_cq d /\ d_nr_io_workers d' = d_nr_io_workers d.

Lemma copy_data_frame d w d' w' : copy_data d w = Ok (d', w') -> d_cqes d' = d_cqes d /\ same_irq d d'.
Proof.
  unfold copy_data. destruct (w_is_copied w); [intros E; by injection E as <- <-|].
  destruct (w_is_internal w); intros E; [by injection E as <- <-|]. destruct (get_sq _ _) as [q| | |]; try done. cbn [obind] in E. destruct (sq_entry _ _) as [cmd| | |]; try done.
  cbn [obind] in E. destruct (nthZ _ _) as [ns| | |]; try done. cbn [obind] in E.
  destruct (perform_io _ _ _ _ _) as [[[[ns' host'] st] r0]| | |]; try done. cbn [obind] in E.
  destruct (updZ _ _ _) as [l| | |]; try done. by injection E as <- <-.
Qed.

Lemma get_put_cq d i q d' j :
  put_cq d i q = Ok d' -> get_cq d' j = if j =? i then Ok q else get_cq d j.
Proof.
  unfold put_cq, get_cq. destruct (updZ (d_cqes d) i (Some q)) as [l| | |] eqn:E; try done. intros [= <-].
  apply updZ_inv in E as [Hi ->]. simpl. rewrite nthZ_insert by done. by destruct (j =? i).
Qed.

(** The completion of a request is one entry in its queue. *)
Lemma complete_posts d w d' cqid q :
  complete d w = Ok d' -> get_cq d cqid = Ok q -> w_is_completed w = false ->
  exists ws q', get_cq d' cqid = Ok q' /\ post_all q ws = Ok q' /\ map tag_of ws = for_cq cqid (pending w) /\ same_irq d d'.
Proof.
  intros E Hq Hc. unfold complete in E. unfold pending. rewrite Hc, orb_false_r. destruct (w_is_internal w).
  - destruct (w_write_buffer w) as [nsid buf]. destruct (nthZ _ _) as [ns| | |]; try done. cbn [obind] in E.
    destruct (release_buffer _ _ _) as [ns'| | |]; try done. cbn [obind] in E.
    destruct (updZ _ _ _) as [l| | |]; try done. injection E as <-. by exists [], q.
  - unfold __fill_cq_result in E. destruct (get_cq d (w_cqid w)) as [q1| | |] eqn:E1; try done. cbn [obind] in E.
    destruct (post_cqe q1 w) as [q2| | |] eqn:E2; try done. cbn [obind] in E.
    pose proof (get_put_cq _ _ _ _ cqid E) as Hg.
    assert (Hs : same_irq d d').
    { unfold put_cq in E. destruct (updZ _ _ _) as [l| | |]; try done. by injection E as <-. }
    unfold for_cq. rewrite filter_cons. simpl. rewrite filter_nil. destruct (Z.eqb_spec cqid (w_cqid w)) as [->|Hne].
    + rewrite decide_True by done. exists [w], q2. split; [done|]. assert (q1 = q) as -> by congruence.
      unfold post_all. simpl. by rewrite E2.
    + rewrite decide_False by congruence. exists [], q. by rewrite Hg.
Qed.

Lemma pend_work k e w : work k e = Ok w -> pend k e = pending w.
Proof. unfold pend, work. by intros ->. Qed.

Lemma visit_posts d wi e delta k w d' cqid q :
  worker_visit d wi e delta = Ok d' -> get_worker d wi = Ok k -> work k e = Ok w ->
  (forall n, w_nsecs_target w <= u64 (cpu_clock n + delta)) -> get_cq d cqid = Ok q ->
  exists ws q' k', get_cq d' cqid = Ok q' /\ post_all q ws = Ok q' /\ map tag_of ws = for_cq cqid (pending w) /\
    same_irq d d' /\ get_worker d' wi = Ok k' /\ worker_id k' = worker_id k.
Proof.
  intros E Hk Hw Hlate Hq. unfold worker_visit in E. rewrite Hk in E. cbn [obind local_clock] in E. rewrite Hw in E.
  cbn [obind] in E. set (now := u64 _) in E. set (d1 := set_dclk d _) in E.
  assert (Hput : forall d2 k2 d3, d_io_workers d2 = d_io_workers d -> put_worker d2 wi k2 = Ok d3 ->
    get_cq d3 cqid = get_cq d2 cqid /\ same_irq d2 d3 /\ get_worker d3 wi = Ok k2).
  { intros d2 k2 d3 Hd E3. unfold put_worker in E3. rewrite Hd in E3.
    destruct (updZ _ _ _) as [l| | |] eqn:El; try done. injection E3 as <-. split; [done|]. split; [done|].
    apply updZ_inv in El as [Hi ->]. unfold get_worker. simpl.
    rewrite nthZ_insert by done. by rewrite Z.eqb_refl. }
  destruct (w_is_completed w) eqn:Ec.
  { destruct (Hput d1 _ _ eq_refl E) as (G & I & K). exists [], q, (set_latest k now). split; [by rewrite G|]. split; [done|].
    split; [|by split]. unfold pending. by rewrite Ec, orb_true_r. }
  destruct (copy_data d1 w) as [[d2 w2]| | |] eqn:E2; try done. cbn [obind] in E.
  destruct (copy_data_spec _ _ _ _ E2) as (D2 & N2 & _ & S2 & C2 & _). destruct (copy_data_frame _ _ _ _ E2) as [Q2 I2].
  pose proof (same_request_tag _ _ S2) as (Tg & _ & _ & Ti & Tt).
  rewrite (proj2 (Z.leb_le _ _)) in E by (rewrite Tt; apply Hlate).
  destruct (complete d2 w2) as [d3| | |] eqn:E3; try done. cbn [obind] in E. destruct (complete_spec _ _ _ E3) as [D3 _].
  destruct (complete_posts d2 w2 d3 cqid q E3) as (ws & q' & G3 & P3 & T3 & I3); [|by rewrite C2|].
  { unfold get_cq. by rewrite Q2. }
  destruct (with_work _ e _) as [k'| | |] eqn:E4; try done. cbn [obind] in E.
  destruct (Hput d3 _ _ ltac:(by rewrite D3, D2) E) as (G & I & K). exists ws, q', k'.
  split; [by rewrite G|]. split; [done|]. split; [|split; [|split; [done|]]].
  - rewrite T3. unfold pending. by rewrite Ti, C2, Ec, Tg.
  - destruct I as (? & ? & ?), I2 as (? & ? & ?), I3 as (? & ? & ?). split_and!; simpl in *; congruence.
  - unfold with_work in E4. destruct (alterZ _ _ _) as [l| | |]; try done. by injection E4 as <-.
Qed.

Lemma same_irq_trans d1 d2 d3 : same_irq d1 d2 -> same_irq d2 d3 -> same_irq d1 d3.
Proof. intros (? & ? & ?) (? & ? & ?). split_and!; congruence. Qed.

Lemma for_cq_app cqid l l' : for_cq cqid (l ++ l') = for_cq cqid l ++ for_cq cqid l'.
Proof. apply filter_app. Qed.

Lemma flat_map_same {A B} (f g : A -> list B) l : (forall x, x ∈ l -> f x = g x) -> flat_map f l = flat_map g l.
Proof. induction l as [|x l IH]; intros Hf; simpl; [done|]. rewrite Hf by set_solver. rewrite IH; [done|]. intros; apply Hf. set_solver. Qed.

Context `{!IoHandlerEnds F}.

(** A scan posts the requests of the rest [b] of the list, in its order. *)
Lemma scan_posts fuel d wi delta k io fr a b d' cqid q :
  get_worker d wi = Ok k -> wq_lists k io fr [] -> io = a ++ b ->
  (forall n x, x ∈ io -> target_at k x <= u64 (cpu_clock n + delta)) -> copied_first k ->
  get_cq d cqid = Ok q -> worker_scan fuel d wi (hdZ b) delta = Ok d' ->
  exists ws q' k', get_cq d' cqid = Ok q' /\ post_all q ws = Ok q' /\
    map tag_of ws = for_cq cqid (flat_map (pend k) b) /\ same_irq d d' /\
    get_worker d' wi = Ok k' /\ worker_id k' = worker_id k.
Proof.
  revert d k a b q. induction fuel as [|fuel IH]; intros d k a b q Hk W Eb Hlate Hcf Hq E; (destruct b as [|e b];
    [simpl in E; injection E as <-; by exists [], q, k|]); simpl in E; change (hdZ (e :: b)) with e in E;
    assert (He : e ∈ io) by (rewrite Eb; set_solver);
    rewrite (proj2 (Z.eqb_neq e NIL)) in E by (apply (wl_not_nil _ _ _ _ W); set_solver); [done|].
  destruct (worker_visit d wi e delta) as [d1| | |] eqn:E1; try done. cbn [obind] in E.
  destruct (wl_work _ _ _ _ W e) as [w Hw]; [apply (wl_range _ _ _ _ W); set_solver|].
  pose proof (visit_late d wi e delta k io fr Hk W He (fun n => Hlate n e He) Hcf) as Hv. rewrite E1 in Hv.
  destruct Hv as (k1 & Hk1 & W1 & _ & Ht1 & Hy1 & Hcf1 & _).
  destruct (visit_posts d wi e delta k w d1 cqid q E1 Hk Hw) as (ws & q1 & k1' & G1 & P1 & T1 & I1 & K1 & Id1); [|done|].
  { intros n. specialize (Hlate n e He). unfold target_at in Hlate. by rewrite Hw in Hlate. }
  assert (k1' = k1) as -> by congruence. rewrite Hk1 in E. cbn [obind] in E.
  pose proof (wl_io_next _ _ _ _ W1) as Hs. rewrite Eb in Hs. apply seg_app in Hs as [_ [(w1 & Hw1 & Hn) _]].
  unfold work in E. rewrite Hw1 in E. cbn [obind] in E. rewrite Hn in E. fold (hdZ b) in E.
  destruct (IH d1 k1 (a ++ [e]) b q1 Hk1 W1) as (ws2 & q2 & k2 & G2 & P2 & T2 & I2 & K2 & Id2); try done.
  - by rewrite Eb, <- app_assoc.
  - intros n x Hx. destruct (decide (x = e)) as [->|Hne]; [rewrite Ht1; by apply Hlate|].
    unfold target_at. rewrite Hy1 by done. by apply Hlate.
  - exists (ws ++ ws2), q2, k2. split; [done|]. split; [by rewrite (post_all_app _ _ _ _ P1)|].
    split; [|split; [by eapply same_irq_trans|split; [done|congruence]]].
    simpl. rewrite map_app, for_cq_app, T1, T2, (pend_work _ _ _ Hw). do 2 f_equal. apply flat_map_same. intros x Hx.
    unfold pend. rewrite Hy1; [done|]. intros ->. pose proof (wl_nodup _ _ _ _ W) as Hnd. rewrite Eb in Hnd.
    rewrite <- app_assoc in Hnd. apply NoDup_app in Hnd as (_ & _ & Hnd). simpl in Hnd. apply NoDup_cons in Hnd as [Hnd _]. set_solver.
Qed.

(** The interrupts leave the rings alone; the queue of the worker signals. *)
Lemma irqs_signal d wi d' k cqid q :
  worker_irqs d wi = Ok d' -> get_worker d wi = Ok k -> get_cq d cqid = Ok q -> 0 <= d_nr_cq d ->
  exists b l, get_cq d' cqid = Ok (set_interrupt_ready q b) /\ d_irqs d' = d_irqs d ++ l /\
    (1 <= cqid <= d_nr_cq d -> __get_io_worker d cqid = Ok (worker_id k) -> cq_irq_enabled q = true ->
     cq_interrupt_ready q = true -> cq_irq_vector q ∈ l).
Proof.
  intros E Hk Hq Hn. unfold worker_irqs in E. rewrite Hk in E. cbn [obind] in E.
  pose (P := fun (i : Z) d1 => d_nr_io_workers d1 = d_nr_io_workers d /\ exists b l,
    get_cq d1 cqid = Ok (set_interrupt_ready q b) /\ d_irqs d1 = d_irqs d ++ l /\ (i <= cqid -> b = cq_interrupt_ready q) /\
    (1 <= cqid < i -> __get_io_worker d cqid = Ok (worker_id k) -> cq_irq_enabled q = true ->
     cq_interrupt_ready q = true -> cq_irq_vector q ∈ l)).
  assert (HP : P (d_nr_cq d + 1) d').
  { eapply (forO_Ok_ind P _ _ _ _ _ E); [lia| |].
    { split; [done|]. exists (cq_interrupt_ready q), []. split; [by destruct q|]. rewrite app_nil_r. split_and!; [done|done|lia]. }
    intros i d1 d2 Hi [N1 (b & l & G & L & B & S)] E1.
    destruct (nthZ (d_cqes d1) i) as [r| | |] eqn:Er; try done. cbn [obind] in E1.
    assert (Hw : __get_io_worker d1 i = __get_io_worker d i) by (unfold __get_io_worker; by rewrite N1). rewrite Hw in E1.
    assert (Hr : i = cqid -> r = Some (set_interrupt_ready q b)).
    { intros ->. unfold get_cq in G. rewrite Er in G. cbn [obind] in G. destruct r; [|done]. simpl in G. congruence. }
    destruct (__get_io_worker d i) as [turn| | |] eqn:Et; try done. cbn [obind] in E1.
    assert (Hskip : d2 = d1 -> (i = cqid -> turn = worker_id k -> cq_irq_enabled q = true -> b = true -> False) -> P (i + 1) d2).
    { intros -> Hno. split; [done|]. exists b, l. split; [done|]. split; [done|]. split; [intros; apply B; lia|].
      intros Hc Hwk He Hrdy. destruct (decide (i = cqid)) as [->|]; [|apply S; try done; lia]. exfalso. apply Hno; try done; [congruence|].
      by rewrite B. }
    destruct (Z.eqb_spec (worker_id k) turn) as [Eid|Eid]; simpl in E1; [|apply Hskip; congruence].
    destruct r as [q1|]; [|apply Hskip; [congruence|]; intros Hc; by specialize (Hr Hc)].
    destruct (cq_irq_enabled q1) eqn:Een; simpl in E1.
    2: { apply Hskip; [congruence|]. intros Hc _ He _. specialize (Hr Hc). injection Hr as ->. simpl in Een. congruence. }
    destruct (cq_interrupt_ready q1) eqn:Erd.
    2: { apply Hskip; [congruence|]. intros Hc _ _ Hb. specialize (Hr Hc). injection Hr as ->. simpl in Erd. congruence. }
    destruct (put_cq d1 i _) as [d3| | |] eqn:E3; try done. cbn [obind] in E1. injection E1 as <-.
    pose proof (get_put_cq _ _ _ _ cqid E3) as G3. unfold put_cq in E3. destruct (updZ _ _ _) as [es| | |]; try done.
    injection E3 as <-. split; [done|]. simpl. destruct (Z.eqb_spec cqid i) as [->|Hne].
    - specialize (Hr eq_refl). injection Hr as ->. exists false, (l ++ [cq_irq_vector q]).
      split; [exact G3|]. split; [by rewrite L, app_assoc|]. split; [lia|]. intros _ _ _ _. set_solver.
    - exists b, (l ++ [cq_irq_vector q1]). split; [unfold get_cq in *; simpl in *; by rewrite G3|]. split; [by rewrite L, app_assoc|].
      split; [intros; apply B; lia|]. intros Hc Hwk He Hrdy. apply elem_of_app. left. apply S; try done. lia. }
  destruct HP as [_ (b & l & G & L & _ & S)]. exists b, l. split; [done|]. split; [done|]. intros Hc. apply S. lia.
Qed.

Lemma irqs_ends d wi : worker_irqs d wi <> NoFuel.
Proof.
  unfold worker_irqs, get_worker. pose proof (nthZ_not_nofuel (d_io_workers d) wi) as Hn.
  destruct (nthZ (d_io_workers d) wi) as [k| | |]; try done. cbn [obind]. unfold forO.
  generalize (seqZ 1 (d_nr_cq d + 1 - 1)) as l. intros l. revert d Hn. induction l as [|i l IH]; intros d Hn; [done|]. cbn [foldO].
  pose proof (nthZ_not_nofuel (d_cqes d) i). destruct (nthZ (d_cqes d) i) as [r| | |]; try done. cbn [obind].
  assert (__get_io_worker d i <> NoFuel) by (unfold __get_io_worker, modO; by destruct (_ =? 0)).
  destruct (__get_io_worker d i) as [turn| | |]; try done. cbn [obind].
  destruct (negb _); [by apply IH|]. destruct r as [q|]; [|by apply IH]. destruct (negb _); [by apply IH|].
  destruct (cq_interrupt_ready q); [|by apply IH]. unfold put_cq. pose proof (updZ_not_nofuel (d_cqes d) i (Some (set_interrupt_ready q false))).
  destruct (updZ _ _ _); try done. cbn [obind]. by apply IH.
Qed.

(** What the invariant says of the list of a worker. *)
Lemma round_lists d pcs wi k :
  io_inv (d, pcs) -> get_worker d wi = Ok k ->
  copied_first k /\ exists io fr, wq_lists k io fr [] /\ io_seq k = hdZ io /\
    worker_pending k = flat_map (pend k) io /\ (length io <= length (work_queue k))%nat /\
    forall x, x ∈ io -> exists w, work k x = Ok w /\ w ∈ walk (length (work_queue k)) k (io_seq k).
Proof.
  intros I Hk. destruct (ii_workers _ I wi k Hk) as (Hcf & io & fr & W & _). split; [done|]. exists io, fr.
  pose proof (wl_len _ _ _ _ W) as Hlen. pose proof (wl_count _ _ _ _ W) as Hcnt.
  assert (Hl : (length io <= length (work_queue k))%nat) by lia.
  split; [done|]. split; [apply W|]. split; [apply (worker_pending_lists _ _ _ _ W)|]. split; [done|].
  intros x Hx. destruct (seg_in _ _ _ _ x (wl_io_next _ _ _ _ W) Hx) as [w Hw]. exists w. split; [done|].
  rewrite (wl_io _ _ _ _ W). by apply (walk_in k io fr [] [] io _ x).
Qed.

Lemma finished_pending k io fr : wq_lists k io fr [] -> Forall (finished_at k) io -> worker_pending k = [].
Proof.
  intros W Hf. rewrite (worker_pending_lists _ _ _ _ W). clear W. induction Hf as [|x l (w & Hw & Hc & _) _ IH]; simpl; [done|].
  rewrite IH. unfold pend, pending. by rewrite Hw, Hc, orb_true_r.
Qed.
End Deliver.
