(* ===== verification/Admin.v ===== *)
(** * Admin: the administration queue (src/admin.c)

    Commands of the administration queue create and delete I/O queues, set the
    number of queues, and fill pages of the host with the descriptions of
    controller, namespaces and logs.  The pages of a new queue are decoded from
    host memory once; from then on they are arrays of entries. *)
From Stdlib Require Import Strings.String Strings.Ascii.
From stdpp Require Import base list numbers.
From Stdlib Require Import ZArith Lia.
From S2P Require Import Prelude ChannelModel SsdConfig Ssd Nvme Prp HostMem.
From S2P Require Import WorkQueue IoDev IoQueue ZnsData.

Open Scope Z_scope.
Open Scope nvmev_scope.

(** ** Controller state (src/nvmev.h) *)

(** [struct nvme_ctrl_regs] and [struct __nvme_bar]: the same words. *)
Record nvme_bar := mk_bar {
  r_cap : Z;
  r_vs : Z;
  r_intms : Z;
  r_intmc : Z;
  r_cc : Z;
  r_rsvd1 : Z;
  r_csts : Z;
  r_nssr : Z;
  r_aqa : Z;
  r_asq : Z;
  r_acq : Z;
  r_cmbloc : Z;
  r_cmbsz : Z;
}.

(** [None] is a queue whose pages are not mapped yet. *)
Record nvmev_admin_queue := mk_aq {
  aq_phase : Z;
  aq_sq_depth : Z;
  aq_cq_depth : Z;
  aq_cq_head : Z;
  aq_nvme_sq : option (list nvme_command);
  aq_nvme_cq : option (list nvme_completion);
}.

Record nvmev_ctrl (F : Type) := mk_ctrl {
  c_dev : nvmev_dev F;
  c_admin_q : option nvmev_admin_queue;
  c_dbs : list Z;
  c_old_dbs : list Z;
  c_bar : nvme_bar;
  c_old_bar : nvme_bar;
  c_nr_ns : Z;
  c_mdts : Z;
}.
Arguments mk_ctrl {F}.
Arguments c_dev {F}.
Arguments c_admin_q {F}.
Arguments c_dbs {F}.
Arguments c_old_dbs {F}.
Arguments c_bar {F}.
Arguments c_old_bar {F}.
Arguments c_nr_ns {F}.
Arguments c_mdts {F}.

(** What the identify commands read of a namespace. *)
Class NsInfo (F : Type) := {
  info_size : F -> Z;
  info_csi : F -> Z;
  info_zpp : F -> option znsparams;
}.

Section Setters.
Context {F : Type}.
Implicit Type c : nvmev_ctrl F.
Definition set_dev c (d : nvmev_dev F) : nvmev_ctrl F := mk_ctrl d (c_admin_q c) (c_dbs c) (c_old_dbs c) (c_bar c) (c_old_bar c) (c_nr_ns c) (c_mdts c).
Definition set_aq c q := mk_ctrl (c_dev c) (Some q) (c_dbs c) (c_old_dbs c) (c_bar c) (c_old_bar c) (c_nr_ns c) (c_mdts c).
Definition set_dbs c l o := mk_ctrl (c_dev c) (c_admin_q c) l o (c_bar c) (c_old_bar c) (c_nr_ns c) (c_mdts c).
Definition set_bars c b o := mk_ctrl (c_dev c) (c_admin_q c) (c_dbs c) (c_old_dbs c) b o (c_nr_ns c) (c_mdts c).

(** The pages of the host. *)
Definition c_host c : mem := d_host (c_dev c).
Definition set_host c (m : mem) := set_dev c (set_ns (c_dev c) (d_ns (c_dev c)) m).
Definition set_nr_queues (d : nvmev_dev F) (nsq ncq : Z) : nvmev_dev F :=
  mk_dev (d_sqes d) (d_cqes d) (d_ns d) (d_host d) (d_clk d) (d_io_workers d) (d_io_worker_turn d)
    (d_nr_io_workers d) nsq ncq (d_irqs d).

Definition get_aq c : outcome nvmev_admin_queue := of_option (c_admin_q c).
Definition nvmev_signal_irq c (vector : Z) := set_dev c (set_irqs (c_dev c) (d_irqs (c_dev c) ++ [vector])).
End Setters.

(** ** Queue pages *)
Definition NR_SQE_PER_PAGE : Z := PAGE_SIZE / 64.
Definition NR_CQE_PER_PAGE : Z := PAGE_SIZE / 16.

Definition decode_sqe (m : mem) (a : Z) : nvme_command :=
  mk_nvme_command (get_le m a 1) (get_le m (a + 1) 1) (get_le m (a + 2) 2) (get_le m (a + 4) 4)
    (get_le m (a + 8) 4) (get_le m (a + 12) 4) (get_le m (a + 16) 8) (get_le m (a + 24) 8) (get_le m (a + 32) 8)
    (get_le m (a + 40) 4) (get_le m (a + 44) 4) (get_le m (a + 48) 4) (get_le m (a + 52) 4)
    (get_le m (a + 56) 4) (get_le m (a + 60) 4).
Definition decode_cqe (m : mem) (a : Z) : nvme_completion :=
  mk_cqe (get_le m a 4) (get_le m (a + 4) 4) (get_le m (a + 8) 2) (get_le m (a + 10) 2)
    (get_le m (a + 12) 2) (get_le m (a + 14) 2).

(** The entries of [n] pages from address [a]. *)
Definition sq_pages (m : mem) (a n : Z) : list nvme_command :=
  map (fun i => decode_sqe m (a + 64 * i)) (seqZ 0 (n * NR_SQE_PER_PAGE)).
Definition cq_pages (m : mem) (a n : Z) : list nvme_completion :=
  map (fun i => decode_cqe m (a + 16 * i)) (seqZ 0 (n * NR_CQE_PER_PAGE)).

(** ** Views of an administration command (src/nvme.h) *)
Definition q_id (c : nvme_command) : Z := getf (cdw10 c) 0 16. (* cqid, sqid, qid *)
Definition q_size (c : nvme_command) : Z := getf (cdw10 c) 16 16.
Definition q_flags (c : nvme_command) : Z := getf (cdw11 c) 0 16.
Definition q_high (c : nvme_command) : Z := getf (cdw11 c) 16 16. (* irq_vector, cqid of a submission queue *)
Definition log_lid (c : nvme_command) : Z := getf (cdw10 c) 0 8.
Definition log_numdl (c : nvme_command) : Z := getf (cdw10 c) 16 16.
Definition log_numdu (c : nvme_command) : Z := getf (cdw11 c) 0 16.
Definition id_cns (c : nvme_command) : Z := cdw10 c.
Definition feat_fid (c : nvme_command) : Z := cdw10 c.
Definition feat_dword11 (c : nvme_command) : Z := cdw11 c.

Definition nvme_admin_delete_sq : Z := 0.
Definition nvme_admin_create_sq : Z := 1.
Definition nvme_admin_get_log_page : Z := 2.
Definition nvme_admin_delete_cq : Z := 4.
Definition nvme_admin_create_cq : Z := 5.
Definition nvme_admin_identify : Z := 6.
Definition nvme_admin_abort_cmd : Z := 8.
Definition nvme_admin_set_features : Z := 9.
Definition nvme_admin_get_features : Z := 10.
Definition nvme_admin_async_event : Z := 12.
Definition NVME_FEAT_NUM_QUEUES : Z := 7.
Definition NVME_LOG_SMART : Z := 2.
Definition NVME_LOG_CMD_EFFECTS : Z := 5.
Definition NVME_SC_INVALID_OPCODE : Z := 1.
(** Bits of the flags. *)
Definition NVME_QUEUE_PHYS_CONTIG (flags : Z) : bool := Z.testbit flags 0.
Definition NVME_CQ_IRQ_ENABLED (flags : Z) : bool := Z.testbit flags 1.

(** ** Completions *)
Definition aq_sq_entry (q : nvmev_admin_queue) (eid : Z) : outcome nvme_command :=
  let* l := of_option (aq_nvme_sq q) in nthZ l eid.

Definition aq_post (q : nvmev_admin_queue) (e : nvme_completion) : outcome nvmev_admin_queue :=
  let* es := of_option (aq_nvme_cq q) in
  let* es := updZ es (aq_cq_head q) e in
  let cq_head := aq_cq_head q + 1 in
  let wrap := cq_head =? aq_cq_depth q in
  Ok (mk_aq (if wrap then (if aq_phase q =? 0 then 1 else 0) else aq_phase q) (aq_sq_depth q) (aq_cq_depth q)
        (if wrap then 0 else cq_head) (aq_nvme_sq q) (Some es)).

Section Admin.
Context {F : Type} `{NsInfo F}.
Implicit Type c : nvmev_ctrl F.
Variable bc : base_config.

Definition __make_cq_entry_results c (eid ret result0 result1 : Z) : outcome (nvmev_ctrl F) :=
  let* q := get_aq c in
  let* cmd := aq_sq_entry q eid in
  let* q := aq_post q (mk_cqe result0 result1 (u16 eid) 0 (u16 (command_id cmd))
                         (u16 (Z.lor (aq_phase q) (Z.shiftl ret 1)))) in
  Ok (set_aq c q).

Definition __make_cq_entry c (eid ret : Z) : outcome (nvmev_ctrl F) := __make_cq_entry_results c eid ret 0 0.

(** The command of the administration queue. *)
Definition admin_cmd c (eid : Z) : outcome nvme_command :=
  let* q := get_aq c in aq_sq_entry q eid.

(** [dbs[i] = old_dbs[i] = 0] *)
Definition clear_db c (i : Z) : outcome (nvmev_ctrl F) :=
  let* l := updZ (c_dbs c) i 0 in
  let* o := updZ (c_old_dbs c) i 0 in
  Ok (set_dbs c l o).

(** ** Queue management *)
Definition new_cq (m : mem) (cmd : nvme_command) : nvmev_completion_queue :=
  let irq_enabled := NVME_CQ_IRQ_ENABLED (q_flags cmd) in
  let queue_size := q_size cmd + 1 in
  let num_pages := DIV_ROUND_UP (queue_size * 16) PAGE_SIZE in
  mk_cq (q_id cmd) (if irq_enabled then q_high cmd else 0) irq_enabled false
    (NVME_QUEUE_PHYS_CONTIG (q_flags cmd)) queue_size 1 0 (-1) (cq_pages m (prp1 cmd) num_pages).

Definition __nvmev_admin_create_cq c (eid : Z) : outcome (nvmev_ctrl F) :=
  let* cmd := admin_cmd c eid in
  let cq := new_cq (c_host c) cmd in
  let* l := updZ (d_cqes (c_dev c)) (cq_qid cq) (Some cq) in
  let c := set_dev c (set_cqes (c_dev c) l) in
  let dbs_idx := cq_qid cq * 2 + 1 in
  let* c := clear_db c dbs_idx in
  __make_cq_entry c eid NVME_SC_SUCCESS.

Definition __nvmev_admin_delete_cq c (eid : Z) : outcome (nvmev_ctrl F) :=
  let* cmd := admin_cmd c eid in
  let* l := updZ (d_cqes (c_dev c)) (q_id cmd) None in
  __make_cq_entry (set_dev c (set_cqes (c_dev c) l)) eid NVME_SC_SUCCESS.

Definition new_sq (m : mem) (cmd : nvme_command) : nvmev_submission_queue :=
  let queue_size := q_size cmd + 1 in
  let num_pages := DIV_ROUND_UP (queue_size * 64) PAGE_SIZE in
  mk_sq (q_id cmd) (q_high cmd) (Z.land (q_flags cmd) 65534) (NVME_QUEUE_PHYS_CONTIG (q_flags cmd)) queue_size
    (mk_stat 0 0 0 0 0) (sq_pages m (prp1 cmd) num_pages).

Definition __nvmev_admin_create_sq c (eid : Z) : outcome (nvmev_ctrl F) :=
  let* cmd := admin_cmd c eid in
  let sq := new_sq (c_host c) cmd in
  let* l := updZ (d_sqes (c_dev c)) (sq_qid sq) (Some sq) in
  let c := set_dev c (set_sqes (c_dev c) l) in
  let dbs_idx := sq_qid sq * 2 in
  let* c := clear_db c dbs_idx in
  __make_cq_entry c eid NVME_SC_SUCCESS.

Definition __nvmev_admin_delete_sq c (eid : Z) : outcome (nvmev_ctrl F) :=
  let* cmd := admin_cmd c eid in
  let* l := updZ (d_sqes (c_dev c)) (q_id cmd) None in
  __make_cq_entry (set_dev c (set_sqes (c_dev c) l)) eid NVME_SC_SUCCESS.

(** ** Log pages *)
Definition sizeof_smart_log : Z := 512.
Definition smart_log : mem := put_fields (fun _ => 0) 0 [(0, 1, 0); (4, 1, 20); (1, 1, 0); (2, 1, 0)].

Definition SUPPORTED_SSD_TYPE_ZNS : bool :=
  match NS_SSD_TYPE_0 bc, NS_SSD_TYPE_1 bc with
  | SSD_TYPE_ZNS, _ | _, SSD_TYPE_ZNS => true
  | _, _ => false
  end.

Definition NVME_CMD_EFFECTS_CSUPP : Z := 1.
Definition NVME_CMD_EFFECTS_LBCC : Z := 2.
(** [acs] at 0, [iocs] at 1024. *)
Definition sizeof_effects_log : Z := 4096.
Definition effects_log : mem :=
  put_fields (fun _ => 0) 0
    (map (fun op => (4 * op, 4, NVME_CMD_EFFECTS_CSUPP))
       [nvme_admin_get_log_page; nvme_admin_identify; nvme_admin_set_features; nvme_admin_get_features;
        nvme_admin_async_event]
     ++ (if SUPPORTED_SSD_TYPE_ZNS then
           [(1024 + 4 * nvme_cmd_zone_append, 4, NVME_CMD_EFFECTS_CSUPP);
            (1024 + 4 * nvme_cmd_zone_mgmt_send, 4, Z.lor NVME_CMD_EFFECTS_CSUPP NVME_CMD_EFFECTS_LBCC);
            (1024 + 4 * nvme_cmd_zone_mgmt_recv, 4, NVME_CMD_EFFECTS_CSUPP)]
         else [])).

(** The log objects are read up to [len]. *)
Definition __nvmev_admin_get_log_page c (eid : Z) : outcome (nvmev_ctrl F) :=
  let* cmd := admin_cmd c eid in
  let len := u32 (Z.shiftl (u32 (Z.lor (Z.shiftl (log_numdu cmd) 16) (log_numdl cmd) + 1)) 2) in
  let page := prp1 cmd in
  let* m :=
    (if log_lid cmd =? NVME_LOG_SMART then
       GUARD! len <=? sizeof_smart_log; Ok (memcpy (c_host c) page smart_log 0 len)
     else if log_lid cmd =? NVME_LOG_CMD_EFFECTS then
       GUARD! len <=? sizeof_effects_log; Ok (memcpy (c_host c) page effects_log 0 len)
     else Ok (memset0 (c_host c) page len)) in
  __make_cq_entry (set_host c m) eid NVME_SC_SUCCESS.

(** ** Identify *)

(** Number, metadata size, data size and performance of the formats; [lbaf] is
    at 128, of 4 bytes each. *)
Definition lba_formats : list (Z * Z * Z * Z) :=
  [(0, 0, 9, 2); (1, 8, 9, 2); (2, 16, 9, 2); (3, 0, 12, 0); (4, 8, 12, 0); (5, 64, 12, 0); (6, 128, 12, 0)].
Definition lbaf_fields : list (Z * Z * Z) :=
  flat_map (fun '(i, ms, ds, rp) => [(128 + 4 * i, 2, ms); (128 + 4 * i + 2, 1, ds); (128 + 4 * i + 3, 1, rp)])
    lba_formats.

Definition __nvmev_admin_identify_namespace c (eid : Z) : outcome (nvmev_ctrl F) :=
  let* cmd := admin_cmd c eid in
  let nsid := u32 (nsid cmd - 1) in
  let p := prp1 cmd in
  let m := put_fields (memset0 (c_host c) p PAGE_SIZE) p lbaf_fields in
  let* m :=
    (if LBA_BITS =? 9 then Ok (put_le m (p + 26) 1 0)
     else if LBA_BITS =? 12 then Ok (put_le m (p + 26) 1 3)
     else Bug) in
  let m := put_fields m p [(25, 1, 6); (29, 1, 0)] in
  let* ns := nthZ (d_ns (c_dev c)) nsid in
  let flbas := get_le m (p + 26) 1 in
  let nsze := Z.shiftr (info_size ns) (get_le m (p + 128 + 4 * flbas + 2) 1) in
  let m := put_fields m p [(0, 8, nsze); (8, 8, nsze); (16, 8, nsze)] in
  __make_cq_entry (set_host c m) eid NVME_SC_SUCCESS.

(** The list of namespaces above [nsid]; [*ns++ = i]. *)
Definition __nvmev_admin_identify_namespaces c (eid : Z) : outcome (nvmev_ctrl F) :=
  let* cmd := admin_cmd c eid in
  let m := memset0 (c_host c) (prp1 cmd) (PAGE_SIZE * 2) in
  let* (m, _) := forO 1 (c_nr_ns c + 1) (m, prp1 cmd) (fun '(m, ns) i =>
    if nsid cmd <? i then Ok (put_le m ns 4 i, ns + 4) else Ok (m, ns)) in
  __make_cq_entry (set_host c m) eid NVME_SC_SUCCESS.

Definition NVME_NIDT_CSI : Z := 4.
Definition sizeof_id_ns_desc : Z := 4096.
Definition __nvmev_admin_identify_namespace_desc c (eid : Z) : outcome (nvmev_ctrl F) :=
  let* cmd := admin_cmd c eid in
  let nsid := s32 (nsid cmd - 1) in
  let m := memset0 (c_host c) (prp1 cmd) sizeof_id_ns_desc in
  let* ns := nthZ (d_ns (c_dev c)) nsid in
  let m := put_fields m (prp1 cmd) [(0, 1, NVME_NIDT_CSI); (1, 1, 1); (4, 1, info_csi ns)] in
  __make_cq_entry (set_host c m) eid NVME_SC_SUCCESS.

(** [ns_ssd_type[ns]] *)
Definition NS_SSD_TYPE (ns : Z) : outcome ssd_type := nthZ [NS_SSD_TYPE_0 bc; NS_SSD_TYPE_1 bc] ns.

Definition OZCS_ZRWA : Z := 2.
Definition ZRWACAP_EXPFLUSHSUP : Z := 1.
Definition sizeof_id_zns_ns : Z := 4096.

(** The members of [struct nvme_id_zns_ns] at their offsets. *)
Definition zns_ns_fields (zpp : znsparams) : list (Z * Z * Z) :=
  [(0, 2, 0); (2, 2, 0); (4, 4, u32 (nr_active_zones zpp - 1)); (8, 4, u32 (nr_open_zones zpp - 1))]
  ++ (if 0 <? nr_zrwa_zones zpp then
        [(2, 2, OZCS_ZRWA); (44, 4, u32 (nr_zrwa_zones zpp - 1)); (48, 2, zrwafg_size zpp);
         (50, 2, zrwa_size zpp); (52, 1, ZRWACAP_EXPFLUSHSUP)]
      else [])
  ++ [(2816, 8, BYTE_TO_LBA (zone_size zpp)); (2824, 1, 0)].

Definition __nvmev_admin_identify_zns_namespace c (eid : Z) : outcome (nvmev_ctrl F) :=
  let* cmd := admin_cmd c eid in
  let nsid := s32 (nsid cmd - 1) in
  let* ns := nthZ (d_ns (c_dev c)) nsid in
  let* ty := NS_SSD_TYPE nsid in
  match ty with
  | SSD_TYPE_ZNS =>
      ASSERT! info_csi ns =? NVME_CSI_ZNS;
      let m := memset0 (c_host c) (prp1 cmd) sizeof_id_zns_ns in
      let* zpp := of_option (info_zpp ns) in
      let m := put_fields m (prp1 cmd) (zns_ns_fields zpp) in
      __make_cq_entry (set_host c m) eid NVME_SC_SUCCESS
  | _ => __make_cq_entry c eid NVME_SC_SUCCESS
  end.

Definition __nvmev_admin_identify_zns_ctrl c (eid : Z) : outcome (nvmev_ctrl F) :=
  let* cmd := admin_cmd c eid in
  __make_cq_entry (set_host c (put_le (c_host c) (prp1 cmd) 1 0)) eid NVME_SC_SUCCESS.

(** A string with its terminator. *)
Definition cstring (s : string) : list Z :=
  map (fun a => Z.of_N (N_of_ascii a)) (list_ascii_of_string s) ++ [0].

Definition sizeof_id_ctrl : Z := 4096.
Definition __nvmev_admin_identify_ctrl c (eid : Z) : outcome (nvmev_ctrl F) :=
  let* cmd := admin_cmd c eid in
  let p := prp1 cmd in
  let m := memset0 (c_host c) p sizeof_id_ctrl in
  let m := put_fields m p [(516, 4, c_nr_ns c); (520, 2, 0); (258, 1, 3); (525, 1, 0)] in
  let m := write_bytes m (p + 4) (cstring "CSL_Virt_SN_01") in
  let m := write_bytes m (p + 24) (cstring "CSL_Virt_MN_01") in
  let m := write_bytes m (p + 64) (cstring "CSL_002") in
  let m := put_fields m p [(77, 1, c_mdts c); (512, 1, 102); (513, 1, 68)] in
  __make_cq_entry (set_host c m) eid NVME_SC_SUCCESS.

Definition __nvmev_admin_identify c (eid : Z) : outcome (nvmev_ctrl F) :=
  let* cmd := admin_cmd c eid in
  let cns := id_cns cmd in
  if cns =? 0 then __nvmev_admin_identify_namespace c eid
  else if cns =? 1 then __nvmev_admin_identify_ctrl c eid
  else if cns =? 2 then __nvmev_admin_identify_namespaces c eid
  else if cns =? 3 then __nvmev_admin_identify_namespace_desc c eid
  else if cns =? 5 then __nvmev_admin_identify_zns_namespace c eid
  else if cns =? 6 then __nvmev_admin_identify_zns_ctrl c eid
  else __make_cq_entry c eid NVME_SC_INVALID_OPCODE.

(** ** Features *)
Definition nr_queues_result (d : nvmev_dev F) : Z :=
  u32 (Z.lor (Z.shiftl (u32 (d_nr_cq d - 1)) 16) (u32 (d_nr_sq d - 1))).

Definition __nvmev_admin_set_features c (eid : Z) : outcome (nvmev_ctrl F) :=
  let* cmd := admin_cmd c eid in
  if feat_fid cmd =? NVME_FEAT_NUM_QUEUES then
    let nr_sq := Z.min (getf (feat_dword11 cmd) 0 16 + 1) NR_MAX_IO_QUEUE in
    let nr_cq := Z.min (getf (feat_dword11 cmd) 16 16 + 1) NR_MAX_IO_QUEUE in
    let d := set_nr_queues (c_dev c) nr_sq nr_cq in
    __make_cq_entry_results (set_dev c d) eid NVME_SC_SUCCESS (nr_queues_result d) 0
  else __make_cq_entry_results c eid NVME_SC_SUCCESS 0 0.

Definition __nvmev_admin_get_features c (eid : Z) : outcome (nvmev_ctrl F) :=
  let* cmd := admin_cmd c eid in
  let result0 := if feat_fid cmd =? NVME_FEAT_NUM_QUEUES then nr_queues_result (c_dev c) else 0 in
  __make_cq_entry_results c eid NVME_SC_SUCCESS result0 0.

Definition __nvmev_admin_async_event c (eid : Z) : outcome (nvmev_ctrl F) := __make_cq_entry c eid NVME_SC_SUCCESS.

(** ** Dispatch *)
Definition __nvmev_proc_admin_req c (eid : Z) : outcome (nvmev_ctrl F) :=
  let* cmd := admin_cmd c eid in
  let op := opcode cmd in
  if op =? nvme_admin_delete_sq then __nvmev_admin_delete_sq c eid
  else if op =? nvme_admin_create_sq then __nvmev_admin_create_sq c eid
  else if op =? nvme_admin_get_log_page then __nvmev_admin_get_log_page c eid
  else if op =? nvme_admin_delete_cq then __nvmev_admin_delete_cq c eid
  else if op =? nvme_admin_create_cq then __nvmev_admin_create_cq c eid
  else if op =? nvme_admin_identify then __nvmev_admin_identify c eid
  else if op =? nvme_admin_abort_cmd then Ok c
  else if op =? nvme_admin_set_features then __nvmev_admin_set_features c eid
  else if op =? nvme_admin_get_features then __nvmev_admin_get_features c eid
  else if op =? nvme_admin_async_event then __nvmev_admin_async_event c eid
  else __make_cq_entry c eid NVME_SC_INVALID_OPCODE.

(** [for (seq = 0; seq < num_proc; seq++)] *)
Fixpoint proc_admin_loop (n : nat) c (curr : Z) : outcome (nvmev_ctrl F) :=
  match n with
  | O => Ok c
  | S n' =>
      let* c := __nvmev_proc_admin_req c curr in
      let curr := curr + 1 in
      let* q := get_aq c in
      proc_admin_loop n' c (if curr =? aq_sq_depth q then 0 else curr)
  end.

Definition nvmev_proc_admin_sq c (new_db old_db : Z) : outcome (nvmev_ctrl F) :=
  let num_proc := s32 (new_db - old_db) in
  let* num_proc :=
    (if num_proc <? 0 then let* q := get_aq c in Ok (num_proc + aq_sq_depth q) else Ok num_proc) in
  let* c := proc_admin_loop (Z.to_nat num_proc) c old_db in
  Ok (nvmev_signal_irq c 0).

Definition nvmev_proc_admin_cq c (new_db old_db : Z) : nvmev_ctrl F := c.
End Admin.
