(* ===== verification/IoDoorbell.v ===== *)
(** * IoDoorbell: the dispatcher takes every command that the host rings

    When the work queues have room and the FTL accepts its commands, serving a
    doorbell ends with the doorbell caught up, and every command between the two
    values is queued once, in the order of the ring. *)
From stdpp Require Import base list numbers sets.
From Stdlib Require Import ZArith Lia.
From S2P Require Import Prelude ChannelModel SsdConfig Ssd Nvme Prp.
From S2P Require Import WorkQueue WorkQueueSpec IoDev IoQueue IoSteps IoCalls CqRing.

Open Scope Z_scope.
Open Scope nvmev_scope.

(** ** Room in the work queues *)
Definition wk_room (k : nvmev_io_worker) : nat :=
  (length (work_queue k) - length (walk (length (work_queue k)) k (io_seq k)))%nat.

Lemma room_lists k io fr : wq_lists k io fr [] -> wk_room k = length fr.
Proof.
  intros W. unfold wk_room. rewrite (wl_io _ _ _ _ W). pose proof (wl_count _ _ _ _ W) as Hn. pose proof (wl_len _ _ _ _ W) as Hl.
  simpl in Hn. rewrite (walk_length k io fr [] [] io) by (done || lia). lia.
Qed.

(** What an FTL promises for commands that are good: it accepts or refuses
    them, leaves namespace and command good and schedules at most [m] releases. *)
Class IoServes (F : Type) `{IoHandler F} (good : F -> Prop) (cmd_good : nvme_command -> Prop) (m : nat) : Prop := {
  serves : forall (ns : F) clk host req ret, good ns -> cmd_good (req_cmd req) ->
    exists o, proc_io_cmd ns clk host req ret = Ok o /\ good (o_ns o) /\ (length (o_sched o) <= m)%nat /\
      cmd_good (o_cmd o) /\ command_id (o_cmd o) = command_id (req_cmd req) /\ ns_index (o_cmd o) = ns_index (req_cmd req);
}.
(** It refuses none of them. *)
Definition accepting (F : Type) `{IoHandler F} (good : F -> Prop) (cmd_good : nvme_command -> Prop) : Prop :=
  forall (ns : F) clk host req ret o, good ns -> cmd_good (req_cmd req) ->
    proc_io_cmd ns clk host req ret = Ok o -> o_ok o = true.

Lemma Forall_nthZ {A} (P : A -> Prop) l i x : Forall P l -> nthZ l i = Ok x -> P x.
Proof. intros Hl [_ Hi]%nthZ_Ok. by apply (Forall_lookup_1 P l _ x Hl Hi). Qed.

Section Room.
Context {F : Type} `{IoHandler F} `{Clock}.
Implicit Type d : nvmev_dev F.

Definition has_room d (r : nat) : Prop := forall i k, get_worker d i = Ok k -> (r < wk_room k)%nat.
(** Queues and namespaces are left alone. *)
Definition frame d d' : Prop := d_sqes d' = d_sqes d /\ d_ns d' = d_ns d.

Lemma has_room_le d r r' : (r' <= r)%nat -> has_room d r -> has_room d r'.
Proof. intros Hr Hd i k Hk. specialize (Hd i k Hk). lia. Qed.

Lemma room_update d d' i k' r :
  (exists k, get_worker d i = Ok k) -> d_io_workers d' = <[Z.to_nat i := k']> (d_io_workers d) ->
  (r < wk_room k')%nat -> has_room d r -> has_room d' r.
Proof.
  intros [k Hk] Hw Hr Hd j kj. unfold get_worker. rewrite Hw, nthZ_insert by (by eapply nthZ_range).
  destruct (Z.eqb_spec j i) as [->|]; [by intros [= <-]|]. apply Hd.
Qed.

Lemma queue_work_room d pcs sqid r :
  io_inv (d, pcs) -> has_room d (S r) ->
  exists turn e d1, __allocate_work_queue_entry d sqid = Ok (Some (turn, e), d1) /\ frame d d1 /\ d_clk d1 = d_clk d /\
    forall g t, (forall w, w_next (g w) = NIL /\ w_prev (g w) = NIL) ->
    exists d', queue_work (set_dclk d1 (S (d_clk d1))) turn e g t = Ok d' /\ frame d d' /\ has_room d' r.
Proof.
  intros I R. destruct (allocate_total d pcs sqid I) as (turn & k & io & fr & Hk & W & Ha).
  pose proof (R turn k Hk) as Hr. rewrite (room_lists _ _ _ W) in Hr. destruct fr as [|e [|x fr]]; simpl in Hr; [lia|lia|].
  destruct Ha as [d1 Ha]. exists turn, e, d1. split; [done|].
  pose proof (allocate_spec d pcs sqid _ d1 I Ha) as (k0 & k1 & io' & fr' & Hk0 & W0 & _ & _ & W1 & Q & _ & _ & Hd1 & Hn1 & Hsq & Hclk).
  assert (k0 = k) as -> by congruence. pose proof (room_lists _ _ _ W) as L1. rewrite (room_lists _ _ _ W0) in L1. simpl in L1.
  assert (Hns : d_ns d1 = d_ns d).
  { revert Ha. unfold __allocate_work_queue_entry. destruct (__get_io_worker d sqid); try done. cbn [obind].
    destruct (get_worker d a) as [k2| | |]; try done. cbn [obind]. destruct (take_free k2) as [[[? ?]|]| | |]; try done.
    cbn [obind]. destruct (updZ _ _ _); try done. by intros [= _ _ <-]. }
  split; [done|]. split; [done|]. intros g t Hg.
  assert (Hk1 : get_worker d1 turn = Ok k1).
  { unfold get_worker. rewrite Hd1, nthZ_insert by (by eapply nthZ_range). by rewrite Z.eqb_refl. }
  assert (He : exists w, work k1 e = Ok w).
  { apply (wl_work _ _ _ _ W1), (wl_range _ _ _ _ W1). set_solver. }
  destruct He as [w Hw].
  destruct (fill_insert_spec k1 io' fr' e w g t W1 Hw) as (k2 & k' & a & b & E1 & E2 & -> & W' & _);
    [apply Hg|apply Hg|].
  unfold queue_work. change (get_worker (set_dclk d1 (S (d_clk d1))) turn) with (get_worker d1 turn). rewrite Hk1. cbn [obind].
  rewrite E1. cbn [obind]. rewrite E2. cbn [obind]. rewrite (put_worker_Ok (set_dclk d1 (S (d_clk d1))) turn k' k1 Hk1). eexists. split; [done|].
  split; [done|]. apply (room_update d _ turn k').
  - by exists k.
  - simpl. rewrite Hd1. apply list_insert_insert_eq.
  - rewrite (room_lists _ _ _ W'). lia.
  - eapply has_room_le; [|exact R]. lia.
Qed.

Lemma enqueue_room d pcs sqid cqid ent t0 ret q cmd r :
  io_inv (d, pcs) -> has_room d (S r) -> get_sq d sqid = Ok q -> sq_entry q ent = Ok cmd ->
  exists d', __enqueue_io_req d sqid cqid ent t0 ret = Ok d' /\ frame d d' /\ has_room d' r /\
    enqueue_event d sqid cqid ent ret = [EvSubmit (mk_tag sqid cqid ent (command_id cmd) (ret_nsecs_target ret))].
Proof.
  intros I R Hq Hc. destruct (queue_work_room d pcs sqid r I R) as (turn & e & d1 & Ha & [Fs Fn] & Hclk & Hw).
  unfold __enqueue_io_req, enqueue_event. rewrite Ha. cbn [obind]. rewrite Hq, Hc. unfold get_sq in *. rewrite Fs, Hq. cbn [obind].
  rewrite Hc. cbn [obind local_clock]. destruct (Hw (fill_request sqid cqid ent (command_id cmd) t0 (cpu_clock (d_clk d1)) ret)
    (ret_nsecs_target ret)) as (d' & E & Fd & Rd); [done|]. exists d'. by split_and!.
Qed.

Lemma internal_room d pcs sqid target buf size r :
  io_inv (d, pcs) -> has_room d (S r) ->
  exists d', schedule_internal_operation d sqid target buf size = Ok d' /\ frame d d' /\ has_room d' r.
Proof.
  intros I R. destruct (queue_work_room d pcs sqid r I R) as (turn & e & d1 & Ha & Fd & Hclk & Hw).
  unfold schedule_internal_operation. rewrite Ha. cbn [obind local_clock].
  destruct (Hw (fill_internal sqid (cpu_clock (d_clk d1)) target buf size) target) as (d' & E & Fd' & Rd); [done|].
  exists d'. by split_and!.
Qed.

Lemma sched_room d pcs nsid ops r :
  io_inv (d, pcs) -> has_room d (length ops + r) ->
  exists d', foldO (fun d op => schedule_internal_operation d (io_sqid op) (io_nsecs_target op) (nsid, io_buffer op)
      (io_buffs_to_release op)) d ops = Ok d' /\ frame d d' /\ has_room d' r /\ io_inv (d', pcs).
Proof.
  revert d. induction ops as [|op ops IH]; intros d I R; simpl; [by exists d|].
  destruct (internal_room d pcs (io_sqid op) (io_nsecs_target op) (nsid, io_buffer op) (io_buffs_to_release op)
    (length ops + r) I R) as (d1 & E1 & [F1 F2] & R1). rewrite E1. cbn [obind].
  destruct (IH d1) as (d2 & E2 & [F3 F4] & R2 & I2); [by eapply internal_inv|done|]. exists d2. split; [done|].
  split; [split; congruence|done].
Qed.

Lemma reclaim_room d pcs r :
  io_inv (d, pcs) -> has_room d r ->
  exists d', __reclaim_completed_reqs d = Ok d' /\ io_inv (d', pcs) /\ frame d d' /\ has_room d' r.
Proof.
  intros I R. unfold __reclaim_completed_reqs.
  destruct (forO_ind (fun _ d1 => io_inv (d1, pcs) /\ d_nr_io_workers d1 = d_nr_io_workers d /\ frame d d1 /\ has_room d1 r)
    0 (d_nr_io_workers d) d
    (fun d turn => let* k := get_worker d turn in let* k := reclaim_worker k in put_worker d turn k))
    as (d' & E & I' & _ & Hd'); [destruct I as [? _ _]; simpl in *; lia|done| |by exists d'].
  intros i d1 Hi (I1 & N1 & P1 & R1). pose proof I1 as [J1 J2 J3]. simpl in *.
  destruct (nthZ_in_range (d_io_workers d1) i) as [k Hk]; [lia|]. fold (get_worker d1 i) in Hk. rewrite Hk. cbn [obind].
  destruct (reclaim_worker_inv (pcs i) k (J3 i k Hk)) as (k' & E' & Wk & _ & _).
  destruct (J3 i k Hk) as (_ & io & fr & W & _). destruct (reclaim_worker_spec k io fr [] W) as (k2 & a & b & E2 & _ & W' & _).
  assert (k2 = k') as -> by congruence. rewrite E'. cbn [obind].
  rewrite (put_worker_Ok d1 i k' k Hk). eexists. split; [reflexivity|]. split; [by eapply (io_inv_update d1 pcs i k k')|].
  split; [done|]. split; [done|]. eapply (room_update d1); [by exists k|done| |done].
  pose proof (R1 i k Hk) as Hr. rewrite (room_lists _ _ _ W) in Hr. rewrite (room_lists _ _ _ W'), length_app. lia.
Qed.

(** A device starts with every item free. *)
Lemma init_room d d' r : 0 <= d_nr_io_workers d -> NVMEV_IO_WORKER_INIT d = Ok d' -> Z.of_nat r < NR_MAX_PARALLEL_IO -> has_room d' r.
Proof.
  intros Hn E Hr. unfold NVMEV_IO_WORKER_INIT in E.
  destruct (forO_ind (fun i l => Z.of_nat (length l) = i /\ forall j k, nthZ l j = Ok k -> (r < wk_room k)%nat)
    0 (d_nr_io_workers d) [] (fun l i => let* k := init_worker i in Ok (l ++ [k]))) as (l & El & _ & Hk).
  - done.
  - split; [done|]. intros j k Hj. apply nthZ_range in Hj. simpl in Hj. lia.
  - intros i l Hi [Hl Hk]. destruct (init_worker_spec i) as (k & -> & W & _). cbn [obind].
    eexists. split; [reflexivity|]. rewrite length_app. split; [simpl; lia|]. intros j kj Hj.
    apply nthZ_Ok in Hj as [H1 H2]. apply lookup_app_Some in H2 as [H2|[_ H2]].
    + apply (Hk j). by apply nthZ_Ok.
    + apply list_lookup_singleton_Some in H2 as [_ <-]. rewrite (room_lists _ _ _ W), length_seqZ. lia.
  - rewrite El in E. injection E as <-. intros j k Hj. by apply (Hk j).
Qed.

(** ** A doorbell *)
Context (good : F -> Prop) (cmd_good : nvme_command -> Prop) (m : nat) `{!IoServes F good cmd_good m}.

(** The queue [sqid] of [size] entries is full of good commands, with the
    identifiers [ids], for good namespaces. *)
Record served d (sqid cqid size : Z) (ids : Z -> Z) (q : nvmev_submission_queue) : Prop := {
  sv_q : get_sq d sqid = Ok q;
  sv_cqid : sq_cqid q = cqid;
  sv_size : sq_queue_size q = size;
  sv_entries : forall i, 0 <= i < size -> exists cmd, sq_entry q i = Ok cmd /\ cmd_good cmd /\
    0 <= ns_index cmd < Z.of_nat (length (d_ns d)) /\ command_id cmd = ids i;
  sv_ns : Forall good (d_ns d);
}.

(** What the host sees of a request that was queued. *)
Definition tag_slot (t : io_tag) : Z * Z * Z * Z := (t_sqid t, t_cqid t, t_sq_entry t, t_command_id t).

Lemma put_sq_served d sqid q : (exists q0, get_sq d sqid = Ok q0) ->
  exists d', put_sq d sqid q = Ok d' /\ get_sq d' sqid = Ok q /\ d_ns d' = d_ns d /\ d_io_workers d' = d_io_workers d /\
    d_nr_io_workers d' = d_nr_io_workers d.
Proof.
  intros [q0 Hq]. unfold get_sq, put_sq in *. destruct (nthZ (d_sqes d) sqid) as [o| | |] eqn:E; try done.
  apply nthZ_range in E. rewrite updZ_Ok by done. eexists. split; [done|]. unfold get_sq. simpl.
  rewrite nthZ_insert, Z.eqb_refl by done. done.
Qed.

Lemma served_ext d d' sqid cqid size ids q : frame d d' -> served d sqid cqid size ids q -> served d' sqid cqid size ids q.
Proof. intros [Fs Fn] [S1 S2 S3 S4 S5]. split; rewrite ?Fn; try done. unfold get_sq in *. by rewrite Fs. Qed.

Lemma proc_io_room d pcs sqid cqid size ids q ent r :
  io_inv (d, pcs) -> has_room d (m + S r) -> served d sqid cqid size ids q -> 0 <= ent < size ->
  exists o d' evs q', __nvmev_proc_io d sqid ent = Ok (o, d') /\ io_steps (d, pcs) evs (d', pcs) /\
    map tag_slot (submitted evs) = (if o then [(sqid, cqid, ent, ids ent)] else []) /\ has_room d' r /\
    served d' sqid cqid size ids q' /\ (accepting F good cmd_good -> o <> None).
Proof.
  intros I R [S1 S2 S3 S4 S5] He. destruct (S4 ent He) as (cmd & Hc & Hg & Hi & Hid).
  unfold __nvmev_proc_io. rewrite S1. cbn [obind local_clock]. rewrite Hc. cbn [obind].
  set (d0 := set_dclk d (S (d_clk d))). change (d_ns d0) with (d_ns d).
  destruct (nthZ_in_range _ _ Hi) as [ns Hns]. rewrite Hns. cbn [obind].
  set (req := mk_nvmev_request _ _ _). set (ret0 := mk_nvmev_result _ _).
  destruct (serves ns (d_clk d0) (d_host d0) req ret0) as (o & Eo & Hgo & Hsz & Hco & Hido & Hnso);
    [by eapply Forall_nthZ|done|]. rewrite Eo. cbn [obind]. simpl in Hido, Hnso. rewrite updZ_Ok by done. cbn [obind].
  assert (Hr : 0 <= ent < Z.of_nat (length (sq_entries q))) by by eapply nthZ_range.
  rewrite updZ_Ok by done. cbn [obind]. set (es := <[Z.to_nat ent := o_cmd o]> (sq_entries q)).
  set (d1 := set_dclk _ _). destruct (put_sq_served d1 sqid (set_sq_entries q es)) as (d2 & -> & Q2 & N2 & W2 & K2);
    [by exists q|]. cbn [obind].
  assert (R2 : has_room d2 (length (o_sched o) + S r)).
  { eapply (has_room_le _ (m + S r)); [lia|]. intros i k. unfold get_worker. rewrite W2. apply R. }
  assert (I2 : io_inv (d2, pcs)).
  { destruct (io_steps_inv (d, pcs) [] (d2, pcs)) as (? & _); [by apply st_same|done|done]. }
  destruct (sched_room d2 pcs (ns_index cmd) (o_sched o) (S r) I2 R2) as (d3 & E3 & F3 & R3 & I3).
  rewrite E3. cbn [obind].
  assert (S2' : served d2 sqid cqid size ids (set_sq_entries q es)).
  { split; try done.
    - intros i Hi'. unfold sq_entry, es. simpl. rewrite nthZ_insert, N2 by done. simpl. rewrite length_insert.
      destruct (Z.eqb_spec i ent) as [->|]; [|by apply S4]. exists (o_cmd o). by rewrite Hido, Hnso.
    - rewrite N2. simpl. by apply Forall_insert. }
  pose proof (served_ext _ _ _ _ _ _ _ F3 S2') as S3'. pose proof (sv_q _ _ _ _ _ _ S3') as Q3.
  assert (T3 : io_steps (d, pcs) [] (d3, pcs)).
  { eapply (io_steps_trans _ [] (d2, pcs) []); [by apply st_same|by eapply sched_steps]. }
  destruct (o_ok o) eqn:Hok; cbn [negb].
  2: { eexists None, d3, [], _. split; [done|]. split; [done|]. split; [done|]. split; [eapply has_room_le; [|exact R3]; lia|].
       split; [done|]. intros Ha. assert (G : good ns) by by eapply Forall_nthZ. pose proof (Ha ns _ _ req _ o G Hg Eo). congruence. }
  destruct (sv_entries _ _ _ _ _ _ S3' ent He) as (cmd' & Hc' & _ & _ & Hid').
  destruct (enqueue_room d3 pcs sqid (sq_cqid q) ent (cpu_clock (d_clk d)) (o_ret o) _ cmd' r I3 R3 Q3 Hc')
    as (d4 & E4 & F4 & R4 & Ev). rewrite E4. cbn [obind].
  assert (T4 : io_steps (d3, pcs) (enqueue_event d3 sqid (sq_cqid q) ent (o_ret o)) (d4, pcs)) by exact (io_steps_one _ _ _ (st_enqueue _ pcs _ _ _ _ _ _ E4)).
  destruct (io_steps_inv _ _ _ T4 I3) as (I4 & _).
  destruct (reclaim_room d4 pcs r I4 R4) as (d5 & E5 & I5 & F5 & R5). rewrite E5. cbn [obind].
  eexists (Some _), d5, _, _. split; [done|]. split; [|split; [|split; [done|split; [|done]]]].
  - eapply (io_steps_trans _ [] (d3, pcs)); [exact T3|].
    eapply (io_steps_trans _ _ (d4, pcs) []); [exact T4|]. by eapply io_steps_one, st_reclaim.
  - rewrite Ev. simpl. unfold tag_slot. simpl. by rewrite S2, Hid'.
  - eapply served_ext; [exact F5|]. by eapply served_ext.
Qed.

Lemma sq_loop_room n d pcs sqid cqid size ids q ent seq r :
  io_inv (d, pcs) -> has_room d (n * S m + r) -> served d sqid cqid size ids q -> 0 <= ent < size ->
  exists j d' evs q', proc_sq_loop n d sqid ent seq = Ok (seq + Z.of_nat j, d') /\ (j <= n)%nat /\
    io_steps (d, pcs) evs (d', pcs) /\
    map tag_slot (submitted evs) = map (fun e => (sqid, cqid, e, ids e)) (ring_slots size ent j) /\
    has_room d' r /\ served d' sqid cqid size ids q' /\ (accepting F good cmd_good -> j = n).
Proof.
  revert d q ent seq. induction n as [|n IH]; intros d q ent seq I R Hs He; simpl.
  { exists 0%nat, d, [], q. rewrite Z.add_0_r. split; [done|]. split; [done|]. split; [constructor|]. by split_and!. }
  destruct (proc_io_room d pcs sqid cqid size ids q ent (n * S m + r) I) as (o & d1 & e1 & q1 & -> & T1 & M1 & R1 & V1 & A1);
    [by replace (m + S (n * S m + r))%nat with (S n * S m + r)%nat by lia|done|done|]. cbn [obind].
  destruct o as [sz|]; [|].
  2: { exists 0%nat, d1, e1, q1. rewrite Z.add_0_r. split; [done|]. split; [lia|]. split; [done|]. split; [done|].
       split; [eapply has_room_le; [|exact R1]; lia|]. split; [done|]. intros Ha. by apply A1 in Ha. }
  pose proof (sv_q _ _ _ _ _ _ V1) as Q1. rewrite Q1. cbn [obind].
  destruct (put_sq_served d1 sqid (count_dispatched q1 sz)) as (d2 & -> & Q2 & N2 & W2 & K2); [by exists q1|]. cbn [obind].
  destruct (io_steps_inv _ _ _ T1 I) as (I1 & _).
  assert (T2 : io_steps (d1, pcs) [] (d2, pcs)) by by apply st_same. destruct (io_steps_inv _ _ _ T2 I1) as (I2 & _).
  rewrite (sv_size _ _ _ _ _ _ V1).
  destruct (IH d2 (count_dispatched q1 sz) (if ent + 1 =? size then 0 else ent + 1) (seq + 1) I2)
    as (j & d' & e2 & q' & -> & Hj & T & M & R' & V & A).
  - intros i k. unfold get_worker. rewrite W2. apply R1.
  - destruct V1 as [V1 V2 V3 V4 V5]. split; rewrite ?N2; done.
  - destruct (Z.eqb_spec (ent + 1) size); lia.
  - exists (S j), d', (e1 ++ [] ++ e2), q'. split; [f_equal; f_equal; lia|]. split; [lia|]. split; [|split; [|split; [done|split; [done|]]]].
    + eapply io_steps_trans; [exact T1|]. by eapply io_steps_trans.
    + unfold submitted in *. simpl. rewrite omap_app, map_app, M1, M. done.
    + intros Ha. by rewrite A.
Qed.

(** The distance between two values of a doorbell. *)
Definition ring_dist (size old_db new_db : Z) : Z := if new_db <? old_db then new_db - old_db + size else new_db - old_db.

Lemma ring_dist_end size old_db new_db : 0 <= old_db < size -> 0 <= new_db < size ->
  0 <= ring_dist size old_db new_db < size /\ Z.rem (old_db + ring_dist size old_db new_db) size = new_db.
Proof.
  intros Ho Hn. unfold ring_dist. destruct (Z.ltb_spec new_db old_db).
  - split; [lia|]. rewrite Z.rem_mod_nonneg by lia. replace (old_db + (new_db - old_db + size)) with (new_db + 1 * size) by lia.
    rewrite Z.mod_add by lia. by apply Z.mod_small.
  - split; [lia|]. rewrite Z.rem_mod_nonneg by lia. replace (old_db + (new_db - old_db)) with new_db by lia. by apply Z.mod_small.
Qed.

Lemma doorbell_served d pcs sqid cqid size ids q old_db new_db r :
  let n := Z.to_nat (ring_dist size old_db new_db) in
  io_inv (d, pcs) -> has_room d (n * S m + r) -> served d sqid cqid size ids q ->
  0 <= old_db < size -> 0 <= new_db < size -> size <= 65536 ->
  exists j d' evs q', nvmev_proc_io_sq d sqid new_db old_db = Ok ((old_db + Z.of_nat j) mod size, d') /\ (j <= n)%nat /\
    io_steps (d, pcs) evs (d', pcs) /\
    map tag_slot (submitted evs) = map (fun e => (sqid, cqid, e, ids e)) (ring_slots size old_db j) /\
    has_room d' r /\ served d' sqid cqid size ids q' /\
    (accepting F good cmd_good -> j = n /\ (old_db + Z.of_nat j) mod size = new_db).
Proof.
  intros n I R Hs Ho Hn H16. unfold nvmev_proc_io_sq. pose proof (sv_q _ _ _ _ _ _ Hs) as Hq. unfold get_sq in Hq.
  destruct (nthZ (d_sqes d) sqid) as [[q0|]| | |] eqn:E; try done. cbn [obind of_option] in *. injection Hq as ->.
  rewrite (sv_size _ _ _ _ _ _ Hs), s32_id by lia. set (N := ring_dist size old_db new_db) in n.
  assert (En : (if new_db - old_db <? 0 then new_db - old_db + size else new_db - old_db) = N).
  { unfold N, ring_dist. destruct (Z.ltb_spec (new_db - old_db) 0), (Z.ltb_spec new_db old_db); lia. }
  rewrite En. destruct (ring_dist_end size old_db new_db Ho Hn) as [Hr He]. fold N in Hr, He. fold n.
  destruct (sq_loop_room n d pcs sqid cqid size ids q old_db 0 r I R Hs Ho) as (j & d1 & evs & q1 & -> & Hj & T & M & R1 & V1 & A).
  cbn [obind]. rewrite (sv_q _ _ _ _ _ _ V1). cbn [obind]. set (q2 := set_stat q1 _).
  destruct (put_sq_served d1 sqid q2) as (d2 & -> & Q2 & N2 & W2 & K2); [exists q1; apply V1|]. cbn [obind].
  rewrite (sv_size _ _ _ _ _ _ V1), (proj2 (Z.eqb_neq size 0)) by lia. cbn [negb].
  rewrite Z.add_0_l, Z.rem_mod_nonneg by lia. exists j, d2, (evs ++ []), q2. split; [done|]. split; [done|]. split; [|split; [|split; [|split]]].
  - eapply io_steps_trans; [exact T|]. by apply st_same.
  - by rewrite app_nil_r.
  - intros i k. unfold get_worker. rewrite W2. apply R1.
  - destruct V1 as [V1 V2 V3 V4 V5]. split; rewrite ?N2; done.
  - intros Ha. rewrite (A Ha). split; [done|]. unfold n. by rewrite Z2Nat.id, <- Z.rem_mod_nonneg by lia.
Qed.
End Room.
