(* ===== verification/AdminFacts.v ===== *)
(** * AdminFacts: every administration command is answered in its turn

    Each handler but the one of Abort posts exactly one completion; the
    administration queue is a completion ring like those of the I/O queues, so
    that the facts of CqRing apply to it. *)
From stdpp Require Import base list numbers sets.
From Stdlib Require Import ZArith Lia.
From S2P Require Import Prelude ChannelModel SsdConfig Ssd Nvme Prp HostMem.
From S2P Require Import WorkQueue IoDev IoQueue CqRing ZnsData Admin.

Open Scope Z_scope.
Open Scope nvmev_scope.

(** ** The completion ring of the administration queue *)
Definition aq_ring (q : nvmev_admin_queue) : nvmev_completion_queue :=
  mk_cq 0 0 false true true (aq_cq_depth q) (aq_phase q) (aq_cq_head q) 0 (default [] (aq_nvme_cq q)).
Definition aq_at (q : nvmev_admin_queue) (T : Z) : Prop := aq_nvme_cq q <> None /\ cq_at (aq_ring q) T.

(** An answer as a completion that is posted. *)
Definition admin_work (eid cid ret result0 : Z) : nvmev_io_work :=
  mk_work 0 0 eid cid 0 0 0 false false ret result0 0 false (w_write_buffer work_0) 0 NIL NIL.

Lemma aq_post_ring q eid cid ret r0 T :
  aq_at q T -> exists q',
    aq_post q (mk_cqe r0 0 (u16 eid) 0 (u16 cid) (u16 (Z.lor (aq_phase q) (Z.shiftl ret 1)))) = Ok q' /\
    post_cqe (aq_ring q) (admin_work eid cid ret r0) = Ok (aq_ring q') /\ aq_at q' (T + 1) /\
    aq_nvme_sq q' = aq_nvme_sq q /\ aq_sq_depth q' = aq_sq_depth q /\ aq_cq_depth q' = aq_cq_depth q.
Proof.
  intros [Hn C]. destruct (post_cqe_spec (aq_ring q) T (admin_work eid cid ret r0) C) as (r & E & C' & _).
  destruct q as [ph sd cd hd sq [es|]]; [|done]. unfold post_cqe, aq_post in *. simpl in *.
  change (u16 0) with 0 in *. destruct (updZ es hd _) as [es'| | |] eqn:Eu; try done. cbn [obind] in *.
  eexists. split; [done|]. simpl. split; [done|]. injection E as <-. by split_and!.
Qed.

Section Facts.
Context {F : Type} `{NsInfo F}.
Implicit Type c : nvmev_ctrl F.
Variable bc : base_config.

(** What the handlers rely on; they leave it as it is. *)
Record admin_wf c : Prop := {
  aw_sqes : Z.of_nat (length (d_sqes (c_dev c))) = NR_MAX_IO_QUEUE + 1;
  aw_cqes : Z.of_nat (length (d_cqes (c_dev c))) = NR_MAX_IO_QUEUE + 1;
  aw_dbs : 2 * (NR_MAX_IO_QUEUE + 1) <= Z.of_nat (length (c_dbs c));
  aw_old : 2 * (NR_MAX_IO_QUEUE + 1) <= Z.of_nat (length (c_old_dbs c));
}.

(** The commands for which the code has no check of its own. *)
Definition log_len (cmd : nvme_command) : Z :=
  u32 (Z.shiftl (u32 (Z.lor (Z.shiftl (log_numdu cmd) 16) (log_numdl cmd) + 1)) 2).
Definition ns_there (l : list F) (i : Z) : bool := (0 <=? i) && (i <? Z.of_nat (length l)).
Definition zns_there (l : list F) (i : Z) : bool :=
  match nthZ l i, NS_SSD_TYPE bc i with
  | Ok ns, Ok SSD_TYPE_ZNS => (info_csi ns =? NVME_CSI_ZNS) && bool_decide (is_Some (info_zpp ns))
  | Ok _, Ok _ => true
  | _, _ => false
  end.
Definition identify_valid (l : list F) (cmd : nvme_command) : bool :=
  if id_cns cmd =? 0 then ns_there l (u32 (nsid cmd - 1))
  else if id_cns cmd =? 3 then ns_there l (s32 (nsid cmd - 1))
  else if id_cns cmd =? 5 then zns_there l (s32 (nsid cmd - 1))
  else true.
Definition log_valid (cmd : nvme_command) : bool :=
  if log_lid cmd =? NVME_LOG_SMART then log_len cmd <=? sizeof_smart_log
  else if log_lid cmd =? NVME_LOG_CMD_EFFECTS then log_len cmd <=? sizeof_effects_log
  else true.
Definition admin_valid (l : list F) (cmd : nvme_command) : bool :=
  let op := opcode cmd in
  if (op =? nvme_admin_delete_sq) || (op =? nvme_admin_create_sq) || (op =? nvme_admin_delete_cq)
     || (op =? nvme_admin_create_cq) then q_id cmd <=? NR_MAX_IO_QUEUE
  else if op =? nvme_admin_get_log_page then log_valid cmd
  else if op =? nvme_admin_identify then identify_valid l cmd
  else true.

(** The status that answers a command; none for Abort. *)
Definition known_cns (cns : Z) : bool :=
  (cns =? 0) || (cns =? 1) || (cns =? 2) || (cns =? 3) || (cns =? 5) || (cns =? 6).
Definition known_opcode (op : Z) : bool :=
  bool_decide (op ∈ [nvme_admin_delete_sq; nvme_admin_create_sq; nvme_admin_get_log_page; nvme_admin_delete_cq;
    nvme_admin_create_cq; nvme_admin_identify; nvme_admin_set_features; nvme_admin_get_features; nvme_admin_async_event]).
Definition admin_status (cmd : nvme_command) : option Z :=
  if opcode cmd =? nvme_admin_abort_cmd then None
  else if known_opcode (opcode cmd) && (negb (opcode cmd =? nvme_admin_identify) || known_cns (id_cns cmd))
  then Some NVME_SC_SUCCESS else Some NVME_SC_INVALID_OPCODE.

(** [c1] has the queue, the namespaces and the tables of [c]. *)
Definition same_admin c c1 : Prop :=
  c_admin_q c1 = c_admin_q c /\ d_ns (c_dev c1) = d_ns (c_dev c) /\ admin_wf c1 /\
  d_irqs (c_dev c1) = d_irqs (c_dev c) /\ c_bar c1 = c_bar c /\
  d_io_workers (c_dev c1) = d_io_workers (c_dev c) /\ d_nr_io_workers (c_dev c1) = d_nr_io_workers (c_dev c).
(** A handler posts one completion in such a state. *)
Definition answers (r : outcome (nvmev_ctrl F)) c (eid st : Z) : Prop :=
  exists c1 r0, same_admin c c1 /\ r = __make_cq_entry_results c1 eid st r0 0.

Lemma same_refl c : admin_wf c -> same_admin c c.
Proof. intros W. by split_and!. Qed.
Lemma same_host c m : admin_wf c -> same_admin c (set_host c m).
Proof. intros W. split_and!; try done. by destruct W. Qed.

Lemma answers_now c eid st r0 : admin_wf c -> answers (__make_cq_entry_results c eid st r0 0) c eid st.
Proof. intros W. exists c, r0. split; [by apply same_refl|done]. Qed.
Lemma answers_host c eid st m : admin_wf c -> answers (__make_cq_entry (set_host c m) eid st) c eid st.
Proof. intros W. exists (set_host c m), 0. split; [by apply same_host|done]. Qed.

Lemma clear_db_ok c i : admin_wf c -> 0 <= i < 2 * (NR_MAX_IO_QUEUE + 1) ->
  exists c1, clear_db c i = Ok c1 /\ same_admin c c1 /\ c_dev c1 = c_dev c.
Proof.
  intros [W1 W2 W3 W4] Hi. unfold clear_db. rewrite !updZ_Ok by lia. cbn [obind]. eexists. split; [done|].
  split; [|done]. split_and!; try done. split; simpl; rewrite ?length_insert; done.
Qed.

Lemma q_id_nonneg cmd : 0 <= q_id cmd.
Proof. apply (getf_range (cdw10 cmd) 0 16). lia. Qed.

Lemma set_queue_ok (c : nvmev_ctrl F) cmd (d : nvmev_dev F) eid k :
  admin_wf (set_dev c d) -> same_admin c (set_dev c d) -> q_id cmd <= NR_MAX_IO_QUEUE -> k = 0 \/ k = 1 ->
  answers (let* c := clear_db (set_dev c d) (q_id cmd * 2 + k) in __make_cq_entry c eid NVME_SC_SUCCESS) c eid NVME_SC_SUCCESS.
Proof.
  intros W S Hq Hk. pose proof (q_id_nonneg cmd). destruct (clear_db_ok _ (q_id cmd * 2 + k) W ltac:(lia)) as (c1 & -> & S1 & _).
  cbn [obind]. exists c1, 0. split; [|done]. destruct S as (?&?&?&?&?&?&?), S1 as (?&?&?&?&?&?&?). split_and!; congruence || done.
Qed.

Lemma queues_answer c eid cmd : admin_wf c -> admin_cmd c eid = Ok cmd -> q_id cmd <= NR_MAX_IO_QUEUE ->
  answers (__nvmev_admin_create_cq c eid) c eid NVME_SC_SUCCESS /\ answers (__nvmev_admin_create_sq c eid) c eid NVME_SC_SUCCESS /\
  answers (__nvmev_admin_delete_cq c eid) c eid NVME_SC_SUCCESS /\ answers (__nvmev_admin_delete_sq c eid) c eid NVME_SC_SUCCESS.
Proof.
  intros W Hc Hq. pose proof (q_id_nonneg cmd) as H0. destruct W as [W1 W2 W3 W4].
  unfold __nvmev_admin_create_cq, __nvmev_admin_create_sq, __nvmev_admin_delete_cq, __nvmev_admin_delete_sq.
  rewrite Hc. cbn [obind cq_qid new_cq sq_qid new_sq]. rewrite !updZ_Ok by lia. cbn [obind].
  split; [|split; [|split]].
  - apply set_queue_ok; [|split_and!; try done|done|by right]; split; simpl; rewrite ?length_insert; done.
  - rewrite <- (Z.add_0_r (q_id cmd * 2)). apply set_queue_ok; [|split_and!; try done|done|by left]; split; simpl; rewrite ?length_insert; done.
  - eexists _, 0. split; [|done]. split_and!; try done. split; simpl; rewrite ?length_insert; done.
  - eexists _, 0. split; [|done]. split_and!; try done. split; simpl; rewrite ?length_insert; done.
Qed.

Lemma log_answers c eid cmd : admin_wf c -> admin_cmd c eid = Ok cmd -> log_valid cmd = true ->
  answers (__nvmev_admin_get_log_page bc c eid) c eid NVME_SC_SUCCESS.
Proof.
  intros W Hc Hv. unfold __nvmev_admin_get_log_page. rewrite Hc. cbn [obind]. fold (log_len cmd). unfold log_valid in Hv.
  destruct (log_lid cmd =? NVME_LOG_SMART); [rewrite Hv; by apply answers_host|].
  destruct (log_lid cmd =? NVME_LOG_CMD_EFFECTS); [rewrite Hv; by apply answers_host|]. by apply answers_host.
Qed.

Lemma ns_there_ok (l : list F) i : ns_there l i = true -> exists ns, nthZ l i = Ok ns.
Proof. intros Hi. unfold ns_there in Hi. boolify. by apply nthZ_in_range. Qed.

(** The loop over the namespaces ends. *)
Lemma ns_list_ok nsid0 n m p : exists r, forO 1 n (m, p) (fun '(m, ns) i =>
    if nsid0 <? i then Ok (put_le m ns 4 i, ns + 4) else Ok (m, ns)) = Ok r.
Proof.
  unfold forO. generalize (seqZ 1 (n - 1)) as l. intros l. revert m p.
  induction l as [|i l IH]; intros m p; simpl; [by eexists|]. destruct (nsid0 <? i); apply IH.
Qed.

Lemma identify_answers c eid cmd : admin_wf c -> admin_cmd c eid = Ok cmd -> identify_valid (d_ns (c_dev c)) cmd = true ->
  answers (__nvmev_admin_identify bc c eid) c eid (if known_cns (id_cns cmd) then NVME_SC_SUCCESS else NVME_SC_INVALID_OPCODE).
Proof.
  intros W Hc Hv. unfold __nvmev_admin_identify. rewrite Hc. cbn [obind]. unfold identify_valid in Hv. unfold known_cns.
  destruct (id_cns cmd =? 0) eqn:E0; cbn [orb].
  { unfold __nvmev_admin_identify_namespace. rewrite Hc. cbn [obind]. change (LBA_BITS =? 9) with true. cbn [obind].
    destruct (ns_there_ok _ _ Hv) as [ns ->]. cbn [obind]. by apply answers_host. }
  destruct (id_cns cmd =? 1) eqn:E1; cbn [orb].
  { unfold __nvmev_admin_identify_ctrl. rewrite Hc. by apply answers_host. }
  destruct (id_cns cmd =? 2) eqn:E2; cbn [orb].
  { unfold __nvmev_admin_identify_namespaces. rewrite Hc. cbn [obind].
    destruct (ns_list_ok (nsid cmd) (c_nr_ns c + 1) (memset0 (c_host c) (prp1 cmd) (PAGE_SIZE * 2)) (prp1 cmd)) as [[m p] ->].
    by apply answers_host. }
  destruct (id_cns cmd =? 3) eqn:E3; cbn [orb].
  { unfold __nvmev_admin_identify_namespace_desc. rewrite Hc. cbn [obind].
    destruct (ns_there_ok _ _ Hv) as [ns ->]. by apply answers_host. }
  destruct (id_cns cmd =? 5) eqn:E5; cbn [orb].
  { unfold __nvmev_admin_identify_zns_namespace. rewrite Hc. cbn [obind]. unfold zns_there in Hv.
    destruct (nthZ _ _) as [ns| | |]; try done. cbn [obind]. destruct (NS_SSD_TYPE _ _) as [ty| | |]; try done. cbn [obind].
    destruct ty; try by apply answers_now. apply andb_true_iff in Hv as [-> Hz]. apply bool_decide_eq_true in Hz as [zpp ->].
    by apply answers_host. }
  destruct (id_cns cmd =? 6) eqn:E6.
  { unfold __nvmev_admin_identify_zns_ctrl. rewrite Hc. by apply answers_host. }
  by apply answers_now.
Qed.

Lemma features_answer c eid cmd : admin_wf c -> admin_cmd c eid = Ok cmd ->
  answers (__nvmev_admin_set_features c eid) c eid NVME_SC_SUCCESS /\
  answers (__nvmev_admin_get_features c eid) c eid NVME_SC_SUCCESS.
Proof.
  intros W Hc. unfold __nvmev_admin_set_features, __nvmev_admin_get_features. rewrite Hc. cbn [obind].
  destruct (feat_fid cmd =? NVME_FEAT_NUM_QUEUES); split; try by apply answers_now.
  eexists _, _. split; [|done]. split_and!; try done. by destruct W.
Qed.

Lemma req_answers c eid cmd : admin_wf c -> admin_cmd c eid = Ok cmd -> admin_valid (d_ns (c_dev c)) cmd = true ->
  match admin_status cmd with
  | None => __nvmev_proc_admin_req bc c eid = Ok c
  | Some st => answers (__nvmev_proc_admin_req bc c eid) c eid st
  end.
Proof.
  intros W Hc Hv. unfold __nvmev_proc_admin_req. rewrite Hc. cbn [obind]. unfold admin_status, admin_valid in *.
  assert (Hq : q_id cmd <= NR_MAX_IO_QUEUE -> _) by exact (queues_answer c eid cmd W Hc).
  destruct (features_answer c eid cmd W Hc) as [Hsf Hgf].
  repeat match goal with
  | |- context [opcode cmd =? ?k] =>
      destruct (Z.eqb_spec (opcode cmd) k) as [->|?]; [cbn in Hv |- *; try (apply Z.leb_le in Hv; destruct (Hq Hv) as (?&?&?&?)); try done|]
  end.
  - pose proof (identify_answers c eid cmd W Hc Hv) as Hi. by destruct (known_cns _).
  - by eapply log_answers.
  - by apply answers_now.
  - unfold known_opcode. rewrite bool_decide_eq_false_2; [by apply answers_now|]. set_solver.
Qed.

(** ** A doorbell *)
Definition answer_at (cmds : list nvme_command) (eid : Z) : option (Z * Z * Z) :=
  match nthZ cmds eid with
  | Ok cmd => match admin_status cmd with Some st => Some (u16 eid, u16 (command_id cmd), st) | None => None end
  | _ => None
  end.
Definition valid_at (l : list F) (cmds : list nvme_command) (eid : Z) : Prop :=
  exists cmd, nthZ cmds eid = Ok cmd /\ admin_valid l cmd = true.

Lemma status_01 cmd st : admin_status cmd = Some st -> st = 0 \/ st = 1.
Proof. unfold admin_status. destruct (_ =? _); [done|]. destruct (_ && _); intros [= <-]; [by left|by right]. Qed.

(** Queue, wrap of the ring and tables of the state between two commands. *)
Record admin_at c (cmds : list nvme_command) (depth T : Z) (q : nvmev_admin_queue) : Prop := {
  at_q : c_admin_q c = Some q;
  at_ring : aq_at q T;
  at_cmds : aq_nvme_sq q = Some cmds;
  at_depth : aq_sq_depth q = depth;
  at_wf : admin_wf c;
}.

(** What no command changes. *)
Definition kept c c' : Prop :=
  d_ns (c_dev c') = d_ns (c_dev c) /\ d_irqs (c_dev c') = d_irqs (c_dev c) /\ c_bar c' = c_bar c /\
  d_io_workers (c_dev c') = d_io_workers (c_dev c) /\ d_nr_io_workers (c_dev c') = d_nr_io_workers (c_dev c).
Lemma kept_refl c : kept c c.
Proof. done. Qed.
Lemma kept_trans c1 c2 c3 : kept c1 c2 -> kept c2 c3 -> kept c1 c3.
Proof. intros (?&?&?&?&?) (?&?&?&?&?). split_and!; congruence. Qed.

Lemma answer_posts c c1 cmds depth T q eid cmd st r0 :
  admin_at c cmds depth T q -> same_admin c c1 -> nthZ cmds eid = Ok cmd ->
  exists c' q', __make_cq_entry_results c1 eid st r0 0 = Ok c' /\ kept c c' /\
    post_cqe (aq_ring q) (admin_work eid (command_id cmd) st r0) = Ok (aq_ring q') /\
    admin_at c' cmds depth (T + 1) q' /\ aq_cq_depth q' = aq_cq_depth q.
Proof.
  intros [Q R C D W] (S1 & S2 & S3 & S4 & S5 & S6 & S7) Hc. unfold __make_cq_entry_results, get_aq, aq_sq_entry.
  rewrite S1, Q. cbn [obind of_option]. rewrite C. cbn [obind of_option]. rewrite Hc. cbn [obind].
  destruct (aq_post_ring q eid (command_id cmd) st r0 T R) as (q' & -> & Hp & R' & C' & D' & E'). cbn [obind].
  eexists _, q'. split; [done|]. split; [by split_and!|]. split; [done|]. split; [|done].
  split; simpl; try done; [congruence|congruence|]. by destruct S3.
Qed.

Lemma loop_answers cmds depth n c curr T q :
  admin_at c cmds depth T q -> Forall (valid_at (d_ns (c_dev c)) cmds) (ring_slots depth curr n) ->
  exists c' q' ws, proc_admin_loop bc n c curr = Ok c' /\ kept c c' /\
    post_all (aq_ring q) ws = Ok (aq_ring q') /\ admin_at c' cmds depth (T + Z.of_nat (length ws)) q' /\
    map work_answer ws = omap (answer_at cmds) (ring_slots depth curr n) /\
    Forall (fun w => w_status w = 0 \/ w_status w = 1) ws.
Proof.
  revert c curr T q. induction n as [|n IH]; intros c curr T q A V; simpl.
  { exists c, q, []. rewrite Z.add_0_r. split_and!; try done. }
  simpl in V. apply Forall_cons_1 in V as [(cmd & Hc & Hv) V].
  assert (Ha : admin_cmd c curr = Ok cmd).
  { unfold admin_cmd, get_aq, aq_sq_entry. rewrite (at_q _ _ _ _ _ A). cbn [obind of_option]. rewrite (at_cmds _ _ _ _ _ A). done. }
  pose proof (req_answers c curr cmd (at_wf _ _ _ _ _ A) Ha Hv) as Hr. unfold answer_at at 1. rewrite Hc.
  destruct (admin_status cmd) as [st|] eqn:Es.
  - destruct Hr as (c1 & r0 & S & ->).
    destruct (answer_posts c c1 cmds depth T q curr cmd st r0 A S Hc) as (c2 & q2 & -> & K2 & P2 & A2 & E2).
    cbn [obind]. unfold get_aq. rewrite (at_q _ _ _ _ _ A2). cbn [obind of_option]. rewrite (at_depth _ _ _ _ _ A2).
    destruct (IH c2 (if curr + 1 =? depth then 0 else curr + 1) _ _ A2) as (c' & q' & ws & -> & K & P & A' & M & Fs); [by rewrite (proj1 K2)|].
    exists c', q', (admin_work curr (command_id cmd) st r0 :: ws). split; [done|]. split; [by eapply kept_trans|].
    split; [unfold post_all in *; simpl; by rewrite P2|]. split.
    { replace (T + Z.of_nat (length (admin_work curr (command_id cmd) st r0 :: ws))) with (T + 1 + Z.of_nat (length ws)); [done|].
      simpl length. lia. }
    split; [simpl; by rewrite M|]. constructor; [by eapply status_01|done].
  - rewrite Hr. cbn [obind]. unfold get_aq. rewrite (at_q _ _ _ _ _ A). cbn [obind of_option]. rewrite (at_depth _ _ _ _ _ A).
    by apply IH.
Qed.
End Facts.
