(* ===== verification/Ctrl.v ===== *)
(** * Ctrl: registers, doorbells and the loop of the dispatcher (src/pci.c, src/main.c)

    The host writes registers and doorbells in memory that the dispatcher polls:
    an iteration of [nvmev_dispatcher] compares the registers with the copies of
    the last iteration, acts on the first difference, and then serves every
    doorbell that has moved. *)
From stdpp Require Import base list numbers.
From Stdlib Require Import ZArith Lia.
From S2P Require Import Prelude ChannelModel SsdConfig Ssd Nvme Prp HostMem.
From S2P Require Import WorkQueue IoDev IoQueue ZnsData Admin.

Open Scope Z_scope.
Open Scope nvmev_scope.

(** ** Fields of the registers (src/pci.h) *)
Definition aqa_asqs (aqa : Z) : Z := getf aqa 0 12.
Definition aqa_acqs (aqa : Z) : Z := getf aqa 16 12.
Definition cc_en (cc : Z) : Z := getf cc 0 1.
Definition cc_shn (cc : Z) : Z := getf cc 14 2.
Definition csts_rdy (csts : Z) : Z := getf csts 0 1.
Definition csts_shst (csts : Z) : Z := getf csts 2 2.

Definition set_r_cc (b : nvme_bar) (v : Z) : nvme_bar :=
  mk_bar (r_cap b) (r_vs b) (r_intms b) (r_intmc b) v (r_rsvd1 b) (r_csts b) (r_nssr b) (r_aqa b) (r_asq b) (r_acq b)
    (r_cmbloc b) (r_cmbsz b).
Definition set_r_csts (b : nvme_bar) (v : Z) : nvme_bar :=
  mk_bar (r_cap b) (r_vs b) (r_intms b) (r_intmc b) (r_cc b) (r_rsvd1 b) v (r_nssr b) (r_aqa b) (r_asq b) (r_acq b)
    (r_cmbloc b) (r_cmbsz b).
Definition set_r_aqa (b : nvme_bar) (v : Z) : nvme_bar :=
  mk_bar (r_cap b) (r_vs b) (r_intms b) (r_intmc b) (r_cc b) (r_rsvd1 b) (r_csts b) (r_nssr b) v (r_asq b) (r_acq b)
    (r_cmbloc b) (r_cmbsz b).
Definition set_r_asq (b : nvme_bar) (v : Z) : nvme_bar :=
  mk_bar (r_cap b) (r_vs b) (r_intms b) (r_intmc b) (r_cc b) (r_rsvd1 b) (r_csts b) (r_nssr b) (r_aqa b) v (r_acq b)
    (r_cmbloc b) (r_cmbsz b).
Definition set_r_acq (b : nvme_bar) (v : Z) : nvme_bar :=
  mk_bar (r_cap b) (r_vs b) (r_intms b) (r_intmc b) (r_cc b) (r_rsvd1 b) (r_csts b) (r_nssr b) (r_aqa b) (r_asq b) v
    (r_cmbloc b) (r_cmbsz b).

(** ** Power-on (src/pci.c) *)
Definition CAP_CSS_BIT_SPECIFIC : Z := 64.

(** CAP: [to], [mpsmin], [mqes] and [css]; VS: [mjr], [mnr]. *)
Definition __init_nvme_ctrl_regs (bc : base_config) : nvme_bar :=
  let cap := setf (setf (setf 0 24 8 1) 48 4 0) 0 16 (1024 - 1) in
  let cap := if SUPPORTED_SSD_TYPE_ZNS bc then setf cap 37 8 CAP_CSS_BIT_SPECIFIC else cap in
  mk_bar cap (setf (setf 0 16 16 1) 8 8 0) 0 0 0 0 0 0 0 0 0 0 0.

(** Doorbells: the page behind the registers and a page from [kzalloc]. *)
Definition NR_DBS : Z := PAGE_SIZE / 4.

(** [VDEV_INIT] and [__create_pci_bus]: the controller before the host finds it. *)
Definition __create_pci_bus {F} (bc : base_config) (d : nvmev_dev F) (nr_ns mdts : Z) : nvmev_ctrl F :=
  let bar := __init_nvme_ctrl_regs bc in
  let dbs := replicate (Z.to_nat NR_DBS) 0 in
  mk_ctrl d None dbs dbs bar bar nr_ns mdts.

(** The first page of a queue. *)
Definition page_base (a : Z) : Z := Z.shiftl (Z.shiftr a 12) 12.

Section Ctrl.
Context {F : Type} `{NsInfo F}.
Implicit Type c : nvmev_ctrl F.

(** ** Registers *)

(** A queue from [kzalloc], or the one there is, for new attributes. *)
Definition init_admin_q (q : option nvmev_admin_queue) (aqa : Z) : nvmev_admin_queue :=
  mk_aq 1 (aqa_asqs aqa + 1) (aqa_acqs aqa + 1) 0
    (match q with Some q => aq_nvme_sq q | None => None end)
    (match q with Some q => aq_nvme_cq q | None => None end).

Definition map_admin_sq (m : mem) (q : nvmev_admin_queue) (aqa asq : Z) : nvmev_admin_queue :=
  let depth := aqa_asqs aqa + 1 in
  mk_aq (aq_phase q) depth (aq_cq_depth q) (aq_cq_head q)
    (Some (sq_pages m (page_base asq) (DIV_ROUND_UP (depth * 64) PAGE_SIZE))) (aq_nvme_cq q).

Definition map_admin_cq (m : mem) (q : nvmev_admin_queue) (aqa acq : Z) : nvmev_admin_queue :=
  let depth := aqa_acqs aqa + 1 in
  mk_aq (aq_phase q) (aq_sq_depth q) depth 0 (aq_nvme_sq q)
    (Some (cq_pages m (page_base acq) (DIV_ROUND_UP (depth * 16) PAGE_SIZE))).

Definition set_cq_head (q : nvmev_admin_queue) (h : Z) : nvmev_admin_queue :=
  mk_aq (aq_phase q) (aq_sq_depth q) (aq_cq_depth q) h (aq_nvme_sq q) (aq_nvme_cq q).

(** The branch of CC: enable, then shutdown. *)
Definition proc_cc c : outcome (nvmev_ctrl F) :=
  let bar := c_bar c in
  let csts := r_csts bar in
  let csts :=
    if cc_en (r_cc bar) =? 1 then
      (match c_admin_q c with Some _ => setf csts 0 1 1 | None => csts end)
    else setf csts 0 1 0 in
  let* (csts, c) :=
    (if cc_shn (r_cc bar) =? 1 then
       let* c := clear_db c 0 in
       let* c := clear_db c 1 in
       let* q := get_aq c in
       Ok (setf csts 2 2 2, set_aq c (set_cq_head q 0))
     else Ok (csts, c)) in
  Ok (set_bars c (set_r_csts bar csts) (set_r_cc (c_old_bar c) (r_cc bar))).

Definition nvmev_proc_bars c : outcome (nvmev_ctrl F) :=
  let old_bar := c_old_bar c in
  let bar := c_bar c in
  if negb (r_aqa old_bar =? r_aqa bar) then
    let c' := set_bars c bar (set_r_aqa old_bar (r_aqa bar)) in
    let* c := clear_db (set_aq c' (init_admin_q (c_admin_q c) (r_aqa bar))) 0 in
    clear_db c 1
  else if negb (r_asq old_bar =? r_asq bar) then
    match c_admin_q c with
    | None => Ok c
    | Some q =>
        let c' := set_bars c bar (set_r_asq old_bar (r_asq bar)) in
        clear_db (set_aq c' (map_admin_sq (c_host c) q (r_aqa bar) (r_asq bar))) 0
    end
  else if negb (r_acq old_bar =? r_acq bar) then
    match c_admin_q c with
    | None => Ok c
    | Some q =>
        let c' := set_bars c bar (set_r_acq old_bar (r_acq bar)) in
        clear_db (set_aq c' (map_admin_cq (c_host c) q (r_aqa bar) (r_acq bar))) 1
    end
  else if negb (r_cc old_bar =? r_cc bar) then proc_cc c
  else Ok c.

(** ** Doorbells *)
Context `{IoHandler F} `{Clock}.
Variable bc : base_config.
(** Fuel of the walk in [nvmev_proc_io_cq]. *)
Variable cq_fuel : nat.

(** [new_db], an [int]. *)
Definition read_db (l : list Z) (i : Z) : outcome Z := let* v := nthZ l i in Ok (s32 v).
Definition set_old_db c (i v : Z) : outcome (nvmev_ctrl F) :=
  let* o := updZ (c_old_dbs c) i (u32 v) in Ok (set_dbs c (c_dbs c) o).

(** The doorbells 0 and 1 of the administration queue; the comparison is the
    one of the 32-bit words. *)
Definition proc_admin_db c (i : Z) : outcome (nvmev_ctrl F) :=
  let* new_db := read_db (c_dbs c) i in
  let* old_db := read_db (c_old_dbs c) i in
  if new_db =? old_db then Ok c
  else
    let* c := (if i =? 0 then nvmev_proc_admin_sq bc c new_db old_db
               else Ok (nvmev_proc_admin_cq c new_db old_db)) in
    set_old_db c i new_db.

Definition proc_sq_db c (qid : Z) : outcome (nvmev_ctrl F) :=
  let* r := nthZ (d_sqes (c_dev c)) qid in
  match r with
  | None => Ok c
  | Some _ =>
      let dbs_idx := qid * 2 in
      let* new_db := read_db (c_dbs c) dbs_idx in
      let* old_db := read_db (c_old_dbs c) dbs_idx in
      if new_db =? old_db then Ok c
      else
        let* (db, d) := nvmev_proc_io_sq (c_dev c) qid new_db old_db in
        set_old_db (set_dev c d) dbs_idx db
  end.

Definition proc_cq_db c (qid : Z) : outcome (nvmev_ctrl F) :=
  let* r := nthZ (d_cqes (c_dev c)) qid in
  match r with
  | None => Ok c
  | Some _ =>
      let dbs_idx := qid * 2 + 1 in
      let* new_db := read_db (c_dbs c) dbs_idx in
      let* old_db := read_db (c_old_dbs c) dbs_idx in
      if new_db =? old_db then Ok c
      else
        let* d := nvmev_proc_io_cq cq_fuel (c_dev c) qid new_db old_db in
        set_old_db (set_dev c d) dbs_idx new_db
  end.

Definition nvmev_proc_dbs c : outcome (nvmev_ctrl F) :=
  let* c := proc_admin_db c 0 in
  let* c := proc_admin_db c 1 in
  let* c := forO 1 (d_nr_sq (c_dev c) + 1) c proc_sq_db in
  forO 1 (d_nr_cq (c_dev c) + 1) c proc_cq_db.

(** An iteration of [nvmev_dispatcher]. *)
Definition dispatcher_round c : outcome (nvmev_ctrl F) :=
  let* c := nvmev_proc_bars c in
  nvmev_proc_dbs c.
End Ctrl.
