(* ===== verification/IoUnits.v ===== *)
(** * IoUnits: the simple FTL (src/simple_ftl.c)

    A device of [nr_io_units] units that work in parallel: a command occupies
    consecutive units, [1 << io_unit_shift] bytes each, from the unit of its
    first sector.  The key-value FTL times its commands the same way. *)
From stdpp Require Import base list numbers.
From Stdlib Require Import ZArith Lia.
From S2P Require Import Prelude ChannelModel SsdConfig Ssd Nvme Prp IoDev.

Open Scope Z_scope.
Open Scope nvmev_scope.

(** ** Configuration (src/nvmev.h) *)
Record nvmev_config := mk_config {
  cfg_memmap_start : Z;
  cfg_memmap_size : Z;
  cfg_storage_start : Z;
  cfg_storage_size : Z;
  cfg_cpu_nr_dispatcher : Z;
  cfg_nr_io_workers : Z;
  cfg_cpu_nr_io_workers : list Z; (* the first [nr_io_workers] elements *)
  cfg_nr_io_units : Z;
  cfg_io_unit_shift : Z;
  cfg_read_delay : Z;
  cfg_read_time : Z;
  cfg_read_trailing : Z;
  cfg_write_delay : Z;
  cfg_write_time : Z;
  cfg_write_trailing : Z;
}.

(** Delay, latency and trailing time of the commands that write and read. *)
Definition unit_times (cfg : nvmev_config) (writes reads : bool) : Z * Z * Z :=
  if writes then (cfg_write_delay cfg, cfg_write_time cfg, cfg_write_trailing cfg)
  else if reads then (cfg_read_delay cfg, cfg_read_time cfg, cfg_read_trailing cfg)
  else (0, 0, 0).

(** [1 << config.io_unit_shift], an [int]. *)
Definition io_unit_size (cfg : nvmev_config) : outcome Z :=
  GUARD! cfg_io_unit_shift cfg <? 31;
  Ok (Z.shiftl 1 (cfg_io_unit_shift cfg)).

(** The unit of a sector; the shift is an [unsigned int] below 64. *)
Definition first_io_unit (cfg : nvmev_config) (lba : Z) : outcome Z :=
  let s := u32 (cfg_io_unit_shift cfg - LBA_BITS) in
  GUARD! s <? 64;
  modO (Z.shiftr lba s) (cfg_nr_io_units cfg).

(** One iteration of the loop: [stat] is [io_unit_stat], [n] is [nr_io_units]. *)
Record unit_state := mk_units {
  us_stat : list Z;
  us_latest : Z;
  us_io_unit : Z;
  us_n : Z;
  us_length : Z;
}.

Definition unit_step (cfg : nvmev_config) (unit_size latency trailing : Z) (s : unit_state)
  : outcome unit_state :=
  let latest := u64 (us_latest s + latency) in
  let* stat := updZ (us_stat s) (us_io_unit s) latest in
  let* stat :=
    (if 0 <? us_n s then updZ stat (us_io_unit s) (u64 (latest + trailing)) else Ok stat) in
  let io_unit := us_io_unit s + 1 in
  Ok (mk_units stat latest (if cfg_nr_io_units cfg <=? io_unit then 0 else io_unit) (us_n s - 1)
        (us_length s - Z.min (us_length s) unit_size)).

(** [do ... while (length > 0)] *)
Fixpoint unit_loop (fuel : nat) (cfg : nvmev_config) (unit_size latency trailing : Z) (s : unit_state)
  : outcome unit_state :=
  match fuel with
  | O => NoFuel
  | S fuel' =>
      let* s := unit_step cfg unit_size latency trailing s in
      if 0 <? us_length s then unit_loop fuel' cfg unit_size latency trailing s else Ok s
  end.

(** Time of completion, and [io_unit_stat] after it.  An iteration takes a
    unit's bytes off the length. *)
Definition __schedule_io_units (cfg : nvmev_config) (stat : list Z) (writes reads : bool)
  (lba length nsecs_start : Z) : outcome (Z * list Z) :=
  let* unit_size := io_unit_size cfg in
  let* io_unit := first_io_unit cfg lba in
  let n := s32 (Z.min (cfg_nr_io_units cfg) (u32 (length + unit_size - 1) / unit_size)) in
  let '(delay, latency, trailing) := unit_times cfg writes reads in
  let* busy := nthZ stat io_unit in
  let latest := u64 (Z.max nsecs_start busy + delay) in
  let* s := unit_loop (S (Z.to_nat (length / unit_size))) cfg unit_size latency trailing
              (mk_units stat latest io_unit n length) in
  Ok (us_latest s, us_stat s).

Definition __schedule_flush (cfg : nvmev_config) (stat : list Z) : outcome Z :=
  forO 0 (cfg_nr_io_units cfg) 0 (fun latest i => let* t := nthZ stat i in Ok (Z.max latest t)).

(** ** The simple FTL *)
Record simple_store := mk_simple_store {
  si_csi : Z;
  si_stat : list Z; (* [io_unit_stat] *)
  si_mapped : mem;
  si_bytes : Z;
}.

Section Simple.
Context `{Clock}.
Variable cfg : nvmev_config.

Definition is_write (op : Z) : bool := op =? nvme_cmd_write.
Definition is_read (op : Z) : bool := op =? nvme_cmd_read.

(** [BASE_SSD] is [INTEL_OPTANE]. *)
Definition simple_proc_nvme_io_cmd (s : simple_store) (clk : nat) (req : nvmev_request)
  (ret : nvmev_result) : outcome (simple_store * nat * nvmev_result) :=
  let cmd := req_cmd req in
  let op := opcode cmd in
  ASSERT! si_csi s =? NVME_CSI_NVM;
  if is_write op || is_read op then
    let* (t, stat) := __schedule_io_units cfg (si_stat s) (is_write op) (is_read op) (rw_slba cmd)
      (u32 (__cmd_io_size cmd)) (cpu_clock clk) in
    Ok (mk_simple_store (si_csi s) stat (si_mapped s) (si_bytes s), S clk,
        mk_nvmev_result (ret_status ret) t)
  else if op =? nvme_cmd_flush then
    let* t := __schedule_flush cfg (si_stat s) in
    Ok (s, clk, mk_nvmev_result (ret_status ret) t)
  else Ok (s, clk, ret).

Definition simple_init_namespace (size : Z) (mapped : mem) (stat : list Z) : simple_store :=
  mk_simple_store NVME_CSI_NVM stat mapped size.
End Simple.

(** * Times of the simple device *)

Lemma u64_add_l a b : u64 (u64 a + b) = u64 (a + b).
Proof. unfold u64. apply Zplus_mod_idemp_l. Qed.

(** Iteration [i] is the last of [0 .. n-1] with index [i mod m]. *)
Definition last_visit (n d m : Z) : Z := d + m * ((n - 1 - d) / m).

Lemma last_visit_self i m : 0 < m -> last_visit (i + 1) (i mod m) m = i.
Proof.
  intros Hm. unfold last_visit. replace (i + 1 - 1 - i mod m) with (i / m * m) by (pose proof (Z.div_mod i m); lia).
  rewrite Z.div_mul by lia. pose proof (Z.div_mod i m). lia.
Qed.

Lemma last_visit_other i d m : 0 <= d < m -> d <> i mod m -> last_visit (i + 1) d m = last_visit i d m.
Proof.
  intros Hd Hne. unfold last_visit. f_equal. f_equal. replace (i + 1 - 1 - d) with (i - 1 - d + 1) by lia.
  pose proof (Z.div_mod (i - 1 - d) m ltac:(lia)) as E. pose proof (Z.mod_pos_bound (i - 1 - d) m ltac:(lia)) as Hr.
  set (q := (i - 1 - d) / m) in *. set (r := (i - 1 - d) mod m) in *.
  destruct (decide (r = m - 1)) as [Er|Er].
  - exfalso. apply Hne. apply (Z.mod_unique i m (q + 1)); [by left|]. lia.
  - symmetry. apply (Z.div_unique _ m q (r + 1)); [left|]; lia.
Qed.

Section Units.
Variables (cfg : nvmev_config) (stat0 : list Z) (unit_size latency trailing u0 base len n0 : Z).
Notation m := (cfg_nr_io_units cfg).
Context (Hm : 0 < m) (Hlen0 : Z.of_nat (length stat0) = m) (Hu0 : 0 <= u0 < m) (Hsize : 0 < unit_size) (Hlen : 0 <= len).

(** What unit [j] shows after [i] iterations. *)
Definition unit_time (i j : Z) : outcome Z :=
  let d := (j - u0) mod m in
  if d <? i then
    let r := last_visit i d m in Ok (u64 (base + (r + 1) * latency + (if r <? n0 then trailing else 0)))
  else nthZ stat0 j.

Record units_at (i : Z) (s : unit_state) : Prop := {
  ua_len : Z.of_nat (length (us_stat s)) = m;
  ua_stat : forall j, 0 <= j < m -> nthZ (us_stat s) j = unit_time i j;
  ua_latest : us_latest s = u64 (base + i * latency);
  ua_unit : us_io_unit s = (u0 + i) mod m;
  ua_n : us_n s = n0 - i;
  ua_length : us_length s = Z.max 0 (len - i * unit_size);
}.

Lemma unit_index j i : 0 <= j < m -> (j - u0) mod m = i mod m <-> j = (u0 + i) mod m.
Proof.
  intros Hj. split.
  - intros E. rewrite <- (Z.mod_small j m) by lia. replace j with (u0 + (j - u0)) at 1 by lia.
    rewrite <- Zplus_mod_idemp_r, E, Zplus_mod_idemp_r. done.
  - intros ->. rewrite Zminus_mod_idemp_l. f_equal. lia.
Qed.

Lemma unit_step_spec i s : 0 <= i -> units_at i s ->
  exists s', unit_step cfg unit_size latency trailing s = Ok s' /\ units_at (i + 1) s'.
Proof.
  intros Hi [U1 U2 U3 U4 U5 U6]. unfold unit_step. rewrite U3, U4, U5, U6, u64_add_l.
  replace (base + i * latency + latency) with (base + (i + 1) * latency) by lia.
  set (u := (u0 + i) mod m). assert (Hu : 0 <= u < m) by (by apply Z.mod_pos_bound).
  rewrite updZ_Ok by lia. cbn [obind].
  set (t := u64 (base + (i + 1) * latency + (if i <? n0 then trailing else 0))).
  assert (E : (if 0 <? n0 - i then updZ (<[Z.to_nat u := u64 (base + (i + 1) * latency)]> (us_stat s)) u
      (u64 (u64 (base + (i + 1) * latency) + trailing)) else Ok (<[Z.to_nat u := u64 (base + (i + 1) * latency)]> (us_stat s))) =
    Ok (<[Z.to_nat u := t]> (us_stat s))).
  { unfold t. destruct (Z.ltb_spec 0 (n0 - i)).
    - rewrite updZ_Ok by (rewrite length_insert; lia). rewrite (proj2 (Z.ltb_lt i n0)) by lia. f_equal.
      by rewrite list_insert_insert_eq, u64_add_l.
    - rewrite (proj2 (Z.ltb_ge i n0)) by lia. by rewrite Z.add_0_r. }
  rewrite E. cbn [obind]. eexists. split; [reflexivity|]. split; simpl.
  - by rewrite length_insert.
  - intros j Hj. rewrite nthZ_insert by lia. pose proof (unit_index j i Hj) as Hx. fold u in Hx. unfold unit_time.
    set (d := (j - u0) mod m) in *. assert (Hd : 0 <= d < m) by (by apply Z.mod_pos_bound).
    destruct (Z.eqb_spec j u) as [Ej|Ej].
    + rewrite (proj2 Hx Ej). pose proof (Z.mod_le i m ltac:(lia) ltac:(lia)).
      rewrite (proj2 (Z.ltb_lt _ _)) by lia. rewrite last_visit_self by lia. done.
    + assert (Hne : d <> i mod m) by (intros Hc; by apply Ej, Hx). rewrite U2 by done. unfold unit_time. fold d.
      assert (Hdi : d <> i) by (intros ->; apply Hne; by rewrite Z.mod_small).
      rewrite (last_visit_other i d m Hd Hne). destruct (Z.ltb_spec d i), (Z.ltb_spec d (i + 1)); try done; lia.
  - done.
  - fold u. replace (u0 + (i + 1)) with (u0 + i + 1) by lia. rewrite <- Zplus_mod_idemp_l. fold u.
    destruct (Z.leb_spec m (u + 1)); [assert (u + 1 = m) as -> by lia; by rewrite Z.mod_same by lia|].
    by rewrite Z.mod_small by lia.
  - lia.
  - lia.
Qed.

Lemma unit_loop_spec fuel i s :
  0 <= i -> units_at i s -> (i = 0 \/ i * unit_size < len) -> (len <= i * unit_size + unit_size * Z.of_nat fuel) -> (0 < fuel)%nat ->
  exists s' k, unit_loop fuel cfg unit_size latency trailing s = Ok s' /\ units_at k s' /\ i < k /\
    len <= k * unit_size /\ (k = 1 \/ (k - 1) * unit_size < len).
Proof.
  revert i s. induction fuel as [|fuel IH]; intros i s Hi U Hp Hf H0; [lia|]. cbn [unit_loop].
  destruct (unit_step_spec i s Hi U) as (s1 & -> & U1). cbn [obind]. rewrite (ua_length _ _ U1).
  destruct (Z.ltb_spec 0 (Z.max 0 (len - (i + 1) * unit_size))).
  - destruct (IH (i + 1) s1) as (s' & k & E & A1 & A2 & A3); [lia|done|right; lia|lia|destruct fuel; lia|].
    exists s', k. split; [exact E|]. split; [done|]. split; [lia|done].
  - exists s1, (i + 1). split; [done|]. split; [done|]. split; [lia|]. split; [lia|].
    destruct Hp as [->|?]; [by left|right]. by replace (i + 1 - 1) with i by lia.
Qed.
End Units.

(** Units of a command of [len] bytes. *)
Definition unit_count (len size : Z) : Z := (len + size - 1) / size.

Lemma count_unique len size k : 0 < size -> 0 < len -> len <= k * size -> (k = 1 \/ (k - 1) * size < len) -> k = unit_count len size.
Proof.
  intros Hs Hl H1 H2. unfold unit_count. apply (Z.div_unique _ size k (len + size - 1 - size * k)); [|lia]. left.
  destruct H2 as [->|H2]; lia.
Qed.

(** The schedule of a command, with the units it leaves. *)
Lemma schedule_units_spec cfg stat writes reads lba len start :
  let m := cfg_nr_io_units cfg in
  let size := 2 ^ cfg_io_unit_shift cfg in
  let '(delay, latency, trailing) := unit_times cfg writes reads in
  0 < m < 2147483648 -> LBA_BITS <= cfg_io_unit_shift cfg < 31 -> Z.of_nat (length stat) = m ->
  0 < len -> len + size <= 4294967296 ->
  let u := (lba / 2 ^ (cfg_io_unit_shift cfg - LBA_BITS)) mod m in
  let k := unit_count len size in
  exists busy stat', nthZ stat u = Ok busy /\
    let base := u64 (Z.max start busy + delay) in
    __schedule_io_units cfg stat writes reads lba len start = Ok (u64 (base + k * latency), stat') /\
    Z.of_nat (length stat') = m /\
    forall j, 0 <= j < m -> nthZ stat' j = unit_time cfg stat latency trailing u base (Z.min m k) k j.
Proof.
  intros m size. destruct (unit_times cfg writes reads) as [[delay latency] trailing] eqn:Et. intros Hm Hs Hlen Hl0 Hl u k.
  unfold LBA_BITS in *. assert (Hu : 0 <= u < m) by (apply Z.mod_pos_bound; lia).
  assert (Hsz : 512 <= size <= 1073741824).
  { unfold size. change 512 with (2 ^ 9). change 1073741824 with (2 ^ 30). split; apply Z.pow_le_mono_r; lia. }
  destruct (nthZ_in_range stat u) as [busy Eb]; [lia|]. exists busy. set (base := u64 (Z.max start busy + delay)).
  unfold __schedule_io_units, io_unit_size, first_io_unit. rewrite (proj2 (Z.ltb_lt _ 31)) by lia. cbn [obind].
  unfold LBA_BITS. rewrite u32_id by lia. rewrite (proj2 (Z.ltb_lt _ 64)) by lia. rewrite modO_Ok by lia. cbn [obind].
  rewrite Z.shiftl_1_l, Z.shiftr_div_pow2, Et by lia. fold size m. fold u. rewrite Eb. cbn [obind]. fold base.
  rewrite (u32_id (len + size - 1)) by lia. fold (unit_count len size) k.
  assert (Hk : 0 <= k) by (apply Z.div_pos; lia). rewrite s32_id by lia.
  destruct (unit_loop_spec cfg stat size latency trailing u base len (Z.min m k) ltac:(lia) ltac:(lia)
    (S (Z.to_nat (len / size))) 0 (mk_units stat base u (Z.min m k) len)) as (s & k' & -> & U & _ & H1 & H2).
  - done.
  - split; simpl; try done; try lia.
    + intros j Hj. unfold unit_time. pose proof (Z.mod_pos_bound (j - u) m ltac:(lia)).
      by rewrite (proj2 (Z.ltb_ge _ 0)) by (unfold m in *; lia).
    + rewrite Z.mul_0_l, Z.add_0_r. unfold base. symmetry. apply u64_id, u64_range.
    + rewrite Z.add_0_r. symmetry. by apply Z.mod_small.
  - by left.
  - pose proof (Z.mul_succ_div_gt len size). rewrite Nat2Z.inj_succ, Z2Nat.id by (apply Z.div_pos; lia). lia.
  - lia.
  - cbn [obind].
    assert (Ek : k' = k) by (by apply count_unique; [lia|..]). subst k'.
    exists (us_stat s). rewrite (ua_latest _ _ _ _ _ _ _ _ _ _ _ U). split; [done|]. split; [done|].
    split; [apply (ua_len _ _ _ _ _ _ _ _ _ _ _ U)|apply (ua_stat _ _ _ _ _ _ _ _ _ _ _ U)].
Qed.

(** C27: The time of a simple-device command is the later of start and availability of its first
    unit plus the delay and one latency per unit of data, modulo 2^64; each unit visited shows the
    time of its last visit, plus the trailing time exactly when that visit is among the first n of
    the command, n the smaller of the units of the device and those of the command (so after a
    command longer than the device only the units that were not visited again carry it), and
    untouched units keep their time. *)
Theorem schedule_io_units_time cfg stat writes reads lba len start :
  let m := cfg_nr_io_units cfg in
  let size := 2 ^ cfg_io_unit_shift cfg in
  let '(delay, latency, trailing) := unit_times cfg writes reads in
  0 < m < 2147483648 -> LBA_BITS <= cfg_io_unit_shift cfg < 31 -> Z.of_nat (length stat) = m ->
  0 < len -> len + size <= 4294967296 ->
  let u := (lba / 2 ^ (cfg_io_unit_shift cfg - LBA_BITS)) mod m in
  let k := unit_count len size in
  exists busy stat', nthZ stat u = Ok busy /\
    let base := u64 (Z.max start busy + delay) in
    __schedule_io_units cfg stat writes reads lba len start = Ok (u64 (base + k * latency), stat') /\
    Z.of_nat (length stat') = m /\
    forall j, 0 <= j < m -> nthZ stat' j = unit_time cfg stat latency trailing u base (Z.min m k) k j.
Proof. apply schedule_units_spec. Qed.

(** Three units of 4 KiB from unit 7 on: the last two wrap to the units 0 and 1. *)
Definition demo_cfg : nvmev_config := mk_config 0 0 0 0 0 1 [1] 8 12 0 0 0 5 100 7.

Lemma schedule_io_units_time_witness : exists stat',
  __schedule_io_units demo_cfg (replicate 8 0) true false 56 12288 1000 = Ok (1305, stat') /\ nthZ stat' 1 = Ok 1312.
Proof.
  destruct (schedule_io_units_time demo_cfg (replicate 8 0) true false 56 12288 1000 ltac:(simpl; lia) ltac:(by split) eq_refl
    ltac:(lia) ltac:(simpl; lia)) as (busy & stat' & Hb & E & _ & Hs).
  injection Hb as <-. exists stat'. split; [exact E|]. rewrite (Hs 1) by (simpl; lia). reflexivity.
Defined.
