(* ===== verification/Boot.v ===== *)
(** * Boot: from module parameters to a device (src/main.c)

    [__load_configs] checks the parameters and lays out the reserved memory,
    [NVMEV_NAMESPACE_INIT] divides the storage among the namespaces and
    [NVMeV_init] assembles the device.  Parsing of numbers and the check of the
    memory map are functions of the kernel and parameters here. *)
From Stdlib Require Import Strings.String Strings.Ascii.
From stdpp Require Import base list numbers.
From Stdlib Require Import ZArith Lia.
From S2P Require Import Prelude ChannelModel SsdConfig Ssd Nvme Prp HostMem.
From S2P Require Import WorkQueue IoDev IoQueue IoUnits ZnsData Admin Ctrl.

Open Scope Z_scope.
Open Scope nvmev_scope.

(** The parameters of the module; [None] is a NULL pointer. *)
Record module_params := mk_params {
  memmap_start : Z;
  memmap_size : Z;
  read_time : Z;
  read_delay : Z;
  read_trailing : Z;
  write_time : Z;
  write_delay : Z;
  write_trailing : Z;
  nr_io_units : Z;
  io_unit_shift : Z;
  cpus : option string;
}.

Definition EPERM : Z := 1.
Definition EINVAL : Z := 22.

(** [strsep(&s, ",")]: the text before the first comma, and the rest. *)
Fixpoint split_comma (s : string) : string * option string :=
  match s with
  | EmptyString => (EmptyString, None)
  | String a s' =>
      if Ascii.eqb a ","%char then (EmptyString, Some s')
      else let '(t, r) := split_comma s' in (String a t, r)
  end.
Definition strsep (s : option string) : option (string * option string) :=
  match s with None => None | Some s => Some (split_comma s) end.

Section Config.
(** [e820__mapped_any] on the reserved memory, types RAM and RESERVED_KERN, and
    type RESERVED; [simple_strtol(_, NULL, 10)]. *)
Variables (mapped_ram mapped_reserved : Z -> Z -> bool) (simple_strtol : string -> Z).

Definition __validate_configs_arch (p : module_params) : Z :=
  let resv_start_bytes := memmap_start p in
  let resv_end_bytes := u64 (resv_start_bytes + memmap_size p - 1) in
  if mapped_ram resv_start_bytes resv_end_bytes then - EPERM
  else if negb (mapped_reserved resv_start_bytes resv_end_bytes) then - EPERM
  else 0.

Definition __validate_configs (p : module_params) : Z :=
  if memmap_start p =? 0 then - EINVAL
  else if memmap_size p =? 0 then - EINVAL
  else if memmap_size p <=? MB 1 then - EINVAL
  else if negb (__validate_configs_arch p =? 0) then - EPERM
  else if (nr_io_units p =? 0) || (io_unit_shift p =? 0) then - EINVAL
  else if read_time p =? 0 then - EINVAL
  else if write_time p =? 0 then - EINVAL
  else 0.

(** [while ((cpu = strsep(&cpus, ",")) != NULL)]: the CPU of the dispatcher and
    those of the workers, an array of 32. *)
Definition NR_CPU_IO_WORKERS : Z := 32.
Fixpoint load_cpus (fuel : nat) (cpus : option string) (first : bool) (disp : Z) (workers : list Z)
  : outcome (Z * list Z) :=
  match strsep cpus with
  | None => Ok (disp, workers)
  | Some (cpu, cpus) =>
      match fuel with
      | O => NoFuel
      | S fuel' =>
          let cpu_nr := u32 (simple_strtol cpu) in
          if first then load_cpus fuel' cpus false cpu_nr workers
          else
            GUARD! Z.of_nat (length workers) <? NR_CPU_IO_WORKERS;
            load_cpus fuel' cpus false disp (workers ++ [cpu_nr])
      end
  end.

(** One iteration for every comma and one for the rest. *)
Definition cpus_fuel (cpus : option string) : nat :=
  match cpus with None => 0%nat | Some s => S (String.length s) end.

(** [None]: the parameters are refused. *)
Definition __load_configs (kv : bool) (p : module_params) : outcome (option nvmev_config) :=
  if __validate_configs p <? 0 then Ok None
  else
    let memmap_size := if kv then u64 (memmap_size p - KV_MAPPING_TABLE_SIZE) else memmap_size p in
    let* (disp, workers) := load_cpus (cpus_fuel (cpus p)) (cpus p) true (u32 (-1)) [] in
    Ok (Some (mk_config (memmap_start p) memmap_size (u64 (memmap_start p + MB 1)) (u64 (memmap_size - MB 1))
      disp (Z.of_nat (length workers)) workers (nr_io_units p) (io_unit_shift p)
      (read_delay p) (read_time p) (read_trailing p) (write_delay p) (write_time p) (write_trailing p))).
End Config.

(** ** Namespaces *)
Section Namespaces.
Context {F : Type}.
(** The four functions that initialise a namespace: number, size, address. *)
Variables (simple_init conv_init zns_init kv_init : Z -> Z -> Z -> outcome F).

Definition NS_CAPACITY (bc : base_config) (i : Z) : outcome Z := nthZ [NS_CAPACITY_0 bc; NS_CAPACITY_1 bc] i.

(** The namespaces so far, the capacity that remains, the next address. *)
Definition ns_init_step (bc : base_config) (st : list (F * Z * Z) * Z * Z) (i : Z)
  : outcome (list (F * Z * Z) * Z * Z) :=
  let '(l, remaining_capacity, ns_addr) := st in
  let* cap := NS_CAPACITY bc i in
  let size := if cap =? 0 then remaining_capacity else Z.min cap remaining_capacity in
  let* ty := NS_SSD_TYPE bc i in
  let* ns :=
    (match ty with
     | SSD_TYPE_NVM => simple_init i size ns_addr
     | SSD_TYPE_CONV => conv_init i size ns_addr
     | SSD_TYPE_ZNS => zns_init i size ns_addr
     | SSD_TYPE_KV => kv_init i size ns_addr
     | SSD_TYPE_DFTL => Bug
     end) in
  Ok (l ++ [(ns, ns_addr, size)], remaining_capacity - size, ns_addr + size).

(** Every namespace with the range of the storage that it was given. *)
Definition NVMEV_NAMESPACE_INIT (bc : base_config) (storage_size storage_mapped : Z) : outcome (list (F * Z * Z)) :=
  let* (l, _, _) := forO 0 (NR_NAMESPACES bc) ([], storage_size, storage_mapped) (ns_init_step bc) in
  Ok l.
End Namespaces.

(** ** The module *)
Section Init.
Context {F : Type} `{IoHandler F} `{Clock}.
Variables (mapped_ram mapped_reserved : Z -> Z -> bool) (simple_strtol : string -> Z).
Variables (simple_init conv_init zns_init kv_init : Z -> Z -> Z -> outcome F).
(** The pages of the host. *)
Variable host : mem.

Definition empty_dev (l : list F) (nr_io_workers : Z) : nvmev_dev F :=
  let queues {A} : list (option A) := replicate (Z.to_nat (NR_MAX_IO_QUEUE + 1)) None in
  mk_dev queues queues l host 0%nat [] 0 nr_io_workers 0 0 [].

(** [kv] is [BASE_SSD == KV_PROTOTYPE]; [None] is -EIO.  Addresses of namespaces
    are relative to [storage_mapped]. *)
Definition NVMeV_init (bc : base_config) (kv : bool) (p : module_params)
  : outcome (option (nvmev_config * nvmev_ctrl F)) :=
  let* r := __load_configs mapped_ram mapped_reserved simple_strtol kv p in
  match r with
  | None => Ok None
  | Some cfg =>
      let* nss := NVMEV_NAMESPACE_INIT simple_init conv_init zns_init kv_init bc (cfg_storage_size cfg) 0 in
      let d := empty_dev (map (fun x => x.1.1) nss) (cfg_nr_io_workers cfg) in
      let c := __create_pci_bus bc d (NR_NAMESPACES bc) (MDTS bc) in
      let* d := NVMEV_IO_WORKER_INIT (c_dev c) in
      Ok (Some (cfg, set_dev c d))
  end.
End Init.

(** ** /proc files *)
Inductive proc_file := PROC_READ_TIMES | PROC_WRITE_TIMES | PROC_IO_UNITS | PROC_STAT | PROC_DEBUG.

(** The conversions of [sscanf] that succeeded, in order: the first [n] of
    three members are assigned. *)
Definition assigned (old : list Z) (vals : list Z) : list Z :=
  take (length old) (vals ++ drop (length vals) old).

Definition set_read_times (cfg : nvmev_config) (delay time trailing : Z) : nvmev_config :=
  mk_config (cfg_memmap_start cfg) (cfg_memmap_size cfg) (cfg_storage_start cfg) (cfg_storage_size cfg)
    (cfg_cpu_nr_dispatcher cfg) (cfg_nr_io_workers cfg) (cfg_cpu_nr_io_workers cfg) (cfg_nr_io_units cfg)
    (cfg_io_unit_shift cfg) delay time trailing
    (cfg_write_delay cfg) (cfg_write_time cfg) (cfg_write_trailing cfg).
Definition set_write_times (cfg : nvmev_config) (delay time trailing : Z) : nvmev_config :=
  mk_config (cfg_memmap_start cfg) (cfg_memmap_size cfg) (cfg_storage_start cfg) (cfg_storage_size cfg)
    (cfg_cpu_nr_dispatcher cfg) (cfg_nr_io_workers cfg) (cfg_cpu_nr_io_workers cfg) (cfg_nr_io_units cfg)
    (cfg_io_unit_shift cfg) (cfg_read_delay cfg) (cfg_read_time cfg) (cfg_read_trailing cfg) delay time trailing.
Definition set_io_units (cfg : nvmev_config) (nr shift : Z) : nvmev_config :=
  mk_config (cfg_memmap_start cfg) (cfg_memmap_size cfg) (cfg_storage_start cfg) (cfg_storage_size cfg)
    (cfg_cpu_nr_dispatcher cfg) (cfg_nr_io_workers cfg) (cfg_cpu_nr_io_workers cfg) nr shift
    (cfg_read_delay cfg) (cfg_read_time cfg) (cfg_read_trailing cfg)
    (cfg_write_delay cfg) (cfg_write_time cfg) (cfg_write_trailing cfg).

Section Proc.
Context {F : Type}.
Implicit Type c : nvmev_ctrl F.

Definition clear_stat c : outcome (nvmev_ctrl F) :=
  let* d := forO 1 (d_nr_sq (c_dev c) + 1) (c_dev c) (fun d i =>
    let* r := nthZ (d_sqes d) i in
    match r with
    | None => Ok d
    | Some sq => put_sq d i (set_stat sq (mk_stat 0 0 0 0 0))
    end) in
  Ok (set_dev c d).

(** [io_unit_stat] is the last component. *)
Definition __proc_file_write c (cfg : nvmev_config) (io_unit_stat : list Z) (f : proc_file) (vals : list Z)
  : outcome (nvmev_ctrl F * nvmev_config * list Z) :=
  match f with
  | PROC_READ_TIMES =>
      match assigned [cfg_read_delay cfg; cfg_read_time cfg; cfg_read_trailing cfg] (map u32 vals) with
      | [a; b; t] => Ok (c, set_read_times cfg a b t, io_unit_stat)
      | _ => Fault
      end
  | PROC_WRITE_TIMES =>
      match assigned [cfg_write_delay cfg; cfg_write_time cfg; cfg_write_trailing cfg] (map u32 vals) with
      | [a; b; t] => Ok (c, set_write_times cfg a b t, io_unit_stat)
      | _ => Fault
      end
  | PROC_IO_UNITS =>
      match assigned [cfg_nr_io_units cfg; cfg_io_unit_shift cfg] (map u32 vals) with
      | [a; b] =>
          if Z.of_nat (length vals) <? 1 then Ok (c, set_io_units cfg a b, io_unit_stat)
          else Ok (c, set_io_units cfg a b, replicate (Z.to_nat a) 0)
      | _ => Fault
      end
  | PROC_STAT => let* c := clear_stat c in Ok (c, cfg, io_unit_stat)
  | PROC_DEBUG => Ok (c, cfg, io_unit_stat)
  end.

Definition __get_nr_entries c (dbs_idx queue_size : Z) : outcome Z :=
  let* a := nthZ (c_dbs c) dbs_idx in
  let* b := nthZ (c_old_dbs c) dbs_idx in
  let diff := s32 (a - b) in
  Ok (if diff <? 0 then s32 (diff + queue_size) else diff).

(** The line of a queue: its number, entries to take, and statistics. *)
Definition stat_line (i nr_entries : Z) (s : nvmev_sq_stat) : list Z :=
  [i; nr_entries; nr_in_flight s; max_nr_in_flight s; nr_dispatch s; nr_dispatched s; total_io s].

(** Lines and totals of "stat"; the maximum starts again. *)
Definition proc_stat_read c : outcome (nvmev_ctrl F * list (list Z) * (Z * Z * Z * Z)) :=
  let* (d, lines, t) := forO 1 (d_nr_sq (c_dev c) + 1) (c_dev c, [], (0, 0, 0, 0)) (fun '(d, lines, t) i =>
    let* r := nthZ (d_sqes d) i in
    match r with
    | None => Ok (d, lines, t)
    | Some sq =>
        let s := sq_stat sq in
        let* n := __get_nr_entries c (i * 2) (sq_queue_size sq) in
        let '(fl, di, dd, io) := t in
        let t := (u32 (fl + nr_in_flight s), u32 (di + nr_dispatch s), u32 (dd + nr_dispatched s),
                  u64 (io + total_io s)) in
        let* d := put_sq d i (set_stat sq (mk_stat (nr_dispatched s) (nr_dispatch s) (nr_in_flight s) 0 (total_io s))) in
        Ok (d, lines ++ [stat_line i n s], t)
    end) in
  Ok (set_dev c d, lines, t).

(** The numbers that a file shows. *)
Definition __proc_file_read c (cfg : nvmev_config) (f : proc_file) : outcome (nvmev_ctrl F * list (list Z)) :=
  match f with
  | PROC_READ_TIMES => Ok (c, [[cfg_read_delay cfg; cfg_read_time cfg; cfg_read_trailing cfg]])
  | PROC_WRITE_TIMES => Ok (c, [[cfg_write_delay cfg; cfg_write_time cfg; cfg_write_trailing cfg]])
  | PROC_IO_UNITS => Ok (c, [[cfg_nr_io_units cfg; cfg_io_unit_shift cfg]])
  | PROC_STAT =>
      let* (c, lines, t) := proc_stat_read c in
      let '(fl, di, dd, io) := t in Ok (c, lines ++ [[fl; di; dd; io]])
  | PROC_DEBUG => Ok (c, [])
  end.
End Proc.
