(* ===== verification/Pci.v ===== *)
(** * Pci: the configuration space of the device (src/pci.c, src/pci.h)

    A page of bytes that the kernel reads and writes through [nvmev_pci_ops]:
    the header, a chain of capabilities behind it, and a chain of extended
    capabilities from 100h on.  Bit-fields are [put_bits] of their word. *)
From stdpp Require Import base list numbers.
From Stdlib Require Import ZArith Lia.
From S2P Require Import Prelude ChannelModel SsdConfig Prp HostMem.

Open Scope Z_scope.
Open Scope nvmev_scope.

(** A bit-field of [w] bits at [off] in the word of [n] bytes at [a]. *)
Definition put_bits (m : mem) (a n off w v : Z) : mem := put_le m a n (setf (get_le m a n) off w v).

(** ** Constants (src/nvmev.h, src/pci.h, <linux/pci_regs.h>) *)
Definition NVMEV_DEVICE_ID : Z := 272. (* NVMEV_VERSION *)
Definition NVMEV_VENDOR_ID : Z := 3153.
Definition NVMEV_SUBSYSTEM_ID : Z := 14093.
Definition NVMEV_SUBSYSTEM_VENDOR_ID : Z := NVMEV_VENDOR_ID.
Definition NVMEV_INTX_IRQ : Z := 15.

Definition OFFS_PCI_HDR : Z := 0.
Definition OFFS_PCI_PM_CAP : Z := 64.
Definition OFFS_PCI_MSIX_CAP : Z := 80.
Definition OFFS_PCIE_CAP : Z := 96.
Definition PCI_CFG_SPACE_SIZE : Z := 256.
Definition OFFS_PCI_EXT_CAP : Z := PCI_CFG_SPACE_SIZE.

Definition PCI_COMMAND : Z := 4.
Definition PCI_COMMAND_INTX_DISABLE : Z := 1024.
Definition PCI_STATUS : Z := 6.
Definition PCI_BIST : Z := 15.
Definition PCI_BIST_START : Z := 64.
Definition PCI_BASE_ADDRESS_0 : Z := 16.
Definition PCI_INTERRUPT_LINE : Z := 60.
Definition PCI_MSIX_FLAGS : Z := 2.
Definition PCI_MSIX_FLAGS_MASKALL : Z := 16384.
Definition PCI_MSIX_FLAGS_ENABLE : Z := 32768.
Definition PCI_BASE_ADDRESS_MEM_TYPE_64 : Z := 4.
Definition PCI_HEADER_TYPE_NORMAL : Z := 0.
Definition PCI_BASE_CLASS_STORAGE : Z := 1.
Definition PCI_CAP_ID_PM : Z := 1.
Definition PCI_CAP_ID_EXP : Z := 16.
Definition PCI_CAP_ID_MSIX : Z := 17.
Definition PCI_PM_CAP_PME_D0 : Z := 2048.
Definition PCI_EXP_FLAGS : Z := 2.
Definition PCI_EXP_TYPE_ENDPOINT : Z := 0.
Definition PCI_EXT_CAP_ID_ERR : Z := 1.
Definition PCI_EXT_CAP_ID_VC : Z := 2.
Definition PCI_EXT_CAP_ID_DSN : Z := 3.
Definition PCI_EXT_CAP_ID_PWR : Z := 4.
Definition PCI_EXT_CAP_ID_ARI : Z := 14.
Definition PCI_EXT_CAP_ID_SECPCI : Z := 25.

(** ** Settings *)
Definition PCI_HEADER_SETTINGS (m : mem) (base_pa : Z) : mem :=
  let m := put_fields m OFFS_PCI_HDR [(2, 2, NVMEV_DEVICE_ID); (0, 2, NVMEV_VENDOR_ID)] in
  let m := put_bits m 4 1 1 1 1 in (* cmd.mse *)
  let m := put_bits m 6 1 4 1 1 in (* sts.cl *)
  let m := put_bits m 14 1 7 1 0 in (* htype.mfd *)
  let m := put_bits m 14 1 0 7 PCI_HEADER_TYPE_NORMAL in
  let m := put_fields m OFFS_PCI_HDR [(8, 1, 1); (11, 1, PCI_BASE_CLASS_STORAGE); (10, 1, 8); (9, 1, 2)] in
  let m := put_bits m 16 4 1 2 (Z.shiftr PCI_BASE_ADDRESS_MEM_TYPE_64 1) in (* mlbar.tp *)
  let m := put_bits m 16 4 14 18 (Z.shiftr (Z.land base_pa 4294967295) 14) in (* mlbar.ba *)
  put_fields m OFFS_PCI_HDR
    [(20, 4, Z.shiftr base_pa 32); (46, 2, NVMEV_SUBSYSTEM_ID); (44, 2, NVMEV_SUBSYSTEM_VENDOR_ID);
     (48, 4, 0); (52, 1, OFFS_PCI_PM_CAP); (61, 1, 0); (60, 1, NVMEV_INTX_IRQ)].

Definition PCI_PMCAP_SETTINGS (m : mem) : mem :=
  let m := put_fields m OFFS_PCI_PM_CAP [(0, 1, PCI_CAP_ID_PM); (1, 1, OFFS_PCI_MSIX_CAP)] in
  let m := put_bits m (OFFS_PCI_PM_CAP + 2) 2 0 3 3 in (* pc.vs *)
  let m := put_bits m (OFFS_PCI_PM_CAP + 4) 2 3 1 1 in (* pmcs.nsfrst *)
  put_bits m (OFFS_PCI_PM_CAP + 4) 2 0 2 (Z.shiftr PCI_PM_CAP_PME_D0 16). (* pmcs.ps *)

Definition PCI_MSIXCAP_SETTINGS (m : mem) : mem :=
  let m := put_fields m OFFS_PCI_MSIX_CAP [(0, 1, PCI_CAP_ID_MSIX); (1, 1, OFFS_PCIE_CAP)] in
  let m := put_bits m (OFFS_PCI_MSIX_CAP + 2) 2 15 1 1 in (* mxc.mxe *)
  let m := put_bits m (OFFS_PCI_MSIX_CAP + 2) 2 0 11 127 in (* mxc.ts *)
  let m := put_bits m (OFFS_PCI_MSIX_CAP + 4) 4 0 3 0 in (* mtab.tbir *)
  let m := put_bits m (OFFS_PCI_MSIX_CAP + 4) 4 3 29 1024 in (* mtab.to *)
  let m := put_bits m (OFFS_PCI_MSIX_CAP + 8) 4 3 29 4096 in (* mpba.pbao *)
  put_bits m (OFFS_PCI_MSIX_CAP + 8) 4 0 3 0. (* mpba.pbir *)

Definition PCI_PCIECAP_SETTINGS (m : mem) : mem :=
  let m := put_fields m OFFS_PCIE_CAP [(0, 1, PCI_CAP_ID_EXP); (1, 1, 0)] in
  let m := put_bits m (OFFS_PCIE_CAP + 2) 1 0 4 PCI_EXP_FLAGS in (* pxcap.ver *)
  let m := put_bits m (OFFS_PCIE_CAP + 3) 1 1 5 0 in (* pxcap.imn *)
  let m := put_bits m (OFFS_PCIE_CAP + 2) 1 4 4 PCI_EXP_TYPE_ENDPOINT in (* pxcap.dpt *)
  foldl (fun m '(off, w, v) => put_bits m (OFFS_PCIE_CAP + 4) 4 off w v) m
    [(0, 3, 1); (3, 2, 0); (5, 1, 1); (6, 3, 6); (9, 3, 2); (15, 1, 1); (18, 8, 0); (26, 2, 0); (28, 1, 1)].

(** [cid], [cver], [next] of the extended capability at [off]. *)
Definition put_ext_cap (m : mem) (off cid next : Z) : mem :=
  let a := OFFS_PCI_EXT_CAP + off in
  let m := put_le m a 2 cid in
  let m := put_bits m (a + 2) 2 0 4 1 in
  put_bits m (a + 2) 2 4 12 next.
Definition PCI_EXTCAP_SETTINGS (m : mem) : mem :=
  let m := put_ext_cap m 0 PCI_EXT_CAP_ID_ERR (PCI_CFG_SPACE_SIZE + 80) in
  let m := put_ext_cap m 80 PCI_EXT_CAP_ID_VC (PCI_CFG_SPACE_SIZE + 128) in
  let m := put_ext_cap m 128 PCI_EXT_CAP_ID_PWR (PCI_CFG_SPACE_SIZE + 144) in
  let m := put_ext_cap m 144 PCI_EXT_CAP_ID_ARI (PCI_CFG_SPACE_SIZE + 368) in
  let m := put_ext_cap m 368 PCI_EXT_CAP_ID_DSN (PCI_CFG_SPACE_SIZE + 416) in
  put_ext_cap m 416 PCI_EXT_CAP_ID_SECPCI 0.

(** The page of configuration space, from [kzalloc]. *)
Definition NVMEV_PCI_INIT (memmap_start : Z) : mem :=
  let m := PCI_HEADER_SETTINGS (fun _ => 0) memmap_start in
  PCI_EXTCAP_SETTINGS (PCI_PCIECAP_SETTINGS (PCI_MSIXCAP_SETTINGS (PCI_PMCAP_SETTINGS m))).

(** ** Access *)
Record pci_state := mk_pci {
  pci_virtDev : mem;
  pci_intx_disabled : bool;
  pci_msix_enabled : option bool; (* of [pdev], when there is one *)
}.

(** [None] when the function number is not 0; otherwise the low bytes of [*val]. *)
Definition nvmev_pci_read (p : pci_state) (devfn whr size : Z) : option Z :=
  if negb (devfn =? 0) then None else Some (get_le (pci_virtDev p) whr size).

(** The bits that a write at [whr] changes. *)
Definition pci_write_mask (whr : Z) : Z :=
  if whr <? OFFS_PCI_PM_CAP then
    if whr =? PCI_COMMAND then PCI_COMMAND_INTX_DISABLE
    else if whr =? PCI_STATUS then 61952
    else if whr =? PCI_BIST then PCI_BIST_START
    else if whr =? PCI_BASE_ADDRESS_0 then 4294950912
    else if whr =? PCI_INTERRUPT_LINE then 255
    else 0
  else if whr <? OFFS_PCI_MSIX_CAP then 4294967295
  else if whr <? OFFS_PCIE_CAP then
    if whr - OFFS_PCI_MSIX_CAP =? PCI_MSIX_FLAGS then Z.lor PCI_MSIX_FLAGS_MASKALL PCI_MSIX_FLAGS_ENABLE
    else 0
  else 4294967295.

Definition merge_mask (mask val _val : Z) : Z := Z.lor (Z.ldiff val mask) (Z.land _val mask).

(** [size] is at most 4. *)
Definition nvmev_pci_write (p : pci_state) (whr size _val : Z) : pci_state :=
  let m := pci_virtDev p in
  let val := get_le m whr size in
  let command := (whr =? PCI_COMMAND) && Z.testbit (Z.lxor val _val) 10 in
  let intx_disabled := if command then Z.testbit _val 10 else pci_intx_disabled p in
  let m := if command && negb intx_disabled then put_bits m 6 1 3 1 0 (* sts.is *) else m in
  let msix_enabled :=
    match pci_msix_enabled p with
    | Some b =>
        Some (if (whr =? OFFS_PCI_MSIX_CAP + PCI_MSIX_FLAGS) && Z.testbit (Z.lxor val _val) 15
              then Z.testbit _val 15 else b)
    | None => None
    end in
  mk_pci (put_le m whr size (merge_mask (pci_write_mask whr) val _val)) intx_disabled msix_enabled.

(** ** Interrupts: the vector with MSI-X, otherwise the status bit *)
Inductive irq := IRQ_MSI (msi_index : Z) | IRQ_INTX.
Definition nvmev_signal_irq_line (p : pci_state) (msi_index : Z) : pci_state * irq :=
  if default false (pci_msix_enabled p) then (p, IRQ_MSI msi_index)
  else (mk_pci (put_bits (pci_virtDev p) 6 1 3 1 1) (pci_intx_disabled p) (pci_msix_enabled p), IRQ_INTX).
