(* ===== verification/CtrlFacts.v ===== *)
(** * CtrlFacts: bringing the controller up

    A host that sets up the administration queue writes AQA, ASQ, ACQ and CC in
    its own time; the dispatcher sees the registers between any two of these
    writes, or all of them at once, and acts on one difference per iteration. *)
From stdpp Require Import base list numbers.
From Stdlib Require Import ZArith Lia.
From S2P Require Import Prelude ChannelModel SsdConfig Ssd Nvme Prp HostMem.
From S2P Require Import WorkQueue IoDev IoQueue ZnsData Admin Ctrl.

Open Scope Z_scope.
Open Scope nvmev_scope.

(** ** What the host does *)
Inductive host_ev := WrAqa (v : Z) | WrAsq (v : Z) | WrAcq (v : Z) | WrCc (v : Z) | Round.

(** AQA always has the same value, and comes before CC. *)
Fixpoint host_ok (aqa : Z) (seen : bool) (evs : list host_ev) : Prop :=
  match evs with
  | [] => True
  | WrAqa v :: evs => v = aqa /\ host_ok aqa true evs
  | WrCc _ :: evs => seen = true /\ host_ok aqa seen evs
  | _ :: evs => host_ok aqa seen evs
  end.
Fixpoint aqa_written (seen : bool) (evs : list host_ev) : bool :=
  match evs with
  | [] => seen
  | WrAqa _ :: evs => aqa_written true evs
  | _ :: evs => aqa_written seen evs
  end.

(** AQA, ASQ, ACQ and CC as the host last wrote them. *)
Definition host_write (r : Z * Z * Z * Z) (e : host_ev) : Z * Z * Z * Z :=
  let '(aqa, asq, acq, cc) := r in
  match e with
  | WrAqa v => (v, asq, acq, cc)
  | WrAsq v => (aqa, v, acq, cc)
  | WrAcq v => (aqa, asq, v, cc)
  | WrCc v => (aqa, asq, acq, v)
  | Round => r
  end.

Section Ctrl.
Context {F : Type} `{NsInfo F} `{IoHandler F} `{Clock}.
Implicit Type c : nvmev_ctrl F.
Variables (bc : base_config) (cq_fuel : nat).
Notation round := (dispatcher_round bc cq_fuel).

Definition host_step c (e : host_ev) : outcome (nvmev_ctrl F) :=
  match e with
  | WrAqa v => Ok (set_bars c (set_r_aqa (c_bar c) v) (c_old_bar c))
  | WrAsq v => Ok (set_bars c (set_r_asq (c_bar c) v) (c_old_bar c))
  | WrAcq v => Ok (set_bars c (set_r_acq (c_bar c) v) (c_old_bar c))
  | WrCc v => Ok (set_bars c (set_r_cc (c_bar c) v) (c_old_bar c))
  | Round => round c
  end.
Definition host_run c (evs : list host_ev) : outcome (nvmev_ctrl F) := foldO host_step c evs.

(** ** Doorbells at rest *)
Record quiet c : Prop := {
  qt_same : c_dbs c = c_old_dbs c;
  qt_len : Z.of_nat (length (c_dbs c)) = NR_DBS;
  qt_nr_sq : 0 <= d_nr_sq (c_dev c) <= NR_MAX_IO_QUEUE;
  qt_nr_cq : 0 <= d_nr_cq (c_dev c) <= NR_MAX_IO_QUEUE;
  qt_sqes : Z.of_nat (length (d_sqes (c_dev c))) = NR_MAX_IO_QUEUE + 1;
  qt_cqes : Z.of_nat (length (d_cqes (c_dev c))) = NR_MAX_IO_QUEUE + 1;
}.

Lemma foldO_same {A S} (f : S -> A -> outcome S) s l :
  (forall x, x ∈ l -> f s x = Ok s) -> foldO f s l = Ok s.
Proof.
  induction l as [|x l IH]; intros Hf; simpl; [done|]. rewrite Hf by left. simpl. apply IH. intros y Hy. apply Hf. by right.
Qed.

Lemma quiet_db c i : quiet c -> 0 <= i < NR_DBS ->
  exists v, read_db (c_dbs c) i = Ok v /\ read_db (c_old_dbs c) i = Ok v.
Proof.
  intros Q Hi. rewrite <- (qt_same _ Q). destruct (nthZ_in_range (c_dbs c) i) as [v Hv]; [by rewrite (qt_len _ Q)|].
  exists (s32 v). unfold read_db. by rewrite Hv.
Qed.

Lemma dbs_quiet c : quiet c -> nvmev_proc_dbs bc cq_fuel c = Ok c.
Proof.
  intros Q. unfold nvmev_proc_dbs.
  assert (Ha : forall i, 0 <= i < NR_DBS -> proc_admin_db bc c i = Ok c).
  { intros i Hi. destruct (quiet_db c i Q Hi) as (v & E1 & E2). unfold proc_admin_db. rewrite E1, E2. cbn [obind].
    by rewrite Z.eqb_refl. }
  rewrite (Ha 0) by done. cbn [obind]. rewrite (Ha 1) by done. cbn [obind]. pose proof (qt_nr_sq _ Q). pose proof (qt_nr_cq _ Q).
  assert (Hs : forO 1 (d_nr_sq (c_dev c) + 1) c proc_sq_db = Ok c).
  { apply foldO_same. intros qid Hq%elem_of_seqZ. unfold proc_sq_db.
    destruct (nthZ_in_range (d_sqes (c_dev c)) qid) as [r ->]; [rewrite (qt_sqes _ Q); lia|]. cbn [obind].
    destruct r; [|done]. destruct (quiet_db c (qid * 2) Q) as (v & E1 & E2); [unfold NR_MAX_IO_QUEUE in *; change NR_DBS with 1024; lia|].
    rewrite E1, E2. cbn [obind]. by rewrite Z.eqb_refl. }
  rewrite Hs. cbn [obind]. apply foldO_same. intros qid Hq%elem_of_seqZ. unfold proc_cq_db.
  destruct (nthZ_in_range (d_cqes (c_dev c)) qid) as [r ->]; [rewrite (qt_cqes _ Q); lia|]. cbn [obind].
  destruct r; [|done]. destruct (quiet_db c (qid * 2 + 1) Q) as (v & E1 & E2); [unfold NR_MAX_IO_QUEUE in *; change NR_DBS with 1024; lia|].
  rewrite E1, E2. cbn [obind]. by rewrite Z.eqb_refl.
Qed.

Lemma clear_quiet c i : quiet c -> 0 <= i < NR_DBS ->
  exists l, clear_db c i = Ok (set_dbs c l l) /\ Z.of_nat (length l) = NR_DBS.
Proof.
  intros Q Hi. unfold clear_db. rewrite <- (qt_same _ Q), updZ_Ok by (by rewrite (qt_len _ Q)). cbn [obind].
  eexists. split; [done|]. rewrite length_insert. apply (qt_len _ Q).
Qed.

(** The other members do not matter. *)
Lemma quiet_ext c c' : c_dev c' = c_dev c -> c_dbs c' = c_dbs c -> c_old_dbs c' = c_old_dbs c -> quiet c -> quiet c'.
Proof. intros E1 E2 E3 []. split; by rewrite ?E1, ?E2, ?E3. Qed.
Lemma quiet_set c l : quiet c -> Z.of_nat (length l) = NR_DBS -> quiet (set_dbs c l l).
Proof. intros [] Hl. by split. Qed.

(** ** The invariant of the set-up *)
Definition sq_map_pages (m : mem) (aqa asq : Z) : list nvme_command :=
  sq_pages m (page_base asq) (DIV_ROUND_UP ((aqa_asqs aqa + 1) * 64) PAGE_SIZE).
Definition cq_map_pages (m : mem) (aqa acq : Z) : list nvme_completion :=
  cq_pages m (page_base acq) (DIV_ROUND_UP ((aqa_acqs aqa + 1) * 16) PAGE_SIZE).

(** A fresh administration queue for the addresses that were seen. *)
Record fresh_queue (m : mem) (aqa asq acq : Z) (q : nvmev_admin_queue) : Prop := {
  fq_phase : aq_phase q = 1;
  fq_head : aq_cq_head q = 0;
  fq_sq_depth : aq_sq_depth q = aqa_asqs aqa + 1;
  fq_cq_depth : aq_cq_depth q = aqa_acqs aqa + 1;
  fq_sq : asq <> 0 -> aq_nvme_sq q = Some (sq_map_pages m aqa asq);
  fq_cq : acq <> 0 -> aq_nvme_cq q = Some (cq_map_pages m aqa acq);
}.

Record up (aqa : Z) (seen : bool) (d0 : nvmev_dev F) c : Prop := {
  up_quiet : quiet c;
  up_dev : c_dev c = d0;
  up_bar_aqa : r_aqa (c_bar c) = if seen then aqa else 0;
  up_seen : seen = false -> c_admin_q c = None /\ r_cc (c_bar c) = 0;
  up_none : c_admin_q c = None ->
    r_aqa (c_old_bar c) = 0 /\ r_asq (c_old_bar c) = 0 /\ r_acq (c_old_bar c) = 0 /\ r_cc (c_old_bar c) = 0;
  up_rdy : csts_rdy (r_csts (c_bar c)) = cc_en (r_cc (c_old_bar c));
  up_queue : forall q, c_admin_q c = Some q -> r_aqa (c_old_bar c) = aqa /\
    fresh_queue (d_host d0) aqa (r_asq (c_old_bar c)) (r_acq (c_old_bar c)) q;
}.

(** The registers that the host wrote and the dispatcher has not seen. *)
Definition differ (a b : Z) : nat := if a =? b then 0%nat else 1%nat.
Definition pending_regs c : nat :=
  let o := c_old_bar c in
  let b := c_bar c in
  (differ (r_aqa o) (r_aqa b) + differ (r_asq o) (r_asq b) + differ (r_acq o) (r_acq b) + differ (r_cc o) (r_cc b))%nat.
Definition host_regs (b : nvme_bar) : Z * Z * Z * Z := (r_aqa b, r_asq b, r_acq b, r_cc b).

Lemma differ_refl a : differ a a = 0%nat.
Proof. unfold differ. by rewrite Z.eqb_refl. Qed.
Lemma differ_ne a b : (a =? b) = false -> differ a b = 1%nat.
Proof. unfold differ. by intros ->. Qed.

Lemma bit01 x w : 0 <= x -> 0 <= w -> getf x w 1 = 0 \/ getf x w 1 = 1.
Proof. intros Hx Hw. pose proof (getf_range x w 1 ltac:(lia)). change (2 ^ 1) with 2 in *. lia. Qed.

(** What a branch of [nvmev_proc_bars] leaves, but for the doorbells. *)
Lemma up_db aqa d0 c c1 i : up aqa true d0 c1 -> 0 <= i < NR_DBS -> c_bar c1 = c_bar c ->
  exists c', clear_db c1 i = Ok c' /\ up aqa true d0 c' /\ c_bar c' = c_bar c /\ c_old_bar c' = c_old_bar c1.
Proof.
  intros U Hi Hb. destruct (clear_quiet c1 i (up_quiet _ _ _ _ U) Hi) as (l & -> & Hl). eexists. split; [done|].
  split; [|done]. destruct U. split; try done. by apply quiet_set.
Qed.

Lemma up_aqa aqa d0 c : aqa <> 0 -> up aqa true d0 c -> r_aqa (c_old_bar c) <> r_aqa (c_bar c) ->
  up aqa true d0 (set_aq (set_bars c (c_bar c) (set_r_aqa (c_old_bar c) (r_aqa (c_bar c))))
                    (init_admin_q (c_admin_q c) (r_aqa (c_bar c)))).
Proof.
  intros Ha [Q D B S N R Qu] Hne.
  assert (Hq : c_admin_q c = None) by (destruct (c_admin_q c) as [q|]; [destruct (Qu q eq_refl); congruence|done]).
  destruct (N Hq) as (O1 & O2 & O3 & O4). rewrite Hq. split; try done; simpl.
  { by apply (quiet_ext c). }
  intros q [= <-]. rewrite B. split; [done|]. rewrite O2, O3. by split.
Qed.

Lemma up_asq aqa d0 c q : up aqa true d0 c -> c_admin_q c = Some q ->
  up aqa true d0 (set_aq (set_bars c (c_bar c) (set_r_asq (c_old_bar c) (r_asq (c_bar c))))
                    (map_admin_sq (c_host c) q (r_aqa (c_bar c)) (r_asq (c_bar c)))).
Proof.
  intros [Q D B S N R Qu] Hq. destruct (Qu q Hq) as [O1 [F1 F2 F3 F4 F5 F6]]. split; try done; simpl.
  { by apply (quiet_ext c). }
  intros q' [= <-]. rewrite B. split; [done|]. unfold c_host. rewrite D. by split.
Qed.

Lemma up_acq aqa d0 c q : up aqa true d0 c -> c_admin_q c = Some q ->
  up aqa true d0 (set_aq (set_bars c (c_bar c) (set_r_acq (c_old_bar c) (r_acq (c_bar c))))
                    (map_admin_cq (c_host c) q (r_aqa (c_bar c)) (r_acq (c_bar c)))).
Proof.
  intros [Q D B S N R Qu] Hq. destruct (Qu q Hq) as [O1 [F1 F2 F3 F4 F5 F6]]. split; try done; simpl.
  { by apply (quiet_ext c). }
  intros q' [= <-]. rewrite B. split; [done|]. unfold c_host. rewrite D. by split.
Qed.

Lemma rdy_shst csts v : csts_rdy (setf csts 2 2 v) = csts_rdy csts.
Proof. apply getf_setf_ne; lia. Qed.

Lemma up_cc aqa d0 c q : up aqa true d0 c -> c_admin_q c = Some q ->
  exists c', proc_cc c = Ok c' /\ up aqa true d0 c' /\ host_regs (c_bar c') = host_regs (c_bar c) /\
    c_old_bar c' = set_r_cc (c_old_bar c) (r_cc (c_bar c)).
Proof.
  intros [Q D B S N R Qu] Hq. unfold proc_cc. rewrite Hq.
  set (csts := if cc_en (r_cc (c_bar c)) =? 1 then _ else _).
  assert (Hr : csts_rdy csts = cc_en (r_cc (c_bar c))).
  { unfold csts, csts_rdy. pose proof (getf_range (r_cc (c_bar c)) 0 1 ltac:(lia)) as Hb. fold (cc_en (r_cc (c_bar c))) in Hb.
    change (2 ^ 1) with 2 in Hb. destruct (Z.eqb_spec (cc_en (r_cc (c_bar c))) 1) as [->|]; rewrite getf_setf_eq by lia; [done|].
    change (0 mod 2 ^ 1) with 0. lia. }
  destruct (Qu q Hq) as [O1 FQ]. destruct (cc_shn (r_cc (c_bar c)) =? 1).
  - destruct (clear_quiet c 0 Q ltac:(done)) as (l & -> & Hl). cbn [obind].
    destruct (clear_quiet (set_dbs c l l) 1 (quiet_set _ _ Q Hl) ltac:(done)) as (l2 & -> & Hl2). cbn [obind].
    unfold get_aq. simpl. rewrite Hq. cbn [obind of_option]. eexists. split; [reflexivity|]. split; [|done].
    split; simpl; try done.
    + apply (quiet_ext (set_dbs c l2 l2)); try done. by apply quiet_set.
    + by rewrite rdy_shst.
    + intros q' [= <-]. split; [done|]. destruct FQ. by split.
  - cbn [obind]. eexists. split; [reflexivity|]. split; [|done]. split; simpl; try done.
    { by apply (quiet_ext c). }
    { by rewrite Hq. }
Qed.

(** ** Iterations *)
Lemma host_regs_inv b b' : host_regs b' = host_regs b ->
  r_aqa b' = r_aqa b /\ r_asq b' = r_asq b /\ r_acq b' = r_acq b /\ r_cc b' = r_cc b.
Proof. unfold host_regs. by intros [= -> -> -> ->]. Qed.

Lemma up_round aqa seen d0 c : aqa <> 0 -> up aqa seen d0 c ->
  exists c', round c = Ok c' /\ up aqa seen d0 c' /\ host_regs (c_bar c') = host_regs (c_bar c) /\
    (seen = true -> pending_regs c' = pred (pending_regs c) /\ (pending_regs c = 0%nat -> c' = c)).
Proof.
  intros Ha U. unfold dispatcher_round.
  assert (Hd : forall c', nvmev_proc_bars c = Ok c' -> up aqa seen d0 c' ->
    (let* c' := nvmev_proc_bars c in nvmev_proc_dbs bc cq_fuel c') = Ok c').
  { intros c' -> U'. cbn [obind]. apply dbs_quiet, U'. }
  assert (Hx : exists c', nvmev_proc_bars c = Ok c' /\ up aqa seen d0 c' /\ host_regs (c_bar c') = host_regs (c_bar c) /\
    (seen = true -> pending_regs c' = pred (pending_regs c) /\ (pending_regs c = 0%nat -> c' = c))).
  2: { destruct Hx as (c' & E & U' & Hr). exists c'. split; [by apply Hd|done]. }
  clear Hd. unfold nvmev_proc_bars. destruct seen.
  2: { destruct (up_seen _ _ _ _ U eq_refl) as [Hq Hc]. destruct (up_none _ _ _ _ U Hq) as (O1 & O2 & O3 & O4).
       pose proof (up_bar_aqa _ _ _ _ U) as B. exists c. rewrite O1, B, Z.eqb_refl, Hq, O4, Hc, Z.eqb_refl. cbn [negb].
       split; [|done]. by destruct (negb _); [|destruct (negb _)]. }
  destruct (Z.eqb_spec (r_aqa (c_old_bar c)) (r_aqa (c_bar c))) as [E1|E1]; cbn [negb].
  2: { destruct (up_db aqa d0 c _ 0 (up_aqa aqa d0 c Ha U E1) ltac:(done) eq_refl) as (c1 & -> & U1 & B1 & O1). cbn [obind].
       destruct (up_db aqa d0 c c1 1 U1 ltac:(done) B1) as (c2 & -> & U2 & B2 & O2). exists c2. split; [done|]. split; [done|].
       rewrite B2. split; [done|]. intros _. unfold pending_regs. rewrite B2, O2, O1. simpl. rewrite differ_refl.
       rewrite (differ_ne (r_aqa _)) by by apply Z.eqb_neq. split; [lia|done]. }
  assert (Hq : exists q, c_admin_q c = Some q).
  { destruct (c_admin_q c) as [q|] eqn:Hq; [by exists q|]. destruct (up_none _ _ _ _ U Hq) as [O1 _].
    rewrite (up_bar_aqa _ _ _ _ U) in E1. congruence. }
  destruct Hq as [q Hq]. rewrite Hq.
  destruct (Z.eqb_spec (r_asq (c_old_bar c)) (r_asq (c_bar c))) as [E2|E2]; cbn [negb].
  2: { destruct (up_db aqa d0 c _ 0 (up_asq aqa d0 c q U Hq) ltac:(done) eq_refl) as (c1 & -> & U1 & B1 & O1).
       exists c1. split; [done|]. split; [done|]. rewrite B1. split; [done|]. intros _. unfold pending_regs. rewrite B1, O1. simpl.
       rewrite differ_refl, (differ_ne (r_asq _)) by by apply Z.eqb_neq. split; [lia|lia]. }
  destruct (Z.eqb_spec (r_acq (c_old_bar c)) (r_acq (c_bar c))) as [E3|E3]; cbn [negb].
  2: { destruct (up_db aqa d0 c _ 1 (up_acq aqa d0 c q U Hq) ltac:(done) eq_refl) as (c1 & -> & U1 & B1 & O1).
       exists c1. split; [done|]. split; [done|]. rewrite B1. split; [done|]. intros _. unfold pending_regs. rewrite B1, O1. simpl.
       rewrite differ_refl, (differ_ne (r_acq _)) by by apply Z.eqb_neq. split; [lia|lia]. }
  destruct (Z.eqb_spec (r_cc (c_old_bar c)) (r_cc (c_bar c))) as [E4|E4]; cbn [negb].
  2: { destruct (up_cc aqa d0 c q U Hq) as (c1 & -> & U1 & B1 & O1).
       exists c1. split; [done|]. split; [done|]. split; [done|]. intros _. unfold pending_regs.
       apply host_regs_inv in B1 as (-> & -> & -> & ->). rewrite O1. simpl. rewrite differ_refl, (differ_ne (r_cc _)) by by apply Z.eqb_neq.
       split; [lia|lia]. }
  exists c. split; [done|]. split; [done|]. split; [done|]. intros _. unfold pending_regs. rewrite E1, E2, E3, E4, !differ_refl. by split.
Qed.

Fixpoint rounds (n : nat) c : outcome (nvmev_ctrl F) :=
  match n with O => Ok c | S n' => let* c := round c in rounds n' c end.

Lemma up_rounds aqa d0 n c : aqa <> 0 -> up aqa true d0 c -> (pending_regs c <= n)%nat ->
  exists c', rounds n c = Ok c' /\ up aqa true d0 c' /\ host_regs (c_bar c') = host_regs (c_bar c) /\
    pending_regs c' = 0%nat.
Proof.
  intros Ha. revert c. induction n as [|n IH]; intros c U Hn; simpl.
  { exists c. split; [done|]. split; [done|]. split; [done|lia]. }
  destruct (up_round aqa true d0 c Ha U) as (c1 & -> & U1 & R1 & Hp). cbn [obind]. destruct (Hp eq_refl) as [Hp1 _].
  destruct (IH c1 U1) as (c2 & -> & U2 & R2 & P2); [lia|]. exists c2. by rewrite R2.
Qed.

(** Nothing is pending: ready as enabled, with a queue for the registers. *)
Lemma up_settled aqa d0 c : aqa <> 0 -> up aqa true d0 c -> pending_regs c = 0%nat ->
  exists q, c_admin_q c = Some q /\ fresh_queue (d_host d0) aqa (r_asq (c_bar c)) (r_acq (c_bar c)) q /\
    csts_rdy (r_csts (c_bar c)) = cc_en (r_cc (c_bar c)).
Proof.
  intros Ha U P. unfold pending_regs, differ in P.
  destruct (Z.eqb_spec (r_aqa (c_old_bar c)) (r_aqa (c_bar c))) as [E1|]; [|lia].
  destruct (Z.eqb_spec (r_asq (c_old_bar c)) (r_asq (c_bar c))) as [E2|]; [|lia].
  destruct (Z.eqb_spec (r_acq (c_old_bar c)) (r_acq (c_bar c))) as [E3|]; [|lia].
  destruct (Z.eqb_spec (r_cc (c_old_bar c)) (r_cc (c_bar c))) as [E4|]; [|lia].
  destruct (c_admin_q c) as [q|] eqn:Hq.
  - exists q. rewrite <- E2, <- E3, <- E4. split; [done|]. split; [by apply (up_queue _ _ _ _ U)|apply (up_rdy _ _ _ _ U)].
  - destruct (up_none _ _ _ _ U Hq) as [O1 _]. rewrite (up_bar_aqa _ _ _ _ U) in E1. congruence.
Qed.

Lemma up_run aqa d0 evs seen c : aqa <> 0 -> up aqa seen d0 c -> host_ok aqa seen evs ->
  exists c', host_run c evs = Ok c' /\ up aqa (aqa_written seen evs) d0 c' /\
    host_regs (c_bar c') = foldl host_write (host_regs (c_bar c)) evs.
Proof.
  intros Ha. unfold host_run. revert seen c. induction evs as [|e evs IH]; intros seen c U Hok; simpl; [by exists c|].
  destruct e as [v|v|v|v|]; simpl in *.
  - destruct Hok as [-> Hok]. edestruct (IH true) as (c' & -> & U' & R'); [|done|by exists c'].
    destruct U. split; simpl; try done. by apply (quiet_ext c).
  - edestruct (IH seen) as (c' & -> & U' & R'); [|done|by exists c']. destruct U. split; simpl; try done. by apply (quiet_ext c).
  - edestruct (IH seen) as (c' & -> & U' & R'); [|done|by exists c']. destruct U. split; simpl; try done. by apply (quiet_ext c).
  - destruct Hok as [-> Hok]. edestruct (IH true) as (c' & -> & U' & R'); [|done|by exists c'].
    destruct U. split; simpl; try done. by apply (quiet_ext c).
  - destruct (up_round aqa seen d0 c Ha U) as (c1 & -> & U1 & R1 & _). cbn [obind]. rewrite <- R1. by apply (IH seen).
Qed.

Lemma pending_max c : (pending_regs c <= 4)%nat.
Proof. unfold pending_regs, differ. by repeat (destruct (_ =? _); simpl; [|]); lia. Qed.

Lemma power_on aqa d nr_ns mdts :
  0 <= d_nr_sq d <= NR_MAX_IO_QUEUE -> 0 <= d_nr_cq d <= NR_MAX_IO_QUEUE ->
  Z.of_nat (length (d_sqes d)) = NR_MAX_IO_QUEUE + 1 -> Z.of_nat (length (d_cqes d)) = NR_MAX_IO_QUEUE + 1 ->
  up aqa false d (__create_pci_bus bc d nr_ns mdts).
Proof. intros. split; try done. Qed.
End Ctrl.
