(* ===== verification/CtrlCalls.v ===== *)
(** * CtrlCalls: an iteration of the dispatcher as a sequence of queue steps

    Registers and administration commands leave the work queues alone; the
    doorbells of the I/O queues are served by steps of IoSteps.  So whatever the
    host writes and whenever, what the dispatcher does is a run of the transition
    system of the queues. *)
From stdpp Require Import base list numbers.
From Stdlib Require Import ZArith Lia.
From S2P Require Import Prelude ChannelModel SsdConfig Ssd Nvme Prp HostMem.
From S2P Require Import WorkQueue IoDev IoQueue IoSteps IoCalls ZnsData Admin Ctrl.

Open Scope Z_scope.
Open Scope nvmev_scope.

Section Calls.
Context {F : Type} `{NsInfo F}.
Implicit Type c : nvmev_ctrl F.
Variable bc : base_config.

(** The same work queues. *)
Definition same_workers (d d' : nvmev_dev F) : Prop :=
  d_io_workers d' = d_io_workers d /\ d_nr_io_workers d' = d_nr_io_workers d.
Definition keeps c (r : outcome (nvmev_ctrl F)) : Prop :=
  match r with Ok c' => same_workers (c_dev c) (c_dev c') | _ => True end.

Lemma same_workers_refl d : same_workers d d.
Proof. done. Qed.
Lemma same_workers_trans d1 d2 d3 : same_workers d1 d2 -> same_workers d2 d3 -> same_workers d1 d3.
Proof. intros [] []. split; congruence. Qed.
Lemma keeps_ext c c1 r : same_workers (c_dev c) (c_dev c1) -> keeps c1 r -> keeps c r.
Proof. destruct r; simpl; try done. apply same_workers_trans. Qed.
Lemma keeps_bind {A} c (m : outcome A) (k : A -> outcome (nvmev_ctrl F)) :
  (forall a, m = Ok a -> keeps c (k a)) -> keeps c (obind m k).
Proof. destruct m; simpl; intros Hk; try done. by apply Hk. Qed.
Lemma keeps_bind_ctrl c (m : outcome (nvmev_ctrl F)) k :
  keeps c m -> (forall c1, keeps c1 (k c1)) -> keeps c (obind m k).
Proof. destruct m as [c1| | |]; simpl; intros Hm Hk; try done. by eapply keeps_ext. Qed.

Lemma make_entry_keeps c eid ret r0 r1 : keeps c (__make_cq_entry_results c eid ret r0 r1).
Proof. unfold __make_cq_entry_results. do 3 (apply keeps_bind; intros ? _). done. Qed.
Lemma clear_db_keeps c i : keeps c (clear_db c i).
Proof. unfold clear_db. do 2 (apply keeps_bind; intros ? _). done. Qed.

(** Runs through a handler up to the completion it posts. *)
Ltac keeps_tac :=
  repeat first
    [ done
    | apply make_entry_keeps
    | apply keeps_bind_ctrl; [|intros ?]
    | apply keeps_bind; intros ? _
    | match goal with
      | |- keeps _ (clear_db _ _) => eapply keeps_ext; [|apply clear_db_keeps]; done
      | |- keeps _ (__make_cq_entry _ _ _) => eapply keeps_ext; [|apply make_entry_keeps]; done
      | |- keeps _ (__make_cq_entry_results _ _ _ _ _) => eapply keeps_ext; [|apply make_entry_keeps]; done
      | |- keeps _ (let '(_, _) := ?x in _) => destruct x
      | |- keeps _ (if ?b then _ else _) => destruct b
      | |- keeps _ (match ?x with _ => _ end) => destruct x
      end ].

Lemma admin_req_keeps c eid : keeps c (__nvmev_proc_admin_req bc c eid).
Proof.
  unfold __nvmev_proc_admin_req. apply keeps_bind. intros cmd _.
  repeat match goal with |- keeps _ (if ?b then _ else _) => destruct b end;
    unfold __nvmev_admin_delete_sq, __nvmev_admin_create_sq, __nvmev_admin_get_log_page, __nvmev_admin_delete_cq,
      __nvmev_admin_create_cq, __nvmev_admin_set_features, __nvmev_admin_get_features, __nvmev_admin_async_event,
      __nvmev_admin_identify, __nvmev_admin_identify_namespace, __nvmev_admin_identify_ctrl,
      __nvmev_admin_identify_namespaces, __nvmev_admin_identify_namespace_desc,
      __nvmev_admin_identify_zns_namespace, __nvmev_admin_identify_zns_ctrl; keeps_tac.
Qed.

Lemma admin_loop_keeps n c curr : keeps c (proc_admin_loop bc n c curr).
Proof.
  revert c curr. induction n as [|n IH]; intros c curr; simpl; [done|]. apply keeps_bind_ctrl; [apply admin_req_keeps|].
  intros c1. apply keeps_bind. intros q _. apply IH.
Qed.

Lemma admin_sq_keeps c new_db old_db : keeps c (nvmev_proc_admin_sq bc c new_db old_db).
Proof.
  unfold nvmev_proc_admin_sq. apply keeps_bind. intros n _. apply keeps_bind_ctrl; [apply admin_loop_keeps|]. done.
Qed.

Lemma admin_db_keeps c i : keeps c (proc_admin_db bc c i).
Proof.
  unfold proc_admin_db. do 2 (apply keeps_bind; intros ? _). destruct (_ =? _); [done|].
  apply keeps_bind_ctrl; [destruct (i =? 0); [apply admin_sq_keeps|done]|]. intros c1. unfold set_old_db.
  by apply keeps_bind.
Qed.

Lemma bars_dev c : keeps c (nvmev_proc_bars c).
Proof.
  unfold nvmev_proc_bars, proc_cc. destruct (negb _).
  { apply keeps_bind_ctrl; [|intros; apply clear_db_keeps]. eapply keeps_ext; [|apply clear_db_keeps]. done. }
  destruct (negb _); [destruct (c_admin_q c); [eapply keeps_ext; [|apply clear_db_keeps]|]; done|].
  destruct (negb _); [destruct (c_admin_q c); [eapply keeps_ext; [|apply clear_db_keeps]|]; done|].
  destruct (negb _); [|done]. set (csts := if cc_en _ =? 1 then _ else _). destruct (cc_shn _ =? 1); [|done].
  pose proof (clear_db_keeps c 0) as H0. destruct (clear_db c 0) as [c1| | |]; try done. cbn [obind].
  pose proof (clear_db_keeps c1 1) as H1. destruct (clear_db c1 1) as [c2| | |]; try done. cbn [obind].
  destruct (get_aq c2) as [q| | |]; try done. cbn [obind]. by eapply same_workers_trans.
Qed.

(** ** Doorbells *)
Context `{IoHandler F} `{Clock}.
Variable cq_fuel : nat.

(** A computation that returns is a run, for any positions of the workers. *)
Definition runs c (r : outcome (nvmev_ctrl F)) : Prop :=
  match r with
  | Ok c' => forall pcs, exists evs, io_steps (c_dev c, pcs) evs (c_dev c', pcs)
  | _ => True
  end.

Lemma keeps_runs c r : keeps c r -> runs c r.
Proof. destruct r as [c'| | |]; simpl; try done. intros [E1 E2] pcs. exists []. by apply st_same. Qed.
Lemma sq_db_runs c qid : runs c (proc_sq_db c qid).
Proof.
  unfold proc_sq_db. destruct (nthZ _ _) as [[sq|]| | |]; try done; cbn [obind]; [|by apply keeps_runs].
  destruct (read_db (c_dbs c) _) as [n| | |]; try done. cbn [obind].
  destruct (read_db (c_old_dbs c) _) as [o| | |]; try done. cbn [obind]. destruct (n =? o); [by apply keeps_runs|].
  destruct (nvmev_proc_io_sq (c_dev c) qid n o) as [[db d]| | |] eqn:E; try done. cbn [obind]. unfold set_old_db.
  destruct (updZ _ _ _) as [l| | |]; try done. intros pcs. by apply (proc_io_sq_steps pcs _ _ _ _ _ _ E).
Qed.

Lemma cq_loop_same fuel (d : nvmev_dev F) q i n d' : proc_cq_loop fuel d q i n = Ok d' -> same_workers d d'.
Proof.
  revert d i. induction fuel as [|fuel IH]; intros d i E; simpl in E; (destruct (i =? n); [by injection E as <-|]); [done|].
  destruct (cq_entry q i) as [cqe| | |]; try done. cbn [obind] in E. destruct (_ <=? i); [by eapply IH|].
  destruct (nthZ _ _) as [[sq|]| | |]; try done; cbn [obind] in E; [|by eapply IH].
  destruct (put_sq d _ _) as [d1| | |] eqn:E1; try done. cbn [obind] in E. apply put_sq_same in E1.
  eapply same_workers_trans; [exact E1|]. by eapply IH.
Qed.

Lemma cq_db_runs c qid : runs c (proc_cq_db cq_fuel c qid).
Proof.
  apply keeps_runs. unfold proc_cq_db. destruct (nthZ _ _) as [[cq|]| | |]; try done; cbn [obind].
  destruct (read_db (c_dbs c) _) as [n| | |]; try done. cbn [obind].
  destruct (read_db (c_old_dbs c) _) as [o| | |]; try done. cbn [obind]. destruct (n =? o); [done|].
  destruct (nvmev_proc_io_cq cq_fuel (c_dev c) qid n o) as [d| | |] eqn:E; try done. cbn [obind]. unfold set_old_db.
  destruct (updZ _ _ _) as [l| | |]; try done. revert E. unfold nvmev_proc_io_cq.
  destruct (get_cq _ _) as [q| | |]; try done. cbn [obind]. destruct (proc_cq_loop _ _ _ _ _) as [d1| | |] eqn:E1; try done.
  cbn [obind]. unfold put_cq. destruct (updZ _ _ _); try done. intros [= <-]. by apply cq_loop_same in E1.
Qed.

(** ** The system: host, dispatcher and workers *)

(** The dispatcher looks at the registers or at one doorbell; the host writes its
    memory, registers, doorbells and queue entries at any time between such
    steps; workers move item by item.  An iteration of the dispatcher is a
    sequence of these steps ([round_sys_steps]). *)
Inductive sys_step : nvmev_ctrl F * (Z -> pc) -> nvmev_ctrl F * (Z -> pc) -> Prop :=
| sys_host c c' pcs : same_workers (c_dev c) (c_dev c') -> sys_step (c, pcs) (c', pcs)
| sys_bars c c' pcs : nvmev_proc_bars c = Ok c' -> sys_step (c, pcs) (c', pcs)
| sys_admin_db c c' pcs i : proc_admin_db bc c i = Ok c' -> sys_step (c, pcs) (c', pcs)
| sys_sq_db c c' pcs qid : proc_sq_db c qid = Ok c' -> sys_step (c, pcs) (c', pcs)
| sys_cq_db c c' pcs qid : proc_cq_db cq_fuel c qid = Ok c' -> sys_step (c, pcs) (c', pcs)
| sys_start c pcs wi k :
    pcs wi = PcIdle -> get_worker (c_dev c) wi = Ok k -> sys_step (c, pcs) (c, set_pc pcs wi (PcAt (io_seq k)))
| sys_visit c pcs wi e delta d' :
    pcs wi = PcAt e -> e <> NIL -> worker_visit (c_dev c) wi e delta = Ok d' ->
    sys_step (c, pcs) (set_dev c d', set_pc pcs wi (PcNext e))
| sys_next c pcs wi e k w :
    pcs wi = PcNext e -> get_worker (c_dev c) wi = Ok k -> work k e = Ok w ->
    sys_step (c, pcs) (c, set_pc pcs wi (PcAt (w_next w)))
| sys_stop c pcs wi d' :
    pcs wi = PcAt NIL -> worker_irqs (c_dev c) wi = Ok d' -> sys_step (c, pcs) (set_dev c d', set_pc pcs wi PcIdle).

Inductive sys_steps : nvmev_ctrl F * (Z -> pc) -> nvmev_ctrl F * (Z -> pc) -> Prop :=
| sys_nil s : sys_steps s s
| sys_cons s s' s'' : sys_step s s' -> sys_steps s' s'' -> sys_steps s s''.

Definition queue_state (s : nvmev_ctrl F * (Z -> pc)) : nvmev_dev F * (Z -> pc) := (c_dev s.1, s.2).

Lemma sys_step_runs s s' : sys_step s s' -> exists evs, io_steps (queue_state s) evs (queue_state s').
Proof.
  assert (Hone : forall s evs s', io_step s evs s' -> exists evs, io_steps s evs s').
  { intros s0 evs s1 Hs. exists evs. by apply io_steps_one. }
  intros Hs. destruct Hs as [c c' pcs [E1 E2]|c c' pcs E|c c' pcs i E|c c' pcs i E|c c' pcs i E|c pcs wi k Hp Hk|c pcs wi e delta d' Hp He Hv|c pcs wi e k w Hp Hk Hw|c pcs wi d' Hp Hi];
    unfold queue_state; simpl.
  - by eapply Hone, st_other.
  - pose proof (keeps_runs c _ (bars_dev c)) as Hr. rewrite E in Hr. apply Hr.
  - pose proof (keeps_runs c _ (admin_db_keeps c i)) as Hr. rewrite E in Hr. apply Hr.
  - pose proof (sq_db_runs c i) as Hr. rewrite E in Hr. apply Hr.
  - pose proof (cq_db_runs c i) as Hr. rewrite E in Hr. apply Hr.
  - by eapply Hone, st_start.
  - assert (Hk : exists k, get_worker (c_dev c) wi = Ok k).
    { unfold worker_visit in Hv. destruct (get_worker (c_dev c) wi); try done. eauto. }
    destruct Hk as [k Hk]. by eapply Hone, st_visit.
  - by eapply Hone, st_next.
  - by eapply Hone, st_stop.
Qed.

Lemma sys_steps_run s s' : sys_steps s s' -> exists evs, io_steps (queue_state s) evs (queue_state s').
Proof.
  induction 1 as [s|s s1 s2 Hs _ (e2 & Hs2)]; [exists []; constructor|].
  destruct (sys_step_runs s s1 Hs) as (e1 & Hs1). exists (e1 ++ e2). by eapply io_steps_trans.
Qed.

(** An iteration of the dispatcher is a sequence of such steps. *)
Lemma sys_steps_trans s s' s'' : sys_steps s s' -> sys_steps s' s'' -> sys_steps s s''.
Proof. induction 1; [done|]. intros. econstructor; eauto. Qed.

Lemma sys_steps_for a b c f c' pcs :
  (forall i c c', f c i = Ok c' -> sys_step (c, pcs) (c', pcs)) -> forO a b c f = Ok c' -> sys_steps (c, pcs) (c', pcs).
Proof.
  intros Hf. unfold forO. generalize (seqZ a (b - a)) as l. intros l. revert c.
  induction l as [|i l IH]; intros c E; simpl in E; [injection E as <-; constructor|].
  destruct (f c i) as [c1| | |] eqn:E1; try done. econstructor; [by eapply Hf|]. by apply IH.
Qed.

Lemma round_sys_steps c c' pcs : dispatcher_round bc cq_fuel c = Ok c' -> sys_steps (c, pcs) (c', pcs).
Proof.
  unfold dispatcher_round, nvmev_proc_dbs. intros E.
  destruct (nvmev_proc_bars c) as [c1| | |] eqn:E1; try done. cbn [obind] in E.
  destruct (proc_admin_db bc c1 0) as [c2| | |] eqn:E2; try done. cbn [obind] in E.
  destruct (proc_admin_db bc c2 1) as [c3| | |] eqn:E3; try done. cbn [obind] in E.
  destruct (forO 1 (d_nr_sq (c_dev c3) + 1) c3 proc_sq_db) as [c4| | |] eqn:E4; try done. cbn [obind] in E.
  econstructor; [by apply sys_bars|]. econstructor; [by eapply sys_admin_db|]. econstructor; [by eapply sys_admin_db|].
  eapply sys_steps_trans; eapply sys_steps_for; [..|exact E4| |exact E]; intros; [by eapply sys_sq_db|by eapply sys_cq_db].
Qed.
End Calls.
