(* ===== verification/BootFacts.v ===== *)
(** * BootFacts: a module that loads leaves a device that works

    The list of CPUs becomes one dispatcher and the workers, the namespaces
    divide the storage, and queues and controller start in the states that the
    theorems on them assume. *)
From Stdlib Require Import Strings.String Strings.Ascii.
From stdpp Require Import base list numbers.
From Stdlib Require Import ZArith Lia.
From S2P Require Import Prelude ChannelModel SsdConfig Ssd Nvme Prp HostMem.
From S2P Require Import WorkQueue IoDev IoQueue IoSteps IoDoorbell IoUnits ZnsData Admin Ctrl Boot CtrlFacts.

Open Scope Z_scope.
Open Scope nvmev_scope.

(** ** Lists of CPUs *)
Fixpoint no_comma (s : string) : bool :=
  match s with
  | EmptyString => true
  | String a s' => negb (Ascii.eqb a ","%char) && no_comma s'
  end.
(** [cpu,cpu,...,cpu] *)
Fixpoint join_comma (t : string) (l : list string) : string :=
  match l with
  | [] => t
  | t' :: l' => (t ++ String ","%char (join_comma t' l'))%string
  end.

Lemma split_join t l : no_comma t = true ->
  split_comma (join_comma t l) = (t, match l with [] => None | t' :: l' => Some (join_comma t' l') end).
Proof.
  destruct l as [|t' l]; simpl; induction t as [|a t IH]; simpl; intros Hn; try done.
  - apply andb_true_iff in Hn as [Ha Hn]. apply negb_true_iff in Ha. by rewrite Ha, IH.
  - apply andb_true_iff in Hn as [Ha Hn]. apply negb_true_iff in Ha. by rewrite Ha, IH.
Qed.

Lemma length_join t l : (length l <= String.length (join_comma t l))%nat.
Proof.
  revert t. induction l as [|t' l IH]; intros t; simpl; [lia|]. specialize (IH t').
  induction t as [|a t IHt]; simpl; lia.
Qed.

Section Cpus.
Variable simple_strtol : string -> Z.
Definition cpu_of (t : string) : Z := u32 (simple_strtol t).

Lemma load_workers fuel t l disp ws :
  no_comma t = true -> forallb no_comma l = true -> (length l < fuel)%nat ->
  Z.of_nat (length ws + S (length l)) <= NR_CPU_IO_WORKERS ->
  load_cpus simple_strtol fuel (Some (join_comma t l)) false disp ws = Ok (disp, ws ++ map cpu_of (t :: l)).
Proof.
  revert fuel t ws. induction l as [|t' l IH]; intros fuel t ws Ht Hl Hf Hn; (destruct fuel as [|fuel]; [simpl in Hf; lia|]);
    unfold load_cpus; fold (load_cpus simple_strtol); unfold strsep; rewrite split_join by done;
    rewrite (proj2 (Z.ltb_lt _ _)) by lia.
  - by destruct fuel.
  - simpl in Hl, Hf. apply andb_true_iff in Hl as [Ht' Hl]. rewrite IH; [|done..|lia|rewrite length_app; simpl in *; lia].
    by rewrite <- app_assoc.
Qed.

Lemma load_cpus_spec t l :
  no_comma t = true -> forallb no_comma l = true -> Z.of_nat (length l) <= NR_CPU_IO_WORKERS ->
  let s := Some (join_comma t l) in
  load_cpus simple_strtol (cpus_fuel s) s true (u32 (-1)) [] = Ok (cpu_of t, map cpu_of l).
Proof.
  intros Ht Hl Hn s. pose proof (length_join t l) as Hj. unfold s, cpus_fuel, load_cpus. fold (load_cpus simple_strtol).
  unfold strsep. rewrite split_join by done. destruct l as [|t' l]; [by destruct (String.length _)|].
  simpl in Hl, Hj. apply andb_true_iff in Hl as [Ht' Hl]. rewrite load_workers; [done|done|done|simpl in *; lia|simpl in *; lia].
Qed.
End Cpus.

(** ** Division of the storage *)

(** Ranges side by side from [a] to [b]. *)
Fixpoint tiles (a : Z) (l : list (Z * Z)) (b : Z) : Prop :=
  match l with
  | [] => a = b
  | (addr, size) :: l => addr = a /\ 0 <= size /\ tiles (a + size) l b
  end.

Lemma tiles_snoc a l b size : tiles a l b -> 0 <= size -> tiles a (l ++ [(b, size)]) (b + size).
Proof.
  revert a. induction l as [|[ad sz] l IH]; intros a Ht Hs; simpl in *; [by subst|].
  destruct Ht as (-> & ? & Ht). split_and!; try done. by apply IH.
Qed.
Lemma tiles_le a l b : tiles a l b -> a <= b.
Proof. revert a. induction l as [|[ad sz] l IH]; intros a Ht; simpl in *; [lia|]. destruct Ht as (-> & ? & Ht). apply IH in Ht. lia. Qed.

(** No byte belongs to two namespaces. *)
Lemma tiles_disjoint a l b i j r1 r2 : tiles a l b -> l !! i = Some r1 -> l !! j = Some r2 -> i <> j ->
  r1.1 + r1.2 <= r2.1 \/ r2.1 + r2.2 <= r1.1.
Proof.
  revert a i j. assert (Hin : forall l a b k r, tiles a l b -> l !! k = Some r -> a <= r.1 /\ 0 <= r.2 /\ r.1 + r.2 <= b).
  { induction l0 as [|[ad sz] l0 IH]; intros a b0 k r Ht Hk; [done|]. destruct Ht as (-> & ? & Ht). destruct k as [|k]; simpl in Hk.
    - injection Hk as <-. simpl. apply tiles_le in Ht. lia.
    - specialize (IH _ _ _ _ Ht Hk). lia. }
  induction l as [|[ad sz] l IH]; intros a i j Ht Hi Hj Hne; [done|]. destruct Ht as (-> & Hs & Ht).
  destruct i as [|i], j as [|j]; simpl in Hi, Hj.
  - done.
  - injection Hi as <-. left. simpl. by apply (Hin _ _ _ _ _ Ht Hj).
  - injection Hj as <-. right. simpl. by apply (Hin _ _ _ _ _ Ht Hi).
  - eapply IH; eauto.
Qed.

Section Namespaces.
Context {F : Type}.
Variables (simple_init conv_init zns_init kv_init : Z -> Z -> Z -> outcome F).
Definition init_of (ty : ssd_type) : Z -> Z -> Z -> outcome F :=
  match ty with
  | SSD_TYPE_NVM => simple_init
  | SSD_TYPE_CONV => conv_init
  | SSD_TYPE_ZNS => zns_init
  | SSD_TYPE_KV => kv_init
  | SSD_TYPE_DFTL => fun _ _ _ => Bug
  end.

(** The configuration, and functions that succeed on what they are given. *)
Record namespaces_ok (bc : base_config) (storage : Z) : Prop := {
  nk_nr : 0 < NR_NAMESPACES bc <= 2;
  nk_cap : forall i, 0 <= i < NR_NAMESPACES bc -> exists cap, NS_CAPACITY bc i = Ok cap /\ 0 <= cap;
  nk_init : forall i ty size addr, 0 <= i < NR_NAMESPACES bc -> NS_SSD_TYPE bc i = Ok ty ->
    0 <= size <= storage -> exists ns, init_of ty i size addr = Ok ns;
}.

(** Size of namespace [i] when [rem] bytes are left. *)
Definition ns_share (bc : base_config) (i rem : Z) : Z :=
  match NS_CAPACITY bc i with Ok cap => if cap =? 0 then rem else Z.min cap rem | _ => 0 end.

Lemma ns_type bc i : 0 <= i < 2 -> exists ty, NS_SSD_TYPE bc i = Ok ty.
Proof. intros Hi. apply nthZ_in_range. simpl. lia. Qed.

Lemma namespaces_spec bc storage a : namespaces_ok bc storage -> 0 <= storage ->
  exists l e, NVMEV_NAMESPACE_INIT simple_init conv_init zns_init kv_init bc storage a = Ok l /\
    Z.of_nat (length l) = NR_NAMESPACES bc /\ tiles a (map (fun x => (x.1.2, x.2)) l) e /\ e <= a + storage /\
    (NS_CAPACITY bc (NR_NAMESPACES bc - 1) = Ok 0 -> e = a + storage) /\
    forall i ns addr size, nthZ l i = Ok (ns, addr, size) ->
      size = ns_share bc i (a + storage - addr) /\
      exists ty, NS_SSD_TYPE bc i = Ok ty /\ init_of ty i size addr = Ok ns.
Proof.
  intros [K1 K2 K3] Hs. unfold NVMEV_NAMESPACE_INIT.
  destruct (forO_ind (fun i '(l, rem, addr) => Z.of_nat (length l) = i /\ tiles a (map (fun x => (x.1.2, x.2)) l) addr /\
      0 <= rem /\ addr + rem = a + storage /\ (0 < i -> NS_CAPACITY bc (i - 1) = Ok 0 -> rem = 0) /\
      forall j ns ad size, nthZ l j = Ok (ns, ad, size) ->
        size = ns_share bc j (a + storage - ad) /\ exists ty, NS_SSD_TYPE bc j = Ok ty /\ init_of ty j size ad = Ok ns)
    0 (NR_NAMESPACES bc) ([], storage, a) (ns_init_step simple_init conv_init zns_init kv_init bc))
    as ([[l rem] e] & -> & Hl & Ht & Hr & Hsum & H0 & Hn).
  - lia.
  - split_and!; try done. intros j ns ad size Hj. apply nthZ_range in Hj. simpl in Hj. lia.
  - intros i [[l rem] ad] Hi (Hl & Ht & Hr & Hsum & _ & Hn). destruct (K2 i Hi) as (cap & Hc & Hc0).
    destruct (ns_type bc i) as [ty Hty]; [lia|]. unfold ns_init_step. rewrite Hc, Hty. cbn [obind].
    set (size := if cap =? 0 then rem else Z.min cap rem).
    assert (Hsz : 0 <= size <= rem) by (unfold size; destruct (cap =? 0); lia).
    pose proof (tiles_le _ _ _ Ht) as Hle.
    destruct (K3 i ty size ad Hi Hty) as [ns Hns]; [lia|].
    assert (Hm : (match ty with SSD_TYPE_NVM => simple_init i size ad | SSD_TYPE_CONV => conv_init i size ad
      | SSD_TYPE_ZNS => zns_init i size ad | SSD_TYPE_KV => kv_init i size ad | SSD_TYPE_DFTL => Bug end) = Ok ns)
      by (by destruct ty).
    rewrite Hm. cbn [obind]. eexists. split; [done|]. cbn beta iota. rewrite length_app, map_app. simpl.
    split; [lia|]. split; [apply tiles_snoc; [done|lia]|]. split; [lia|]. split; [lia|]. split.
    + intros _. replace (i + 1 - 1) with i by lia. rewrite Hc. intros [= ->]. unfold size. rewrite Z.eqb_refl. lia.
    + intros j ns' ad' size' Hj. apply nthZ_Ok in Hj as [Hj0 Hj]. apply lookup_app_Some in Hj as [Hj|[Hge Hj]].
      * apply (Hn j). by apply nthZ_Ok.
      * apply list_lookup_singleton_Some in Hj as [Hz [= <- <- <-]]. assert (j = i) as -> by lia.
        split; [|by exists ty]. unfold ns_share. rewrite Hc. replace (a + storage - ad) with rem by lia. done.
  - cbn [obind]. exists l, e. split; [done|]. split; [done|]. split; [done|]. split; [lia|]. split; [|done].
    intros Hc. rewrite H0 in Hsum; [lia|lia|done].
Qed.
End Namespaces.

(** ** The module *)
Section Init.
Context {F : Type} `{NsInfo F} `{IoHandler F} `{Clock}.
Variables (mapped_ram mapped_reserved : Z -> Z -> bool) (simple_strtol : string -> Z).
Variables (simple_init conv_init zns_init kv_init : Z -> Z -> Z -> outcome F) (host : mem).
Variables (bc : base_config) (kv : bool) (p : module_params) (disp : string) (workers : list string).
Notation init := (NVMeV_init mapped_ram mapped_reserved simple_strtol simple_init conv_init zns_init kv_init host bc kv p).

(** The reserved memory but for the table of the key-value FTL. *)
Definition usable : Z := if kv then memmap_size p - KV_MAPPING_TABLE_SIZE else memmap_size p.

(** Parameters that the module accepts. *)
Record boot_ok : Prop := {
  bo_valid : __validate_configs mapped_ram mapped_reserved p = 0;
  bo_start : 0 <= memmap_start p;
  bo_end : memmap_start p + memmap_size p < 18446744073709551616;
  bo_usable : MB 1 < usable;
  bo_cpus : cpus p = Some (join_comma disp workers);
  bo_commas : no_comma disp = true /\ forallb no_comma workers = true;
  bo_workers : 0 < Z.of_nat (length workers) <= NR_CPU_IO_WORKERS;
  bo_ns : namespaces_ok simple_init conv_init zns_init kv_init bc (usable - MB 1);
}.

Definition boot_config : nvmev_config :=
  mk_config (memmap_start p) usable (memmap_start p + MB 1) (usable - MB 1) (cpu_of simple_strtol disp)
    (Z.of_nat (length workers)) (map (cpu_of simple_strtol) workers) (nr_io_units p) (io_unit_shift p)
    (read_delay p) (read_time p) (read_trailing p) (write_delay p) (write_time p) (write_trailing p).

Lemma load_configs_ok : boot_ok -> __load_configs mapped_ram mapped_reserved simple_strtol kv p = Ok (Some boot_config).
Proof.
  intros [V S E U C [N1 N2] W _]. unfold __load_configs. rewrite V. change (0 <? 0) with false. cbn iota.
  assert (Hu : (if kv then u64 (memmap_size p - KV_MAPPING_TABLE_SIZE) else memmap_size p) = usable).
  { revert U. unfold usable. change (MB 1) with 1048576. change KV_MAPPING_TABLE_SIZE with 1073741824.
    destruct kv; [|done]. intros U. apply u64_id. lia. }
  rewrite Hu, C, (load_cpus_spec _ disp workers) by (done || lia). cbn [obind]. unfold boot_config. rewrite length_map.
  revert U Hu E. unfold usable. change (MB 1) with 1048576. change KV_MAPPING_TABLE_SIZE with 1073741824. intros U Hu E.
  rewrite !u64_id by (destruct kv; lia). done.
Qed.

(** The device that is assembled: ranges of the namespaces, idle queues, and a
    controller that the host has not found yet. *)
Record booted (c : nvmev_ctrl F) (nss : list (F * Z * Z)) (e : Z) : Prop := {
  bt_ns : d_ns (c_dev c) = map (fun x => x.1.1) nss;
  bt_nr : Z.of_nat (length nss) = NR_NAMESPACES bc;
  bt_tiles : tiles 0 (map (fun x => (x.1.2, x.2)) nss) e;
  bt_end : e <= usable - MB 1;
  bt_workers : d_nr_io_workers (c_dev c) = Z.of_nat (length workers);
  bt_inv : io_inv (c_dev c, all_idle);
  bt_pending : dev_pending (c_dev c) = [];
  bt_up : forall aqa, up aqa false (c_dev c) c;
  bt_regs : host_regs (c_bar c) = (0, 0, 0, 0);
  bt_room : forall r, Z.of_nat r < NR_MAX_PARALLEL_IO -> has_room (c_dev c) r;
}.

Lemma init_booted : boot_ok -> exists c nss e, init = Ok (Some (boot_config, c)) /\ booted c nss e /\
  (NS_CAPACITY bc (NR_NAMESPACES bc - 1) = Ok 0 -> e = usable - MB 1) /\
  (forall i ns addr size, nthZ nss i = Ok (ns, addr, size) ->
     size = ns_share bc i (usable - MB 1 - addr) /\
     exists ty, NS_SSD_TYPE bc i = Ok ty /\ init_of simple_init conv_init zns_init kv_init ty i size addr = Ok ns).
Proof.
  intros B. unfold NVMeV_init. rewrite load_configs_ok by done. cbn [obind].
  destruct (namespaces_spec _ _ _ _ bc (usable - MB 1) 0 (bo_ns B)) as (l & e & E & L & T & Le & Lf & Li);
    [pose proof (bo_usable B); lia|]. change (cfg_storage_size boot_config) with (usable - MB 1). rewrite E. cbn [obind].
  set (d := empty_dev _ _ _). destruct (init_inv d) as (d' & E' & I & P).
  { pose proof (bo_workers B). unfold NR_CPU_IO_WORKERS in *. simpl. lia. }
  unfold __create_pci_bus. cbn [c_dev]. rewrite E'. cbn [obind].
  assert (Hd : d_sqes d' = d_sqes d /\ d_cqes d' = d_cqes d /\ d_ns d' = d_ns d /\ d_nr_sq d' = 0 /\ d_nr_cq d' = 0 /\
    d_nr_io_workers d' = d_nr_io_workers d).
  { revert E'. unfold NVMEV_IO_WORKER_INIT. destruct (forO _ _ _ _); try done. by intros [= <-]. }
  destruct Hd as (D1 & D2 & D3 & D4 & D5 & D6). eexists _, l, e. split; [done|]. split; [|by split].
  split; try done; [|intros r; apply (init_room d); [simpl; lia|done]]. intros aqa.
  pose proof (power_on bc aqa d' (NR_NAMESPACES bc) (MDTS bc)) as Hup. rewrite D1, D2, D4, D5 in Hup. by apply Hup.
Qed.
End Init.
