(* ===== verification/PciFacts.v ===== *)
(** * PciFacts: what the kernel finds and may change in configuration space *)
From stdpp Require Import base list numbers.
From Stdlib Require Import ZArith Lia.
From S2P Require Import Prelude ChannelModel SsdConfig Prp HostMem Pci.

Open Scope Z_scope.
Open Scope nvmev_scope.

(** ** Bits of a range *)
Definition is_bytes (m : mem) : Prop := forall x, 0 <= m x < 256.

Lemma getf_bit x off w n : 0 <= off -> 0 <= n < w -> Z.testbit (getf x off w) n = Z.testbit x (off + n).
Proof.
  intros Ho Hn. unfold getf. rewrite Z.land_spec, Z.ones_spec_low, andb_true_r, Z.shiftr_spec by lia. f_equal. lia.
Qed.

Lemma setf_bit x off w v n : 0 <= off -> 0 <= w -> 0 <= n ->
  Z.testbit (setf x off w v) n = if (off <=? n) && (n <? off + w) then Z.testbit v (n - off) else Z.testbit x n.
Proof.
  intros Ho Hw Hn. destruct (Z.leb_spec off n), (Z.ltb_spec n (off + w)); simpl.
  - replace n with (off + (n - off)) at 1 by lia. rewrite <- (getf_bit _ off w) by lia. rewrite getf_setf_eq by lia.
    apply Z.mod_pow2_bits_low. lia.
  - replace n with (n + 0) at 1 by lia. rewrite <- (getf_bit _ n 1) by lia. rewrite getf_setf_ne by lia. rewrite getf_bit by lia. by rewrite Z.add_0_r.
  - replace n with (n + 0) at 1 by lia. rewrite <- (getf_bit _ n 1) by lia. rewrite getf_setf_ne by lia. rewrite getf_bit by lia. by rewrite Z.add_0_r.
  - lia.
Qed.

Lemma put_byte m a n v x : 0 <= n -> a <= x < a + n -> put_le m a n v x = getf v (8 * (x - a)) 8.
Proof.
  intros Hn Hx. unfold put_le, write_bytes. rewrite length_le_bytes, Z2Nat.id by done.
  rewrite (proj2 (Z.leb_le _ _)), (proj2 (Z.ltb_lt _ _)) by lia. simpl. unfold le_bytes.
  rewrite list_lookup_fmap, lookup_seq_lt by lia. simpl. f_equal. lia.
Qed.

Lemma put_is_bytes m a n v : 0 <= n -> is_bytes m -> is_bytes (put_le m a n v).
Proof.
  intros Hn Hm x. destruct (decide (a <= x < a + n)) as [Hx|Hx].
  - rewrite put_byte by done. by apply (getf_range v _ 8).
  - by rewrite put_other.
Qed.

Lemma get_le_split m a n : 0 <= n -> get_le m a (1 + n) = m a + 256 * get_le m (a + 1) n.
Proof. intros Hn. unfold get_le. rewrite bytes_app by lia. unfold bytes at 1. simpl. by rewrite Z.add_0_r. Qed.

(** A byte of an integer that was read. *)
Lemma get_le_byte m a n i : is_bytes m -> 0 <= i < n -> getf (get_le m a n) (8 * i) 8 = m (a + i).
Proof.
  intros Hm Hi. rewrite getf_div by lia. change (2 ^ 8) with 256. rewrite <- (Z2Nat.id i) in * by lia.
  generalize dependent (Z.to_nat i). clear i. intros j. revert a n. induction j as [|j IH]; intros a n Hi;
    (replace n with (1 + (n - 1)) by lia); rewrite get_le_split by lia; pose proof (Hm a).
  - simpl. rewrite Z.div_1_r, Z.mul_comm, Z.mod_add, Z.mod_small by lia. by rewrite Z.add_0_r.
  - replace (8 * Z.of_nat (S j)) with (8 + 8 * Z.of_nat j) by lia. rewrite Z.pow_add_r by lia. change (2 ^ 8) with 256.
    rewrite <- Z.div_div by (try apply Z.pow_pos_nonneg; lia). rewrite (Z.add_comm (m a)), Z.mul_comm, Z.div_add_l by lia.
    rewrite (Z.div_small (m a)) by done. rewrite Z.add_0_r, IH by lia. f_equal. lia.
Qed.

Lemma get_le_bit m a n i k : is_bytes m -> 0 <= i < n -> 0 <= k < 8 ->
  Z.testbit (get_le m a n) (8 * i + k) = Z.testbit (m (a + i)) k.
Proof. intros Hm Hi Hk. rewrite <- (get_le_byte m a n i Hm Hi). by rewrite getf_bit by lia. Qed.

(** ** What writes can change *)

(** The bits of a byte that some write reaches, those of the interrupt status
    included. *)
Definition writable (x : Z) : Z :=
  if 64 <=? x then 255
  else if x =? 5 then 4
  else if x =? 6 then 8
  else if x =? 7 then 242
  else if x =? 15 then 64
  else if x =? 17 then 192
  else if (x =? 18) || (x =? 19) || (x =? 60) then 255
  else 0.

(** The masks of the code stay inside: byte [i] of a write at [whr]. *)
Definition mask_inside (whr i k : Z) : bool :=
  implb (Z.testbit (pci_write_mask whr) (8 * i + k)) (Z.testbit (writable (whr + i)) k).

Lemma mask_header : forallb (fun whr => forallb (fun i => forallb (mask_inside whr i) (seqZ 0 8)) (seqZ 0 4)) (seqZ 0 64) = true.
Proof. by vm_compute. Qed.

Lemma testbit_255 k : 0 <= k < 8 -> Z.testbit 255 k = true.
Proof. intros Hk. change 255 with (Z.ones 8). by apply Z.ones_spec_low. Qed.

Lemma mask_bits whr i k : 0 <= whr -> 0 <= i < 4 -> 0 <= k < 8 ->
  Z.testbit (pci_write_mask whr) (8 * i + k) = true -> Z.testbit (writable (whr + i)) k = true.
Proof.
  intros Hw Hi Hk Hb. destruct (decide (whr < 64)).
  - pose proof mask_header as Hm. rewrite forallb_forall in Hm. specialize (Hm whr). rewrite forallb_forall in Hm.
    specialize (Hm ltac:(apply list_elem_of_In, elem_of_seqZ; lia) i). rewrite forallb_forall in Hm.
    specialize (Hm ltac:(apply list_elem_of_In, elem_of_seqZ; lia) k ltac:(apply list_elem_of_In, elem_of_seqZ; lia)).
    unfold mask_inside in Hm. by rewrite Hb in Hm.
  - unfold writable. rewrite (proj2 (Z.leb_le 64 _)) by lia. by apply testbit_255.
Qed.

(** [m'] differs from [m] in such bits only. *)
Definition fixed_bits (m m' : mem) : Prop :=
  forall x k, 0 <= x -> 0 <= k < 8 -> Z.testbit (writable x) k = false -> Z.testbit (m' x) k = Z.testbit (m x) k.

Lemma fixed_trans m1 m2 m3 : fixed_bits m1 m2 -> fixed_bits m2 m3 -> fixed_bits m1 m3.
Proof. intros H1 H2 x k Hx Hk Hw. by rewrite H2, H1. Qed.

Lemma merge_bit mask val v n : 0 <= n -> Z.testbit (merge_mask mask val v) n =
  if Z.testbit mask n then Z.testbit v n else Z.testbit val n.
Proof.
  intros Hn. unfold merge_mask. rewrite Z.lor_spec, Z.ldiff_spec, Z.land_spec.
  by destruct (Z.testbit mask n), (Z.testbit v n), (Z.testbit val n).
Qed.

(** What a write leaves in the space. *)
Definition write_mem (p : pci_state) (whr size v : Z) : mem := pci_virtDev (nvmev_pci_write p whr size v).

Lemma write_status m a n off w v : 0 <= n -> 0 <= off -> 0 <= w -> 8 * n >= off + w -> is_bytes m ->
  forall x k, 0 <= k < 8 -> Z.testbit (put_bits m a n off w v x) k =
    if (a <=? x) && (x <? a + n) && (off <=? 8 * (x - a) + k) && (8 * (x - a) + k <? off + w)
    then Z.testbit v (8 * (x - a) + k - off) else Z.testbit (m x) k.
Proof.
  intros Hn Ho Hw Hs Hm x k Hk. unfold put_bits. destruct (Z.leb_spec a x), (Z.ltb_spec x (a + n)); simpl;
    try (rewrite put_other by lia; done).
  rewrite put_byte by lia. rewrite getf_bit, setf_bit by lia.
  destruct ((off <=? 8 * (x - a) + k) && (8 * (x - a) + k <? off + w)); [done|].
  replace (m x) with (m (a + (x - a))) by (f_equal; lia). by apply get_le_bit; [|lia|].
Qed.

Lemma write_fixed p whr size v : is_bytes (pci_virtDev p) -> 0 <= whr -> 0 < size <= 4 ->
  is_bytes (write_mem p whr size v) /\ fixed_bits (pci_virtDev p) (write_mem p whr size v) /\
  forall i k, 0 <= i < size -> 0 <= k < 8 -> Z.testbit (write_mem p whr size v (whr + i)) k =
    if Z.testbit (pci_write_mask whr) (8 * i + k) then Z.testbit v (8 * i + k) else Z.testbit (pci_virtDev p (whr + i)) k.
Proof.
  intros Hm Hw Hs. unfold write_mem, nvmev_pci_write. simpl. set (val := get_le (pci_virtDev p) whr size).
  set (m := if _ : bool then put_bits _ _ _ _ _ _ else pci_virtDev p).
  assert (Hmb : is_bytes m /\ fixed_bits (pci_virtDev p) m).
  { unfold m. destruct (_ && _); [|by split; [|intros x k _ _ _]]. split; [by apply put_is_bytes|].
    intros x k Hx Hk Hb. rewrite write_status by (done || lia).
    destruct (decide (x = 6 /\ k = 3)) as [[-> ->]|Hne]; [done|].
    match goal with |- (if ?b then _ else _) = _ => destruct b eqn:E; [|done] end. boolify. lia. }
  destruct Hmb as [Hb Hf].
  assert (Hv : forall i k, 0 <= i < size -> 0 <= k < 8 ->
    Z.testbit (put_le m whr size (merge_mask (pci_write_mask whr) val v) (whr + i)) k =
    if Z.testbit (pci_write_mask whr) (8 * i + k) then Z.testbit v (8 * i + k) else Z.testbit (pci_virtDev p (whr + i)) k).
  { intros i k Hi Hk. rewrite put_byte by lia. replace (whr + i - whr) with i by lia. rewrite getf_bit, merge_bit by lia.
    destruct (Z.testbit _ _); [done|]. by apply get_le_bit. }
  split; [by apply put_is_bytes; [lia|]|]. split; [|done]. intros x k Hx Hk Hbit.
  destruct (decide (whr <= x < whr + size)) as [Hr|Hr].
  - replace x with (whr + (x - whr)) by lia. rewrite Hv by lia. destruct (Z.testbit (pci_write_mask whr) _) eqn:E; [|done].
    apply mask_bits in E; [|lia..]. replace (whr + (x - whr)) with x in E by lia. congruence.
  - rewrite put_other by lia. by apply Hf.
Qed.

(** Writes in a row, each of one to four bytes. *)
Definition pci_run (p : pci_state) (ws : list (Z * Z * Z)) : pci_state :=
  foldl (fun p '(whr, size, v) => nvmev_pci_write p whr size v) p ws.
Definition pci_access (w : Z * Z * Z) : Prop := let '(whr, size, _) := w in 0 <= whr /\ 0 < size <= 4.

Lemma run_fixed ws p : is_bytes (pci_virtDev p) -> Forall pci_access ws ->
  is_bytes (pci_virtDev (pci_run p ws)) /\ fixed_bits (pci_virtDev p) (pci_virtDev (pci_run p ws)).
Proof.
  revert p. induction ws as [|[[whr size] v] ws IH]; intros p Hm Hw; [by split; [|intros x k _ _ _]|].
  apply Forall_cons_1 in Hw as [[H1 H2] Hw]. destruct (write_fixed p whr size v Hm H1 H2) as (B & Fx & _).
  destruct (IH (nvmev_pci_write p whr size v) B Hw) as [B' Fx']. split; [exact B'|]. by eapply fixed_trans.
Qed.

Lemma fixed_byte m m' x : is_bytes m -> is_bytes m' -> fixed_bits m m' -> 0 <= x -> writable x = 0 -> m' x = m x.
Proof.
  intros Hm Hm' Hf Hx Hw. apply Z.bits_inj'. intros k Hk. destruct (decide (k < 8)).
  - apply Hf; [done|lia|]. rewrite Hw. apply Z.testbit_0_l.
  - assert (Hb : forall b, 0 <= b < 256 -> Z.testbit b k = false).
    { intros b Hb. rewrite <- (Z.mod_small b (2 ^ 8)) by done. apply Z.mod_pow2_bits_high. lia. }
    by rewrite !Hb.
Qed.

Lemma fixed_range m m' a n : is_bytes m -> is_bytes m' -> fixed_bits m m' -> 0 <= a ->
  (forall x, a <= x < a + n -> writable x = 0) -> get_le m' a n = get_le m a n.
Proof. intros Hm Hm' Hf Ha Hw. unfold get_le. f_equal. apply bytes_same. intros x Hx. apply fixed_byte; auto. lia. Qed.

(** ** The chains of capabilities *)
Fixpoint chain (id next : mem -> Z -> Z) (fuel : nat) (m : mem) (off : Z) : list Z :=
  match fuel with
  | O => []
  | S fuel' => if off =? 0 then [] else id m off :: chain id next fuel' m (next m off)
  end.
Definition cap_walk : nat -> mem -> Z -> list Z := chain (fun m o => get_le m o 1) (fun m o => get_le m (o + 1) 1).
Definition ext_cap_walk : nat -> mem -> Z -> list Z := chain (fun m o => get_le m o 2) (fun m o => get_le m (o + 2) 2 / 16).
(** The walk stays behind the header. *)
Fixpoint chain_high (next : mem -> Z -> Z) (fuel : nat) (m : mem) (off : Z) : bool :=
  match fuel with
  | O => true
  | S fuel' => (off =? 0) || ((64 <=? off) && chain_high next fuel' m (next m off))
  end.

Lemma chain_ext id next m m' :
  (forall o, 64 <= o -> id m' o = id m o /\ next m' o = next m o) ->
  forall fuel off, chain_high next fuel m off = true -> chain id next fuel m' off = chain id next fuel m off.
Proof.
  intros E. induction fuel as [|fuel IH]; intros off Hh; simpl in *; [done|]. destruct (Z.eqb_spec off 0); [done|].
  simpl in Hh. boolify. destruct (E off) as [-> ->]; [done|]. by rewrite IH.
Qed.

(** The chains and the numbers of the header, for any address. *)
Lemma init_layout base :
  let m := NVMEV_PCI_INIT base in
  get_le m 0 2 = NVMEV_VENDOR_ID /\ get_le m 2 2 = NVMEV_DEVICE_ID /\ get_le m 9 3 = 67586 /\ get_le m 52 1 = 64 /\
  cap_walk 16 m 64 = [PCI_CAP_ID_PM; PCI_CAP_ID_MSIX; PCI_CAP_ID_EXP] /\
  ext_cap_walk 16 m 256 = [PCI_EXT_CAP_ID_ERR; PCI_EXT_CAP_ID_VC; PCI_EXT_CAP_ID_PWR; PCI_EXT_CAP_ID_ARI;
    PCI_EXT_CAP_ID_DSN; PCI_EXT_CAP_ID_SECPCI].
Proof. intros m. split_and!; lazy; reflexivity. Qed.

Lemma put_bits_bytes m a n off w v : 0 <= n -> is_bytes m -> is_bytes (put_bits m a n off w v).
Proof. apply put_is_bytes. Qed.
Lemma init_bytes base : is_bytes (NVMEV_PCI_INIT base).
Proof.
  unfold NVMEV_PCI_INIT, PCI_EXTCAP_SETTINGS, put_ext_cap, PCI_PCIECAP_SETTINGS, PCI_MSIXCAP_SETTINGS, PCI_PMCAP_SETTINGS,
    PCI_HEADER_SETTINGS, put_fields. cbn [foldl].
  by repeat lazymatch goal with
  | |- is_bytes (put_bits _ _ _ _ _ _) => apply put_bits_bytes; [done|]
  | |- is_bytes (put_le _ _ _ _) => apply put_is_bytes; [done|]
  end.
Qed.

Lemma init_bar base : 0 <= base < 18446744073709551616 -> (16384 | base) ->
  get_le (NVMEV_PCI_INIT base) 16 4 = base mod 4294967296 + 4 /\ get_le (NVMEV_PCI_INIT base) 20 4 = base / 4294967296.
Proof.
  intros Hb [k Hk]. set (ba := Z.shiftr (Z.land base 4294967295) 14). split.
  - transitivity (get_le (put_bits (put_bits (fun _ => 0) 16 4 1 2 2) 16 4 14 18 ba) 16 4); [reflexivity|].
    unfold put_bits at 1. rewrite get_put by done. change (get_le (put_bits (fun _ => 0) 16 4 1 2 2) 16 4) with 4.
    assert (Hba : ba = (base mod 4294967296) / 16384).
    { unfold ba. change 4294967295 with (Z.ones 32). rewrite Z.land_ones, Z.shiftr_div_pow2 by done. done. }
    assert (E : setf 4 14 18 ba = base mod 4294967296 + 4).
    { pose proof (Z.mod_pos_bound base 4294967296 ltac:(lia)).
      assert (Hd : base mod 4294967296 = 16384 * ba).
      { rewrite Hba. apply Z.div_exact; [done|]. rewrite Hk. 
        replace 4294967296 with (262144 * 16384) by done. rewrite Z.mul_mod_distr_r by done. by apply Z.mod_mul. }
      assert (Hr : 0 <= ba < 262144) by lia. rewrite Hd. unfold setf.
      change (Z.ldiff 4 (Z.shiftl (Z.ones 18) 14)) with 4. rewrite Z.land_ones, Z.mod_small by (done || lia).
      rewrite Z.shiftl_mul_pow2 by done. change (2 ^ 14) with 16384. try rewrite Z.lor_comm. pose proof (Z.add_lor_land (ba * 16384) 4) as A.
      assert (L : Z.land (ba * 16384) 4 = 0).
      { apply Z.bits_inj'. intros n Hn. rewrite Z.land_spec, Z.testbit_0_l. change 16384 with (2 ^ 14).
        destruct (decide (n < 14)); [by rewrite Z.mul_pow2_bits_low|].
        rewrite (Z.bits_above_log2 4) by (simpl; lia). apply andb_false_r. }
      rewrite L in A. lia. }
    rewrite E. pose proof (Z.mod_pos_bound base 4294967296 ltac:(lia)). apply Z.mod_small. change (2 ^ (8 * 4)) with 4294967296.
    assert (base mod 4294967296 <> 4294967295 /\ base mod 4294967296 <= 4294950912); [|lia].
    assert (Hd : exists j, base mod 4294967296 = j * 16384).
    { exists (k mod 262144). rewrite Hk. replace 4294967296 with (262144 * 16384) by done. by rewrite Z.mul_mod_distr_r. }
    destruct Hd as [j Hj]. lia.
  - transitivity (get_le (put_le (fun _ => 0) 20 4 (Z.shiftr base 32)) 20 4); [reflexivity|]. rewrite get_put, Z.shiftr_div_pow2 by done.
    change (2 ^ 32) with 4294967296. apply Z.mod_small. change (2 ^ (8 * 4)) with 4294967296. split; [apply Z.div_pos; lia|].
    apply Z.div_lt_upper_bound; lia.
Qed.

(** The low bits of the base address tell its type. *)
Definition bar_type (m : mem) : Prop := forall n, 0 <= n < 14 -> Z.testbit (get_le m 16 4) n = Z.testbit 4 n.

Lemma init_bar_type base : 0 <= base < 18446744073709551616 -> (16384 | base) -> bar_type (NVMEV_PCI_INIT base).
Proof.
  intros Hb Hd n Hn. destruct (init_bar base Hb Hd) as [-> _]. destruct Hd as [k ->].
  rewrite <- (Z.mod_pow2_bits_low _ 14) by lia. replace 4294967296 with (262144 * 16384) by done.
  rewrite Z.mul_mod_distr_r, Z.add_comm by done. change (2 ^ 14) with 16384. rewrite Z.mod_add by done. done.
Qed.

Lemma byte_of n : 0 <= n -> exists i k, n = 8 * i + k /\ 0 <= i /\ 0 <= k < 8.
Proof. intros Hn. exists (n / 8), (n mod 8). pose proof (Z.div_mod n 8). pose proof (Z.mod_pos_bound n 8). pose proof (Z.div_pos n 8). lia. Qed.

Lemma bar_type_fixed m m' : is_bytes m -> is_bytes m' -> fixed_bits m m' -> bar_type m -> bar_type m'.
Proof.
  intros Hm Hm' Hf Ht n Hn. rewrite <- (Ht n Hn). destruct (byte_of n ltac:(lia)) as (i & k & -> & Hi & Hk).
  rewrite !get_le_bit by (done || lia). apply Hf; [lia|done|]. assert (i = 0 \/ i = 1 /\ k < 6) as [->|[-> Hk6]] by lia.
  - by rewrite Z.testbit_0_l.
  - change (writable (16 + 1)) with 192. assert (k = 0 \/ k = 1 \/ k = 2 \/ k = 3 \/ k = 4 \/ k = 5) as Hc by lia.
    by repeat destruct Hc as [->|Hc]; subst.
Qed.

(** A write to the base address keeps its type. *)
Lemma bar_write p v : is_bytes (pci_virtDev p) -> bar_type (pci_virtDev p) -> 0 <= v < 4294967296 ->
  get_le (pci_virtDev (nvmev_pci_write p 16 4 v)) 16 4 = Z.lor (Z.ldiff v (Z.ones 14)) 4.
Proof.
  intros Hm Ht Hv. destruct (write_fixed p 16 4 v Hm ltac:(lia) ltac:(lia)) as (B & _ & Hw). unfold write_mem in *.
  apply Z.bits_inj'. intros n Hn. rewrite Z.lor_spec, Z.ldiff_spec. destruct (decide (n < 32)) as [H32|H32].
  - destruct (byte_of n Hn) as (i & k & -> & Hi & Hk). rewrite get_le_bit by (done || lia). rewrite Hw by lia.
    change (pci_write_mask 16) with (Z.shiftl (Z.ones 18) 14). rewrite Z.shiftl_spec by lia.
    destruct (decide (8 * i + k < 14)) as [H14|H14].
    + rewrite (Z.testbit_neg_r (Z.ones 18)) by lia. rewrite Z.ones_spec_low, andb_false_r by lia. simpl.
      rewrite <- (Ht (8 * i + k)) by lia. by rewrite get_le_bit by (done || lia).
    + rewrite Z.ones_spec_low, Z.ones_spec_high, andb_true_r by lia. rewrite (Z.bits_above_log2 4) by (simpl; lia).
      by rewrite orb_false_r.
  - assert (Hs : forall b, 0 <= b < 2 ^ 32 -> Z.testbit b n = false).
    { intros b Hb. rewrite <- (Z.mod_small b (2 ^ 32)) by done. apply Z.mod_pow2_bits_high. lia. }
    rewrite (Hs v), (Hs 4) by done. simpl. apply Hs. apply (get_le_range _ 16 4); [exact B|done].
Qed.

(** Writes to the header leave the rest alone. *)
Definition header_only (w : Z * Z * Z) : Prop := let '(whr, size, _) := w in whr + size <= 64.
Lemma header_run ws p x : Forall pci_access ws -> Forall header_only ws -> 64 <= x ->
  pci_virtDev (pci_run p ws) x = pci_virtDev p x.
Proof.
  revert p. induction ws as [|[[whr size] v] ws IH]; intros p Hw Hh Hx; [done|].
  apply Forall_cons_1 in Hw as [[H1 H2] Hw]. apply Forall_cons_1 in Hh as [H3 Hh]. simpl in H3.
  change (pci_virtDev (pci_run (nvmev_pci_write p whr size v) ws) x = pci_virtDev p x). rewrite IH by done.
  unfold nvmev_pci_write. simpl. rewrite put_other by lia. destruct (_ && _); [|done]. unfold put_bits. by rewrite put_other by lia.
Qed.


Lemma chains_kept m m' : (forall x, 64 <= x -> m' x = m x) ->
  chain_high (fun m o => get_le m (o + 1) 1) 16 m 64 = true -> chain_high (fun m o => get_le m (o + 2) 2 / 16) 16 m 256 = true ->
  cap_walk 16 m' 64 = cap_walk 16 m 64 /\ ext_cap_walk 16 m' 256 = ext_cap_walk 16 m 256.
Proof.
  intros E H1 H2. assert (Eg : forall a n, 64 <= a -> get_le m' a n = get_le m a n).
  { intros a n Ha. unfold get_le. f_equal. apply bytes_same. intros x Hx. apply E. lia. }
  split; (apply chain_ext; [|done]); intros o Ho; by rewrite !Eg by lia.
Qed.

Lemma init_high base :
  chain_high (fun m o => get_le m (o + 1) 1) 16 (NVMEV_PCI_INIT base) 64 = true /\
  chain_high (fun m o => get_le m (o + 2) 2 / 16) 16 (NVMEV_PCI_INIT base) 256 = true.
Proof. split; lazy; reflexivity. Qed.

(** C26: Whatever the kernel writes into configuration space, the device keeps its identity, its
    class and the type of its base address, and a write to BAR0 reads back its upper 18 bits, so
    that sizing finds 16 KiB; until a capability is written both chains of capabilities end and
    list what the device has. *)
Theorem pci_enumeration base ws :
  0 <= base < 18446744073709551616 -> (16384 | base) -> Forall pci_access ws ->
  let p0 := mk_pci (NVMEV_PCI_INIT base) false None in
  let p := pci_run p0 ws in
  nvmev_pci_read p0 0 16 8 = Some (base + 4) /\
  nvmev_pci_read p 0 0 2 = Some NVMEV_VENDOR_ID /\ nvmev_pci_read p 0 2 2 = Some NVMEV_DEVICE_ID /\
  nvmev_pci_read p 0 9 3 = Some 67586 /\ nvmev_pci_read p 0 52 1 = Some 64 /\
  (forall v, 0 <= v < 4294967296 -> nvmev_pci_read (nvmev_pci_write p 16 4 v) 0 16 4 = Some (Z.lor (Z.ldiff v (Z.ones 14)) 4)) /\
  (Forall header_only ws ->
   cap_walk 16 (pci_virtDev p) 64 = [PCI_CAP_ID_PM; PCI_CAP_ID_MSIX; PCI_CAP_ID_EXP] /\
   ext_cap_walk 16 (pci_virtDev p) 256 = [PCI_EXT_CAP_ID_ERR; PCI_EXT_CAP_ID_VC; PCI_EXT_CAP_ID_PWR; PCI_EXT_CAP_ID_ARI;
     PCI_EXT_CAP_ID_DSN; PCI_EXT_CAP_ID_SECPCI]).
Proof.
  intros Hb Hd Hw. pose proof (init_bytes base) as B0. destruct (init_layout base) as (L1 & L2 & L3 & L4 & L5 & L6).
  pose proof (init_bar base Hb Hd) as [E1 E2]. pose proof (init_bar_type base Hb Hd) as Ht. pose proof (init_high base) as [G1 G2].
  generalize dependent (NVMEV_PCI_INIT base). intros m0 B0 L1 L2 L3 L4 L5 L6 E1 E2 Ht G1 G2 p0 p.
  destruct (run_fixed ws p0 B0 Hw) as [B Fx]. fold p in B, Fx. unfold nvmev_pci_read. change (negb (0 =? 0)) with false. cbn iota.
  assert (Hk : forall a n, 0 <= a -> (forall x, a <= x < a + n -> writable x = 0) -> get_le (pci_virtDev p) a n = get_le m0 a n)
    by (intros a n Ha Hx; by apply fixed_range).
  assert (Hx : forall x, x = 0 \/ x = 1 \/ x = 2 \/ x = 3 \/ x = 9 \/ x = 10 \/ x = 11 \/ x = 52 -> writable x = 0)
    by (intros x [->|[->|[->|[->|[->|[->|[->| ->]]]]]]]; done).
  split; [|split; [|split; [|split; [|split; [|split]]]]].
  - f_equal. simpl. pose proof (Z.div_mod base 4294967296 ltac:(done)) as Eb. rewrite <- E2 in Eb. revert E1 Eb.
    generalize (base mod 4294967296). clear. intros r E1 Eb. unfold get_le in *. rewrite (bytes_app _ 16 4 4) by done.
    change (16 + 4) with 20. simpl in E1, Eb |- *. lia.
  - rewrite Hk, L1 by (done || (intros; apply Hx; lia)). done.
  - rewrite Hk, L2 by (done || (intros; apply Hx; lia)). done.
  - rewrite Hk, L3 by (done || (intros; apply Hx; lia)). done.
  - rewrite Hk, L4 by (done || (intros; apply Hx; lia)). done.
  - intros v Hv. f_equal. apply bar_write; [done| |done]. apply (bar_type_fixed (pci_virtDev p0)); done.
  - intros Hh. destruct (chains_kept m0 (pci_virtDev p)) as [-> ->]; [|done..].
    intros x Hx'. by apply (header_run ws p0).
Qed.

(** The kernel enables the device, probes BAR0 and restores it. *)
Lemma pci_enumeration_witness :
  let p := pci_run (mk_pci (NVMEV_PCI_INIT 68719476736) false None) [(4, 2, 1030); (16, 4, 4294967295); (20, 4, 0); (16, 4, 4)] in
  nvmev_pci_read p 0 0 4 = Some 17828945 /\ nvmev_pci_read (nvmev_pci_write p 16 4 4294967295) 0 16 4 = Some 4294950916 /\
  cap_walk 16 (pci_virtDev p) 64 = [1; 17; 16].
Proof.
  intros p. destruct (pci_enumeration 68719476736 [(4, 2, 1030); (16, 4, 4294967295); (20, 4, 0); (16, 4, 4)])
    as (_ & _ & _ & _ & _ & Hw & Hc); [lia|by exists 4194304|repeat constructor; simpl; lia|].
  split; [reflexivity|]. split; [by apply (Hw 4294967295)|]. apply Hc. repeat constructor; simpl; lia.
Defined.
