(* ===== verification/Layout.v ===== *)
(** * Layout: structures and bit-fields of C in memory

    The layout that gcc gives the structures of the headers on x86-64: a member
    is aligned to its type, a bit-field stands behind the bits before it unless
    it would cross a boundary of its declared type, the size is rounded up to
    the alignment; the members of a union start together.  Sizes and offsets
    are in bits.  [get_at] and [put_at] read and assign a member by its path. *)
From stdpp Require Import base list numbers.
From Stdlib Require Import ZArith Lia Strings.String.
From S2P Require Import Prelude Prp HostMem Pci PciFacts.

Open Scope Z_scope.
Open Scope nvmev_scope.

(** ** Types *)
Inductive comp_kind := Struct | Union.

(** An integer of [n] bytes; a bit-field of [w] bits declared with a type of
    [n] bytes (a member only); arrays; structures and unions, a member without
    a name having the empty one. *)
Inductive ctype :=
| CInt (n : Z)
| CBits (n w : Z)
| CArray (t : ctype) (n : Z)
| CComp (k : comp_kind) (ms : list (string * ctype)).

Notation CStruct := (CComp Struct).
Notation CUnion := (CComp Union).
Notation U8 := (CInt 1).
Notation U16 := (CInt 2).
Notation U32 := (CInt 4).
Notation U64 := (CInt 8).

Section Induction.
Variable P : ctype -> Prop.
Hypothesis PInt : forall n, P (CInt n).
Hypothesis PBits : forall n w, P (CBits n w).
Hypothesis PArray : forall t n, P t -> P (CArray t n).
Hypothesis PComp : forall k ms, Forall (fun m => P (snd m)) ms -> P (CComp k ms).

Fixpoint ctype_induction (t : ctype) : P t :=
  match t with
  | CInt n => PInt n
  | CBits n w => PBits n w
  | CArray t n => PArray t n (ctype_induction t)
  | CComp k ms => PComp k ms
      ((fix go ms : Forall (fun m => P (snd m)) ms :=
          match ms with
          | [] => Forall_nil_2 _
          | m :: ms => Forall_cons_2 _ _ _ (ctype_induction (snd m)) (go ms)
          end) ms)
  end.
End Induction.

(** ** Layout *)
Definition round_up (p a : Z) : Z := (p + a - 1) / a * a.

Record shape := mk_shape { sh_size : Z; sh_align : Z; sh_field : bool }.

(** Where a member of the given shape starts when [pos] bits are taken. *)
Definition member_start (pos : Z) (s : shape) : Z :=
  if sh_field s then if pos mod sh_align s + sh_size s <=? sh_align s then pos else round_up pos (sh_align s)
  else round_up pos (sh_align s).

Definition anonymous : string := EmptyString.
Definition is_anonymous (x : string) : bool := match x with EmptyString => true | _ => false end.

(** What a member without a name adds to the alignment. *)
Definition align_of (x : string) (s : shape) : Z :=
  if sh_field s && is_anonymous x then 8 else sh_align s.

Definition next_pos (k : comp_kind) (pos : Z) (s : shape) : Z :=
  match k with Struct => member_start pos s + sh_size s | Union => pos end.

Definition comp_add (k : comp_kind) (acc : Z * Z * Z) (m : string * shape) : Z * Z * Z :=
  let '(pos, len, al) := acc in
  let s := snd m in
  (next_pos k pos s, len `max` (member_start pos s + sh_size s), al `max` align_of (fst m) s).

Fixpoint measure (t : ctype) : shape :=
  match t with
  | CInt n => mk_shape (8 * n) (8 * n) false
  | CBits n w => mk_shape w (8 * n) true
  | CArray t n => let s := measure t in mk_shape (n * sh_size s) (sh_align s) false
  | CComp k ms =>
      let '(_, len, al) := foldl (comp_add k) (0, 0, 8) (map (fun m => (fst m, measure (snd m))) ms) in
      mk_shape (round_up len al) al false
  end.

Definition sizeof (t : ctype) : Z := sh_size (measure t) / 8.

(** ** Paths *)
Inductive pstep := Fld (x : string) | Idx (i : Z).

(** Members in order, those of members without a name included. *)
Definition find_member (loc : ctype -> list pstep -> option (Z * ctype)) (k : comp_kind) (x : string)
    (p' : list pstep) : Z -> list (string * ctype) -> option (Z * ctype) :=
  fix go pos ms :=
    match ms with
    | [] => None
    | (y, t') :: ms' =>
        match (if is_anonymous y then loc t' (Fld x :: p') else if String.eqb y x then loc t' p' else None) with
        | Some (o, u) => Some (member_start pos (measure t') + o, u)
        | None => go (next_pos k pos (measure t')) ms'
        end
    end.

Fixpoint locate (t : ctype) (p : list pstep) {struct t} : option (Z * ctype) :=
  match p, t with
  | [], _ => Some (0, t)
  | Idx i :: p', CArray t' n =>
      if (0 <=? i) && (i <? n) then
        match locate t' p' with
        | Some (o, u) => Some (i * sh_size (measure t') + o, u)
        | None => None
        end
      else None
  | Fld x :: p', CComp k ms => find_member locate k x p' 0 ms
  | _, _ => None
  end.

Definition offsetof (t : ctype) (p : list pstep) : option Z := option_map (fun r => fst r / 8) (locate t p).

(** ** Access to the structure at address [a] *)
Definition get_at (m : mem) (a : Z) (t : ctype) (p : list pstep) : option Z :=
  match locate t p with
  | Some (o, CInt n) => Some (get_le m (a + o / 8) n)
  | Some (o, CBits n w) => Some (getf (get_le m (a + n * (o / (8 * n))) n) (o mod (8 * n)) w)
  | _ => None
  end.

Definition put_at (m : mem) (a : Z) (t : ctype) (p : list pstep) (v : Z) : option mem :=
  match locate t p with
  | Some (o, CInt n) => Some (put_le m (a + o / 8) n v)
  | Some (o, CBits n w) => Some (put_bits m (a + n * (o / (8 * n))) n (o mod (8 * n)) w v)
  | _ => None
  end.

(** Assignments to members of the structure at [a], in order. *)
Fixpoint assign (m : mem) (a : Z) (t : ctype) (l : list (list pstep * Z)) : option mem :=
  match l with
  | [] => Some m
  | (p, v) :: l => match put_at m a t p v with Some m => assign m a t l | None => None end
  end.

(** ** Well-formed types *)
Definition int_size (n : Z) : bool := (n =? 1) || (n =? 2) || (n =? 4) || (n =? 8).
Definition is_field (t : ctype) : bool := match t with CBits _ _ => true | _ => false end.

Fixpoint wf_ctype (t : ctype) : bool :=
  match t with
  | CInt n => int_size n
  | CBits n w => int_size n && (0 <? w) && (w <=? 8 * n)
  | CArray t n => wf_ctype t && negb (is_field t) && (0 <=? n)
  | CComp k ms => forallb (fun m => wf_ctype (snd m)) ms
  end.

(** No union inside. *)
Fixpoint unionless (t : ctype) : bool :=
  match t with
  | CInt _ | CBits _ _ => true
  | CArray t n => unionless t
  | CComp k ms => match k with Struct => forallb (fun m => unionless (snd m)) ms | Union => false end
  end.

(** * Where members are and what an assignment changes *)

(** ** Alignment *)
Definition is_al (a : Z) : Prop := a = 8 \/ a = 16 \/ a = 32 \/ a = 64.

Lemma al_divide a b : is_al a -> is_al b -> a <= b -> (a | b).
Proof.
  intros Ha Hb Hle. apply Z.mod_divide; [unfold is_al in *; lia|].
  destruct Ha as [->|[->|[->| ->]]], Hb as [->|[->|[->| ->]]]; (reflexivity || lia).
Qed.

Lemma al_max a b : is_al a -> is_al b -> is_al (a `max` b).
Proof. unfold is_al. lia. Qed.

Lemma int_al n : int_size n = true -> is_al (8 * n).
Proof. unfold int_size, is_al. intros H. boolify. lia. Qed.

Lemma round_up_le p a : 0 < a -> p <= round_up p a.
Proof. intros Ha. unfold round_up. pose proof (Z.div_mod (p + a - 1) a). pose proof (Z.mod_pos_bound (p + a - 1) a). nia. Qed.

Lemma round_up_divide p a : (a | round_up p a).
Proof. apply Z.divide_factor_r. Qed.

(** ** Shapes *)

(** The shape of a type with natural alignment. *)
Definition shape_ok (s : shape) : Prop :=
  is_al (sh_align s) /\ 0 <= sh_size s /\
  if sh_field s then sh_size s <= sh_align s else (sh_align s | sh_size s).

Lemma start_le pos s : shape_ok s -> pos <= member_start pos s.
Proof.
  intros (Ha & _). assert (0 < sh_align s) by (unfold is_al in Ha; lia). unfold member_start.
  pose proof (round_up_le pos (sh_align s)). destruct (sh_field s); [case_match|]; lia.
Qed.

Lemma start_aligned pos s : shape_ok s -> sh_field s = false -> (sh_align s | member_start pos s).
Proof. intros _ Hf. unfold member_start. rewrite Hf. apply round_up_divide. Qed.

Lemma start_field pos s : shape_ok s -> sh_field s = true -> member_start pos s mod sh_align s + sh_size s <= sh_align s.
Proof.
  intros (Ha & Hs & Hb) Hf. unfold member_start. rewrite Hf in *. case_match; [boolify; lia|].
  rewrite (proj2 (Z.mod_divide (round_up pos (sh_align s)) (sh_align s) ltac:(unfold is_al in Ha; lia))); [lia|apply round_up_divide].
Qed.

Lemma next_le k pos s : shape_ok s -> pos <= next_pos k pos s.
Proof. intros Hs. pose proof (start_le pos s Hs). destruct Hs as (_ & ? & _). destruct k; simpl; lia. Qed.

(** ** Members of a structure *)
Definition shapes (ms : list (string * ctype)) : list (string * shape) := map (fun m => (fst m, measure (snd m))) ms.
Definition comp_end (k : comp_kind) (acc : Z * Z * Z) (ms : list (string * shape)) : Z * Z * Z := foldl (comp_add k) acc ms.

Lemma align_of_al x s : shape_ok s -> is_al (align_of x s).
Proof. intros (Ha & _). unfold align_of. case_match; [by left|done]. Qed.

Lemma comp_end_mono k ms pos len al : Forall (fun m => shape_ok (snd m)) ms -> is_al al ->
  let '(_, len', al') := comp_end k (pos, len, al) ms in len <= len' /\ al <= al' /\ is_al al'.
Proof.
  unfold comp_end. revert pos len al. induction ms as [|[x s] ms IH]; intros pos len al Hms Hal; simpl; [lia || done|].
  apply Forall_cons_1 in Hms as [Hs Hms]. specialize (IH (next_pos k pos s) (len `max` (member_start pos s + sh_size s)) (al `max` align_of x s) Hms).
  destruct (foldl _ _ ms) as [[? len'] al']. destruct IH as (H1 & H2 & H3); [by apply al_max, align_of_al|]. split_and!; [lia..|done].
Qed.

Lemma measure_field t : sh_field (measure t) = is_field t.
Proof. destruct t as [| | |k ms]; simpl; try done. by destruct (foldl _ _ _) as [[? ?] ?]. Qed.

Lemma measure_ok t : wf_ctype t = true -> shape_ok (measure t).
Proof.
  induction t as [n|n w|t n IH|k ms IH] using ctype_induction; simpl; intros Hwf.
  - pose proof (int_al n Hwf) as Ha. split_and!; simpl; [done|unfold is_al in Ha; lia|done].
  - boolify. split_and!; simpl; [by apply int_al|lia..].
  - apply andb_true_iff in Hwf as [Hwf Hn]. apply andb_true_iff in Hwf as [Hwf Hf]. boolify.
    destruct (IH Hwf) as (Ha & Hs & Hd). rewrite measure_field in Hd. destruct (is_field t); [done|].
    split_and!; simpl; [done|nia|]. by apply Z.divide_mul_r.
  - assert (Hall : Forall (fun m => shape_ok (snd m)) (shapes ms)).
    { apply Forall_map, Forall_forall. intros m Hm. rewrite Forall_forall in IH. apply IH; [done|].
      rewrite forallb_forall in Hwf. by apply Hwf. }
    pose proof (comp_end_mono k (shapes ms) 0 0 8 Hall (or_introl eq_refl)) as Hend. unfold comp_end, shapes in Hend.
    destruct (foldl _ _ _) as [[pos len] al]. destruct Hend as (Hl & _ & Hal). split_and!; simpl; [done| |apply round_up_divide].
    pose proof (round_up_le len al). unfold is_al in Hal. lia.
Qed.

Lemma shapes_ok ms : Forall (fun m => wf_ctype (snd m) = true) ms -> Forall (fun m => shape_ok (snd m)) (shapes ms).
Proof. intros Hms. apply Forall_map. eapply Forall_impl; [|exact Hms]. intros m. apply measure_ok. Qed.

(** ** Located members *)

(** [u] lies at [o] inside [t], naturally aligned. *)
Definition fits (t u : ctype) (o : Z) : Prop :=
  let s := measure u in
  wf_ctype u = true /\ 0 <= o /\ o + sh_size s <= sh_size (measure t) /\ sh_align s <= sh_align (measure t) /\
  if is_field u then o mod sh_align s + sh_size s <= sh_align s else (sh_align s | o).

Lemma fits_self t : wf_ctype t = true -> fits t t 0.
Proof.
  intros Hwf. pose proof (measure_ok t Hwf) as (Ha & Hs & Hd). rewrite measure_field in Hd. unfold fits. split_and!; [done|lia..|].
  destruct (is_field t); [|apply Z.divide_0_r]. rewrite Z.mod_0_l by (unfold is_al in Ha; lia). lia.
Qed.

(** A part of a part, the part starting at [s0] of the whole. *)
Lemma fits_trans t t' u s0 o : wf_ctype t' = true -> is_field t' = false -> fits t' u o ->
  0 <= s0 -> s0 + sh_size (measure t') <= sh_size (measure t) -> sh_align (measure t') <= sh_align (measure t) ->
  (sh_align (measure t') | s0) -> fits t u (s0 + o).
Proof.
  intros Hwf Hf (Hu & Ho & Hs & Ha & Hd) H0 Hsz Hal Hdiv. unfold fits. split_and!; [done|lia..|].
  assert (Hdu : (sh_align (measure u) | s0)).
  { eapply Z.divide_trans; [|exact Hdiv]. by apply al_divide; [apply measure_ok..|]. }
  destruct (is_field u); [|by apply Z.divide_add_r]. destruct Hdu as [q ->].
  rewrite (Z.add_comm (q * _) o), Z.mod_add; [done|]. destruct (measure_ok u Hu) as (Hau & _). unfold is_al in Hau. lia.
Qed.

Lemma locate_field n w p o u : locate (CBits n w) p = Some (o, u) -> p = [] /\ o = 0 /\ u = CBits n w.
Proof. destruct p as [|[]]; simpl; intros; simplify_eq; done. Qed.

(** What [find_member] finds is a part of some member. *)
Lemma find_member_inv k x p' ms pos len al o u : Forall (fun m => wf_ctype (snd m) = true) ms -> 0 <= pos -> is_al al ->
  find_member locate k x p' pos ms = Some (o, u) ->
  exists t' q s0 o', let '(_, len', al') := comp_end k (pos, len, al) (shapes ms) in
    locate t' q = Some (o', u) /\ o = s0 + o' /\ pos <= s0 /\ s0 + sh_size (measure t') <= len' /\
    sh_align (measure t') <= al' /\ wf_ctype t' = true /\ Exists (fun m => snd m = t') ms /\
    if is_field t' then s0 mod sh_align (measure t') + sh_size (measure t') <= sh_align (measure t') else (sh_align (measure t') | s0).
Proof.
  revert pos len al. induction ms as [|[y t'] ms IH]; intros pos len al Hms Hpos Hal Hfind; simpl in *; [done|].
  apply Forall_cons_1 in Hms as [Hwf Hms]. pose proof (measure_ok t' Hwf) as Hok. pose proof (start_le pos _ Hok).
  destruct (if is_anonymous y then _ else _) as [[o' u']|] eqn:E.
  - injection Hfind as <- <-.
    assert (Hq : exists q, locate t' q = Some (o', u') /\ align_of y (measure t') = sh_align (measure t')).
    { unfold align_of. destruct (is_anonymous y); [|destruct (String.eqb y x); [|done]].
      - eexists. split; [exact E|]. rewrite measure_field. by destruct t'.
      - eexists. split; [exact E|]. by rewrite andb_false_r. }
    destruct Hq as (q & Hq & Hal'). exists t', q, (member_start pos (measure t')), o'.
    pose proof (comp_end_mono k (shapes ms) (next_pos k pos (measure t')) (len `max` (member_start pos (measure t') + sh_size (measure t')))
      (al `max` align_of y (measure t'))) as Hm. unfold comp_end, shapes in *. simpl. destruct (foldl _ _ _) as [[? len'] al'].
    rewrite Hal' in *. destruct Hm as (H1 & H2 & H3).
    + by apply shapes_ok.
    + apply al_max; [done|]. by destruct Hok.
    + split_and!; [done|done|lia|lia|lia|done|by left|]. destruct (is_field t') eqn:Ef; rewrite <- measure_field in Ef;
        [by apply start_field|by apply start_aligned].
  - pose proof (next_le k pos _ Hok).
    destruct (IH (next_pos k pos (measure t')) (len `max` (member_start pos (measure t') + sh_size (measure t')))
      (al `max` align_of y (measure t')) Hms ltac:(lia) ltac:(by apply al_max, align_of_al) Hfind) as (t2 & q & s0 & o' & H').
    exists t2, q, s0, o'. unfold comp_end, shapes in *. simpl. destruct (foldl _ _ _) as [[? len'] al'].
    destruct H' as (? & ? & ? & ? & ? & ? & ? & ?). split_and!; [done|done|lia|done..|by right|done].
Qed.

(** Every member that a path names lies inside and is naturally aligned. *)
Lemma locate_fits t p o u : wf_ctype t = true -> locate t p = Some (o, u) -> fits t u o.
Proof.
  revert p o u. induction t as [n|n w|t n IH|k ms IH] using ctype_induction; intros p o u Hwf Hloc;
    (destruct p as [|st p]; [injection Hloc as <- <-; by apply fits_self|]); [by destruct st..| |].
  - destruct st as [|i]; [done|]. simpl in Hloc, Hwf. apply andb_true_iff in Hwf as [Hwf Hn].
    apply andb_true_iff in Hwf as [Hwf Hf]. case_match eqn:Ei; [|done]. destruct (locate t p) as [[o' u']|] eqn:E; [|done].
    injection Hloc as <- <-. boolify. pose proof (measure_ok t Hwf) as (Ha & Hs & Hd). rewrite measure_field in Hd.
    assert (Hft : is_field t = false) by (by destruct (is_field t)). rewrite Hft in Hd.
    apply (fits_trans _ t); [done|done|by apply (IH p)|nia|simpl; nia|by simpl|by apply Z.divide_mul_r].
  - destruct st as [x|]; [|done]. simpl in Hloc, Hwf.
    assert (Hms : Forall (fun m => wf_ctype (snd m) = true) ms) by (apply Forall_forall; by apply forallb_forall).
    destruct (find_member_inv k x p ms 0 0 8 o u Hms ltac:(lia) (or_introl eq_refl) Hloc) as (t' & q & s0 & o' & Hinv).
    pose proof (comp_end_mono k (shapes ms) 0 0 8 (shapes_ok ms Hms) (or_introl eq_refl)) as Hmono.
    unfold comp_end, shapes in *. simpl. pose proof (measure_ok (CComp k ms) Hwf) as Hok. simpl in Hok.
    assert (Hmeas : measure (CComp k ms) = let '(_, len, al) := foldl (comp_add k) (0, 0, 8) (map (fun m => (fst m, measure (snd m))) ms) in
      mk_shape (round_up len al) al false) by done.
    destruct (foldl _ _ _) as [[? len'] al']. destruct Hinv as (Hl & -> & H0 & Hs & Ha & Hwf' & Hin & Hal).
    destruct Hmono as (_ & _ & Hal8). pose proof (round_up_le len' al' ltac:(unfold is_al in Hal8; lia)).
    destruct (is_field t') eqn:Ef.
    + destruct t' as [|n w| |]; try done. apply locate_field in Hl as (-> & -> & ->). rewrite Z.add_0_r.
      unfold fits. rewrite Hmeas. split_and!; simpl in *; [done|lia..].
    + apply Exists_exists in Hin as (m & Hin & <-). rewrite Forall_forall in IH.
      apply (fits_trans _ (snd m)); rewrite ?Hmeas; simpl; [done|done|by apply (IH m Hin q)|lia..|done].
Qed.

(** ** Bits of memory *)
Definition mbit (m : mem) (n : Z) : bool := Z.testbit (m (n / 8)) (n mod 8).

Lemma bit_split n : n = 8 * (n / 8) + n mod 8 /\ 0 <= n mod 8 < 8.
Proof. pose proof (Z.div_mod n 8). pose proof (Z.mod_pos_bound n 8). lia. Qed.

Lemma mbit_get m a n k : is_bytes m -> 0 <= k < 8 * n -> Z.testbit (get_le m a n) k = mbit m (8 * a + k).
Proof.
  intros Hm Hk. destruct (bit_split k) as [Ek Hr]. rewrite Ek at 1. rewrite get_le_bit by (done || lia). unfold mbit.
  replace ((8 * a + k) / 8) with (a + k / 8) by (rewrite (Z.mul_comm 8 a), Z.div_add_l by lia; done).
  by replace ((8 * a + k) mod 8) with (k mod 8) by (rewrite Z.add_comm, (Z.mul_comm 8 a), Z.mod_add by lia; done).
Qed.

Lemma mbit_put m a n off w v N : 0 <= n -> 0 <= off -> 0 <= w -> off + w <= 8 * n -> is_bytes m ->
  mbit (put_bits m a n off w v) N =
    if (8 * a + off <=? N) && (N <? 8 * a + off + w) then Z.testbit v (N - (8 * a + off)) else mbit m N.
Proof.
  intros Hn Ho Hw Hs Hm. unfold mbit. destruct (bit_split N) as [EN Hr]. rewrite write_status by (done || lia).
  replace (8 * (N / 8 - a) + N mod 8) with (N - 8 * a) by lia.
  replace (N - 8 * a - off) with (N - (8 * a + off)) by lia.
  match goal with |- (if ?x then _ else _) = (if ?y then _ else _) => replace x with y; [done|] end.
  apply eq_true_iff_eq. rewrite !andb_true_iff, !Z.leb_le, !Z.ltb_lt. lia.
Qed.

Lemma mbit_put_le m a n v N : 0 <= n -> is_bytes m ->
  mbit (put_le m a n v) N = if (8 * a <=? N) && (N <? 8 * a + 8 * n) then Z.testbit v (N - 8 * a) else mbit m N.
Proof.
  intros Hn Hm. unfold mbit. destruct (bit_split N) as [EN Hr]. destruct (decide (a <= N / 8 < a + n)) as [Hin|Hout].
  - rewrite put_byte by done. rewrite getf_bit by lia. rewrite (proj2 (Z.leb_le _ _)), (proj2 (Z.ltb_lt _ _)) by lia. simpl. f_equal. lia.
  - rewrite put_other by done. case_match eqn:E; [|done]. boolify. lia.
Qed.

Lemma bits_range v n : 0 <= n -> 0 <= v -> (forall k, n <= k -> Z.testbit v k = false) -> v < 2 ^ n.
Proof.
  intros Hn Hv Hb. replace v with (v mod 2 ^ n); [apply Z.mod_pos_bound; lia|]. apply Z.bits_inj'. intros k Hk.
  destruct (decide (k < n)); [by rewrite Z.mod_pow2_bits_low by lia|]. rewrite Z.mod_pow2_bits_high by lia. by rewrite Hb by lia.
Qed.

(** ** Members in memory *)
Definition size_of (u : ctype) : Z := sh_size (measure u).

Lemma field_unit n o : 0 < n -> 0 <= o -> 8 * (n * (o / (8 * n))) + o mod (8 * n) = o.
Proof. intros Hn Ho. pose proof (Z.div_mod o (8 * n)). lia. Qed.

(** A member that was read consists of its bits. *)
Lemma get_at_bits m a t p v : is_bytes m -> wf_ctype t = true -> get_at m a t p = Some v ->
  exists o u, locate t p = Some (o, u) /\ 0 <= v < 2 ^ size_of u /\
    forall k, 0 <= k < size_of u -> Z.testbit v k = mbit m (8 * a + o + k).
Proof.
  intros Hm Hwf Hget. unfold get_at in Hget. destruct (locate t p) as [[o u]|] eqn:E; [|done].
  destruct (locate_fits t p o u Hwf E) as (Hu & Ho & _ & _ & Hal). exists o, u. unfold size_of. split; [done|].
  destruct u as [n|n w| |]; simpl in *; [| |done..].
  - injection Hget as <-. pose proof (int_al n Hu) as Ha. unfold is_al in Ha. split; [apply get_le_range; [done|lia]|].
    intros k Hk. rewrite mbit_get by done. f_equal. destruct Hal as [q ->].
    replace (q * (8 * n) / 8) with (q * n); [lia|]. rewrite <- (Z.div_mul (q * n) 8) by lia. f_equal. lia.
  - injection Hget as <-. boolify. pose proof (int_al n ltac:(unfold int_size in *; boolify; lia)) as Ha. unfold is_al in Ha.
    pose proof (Z.mod_pos_bound o (8 * n) ltac:(lia)). split; [by apply getf_range; lia|].
    intros k Hk. rewrite getf_bit, mbit_get by (done || lia). f_equal. pose proof (field_unit n o). lia.
Qed.

(** An assignment changes the bits of the member. *)
Lemma put_at_bits m a t p v m' : is_bytes m -> wf_ctype t = true -> put_at m a t p v = Some m' ->
  is_bytes m' /\ exists o u, locate t p = Some (o, u) /\ forall N, mbit m' N =
    if (8 * a + o <=? N) && (N <? 8 * a + o + size_of u) then Z.testbit v (N - (8 * a + o)) else mbit m N.
Proof.
  intros Hm Hwf Hput. unfold put_at in Hput. destruct (locate t p) as [[o u]|] eqn:E; [|done].
  destruct (locate_fits t p o u Hwf E) as (Hu & Ho & _ & _ & Hal). unfold size_of.
  destruct u as [n|n w| |]; simpl in *; [| |done..].
  - injection Hput as <-. pose proof (int_al n Hu) as Ha. unfold is_al in Ha. split; [apply put_is_bytes; [lia|done]|].
    exists o, (CInt n). split; [done|]. intros N. rewrite mbit_put_le by (done || lia). destruct Hal as [q ->]. simpl.
    replace (8 * (a + q * (8 * n) / 8)) with (8 * a + q * (8 * n)); [done|].
    replace (q * (8 * n) / 8) with (q * n); [lia|]. rewrite <- (Z.div_mul (q * n) 8) by lia. f_equal. lia.
  - injection Hput as <-. boolify. pose proof (int_al n ltac:(unfold int_size in *; boolify; lia)) as Ha. unfold is_al in Ha.
    pose proof (Z.mod_pos_bound o (8 * n) ltac:(lia)). split; [apply put_bits_bytes; [lia|done]|].
    exists o, (CBits n w). split; [done|]. intros N. rewrite mbit_put by (done || lia). pose proof (field_unit n o). simpl.
    by replace (8 * (a + n * (o / (8 * n))) + o mod (8 * n)) with (8 * a + o) by lia.
Qed.

Lemma get_at_locate m m' a t p v : get_at m a t p = Some v -> exists v', get_at m' a t p = Some v'.
Proof. unfold get_at. destruct (locate t p) as [[o []]|]; naive_solver. Qed.

Lemma put_at_get m a t p v m' : put_at m a t p v = Some m' -> exists v', get_at m' a t p = Some v'.
Proof. unfold put_at, get_at. destruct (locate t p) as [[o []]|]; naive_solver. Qed.

(** Reading what was assigned. *)
Lemma get_put_at m a t p v m' : is_bytes m -> wf_ctype t = true -> put_at m a t p v = Some m' ->
  exists o u, locate t p = Some (o, u) /\ get_at m' a t p = Some (v mod 2 ^ size_of u).
Proof.
  intros Hm Hwf Hput. destruct (put_at_bits m a t p v m' Hm Hwf Hput) as (Hm' & o & u & Hl & Hb).
  destruct (put_at_get _ _ _ _ _ _ Hput) as [v' Hv']. destruct (get_at_bits m' a t p v' Hm' Hwf Hv') as (o2 & u2 & Hl2 & Hr & Hb').
  rewrite Hl in Hl2. injection Hl2 as <- <-. exists o, u. split; [done|]. rewrite Hv'. f_equal.
  assert (0 <= size_of u) by (destruct (locate_fits t p o u Hwf Hl) as (Hu & _); by destruct (measure_ok u Hu) as (_ & ? & _)).
  apply Z.bits_inj'. intros k Hk. destruct (decide (k < size_of u)).
  - rewrite Hb', Hb, Z.mod_pow2_bits_low by lia. rewrite (proj2 (Z.leb_le _ _)), (proj2 (Z.ltb_lt _ _)) by lia. simpl. f_equal. lia.
  - rewrite Z.mod_pow2_bits_high by lia. rewrite <- (Z.mod_small v' (2 ^ size_of u)) by done. apply Z.mod_pow2_bits_high. lia.
Qed.

(** Reading another member. *)
Lemma get_put_at_other m a t p v m' t2 q a2 w o u o2 u2 : is_bytes m -> wf_ctype t = true -> wf_ctype t2 = true ->
  put_at m a t p v = Some m' -> locate t p = Some (o, u) -> locate t2 q = Some (o2, u2) ->
  8 * a + o + size_of u <= 8 * a2 + o2 \/ 8 * a2 + o2 + size_of u2 <= 8 * a + o ->
  get_at m a2 t2 q = Some w -> get_at m' a2 t2 q = Some w.
Proof.
  intros Hm Hwf Hwf2 Hput Hl Hl2 Hd Hget. destruct (put_at_bits m a t p v m' Hm Hwf Hput) as (Hm' & o' & u' & Hl' & Hb).
  rewrite Hl in Hl'. injection Hl' as <- <-. destruct (get_at_locate _ m' _ _ _ _ Hget) as [w' Hw'].
  destruct (get_at_bits m a2 t2 q w Hm Hwf2 Hget) as (? & ? & E1 & Hr & B1). rewrite Hl2 in E1. injection E1 as <- <-.
  destruct (get_at_bits m' a2 t2 q w' Hm' Hwf2 Hw') as (? & ? & E1 & Hr' & B2). rewrite Hl2 in E1. injection E1 as <- <-.
  rewrite Hw'. f_equal. rewrite <- (Z.mod_small w (2 ^ size_of u2)), <- (Z.mod_small w' (2 ^ size_of u2)) by done.
  assert (0 <= size_of u2) by (destruct (locate_fits t2 q o2 u2 Hwf2 Hl2) as (Hu & _); by destruct (measure_ok u2 Hu) as (_ & ? & _)).
  apply Z.bits_inj'. intros k Hk. destruct (decide (k < size_of u2)); [|by rewrite !Z.mod_pow2_bits_high by lia].
  rewrite !Z.mod_pow2_bits_low by lia. rewrite B1, B2, Hb by lia. case_match eqn:E; [|done]. boolify. lia.
Qed.

(** ** Members that do not share memory *)

(** Two paths that part somewhere. *)
Fixpoint diverge (p q : list pstep) : bool :=
  match p, q with
  | Fld x :: p', Fld y :: q' => if String.eqb x y then diverge p' q' else true
  | Idx i :: p', Idx j :: q' => if i =? j then diverge p' q' else true
  | _, _ => false
  end.

Definition disjoint_at (t : ctype) (p q : list pstep) : Prop := forall o1 u1 o2 u2,
  locate t p = Some (o1, u1) -> locate t q = Some (o2, u2) -> o1 + size_of u1 <= o2 \/ o2 + size_of u2 <= o1.

Lemma locate_inside t p o u : wf_ctype t = true -> locate t p = Some (o, u) -> 0 <= o /\ o + size_of u <= size_of t.
Proof. intros Hwf Hl. by destruct (locate_fits t p o u Hwf Hl) as (_ & ? & ? & _). Qed.

Lemma find_member_above x p' ms pos o u : Forall (fun m => wf_ctype (snd m) = true) ms -> 0 <= pos ->
  find_member locate Struct x p' pos ms = Some (o, u) -> pos <= o.
Proof.
  intros Hms Hpos Hf. destruct (find_member_inv Struct x p' ms pos 0 8 o u Hms Hpos (or_introl eq_refl) Hf) as (t' & q & s0 & o' & H).
  destruct (comp_end _ _ _) as [[? ?] ?]. destruct H as (Hl & -> & ? & _ & _ & Hwf & _). pose proof (locate_inside _ _ _ _ Hwf Hl). lia.
Qed.

(** The part of [t'] that a step of [find_member] looks for. *)
Lemma find_member_disjoint ms x y p' q' pos : Forall (fun m => wf_ctype (snd m) = true) ms ->
  Forall (fun m => forall p q, diverge p q = true -> disjoint_at (snd m) p q) ms -> 0 <= pos ->
  diverge (Fld x :: p') (Fld y :: q') = true -> forall o1 u1 o2 u2,
  find_member locate Struct x p' pos ms = Some (o1, u1) -> find_member locate Struct y q' pos ms = Some (o2, u2) ->
  o1 + size_of u1 <= o2 \/ o2 + size_of u2 <= o1.
Proof.
  intros Hms Hdis Hpos Hdiv o1 u1 o2 u2. revert pos Hpos. induction ms as [|[z t'] ms IH]; intros pos Hpos H1 H2; simpl in H1, H2; [done|].
  apply Forall_cons_1 in Hms as [Hwf Hms]. apply Forall_cons_1 in Hdis as [Hd Hdis]. simpl in Hwf, Hd.
  assert (Hin : forall (w : string) r o u, (if is_anonymous z then locate t' (Fld w :: r) else if String.eqb z w then locate t' r else None) = Some (o, u) ->
    0 <= o /\ o + size_of u <= size_of t').
  { intros w r o u E. destruct (is_anonymous z); [by eapply locate_inside|]. destruct (String.eqb z w); [by eapply locate_inside|done]. }
  pose proof (start_le pos _ (measure_ok t' Hwf)). destruct (measure_ok t' Hwf) as (_ & ? & _). unfold size_of in *.
  destruct (if is_anonymous z then locate t' (Fld x :: p') else _) as [[i1 w1]|] eqn:E1;
    destruct (if is_anonymous z then locate t' (Fld y :: q') else _) as [[i2 w2]|] eqn:E2.
  - injection H1 as <- <-. injection H2 as <- <-.
    assert (i1 + size_of w1 <= i2 \/ i2 + size_of w2 <= i1); [|unfold size_of in *; lia].
    destruct (is_anonymous z); [by eapply Hd|]. destruct (String.eqb_spec z x) as [->|]; [|done].
    destruct (String.eqb_spec x y) as [->|]; [|done]. simpl in Hdiv. rewrite String.eqb_refl in Hdiv. by eapply Hd.
  - injection H1 as <- <-. apply Hin in E1. apply find_member_above in H2; [|done|lia]. lia.
  - injection H2 as <- <-. apply Hin in E2. apply find_member_above in H1; [|done|lia]. lia.
  - eapply (IH Hms Hdis); [|done..]. lia.
Qed.

(** Members at paths that part, in a type without unions, have no bit in common. *)
Lemma members_disjoint t p q : wf_ctype t = true -> unionless t = true -> diverge p q = true -> disjoint_at t p q.
Proof.
  revert p q. induction t as [n|n w|t n IH|k ms IH] using ctype_induction; intros p q Hwf Hu Hdiv o1 u1 o2 u2 H1 H2.
  1-2: by destruct p as [|[]], q as [|[]].
  - simpl in Hwf, Hu. apply andb_true_iff in Hwf as [Hwf _]. apply andb_true_iff in Hwf as [Hwf _].
    destruct p as [|[|i] p]; [done..|]. destruct q as [|[|j] q]; [done..|]. simpl in *.
    destruct ((0 <=? i) && (i <? n)) eqn:Ei; [|done]. destruct ((0 <=? j) && (j <? n)) eqn:Ej; [|done]. boolify.
    destruct (locate t p) as [[i1 w1]|] eqn:E1; [|done]. destruct (locate t q) as [[i2 w2]|] eqn:E2; [|done].
    injection H1 as <- <-. injection H2 as <- <-.
    pose proof (locate_inside _ _ _ _ Hwf E1). pose proof (locate_inside _ _ _ _ Hwf E2).
    change (sh_size (measure t)) with (size_of t). destruct (Z.eqb_spec i j) as [->|Hne]; [|nia].
    specialize (IH p q Hwf Hu Hdiv _ _ _ _ E1 E2). lia.
  - destruct k; [|done]. simpl in Hwf, Hu. destruct p as [|[x|] p]; [done| |done]. destruct q as [|[y|] q]; [done| |done].
    rewrite forallb_forall in Hwf, Hu. refine (find_member_disjoint ms x y p q 0 _ _ _ Hdiv o1 u1 o2 u2 H1 H2); [by apply Forall_forall| |lia].
    apply Forall_forall. intros m Hm p2 q2 Hdiv2. rewrite Forall_forall in IH. apply IH; auto.
Qed.

(** ** Assignments in a row *)
Definition width_at (t : ctype) (p : list pstep) : Z := match locate t p with Some (_, u) => size_of u | None => 0 end.

Fixpoint all_diverge (l : list (list pstep)) : bool :=
  match l with
  | [] => true
  | p :: l => forallb (diverge p) l && all_diverge l
  end.

Lemma diverge_sym p q : diverge p q = diverge q p.
Proof.
  revert q. induction p as [|[x|i] p IH]; intros [|[y|j] q]; simpl; try done; [rewrite String.eqb_sym|rewrite Z.eqb_sym]; by rewrite IH.
Qed.

Lemma put_at_other m a t p v m' q w : is_bytes m -> wf_ctype t = true -> unionless t = true -> diverge p q = true ->
  put_at m a t p v = Some m' -> get_at m a t q = Some w -> get_at m' a t q = Some w.
Proof.
  intros Hm Hwf Hu Hd Hput Hget. destruct (put_at_bits m a t p v m' Hm Hwf Hput) as (_ & o & u & Hl & _).
  destruct (get_at_bits m a t q w Hm Hwf Hget) as (o2 & u2 & Hl2 & _).
  eapply get_put_at_other; [exact Hm|exact Hwf|exact Hwf|exact Hput|exact Hl|exact Hl2| |exact Hget].
  pose proof (members_disjoint t p q Hwf Hu Hd o u o2 u2 Hl Hl2). lia.
Qed.

Lemma mbit_byte m x k : 0 <= k < 8 -> mbit m (8 * x + k) = Z.testbit (m x) k.
Proof.
  intros Hk. unfold mbit. rewrite (Z.add_comm (8 * x)), (Z.mul_comm 8 x), Z.div_add, Z.mod_add by lia.
  by rewrite Z.div_small, Z.mod_small by lia.
Qed.

Lemma byte_same (m m' : mem) x : is_bytes m -> is_bytes m' -> (forall k, 0 <= k < 8 -> mbit m' (8 * x + k) = mbit m (8 * x + k)) ->
  m' x = m x.
Proof.
  intros Hm Hm' Hb. apply Z.bits_inj'. intros k Hk. destruct (decide (k < 8)).
  - rewrite <- !mbit_byte by lia. by apply Hb.
  - rewrite <- (Z.mod_small (m x) (2 ^ 8)), <- (Z.mod_small (m' x) (2 ^ 8)) by (apply Hm || apply Hm').
    by rewrite !Z.mod_pow2_bits_high by lia.
Qed.

Lemma put_at_outside m a t p v m' x : is_bytes m -> wf_ctype t = true -> put_at m a t p v = Some m' ->
  x < a \/ 8 * a + size_of t <= 8 * x -> m' x = m x.
Proof.
  intros Hm Hwf Hput Hx. destruct (put_at_bits m a t p v m' Hm Hwf Hput) as (Hm' & o & u & Hl & Hb).
  pose proof (locate_inside t p o u Hwf Hl). apply byte_same; [done..|]. intros k Hk. rewrite Hb. case_match eqn:E; [|done]. boolify. lia.
Qed.

(** Assignments to members that lie apart: each keeps its value, a member that
    lies apart from all of them is as before, and so is the memory around. *)
Lemma assign_members t a l m m' : is_bytes m -> wf_ctype t = true -> unionless t = true -> all_diverge (map fst l) = true ->
  assign m a t l = Some m' ->
  is_bytes m' /\
  (forall p v, In (p, v) l -> get_at m' a t p = Some (v mod 2 ^ width_at t p)) /\
  (forall q w, forallb (fun p => diverge p q) (map fst l) = true -> get_at m a t q = Some w -> get_at m' a t q = Some w) /\
  (forall x, x < a \/ 8 * a + size_of t <= 8 * x -> m' x = m x).
Proof.
  intros Hm Hwf Hu. revert m Hm. induction l as [|[p v] l IH]; intros m Hm Hd Has; simpl in *.
  - injection Has as <-. split_and!; [done|by intros|done|done].
  - apply andb_true_iff in Hd as [Hp Hd]. destruct (put_at m a t p v) as [m1|] eqn:E; [|done].
    destruct (put_at_bits _ _ _ _ _ _ Hm Hwf E) as (Hm1 & _). destruct (IH m1 Hm1 Hd Has) as (Hm' & H1 & H2 & H3). split_and!; [done|..].
    + intros p' v' [[= -> ->]|Hin]; [|by apply H1]. destruct (get_put_at _ _ _ _ _ _ Hm Hwf E) as (o & u & Hl & Hg).
      unfold width_at. rewrite Hl. apply H2; [|done]. rewrite forallb_forall in Hp |- *. intros q Hq. by rewrite diverge_sym, Hp.
    + intros q w Hq Hg. apply andb_true_iff in Hq as [Hpq Hq]. apply H2; [done|]. by apply (put_at_other m a t p v m1 q w).
    + intros x Hx. rewrite H3 by done. by apply (put_at_outside m a t p v).
Qed.

(** ** Members as views of words *)
Lemma bits_eq a b n : 0 <= a < 2 ^ n -> 0 <= b < 2 ^ n -> 0 <= n -> (forall k, 0 <= k < n -> Z.testbit a k = Z.testbit b k) -> a = b.
Proof.
  intros Ha Hb Hn Hk. rewrite <- (Z.mod_small a (2 ^ n)), <- (Z.mod_small b (2 ^ n)) by done. apply Z.bits_inj'. intros k H0.
  destruct (decide (k < n)); [rewrite !Z.mod_pow2_bits_low by lia; by apply Hk|by rewrite !Z.mod_pow2_bits_high by lia].
Qed.

(** Where the member lies, when it can be read. *)
Definition leaf_at (t : ctype) (p : list pstep) : option (Z * Z) :=
  match locate t p with
  | Some (o, CInt n) => Some (o, 8 * n)
  | Some (o, CBits n w) => Some (o, w)
  | _ => None
  end.

Lemma get_at_leaf m a t p o w : is_bytes m -> wf_ctype t = true -> leaf_at t p = Some (o, w) ->
  0 <= w /\ exists v, get_at m a t p = Some v /\ 0 <= v < 2 ^ w /\ forall k, 0 <= k < w -> Z.testbit v k = mbit m (8 * a + o + k).
Proof.
  intros Hm Hwf Hl. unfold leaf_at in Hl. destruct (locate t p) as [[o' u]|] eqn:E; [|done].
  assert (Hg : exists v, get_at m a t p = Some v) by (unfold get_at; rewrite E; destruct u; eauto; done).
  destruct Hg as [v Hg]. destruct (get_at_bits m a t p v Hm Hwf Hg) as (? & ? & E2 & Hr & Hb). rewrite E in E2. injection E2 as <- <-.
  destruct (locate_fits t p o' u Hwf E) as (Hu & _). destruct (measure_ok u Hu) as (_ & Hs & _).
  destruct u; simplify_eq; (split; [exact Hs|by exists v]).
Qed.

(** A member inside the word of [n] bytes at [d]. *)
Lemma get_at_getf m a t p o w d n : is_bytes m -> wf_ctype t = true -> leaf_at t p = Some (o, w) ->
  8 * d <= o -> o + w <= 8 * d + 8 * n -> 0 <= n ->
  get_at m a t p = Some (getf (get_le m (a + d) n) (o - 8 * d) w).
Proof.
  intros Hm Hwf Hl Hd Hn H0. destruct (get_at_leaf m a t p o w Hm Hwf Hl) as (Hw & v & Hg & Hr & Hb). rewrite Hg. f_equal.
  apply (bits_eq _ _ w); [done|by apply getf_range|done|]. intros k Hk. rewrite Hb, getf_bit, mbit_get by (done || lia). f_equal. lia.
Qed.

(** Memory that agrees on the structure. *)
Lemma get_at_same m m' a t p o w : is_bytes m -> is_bytes m' -> wf_ctype t = true -> leaf_at t p = Some (o, w) ->
  (forall x, a <= x -> 8 * x < 8 * a + size_of t -> m' x = m x) -> get_at m' a t p = get_at m a t p.
Proof.
  intros Hm Hm' Hwf Hl Hsame. assert (Hin : 0 <= o /\ o + w <= size_of t).
  { unfold leaf_at in Hl. destruct (locate t p) as [[o' u]|] eqn:E; [|done]. pose proof (locate_inside t p o' u Hwf E).
    unfold size_of in *. by destruct u; simplify_eq. }
  destruct (get_at_leaf m a t p o w Hm Hwf Hl) as (Hw & v & -> & Hr & Hb).
  destruct (get_at_leaf m' a t p o w Hm' Hwf Hl) as (_ & v' & -> & Hr' & Hb'). f_equal.
  apply (bits_eq _ _ w); [done..|]. intros k Hk. rewrite Hb, Hb' by done. unfold mbit.
  pose proof (bit_split (8 * a + o + k)). by rewrite Hsame by lia.
Qed.

(** ** Structures at several places *)
Fixpoint assign_all (m : mem) (l : list (Z * ctype * list (list pstep * Z))) : option mem :=
  match l with
  | [] => Some m
  | (a, t, ps) :: l => match assign m a t ps with Some m => assign_all m l | None => None end
  end.

Definition struct_ok (s : Z * ctype * list (list pstep * Z)) : bool :=
  let '(a, t, ps) := s in
  wf_ctype t && unionless t && all_diverge (map fst ps) &&
  forallb (fun p => match leaf_at t p with Some _ => true | None => false end) (map fst ps).

Definition structs_apart (s s' : Z * ctype * list (list pstep * Z)) : bool :=
  let '(a, t, _) := s in let '(a', t', _) := s' in
  (8 * a + size_of t <=? 8 * a') || (8 * a' + size_of t' <=? 8 * a).

Fixpoint structs_ok (l : list (Z * ctype * list (list pstep * Z))) : bool :=
  match l with
  | [] => true
  | s :: l => struct_ok s && forallb (structs_apart s) l && structs_ok l
  end.

(** The value of every member that was assigned. *)
Definition members_set (m : mem) (s : Z * ctype * list (list pstep * Z)) : Prop :=
  let '(a, t, ps) := s in Forall (fun '(p, v) => get_at m a t p = Some (v mod 2 ^ width_at t p)) ps.

Lemma assign_all_outside l m m' x : is_bytes m -> structs_ok l = true -> assign_all m l = Some m' ->
  Forall (fun '(a, t, _) => x < a \/ 8 * a + size_of t <= 8 * x) l -> is_bytes m' /\ m' x = m x.
Proof.
  revert m. induction l as [|[[a t] ps] l IH]; intros m Hm Hok Has Hx; simpl in *; [by simplify_eq|].
  destruct (assign m a t ps) as [m1|] eqn:E; [|done]. apply Forall_cons_1 in Hx as [Hx Hxl]. boolify.
  destruct (assign_members t a ps m m1) as (Hm1 & _ & _ & Ho); [done..|].
  destruct (IH m1) as [Hm' E']; [done..|]. split; [done|]. rewrite E'. by apply Ho.
Qed.

Lemma assign_all_bytes l m m' : is_bytes m -> structs_ok l = true -> assign_all m l = Some m' -> is_bytes m'.
Proof.
  revert m. induction l as [|[[a t] ps] l IH]; intros m Hm Hok Has; simpl in *; [by simplify_eq|].
  destruct (assign m a t ps) as [m1|] eqn:E; [|done]. boolify. by destruct (assign_members t a ps m m1) as (Hm1 & _); [..|apply (IH m1)].
Qed.

Lemma assign_all_members l m m' : is_bytes m -> structs_ok l = true -> assign_all m l = Some m' -> Forall (members_set m') l.
Proof.
  revert m. induction l as [|[[a t] ps] l IH]; intros m Hm Hok Has; simpl in *; [constructor|].
  destruct (assign m a t ps) as [m1|] eqn:E; [|done]. boolify.
  destruct (assign_members t a ps m m1) as (Hm1 & Hset & _ & _); [done..|]. constructor; [|by apply (IH m1)].
  assert (Hm' : is_bytes m') by (by eapply (assign_all_bytes l m1)). apply Forall_forall. intros [p v] Hin.
  assert (Hp : In p (map fst ps)) by (by apply (in_map fst) in Hin).
  match goal with H : forallb _ (map fst ps) = true |- _ => rewrite forallb_forall in H; specialize (H p Hp) end.
  destruct (leaf_at t p) as [[o w]|] eqn:El; [|done].
  rewrite (get_at_same m1 m' a t p o w); [by apply Hset|done..|]. intros x Hx Hx2.
  eapply (assign_all_outside l); [done..|]. apply Forall_forall. intros [[a' t'] ps'] Hin'.
  match goal with H : forallb _ l = true |- _ => rewrite forallb_forall in H; specialize (H _ Hin'); unfold structs_apart in H; apply orb_true_iff in H as [H|H] end;
    boolify; lia.
Qed.
