(* ===== verification/NvmeStructs.v ===== *)
(** * NvmeStructs: commands, completions and pages of the host interface

    (src/nvme.h, src/nvme_zns.h, src/nvme_kv.h) *)
From stdpp Require Import base list numbers.
From Stdlib Require Import ZArith Strings.String.
From S2P Require Import Prelude Layout.

Open Scope Z_scope.
Open Scope string_scope.

(** ** Registers *)
Definition struct_nvme_bar : ctype := CStruct
  [("cap", U64); ("vs", U32); ("intms", U32); ("intmc", U32); ("cc", U32); ("rsvd1", U32); ("csts", U32);
   ("nssr", U32); ("aqa", U32); ("asq", U64); ("acq", U64); ("cmbloc", U32); ("cmbsz", U32)].

(** ** Identify pages *)
Definition struct_nvme_id_power_state : ctype := CStruct
  [("max_power", U16); ("rsvd2", U8); ("flags", U8); ("entry_lat", U32); ("exit_lat", U32); ("read_tput", U8);
   ("read_lat", U8); ("write_tput", U8); ("write_lat", U8); ("idle_power", U16); ("idle_scale", U8);
   ("rsvd19", U8); ("active_power", U16); ("active_work_scale", U8); ("rsvd23", CArray U8 9)].

Definition struct_nvme_id_ctrl : ctype := CStruct
  [("vid", U16); ("ssvid", U16); ("sn", CArray U8 20); ("mn", CArray U8 40); ("fr", CArray U8 8); ("rab", U8);
   ("ieee", CArray U8 3); ("mic", U8); ("mdts", U8); ("cntlid", U16); ("ver", U32); ("rtd3r", U32);
   ("rtd3e", U32); ("oaes", U32); ("ctratt", U32); ("rrls", U16); ("cntrltype", U8);
   ("rsvd84", CArray U8 153); ("oacs", U16); ("acl", U8); ("aerl", U8); ("frmw", U8); ("lpa", U8);
   ("elpe", U8); ("npss", U8); ("avscc", U8); ("apsta", U8); ("wctemp", U16); ("cctemp", U16);
   ("rsvd270", CArray U8 242); ("sqes", U8); ("cqes", U8); ("rsvd514", CArray U8 2); ("nn", U32);
   ("oncs", U16); ("fuses", U16); ("fna", U8); ("vwc", U8); ("awun", U16); ("awupf", U16); ("nvscc", U8);
   ("rsvd531", U8); ("acwu", U16); ("rsvd534", CArray U8 2); ("sgls", U32); ("rsvd540", CArray U8 1508);
   ("psd", CArray struct_nvme_id_power_state 32); ("vs", CArray U8 1024)].

Definition struct_nvme_lbaf : ctype := CStruct
  [("ms", U16); ("ds", U8); ("rp", U8)].

Definition struct_nvme_id_ns : ctype := CStruct
  [("nsze", U64); ("ncap", U64); ("nuse", U64); ("nsfeat", U8); ("nlbaf", U8); ("flbas", U8); ("mc", U8);
   ("dpc", U8); ("dps", U8); ("nmic", U8); ("rescap", U8); ("fpi", U8); ("rsvd33", U8); ("nawun", U16);
   ("nawupf", U16); ("nacwu", U16); ("nabsn", U16); ("nabo", U16); ("nabspf", U16); ("rsvd46", U16);
   ("nvmcap", CArray U64 2); ("rsvd64", CArray U8 40); ("nguid", CArray U8 16); ("eui64", CArray U8 8);
   ("lbaf", CArray struct_nvme_lbaf 16); ("rsvd192", CArray U8 192); ("vs", CArray U8 3712)].

Definition struct_nvme_id_ns_desc : ctype := CStruct
  [("nidt", U8); ("nidl", U8); ("rsvd", CArray U8 2); ("nid", CArray U8 4092)].

Definition struct_nvme_lba_format_extension : ctype := CStruct
  [("zsze", CArray U8 8); ("zdes", CArray U8 8); ("rsv", CArray U8 56)].

(** ** Log pages and other data *)
Definition struct_nvme_smart_log : ctype := CStruct
  [("critical_warning", U8); ("temperature", CArray U8 2); ("avail_spare", U8); ("spare_thresh", U8);
   ("percent_used", U8); ("rsvd6", CArray U8 26); ("data_units_read", CArray U8 16);
   ("data_units_written", CArray U8 16); ("host_reads", CArray U8 16); ("host_writes", CArray U8 16);
   ("ctrl_busy_time", CArray U8 16); ("power_cycles", CArray U8 16); ("power_on_hours", CArray U8 16);
   ("unsafe_shutdowns", CArray U8 16); ("media_errors", CArray U8 16); ("num_err_log_entries", CArray U8 16);
   ("warning_temp_time", U32); ("critical_comp_time", U32); ("temp_sensor", CArray U16 8);
   ("rsvd216", CArray U8 296)].

Definition struct_nvme_effects_log : ctype := CStruct
  [("acs", CArray U32 256); ("iocs", CArray U32 256); ("resv", CArray U8 2048)].

Definition struct_nvme_lba_range_type : ctype := CStruct
  [("type", U8); ("attributes", U8); ("rsvd2", CArray U8 14); ("slba", U64); ("nlb", U64);
   ("guid", CArray U8 16); ("rsvd48", CArray U8 16)].

Definition struct_nvme_reservation_status : ctype := CStruct
  [("gen", U32); ("rtype", U8); ("regctl", CArray U8 2); ("resv5", CArray U8 2); ("ptpls", U8);
   ("resv10", CArray U8 13);
   ("regctl_ds", CArray (CStruct
  [("cntlid", U16); ("rcsts", U8); ("resv3", CArray U8 5); ("hostid", U64); ("rkey", U64)]) 0)].

(** ** Commands *)
Definition struct_nvme_common_command : ctype := CStruct
  [("opcode", U8); ("flags", U8); ("command_id", U16); ("nsid", U32); ("cdw2", CArray U32 2);
   ("metadata", U64); ("prp1", U64); ("prp2", U64); ("cdw10", CArray U32 6)].

Definition struct_nvme_rw_command : ctype := CStruct
  [("opcode", U8); ("flags", U8); ("command_id", U16); ("nsid", U32); ("rsvd2", U64); ("metadata", U64);
   ("prp1", U64); ("prp2", U64); ("slba", U64); ("length", U16); ("control", U16); ("dsmgmt", U32);
   ("reftag", U32); ("apptag", U16); ("appmask", U16)].

Definition struct_nvme_get_log_page_command : ctype := CStruct
  [("opcode", U8); ("flags", U8); ("command_id", U16); ("nsid", U32); ("rsvd2", CArray U64 2); ("prp1", U64);
   ("prp2", U64); ("lid", U8); ("lsp", U8); ("numdl", U16); ("numdu", U16); ("rsvd11", U16);
   (anonymous, CUnion
     [(anonymous, CStruct
        [("lpol", U32); ("lpou", U32)]);
      ("lpo", U64)]);
   ("rsvd14", CArray U8 3); ("csi", U8); ("rsvd15", U32)].

Definition struct_nvme_dsm_cmd : ctype := CStruct
  [("opcode", U8); ("flags", U8); ("command_id", U16); ("nsid", U32); ("rsvd2", CArray U64 2); ("prp1", U64);
   ("prp2", U64); ("nr", U32); ("attributes", U32); ("rsvd12", CArray U32 4)].

Definition struct_nvme_dsm_range : ctype := CStruct
  [("cattr", U32); ("nlb", U32); ("slba", U64)].

Definition struct_nvme_identify : ctype := CStruct
  [("opcode", U8); ("flags", U8); ("command_id", U16); ("nsid", U32); ("rsvd2", CArray U64 2); ("prp1", U64);
   ("prp2", U64); ("cns", U32); ("rsvd11", CArray U32 5)].

Definition struct_nvme_features : ctype := CStruct
  [("opcode", U8); ("flags", U8); ("command_id", U16); ("nsid", U32); ("rsvd2", CArray U64 2); ("prp1", U64);
   ("prp2", U64); ("fid", U32); ("dword11", U32); ("rsvd12", CArray U32 4)].

Definition struct_nvme_create_cq : ctype := CStruct
  [("opcode", U8); ("flags", U8); ("command_id", U16); ("rsvd1", CArray U32 5); ("prp1", U64); ("rsvd8", U64);
   ("cqid", U16); ("qsize", U16); ("cq_flags", U16); ("irq_vector", U16); ("rsvd12", CArray U32 4)].

Definition struct_nvme_create_sq : ctype := CStruct
  [("opcode", U8); ("flags", U8); ("command_id", U16); ("rsvd1", CArray U32 5); ("prp1", U64); ("rsvd8", U64);
   ("sqid", U16); ("qsize", U16); ("sq_flags", U16); ("cqid", U16); ("rsvd12", CArray U32 4)].

Definition struct_nvme_delete_queue : ctype := CStruct
  [("opcode", U8); ("flags", U8); ("command_id", U16); ("rsvd1", CArray U32 9); ("qid", U16); ("rsvd10", U16);
   ("rsvd11", CArray U32 5)].

Definition struct_nvme_abort_cmd : ctype := CStruct
  [("opcode", U8); ("flags", U8); ("command_id", U16); ("rsvd1", CArray U32 9); ("sqid", U16); ("cid", U16);
   ("rsvd11", CArray U32 5)].

Definition struct_nvme_download_firmware : ctype := CStruct
  [("opcode", U8); ("flags", U8); ("command_id", U16); ("rsvd1", CArray U32 5); ("prp1", U64); ("prp2", U64);
   ("numd", U32); ("offset", U32); ("rsvd12", CArray U32 4)].

Definition struct_nvme_format_cmd : ctype := CStruct
  [("opcode", U8); ("flags", U8); ("command_id", U16); ("nsid", U32); ("rsvd2", CArray U64 4); ("cdw10", U32);
   ("rsvd11", CArray U32 5)].

Definition struct_nvme_command : ctype := CStruct
  [(anonymous, CUnion
     [("common", struct_nvme_common_command); ("rw", struct_nvme_rw_command);
      ("get_log_page", struct_nvme_get_log_page_command); ("identify", struct_nvme_identify);
      ("features", struct_nvme_features); ("create_cq", struct_nvme_create_cq);
      ("create_sq", struct_nvme_create_sq); ("delete_queue", struct_nvme_delete_queue);
      ("dlfw", struct_nvme_download_firmware); ("format", struct_nvme_format_cmd);
      ("dsm", struct_nvme_dsm_cmd); ("abort", struct_nvme_abort_cmd)])].

Definition struct_nvme_completion : ctype := CStruct
  [("result0", U32); ("result1", U32); ("sq_head", U16); ("sq_id", U16); ("command_id", U16); ("status", U16)].

(** ** Zoned namespaces *)
Definition struct_nvme_id_zns_ctrl : ctype := CStruct
  [("zasl", U8); ("rsvd1", CArray U8 4095)].

Definition struct_nvme_zns_lbaf : ctype := CStruct
  [("zsze", U64); ("zdes", U8); ("resv", CArray U8 7)].

Definition struct_nvme_id_zns_ns : ctype := CStruct
  [("zoc", U16); ("ozcs", U16); ("mar", U32); ("mor", U32); ("rrl", U32); ("frl", U32);
   ("rsv1", CArray U32 6); ("numzrwa", U32); ("zrwafg", U16); ("zrwasz", U16); ("zrwacap", U8);
   ("rsv2", CArray U8 2763); ("lbaf", CArray struct_nvme_zns_lbaf 16); ("rsv3", CArray U8 768);
   ("vs", CArray U8 256)].

Definition struct_zone_descriptor : ctype := CStruct
  [("type", CBits 1 4); (anonymous, CBits 1 4); (anonymous, CBits 1 4); ("state", CBits 1 4);
   (anonymous, CUnion
     [("za", U8);
      (anonymous, CStruct
        [("zfc", CBits 1 1); ("fzr", CBits 1 1); ("rzr", CBits 1 1); ("zrwav", CBits 1 1);
         (anonymous, CBits 1 3); ("zdef", CBits 1 1)])]);
   (anonymous, CUnion
     [("zai", U8);
      (anonymous, CStruct
        [("fzrtl", CBits 1 2); ("rzrtl", CBits 1 2); (anonymous, CBits 1 4)])]);
   ("reserved", U32); ("zone_capacity", U64); ("zslba", U64); ("wp", U64); ("rsvd", CArray U32 8)].

Definition struct_zone_report : ctype := CStruct
  [("nr_zones", U64); ("rsvd", CArray U64 7); ("zd", CArray struct_zone_descriptor 1)].

Definition struct_nvme_zone_mgmt_recv : ctype := CStruct
  [("opcode", U8); ("flags", U8); ("command_id", U16); ("nsid", U32); ("cdw2", CArray U32 2);
   ("metadata", U64); ("prp1", U64); ("prp2", U64); ("slba", U64); ("nr_dw", U32);
   (anonymous, CUnion
     [("DW13", U32);
      (anonymous, CStruct
        [("zra", U8); ("zra_specific_field", U8); ("zra_specific_features", CBits 2 1);
         ("reserved", CBits 2 15)])]);
   ("rsvd", CArray U32 3)].

Definition struct_nvme_zone_mgmt_send : ctype := CStruct
  [("opcode", U8); ("flags", U8); ("command_id", U16); ("nsid", U32); ("cdw2", CArray U32 2);
   ("metadata", U64); ("prp1", U64); ("prp2", U64); ("slba", U64); ("reserved", U32);
   (anonymous, CUnion
     [("DW13", U32);
      (anonymous, CStruct
        [("zsa", CBits 4 8); ("select_all", CBits 4 1); ("zsaso", CBits 4 1); (anonymous, CBits 4 22)])]);
   ("rsvd", CArray U32 3)].

Definition struct_nvme_zone_append : ctype := CStruct
  [("opcode", U8); ("flags", U8); ("command_id", U16); ("nsid", U32); ("cdw2", CArray U32 2);
   ("metadata", U64); ("prp1", U64); ("prp2", U64); ("slba", U64);
   (anonymous, CUnion
     [("DW12", U32);
      (anonymous, CStruct
        [("nr_lba", CBits 4 16); (anonymous, CBits 4 4); ("dtype", CBits 4 4); ("stc", CBits 4 1);
         ("piremap", CBits 4 1); ("printfo", CBits 4 4); ("fua", CBits 4 1); ("lr", CBits 4 1)])]);
   (anonymous, CUnion
     [("DW13", U32);
      (anonymous, CStruct
        [(anonymous, CBits 4 16); ("dspec", CBits 4 16)])]);
   ("DW14", U32);
   (anonymous, CUnion
     [("DW15", U32);
      (anonymous, CStruct
        [("lbat", CBits 4 16); ("lbatm", CBits 4 16)])])].

(** ** Key-value commands *)
Definition union_nvme_data_ptr : ctype := CUnion
  [(anonymous, CStruct
     [("prp1", U64); ("prp2", U64)])].

Definition struct_nvme_kv_store_command : ctype := CStruct
  [("opcode", U8); ("flags", U8); ("command_id", U16); ("nsid", U32); ("rsvd", U64); ("offset", U32);
   ("rsvd2", U32); ("dptr", union_nvme_data_ptr); ("value_len", U32); ("key_len", U8); ("option", U8);
   ("invalid_byte", CBits 1 2); ("rsvd3", CBits 1 6); ("rsvd4", U8);
   (anonymous, CUnion
     [(anonymous, CStruct
        [("key", CArray U8 16)]);
      (anonymous, CStruct
        [("key_prp", U64); ("key_prp2", U64)])])].

Definition struct_nvme_kv_append_command : ctype := CStruct
  [("opcode", U8); ("flags", U8); ("command_id", U16); ("nsid", U32); ("rsvd", U64); ("offset", U32);
   ("rsvd2", U32); ("dptr", union_nvme_data_ptr); ("value_len", U32); ("key_len", U8); ("option", U8);
   ("invalid_byte", CBits 1 2); ("rsvd3", CBits 1 6); ("rsvd4", U8);
   (anonymous, CUnion
     [(anonymous, CStruct
        [("key", CArray U8 16)]);
      (anonymous, CStruct
        [("key_prp", U64); ("key_prp2", U64)])])].

Definition struct_nvme_kv_batch_command : ctype := CStruct
  [("opcode", U8); ("flags", U8); ("command_id", U16); ("nsid", U32); ("rsvd", U64); ("offset", U32);
   ("rsvd2", U32); ("dptr", union_nvme_data_ptr); ("value_len", U32); ("key_len", U8); ("option", U8);
   ("rsvd3", U8); ("rsvd4", U8);
   (anonymous, CUnion
     [(anonymous, CStruct
        [("key", CArray U8 16)]);
      (anonymous, CStruct
        [("key_prp", U64); ("key_prp2", U64)])])].

Definition struct_nvme_kv_retrieve_command : ctype := CStruct
  [("opcode", U8); ("flags", U8); ("command_id", U16); ("nsid", U32); ("rsvd", U64); ("offset", U32);
   ("rsvd2", U32); ("dptr", union_nvme_data_ptr); ("value_len", U32); ("key_len", U8); ("option", U8);
   ("rsvd3", U16);
   (anonymous, CUnion
     [(anonymous, CStruct
        [("key", CArray U8 16)]);
      (anonymous, CStruct
        [("key_prp", U64); ("key_prp2", U64)])])].

Definition struct_nvme_kv_delete_command : ctype := CStruct
  [("opcode", U8); ("flags", U8); ("command_id", U16); ("nsid", U32); ("rsvd", U64); ("offset", U32);
   ("rsvd2", U32); ("rsvd3", CArray U64 2); ("value_len", U32); ("key_len", U8); ("option", U8);
   ("rsvd4", U16);
   (anonymous, CUnion
     [(anonymous, CStruct
        [("key", CArray U8 16)]);
      (anonymous, CStruct
        [("key_prp", U64); ("key_prp2", U64)])])].

Definition struct_nvme_kv_iter_req_command : ctype := CStruct
  [("opcode", U8); ("flags", U8); ("command_id", U16); ("nsid", U32); ("rsvd", CArray U64 4); ("zero", U32);
   ("iter_handle", U8); ("option", U8); ("rsvd2", U16); ("iter_val", U32); ("iter_bitmask", U32);
   ("rsvd3", U64)].

Definition struct_nvme_kv_iter_read_command : ctype := CStruct
  [("opcode", U8); ("flags", U8); ("command_id", U16); ("nsid", U32); ("rsvd", CArray U64 2);
   ("dptr", union_nvme_data_ptr); ("value_len", U32); ("iter_handle", U8); ("option", U8); ("rsvd2", U16);
   ("rsvd3", CArray U64 2)].

Definition struct_nvme_kv_exist_command : ctype := CStruct
  [("opcode", U8); ("flags", U8); ("command_id", U16); ("nsid", U32); ("rsvd", U64); ("offset", U32);
   ("rsvd2", U32); ("rsvd3", CArray U64 2); ("value_len", U32); ("key_len", U8); ("option", U8);
   ("rsvd4", U16);
   (anonymous, CUnion
     [(anonymous, CStruct
        [("key", CArray U8 16)]);
      (anonymous, CStruct
        [("key_prp", U64); ("key_prp2", U64)])])].

Definition struct_nvme_kv_command : ctype := CStruct
  [(anonymous, CUnion
     [("common", struct_nvme_common_command); ("kv_store", struct_nvme_kv_store_command);
      ("kv_retrieve", struct_nvme_kv_retrieve_command); ("kv_delete", struct_nvme_kv_delete_command);
      ("kv_append", struct_nvme_kv_append_command); ("kv_iter_req", struct_nvme_kv_iter_req_command);
      ("kv_iter_read", struct_nvme_kv_iter_read_command); ("kv_exist", struct_nvme_kv_exist_command);
      ("kv_batch", struct_nvme_kv_batch_command)])].

(** ** Key-value batches *)
Definition struct_sub_cmd_attribute : ctype := CStruct
  [("opcode", U8); ("keySize", U8); ("reservedDw0", CArray U8 2); ("valueSize", U32); ("option", U8);
   ("nsid", U8); ("reservedDw2", CArray U8 2); ("NoUsed", U32)].

Definition struct_batch_cmd_head : ctype := CStruct
  [("attr", CArray struct_sub_cmd_attribute 8); ("reserved", CArray U8 384)].

Definition struct_sub_cmd_head : ctype := CStruct
  [("reserved", CArray U8 64)].

Definition struct_sub_payload_format : ctype := CStruct
  [("sub_head", struct_sub_cmd_head); ("data", CArray U8 0)].

Definition struct_payload_format : ctype := CStruct
  [("batch_head", struct_batch_cmd_head); ("sub_payload", CArray U8 0)].

Definition struct_sub_payload_attribute : ctype := CStruct
  [("sub_payload_len", U32); ("key_len", U32); ("value_len", U32)].

Definition struct_kv_batch_data : ctype := CStruct
  [("key", CArray U8 256); ("keySize", U32); ("value", CArray U8 4097); ("valueSize", U32); ("opcode", U32)].
