(* ===== verification/PciStructs.v ===== *)
(** * PciStructs: the structures of configuration space and registers (src/pci.h) *)
From stdpp Require Import base list numbers.
From Stdlib Require Import ZArith Strings.String Lia.
From S2P Require Import Prelude Prp HostMem Pci PciFacts Layout.

Open Scope Z_scope.
Open Scope string_scope.

(** ** Registers of the controller *)
Definition struct___nvme_bar : ctype := CStruct
  [("cap", U64); ("vs", U32); ("intms", U32); ("intmc", U32); ("cc", U32); ("rsvd1", U32); ("csts", U32);
   ("nssr", U32); ("aqa", U32); ("asq", U64); ("acq", U64); ("cmbloc", U32); ("cmbsz", U32)].

Definition struct_nvme_ctrl_regs : ctype := CStruct
  [(anonymous, CUnion
     [("cap", CStruct
        [("mqes", U16); ("cqr", CBits 2 1); ("ams", CBits 2 2); ("rsvd", CBits 2 5); ("to", CBits 2 8);
         ("dstrd", CBits 2 4); ("nssrs", CBits 2 1); ("css", CBits 2 8); ("rsvd2", CBits 2 3);
         ("mpsmin", CBits 2 4); ("mpsmax", CBits 2 4); ("rsvd3", CBits 2 8)]);
      ("u_cap", U64)]);
   (anonymous, CUnion
     [("vs", CStruct
        [("rsvd", U8); ("mnr", U8); ("mjr", U16)]);
      ("u_vs", U32)]);
   ("intms", U32); ("intmc", U32);
   (anonymous, CUnion
     [("cc", CStruct
        [("en", CBits 2 1); ("rsvd", CBits 2 3); ("css", CBits 2 3); ("mps", CBits 2 4); ("ams", CBits 2 3);
         ("shn", CBits 2 2); ("iosqes", CBits 2 4); ("iocqes", CBits 2 4); ("rsvd2", CBits 2 8)]);
      ("u_cc", U32)]);
   ("rsvd1", U32);
   (anonymous, CUnion
     [("csts", CStruct
        [("rdy", CBits 4 1); ("cfs", CBits 4 1); ("shst", CBits 4 2); ("nssro", CBits 4 1); ("pp", CBits 4 1);
         ("rsvd", CBits 4 26)]);
      ("u_csts", U32)]);
   ("nssr", U32);
   (anonymous, CUnion
     [("aqa", CStruct
        [("asqs", CBits 4 12); ("rsvd1", CBits 4 4); ("acqs", CBits 4 12); ("rsvd2", CBits 4 4)]);
      ("u_aqa", U32)]);
   (anonymous, CUnion
     [("asq", CStruct
        [("rsvd", CBits 8 12); ("asqb", CBits 8 52)]);
      ("u_asq", U64)]);
   (anonymous, CUnion
     [("acq", CStruct
        [("rsvd", CBits 8 12); ("acqb", CBits 8 52)]);
      ("u_acq", U64)]);
   (anonymous, CUnion
     [("cmbloc", CStruct
        [("bir", CBits 4 3); ("rsvd", CBits 4 9); ("ofst", CBits 4 20)]);
      ("u_cmbloc", U32)]);
   (anonymous, CUnion
     [("cmbsz", CStruct
        [("sqs", CBits 4 1); ("cqs", CBits 4 1); ("lists", CBits 4 1); ("rds", CBits 4 1); ("wds", CBits 4 1);
         ("rsvd", CBits 4 3); ("szu", CBits 4 4); ("sz", CBits 4 20)]);
      ("u_cmbsz", U32)])].

(** ** Configuration space *)
Definition struct_pci_header : ctype := CStruct
  [("id", CStruct
     [("vid", U16); ("did", U16)]);
   ("cmd", CStruct
     [("iose", CBits 1 1); ("mse", CBits 1 1); ("bme", CBits 1 1); ("sce", CBits 1 1); ("mwie", CBits 1 1);
      ("vga", CBits 1 1); ("pee", CBits 1 1); ("fixed", CBits 1 1); ("see", CBits 1 1); ("fbe", CBits 1 1);
      ("id", CBits 1 1); ("rsvd", CBits 1 5)]);
   ("sts", CStruct
     [("rsvd1", CBits 1 3); ("is", CBits 1 1); ("cl", CBits 1 1); ("c66", CBits 1 1); ("rsvd2", CBits 1 1);
      ("fbc", CBits 1 1); ("dpd", CBits 1 1); ("devt", CBits 1 2); ("sta", CBits 1 1); ("rta", CBits 1 1);
      ("rma", CBits 1 1); ("sse", CBits 1 1); ("dpe", CBits 1 1)]);
   ("rid", U8);
   ("cc", CStruct
     [("pi", U8); ("scc", U8); ("bcc", U8)]);
   ("cls", U8); ("mlt", U8);
   ("htype", CStruct
     [("hl", CBits 1 7); ("mfd", CBits 1 1)]);
   ("bist", CStruct
     [("cc", CBits 1 4); ("rsvd", CBits 1 2); ("sb", CBits 1 1); ("bc", CBits 1 1)]);
   ("mlbar", CStruct
     [("rte", CBits 4 1); ("tp", CBits 4 2); ("pf", CBits 4 1); ("rsvd", CBits 4 10); ("ba", CBits 4 18)]);
   ("mulbar", U32); ("idbar", U32); ("bar3", U32); ("bar4", U32); ("bar5", U32); ("ccptr", U32);
   ("ss", CStruct
     [("ssvid", U16); ("ssid", U16)]);
   ("erom", U32); ("cap", U8); ("rsvd", CArray U8 7);
   ("intr", CStruct
     [("iline", U8); ("ipin", U8)]);
   ("mgnt", U8); ("mlat", U8)].

Definition struct_pci_pm_cap : ctype := CStruct
  [("pid", CStruct
     [("cid", U8); ("next", U8)]);
   ("pc", CStruct
     [("vs", CBits 2 3); ("pmec", CBits 2 1); ("resv", CBits 2 1); ("dsi", CBits 2 1); ("auxc", CBits 2 3);
      ("d1s", CBits 2 1); ("d2s", CBits 2 1); ("psup", CBits 2 5)]);
   ("pmcs", CStruct
     [("ps", CBits 2 2); ("rsvd01", CBits 2 1); ("nsfrst", CBits 2 1); ("rsvd02", CBits 2 4);
      ("pmee", CBits 2 1); ("dse", CBits 2 4); ("dsc", CBits 2 2); ("pmes", CBits 2 1)]);
   ("ext", CArray U8 2)].

Definition struct_pci_msi_cap : ctype := CStruct
  [("mid", CStruct []); ("mc", CStruct []); ("ma", CStruct []); ("mua", CStruct []); ("md", CStruct []);
   ("mmask", CStruct []); ("mpend", CStruct [])].

Definition struct_pci_msix_cap : ctype := CStruct
  [("mxid", CStruct
     [("cid", U8); ("next", U8)]);
   ("mxc", CStruct
     [("ts", CBits 2 11); ("rsvd", CBits 2 3); ("fm", CBits 2 1); ("mxe", CBits 2 1)]);
   ("mtab", CStruct
     [("tbir", CBits 4 3); ("to", CBits 4 29)]);
   ("mpba", CStruct
     [("pbir", CBits 4 3); ("pbao", CBits 4 29)])].

Definition struct_pcie_cap : ctype := CStruct
  [("pxid", CStruct
     [("cid", U8); ("next", U8)]);
   ("pxcap", CStruct
     [("ver", CBits 1 4); ("dpt", CBits 1 4); ("si", CBits 1 1); ("imn", CBits 1 5); ("rsvd", CBits 1 2)]);
   ("pxdcap", CStruct
     [("mps", CBits 4 3); ("pfs", CBits 4 2); ("etfs", CBits 4 1); ("l0sl", CBits 4 3); ("l1l", CBits 4 3);
      ("rsvd", CBits 4 3); ("rer", CBits 4 1); ("rsvd2", CBits 4 2); ("csplv", CBits 4 8);
      ("cspls", CBits 4 2); ("flrc", CBits 4 1); ("rsvd3", CBits 4 3)]);
   ("pxdc", CStruct
     [("cere", CBits 2 1); ("nfere", CBits 2 1); ("fere", CBits 2 2); ("urre", CBits 2 1); ("ero", CBits 2 1);
      ("mps", CBits 2 3); ("ete", CBits 2 1); ("pfe", CBits 2 1); ("appme", CBits 2 1); ("ens", CBits 2 1);
      ("mrrs", CBits 2 3); ("iflr", CBits 2 1)]);
   ("pxds", CStruct
     [("ced", CBits 2 1); ("nfed", CBits 2 1); ("fed", CBits 2 1); ("urd", CBits 2 1); ("apd", CBits 2 1);
      ("tp", CBits 2 1); ("rsvd", CBits 2 10)]);
   ("pxlcap", CStruct
     [("sls", CBits 4 4); ("mlw", CBits 4 6); ("aspms", CBits 4 2); ("l0sel", CBits 4 3); ("l1el", CBits 4 3);
      ("cpm", CBits 4 1); ("sderc", CBits 4 1); ("dllla", CBits 4 20); ("lbnc", CBits 4 1);
      ("aoc", CBits 4 1); ("rsvd", CBits 4 1); ("pn", CBits 4 8)]);
   ("pxlc", CStruct
     [("aspmc", CBits 2 2); ("rsvd", CBits 2 1); ("rcb", CBits 2 1); ("rsvd2", CBits 2 2); ("ccc", CBits 2 1);
      ("es", CBits 2 1); ("ecpm", CBits 2 1); ("hawd", CBits 2 1); ("rsvd3", CBits 2 6)]);
   ("pxls", CStruct
     [("clc", CBits 2 4); ("nlw", CBits 2 6); ("rsvd", CBits 2 2); ("scc", CBits 2 1); ("rsvd2", CBits 2 3)]);
   ("pxdcap2", CStruct
     [("ctrs", CBits 4 4); ("ctds", CBits 4 1); ("arifs", CBits 4 1); ("aors", CBits 4 1);
      ("aocs32", CBits 4 1); ("aocs", CBits 4 1); ("ccs128", CBits 4 1); ("nprpr", CBits 4 1);
      ("ltrs", CBits 4 1); ("tphcs", CBits 4 2); ("rsvd", CBits 4 4); ("obffs", CBits 4 2);
      ("effs", CBits 4 1); ("eetps", CBits 4 1); ("meetp", CBits 4 2); ("rsvd2", CBits 4 8)]);
   ("pxdc2", CStruct
     [("ctv", CBits 4 4); ("ctd", CBits 4 1); ("rsvd", CBits 4 5); ("ltrme", CBits 4 1); ("rsvd2", CBits 4 2);
      ("obffe", CBits 4 2); ("rsvd3", CBits 4 17)])].

Definition struct_pci_ext_cap : ctype := CStruct
  [("cid", U16); ("cver", CBits 2 4); ("next", CBits 2 12)].

Definition struct_pci_ext_cap_aer : ctype := CStruct
  [("id", struct_pci_ext_cap);
   ("aeruces", CStruct
     [("rsvd", CBits 4 4); ("dlpes", CBits 4 1); ("rsvd2", CBits 4 7); ("pts", CBits 4 1);
      ("fcpes", CBits 4 1); ("cts", CBits 4 1); ("cas", CBits 4 1); ("ucs", CBits 4 1); ("ros", CBits 4 1);
      ("mts", CBits 4 1); ("ecrces", CBits 4 1); ("ures", CBits 4 1); ("acsvs", CBits 4 1);
      ("uies", CBits 4 1); ("mcbts", CBits 4 1); ("aoebs", CBits 4 1); ("tpbes", CBits 4 1);
      ("rsvd3", CBits 4 6)]);
   ("aerucem", CStruct
     [("rsvd", CBits 4 4); ("dlpem", CBits 4 1); ("rsvd2", CBits 4 7); ("ptm", CBits 4 1);
      ("fcpem", CBits 4 1); ("ctm", CBits 4 1); ("cam", CBits 4 1); ("ucm", CBits 4 1); ("rom", CBits 4 1);
      ("mtm", CBits 4 1); ("ecrcem", CBits 4 1); ("urem", CBits 4 1); ("acsvm", CBits 4 1);
      ("uiem", CBits 4 1); ("mcbtm", CBits 4 1); ("aoebm", CBits 4 1); ("tpbem", CBits 4 1);
      ("rsvd3", CBits 4 6)]);
   ("aerucesev", CStruct
     [("rsvd", CBits 4 4); ("dlpesev", CBits 4 1); ("rsvd2", CBits 4 7); ("ptsev", CBits 4 1);
      ("fcpesev", CBits 4 1); ("ctsev", CBits 4 1); ("casev", CBits 4 1); ("ucsev", CBits 4 1);
      ("rosev", CBits 4 1); ("mtsev", CBits 4 1); ("ecrcesev", CBits 4 1); ("uresev", CBits 4 1);
      ("acsvsev", CBits 4 1); ("uiesev", CBits 4 1); ("mcbtsev", CBits 4 1); ("aoebsev", CBits 4 1);
      ("tpbesev", CBits 4 1); ("rsvd3", CBits 4 6)]);
   ("aerces", CStruct
     [("res", CBits 4 1); ("rsvd", CBits 4 5); ("bts", CBits 4 1); ("bds", CBits 4 1); ("rrs", CBits 4 1);
      ("rsvd2", CBits 4 3); ("rts", CBits 4 1); ("anfes", CBits 4 1); ("cies", CBits 4 1);
      ("hlos", CBits 4 1); ("rsvd3", CBits 4 16)]);
   ("aercem", CStruct
     [("rem", CBits 4 1); ("rsvd", CBits 4 5); ("btm", CBits 4 1); ("bdm", CBits 4 1); ("rrm", CBits 4 1);
      ("rsvd2", CBits 4 3); ("rtm", CBits 4 1); ("anfem", CBits 4 1); ("ciem", CBits 4 1);
      ("hlom", CBits 4 1); ("rsvd3", CBits 4 16)]);
   ("aercc", CStruct
     [("fep", CBits 4 5); ("egc", CBits 4 1); ("ege", CBits 4 1); ("ecc", CBits 4 1); ("ece", CBits 4 1);
      ("mhrc", CBits 4 1); ("mhre", CBits 4 1); ("tplp", CBits 4 1); ("rsvd", CBits 4 20)]);
   ("aerhl", CStruct
     [("hb3", U8); ("hb2", U8); ("hb1", U8); ("hb0", U8); ("hb7", U8); ("hb6", U8); ("hb5", U8); ("hb4", U8);
      ("hb11", U8); ("hb10", U8); ("hb9", U8); ("hb8", U8); ("hb15", U8); ("hb14", U8); ("hb13", U8);
      ("hb12", U8)]);
   ("aertlp", CStruct
     [("tpl1b3", U8); ("tpl1b2", U8); ("tpl1b1", U8); ("tpl1b0", U8); ("tpl2b3", U8); ("tpl2b2", U8);
      ("tpl2b1", U8); ("tpl2b0", U8); ("tpl3b3", U8); ("tpl3b2", U8); ("tpl3b1", U8); ("tpl3b0", U8);
      ("tpl4b3", U8); ("tpl4b2", U8); ("tpl4b1", U8); ("tpl4b0", U8)])].

Definition struct_pci_ext_cap_dsn : ctype := CStruct
  [("id", struct_pci_ext_cap); ("serial", U64)].

(** * Configuration space by the names of its members

    The settings of src/pci.c as assignments to members of the structures of
    src/pci.h; every member reads back what was assigned to it. *)

Open Scope nvmev_scope.
Open Scope string_scope.

(** ** The assignments *)
Definition header_settings (base_pa : Z) : list (list pstep * Z) :=
  [([Fld "id"; Fld "did"], NVMEV_DEVICE_ID); ([Fld "id"; Fld "vid"], NVMEV_VENDOR_ID);
   ([Fld "cmd"; Fld "mse"], 1); ([Fld "sts"; Fld "cl"], 1);
   ([Fld "htype"; Fld "mfd"], 0); ([Fld "htype"; Fld "hl"], PCI_HEADER_TYPE_NORMAL);
   ([Fld "rid"], 1); ([Fld "cc"; Fld "bcc"], PCI_BASE_CLASS_STORAGE); ([Fld "cc"; Fld "scc"], 8); ([Fld "cc"; Fld "pi"], 2);
   ([Fld "mlbar"; Fld "tp"], Z.shiftr PCI_BASE_ADDRESS_MEM_TYPE_64 1);
   ([Fld "mlbar"; Fld "ba"], Z.shiftr (Z.land base_pa 4294967295) 14);
   ([Fld "mulbar"], Z.shiftr base_pa 32);
   ([Fld "ss"; Fld "ssid"], NVMEV_SUBSYSTEM_ID); ([Fld "ss"; Fld "ssvid"], NVMEV_SUBSYSTEM_VENDOR_ID);
   ([Fld "erom"], 0); ([Fld "cap"], OFFS_PCI_PM_CAP); ([Fld "intr"; Fld "ipin"], 0); ([Fld "intr"; Fld "iline"], NVMEV_INTX_IRQ)].

Definition pmcap_settings : list (list pstep * Z) :=
  [([Fld "pid"; Fld "cid"], PCI_CAP_ID_PM); ([Fld "pid"; Fld "next"], OFFS_PCI_MSIX_CAP); ([Fld "pc"; Fld "vs"], 3);
   ([Fld "pmcs"; Fld "nsfrst"], 1); ([Fld "pmcs"; Fld "ps"], Z.shiftr PCI_PM_CAP_PME_D0 16)].

Definition msixcap_settings : list (list pstep * Z) :=
  [([Fld "mxid"; Fld "cid"], PCI_CAP_ID_MSIX); ([Fld "mxid"; Fld "next"], OFFS_PCIE_CAP); ([Fld "mxc"; Fld "mxe"], 1);
   ([Fld "mxc"; Fld "ts"], 127); ([Fld "mtab"; Fld "tbir"], 0); ([Fld "mtab"; Fld "to"], 1024);
   ([Fld "mpba"; Fld "pbao"], 4096); ([Fld "mpba"; Fld "pbir"], 0)].

Definition pciecap_settings : list (list pstep * Z) :=
  [([Fld "pxid"; Fld "cid"], PCI_CAP_ID_EXP); ([Fld "pxid"; Fld "next"], 0);
   ([Fld "pxcap"; Fld "ver"], PCI_EXP_FLAGS); ([Fld "pxcap"; Fld "imn"], 0); ([Fld "pxcap"; Fld "dpt"], PCI_EXP_TYPE_ENDPOINT);
   ([Fld "pxdcap"; Fld "mps"], 1); ([Fld "pxdcap"; Fld "pfs"], 0); ([Fld "pxdcap"; Fld "etfs"], 1); ([Fld "pxdcap"; Fld "l0sl"], 6);
   ([Fld "pxdcap"; Fld "l1l"], 2); ([Fld "pxdcap"; Fld "rer"], 1); ([Fld "pxdcap"; Fld "csplv"], 0); ([Fld "pxdcap"; Fld "cspls"], 0);
   ([Fld "pxdcap"; Fld "flrc"], 1)].

Definition extcap_settings (cid next : Z) : list (list pstep * Z) :=
  [([Fld "cid"], cid); ([Fld "cver"], 1); ([Fld "next"], next)].

(** Where [VDEV_INIT] lets the pointers point. *)
Definition config_members (base : Z) : list (Z * ctype * list (list pstep * Z)) :=
  [(OFFS_PCI_HDR, struct_pci_header, header_settings base); (OFFS_PCI_PM_CAP, struct_pci_pm_cap, pmcap_settings);
   (OFFS_PCI_MSIX_CAP, struct_pci_msix_cap, msixcap_settings); (OFFS_PCIE_CAP, struct_pcie_cap, pciecap_settings)]
  ++ map (fun '(off, cid, next) => (OFFS_PCI_EXT_CAP + off, struct_pci_ext_cap, extcap_settings cid next))
       [(0, PCI_EXT_CAP_ID_ERR, PCI_CFG_SPACE_SIZE + 80); (80, PCI_EXT_CAP_ID_VC, PCI_CFG_SPACE_SIZE + 128);
        (128, PCI_EXT_CAP_ID_PWR, PCI_CFG_SPACE_SIZE + 144); (144, PCI_EXT_CAP_ID_ARI, PCI_CFG_SPACE_SIZE + 368);
        (368, PCI_EXT_CAP_ID_DSN, PCI_CFG_SPACE_SIZE + 416); (416, PCI_EXT_CAP_ID_SECPCI, 0)].

(** ** Offsets of the model are those of the structures *)
Lemma header_by_name m base : assign m OFFS_PCI_HDR struct_pci_header (header_settings base) = Some (PCI_HEADER_SETTINGS m base).
Proof. reflexivity. Qed.

Lemma pmcap_by_name m : assign m OFFS_PCI_PM_CAP struct_pci_pm_cap pmcap_settings = Some (PCI_PMCAP_SETTINGS m).
Proof. reflexivity. Qed.

Lemma msixcap_by_name m : assign m OFFS_PCI_MSIX_CAP struct_pci_msix_cap msixcap_settings = Some (PCI_MSIXCAP_SETTINGS m).
Proof. reflexivity. Qed.

Lemma pciecap_by_name m : assign m OFFS_PCIE_CAP struct_pcie_cap pciecap_settings = Some (PCI_PCIECAP_SETTINGS m).
Proof. reflexivity. Qed.

Lemma config_by_name base : assign_all (fun _ => 0) (config_members base) = Some (NVMEV_PCI_INIT base).
Proof. reflexivity. Qed.

Lemma config_members_ok base : structs_ok (config_members base) = true.
Proof. by vm_compute. Qed.

Lemma config_members_set base : Forall (members_set (NVMEV_PCI_INIT base)) (config_members base).
Proof. apply (assign_all_members _ (fun _ => 0)); [done|apply config_members_ok|apply config_by_name]. Qed.
