(* ===== verification/Life.v ===== *)
(** * Life: what the device allocates and releases

    The FTLs are trees of separately allocated objects.  Here they are the
    pointers of these trees, and the functions that build and take them down
    act on the set of objects that are allocated: [kfree] of an object that is
    not, or an access through a pointer to it, is a [Fault].  The contents of
    the objects are the subject of the other files.  Allocations succeed: the
    code does not look at their results. *)
From stdpp Require Import base list numbers.
From Stdlib Require Import ZArith Lia.
From S2P Require Import Prelude ChannelModel SsdConfig Ssd WorkQueue IoDev IoQueue ZnsData.

Open Scope Z_scope.
Open Scope nvmev_scope.

(** ** Objects of the kernel *)
Inductive rkind := KMALLOC | VMALLOC | MEMREMAP | PROC_ENTRY.
#[export] Instance rkind_eq_dec : EqDecision rkind.
Proof. solve_decision. Defined.

Definition res : Type := rkind * Z.

(** Addresses are not given out twice, so that a use after the release is an
    error even where the kernel would have given the place to another object. *)
Record heap := mk_heap { h_next : Z; h_live : list res }.

Fixpoint remove_res (r : res) (l : list res) : option (list res) :=
  match l with
  | [] => None
  | x :: l => if decide (x = r) then Some l else match remove_res r l with Some l => Some (x :: l) | None => None end
  end.

(** *** The monad *)
Definition mem_op (A : Type) : Type := heap -> outcome (A * heap).
Definition ret {A} (a : A) : mem_op A := fun h => Ok (a, h).
Definition bindM {A B} (m : mem_op A) (k : A -> mem_op B) : mem_op B := fun h => let* (a, h) := m h in k a h.
Notation "'let!' p ':=' m 'in' k" := (bindM m (fun p => k)) (at level 10, p pattern, m at level 100, k at level 200) : nvmev_scope.
Notation "m ;;! k" := (bindM m (fun _ => k)) (at level 100, k at level 200, right associativity) : nvmev_scope.

(** NULL is [None]. *)
Definition ptr : Type := option Z.
Definition alloc (k : rkind) : mem_op Z := fun h => Ok (h_next h, mk_heap (h_next h + 1) ((k, h_next h) :: h_live h)).
Definition release (k : rkind) (p : ptr) : mem_op unit := fun h =>
  match p with
  | None => Ok (tt, h)
  | Some a => match remove_res (k, a) (h_live h) with Some l => Ok (tt, mk_heap (h_next h) l) | None => Fault end
  end.
Definition kmalloc : mem_op Z := alloc KMALLOC.
Definition vmalloc : mem_op Z := alloc VMALLOC.
Definition kfree : ptr -> mem_op unit := release KMALLOC.
Definition vfree : ptr -> mem_op unit := release VMALLOC.

(** [p->member]: the object is there. *)
Definition access (a : Z) : mem_op unit := fun h => GUARD! bool_decide ((KMALLOC, a) ∈ h_live h); Ok (tt, h).

Fixpoint times {A} (n : nat) (m : mem_op A) : mem_op (list A) :=
  match n with
  | O => ret []
  | S n => let! a := m in let! l := times n m in ret (a :: l)
  end.
Fixpoint each {A} (f : A -> mem_op unit) (l : list A) : mem_op unit :=
  match l with
  | [] => ret tt
  | a :: l => f a ;;! each f l
  end.
Fixpoint each_map {A B} (f : A -> mem_op B) (l : list A) : mem_op (list B) :=
  match l with
  | [] => ret []
  | a :: l => let! b := f a in let! l := each_map f l in ret (b :: l)
  end.

(** ** Flash device (src/ssd.c)

    An array member is its address and its elements. *)
Record nand_block_p := mk_block_p { pp_pg : Z; pp_sec : list Z }.
Record nand_plane_p := mk_plane_p { pp_blk : Z; pp_blks : list nand_block_p }.
Record nand_lun_p := mk_lun_p { pp_pl : Z; pp_pls : list nand_plane_p }.
Record ssd_channel_p := mk_ch_p { pp_lun : Z; pp_luns : list nand_lun_p; pp_perf_model : Z }.
Record ssd_pcie_p := mk_pcie_p { pcie_self : Z; pcie_perf_model : Z }.
Record ssd_p := mk_ssd_p {
  sp_ch : Z;
  sp_chs : list ssd_channel_p;
  sp_pcie : option ssd_pcie_p;
  sp_write_buffer : ptr;
}.

Section Ssd.
Variable spp : ssdparams.

Definition ssd_init_nand_page : mem_op Z := kmalloc.
Definition ssd_remove_nand_page (sec : Z) : mem_op unit := kfree (Some sec).

Definition ssd_init_nand_blk : mem_op nand_block_p :=
  let! pg := kmalloc in
  let! secs := times (Z.to_nat (pgs_per_blk spp)) ssd_init_nand_page in
  ret (mk_block_p pg secs).
Definition ssd_remove_nand_blk (b : nand_block_p) : mem_op unit :=
  each ssd_remove_nand_page (pp_sec b) ;;!
  kfree (Some (pp_pg b)).

Definition ssd_init_nand_plane : mem_op nand_plane_p :=
  let! blk := kmalloc in
  let! blks := times (Z.to_nat (blks_per_pl spp)) ssd_init_nand_blk in
  ret (mk_plane_p blk blks).
Definition ssd_remove_nand_plane (p : nand_plane_p) : mem_op unit :=
  each ssd_remove_nand_blk (pp_blks p) ;;!
  kfree (Some (pp_blk p)).

Definition ssd_init_nand_lun : mem_op nand_lun_p :=
  let! pl := kmalloc in
  let! pls := times (Z.to_nat (pls_per_lun spp)) ssd_init_nand_plane in
  ret (mk_lun_p pl pls).
Definition ssd_remove_nand_lun (l : nand_lun_p) : mem_op unit :=
  each ssd_remove_nand_plane (pp_pls l) ;;!
  kfree (Some (pp_pl l)).

Definition ssd_init_ch : mem_op ssd_channel_p :=
  let! lun := kmalloc in
  let! luns := times (Z.to_nat (luns_per_ch spp)) ssd_init_nand_lun in
  let! perf_model := kmalloc in
  ret (mk_ch_p lun luns perf_model).
Definition ssd_remove_ch (c : ssd_channel_p) : mem_op unit :=
  kfree (Some (pp_perf_model c)) ;;!
  each ssd_remove_nand_lun (pp_luns c) ;;!
  kfree (Some (pp_lun c)).

Definition ssd_init_pcie (pcie : Z) : mem_op ssd_pcie_p :=
  access pcie ;;!
  let! perf_model := kmalloc in
  ret (mk_pcie_p pcie perf_model).

(** [*ssd]; the object itself is of the caller. *)
Definition ssd_init : mem_op ssd_p :=
  let! ch := kmalloc in
  let! chs := times (Z.to_nat (nchs spp)) ssd_init_ch in
  let! pcie := kmalloc in
  let! pcie := ssd_init_pcie pcie in
  let! write_buffer := kmalloc in
  ret (mk_ssd_p ch chs (Some pcie) (Some write_buffer)).
Definition ssd_remove (s : ssd_p) : mem_op unit :=
  kfree (sp_write_buffer s) ;;!
  match sp_pcie s with
  | Some pcie =>
      access (pcie_self pcie) ;;!
      kfree (Some (pcie_perf_model pcie)) ;;!
      kfree (Some (pcie_self pcie))
  | None => ret tt
  end ;;!
  each ssd_remove_ch (sp_chs s) ;;!
  kfree (Some (sp_ch s)).
End Ssd.

(** ** Page-mapping FTL (src/conv_ftl.c, src/pqueue/pqueue.c) *)
Record pqueue_p := mk_pqueue_p { pq_self : Z; pq_d : Z }.

Definition pqueue_init_p : mem_op pqueue_p :=
  let! q := kmalloc in
  let! d := kmalloc in
  ret (mk_pqueue_p q d).
Definition pqueue_free (q : pqueue_p) : mem_op unit :=
  access (pq_self q) ;;!
  kfree (Some (pq_d q)) ;;!
  kfree (Some (pq_self q)).

Record conv_ftl_p := mk_conv_p {
  cp_ssd_self : Z;
  cp_ssd : ssd_p;
  cp_maptbl : Z;
  cp_rmap : Z;
  cp_lines : Z;
  cp_victim_line_pq : pqueue_p;
}.

Definition remove_lines (f : conv_ftl_p) : mem_op unit :=
  pqueue_free (cp_victim_line_pq f) ;;!
  vfree (Some (cp_lines f)).
Definition remove_maptbl (f : conv_ftl_p) : mem_op unit := vfree (Some (cp_maptbl f)).
Definition remove_rmap (f : conv_ftl_p) : mem_op unit := vfree (Some (cp_rmap f)).

(** [init_maptbl], [init_rmap] and [init_lines]. *)
Definition conv_init_ftl_p (ssd_self : Z) (s : ssd_p) : mem_op conv_ftl_p :=
  let! maptbl := vmalloc in
  let! rmap := vmalloc in
  let! lines := vmalloc in
  let! pq := pqueue_init_p in
  ret (mk_conv_p ssd_self s maptbl rmap lines pq).
Definition conv_remove_ftl (f : conv_ftl_p) : mem_op unit :=
  remove_lines f ;;!
  remove_rmap f ;;!
  remove_maptbl f.

Definition set_shared (f : conv_ftl_p) (pcie : option ssd_pcie_p) (wb : ptr) : conv_ftl_p :=
  mk_conv_p (cp_ssd_self f) (mk_ssd_p (sp_ch (cp_ssd f)) (sp_chs (cp_ssd f)) pcie wb)
    (cp_maptbl f) (cp_rmap f) (cp_lines f) (cp_victim_line_pq f).

(** An instance of the loop of [conv_init_namespace]. *)
Definition conv_init_part (spp : ssdparams) : mem_op conv_ftl_p :=
  let! self := kmalloc in
  let! s := ssd_init spp in
  conv_init_ftl_p self s.

(** [kfree(conv_ftls[i].ssd->pcie->perf_model)] etc., and the pointers of instance 0. *)
Definition conv_share_part (f0 f : conv_ftl_p) : mem_op conv_ftl_p :=
  access (cp_ssd_self f) ;;!
  match sp_pcie (cp_ssd f) with
  | Some pcie =>
      access (pcie_self pcie) ;;!
      kfree (Some (pcie_perf_model pcie)) ;;!
      kfree (Some (pcie_self pcie))
  | None => fun _ => Fault
  end ;;!
  kfree (sp_write_buffer (cp_ssd f)) ;;!
  access (cp_ssd_self f0) ;;!
  ret (set_shared f (sp_pcie (cp_ssd f0)) (sp_write_buffer (cp_ssd f0))).

(** The array and its elements. *)
Record conv_ns_p := mk_conv_ns_p { cn_self : Z; cn_ftls : list conv_ftl_p }.

Definition conv_init_namespace_p (spp : ssdparams) (nr_parts : Z) : mem_op conv_ns_p :=
  let! self := kmalloc in
  let! ftls := times (Z.to_nat nr_parts) (conv_init_part spp) in
  match ftls with
  | [] => ret (mk_conv_ns_p self [])
  | f0 :: fs =>
      access self ;;!
      let! fs := each_map (conv_share_part f0) fs in
      ret (mk_conv_ns_p self (f0 :: fs))
  end.

Definition conv_remove_part (self : Z) (f : conv_ftl_p) : mem_op unit :=
  access self ;;!
  conv_remove_ftl f ;;!
  access (cp_ssd_self f) ;;!
  ssd_remove (cp_ssd f) ;;!
  kfree (Some (cp_ssd_self f)).

Definition conv_unshare_part (self : Z) (f : conv_ftl_p) : mem_op conv_ftl_p :=
  access self ;;!
  access (cp_ssd_self f) ;;!
  ret (set_shared f None None).

Definition conv_remove_namespace (n : conv_ns_p) : mem_op unit :=
  let! ftls :=
    match cn_ftls n with
    | [] => ret []
    | f0 :: fs => let! fs := each_map (conv_unshare_part (cn_self n)) fs in ret (f0 :: fs)
    end in
  each (conv_remove_part (cn_self n)) ftls ;;!
  kfree (Some (cn_self n)).

(** ** Zoned FTL (src/zns_ftl.c) *)
Record zns_ftl_p := mk_zns_p {
  zp_self : Z;
  zp_ssd_self : Z;
  zp_ssd : ssd_p;
  zp_zone_descs : Z;
  zp_report_buffer : Z;
  zp_zwra_buffer : ptr;
  zp_zone_write_buffer : ptr;
}.

Definition alloc_if (b : bool) : mem_op ptr := if b then let! p := kmalloc in ret (Some p) else ret None.

Definition zns_init_namespace_p (spp : ssdparams) (zpp : znsparams) : mem_op zns_ftl_p :=
  let! ssd_self := kmalloc in
  let! s := ssd_init spp in
  let! self := kmalloc in
  let! zone_descs := kmalloc in
  let! report_buffer := kmalloc in
  let! zwra_buffer := alloc_if (negb (zrwa_buffer_size zpp =? 0)) in
  let! zone_write_buffer := alloc_if (negb (zone_wb_size zpp =? 0)) in
  ret (mk_zns_p self ssd_self s zone_descs report_buffer zwra_buffer zone_write_buffer).

Definition __remove_descriptor (zpp : znsparams) (z : zns_ftl_p) : mem_op unit :=
  access (zp_self z) ;;!
  (if negb (zrwa_buffer_size zpp =? 0) then kfree (zp_zwra_buffer z) else ret tt) ;;!
  (if negb (zone_wb_size zpp =? 0) then kfree (zp_zone_write_buffer z) else ret tt) ;;!
  kfree (Some (zp_report_buffer z)) ;;!
  kfree (Some (zp_zone_descs z)).

Definition zns_remove_namespace (zpp : znsparams) (z : zns_ftl_p) : mem_op unit :=
  access (zp_self z) ;;!
  access (zp_ssd_self z) ;;!
  ssd_remove (zp_ssd z) ;;!
  __remove_descriptor zpp z ;;!
  kfree (Some (zp_ssd_self z)) ;;!
  kfree (Some (zp_self z)).

(** ** Key-value FTL (src/kv_ftl.c) *)

(** The last element of [iter_handle] is never initialised: looking at it is a fault. *)
Inductive iter_p := ITER_P_NULL | ITER_P_GARBAGE | ITER_P (ctx buf : Z).
Record kv_ftl_p := mk_kv_p { kp_self : Z; kp_kv_mapping_table : Z; kp_iter_handle : list iter_p }.

Definition kv_init_namespace_p : mem_op kv_ftl_p :=
  let! self := kmalloc in
  let! table := alloc MEMREMAP in
  ret (mk_kv_p self table (replicate 16 ITER_P_NULL ++ [ITER_P_GARBAGE])).
Definition kv_remove_namespace (k : kv_ftl_p) : mem_op unit := kfree (Some (kp_self k)).

Definition set_iter_p (k : kv_ftl_p) (l : list iter_p) : kv_ftl_p := mk_kv_p (kp_self k) (kp_kv_mapping_table k) l.
(** An operation that may fail without touching the heap. *)
Definition lift {A} (o : outcome A) : mem_op A := fun h => let* a := o in Ok (a, h).

Fixpoint free_handle_p (n : nat) (hs : list iter_p) (iter : Z) : outcome (option Z) :=
  match n with
  | O => Ok None
  | S n' =>
      let* p := nthZ hs iter in
      match p with
      | ITER_P_NULL => Ok (Some iter)
      | ITER_P_GARBAGE => Fault
      | ITER_P _ _ => free_handle_p n' hs (iter + 1)
      end
  end.
Definition kv_iter_open_p (k : kv_ftl_p) : mem_op kv_ftl_p :=
  let! r := lift (free_handle_p 16 (kp_iter_handle k) 1) in
  match r with
  | None => ret k
  | Some iter =>
      let! ctx := kmalloc in
      let! buf := kmalloc in
      let! hs := lift (updZ (kp_iter_handle k) iter (ITER_P ctx buf)) in
      ret (set_iter_p k hs)
  end.
Definition kv_iter_close_p (k : kv_ftl_p) (iter : Z) : mem_op kv_ftl_p :=
  let! p := lift (nthZ (kp_iter_handle k) iter) in
  match p with
  | ITER_P_NULL => ret k
  | ITER_P_GARBAGE => fun _ => Fault
  | ITER_P ctx buf =>
      access ctx ;;!
      kfree (Some buf) ;;!
      kfree (Some ctx) ;;!
      let! hs := lift (updZ (kp_iter_handle k) iter ITER_P_NULL) in
      ret (set_iter_p k hs)
  end.
(** The two buffers of [__do_perform_kv_batch]. *)
Definition kv_batch_p : mem_op unit :=
  let! value := kmalloc in
  let! buffer := kmalloc in
  kfree (Some value) ;;!
  kfree (Some buffer).

(** * The life of the module (src/main.c, src/pci.c, src/io.c, src/admin.c)

    What NVMeV_init allocates, what host and user make the device allocate and
    release while it runs, and what NVMeV_exit releases. *)

(** ** State *)
Inductive ns_p :=
| NS_SIMPLE
| NS_CONV (n : conv_ns_p)
| NS_ZNS (zpp : znsparams) (z : zns_ftl_p)
| NS_KV (k : kv_ftl_p).

(** What a namespace is built from. *)
Inductive ns_cfg :=
| CFG_SIMPLE
| CFG_CONV (spp : ssdparams) (nr_parts : Z)
| CFG_ZNS (spp : ssdparams) (zpp : znsparams)
| CFG_KV.

Record admin_q_p := mk_aq_p { aqp_self : Z; aqp_nvme_sq : ptr; aqp_nvme_cq : ptr }.
(** A queue of [sqes] or [cqes]: the object and its array of pages. *)
Definition queue_p : Type := option (Z * Z).

Record dev_p := mk_dev_p {
  vp_self : Z;
  vp_virtDev : Z;
  vp_bar : ptr;
  vp_old_bar : ptr;
  vp_old_dbs : ptr;
  vp_msix_table : ptr;
  vp_admin_q : option admin_q_p;
  vp_io_unit_stat : ptr;
  vp_storage_mapped : ptr;
  vp_proc : list Z;
  vp_ns : Z;
  vp_nss : list ns_p;
  vp_io_workers : Z;
  vp_work_queues : list Z;
  vp_sqes : list queue_p;
  vp_cqes : list queue_p;
  vp_nr_sq : Z;
  vp_nr_cq : Z;
}.

Definition vp_set_admin (d : dev_p) (q : option admin_q_p) : dev_p :=
  mk_dev_p (vp_self d) (vp_virtDev d) (vp_bar d) (vp_old_bar d) (vp_old_dbs d) (vp_msix_table d) q (vp_io_unit_stat d)
    (vp_storage_mapped d) (vp_proc d) (vp_ns d) (vp_nss d) (vp_io_workers d) (vp_work_queues d) (vp_sqes d) (vp_cqes d)
    (vp_nr_sq d) (vp_nr_cq d).
Definition vp_set_queues (d : dev_p) (sq cq : list queue_p) (nsq ncq : Z) : dev_p :=
  mk_dev_p (vp_self d) (vp_virtDev d) (vp_bar d) (vp_old_bar d) (vp_old_dbs d) (vp_msix_table d) (vp_admin_q d) (vp_io_unit_stat d)
    (vp_storage_mapped d) (vp_proc d) (vp_ns d) (vp_nss d) (vp_io_workers d) (vp_work_queues d) sq cq nsq ncq.
Definition vp_set_stat (d : dev_p) (p : ptr) : dev_p :=
  mk_dev_p (vp_self d) (vp_virtDev d) (vp_bar d) (vp_old_bar d) (vp_old_dbs d) (vp_msix_table d) (vp_admin_q d) p
    (vp_storage_mapped d) (vp_proc d) (vp_ns d) (vp_nss d) (vp_io_workers d) (vp_work_queues d) (vp_sqes d) (vp_cqes d)
    (vp_nr_sq d) (vp_nr_cq d).
Definition vp_set_nss (d : dev_p) (l : list ns_p) : dev_p :=
  mk_dev_p (vp_self d) (vp_virtDev d) (vp_bar d) (vp_old_bar d) (vp_old_dbs d) (vp_msix_table d) (vp_admin_q d) (vp_io_unit_stat d)
    (vp_storage_mapped d) (vp_proc d) (vp_ns d) l (vp_io_workers d) (vp_work_queues d) (vp_sqes d) (vp_cqes d)
    (vp_nr_sq d) (vp_nr_cq d).

(** ** Init *)
Definition VDEV_INIT : mem_op (Z * Z) :=
  let! self := kmalloc in
  let! virtDev := kmalloc in
  ret (self, virtDev).

(** [io_unit_stat], the mapping of the storage, the directory and five files. *)
Definition NVMEV_STORAGE_INIT : mem_op (Z * Z * list Z) :=
  let! stat := kmalloc in
  let! mapped := alloc MEMREMAP in
  let! proc := times 6 (alloc PROC_ENTRY) in
  ret (stat, mapped, proc).

Definition ns_init_p (c : ns_cfg) : mem_op ns_p :=
  match c with
  | CFG_SIMPLE => ret NS_SIMPLE
  | CFG_CONV spp parts => let! n := conv_init_namespace_p spp parts in ret (NS_CONV n)
  | CFG_ZNS spp zpp => let! z := zns_init_namespace_p spp zpp in ret (NS_ZNS zpp z)
  | CFG_KV => let! k := kv_init_namespace_p in ret (NS_KV k)
  end.
Definition NVMEV_NAMESPACE_INIT_p (cfg : list ns_cfg) : mem_op (Z * list ns_p) :=
  let! ns := kmalloc in
  let! nss := each_map ns_init_p cfg in
  ret (ns, nss).

(** The device on the new bus: registers, copies of them, interrupt table. *)
Definition __create_pci_bus_p : mem_op (Z * Z * Z * Z) :=
  let! bar := alloc MEMREMAP in
  let! old_dbs := kmalloc in
  let! old_bar := kmalloc in
  let! msix := alloc MEMREMAP in
  ret (bar, old_dbs, old_bar, msix).

Definition NVMEV_IO_WORKER_INIT_p (nr_io_workers : Z) : mem_op (Z * list Z) :=
  let! workers := kmalloc in
  let! qs := times (Z.to_nat nr_io_workers) kmalloc in
  ret (workers, qs).

(** ** Exit *)
Definition NVMEV_IO_WORKER_FINAL (d : dev_p) : mem_op unit :=
  each (fun wq => access (vp_io_workers d) ;;! kfree (Some wq)) (vp_work_queues d) ;;!
  kfree (Some (vp_io_workers d)).

Definition ns_remove_p (n : ns_p) : mem_op unit :=
  match n with
  | NS_SIMPLE => ret tt
  | NS_CONV n => conv_remove_namespace n
  | NS_ZNS zpp z => zns_remove_namespace zpp z
  | NS_KV k => kv_remove_namespace k
  end.
Definition NVMEV_NAMESPACE_FINAL (d : dev_p) : mem_op unit :=
  each (fun n => access (vp_ns d) ;;! ns_remove_p n) (vp_nss d) ;;!
  kfree (Some (vp_ns d)).

Definition NVMEV_STORAGE_FINAL (d : dev_p) : mem_op unit :=
  each (fun p => release PROC_ENTRY (Some p)) (vp_proc d) ;;!
  release MEMREMAP (vp_storage_mapped d) ;;!
  kfree (vp_io_unit_stat d).

Definition VDEV_FINALIZE (self virtDev : Z) (bar old_bar old_dbs msix : ptr) (aq : option admin_q_p) : mem_op unit :=
  access self ;;!
  release MEMREMAP msix ;;!
  release MEMREMAP bar ;;!
  kfree old_bar ;;!
  kfree old_dbs ;;!
  match aq with
  | Some q =>
      access (aqp_self q) ;;!
      kfree (aqp_nvme_cq q) ;;!
      kfree (aqp_nvme_sq q) ;;!
      kfree (Some (aqp_self q))
  | None => ret tt
  end ;;!
  kfree (Some virtDev) ;;!
  kfree (Some self).

(** [for (i = 0; i < nr; i++) kfree(queues[i])]: the queue only, not its pages. *)
Definition free_queues (qs : list queue_p) (nr : Z) : mem_op unit :=
  each (fun i => let! q := lift (nthZ qs i) in kfree (option_map fst q)) (seqZ 0 nr).

Definition NVMeV_exit (d : dev_p) : mem_op unit :=
  NVMEV_IO_WORKER_FINAL d ;;!
  NVMEV_NAMESPACE_FINAL d ;;!
  NVMEV_STORAGE_FINAL d ;;!
  free_queues (vp_sqes d) (vp_nr_sq d) ;;!
  free_queues (vp_cqes d) (vp_nr_cq d) ;;!
  VDEV_FINALIZE (vp_self d) (vp_virtDev d) (vp_bar d) (vp_old_bar d) (vp_old_dbs d) (vp_msix_table d) (vp_admin_q d).

(** ** The module *)

(** [config_ok]: [__load_configs] accepts the parameters; [bus_ok]: the kernel
    creates the bus.  [None] is the error. *)
Definition NVMeV_init_p (config_ok bus_ok : bool) (cfg : list ns_cfg) (nr_io_workers : Z) : mem_op (option dev_p) :=
  let! v := VDEV_INIT in
  let '(self, virtDev) := v in
  if negb config_ok then VDEV_FINALIZE self virtDev None None None None None ;;! ret None
  else
    let! st := NVMEV_STORAGE_INIT in
    let '(stat, mapped, proc) := st in
    let! nsl := NVMEV_NAMESPACE_INIT_p cfg in
    let '(ns, nss) := nsl in
    if negb bus_ok then VDEV_FINALIZE self virtDev None None None None None ;;! ret None
    else
      let! bus := __create_pci_bus_p in
      let '(bar, old_dbs, old_bar, msix) := bus in
      let! w := NVMEV_IO_WORKER_INIT_p nr_io_workers in
      let '(workers, qs) := w in
      ret (Some (mk_dev_p self virtDev (Some bar) (Some old_bar) (Some old_dbs) (Some msix) None (Some stat) (Some mapped) proc
        ns nss workers qs (replicate 73 None) (replicate 73 None) 0 0)).

(** ** While the device runs *)
Inductive mem_event :=
| EV_AQA | EV_ASQ | EV_ACQ
| EV_CREATE_CQ (qid : Z) | EV_DELETE_CQ (qid : Z) | EV_CREATE_SQ (qid : Z) | EV_DELETE_SQ (qid : Z)
| EV_NUM_QUEUES (nsq ncq : Z)
| EV_IO_UNITS
| EV_ITER_OPEN (ns : Z) | EV_ITER_CLOSE (ns iter : Z) | EV_KV_BATCH.

(** [nvmev_proc_bars]: a new AQA, ASQ, ACQ. *)
Definition proc_aqa_p (d : dev_p) : mem_op dev_p :=
  match vp_admin_q d with
  | None => let! q := kmalloc in ret (vp_set_admin d (Some (mk_aq_p q None None)))
  | Some _ => ret d
  end.
Definition proc_asq_p (d : dev_p) : mem_op dev_p :=
  match vp_admin_q d with
  | None => ret d
  | Some q =>
      access (aqp_self q) ;;!
      kfree (aqp_nvme_sq q) ;;!
      let! p := kmalloc in
      ret (vp_set_admin d (Some (mk_aq_p (aqp_self q) (Some p) (aqp_nvme_cq q))))
  end.
Definition proc_acq_p (d : dev_p) : mem_op dev_p :=
  match vp_admin_q d with
  | None => ret d
  | Some q =>
      access (aqp_self q) ;;!
      kfree (aqp_nvme_cq q) ;;!
      let! p := kmalloc in
      ret (vp_set_admin d (Some (mk_aq_p (aqp_self q) (aqp_nvme_sq q) (Some p))))
  end.

(** The create and delete commands, on [sqes] or [cqes]. *)
Definition create_queue_p (qs : list queue_p) (qid : Z) : mem_op (list queue_p) :=
  let! q := kmalloc in
  let! pages := kmalloc in
  lift (updZ qs qid (Some (q, pages))).
Definition delete_queue_p (qs : list queue_p) (qid : Z) : mem_op (list queue_p) :=
  let! q := lift (nthZ qs qid) in
  let! qs := lift (updZ qs qid None) in
  match q with
  | Some (q, pages) => access q ;;! kfree (Some pages) ;;! kfree (Some q) ;;! ret qs
  | None => ret qs
  end.

(** [__proc_file_write] of io_units. *)
Definition proc_io_units_p (d : dev_p) : mem_op dev_p :=
  let old_stat := vp_io_unit_stat d in
  let! p := kmalloc in
  kfree old_stat ;;!
  ret (vp_set_stat d (Some p)).

Definition with_kv (d : dev_p) (ns : Z) (f : kv_ftl_p -> mem_op kv_ftl_p) : mem_op dev_p :=
  let! n := lift (nthZ (vp_nss d) ns) in
  match n with
  | NS_KV k => let! k := f k in let! l := lift (updZ (vp_nss d) ns (NS_KV k)) in ret (vp_set_nss d l)
  | _ => ret d
  end.

Definition mem_step (d : dev_p) (e : mem_event) : mem_op dev_p :=
  match e with
  | EV_AQA => proc_aqa_p d
  | EV_ASQ => proc_asq_p d
  | EV_ACQ => proc_acq_p d
  | EV_CREATE_CQ q => let! l := create_queue_p (vp_cqes d) q in ret (vp_set_queues d (vp_sqes d) l (vp_nr_sq d) (vp_nr_cq d))
  | EV_DELETE_CQ q => let! l := delete_queue_p (vp_cqes d) q in ret (vp_set_queues d (vp_sqes d) l (vp_nr_sq d) (vp_nr_cq d))
  | EV_CREATE_SQ q => let! l := create_queue_p (vp_sqes d) q in ret (vp_set_queues d l (vp_cqes d) (vp_nr_sq d) (vp_nr_cq d))
  | EV_DELETE_SQ q => let! l := delete_queue_p (vp_sqes d) q in ret (vp_set_queues d l (vp_cqes d) (vp_nr_sq d) (vp_nr_cq d))
  | EV_NUM_QUEUES nsq ncq =>
      ret (vp_set_queues d (vp_sqes d) (vp_cqes d) (Z.min nsq NR_MAX_IO_QUEUE) (Z.min ncq NR_MAX_IO_QUEUE))
  | EV_IO_UNITS => proc_io_units_p d
  | EV_ITER_OPEN ns => with_kv d ns kv_iter_open_p
  | EV_ITER_CLOSE ns i => with_kv d ns (fun k => kv_iter_close_p k i)
  | EV_KV_BATCH => kv_batch_p ;;! ret d
  end.

Fixpoint mem_run (d : dev_p) (es : list mem_event) : mem_op dev_p :=
  match es with
  | [] => ret d
  | e :: es => let! d := mem_step d e in mem_run d es
  end.
