(* ===== verification/ModLifeFacts.v ===== *)
(** * ModLifeFacts: what is built up is taken down, by the FTLs and by the module

    A triple [spec m P Q] says that [m] turns the objects [P] into [Q a] and
    leaves any others alone; it is the frame rule and the absence of faults in
    one.  Each init function yields the footprint of its tree from nothing, and
    each remove function turns it into nothing. *)
From stdpp Require Import base list numbers sets gmap.
From Stdlib Require Import ZArith Lia.
From S2P Require Import Prelude ChannelModel SsdConfig Ssd WorkQueue IoDev IoQueue ZnsData Life.

Open Scope Z_scope.
Open Scope nvmev_scope.

(** ** Triples *)
Definition spec {A} (m : mem_op A) (P : list res) (Q : A -> list res) : Prop :=
  forall h R, h_live h ≡ₚ P ++ R -> exists a h', m h = Ok (a, h') /\ h_live h' ≡ₚ Q a ++ R.

Lemma spec_ret {A} (a : A) (Q : A -> list res) : spec (ret a) (Q a) Q.
Proof. intros h R Hh. by exists a, h. Qed.

Lemma spec_bind {A B} (m : mem_op A) (k : A -> mem_op B) P Q R :
  spec m P Q -> (forall a, spec (k a) (Q a) R) -> spec (bindM m k) P R.
Proof.
  intros Hm Hk h F Hh. destruct (Hm h F Hh) as (a & h1 & E & H1). destruct (Hk a h1 F H1) as (b & h2 & E2 & H2).
  exists b, h2. split; [|done]. unfold bindM. by rewrite E.
Qed.

Lemma spec_conseq {A} (m : mem_op A) P P' (Q Q' : A -> list res) :
  spec m P Q -> P' ≡ₚ P -> (forall a, Q a ≡ₚ Q' a) -> spec m P' Q'.
Proof.
  intros Hm HP HQ h F Hh. destruct (Hm h F) as (a & h1 & E & H1); [by rewrite <- HP|].
  exists a, h1. split; [done|]. by rewrite <- HQ.
Qed.

Lemma spec_frame {A} (m : mem_op A) P Q F : spec m P Q -> spec m (P ++ F) (fun a => Q a ++ F).
Proof.
  intros Hm h R Hh. destruct (Hm h (F ++ R)) as (a & h1 & E & H1); [by rewrite app_assoc|].
  exists a, h1. split; [done|]. by rewrite <- app_assoc.
Qed.

(** A step on a part of what is there. *)
Lemma spec_step {A B} (m : mem_op A) (k : A -> mem_op B) P Q F P' R :
  spec m P Q -> P' ≡ₚ P ++ F -> (forall a, spec (k a) (Q a ++ F) R) -> spec (bindM m k) P' R.
Proof.
  intros Hm HP Hk. eapply spec_conseq; [|exact HP|done]. eapply spec_bind; [by apply spec_frame|done].
Qed.

Lemma spec_perm {A} (m : mem_op A) P P' Q : P' ≡ₚ P -> spec m P Q -> spec m P' Q.
Proof. intros HP Hm. by eapply spec_conseq. Qed.

Lemma spec_ret_perm {A} (a : A) P (Q : A -> list res) : P ≡ₚ Q a -> spec (ret a) P Q.
Proof. intros HP. eapply spec_perm; [exact HP|apply spec_ret]. Qed.

(** ** Objects *)
Definition of_ptr (k : rkind) (p : ptr) : list res := match p with Some a => [(k, a)] | None => [] end.

Lemma remove_res_perm r l : r ∈ l -> exists l', remove_res r l = Some l' /\ l ≡ₚ r :: l'.
Proof.
  induction l as [|x l IH]; intros Hin; [by apply not_elem_of_nil in Hin|]. simpl. destruct (decide (x = r)) as [->|Hne]; [by exists l|].
  apply elem_of_cons in Hin as [->|Hin]; [done|]. destruct (IH Hin) as (l' & -> & Hp). exists (x :: l'). split; [done|].
  rewrite Hp. apply Permutation_swap.
Qed.

Lemma spec_alloc k : spec (alloc k) [] (fun a => [(k, a)]).
Proof. intros h R Hh. eexists _, _. split; [done|]. simpl. by rewrite Hh. Qed.

Lemma spec_release k p : spec (release k p) (of_ptr k p) (fun _ => []).
Proof.
  intros h R Hh. destruct p as [a|]; simpl in *; [|by exists tt, h].
  destruct (remove_res_perm (k, a) (h_live h)) as (l' & E & Hl); [rewrite Hh; by left|]. rewrite E. eexists tt, _. split; [done|]. simpl.
  rewrite Hh in Hl. by apply (Permutation_cons_inv (a:=(k, a))).
Qed.

Lemma spec_access a : spec (access a) [(KMALLOC, a)] (fun _ => [(KMALLOC, a)]).
Proof.
  intros h R Hh. exists tt, h. split; [|done]. unfold access. rewrite bool_decide_true; [done|]. rewrite Hh. by left.
Qed.

(** ** Loops *)
Lemma spec_times {A} n (m : mem_op A) Q : spec m [] Q -> spec (times n m) [] (fun l => concat (map Q l)).
Proof.
  intros Hm. induction n as [|n IH]; simpl; [by apply spec_ret_perm|]. eapply spec_bind; [exact Hm|]. intros a.
  eapply (spec_step _ _ [] _ (Q a)); [exact IH|done|]. intros l. apply spec_ret_perm. simpl. apply Permutation_app_comm.
Qed.

(** With objects [C] that every round needs. *)
Lemma spec_each {A} (f : A -> mem_op unit) fp C l :
  (forall a, spec (f a) (C ++ fp a) (fun _ => C)) -> spec (each f l) (C ++ concat (map fp l)) (fun _ => C).
Proof.
  intros Hf. induction l as [|a l IH]; simpl; [apply spec_ret_perm; by rewrite app_nil_r|].
  eapply (spec_step _ _ (C ++ fp a) _ (concat (map fp l))); [apply Hf|by rewrite app_assoc|]. intros ?. exact IH.
Qed.

Lemma spec_each_all {A} (f : A -> mem_op unit) fp l :
  (forall a, spec (f a) (fp a) (fun _ => [])) -> spec (each f l) (concat (map fp l)) (fun _ => []).
Proof. apply (spec_each f fp [] l). Qed.

Lemma spec_each_map {A B} (f : A -> mem_op B) fp fq C (phi : A -> Prop) l :
  (forall a, phi a -> spec (f a) (C ++ fp a) (fun b => C ++ fq b)) -> Forall phi l ->
  spec (each_map f l) (C ++ concat (map fp l)) (fun l' => C ++ concat (map fq l')).
Proof.
  intros Hf Hl. induction Hl as [|a l Ha Hl IH]; simpl; [by apply spec_ret_perm|].
  eapply (spec_step _ _ (C ++ fp a) _ (concat (map fp l))); [by apply Hf|by rewrite app_assoc|]. intros b.
  eapply (spec_step _ _ (C ++ concat (map fp l)) _ (fq b)); [exact IH|solve_Permutation|]. intros l'. apply spec_ret_perm. simpl. solve_Permutation.
Qed.

(** What a result satisfies, whatever the heap. *)
Definition yields {A} (phi : A -> Prop) (m : mem_op A) : Prop := forall h a h', m h = Ok (a, h') -> phi a.

Lemma yields_ret {A} (phi : A -> Prop) a : phi a -> yields phi (ret a).
Proof. by intros Ha h b h' [= <- <-]. Qed.
Lemma yields_bind {A B} (phi : B -> Prop) (psi : A -> Prop) m k :
  yields psi m -> (forall a, psi a -> yields phi (k a)) -> yields phi (bindM (B:=B) m k).
Proof. intros Hm Hk h b h' E. unfold bindM in E. destruct (m h) as [[a h1]| | |] eqn:Em; try done. by eapply Hk; [eapply Hm|]. Qed.
Lemma yields_any {A} (m : mem_op A) : yields (fun _ => True) m.
Proof. done. Qed.
Lemma yields_times {A} (phi : A -> Prop) n m : yields phi m -> yields (Forall phi) (times n m).
Proof.
  intros Hm. induction n as [|n IH]; simpl; [by apply yields_ret|]. eapply yields_bind; [exact Hm|]. intros a Ha.
  eapply yields_bind; [exact IH|]. intros l Hl. apply yields_ret. by constructor.
Qed.

Lemma spec_bind_yields {A B} (m : mem_op A) (k : A -> mem_op B) phi P Q R :
  spec m P Q -> yields phi m -> (forall a, phi a -> spec (k a) (Q a) R) -> spec (bindM m k) P R.
Proof.
  intros Hm Hy Hk h F Hh. destruct (Hm h F Hh) as (a & h1 & E & H1). destruct (Hk a (Hy _ _ _ E) h1 F H1) as (b & h2 & E2 & H2).
  exists b, h2. split; [|done]. unfold bindM. by rewrite E.
Qed.

(** ** Sequences of releases *)
Lemma spec_seq {A} (m : mem_op unit) (k : mem_op A) P P' Q : spec m P (fun _ => []) -> spec k P' Q -> spec (m ;;! k) (P ++ P') Q.
Proof. intros Hm Hk. eapply (spec_step _ _ P _ P'); [exact Hm|done|]. intros ?. exact Hk. Qed.

Lemma spec_access_in {A} a (k : mem_op A) P Q : (KMALLOC, a) ∈ P -> spec k P Q -> spec (access a ;;! k) P Q.
Proof.
  intros Hin Hk. apply elem_of_Permutation in Hin as [P' HP].
  eapply (spec_step _ _ [(KMALLOC, a)] _ P'); [apply spec_access|by rewrite HP|]. intros ?. by eapply spec_perm; [|exact Hk].
Qed.

Lemma spec_grow {A B} (m : mem_op A) (k : A -> mem_op B) Q F R :
  spec m [] Q -> (forall a, spec (k a) (Q a ++ F) R) -> spec (bindM m k) F R.
Proof. intros Hm Hk. by eapply (spec_step _ _ [] _ F). Qed.

Definition K (a : Z) : list res := [(KMALLOC, a)].
Definition V (a : Z) : list res := [(VMALLOC, a)].

Create HintDb life discriminated.
#[export] Hint Resolve spec_alloc spec_release spec_times spec_each_all : life.
#[export] Hint Extern 0 (spec (kfree _) _ _) => apply spec_release : life.
#[export] Hint Extern 0 (spec (vfree _) _ _) => apply spec_release : life.
#[export] Hint Extern 0 (spec kmalloc _ _) => apply spec_alloc : life.
#[export] Hint Extern 0 (spec vmalloc _ _) => apply spec_alloc : life.

Ltac grows := repeat (eapply spec_grow; [by eauto with life|intros ?]).
Ltac fits_perm := apply spec_ret_perm; unfold K, V, of_ptr; simpl; solve_Permutation.
Ltac in_list := simpl; set_solver.

(** ** Flash device *)
Definition fp_blk (b : nand_block_p) : list res := concat (map K (pp_sec b)) ++ K (pp_pg b).
Definition fp_plane (p : nand_plane_p) : list res := concat (map fp_blk (pp_blks p)) ++ K (pp_blk p).
Definition fp_lun (l : nand_lun_p) : list res := concat (map fp_plane (pp_pls l)) ++ K (pp_pl l).
Definition fp_ch (c : ssd_channel_p) : list res := K (pp_perf_model c) ++ concat (map fp_lun (pp_luns c)) ++ K (pp_lun c).
Definition fp_pcie (o : option ssd_pcie_p) : list res :=
  match o with Some p => K (pcie_perf_model p) ++ K (pcie_self p) | None => [] end.
Definition fp_ssd (s : ssd_p) : list res :=
  of_ptr KMALLOC (sp_write_buffer s) ++ fp_pcie (sp_pcie s) ++ concat (map fp_ch (sp_chs s)) ++ K (sp_ch s).

Section Ssd.
Variable spp : ssdparams.

Lemma init_page_spec : spec ssd_init_nand_page [] K.
Proof. apply spec_alloc. Qed.
Lemma remove_page_spec sec : spec (ssd_remove_nand_page sec) (K sec) (fun _ => []).
Proof. apply spec_release. Qed.
Hint Resolve init_page_spec remove_page_spec : life.

Lemma init_blk_spec : spec (ssd_init_nand_blk spp) [] fp_blk.
Proof. unfold ssd_init_nand_blk. grows. unfold fp_blk. fits_perm. Qed.
Lemma remove_blk_spec b : spec (ssd_remove_nand_blk b) (fp_blk b) (fun _ => []).
Proof. apply spec_seq; eauto with life. Qed.
Hint Resolve init_blk_spec remove_blk_spec : life.

Lemma init_plane_spec : spec (ssd_init_nand_plane spp) [] fp_plane.
Proof. unfold ssd_init_nand_plane. grows. unfold fp_plane. fits_perm. Qed.
Lemma remove_plane_spec p : spec (ssd_remove_nand_plane p) (fp_plane p) (fun _ => []).
Proof. apply spec_seq; eauto with life. Qed.
Hint Resolve init_plane_spec remove_plane_spec : life.

Lemma init_lun_spec : spec (ssd_init_nand_lun spp) [] fp_lun.
Proof. unfold ssd_init_nand_lun. grows. unfold fp_lun. fits_perm. Qed.
Lemma remove_lun_spec l : spec (ssd_remove_nand_lun l) (fp_lun l) (fun _ => []).
Proof. apply spec_seq; eauto with life. Qed.
Hint Resolve init_lun_spec remove_lun_spec : life.

Lemma init_ch_spec : spec (ssd_init_ch spp) [] fp_ch.
Proof. unfold ssd_init_ch. grows. unfold fp_ch. fits_perm. Qed.
Lemma remove_ch_spec c : spec (ssd_remove_ch c) (fp_ch c) (fun _ => []).
Proof. apply spec_seq; [eauto with life|]. apply spec_seq; eauto with life. Qed.
Hint Resolve init_ch_spec remove_ch_spec : life.

Lemma init_pcie_spec pcie : spec (ssd_init_pcie pcie) (K pcie) (fun p => fp_pcie (Some p)).
Proof. apply spec_access_in; [by left|]. grows. by apply spec_ret_perm. Qed.

Lemma init_ssd_spec : spec (ssd_init spp) [] fp_ssd.
Proof.
  unfold ssd_init. grows. eapply (spec_step _ _ (K a1) _ _); [apply init_pcie_spec|done|]. intros pcie. grows.
  unfold fp_ssd, fp_pcie. fits_perm.
Qed.

Lemma remove_pcie_spec {A} pcie (k : mem_op A) P Q : spec k P Q ->
  spec (access (pcie_self pcie) ;;! kfree (Some (pcie_perf_model pcie)) ;;! kfree (Some (pcie_self pcie)) ;;! k) (fp_pcie (Some pcie) ++ P) Q.
Proof.
  intros Hk. apply spec_access_in; [unfold fp_pcie, K; in_list|]. unfold fp_pcie. rewrite <- app_assoc.
  apply spec_seq; [eauto with life|]. apply spec_seq; eauto with life.
Qed.

Lemma remove_ssd_spec s : spec (ssd_remove s) (fp_ssd s) (fun _ => []).
Proof.
  unfold ssd_remove, fp_ssd. apply spec_seq; [eauto with life|]. apply spec_seq; [|apply spec_seq; eauto with life].
  destruct (sp_pcie s) as [p|]; [|by apply spec_ret_perm]. apply spec_access_in; [unfold fp_pcie, K; in_list|]. apply spec_seq; eauto with life.
Qed.
End Ssd.
#[export] Hint Resolve init_ssd_spec remove_ssd_spec : life.

(** ** Page-mapping FTL *)
Definition fp_pqueue (q : pqueue_p) : list res := K (pq_d q) ++ K (pq_self q).
Definition fp_tables (f : conv_ftl_p) : list res :=
  (fp_pqueue (cp_victim_line_pq f) ++ V (cp_lines f)) ++ V (cp_rmap f) ++ V (cp_maptbl f).
Definition fp_part (f : conv_ftl_p) : list res := fp_tables f ++ fp_ssd (cp_ssd f) ++ K (cp_ssd_self f).
Definition unshared (f : conv_ftl_p) : conv_ftl_p := set_shared f None None.

(** Instance 0 owns the link and the write buffer; the others refer to them. *)
Definition fp_conv (n : conv_ns_p) : list res :=
  match cn_ftls n with
  | [] => K (cn_self n)
  | f0 :: fs => K (cn_self n) ++ fp_part f0 ++ concat (map (fun f => fp_part (unshared f)) fs)
  end.

Definition has_pcie (f : conv_ftl_p) : Prop := is_Some (sp_pcie (cp_ssd f)).

Lemma init_pqueue_spec : spec pqueue_init_p [] fp_pqueue.
Proof. unfold pqueue_init_p. grows. unfold fp_pqueue. fits_perm. Qed.
Hint Resolve init_pqueue_spec : life.

Lemma init_part_spec spp : spec (conv_init_part spp) [] fp_part.
Proof.
  unfold conv_init_part, conv_init_ftl_p. grows. unfold fp_part, fp_tables. fits_perm.
Qed.

Lemma init_part_pcie spp : yields has_pcie (conv_init_part spp).
Proof.
  eapply yields_bind; [apply yields_any|]. intros self _.
  apply (yields_bind _ (fun s => is_Some (sp_pcie s))).
  - unfold ssd_init. repeat (eapply yields_bind; [apply yields_any|]; intros ? _). by apply yields_ret.
  - intros s Hs. unfold conv_init_ftl_p. repeat (eapply yields_bind; [apply yields_any|]; intros ? _). by apply yields_ret.
Qed.

Lemma share_part_spec f0 C f : (KMALLOC, cp_ssd_self f0) ∈ C -> has_pcie f ->
  spec (conv_share_part f0 f) (C ++ fp_part f) (fun b => C ++ fp_part (unshared b)).
Proof.
  intros Hf0 [pcie Hp]. unfold conv_share_part. rewrite Hp.
  apply (spec_perm _ (fp_pcie (Some pcie) ++ of_ptr KMALLOC (sp_write_buffer (cp_ssd f)) ++ C ++ fp_part (unshared f))).
  { unfold fp_part, fp_ssd. rewrite Hp. simpl. solve_Permutation. }
  apply spec_access_in; [unfold fp_part, K; in_list|]. apply spec_seq.
  - apply spec_access_in; [unfold fp_pcie, K; in_list|]. apply spec_seq; eauto with life.
  - apply spec_seq; [eauto with life|]. apply spec_access_in; [in_list|]. by apply spec_ret_perm.
Qed.

Lemma init_conv_spec spp n : spec (conv_init_namespace_p spp n) [] fp_conv.
Proof.
  unfold conv_init_namespace_p. eapply spec_grow; [apply spec_alloc|]. intros self.
  eapply (spec_bind_yields _ _ (Forall has_pcie)).
  - apply (spec_frame _ []), spec_times, init_part_spec.
  - apply yields_times, init_part_pcie.
  - intros [|f0 fs] Hl; [by apply spec_ret_perm|]. apply Forall_cons_1 in Hl as [_ Hl].
    apply spec_access_in; [simpl; in_list|].
    eapply (spec_step _ _ ((K self ++ fp_part f0) ++ concat (map fp_part fs)) _ []);
      [eapply (spec_each_map (conv_share_part f0) fp_part); [|exact Hl]|simpl; solve_Permutation|].
    + intros f Hf. apply share_part_spec; [unfold fp_part, K; in_list|exact Hf].
    + intros l. apply spec_ret_perm. unfold fp_conv. simpl. solve_Permutation.
Qed.

Lemma remove_part_spec self f : spec (conv_remove_part self f) (K self ++ fp_part f) (fun _ => K self).
Proof.
  unfold conv_remove_part. apply spec_access_in; [unfold K; in_list|].
  eapply (spec_step _ _ (fp_tables f) (fun _ => []) (K self ++ fp_ssd (cp_ssd f) ++ K (cp_ssd_self f))).
  - unfold conv_remove_ftl, remove_lines, pqueue_free, remove_rmap, remove_maptbl. apply spec_seq; [|apply spec_seq; eauto with life].
    apply spec_seq; [|eauto with life]. apply spec_access_in; [unfold fp_pqueue, K; in_list|]. apply spec_seq; eauto with life.
  - unfold fp_part. solve_Permutation.
  - intros ?. apply spec_access_in; [unfold K; in_list|].
    eapply (spec_step _ _ (fp_ssd (cp_ssd f)) (fun _ => []) (K self ++ K (cp_ssd_self f))); [apply remove_ssd_spec|solve_Permutation|].
    intros ?. apply (spec_perm _ (K (cp_ssd_self f) ++ K self)); [simpl; solve_Permutation|].
    apply (spec_frame _ (K (cp_ssd_self f)) (fun _ => [])), spec_release.
Qed.

Lemma unshare_part_spec self C f : (KMALLOC, self) ∈ C ->
  spec (conv_unshare_part self f) (C ++ fp_part (unshared f)) (fun b => C ++ fp_part b).
Proof.
  intros Hs. apply spec_access_in; [in_list|]. apply spec_access_in; [unfold fp_part, K; simpl; in_list|]. by apply spec_ret_perm.
Qed.

Lemma remove_conv_spec n : spec (conv_remove_namespace n) (fp_conv n) (fun _ => []).
Proof.
  destruct n as [self ftls]. unfold conv_remove_namespace, fp_conv. simpl.
  apply (spec_bind _ _ _ (fun l => K self ++ concat (map fp_part l)));
    [|intros l; eapply spec_bind; [apply spec_each, remove_part_spec|]; intros ?; eauto with life].
  destruct ftls as [|f0 fs]; [by apply spec_ret_perm|].
  eapply (spec_step _ _ ((K self ++ fp_part f0) ++ concat (map (fun f => fp_part (unshared f)) fs)) _ []);
    [eapply (spec_each_map (conv_unshare_part self) _ _ _ (fun _ => True)); [|by apply Forall_true]|solve_Permutation|].
  - intros f _. apply unshare_part_spec. unfold K; in_list.
  - intros l. apply spec_ret_perm. simpl. solve_Permutation.
Qed.

(** ** Zoned FTL *)
Definition fp_zns (zpp : znsparams) (z : zns_ftl_p) : list res :=
  fp_ssd (zp_ssd z)
  ++ ((if negb (zrwa_buffer_size zpp =? 0) then of_ptr KMALLOC (zp_zwra_buffer z) else [])
      ++ (if negb (zone_wb_size zpp =? 0) then of_ptr KMALLOC (zp_zone_write_buffer z) else [])
      ++ K (zp_report_buffer z) ++ K (zp_zone_descs z))
  ++ K (zp_ssd_self z) ++ K (zp_self z).

Lemma alloc_if_spec b : spec (alloc_if b) [] (fun p => if b then of_ptr KMALLOC p else []).
Proof. destruct b; simpl; [grows; by apply spec_ret_perm|by apply spec_ret_perm]. Qed.
Hint Resolve alloc_if_spec : life.

Lemma init_zns_spec spp zpp : spec (zns_init_namespace_p spp zpp) [] (fp_zns zpp).
Proof. unfold zns_init_namespace_p. grows. unfold fp_zns. fits_perm. Qed.

Lemma remove_zns_spec zpp z : spec (zns_remove_namespace zpp z) (fp_zns zpp z) (fun _ => []).
Proof.
  unfold zns_remove_namespace, fp_zns. apply spec_access_in; [unfold K; in_list|]. apply spec_access_in; [unfold K; in_list|].
  apply spec_seq; [eauto with life|].
  set (D := _ ++ _ ++ K (zp_report_buffer z) ++ _).
  eapply (spec_step _ _ (D ++ K (zp_self z)) (fun _ => K (zp_self z)) (K (zp_ssd_self z))); [|solve_Permutation|].
  - apply spec_access_in; [unfold K; in_list|]. apply (spec_frame _ D (fun _ => [])).
    unfold D. repeat (apply spec_seq; [try case_match; first [by eauto with life|by apply spec_ret_perm]|]). eauto with life.
  - intros ?. apply (spec_perm _ (K (zp_ssd_self z) ++ K (zp_self z))); [solve_Permutation|]. apply spec_seq; eauto with life.
Qed.

(** ** Key-value FTL *)
Definition fp_iter (i : iter_p) : list res := match i with ITER_P ctx buf => K buf ++ K ctx | _ => [] end.
Definition fp_iters (k : kv_ftl_p) : list res := concat (map fp_iter (kp_iter_handle k)).
(** What stays when the namespace is removed. *)
Definition kv_rest (k : kv_ftl_p) : list res := (MEMREMAP, kp_kv_mapping_table k) :: fp_iters k.
Definition fp_kv (k : kv_ftl_p) : list res := K (kp_self k) ++ kv_rest k.

Definition kv_wf (k : kv_ftl_p) : Prop :=
  length (kp_iter_handle k) = 17%nat /\ kp_iter_handle k !! 16%nat = Some ITER_P_GARBAGE /\
  forall i, (i < 16)%nat -> kp_iter_handle k !! i <> Some ITER_P_GARBAGE.

Lemma init_kv_spec : spec kv_init_namespace_p [] fp_kv.
Proof. unfold kv_init_namespace_p. grows. unfold fp_kv, kv_rest, fp_iters. simpl. fits_perm. Qed.

Lemma init_kv_wf : yields kv_wf kv_init_namespace_p.
Proof.
  unfold kv_init_namespace_p. repeat (eapply yields_bind; [apply yields_any|]; intros ? _). apply yields_ret. split_and!; [done..|].
  intros i Hi. simpl. do 16 (destruct i as [|i]; [done|]). lia.
Qed.

Lemma remove_kv_spec k : spec (kv_remove_namespace k) (fp_kv k) (fun _ => kv_rest k).
Proof. unfold kv_remove_namespace, fp_kv. apply (spec_frame _ (K (kp_self k)) (fun _ => [])), spec_release. Qed.

(** The fifteen handles that the namespace has are in use. *)
Definition iters_full (k : kv_ftl_p) : Prop := forall j, 1 <= j < 16 -> nthZ (kp_iter_handle k) j <> Ok ITER_P_NULL.

Lemma free_handle_p_spec k n i : kv_wf k -> 0 <= i <= 16 -> i + Z.of_nat n = 17 ->
  match free_handle_p n (kp_iter_handle k) i with
  | Ok (Some j) => i <= j < 16 /\ nthZ (kp_iter_handle k) j = Ok ITER_P_NULL
  | Fault => forall j, i <= j < 16 -> nthZ (kp_iter_handle k) j <> Ok ITER_P_NULL
  | _ => False
  end.
Proof.
  intros (Hlen & Hg & Hn). revert i. induction n as [|n IH]; intros i Hi En; [lia|]. cbn [free_handle_p].
  destruct (nthZ_in_range (kp_iter_handle k) i) as [p Hp]; [rewrite Hlen; lia|]. rewrite Hp. cbn [obind].
  pose proof Hp as Hl. apply nthZ_Ok in Hl as [_ Hl].
  destruct (decide (i = 16)) as [->|Hne].
  { change (Z.to_nat 16) with 16%nat in Hl. assert (p = ITER_P_GARBAGE) as -> by congruence. intros j Hj. lia. }
  destruct p as [| |c b]; [split; [lia|done]|destruct (Hn (Z.to_nat i)); [lia|done]|].
  specialize (IH (i + 1) ltac:(lia) ltac:(lia)). destruct (free_handle_p n _ (i + 1)) as [[j|]| | |]; try done.
  - destruct IH. split; [lia|done].
  - intros j Hj. destruct (decide (j = i)) as [->|]; [rewrite Hp; congruence|apply IH; lia].
Qed.

(** * The memory of the module from init to exit *)

(** ** Footprints *)
Definition fp_ns (n : ns_p) : list res :=
  match n with
  | NS_SIMPLE => []
  | NS_CONV n => fp_conv n
  | NS_ZNS zpp z => fp_zns zpp z
  | NS_KV k => fp_kv k
  end.
(** What the removal of the namespace leaves: table and open iterators of the key-value FTL. *)
Definition ns_rest (n : ns_p) : list res := match n with NS_KV k => kv_rest k | _ => [] end.

Definition fp_queue (q : queue_p) : list res := match q with Some (q, pages) => K q ++ K pages | None => [] end.
Definition fp_pages (q : queue_p) : list res := match q with Some (_, pages) => K pages | None => [] end.
Definition fp_queues (qs : list queue_p) : list res := concat (map fp_queue qs).
(** What the loop of [NVMeV_exit] leaves: the page arrays of the queues that it
    visits, and all of those that it does not. *)
Definition queues_rest (qs : list queue_p) (nr : Z) : list res :=
  concat (map fp_pages (take (Z.to_nat nr) qs)) ++ fp_queues (drop (Z.to_nat nr) qs).

Definition fp_aq (q : option admin_q_p) : list res :=
  match q with
  | Some q => of_ptr KMALLOC (aqp_nvme_cq q) ++ of_ptr KMALLOC (aqp_nvme_sq q) ++ K (aqp_self q)
  | None => []
  end.
Definition fp_vdev (self virtDev : Z) (bar old_bar old_dbs msix : ptr) (aq : option admin_q_p) : list res :=
  of_ptr MEMREMAP msix ++ of_ptr MEMREMAP bar ++ of_ptr KMALLOC old_bar ++ of_ptr KMALLOC old_dbs ++ fp_aq aq ++ K virtDev ++ K self.

Definition fp_workers (d : dev_p) : list res := K (vp_io_workers d) ++ concat (map K (vp_work_queues d)).
Definition fp_nss (ns : Z) (nss : list ns_p) : list res := K ns ++ concat (map fp_ns nss).
Definition fp_storage (stat mapped : ptr) (proc : list Z) : list res :=
  concat (map (fun p => [(PROC_ENTRY, p)]) proc) ++ of_ptr MEMREMAP mapped ++ of_ptr KMALLOC stat.

Definition fp_dev (d : dev_p) : list res :=
  fp_workers d ++ fp_nss (vp_ns d) (vp_nss d) ++ fp_storage (vp_io_unit_stat d) (vp_storage_mapped d) (vp_proc d) ++
  fp_queues (vp_sqes d) ++ fp_queues (vp_cqes d) ++
  fp_vdev (vp_self d) (vp_virtDev d) (vp_bar d) (vp_old_bar d) (vp_old_dbs d) (vp_msix_table d) (vp_admin_q d).

(** What is still allocated when the module is gone. *)
Definition unreleased (d : dev_p) : list res :=
  concat (map ns_rest (vp_nss d)) ++ queues_rest (vp_sqes d) (vp_nr_sq d) ++ queues_rest (vp_cqes d) (vp_nr_cq d).

(** ** Exit *)
Lemma spec_each_rest {A} (f : A -> mem_op unit) fp rest C l :
  (forall a, spec (f a) (C ++ fp a) (fun _ => C ++ rest a)) ->
  spec (each f l) (C ++ concat (map fp l)) (fun _ => C ++ concat (map rest l)).
Proof.
  intros Hf. induction l as [|a l IH]; simpl; [by apply spec_ret_perm|].
  eapply (spec_step _ _ (C ++ fp a) _ (concat (map fp l))); [apply Hf|solve_Permutation|]. intros ?.
  eapply spec_conseq; [eapply (spec_frame _ _ _ (rest a)), IH|solve_Permutation|intros ?; solve_Permutation].
Qed.

Lemma workers_final d : spec (NVMEV_IO_WORKER_FINAL d) (fp_workers d) (fun _ => []).
Proof.
  unfold NVMEV_IO_WORKER_FINAL, fp_workers. eapply spec_bind; [|intros ?; apply spec_release].
  apply (spec_each _ K (K (vp_io_workers d))). intros wq. apply spec_access_in; [unfold K; in_list|].
  apply (spec_perm _ (K wq ++ K (vp_io_workers d))); [solve_Permutation|]. apply (spec_frame _ (K wq) (fun _ => [])), spec_release.
Qed.

Lemma ns_remove_spec n : spec (ns_remove_p n) (fp_ns n) (fun _ => ns_rest n).
Proof.
  destruct n; simpl; [by apply spec_ret_perm|apply remove_conv_spec|apply remove_zns_spec|apply remove_kv_spec].
Qed.

Lemma namespaces_final d : spec (NVMEV_NAMESPACE_FINAL d) (fp_nss (vp_ns d) (vp_nss d)) (fun _ => concat (map ns_rest (vp_nss d))).
Proof.
  unfold NVMEV_NAMESPACE_FINAL, fp_nss. eapply spec_bind.
  - apply (spec_each_rest _ fp_ns ns_rest (K (vp_ns d))). intros n. apply spec_access_in; [unfold K; in_list|].
    eapply spec_conseq; [eapply (spec_frame _ _ _ (K (vp_ns d))), ns_remove_spec|solve_Permutation|intros ?; solve_Permutation].
  - intros ?. apply (spec_frame _ (K (vp_ns d)) (fun _ => [])), spec_release.
Qed.

Lemma storage_final d : spec (NVMEV_STORAGE_FINAL d) (fp_storage (vp_io_unit_stat d) (vp_storage_mapped d) (vp_proc d)) (fun _ => []).
Proof.
  unfold NVMEV_STORAGE_FINAL, fp_storage. apply spec_seq; [|apply spec_seq; eauto with life].
  apply spec_each_all. intros p. apply (spec_release PROC_ENTRY (Some p)).
Qed.

Lemma free_queues_part qs pre cur post : qs = pre ++ cur ++ post ->
  spec (each (fun i => let! q := lift (nthZ qs i) in kfree (option_map fst q)) (seqZ (Z.of_nat (length pre)) (Z.of_nat (length cur))))
    (fp_queues cur) (fun _ => concat (map fp_pages cur)).
Proof.
  revert pre. induction cur as [|q cur IH]; intros pre Hqs; [by apply spec_ret_perm|].
  simpl length. rewrite seqZ_cons by lia. simpl. unfold fp_queues. simpl.
  eapply (spec_step _ _ (fp_queue q) (fun _ => fp_pages q) (fp_queues cur)); [|done|].
  - intros h R Hh. unfold bindM, lift, nthZ. rewrite (proj2 (Z.leb_le _ _)) by lia.
    rewrite Nat2Z.id, Hqs, <- app_comm_cons, list_lookup_middle by done. simpl. destruct q as [[a b]|]; simpl.
    + exact (spec_frame _ (K a) (fun _ => []) (K b) (spec_release KMALLOC (Some a)) h R Hh).
    + by exists tt, h.
  - intros ?. specialize (IH (pre ++ [q])). rewrite length_app in IH. simpl in IH.
    replace (Z.of_nat (length pre + 1)) with (Z.succ (Z.of_nat (length pre))) in IH by lia.
    replace (Z.pred (Z.of_nat (S (length cur)))) with (Z.of_nat (length cur)) by lia.
    eapply spec_conseq; [eapply (spec_frame _ _ _ (fp_pages q)), IH; rewrite Hqs, <- app_assoc; done|solve_Permutation|intros ?; solve_Permutation].
Qed.

Lemma free_queues_spec qs nr : 0 <= nr <= Z.of_nat (length qs) -> spec (free_queues qs nr) (fp_queues qs) (fun _ => queues_rest qs nr).
Proof.
  intros Hnr. unfold queue_p in *. unfold free_queues, queues_rest.
  pose proof (free_queues_part qs [] (take (Z.to_nat nr) qs) (drop (Z.to_nat nr) qs)) as Hp.
  rewrite length_take, Nat.min_l, Z2Nat.id in Hp by lia.
  eapply spec_conseq; [eapply (spec_frame _ _ _ (fp_queues (drop (Z.to_nat nr) qs))), Hp; by rewrite app_nil_l, take_drop| |done].
  unfold fp_queues. by rewrite <- concat_app, <- map_app, take_drop.
Qed.

Lemma vdev_finalize self virtDev bar old_bar old_dbs msix aq :
  spec (VDEV_FINALIZE self virtDev bar old_bar old_dbs msix aq) (fp_vdev self virtDev bar old_bar old_dbs msix aq) (fun _ => []).
Proof.
  unfold VDEV_FINALIZE, fp_vdev. apply spec_access_in; [unfold K; in_list|]. do 4 (apply spec_seq; [eauto with life|]).
  apply spec_seq; [|apply spec_seq; eauto with life]. destruct aq as [q|]; [|by apply spec_ret_perm].
  apply spec_access_in; [unfold fp_aq, K; in_list|]. do 2 (apply spec_seq; [eauto with life|]). eauto with life.
Qed.

(** ** What holds while the device runs *)
Definition ns_wf (n : ns_p) : Prop := match n with NS_KV k => kv_wf k | _ => True end.
Record dev_wf (d : dev_p) : Prop := {
  dw_sqes : Z.of_nat (length (vp_sqes d)) = NR_MAX_IO_QUEUE + 1;
  dw_cqes : Z.of_nat (length (vp_cqes d)) = NR_MAX_IO_QUEUE + 1;
  dw_nr_sq : 0 <= vp_nr_sq d <= NR_MAX_IO_QUEUE;
  dw_nr_cq : 0 <= vp_nr_cq d <= NR_MAX_IO_QUEUE;
  dw_nss : Forall ns_wf (vp_nss d);
}.

Lemma exit_spec d : dev_wf d -> spec (NVMeV_exit d) (fp_dev d) (fun _ => unreleased d).
Proof.
  intros [W1 W2 W3 W4 _]. unfold NVMeV_exit, fp_dev, unreleased. apply spec_seq; [apply workers_final|].
  set (N := concat (map ns_rest _)). set (S := fp_queues (vp_sqes d)). set (C := fp_queues (vp_cqes d)).
  set (SR := queues_rest (vp_sqes d) _). set (CR := queues_rest (vp_cqes d) _). set (D := fp_vdev _ _ _ _ _ _ _).
  eapply spec_step; [apply namespaces_final|done|]. intros ?. fold N.
  eapply (spec_step _ _ _ _ (N ++ S ++ C ++ D)); [apply storage_final|solve_Permutation|]. intros ?.
  eapply (spec_step _ _ _ _ (N ++ C ++ D)); [apply free_queues_spec; lia|fold S; simpl; solve_Permutation|]. intros ?. fold SR.
  eapply (spec_step _ _ _ _ (SR ++ N ++ D)); [apply free_queues_spec; lia|fold C; simpl; solve_Permutation|]. intros ?. fold CR.
  eapply spec_conseq; [eapply (spec_frame _ _ _ (CR ++ SR ++ N)), vdev_finalize|fold D; solve_Permutation|intros ?; simpl; solve_Permutation].
Qed.

(** ** Init *)
Lemma yields_lift {A B} (o : outcome A) a (k : A -> mem_op B) phi : o = Ok a -> yields phi (k a) -> yields phi (bindM (lift o) k).
Proof. intros -> Hk. exact Hk. Qed.
Lemma spec_lift {A B} (o : outcome A) a (k : A -> mem_op B) P Q : o = Ok a -> spec (k a) P Q -> spec (bindM (lift o) k) P Q.
Proof. intros -> Hk. exact Hk. Qed.

Lemma ns_init_spec c : spec (ns_init_p c) [] fp_ns.
Proof.
  destruct c; simpl; [by apply spec_ret_perm| | |];
    (eapply spec_grow; [first [apply init_conv_spec|apply init_zns_spec|apply init_kv_spec]|]; intros ?; apply spec_ret_perm; simpl; by rewrite app_nil_r).
Qed.

Lemma ns_init_wf c : yields ns_wf (ns_init_p c).
Proof.
  destruct c; simpl; [by apply yields_ret| | |].
  1-2: eapply yields_bind; [apply yields_any|]; intros ? _; by apply yields_ret.
  eapply yields_bind; [apply init_kv_wf|]. intros k Hk. by apply yields_ret.
Qed.

Lemma yields_each_map {A B} (phi : B -> Prop) (f : A -> mem_op B) l : (forall a, yields phi (f a)) -> yields (Forall phi) (each_map f l).
Proof.
  intros Hf. induction l as [|a l IH]; simpl; [by apply yields_ret|]. eapply yields_bind; [apply Hf|]. intros b Hb.
  eapply yields_bind; [exact IH|]. intros bs Hbs. apply yields_ret. by constructor.
Qed.

Lemma namespace_init_spec cfg : spec (NVMEV_NAMESPACE_INIT_p cfg) [] (fun r => fp_nss r.1 r.2).
Proof.
  unfold NVMEV_NAMESPACE_INIT_p. eapply spec_grow; [apply spec_alloc|]. intros ns.
  eapply (spec_step _ _ ([] ++ concat (map (fun _ => []) cfg)) _ (K ns)).
  - eapply (spec_each_map ns_init_p _ _ _ (fun _ => True)); [|by apply Forall_true]. intros c _. apply ns_init_spec.
  - simpl. replace (concat (map (fun _ => []) cfg)) with (@nil res); [done|]. by induction cfg.
  - intros l. apply spec_ret_perm. unfold fp_nss. simpl. solve_Permutation.
Qed.

Lemma namespace_init_wf cfg : yields (fun r => Forall ns_wf r.2) (NVMEV_NAMESPACE_INIT_p cfg).
Proof.
  eapply yields_bind; [apply yields_any|]. intros ns _. eapply yields_bind; [apply yields_each_map, ns_init_wf|]. intros l Hl. by apply yields_ret.
Qed.

Lemma storage_init_spec : spec NVMEV_STORAGE_INIT [] (fun r => let '(stat, mapped, proc) := r in fp_storage (Some stat) (Some mapped) proc).
Proof.
  unfold NVMEV_STORAGE_INIT. grows. unfold fp_storage. fits_perm.
Qed.

Lemma bus_spec : spec __create_pci_bus_p [] (fun r => let '(bar, old_dbs, old_bar, msix) := r in
  (MEMREMAP, bar) :: K old_dbs ++ K old_bar ++ [(MEMREMAP, msix)]).
Proof. unfold __create_pci_bus_p. grows. fits_perm. Qed.

Lemma workers_init_spec n : spec (NVMEV_IO_WORKER_INIT_p n) [] (fun r => let '(w, qs) := r in K w ++ concat (map K qs)).
Proof. unfold NVMEV_IO_WORKER_INIT_p. grows. fits_perm. Qed.

Lemma vdev_init_spec : spec VDEV_INIT [] (fun v => K v.1 ++ K v.2).
Proof. unfold VDEV_INIT. grows. fits_perm. Qed.

Lemma init_spec cfg n : spec (NVMeV_init_p true true cfg n) [] (fun r => match r with Some d => fp_dev d | None => [] end).
Proof.
  unfold NVMeV_init_p. eapply spec_grow; [apply vdev_init_spec|]. intros [self virtDev]. simpl negb. cbn iota.
  eapply spec_grow; [apply storage_init_spec|]. intros [[stat mapped] proc].
  eapply spec_grow; [apply namespace_init_spec|]. intros [ns nss]. cbn iota.
  eapply spec_grow; [apply bus_spec|]. intros [[[bar old_dbs] old_bar] msix].
  eapply spec_grow; [apply workers_init_spec|]. intros [w qs]. apply spec_ret_perm.
  unfold fp_dev, fp_workers, fp_vdev, fp_aq. simpl. unfold K. solve_Permutation.
Qed.

Lemma init_wf cfg n : yields (fun r => exists d, r = Some d /\ dev_wf d) (NVMeV_init_p true true cfg n).
Proof.
  unfold NVMeV_init_p. eapply yields_bind; [apply yields_any|]. intros [self virtDev] _. simpl negb. cbn iota.
  eapply yields_bind; [apply yields_any|]. intros [[stat mapped] proc] _.
  eapply yields_bind; [apply namespace_init_wf|]. intros [ns nss] Hn. cbn iota.
  eapply yields_bind; [apply yields_any|]. intros [[[bar old_dbs] old_bar] msix] _.
  eapply yields_bind; [apply yields_any|]. intros [w qs] _. apply yields_ret. eexists. split; [done|]. split; simpl; unfold NR_MAX_IO_QUEUE; [done..|lia|lia|exact Hn].
Qed.

(** A parameter error releases everything; a failure behind it leaves storage,
    files and namespaces allocated. *)
Lemma init_config_error bus_ok cfg n h : exists h', NVMeV_init_p false bus_ok cfg n h = Ok (None, h') /\ h_live h' ≡ₚ h_live h.
Proof.
  assert (Hs : spec (NVMeV_init_p false bus_ok cfg n) [] (fun r => match r with Some _ => [(KMALLOC, 0)] | None => [] end)).
  { unfold NVMeV_init_p. eapply spec_grow; [apply vdev_init_spec|]. intros [self virtDev]. simpl negb. cbn iota.
    eapply spec_bind; [apply (spec_perm _ (fp_vdev self virtDev None None None None None)); [unfold fp_vdev; simpl; solve_Permutation|apply vdev_finalize]|]. intros ?. by apply spec_ret_perm. }
  assert (Hy : yields (fun r => r = None) (NVMeV_init_p false bus_ok cfg n)).
  { unfold NVMeV_init_p. eapply yields_bind; [apply yields_any|]. intros [self virtDev] _. simpl negb. cbn iota.
    eapply yields_bind; [apply yields_any|]. intros ? _. by apply yields_ret. }
  destruct (Hs h (h_live h)) as (r & h' & E & Hl); [done|]. exists h'. pose proof (Hy _ _ _ E) as ->. by split.
Qed.

Lemma init_bus_error cfg n h : exists h' stat mapped proc ns nss, NVMeV_init_p true false cfg n h = Ok (None, h') /\
  h_live h' ≡ₚ (fp_storage (Some stat) (Some mapped) proc ++ fp_nss ns nss) ++ h_live h.
Proof.
  unfold NVMeV_init_p. destruct (vdev_init_spec h (h_live h)) as ([self virtDev] & h1 & E1 & H1); [done|].
  destruct (storage_init_spec h1 (h_live h1)) as ([[stat mapped] proc] & h2 & E2 & H2); [done|].
  destruct (namespace_init_spec cfg h2 (h_live h2)) as ([ns nss] & h3 & E3 & H3); [done|].
  destruct (vdev_finalize self virtDev None None None None None h3
    ((fp_storage (Some stat) (Some mapped) proc ++ fp_nss ns nss) ++ h_live h)) as ([] & h4 & E4 & H4).
  { rewrite H3, H2, H1. unfold fp_vdev. simpl. solve_Permutation. }
  exists h4, stat, mapped, proc, ns, nss. split; [|exact H4]. unfold bindM. rewrite E1.
  cbn -[NVMEV_STORAGE_INIT NVMEV_NAMESPACE_INIT_p VDEV_FINALIZE]. rewrite E2.
  cbn -[NVMEV_NAMESPACE_INIT_p VDEV_FINALIZE]. rewrite E3. cbn -[VDEV_FINALIZE]. by rewrite E4.
Qed.

(** ** Events *)

(** Numbers read from unsigned members, and a namespace that exists. *)
Definition event_ok (nr_ns : Z) (e : mem_event) : Prop :=
  match e with
  | EV_CREATE_CQ q | EV_DELETE_CQ q | EV_CREATE_SQ q | EV_DELETE_SQ q => 0 <= q
  | EV_NUM_QUEUES nsq ncq => 0 <= nsq /\ 0 <= ncq
  | EV_ITER_OPEN ns => 0 <= ns < nr_ns
  | EV_ITER_CLOSE ns i => 0 <= ns < nr_ns /\ 0 <= i
  | _ => True
  end.

(** What the code does not check: a queue id beyond the arrays, a sixteenth
    iterator, the last handle or one beyond. *)
Definition oversteps (d : dev_p) (e : mem_event) : Prop :=
  match e with
  | EV_CREATE_CQ q | EV_DELETE_CQ q | EV_CREATE_SQ q | EV_DELETE_SQ q => NR_MAX_IO_QUEUE < q
  | EV_ITER_OPEN ns => exists k, nthZ (vp_nss d) ns = Ok (NS_KV k) /\ iters_full k
  | EV_ITER_CLOSE ns i => (exists k, nthZ (vp_nss d) ns = Ok (NS_KV k)) /\ 16 <= i
  | _ => False
  end.

(** A queue that is created where there is one already. *)
Definition slot (qs : list queue_p) (qid : Z) : list res := match nthZ qs qid with Ok q => fp_queue q | _ => [] end.
Definition lost (d : dev_p) (e : mem_event) : list res :=
  match e with
  | EV_CREATE_CQ q => slot (vp_cqes d) q
  | EV_CREATE_SQ q => slot (vp_sqes d) q
  | _ => []
  end.

Lemma concat_insert {A} (f : A -> list res) l i old new : l !! i = Some old ->
  f old ++ concat (map f (<[i:=new]> l)) ≡ₚ f new ++ concat (map f l).
Proof.
  revert i. induction l as [|x l IH]; intros i Hi; [done|]. destruct i as [|i]; simpl in *.
  - injection Hi as ->. solve_Permutation.
  - specialize (IH i Hi). transitivity (f x ++ f old ++ concat (map f (<[i:=new]> l))); [solve_Permutation|]. rewrite IH. solve_Permutation.
Qed.

Lemma create_queue_spec qs q : 0 <= q < Z.of_nat (length qs) ->
  spec (create_queue_p qs q) (fp_queues qs) (fun qs' => slot qs q ++ fp_queues qs') /\
  yields (fun qs' => length qs' = length qs) (create_queue_p qs q).
Proof.
  intros Hq. destruct (nthZ_in_range qs q Hq) as [old Hold]. unfold create_queue_p. split.
  - eapply spec_grow; [apply spec_alloc|]. intros a. eapply spec_grow; [apply spec_alloc|]. intros b.
    intros h R Hh. unfold lift. rewrite updZ_Ok by done. eexists _, h. split; [done|]. rewrite Hh. unfold slot. rewrite Hold.
    apply nthZ_Ok in Hold as [_ Hold]. unfold fp_queues. rewrite (concat_insert fp_queue qs _ _ (Some (a, b)) Hold). simpl. unfold K. solve_Permutation.
  - repeat (eapply yields_bind; [apply yields_any|]; intros ? _). unfold lift. rewrite updZ_Ok by done.
    intros h x h' [= <- <-]. by rewrite length_insert.
Qed.

Lemma delete_queue_spec qs q : 0 <= q < Z.of_nat (length qs) ->
  spec (delete_queue_p qs q) (fp_queues qs) fp_queues /\ yields (fun qs' => length qs' = length qs) (delete_queue_p qs q).
Proof.
  intros Hq. destruct (nthZ_in_range qs q Hq) as [old Hold]. unfold delete_queue_p. pose proof Hold as Hl. apply nthZ_Ok in Hl as [_ Hl].
  split.
  - eapply spec_lift; [exact Hold|]. eapply spec_lift; [by apply updZ_Ok|].
    pose proof (concat_insert fp_queue qs _ _ None Hl) as Hp. simpl in Hp. fold (fp_queues qs) in Hp.
    destruct old as [[a b]|]; [|apply spec_ret_perm; rewrite <- Hp; done].
    apply (spec_perm _ (K b ++ K a ++ fp_queues (<[Z.to_nat q:=None]> qs))); [rewrite <- Hp; unfold fp_queues; simpl; solve_Permutation|].
    apply spec_access_in; [unfold K; in_list|]. apply spec_seq; [eauto with life|]. apply spec_seq; [eauto with life|]. apply spec_ret.
  - eapply yields_lift; [exact Hold|]. eapply yields_lift; [by apply updZ_Ok|].
    destruct old as [[a b]|]; repeat (eapply yields_bind; [apply yields_any|]; intros ? _); apply yields_ret; by rewrite length_insert.
Qed.

Lemma nthZ_beyond {A} (l : list A) i : Z.of_nat (length l) <= i -> nthZ l i = Fault.
Proof. intros Hi. unfold nthZ. case_match; [|done]. by rewrite lookup_ge_None_2 by lia. Qed.

(** Beyond the end of the array of pointers. *)
Lemma create_beyond qs q h : Z.of_nat (length qs) <= q -> create_queue_p qs q h = Fault.
Proof. intros Hq. unfold create_queue_p, updZ. simpl. unfold bindM, lift, updZ. simpl. by rewrite (proj2 (Z.ltb_ge _ _)), andb_false_r by lia. Qed.
Lemma delete_beyond qs q h : Z.of_nat (length qs) <= q -> delete_queue_p qs q h = Fault.
Proof. intros Hq. unfold delete_queue_p, bindM, lift. by rewrite nthZ_beyond. Qed.
Lemma close_beyond k i h : kv_wf k -> 16 <= i -> kv_iter_close_p k i h = Fault.
Proof.
  intros (Hlen & Hg & _) Hi. unfold kv_iter_close_p, bindM, lift. destruct (decide (i = 16)) as [->|Hne].
  - rewrite (proj2 (nthZ_Ok _ 16 ITER_P_GARBAGE)); [done|]. by split.
  - rewrite nthZ_beyond by (rewrite Hlen; lia). done.
Qed.

Lemma iter_open_spec k : kv_wf k ->
  (spec (kv_iter_open_p k) (fp_kv k) fp_kv /\ yields kv_wf (kv_iter_open_p k)) \/
  (iters_full k /\ forall h, kv_iter_open_p k h = Fault).
Proof.
  intros Hwf. pose proof Hwf as (Hlen & Hg & Hn). unfold kv_iter_open_p.
  pose proof (free_handle_p_spec k 16 1 Hwf ltac:(lia) ltac:(lia)) as Hr.
  destruct (free_handle_p 16 (kp_iter_handle k) 1) as [[j|]| | |] eqn:E; try done; [left|right; by split].
  split; [eapply spec_lift; [reflexivity|]|eapply yields_lift; [reflexivity|]].
  - destruct Hr as [Hj Hnull]. apply nthZ_Ok in Hnull as [_ Hnull].
    eapply spec_grow; [apply spec_alloc|]. intros ctx. eapply spec_grow; [apply spec_alloc|]. intros buf.
    eapply spec_lift; [apply updZ_Ok; rewrite Hlen; lia|]. apply spec_ret_perm.
    unfold fp_kv, kv_rest, fp_iters. simpl. pose proof (concat_insert fp_iter (kp_iter_handle k) _ _ (ITER_P ctx buf) Hnull) as Hp. simpl in Hp.
    rewrite Hp. unfold K. solve_Permutation.
  - destruct Hr as [Hj Hnull]. apply nthZ_Ok in Hnull as [_ Hnull].
    do 2 (eapply yields_bind; [apply yields_any|]; intros ? _). eapply yields_lift; [apply updZ_Ok; rewrite Hlen; lia|]. apply yields_ret.
    assert (Hne : Z.to_nat j <> 16%nat) by (intros Hj'; rewrite Hj' in Hnull; congruence).
    split_and!; simpl; [by rewrite length_insert|by rewrite list_lookup_insert_ne|].
    intros i Hi. destruct (decide (Z.to_nat j = i)) as [<-|Hij]; [rewrite list_lookup_insert_eq by lia; done|rewrite list_lookup_insert_ne by done; by apply Hn].
Qed.

Lemma iter_close_spec k i : kv_wf k -> 0 <= i < 16 ->
  spec (kv_iter_close_p k i) (fp_kv k) fp_kv /\ yields kv_wf (kv_iter_close_p k i).
Proof.
  intros (Hlen & Hg & Hn) Hi. unfold kv_iter_close_p.
  destruct (nthZ_in_range (kp_iter_handle k) i) as [p Hp]; [rewrite Hlen; lia|]. pose proof Hp as Hl. apply nthZ_Ok in Hl as [_ Hl].
  destruct p as [| |ctx buf]; [..|].
  - split; [eapply spec_lift; [exact Hp|]; apply spec_ret|eapply yields_lift; [exact Hp|]; by apply yields_ret].
  - destruct (Hn (Z.to_nat i)); [lia|done].
  - split.
    + eapply spec_lift; [exact Hp|]. pose proof (concat_insert fp_iter (kp_iter_handle k) _ _ ITER_P_NULL Hl) as Hc. simpl in Hc.
      set (rest := concat (map fp_iter (<[Z.to_nat i:=ITER_P_NULL]> (kp_iter_handle k)))) in *.
      apply (spec_perm _ (K buf ++ K ctx ++ K (kp_self k) ++ (MEMREMAP, kp_kv_mapping_table k) :: rest)).
      { unfold fp_kv, kv_rest, fp_iters. rewrite <- Hc. unfold K. solve_Permutation. }
      apply spec_access_in; [unfold K; in_list|]. apply spec_seq; [eauto with life|]. apply spec_seq; [eauto with life|].
      eapply spec_lift; [apply updZ_Ok; rewrite Hlen; lia|]. by apply spec_ret_perm.
    + eapply yields_lift; [exact Hp|]. do 3 (eapply yields_bind; [apply yields_any|]; intros ? _).
      eapply yields_lift; [apply updZ_Ok; rewrite Hlen; lia|]. apply yields_ret.
      split_and!; simpl; [by rewrite length_insert|rewrite list_lookup_insert_ne by lia; done|].
      intros j Hj. destruct (decide (Z.to_nat i = j)) as [<-|Hij]; [rewrite list_lookup_insert_eq by lia; done|rewrite list_lookup_insert_ne by done; by apply Hn].
Qed.

(** ** A step of the device *)
Definition step_ok (d : dev_p) (e : mem_event) : Prop :=
  spec (mem_step d e) (fp_dev d) (fun d' => lost d e ++ fp_dev d') /\
  yields (fun d' => dev_wf d' /\ length (vp_nss d') = length (vp_nss d)) (mem_step d e).

(** Each part of the device and the rest. *)
Lemma fp_admin d q : fp_dev (vp_set_admin d q) ≡ₚ fp_aq q ++ fp_dev (vp_set_admin d None).
Proof. unfold fp_dev, fp_vdev, fp_workers. simpl. solve_Permutation. Qed.
Lemma fp_admin_now d : fp_dev d ≡ₚ fp_aq (vp_admin_q d) ++ fp_dev (vp_set_admin d None).
Proof. rewrite <- fp_admin. by destruct d. Qed.

Definition fp_but_queues (d : dev_p) : list res := fp_dev (vp_set_queues d [] [] 0 0).
Lemma fp_set_queues d sq cq n m : fp_dev (vp_set_queues d sq cq n m) ≡ₚ fp_queues sq ++ fp_queues cq ++ fp_but_queues d.
Proof. unfold fp_but_queues, fp_dev, fp_workers. simpl. solve_Permutation. Qed.
Lemma fp_queues_now d : fp_dev d ≡ₚ fp_queues (vp_sqes d) ++ fp_queues (vp_cqes d) ++ fp_but_queues d.
Proof. rewrite <- (fp_set_queues d _ _ (vp_nr_sq d) (vp_nr_cq d)). by destruct d. Qed.

Lemma fp_stat d p : fp_dev (vp_set_stat d p) ≡ₚ of_ptr KMALLOC p ++ fp_dev (vp_set_stat d None).
Proof. unfold fp_dev, fp_storage, fp_workers. simpl. solve_Permutation. Qed.
Lemma fp_stat_now d : fp_dev d ≡ₚ of_ptr KMALLOC (vp_io_unit_stat d) ++ fp_dev (vp_set_stat d None).
Proof. rewrite <- fp_stat. by destruct d. Qed.

Lemma fp_set_nss d l : fp_dev (vp_set_nss d l) ≡ₚ concat (map fp_ns l) ++ fp_dev (vp_set_nss d []).
Proof. unfold fp_dev, fp_nss, fp_workers. simpl. solve_Permutation. Qed.
Lemma fp_nss_now d : fp_dev d ≡ₚ concat (map fp_ns (vp_nss d)) ++ fp_dev (vp_set_nss d []).
Proof. rewrite <- fp_set_nss. by destruct d. Qed.

Lemma wf_set_admin d q : dev_wf d -> dev_wf (vp_set_admin d q).
Proof. by intros []. Qed.
Lemma wf_set_stat d p : dev_wf d -> dev_wf (vp_set_stat d p).
Proof. by intros []. Qed.
Hint Resolve wf_set_admin wf_set_stat : life.

Ltac yields_kept := repeat first [apply yields_ret; by eauto with life | eapply yields_bind; [apply yields_any|]; intros ? _].

Lemma admin_step d e : dev_wf d -> e = EV_AQA \/ e = EV_ASQ \/ e = EV_ACQ -> step_ok d e.
Proof.
  intros W He. unfold step_ok. destruct He as [->|[->| ->]]; simpl; unfold proc_aqa_p, proc_asq_p, proc_acq_p;
    destruct (vp_admin_q d) as [q|] eqn:Eq; (split; [|by yields_kept]); try apply spec_ret.
  - eapply spec_grow; [apply spec_alloc|]. intros a. apply spec_ret_perm. rewrite fp_admin, (fp_admin_now d), Eq. simpl. unfold K. solve_Permutation.
  - apply (spec_perm _ (of_ptr KMALLOC (aqp_nvme_sq q) ++ of_ptr KMALLOC (aqp_nvme_cq q) ++ K (aqp_self q) ++ fp_dev (vp_set_admin d None))).
    { rewrite (fp_admin_now d), Eq. simpl. solve_Permutation. }
    apply spec_access_in; [unfold K; in_list|]. apply spec_seq; [eauto with life|]. eapply spec_grow; [apply spec_alloc|]. intros a.
    apply spec_ret_perm. rewrite fp_admin. simpl. unfold K. solve_Permutation.
  - apply (spec_perm _ (of_ptr KMALLOC (aqp_nvme_cq q) ++ of_ptr KMALLOC (aqp_nvme_sq q) ++ K (aqp_self q) ++ fp_dev (vp_set_admin d None))).
    { rewrite (fp_admin_now d), Eq. simpl. solve_Permutation. }
    apply spec_access_in; [unfold K; in_list|]. apply spec_seq; [eauto with life|]. eapply spec_grow; [apply spec_alloc|]. intros a.
    apply spec_ret_perm. rewrite fp_admin. simpl. unfold K. solve_Permutation.
Qed.

Lemma queue_step d (sub : bool) (f : list queue_p -> mem_op (list queue_p)) extra :
  dev_wf d -> let qs := if sub then vp_sqes d else vp_cqes d in
  spec (f qs) (fp_queues qs) (fun qs' => extra ++ fp_queues qs') -> yields (fun qs' => length qs' = length qs) (f qs) ->
  let m := let! l := f qs in
    ret (vp_set_queues d (if sub then l else vp_sqes d) (if sub then vp_cqes d else l) (vp_nr_sq d) (vp_nr_cq d)) in
  spec m (fp_dev d) (fun d' => extra ++ fp_dev d') /\ yields (fun d' => dev_wf d' /\ length (vp_nss d') = length (vp_nss d)) m.
Proof.
  intros [W1 W2 W3 W4 W5] qs Hs Hy m. split.
  - eapply (spec_step _ _ (fp_queues qs) _ ((if sub then fp_queues (vp_cqes d) else fp_queues (vp_sqes d)) ++ fp_but_queues d)); [exact Hs| |].
    + rewrite (fp_queues_now d). unfold qs. destruct sub; solve_Permutation.
    + intros l. apply spec_ret_perm. rewrite fp_set_queues. destruct sub; solve_Permutation.
  - eapply yields_bind; [exact Hy|]. intros l Hl. apply yields_ret. split; [|done]. unfold qs in Hl. destruct sub; split; simpl; rewrite ?Hl; done.
Qed.

Lemma kv_step d ns f : dev_wf d -> 0 <= ns < Z.of_nat (length (vp_nss d)) ->
  (forall k, nthZ (vp_nss d) ns = Ok (NS_KV k) -> kv_wf k -> spec (f k) (fp_kv k) fp_kv /\ yields kv_wf (f k)) ->
  spec (with_kv d ns f) (fp_dev d) fp_dev /\ yields (fun d' => dev_wf d' /\ length (vp_nss d') = length (vp_nss d)) (with_kv d ns f).
Proof.
  intros W Hns Hf. destruct (nthZ_in_range (vp_nss d) ns Hns) as [n Hn]. pose proof Hn as Hl. apply nthZ_Ok in Hl as [_ Hl].
  unfold with_kv. assert (Hwf : ns_wf n) by (eapply Forall_lookup_1; [apply (dw_nss d W)|exact Hl]).
  assert (Hret : spec (ret d) (fp_dev d) fp_dev /\ yields (fun d' => dev_wf d' /\ length (vp_nss d') = length (vp_nss d)) (ret d))
    by (split; [apply spec_ret|by apply yields_ret]).
  destruct n as [| | |k]; try (by split; [eapply spec_lift; [exact Hn|]; apply Hret|eapply yields_lift; [exact Hn|]; apply Hret]).
  destruct (Hf k Hn Hwf) as [Hs Hy]. split.
  - eapply spec_lift; [exact Hn|]. pose proof (concat_insert fp_ns (vp_nss d) _ _ NS_SIMPLE Hl) as Hc. simpl in Hc.
    eapply (spec_step _ _ (fp_kv k) _ (concat (map fp_ns (<[Z.to_nat ns:=NS_SIMPLE]> (vp_nss d))) ++ fp_dev (vp_set_nss d []))); [exact Hs| |].
    + rewrite (fp_nss_now d), <- Hc. solve_Permutation.
    + intros k'. eapply spec_lift; [by apply updZ_Ok|]. apply spec_ret_perm. rewrite (fp_set_nss d (<[_:=_]> _)).
      pose proof (concat_insert fp_ns (vp_nss d) _ _ (NS_KV k') Hl) as Hc'. simpl in Hc'.
      assert (Hk : fp_kv k ++ fp_kv k' ++ concat (map fp_ns (<[Z.to_nat ns:=NS_SIMPLE]> (vp_nss d))) ≡ₚ
        fp_kv k ++ concat (map fp_ns (<[Z.to_nat ns:=NS_KV k']> (vp_nss d)))) by (rewrite Hc', <- Hc; solve_Permutation).
      apply Permutation_app_inv_l in Hk. by rewrite app_assoc, Hk.
  - eapply yields_lift; [exact Hn|]. eapply yields_bind; [exact Hy|]. intros k' Hk'. eapply yields_lift; [by apply updZ_Ok|].
    apply yields_ret. destruct W as [W1 W2 W3 W4 W5]. split; [|by simpl; rewrite length_insert]. split; simpl; [done..|].
    by apply Forall_insert.
Qed.

(** A create or delete command, on either array. *)
Lemma queue_event d (sub : bool) (f : list queue_p -> mem_op (list queue_p)) q extra :
  dev_wf d -> let qs := if sub then vp_sqes d else vp_cqes d in
  (0 <= q < Z.of_nat (length qs) -> spec (f qs) (fp_queues qs) (fun qs' => extra ++ fp_queues qs') /\
     yields (fun qs' => length qs' = length qs) (f qs)) ->
  (Z.of_nat (length qs) <= q -> forall h, f qs h = Fault) -> 0 <= q ->
  let m := let! l := f qs in
    ret (vp_set_queues d (if sub then l else vp_sqes d) (if sub then vp_cqes d else l) (vp_nr_sq d) (vp_nr_cq d)) in
  (spec m (fp_dev d) (fun d' => extra ++ fp_dev d') /\ yields (fun d' => dev_wf d' /\ length (vp_nss d') = length (vp_nss d)) m) \/
  (NR_MAX_IO_QUEUE < q /\ forall h, m h = Fault).
Proof.
  intros W qs Hin Hout Hq m. assert (Hl : Z.of_nat (length qs) = NR_MAX_IO_QUEUE + 1) by (unfold qs; destruct sub; apply W).
  destruct (decide (q <= NR_MAX_IO_QUEUE)) as [Hle|Hgt].
  - left. destruct Hin as [Hs Hy]; [lia|]. by apply queue_step.
  - right. split; [lia|]. intros h. unfold m, bindM. by rewrite Hout by lia.
Qed.

Lemma mem_step_ok d e : dev_wf d -> event_ok (Z.of_nat (length (vp_nss d))) e ->
  step_ok d e \/ (oversteps d e /\ forall h, mem_step d e h = Fault).
Proof.
  intros W Hok. destruct e as [| | |q|q|q|q|nsq ncq| |ns|ns i|]; try (left; apply admin_step; by auto); simpl in Hok.
  - exact (queue_event d false (fun l => create_queue_p l q) q _ W (create_queue_spec _ q) (fun Hq h => create_beyond _ q h Hq) Hok).
  - exact (queue_event d false (fun l => delete_queue_p l q) q [] W (delete_queue_spec _ q) (fun Hq h => delete_beyond _ q h Hq) Hok).
  - exact (queue_event d true (fun l => create_queue_p l q) q _ W (create_queue_spec _ q) (fun Hq h => create_beyond _ q h Hq) Hok).
  - exact (queue_event d true (fun l => delete_queue_p l q) q [] W (delete_queue_spec _ q) (fun Hq h => delete_beyond _ q h Hq) Hok).
  - left. split; simpl; [apply spec_ret_perm; by rewrite (fp_queues_now d), fp_set_queues|]. apply yields_ret. split; [|done].
    destruct W. split; simpl; (done || (unfold NR_MAX_IO_QUEUE in *; lia)).
  - left. split; simpl; unfold proc_io_units_p; [|by yields_kept]. eapply spec_grow; [apply spec_alloc|]. intros a.
    apply (spec_perm _ (of_ptr KMALLOC (vp_io_unit_stat d) ++ K a ++ fp_dev (vp_set_stat d None))).
    { rewrite (fp_stat_now d). unfold K. solve_Permutation. }
    apply spec_seq; [eauto with life|]. apply spec_ret_perm. rewrite (fp_stat d (Some a)). simpl. solve_Permutation.
  - destruct (nthZ_in_range (vp_nss d) ns Hok) as [n En].
    assert (Hwf : ns_wf n) by (apply nthZ_Ok in En as [_ El]; eapply Forall_lookup_1; [apply (dw_nss d W)|exact El]).
    assert (Hc : (forall k, n = NS_KV k -> spec (kv_iter_open_p k) (fp_kv k) fp_kv /\ yields kv_wf (kv_iter_open_p k)) \/
      exists k, n = NS_KV k /\ iters_full k /\ forall h, kv_iter_open_p k h = Fault).
    { destruct n as [| | |k]; try (by left). destruct (iter_open_spec k Hwf) as [Ho|[Hf Hh]]; [left; by intros k' [= <-]|right; by exists k]. }
    destruct Hc as [Hc|(k & -> & Hf & Hh)].
    + left. apply (kv_step d ns kv_iter_open_p W Hok). intros k Ek _. apply Hc. congruence.
    + right. split; [by exists k|]. intros h. simpl. unfold with_kv, bindM, lift. rewrite En. simpl. by rewrite Hh.
  - destruct Hok as [Hns Hi]. destruct (decide (i < 16)) as [Hlt|Hge].
    + left. apply (kv_step d ns (fun k => kv_iter_close_p k i) W Hns). intros k _ Hk. by apply iter_close_spec.
    + destruct (nthZ_in_range (vp_nss d) ns Hns) as [n En].
      assert (Hwf : ns_wf n) by (apply nthZ_Ok in En as [_ El]; eapply Forall_lookup_1; [apply (dw_nss d W)|exact El]).
      assert (Hkv : (exists k, n = NS_KV k) \/ forall k, n <> NS_KV k) by (destruct n; [by right..|left; by eexists]).
      destruct Hkv as [[k ->]|Hno].
      * right. split; [split; [by exists k|lia]|]. intros h. simpl. unfold with_kv, bindM, lift. rewrite En. simpl.
        by rewrite close_beyond by (done || lia).
      * left. apply (kv_step d ns (fun k => kv_iter_close_p k i) W Hns). intros k Ek _. destruct (Hno k). congruence.
  - left. split; simpl; [|yields_kept]. unfold kv_batch_p. apply (spec_bind _ _ _ (fun _ => fp_dev d)); [|intros ?; apply (spec_ret d fp_dev)].
    eapply spec_grow; [apply spec_alloc|]. intros a. eapply spec_grow; [apply spec_alloc|]. intros b.
    apply (spec_perm _ (K a ++ K b ++ fp_dev d)); [unfold K; solve_Permutation|]. apply spec_seq; [eauto with life|].
    apply (spec_frame _ (K b) (fun _ => [])), spec_release.
Qed.

(** ** A run *)

(** What a run overwrites, next to the device it ends with. *)
Fixpoint mem_run_lost (d : dev_p) (es : list mem_event) : mem_op (dev_p * list res) :=
  match es with
  | [] => ret (d, [])
  | e :: es =>
      let! d' := mem_step d e in
      let! r := mem_run_lost d' es in
      ret (r.1, lost d e ++ r.2)
  end.

Lemma mem_run_of_lost d es h r h' : mem_run_lost d es h = Ok (r, h') -> mem_run d es h = Ok (r.1, h').
Proof.
  revert d h r h'. induction es as [|e es IH]; intros d h r h' E; simpl in *; [by injection E as <- <-|].
  unfold bindM in *. destruct (mem_step d e h) as [[d1 h1]| | |]; simpl in *; [|done..].
  destruct (mem_run_lost d1 es h1) as [[r1 h2]| | |] eqn:E2; simpl in *; [|done..]. injection E as <- <-. by apply (IH _ _ _ _ E2).
Qed.

Lemma mem_run_lost_ok es : forall d h R,
  dev_wf d -> Forall (event_ok (Z.of_nat (length (vp_nss d)))) es -> h_live h ≡ₚ fp_dev d ++ R ->
  (exists r h', mem_run_lost d es h = Ok (r, h') /\ h_live h' ≡ₚ (r.2 ++ fp_dev r.1) ++ R /\ dev_wf r.1) \/
  (exists es1 e es2 d1 h1, es = es1 ++ e :: es2 /\ mem_run d es1 h = Ok (d1, h1) /\ oversteps d1 e /\ mem_run d es h = Fault).
Proof.
  induction es as [|e es IH]; intros d h R W Hes Hh; [left; by exists (d, []), h|].
  apply Forall_cons in Hes as [He Hes]. destruct (mem_step_ok d e W He) as [[Hs Hy]|[Ho Hf]].
  2: { right. exists [], e, es, d, h. split; [done|]. split; [done|]. split; [done|]. simpl. unfold bindM. by rewrite Hf. }
  destruct (Hs h R Hh) as (d1 & h1 & E1 & H1). destruct (Hy _ _ _ E1) as [W1 Hn]. rewrite <- Hn in Hes.
  rewrite (Permutation_app_comm (lost d e)), <- app_assoc in H1.
  destruct (IH d1 h1 _ W1 Hes H1) as [(r & h2 & E2 & H2 & W2)|(es1 & e' & es2 & d2 & h2 & -> & E2 & Ho & Hf)].
  - left. exists (r.1, lost d e ++ r.2), h2. simpl. unfold bindM. rewrite E1. simpl. rewrite E2. split; [done|]. split; [|done].
    rewrite H2. solve_Permutation.
  - right. exists (e :: es1), e', es2, d2, h2. split; [done|]. simpl. unfold bindM. rewrite E1. simpl. by rewrite E2, Hf.
Qed.

(** ** A host that tidies up *)

(** The queues that the host has open: it does not create one twice. *)
Definition open_step (open : gset Z * gset Z) (e : mem_event) : option (gset Z * gset Z) :=
  let '(sq, cq) := open in
  match e with
  | EV_CREATE_SQ q => if decide (q ∈ sq) then None else Some ({[q]} ∪ sq, cq)
  | EV_CREATE_CQ q => if decide (q ∈ cq) then None else Some (sq, {[q]} ∪ cq)
  | EV_DELETE_SQ q => Some (sq ∖ {[q]}, cq)
  | EV_DELETE_CQ q => Some (sq, cq ∖ {[q]})
  | _ => Some (sq, cq)
  end.
Fixpoint open_run (open : gset Z * gset Z) (es : list mem_event) : option (gset Z * gset Z) :=
  match es with
  | [] => Some open
  | e :: es => open' ← open_step open e; open_run open' es
  end.

Definition slots_in (qs : list queue_p) (s : gset Z) : Prop := forall i p, qs !! i = Some (Some p) -> Z.of_nat i ∈ s.
Definition ns_plain (n : ns_p) : Prop := match n with NS_KV _ => False | _ => True end.
Definition cfg_plain (c : ns_cfg) : Prop := match c with CFG_KV => False | _ => True end.

Lemma slots_in_create qs s q : slots_in qs s -> yields (fun qs' => slots_in qs' ({[q]} ∪ s)) (create_queue_p qs q).
Proof.
  intros Hs. unfold create_queue_p. do 2 (eapply yields_bind; [apply yields_any|]; intros ? _).
  intros h qs' h' E. unfold lift in E. destruct (updZ qs q _) as [l| | |] eqn:Eu; [|done..]. injection E as <- _.
  apply updZ_inv in Eu as [Hq ->]. intros i p Hi. destruct (decide (Z.to_nat q = i)) as [<-|Hne].
  - rewrite Z2Nat.id by lia. set_solver.
  - rewrite list_lookup_insert_ne in Hi by done. specialize (Hs i p Hi). set_solver.
Qed.

Lemma slots_in_delete qs s q : slots_in qs s -> yields (fun qs' => slots_in qs' (s ∖ {[q]})) (delete_queue_p qs q).
Proof.
  intros Hs. unfold delete_queue_p. intros h qs' h' E. unfold bindM at 1, lift in E. destruct (nthZ qs q) as [old| | |]; [|done..]. simpl in E.
  unfold bindM at 1 in E. destruct (updZ qs q None) as [l| | |] eqn:Eu; [|done..]. simpl in E. apply updZ_inv in Eu as [Hq ->].
  assert (Hy : yields (fun x => x = <[Z.to_nat q:=None]> qs) (match old with
    Some (a, b) => access a ;;! kfree (Some b) ;;! kfree (Some a) ;;! ret (<[Z.to_nat q:=None]> qs) | None => ret (<[Z.to_nat q:=None]> qs) end)).
  { destruct old as [[a b]|]; repeat (eapply yields_bind; [apply yields_any|]; intros ? _); by apply yields_ret. }
  apply Hy in E as ->.
  intros i p Hi. destruct (decide (Z.to_nat q = i)) as [<-|Hne].
  - unfold queue_p in *. by rewrite list_lookup_insert_eq in Hi by lia.
  - rewrite list_lookup_insert_ne in Hi by done. specialize (Hs i p Hi). apply elem_of_difference. split; [done|]. rewrite elem_of_singleton. lia.
Qed.

Lemma slot_empty qs s q : slots_in qs s -> q ∉ s -> slot qs q = [].
Proof.
  intros Hs Hq. unfold slot. destruct (nthZ qs q) as [[p|]| | |] eqn:E; try done.
  apply nthZ_Ok in E as [H0 E]. apply Hs in E. rewrite Z2Nat.id in E by done. done.
Qed.

Lemma kv_plain d ns f : Forall ns_plain (vp_nss d) -> yields (fun d' => d' = d) (with_kv d ns f).
Proof.
  intros Hp h d' h' E. unfold with_kv, bindM, lift in E. destruct (nthZ (vp_nss d) ns) as [n| | |] eqn:En; [|done..]. simpl in E.
  apply nthZ_Ok in En as [_ En]. pose proof (Forall_lookup_1 _ _ _ _ Hp En) as Hn. by destruct n; inversion E.
Qed.

(** The device and the queues the host has open. *)
Definition tidy (open : gset Z * gset Z) (d : dev_p) : Prop := slots_in (vp_sqes d) open.1 /\ slots_in (vp_cqes d) open.2.

Lemma tidy_step open open' d e : open_step open e = Some open' -> tidy open d ->
  yields (tidy open') (mem_step d e) /\ lost d e = [].
Proof.
  destruct open as [sq cq]. intros Ho [Hs Hc]. simpl in Hs, Hc.
  assert (Hkv : forall ns f, open_step (sq, cq) e = Some (sq, cq) -> yields (tidy open') (with_kv d ns f)).
  { intros ns f Hsame. rewrite Hsame in Ho. injection Ho as <-. unfold with_kv. eapply yields_bind; [apply yields_any|]. intros n _.
    destruct n; try (by apply yields_ret). do 2 (eapply yields_bind; [apply yields_any|]; intros ? _). by apply yields_ret. }
  destruct e as [| | |q|q|q|q|nsq ncq| |ns|ns i|]; simpl in Ho.
  1-3: injection Ho as <-; (split; [|done]); simpl; unfold proc_aqa_p, proc_asq_p, proc_acq_p; destruct (vp_admin_q d);
    repeat (eapply yields_bind; [apply yields_any|]; intros ? _); by apply yields_ret.
  - case_decide as Hq; [done|]. injection Ho as <-. split; [|by eapply slot_empty]. simpl.
    eapply yields_bind; [by apply slots_in_create|]. intros l Hl. by apply yields_ret.
  - injection Ho as <-. split; [|done]. simpl. eapply yields_bind; [by apply slots_in_delete|]. intros l Hl. by apply yields_ret.
  - case_decide as Hq; [done|]. injection Ho as <-. split; [|by eapply slot_empty]. simpl.
    eapply yields_bind; [by apply slots_in_create|]. intros l Hl. by apply yields_ret.
  - injection Ho as <-. split; [|done]. simpl. eapply yields_bind; [by apply slots_in_delete|]. intros l Hl. by apply yields_ret.
  - injection Ho as <-. split; [|done]. by apply yields_ret.
  - injection Ho as <-. split; [|done]. simpl. unfold proc_io_units_p. repeat (eapply yields_bind; [apply yields_any|]; intros ? _). by apply yields_ret.
  - split; [|done]. by apply Hkv.
  - split; [|done]. by apply Hkv.
  - injection Ho as <-. split; [|done]. simpl. eapply yields_bind; [apply yields_any|]. intros ? _. by apply yields_ret.
Qed.

Lemma plain_step d e : Forall ns_plain (vp_nss d) -> yields (fun d' => Forall ns_plain (vp_nss d')) (mem_step d e).
Proof.
  intros Hp. destruct e; simpl; unfold proc_aqa_p, proc_asq_p, proc_acq_p, proc_io_units_p; try case_match;
    try (repeat (eapply yields_bind; [apply yields_any|]; intros ? _); by apply yields_ret);
    (intros h d' h' E; apply kv_plain in E as ->; done).
Qed.

Lemma tidy_run es : forall open open' d, open_run open es = Some open' -> tidy open d ->
  yields (fun r => tidy open' r.1 /\ r.2 = []) (mem_run_lost d es).
Proof.
  induction es as [|e es IH]; intros open open' d Ho Ht; simpl in *; [injection Ho as <-; by apply yields_ret|].
  destruct (open_step open e) as [o1|] eqn:E1; [|done]. simpl in Ho. destruct (tidy_step _ _ _ _ E1 Ht) as [Hy Hl].
  eapply yields_bind; [exact Hy|]. intros d' Ht'. eapply yields_bind; [by apply (IH o1 open')|]. intros r [Hr1 Hr2].
  apply yields_ret. split; [done|]. simpl. by rewrite Hl, Hr2.
Qed.

Lemma plain_run es : forall d, Forall ns_plain (vp_nss d) -> yields (fun r => Forall ns_plain (vp_nss r.1)) (mem_run_lost d es).
Proof.
  induction es as [|e es IH]; intros d Hp; simpl; [by apply yields_ret|].
  eapply yields_bind; [by apply plain_step|]. intros d' Hp'. eapply yields_bind; [by apply IH|]. intros r Hr. by apply yields_ret.
Qed.

Lemma closed_rest qs nr : slots_in qs ∅ -> queues_rest qs nr = [].
Proof.
  intros Hs. assert (Hall : Forall (fun q => q = None) qs).
  { apply Forall_lookup_2. intros i [p|] Hi; [|done]. apply Hs in Hi. set_solver. }
  assert (Hnil : forall (f : queue_p -> list res) l, f None = [] -> Forall (fun q => q = None) l -> concat (map f l) = []).
  { intros f l Hf. induction 1 as [|x l -> _ IH]; simpl; [done|]. by rewrite Hf, IH. }
  unfold queues_rest, fp_queues. rewrite !Hnil; try done; [by apply Forall_drop|by apply Forall_take].
Qed.

Lemma plain_rest l : Forall ns_plain l -> concat (map ns_rest l) = [].
Proof. induction 1 as [|n l Hn _ IH]; simpl; [done|]. rewrite IH, app_nil_r. by destruct n. Qed.

Lemma init_tidy cfg n : yields (fun r => forall d, r = Some d -> tidy (∅, ∅) d) (NVMeV_init_p true true cfg n).
Proof.
  unfold NVMeV_init_p. eapply yields_bind; [apply yields_any|]. intros [self virtDev] _. simpl negb. cbn iota.
  eapply yields_bind; [apply yields_any|]. intros [[stat mapped] proc] _. eapply yields_bind; [apply yields_any|]. intros [ns nss] _. cbn iota.
  eapply yields_bind; [apply yields_any|]. intros [[[bar old_dbs] old_bar] msix] _.
  eapply yields_bind; [apply yields_any|]. intros [w qs] _. apply yields_ret. intros d [= <-].
  by split; intros i p Hi; change (replicate 73 (@None (Z * Z)) !! i = Some (Some p)) in Hi; apply lookup_replicate_1 in Hi as [? _].
Qed.

Lemma yields_each_map_in {A B} (phi : B -> Prop) (psi : A -> Prop) (f : A -> mem_op B) l :
  (forall a, psi a -> yields phi (f a)) -> Forall psi l -> yields (fun bs => Forall phi bs /\ length bs = length l) (each_map f l).
Proof.
  intros Hf. induction 1 as [|a l Ha _ IH]; simpl; [by apply yields_ret|]. eapply yields_bind; [by apply Hf|]. intros b Hb.
  eapply yields_bind; [exact IH|]. intros bs [Hbs Hl]. apply yields_ret. split; [by constructor|]. simpl. by rewrite Hl.
Qed.

Lemma namespaces_of (phi : ns_p -> Prop) (psi : ns_cfg -> Prop) cfg n :
  (forall c, psi c -> yields phi (ns_init_p c)) -> Forall psi cfg ->
  yields (fun r => forall d, r = Some d -> Forall phi (vp_nss d) /\ length (vp_nss d) = length cfg) (NVMeV_init_p true true cfg n).
Proof.
  intros Hf Hcfg. unfold NVMeV_init_p. eapply yields_bind; [apply yields_any|]. intros [self virtDev] _. simpl negb. cbn iota.
  eapply yields_bind; [apply yields_any|]. intros [[stat mapped] proc] _.
  eapply (yields_bind _ (fun r => Forall phi r.2 /\ length r.2 = length cfg)).
  - eapply yields_bind; [apply yields_any|]. intros ns _. eapply yields_bind; [by eapply yields_each_map_in|]. intros l Hl. by apply yields_ret.
  - intros [ns nss] Hn. cbn iota. eapply yields_bind; [apply yields_any|]. intros [[[bar old_dbs] old_bar] msix] _.
    eapply yields_bind; [apply yields_any|]. intros [w qs] _. apply yields_ret. by intros d [= <-].
Qed.

Lemma init_plain c : cfg_plain c -> yields ns_plain (ns_init_p c).
Proof.
  destruct c; simpl; try done; intros _; [by apply yields_ret| |]; (eapply yields_bind; [apply yields_any|]; intros ? _; by apply yields_ret).
Qed.

(** ** The theorem *)

(** C25: The memory of the module, from insmod to rmmod, with any namespaces (simple,
    conventional with partitions that share link and write buffer, zoned, key-value) and register
    writes, create and delete commands, /proc writes, iterators and batches in any order. Either
    the run returns: no object is released twice or used after its release, and what is left is
    exactly the tables and open iterators of key-value namespaces, the page arrays of the queues
    that the exit frees, the queues that it does not reach, and those that a create command
    overwrote; a host that creates no queue twice and deletes those it created leaves nothing,
    without key-value namespaces. Or some event oversteps and is the first fault: a queue id above
    72 (admin.c:84), the opening of an iterator while all fifteen cleared handles are in use (the
    sixteenth pointer is uninitialised, kv_ftl.c:804 and 1058), or the closing of a handle above
    15; everything before it returned. *)
Theorem module_memory cfg n es h :
  Forall (event_ok (Z.of_nat (length cfg))) es ->
  exists d h1, NVMeV_init_p true true cfg n h = Ok (Some d, h1) /\
    ((exists d' overwritten h2 h3,
        mem_run_lost d es h1 = Ok ((d', overwritten), h2) /\ mem_run d es h1 = Ok (d', h2) /\
        NVMeV_exit d' h2 = Ok (tt, h3) /\
        h_live h3 ≡ₚ unreleased d' ++ overwritten ++ h_live h /\
        (open_run (∅, ∅) es = Some (∅, ∅) -> Forall cfg_plain cfg -> h_live h3 ≡ₚ h_live h)) \/
     (exists es1 e es2 d1 h2, es = es1 ++ e :: es2 /\ mem_run d es1 h1 = Ok (d1, h2) /\ oversteps d1 e /\
        mem_run d es h1 = Fault)).
Proof.
  intros Hes. destruct (init_spec cfg n h (h_live h)) as (r & h1 & E1 & H1); [done|].
  destruct (init_wf cfg n _ _ _ E1) as (d & -> & W). exists d, h1. split; [done|].
  pose proof (namespaces_of (fun _ => True) (fun _ => True) cfg n (fun _ _ => yields_any _) ltac:(by apply Forall_true) _ _ _ E1 d eq_refl) as [_ Hlen].
  rewrite <- Hlen in Hes.
  destruct (mem_run_lost_ok es d h1 (h_live h) W Hes H1) as [([d' over] & h2 & E2 & H2 & W')|Hf]; [left|by right]. simpl in *.
  destruct (exit_spec d' W' h2 (over ++ h_live h)) as ([] & h3 & E3 & H3); [rewrite H2; solve_Permutation|].
  exists d', over, h2, h3. do 4 (split; [done || exact (mem_run_of_lost _ _ _ _ _ E2)|]). intros Ho Hp.
  destruct (tidy_run _ _ _ _ Ho (init_tidy cfg n _ _ _ E1 d eq_refl) _ _ _ E2) as [[Hsq Hcq] Hover]. simpl in *.
  pose proof (namespaces_of _ _ cfg n init_plain Hp _ _ _ E1 d eq_refl) as [Hpl _].
  pose proof (plain_run es d Hpl _ _ _ E2) as Hpl'. simpl in Hpl'.
  rewrite H3, Hover. unfold unreleased. by rewrite plain_rest, !closed_rest.
Qed.

(** A device of two channels with two partitions; the host opens a pair of
    queues, and closes it. *)
Definition life_spp : ssdparams :=
  Build_ssdparams 512 8 4096 1 2 1 2 2 1 1 1 2 0 0 false [] [] 0 0 0 0 0 0 0 0 0 0
    16 16 16 16 32 2 2 2 4 1 1 2 32 4 2 1 1 2 2 4096.
Definition life_cfg : list ns_cfg := [CFG_CONV life_spp 2; CFG_SIMPLE].
Definition life_events : list mem_event :=
  [EV_AQA; EV_ASQ; EV_ACQ; EV_NUM_QUEUES 4 4; EV_CREATE_CQ 1; EV_CREATE_SQ 1; EV_IO_UNITS; EV_DELETE_SQ 1; EV_DELETE_CQ 1; EV_ASQ].

(** The number of objects that a whole life leaves. *)
Definition life_left (cfg : list ns_cfg) (es : list mem_event) : outcome nat :=
  let* (d, h) := NVMeV_init_p true true cfg 1 (mk_heap 0 []) in
  match d with
  | None => Fault
  | Some d => let* (d, h) := mem_run d es h in let* (_, h) := NVMeV_exit d h in Ok (length (h_live h))
  end.

Example life_left_conv : life_left life_cfg life_events = Ok 0%nat.
Proof. vm_compute. reflexivity. Qed.
(** Two queues at exit: the page arrays; a queue created twice; a key-value
    namespace with an open iterator: its table, context and buffer. *)
Example life_left_open : life_left life_cfg [EV_NUM_QUEUES 4 4; EV_CREATE_CQ 1; EV_CREATE_SQ 1] = Ok 2%nat.
Proof. vm_compute. reflexivity. Qed.
Example life_left_twice : life_left life_cfg [EV_CREATE_CQ 1; EV_CREATE_CQ 1; EV_DELETE_CQ 1] = Ok 2%nat.
Proof. vm_compute. reflexivity. Qed.
Example life_left_kv : life_left [CFG_KV] [EV_ITER_OPEN 0] = Ok 3%nat.
Proof. vm_compute. reflexivity. Qed.
(** Fifteen iterators, and one more. *)
Example life_left_iters : life_left [CFG_KV] (replicate 15 (EV_ITER_OPEN 0)) = Ok 31%nat.
Proof. vm_compute. reflexivity. Qed.
Example life_left_iters_full : life_left [CFG_KV] (replicate 16 (EV_ITER_OPEN 0)) = Fault.
Proof. vm_compute. reflexivity. Qed.
(** The loop of the exit stops before the queue with the last id. *)
Example life_left_last : life_left life_cfg [EV_NUM_QUEUES 1 1; EV_CREATE_CQ 1; EV_CREATE_SQ 1] = Ok 4%nat.
Proof. vm_compute. reflexivity. Qed.

Lemma module_memory_witness :
  (Forall (event_ok (Z.of_nat (length life_cfg))) life_events /\ open_run (∅, ∅) life_events = Some (∅, ∅) /\ Forall cfg_plain life_cfg) /\
  exists d h1 d' h2 h3,
    NVMeV_init_p true true life_cfg 1 (mk_heap 0 []) = Ok (Some d, h1) /\ mem_run d life_events h1 = Ok (d', h2) /\
    NVMeV_exit d' h2 = Ok (tt, h3) /\ h_live h3 ≡ₚ [].
Proof.
  assert (H1 : Forall (event_ok (Z.of_nat (length life_cfg))) life_events) by (repeat constructor; simpl; unfold NR_MAX_IO_QUEUE; lia).
  assert (H2 : open_run (∅, ∅) life_events = Some (∅, ∅)) by reflexivity.
  assert (H3 : Forall cfg_plain life_cfg) by (repeat constructor).
  split; [done|].
  destruct (module_memory life_cfg 1 life_events (mk_heap 0 []) H1)
    as (d & h1 & E1 & [(d' & over & h2 & h3 & _ & E2 & E3 & _ & Hl)|(es1 & e & es2 & d1 & h2 & _ & _ & _ & Hf)]).
  2: { pose proof life_left_conv as Hc. unfold life_left in Hc. rewrite E1 in Hc. cbn [obind] in Hc. by rewrite Hf in Hc. }
  exists d, h1, d', h2, h3. do 3 (split; [assumption|]). exact (Hl H2 H3).
Defined.
