(* ===== verification/KvData.v ===== *)
(** * KvData: keys, allocators and the mapping table of the key-value FTL

    (src/kv_ftl.h, src/kv_ftl.c, src/nvme_kv.h, src/append_only.c,
    src/bitmap.c)  A hash table in reserved memory maps keys to places in the
    storage.  A key whose home slot is taken goes to the next free slot and is
    linked to the end of the chain that starts at the home slot.  Places are
    given out by an allocator behind a table of functions. *)
From stdpp Require Import base list numbers.
From Stdlib Require Import ZArith Lia.
From S2P Require Import Prelude Nvme.

Open Scope Z_scope.
Open Scope nvmev_scope.

(** ** Commands: views of the double words *)
Definition dword_bytes (d : Z) : list Z := [getf d 0 8; getf d 8 8; getf d 16 8; getf d 24 8].
Definition kv_value_len (c : nvme_command) : Z := cdw10 c.
Definition kv_key_len (c : nvme_command) : Z := getf (cdw11 c) 0 8.
Definition kv_batch_rsvd4 (c : nvme_command) : Z := getf (cdw11 c) 24 8.
Definition kv_key (c : nvme_command) : list Z :=
  dword_bytes (cdw12 c) ++ dword_bytes (cdw13 c) ++ dword_bytes (cdw14 c) ++ dword_bytes (cdw15 c).
Definition kv_iter_handle (c : nvme_command) : Z := getf (cdw11 c) 0 8.
Definition kv_iter_option (c : nvme_command) : Z := getf (cdw11 c) 8 8.
Definition kv_iter_val (c : nvme_command) : Z := cdw12 c.
Definition kv_iter_bitmask (c : nvme_command) : Z := cdw13 c.

(** The members stand at the same place in all structures of the union. *)
Definition cmd_key_length (c : nvme_command) : Z := kv_key_len c + 1.
Definition cmd_value_length (c : nvme_command) : Z := u32 (Z.shiftl (kv_value_len c) 2).

Definition is_kv_iter_req_cmd (op : Z) : bool := op =? nvme_cmd_kv_iter_req.
Definition is_kv_iter_read_cmd (op : Z) : bool := op =? nvme_cmd_kv_iter_read.
Definition is_kv_batch_cmd (op : Z) : bool := op =? nvme_cmd_kv_batch.
Definition is_kv_iter_cmd (op : Z) : bool := is_kv_iter_req_cmd op || is_kv_iter_read_cmd op.
Definition is_kv_cmd (op : Z) : bool :=
  (op =? nvme_cmd_kv_append) || (op =? nvme_cmd_kv_store) || (op =? nvme_cmd_kv_retrieve) ||
  (op =? nvme_cmd_kv_delete) || is_kv_iter_req_cmd op || is_kv_iter_read_cmd op ||
  (op =? nvme_cmd_kv_exist) || is_kv_batch_cmd op.

Definition KV_ERR_KEY_NOT_EXIST : Z := 784.

(** ** Byte strings *)

(** [memcmp(a, b, n) == 0] on arrays of the given lengths. *)
Definition memcmp_eq (a b : list Z) (n : Z) : outcome bool :=
  GUARD! (n <=? Z.of_nat (length a)) && (n <=? Z.of_nat (length b));
  Ok (bool_decide (take (Z.to_nat n) a = take (Z.to_nat n) b)).
(** [memcpy(dst, src, n)] from the start of both. *)
Definition memcpy_bytes (dst src : list Z) (n : Z) : outcome (list Z) :=
  GUARD! (n <=? Z.of_nat (length dst)) && (n <=? Z.of_nat (length src));
  Ok (take (Z.to_nat n) src ++ drop (Z.to_nat n) dst).

Definition hash_function (key : list Z) (len : Z) : outcome Z :=
  GUARD! len <=? Z.of_nat (length key);
  Ok (foldl (fun h p => Z.lxor (u32 (h * 16777619)) p) 2166136261 (take (Z.to_nat len) key)).

(** ** Allocators (src/append_only.c, src/bitmap.c) *)

(** [struct allocator_ops]; the state is static in the files. *)
Class AllocatorOps (St : Type) := {
  alloc_init : St -> Z -> outcome St;
  alloc_allocate : St -> Z -> outcome (Z * St);
}.

Record append_only := mk_append_only {
  ao_latest : Z;
  ao_dev_size : Z;
  ao_total_written : Z;
}.

Definition append_only_allocator_init (st : append_only) (size : Z) : outcome append_only :=
  Ok (mk_append_only 0 size 0).
Definition append_only_allocate (st : append_only) (length : Z) : outcome (Z * append_only) :=
  Ok (ao_latest st, mk_append_only (u64 (ao_latest st + length)) (ao_dev_size st)
                      (u64 (ao_total_written st + length))).

#[export] Instance append_only_ops : AllocatorOps append_only := {
  alloc_init := append_only_allocator_init;
  alloc_allocate := append_only_allocate;
}.

Definition SMALL_LENGTH : Z := 1024.
Definition LARGE_LENGTH : Z := 4096.
(** Bits of [small_bitmap] and [large_bitmap]. *)
Definition small_bits : Z := 600000 * 64.
Definition large_bits : Z := 300000 * 64.

(** [bitmap_find_next_zero_area(map, size, start, 1, 0)] of the kernel. *)
Class KernelBitmap := bitmap_find_next_zero : (Z -> bool) -> Z -> Z -> Z.

Record bitmap_alloc := mk_bitmap {
  ba_small_nbits : Z;
  ba_large_nbits : Z;
  ba_small_bitmap : Z -> bool;
  ba_large_bitmap : Z -> bool;
  ba_small_last_pos : Z;
  ba_large_last_pos : Z;
  ba_dev_size : Z;
}.

Definition bitmap_zero (m : Z -> bool) (nbits : Z) : Z -> bool :=
  fun i => if i <? 64 * ((nbits + 63) / 64) then false else m i.
Definition bitmap_set (m : Z -> bool) (i : Z) : Z -> bool := fun j => if j =? i then true else m j.

Definition bitmap_allocator_init (st : bitmap_alloc) (size : Z) : outcome bitmap_alloc :=
  let small_nbits := size / 2 / SMALL_LENGTH in
  let large_nbits := size / 2 / LARGE_LENGTH in
  GUARD! (small_nbits <=? small_bits) && (large_nbits <=? large_bits);
  Ok (mk_bitmap small_nbits large_nbits (bitmap_zero (ba_small_bitmap st) small_nbits)
        (bitmap_zero (ba_large_bitmap st) large_nbits) (ba_small_last_pos st) (ba_large_last_pos st) size).

Section Bitmap.
Context `{KernelBitmap}.

Definition bitmap_allocate (st : bitmap_alloc) (length : Z) : outcome (Z * bitmap_alloc) :=
  if SMALL_LENGTH <? length then
    let off := bitmap_find_next_zero (ba_large_bitmap st) (ba_large_nbits st) (ba_large_last_pos st) in
    GUARD! off <? large_bits;
    let last := if ba_large_nbits st <? off + 1 then 0 else off + 1 in
    Ok (u64 (ba_dev_size st / 2 + off * LARGE_LENGTH),
        mk_bitmap (ba_small_nbits st) (ba_large_nbits st) (ba_small_bitmap st)
          (bitmap_set (ba_large_bitmap st) off) (ba_small_last_pos st) last (ba_dev_size st))
  else
    let off := bitmap_find_next_zero (ba_small_bitmap st) (ba_small_nbits st) (ba_small_last_pos st) in
    GUARD! off <? small_bits;
    let last := if ba_small_nbits st <? off + 1 then 0 else off + 1 in
    Ok (u64 (off * SMALL_LENGTH),
        mk_bitmap (ba_small_nbits st) (ba_large_nbits st) (bitmap_set (ba_small_bitmap st) off)
          (ba_large_bitmap st) last (ba_large_last_pos st) (ba_dev_size st)).

#[export] Instance bitmap_ops : AllocatorOps bitmap_alloc := {
  alloc_init := bitmap_allocator_init;
  alloc_allocate := bitmap_allocate;
}.
End Bitmap.

(** ** The mapping table *)
Definition OFFSET_NONE : Z := 18446744073709551615.
Definition SLOT_NONE : Z := 4294967295.

Record mapping_entry := mk_entry {
  me_key : list Z; (* 18 bytes *)
  me_mem_offset : Z;
  me_length : Z;
  me_next_slot : Z;
}.

Definition set_me_length (e : mapping_entry) (v : Z) : mapping_entry :=
  mk_entry (me_key e) (me_mem_offset e) v (me_next_slot e).
Definition set_me_next (e : mapping_entry) (v : Z) : mapping_entry :=
  mk_entry (me_key e) (me_mem_offset e) (me_length e) v.

(** All bytes ff, as [memset(&mapping, -1, sizeof(struct mapping_entry))]. *)
Definition entry_ff : mapping_entry := mk_entry (replicate 18 255) OFFSET_NONE OFFSET_NONE SLOT_NONE.
(** A slot after [kv_init_namespace]. *)
Definition entry_init : mapping_entry := mk_entry (replicate 18 0) OFFSET_NONE OFFSET_NONE SLOT_NONE.

Section Table.
(** [hash_slots] and the table. *)
Variable slots : Z.
Implicit Type t : list mapping_entry.

Definition get_hash_slot (key : list Z) (key_len : Z) : outcome Z :=
  let* h := hash_function key key_len in modO h slots.

Definition chain_mapping t (prev slot : Z) : outcome (list mapping_entry) :=
  alterZ (fun e => Ok (set_me_next e slot)) t prev.

(** The tail of a chain: the last [prevs]. *)
Fixpoint find_tail (fuel : nat) t (tail prevs : Z) : outcome Z :=
  match fuel with
  | O => NoFuel
  | S fuel' =>
      let* e := nthZ t tail in
      if me_mem_offset e =? OFFSET_NONE then Ok prevs
      else if me_next_slot e =? SLOT_NONE then Ok tail
      else find_tail fuel' t (me_next_slot e) tail
  end.

(** The next free slot; endless if there is none. *)
Fixpoint probe (fuel : nat) t (ret_slot : Z) : outcome Z :=
  match fuel with
  | O => NoFuel
  | S fuel' =>
      let* e := nthZ t ret_slot in
      if me_mem_offset e =? OFFSET_NONE then Ok ret_slot
      else
        let r := u32 (ret_slot + 1) in
        probe fuel' t (if slots <=? r then 0 else r)
  end.

(** The slot found and [*prev_slot]. *)
Definition find_next_slot t (original_slot : Z) : outcome (Z * Z) :=
  let* prevs := find_tail (S (length t)) t original_slot SLOT_NONE in
  let* ret_slot := probe (S (length t)) t prevs in
  Ok (ret_slot, prevs).

(** The members of a new entry; its link is left alone. *)
Definition put_entry (key : list Z) (key_len val_len val_offset : Z) (e : mapping_entry)
  : outcome mapping_entry :=
  let* k := memcpy_bytes (me_key e) key key_len in
  Ok (mk_entry k val_offset val_len (me_next_slot e)).

(** The entry in its slot, then the link. *)
Definition new_mapping_entry t (storage_size : Z) (key : list Z) (key_len val_len val_offset : Z)
  : outcome (list mapping_entry) :=
  ASSERT! val_offset <? storage_size;
  let* home := get_hash_slot key key_len in
  let* e := nthZ t home in
  let* (slot, prev_slot) :=
    (if negb (me_mem_offset e =? OFFSET_NONE) then find_next_slot t home else Ok (home, SLOT_NONE)) in
  let* t := alterZ (put_entry key key_len val_len val_offset) t slot in
  if negb (prev_slot =? SLOT_NONE) then chain_mapping t prev_slot slot else Ok t.

(** The loop of the lookups: the slot of the key. *)
Fixpoint search (fuel : nat) t (slot : Z) (key : list Z) (key_len : Z) : outcome (option Z) :=
  match fuel with
  | O => NoFuel
  | S fuel' =>
      let* e := nthZ t slot in
      if me_mem_offset e =? OFFSET_NONE then Ok None
      else
        let* same := memcmp_eq key (me_key e) key_len in
        if (same : bool) then Ok (Some slot)
        else if me_next_slot e =? SLOT_NONE then Ok None
        else search fuel' t (me_next_slot e) key key_len
  end.
Definition find_key t (key : list Z) (key_len : Z) : outcome (option Z) :=
  let* home := get_hash_slot key key_len in search (S (length t)) t home key key_len.

Definition update_mapping_entry t (key : list Z) (key_len val_len : Z) : outcome (Z * list mapping_entry) :=
  let* r := find_key t key key_len in
  match r with
  | Some slot => let* t := alterZ (fun e => Ok (set_me_length e val_len)) t slot in Ok (0, t)
  | None => Ok (1, t)
  end.

Definition get_mapping_entry t (key : list Z) (key_len : Z) : outcome mapping_entry :=
  let* r := find_key t key key_len in
  match r with
  | Some slot =>
      let* e := nthZ t slot in
      let* k := memcpy_bytes (me_key entry_ff) (me_key e) key_len in
      Ok (mk_entry k (me_mem_offset e) (me_length e) (me_next_slot e))
  | None => Ok entry_ff
  end.

(** The copies of the two functions for batches, whose keys are not those of a
    command. *)
Definition new_mapping_entry_by_key t (storage_size : Z) (key : list Z) (key_len val_len val_offset : Z)
  : outcome (list mapping_entry) := new_mapping_entry t storage_size key key_len val_len val_offset.
Definition get_mapping_entry_by_key t (key : list Z) (key_len : Z) : outcome mapping_entry :=
  get_mapping_entry t key key_len.

Definition delete_mapping_entry t (key : list Z) (key_len : Z) : outcome (list mapping_entry) :=
  let* r := find_key t key key_len in
  match r with
  | Some slot => updZ t slot entry_ff
  | None => Ok t
  end.
End Table.
