(* ===== verification/KvFtl.v ===== *)
(** * KvFtl: the commands of the key-value FTL (src/kv_ftl.c)

    Commands are executed by an I/O worker; the dispatcher only computes their
    time.  The allocator is known through [AllocatorOps]. *)
From stdpp Require Import base list numbers.
From Stdlib Require Import ZArith Lia.
From S2P Require Import Prelude ChannelModel SsdConfig Ssd Nvme Prp HostMem IoDev IoUnits KvData.

Open Scope Z_scope.
Open Scope nvmev_scope.

(** [buf] is allocated with the context; members never read are left out. *)
Record kv_iter_context := mk_iter {
  ic_prefix : Z;
  ic_bitmask : Z;
  ic_buf : mem;
  ic_current_pos : Z;
}.
(** A pointer of [iter_handle]; the last element is never initialised, so that
    comparing it with [NULL] is a fault. *)
Inductive iter_ptr := ITER_NULL | ITER_GARBAGE | ITER (c : kv_iter_context).

Record kv_ftl (A : Type) := mk_kv_ftl {
  kv_mapping_table : list mapping_entry;
  hash_slots : Z;
  kv_allocator : A;
  iter_handle : list iter_ptr;
}.
Arguments mk_kv_ftl {A}.
Arguments kv_mapping_table {A}.
Arguments hash_slots {A}.
Arguments kv_allocator {A}.
Arguments iter_handle {A}.

(** The four bytes of an [int]. *)
Definition le_int (v : Z) : list Z := dword_bytes v.
Definition le_uint (l : list Z) : Z := foldr (fun b v => b + 256 * v) 0 (take 4 l).

Section Kv.
Context {A : Type} `{AllocatorOps A} `{Clock}.
Implicit Type kv : kv_ftl A.
(** [config.storage_size], and the contents of a fresh [kmalloc]. *)
Variables (storage_size : Z) (kmalloc_bytes : mem).

Definition set_table kv l := mk_kv_ftl l (hash_slots kv) (kv_allocator kv) (iter_handle kv).
Definition set_allocator kv (a : A) := mk_kv_ftl (kv_mapping_table kv) (hash_slots kv) a (iter_handle kv).
Definition set_iters kv l := mk_kv_ftl (kv_mapping_table kv) (hash_slots kv) (kv_allocator kv) l.

(** ** Storing and retrieving *)
Definition allocate_mem_offset_by_length kv (val_len : Z) : outcome (Z * kv_ftl A) :=
  let* (offset, a) := alloc_allocate (kv_allocator kv) (u64 val_len) in
  Ok (if offset =? OFFSET_NONE then 0 else offset, set_allocator kv a).
Definition allocate_mem_offset kv (cmd : nvme_command) : outcome (Z * kv_ftl A) :=
  if opcode cmd =? nvme_cmd_kv_store then allocate_mem_offset_by_length kv (cmd_value_length cmd)
  else Ok (0, kv).

(** 1 for an insertion, 2 for an update with another length. *)
Definition update_kind (length entry_length : Z) : Z :=
  if negb (length =? entry_length) && (length <=? SMALL_LENGTH) && (entry_length <=? SMALL_LENGTH)
  then 2 else 0.

Definition kv_store_cmd kv (host storage : mem) (cmd : nvme_command) (entry : mapping_entry)
  : outcome (kv_ftl A * mem * mem) :=
  let length := cmd_value_length cmd in
  let* (kv, offset, is_insert) :=
    (if me_mem_offset entry =? OFFSET_NONE then
       let* (off, kv) := allocate_mem_offset kv cmd in Ok (kv, off, 1)
     else Ok (kv, me_mem_offset entry, update_kind length (me_length entry))) in
  let* (host, storage) :=
    prp_transfer host storage (prp1 cmd) (prp2 cmd) offset length storage_size PRP_TO_DEV in
  if is_insert =? 1 then
    let* t := new_mapping_entry (hash_slots kv) (kv_mapping_table kv) storage_size (kv_key cmd)
                (cmd_key_length cmd) length offset in
    Ok (set_table kv t, host, storage)
  else if is_insert =? 2 then
    let* (_, t) := update_mapping_entry (hash_slots kv) (kv_mapping_table kv) (kv_key cmd)
                     (cmd_key_length cmd) length in
    Ok (set_table kv t, host, storage)
  else Ok (kv, host, storage).

(** Host, storage, status and the result that goes into the completion. *)
Record kv_outcome := mk_kv_out {
  ko_ftl : kv_ftl A;
  ko_host : mem;
  ko_storage : mem;
  ko_status : Z;
  ko_result : Z;
}.

Definition __do_perform_kv_io kv (host storage : mem) (cmd : nvme_command) (status : Z)
  : outcome kv_outcome :=
  let* entry := get_mapping_entry (hash_slots kv) (kv_mapping_table kv) (kv_key cmd) (cmd_key_length cmd) in
  let op := opcode cmd in
  let missing := me_mem_offset entry =? OFFSET_NONE in
  if op =? nvme_cmd_kv_store then
    let* (kv, host, storage) := kv_store_cmd kv host storage cmd entry in
    Ok (mk_kv_out kv host storage status 0)
  else if op =? nvme_cmd_kv_retrieve then
    if missing then Ok (mk_kv_out kv host storage KV_ERR_KEY_NOT_EXIST 0)
    else
      let length := Z.min (me_length entry) (cmd_value_length cmd) in
      let* (host, storage) := prp_transfer host storage (prp1 cmd) (prp2 cmd) (me_mem_offset entry)
                                length storage_size PRP_TO_HOST in
      Ok (mk_kv_out kv host storage status (u32 length))
  else if op =? nvme_cmd_kv_exist then
    Ok (mk_kv_out kv host storage (if missing then KV_ERR_KEY_NOT_EXIST else status) 0)
  else if op =? nvme_cmd_kv_delete then
    if missing then Ok (mk_kv_out kv host storage KV_ERR_KEY_NOT_EXIST 0)
    else
      let* t := delete_mapping_entry (hash_slots kv) (kv_mapping_table kv) (kv_key cmd)
                  (cmd_key_length cmd) in
      Ok (mk_kv_out (set_table kv t) host storage status 0)
  else Ok (mk_kv_out kv host storage status 0).

(** ** Batches *)

(** [value] is an array of 4097 bytes, [val_len] an [int]. *)
Definition __do_perform_kv_batched_io kv (storage : mem) (opcode : Z) (key : list Z) (key_len : Z)
  (value : mem) (val_len : Z) : outcome (kv_ftl A * mem) :=
  let* entry := get_mapping_entry_by_key (hash_slots kv) (kv_mapping_table kv) key key_len in
  if opcode =? nvme_cmd_kv_store then
    let missing := me_mem_offset entry =? OFFSET_NONE in
    let* (kv, offset) :=
      (if missing then let* (off, kv) := allocate_mem_offset_by_length kv val_len in Ok (kv, off)
       else Ok (kv, me_mem_offset entry)) in
    GUARD! (0 <=? val_len) && (val_len <=? 4097) && (offset + val_len <=? storage_size);
    let storage := memcpy storage offset value 0 val_len in
    if missing then
      let* t := new_mapping_entry_by_key (hash_slots kv) (kv_mapping_table kv) storage_size key key_len
                  val_len offset in
      Ok (set_table kv t, storage)
    else Ok (kv, storage)
  else Ok (kv, storage).

(** Reading [n] bytes of [buffer], which has [length] bytes. *)
Definition buf_read (buffer : mem) (length off n : Z) : outcome (list Z) :=
  GUARD! (n =? 0) || ((0 <=? off) && (0 <=? n) && (off + n <=? length));
  Ok (map (fun i => buffer (off + i)) (seqZ 0 n)).

Definition ALIGN_LEN : Z := 64.
(** [sizeof(struct batch_cmd_head)] and [sizeof(struct sub_cmd_attribute)] *)
Definition sizeof_batch_head : Z := 512.
Definition sizeof_attr : Z := 16.
Definition align_up (n : Z) : Z := (Z.quot (n - 1) ALIGN_LEN + 1) * ALIGN_LEN.

(** Sub-command [i]: the new [payload_offset]. *)
Definition batch_step (buffer : mem) (length : Z) (s : kv_ftl A * mem * Z) (i : Z)
  : outcome (kv_ftl A * mem * Z) :=
  let '(kv, storage, payload_offset) := s in
  let* attr := buf_read buffer length (sizeof_attr * i) 8 in
  let* opcode := nthZ attr 0 in
  let* key_len := nthZ attr 1 in
  let val_len := s32 (le_uint (drop 4 attr)) in
  let* k := buf_read buffer length (sizeof_batch_head + payload_offset) key_len in
  let* key := memcpy_bytes (replicate 20 0) k key_len in
  GUARD! (0 <=? val_len) && (val_len <=? 4097);
  let voff := sizeof_batch_head + payload_offset + align_up key_len in
  let* v := buf_read buffer length voff val_len in
  let value := write_bytes (fun _ => 0) 0 v in
  let* (kv, storage) := __do_perform_kv_batched_io kv storage opcode key key_len value val_len in
  Ok (kv, storage, payload_offset + (align_up key_len + align_up val_len + ALIGN_LEN)).

Definition __do_perform_kv_batch kv (host storage : mem) (cmd : nvme_command) (status : Z)
  : outcome kv_outcome :=
  let length := cmd_value_length cmd in
  let* (host, buffer) :=
    prp_transfer host kmalloc_bytes (prp1 cmd) (prp2 cmd) 0 length length PRP_TO_DEV in
  let* (kv, storage, _) := forO 0 (kv_batch_rsvd4 cmd) (kv, storage, ALIGN_LEN) (batch_step buffer length) in
  Ok (mk_kv_out kv host storage status 0).

(** ** Iterators *)
Definition ITER_OPTION_OPEN_BIT : Z := 0.
Definition ITER_OPTION_CLOSE_BIT : Z := 1.

(** The first free handle from [iter] on. *)
Fixpoint free_handle (n : nat) (hs : list iter_ptr) (iter : Z) : outcome (option Z) :=
  match n with
  | O => Ok None
  | S n' =>
      let* p := nthZ hs iter in
      match p with
      | ITER_NULL => Ok (Some iter)
      | ITER_GARBAGE => Fault
      | ITER _ => free_handle n' hs (iter + 1)
      end
  end.

Definition kv_iter_open kv (cmd : nvme_command) (status : Z) : outcome (kv_ftl A * Z * Z) :=
  let* r := free_handle 16 (iter_handle kv) 1 in
  match r with
  | None => Ok (kv, status, 1)
  | Some iter =>
      let* hs := updZ (iter_handle kv) iter
                   (ITER (mk_iter (kv_iter_val cmd) (kv_iter_bitmask cmd) kmalloc_bytes 0)) in
      Ok (set_iters kv hs, 0, iter)
  end.

Definition kv_iter_close kv (cmd : nvme_command) : outcome (kv_ftl A * Z * Z) :=
  let* p := nthZ (iter_handle kv) (kv_iter_handle cmd) in
  match p with
  | ITER_NULL => Ok (kv, 0, 0)
  | ITER_GARBAGE => Fault
  | ITER _ => let* hs := updZ (iter_handle kv) (kv_iter_handle cmd) ITER_NULL in Ok (set_iters kv hs, 0, 0)
  end.

Definition ITER_KEYLEN : Z := 16.

(** The loop over the table: position, buffer, its fill, keys, [end]. *)
Fixpoint iter_scan (fuel : nat) (slots : Z) (t : list mapping_entry) (prefix bitmask : Z)
  (pos : Z) (buf : mem) (buf_offset nr_keys : Z) : outcome (Z * mem * Z * Z * bool) :=
  if slots <=? pos then Ok (pos, buf, buf_offset, nr_keys, false)
  else
    match fuel with
    | O => NoFuel
    | S fuel' =>
        let* e := nthZ t pos in
        let hit := negb (me_mem_offset e =? OFFSET_NONE) &&
                   (Z.land (le_uint (me_key e)) bitmask =? Z.land prefix bitmask) in
        if hit && (1024 <? buf_offset + 4 + ITER_KEYLEN) then Ok (pos, buf, buf_offset, nr_keys, false)
        else
          let '(buf, buf_offset, nr_keys) :=
            (if hit then
               (write_bytes (write_bytes buf buf_offset (le_int ITER_KEYLEN)) (buf_offset + 4)
                  (take (Z.to_nat ITER_KEYLEN) (me_key e)),
                buf_offset + 4 + ITER_KEYLEN, nr_keys + 1)
             else (buf, buf_offset, nr_keys)) in
          if pos + 1 =? slots then Ok (pos + 1, buf, buf_offset, nr_keys, true)
          else iter_scan fuel' slots t prefix bitmask (pos + 1) buf buf_offset nr_keys
    end.

Definition KV_ITER_END : Z := 915.

Definition kv_iter_read kv (host : mem) (cmd : nvme_command) (status : Z) : outcome (kv_ftl A * mem * Z * Z) :=
  let* p := nthZ (iter_handle kv) (kv_iter_handle cmd) in
  match p with
  | ITER_NULL => Ok (kv, host, status, 0)
  | ITER_GARBAGE => Fault
  | ITER c =>
      let* (pos, buf, buf_offset, nr_keys, fin) :=
        iter_scan (length (kv_mapping_table kv)) (hash_slots kv) (kv_mapping_table kv) (ic_prefix c)
          (ic_bitmask c) (ic_current_pos c) (ic_buf c) 4 0 in
      let buf := write_bytes buf 0 (le_int nr_keys) in
      let* (host, buf) := prp_transfer host buf (prp1 cmd) (prp2 cmd) 0 buf_offset 32768 PRP_TO_HOST in
      let* hs := updZ (iter_handle kv) (kv_iter_handle cmd)
                   (ITER (mk_iter (ic_prefix c) (ic_bitmask c) buf pos)) in
      Ok (set_iters kv hs, host, if (fin : bool) then KV_ITER_END else 0, buf_offset)
  end.

Definition __do_perform_kv_iter_io kv (host storage : mem) (cmd : nvme_command) (status : Z)
  : outcome kv_outcome :=
  if is_kv_iter_req_cmd (opcode cmd) then
    if Z.testbit (kv_iter_option cmd) ITER_OPTION_OPEN_BIT then
      let* (kv, st, r) := kv_iter_open kv cmd status in Ok (mk_kv_out kv host storage st r)
    else if Z.testbit (kv_iter_option cmd) ITER_OPTION_CLOSE_BIT then
      let* (kv, st, r) := kv_iter_close kv cmd in Ok (mk_kv_out kv host storage st r)
    else Ok (mk_kv_out kv host storage status 0)
  else if is_kv_iter_read_cmd (opcode cmd) then
    let* (kv, host, st, r) := kv_iter_read kv host cmd status in Ok (mk_kv_out kv host storage st r)
  else Ok (mk_kv_out kv host storage status 0).

(** ** The two entry points *)
Definition kv_perform_nvme_io_cmd kv (host storage : mem) (cmd : nvme_command) (status : Z)
  : outcome kv_outcome :=
  if is_kv_batch_cmd (opcode cmd) then __do_perform_kv_batch kv host storage cmd status
  else if is_kv_iter_cmd (opcode cmd) then __do_perform_kv_iter_io kv host storage cmd status
  else __do_perform_kv_io kv host storage cmd status.

Definition kv_identify_nvme_io_cmd (cmd : nvme_command) : bool := is_kv_cmd (opcode cmd).

(** The copies of the functions of src/simple_ftl.c, with the opcodes of the
    key-value set. *)
Definition kv_schedule_io_units (cfg : nvmev_config) (stat : list Z) (op lba length nsecs_start : Z)
  : outcome (Z * list Z) :=
  let writes := (op =? nvme_cmd_write) || (op =? nvme_cmd_kv_store) || (op =? nvme_cmd_kv_batch) in
  let reads := (op =? nvme_cmd_read) || (op =? nvme_cmd_kv_retrieve) in
  __schedule_io_units cfg stat writes reads lba length nsecs_start.
Definition kv_schedule_flush (cfg : nvmev_config) (stat : list Z) : outcome Z := __schedule_flush cfg stat.

(** [io_unit_stat] is passed and returned; the message of a key-value command
    reads the clock once more. *)
Definition kv_proc_nvme_io_cmd (cfg : nvmev_config) (stat : list Z) (clk : nat) (req : nvmev_request)
  (ret : nvmev_result) : outcome (list Z * nat * nvmev_result) :=
  let cmd := req_cmd req in
  let op := opcode cmd in
  if (op =? nvme_cmd_write) || (op =? nvme_cmd_read) then
    let* (t, stat) := kv_schedule_io_units cfg stat op (rw_slba cmd)
                        (u32 (__cmd_io_size cmd)) (cpu_clock clk) in
    Ok (stat, S clk, mk_nvmev_result (ret_status ret) t)
  else if op =? nvme_cmd_flush then
    let* t := kv_schedule_flush cfg stat in Ok (stat, clk, mk_nvmev_result (ret_status ret) t)
  else if (op =? nvme_cmd_kv_store) || (op =? nvme_cmd_kv_retrieve) || (op =? nvme_cmd_kv_batch) then
    let* (t, stat) := kv_schedule_io_units cfg stat op 0 (cmd_value_length cmd) (cpu_clock clk) in
    Ok (stat, S (S clk), mk_nvmev_result (ret_status ret) t)
  else Ok (stat, clk, ret).

(** ** Initialisation *)
Definition KV_MAPPING_TABLE_SIZE : Z := GB 1.
(** [sizeof(struct mapping_entry)]: 18 bytes of key padded to 24, two [size_t]
    and the padded link. *)
Definition KV_MAPPING_ENTRY_SIZE : Z := 48.

(** [last] is the uninitialised pointer behind the sixteen that are cleared. *)
Definition kv_init_ftl (table_size : Z) (a : A) (last : iter_ptr) : outcome (kv_ftl A) :=
  let* a := alloc_init a storage_size in
  let slots := table_size / KV_MAPPING_ENTRY_SIZE in
  Ok (mk_kv_ftl (replicate (Z.to_nat slots) entry_init) slots a (replicate 16 ITER_NULL ++ [last])).
Definition kv_init_namespace (a : A) (last : iter_ptr) : outcome (kv_ftl A) :=
  kv_init_ftl KV_MAPPING_TABLE_SIZE a last.
End Kv.
Arguments mk_kv_out {A}.
Arguments ko_ftl {A}.
Arguments ko_host {A}.
Arguments ko_storage {A}.
Arguments ko_status {A}.
Arguments ko_result {A}.
