(* ===== verification/HostStructs.v ===== *)
(** * HostStructs: the pages of the administration commands and the views of
    a command, by the names of their members

    Identify fills a page of the host with one of the structures of src/nvme.h
    and src/nvme_zns.h; the members that the driver reads by name have the
    values that the code assigned, the others are 0. *)
From Stdlib Require Import Strings.String Strings.Ascii ZArith Lia.
From stdpp Require Import base list numbers.
From S2P Require Import Prelude ChannelModel SsdConfig Ssd Nvme Prp HostMem WorkQueue IoDev IoQueue ZnsData.
From S2P Require Import Admin Pci PciFacts Layout NvmeStructs KvData KvFtl.

Open Scope string_scope.
Open Scope list_scope.
Open Scope Z_scope.
Open Scope nvmev_scope.

(** ** Assignments at offsets *)

(** The value that the last assignment to the member left. *)
Fixpoint last_field (l : list (Z * Z * Z)) (o n : Z) : option Z :=
  match l with
  | [] => None
  | (o', n', v) :: l =>
      match last_field l o n with
      | Some v => Some v
      | None => if forallb (apart o n) l && (o' =? o) && (n' =? n) then Some v else None
      end
  end.

Lemma last_field_get m a l o n v : 0 <= n -> last_field l o n = Some v ->
  get_le (put_fields m a l) (a + o) n = v mod 2 ^ (8 * n).
Proof.
  intros Hn. revert m. induction l as [|[[o' n'] v'] l IH]; intros m Hl; simpl in *; [done|].
  destruct (last_field l o n) as [w|] eqn:E; [injection Hl as ->; by apply IH|].
  destruct (forallb (apart o n) l) eqn:Ea; [|done]. simpl in Hl. destruct (Z.eqb_spec o' o), (Z.eqb_spec n' n); simplify_eq/=.
  by apply (get_fields m a [] o n v l).
Qed.

Lemma put_fields_ext m m' a l : (forall x, m x = m' x) -> forall x, put_fields m a l x = put_fields m' a l x.
Proof.
  unfold put_fields. revert m m'. induction l as [|[[o n] v] l IH]; intros m m' E; simpl; [done|].
  apply IH. intros x. unfold put_le, write_bytes. by case_match.
Qed.

Lemma put_fields_app m a l1 l2 : put_fields m a (l1 ++ l2) = put_fields (put_fields m a l1) a l2.
Proof. unfold put_fields. by rewrite foldl_app. Qed.

(** Bytes of a string as assignments. *)
Definition byte_fields (o : Z) (l : list Z) : list (Z * Z * Z) := imap (fun i b => (o + Z.of_nat i, 1, b)) l.

Lemma write_bytes_fields m a o l : Forall (fun b => 0 <= b < 256) l ->
  forall x, write_bytes m (a + o) l x = put_fields m a (byte_fields o l) x.
Proof.
  intros Hl. induction l as [|b l IH] using rev_ind; intros x.
  - rewrite write_other by (simpl; lia). done.
  - apply Forall_app in Hl as [Hl Hb]. apply Forall_cons_1 in Hb as [Hb _]. unfold byte_fields. rewrite imap_app, put_fields_app.
    simpl. unfold put_fields at 1. simpl. rewrite Nat.add_0_r. remember (Z.of_nat (length l)) as k eqn:Ek.
    destruct (decide (x = a + (o + k))) as [->|Hx].
    + rewrite put_byte by lia. replace (8 * (a + (o + k) - (a + (o + k)))) with 0 by lia. unfold write_bytes.
      rewrite length_app. simpl. rewrite (proj2 (Z.leb_le _ _)), (proj2 (Z.ltb_lt _ _)) by lia. simpl.
      replace (Z.to_nat (a + (o + k) - (a + o))) with (length l) by lia. rewrite lookup_app_r, Nat.sub_diag by lia. simpl.
      rewrite getf_div by lia. rewrite Z.div_1_r, Z.mod_small by done. done.
    + rewrite put_other by lia. transitivity (write_bytes m (a + o) l x); [|by apply IH]. unfold write_bytes. rewrite length_app. simpl.
      destruct (Z.leb_spec (a + o) x); simpl; [|done].
      destruct (Z.ltb_spec x (a + o + Z.of_nat (length l + 1))), (Z.ltb_spec x (a + o + Z.of_nat (length l))); simpl; try (done || lia).
      by rewrite lookup_app_l by lia.
Qed.

(** ** A page by name *)
Definition page : Type := ctype * list (list pstep * Z).

(** The assignments [l] are those to the members [ms], an integer each. *)
Definition page_fields (t : ctype) (ms : list (list pstep * Z)) (l : list (Z * Z * Z)) : Prop :=
  Forall (fun '(p, v) => exists o n, locate t p = Some (o, CInt n) /\ last_field l (o / 8) n = Some v) ms /\
  Forall (fun '(o, n, _) => Exists (fun '(p, _) => locate t p = Some (8 * o, CInt n)) ms) l.

(** What the page of type [t] at [a] holds: the members [ms], and 0 elsewhere. *)
Definition page_holds (m : mem) (a : Z) (t : ctype) (ms : list (list pstep * Z)) : Prop :=
  Forall (fun '(p, v) => get_at m a t p = Some (v mod 2 ^ width_at t p)) ms /\
  forall q o w, leaf_at t q = Some (o, w) -> forallb (fun p => diverge p q) (map fst ms) = true -> get_at m a t q = Some 0.

Lemma memset_zero m a n x : a <= x < a + n -> memset0 m a n x = 0.
Proof. intros Hx. unfold memset0. destruct (Z.leb_spec a x), (Z.ltb_spec x (a + n)); simpl; (done || lia). Qed.

Lemma memset_bytes m a n : is_bytes m -> is_bytes (memset0 m a n).
Proof. intros Hm x. unfold memset0. case_match; [lia|apply Hm]. Qed.

Lemma put_fields_bytes m a l : is_bytes m -> Forall (fun '(_, n, _) => 0 <= n) l -> is_bytes (put_fields m a l).
Proof.
  unfold put_fields. revert m. induction l as [|[[o n] v] l IH]; intros m Hm Hl; simpl; [done|].
  apply Forall_cons_1 in Hl as [Hn Hl]. apply IH; [by apply put_is_bytes|done].
Qed.

Lemma page_by_name m m' a t ms l : is_bytes m -> wf_ctype t = true -> unionless t = true -> page_fields t ms l ->
  (forall x, m' x = put_fields (memset0 m a (sizeof t)) a l x) -> 8 * sizeof t = size_of t -> page_holds m' a t ms.
Proof.
  intros Hm Hwf Hu [Hms Hl] Heq Hsz.
  assert (Hn : Forall (fun '(o, n, _) => 0 <= n) l).
  { eapply Forall_impl; [|exact Hl]. intros [[o n] v] Hex. apply Exists_exists in Hex as ([p w] & _ & Hp).
    destruct (locate_fits t p _ _ Hwf Hp) as (Hi & _). pose proof (int_al n Hi) as Ha. unfold is_al in Ha. lia. }
  assert (Hm0 : is_bytes (memset0 m a (sizeof t))) by by apply memset_bytes.
  assert (Hm' : is_bytes m') by (intros x; rewrite Heq; by apply put_fields_bytes).
  split.
  - eapply Forall_impl; [|exact Hms]. intros [p v] (o & n & Hp & Hv). unfold get_at, width_at. rewrite Hp.
    destruct (locate_fits t p _ _ Hwf Hp) as (Hi & _). pose proof (int_al n Hi) as Ha. unfold is_al in Ha. f_equal.
    etransitivity; [|apply (last_field_get (memset0 m a (sizeof t)) a l (o / 8) n v ltac:(lia) Hv)].
    unfold get_le. f_equal. apply bytes_same. intros x _. apply Heq.
  - intros q o w Hq Hdiv. destruct (get_at_leaf m' a t q o w Hm' Hwf Hq) as (Hw & v & -> & Hr & Hb). f_equal.
    apply (bits_eq _ _ w); [done|pose proof (Z.pow_pos_nonneg 2 w); lia|done|]. intros k Hk. rewrite Hb, Z.testbit_0_l by done.
    unfold mbit. rewrite Heq. pose proof (bit_split (8 * a + o + k)) as Hbs.
    assert (Hin : exists u, locate t q = Some (o, u) /\ size_of u = w).
    { unfold leaf_at in Hq. destruct (locate t q) as [[o' u]|]; [|done]. destruct u; simplify_eq; by eexists. }
    destruct Hin as (u & Hlq & Hsu). pose proof (locate_inside t q o u Hwf Hlq).
    rewrite put_fields_other; [rewrite memset_zero by lia; apply Z.testbit_0_l|].
    rewrite Forall_forall in Hl. apply Forall_forall. intros [[o' n] v'] Hin'. rewrite Forall_forall in Hn. split; [apply (Hn _ Hin')|].
    specialize (Hl _ Hin'). apply Exists_exists in Hl as ([p w'] & Hp & Hlp). rewrite forallb_forall in Hdiv.
    specialize (Hdiv p (in_map fst _ _ Hp)). destruct (members_disjoint t p q Hwf Hu Hdiv _ _ _ _ Hlp Hlq) as [Hd|Hd];
      change (size_of (CInt n)) with (8 * n) in Hd; lia.
Qed.

(** ** The pages *)
Definition ns_page (nsze : Z) : list (list pstep * Z) :=
  flat_map (fun '(i, ms, ds, rp) =>
    [([Fld "lbaf"; Idx i; Fld "ms"], ms); ([Fld "lbaf"; Idx i; Fld "ds"], ds); ([Fld "lbaf"; Idx i; Fld "rp"], rp)]) lba_formats
  ++ [([Fld "flbas"], 0); ([Fld "nlbaf"], 6); ([Fld "dps"], 0); ([Fld "nsze"], nsze); ([Fld "ncap"], nsze); ([Fld "nuse"], nsze)].

Definition ns_page_fields (nsze : Z) : list (Z * Z * Z) :=
  lbaf_fields ++ [(26, 1, 0); (25, 1, 6); (29, 1, 0); (0, 8, nsze); (8, 8, nsze); (16, 8, nsze)].

Definition string_members (x : string) (s : string) : list (list pstep * Z) :=
  imap (fun i b => ([Fld x; Idx (Z.of_nat i)], b)) (cstring s).

Definition ctrl_page (nr_ns mdts : Z) : list (list pstep * Z) :=
  [([Fld "nn"], nr_ns); ([Fld "oncs"], 0); ([Fld "acl"], 3); ([Fld "vwc"], 0)]
  ++ string_members "sn" "CSL_Virt_SN_01" ++ string_members "mn" "CSL_Virt_MN_01" ++ string_members "fr" "CSL_002"
  ++ [([Fld "mdts"], mdts); ([Fld "sqes"], 102); ([Fld "cqes"], 68)].

Definition ctrl_page_fields (nr_ns mdts : Z) : list (Z * Z * Z) :=
  [(516, 4, nr_ns); (520, 2, 0); (258, 1, 3); (525, 1, 0)]
  ++ byte_fields 4 (cstring "CSL_Virt_SN_01") ++ byte_fields 24 (cstring "CSL_Virt_MN_01") ++ byte_fields 64 (cstring "CSL_002")
  ++ [(77, 1, mdts); (512, 1, 102); (513, 1, 68)].

Definition desc_page (csi : Z) : list (list pstep * Z) :=
  [([Fld "nidt"], NVME_NIDT_CSI); ([Fld "nidl"], 1); ([Fld "nid"; Idx 0], csi)].

Definition zns_page (zpp : znsparams) : list (list pstep * Z) :=
  [([Fld "zoc"], 0); ([Fld "ozcs"], if 0 <? nr_zrwa_zones zpp then OZCS_ZRWA else 0);
   ([Fld "mar"], u32 (nr_active_zones zpp - 1)); ([Fld "mor"], u32 (nr_open_zones zpp - 1));
   ([Fld "lbaf"; Idx 0; Fld "zsze"], BYTE_TO_LBA (zone_size zpp)); ([Fld "lbaf"; Idx 0; Fld "zdes"], 0)]
  ++ (if 0 <? nr_zrwa_zones zpp then
        [([Fld "numzrwa"], u32 (nr_zrwa_zones zpp - 1)); ([Fld "zrwafg"], zrwafg_size zpp); ([Fld "zrwasz"], zrwa_size zpp);
         ([Fld "zrwacap"], ZRWACAP_EXPFLUSHSUP)]
      else []).

Ltac solve_page :=
  split;
  [repeat (apply Forall_cons_2; [by eexists _, _; split; [reflexivity|reflexivity]|]); apply Forall_nil_2
  |repeat (apply Forall_cons_2; [by repeat first [apply Exists_cons_hd; reflexivity | apply Exists_cons_tl]|]); apply Forall_nil_2].

Lemma ns_page_ok nsze : page_fields struct_nvme_id_ns (ns_page nsze) (ns_page_fields nsze).
Proof. unfold ns_page, ns_page_fields, lbaf_fields. cbn [flat_map lba_formats app]. solve_page. Qed.

Lemma ctrl_page_ok nr_ns mdts : page_fields struct_nvme_id_ctrl (ctrl_page nr_ns mdts) (ctrl_page_fields nr_ns mdts).
Proof. unfold ctrl_page, ctrl_page_fields, string_members, byte_fields. cbn -[page_fields locate last_field]. solve_page. Qed.

Lemma desc_page_ok csi : page_fields struct_nvme_id_ns_desc (desc_page csi) [(0, 1, NVME_NIDT_CSI); (1, 1, 1); (4, 1, csi)].
Proof. unfold desc_page. solve_page. Qed.

Lemma zns_page_ok zpp : page_fields struct_nvme_id_zns_ns (zns_page zpp) (zns_ns_fields zpp).
Proof. unfold zns_page, zns_ns_fields. destruct (0 <? nr_zrwa_zones zpp); cbn [app]; solve_page. Qed.

(** ** Logs *)
Definition smart_page : list (list pstep * Z) :=
  [([Fld "critical_warning"], 0); ([Fld "spare_thresh"], 20); ([Fld "temperature"; Idx 0], 0); ([Fld "temperature"; Idx 1], 0)].
Definition effects_page (bc : base_config) : list (list pstep * Z) :=
  map (fun op => ([Fld "acs"; Idx op], NVME_CMD_EFFECTS_CSUPP))
    [nvme_admin_get_log_page; nvme_admin_identify; nvme_admin_set_features; nvme_admin_get_features; nvme_admin_async_event]
  ++ (if SUPPORTED_SSD_TYPE_ZNS bc then
        [([Fld "iocs"; Idx nvme_cmd_zone_append], NVME_CMD_EFFECTS_CSUPP);
         ([Fld "iocs"; Idx nvme_cmd_zone_mgmt_send], Z.lor NVME_CMD_EFFECTS_CSUPP NVME_CMD_EFFECTS_LBCC);
         ([Fld "iocs"; Idx nvme_cmd_zone_mgmt_recv], NVME_CMD_EFFECTS_CSUPP)]
      else []).

Lemma log_page_holds m t ms l : m = put_fields (fun _ => 0) 0 l -> wf_ctype t = true -> unionless t = true ->
  page_fields t ms l -> 8 * sizeof t = size_of t -> page_holds m 0 t ms.
Proof.
  intros -> Hwf Hu Hf Hsz. apply (page_by_name (fun _ => 0) _ 0 t ms l); [done..| |done]. intros x. apply put_fields_ext. intros y.
  unfold memset0. by case_match.
Qed.

Lemma smart_log_holds : page_holds smart_log 0 struct_nvme_smart_log smart_page.
Proof. eapply log_page_holds; [reflexivity|done..| |done]. unfold smart_page. solve_page. Qed.

Lemma effects_log_holds bc : page_holds (effects_log bc) 0 struct_nvme_effects_log (effects_page bc).
Proof.
  eapply log_page_holds; [reflexivity|done..| |done]. unfold effects_page.
  destruct (SUPPORTED_SSD_TYPE_ZNS bc); cbn [map app]; solve_page.
Qed.

(** ** The identify commands *)
Section Identify.
Context {F : Type} `{NsInfo F}.
Implicit Type c : nvmev_ctrl F.
Variable bc : base_config.

(** What an identify command describes. *)
Definition id_page c (cmd : nvme_command) : outcome page :=
  let cns := id_cns cmd in
  if cns =? 0 then
    let* ns := nthZ (d_ns (c_dev c)) (u32 (nsid cmd - 1)) in Ok (struct_nvme_id_ns, ns_page (Z.shiftr (info_size ns) 9))
  else if cns =? 1 then Ok (struct_nvme_id_ctrl, ctrl_page (c_nr_ns c) (c_mdts c))
  else if cns =? 3 then
    let* ns := nthZ (d_ns (c_dev c)) (s32 (nsid cmd - 1)) in Ok (struct_nvme_id_ns_desc, desc_page (info_csi ns))
  else if cns =? 5 then
    let* ns := nthZ (d_ns (c_dev c)) (s32 (nsid cmd - 1)) in
    let* ty := NS_SSD_TYPE bc (s32 (nsid cmd - 1)) in
    match ty with SSD_TYPE_ZNS => ASSERT! info_csi ns =? NVME_CSI_ZNS; let* zpp := of_option (info_zpp ns) in Ok (struct_nvme_id_zns_ns, zns_page zpp) | _ => Fault end
  else Fault.

Lemma make_host c eid ret c' : __make_cq_entry c eid ret = Ok c' -> c_host c' = c_host c.
Proof.
  unfold __make_cq_entry, __make_cq_entry_results. destruct (get_aq _) as [q| | |]; try done. cbn [obind].
  destruct (aq_sq_entry q eid); try done. cbn [obind]. destruct (aq_post _ _); try done. by intros [= <-].
Qed.

(** The format is read back from the page. *)
Lemma identify_ns_host c eid cmd ns :
  admin_cmd c eid = Ok cmd -> nthZ (d_ns (c_dev c)) (u32 (nsid cmd - 1)) = Ok ns ->
  __nvmev_admin_identify_namespace c eid =
    __make_cq_entry (set_host c (put_fields (memset0 (c_host c) (prp1 cmd) PAGE_SIZE) (prp1 cmd)
      (ns_page_fields (Z.shiftr (info_size ns) 9)))) eid NVME_SC_SUCCESS.
Proof.
  intros Hc Hns. unfold __nvmev_admin_identify_namespace. rewrite Hc. cbn [obind]. change (LBA_BITS =? 9) with true.
  cbn [obind]. rewrite Hns. cbn [obind]. set (p := prp1 cmd). set (m0 := memset0 (c_host c) p PAGE_SIZE).
  set (m3 := put_fields (put_le (put_fields m0 p lbaf_fields) (p + 26) 1 0) p [(25, 1, 6); (29, 1, 0)]).
  assert (Em : m3 = put_fields m0 p (lbaf_fields ++ [(26, 1, 0); (25, 1, 6); (29, 1, 0)])) by (unfold m3; by rewrite put_fields_app).
  assert (Ef : get_le m3 (p + 26) 1 = 0) by (rewrite Em; apply (last_field_get m0 p _ 26 1 0); [lia|reflexivity]).
  assert (Ed : get_le m3 (p + 128 + 4 * 0 + 2) 1 = 9).
  { replace (p + 128 + 4 * 0 + 2) with (p + 130) by lia. rewrite Em. apply (last_field_get m0 p _ 130 1 9); [lia|reflexivity]. }
  rewrite Ef, Ed, Em. unfold ns_page_fields. by rewrite !put_fields_app.
Qed.

Lemma ctrl_page_memory m p nr_ns mdts x :
  put_fields (write_bytes (write_bytes (write_bytes (put_fields m p [(516, 4, nr_ns); (520, 2, 0); (258, 1, 3); (525, 1, 0)])
    (p + 4) (cstring "CSL_Virt_SN_01")) (p + 24) (cstring "CSL_Virt_MN_01")) (p + 64) (cstring "CSL_002")) p
    [(77, 1, mdts); (512, 1, 102); (513, 1, 68)] x = put_fields m p (ctrl_page_fields nr_ns mdts) x.
Proof.
  assert (Hb : forall s, Forall (fun b => 0 <= b < 256) (cstring s)).
  { intros s. apply Forall_app. split; [|by repeat constructor]. apply Forall_map, Forall_forall. intros b _.
    pose proof (N_ascii_bounded b). lia. }
  unfold ctrl_page_fields. rewrite !put_fields_app. apply put_fields_ext. intros y.
  rewrite write_bytes_fields by apply Hb. apply put_fields_ext. intros z.
  rewrite write_bytes_fields by apply Hb. apply put_fields_ext. intros w. by rewrite write_bytes_fields by apply Hb.
Qed.
Lemma put_outside m p (l : list (Z * Z * Z)) n x : Forall (fun '(o, k, _) => 0 <= k /\ 0 <= o /\ o + k <= n) l -> ~ (p <= x < p + n) ->
  put_fields (memset0 m p n) p l x = m x.
Proof.
  intros Hl Hx. rewrite put_fields_other; [unfold memset0; destruct (Z.leb_spec p x), (Z.ltb_spec x (p + n)); simpl; (done || lia)|].
  eapply Forall_impl; [|exact Hl]. intros [[o k] v]. lia.
Qed.

(** Every identify command with a description writes it, and nothing else. *)
Lemma identify_host c eid cmd t ms : admin_cmd c eid = Ok cmd -> is_bytes (c_host c) -> id_page c cmd = Ok (t, ms) ->
  exists m', __nvmev_admin_identify bc c eid = __make_cq_entry (set_host c m') eid NVME_SC_SUCCESS /\
    page_holds m' (prp1 cmd) t ms /\ forall x, ~ (prp1 cmd <= x < prp1 cmd + PAGE_SIZE) -> m' x = c_host c x.
Proof.
  intros Hc Hm Hp. unfold id_page in Hp. unfold __nvmev_admin_identify. rewrite Hc. cbn [obind].
  assert (Hin : forall l : list (Z * Z * Z), forallb (fun '(o, k, _) => (0 <=? k) && (0 <=? o) && (o + k <=? PAGE_SIZE)) l = true ->
    Forall (fun '(o, k, _) => 0 <= k /\ 0 <= o /\ o + k <= PAGE_SIZE) l).
  { intros l Hl. apply Forall_forall. intros [[o k] v] Hv. rewrite forallb_forall in Hl. specialize (Hl _ Hv). simpl in Hl. boolify. lia. }
  destruct (Z.eqb_spec (id_cns cmd) 0) as [_|_]; [|destruct (Z.eqb_spec (id_cns cmd) 1) as [_|_];
    [|destruct (Z.eqb_spec (id_cns cmd) 3) as [E3|_]; [|destruct (Z.eqb_spec (id_cns cmd) 5) as [E5|_]; [|done]]]].
  - destruct (nthZ _ _) as [ns| | |] eqn:Hns; try done. cbn [obind] in Hp. injection Hp as <- <-.
    rewrite (identify_ns_host c eid cmd ns Hc Hns). eexists. split; [done|]. split.
    + eapply page_by_name; [exact Hm|done|done|apply ns_page_ok|done|done].
    + intros x Hx. apply (put_outside _ _ _ PAGE_SIZE); [by apply Hin|exact Hx].
  - injection Hp as <- <-. unfold __nvmev_admin_identify_ctrl. rewrite Hc. cbn [obind]. eexists. split; [done|]. split.
    + eapply page_by_name; [exact Hm|done|done|apply ctrl_page_ok|intros x; apply ctrl_page_memory|done].
    + intros x Hx. rewrite ctrl_page_memory. apply (put_outside _ _ _ PAGE_SIZE); [by apply Hin|exact Hx].
  - destruct (nthZ _ _) as [ns| | |] eqn:Hns; try done. cbn [obind] in Hp. injection Hp as <- <-. rewrite (proj2 (Z.eqb_neq (id_cns cmd) 2)) by lia.
    unfold __nvmev_admin_identify_namespace_desc. rewrite Hc. cbn [obind]. rewrite Hns. cbn [obind]. eexists. split; [done|]. split.
    + eapply page_by_name; [exact Hm|done|done|apply desc_page_ok|done|done].
    + intros x Hx. apply (put_outside _ _ _ PAGE_SIZE); [by apply Hin|exact Hx].
  - destruct (nthZ (d_ns _) _) as [ns| | |] eqn:Hns; try done. cbn [obind] in Hp.
    destruct (NS_SSD_TYPE _ _) as [ty| | |] eqn:Hty; try done. cbn [obind] in Hp. destruct ty; try done.
    destruct (info_csi ns =? NVME_CSI_ZNS) eqn:Hcsi; [|done]. cbn [obind] in Hp.
    destruct (info_zpp ns) as [zpp|] eqn:Hz; [|done]. cbn [obind of_option] in Hp. injection Hp as <- <-. rewrite (proj2 (Z.eqb_neq (id_cns cmd) 2)) by lia.
    unfold __nvmev_admin_identify_zns_namespace. rewrite Hc. cbn [obind]. rewrite Hns. cbn [obind]. rewrite Hty. cbn [obind].
    rewrite Hcsi, Hz. cbn [obind of_option]. eexists. split; [done|]. split.
    + eapply page_by_name; [exact Hm|done|done|apply zns_page_ok|done|done].
    + intros x Hx. apply (put_outside _ _ _ PAGE_SIZE); [|exact Hx]. apply Hin. unfold zns_ns_fields. by destruct (0 <? nr_zrwa_zones zpp).
Qed.
End Identify.

(** * The structures that host and device share, by name

    A command is kept as its double words; every member that the code reads
    through one of the structures of the unions is the view of the double
    words that the model uses.  The pages of the administration commands are
    assignments to members of their structures. *)

Open Scope string_scope.
Open Scope list_scope.

(** ** Commands *)

(** Member of a structure, and the view of the command. *)
Definition view : Type := list pstep * (nvme_command -> Z).

Definition common_views : list view :=
  [([Fld "common"; Fld "opcode"], opcode); ([Fld "common"; Fld "flags"], flags);
   ([Fld "common"; Fld "command_id"], command_id); ([Fld "common"; Fld "nsid"], nsid);
   ([Fld "common"; Fld "cdw2"; Idx 0], cdw2); ([Fld "common"; Fld "cdw2"; Idx 1], cdw3);
   ([Fld "common"; Fld "metadata"], metadata); ([Fld "common"; Fld "prp1"], prp1); ([Fld "common"; Fld "prp2"], prp2);
   ([Fld "common"; Fld "cdw10"; Idx 0], cdw10); ([Fld "common"; Fld "cdw10"; Idx 1], cdw11);
   ([Fld "common"; Fld "cdw10"; Idx 2], cdw12); ([Fld "common"; Fld "cdw10"; Idx 3], cdw13);
   ([Fld "common"; Fld "cdw10"; Idx 4], cdw14); ([Fld "common"; Fld "cdw10"; Idx 5], cdw15)].

Definition io_views : list view :=
  [([Fld "rw"; Fld "opcode"], opcode); ([Fld "rw"; Fld "nsid"], nsid); ([Fld "rw"; Fld "prp1"], prp1); ([Fld "rw"; Fld "prp2"], prp2);
   ([Fld "rw"; Fld "slba"], rw_slba); ([Fld "rw"; Fld "length"], rw_length); ([Fld "rw"; Fld "control"], rw_control)].

Definition admin_views : list view :=
  [([Fld "create_cq"; Fld "prp1"], prp1); ([Fld "create_cq"; Fld "cqid"], q_id); ([Fld "create_cq"; Fld "qsize"], q_size);
   ([Fld "create_cq"; Fld "cq_flags"], q_flags); ([Fld "create_cq"; Fld "irq_vector"], q_high);
   ([Fld "create_sq"; Fld "prp1"], prp1); ([Fld "create_sq"; Fld "sqid"], q_id); ([Fld "create_sq"; Fld "qsize"], q_size);
   ([Fld "create_sq"; Fld "sq_flags"], q_flags); ([Fld "create_sq"; Fld "cqid"], q_high); ([Fld "delete_queue"; Fld "qid"], q_id);
   ([Fld "get_log_page"; Fld "prp1"], prp1); ([Fld "get_log_page"; Fld "lid"], log_lid);
   ([Fld "get_log_page"; Fld "numdl"], log_numdl); ([Fld "get_log_page"; Fld "numdu"], log_numdu);
   ([Fld "identify"; Fld "nsid"], nsid); ([Fld "identify"; Fld "prp1"], prp1); ([Fld "identify"; Fld "cns"], id_cns);
   ([Fld "features"; Fld "fid"], feat_fid); ([Fld "features"; Fld "dword11"], feat_dword11)].

Definition zone_send_views : list view :=
  [([Fld "slba"], zms_slba); ([Fld "zsa"], zms_zsa); ([Fld "select_all"], zms_select_all); ([Fld "zsaso"], zms_zsaso)].
Definition zone_recv_views : list view :=
  [([Fld "prp1"], prp1); ([Fld "prp2"], prp2); ([Fld "slba"], zmr_slba); ([Fld "nr_dw"], zmr_nr_dw); ([Fld "zra"], zmr_zra);
   ([Fld "zra_specific_field"], zmr_zra_specific_field); ([Fld "zra_specific_features"], zmr_zra_specific_features)].

(** Commands with a key. *)
Definition kv_key_views (x : string) : list view :=
  [([Fld x; Fld "opcode"], opcode); ([Fld x; Fld "nsid"], nsid); ([Fld x; Fld "value_len"], kv_value_len);
   ([Fld x; Fld "key_len"], kv_key_len)]
  ++ map (fun i => ([Fld x; Fld "key"; Idx (Z.of_nat i)], fun c => nth i (kv_key c) 0)) (seq 0 16).
Definition kv_data_views (x : string) : list view :=
  [([Fld x; Fld "dptr"; Fld "prp1"], prp1); ([Fld x; Fld "dptr"; Fld "prp2"], prp2)].

Definition kv_views : list view :=
  flat_map kv_key_views ["kv_store"; "kv_append"; "kv_retrieve"; "kv_delete"; "kv_exist"; "kv_batch"]
  ++ flat_map kv_data_views ["kv_store"; "kv_append"; "kv_retrieve"; "kv_batch"; "kv_iter_read"]
  ++ [([Fld "kv_batch"; Fld "rsvd4"], kv_batch_rsvd4);
      ([Fld "kv_iter_req"; Fld "iter_handle"], kv_iter_handle); ([Fld "kv_iter_req"; Fld "option"], kv_iter_option);
      ([Fld "kv_iter_req"; Fld "iter_val"], kv_iter_val); ([Fld "kv_iter_req"; Fld "iter_bitmask"], kv_iter_bitmask);
      ([Fld "kv_iter_read"; Fld "iter_handle"], kv_iter_handle); ([Fld "kv_iter_read"; Fld "option"], kv_iter_option)].

Definition command_views : list (ctype * list view) :=
  [(struct_nvme_command, common_views ++ io_views ++ admin_views); (struct_nvme_zone_mgmt_send, zone_send_views);
   (struct_nvme_zone_mgmt_recv, zone_recv_views); (struct_nvme_kv_command, kv_views)].

(** *** The words of a command *)
Lemma get_le_app m a n1 n2 : 0 <= n1 -> 0 <= n2 -> is_bytes m ->
  get_le m a (n1 + n2) = get_le m a n1 + Z.shiftl (get_le m (a + n1) n2) (8 * n1).
Proof.
  intros H1 H2 Hm. pose proof (get_le_range m a n1 Hm H1). pose proof (get_le_range m (a + n1) n2 Hm H2).
  rewrite Z.shiftl_mul_pow2 by lia.
  assert (Hp : 2 ^ (8 * (n1 + n2)) = 2 ^ (8 * n1) * 2 ^ (8 * n2)) by (rewrite <- Z.pow_add_r by lia; f_equal; lia).
  apply (bits_eq _ _ (8 * (n1 + n2))); [by apply get_le_range; [|lia]|rewrite Hp; nia|lia|].
  intros k Hk. rewrite mbit_get by done. destruct (decide (k < 8 * n1)).
  - rewrite <- (Z.mod_pow2_bits_low (_ + _) (8 * n1) k), Z.mod_add, Z.mod_pow2_bits_low by lia.
    by rewrite mbit_get by (done || lia).
  - replace k with ((k - 8 * n1) + 8 * n1) at 2 by lia. rewrite <- Z.div_pow2_bits by lia.
    rewrite Z.div_add, (Z.div_small (get_le m a n1)), Z.add_0_l by lia. rewrite mbit_get by (done || lia). f_equal. lia.
Qed.

Lemma getf_whole x w : 0 <= w -> 0 <= x < 2 ^ w -> getf x 0 w = x.
Proof. intros Hw Hx. rewrite getf_div by lia. rewrite Z.div_1_r. by apply Z.mod_small. Qed.

Lemma get_le_self m a n : is_bytes m -> 0 <= n -> get_le m a n = getf (get_le m a n) 0 (8 * n).
Proof. intros Hm Hn. rewrite getf_whole; [done|lia|]. by apply get_le_range. Qed.

Lemma sqe_words m a : decode_sqe m a =
  mk_nvme_command (get_le m (a + 0) 1) (get_le m (a + 1) 1) (get_le m (a + 2) 2) (get_le m (a + 4) 4)
    (get_le m (a + 8) 4) (get_le m (a + 12) 4) (get_le m (a + 16) 8) (get_le m (a + 24) 8) (get_le m (a + 32) 8)
    (get_le m (a + 40) 4) (get_le m (a + 44) 4) (get_le m (a + 48) 4) (get_le m (a + 52) 4)
    (get_le m (a + 56) 4) (get_le m (a + 60) 4).
Proof. unfold decode_sqe. by rewrite Z.add_0_r. Qed.

Lemma sqe_slba m a : is_bytes m -> rw_slba (decode_sqe m a) = get_le m (a + 40) 8.
Proof.
  intros Hm. unfold rw_slba, decode_sqe. cbn [cdw10 cdw11]. change 8 with (4 + 4) at 1. rewrite get_le_app by (done || lia).
  by replace (a + 40 + 4) with (a + 44) by lia.
Qed.

(** A view is the member: the same bytes, or a part of the same word. *)
Definition view_ok (m : mem) (a : Z) (t : ctype) (v : view) : Prop := get_at m a t (fst v) = Some (snd v (decode_sqe m a)).

Ltac view_word := rewrite ?sqe_words; reflexivity.
Ltac view_part Hm :=
  rewrite ?sqe_words;
  lazymatch goal with |- get_at ?m ?a ?t ?p = Some ?x =>
    let x' := eval cbv - [getf get_le Z.add] in x in change (get_at m a t p = Some x');
    lazymatch x' with getf (get_le _ (a + ?d) ?n) ?o ?w =>
      refine (get_at_getf m a t p (8 * d + o) w d n Hm eq_refl eq_refl _ _ _); lia
    end
  end.

Lemma command_words m a : is_bytes m -> Forall (view_ok m a struct_nvme_command) (common_views ++ io_views ++ admin_views).
Proof.
  intros Hm. unfold common_views, io_views, admin_views. cbn [app]. repeat (apply Forall_cons_2); [..|constructor]; unfold view_ok; cbn [fst snd].
  all: first [view_word | rewrite sqe_slba by done; view_word | view_part Hm].
Qed.

Lemma zone_words m a : is_bytes m -> Forall (view_ok m a struct_nvme_zone_mgmt_send) zone_send_views /\
  Forall (view_ok m a struct_nvme_zone_mgmt_recv) zone_recv_views.
Proof.
  intros Hm. unfold zone_send_views, zone_recv_views, zms_slba, zmr_slba.
  split; repeat (apply Forall_cons_2); try apply Forall_nil_2; unfold view_ok; cbn [fst snd];
    first [view_word | rewrite sqe_slba by done; view_word | view_part Hm].
Qed.

Lemma kv_words m a : is_bytes m -> Forall (view_ok m a struct_nvme_kv_command) kv_views.
Proof.
  intros Hm. unfold kv_views, kv_key_views, kv_data_views. cbn [app flat_map map seq].
  repeat (apply Forall_cons_2); try apply Forall_nil_2; unfold view_ok; cbn [fst snd]; first [view_word | view_part Hm].
Qed.

(** *** Assigning to a command *)
Lemma get_put_low m a n v k : 0 <= k <= n -> is_bytes m -> get_le (put_le m a n v) a k = v mod 2 ^ (8 * k).
Proof.
  intros Hk Hm. assert (Hm' : is_bytes (put_le m a n v)) by (by apply put_is_bytes; [lia|]).
  apply (bits_eq _ _ (8 * k)); [apply get_le_range; [done|lia]|apply Z.mod_pos_bound; lia|lia|].
  intros i Hi. rewrite mbit_get, mbit_put_le, Z.mod_pow2_bits_low by (done || lia).
  rewrite (proj2 (Z.leb_le _ _)), (proj2 (Z.ltb_lt _ _)) by lia. simpl. f_equal. lia.
Qed.

Lemma get_put_part m a n v d k : 0 <= d -> 0 <= k -> d + k <= n -> is_bytes m ->
  get_le (put_le m a n v) (a + d) k = Z.shiftr v (8 * d) mod 2 ^ (8 * k).
Proof.
  intros Hd Hk Hn Hm. assert (Hm' : is_bytes (put_le m a n v)) by (by apply put_is_bytes; [lia|]).
  apply (bits_eq _ _ (8 * k)); [apply get_le_range; [done|lia]|apply Z.mod_pos_bound; lia|lia|].
  intros i Hi. rewrite mbit_get, mbit_put_le, Z.mod_pow2_bits_low, Z.shiftr_spec by (done || lia).
  rewrite (proj2 (Z.leb_le _ _)), (proj2 (Z.ltb_lt _ _)) by lia. simpl. f_equal. lia.
Qed.

(** The start address that an append writes back. *)
Lemma slba_assigned m a v m' : is_bytes m -> put_at m a struct_nvme_command [Fld "rw"; Fld "slba"] v = Some m' ->
  decode_sqe m' a = set_rw_slba (decode_sqe m a) v.
Proof.
  intros Hm Hput. assert (Hp : put_at m a struct_nvme_command [Fld "rw"; Fld "slba"] v = Some (put_le m (a + 40) 8 v)) by reflexivity.
  rewrite Hp in Hput. injection Hput as <-. unfold decode_sqe, set_rw_slba.
  cbn [opcode flags command_id nsid cdw2 cdw3 metadata prp1 prp2 cdw12 cdw13 cdw14 cdw15].
  assert (Hlo : get_le (put_le m (a + 40) 8 v) (a + 40) 4 = u32 v) by (apply get_put_low; [lia|done]).
  assert (Hhi : get_le (put_le m (a + 40) 8 v) (a + 44) 4 = u32 (Z.shiftr v 32)).
  { replace (a + 44) with (a + 40 + 4) by lia. rewrite get_put_part by (done || lia). done. }
  rewrite Hlo, Hhi. by rewrite !get_put_other by lia.
Qed.

(** ** Completions *)
Definition completion_views : list (list pstep * (nvme_completion -> Z)) :=
  [([Fld "result0"], cqe_result0); ([Fld "result1"], cqe_result1); ([Fld "sq_head"], cqe_sq_head); ([Fld "sq_id"], cqe_sq_id);
   ([Fld "command_id"], cqe_command_id); ([Fld "status"], cqe_status)].

(** ** Sizes *)

(** An entry of the rings. *)
Lemma entry_sizes :
  Forall (fun t => sizeof t = 64) [struct_nvme_common_command; struct_nvme_rw_command; struct_nvme_get_log_page_command;
    struct_nvme_identify; struct_nvme_features; struct_nvme_create_cq; struct_nvme_create_sq; struct_nvme_delete_queue;
    struct_nvme_download_firmware; struct_nvme_format_cmd; struct_nvme_dsm_cmd; struct_nvme_abort_cmd; struct_nvme_command;
    struct_nvme_zone_append; struct_nvme_kv_command; struct_zone_descriptor] /\
  sizeof struct_nvme_completion = 16 /\ NR_SQE_PER_PAGE * sizeof struct_nvme_command = PAGE_SIZE /\
  NR_CQE_PER_PAGE * sizeof struct_nvme_completion = PAGE_SIZE.
Proof. split_and!; [by repeat constructor|reflexivity..]. Qed.

(** The structures of the zone management commands are 8 bytes too long. *)
Lemma zone_command_sizes : sizeof struct_nvme_zone_mgmt_send = 72 /\ sizeof struct_nvme_zone_mgmt_recv = 72.
Proof. by split. Qed.

(** The zone report that zns_mgmt_recv.c copies. *)
Lemma zone_report_sizes : sizeof struct_zone_descriptor = sizeof_zone_descriptor /\ sizeof struct_zone_report = sizeof_zone_report /\
  offsetof struct_zone_report [Fld "zd"; Idx 0] = Some 64.
Proof. by split_and!. Qed.

(** A descriptor in memory, by name. *)
Lemma bytes_slice m a n d k : 0 <= d -> 0 <= k -> d + k <= n ->
  bytes m (a + d) k = take (Z.to_nat k) (drop (Z.to_nat d) (bytes m a n)).
Proof.
  intros Hd Hk Hn. replace n with (d + (k + (n - d - k))) by lia. rewrite !bytes_app by lia.
  assert (Hl : forall x j, 0 <= j -> length (bytes m x j) = Z.to_nat j) by (intros x j Hj; pose proof (length_bytes m x j Hj); lia).
  rewrite <- (Hl a d), drop_app_length, <- (Hl (a + d) k) by lia. by rewrite take_app_length.
Qed.

Lemma zone_descriptor_by_name m a z : is_bytes m -> bytes m a 64 = zd_bytes z ->
  let get := get_at m a struct_zone_descriptor in
  get [Fld "type"] = Some (getf (zd_type z) 0 4) /\ get [Fld "state"] = Some (zone_state_code (zd_state z)) /\
  get [Fld "za"] = Some (getf (zd_za z) 0 8) /\ get [Fld "zrwav"] = Some (zrwav z) /\
  get [Fld "zone_capacity"] = Some (zone_capacity z mod 2 ^ 64) /\ get [Fld "zslba"] = Some (zslba z mod 2 ^ 64) /\
  get [Fld "wp"] = Some (zd_wp z mod 2 ^ 64).
Proof.
  intros Hm Hz get.
  assert (Hw : forall d k, 0 <= d -> 0 <= k -> d + k <= 64 -> get_le m (a + d) k = le_value (take (Z.to_nat k) (drop (Z.to_nat d) (zd_bytes z)))).
  { intros d k Hd Hk Hn. unfold get_le. by rewrite (bytes_slice m a 64 d k), Hz by lia. }
  unfold get. split_and!.
  - rewrite (get_at_getf m a struct_zone_descriptor [Fld "type"] 0 4 0 1), Hw by (done || lia). simpl. f_equal.
    rewrite Z.add_0_r. apply (bits_eq _ _ 4); [by apply getf_range|by apply getf_range|done|]. intros k Hk. by rewrite !getf_bit by lia.
  - rewrite (get_at_getf m a struct_zone_descriptor [Fld "state"] 12 4 1 1), Hw by (done || lia). simpl. f_equal. by destruct (zd_state z).
  - rewrite (get_at_getf m a struct_zone_descriptor [Fld "za"] 16 8 2 1), Hw by (done || lia). simpl. f_equal.
    rewrite Z.add_0_r. apply getf_whole; [done|by apply getf_range].
  - rewrite (get_at_getf m a struct_zone_descriptor [Fld "zrwav"] 19 1 2 1), Hw by (done || lia). simpl. f_equal.
    rewrite Z.add_0_r. unfold zrwav. apply (bits_eq _ _ 1); [by apply getf_range|by apply getf_range|done|].
    intros k Hk. by rewrite !getf_bit by lia.
  - change (Some (get_le m (a + 8) 8) = Some (zone_capacity z mod 2 ^ 64)). rewrite Hw by lia. f_equal. apply (le_value_bytes 8).
  - change (Some (get_le m (a + 16) 8) = Some (zslba z mod 2 ^ 64)). rewrite Hw by lia. f_equal. apply (le_value_bytes 8).
  - change (Some (get_le m (a + 24) 8) = Some (zd_wp z mod 2 ^ 64)). rewrite Hw by lia. f_equal. apply (le_value_bytes 8).
Qed.

(** The batch of a key-value command, as __do_perform_kv_batch walks it. *)
Lemma batch_layout : sizeof struct_sub_cmd_attribute = sizeof_attr /\ sizeof struct_batch_cmd_head = sizeof_batch_head /\
  sizeof struct_sub_cmd_head = ALIGN_LEN /\
  map (fun x => offsetof struct_sub_cmd_attribute [Fld x]) ["opcode"; "keySize"; "valueSize"] = [Some 0; Some 1; Some 4] /\
  offsetof struct_payload_format [Fld "sub_payload"] = Some sizeof_batch_head /\
  Forall (fun i => offsetof struct_payload_format [Fld "batch_head"; Fld "attr"; Idx i] = Some (sizeof_attr * i)) (seqZ 0 8).
Proof. split_and!; [reflexivity..|by repeat constructor]. Qed.

(** ** What host and device see *)

(** C23: The structures that the code lays over a command are views of one and the same 64 bytes:
    every member read through them, with the offset, the storage unit and the bits that the C
    layout gives it, is the part of the double words that the model uses; the members of a
    completion likewise; and a start address assigned through one structure is what all others
    then see, the rest of the command unchanged. *)
Theorem command_views_agree m a : is_bytes m ->
  Forall (fun '(t, vs) => Forall (view_ok m a t) vs) command_views /\
  Forall (fun '(p, f) => get_at m a struct_nvme_completion p = Some (f (decode_cqe m a))) completion_views /\
  forall v m', put_at m a struct_nvme_command [Fld "rw"; Fld "slba"] v = Some m' -> decode_sqe m' a = set_rw_slba (decode_sqe m a) v.
Proof.
  intros Hm. destruct (zone_words m a Hm) as [Hs Hr]. split; [|split].
  - apply Forall_cons_2; [by apply command_words|]. apply Forall_cons_2; [done|]. apply Forall_cons_2; [done|].
    apply Forall_cons_2; [by apply kv_words|apply Forall_nil_2].
  - unfold completion_views, decode_cqe. repeat (apply Forall_cons_2); try apply Forall_nil_2;
      cbn [cqe_result0 cqe_result1 cqe_sq_head cqe_sq_id cqe_command_id cqe_status]; rewrite <- (Z.add_0_r a) at 1 2; rewrite ?Z.add_0_r; try reflexivity.
    all: change (Some (get_le m (a + 0) 4) = Some (get_le m a 4)); by rewrite Z.add_0_r.
  - intros v m'. by apply slba_assigned.
Qed.

(** A command of 64 different bytes. *)
Definition demo_bytes : mem := fun x => (7 * x + 3) mod 256.

Lemma command_views_agree_witness :
  get_at demo_bytes 0 struct_nvme_kv_command [Fld "kv_store"; Fld "key"; Idx 5] = Some 118 /\
  Forall (fun '(t, vs) => Forall (view_ok demo_bytes 0 t) vs) command_views.
Proof.
  split; [by vm_compute|]. apply (command_views_agree demo_bytes 0). intros x. apply Z.mod_pos_bound. lia.
Defined.
