(* ===== verification/KvTable.v ===== *)
(** * KvTable: what the mapping table represents

    The chain of a home slot is the list of slots the lookups visit.  The links
    never form a cycle, so every chain ends; a new entry is appended to chains,
    a deletion cuts them. *)
From stdpp Require Import base list numbers sets.
From Stdlib Require Import ZArith Lia.
From S2P Require Import Prelude Nvme KvData.

Open Scope Z_scope.
Open Scope nvmev_scope.

Definition is_free (e : mapping_entry) : Prop := me_mem_offset e = OFFSET_NONE.
#[export] Instance is_free_dec e : Decision (is_free e).
Proof. unfold is_free. apply _. Defined.
(** Entries that differ in their link only. *)
Definition same_place (e e' : mapping_entry) : Prop :=
  me_key e' = me_key e /\ me_mem_offset e' = me_mem_offset e /\ me_length e' = me_length e.

Lemma free_eqb e : (me_mem_offset e =? OFFSET_NONE) = bool_decide (is_free e).
Proof. unfold is_free. destruct (Z.eqb_spec (me_mem_offset e) OFFSET_NONE); by case_bool_decide. Qed.

(** Two readings of the same element agree. *)
Ltac same_nth :=
  repeat match goal with
  | H : nthZ ?t ?s = Ok _, H' : nthZ ?t ?s = Ok _ |- _ => rewrite H in H'; injection H' as H'; subst
  end.

Section Table.
Variables (slots klen : Z).
Implicit Type t : list mapping_entry.

Record table_wf t : Prop := {
  tw_slots : 0 < slots < SLOT_NONE;
  tw_len : Z.of_nat (length t) = slots;
  tw_klen : 0 <= klen <= 16;
  tw_entry : forall s e, nthZ t s = Ok e ->
    length (me_key e) = 18%nat /\
    (me_next_slot e = SLOT_NONE \/ 0 <= me_next_slot e < slots) /\
    (is_free e -> me_next_slot e = SLOT_NONE);
  tw_rank : exists rank : Z -> nat, forall s e, nthZ t s = Ok e -> me_next_slot e <> SLOT_NONE ->
    (rank (me_next_slot e) < rank s)%nat;
}.

Lemma slot_ex t s : table_wf t -> 0 <= s < slots -> exists e, nthZ t s = Ok e.
Proof. intros W Hs. apply nthZ_in_range. rewrite (tw_len t W). done. Qed.

(** ** Chains *)
Inductive chain t : Z -> list Z -> Prop :=
| chain_free s e : nthZ t s = Ok e -> is_free e -> chain t s []
| chain_end s e : nthZ t s = Ok e -> ~ is_free e -> me_next_slot e = SLOT_NONE -> chain t s [s]
| chain_next s e l : nthZ t s = Ok e -> ~ is_free e -> me_next_slot e <> SLOT_NONE ->
    chain t (me_next_slot e) l -> chain t s (s :: l).

Lemma chain_fun t s l l' : chain t s l -> chain t s l' -> l = l'.
Proof.
  intros C. revert l'. induction C as [| |s e l He Hf Hn C IH]; intros l'; inversion 1; subst; same_nth; try done.
  f_equal. by apply IH.
Qed.

Lemma chain_range t s l x : chain t s l -> x ∈ l -> exists e, nthZ t x = Ok e /\ ~ is_free e.
Proof.
  induction 1 as [s e|s e|s e l]; intros Hx; [by apply elem_of_nil in Hx|..].
  - apply list_elem_of_singleton in Hx as ->. eauto.
  - apply elem_of_cons in Hx as [->|Hx]; eauto.
Qed.

Lemma chain_ex t s :
  table_wf t -> 0 <= s < slots -> exists l, chain t s l /\ NoDup l /\ (length l <= length t)%nat.
Proof.
  intros W Hs. destruct (tw_rank t W) as [rank Hr].
  assert (Hc : exists l, chain t s l /\ NoDup l /\ forall x, x ∈ l -> (rank x <= rank s)%nat).
  { remember (rank s) as n eqn:En. revert s Hs En. induction n as [n IH] using lt_wf_ind. intros s Hs ->.
    destruct (slot_ex t s W Hs) as [e He]. destruct (decide (is_free e)) as [Hf|Hf].
    { exists []. split; [by eapply chain_free|]. split; [constructor|]. by intros x Hx%elem_of_nil. }
    destruct (decide (me_next_slot e = SLOT_NONE)) as [Hn|Hn].
    { exists [s]. split; [by eapply chain_end|]. split; [apply NoDup_singleton|]. by intros x ->%list_elem_of_singleton. }
    destruct (tw_entry t W s e He) as (_ & [Hnx|Hnx] & _); [done|]. pose proof (Hr s e He Hn) as Hlt.
    destruct (IH _ Hlt _ Hnx eq_refl) as (l & C & Hd & Hle). exists (s :: l). split; [by eapply chain_next|].
    split; [constructor; [|done]; intros Hin; specialize (Hle s Hin); lia|].
    intros x [->|Hx]%elem_of_cons; [lia|]. specialize (Hle x Hx). lia. }
  destruct Hc as (l & C & Hd & _). exists l. split; [done|]. split; [done|].
  assert (Hsub : map Z.to_nat l ⊆ seq 0 (length t)).
  { intros i (x & -> & Hx)%list_elem_of_fmap. destruct (chain_range t s l x C Hx) as (e & He & _).
    apply nthZ_range in He. apply elem_of_seq. lia. }
  assert (Hnd : NoDup (map Z.to_nat l)).
  { apply NoDup_fmap_2_strong; [|done]. intros x y Hx Hy E.
    destruct (chain_range t s l x C Hx) as (e & He & _), (chain_range t s l y C Hy) as (e' & He' & _).
    apply nthZ_range in He, He'. lia. }
  apply (NoDup_submseteq _ _ Hnd) in Hsub. apply submseteq_length in Hsub.
  by rewrite length_map, length_seq in Hsub.
Qed.

(** ** Lookups *)
Definition prefix_of (k : list Z) : list Z := take (Z.to_nat klen) k.
Definition hits t (k : list Z) (x : Z) : bool :=
  match nthZ t x with Ok e => bool_decide (prefix_of k = prefix_of (me_key e)) | _ => false end.
(** The slot of key [k], searched from slot [h]. *)
Definition found t (h : Z) (k : list Z) (r : option Z) : Prop :=
  exists l, chain t h l /\ r = List.find (hits t k) l.

Lemma search_chain fuel t s l k :
  table_wf t -> klen <= Z.of_nat (length k) -> chain t s l -> (length l < fuel)%nat ->
  search fuel t s k klen = Ok (List.find (hits t k) l).
Proof.
  intros W Hk C. revert fuel.
  assert (Hm : forall s e, nthZ t s = Ok e -> memcmp_eq k (me_key e) klen = Ok (hits t k s)).
  { intros x e He. unfold memcmp_eq, hits. rewrite He. destruct (tw_entry t W x e He) as (Hl & _).
    pose proof (tw_klen t W). rewrite Hl. by rewrite !(proj2 (Z.leb_le _ _)) by lia. }
  induction C as [s e He Hf|s e He Hf Hn|s e l He Hf Hn C IH]; intros [|fuel] Hlt; simpl in Hlt; try lia;
    cbn [search]; rewrite He; cbn [obind]; rewrite free_eqb.
  - by rewrite bool_decide_eq_true_2.
  - rewrite bool_decide_eq_false_2, (Hm s e He) by done. cbn [obind List.find]. destruct (hits t k s); [done|].
    by rewrite Hn, Z.eqb_refl.
  - rewrite bool_decide_eq_false_2, (Hm s e He) by done. cbn [obind List.find]. destruct (hits t k s); [done|].
    rewrite (proj2 (Z.eqb_neq _ _) Hn). apply IH. lia.
Qed.

Lemma search_spec t s k :
  table_wf t -> klen <= Z.of_nat (length k) -> 0 <= s < slots ->
  exists r, search (S (length t)) t s k klen = Ok r /\ found t s k r.
Proof.
  intros W Hk Hs. destruct (chain_ex t s W Hs) as (l & C & _ & Hl). eexists. split.
  - eapply search_chain; [done|done|exact C|lia].
  - by exists l.
Qed.

Lemma found_fun t h k r r' : found t h k r -> found t h k r' -> r = r'.
Proof. intros (l & C & ->) (l' & C' & ->). by rewrite (chain_fun t h l l' C C'). Qed.

Lemma found_hit t h k x : found t h k (Some x) ->
  exists e, nthZ t x = Ok e /\ ~ is_free e /\ prefix_of (me_key e) = prefix_of k.
Proof.
  intros (l & C & E). symmetry in E. apply List.find_some in E as [Hx Hh].
  destruct (chain_range t h l x C) as (e & He & Hf); [by apply list_elem_of_In|].
  exists e. split; [done|]. split; [done|]. unfold hits in Hh. rewrite He in Hh. by apply bool_decide_eq_true_1 in Hh.
Qed.

(** ** Free slots *)
Lemma probe_spec fuel t r (d : Z) :
  table_wf t -> 0 <= r < slots -> 0 <= d -> (Z.to_nat d < fuel)%nat ->
  (exists e, nthZ t ((r + d) mod slots) = Ok e /\ is_free e) ->
  exists n e, probe slots fuel t r = Ok n /\ nthZ t n = Ok e /\ is_free e.
Proof.
  intros W Hr. pose proof (tw_slots t W) as HS. unfold SLOT_NONE in HS. revert r d Hr.
  induction fuel as [|fuel IH]; intros r d Hr Hd Hlt Hx; [lia|]. cbn [probe].
  destruct (slot_ex t r W Hr) as [e He]. rewrite He. cbn [obind]. rewrite free_eqb.
  destruct (decide (is_free e)) as [Hf|Hf]; [rewrite bool_decide_eq_true_2 by done; by exists r, e|].
  rewrite bool_decide_eq_false_2 by done. rewrite u32_id by lia.
  assert (Hd0 : d <> 0).
  { intros ->. rewrite Z.add_0_r, Z.mod_small in Hx by lia. destruct Hx as (e' & He' & Hf'). rewrite He in He'. naive_solver. }
  assert (Er : (if slots <=? r + 1 then 0 else r + 1) = (r + 1) mod slots).
  { destruct (Z.leb_spec slots (r + 1)); [assert (r + 1 = slots) as -> by lia; by rewrite Z.mod_same by lia|].
    by rewrite Z.mod_small by lia. }
  rewrite Er. apply (IH ((r + 1) mod slots) (d - 1)); [apply Z.mod_pos_bound; lia|lia|lia|].
  rewrite Zplus_mod_idemp_l. by replace (r + 1 + (d - 1)) with (r + d) by lia.
Qed.

Definition has_free t : Prop := exists f e, nthZ t f = Ok e /\ is_free e.

Lemma probe_finds t r :
  table_wf t -> has_free t -> 0 <= r < slots ->
  exists n e, probe slots (S (length t)) t r = Ok n /\ nthZ t n = Ok e /\ is_free e.
Proof.
  intros W (f & e & He & Hf) Hr. pose proof (tw_slots t W) as HS. pose proof (nthZ_range _ _ _ He) as Hfr.
  rewrite (tw_len t W) in Hfr. apply (probe_spec _ t r ((f - r) mod slots)).
  - done.
  - done.
  - apply Z.mod_pos_bound; lia.
  - pose proof (Z.mod_pos_bound (f - r) slots ltac:(lia)). pose proof (tw_len t W). lia.
  - exists e. rewrite Zplus_mod_idemp_r. replace (r + (f - r)) with f by lia. by rewrite Z.mod_small by lia.
Qed.

Lemma last_cons_default {A} (l : list A) x d : List.last (x :: l) d = List.last l x.
Proof. revert x. induction l as [|y l IH]; intros x; [done|]. cbn [List.last] in *. rewrite <- IH. by destruct l. Qed.

Lemma tail_chain fuel t s l p :
  chain t s l -> (length l < fuel)%nat -> find_tail fuel t s p = Ok (List.last l p).
Proof.
  intros C. revert fuel p. induction C as [s e He Hf|s e He Hf Hn|s e l He Hf Hn C IH]; intros [|fuel] p Hlt;
    simpl in Hlt; try lia; cbn [find_tail]; rewrite He; cbn [obind]; rewrite free_eqb.
  - by rewrite bool_decide_eq_true_2.
  - by rewrite bool_decide_eq_false_2, Hn, Z.eqb_refl.
  - rewrite bool_decide_eq_false_2 by done. rewrite (proj2 (Z.eqb_neq _ _) Hn), IH by lia.
    by rewrite last_cons_default.
Qed.

(** The last slot of a chain links nowhere or to a free slot. *)
Definition is_tail t (p : Z) : Prop :=
  exists e, nthZ t p = Ok e /\ ~ is_free e /\
    (me_next_slot e = SLOT_NONE \/ exists e', nthZ t (me_next_slot e) = Ok e' /\ is_free e').

Lemma chain_tail t s l d : chain t s l -> l <> [] -> is_tail t (List.last l d).
Proof.
  induction 1 as [s e He Hf|s e He Hf Hn|s e l He Hf Hn C IH]; intros Hne; [done|..].
  - exists e. auto.
  - inversion C; subst; [|by apply IH..]. exists e. split; [done|]. split; [done|]. right. eauto.
Qed.
End Table.

(** * Insertion, deletion and update in the mapping table *)

Section Table.
Variables (slots klen : Z).
Implicit Type t : list mapping_entry.
Notation wf := (table_wf slots klen).
Notation prefix_of := (prefix_of klen).
Notation found := (found klen).
Notation hits := (hits klen).

Lemma find_app {A} (f : A -> bool) l1 l2 :
  List.find f (l1 ++ l2) = match List.find f l1 with Some x => Some x | None => List.find f l2 end.
Proof. induction l1 as [|x l IH]; simpl; [done|]. by destruct (f x). Qed.

Lemma find_ext {A} (f g : A -> bool) l : (forall x, x ∈ l -> f x = g x) -> List.find f l = List.find g l.
Proof.
  induction l as [|x l IH]; intros E; [done|]. simpl. rewrite (E x), IH by set_solver. done.
Qed.

(** ** Insertion *)

(** Entry [e'] went into the free slot [n], linked from [p] unless [p] is [SLOT_NONE]. *)
Record inserted t t' (n p : Z) (e' : mapping_entry) : Prop := {
  in_len : length t' = length t;
  in_free : exists e, nthZ t n = Ok e /\ is_free e;
  in_new : nthZ t' n = Ok e';
  in_entry : length (me_key e') = 18%nat /\ ~ is_free e' /\ me_next_slot e' = SLOT_NONE;
  in_prev : p <> SLOT_NONE -> is_tail t p /\ exists ep, nthZ t p = Ok ep /\ nthZ t' p = Ok (set_me_next ep n);
  in_other : forall x, x <> n -> (p <> SLOT_NONE -> x <> p) -> nthZ t' x = nthZ t x;
}.

Section Insert.
Variables (t t' : list mapping_entry) (n p : Z) (e' : mapping_entry).
Context (I : inserted t t' n p e') (W : wf t).

Lemma in_prev_ne : p <> SLOT_NONE -> p <> n.
Proof.
  intros Hp ->. destruct (in_prev _ _ _ _ _ I Hp) as [(e & He & Hf & _) _].
  destruct (in_free _ _ _ _ _ I) as (e1 & He1 & Hf1). by same_nth.
Qed.

(** An old slot in use keeps its place; its link changes only at [p]. *)
Lemma in_old x e : nthZ t x = Ok e -> x <> n ->
  exists e1, nthZ t' x = Ok e1 /\ same_place e e1 /\
    (me_next_slot e1 = me_next_slot e \/ p <> SLOT_NONE /\ x = p /\ me_next_slot e1 = n).
Proof.
  intros He Hn. destruct (decide (p <> SLOT_NONE /\ x = p)) as [[Hp ->]|Hne].
  - destruct (in_prev _ _ _ _ _ I Hp) as [_ (ep & Hep & Hep')]. same_nth. exists (set_me_next ep n).
    split; [done|]. split; [done|]. by right.
  - exists e. rewrite (in_other _ _ _ _ _ I) by naive_solver. split; [done|]. split; [done|]. by left.
Qed.

Lemma in_chain_new : chain t' n [n].
Proof.
  destruct (in_entry _ _ _ _ _ I) as (_ & Hf & Hn). by apply (chain_end t' n e'); [apply I|..].
Qed.

Lemma in_ne : n <> SLOT_NONE.
Proof.
  destruct (in_free _ _ _ _ _ I) as (e & He & _). apply nthZ_range in He. rewrite (tw_len _ _ _ W) in He.
  pose proof (tw_slots _ _ _ W). unfold SLOT_NONE in *. lia.
Qed.

Lemma in_chain s l : chain t s l ->
  (chain t' s l /\ (p <> SLOT_NONE -> l <> [] -> List.last l SLOT_NONE <> p)) \/ chain t' s (l ++ [n]).
Proof.
  induction 1 as [s e He Hf|s e He Hf Hn|s e l He Hf Hn C IH].
  - destruct (decide (s = n)) as [->|Hs]; [right; apply in_chain_new|left]. split; [|done].
    destruct (in_old s e He Hs) as (e1 & He1 & (_ & Eo & _) & _). apply (chain_free t' s e1 He1). unfold is_free in *. congruence.
  - assert (Hs : s <> n) by (intros ->; destruct (in_free _ _ _ _ _ I) as (e1 & He1 & Hf1); by same_nth).
    destruct (decide (p <> SLOT_NONE /\ s = p)) as [[Hp ->]|Hne].
    + destruct (in_prev _ _ _ _ _ I Hp) as [_ (ep & Hep & Hep')]. right.
      apply (chain_next t' p _ [n] Hep'); [by same_nth|exact in_ne|exact in_chain_new].
    + left. split; [|intros Hp _; simpl; naive_solver].
      apply (chain_end t' s e); [rewrite (in_other _ _ _ _ _ I) by naive_solver|..]; done.
  - assert (Hs : s <> n) by (intros ->; destruct (in_free _ _ _ _ _ I) as (e1 & He1 & Hf1); by same_nth).
    destruct (decide (p <> SLOT_NONE /\ s = p)) as [[Hp ->]|Hne].
    + destruct (in_prev _ _ _ _ _ I Hp) as [(e1 & He1 & _ & Ht) (ep & Hep & Hep')]. same_nth.
      destruct Ht as [Ht|(e2 & He2 & Hf2)]; [done|]. assert (l = []) as -> by (by inversion C; subst; same_nth).
      right. apply (chain_next t' p _ [n] Hep'); [done|exact in_ne|exact in_chain_new].
    + assert (E : nthZ t' s = Ok e) by (rewrite (in_other _ _ _ _ _ I) by naive_solver; done).
      destruct IH as [[C' Hl]|C']; [left|right; by apply (chain_next t' s e _ E)].
      split; [by apply (chain_next t' s e _ E)|]. intros Hp _. destruct l as [|y l]; [simpl; naive_solver|].
      by apply (Hl Hp).
Qed.

Lemma in_wf : wf t'.
Proof.
  destruct (in_free _ _ _ _ _ I) as (e0 & He0 & Hf0). destruct (tw_rank _ _ _ W) as [rank Hr].
  pose proof (nthZ_range _ _ _ He0) as Hn0. rewrite (tw_len _ _ _ W) in Hn0.
  assert (Hold : forall x e, nthZ t' x = Ok e -> x <> n -> exists e1, nthZ t x = Ok e1 /\ same_place e1 e /\
    (me_next_slot e = me_next_slot e1 \/ me_next_slot e = n /\ p <> SLOT_NONE /\ x = p)).
  { intros x e He Hx. destruct (nthZ_in_range t x) as [e1 He1];
      [apply nthZ_range in He; rewrite (in_len _ _ _ _ _ I) in He; done|].
    destruct (in_old x e1 He1 Hx) as (e2 & He2 & Hs & Hl). same_nth. exists e1. naive_solver. }
  split.
  - apply W.
  - rewrite (in_len _ _ _ _ _ I). apply W.
  - apply W.
  - intros s e He. destruct (decide (s = n)) as [->|Hs].
    + rewrite (in_new _ _ _ _ _ I) in He. injection He as <-. destruct (in_entry _ _ _ _ _ I) as (A & B & C). auto.
    + destruct (Hold s e He Hs) as (e1 & He1 & (Ek & Eo & _) & Hl). destruct (tw_entry _ _ _ W s e1 He1) as (A & B & C).
      rewrite Ek. split; [done|]. destruct Hl as [->|(-> & Hp & ->)]; [|].
      * split; [done|]. unfold is_free in *. rewrite Eo. done.
      * split; [by right|]. destruct (in_prev _ _ _ _ _ I Hp) as [(e2 & He2 & Hf2 & _) _]. same_nth.
        unfold is_free in *. rewrite Eo. done.
  - exists (fun x => if x =? n then 0%nat else S (rank x)). intros s e He Hn.
    destruct (Z.eqb_spec s n) as [->|Hs].
    { rewrite (in_new _ _ _ _ _ I) in He. injection He as <-. by destruct (in_entry _ _ _ _ _ I) as (_ & _ & ?). }
    destruct (Hold s e He Hs) as (e1 & He1 & _ & Hl). destruct (Z.eqb_spec (me_next_slot e) n); [lia|].
    destruct Hl as [El|[? _]]; [|done]. rewrite El in *. pose proof (Hr s e1 He1 Hn). lia.
Qed.

Lemma in_hits k s l : chain t s l -> List.find (hits t' k) l = List.find (hits t k) l.
Proof.
  intros C. apply find_ext. intros x Hx. destruct (chain_range t s l x C Hx) as (e & He & Hf).
  assert (Hn : x <> n) by (intros ->; destruct (in_free _ _ _ _ _ I) as (e1 & He1 & Hf1); by same_nth).
  destruct (in_old x e He Hn) as (e1 & He1 & (Ek & _) & _). unfold KvTable.hits. by rewrite He, He1, Ek.
Qed.

Lemma in_hits_new k : hits t' k n = bool_decide (prefix_of k = prefix_of (me_key e')).
Proof. unfold KvTable.hits. by rewrite (in_new _ _ _ _ _ I). Qed.

(** The new key is found, the others as before. *)
Lemma in_found_new h l k :
  chain t h l -> List.find (hits t k) l = None -> prefix_of k = prefix_of (me_key e') ->
  (p = SLOT_NONE /\ h = n \/ p <> SLOT_NONE /\ l <> [] /\ List.last l SLOT_NONE = p) -> found t' h k (Some n).
Proof.
  intros C Hk E Hh.
  assert (C' : chain t' h (l ++ [n])).
  { destruct Hh as [[_ ->]|(Hp & Hl & Hlast)].
    - destruct (in_free _ _ _ _ _ I) as (e1 & He1 & Hf1). rewrite (chain_fun t n l [] C); [apply in_chain_new|].
      by eapply chain_free.
    - destruct (in_chain h l C) as [[_ Hne]|C']; [by destruct (Hne Hp Hl)|done]. }
  exists (l ++ [n]). split; [done|]. rewrite find_app, (in_hits k h l C), Hk. simpl.
  by rewrite in_hits_new, bool_decide_eq_true_2.
Qed.

Lemma in_found_old h k r : found t h k r -> prefix_of k <> prefix_of (me_key e') -> found t' h k r.
Proof.
  intros (l & C & ->) Hne. destruct (in_chain h l C) as [[C' _]|C']; eexists; (split; [exact C'|]).
  - by rewrite (in_hits k h l C).
  - rewrite find_app, (in_hits k h l C). simpl. rewrite in_hits_new, bool_decide_eq_false_2 by done.
    by destruct (List.find _ l).
Qed.
End Insert.

Lemma new_mapping_entry_spec t size k len off h l :
  wf t -> has_free t -> klen <= Z.of_nat (length k) -> off < size -> off <> OFFSET_NONE ->
  get_hash_slot slots k klen = Ok h -> 0 <= h < slots -> chain t h l ->
  exists t' n p e', new_mapping_entry slots t size k klen len off = Ok t' /\ inserted t t' n p e' /\
    prefix_of (me_key e') = prefix_of k /\ me_mem_offset e' = off /\ me_length e' = len /\
    (p = SLOT_NONE /\ h = n \/ p <> SLOT_NONE /\ l <> [] /\ List.last l SLOT_NONE = p).
Proof.
  intros W Hfree Hk Hoff Hnone Hh Hr C. unfold new_mapping_entry. rewrite (proj2 (Z.ltb_lt _ _) Hoff), Hh. cbn [obind].
  pose proof (tw_klen _ _ _ W) as HK. pose proof (tw_slots _ _ _ W) as HS.
  destruct (slot_ex _ _ t h W Hr) as [eh Heh]. rewrite Heh. cbn [obind].
  set (put := put_entry k klen len off).
  assert (Hput : forall n e, nthZ t n = Ok e -> is_free e -> exists e', put e = Ok e' /\
    length (me_key e') = 18%nat /\ ~ is_free e' /\ me_next_slot e' = SLOT_NONE /\
    prefix_of (me_key e') = prefix_of k /\ me_mem_offset e' = off /\ me_length e' = len).
  { intros n e He Hf. destruct (tw_entry _ _ _ W n e He) as (Hl & _ & Hnx). unfold put, put_entry, memcpy_bytes. rewrite Hl.
    rewrite !(proj2 (Z.leb_le _ _)) by lia. cbn [andb obind]. eexists. split; [reflexivity|]. simpl.
    split; [rewrite length_app, length_take, length_drop, Hl; lia|]. split; [done|]. split; [by apply Hnx|].
    split; [|done]. unfold KvTable.prefix_of. rewrite take_app_le by (rewrite length_take; lia). rewrite take_take. f_equal. lia. }
  rewrite free_eqb. destruct (decide (is_free eh)) as [Hf|Hf].
  - rewrite bool_decide_eq_true_2 by done. cbn [negb obind].
    destruct (Hput h eh Heh Hf) as (e' & Ep & A1 & A2 & A3 & A4 & A5 & A6).
    rewrite (alterZ_Ok _ t h eh e' Heh Ep). cbn [obind]. rewrite Z.eqb_refl. simpl.
    assert (Hlen : 0 <= h < Z.of_nat (length t)) by (by rewrite (tw_len _ _ _ W)).
    eexists _, h, SLOT_NONE, e'. split; [reflexivity|]. split; [|by auto 10]. split; try done.
    + by rewrite length_insert.
    + by exists eh.
    + by rewrite nthZ_insert, Z.eqb_refl.
    + intros x Hx _. rewrite nthZ_insert by done. by rewrite (proj2 (Z.eqb_neq x h) Hx).
  - rewrite bool_decide_eq_false_2 by done. cbn [negb]. unfold find_next_slot.
    assert (Hl : l <> []) by (intros ->; inversion C; subst; by same_nth).
    destruct (chain_ex _ _ t h W Hr) as (l2 & C2 & _ & Hl2). rewrite (chain_fun t h l2 l C2 C) in Hl2.
    rewrite (tail_chain (S (length t)) t h l SLOT_NONE C) by lia. cbn [obind]. set (p := List.last l SLOT_NONE).
    assert (Hp : is_tail t p) by (by apply (chain_tail t h)). pose proof Hp as (ep & Hep & Hfp & _).
    assert (Hpr : 0 <= p < slots) by (rewrite <- (tw_len _ _ _ W); by eapply nthZ_range).
    destruct (probe_finds _ _ t p W Hfree Hpr) as (n & e & -> & He & Hfe). cbn [obind].
    destruct (Hput n e He Hfe) as (e' & Ep & A1 & A2 & A3 & A4 & A5 & A6).
    rewrite (alterZ_Ok _ t n e e' He Ep). cbn [obind].
    assert (Hpn : p <> n) by (intros ->; by same_nth). assert (HpN : p <> SLOT_NONE) by (unfold SLOT_NONE in *; lia).
    rewrite (proj2 (Z.eqb_neq p SLOT_NONE) HpN). cbn [negb]. unfold chain_mapping.
    assert (Hlen : 0 <= n < Z.of_nat (length t)) by (by eapply nthZ_range).
    rewrite (alterZ_Ok _ _ p ep (set_me_next ep n)); [|rewrite nthZ_insert by done; by rewrite (proj2 (Z.eqb_neq p n) Hpn)|done].
    assert (Hlen2 : 0 <= p < Z.of_nat (length (<[Z.to_nat n:=e']> t))) by (rewrite length_insert, (tw_len _ _ _ W); lia).
    eexists _, n, p, e'. split; [reflexivity|]. split; [|by auto 10]. split; try done.
    + by rewrite !length_insert.
    + by exists e.
    + rewrite nthZ_insert by done. rewrite (proj2 (Z.eqb_neq n p)) by done. by rewrite nthZ_insert, Z.eqb_refl.
    + intros _. split; [done|]. exists ep. by rewrite nthZ_insert, Z.eqb_refl.
    + intros x Hx Hxp. rewrite nthZ_insert by done. rewrite (proj2 (Z.eqb_neq x p)) by auto.
      rewrite nthZ_insert by done. by rewrite (proj2 (Z.eqb_neq x n) Hx).
Qed.

(** ** Deletion *)

(** The chain without what follows the deleted slot. *)
Lemma delete_chain t s es h l :
  nthZ t s = Ok es -> ~ is_free es -> chain t h l ->
  let t' := <[Z.to_nat s := entry_ff]> t in
  (s ∉ l /\ chain t' h l) \/
  exists l1 l2, l = l1 ++ s :: l2 /\ s ∉ l1 /\ chain t' h l1 /\ (me_next_slot es = SLOT_NONE -> l2 = []).
Proof.
  intros Hs Hfs C t'. pose proof (nthZ_range _ _ _ Hs) as Hr.
  assert (Hin : nthZ t' s = Ok entry_ff) by (unfold t'; by rewrite nthZ_insert, Z.eqb_refl).
  assert (Hout : forall x, x <> s -> nthZ t' x = nthZ t x).
  { intros x Hx. unfold t'. rewrite nthZ_insert by done. by rewrite (proj2 (Z.eqb_neq x s) Hx). }
  induction C as [x e He Hf|x e He Hf Hn|x e l He Hf Hn C IH].
  - left. split; [set_solver|]. apply (chain_free t' x e); [|done]. rewrite Hout; [done|]. intros ->. by same_nth.
  - destruct (decide (x = s)) as [->|Hx].
    + right. exists [], []. split; [done|]. split; [set_solver|]. split; [|done]. by eapply chain_free.
    + left. split; [set_solver|]. apply (chain_end t' x e); [by rewrite Hout|done|done].
  - destruct (decide (x = s)) as [->|Hx].
    + right. exists [], l. split; [done|]. split; [set_solver|]. split; [by eapply chain_free|]. same_nth. done.
    + assert (E : nthZ t' x = Ok e) by (by rewrite Hout). destruct IH as [[Hni C']|(l1 & l2 & -> & Hni & C' & H2)].
      * left. split; [set_solver|]. by apply (chain_next t' x e).
      * right. exists (x :: l1), l2. split; [done|]. split; [set_solver|]. split; [by apply (chain_next t' x e)|done].
Qed.

Lemma delete_hits t s es k l1 :
  nthZ t s = Ok es -> s ∉ l1 -> List.find (hits (<[Z.to_nat s := entry_ff]> t) k) l1 = List.find (hits t k) l1.
Proof.
  intros Hs Hni. apply find_ext. intros x Hx. unfold KvTable.hits. rewrite nthZ_insert by (by eapply nthZ_range).
  rewrite (proj2 (Z.eqb_neq x s)); [done|]. by intros ->.
Qed.

Lemma delete_wf t s es : wf t -> nthZ t s = Ok es -> wf (<[Z.to_nat s := entry_ff]> t).
Proof.
  intros W Hs. pose proof (nthZ_range _ _ _ Hs) as Hr. destruct (tw_rank _ _ _ W) as [rank Hk]. split.
  - apply W.
  - rewrite length_insert. apply W.
  - apply W.
  - intros x e. rewrite nthZ_insert by done. destruct (Z.eqb_spec x s); [intros [= <-]; by auto|apply W].
  - exists rank. intros x e. rewrite nthZ_insert by done. destruct (Z.eqb_spec x s); [intros [= <-]; done|apply Hk].
Qed.

(** The key is gone; others stay unless their chain went through the slot. *)
Lemma delete_found t s es h k r :
  wf t -> nthZ t s = Ok es -> ~ is_free es -> found t h k r -> 0 <= h < slots ->
  let t' := <[Z.to_nat s := entry_ff]> t in
  (r = Some s -> found t' h k None) /\
  (prefix_of k <> prefix_of (me_key es) -> exists r', found t' h k r' /\ (r' = r \/ r' = None) /\
     (me_next_slot es = SLOT_NONE -> r' = r)).
Proof.
  intros W Hs Hfs (l & C & ->) Hh t'. subst t'. destruct (delete_chain t s es h l Hs Hfs C) as [[Hni C']|(l1 & l2 & -> & Hni & C' & H2)].
  - split.
    + intros E. apply List.find_some in E as [E%list_elem_of_In _]. done.
    + intros _. eexists. split; [by exists l|]. rewrite (delete_hits t s es k l Hs Hni). auto.
  - rewrite find_app. split.
    + intros E. exists l1. split; [done|]. rewrite (delete_hits t s es k l1 Hs Hni).
      destruct (List.find (hits t k) l1) as [x|] eqn:Ex; [|done]. injection E as ->.
      apply List.find_some in Ex as [Ex%list_elem_of_In _]. done.
    + intros Hne. eexists. split; [by exists l1|]. rewrite (delete_hits t s es k l1 Hs Hni).
      assert (Es : hits t k s = false) by (unfold KvTable.hits; rewrite Hs; by apply bool_decide_eq_false_2).
      simpl. rewrite Es. destruct (List.find (hits t k) l1); [by auto|]. split; [by right|]. intros Hn. by rewrite (H2 Hn).
Qed.

(** ** Update of a length *)
Lemma update_wf t s e v : wf t -> nthZ t s = Ok e -> wf (<[Z.to_nat s := set_me_length e v]> t).
Proof.
  intros W Hs. pose proof (nthZ_range _ _ _ Hs) as Hr. destruct (tw_rank _ _ _ W) as [rank Hk]. split.
  - apply W.
  - rewrite length_insert. apply W.
  - apply W.
  - intros x e1. rewrite nthZ_insert by done.
    destruct (Z.eqb_spec x s) as [->|]; [intros [= <-]; exact (tw_entry _ _ _ W s e Hs)|apply W].
  - exists rank. intros x e1. rewrite nthZ_insert by done.
    destruct (Z.eqb_spec x s) as [->|]; [intros [= <-]; exact (Hk s e Hs)|apply Hk].
Qed.

Lemma update_found t s e v h k r :
  nthZ t s = Ok e -> found t h k r -> found (<[Z.to_nat s := set_me_length e v]> t) h k r.
Proof.
  intros Hs (l & C & ->). pose proof (nthZ_range _ _ _ Hs) as Hr. set (t' := <[Z.to_nat s := _]> t).
  assert (He : forall x e1, nthZ t x = Ok e1 -> exists e2, nthZ t' x = Ok e2 /\ me_key e2 = me_key e1 /\
    me_mem_offset e2 = me_mem_offset e1 /\ me_next_slot e2 = me_next_slot e1).
  { intros x e1 Hx. unfold t'. rewrite nthZ_insert by done.
    destruct (Z.eqb_spec x s) as [->|]; [same_nth; by eexists|by exists e1]. }
  exists l. split.
  - induction C as [x e1 Hx Hf|x e1 Hx Hf Hn|x e1 l Hx Hf Hn C IH]; destruct (He x e1 Hx) as (e2 & Hx2 & _ & Eo & En).
    + apply (chain_free t' x e2 Hx2). unfold is_free in *. congruence.
    + apply (chain_end t' x e2 Hx2); [unfold is_free in *|]; congruence.
    + apply (chain_next t' x e2 l Hx2); [unfold is_free in *; congruence|congruence|by rewrite En].
  - apply find_ext. intros x Hx. destruct (chain_range t h l x C Hx) as (e1 & He1 & _).
    destruct (He x e1 He1) as (e2 & Hx2 & Ek & _). unfold KvTable.hits. by rewrite He1, Hx2, Ek.
Qed.
End Table.
