(* ===== verification/KvAlloc.v ===== *)
(** * KvAlloc: what an allocator promises to the key-value FTL

    [AllocatorLaws] is the contract behind [struct allocator_ops]; both
    allocators keep it, the bitmap one relative to the documented behaviour of
    the search in the kernel ([KernelBitmapLaws]). *)
From stdpp Require Import base list numbers sets.
From Stdlib Require Import ZArith Lia.
From S2P Require Import Prelude Nvme KvData.

Open Scope Z_scope.
Open Scope nvmev_scope.

(** Regions [(offset, length)] of the storage. *)
Definition apart (a n b m : Z) : Prop := forall x, ~ (a <= x < a + n /\ b <= x < b + m).

Class AllocatorLaws (St : Type) `{AllocatorOps St} (size : Z) := {
  alloc_startable : St -> Prop;
  alloc_inv : St -> list (Z * Z) -> Prop;
  alloc_room : St -> Z -> Prop;
  alloc_init_ok : forall st, alloc_startable st ->
    exists st', alloc_init st size = Ok st' /\ alloc_inv st' [];
  alloc_ok : forall st R len, alloc_inv st R -> 0 <= len -> alloc_room st len ->
    exists off st', alloc_allocate st len = Ok (off, st') /\ alloc_inv st' ((off, len) :: R) /\
      0 <= off /\ off + len <= size /\ forall o n, (o, n) ∈ R -> apart o n off len;
}.

Section Append.
Variable size : Z.
Context (Hsize : 0 <= size < 18446744073709551616).

#[export] Instance append_only_laws : AllocatorLaws append_only size.
Proof.
  refine {|
    alloc_startable := fun _ => True;
    alloc_inv := fun st R => 0 <= ao_latest st <= size /\ forall o n, (o, n) ∈ R -> o + n <= ao_latest st;
    alloc_room := fun st len => ao_latest st + len <= size;
  |}.
  - intros st _. eexists. split; [reflexivity|]. simpl. split; [lia|]. by intros o n Hr%elem_of_nil.
  - intros st R len [Hl HR] Hlen Hroom. eexists _, _. split; [reflexivity|]. simpl. rewrite u64_id by lia.
    split; [split; [lia|]|split; [lia|]; split; [done|]].
    + intros o n [[= -> ->]|Hr]%elem_of_cons; [lia|]. pose proof (HR o n Hr). lia.
    + intros o n Hr x Hx. pose proof (HR o n Hr). lia.
Defined.
End Append.

(** The search returns a zero bit from [start] on when there is one. *)
Class KernelBitmapLaws `{KernelBitmap} : Prop :=
  zero_found : forall m nbits start, (exists i, start <= i < nbits /\ m i = false) ->
    let r := bitmap_find_next_zero m nbits start in start <= r < nbits /\ m r = false.

Section Bitmap.
Context `{KernelBitmapLaws}.
Variable size : Z.
Context (Hsize : 0 <= size < 18446744073709551616).

(** A region of a bitmap whose unit is [unit] bytes from [base]. *)
Definition in_bitmap (bits : Z -> bool) (nbits base unit o n : Z) : Prop :=
  0 <= n <= unit /\ exists b, 0 <= b < nbits /\ bits b = true /\ o = base + b * unit.

Lemma in_bitmap_set bits nbits base unit o n i :
  in_bitmap bits nbits base unit o n -> in_bitmap (bitmap_set bits i) nbits base unit o n.
Proof.
  intros (Hn & b & Hb & Hs & Ho). split; [done|]. exists b. split; [done|]. split; [|done].
  unfold bitmap_set. by destruct (b =? i).
Qed.

Lemma in_bitmap_apart bits nbits base unit o n i len :
  in_bitmap bits nbits base unit o n -> bits i = false -> 0 <= len <= unit -> apart o n (base + i * unit) len.
Proof.
  intros (Hn & b & Hb & Hs & ->) Hi Hl x Hx. assert (b <> i) by (intros ->; congruence).
  assert (b < i \/ i < b) as [?|?] by lia; nia.
Qed.

Record bitmap_inv (st : bitmap_alloc) (R : list (Z * Z)) : Prop := {
  bi_small : ba_small_nbits st = size / 2 / SMALL_LENGTH /\ ba_small_nbits st <= small_bits;
  bi_large : ba_large_nbits st = size / 2 / LARGE_LENGTH /\ ba_large_nbits st <= large_bits;
  bi_pos : 0 <= ba_small_last_pos st /\ 0 <= ba_large_last_pos st;
  bi_size : ba_dev_size st = size;
  bi_regions : forall o n, (o, n) ∈ R ->
    in_bitmap (ba_small_bitmap st) (ba_small_nbits st) 0 SMALL_LENGTH o n \/
    in_bitmap (ba_large_bitmap st) (ba_large_nbits st) (size / 2) LARGE_LENGTH o n;
}.

(** A zero bit at or after the position of the last allocation. *)
Definition bitmap_room (st : bitmap_alloc) (len : Z) : Prop :=
  len <= LARGE_LENGTH /\
  if SMALL_LENGTH <? len
  then exists i, ba_large_last_pos st <= i < ba_large_nbits st /\ ba_large_bitmap st i = false
  else exists i, ba_small_last_pos st <= i < ba_small_nbits st /\ ba_small_bitmap st i = false.

Lemma halves : 2 * (size / 2) <= size /\ SMALL_LENGTH * (size / 2 / SMALL_LENGTH) <= size / 2 /\
  LARGE_LENGTH * (size / 2 / LARGE_LENGTH) <= size / 2 /\ 0 <= size / 2.
Proof.
  unfold SMALL_LENGTH, LARGE_LENGTH.
  pose proof (Z.mul_div_le size 2). pose proof (Z.mul_div_le (size / 2) 1024). pose proof (Z.mul_div_le (size / 2) 4096).
  pose proof (Z.div_pos size 2). lia.
Qed.

(** Small and large regions lie in different halves. *)
Lemma halves_apart bits nbits o n bits' nbits' o' n' :
  in_bitmap bits nbits 0 SMALL_LENGTH o n -> nbits = size / 2 / SMALL_LENGTH ->
  in_bitmap bits' nbits' (size / 2) LARGE_LENGTH o' n' -> apart o n o' n' /\ apart o' n' o n.
Proof.
  intros (Hn & b & Hb & _ & ->) -> (Hn' & b' & Hb' & _ & ->). pose proof halves as (_ & H1 & _ & _).
  unfold SMALL_LENGTH, LARGE_LENGTH in *. split; intros x Hx; nia.
Qed.

Lemma bitmap_allocate_ok st R len :
  bitmap_inv st R -> 0 <= len -> bitmap_room st len ->
  exists off st', bitmap_allocate st len = Ok (off, st') /\ bitmap_inv st' ((off, len) :: R) /\
    0 <= off /\ off + len <= size /\ forall o n, (o, n) ∈ R -> apart o n off len.
Proof.
  intros [[S1 S2] [L1 L2] [P1 P2] Z0 HR] Hlen [Hl Hroom]. pose proof halves as (H1 & H2 & H3 & H4).
  unfold bitmap_allocate. destruct (Z.ltb_spec SMALL_LENGTH len) as [Hs|Hs].
  - pose proof (zero_found _ _ _ Hroom) as [Hr Hz]. cbn zeta in Hr, Hz. set (off := bitmap_find_next_zero _ _ _) in *.
    rewrite (proj2 (Z.ltb_lt _ _)) by lia.
    assert (Hin : in_bitmap (bitmap_set (ba_large_bitmap st) off) (ba_large_nbits st) (size / 2) LARGE_LENGTH
      (size / 2 + off * LARGE_LENGTH) len).
    { split; [lia|]. exists off. split; [lia|]. split; [|done]. unfold bitmap_set. by rewrite Z.eqb_refl. }
    assert (Hoff : 0 <= size / 2 + off * LARGE_LENGTH /\ size / 2 + off * LARGE_LENGTH + len <= size)
      by (unfold LARGE_LENGTH in *; nia).
    rewrite Z0, u64_id by lia. eexists _, _. split; [reflexivity|]. split; [|split; [lia|split; [lia|]]].
    + split; simpl; try done; [destruct (_ <? _); lia|].
      intros o n [[= -> ->]|Hr']%elem_of_cons; [by right|].
      destruct (HR o n Hr') as [?|?]; [by left|right; by apply in_bitmap_set].
    + intros o n Hr'. destruct (HR o n Hr') as [Hsm|Hla]; [by destruct (halves_apart _ _ _ _ _ _ _ _ Hsm S1 Hin)|].
      eapply in_bitmap_apart; [exact Hla|done|lia].
  - pose proof (zero_found _ _ _ Hroom) as [Hr Hz]. cbn zeta in Hr, Hz. set (off := bitmap_find_next_zero _ _ _) in *.
    rewrite (proj2 (Z.ltb_lt _ _)) by lia.
    assert (Hin : in_bitmap (bitmap_set (ba_small_bitmap st) off) (ba_small_nbits st) 0 SMALL_LENGTH
      (off * SMALL_LENGTH) len).
    { split; [lia|]. exists off. split; [lia|]. split; [|lia]. unfold bitmap_set. by rewrite Z.eqb_refl. }
    assert (Hoff : 0 <= off * SMALL_LENGTH /\ off * SMALL_LENGTH + len <= size) by (unfold SMALL_LENGTH in *; nia).
    rewrite u64_id by lia. eexists _, _. split; [reflexivity|]. split; [|split; [lia|split; [lia|]]].
    + split; simpl; try done; [destruct (_ <? _); lia|].
      intros o n [[= -> ->]|Hr']%elem_of_cons; [by left|].
      destruct (HR o n Hr') as [?|?]; [left; by apply in_bitmap_set|by right].
    + intros o n Hr'. destruct (HR o n Hr') as [Hsm|Hla]; [|by destruct (halves_apart _ _ _ _ _ _ _ _ Hin S1 Hla)].
      replace (off * SMALL_LENGTH) with (0 + off * SMALL_LENGTH) by lia.
      eapply in_bitmap_apart; [exact Hsm|done|lia].
Qed.

#[export] Instance bitmap_laws : AllocatorLaws bitmap_alloc size.
Proof.
  refine {|
    alloc_startable := fun st => size / 2 / SMALL_LENGTH <= small_bits /\ size / 2 / LARGE_LENGTH <= large_bits /\
      0 <= ba_small_last_pos st /\ 0 <= ba_large_last_pos st;
    alloc_inv := bitmap_inv;
    alloc_room := bitmap_room;
    alloc_ok := bitmap_allocate_ok;
  |}.
  intros st (A & B & C & D). unfold alloc_init. simpl. unfold bitmap_allocator_init.
  rewrite !(proj2 (Z.leb_le _ _)) by done. eexists. split; [reflexivity|].
  split; simpl; try done. by intros o n Hr%elem_of_nil.
Defined.
End Bitmap.
