(* ===== verification/KvState.v ===== *)
(** * KvState: the map from keys to values that a key-value namespace holds

    The keys of a namespace have [klen] bytes.  The values are what the storage
    holds at the places of the table; the places in use never overlap. *)
From stdpp Require Import base list numbers sets.
From Stdlib Require Import ZArith Lia.
From S2P Require Import Prelude ChannelModel Nvme Prp PrpFacts HostMem KvData KvFtl KvTable KvAlloc.

Open Scope Z_scope.
Open Scope nvmev_scope.

(** The data of a transfer. *)
Definition prp_data (host : mem) (p1 p2 len : Z) : list Z :=
  map (fun i => host (prp_addr host p1 p2 len i)) (seqZ 0 len).

Section State.
Context {A : Type} {size : Z} `{AllocatorLaws A size}.
Variable klen : Z.
Implicit Type kv : kv_ftl A.
Notation prefix_of := (prefix_of klen).
Notation found := (found klen).

Definition place (e : mapping_entry) : Z * Z := (me_mem_offset e, me_length e).

(** The place of an entry lies in a region that was given out. *)
Definition held (R : list (Z * Z)) (e : mapping_entry) : Prop :=
  0 <= me_length e /\ 0 <= me_mem_offset e /\ me_mem_offset e + me_length e <= size /\
  exists o n, (o, n) ∈ R /\ o <= me_mem_offset e /\ me_mem_offset e + me_length e <= o + n.

Lemma held_more R r e : held R e -> held (r :: R) e.
Proof. intros (H1 & H2 & H3 & o & n & Hin & H4). do 3 (split; [done|]). exists o, n. split; [by right|done]. Qed.

Record kv_inv kv : Prop := {
  ki_size : 0 < size < 9223372036854775808;
  ki_wf : table_wf (hash_slots kv) klen (kv_mapping_table kv);
  ki_places : exists R, alloc_inv (kv_allocator kv) R /\
    forall s e, nthZ (kv_mapping_table kv) s = Ok e -> ~ is_free e -> held R e;
  ki_apart : forall s1 s2 e1 e2, nthZ (kv_mapping_table kv) s1 = Ok e1 -> nthZ (kv_mapping_table kv) s2 = Ok e2 ->
    ~ is_free e1 -> ~ is_free e2 -> s1 <> s2 ->
    apart (me_mem_offset e1) (me_length e1) (me_mem_offset e2) (me_length e2);
}.

Definition value_of (t : list mapping_entry) (storage : mem) (r : option Z) : option (list Z) :=
  match r with
  | Some s => match nthZ t s with Ok e => Some (bytes storage (me_mem_offset e) (me_length e)) | _ => None end
  | None => None
  end.
Definition kv_lookup kv (storage : mem) (k : list Z) : option (list Z) :=
  match find_key (hash_slots kv) (kv_mapping_table kv) k klen with
  | Ok r => value_of (kv_mapping_table kv) storage r
  | _ => None
  end.

Lemma hash_ex slots t k :
  table_wf slots klen t -> klen <= Z.of_nat (length k) -> exists h, get_hash_slot slots k klen = Ok h /\ 0 <= h < slots.
Proof.
  intros W Hk. unfold get_hash_slot, hash_function. rewrite (proj2 (Z.leb_le _ _) Hk). cbn [obind].
  pose proof (tw_slots _ _ _ W) as HS. rewrite modO_Ok by lia. eexists. split; [done|]. apply Z.mod_pos_bound. lia.
Qed.

Lemma hash_prefix slots k k' :
  klen <= Z.of_nat (length k) -> klen <= Z.of_nat (length k') -> prefix_of k = prefix_of k' ->
  get_hash_slot slots k klen = get_hash_slot slots k' klen.
Proof.
  intros Hk Hk' E. unfold get_hash_slot, hash_function. rewrite !(proj2 (Z.leb_le _ _)) by done.
  unfold KvTable.prefix_of in E. by rewrite E.
Qed.

Lemma found_prefix t h k k' r : prefix_of k = prefix_of k' -> found t h k r -> found t h k' r.
Proof.
  intros E (l & C & ->). exists l. split; [done|]. apply find_ext. intros x _. unfold hits. by rewrite E.
Qed.

Lemma find_key_spec slots t k :
  table_wf slots klen t -> klen <= Z.of_nat (length k) ->
  exists h r, get_hash_slot slots k klen = Ok h /\ 0 <= h < slots /\
    find_key slots t k klen = Ok r /\ found t h k r.
Proof.
  intros W Hk. destruct (hash_ex slots t k W Hk) as (h & Eh & Hh).
  destruct (search_spec slots klen t h k W Hk Hh) as (r & Er & Hr). exists h, r.
  split; [done|]. split; [done|]. split; [|done]. unfold find_key. by rewrite Eh.
Qed.

Lemma lookup_found kv storage k h r :
  table_wf (hash_slots kv) klen (kv_mapping_table kv) -> klen <= Z.of_nat (length k) ->
  get_hash_slot (hash_slots kv) k klen = Ok h -> found (kv_mapping_table kv) h k r ->
  kv_lookup kv storage k = value_of (kv_mapping_table kv) storage r.
Proof.
  intros W Hk Eh F. destruct (find_key_spec _ _ k W Hk) as (h' & r' & Eh' & _ & Er & F').
  rewrite Eh in Eh'. injection Eh' as <-. unfold kv_lookup. rewrite Er. by rewrite (found_fun _ _ _ _ _ _ F' F).
Qed.

(** ** What a lookup of the code returns *)
Lemma get_entry_spec kv storage k :
  kv_inv kv -> klen <= Z.of_nat (length k) ->
  exists h r, get_hash_slot (hash_slots kv) k klen = Ok h /\ 0 <= h < hash_slots kv /\
    find_key (hash_slots kv) (kv_mapping_table kv) k klen = Ok r /\ found (kv_mapping_table kv) h k r /\
    kv_lookup kv storage k = value_of (kv_mapping_table kv) storage r /\
    exists e, get_mapping_entry (hash_slots kv) (kv_mapping_table kv) k klen = Ok e /\
    match r with
    | Some s => exists es, nthZ (kv_mapping_table kv) s = Ok es /\ ~ is_free es /\ place e = place es /\
        prefix_of (me_key es) = prefix_of k
    | None => e = entry_ff
    end.
Proof.
  intros I Hk. pose proof (ki_wf kv I) as W. destruct (find_key_spec _ _ k W Hk) as (h & r & Eh & Hh & Er & F).
  exists h, r. split; [done|]. split; [done|]. split; [done|]. split; [done|].
  split; [by eapply lookup_found|]. unfold get_mapping_entry. rewrite Er. cbn [obind]. destruct r as [s|].
  - destruct (found_hit klen _ h k s F) as (es & Hes & Hf & Ek). rewrite Hes. cbn [obind].
    destruct (tw_entry _ _ _ W s es Hes) as (Hl & _). pose proof (tw_klen _ _ _ W). unfold memcpy_bytes.
    change (length (me_key entry_ff)) with 18%nat. rewrite Hl.
    rewrite !(proj2 (Z.leb_le _ _)) by lia. cbn [andb obind]. eexists. split; [reflexivity|]. by exists es.
  - by eexists.
Qed.

(** ** Storage after a write *)
Lemma written_data host dev dev' p1 p2 off len :
  copied host dev p1 p2 off len PRP_TO_DEV len host dev' ->
  bytes dev' off len = prp_data host p1 p2 len /\
  forall o n, apart o n off len -> bytes dev' o n = bytes dev o n.
Proof.
  intros [_ Hd]. split.
  - apply map_seqZ_ext. intros i Hi. rewrite Hd, (proj2 (Z.leb_le _ _)), (proj2 (Z.ltb_lt _ _)) by lia. simpl.
    f_equal. f_equal. lia.
  - intros o n Ha. apply bytes_same. intros x Hx. rewrite Hd.
    destruct (Z.leb_spec off x), (Z.ltb_spec x (off + len)); simpl; try done. destruct (Ha x). lia.
Qed.

(** The map after key [k] got value [v]. *)
Definition kv_put (m : list Z -> option (list Z)) (k v k' : list Z) : option (list Z) :=
  if decide (prefix_of k' = prefix_of k) then Some v else m k'.

(** ** A new entry for a place from the allocator *)
(** [kv1] is [kv] after its allocator gave out the place. *)
Record new_place kv kv1 (off len : Z) (R : list (Z * Z)) : Prop := {
  np_table : kv_mapping_table kv1 = kv_mapping_table kv;
  np_slots : hash_slots kv1 = hash_slots kv;
  np_alloc : alloc_inv (kv_allocator kv1) ((off, len) :: R);
  np_range : 0 <= len /\ 0 <= off /\ off + len <= size /\ off < size;
  np_held : forall s e, nthZ (kv_mapping_table kv) s = Ok e -> ~ is_free e -> held R e;
  np_apart : forall o n, (o, n) ∈ R -> apart o n off len;
}.

Section NewEntry.
Variables (kv kv1 : kv_ftl A) (off len : Z) (R : list (Z * Z)).
Context (I : kv_inv kv) (P : new_place kv kv1 off len R).
Variables (t' : list mapping_entry) (n p : Z) (e' : mapping_entry).
Context (N : inserted (kv_mapping_table kv) t' n p e').
Context (Eo : me_mem_offset e' = off) (El : me_length e' = len).

Lemma new_far s e :
  nthZ (kv_mapping_table kv) s = Ok e -> ~ is_free e -> apart (me_mem_offset e) (me_length e) off len.
Proof.
  intros He Hf. destruct (np_held _ _ _ _ _ P s e He Hf) as (_ & _ & _ & o & m & Hin & H1 & H2). intros x Hx.
  apply (np_apart _ _ _ _ _ P o m Hin x). lia.
Qed.

(** The entries of the new table: the new one and those of before. *)
Lemma new_entries s e1 : nthZ t' s = Ok e1 -> ~ is_free e1 ->
  s = n /\ e1 = e' \/
  s <> n /\ exists e, nthZ (kv_mapping_table kv) s = Ok e /\ ~ is_free e /\ place e1 = place e.
Proof.
  intros He1 Hf1. destruct (decide (s = n)) as [->|Hne].
  { left. split; [done|]. rewrite (in_new _ _ _ _ _ N) in He1. by injection He1 as <-. }
  right. split; [done|]. destruct (nthZ_in_range (kv_mapping_table kv) s) as [e He];
    [apply nthZ_range in He1; by rewrite (in_len _ _ _ _ _ N) in He1|].
  destruct (in_old _ t' n p e' N s e He Hne) as (e2 & He2 & (_ & Eo2 & El2) & _). same_nth. exists e.
  split; [done|]. unfold is_free, place in *. rewrite <- Eo2, <- El2. done.
Qed.

Lemma new_inv : kv_inv (set_table kv1 t').
Proof.
  destruct (np_range _ _ _ _ _ P) as (R1 & R2 & R3 & R4). pose proof (in_wf _ klen _ t' n p e' N (ki_wf kv I)) as W'. split.
  - apply (ki_size kv I).
  - simpl. by rewrite (np_slots _ _ _ _ _ P).
  - exists ((off, len) :: R). split; [apply (np_alloc _ _ _ _ _ P)|]. intros s e1 He1 Hf1. unfold held.
    destruct (new_entries s e1 He1 Hf1) as [[-> ->]|(_ & e & He & Hf & [= -> ->])].
    + rewrite Eo, El. do 3 (split; [done|]). exists off, len. split; [set_solver|lia].
    + apply (held_more R (off, len) e). by apply (np_held _ _ _ _ _ P s).
  - intros s1 s2 e1 e2 He1 He2 Hf1 Hf2 Hne.
    destruct (new_entries s1 e1 He1 Hf1) as [[-> ->]|(_ & e3 & He3 & Hf3 & [= -> ->])],
      (new_entries s2 e2 He2 Hf2) as [[-> ->]|(_ & e4 & He4 & Hf4 & [= -> ->])]; [done|..].
    + rewrite Eo, El. pose proof (new_far s2 e4 He4 Hf4) as Hx. intros x Hx'. apply (Hx x). lia.
    + rewrite Eo, El. by apply (new_far s1).
    + by apply (ki_apart kv I s1 s2).
Qed.

Lemma new_lookup storage storage' k h l v :
  klen <= Z.of_nat (length k) -> prefix_of (me_key e') = prefix_of k ->
  get_hash_slot (hash_slots kv) k klen = Ok h -> chain (kv_mapping_table kv) h l ->
  List.find (hits klen (kv_mapping_table kv) k) l = None ->
  (p = SLOT_NONE /\ h = n \/ p <> SLOT_NONE /\ l <> [] /\ List.last l SLOT_NONE = p) ->
  bytes storage' off len = v -> (forall o n, apart o n off len -> bytes storage' o n = bytes storage o n) ->
  forall k', klen <= Z.of_nat (length k') ->
    kv_lookup (set_table kv1 t') storage' k' = kv_put (kv_lookup kv storage) k v k'.
Proof.
  intros Hk Ek Eh C Hno Hh Hv Hsame k' Hk'. pose proof (ki_wf kv I) as W.
  destruct (hash_ex _ _ k' W Hk') as (h2 & Eh2 & Hh2).
  assert (W2 : table_wf (hash_slots (set_table kv1 t')) klen (kv_mapping_table (set_table kv1 t'))).
  { simpl. rewrite (np_slots _ _ _ _ _ P). by apply (in_wf _ klen _ t' n p e' N W). }
  assert (Eh3 : get_hash_slot (hash_slots (set_table kv1 t')) k' klen = Ok h2).
  { simpl. by rewrite (np_slots _ _ _ _ _ P). }
  unfold kv_put. case_decide as Ep.
  - assert (h2 = h) as -> by (rewrite (hash_prefix _ k' k Hk' Hk Ep) in Eh2; congruence).
    pose proof (in_found_new _ klen _ t' n p e' N W h l k C Hno (eq_sym Ek) Hh) as F.
    rewrite (lookup_found _ storage' k' h (Some n) W2 Hk' Eh3) by (by eapply found_prefix).
    simpl. by rewrite (in_new _ _ _ _ _ N), Eo, El, Hv.
  - destruct (search_spec _ klen _ h2 k' W Hk' Hh2) as (r2 & _ & F2).
    assert (Hpe : prefix_of k' <> prefix_of (me_key e')) by (by rewrite Ek).
    pose proof (in_found_old _ klen _ t' n p e' N W h2 k' r2 F2 Hpe) as F3.
    rewrite (lookup_found _ storage' k' h2 r2 W2 Hk' Eh3 F3), (lookup_found kv storage k' h2 r2 W Hk' Eh2 F2).
    destruct r2 as [s|]; [|done]. destruct (found_hit klen _ h2 k' s F2) as (e & He & Hf & _).
    assert (Hsn : s <> n) by (intros ->; destruct (in_free _ _ _ _ _ N) as (e3 & He3 & Hf3); by same_nth).
    destruct (in_old _ t' n p e' N s e He Hsn) as (e1 & He1 & (_ & Eo1 & El1) & _). simpl. rewrite He, He1, Eo1, El1.
    f_equal. apply Hsame. by apply (new_far s).
Qed.
End NewEntry.

Lemma new_entry_spec kv kv1 storage storage' k off len v R :
  kv_inv kv -> new_place kv kv1 off len R -> klen <= Z.of_nat (length k) -> has_free (kv_mapping_table kv) ->
  kv_lookup kv storage k = None ->
  bytes storage' off len = v -> (forall o n, apart o n off len -> bytes storage' o n = bytes storage o n) ->
  exists t', new_mapping_entry (hash_slots kv1) (kv_mapping_table kv1) size k klen len off = Ok t' /\
    kv_inv (set_table kv1 t') /\
    forall k', klen <= Z.of_nat (length k') ->
      kv_lookup (set_table kv1 t') storage' k' = kv_put (kv_lookup kv storage) k v k'.
Proof.
  intros I P Hk Hfree Hnone Hv Hsame. pose proof (ki_wf kv I) as W. pose proof (ki_size kv I) as Hsz.
  destruct (np_range _ _ _ _ _ P) as (R1 & R2 & R3 & R4). rewrite (np_table _ _ _ _ _ P), (np_slots _ _ _ _ _ P).
  destruct (find_key_spec _ _ k W Hk) as (h & r & Eh & Hh & Er & F).
  pose proof (lookup_found kv storage k h r W Hk Eh F) as Hlk. rewrite Hnone in Hlk.
  assert (r = None) as ->.
  { destruct r as [s|]; [|done]. destruct (found_hit klen _ h k s F) as (e & He & _). simpl in Hlk. by rewrite He in Hlk. }
  destruct F as (l & C & El).
  destruct (new_mapping_entry_spec _ klen _ size k len off h l W Hfree Hk R4)
    as (t' & n & p & e' & E & N & Ek & Eo & Ele & Hh'); [unfold OFFSET_NONE; lia|done|done|done|].
  exists t'. split; [done|]. split; [by eapply new_inv|]. by eapply new_lookup.
Qed.
End State.
