(* ===== verification/KvCommands.v ===== *)
(** * KvCommands: store, retrieve, exist and delete on the map of a namespace *)
From stdpp Require Import base list numbers sets.
From Stdlib Require Import ZArith Lia.
From S2P Require Import Prelude ChannelModel Nvme Prp PrpFacts HostMem.
From S2P Require Import KvData KvFtl KvTable KvAlloc KvState.

Open Scope Z_scope.
Open Scope nvmev_scope.

Lemma length_kv_key cmd : length (kv_key cmd) = 16%nat.
Proof. done. Qed.

Lemma value_length_range cmd : 0 <= cmd_value_length cmd < 4294967296.
Proof. apply u32_range. Qed.

(** The first bytes of a range. *)
Lemma bytes_take m off n len : 0 <= n <= len -> take (Z.to_nat n) (bytes m off len) = bytes m off n.
Proof.
  intros Hn. unfold bytes. rewrite <- fmap_take. f_equal. unfold seqZ. rewrite <- fmap_take. f_equal.
  apply list_eq. intros i. destruct (decide (i < Z.to_nat n)%nat).
  - rewrite lookup_take_lt, !lookup_seq_lt by lia. done.
  - rewrite lookup_take_ge, lookup_seq_ge by lia. done.
Qed.

Section Commands.
Context {A : Type} {size : Z} `{AllocatorLaws A size}.
Variable klen : Z.
Implicit Type kv : kv_ftl A.
Notation prefix_of := (prefix_of klen).
Notation kv_lookup := (kv_lookup klen).
Notation kv_inv := (kv_inv (size := size) klen).

(** The entry of a key that has a value. *)
Lemma lookup_some kv storage k v :
  kv_inv kv -> klen <= Z.of_nat (length k) -> kv_lookup kv storage k = Some v ->
  exists h s es, get_hash_slot (hash_slots kv) k klen = Ok h /\ 0 <= h < hash_slots kv /\
    find_key (hash_slots kv) (kv_mapping_table kv) k klen = Ok (Some s) /\
    found klen (kv_mapping_table kv) h k (Some s) /\ nthZ (kv_mapping_table kv) s = Ok es /\ ~ is_free es /\
    prefix_of (me_key es) = prefix_of k /\ v = bytes storage (me_mem_offset es) (me_length es) /\
    (exists e, get_mapping_entry (hash_slots kv) (kv_mapping_table kv) k klen = Ok e /\ place e = place es) /\
    0 <= me_length es /\ 0 <= me_mem_offset es /\ me_mem_offset es + me_length es <= size.
Proof.
  intros I Hk Hv. destruct (get_entry_spec klen kv storage k I Hk) as (h & r & Eh & Hh & Er & F & El & e & Ee & Hr).
  rewrite Hv in El. destruct r as [s|]; [|done]. destruct Hr as (es & Hes & Hf & Ep & Ek).
  simpl in El. rewrite Hes in El. injection El as ->. destruct (ki_places klen kv I) as (R & _ & HR).
  destruct (HR s es Hes Hf) as (H1 & H2 & H3 & _). exists h, s, es. eauto 20.
Qed.

Lemma lookup_none kv storage k :
  kv_inv kv -> klen <= Z.of_nat (length k) -> kv_lookup kv storage k = None ->
  get_mapping_entry (hash_slots kv) (kv_mapping_table kv) k klen = Ok entry_ff.
Proof.
  intros I Hk Hv. destruct (get_entry_spec klen kv storage k I Hk) as (h & r & _ & _ & _ & _ & El & e & Ee & Hr).
  rewrite Hv in El. destruct r as [s|]; [|by rewrite Ee, Hr]. destruct Hr as (es & Hes & _). simpl in El. by rewrite Hes in El.
Qed.

Lemma place_free (e es : mapping_entry) : place e = place es -> ~ is_free es -> (me_mem_offset e =? OFFSET_NONE) = false.
Proof. intros [= -> _] Hf. by apply Z.eqb_neq. Qed.

(** ** An entry that keeps its place *)
Lemma update_spec kv storage storage' k h s es len v :
  kv_inv kv -> klen <= Z.of_nat (length k) -> get_hash_slot (hash_slots kv) k klen = Ok h ->
  found klen (kv_mapping_table kv) h k (Some s) -> nthZ (kv_mapping_table kv) s = Ok es -> ~ is_free es ->
  prefix_of (me_key es) = prefix_of k -> 0 <= len <= me_length es ->
  bytes storage' (me_mem_offset es) len = v ->
  (forall o n, apart o n (me_mem_offset es) len -> bytes storage' o n = bytes storage o n) ->
  let kv' := set_table kv (<[Z.to_nat s := set_me_length es len]> (kv_mapping_table kv)) in
  kv_inv kv' /\ forall k', klen <= Z.of_nat (length k') -> kv_lookup kv' storage' k' = kv_put klen (kv_lookup kv storage) k v k'.
Proof.
  intros I Hk Eh F Hes Hf Ek Hl Hv Hsame kv'. pose proof (ki_wf klen kv I) as W. pose proof (nthZ_range _ _ _ Hes) as Hr.
  pose proof (update_wf _ klen _ s es len W Hes) as W'.
  assert (Hold : forall x e1, nthZ (kv_mapping_table kv') x = Ok e1 -> ~ is_free e1 ->
    exists e, nthZ (kv_mapping_table kv) x = Ok e /\ ~ is_free e /\ me_mem_offset e1 = me_mem_offset e /\
      0 <= me_length e1 <= me_length e /\ (x <> s -> e1 = e)).
  { intros x e1. simpl. rewrite nthZ_insert by done. destruct (Z.eqb_spec x s) as [->|Hx].
    - intros [= <-] Hf1. exists es. split; [done|]. split; [done|]. simpl. split; [done|]. split; [lia|done].
    - intros He Hfe. exists e1. destruct (ki_places klen kv I) as (R & _ & HR). destruct (HR x e1 He Hfe) as (H1 & _).
      split; [done|]. split; [done|]. split; [done|]. split; [lia|done]. }
  split; [split|].
  - apply (ki_size klen kv I).
  - done.
  - destruct (ki_places klen kv I) as (R & HR & Hp). exists R. split; [done|]. intros x e1 He1 Hf1.
    destruct (Hold x e1 He1 Hf1) as (e & He & Hfe & Eo & Hle & _). destruct (Hp x e He Hfe) as (H1 & H2 & H3 & o & n & Hin & H4 & H5).
    unfold held. rewrite Eo. split; [lia|]. split; [done|]. split; [lia|]. exists o, n. split; [done|lia].
  - intros s1 s2 e1 e2 He1 He2 Hf1 Hf2 Hne. destruct (Hold s1 e1 He1 Hf1) as (e3 & He3 & Hf3 & -> & Hl3 & _).
    destruct (Hold s2 e2 He2 Hf2) as (e4 & He4 & Hf4 & -> & Hl4 & _). intros x Hx.
    apply (ki_apart klen kv I s1 s2 e3 e4 He3 He4 Hf3 Hf4 Hne x). lia.
  - intros k' Hk'. destruct (hash_ex klen _ _ k' W Hk') as (h2 & Eh2 & Hh2).
    destruct (search_spec _ klen _ h2 k' W Hk' Hh2) as (r2 & _ & F2).
    rewrite (lookup_found klen kv' storage' k' h2 r2 W' Hk' Eh2) by (by apply update_found).
    unfold kv_put. case_decide as Ep.
    + assert (h2 = h) as -> by (rewrite (hash_prefix klen _ k' k Hk' Hk Ep) in Eh2; congruence).
      rewrite (found_fun klen _ h k' r2 (Some s) F2) by (by eapply found_prefix). simpl.
      rewrite nthZ_insert, Z.eqb_refl by done. simpl. by rewrite Hv.
    + rewrite (lookup_found klen kv storage k' h2 r2 W Hk' Eh2 F2). destruct r2 as [x|]; [|done].
      destruct (found_hit klen _ h2 k' x F2) as (e & He & Hfe & Ek'). assert (Hx : x <> s) by (intros ->; same_nth; congruence).
      simpl. rewrite nthZ_insert by done. rewrite (proj2 (Z.eqb_neq x s) Hx), He. f_equal. apply Hsame.
      intros y Hy. apply (ki_apart klen kv I x s e es He Hes Hfe Hf Hx y). lia.
Qed.

(** ** The commands *)
Section Run.
Variables (kv : kv_ftl A) (host storage : mem) (cmd : nvme_command) (status : Z).
Context (I : kv_inv kv) (Hlen : cmd_key_length cmd = klen).
Notation k := (kv_key cmd).
Notation want := (cmd_value_length cmd).
Notation m := (kv_lookup kv storage).
Notation run := (__do_perform_kv_io size kv host storage cmd status).

Lemma key_long : klen <= Z.of_nat (length k).
Proof. pose proof (tw_klen _ _ _ (ki_wf klen kv I)). rewrite length_kv_key. lia. Qed.

Lemma store_new :
  opcode cmd = nvme_cmd_kv_store -> m k = None -> has_free (kv_mapping_table kv) ->
  alloc_room (kv_allocator kv) want -> prp_wf host (prp1 cmd) (prp2 cmd) want ->
  exists kv' storage', run = Ok (mk_kv_out kv' host storage' status 0) /\ kv_inv kv' /\
    forall k', klen <= Z.of_nat (length k') ->
      kv_lookup kv' storage' k' = kv_put klen m k (prp_data host (prp1 cmd) (prp2 cmd) want) k'.
Proof.
  intros Hop Hnone Hfree Hroom Hw. pose proof key_long as Hk. pose proof (value_length_range cmd) as Hv.
  pose proof (pw_len _ _ _ _ Hw) as Hpos. pose proof (ki_size klen kv I) as Hsz.
  pose proof (lookup_none kv storage k I Hk Hnone) as Ee. unfold __do_perform_kv_io. rewrite Hlen, Ee, Hop. cbn [obind].
  rewrite Z.eqb_refl. unfold kv_store_cmd. change (me_mem_offset entry_ff =? OFFSET_NONE) with true. cbn iota.
  unfold allocate_mem_offset, allocate_mem_offset_by_length. rewrite Hop, Z.eqb_refl, u64_id by lia.
  destruct (ki_places klen kv I) as (R & HR & Hp).
  destruct (alloc_ok (kv_allocator kv) R want HR ltac:(lia) Hroom) as (off & a' & -> & HR' & H1 & H2 & Hap). cbn [obind].
  rewrite (proj2 (Z.eqb_neq off OFFSET_NONE)) by (unfold OFFSET_NONE; lia).
  destruct (prp_transfer_spec host storage (prp1 cmd) (prp2 cmd) off want size Hw PRP_TO_DEV) as (h1 & dev & -> & Hc); [done|done|].
  assert (h1 = host) as -> by apply Hc. cbn [obind Z.eqb Pos.eqb]. rewrite Hlen.
  destruct (written_data host storage dev _ _ off want Hc) as [Hd Hs].
  assert (P : new_place kv (set_allocator kv a') off want R) by (split; simpl; try done; lia).
  destruct (new_entry_spec klen kv (set_allocator kv a') storage dev k off want _ R I P Hk Hfree Hnone Hd Hs)
    as (t' & -> & I' & Hl). cbn [obind]. by eexists _, _.
Qed.

Lemma store_update v :
  opcode cmd = nvme_cmd_kv_store -> m k = Some v ->
  want = Z.of_nat (length v) \/ want <= Z.of_nat (length v) <= SMALL_LENGTH ->
  prp_wf host (prp1 cmd) (prp2 cmd) want ->
  exists kv' storage', run = Ok (mk_kv_out kv' host storage' status 0) /\ kv_inv kv' /\
    forall k', klen <= Z.of_nat (length k') ->
      kv_lookup kv' storage' k' = kv_put klen m k (prp_data host (prp1 cmd) (prp2 cmd) want) k'.
Proof.
  intros Hop Hv Hlv Hw. pose proof key_long as Hk. pose proof (value_length_range cmd) as Hvr. pose proof (pw_len _ _ _ _ Hw) as Hpos.
  destruct (lookup_some kv storage k v I Hk Hv)
    as (h & s & es & Eh & _ & Er & F & Hes & Hf & Ek & -> & (e & Ee & Epl) & H1 & H2 & H3).
  rewrite length_bytes in Hlv by done. injection Epl as Eo El.
  unfold __do_perform_kv_io. rewrite Hlen, Ee, Hop. cbn [obind]. rewrite Z.eqb_refl. unfold kv_store_cmd.
  rewrite (place_free e es) by (unfold place; congruence). rewrite Eo, El. cbn [obind].
  destruct (prp_transfer_spec host storage (prp1 cmd) (prp2 cmd) (me_mem_offset es) want size Hw PRP_TO_DEV)
    as (h1 & dev & -> & Hc); [done|lia|]. assert (h1 = host) as -> by apply Hc. cbn [obind].
  destruct (written_data host storage dev _ _ (me_mem_offset es) want Hc) as [Hd Hs].
  destruct (update_spec kv storage dev k h s es want _ I Hk Eh F Hes Hf Ek ltac:(lia) Hd Hs) as [I' Hl].
  unfold update_kind. destruct (Z.eqb_spec want (me_length es)) as [E|E].
  - simpl. assert (Et : set_table kv (<[Z.to_nat s:=set_me_length es want]> (kv_mapping_table kv)) = kv).
    { rewrite E. assert (Ese : set_me_length es (me_length es) = es) by (by destruct es). rewrite Ese.
      apply nthZ_Ok in Hes as [_ Hes]. rewrite list_insert_id by done. by destruct kv. }
    rewrite Et in I', Hl. by eexists _, _.
  - rewrite !(proj2 (Z.leb_le _ _)) by lia. cbn [negb andb Z.eqb Pos.eqb]. rewrite Hlen. unfold update_mapping_entry.
    rewrite Er. cbn [obind]. rewrite (alterZ_Ok (fun e => Ok (set_me_length e want)) _ s es _ Hes eq_refl). cbn [obind]. by eexists _, _.
Qed.

Lemma retrieve_ok :
  opcode cmd = nvme_cmd_kv_retrieve ->
  match m k with
  | None => run = Ok (mk_kv_out kv host storage KV_ERR_KEY_NOT_EXIST 0)
  | Some v =>
      let n := Z.min (Z.of_nat (length v)) want in
      prp_wf host (prp1 cmd) (prp2 cmd) n -> prp_disjoint host (prp1 cmd) (prp2 cmd) n ->
      exists host', run = Ok (mk_kv_out kv host' storage status n) /\
        map (fun i => host' (prp_addr host (prp1 cmd) (prp2 cmd) n i)) (seqZ 0 n) = take (Z.to_nat n) v /\
        forall a, (forall i, 0 <= i < n -> prp_addr host (prp1 cmd) (prp2 cmd) n i <> a) -> host' a = host a
  end.
Proof.
  intros Hop. pose proof key_long as Hk. pose proof (value_length_range cmd) as Hvr. unfold __do_perform_kv_io. rewrite Hlen, Hop.
  destruct (m k) as [v|] eqn:Hv; [|by rewrite (lookup_none kv storage k I Hk Hv)].
  destruct (lookup_some kv storage k v I Hk Hv)
    as (h & s & es & _ & _ & _ & _ & _ & Hf & _ & -> & (e & Ee & Epl) & H1 & H2 & H3).
  cbv zeta. rewrite length_bytes by done. set (n := Z.min (me_length es) want). intros Hw Hd. rewrite Ee. cbn [obind].
  change (nvme_cmd_kv_retrieve =? nvme_cmd_kv_store) with false. rewrite Z.eqb_refl. cbn iota.
  rewrite (place_free e es) by done. injection Epl as Eo El. rewrite Eo, El. fold n.
  destruct (prp_transfer_spec host storage (prp1 cmd) (prp2 cmd) (me_mem_offset es) n size Hw PRP_TO_HOST)
    as (h1 & dev & -> & -> & Hc & Hfr); [done|lia|]. cbn [obind]. rewrite u32_id by lia.
  eexists. split; [reflexivity|]. split; [|done]. rewrite bytes_take by lia. by apply map_seqZ_ext.
Qed.

Lemma exist_ok :
  opcode cmd = nvme_cmd_kv_exist ->
  run = Ok (mk_kv_out kv host storage (match m k with Some _ => status | None => KV_ERR_KEY_NOT_EXIST end) 0).
Proof.
  intros Hop. pose proof key_long as Hk. unfold __do_perform_kv_io. rewrite Hlen, Hop.
  destruct (m k) as [v|] eqn:Hv; [|by rewrite (lookup_none kv storage k I Hk Hv)].
  destruct (lookup_some kv storage k v I Hk Hv) as (h & s & es & _ & _ & _ & _ & _ & Hf & _ & _ & (e & -> & Epl) & _).
  cbn [obind]. change (nvme_cmd_kv_exist =? nvme_cmd_kv_store) with false.
  change (nvme_cmd_kv_exist =? nvme_cmd_kv_retrieve) with false. rewrite Z.eqb_refl. cbn iota. by rewrite (place_free e es).
Qed.

(** What the deletion of the entry in slot [s] leaves. *)
Lemma delete_spec s es h :
  get_hash_slot (hash_slots kv) k klen = Ok h -> found klen (kv_mapping_table kv) h k (Some s) ->
  nthZ (kv_mapping_table kv) s = Ok es -> ~ is_free es -> prefix_of (me_key es) = prefix_of k ->
  let kv' := set_table kv (<[Z.to_nat s := entry_ff]> (kv_mapping_table kv)) in
  kv_inv kv' /\ kv_lookup kv' storage k = None /\
  forall k', klen <= Z.of_nat (length k') -> prefix_of k' <> prefix_of k ->
    (kv_lookup kv' storage k' = m k' \/ kv_lookup kv' storage k' = None) /\
    (me_next_slot es = SLOT_NONE -> kv_lookup kv' storage k' = m k').
Proof.
  intros Eh F Hes Hf Ek kv'. pose proof key_long as Hk. pose proof (ki_wf klen kv I) as W. pose proof (nthZ_range _ _ _ Hes) as Hr.
  pose proof (delete_wf _ klen _ s es W Hes) as W'.
  assert (Hold : forall x e, nthZ (kv_mapping_table kv') x = Ok e -> ~ is_free e -> nthZ (kv_mapping_table kv) x = Ok e).
  { intros x e. simpl. rewrite nthZ_insert by done. destruct (Z.eqb_spec x s); [|done]. intros [= <-] Hx. by destruct Hx. }
  assert (Hh : forall k', klen <= Z.of_nat (length k') -> exists h', get_hash_slot (hash_slots kv) k' klen = Ok h' /\ 0 <= h' < hash_slots kv)
    by (intros k' Hk'; by apply (hash_ex klen (hash_slots kv) (kv_mapping_table kv))).
  split; [split|split].
  - apply (ki_size klen kv I).
  - done.
  - destruct (ki_places klen kv I) as (R & HR & Hp). exists R. split; [done|]. intros x e He Hfe. by apply (Hp x e (Hold x e He Hfe)).
  - intros s1 s2 e1 e2 He1 He2 Hf1 Hf2. apply (ki_apart klen kv I s1 s2 e1 e2); auto.
  - destruct (Hh k Hk) as (h' & Eh' & Hh'). assert (h' = h) as -> by congruence.
    destruct (delete_found _ klen _ s es h k (Some s) W Hes Hf F Hh') as [F' _].
    by rewrite (lookup_found klen kv' storage k h None W' Hk Eh (F' eq_refl)).
  - intros k' Hk' Hne. destruct (Hh k' Hk') as (h2 & Eh2 & Hh2).
    destruct (search_spec _ klen _ h2 k' W Hk' Hh2) as (r2 & _ & F2).
    destruct (delete_found _ klen _ s es h2 k' r2 W Hes Hf F2 Hh2) as [_ F3].
    destruct F3 as (r3 & F3 & Hr3 & Hend); [by rewrite Ek|].
    rewrite (lookup_found klen kv' storage k' h2 r3 W' Hk' Eh2 F3), (lookup_found klen kv storage k' h2 r2 W Hk' Eh2 F2).
    assert (Hsame : value_of (kv_mapping_table kv') storage r2 = value_of (kv_mapping_table kv) storage r2).
    { destruct r2 as [x|]; [|done]. destruct (found_hit klen _ h2 k' x F2) as (e & He & _ & Ek').
      simpl. rewrite nthZ_insert by done. rewrite (proj2 (Z.eqb_neq x s)); [done|]. intros ->. same_nth. congruence. }
    split; [|intros Hn; by rewrite (Hend Hn)]. destruct Hr3 as [->| ->]; [by left|by right].
Qed.

Lemma delete_ok :
  opcode cmd = nvme_cmd_kv_delete ->
  match m k with
  | None => run = Ok (mk_kv_out kv host storage KV_ERR_KEY_NOT_EXIST 0)
  | Some _ =>
      exists kv' s es, run = Ok (mk_kv_out kv' host storage status 0) /\ kv_inv kv' /\ kv_lookup kv' storage k = None /\
        find_key (hash_slots kv) (kv_mapping_table kv) k klen = Ok (Some s) /\ nthZ (kv_mapping_table kv) s = Ok es /\
        forall k', klen <= Z.of_nat (length k') -> prefix_of k' <> prefix_of k ->
          (kv_lookup kv' storage k' = m k' \/ kv_lookup kv' storage k' = None) /\
          (me_next_slot es = SLOT_NONE -> kv_lookup kv' storage k' = m k')
  end.
Proof.
  intros Hop. pose proof key_long as Hk. unfold __do_perform_kv_io. rewrite Hlen, Hop.
  destruct (m k) as [v|] eqn:Hv; [|by rewrite (lookup_none kv storage k I Hk Hv)].
  destruct (lookup_some kv storage k v I Hk Hv)
    as (h & s & es & Eh & _ & Er & F & Hes & Hf & Ek & _ & (e & -> & Epl) & _). cbn [obind].
  change (nvme_cmd_kv_delete =? nvme_cmd_kv_store) with false. change (nvme_cmd_kv_delete =? nvme_cmd_kv_retrieve) with false.
  change (nvme_cmd_kv_delete =? nvme_cmd_kv_exist) with false. rewrite Z.eqb_refl. cbn iota.
  rewrite (place_free e es) by done. unfold delete_mapping_entry. rewrite Er. cbn [obind].
  rewrite (updZ_Ok _ _ _ (nthZ_range _ _ _ Hes)). cbn [obind].
  destruct (delete_spec s es h Eh F Hes Hf Ek) as (I' & Hn & Ho). by eexists _, s, es.
Qed.
End Run.
End Commands.
