(* ===== verification/KvBatch.v ===== *)
(** * KvBatch: batches of stores on the map of a namespace (src/kv_ftl.c)

    A batch is a page of attributes and the keys and values behind it, each at
    a multiple of 64 bytes.  Executing it is storing its pairs in their order. *)
From stdpp Require Import base list numbers sets.
From Stdlib Require Import ZArith Lia.
From S2P Require Import Prelude ChannelModel Nvme Prp PrpFacts HostMem.
From S2P Require Import KvData KvFtl KvTable KvAlloc KvState KvCommands.

Open Scope Z_scope.
Open Scope nvmev_scope.

(** ** Free slots *)
Definition nfree (t : list mapping_entry) : nat := length (filter is_free t).

Lemma nfree_has t : (0 < nfree t)%nat -> has_free t.
Proof.
  unfold nfree. destruct (filter is_free t) as [|e l] eqn:E; simpl; [lia|]. intros _.
  assert (He : e ∈ filter is_free t) by (rewrite E; by left). apply list_elem_of_filter in He as [Hf [i Hi]%list_elem_of_lookup].
  exists (Z.of_nat i), e. split; [|done]. apply nthZ_Ok. split; [lia|]. by rewrite Nat2Z.id.
Qed.

(** Filling one free slot; links do not matter. *)
Lemma nfree_fill t t' i : length t' = length t -> (exists e, t !! i = Some e /\ is_free e) ->
  (exists e, t' !! i = Some e /\ ~ is_free e) ->
  (forall j e e', j <> i -> t !! j = Some e -> t' !! j = Some e' -> (is_free e <-> is_free e')) -> nfree t = S (nfree t').
Proof.
  revert t' i. induction t as [|x t IH]; intros t' i Hl (e & He & Hf) (e' & He' & Hf') Hj; [done|].
  destruct t' as [|x' t']; [done|]. injection Hl as Hl. unfold nfree in *. destruct i as [|i]; simpl in He, He'.
  - injection He as ->. injection He' as ->. rewrite filter_cons_True, filter_cons_False by done. simpl. f_equal.
    assert (Hsame : forall j y y', t !! j = Some y -> t' !! j = Some y' -> (is_free y <-> is_free y')) by (intros j y y'; apply (Hj (S j)); done).
    clear -Hl Hsame. revert t' Hl Hsame. induction t as [|y t IH]; intros t' Hl Hs; destruct t' as [|y' t']; [done..|].
    injection Hl as Hl. pose proof (Hs 0%nat y y' eq_refl eq_refl) as Hy. specialize (IH t' Hl (fun j => Hs (S j))).
    rewrite !filter_cons. destruct (decide (is_free y)), (decide (is_free y')); simpl; tauto || lia.
  - pose proof (Hj 0%nat x x' ltac:(done) eq_refl eq_refl) as Hx.
    assert (Heq : length (filter is_free t) = S (length (filter is_free t'))).
    { apply (IH t' i Hl); [by exists e|by exists e'|]. intros j y y' Hne. apply (Hj (S j)). lia. }
    rewrite !filter_cons. destruct (decide (is_free x)), (decide (is_free x')); simpl; tauto || lia.
Qed.

Lemma inserted_nfree slots klen t t' n p e' : table_wf slots klen t -> inserted t t' n p e' -> nfree t = S (nfree t').
Proof.
  intros W N. destruct (in_free _ _ _ _ _ N) as (e & He & Hf). destruct (in_entry _ _ _ _ _ N) as (_ & Hf' & _).
  pose proof (in_new _ _ _ _ _ N) as He'. apply nthZ_Ok in He as [Hn He]. apply nthZ_Ok in He' as [_ He'].
  apply (nfree_fill t t' (Z.to_nat n)); [apply (in_len _ _ _ _ _ N)|by exists e|by exists e'|].
  intros j y y' Hj Hy Hy'. destruct (in_old _ t' n p e' N (Z.of_nat j) y) as (z & Hz & (_ & Ez & _) & _);
    [apply nthZ_Ok; rewrite Nat2Z.id; split; [lia|done]|lia|].
  apply nthZ_Ok in Hz as [_ Hz]. rewrite Nat2Z.id in Hz. assert (y' = z) as -> by congruence. unfold is_free. by rewrite Ez.
Qed.

Section Batch.
Context {A : Type} {size : Z} `{AllocatorLaws A size}.
Variable klen : Z.
Implicit Type kv : kv_ftl A.
Notation prefix_of := (prefix_of klen).
Notation kv_lookup := (kv_lookup klen).
Notation kv_inv := (kv_inv (size := size) klen).
Notation kv_put := (kv_put klen).

Lemma lookup_prefix kv storage k k' : kv_inv kv -> klen <= Z.of_nat (length k) -> klen <= Z.of_nat (length k') ->
  prefix_of k = prefix_of k' -> kv_lookup kv storage k = kv_lookup kv storage k'.
Proof.
  intros I Hk Hk' E. pose proof (ki_wf klen kv I) as W. destruct (find_key_spec klen _ _ k W Hk) as (h & r & Eh & _ & _ & F).
  rewrite (lookup_found klen kv storage k h r W Hk Eh F). symmetry. apply (lookup_found klen kv storage k' h r W Hk').
  - by rewrite <- (hash_prefix klen _ k k').
  - by eapply found_prefix.
Qed.

(** ** One pair *)
Definition fits_now kv storage (k : list Z) (len : Z) : Prop :=
  match kv_lookup kv storage k with
  | None => (0 < nfree (kv_mapping_table kv))%nat /\ alloc_room (kv_allocator kv) len
  | Some w => Z.of_nat (length w) = len
  end.

Lemma batched_put kv storage key value len :
  kv_inv kv -> klen <= Z.of_nat (length key) -> 0 < len <= 4097 -> fits_now kv storage key len ->
  exists kv' storage', __do_perform_kv_batched_io size kv storage nvme_cmd_kv_store key klen value len = Ok (kv', storage') /\
    kv_inv kv' /\ iter_handle kv' = iter_handle kv /\
    (forall k', klen <= Z.of_nat (length k') -> kv_lookup kv' storage' k' = kv_put (kv_lookup kv storage) key (bytes value 0 len) k') /\
    match kv_lookup kv storage key with
    | None => (exists off, alloc_allocate (kv_allocator kv) len = Ok (off, kv_allocator kv')) /\
        nfree (kv_mapping_table kv) = S (nfree (kv_mapping_table kv'))
    | Some _ => kv' = kv
    end.
Proof.
  intros I Hk Hlen Hfit. pose proof (ki_wf klen kv I) as W. pose proof (ki_size klen kv I) as Hsz.
  unfold fits_now in Hfit. unfold __do_perform_kv_batched_io, get_mapping_entry_by_key, new_mapping_entry_by_key.
  assert (Hd : forall off, bytes (memcpy storage off value 0 len) off len = bytes value 0 len).
  { intros off. apply map_seqZ_ext. intros i Hi. unfold memcpy. rewrite (proj2 (Z.leb_le _ _)), (proj2 (Z.ltb_lt _ _)) by lia.
    simpl. f_equal. lia. }
  assert (Hs : forall off o n, apart o n off len -> bytes (memcpy storage off value 0 len) o n = bytes storage o n).
  { intros off o n Ha. apply bytes_same. intros x Hx. unfold memcpy.
    destruct (Z.leb_spec off x), (Z.ltb_spec x (off + len)); simpl; try done. destruct (Ha x). lia. }
  destruct (kv_lookup kv storage key) as [v|] eqn:Hv.
  - destruct (lookup_some klen kv storage key v I Hk Hv)
      as (h & s & es & Eh & _ & Er & F & Hes & Hf & Ek & -> & (e & Ee & Epl) & H1 & H2 & H3).
    rewrite length_bytes in Hfit by done. injection Epl as Eo El. rewrite Ee. cbn [obind].
    change (nvme_cmd_kv_store =? nvme_cmd_kv_store) with true. cbv zeta.
    rewrite (place_free e es) by (unfold place; congruence || done). cbn [obind]. rewrite Eo.
    rewrite !(proj2 (Z.leb_le _ _)) by lia. cbn [andb]. cbn iota.
    destruct (update_spec klen kv storage (memcpy storage (me_mem_offset es) value 0 len) key h s es len _ I Hk Eh F Hes Hf Ek
      ltac:(lia) (Hd _) (Hs _)) as [I' Hl].
    assert (Et : set_table kv (<[Z.to_nat s:=set_me_length es len]> (kv_mapping_table kv)) = kv).
    { rewrite <- Hfit. assert (Ese : set_me_length es (me_length es) = es) by (by destruct es). rewrite Ese.
      apply nthZ_Ok in Hes as [_ Hes]. rewrite list_insert_id by done. by destruct kv. }
    rewrite Et in Hl. by eexists _, _.
  - destruct Hfit as [Hfree Hroom]. apply nfree_has in Hfree as Hhas.
    rewrite (lookup_none klen kv storage key I Hk Hv). cbn [obind]. change (nvme_cmd_kv_store =? nvme_cmd_kv_store) with true.
    change (me_mem_offset entry_ff =? OFFSET_NONE) with true. cbn iota. cbv zeta.
    unfold allocate_mem_offset_by_length. rewrite u64_id by lia.
    destruct (ki_places klen kv I) as (R & HR & Hp).
    destruct (alloc_ok (kv_allocator kv) R len HR ltac:(lia) Hroom) as (off & a' & Ea & HR' & H1 & H2 & Hap).
    rewrite Ea. cbn [obind]. rewrite (proj2 (Z.eqb_neq off OFFSET_NONE)) by (unfold OFFSET_NONE; lia).
    rewrite !(proj2 (Z.leb_le _ _)) by lia. cbn [andb]. cbn iota.
    assert (P : new_place kv (set_allocator kv a') off len R) by (split; simpl; try done; lia).
    destruct (new_entry_spec klen kv (set_allocator kv a') storage _ key off len _ R I P Hk Hhas Hv (Hd off) (Hs off))
      as (t' & En & I' & Hl).
    destruct (find_key_spec klen _ _ key W Hk) as (h & r & Eh & Hh & _ & (l & C & _)).
    destruct (new_mapping_entry_spec _ klen _ size key len off h l W Hhas Hk ltac:(lia) ltac:(unfold OFFSET_NONE; lia) Eh Hh C)
      as (t2 & n & p & e' & En2 & N & _).
    rewrite En. cbn [obind]. eexists _, _. split; [reflexivity|]. do 3 (split; [done|]). split; [by exists off|].
    simpl in *. rewrite En in En2. injection En2 as <-. by eapply inserted_nfree.
Qed.
(** ** A batch in memory *)

(** The attributes of pair [i] and, [off] bytes behind the page of attributes,
    its key and its value. *)
Record pair_at (buffer : mem) (len i off : Z) (k v : list Z) : Prop := {
  pa_key : Z.of_nat (length k) = klen;
  pa_value : 0 < Z.of_nat (length v) <= 4097;
  pa_opcode : buffer (sizeof_attr * i) = nvme_cmd_kv_store;
  pa_key_size : buffer (sizeof_attr * i + 1) = klen;
  pa_value_size : bytes buffer (sizeof_attr * i + 4) 4 = le_int (Z.of_nat (length v));
  pa_key_bytes : bytes buffer (sizeof_batch_head + off) klen = k;
  pa_value_bytes : bytes buffer (sizeof_batch_head + off + align_up klen) (Z.of_nat (length v)) = v;
  pa_fits : sizeof_batch_head + off + align_up klen + Z.of_nat (length v) <= len;
}.
Definition next_pair (off : Z) (v : list Z) : Z := off + (align_up klen + align_up (Z.of_nat (length v)) + ALIGN_LEN).
Fixpoint batch_at (buffer : mem) (len i off : Z) (items : list (list Z * list Z)) : Prop :=
  match items with
  | [] => True
  | (k, v) :: items => pair_at buffer len i off k v /\ batch_at buffer len (i + 1) (next_pair off v) items
  end.

Lemma le_uint_int x : 0 <= x < 4294967296 -> le_uint (le_int x) = x.
Proof. intros Hx. change (le_value (le_bytes 4 x) = x). rewrite le_value_bytes. by apply Z.mod_small. Qed.

Lemma align_up_small n : 0 <= n <= 16 -> align_up n = 64.
Proof.
  intros Hn. unfold align_up, ALIGN_LEN. destruct (decide (n = 0)) as [->|Hz]; [done|]. by rewrite Z.quot_small by lia.
Qed.
Lemma align_up_pos n : 0 < n -> 0 <= align_up n.
Proof. intros Hn. unfold align_up, ALIGN_LEN. pose proof (Z.quot_pos (n - 1) 64). lia. Qed.

Lemma buf_read_ok buffer len off n : 0 <= off -> 0 <= n -> off + n <= len -> buf_read buffer len off n = Ok (bytes buffer off n).
Proof. intros H1 H2 H3. unfold buf_read. rewrite !(proj2 (Z.leb_le _ _)) by lia. simpl. by rewrite orb_true_r. Qed.

Lemma nthZ_0 (a b : Z) l : nthZ (a :: b :: l) 0 = Ok a.
Proof. done. Qed.
Lemma nthZ_1 (a b : Z) l : nthZ (a :: b :: l) 1 = Ok b.
Proof. done. Qed.

Lemma attr_bytes buffer a : bytes buffer a 8 =
  [buffer a; buffer (a + 1); buffer (a + 2); buffer (a + 3)] ++ bytes buffer (a + 4) 4.
Proof. change 8 with (4 + 4). rewrite bytes_app by lia. f_equal. unfold bytes. simpl. by rewrite Z.add_0_r. Qed.

Lemma batch_step_put buffer len i off kv storage k v :
  kv_inv kv -> 0 <= i < 8 -> 0 <= off -> pair_at buffer len i off k v -> fits_now kv storage k (Z.of_nat (length v)) ->
  exists kv' storage', batch_step size buffer len (kv, storage, off) i = Ok (kv', storage', next_pair off v) /\
    kv_inv kv' /\ iter_handle kv' = iter_handle kv /\
    (forall k', klen <= Z.of_nat (length k') -> kv_lookup kv' storage' k' = kv_put (kv_lookup kv storage) k v k') /\
    match kv_lookup kv storage k with
    | None => (exists o, alloc_allocate (kv_allocator kv) (Z.of_nat (length v)) = Ok (o, kv_allocator kv')) /\
        nfree (kv_mapping_table kv) = S (nfree (kv_mapping_table kv'))
    | Some _ => kv' = kv
    end.
Proof.
  intros I Hi Hoff [Ek Hv Eop Eks Evs Ekb Evb Hfit] Hnow. pose proof (tw_klen _ _ _ (ki_wf klen kv I)) as HK.
  pose proof (align_up_small klen HK) as Hal.
  unfold batch_step. rewrite buf_read_ok by (unfold sizeof_attr, sizeof_batch_head in *; lia). cbn [obind]. rewrite attr_bytes.
  rewrite Eop, Eks, Evs. cbn [app]. rewrite nthZ_0, nthZ_1. cbn [obind]. match goal with |- context [drop 4 (_ :: _ :: _ :: _ :: ?l)] => change (drop 4 (_ :: _ :: _ :: _ :: l)) with l end. rewrite le_uint_int by lia.
  rewrite s32_id by lia. cbv zeta.
  rewrite buf_read_ok by (unfold sizeof_batch_head in *; lia). rewrite Ekb. cbn [obind].
  unfold memcpy_bytes. rewrite length_replicate, Ek. rewrite !(proj2 (Z.leb_le _ _)) by lia. cbn [andb obind].
  rewrite buf_read_ok by (unfold sizeof_batch_head in *; lia). rewrite Evb. cbn [obind].
  set (key := take (Z.to_nat klen) k ++ drop (Z.to_nat klen) (replicate 20 0)).
  assert (Hkey : prefix_of key = prefix_of k).
  { unfold key, KvTable.prefix_of. rewrite take_app_le by (rewrite length_take; lia). rewrite take_take. f_equal. lia. }
  assert (Hlk : klen <= Z.of_nat (length key)) by (unfold key; rewrite length_app, length_take, length_drop, length_replicate; lia).
  pose proof (lookup_prefix kv storage key k I Hlk ltac:(lia) Hkey) as El. unfold fits_now in Hnow. rewrite <- El in Hnow.
  destruct (batched_put kv storage key (write_bytes (fun _ => 0) 0 v) (Z.of_nat (length v)) I Hlk Hv Hnow)
    as (kv' & storage' & -> & I' & Hit & Hl & Hm). cbn [obind].
  exists kv', storage'. split; [done|]. do 2 (split; [done|]). rewrite <- El. split; [|exact Hm].
  intros k' Hk'. rewrite (Hl k' Hk'), bytes_write. unfold KvState.kv_put. by rewrite Hkey.
Qed.

(** ** A whole batch *)

(** New keys find a free slot and a place, known keys keep their length. *)
Fixpoint batch_fits (m : list Z -> option (list Z)) (a : A) (free : nat) (items : list (list Z * list Z)) : Prop :=
  match items with
  | [] => True
  | (k, v) :: items =>
      match m k with
      | None => (0 < free)%nat /\ alloc_room a (Z.of_nat (length v)) /\
          forall off a', alloc_allocate a (Z.of_nat (length v)) = Ok (off, a') -> batch_fits (kv_put m k v) a' (free - 1) items
      | Some w => length w = length v /\ batch_fits (kv_put m k v) a free items
      end
  end.
Definition put_all (m : list Z -> option (list Z)) (items : list (list Z * list Z)) : list Z -> option (list Z) :=
  foldl (fun m '(k, v) => kv_put m k v) m items.

Definition same_map (m m' : list Z -> option (list Z)) : Prop := forall k, klen <= Z.of_nat (length k) -> m k = m' k.
Lemma same_put m m' k v : same_map m m' -> same_map (kv_put m k v) (kv_put m' k v).
Proof. intros E k' Hk'. unfold KvState.kv_put. case_decide; [done|]. by apply E. Qed.
Lemma same_put_all items : forall m m', same_map m m' -> same_map (put_all m items) (put_all m' items).
Proof. induction items as [|[k v] items IH]; intros m m' E; simpl; [done|]. by apply IH, same_put. Qed.

Lemma batch_fits_ext items : forall m m' a free, same_map m m' -> Forall (fun '(k, _) => klen <= Z.of_nat (length k)) items ->
  batch_fits m a free items -> batch_fits m' a free items.
Proof.
  induction items as [|[k v] items IH]; intros m m' a free E Hk Hb; simpl in *; [done|].
  apply Forall_cons_1 in Hk as [Hk Hks]. rewrite <- (E k Hk). destruct (m k) as [w|].
  - destruct Hb as [Hl Hb]. split; [done|]. by eapply IH; [apply same_put|..].
  - destruct Hb as (Hf & Hr & Hb). do 2 (split; [done|]). intros off a' Ea. eapply IH; [by apply same_put|done|]. by eapply Hb.
Qed.

(** Only the bytes of the buffer matter. *)
Lemma pair_at_ext buffer buffer' len i off k v : 0 <= klen -> 0 <= i < 8 -> 0 <= off -> align_up klen = 64 -> klen <= 64 ->
  (forall x, 0 <= x < len -> buffer' x = buffer x) -> pair_at buffer len i off k v -> pair_at buffer' len i off k v.
Proof.
  intros Hkl Hi Hoff Hal HK E [Ek Hv Eop Eks Evs Ekb Evb Hfit]. rewrite Hal in *. unfold sizeof_attr, sizeof_batch_head in *.
  split; unfold sizeof_attr, sizeof_batch_head; rewrite ?Hal; try done.
  - by rewrite E by lia.
  - by rewrite E by lia.
  - rewrite <- Evs. apply bytes_same. intros x Hx. apply E. lia.
  - rewrite <- Ekb. apply bytes_same. intros x Hx. apply E. lia.
  - rewrite <- Evb at 2. apply bytes_same. intros x Hx. apply E. lia.
Qed.
Lemma batch_at_ext buffer buffer' len items : 0 <= klen <= 16 -> (forall x, 0 <= x < len -> buffer' x = buffer x) ->
  forall i off, 0 <= i -> i + Z.of_nat (length items) <= 8 -> 0 <= off ->
  batch_at buffer len i off items -> batch_at buffer' len i off items.
Proof.
  intros HK E. pose proof (align_up_small klen HK) as Hal. induction items as [|[k v] items IH]; intros i off Hi Hn Hoff; simpl in *; [done|].
  intros [Hp Hb]. pose proof (pa_value _ _ _ _ _ _ Hp) as Hv. split; [eapply pair_at_ext; done || lia|].
  apply IH; [lia..| |done]. unfold next_pair. rewrite Hal. pose proof (align_up_pos (Z.of_nat (length v))). unfold ALIGN_LEN. lia.
Qed.

Lemma batch_at_keys buffer len items : forall i off, batch_at buffer len i off items ->
  Forall (fun '(k, _) => klen <= Z.of_nat (length k)) items.
Proof.
  induction items as [|[k v] items IH]; intros i off Hb; [constructor|]. destruct Hb as [[Ek _ _ _ _ _ _ _] Hb].
  constructor; [lia|by eapply IH].
Qed.

Lemma batch_loop buffer len items : forall i off kv storage,
  kv_inv kv -> 0 <= i -> i + Z.of_nat (length items) <= 8 -> 0 <= off -> batch_at buffer len i off items ->
  batch_fits (kv_lookup kv storage) (kv_allocator kv) (nfree (kv_mapping_table kv)) items ->
  exists kv' storage' off', forO i (i + Z.of_nat (length items)) (kv, storage, off) (batch_step size buffer len) = Ok (kv', storage', off') /\
    kv_inv kv' /\ iter_handle kv' = iter_handle kv /\ same_map (kv_lookup kv' storage') (put_all (kv_lookup kv storage) items).
Proof.
  induction items as [|[k v] items IH]; intros i off kv storage I Hi Hn Hoff Hb Hf.
  { rewrite forO_empty by (simpl; lia). by eexists _, _, _. }
  simpl length in *. destruct Hb as [Hp Hb]. pose proof (pa_key _ _ _ _ _ _ Hp) as Ek. pose proof (pa_value _ _ _ _ _ _ Hp) as Hv.
  pose proof (tw_klen _ _ _ (ki_wf klen kv I)) as HK.
  assert (Hoff' : 0 <= next_pair off v).
  { unfold next_pair. rewrite align_up_small by done. pose proof (align_up_pos (Z.of_nat (length v))). unfold ALIGN_LEN. lia. }
  assert (Hnow : fits_now kv storage k (Z.of_nat (length v))).
  { unfold fits_now. simpl in Hf. destruct (kv_lookup kv storage k); [lia|]. tauto. }
  rewrite forO_step by lia. destruct (batch_step_put buffer len i off kv storage k v I ltac:(lia) Hoff Hp Hnow)
    as (kv1 & st1 & -> & I1 & Hit & Hl & Hm). cbn [obind].
  replace (i + Z.of_nat (S (length items))) with (i + 1 + Z.of_nat (length items)) by lia.
  destruct (IH (i + 1) (next_pair off v) kv1 st1 I1 ltac:(lia) ltac:(lia) Hoff' Hb) as (kv' & st' & off' & -> & I' & Hit' & Hl').
  - apply (batch_fits_ext items (kv_put (kv_lookup kv storage) k v)); [intros k' Hk'; symmetry; by apply Hl|by eapply batch_at_keys|].
    simpl in Hf. destruct (kv_lookup kv storage k) as [w|].
    + subst kv1. apply Hf.
    + destruct Hm as [[o Ea] En]. destruct Hf as (_ & _ & Hf). rewrite En in Hf. simpl in Hf. rewrite Nat.sub_0_r in Hf. by eapply Hf.
  - eexists _, _, _. split; [reflexivity|]. split; [done|]. split; [congruence|]. intros k' Hk'. rewrite (Hl' k' Hk'). simpl.
    by apply same_put_all.
Qed.
End Batch.
