(* ===== verification/KvIter.v ===== *)
(** * KvIter: what a read of an iterator delivers *)
From stdpp Require Import base list numbers sets.
From Stdlib Require Import ZArith Lia.
From S2P Require Import Prelude ChannelModel Nvme Prp PrpFacts HostMem.
From S2P Require Import KvData KvFtl KvTable KvAlloc KvState KvCommands.

Open Scope Z_scope.
Open Scope nvmev_scope.

(** ** The keys of a range of slots *)
Section Keys.
Variables (t : list mapping_entry) (prefix bitmask : Z).

Definition iter_match (e : mapping_entry) : bool :=
  negb (me_mem_offset e =? OFFSET_NONE) && (Z.land (le_uint (me_key e)) bitmask =? Z.land prefix bitmask).
Definition slot_keys (x : Z) : list (list Z) :=
  match nthZ t x with Ok e => if iter_match e then [take 16 (me_key e)] else [] | _ => [] end.
(** The matching keys in the slots from [pos] to [pos' - 1], and their records. *)
Definition iter_keys (pos pos' : Z) : list (list Z) := flat_map slot_keys (seqZ pos (pos' - pos)).
Definition iter_records (ks : list (list Z)) : list Z := flat_map (fun k => le_int ITER_KEYLEN ++ k) ks.
Definition nr (ks : list (list Z)) : Z := Z.of_nat (length ks).

Lemma iter_keys_step pos pos' : pos < pos' -> iter_keys pos pos' = slot_keys pos ++ iter_keys (pos + 1) pos'.
Proof.
  intros Hp. unfold iter_keys. rewrite seqZ_cons by lia. simpl. by replace (Z.pred (pos' - pos)) with (pos' - Z.succ pos) by lia.
Qed.
Lemma iter_keys_nil pos : iter_keys pos pos = [].
Proof. unfold iter_keys. by rewrite Z.sub_diag. Qed.

Context (Hkeys : forall s e, nthZ t s = Ok e -> length (me_key e) = 18%nat).

Lemma iter_scan_spec fuel slots pos buf bo nk :
  Z.of_nat (length t) = slots -> 0 <= pos <= slots -> slots - pos <= Z.of_nat fuel -> 0 <= bo <= 1024 ->
  exists pos' buf' fin, iter_scan fuel slots t prefix bitmask pos buf bo nk =
      Ok (pos', buf', bo + 20 * nr (iter_keys pos pos'), nk + nr (iter_keys pos pos'), fin) /\
    pos <= pos' <= slots /\ fin = negb (pos =? slots) && (pos' =? slots) /\
    bo + 20 * nr (iter_keys pos pos') <= 1024 /\
    (pos' < slots -> 1024 < bo + 20 * nr (iter_keys pos pos') + 20) /\
    bytes buf' bo (20 * nr (iter_keys pos pos')) = iter_records (iter_keys pos pos') /\
    forall a, a < bo -> buf' a = buf a.
Proof.
  intros Hlen. revert pos buf bo nk. unfold nr.
  assert (Hstop : forall pos buf bo nk, 0 <= bo <= 1024 ->
    bo = bo + 20 * Z.of_nat (length (iter_keys pos pos)) /\ nk = nk + Z.of_nat (length (iter_keys pos pos)) /\
    bo + 20 * Z.of_nat (length (iter_keys pos pos)) <= 1024 /\
    bytes buf bo (20 * Z.of_nat (length (iter_keys pos pos))) = iter_records (iter_keys pos pos)).
  { intros pos buf bo nk Hbo. rewrite iter_keys_nil. simpl. split; [lia|]. split; [lia|]. split; [lia|done]. }
  induction fuel as [|fuel IH]; intros pos buf bo nk Hp Hf Hbo; cbn [iter_scan].
  - assert (pos = slots) as -> by lia. rewrite (proj2 (Z.leb_le slots slots)) by lia.
    destruct (Hstop slots buf bo nk Hbo) as (E1 & E2 & E3 & E4). exists slots, buf, false. rewrite <- E1, <- E2.
    rewrite Z.eqb_refl. split_and!; try lia; try done; by rewrite iter_keys_nil.
  - destruct (Z.leb_spec slots pos) as [Hs|Hs].
    { assert (pos = slots) as -> by lia. destruct (Hstop slots buf bo nk Hbo) as (E1 & E2 & E3 & E4).
      exists slots, buf, false. rewrite <- E1, <- E2. rewrite Z.eqb_refl. split_and!; try lia; try done; by rewrite iter_keys_nil. }
    destruct (nthZ_in_range t pos) as [e He]; [lia|]. rewrite He. cbn [obind]. fold (iter_match e).
    change ITER_KEYLEN with 16. pose proof (Hkeys pos e He) as Hl.
    assert (Hk : length (take (Z.to_nat 16) (me_key e)) = 16%nat) by (rewrite length_take, Hl; done).
    assert (Hsk : slot_keys pos = if iter_match e then [take 16 (me_key e)] else []) by (unfold slot_keys; by rewrite He).
    set (stop := iter_match e && (1024 <? bo + 4 + 16)). destruct stop eqn:Est; unfold stop in Est.
    { boolify. destruct (Hstop pos buf bo nk Hbo) as (E1 & E2 & E3 & E4). exists pos, buf, false. rewrite <- E1, <- E2.
      rewrite (proj2 (Z.eqb_neq pos slots)) by lia. split_and!; try lia; try done; by rewrite iter_keys_nil. }
    set (d := Z.of_nat (length (slot_keys pos))).
    set (buf1 := if iter_match e then write_bytes (write_bytes buf bo (le_int 16)) (bo + 4) (take (Z.to_nat 16) (me_key e)) else buf).
    assert (Ebuf : (if iter_match e then
        (write_bytes (write_bytes buf bo (le_int 16)) (bo + 4) (take (Z.to_nat 16) (me_key e)), bo + 4 + 16, nk + 1)
      else (buf, bo, nk)) = (buf1, bo + 20 * d, nk + d)).
    { unfold buf1, d. rewrite Hsk. destruct (iter_match e); simpl; f_equal; try f_equal; lia. }
    rewrite Ebuf. clear Ebuf. cbn iota.
    assert (Hd : 0 <= d /\ bo + 20 * d <= 1024).
    { unfold d. rewrite Hsk. destruct (iter_match e); simpl in *; [boolify|]; lia. }
    assert (Hb1 : bytes buf1 bo (20 * d) = iter_records (slot_keys pos) /\ forall a, a < bo -> buf1 a = buf a).
    { unfold buf1, d. rewrite Hsk. destruct (iter_match e); [|done]. split.
      - change (20 * Z.of_nat (length [take 16 (me_key e)])) with (4 + 16). rewrite bytes_app by done.
        pose proof (bytes_write (write_bytes buf bo (le_int 16)) (bo + 4) (take (Z.to_nat 16) (me_key e))) as Hw.
        rewrite Hk in Hw. change (Z.of_nat 16) with 16 in Hw. rewrite Hw.
        rewrite (bytes_same (write_bytes buf bo (le_int 16))) by (intros x Hx; apply write_other; lia).
        pose proof (bytes_write buf bo (le_int 16)) as Hw4. change (Z.of_nat (length (le_int 16))) with 4 in Hw4.
        rewrite Hw4. unfold iter_records. cbn [flat_map]. by rewrite app_nil_r.
      - intros a Ha. rewrite !write_other; [done|simpl; lia|rewrite Hk; lia]. }
    clear stop Est. destruct (Z.eqb_spec (pos + 1) slots) as [E|E].
    + exists (pos + 1), buf1, true. rewrite iter_keys_step, iter_keys_nil, app_nil_r by lia. fold d.
      rewrite (proj2 (Z.eqb_neq pos slots)), (proj2 (Z.eqb_eq (pos + 1) slots)) by lia.
      split; [done|]. split; [lia|]. split; [done|]. split; [lia|]. split; [lia|]. done.
    + destruct (IH (pos + 1) buf1 (bo + 20 * d) (nk + d) ltac:(lia) ltac:(lia) ltac:(lia))
        as (pos' & buf' & fin & Es & H1 & H2 & H3 & H4 & H5 & H6).
      exists pos', buf', fin. rewrite iter_keys_step, length_app by lia. fold d.
      rewrite Nat2Z.inj_add. fold d. set (r := Z.of_nat (length (iter_keys (pos + 1) pos'))) in *.
      replace (bo + 20 * (d + r)) with (bo + 20 * d + 20 * r) by lia. replace (nk + (d + r)) with (nk + d + r) by lia.
      split; [exact Es|]. split; [lia|]. split.
      { rewrite H2. rewrite (proj2 (Z.eqb_neq (pos + 1) slots)), (proj2 (Z.eqb_neq pos slots)) by lia. done. }
      split; [done|]. split; [done|]. split; [|intros a Ha; rewrite H6 by lia; by apply Hb1].
      replace (20 * (d + r)) with (20 * d + 20 * r) by lia. rewrite bytes_app by lia. rewrite H5.
      rewrite (bytes_same buf1 buf') by (intros x Hx; apply H6; lia). rewrite (proj1 Hb1).
      unfold iter_records. by rewrite flat_map_app.
Qed.
End Keys.
