(* ===== verification/IoFtl.v ===== *)
(** * IoFtl: the FTLs behind the interface of the queues

    [ns->proc_io_cmd] is a function pointer; these are the instances of
    [IoHandler] for the four FTLs.  A namespace carries its link, its write
    buffer and its storage; the units of the simple and the key-value FTL belong
    to the device, which has one namespace then. *)
From stdpp Require Import base list numbers.
From Stdlib Require Import ZArith Lia.
From S2P Require Import Prelude ChannelModel SsdConfig Ssd Nvme Prp PrpFacts.
From S2P Require Import ZnsData ZnsIo ZnsMgmt ConvFtl IoDev IoUnits KvData KvFtl Admin.

Open Scope Z_scope.
Open Scope nvmev_scope.

(** [cmd->nsid - 1] *)
Definition nsid_index (cmd : nvme_command) : Z := u32 (nsid cmd - 1).

(** ** Page-mapping namespaces *)
Record conv_store := mk_conv_store {
  cs_ns : nvmev_ns;
  cs_pcie : channel_model;
  cs_wb : buffer;
  cs_mapped : mem;
  cs_bytes : Z; (* the size of the mapped storage *)
}.

Section Conv.
Context `{Clock}.
(** Fuel of the collection loop and the uninitialised address in [do_gc]. *)
Variables (gc_fuel : nat) (ppa0 : Z).

Definition conv_handler_proc (s : conv_store) (clk : nat) (host : mem) (req : nvmev_request)
  (ret : nvmev_result) : outcome (io_outcome conv_store) :=
  let* (ok, ns, h, ret) :=
    conv_proc_nvme_io_cmd gc_fuel ppa0 (cs_ns s) (mk_hw (cs_pcie s) (cs_wb s) clk []) req ret in
  Ok (mk_out ok (mk_conv_store ns (hw_pcie h) (hw_write_buffer h) (cs_mapped s) (cs_bytes s)) (hw_clk h) host
        (req_cmd req) ret (hw_sched h)).

Definition conv_handler_release (s : conv_store) (b : buf_id) (size : Z) : outcome conv_store :=
  match b with
  | WB_GLOBAL =>
      let '(_, wb) := buffer_release (cs_wb s) size in
      Ok (mk_conv_store (cs_ns s) (cs_pcie s) wb (cs_mapped s) (cs_bytes s))
  | _ => Fault
  end.

Definition conv_handler_perform (s : conv_store) (host : mem) (cmd : nvme_command) (status result0 : Z)
  : outcome (conv_store * mem * Z * Z) :=
  let* (host, mapped) := __do_perform_io host (cs_mapped s) (cs_bytes s) cmd in
  Ok (mk_conv_store (cs_ns s) (cs_pcie s) (cs_wb s) mapped (cs_bytes s), host, status, result0).

#[export] Instance conv_handler : IoHandler conv_store := {
  ns_index := nsid_index;
  proc_io_cmd := conv_handler_proc;
  release_buffer := conv_handler_release;
  perform_io := conv_handler_perform;
}.

Lemma perform_not_nofuel host mapped dlen cmd : __do_perform_io host mapped dlen cmd <> NoFuel.
Proof.
  unfold __do_perform_io. assert (Hl : 0 <= __cmd_io_size cmd).
  { unfold __cmd_io_size. rewrite Z.shiftl_mul_pow2 by done. pose proof (rw_length_range cmd).
    apply Z.mul_nonneg_nonneg; [lia|]. by apply Z.pow_nonneg. }
  pose proof (prp_transfer_ends host mapped (prp1 cmd) (prp2 cmd) (__cmd_io_offset cmd) (__cmd_io_size cmd) dlen
    (io_dir cmd) Hl) as He. by destruct (prp_transfer _ _ _ _ _ _ _ _).
Qed.

#[export] Instance conv_handler_ends : IoHandlerEnds conv_store.
Proof.
  split.
  - intros s b n. by destruct b.
  - intros s m c st r. simpl. unfold conv_handler_perform.
    pose proof (perform_not_nofuel m (cs_mapped s) (cs_bytes s) c). by destruct (__do_perform_io _ _ _ _) as [[? ?]| | |].
Qed.
End Conv.

(** ** Zoned namespaces: the storage belongs to the FTL, which erases zones *)
Record zns_store := mk_zns_store {
  zs_ns : zns_ns;
  zs_pcie : channel_model;
  zs_wb : buffer;
}.

Section Zns.
Context `{Clock}.

Definition zns_handler_proc (s : zns_store) (clk : nat) (host : mem) (req : nvmev_request)
  (ret : nvmev_result) : outcome (io_outcome zns_store) :=
  let* r := zns_proc_nvme_io_cmd (zs_ns s) (mk_hw (zs_pcie s) (zs_wb s) clk []) host req ret in
  let h := zd_hw r in
  Ok (mk_out (zd_ok r) (mk_zns_store (zd_ns r) (hw_pcie h) (hw_write_buffer h)) (hw_clk h) (zd_host r)
        (zd_cmd r) (zd_ret r) (hw_sched h)).

Definition zns_handler_release (s : zns_store) (b : buf_id) (size : Z) : outcome zns_store :=
  let f := zn_ftl (zs_ns s) in
  let release (l : option (list buffer)) (zid : Z) : outcome (list buffer) :=
    let* l := of_option l in
    let* wb := nthZ l zid in
    let '(_, wb) := buffer_release wb size in
    updZ l zid wb in
  match b with
  | WB_GLOBAL =>
      let '(_, wb) := buffer_release (zs_wb s) size in Ok (mk_zns_store (zs_ns s) (zs_pcie s) wb)
  | WB_ZONE zid =>
      let* l := release (zone_write_buffer f) zid in
      Ok (mk_zns_store (set_zn_ftl (zs_ns s) (set_zwb f l)) (zs_pcie s) (zs_wb s))
  | WB_ZRWA zid =>
      let* l := release (zwra_buffer f) zid in
      Ok (mk_zns_store (set_zn_ftl (zs_ns s) (set_zrwab f l)) (zs_pcie s) (zs_wb s))
  end.

Definition zns_handler_perform (s : zns_store) (host : mem) (cmd : nvme_command) (status result0 : Z)
  : outcome (zns_store * mem * Z * Z) :=
  let f := zn_ftl (zs_ns s) in
  let* (host, mapped) := __do_perform_io host (zf_storage f) (zn_size (zs_ns s)) cmd in
  Ok (mk_zns_store (set_zn_ftl (zs_ns s) (set_storage f mapped)) (zs_pcie s) (zs_wb s), host, status, result0).

#[export] Instance zns_handler : IoHandler zns_store := {
  ns_index := nsid_index;
  proc_io_cmd := zns_handler_proc;
  release_buffer := zns_handler_release;
  perform_io := zns_handler_perform;
}.

#[export] Instance zns_handler_ends : IoHandlerEnds zns_store.
Proof.
  split.
  - assert (Hr : forall l zid n (g : list buffer -> zns_store),
      (let* l := (let* l := of_option l in let* wb := nthZ l zid in
                  let '(_, wb) := buffer_release wb n in updZ l zid wb) in Ok (g l)) <> NoFuel).
    { intros [l|] zid n g; [|done]. simpl. pose proof (nthZ_not_nofuel l zid).
      destruct (nthZ l zid) as [wb| | |]; try done. simpl.
      pose proof (updZ_not_nofuel l zid (mk_buffer (buf_size wb) (u64 (buf_remaining wb + n)))). by destruct (updZ _ _ _). }
    intros s [|zid|zid] n; simpl; [done|apply Hr|apply Hr].
  - intros s m c st r. simpl. unfold zns_handler_perform.
    pose proof (perform_not_nofuel m (zf_storage (zn_ftl (zs_ns s))) (zn_size (zs_ns s)) c).
    by destruct (__do_perform_io _ _ _ _) as [[? ?]| | |].
Qed.
End Zns.

(** ** Simple namespaces *)
Section Simple.
Context `{Clock}.
Variable cfg : nvmev_config.

Definition simple_handler_proc (s : simple_store) (clk : nat) (host : mem) (req : nvmev_request)
  (ret : nvmev_result) : outcome (io_outcome simple_store) :=
  let* (s, clk, ret) := simple_proc_nvme_io_cmd cfg s clk req ret in
  Ok (mk_out true s clk host (req_cmd req) ret []).

Definition simple_handler_perform (s : simple_store) (host : mem) (cmd : nvme_command) (status result0 : Z)
  : outcome (simple_store * mem * Z * Z) :=
  let* (host, mapped) := __do_perform_io host (si_mapped s) (si_bytes s) cmd in
  Ok (mk_simple_store (si_csi s) (si_stat s) mapped (si_bytes s), host, status, result0).

#[export] Instance simple_handler : IoHandler simple_store := {
  ns_index := nsid_index;
  proc_io_cmd := simple_handler_proc;
  release_buffer := fun _ _ _ => Fault;
  perform_io := simple_handler_perform;
}.

#[export] Instance simple_handler_ends : IoHandlerEnds simple_store.
Proof.
  split; [done|]. intros s m c st r. simpl. unfold simple_handler_perform.
  pose proof (perform_not_nofuel m (si_mapped s) (si_bytes s) c). by destruct (__do_perform_io _ _ _ _) as [[? ?]| | |].
Qed.
End Simple.

(** ** Key-value namespaces: [ns[0]] whatever the command says.  A store into a
    full table never ends, so that there is no [IoHandlerEnds]. *)
Record kv_store (A : Type) := mk_kv_store {
  kvs_ftl : kv_ftl A;
  kvs_stat : list Z;
  kvs_mapped : mem;
}.
Arguments mk_kv_store {A}.
Arguments kvs_ftl {A}.
Arguments kvs_stat {A}.
Arguments kvs_mapped {A}.

Section Kv.
Context {A : Type} `{AllocatorOps A} `{Clock}.
Variables (cfg : nvmev_config) (kmalloc_bytes : mem).

Definition kv_handler_proc (s : kv_store A) (clk : nat) (host : mem) (req : nvmev_request)
  (ret : nvmev_result) : outcome (io_outcome (kv_store A)) :=
  let* (stat, clk, ret) := kv_proc_nvme_io_cmd cfg (kvs_stat s) clk req ret in
  Ok (mk_out true (mk_kv_store (kvs_ftl s) stat (kvs_mapped s)) clk host (req_cmd req) ret []).

Definition kv_handler_perform (s : kv_store A) (host : mem) (cmd : nvme_command) (status result0 : Z)
  : outcome (kv_store A * mem * Z * Z) :=
  if kv_identify_nvme_io_cmd cmd then
    let* o := kv_perform_nvme_io_cmd (cfg_storage_size cfg) kmalloc_bytes (kvs_ftl s) host (kvs_mapped s) cmd status in
    Ok (mk_kv_store (ko_ftl o) (kvs_stat s) (ko_storage o), ko_host o, ko_status o, ko_result o)
  else
    let* (host, mapped) := __do_perform_io host (kvs_mapped s) (cfg_storage_size cfg) cmd in
    Ok (mk_kv_store (kvs_ftl s) (kvs_stat s) mapped, host, status, result0).

#[export] Instance kv_handler : IoHandler (kv_store A) := {
  ns_index := fun _ => 0;
  proc_io_cmd := kv_handler_proc;
  release_buffer := fun _ _ _ => Fault;
  perform_io := kv_handler_perform;
}.
End Kv.

(** ** What the identify commands read *)
#[export] Instance conv_info : NsInfo conv_store := {
  info_size := fun s => ns_size (cs_ns s);
  info_csi := fun s => ns_csi (cs_ns s);
  info_zpp := fun _ => None;
}.
#[export] Instance zns_info : NsInfo zns_store := {
  info_size := fun s => zn_size (zs_ns s);
  info_csi := fun s => zn_csi (zs_ns s);
  info_zpp := fun s => Some (zp (zn_ftl (zs_ns s)));
}.
#[export] Instance simple_info : NsInfo simple_store := {
  info_size := si_bytes;
  info_csi := si_csi;
  info_zpp := fun _ => None;
}.
