(* ===== verification/SsdTheorems.v ===== *)
(** * SsdTheorems: what channel_model.c and ssd.c promise

    The credits of a channel are accounted for, a NAND command always completes
    and touches no data, addresses decode to what was encoded, and the write
    buffer never gives out more than it has. *)
From stdpp Require Import base list numbers relations.
From Stdlib Require Import ZArith Lia.
From S2P Require Import Prelude ChannelModel SsdConfig Ssd SsdFacts ConvNand ConvFtl SsdInit ConvInit.
From S2P Require Import Demo.

Open Scope Z_scope.
Open Scope nvmev_scope.

(** ** Channels *)
#[local] Opaque NR_CREDIT_ENTRIES.
Section Channel.
Context `{ClockRange}.

(** Slot [i] of the ring, counted around it, and what [j] slots from [pos] on hold. *)
Definition credit (a : list Z) (i : Z) : Z :=
  match nthZ a (i mod NR_CREDIT_ENTRIES) with Ok c => c | _ => 0 end.
Definition ahead (a : list Z) (pos j : Z) : Z := sumZ (map (fun i => credit a (pos + i)) (seqZ 0 j)).

(** What [u] units take from slot [j] behind [pos]: what the slots before it lack. *)
Definition take_at (a : list Z) (pos u j : Z) : Z := Z.min (credit a (pos + j)) (Z.max 0 (u - ahead a pos j)).

Lemma NR_pos : 0 < NR_CREDIT_ENTRIES.
Proof. by rewrite NR_val. Qed.

Lemma credit_mod a x y : credit a (x mod NR_CREDIT_ENTRIES + y) = credit a (x + y).
Proof. unfold credit. by rewrite Zplus_mod_idemp_l. Qed.

Lemma ahead_mod a x j : ahead a (x mod NR_CREDIT_ENTRIES) j = ahead a x j.
Proof. unfold ahead. f_equal. apply map_ext. intros i. apply credit_mod. Qed.

Lemma ahead_0 a pos : ahead a pos 0 = 0.
Proof. done. Qed.

Lemma ahead_next a pos j : 0 <= j -> ahead a pos (j + 1) = credit a pos + ahead a (pos + 1) j.
Proof.
  intros Hj. unfold ahead. change (j + 1) with (Z.succ j). rewrite seqZ_cons by lia. simpl.
  rewrite Z.add_0_r. f_equal. rewrite Z.pred_succ. change (Z.succ 0) with (1 + 0).
  rewrite <- (fmap_add_seqZ 1 0 j), map_map. f_equal. apply map_ext. intros i. f_equal. lia.
Qed.

Lemma credit_ok a mc i : Z.of_nat (length a) = NR_CREDIT_ENTRIES -> Forall (fun c => 0 <= c <= mc) a ->
  nthZ a (i mod NR_CREDIT_ENTRIES) = Ok (credit a i) /\ 0 <= credit a i <= mc.
Proof.
  intros Hl Hf. pose proof (Z.mod_pos_bound i _ NR_pos). unfold credit.
  destruct (nthZ_in_range a (i mod NR_CREDIT_ENTRIES)) as [c Hc]; [lia|]. rewrite Hc. split; [done|].
  apply nthZ_Ok in Hc as [_ Hc]. by eapply Forall_lookup_1 in Hf.
Qed.

Lemma ahead_nonneg a mc pos j : Z.of_nat (length a) = NR_CREDIT_ENTRIES -> Forall (fun c => 0 <= c <= mc) a -> 0 <= ahead a pos j.
Proof.
  intros Hl Hf. unfold ahead. induction (seqZ 0 j) as [|i l IH]; simpl; [done|].
  destruct (credit_ok a mc (pos + i) Hl Hf). lia.
Qed.

Lemma credit_insert a pos x i : Z.of_nat (length a) = NR_CREDIT_ENTRIES -> 0 <= pos < NR_CREDIT_ENTRIES ->
  credit (<[Z.to_nat pos := x]> a) i = if i mod NR_CREDIT_ENTRIES =? pos then x else credit a i.
Proof. intros Hl Hp. unfold credit. rewrite nthZ_insert by lia. by destruct (_ =? pos). Qed.

Lemma slot_other pos i : 0 <= pos < NR_CREDIT_ENTRIES -> 0 < i < NR_CREDIT_ENTRIES -> (pos + i) mod NR_CREDIT_ENTRIES <> pos.
Proof.
  intros Hp Hi E. pose proof (Z.div_mod (pos + i) NR_CREDIT_ENTRIES ltac:(lia)) as Hd. rewrite E in Hd.
  set (q := (pos + i) / NR_CREDIT_ENTRIES) in *. assert (q = 0 \/ q <> 0) as [->|] by lia; nia.
Qed.

(** The loop takes from each slot what the slots before it lack, up to the head of the ring. *)
Lemma consume_exact fuel mc : forall a head pos u d0,
  0 <= head < NR_CREDIT_ENTRIES -> 0 <= pos < NR_CREDIT_ENTRIES ->
  Z.of_nat (length a) = NR_CREDIT_ENTRIES -> mc < 256 -> Forall (fun c => 0 <= c <= mc) a ->
  0 <= u < 4294967296 -> 0 <= d0 -> d0 + Z.of_nat fuel < 4294967296 -> ring_dist head pos < Z.of_nat fuel ->
  exists a' k, consume fuel a head pos u d0 = Ok (a', (pos + k) mod NR_CREDIT_ENTRIES, d0 + k) /\
    0 <= k <= ring_dist head pos /\
    (forall j, 0 <= j < NR_CREDIT_ENTRIES ->
       credit a' (pos + j) = credit a (pos + j) - (if j <=? ring_dist head pos then take_at a pos u j else 0)) /\
    (forall j, 0 <= j < k -> ahead a pos (j + 1) < u) /\
    (u <= ahead a pos (k + 1) \/ k = ring_dist head pos).
Proof.
  induction fuel as [|fuel IH]; intros a head pos u d0 Hh Hp Hl Hmc Hf Hu Hd Hdf Hdist.
  { unfold ring_dist in Hdist. pose proof (NR_mod (head - pos - 1)). lia. }
  pose proof NR_val as HN. pose proof (NR_mod (head - pos - 1)) as Hrd0. fold (ring_dist head pos) in Hrd0.
  cbn [consume]. destruct (credit_ok a mc pos Hl Hf) as [Hc Hcr]. rewrite (Z.mod_small pos) in Hc by lia. rewrite Hc. cbn [obind].
  set (c := credit a pos) in *. set (k0 := if u <=? c then u else c).
  assert (Hk0 : k0 = Z.min u c) by (unfold k0; destruct (Z.leb_spec u c); lia). clearbody k0.
  rewrite updZ_Ok by lia. cbn [obind]. rewrite u8_id by lia. rewrite (u32_id (u - k0)) by lia.
  set (a1 := <[Z.to_nat pos := c - k0]> a).
  assert (Hl1 : Z.of_nat (length a1) = NR_CREDIT_ENTRIES) by (unfold a1; by rewrite length_insert).
  assert (Hf1 : Forall (fun c => 0 <= c <= mc) a1) by (apply Forall_insert; [done|simpl; lia]).
  assert (Hc1 : forall j, 0 < j < NR_CREDIT_ENTRIES -> credit a1 (pos + j) = credit a (pos + j)).
  { intros j Hj. unfold a1. rewrite credit_insert by lia. by rewrite (proj2 (Z.eqb_neq _ _) (slot_other pos j Hp Hj)). }
  assert (Hc0 : credit a1 pos = c - k0).
  { unfold a1. rewrite credit_insert by lia. by rewrite Z.mod_small, Z.eqb_refl by lia. }
  assert (Ha1 : ahead a pos 1 = c) by (change 1 with (0 + 1); rewrite ahead_next, ahead_0 by lia; fold c; lia).
  assert (Ht0 : take_at a pos u 0 = k0) by (unfold take_at; rewrite ahead_0, Z.add_0_r; fold c; lia).
  assert (Hpast : u <= c -> forall j, 0 < j -> take_at a pos u j = 0).
  { intros Huc j Hj. unfold take_at. destruct (credit_ok a mc (pos + j) Hl Hf) as [_ ?].
    replace j with (j - 1 + 1) at 2 by lia. rewrite ahead_next by lia. fold c.
    pose proof (ahead_nonneg a mc (pos + 1) (j - 1) Hl Hf). lia. }
  destruct (Z.eqb_spec (u - k0) 0) as [E0|E0]; simpl.
  { exists a1, 0. rewrite !Z.add_0_r, (Z.mod_small pos) by lia. split; [done|]. split; [lia|]. split; [|split; [lia|left; change (0 + 1) with 1; lia]].
    intros j Hj. destruct (decide (j = 0)) as [->|Hne].
    - rewrite Z.add_0_r, Hc0, (proj2 (Z.leb_le _ _)), Ht0 by lia. done.
    - rewrite Hc1, Hpast by lia. destruct (_ <=? _); lia. }
  destruct (Z.eqb_spec ((pos + 1) mod NR_CREDIT_ENTRIES) head) as [E1|E1]; simpl.
  { exists a1, 0. rewrite !Z.add_0_r, (Z.mod_small pos) by lia. split; [done|].
    assert (Hr0 : ring_dist head pos = 0).
    { unfold ring_dist. rewrite <- E1. rewrite HN. clear. Z.div_mod_to_equations. lia. }
    split; [lia|]. split; [|split; [lia|by right]].
    intros j Hj. destruct (decide (j = 0)) as [->|Hne].
    - rewrite Z.add_0_r, Hc0, (proj2 (Z.leb_le _ _)), Ht0 by lia. done.
    - rewrite Hc1, (proj2 (Z.leb_gt _ _)) by lia. lia. }
  pose proof (NR_mod (pos + 1)) as Hnp. rewrite u32_id by lia.
  pose proof (ring_dist_next head pos Hh Hp E1) as Hrd. pose proof (NR_mod (head - (pos + 1) mod NR_CREDIT_ENTRIES - 1)) as Hrd1.
  fold (ring_dist head ((pos + 1) mod NR_CREDIT_ENTRIES)) in Hrd1.
  assert (Hah : forall j, 0 <= j < NR_CREDIT_ENTRIES -> ahead a1 (pos + 1) j = ahead a (pos + 1) j).
  { intros j Hj. unfold ahead. f_equal. apply map_ext_in. intros i Hi%list_elem_of_In%elem_of_seqZ.
    replace (pos + 1 + i) with (pos + (1 + i)) by lia. apply Hc1. lia. }
  destruct (IH a1 head ((pos + 1) mod NR_CREDIT_ENTRIES) (u - k0) (d0 + 1))
    as (a' & k & -> & Hk & Hcr' & Hbelow & Hend); try done; try lia.
  exists a', (k + 1). rewrite Zplus_mod_idemp_l. split; [f_equal; f_equal; [f_equal; f_equal; lia|lia]|]. split; [lia|].
  assert (Hkc : k0 = c) by lia. split; [|split].
  - intros j Hj. destruct (decide (j = 0)) as [->|Hne].
    + rewrite Z.add_0_r, (proj2 (Z.leb_le _ _)), Ht0 by lia. fold c.
      specialize (Hcr' (NR_CREDIT_ENTRIES - 1) ltac:(lia)). rewrite !credit_mod in Hcr'.
      rewrite (proj2 (Z.leb_gt _ _)) in Hcr' by lia.
      assert (Hw : forall b, credit b (pos + 1 + (NR_CREDIT_ENTRIES - 1)) = credit b pos).
      { intros b. unfold credit. replace (pos + 1 + (NR_CREDIT_ENTRIES - 1)) with (pos + 1 * NR_CREDIT_ENTRIES) by lia.
        by rewrite Z.mod_add by lia. }
      rewrite !Hw in Hcr'. lia.
    + specialize (Hcr' (j - 1) ltac:(lia)). rewrite !credit_mod in Hcr'. replace (pos + 1 + (j - 1)) with (pos + j) in Hcr' by lia.
      rewrite Hcr', Hc1 by lia. f_equal. rewrite Hrd.
      replace (j - 1 <=? ring_dist head pos - 1) with (j <=? ring_dist head pos)
        by (destruct (Z.leb_spec j (ring_dist head pos)), (Z.leb_spec (j - 1) (ring_dist head pos - 1)); done || lia).
      destruct (j <=? ring_dist head pos); [|done]. unfold take_at. rewrite credit_mod, ahead_mod, Hah by lia.
      replace (pos + 1 + (j - 1)) with (pos + j) by lia. rewrite Hc1 by lia. f_equal. f_equal.
      replace j with (j - 1 + 1) at 2 by lia. rewrite ahead_next by lia. fold c. lia.
  - intros j Hj. destruct (decide (j = 0)) as [->|Hne]; [change (0 + 1) with 1; lia|].
    specialize (Hbelow (j - 1) ltac:(lia)). rewrite ahead_mod, Hah in Hbelow by lia. rewrite ahead_next by lia. fold c.
    replace (j - 1 + 1) with j in Hbelow by lia. lia.
  - destruct Hend as [Hend| ->]; [left|right; lia]. rewrite ahead_mod in Hend. rewrite ahead_next by lia. fold c.
    destruct (decide (k + 1 < NR_CREDIT_ENTRIES)); [rewrite Hah in Hend by lia; lia|lia].
Qed.

(** The units of 128 bytes of a transfer. *)
Definition xfer_units (length : Z) : Z := u32 (DIV_ROUND_UP64 length UNIT_XFER_SIZE).

(** What a request takes and when it completes. *)
Lemma request_exact n ch t len :
  ch_inv ch -> u64_ok t ->
  let now := cpu_clock n in
  let units := xfer_units len in
  let offset := u32 (t / UNIT_TIME_INTERVAL - now / UNIT_TIME_INTERVAL) in
  exists ch1 t' ch', advance_head ch now = Ok ch1 /\
    chmodel_request n ch t len = Ok (t', ch', S n) /\ ch_inv ch' /\ u64_ok t' /\
    let ring := cm_avail_credits ch1 in
    let pos := (cm_head ch1 + offset) mod NR_CREDIT_ENTRIES in
    let last := ring_dist (cm_head ch1) pos in
    if (now <=? t) && (offset <? NR_CREDIT_ENTRIES) then
      exists k, 0 <= k <= last /\
        (forall j, 0 <= j < k -> ahead ring pos (j + 1) < units) /\ (units <= ahead ring pos (k + 1) \/ k = last) /\
        (forall j, 0 <= j < NR_CREDIT_ENTRIES -> credit (cm_avail_credits ch') (pos + j) =
           credit ring (pos + j) - (if j <=? last then take_at ring pos units j else 0)) /\
        cm_head ch' = cm_head ch1 /\ cm_max_credits ch' = cm_max_credits ch /\
        t' = u64 (t + u64 (u32 (cm_xfer_lat ch * units) +
               u64 (Z.max 0 (k - units / cm_max_credits ch) * UNIT_TIME_INTERVAL)))
    else t' = t /\ ch' = ch1.
Proof.
  intros Hinv Ht now units offset. unfold chmodel_request. fold now.
  destruct (advance_head_spec ch now Hinv) as (ch1 & E1 & Hinv1 & _ & _ & Hmc & Hxl).
  exists ch1. rewrite E1. cbn [obind]. pose proof Hinv1 as [Hh Hv Hm Hc Hl Hf].
  rewrite (proj2 (Z.leb_le _ _)) by lia. fold offset.
  destruct (Z.leb_spec now t) as [Hge|Hlt].
  2: { rewrite (proj2 (Z.ltb_lt _ _)) by done. by exists t, ch1. }
  rewrite (proj2 (Z.ltb_ge _ _)) by done. cbn [andb].
  destruct (Z.ltb_spec offset NR_CREDIT_ENTRIES) as [Hro|Hro].
  2: { rewrite (proj2 (Z.leb_le _ _)) by done. by exists t, ch1. }
  rewrite (proj2 (Z.leb_gt _ _)) by done. rewrite (proj2 (Z.eqb_neq _ 0)) by lia. cbn [negb]. fold (xfer_units len) units.
  pose proof (u32_range (DIV_ROUND_UP64 len UNIT_XFER_SIZE)) as Hu. fold (xfer_units len) units in Hu.
  unfold UNIT_XFER_CREDITS. rewrite Hc, Z.mul_1_r, (u32_id units), Z.add_0_r, (u32_id units) by done.
  set (pos := _ mod NR_CREDIT_ENTRIES).
  pose proof NR_val as HN. pose proof NR_nat as HNn.
  assert (Hpos : 0 <= pos < NR_CREDIT_ENTRIES) by (rewrite HN; apply NR_mod).
  remember (Z.to_nat NR_CREDIT_ENTRIES) as fuel eqn:Efuel. clear Efuel.
  assert (Hdist : ring_dist (cm_head ch1) pos < Z.of_nat fuel).
  { unfold ring_dist. pose proof (NR_mod (cm_head ch1 - pos - 1)). lia. }
  destruct (consume_exact fuel (cm_max_credits ch1) (cm_avail_credits ch1)
    (cm_head ch1) pos units 0) as (a' & k & Ec & Hk & Hcr & Hbelow & Hend); try assumption; try lia.
  destruct (consume_spec fuel (cm_max_credits ch1) (cm_avail_credits ch1)
    (cm_head ch1) pos units 0) as (a2 & pos' & d' & Ec2 & Hl' & Hf' & Hp' & _); try assumption; try lia.
  rewrite Ec in Ec2. injection Ec2 as <- <- <-. rewrite Ec. cbn [obind]. clear Ec.
  set (pe := (pos + k) mod NR_CREDIT_ENTRIES) in *. set (vl := if cm_head ch1 <=? pe then _ else _).
  assert (Hvl : 0 < vl <= NR_CREDIT_ENTRIES).
  { unfold vl. rewrite HN in *. destruct (Z.leb_spec (cm_head ch1) pe); rewrite u32_id by lia; lia. }
  eexists _, _. split; [done|]. split; [reflexivity|]. split; [split; simpl; try done; try destruct (Z.ltb_spec (cm_valid_len ch1) vl); lia|].
  split; [apply u64_range|]. exists k. rewrite Z.add_0_l. cbn [cm_avail_credits cm_head cm_max_credits].
  do 6 (split; [done|]). rewrite <- Hxl, <- Hmc. do 5 f_equal.
  destruct (Z.ltb_spec (units / cm_max_credits ch1) k); lia.
Qed.

(** A request ends at its start or later, by less than the time of the whole ring and of the longest transfer. *)
Lemma request_late n ch t len t' ch' n' :
  ch_inv ch -> u64_ok t -> chmodel_request n ch t len = Ok (t', ch', n') ->
  t + 8589934592 < 18446744073709551616 -> t <= t' <= t + 8589934592.
Proof.
  intros Hi Ht E Hw. destruct (request_exact n ch t len Hi Ht) as (ch1 & t2 & ch2 & _ & E2 & _ & _ & Hr). cbv zeta in Hr.
  rewrite E in E2. injection E2 as -> -> _. destruct (_ && _); [|destruct Hr as [-> _]; lia].
  destruct Hr as (k & Hk & _ & _ & _ & _ & _ & ->).
  pose proof (NR_mod (cm_head ch1 - (cm_head ch1 + u32 (t / UNIT_TIME_INTERVAL - cpu_clock n / UNIT_TIME_INTERVAL)) mod NR_CREDIT_ENTRIES - 1)) as Hd.
  unfold ring_dist in Hk. pose proof (u32_range (cm_xfer_lat ch * xfer_units len)) as Hx.
  set (x := u32 (cm_xfer_lat ch * xfer_units len)) in *. set (d := Z.max 0 (k - xfer_units len / cm_max_credits ch)).
  assert (Hdd : 0 <= d <= 98303).
  { unfold d. assert (0 <= xfer_units len / cm_max_credits ch); [|lia]. apply Z.div_pos; [apply u32_range|]. destruct Hi; lia. }
  unfold UNIT_TIME_INTERVAL. unfold u64_ok in Ht. rewrite (u64_id (d * 4000)), (u64_id (x + _)), u64_id by lia. lia.
Qed.

(** One request. *)
(** C37: chmodel_request always returns with its ring in order. A request in the past or beyond
    the window takes nothing and completes at its time. Otherwise it takes its units slot by slot
    from its own slot on, from each slot what the ones before lack, up to the last slot before the
    head; with k the number of slots passed until the units are covered (or the ring is
    exhausted), it completes at its time plus transfer latency plus the slots by which k exceeds
    the slots that the units fill. *)
Theorem chmodel_request_accounts n ch t len :
  ch_inv ch -> u64_ok t ->
  let now := cpu_clock n in
  let units := xfer_units len in
  let offset := u32 (t / UNIT_TIME_INTERVAL - now / UNIT_TIME_INTERVAL) in
  exists ch1 t' ch', advance_head ch now = Ok ch1 /\
    chmodel_request n ch t len = Ok (t', ch', S n) /\ ch_inv ch' /\ u64_ok t' /\
    let ring := cm_avail_credits ch1 in
    let pos := (cm_head ch1 + offset) mod NR_CREDIT_ENTRIES in
    let last := ring_dist (cm_head ch1) pos in
    if (now <=? t) && (offset <? NR_CREDIT_ENTRIES) then
      exists k, 0 <= k <= last /\
        (forall j, 0 <= j < k -> ahead ring pos (j + 1) < units) /\ (units <= ahead ring pos (k + 1) \/ k = last) /\
        (forall j, 0 <= j < NR_CREDIT_ENTRIES -> credit (cm_avail_credits ch') (pos + j) =
           credit ring (pos + j) - (if j <=? last then take_at ring pos units j else 0)) /\
        cm_head ch' = cm_head ch1 /\ cm_max_credits ch' = cm_max_credits ch /\
        t' = u64 (t + u64 (u32 (cm_xfer_lat ch * units) +
               u64 (Z.max 0 (k - units / cm_max_credits ch) * UNIT_TIME_INTERVAL)))
    else t' = t /\ ch' = ch1.
Proof. exact (request_exact n ch t len). Qed.

End Channel.

(** ** NAND commands *)
Section Nand.
Context `{ClockRange}.

(** C38: A NAND command on an address in range always completes, keeps the timing invariants of
    the device and of the link, and touches no block. *)
Theorem ssd_advance_nand_completes s h ncmd :
  ssd_ok s -> timing_ok (sp s) -> hw_ok h -> cmd_in_range s ncmd ->
  exists t s' h', ssd_advance_nand s h ncmd = Ok (t, s', h') /\
    ssd_ok s' /\ sp s' = sp s /\ (forall c l p b, blk_at s' c l p b = blk_at s c l p b) /\
    hw_ok h' /\ hw_write_buffer h' = hw_write_buffer h /\ hw_sched h' = hw_sched h /\ u64_ok t.
Proof.
  intros Hs Ht Hh Hc. destruct (ssd_advance_nand_spec s h ncmd Hs Ht Hh Hc)
    as (t & s' & h' & E & Hs' & [He1 He2] & Hh' & [Hf1 Hf2] & Htt). by exists t, s', h'.
Qed.

(** The assignments at the end of a command set the time of one LUN. *)
Lemma finish_ltime s ppa m lt s1 s2 lun :
  lun_at s (ppa_ch ppa) (ppa_lun ppa) = Some lun ->
  with_ch s ppa (fun ch => Ok (set_sc_perf ch m)) = Ok s1 ->
  with_lun s1 ppa (fun lun => Ok (set_nl_time lun lt)) = Ok s2 ->
  forall c l, ltime_at s2 c l = if (c =? ppa_ch ppa) && (l =? ppa_lun ppa) then Some lt else ltime_at s c l.
Proof.
  intros Hlun E1 E2 c l. pose proof Hlun as Hlun'. unfold lun_at in Hlun'. apply bind_Some in Hlun' as (ch & Hch & Hl).
  destruct (with_ch_spec s ppa (fun ch => Ok (set_sc_perf ch m)) ch _ Hch eq_refl) as (s1' & E1' & _ & Hc1).
  assert (s1' = s1) as -> by congruence.
  assert (Hlun1 : forall c l, lun_at s1 c l = lun_at s c l).
  { intros c' l'. unfold lun_at. rewrite Hc1. destruct (Z.eqb_spec c' (ppa_ch ppa)) as [->|]; [by rewrite Hch|done]. }
  destruct (with_lun_spec s1 ppa (fun lun => Ok (set_nl_time lun lt)) lun _ ltac:(rewrite Hlun1; exact Hlun) eq_refl)
    as (s2' & E2' & _ & _ & Hl2).
  assert (s2' = s2) as -> by congruence. unfold ltime_at. rewrite Hl2, Hlun1. by destruct (_ && _).
Qed.

(** The time of a LUN. *)
(** C39: Writes, erases and no-operations on a LUN are serialised: they start at the later of the
    availability of the LUN and the time of the command, and the time returned becomes the next
    available time of that LUN and of no other. A write is transferred by the channel from that
    start on and ends its latency after the transfer, which barring overflow ends at or after the
    start; an erase ends its latency after the start, a no-operation at the start. *)
Theorem ssd_advance_nand_serializes s h ncmd old t s' h' :
  ssd_ok s -> cmd_in_range s ncmd ->
  ltime_at s (ppa_ch (nc_ppa ncmd)) (ppa_lun (nc_ppa ncmd)) = Some old -> nc_ppa ncmd <> UNMAPPED_PPA ->
  nc_cmd ncmd = NAND_WRITE \/ nc_cmd ncmd = NAND_ERASE \/ nc_cmd ncmd = NAND_NOP ->
  ssd_advance_nand s h ncmd = Ok (t, s', h') ->
  let start := Z.max old (if nc_stime ncmd =? 0 then cpu_clock (hw_clk h) else nc_stime ncmd) in
  let clk := if nc_stime ncmd =? 0 then S (hw_clk h) else hw_clk h in
  (forall c l, ltime_at s' c l =
     if (c =? ppa_ch (nc_ppa ncmd)) && (l =? ppa_lun (nc_ppa ncmd)) then Some t else ltime_at s c l) /\
  (nc_cmd ncmd = NAND_WRITE -> exists m te m', perf_at s (ppa_ch (nc_ppa ncmd)) = Some m /\
     chmodel_request clk m start (nc_xfer_size ncmd) = Ok (te, m', S clk) /\ t = u64 (te + pg_wr_lat (sp s)) /\
     (start + 8589934592 < 18446744073709551616 -> start <= te <= start + 8589934592)) /\
  (nc_cmd ncmd = NAND_ERASE -> t = u64 (start + blk_er_lat (sp s))) /\
  (nc_cmd ncmd = NAND_NOP -> t = start).
Proof.
  intros Hok Hcr (lun & Hlun & ->)%fmap_Some Hu Hcmd E start clk. unfold ssd_advance_nand in E.
  set (x := if nc_stime ncmd =? 0 then _ else _) in E.
  assert (Hx : x = (if nc_stime ncmd =? 0 then cpu_clock (hw_clk h) else nc_stime ncmd, set_clk h clk))
    by (unfold x, clk; destruct (nc_stime ncmd =? 0); [done|by destruct h]).
  rewrite Hx in E. clear Hx x.
  rewrite (proj2 (Z.eqb_neq _ _) Hu), (get_lun_at _ _ lun Hlun) in E. cbn [obind] in E.
  fold start in E. destruct (so_perf _ Hok _ (cr_ch _ _ Hcr)) as (m0 & Hm0 & Hinv).
  pose proof Hm0 as (ch & Hch & Hm)%fmap_Some. rewrite (get_ch_at _ _ _ Hch) in E. cbn [obind] in E.
  assert (Hstart : u64_ok start).
  { destruct (so_time _ Hok _ _ (cr_ch _ _ Hcr) (cr_lun _ _ Hcr)) as (lt & Hlt & Hr). unfold ltime_at in Hlt. rewrite Hlun in Hlt.
    injection Hlt as <-. pose proof (cr_stime _ _ Hcr). pose proof (clock_range (hw_clk h)).
    unfold start, u64_ok in *. destruct (nc_stime ncmd =? 0); lia. }
  destruct (get_cell s _) as [cell| | |]; [|done..]. cbn [obind] in E.
  assert (Hfin : forall m lt t' hh, (let* s1 := with_ch s (nc_ppa ncmd) (fun ch => Ok (set_sc_perf ch m)) in
      let* s2 := with_lun s1 (nc_ppa ncmd) (fun lun => Ok (set_nl_time lun lt)) in Ok (t', s2, hh)) = Ok (t, s', h') ->
    t = t' /\ forall c l, ltime_at s' c l =
      if (c =? ppa_ch (nc_ppa ncmd)) && (l =? ppa_lun (nc_ppa ncmd)) then Some lt else ltime_at s c l).
  { clear E. intros m lt t' hh. destruct (with_ch s _ _) as [s1| | |] eqn:E1; [|intros [=]..]. cbn [obind].
    destruct (with_lun s1 _ _) as [s2| | |] eqn:E2; [|intros [=]..]. cbn [obind]. intros [= -> -> _]. split; [done|].
    by apply (finish_ltime s (nc_ppa ncmd) m lt s1 s' lun). }
  destruct Hcmd as [Hc|[Hc|Hc]]; rewrite Hc in *; cbn [Z.eqb NAND_READ NAND_WRITE NAND_ERASE NAND_NOP Pos.eqb] in E.
  - destruct (chmodel_request_spec clk m0 start (nc_xfer_size ncmd) Hinv Hstart) as (te & m' & Ete & _).
    rewrite <- Hm in E. change (hw_clk (set_clk h clk)) with clk in E. rewrite Ete in E. cbn [obind] in E.
    apply Hfin in E as [-> Hl]. split; [done|]. split; [|done]. intros _. exists m0, te, m'.
    split; [done|]. split; [done|]. split; [done|]. by apply (request_late clk m0 start (nc_xfer_size ncmd) te m' (S clk)).
  - apply Hfin in E as [-> Hl]. done.
  - apply Hfin in E as [-> Hl]. done.
Qed.

End Nand.

(** ** Page addresses *)
#[local] Transparent ppa_blk_in_ssd ppa_pg ppa_blk ppa_pl ppa_lun ppa_ch.

(** The second view of the union packs the other fields. *)
Lemma blk_in_ssd_fields p :
  ppa_blk_in_ssd p = ppa_blk p + 65536 * (ppa_pl p + 256 * (ppa_lun p + 256 * ppa_ch p)).
Proof.
  unfold ppa_blk_in_ssd, ppa_blk, ppa_pl, ppa_lun, ppa_ch, BLK_BITS, PL_BITS, LUN_BITS, CH_BITS.
  rewrite !getf_div by lia. change (2 ^ (16 + 8 + 8 + 8)) with (65536 * (256 * (256 * 256))).
  change (2 ^ 16) with 65536. change (2 ^ 8) with 256.
  change (2 ^ 32) with (65536 * 65536). change (2 ^ 40) with (65536 * 65536 * 256).
  change (2 ^ 48) with (65536 * 65536 * 256 * 256).
  rewrite <- !Z.div_div by lia. set (x := p / 65536).
  rewrite Z.rem_mul_r by lia. rewrite Z.rem_mul_r by lia. by rewrite Z.rem_mul_r by lia.
Qed.

Definition make_ppa (ch lun pl blk pg : Z) : Z := set_pl (set_blk (set_pg (set_lun (set_ch 0 ch) lun) pg) blk) pl.

#[global] Opaque ppa_pg ppa_blk ppa_pl ppa_lun ppa_ch ppa_blk_in_ssd.

Theorem ppa_roundtrip ch lun pl blk pg :
  0 <= ch < 256 -> 0 <= lun < 256 -> 0 <= pl < 256 -> 0 <= blk < 65536 -> 0 <= pg < 65536 ->
  let p := make_ppa ch lun pl blk pg in
  (ppa_ch p, ppa_lun p, ppa_pl p, ppa_blk p, ppa_pg p) = (ch, lun, pl, blk, pg) /\
  ppa_blk_in_ssd p = blk + 65536 * (pl + 256 * (lun + 256 * ch)) /\ p <> UNMAPPED_PPA.
Proof.
  intros Hc Hl Hp Hb Hg p.
  assert (E : (ppa_ch p, ppa_lun p, ppa_pl p, ppa_blk p, ppa_pg p) = (ch, lun, pl, blk, pg)).
  { unfold p, make_ppa. autorewrite with ppa. by rewrite !u8_id, !u16_id by done. }
  split; [done|]. rewrite blk_in_ssd_fields. injection E as -> -> -> -> _. split; [done|].
  apply ppa_rsv_mapped. unfold p, make_ppa. autorewrite with ppa. done.
Qed.

(** ** The write buffer *)

(** The operations of the FTL and of the I/O workers on one buffer; a worker
    releases what an earlier write has allocated. *)
Inductive buf_step : buffer * list Z -> buffer * list Z -> Prop :=
  | buf_alloc b out size got b' :
      0 <= size < 4294967296 -> buffer_allocate b size = (got, b') ->
      buf_step (b, out) (b', if got =? 0 then out else got :: out)
  | buf_free b out1 size out2 b' :
      buffer_release b size = (true, b') -> buf_step (b, out1 ++ size :: out2) (b', out1 ++ out2).

Definition buf_inv (st : buffer * list Z) : Prop :=
  let '(b, out) := st in
  0 <= buf_remaining b /\ Forall (fun x => 0 <= x) out /\ buf_remaining b + sumZ out = buf_size b /\
  buf_size b < 18446744073709551616.

Lemma sumZ_nonneg l : Forall (fun x => 0 <= x) l -> 0 <= sumZ l.
Proof. induction 1; simpl; lia. Qed.

Lemma buf_step_inv st st' : buf_step st st' -> buf_inv st -> buf_inv st' /\ buf_size st'.1 = buf_size st.1.
Proof.
  intros [b out size got b' Hs E|b out1 size out2 b' E] (Hr & Hf & Hsum & Hmax).
  - unfold buffer_allocate in E. destruct (Z.ltb_spec (buf_remaining b) size) as [Hlt|Hge]; injection E as <- <-.
    + simpl. pose proof (sumZ_nonneg _ Hf). by rewrite Z.sub_0_r, u64_id by lia.
    + pose proof (sumZ_nonneg _ Hf). rewrite (u32_id size) by lia. simpl.
      rewrite u64_id by lia. destruct (Z.eqb_spec size 0) as [->|]; [by rewrite Z.sub_0_r|].
      split; [|done]. split; [lia|]. split; [constructor; [lia|done]|]. simpl. lia.
  - unfold buffer_release in E. injection E as <-. rewrite sumZ_app in Hsum. simpl in Hsum.
    apply Forall_app in Hf as [Hf1 Hf2]. inversion_clear Hf2 as [|? ? Hx Hf3].
    pose proof (sumZ_nonneg _ Hf1). pose proof (sumZ_nonneg _ Hf3).
    simpl. rewrite u64_id by lia. split; [|done]. split; [lia|]. split; [by apply Forall_app|].
    rewrite sumZ_app. lia.
Qed.

(** C40: Along any interleaving of allocations and releases of what was allocated, the remaining
    bytes of a write buffer and the bytes outstanding add up to its size, so it never gives out
    more than it has. *)
Theorem write_buffer_accounting size st :
  0 <= size < 18446744073709551616 -> rtc buf_step (buffer_init size, []) st ->
  let '(b, out) := st in
  buf_size b = size /\ 0 <= buf_remaining b <= size /\ buf_remaining b + sumZ out = size.
Proof.
  intros Hs Hr. assert (Hi : buf_inv st /\ buf_size st.1 = size).
  { remember (buffer_init size, []) as st0 eqn:E0.
    assert (H0 : buf_inv st0 /\ buf_size st0.1 = size) by (subst; simpl; split; [split; [lia|split; [constructor|simpl; lia]]|done]).
    clear E0. induction Hr as [|st0 st1 st2 Hst _ IH]; [done|]. apply IH.
    destruct H0 as [H1 H2]. destruct (buf_step_inv _ _ Hst H1) as [H3 H4]. split; [done|congruence]. }
  destruct st as [b out]. destruct Hi as [(Hr0 & Hf & Hsum & _) Hsz]. simpl in Hsz.
  pose proof (sumZ_nonneg _ Hf). split; [done|]. split; lia.
Qed.

(** ** Witnesses *)
Lemma demo_channel : exists ch, chmodel_init 800 = Ok ch /\ ch_inv ch.
Proof. by apply chmodel_init_inv. Qed.

Lemma chmodel_request_accounts_witness : exists ch t' ch',
  chmodel_request 0 ch 5000 4096 = Ok (t', ch', 1%nat) /\ ch_inv ch'.
Proof.
  destruct demo_channel as (ch & _ & Hi). exists ch.
  destruct (chmodel_request_accounts 0 ch 5000 4096 Hi) as (ch1 & t' & ch' & _ & E & Hi' & _); [done|].
  exists t', ch'. split; [exact E|exact Hi'].
Defined.

(** An erase command on the small device. *)
Definition demo_erase : nand_cmd := mk_nand_cmd GC_IO NAND_ERASE 0 0 false 0.

Lemma demo_device : exists s h, fresh (tiny 16) s /\ hw_ok h /\ cmd_in_range s demo_erase /\
  ltime_at s 0 0 = Some 0.
Proof.
  destruct (ssd_init_spec (tiny 16) (tiny_dev 16 ltac:(lia)) 0) as (s & pcie & _ & Hs & Hp).
  pose proof (fresh_nand (tiny 16) (tiny_dev 16 ltac:(lia)) s Hs) as [Hsp _ _].
  exists s, (mk_hw pcie (buffer_init 65536) 0 []). split; [done|]. split; [done|]. split.
  - split; rewrite ?Hsp; [done|done|by right; right; left|done].
  - destruct (fs_ch _ _ Hs 0) as (ch & Hch & Hl & _); [done|]. unfold ltime_at, lun_at. rewrite Hch. simpl.
    by rewrite Hl.
Qed.

Lemma ssd_advance_nand_completes_witness : exists s h t s' h',
  ssd_advance_nand s h demo_erase = Ok (t, s', h') /\ ssd_ok s'.
Proof.
  destruct demo_device as (s & h & Hs & Hh & Hc & _). exists s, h.
  pose proof (fresh_nand (tiny 16) (tiny_dev 16 ltac:(lia)) s Hs) as [Hsp Hok _].
  destruct (ssd_advance_nand_completes s h demo_erase Hok) as (t & s' & h' & E & Hs' & _);
    [rewrite Hsp; apply (dk_timing _ (tiny_dev 16 ltac:(lia)))|done|done|].
  exists t, s', h'. split; [exact E|exact Hs'].
Defined.

(** A page written to the same LUN. *)
Definition demo_program : nand_cmd := mk_nand_cmd USER_IO NAND_WRITE 4096 0 false 0.

Lemma ssd_advance_nand_serializes_witness : exists s h t s' h' te,
  ssd_advance_nand s h demo_program = Ok (t, s', h') /\ ltime_at s' 0 0 = Some t /\ t = u64 (te + 185000) /\ 0 <= te.
Proof.
  destruct demo_device as (s & h & Hs & Hh & [Hc Hl _ Hst] & Ht). exists s, h.
  pose proof (fresh_nand (tiny 16) (tiny_dev 16 ltac:(lia)) s Hs) as [Hsp Hok _].
  assert (Hcr : cmd_in_range s demo_program) by (split; [exact Hc|exact Hl|by right; left|exact Hst]).
  destruct (ssd_advance_nand_spec s h demo_program Hok) as (t & s' & h' & E & _);
    [rewrite Hsp; apply (dk_timing _ (tiny_dev 16 ltac:(lia)))|done|done|].
  destruct (ssd_advance_nand_serializes s h demo_program 0 t s' h' Hok Hcr Ht ltac:(done) ltac:(by left) E) as (Hlt & Hw & _).
  destruct (Hw eq_refl) as (m & te & m' & Hm & Ete & Et & _). exists t, s', h', te.
  split; [exact E|]. split; [exact (Hlt 0 0)|]. split; [by rewrite Et, Hsp|].
  destruct (so_perf _ Hok 0 Hc) as (m2 & Hm2 & Hi). assert (Em : m2 = m) by (apply (inj Some); by rewrite <- Hm2, <- Hm). subst m2.
  simpl in Ete. destruct (chmodel_request_spec (S (hw_clk h)) m (Z.max 0 (cpu_clock (hw_clk h))) 4096 Hi) as (x2 & y2 & Ex2 & _ & Hx2);
    [pose proof (clock_range (hw_clk h)); lia|]. rewrite Ete in Ex2. injection Ex2 as -> _. lia.
Defined.

Lemma ppa_roundtrip_witness : ppa_blk (make_ppa 3 2 0 700 41) = 700.
Proof.
  destruct (ppa_roundtrip 3 2 0 700 41 ltac:(lia) ltac:(lia) ltac:(lia) ltac:(lia) ltac:(lia)) as [E _].
  exact (f_equal (fun x => x.1.2) E).
Defined.

Lemma write_buffer_accounting_witness : exists b, rtc buf_step (buffer_init 8192, []) (b, [4096]) /\
  buf_remaining b + sumZ [4096] = 8192.
Proof.
  exists (mk_buffer 8192 4096).
  assert (Hr : rtc buf_step (buffer_init 8192, []) (mk_buffer 8192 4096, [4096])).
  { apply rtc_once. by apply (buf_alloc _ [] 4096 4096). }
  split; [done|]. by destruct (write_buffer_accounting 8192 (mk_buffer 8192 4096, [4096]) ltac:(lia) Hr) as (_ & _ & E).
Defined.
