(* ===== verification/ConvTheorems.v ===== *)
(** * ConvTheorems: what conv_ftl.c promises

    The properties of the page-mapping FTL, stated on its own definitions, with
    the commands of the host as an abstract machine on the set of logical pages
    that hold data.  The witnesses run on a fresh device of sixteen lines of
    four pages. *)
From stdpp Require Import base list numbers gmap.
From Stdlib Require Import ZArith Lia.
From S2P Require Import Prelude Pqueue ChannelModel SsdConfig Ssd SsdFacts ConvGeom ConvNand.
From S2P Require Import Nvme Lines PqueueSpec ConvFtl ConvLines ConvInv ConvWrite ConvGc.
From S2P Require Import ConvErase ConvCount ConvCollect ConvCmd SsdInit ConvInit ConvParams Demo.

Open Scope Z_scope.
Open Scope nvmev_scope.

(** ** The abstract machine *)

(** The logical pages that hold data. *)
Definition lpn_set : Type := gset Z.

Definition abs_step (spp : ssdparams) (req : nvmev_request) (ok : bool) (M : lpn_set) : lpn_set :=
  if ok && (opcode (req_cmd req) =? nvme_cmd_write) then
    let '(first, last) := cmd_lpns spp (req_cmd req) in
    M ∪ list_to_set (seqZ first (last - first + 1))
  else M.

(** A namespace implements a set of logical pages. *)
Record represents (spp : ssdparams) (cpp : convparams) (L : Z) (ns : nvmev_ns) (M : lpn_set) : Prop := {
  rp_steady : steady spp cpp L ns;
  rp_pages : forall lpn, 0 <= lpn -> lpn ∈ M <-> is_mapped ns lpn;
}.

Section Theorems.
Variable spp : ssdparams.
Variable cpp : convparams.
Variable L : Z.
Context `{ClockRange}.

Notation ppl := (pgs_per_line spp).
Notation T := (gc_thres_lines_high cpp).

(** C2: Any sequence of host commands within the logical capacity runs on the page-mapping FTL
    without a failed assertion, an access out of range or an endless collection loop; the
    invariant holds at the end, mapped pages stay mapped and only written pages become mapped. *)
Theorem conv_run_safe fuel reqs ns h :
  op_ok spp cpp L -> steady spp cpp L ns -> hw_ok h -> (T + 1) * ppl <= Z.of_nat fuel ->
  (forall req ppa0, (req, ppa0) ∈ reqs -> host_cmd spp cpp L (req_cmd req)) ->
  exists ns' h', conv_run fuel ns h reqs = Ok (ns', h') /\ steady spp cpp L ns' /\ hw_ok h' /\
    (forall lpn, 0 <= lpn -> is_mapped ns lpn -> is_mapped ns' lpn) /\
    (forall lpn, 0 <= lpn -> is_mapped ns' lpn -> is_mapped ns lpn \/
       exists req ppa0, (req, ppa0) ∈ reqs /\ writes_page spp (req_cmd req) lpn).
Proof. intros. by apply run_spec. Qed.

(** C1: conv_proc_nvme_io_cmd, collection loop included, refines the abstract machine on the set
    of logical pages that hold data: on a one-partition namespace that satisfies the invariant it
    always returns, and a successful write adds exactly its pages while every other command and
    every collection leaves the set alone. *)
Theorem conv_proc_refines fuel ppa0 ns h req ret M :
  op_ok spp cpp L -> represents spp cpp L ns M -> hw_ok h -> host_cmd spp cpp L (req_cmd req) ->
  (T + 1) * ppl <= Z.of_nat fuel ->
  exists ok ns' h' ret', conv_proc_nvme_io_cmd fuel ppa0 ns h req ret = Ok (ok, ns', h', ret') /\
    represents spp cpp L ns' (abs_step spp req ok M) /\ hw_ok h'.
Proof.
  intros Hop [Hs HM] Hh Hc Hf.
  destruct (steady_proc spp cpp L fuel ppa0 ns h req ret Hop Hs Hh Hc Hf)
    as (ok & ns' & h' & ret' & E & Hs' & Hh' & Hm).
  exists ok, ns', h', ret'. split; [done|]. split; [|done]. split; [done|]. intros lpn Hl.
  rewrite Hm, <- HM by done. unfold abs_step, writes_page.
  destruct (cmd_lpns spp (req_cmd req)) as [first last].
  destruct ok, (Z.eqb_spec (opcode (req_cmd req)) nvme_cmd_write) as [Eo|Eo]; simpl;
    rewrite ?elem_of_union, ?elem_of_list_to_set, ?elem_of_seqZ;
    (split; [intros [?|?]|intros [?|(? & ? & ?)]]) || (split; [intros ?|intros [?|(? & ? & ?)]]);
    first [by left|done|right; repeat split; done || lia|idtac].
Qed.

(** C3: With any number of partitions, within the logical capacity (op_ok, in_bounds) and with
    room for the pages of the command plus one line in every instance, a command returns and
    re-establishes the invariant: only instance 0 is collected, every other instance is left as
    the command itself left it; the set of mapped pages grows by exactly the pages of an accepted
    write, the room of the instances shrinks by at most their number, and a refused command
    changes nothing. *)
Theorem conv_proc_any_partitions fuel ppa0 ns h req ret n :
  op_ok spp cpp L -> ns_ok spp cpp L ns -> hw_ok h -> cmd_ok (req_cmd req) -> ns_room spp ns n ->
  cmd_cost spp (req_cmd req) + ppl + 1 <= n -> in_bounds spp L (ns_nr_parts ns) (req_cmd req) ->
  (T + 1) * ppl <= Z.of_nat fuel ->
  exists ok ns1 h1 ns' h' ret',
    conv_dispatch ns h req ret = Ok (ok, ns1, h1, ret') /\
    conv_proc_nvme_io_cmd fuel ppa0 ns h req ret = Ok (ok, ns', h', ret') /\
    ns_ok spp cpp L ns' /\ hw_ok h' /\ ns_nr_parts ns' = ns_nr_parts ns /\
    (forall i, i <> 0 -> nthO (ns_ftls ns') i = nthO (ns_ftls ns1) i) /\
    ns_room spp ns' (n - cmd_cost spp (req_cmd req)) /\
    (forall lpn, 0 <= lpn ->
       is_mapped ns' lpn <-> is_mapped ns lpn \/ (ok = true /\ writes_page spp (req_cmd req) lpn)) /\
    (if ok then exists f, nthO (ns_ftls ns') 0 = Some f /\ T < nfree f else ns' = ns /\ ret' = ret).
Proof.
  intros Hop Hns Hh Hc Hr Hn Hb Hf.
  destruct (proc_spec spp cpp L fuel ppa0 ns h req ret n Hop Hns Hh Hc Hr Hn Hb Hf)
    as (ok & ns' & h' & ret' & E & H1 & H2 & H3 & H4 & H5 & H6).
  destruct (proc_others fuel ppa0 ns h req ret ok ns' h' ret' E) as (ns1 & h1 & Ed & Ho).
  by exists ok, ns1, h1, ns', h', ret'.
Qed.

(** C13: A successful conv_write maps exactly the logical pages of the command and leaves the
    entries of all others as they were; a write that is refused changes neither the namespace nor
    the result. *)
Theorem conv_write_maps ns h req ret n ok ns' h' ret' :
  ns_ok spp cpp L ns -> hw_ok h -> cmd_ok (req_cmd req) -> ns_room spp ns n ->
  cmd_pages spp (req_cmd req) + 1 <= n -> (cmd_lpns spp (req_cmd req)).2 / ns_nr_parts ns < L ->
  conv_write ns h req ret = Ok (ok, ns', h', ret') ->
  if (ok : bool) then
    ret_status ret' = NVME_SC_SUCCESS /\
    forall lpn, 0 <= lpn ->
      let '(first, last) := cmd_lpns spp (req_cmd req) in
      if (first <=? lpn) && (lpn <=? last) then is_mapped ns' lpn else entry ns' lpn = entry ns lpn
  else ns' = ns /\ ret' = ret.
Proof.
  intros Hns Hh Hc Hr Hn HL E. pose proof (conv_write_spec spp cpp L ns h req ret n Hns Hh Hc Hr) as Hw.
  destruct (cmd_lpns spp (req_cmd req)) as [first last]. simpl in HL.
  destruct (Hw Hn HL) as (ok1 & ns1 & h1 & ret1 & E1 & _ & _ & Hok). rewrite E1 in E. injection E as <- <- <- <-.
  destruct ok1; [|done]. destruct Hok as (Hs & _ & [_ Hm Ho]). split; [done|]. intros lpn Hl.
  destruct (Z.leb_spec first lpn), (Z.leb_spec lpn last); cbn [andb]; [apply Hm; lia|apply Ho; lia..].
Qed.

Theorem conv_read_keeps_mapping ns h req ret :
  ns_ok spp cpp L ns -> hw_ok h -> cmd_ok (req_cmd req) ->
  exists ok ns' h' ret', conv_read ns h req ret = Ok (ok, ns', h', ret') /\
    ns_ok spp cpp L ns' /\ hw_ok h' /\ (forall lpn, entry ns' lpn = entry ns lpn) /\
    (if (ok : bool) then ret_status ret' = NVME_SC_SUCCESS else ns' = ns /\ ret' = ret).
Proof.
  intros Hns Hh Hc. destruct (conv_read_spec spp cpp L ns h req ret Hns Hh Hc)
    as (ok & ns' & h' & ret' & E & H1 & H2 & [_ H3 _] & H4). by exists ok, ns', h', ret'.
Qed.

(** ** The tables *)
(** Between commands: the entries name valid pages, the reverse map leads back. *)
Lemma idle_mapping_sound f lpn p :
  idle spp L f -> nthO (maptbl f) lpn = Some p -> p <> UNMAPPED_PPA ->
  valid_ppa f p = true /\ (exists pg, get_pg (cf_ssd f) p = Ok pg /\ pg_status pg = PG_VALID) /\
  get_rmap_ent f p = Ok lpn /\
  (forall lpn', nthO (maptbl f) lpn' = Some p -> lpn' = lpn).
Proof.
  intros (g & Hi & Hho & _) Hp Hu. pose proof Hi as [G _ N _ _ _ _ _ M].
  destruct (mo_fwd _ _ _ _ _ _ M lpn p Hp Hu) as (HL & Hok & Hval & _ & Hr); [congruence|].
  assert (Hsp : cf_sp f = spp) by (by destruct N). pose proof Hok as [(Hc & Hl & Hpg) Hb Hpl].
  split; [|split; [|split]].
  - unfold valid_ppa. rewrite Hsp, Hpl, (g_pls _ G). unfold ConvNand.in_line in Hb.
    repeat match goal with |- context [?a <? ?b] => destruct (Z.ltb_spec a b); [lia|] end.
    repeat match goal with |- context [?a <=? ?b] => destruct (Z.leb_spec a b); [lia|] end. done.
  - destruct (nand_ok_blk spp _ p N Hok) as (_ & pg & _ & _ & _ & _ & Hg & _ & Hst).
    exists pg. split; [done|]. unfold valid_at in Hval. congruence.
  - unfold get_rmap_ent. rewrite (ppa2pgidx_spec spp G f p Hsp Hok). cbn [obind]. by apply nthO_nthZ.
  - intros lpn' Hp'. destruct (mo_fwd _ _ _ _ _ _ M lpn' p Hp' Hu) as (_ & _ & _ & _ & Hr'); [congruence|].
    congruence.
Qed.

Lemma steady_idle ns : steady spp cpp L ns -> exists f, nthO (ns_ftls ns) 0 = Some f /\ idle spp L f.
Proof. intros [Hns _ _]. destruct (ns_first spp cpp L ns Hns) as (f & _ & Hf & [Hid _]). by exists f. Qed.

(** From the initialisation of a one-partition namespace through any commands of the host. *)
Section Life.
Variable cfg : ssd_config.
Variables size cpu : Z.
Hypothesis Hcfg : SSD_PARTITIONS cfg = 1.
Hypothesis Hspp : ssd_init_params cfg size 1 = Ok spp.
Hypothesis Hdev : dev_ok spp.
Hypothesis Hcpp : conv_init_params cfg = cpp.
Hypothesis Hpba : 0 < pba_pcent cpp.
Hypothesis Hop : op_ok spp cpp L.

Lemma init_steady ns pcie wbuf :
  conv_init_namespace cfg size cpu = Ok (ns, pcie, wbuf) ->
  steady spp cpp L ns /\ forall lpn, ~ is_mapped ns lpn.
Proof.
  intros E. pose proof (ppl_bound spp (dk_geom _ Hdev)) as Hp. destruct Hop as [HT HL].
  assert (Hl : T + 3 <= tt_lines spp) by nia.
  destruct (conv_init_namespace_spec spp Hdev cfg size cpu L) as (ns0 & pcie0 & E0 & _ & Hns & Hpar & Hr & _ & Hm);
    [by rewrite Hcfg|by rewrite Hcfg|lia|by rewrite Hcpp|].
  rewrite E in E0. injection E0 as -> _ _. rewrite Hcpp in Hns. split; [|done]. split; [done|congruence|].
  intros i f Hi. specialize (Hr i f Hi). nia.
Qed.

Lemma life_run fuel reqs ns pcie wbuf h :
  conv_init_namespace cfg size cpu = Ok (ns, pcie, wbuf) -> hw_ok h -> (T + 1) * ppl <= Z.of_nat fuel ->
  (forall req ppa0, (req, ppa0) ∈ reqs -> host_cmd spp cpp L (req_cmd req)) ->
  exists ns' h' f, conv_run fuel ns h reqs = Ok (ns', h') /\ nthO (ns_ftls ns') 0 = Some f /\ idle spp L f /\
    forall lpn, 0 <= lpn -> is_mapped ns' lpn ->
      exists req ppa0, (req, ppa0) ∈ reqs /\ writes_page spp (req_cmd req) lpn.
Proof.
  intros E Hh Hf Hr. destruct (init_steady ns pcie wbuf E) as [Hs Hm].
  destruct (run_spec spp cpp L fuel reqs ns h Hop Hs Hh Hf Hr) as (ns' & h' & Er & Hs' & _ & _ & Hw).
  destruct (steady_idle ns' Hs') as (f & Hf0 & Hid). exists ns', h', f. repeat (split; [done|]).
  intros lpn Hl Hmp. destruct (Hw lpn Hl Hmp) as [Hu|?]; [by destruct (Hm lpn)|done].
Qed.

(** C11: From the initialisation of a one-partition namespace through any sequence of host
    commands within the logical capacity: every mapping entry names an in-range page that is valid
    in the flash array, the reverse map leads back to the logical page, and no two logical pages
    share a physical one. *)
Theorem conv_run_mapping_sound fuel reqs ns pcie wbuf h :
  conv_init_namespace cfg size cpu = Ok (ns, pcie, wbuf) -> hw_ok h -> (T + 1) * ppl <= Z.of_nat fuel ->
  (forall req ppa0, (req, ppa0) ∈ reqs -> host_cmd spp cpp L (req_cmd req)) ->
  exists ns' h' f, conv_run fuel ns h reqs = Ok (ns', h') /\ nthO (ns_ftls ns') 0 = Some f /\
    forall lpn p, nthO (maptbl f) lpn = Some p -> p <> UNMAPPED_PPA ->
      valid_ppa f p = true /\ (exists pg, get_pg (cf_ssd f) p = Ok pg /\ pg_status pg = PG_VALID) /\
      get_rmap_ent f p = Ok lpn /\
      (forall lpn', nthO (maptbl f) lpn' = Some p -> lpn' = lpn).
Proof.
  intros E Hh Hf Hr. destruct (life_run fuel reqs ns pcie wbuf h E Hh Hf Hr) as (ns' & h' & f & Er & Hf0 & Hid & _).
  exists ns', h', f. split; [done|]. split; [done|]. intros lpn p. by apply idle_mapping_sound.
Qed.

(** C12: From the initialisation of a one-partition namespace through any sequence of host
    commands within the logical capacity: the valid-page counters of any set of lines add up to
    the number of logical pages mapped into these lines, and only pages that some command wrote
    are mapped. *)
Theorem conv_run_valid_pages fuel reqs ns pcie wbuf h :
  conv_init_namespace cfg size cpu = Ok (ns, pcie, wbuf) -> hw_ok h -> (T + 1) * ppl <= Z.of_nat fuel ->
  (forall req ppa0, (req, ppa0) ∈ reqs -> host_cmd spp cpp L (req_cmd req)) ->
  exists ns' h' f, conv_run fuel ns h reqs = Ok (ns', h') /\ nthO (ns_ftls ns') 0 = Some f /\
    (forall B, NoDup B -> (forall b, b ∈ B -> in_line spp b) ->
       sumZ (map (sum_vpc spp (cf_ssd f)) B) =
       Z.of_nat (length (filter (fun lpn => mapped_in (maptbl f) B lpn = true) (seqZ 0 (tt_pgs spp))))) /\
    (forall lpn, 0 <= lpn -> is_mapped ns' lpn ->
       exists req ppa0, (req, ppa0) ∈ reqs /\ writes_page spp (req_cmd req) lpn).
Proof.
  intros E Hh Hf Hr. destruct (life_run fuel reqs ns pcie wbuf h E Hh Hf Hr) as (ns' & h' & f & Er & Hf0 & Hid & Hw).
  exists ns', h', f. split; [done|]. split; [done|]. split; [|done]. intros B HN HB.
  destruct Hid as (g & Hi & Hho & _ & Hvi). by apply (count_mapped spp L g).
Qed.

End Life.

(** ** Collection *)
(** C10: A collection with a victim line and a free line succeeds: every valid page of the victim
    is moved, every logical page stays mapped, the host write pointer is untouched and the room of
    the collector grows by at least one page. *)
Theorem do_gc_cleans_line ppa0 f h :
  idle spp L f -> hw_ok h -> 1 <= nfree f -> has_victim f ->
  exists f' h', do_gc ppa0 f h true = Ok (0, f', h') /\ idle spp L f' /\ hw_ok h' /\
    (forall lpn, mapped f' lpn <-> mapped f lpn) /\ cf_wp f' = cf_wp f /\
    room spp GC_IO f + 1 <= room spp GC_IO f' /\ 1 <= nfree f'.
Proof.
  intros Hid Hh Hn Hv. assert (G : geom_ok spp) by (by destruct (idle_geom spp L f Hid)).
  destruct (do_gc_step spp L G ppa0 f h Hid Hh Hn Hv) as (f' & h' & E & H1 & H2 & [K1 K2 K3] & H4 & H5).
  by exists f', h'.
Qed.

(** C9: The collection loop of conv_proc_nvme_io_cmd ends: with over-provisioning, (threshold +
    1) lines of fuel suffice for more than the threshold of free lines, and the set of mapped
    logical pages is unchanged. *)
Theorem gc_loop_terminates fuel ppa0 f h :
  op_ok spp cpp L -> idle spp L f -> cf_cp f = cpp -> hw_ok h -> 1 <= nfree f ->
  (T + 1) * ppl <= Z.of_nat fuel ->
  exists f' h', gc_loop fuel ppa0 f h = Ok (f', h') /\ idle spp L f' /\ hw_ok h' /\ T < nfree f' /\
    (forall lpn, mapped f' lpn <-> mapped f lpn).
Proof.
  intros [HT HL] Hid Hcp Hh Hn Hf. destruct (idle_geom spp L f Hid) as (G & _).
  pose proof (nfree_room spp L f GC_IO 0 Hid ltac:(by right) ltac:(lia)). pose proof (ppl_bound spp G).
  destruct (gc_loop_ends spp L G T fuel ppa0 f h Hid Hh) as (f' & h' & E & A1 & A2 & [K1 K2 K3] & A3 & _);
    [by rewrite Hcp|done|done|done|lia|]. by exists f', h'.
Qed.

(** No victim. *)
(** C14: When there are too few free lines (should_gc_high) but no victim line, do_gc returns -1
    and changes nothing, so that the collection loop never ends, whatever the fuel. *)
Theorem gc_loop_without_victim fuel ppa0 f h :
  idle spp L f -> ~ has_victim f -> should_gc_high f = true ->
  do_gc ppa0 f h true = Ok (-1, f, h) /\ gc_loop fuel ppa0 f h = NoFuel.
Proof.
  intros Hid Hv Hs. pose proof (do_gc_no_victim spp L ppa0 f h true Hid Hv) as E. split; [exact E|].
  induction fuel as [|fuel IH]; simpl; rewrite Hs; [done|]. rewrite E. exact IH.
Qed.

(** With over-provisioning and few free lines there is a victim. *)
Theorem victim_available f :
  op_ok spp cpp L -> idle spp L f -> cf_cp f = cpp -> should_gc_high f = true -> has_victim f.
Proof.
  intros [HT HL] Hid Hcp Hs. destruct (idle_geom spp L f Hid) as (G & _).
  rewrite (should_gc_high_nfree spp L) in Hs by done. rewrite Hcp in Hs. apply Z.leb_le in Hs.
  by apply (victim_exists spp L G T).
Qed.

(** The victim has the fewest valid pages; without force a line with more than an eighth of its pages valid is declined. *)
(** C15: select_victim_line on a non-empty victim queue picks a line of it with the fewest valid
    pages and removes exactly that line from the queue; without force it declines, and changes
    nothing, when even that line has more than an eighth of its pages valid, and it declines on an
    empty queue. *)
Theorem select_victim_line_best f force q :
  idle spp L f -> victim_line_pq (cf_lm f) = Some q ->
  (pq_size q = 1 /\ select_victim_line f force = Ok (None, f)) \/
  (exists v l, inq q v /\ nthO (lm_lines (cf_lm f)) v = Some l /\
     (forall b lb, inq q b -> nthO (lm_lines (cf_lm f)) b = Some lb -> ln_vpc l <= ln_vpc lb) /\
     if negb force && (pgs_per_line spp / 8 <? u64 (ln_vpc l)) then
       select_victim_line f force = Ok (None, f)
     else exists f' q', select_victim_line f force = Ok (Some v, f') /\
       victim_line_pq (cf_lm f') = Some q' /\ (forall b, inq q' b <-> inq q b /\ b <> v)).
Proof.
  intros (g & Hi & _) Hq. pose proof Hi as [G _ N _ Lm _ _ _ _].
  destruct (lk_pq _ _ _ _ _ Lm) as (q0 & Hq0 & Hqi & _ & Hin & _). assert (q0 = q) as -> by congruence.
  unfold select_victim_line. rewrite Hq.
  destruct (peek_spec victim_line_cmp_pri (lm_lines (cf_lm f)) q Hqi)
    as [[E ->]|(v & -> & Hsz & Hv1 & Hv & Hbest)]; [by left|]. right. cbn [obind].
  destruct (lm_select_victim spp G _ _ _ (cf_lm f) q v Lm Hq Hsz Hv1)
    as (Hvl & Hrv & ls1 & ls' & q' & Hpop & Halt & Lm').
  destruct (lk_line _ _ _ _ _ Lm v Hvl) as (l & Hl & Hok). pose proof Hl as Hl'. apply nthO_nthZ in Hl'.
  exists v, l. split; [done|]. split; [done|]. split.
  - intros b lb Hb Hlb. specialize (Hbest b Hb). apply nthO_nthZ in Hlb.
    unfold ple, pri in Hbest. simpl in Hbest. unfold victim_line_get_pri in Hbest. rewrite Hl', Hlb in Hbest.
    cbn [obind] in Hbest. unfold victim_line_cmp_pri in Hbest.
    destruct (lk_line _ _ _ _ _ Lm b (proj1 (proj1 (Hin b) Hb))) as (lb' & Hlb' & Hokb).
    apply nthO_nthZ in Hlb'. assert (lb' = lb) as -> by congruence.
    pose proof (proj2 (proj1 (Hin b) Hb)) as Hrb. pose proof (ppl_bound spp G).
    pose proof (lo_vpc _ _ _ _ _ _ Hok). pose proof (lo_vpc _ _ _ _ _ _ Hokb).
    pose proof (lo_ipc _ _ _ _ _ _ Hok). pose proof (lo_ipc _ _ _ _ _ _ Hokb).
    pose proof (lo_fill _ _ _ _ _ _ Hok ltac:(by rewrite Hrv)). pose proof (lo_fill _ _ _ _ _ _ Hokb ltac:(by rewrite Hrb)).
    pose proof (lo_used _ _ _ _ _ _ Hok ltac:(by right)). pose proof (lo_used _ _ _ _ _ _ Hokb ltac:(by right)).
    rewrite ?u64_id in Hbest by lia. try apply Z.ltb_ge in Hbest. lia.
  - rewrite Hl'. cbn [obind]. unfold cf_sp. rewrite (no_sp _ _ N).
    destruct (negb force && _); [done|]. rewrite Hpop. cbn [obind]. rewrite Halt. cbn [obind].
    eexists _, q'. split; [reflexivity|]. split; [done|]. intros b.
    destruct (lk_pq _ _ _ _ _ Lm') as (q2 & Hq2 & _ & _ & Hin2 & _). simpl in Hq2. injection Hq2 as <-.
    rewrite Hin2, Hin. destruct (decide (b = v)) as [->|Hne]; [rewrite upd_eq|rewrite upd_ne by done]; tauto || naive_solver.
Qed.

(** Word line, LUN, channel, page: the order in which a line is written. *)
Theorem write_pointer_next f io :
  cf_sp f = spp -> geom_ok spp -> io_ok io ->
  in_page spp (wp_ch (wp_of io f)) (wp_lun (wp_of io f)) (wp_pg (wp_of io f)) ->
  wp_idx spp (wp_of io f) + 1 < ppl ->
  exists wp', advance_write_pointer f io = Ok (set_wp f io wp') /\
    in_page spp (wp_ch wp') (wp_lun wp') (wp_pg wp') /\
    wp_idx spp wp' = wp_idx spp (wp_of io f) + 1 /\
    wp_blk wp' = wp_blk (wp_of io f) /\ wp_curline wp' = wp_curline (wp_of io f).
Proof.
  intros Hsp G Hio Hp Hi. rewrite (advance_shape spp G) by done. cbv zeta.
  pose proof (next_page_idx spp G _ _ _ Hp) as Hn. unfold wp_idx in *.
  destruct (next_page spp _ _ _) as [[[c l] pg]|]; [|lia]. destruct Hn as [Hn1 Hn2].
  eexists. split; [reflexivity|]. done.
Qed.

End Theorems.

(** ** Initialisation *)

(** The logical pages of a namespace of [size] bytes. *)
Definition host_pages (spp : ssdparams) (size : Z) : Z := (size + pgsz spp - 1) / pgsz spp.

(** The 970 PRO configuration initialises a namespace that satisfies the invariant, for every capacity up to 4 TiB. *)
Theorem conv_init_970pro capacity cpu :
  0 < capacity <= 4398046511104 ->
  exists spp ns pcie wbuf, ssd_init_params SAMSUNG_970PRO_flash capacity 1 = Ok spp /\
    conv_init_namespace SAMSUNG_970PRO_flash capacity cpu = Ok (ns, pcie, wbuf) /\
    let cpp := conv_init_params SAMSUNG_970PRO_flash in
    let L := host_pages spp (ns_size ns) in
    op_ok spp cpp L /\ steady spp cpp L ns /\ ch_inv pcie /\
    ns_size ns = capacity * 100 / 107 /\ (forall lpn, ~ is_mapped ns lpn).
Proof.
  intros Hc. destruct (params_970pro capacity Hc) as (spp & Hspp & D & Htl & Hos & Hfp & Hcap).
  pose proof (dk_geom _ D) as G.
  pose proof (fun L => conv_init_namespace_spec spp D SAMSUNG_970PRO_flash capacity cpu L Hspp) as Hns.
  change (pba_pcent (conv_init_params SAMSUNG_970PRO_flash)) with 107 in Hns.
  assert (Hsz : forall ns : nvmev_ns, ns_size ns = u64 (capacity * 100) / 107 -> ns_size ns = capacity * 100 / 107)
    by (intros ns ->; by rewrite u64_id by lia).
  destruct (Hns (host_pages spp (capacity * 100 / 107))) as (ns & pcie & E & Hp & Hok & Hpar & Hr & Hs & Hm);
    [done|rewrite Htl; lia|lia|].
  exists spp, ns, pcie, (buffer_init (write_buffer_size spp)). split; [done|]. split; [done|].
  cbv zeta. rewrite (Hsz ns Hs). pose proof (ppl_bound spp G) as Hppl.
  change (SSD_PARTITIONS SAMSUNG_970PRO_flash) with 1 in Hpar.
  assert (HL : 0 <= host_pages spp (capacity * 100 / 107) < 8182 * pgs_per_line spp).
  { unfold host_pages. destruct G. set (z := pgsz spp) in *.
    assert (Htt : tt_pgs spp = 8192 * pgs_per_line spp).
    { rewrite g_tt, g_ch, g_lun, g_pl, g_line, <- g_lines, Htl. ring. }
    assert (Hq : capacity * 100 / 107 <= capacity * 100 / 107) by lia.
    pose proof (Z.div_mod (capacity * 100) 107 ltac:(lia)). pose proof (Z.mod_pos_bound (capacity * 100) 107 ltac:(lia)).
    set (S := capacity * 100 / 107) in *. split; [apply Z.div_pos; lia|].
    apply Z.div_lt_upper_bound; [lia|]. rewrite Htt in Hcap. nia. }
  split; [split; [done|rewrite Htl; exact HL]|].
  split; [|split; [exact Hp|split; [reflexivity|exact Hm]]].
  split; [exact Hok|exact Hpar|]. intros i f Hi. specialize (Hr i f Hi). rewrite Htl in Hr.
  change (gc_thres_lines_high (conv_init_params SAMSUNG_970PRO_flash)) with 8. lia.
Qed.

(** ** An instance after thirty writes to four logical pages *)

(** The page loop of [conv_write] without the timing. *)
Fixpoint overwrite (f : conv_ftl) (lpns : list Z) : outcome conv_ftl :=
  match lpns with
  | [] => Ok f
  | lpn :: lpns =>
      let* f := invalidate_old f lpn in
      let* (f, _) := map_new_page f lpn in
      overwrite f lpns
  end.

Lemma overwrite_idle spp L lpns : forall f,
  idle spp L f -> (forall lpn, lpn ∈ lpns -> 0 <= lpn < L /\ lpn < tt_pgs spp) ->
  Z.of_nat (length lpns) + 1 <= room spp USER_IO f ->
  exists f', overwrite f lpns = Ok f' /\ idle spp L f' /\ cf_cp f' = cf_cp f.
Proof.
  induction lpns as [|lpn lpns IH]; intros f Hid Hl Hr; simpl overwrite; [by exists f|].
  destruct Hid as (g & Hi & Hho & Hpe & Hvi). pose proof (fi_geom _ _ _ _ Hi) as G.
  destruct (Hl lpn) as [H1 H2]; [by left|]. rewrite length_cons in Hr.
  destruct (invalidate_old_spec spp L G g f lpn Hi Hho Hpe Hvi)
    as (f1 & g1 & -> & Hi1 & Hho1 & Hpe1 & Hvi1 & _ & Hcp1 & Hrm1 & _); [lia|]. cbn [obind].
  destruct (install_spec spp L G g1 f1 USER_IO lpn Hi1 ltac:(by left) Hho1 Hpe1)
    as (p & fa & fb & fc & f2 & g2 & E1 & E2 & E3 & E4 & E5 & Hi2 & Hfr2 & Hpe2 & Hho2 & _ & _ & Hrm2 & _);
    [rewrite Hrm1; lia|lia|lia|].
  unfold map_new_page. rewrite E1. cbn [obind]. rewrite E2. cbn [obind]. rewrite E3. cbn [obind].
  rewrite E4. cbn [obind]. rewrite E5. cbn [obind]. destruct Hfr2.
  destruct (IH f2) as (f3 & E & Hid3 & Hcp3).
  - exists g2. repeat (split; [done|]). by rewrite fr_vic.
  - intros x Hx. apply Hl. by right.
  - rewrite Hrm2, Hrm1. lia.
  - exists f3. split; [done|]. split; [done|]. congruence.
Qed.

Definition demo_ssd (m : channel_model) : ssd :=
  mk_ssd (tiny 16) [mk_ssd_channel [ssd_init_nand_lun (tiny 16)] 1 None m] 0.

Definition demo_writes : list Z := concat (replicate 7 [0; 1; 2; 3]) ++ [0; 1].

Definition demo_ftl (m : channel_model) : outcome conv_ftl :=
  let* f := conv_init_ftl tiny_cpp (demo_ssd m) true true in overwrite f demo_writes.

(** What the writes have left behind. *)
Definition demo_facts (f : conv_ftl) : bool :=
  match victim_line_pq (cf_lm f) with Some q => 2 <=? pq_size q | None => false end &&
  (Z.of_nat (length (free_line_list (cf_lm f))) =? 7) &&
  match nthO (maptbl f) 1 with Some p => negb (p =? UNMAPPED_PPA) | None => false end.

Lemma demo_facts_hold m : match demo_ftl m with Ok f => demo_facts f | _ => false end = true.
Proof. by vm_compute. Qed.

Lemma demo_run m f0 f :
  conv_init_ftl tiny_cpp (demo_ssd m) true true = Ok f0 -> overwrite f0 demo_writes = Ok f -> demo_ftl m = Ok f.
Proof. intros E1 E2. unfold demo_ftl. rewrite E1. exact E2. Qed.

Lemma demo_state : exists f h p q, idle (tiny 16) 20 f /\ cf_cp f = tiny_cpp /\ hw_ok h /\
  nfree f = 7 /\ victim_line_pq (cf_lm f) = Some q /\ has_victim f /\
  nthO (maptbl f) 1 = Some p /\ p <> UNMAPPED_PPA.
Proof.
  destruct (tiny_ftl 16 ltac:(lia)) as (_ & h & _ & _ & Hh & _).
  assert (Hf : fresh (tiny 16) (demo_ssd (hw_pcie h))).
  { split; [done|]. intros c Hc. simpl in Hc. assert (c = 0) as -> by lia. eexists. split; [done|]. done. }
  destruct (conv_init_ftl_spec (tiny 16) (tiny_dev 16 ltac:(lia)) tiny_cpp 20 _ Hf) as (f0 & Ef & Hid & Hcp & Hn & _);
    [done|].
  destruct (overwrite_idle (tiny 16) 20 demo_writes f0 Hid) as (f & Eo & Hid' & Hcp').
  - intros lpn Hl. apply elem_of_app in Hl as [Hl|Hl].
    + repeat (apply elem_of_cons in Hl as [->|Hl]; [simpl; lia|]). by apply not_elem_of_nil in Hl.
    + repeat (apply elem_of_cons in Hl as [->|Hl]; [simpl; lia|]). by apply not_elem_of_nil in Hl.
  - pose proof (nfree_room (tiny 16) 20 f0 USER_IO 13 Hid ltac:(by left)) as Hr. simpl in Hr, Hn.
    change (Z.of_nat (length demo_writes)) with 30. lia.
  - pose proof (demo_facts_hold (hw_pcie h)) as Hfacts. rewrite (demo_run _ _ _ Ef Eo) in Hfacts.
    unfold demo_facts in Hfacts.
    apply andb_true_iff in Hfacts as [[Hv Hfr]%andb_true_iff Hm].
    destruct (victim_line_pq (cf_lm f)) as [q|] eqn:Eq; [|done].
    destruct (nthO (maptbl f) 1) as [p|] eqn:Ep; [|done].
    exists f, h, p, q. split; [done|]. split; [congruence|]. split; [done|]. split; [by apply Z.eqb_eq|].
    split; [done|]. split; [exists q; split; [done|by apply Z.leb_le]|]. split; [done|].
    by apply Z.eqb_neq, negb_true_iff.
Qed.

(** ** Witnesses *)

(** A write of the logical pages 0 to 3 and a read of them. *)
Definition demo_req (op : Z) : nvmev_request :=
  mk_nvmev_request (mk_nvme_command op 0 0 1 0 0 0 0 0 0 0 31 0 0 0) 1 1000.

Lemma demo_host op : host_cmd (tiny 16) tiny_cpp 20 (req_cmd (demo_req op)).
Proof.
  split; [by split|]. split; [by intros _|]. unfold cmd_cost. by destruct (opcode _ =? _).
Qed.

Lemma conv_run_safe_witness :
  exists ns h ns' h',
    conv_run 36 ns h [(demo_req nvme_cmd_write, 5); (demo_req nvme_cmd_read, 7)] = Ok (ns', h') /\
    steady (tiny 16) tiny_cpp 20 ns'.
Proof.
  destruct tiny_ns as (ns & h & Hs & Hh & _). exists ns, h.
  destruct (conv_run_safe (tiny 16) tiny_cpp 20 36 [(demo_req nvme_cmd_write, 5); (demo_req nvme_cmd_read, 7)] ns h
    tiny_op Hs Hh) as (ns' & h' & E & Hs' & _); [by vm_compute| |by exists ns', h'].
  intros req ppa0 [[= -> _]|[[= -> _]|[]%elem_of_nil]%elem_of_cons]%elem_of_cons; apply demo_host.
Defined.

Lemma conv_proc_refines_witness :
  exists ns h ok ns' h' ret',
    conv_proc_nvme_io_cmd 36 9 ns h (demo_req nvme_cmd_write) (mk_nvmev_result 0 0) = Ok (ok, ns', h', ret') /\
    represents (tiny 16) tiny_cpp 20 ns' (abs_step (tiny 16) (demo_req nvme_cmd_write) ok ∅).
Proof.
  destruct tiny_ns as (ns & h & Hs & Hh & Hm). exists ns, h.
  destruct (conv_proc_refines (tiny 16) tiny_cpp 20 36 9 ns h (demo_req nvme_cmd_write) (mk_nvmev_result 0 0) ∅
    tiny_op) as (ok & ns' & h' & ret' & E & Hr & _); [|done|apply demo_host|by vm_compute|by exists ok, ns', h', ret'].
  split; [done|]. intros lpn _. split; [by intros ?%not_elem_of_empty|by intros ?%Hm].
Defined.

(** Two partitions: the logical pages 0 and 2 lie in instance 0, 1 and 3 in instance 1. *)
Lemma conv_proc_any_partitions_witness :
  exists ns h ok ns1 h1 ns' h' ret',
    ns_nr_parts ns = 2 /\
    conv_dispatch ns h (demo_req nvme_cmd_write) (mk_nvmev_result 0 0) = Ok (ok, ns1, h1, ret') /\
    conv_proc_nvme_io_cmd 36 9 ns h (demo_req nvme_cmd_write) (mk_nvmev_result 0 0) = Ok (ok, ns', h', ret') /\
    ns_ok (tiny 16) tiny_cpp 20 ns' /\ nthO (ns_ftls ns') 1 = nthO (ns_ftls ns1) 1.
Proof.
  destruct tiny_ns2 as (ns & h & Hs & Hp & Hr & Hh). exists ns, h. destruct (demo_host nvme_cmd_write) as (Hc & _ & _).
  destruct (conv_proc_any_partitions (tiny 16) tiny_cpp 20 36 9 ns h (demo_req nvme_cmd_write) (mk_nvmev_result 0 0) 57
    tiny_op Hs Hh Hc Hr) as (ok & ns1 & h1 & ns' & h' & ret' & E1 & E & Hok & _ & _ & Ho & _);
    [by vm_compute|by rewrite Hp|by vm_compute|].
  exists ok, ns1, h1, ns', h', ret'. split; [done|]. split; [done|]. split; [done|]. split; [done|]. by apply Ho.
Defined.

Lemma conv_write_maps_witness :
  exists ns h ok ns' h' ret',
    conv_write ns h (demo_req nvme_cmd_write) (mk_nvmev_result 0 0) = Ok (ok, ns', h', ret') /\
    (ok = true -> is_mapped ns' 2).
Proof.
  destruct tiny_ns as (ns & h & [Hs Hp Hr] & Hh & _). exists ns, h. destruct (demo_host nvme_cmd_write) as (Hc & Hb & _).
  pose proof (conv_write_spec (tiny 16) tiny_cpp 20 ns h (demo_req nvme_cmd_write) (mk_nvmev_result 0 0) 37 Hs Hh Hc Hr) as Hw.
  cbv zeta in Hw. destruct Hw as (ok & ns' & h' & ret' & E & _); [by vm_compute|by rewrite Hp|].
  exists ok, ns', h', ret'. split; [done|]. intros ->.
  pose proof (conv_write_maps (tiny 16) tiny_cpp 20 ns h (demo_req nvme_cmd_write) (mk_nvmev_result 0 0) 37
    true ns' h' ret' Hs Hh Hc Hr ltac:(by vm_compute) ltac:(by rewrite Hp) E) as [_ Hm].
  exact (Hm 2 ltac:(lia)).
Defined.

Lemma conv_read_keeps_mapping_witness :
  exists ns h ok ns' h' ret',
    conv_read ns h (demo_req nvme_cmd_read) (mk_nvmev_result 0 0) = Ok (ok, ns', h', ret') /\
    entry ns' 2 = entry ns 2.
Proof.
  destruct tiny_ns as (ns & h & [Hs Hp Hr] & Hh & _). exists ns, h.
  destruct (conv_read_keeps_mapping (tiny 16) tiny_cpp 20 ns h (demo_req nvme_cmd_read) (mk_nvmev_result 0 0) Hs Hh)
    as (ok & ns' & h' & ret' & E & _ & _ & He & _); [by split|]. by exists ok, ns', h', ret'.
Defined.

(** Four commands on a namespace just initialised: 0 to 3 written, read and written again. *)
Definition demo_reqs : list (nvmev_request * Z) :=
  [(demo_req nvme_cmd_write, 5); (demo_req nvme_cmd_read, 7); (demo_req nvme_cmd_write, 1); (demo_req nvme_cmd_write, 2)].

Lemma demo_reqs_host req ppa0 : (req, ppa0) ∈ demo_reqs -> host_cmd (tiny 16) tiny_cpp 20 (req_cmd req).
Proof.
  unfold demo_reqs. rewrite !elem_of_cons, elem_of_nil.
  intros [[= -> _]|[[= -> _]|[[= -> _]|[[= -> _]|[]]]]]; apply demo_host.
Qed.

(** What the run leaves: page 2 is mapped and the valid pages of all lines are four. *)
Definition demo_left (f : conv_ftl) : bool :=
  match nthO (maptbl f) 2 with Some p => negb (p =? UNMAPPED_PPA) | None => false end &&
  (sumZ (map (sum_vpc (tiny 16) (cf_ssd f)) (seqZ 0 16)) =? 4).
Definition demo_run_facts (i : outcome (nvmev_ns * channel_model * buffer)) : bool :=
  match i with
  | Ok (ns, pcie, wbuf) =>
      match conv_run 36 ns (mk_hw pcie wbuf 0 []) demo_reqs with
      | Ok (ns', _) => match nthO (ns_ftls ns') 0 with Some f => demo_left f | None => false end
      | _ => false
      end
  | _ => false
  end.

Lemma demo_run_facts_hold : demo_run_facts (conv_init_namespace (tiny_cfg 16) (KB 256) 0) = true.
Proof. by vm_compute. Qed.

Lemma demo_init : exists ns pcie wbuf,
  conv_init_namespace (tiny_cfg 16) (KB 256) 0 = Ok (ns, pcie, wbuf) /\ hw_ok (mk_hw pcie wbuf 0 []) /\
  demo_run_facts (Ok (ns, pcie, wbuf)) = true.
Proof.
  destruct (conv_init_namespace_spec (tiny 16) (tiny_dev 16 ltac:(lia)) (tiny_cfg 16) (KB 256) 0 20)
    as (ns & pcie & E & Hp & _); [apply (tiny_params 16); by left|done|done|done|].
  exists ns, pcie, (buffer_init (write_buffer_size (tiny 16))). split; [exact E|]. split; [done|].
  rewrite <- E. exact demo_run_facts_hold.
Qed.

Lemma demo_ran ns pcie wbuf ns' h' f :
  demo_run_facts (Ok (ns, pcie, wbuf)) = true ->
  conv_run 36 ns (mk_hw pcie wbuf 0 []) demo_reqs = Ok (ns', h') -> nthO (ns_ftls ns') 0 = Some f ->
  (exists p, nthO (maptbl f) 2 = Some p /\ p <> UNMAPPED_PPA) /\
  sumZ (map (sum_vpc (tiny 16) (cf_ssd f)) (seqZ 0 16)) = 4.
Proof.
  unfold demo_run_facts. intros Hd E Hf. rewrite E, Hf in Hd. unfold demo_left in Hd.
  apply andb_true_iff in Hd as [Hp Hs%Z.eqb_eq]. split; [|exact Hs].
  destruct (nthO (maptbl f) 2) as [p|]; [|discriminate]. exists p. split; [reflexivity|].
  apply negb_true_iff, Z.eqb_neq in Hp. exact Hp.
Qed.

Lemma conv_run_mapping_sound_witness : exists ns h ns' h' f p,
  conv_run 36 ns h demo_reqs = Ok (ns', h') /\ nthO (ns_ftls ns') 0 = Some f /\
  nthO (maptbl f) 2 = Some p /\ get_rmap_ent f p = Ok 2.
Proof.
  destruct demo_init as (ns & pcie & wbuf & E & Hh & Hd).
  destruct (conv_run_mapping_sound (tiny 16) tiny_cpp 20 (tiny_cfg 16) (KB 256) 0 eq_refl
    (tiny_params 16 ltac:(by left)) (tiny_dev 16 ltac:(lia)) eq_refl ltac:(by vm_compute) tiny_op
    36 demo_reqs ns pcie wbuf _ E Hh ltac:(by vm_compute) demo_reqs_host) as (ns' & h' & f & Er & Hf & Hm).
  destruct (demo_ran _ _ _ _ _ _ Hd Er Hf) as [(p & Ep & Hp) _]. destruct (Hm 2 p Ep Hp) as (_ & _ & Hr & _).
  exists ns, (mk_hw pcie wbuf 0 []), ns', h', f, p. exact (conj Er (conj Hf (conj Ep Hr))).
Defined.

Lemma conv_run_valid_pages_witness : exists ns h ns' h' f,
  conv_run 36 ns h demo_reqs = Ok (ns', h') /\ nthO (ns_ftls ns') 0 = Some f /\
  Z.of_nat (length (filter (fun lpn => mapped_in (maptbl f) (seqZ 0 16) lpn = true) (seqZ 0 64))) = 4.
Proof.
  destruct demo_init as (ns & pcie & wbuf & E & Hh & Hd).
  destruct (conv_run_valid_pages (tiny 16) tiny_cpp 20 (tiny_cfg 16) (KB 256) 0 eq_refl
    (tiny_params 16 ltac:(by left)) (tiny_dev 16 ltac:(lia)) eq_refl ltac:(by vm_compute) tiny_op
    36 demo_reqs ns pcie wbuf _ E Hh ltac:(by vm_compute) demo_reqs_host) as (ns' & h' & f & Er & Hf & Hm & _).
  destruct (demo_ran _ _ _ _ _ _ Hd Er Hf) as [_ Hs].
  exists ns, (mk_hw pcie wbuf 0 []), ns', h', f. split; [exact Er|]. split; [exact Hf|].
  rewrite <- Hs. symmetry. apply (Hm (seqZ 0 16)); [apply NoDup_seqZ|].
  intros b Hb%elem_of_seqZ. unfold in_line. simpl. lia.
Defined.

Lemma do_gc_cleans_line_witness : exists f h f' h',
  do_gc 3 f h true = Ok (0, f', h') /\ idle (tiny 16) 20 f' /\ mapped f' 1.
Proof.
  destruct demo_state as (f & h & p & q & Hid & _ & Hh & Hn & _ & Hv & Hp & Hu). exists f, h.
  destruct (do_gc_cleans_line (tiny 16) 20 3 f h Hid Hh ltac:(lia) Hv) as (f' & h' & E & Hid' & _ & Hm & _).
  exists f', h'. split; [done|]. split; [done|]. apply Hm. by exists p.
Defined.

Lemma gc_loop_terminates_witness : exists f h f' h',
  should_gc_high f = true /\ gc_loop 36 3 f h = Ok (f', h') /\ 8 < nfree f'.
Proof.
  destruct demo_state as (f & h & p & q & Hid & Hcp & Hh & Hn & _). exists f, h.
  destruct (gc_loop_terminates (tiny 16) tiny_cpp 20 36 3 f h tiny_op Hid Hcp Hh ltac:(lia) ltac:(by vm_compute))
    as (f' & h' & E & _ & _ & Hn' & _). exists f', h'. split; [|done].
  rewrite (should_gc_high_nfree (tiny 16) 20), Hcp, Hn by done. done.
Defined.

Lemma gc_loop_without_victim_witness : exists f h,
  do_gc 3 f h true = Ok (-1, f, h) /\ gc_loop 1000 3 f h = NoFuel.
Proof.
  destruct (tiny_ftl 8 ltac:(lia)) as (f & h & Hid & Hcp & Hh & Hn & Hv). exists f, h.
  apply (gc_loop_without_victim (tiny 8) 20); [done|done|].
  rewrite (should_gc_high_nfree (tiny 8) 20), Hcp, Hn by done. done.
Defined.

Lemma victim_available_witness : exists f, should_gc_high f = true /\ has_victim f.
Proof.
  destruct demo_state as (f & h & p & q & Hid & Hcp & Hh & Hn & _). exists f.
  assert (Hs : should_gc_high f = true) by (rewrite (should_gc_high_nfree (tiny 16) 20), Hcp, Hn by done; done).
  split; [done|]. by apply (victim_available (tiny 16) tiny_cpp 20 f tiny_op Hid Hcp).
Defined.

Lemma select_victim_line_best_witness : exists f v f',
  select_victim_line f true = Ok (Some v, f').
Proof.
  destruct demo_state as (f & h & p & q & Hid & _ & _ & _ & Hq & (q' & Hq' & Hs) & _). exists f.
  assert (q' = q) as -> by congruence.
  destruct (select_victim_line_best (tiny 16) 20 f true q Hid Hq) as [[E _]|(v & l & _ & _ & _ & Hsel)]; [lia|].
  destruct Hsel as (f' & _ & E & _). by exists v, f'.
Defined.

Definition demo_wp : conv_ftl :=
  mk_conv_ftl (mk_ssd (tiny 16) [] 0) tiny_cpp [] [] (mk_wp (Some 3) 0 0 1 3 0) (mk_wp (Some 4) 0 0 0 4 0)
    (mk_lm [] [] None [] 16 0 0 0) (mk_wfc 0 0) 0.

Lemma write_pointer_next_witness : exists wp',
  advance_write_pointer demo_wp USER_IO = Ok (set_wp demo_wp USER_IO wp') /\ wp_idx (tiny 16) wp' = 2.
Proof.
  destruct (write_pointer_next (tiny 16) demo_wp USER_IO eq_refl (tiny_geom 16 ltac:(lia)))
    as (wp' & E & _ & Hi & _); [by left|by split|by vm_compute|].
  exists wp'. split; [exact E|exact Hi].
Defined.

(** The capacity of 64 GiB. *)
Lemma conv_init_970pro_witness : exists spp ns pcie wbuf,
  conv_init_namespace SAMSUNG_970PRO_flash 68719476736 0 = Ok (ns, pcie, wbuf) /\
  steady spp (conv_init_params SAMSUNG_970PRO_flash) (host_pages spp (ns_size ns)) ns.
Proof.
  destruct (conv_init_970pro 68719476736 0 ltac:(lia)) as (spp & ns & pcie & wbuf & _ & E & _ & Hs & _).
  exists spp, ns, pcie, wbuf. split; [exact E|exact Hs].
Defined.
