(* ===== verification/ZnsTheorems.v ===== *)
(** * ZnsTheorems: what the zoned FTL guarantees

    The namespace runs for ever without touching memory out of bounds, the
    management commands implement the state machine of a zone, writes are
    sequential, random writes stay in their windows, and page-aligned writes that
    succeed give back to the write buffer what they took.  The witnesses run on four zones of eight pages. *)
From stdpp Require Import base list numbers sets.
From Stdlib Require Import ZArith Lia.
From S2P Require Import Prelude ChannelModel SsdConfig Ssd SsdFacts SsdInit Nvme Prp PrpFacts.
From S2P Require Import ZnsData ZnsIo ZnsMgmt ZnsInv ZnsState ZnsWrite ZnsCmd ZnsZrwa ZnsProc ZnsInit.
From S2P Require Import ConvInit Demo.

Open Scope Z_scope.
Open Scope nvmev_scope.

Section Theorems.
Context `{ClockRange}.
Variables (spp : ssdparams) (z : znsparams).
Notation zl := (zlbas z).


(** C29: zns_zmgmt_send implements the state machine of a zone. Each action has exactly the
    transition and status of the abstract machine on the addressed zone, moves the open, active
    and random-write counters by exactly the difference between the zone before and after, clears
    the data on a reset only, and leaves the other zones alone; an open without resources changes
    nothing. With select_all every zone makes its transition, except that an open may leave a zone
    as it is (its status is dropped), and the command reports success. *)
Theorem zmgmt_send_refines f req i d a :
  zgeom spp z -> zns_inv spp z f -> zrwa_cfg z \/ zms_zsaso (req_cmd req) = 0 ->
  zms_zsa (req_cmd req) = zsa_code a ->
  0 <= zms_slba (req_cmd req) < nr_zones z * zl -> i = zms_slba (req_cmd req) / zl -> get_zone f i = Ok d ->
  exists st f', zns_zmgmt_send f req = Ok (f', mk_nvmev_result st (req_nsecs_start req)) /\
    (zms_select_all (req_cmd req) = 0 -> act_post spp z f f' i d a (zms_zsaso (req_cmd req)) st) /\
    (zms_select_all (req_cmd req) <> 0 -> st = NVME_SC_SUCCESS /\ zns_inv spp z f' /\
       forall j e, get_zone f j = Ok e ->
       exists e', get_zone f' j = Ok e' /\ zone_acted a (zms_zsaso (req_cmd req)) e e').
Proof.
  intros G I Hz Ha Hs Ei Hd. unfold zns_zmgmt_send. rewrite Ha, (zi_zp _ _ _ I).
  rewrite (lba_to_zone_spec spp z G) by (apply I || done). cbn [obind].
  destruct (Z.eqb_spec (zms_select_all (req_cmd req)) 0) as [E|E]; cbn [negb].
  - destruct (__zmgmt_send_action spp z G f i d _ a (zms_zsaso (req_cmd req)) I Hs Ei Hd Hz) as (st & f' & -> & Hp).
    cbn [obind of_option]. by exists st, f'.
  - destruct (select_all_spec spp z G f a (zms_zsaso (req_cmd req)) I Hz) as (f' & -> & I' & Hall).
    cbn [obind of_option]. by exists NVME_SC_SUCCESS, f'.
Qed.

(** [zns_write] of a zone without random-write area is [__zns_write]. *)
Lemma zns_write_plain f h req ret i d :
  zgeom spp z -> zns_inv spp z f -> 0 <= rw_slba (req_cmd req) < nr_zones z * zl ->
  i = rw_slba (req_cmd req) / zl -> get_zone f i = Ok d ->
  zns_write f h req ret = if zrwav d =? 0 then __zns_write f h req ret else __zns_write_zrwa f h req ret.
Proof.
  intros G I Hs Ei Hd. destruct (zone_bounds spp z G f i d I Hd) as (Hi & _ & Hz0 & _ & Hc).
  unfold zns_write. rewrite (lba_to_lpn_spec spp z G) by apply I. cbn [obind].
  rewrite (lpn_to_zone_spec spp z G) by apply I. cbn [obind].
  rewrite (lpn_zone_of_lba spp z G) by lia. rewrite <- Ei, u32_id by nia. by rewrite Hd.
Qed.

(** C30: A write or append to a zone without random-write area is refused exactly when the write
    buffer has no room; otherwise it succeeds exactly when it is admissible (a multiple of the
    write unit, starts at the write pointer, stays in the zone, the zone can be open) and then
    advances the pointer by its sectors, opens the zone and fills it at its end; in all other
    cases no zone changes. *)
Theorem zns_write_sequential f h req ret i d :
  zgeom spp z -> zns_inv spp z f -> hw_ok h -> u64_ok (req_nsecs_start req) ->
  0 <= rw_slba (req_cmd req) < nr_zones z * zl -> i = rw_slba (req_cmd req) / zl ->
  get_zone f i = Ok d -> zrwav d = 0 ->
  let slba := write_lba (req_cmd req) d in
  let n := nlb (req_cmd req) in
  exists ok f' h' ret' room, zns_write f h req ret = Ok (ok, f', h', write_cmd (req_cmd req) d, ret') /\
    zns_inv spp z f' /\ buffer_room f h i = Ok room /\ (ok = true <-> n * 512 <= room) /\
    (ok = true -> (ret_status ret' = NVME_SC_SUCCESS <-> admissible spp z f i d slba n)) /\
    (if ok && (ret_status ret' =? NVME_SC_SUCCESS) then
       get_zone f' i = Ok (zone_advance z i (zone_opened d) n) /\
       (forall j, j <> i -> get_zone f' j = get_zone f j)
     else zones_same f f').
Proof.
  intros G I Hh Hst Hs Ei Hd Hz. rewrite (zns_write_plain f h req ret i d G I Hs Ei Hd), Hz.
  destruct (__zns_write_spec spp z G f h req ret i d I Hh Hst Hs Ei Hd)
    as (ok & f' & h' & ret' & E & [W1 W2 (room & Hr & Hok & _) W4] & _).
  exists ok, f', h', ret', room. split; [done|]. split; [done|]. split; [done|]. split; [done|].
  destruct W4 as [(-> & Est & Ha & [Wz Wo _ _])|([->|[Hne Hna]] & Hsame & _)].
  - rewrite Est. split; [done|]. done.
  - done.
  - rewrite (proj2 (Z.eqb_neq _ _) Hne), andb_false_r. done.
Qed.

(** Bytes written to zone [i] up to [w] whose one-shot page is not complete. *)
Definition unreleased (i w : Z) : Z := (w - i * zl) * 512 - flushed spp z ((w - i * zl) / 8).

Lemma unreleased_range i w :
  zgeom spp z -> i * zl <= w <= zone_end z i -> (8 | w) ->
  0 <= unreleased i w < pgs_per_oneshotpg spp * 4096 /\ (w = zone_end z i -> unreleased i w = 0).
Proof.
  intros G Hw [b Hb]. destruct (zpgs_pos spp z G) as (Hq0 & Hz8 & Hzs). pose proof (zg_os _ _ G) as Ho.
  unfold unreleased, flushed, zone_end in *. set (q := zl / 8) in *.
  replace (w - i * zl) with ((b - i * q) * 8) by lia. rewrite Z.div_mul by lia. set (p := b - i * q) in *.
  assert (Hp : 0 <= p <= q) by lia.
  pose proof (Z.div_mod p (pgs_per_oneshotpg spp) ltac:(lia)) as Hd.
  pose proof (Z.mod_pos_bound p (pgs_per_oneshotpg spp) ltac:(lia)) as Hm.
  destruct (Z.eqb_spec p q); [|split]; nia.
Qed.

(** C31: The write buffer over a page-aligned write or append: it is charged exactly the bytes of
    the command when it has room for them, and nothing otherwise. When the write succeeds, the
    releases that it schedules for that buffer plus the bytes of the zone that still wait for
    their one-shot page equal the charge plus the bytes that waited before; what waits is always
    less than a one-shot page, and nothing at the end of the zone. When a write with room fails
    its checks it is charged all the same and schedules no release (zns_read_write.c:104). *)
Theorem zns_write_releases f h req ret i d :
  zgeom spp z -> zns_inv spp z f -> hw_ok h -> u64_ok (req_nsecs_start req) ->
  0 <= rw_slba (req_cmd req) < nr_zones z * zl -> i = rw_slba (req_cmd req) / zl ->
  get_zone f i = Ok d -> zrwav d = 0 -> (8 | nlb (req_cmd req)) -> (8 | zd_wp d) ->
  let bytes := nlb (req_cmd req) * 512 in
  exists ok f' h' ret' d' ops room,
    zns_write f h req ret = Ok (ok, f', h', write_cmd (req_cmd req) d, ret') /\
    get_zone f' i = Ok d' /\ hw_sched h' = hw_sched h ++ ops /\
    buffer_room f h i = Ok room /\ (ok = true <-> bytes <= room) /\
    buffer_room f' h' i = Ok (u64 (room - if ok then bytes else 0)) /\
    Forall (fun o => io_buffer o = buffer_of z i) ops /\
    (if ok && (ret_status ret' =? NVME_SC_SUCCESS) then
       zd_wp d' = zd_wp d + nlb (req_cmd req) /\
       released ops + unreleased i (zd_wp d') = bytes + unreleased i (zd_wp d)
     else ops = [] /\ d' = d) /\
    (8 | zd_wp d') /\ 0 <= unreleased i (zd_wp d') < pgs_per_oneshotpg spp * 4096 /\
    (zd_wp d' = zone_end z i -> unreleased i (zd_wp d') = 0).
Proof.
  intros G I Hh Hst Hs Ei Hd Hz Hn8 Hw8 bytes.
  rewrite (zns_write_plain f h req ret i d G I Hs Ei Hd), Hz.
  destruct (zpgs_pos spp z G) as (_ & Hz8 & _).
  destruct (__zns_write_spec spp z G f h req ret i d I Hh Hst Hs Ei Hd)
    as (ok & f' & h' & ret' & E & [W1 _ (room & Hr & Hok & Hr') W4] & _). rewrite E.
  destruct W4 as [(-> & Est & [_ Ewp _ _] & [Wz _ _ (ops & Hops & Hwb & Hrel)])|(Hno & [Hsd _ _] & Hsch)].
  - set (n := nlb _) in *. pose proof (nlb_range (req_cmd req)) as Hn. fold n in Hn.
    assert (Ew : zd_wp (zone_advance z i (zone_opened d) n) = zd_wp d + n).
    { unfold zone_advance, zone_opened. destruct (is_open d), (_ =? _); done. }
    assert (Hw8' : (8 | zd_wp d + n)) by (by apply Z.divide_add_r).
    eexists _, f', h', ret', _, ops, room. split; [done|]. split; [done|]. split; [done|].
    split; [done|]. split; [done|]. split; [done|]. split; [done|]. rewrite Est, Ew. split; [|split; [done|]].
    + split; [done|]. rewrite Hrel, Ewp. unfold unreleased, bytes.
      destruct Hn8 as [a Ha], Hw8 as [b Hb]. rewrite Ha, Hb in *. set (q := zl / 8) in *.
      replace ((b * 8 + a * 8 - 1) / 8) with (b + a - 1) by (apply (Z.div_unique_pos _ 8 _ 7); lia).
      replace (b * 8 + a * 8 - i * zl) with ((b + a - i * q) * 8) by lia.
      replace (b * 8 - i * zl) with ((b - i * q) * 8) by lia. rewrite !Z.div_mul by lia.
      replace (b + a - 1 + 1 - i * q) with (b + a - i * q) by lia. lia.
    + destruct (zone_bounds spp z G f' i _ W1 Wz) as (_ & [_ _ K3 _ _] & _). rewrite Ew in K3.
      by apply unreleased_range.
  - destruct (zone_bounds spp z G f i d I Hd) as (_ & [_ _ K3 _ _] & _).
    eexists _, f', h', ret', d, [], room. split; [done|]. split; [unfold get_zone; by rewrite Hsd|].
    split; [by rewrite app_nil_r|]. split; [done|]. split; [done|]. split; [done|]. split; [constructor|].
    split; [|split; [done|by apply unreleased_range]].
    destruct Hno as [->|[Hne _]]; [done|]. by rewrite (proj2 (Z.eqb_neq _ _) Hne), andb_false_r.
Qed.

(** A write inside the last page of a one-shot page frees a whole one-shot page. *)
Lemma zns_subpage_overrelease f h req ret i d :
  zgeom spp z -> zns_inv spp z f -> hw_ok h -> u64_ok (req_nsecs_start req) ->
  0 <= rw_slba (req_cmd req) < nr_zones z * zl -> i = rw_slba (req_cmd req) / zl ->
  get_zone f i = Ok d -> zrwav d = 0 ->
  zd_wp d mod 8 + nlb (req_cmd req) <= 8 ->
  ((zd_wp d - zslba d) / 8 + 1) mod pgs_per_oneshotpg spp = 0 -> (zd_wp d - zslba d) / 8 + 1 < zl / 8 ->
  exists ok f' h' ret' ops,
    zns_write f h req ret = Ok (ok, f', h', write_cmd (req_cmd req) d, ret') /\
    hw_sched h' = hw_sched h ++ ops /\
    (ok = true -> ret_status ret' = NVME_SC_SUCCESS -> released ops = pgs_per_oneshotpg spp * 4096).
Proof.
  intros G I Hh Hst Hs Ei Hd Hz Hn8 Hos Hend. rewrite (zns_write_plain f h req ret i d G I Hs Ei Hd), Hz.
  destruct (zone_bounds spp z G f i d I Hd) as (Hi & [K1 _ K3 _ _] & Hz0 & _).
  destruct (zpgs_pos spp z G) as (Hq0 & Hz8 & _). pose proof (zg_os _ _ G) as Ho.
  destruct (__zns_write_spec spp z G f h req ret i d I Hh Hst Hs Ei Hd)
    as (ok & f' & h' & ret' & E & [_ _ _ W4] & _). rewrite E.
  destruct W4 as [(-> & Est & [_ Ewp _ _] & [_ _ _ (ops & Hops & _ & Hrel)])|(Hno & _ & Hsch)].
  - eexists _, f', h', ret', ops. split; [done|]. split; [done|]. intros _ _. rewrite Hrel, Ewp.
    set (n := nlb _) in *. pose proof (nlb_range (req_cmd req)) as Hn. fold n in Hn. rewrite K1 in *.
    set (q := zl / 8) in *. rewrite Hz8 in *. set (w := zd_wp d) in *.
    replace (w - i * (8 * q)) with (w + (- (i * q)) * 8) in * by lia. rewrite Z.div_add in * by lia.
    pose proof (Z.div_mod w 8 ltac:(lia)) as Hdm. pose proof (Z.mod_pos_bound w 8 ltac:(lia)) as Hmb.
    assert (E1 : (w + n - 1) / 8 = w / 8) by (symmetry; apply (Z.div_unique_pos _ 8 _ (w mod 8 + n - 1)); lia).
    rewrite E1. replace (w / 8 + 1 - i * q) with (w / 8 - i * q + 1) by lia.
    assert (Hlo : 0 <= w / 8 - i * q) by (assert (i * q <= w / 8) by (apply Z.div_le_lower_bound; lia); lia).
    replace (w / 8 + - (i * q)) with (w / 8 - i * q) in * by lia. set (o := w / 8 - i * q) in *.
    assert (Hm : o mod pgs_per_oneshotpg spp + 1 = pgs_per_oneshotpg spp).
    { apply Z.mod_divide in Hos as [c Hc]; [|lia]. replace o with (-1 + c * pgs_per_oneshotpg spp) by lia.
      rewrite Z.mod_add by lia. rewrite <- (Z.mod_unique_pos (-1) _ (-1) (pgs_per_oneshotpg spp - 1)) by lia. lia. }
    rewrite (flushed_step spp z G) by (fold q; lia). fold q. rewrite Hm, Z.eqb_refl. simpl.
    rewrite (proj2 (Z.eqb_neq _ _)) by lia. done.
  - eexists _, f', h', ret', []. split; [done|]. split; [by rewrite app_nil_r|].
    intros -> Hst'. destruct Hno as [|[? _]]; done.
Qed.

(** C32: A write to a zone with random-write area passes the checks exactly when it is a multiple
    of the write unit, stays in the zone, lies in the two windows that start at the write pointer
    and the zone can be open; otherwise it is answered with an error and no zone changes. A write
    that passes moves the pointer by whole flush groups exactly as far as it ends beyond the first
    window, to the end of the zone when it ends there, and not at all otherwise; in an open zone
    it is refused for lack of room exactly when the area buffer has less than the bytes to flush.
    The assertion of the area buffer stops only a write that passes the checks on a closed zone. *)
Theorem zrwa_window_slides f h req ret i d :
  zgeom spp z -> zns_inv spp z f -> hw_ok h -> u64_ok (req_nsecs_start req) ->
  0 <= rw_slba (req_cmd req) < nr_zones z * zl -> i = rw_slba (req_cmd req) / zl ->
  get_zone f i = Ok d -> zrwav d <> 0 ->
  let slba := rw_slba (req_cmd req) in
  let n := nlb (req_cmd req) in
  zns_write f h req ret = Bug /\ zd_state d = ZONE_STATE_CLOSED /\ zrwa_admissible spp z f i d slba n \/
  exists ok f' h' ret', zns_write f h req ret = Ok (ok, f', h', req_cmd req, ret') /\
    zrwa_post spp z f f' h' i d slba n ok (ret_status ret').
Proof.
  intros G I Hh Hst Hs Ei Hd Hz slba n. rewrite (zns_write_plain f h req ret i d G I Hs Ei Hd).
  rewrite (proj2 (Z.eqb_neq _ _) Hz). by apply __zns_write_zrwa_spec.
Qed.

(** C33: A zone report within the size of the report buffer arrives in the pages of the host: the
    header counts the zones, entry j holds the bytes of the descriptor of zone start + j, and no
    zone changes. *)
Theorem zone_report_delivered f host req :
  zgeom spp z -> zns_inv spp z f ->
  0 <= zmr_slba (req_cmd req) < nr_zones z * zl ->
  zmr_zra (req_cmd req) = 0 -> zmr_zra_specific_field (req_cmd req) = 0 ->
  let start := zmr_slba (req_cmd req) / zl in
  let n := zones_to_report f (req_cmd req) start in
  let len := zmr_bytes (req_cmd req) in
  start + n <= nr_zones z -> len <= sizeof_zone_report + 64 * nr_zones z ->
  prp_wf host (prp1 (req_cmd req)) (prp2 (req_cmd req)) len ->
  prp_disjoint host (prp1 (req_cmd req)) (prp2 (req_cmd req)) len ->
  exists f' host', zns_zmgmt_recv f host req =
      Ok (f', host', mk_nvmev_result NVME_SC_SUCCESS (req_nsecs_start req)) /\
    zns_inv spp z f' /\ zones_same f f' /\ report_of f start n (report_buffer f') /\
    forall k, 0 <= k < len ->
      host' (prp_addr host (prp1 (req_cmd req)) (prp2 (req_cmd req)) len k) =
      nth (Z.to_nat k) (report_buffer f') 0.
Proof.
  intros G I Hs Hza Hzf start n len Hn Hlen Hw Hd. destruct (zlbas_pos spp z G) as (Hz0 & _).
  pose proof (zg_cap _ _ G) as Hc. fold zl in Hc.
  assert (Hst : 0 <= start < nr_zones z) by (unfold start; split; [apply Z.div_pos|apply Z.div_lt_upper_bound]; lia).
  assert (Hu : u32 (zmr_slba (req_cmd req) / zl) = start) by (apply u32_id; fold start; nia).
  unfold zns_zmgmt_recv, __check_zmgmt_rcv_option_supported.
  rewrite (lba_to_zone_total spp z G), Hu, (zi_zp _ _ _ I), Hza, Hzf by apply I. cbn [obind].
  rewrite (proj2 (Z.ltb_lt start _)) by lia. cbn [andb Z.eqb].
  pose proof (__fill_zone_report_spec spp z G f (req_cmd req) I) as Hf. simpl in Hf. rewrite Hu in Hf. fold n in Hf.
  destruct (__fill_zone_report f (req_cmd req)) as [f'| | |]; try done; [|lia].
  destruct Hf as (I' & Hsame & Hrep & _). cbn [obind]. unfold __prp_transfer_data. fold len.
  destruct (prp_transfer_spec host (fun a => nth (Z.to_nat a) (report_buffer f') 0) (prp1 (req_cmd req))
    (prp2 (req_cmd req)) 0 len (Z.of_nat (length (report_buffer f'))) Hw PRP_TO_HOST) as (host' & dev & -> & Hcp).
  - done.
  - rewrite (zi_rep _ _ _ I'). lia.
  - cbn [obind]. exists f', host'. split; [done|]. split; [done|]. split; [done|]. split; [done|].
    intros k Hk. destruct Hcp as (_ & Hcp & _). by rewrite Hcp by lia.
Qed.

(** The pages of a zone go over channels and LUNs, each to a page of its own. *)
Theorem zone_pages_striped f i off :
  zgeom spp z -> zns_inv spp z f -> 0 <= i < nr_zones z -> 0 <= off < zl / 8 ->
  exists ppa, __lpn_to_ppa f (i * (zl / 8) + off) = Ok ppa /\
    ppa_pg ppa = off mod pgs_per_oneshotpg spp /\
    0 <= ppa_ch ppa < nchs spp /\ 0 <= ppa_lun ppa < luns_per_ch spp /\
    ppa_lun ppa * nchs spp + ppa_ch ppa =
      (i * dies_per_zone z) mod tt_luns spp + (off / pgs_per_oneshotpg spp) mod dies_per_zone z.
Proof.
  intros G I Hi Ho. destruct (lpn_in_zone spp z G f i (i * (zl / 8) + off) I Hi ltac:(lia)) as (ppa & E & Hp).
  exists ppa. split; [done|]. replace (i * (zl / 8) + off - i * (zl / 8)) with off in Hp by lia.
  destruct (page_at_range spp z G ppa i off ltac:(lia) Hp) as [H1 H2].
  destruct Hp as (Ec & El & Eg). split; [done|]. split; [done|]. split; [done|].
  rewrite Ec, El. fold (stripe_die spp z i off). rewrite (Z.div_mod (stripe_die spp z i off) (nchs spp)) at 3 by lia. lia.
Qed.

End Theorems.

(** C34: For every capacity of fewer than 1024 zones of 2 GiB the WD ZN540 configuration
    initialises a namespace that satisfies the invariant, with all zones empty and their write
    pointers at their starts. *)
Theorem zns_init_zn540 k zpp0 report0 mapped cpu :
  0 < k < 1024 -> Z.of_nat (length report0) = sizeof_zone_report + 64 * k ->
  exists spp z ns pcie wb,
    zns_init_namespace WD_ZN540_flash WD_ZN540_zones zpp0 report0 mapped (k * GB 2) cpu = Ok (ns, pcie, wb) /\
    zgeom spp z /\ ns_inv spp z ns /\ nr_zones z = k /\ ch_inv pcie /\
    (forall i, 0 <= i < k -> exists d, get_zone (zn_ftl ns) i = Ok d /\
       zd_state d = ZONE_STATE_EMPTY /\ zd_wp d = i * 4194304 /\ zone_capacity d = 4194304) /\
    zf_storage (zn_ftl ns) = mapped.
Proof.
  intros Hk Hrep. destruct (params_zn540 k zpp0 Hk) as (spp & z & E1 & E2 & G & En & Ezs & Hb1 & Hb2).
  destruct (zns_init_namespace_spec spp z G WD_ZN540_flash WD_ZN540_zones zpp0 report0 mapped (k * GB 2) cpu Hb1 Hb2 E1 E2)
    as (ns & pcie & wb & E & I & Hp & Hz & Hst); [by rewrite En|].
  exists spp, z, ns, pcie, wb. split; [done|]. split; [done|]. split; [done|]. split; [done|]. split; [done|].
  split; [|done]. intros i Hi. eexists. split; [apply Hz; by rewrite En|]. unfold zlbas. rewrite Ezs.
  change (2147483648 / 512) with 4194304.
  split; [reflexivity|]. split; reflexivity.
Qed.

(** ** Witnesses *)
Definition zdemo : znsparams := mk_znsparams 4 0 0 1 32768 0 0 0 0 0 0 0.
Definition zdemo_rw : znsparams := mk_znsparams 4 0 0 1 32768 0 4 4096 8192 32768 8 16.

Lemma zdemo_geom z : z = zdemo \/ z = zdemo_rw -> zgeom (tiny 16) z.
Proof. intros [-> | ->]; split; simpl; try lia; try done; try (by exists 1); by split. Qed.

Lemma zdemo_cfg : zrwa_cfg zdemo_rw.
Proof. by repeat split. Qed.

Lemma zdemo_ftl z : z = zdemo \/ z = zdemo_rw ->
  exists f h, zns_inv (tiny 16) z f /\ hw_ok h /\ buf_remaining (hw_write_buffer h) = 65536 /\
    hw_sched h = [] /\ res_infos f = replicate 3 (mk_res 0 4) /\ forall i, 0 <= i < 4 -> get_zone f i = Ok (zone_0 (i * 64) 64).
Proof.
  intros Hz. pose proof (zdemo_geom z Hz) as G. pose proof (tiny_dev 16 ltac:(lia)) as D.
  destruct (ssd_init_spec (tiny 16) D 0) as (s & pcie & _ & Hs & Hp).
  destruct (zns_init_ftl_spec (tiny 16) z G s (fun _ => 7) (replicate 384 0)) as (f & _ & I & Hzn & Hr & _).
  - by apply (fresh_ssd_ok (tiny 16)).
  - apply Hs.
  - by destruct Hz as [-> | ->].
  - exists f, (mk_hw pcie (buffer_init 65536) 0 []). split; [done|]. split; [done|]. split; [done|]. split; [done|].
    split; [rewrite Hr; by destruct Hz as [-> | ->]|].
    intros i Hi. destruct Hz as [-> | ->]; exact (Hzn i Hi).
Qed.

Definition zcmd (op slba dw12 dw13 : Z) : nvmev_request :=
  mk_nvmev_request (mk_nvme_command op 0 0 1 0 0 0 8192 0 slba 0 dw12 dw13 0 0) 1 100.


Lemma zmgmt_send_refines_witness : exists f st f',
  zns_zmgmt_send f (zcmd nvme_cmd_zone_mgmt_send 64 0 (zsa_code ACT_FINISH)) = Ok (f', mk_nvmev_result st 100) /\
  st = NVME_SC_SUCCESS /\ exists d, get_zone f' 1 = Ok d /\ zd_state d = ZONE_STATE_FULL.
Proof.
  destruct (zdemo_ftl zdemo ltac:(by left)) as (f & h & I & _ & _ & _ & _ & Hz).
  destruct (zmgmt_send_refines (tiny 16) zdemo f (zcmd nvme_cmd_zone_mgmt_send 64 0 (zsa_code ACT_FINISH))
    1 (zone_0 64 64) ACT_FINISH (zdemo_geom zdemo ltac:(by left)) I) as (st & f' & E & Hs & _);
    [by right|done|by split|done|by apply Hz|].
  exists f, st, f'. split; [exact E|]. destruct (Hs eq_refl) as [_ _ _ [(-> & Hg & _)|[Ha _]]]; [|discriminate Ha].
  split; [done|]. eexists. split; [exact Hg|done].
Defined.

(** Eight sectors at the start of zone 1. *)
Lemma zns_write_sequential_witness : exists f h ok f' h' ret',
  zns_write f h (zcmd nvme_cmd_zone_append 64 7 0) (mk_nvmev_result 0 0) =
    Ok (ok, f', h', write_cmd (req_cmd (zcmd nvme_cmd_zone_append 64 7 0)) (zone_0 64 64), ret') /\ ok = true.
Proof.
  destruct (zdemo_ftl zdemo ltac:(by left)) as (f & h & I & Hh & Hb & _ & _ & Hz). exists f, h.
  destruct (zns_write_sequential (tiny 16) zdemo f h (zcmd nvme_cmd_zone_append 64 7 0) (mk_nvmev_result 0 0) 1
    (zone_0 64 64) (zdemo_geom zdemo ltac:(by left)) I Hh) as (ok & f' & h' & ret' & room & E & _ & Hr & Hok & _);
    [by split|by split|done|by apply Hz|done|].
  exists ok, f', h', ret'. split; [exact E|]. apply Hok.
  unfold buffer_room in Hr. rewrite (zi_zp _ _ _ I) in Hr. simpl in Hr. rewrite Hb in Hr. injection Hr as <-.
  by apply Z.leb_le.
Defined.

Lemma zns_write_releases_witness : exists f h f' h' ret' d' ops,
  zns_write f h (zcmd nvme_cmd_write 64 15 0) (mk_nvmev_result 0 0) =
    Ok (true, f', h', write_cmd (req_cmd (zcmd nvme_cmd_write 64 15 0)) (zone_0 64 64), ret') /\
  get_zone f' 1 = Ok d' /\ hw_sched h' = ops /\ buffer_room f' h' 1 = Ok 57344 /\
  (ret_status ret' = NVME_SC_SUCCESS -> zd_wp d' = 80 /\
     released ops + unreleased (tiny 16) zdemo 1 80 = 8192).
Proof.
  destruct (zdemo_ftl zdemo ltac:(by left)) as (f & h & I & Hh & Hb & Hs & _ & Hz). exists f, h.
  destruct (zns_write_releases (tiny 16) zdemo f h (zcmd nvme_cmd_write 64 15 0) (mk_nvmev_result 0 0) 1
    (zone_0 64 64) (zdemo_geom zdemo ltac:(by left)) I Hh)
    as (ok & f' & h' & ret' & d' & ops & room & E & Hd & Ho & Hr & Hok & Hr' & _ & Hc & _);
    [by split|by split|done|by apply Hz|done|by exists 2|by exists 8|].
  unfold buffer_room in Hr. rewrite (zi_zp _ _ _ I) in Hr. simpl in Hr. rewrite Hb in Hr. injection Hr as <-.
  assert (ok = true) as -> by (apply Hok; by apply Z.leb_le).
  exists f', h', ret', d', ops. rewrite Hs in Ho. split; [exact E|]. split; [exact Hd|]. split; [exact Ho|].
  split; [exact Hr'|]. intros Es. rewrite Es in Hc. destruct Hc as [Hw Hc]. split; [exact Hw|].
  rewrite Hw in Hc. exact Hc.
Defined.

(** Zone 0, opened with a random-write area of 16 sectors. *)
Definition zdemo_rw_zone : zone_descriptor :=
  set_zd_state (set_zrwav (zone_0 0 64) 1) ZONE_STATE_OPENED_EXPL.

Lemma zdemo_rw_open : exists f h, zns_inv (tiny 16) zdemo_rw f /\ hw_ok h /\
  get_zone f 0 = Ok zdemo_rw_zone /\ area_room f 0 = Ok 32768.
Proof.
  pose proof (zdemo_geom zdemo_rw ltac:(by right)) as G. pose proof (tiny_dev 16 ltac:(lia)) as D.
  destruct (ssd_init_spec (tiny 16) D 0) as (s & pcie & _ & Hs & Hp).
  destruct (zns_init_ftl_spec (tiny 16) zdemo_rw G s (fun _ => 7) (replicate 384 0)) as (f & E & I & Hz & Hr & _).
  - by apply (fresh_ssd_ok (tiny 16)).
  - apply Hs.
  - done.
  - destruct (__zmgmt_send_open_zone_spec (tiny 16) zdemo_rw G f 0 (zone_0 0 64) 1 I) as (st & f' & Eo & Hpost).
    + by apply (Hz 0).
    + left. apply zdemo_cfg.
    + assert (Ha : (let* f := zns_init_ftl zdemo_rw s (fun _ => 7) (replicate 384 0) in
        let* (_, f) := __zmgmt_send_open_zone f 0 1 in area_room f 0) = Ok 32768) by reflexivity.
      rewrite E in Ha. cbn [obind] in Ha. rewrite Eo in Ha. cbn [obind] in Ha.
      exists f', (mk_hw pcie (buffer_init 65536) 0 []).
      destruct Hpost as [I' _ _ [(_ & Hg & _)|(_ & _ & ty & Hf & Hin)]]; [done|]. exfalso.
      unfold is_zone_resource_full in Hf. rewrite Hr in Hf.
      repeat (apply elem_of_cons in Hin as [[= -> _]|Hin]; [discriminate Hf|]). by apply elem_of_nil in Hin.
Qed.

(** Eight sectors at the start of the second window: the pointer moves by one
    flush group. *)
Lemma zrwa_window_slides_witness : exists f h f' h' ret' d',
  zns_write f h (zcmd nvme_cmd_write 16 7 0) (mk_nvmev_result 0 0) =
      Ok (true, f', h', req_cmd (zcmd nvme_cmd_write 16 7 0), ret') /\
  ret_status ret' = NVME_SC_SUCCESS /\ get_zone f' 0 = Ok d' /\ zd_wp d' = 8.
Proof.
  destruct zdemo_rw_open as (f & h & I & Hh & Hd & Ha).
  assert (Hadm : zrwa_admissible (tiny 16) zdemo_rw f 0 zdemo_rw_zone 16 8) by (split; [reflexivity|by apply Z.leb_le|by split|done]).
  destruct (zrwa_window_slides (tiny 16) zdemo_rw f h (zcmd nvme_cmd_write 16 7 0) (mk_nvmev_result 0 0) 0
    zdemo_rw_zone (zdemo_geom zdemo_rw ltac:(by right)) I Hh)
    as [(_ & Hc & _)|(ok & f' & h' & ret' & E & [_ _ _ _ [[Hn _]|(_ & m & Hf & Hg & Hst & _ & Hr)]])];
    [by split|by split|done|exact Hd|done|discriminate Hc|by destruct Hn|].
  assert (m = 8) as ->.
  { destruct Hf as [_ Hf _]. change (zd_wp zdemo_rw_zone) with 0 in Hf. change (lbas_per_zrwa zdemo_rw) with 16 in Hf.
    change (lbas_per_zrwafg zdemo_rw) with 8 in Hf. change (rw_slba _ + _ - 1) with 23 in Hf.
    destruct Hf as [[k Hk] Hf]; [by apply Z.leb_le|]. lia. }
  destruct (Hr eq_refl eq_refl) as (room & Hroom & Hok). rewrite Ha in Hroom. injection Hroom as <-.
  assert (ok = true) as -> by (apply Hok; by apply Z.leb_le).
  exists f, h, f', h', ret', (zone_slid zdemo_rw 0 zdemo_rw_zone 8). split; [exact E|]. split; [by apply Hst|].
  split; [exact Hg|reflexivity].
Defined.

(** All four zones, into one page of the host. *)
Definition zreport : nvmev_request :=
  mk_nvmev_request (mk_nvme_command nvme_cmd_zone_mgmt_recv 0 0 1 0 0 0 8192 0 0 0 79 0 0 0) 1 100.

Lemma zreport_addr k : 0 <= k < 320 -> prp_addr (fun _ => 0) 8192 0 320 k = 8192 + k.
Proof.
  intros Hk. unfold prp_addr, prp_first. change (4096 - 8192 mod 4096) with 4096.
  by rewrite (proj2 (Z.ltb_lt k 4096)) by lia.
Qed.

Lemma zone_report_delivered_witness : exists f f' host',
  zns_zmgmt_recv f (fun _ => 0) zreport = Ok (f', host', mk_nvmev_result NVME_SC_SUCCESS 100) /\
  host' 8192 = nth 0 (report_buffer f') 0 /\ report_entry (report_buffer f') 2 = zd_bytes (zone_0 128 64).
Proof.
  destruct (zdemo_ftl zdemo ltac:(by left)) as (f & h & I & _ & _ & _ & _ & Hz).
  assert (Hn : zones_to_report f (req_cmd zreport) 0 = 4).
  { unfold zones_to_report. rewrite (zi_zp _ _ _ I). done. }
  destruct (zone_report_delivered (tiny 16) zdemo f (fun _ => 0) zreport (zdemo_geom zdemo ltac:(by left)) I)
    as (f' & host' & E & _ & _ & Hrep & Hc).
  - by split.
  - done.
  - done.
  - change (zmr_slba (req_cmd zreport) / zlbas zdemo) with 0. by rewrite Hn.
  - done.
  - by split.
  - split; [|done]. intros j k Hj Hk. change (zmr_bytes (req_cmd zreport)) with 320 in *.
    change (prp1 (req_cmd zreport)) with 8192. change (prp2 (req_cmd zreport)) with 0.
    rewrite !zreport_addr by done. lia.
  - exists f, f', host'. split; [exact E|]. split.
    + change (nth 0 (report_buffer f') 0) with (nth (Z.to_nat 0) (report_buffer f') 0).
      by rewrite <- (Hc 0) by done.
    + change (zmr_slba (req_cmd zreport) / zlbas zdemo) with 0 in Hrep. rewrite Hn in Hrep.
      destruct Hrep as [_ Hrep]. destruct I as [_ _ _ _ _ _ _ _ _ _]. by apply (Hrep 2); [|apply (Hz 2)].
Defined.

Lemma zone_pages_striped_witness : exists f ppa,
  __lpn_to_ppa f 11 = Ok ppa /\ ppa_pg ppa = 1.
Proof.
  destruct (zdemo_ftl zdemo ltac:(by left)) as (f & h & I & _).
  destruct (zone_pages_striped (tiny 16) zdemo f 1 3 (zdemo_geom zdemo ltac:(by left)) I) as (ppa & E & Hg & _);
    [by split|by split|]. exists f, ppa. split; [exact E|exact Hg].
Defined.

Lemma zns_init_zn540_witness : exists zpp0 ns pcie wb,
  zns_init_namespace WD_ZN540_flash WD_ZN540_zones zpp0 (replicate 384 7) (fun _ => 0) (4 * GB 2) 0 = Ok (ns, pcie, wb).
Proof.
  destruct (zns_init_zn540 4 zdemo (replicate 384 7) (fun _ => 0) 0 ltac:(lia) eq_refl)
    as (spp & z & ns & pcie & wb & E & _). by exists zdemo, ns, pcie, wb.
Defined.
