(* ===== verification/IoTheorems.v ===== *)
(** * IoTheorems: what queues and workers guarantee

    However dispatcher and workers interleave, every request that was queued is
    either in flight or completed exactly once and in time; requests are kept in
    the order of their completion; the host receives completions in order; the
    data of a write or append is what a later read returns. *)
From Stdlib Require Import Strings.String.
From stdpp Require Import base list numbers sorting sets.
From Stdlib Require Import ZArith Lia.
From S2P Require Import Prelude ChannelModel SsdConfig Ssd SsdFacts Nvme Prp PrpFacts.
From S2P Require Import WorkQueue WorkQueueSpec IoDev DmaChan IoDma IoQueue IoSteps IoCalls CqRing IoDeliver.
From S2P Require Import ZnsData ZnsIo ZnsMgmt ZnsInv ZnsState ZnsWrite ZnsCmd ZnsProc IoFtl.
From S2P Require Import ConvInit Demo ZnsTheorems.

Open Scope Z_scope.
Open Scope nvmev_scope.

Section Queue.
Context {F : Type} `{IoHandler F} `{Clock}.
Implicit Type d : nvmev_dev F.

(** C4: In every interleaving of dispatcher and workers after initialisation, the entries that
    appear in the completion rings (read off the rings before and after each step) correspond one
    to one to requests: each carries submission queue, slot and command id of its request, stands
    in the queue of that request and appears not before its target time, and the requests queued
    are, as a multiset, those so answered and those still in the work queues. So no request is
    lost, answered twice or answered early; one is turned away, with no change of the device, only
    when a single free item is left. *)
Theorem io_exactly_once d evs s :
  0 < d_nr_io_workers d < 4294967296 ->
  exists d0, NVMEV_IO_WORKER_INIT d = Ok d0 /\
    (io_steps (d0, all_idle) evs s ->
     (exists ts, Forall2 completes ts (posted evs) /\ submitted evs ≡ₚ ts ++ dev_pending s.1) /\
     forall sqid cqid ent t0 ret q cmd, get_sq s.1 sqid = Ok q -> sq_entry q ent = Ok cmd ->
     exists d', __enqueue_io_req s.1 sqid cqid ent t0 ret = Ok d' /\
       (enqueue_event s.1 sqid cqid ent ret =
          [EvSubmit (mk_tag sqid cqid ent (command_id cmd) (ret_nsecs_target ret))] \/
        enqueue_event s.1 sqid cqid ent ret = [] /\ d' = s.1 /\
          exists turn k, get_worker s.1 turn = Ok k /\ worker_full k)).
Proof.
  intros Hn. destruct (init_inv d Hn) as (d0 & E & I & Hp). exists d0. split; [done|]. intros Hs.
  destruct (io_steps_inv _ _ _ Hs I) as (I' & ts & T & B). simpl in B. rewrite Hp, app_nil_r in B.
  split; [by exists ts|]. destruct s as [d1 pcs]. intros sqid cqid ent t0 ret q cmd. simpl.
  by apply (enqueue_total d1 pcs).
Qed.

Theorem io_calls_are_steps d pcs wi fuel sqid new_db old_db :
  (forall db d', nvmev_proc_io_sq d sqid new_db old_db = Ok (db, d') ->
     exists evs, io_steps (d, pcs) evs (d', pcs)) /\
  (forall d', pcs wi = PcIdle -> nvmev_io_worker_round fuel d wi = Ok d' ->
     exists evs pcs', io_steps (d, pcs) evs (d', pcs') /\ pcs' wi = PcIdle /\ forall j, j <> wi -> pcs' j = pcs j).
Proof. split; intros; [by eapply proc_io_sq_steps|by eapply worker_round_steps]. Qed.

Context `{!IoHandlerEnds F}.

Theorem worker_scan_completes d pcs wi k delta :
  io_inv (d, pcs) -> get_worker d wi = Ok k ->
  (forall n w, w ∈ walk (length (work_queue k)) k (io_seq k) -> w_nsecs_target w <= u64 (cpu_clock n + delta)) ->
  match worker_scan (length (work_queue k)) d wi (io_seq k) delta with
  | Ok d' => exists k', get_worker d' wi = Ok k' /\ worker_pending k' = [] /\
      exists k'', reclaim_worker k' = Ok k'' /\ io_seq k'' = NIL
  | NoFuel => False
  | _ => True
  end.
Proof.
  intros I Hk Hlate. destruct (round_lists _ _ _ _ I Hk) as (Hcf & io & fr & W & Hio & _ & Hlen & Hin).
  assert (Ht : forall n x, x ∈ io -> target_at k x <= u64 (cpu_clock n + delta)).
  { intros n x Hx. destruct (Hin x Hx) as (w & Hw & Hx'). unfold target_at. rewrite Hw. by apply Hlate. }
  rewrite Hio. pose proof (scan_drains (length (work_queue k)) d wi delta k io fr [] io Hk W eq_refl Hlen Ht Hcf
    ltac:(constructor) ltac:(done)) as Hs.
  destruct (worker_scan _ _ _ _ _) as [d'| | |]; try done. destruct Hs as (k' & Hk' & W' & Hf & Ht' & Hn).
  exists k'. split; [done|]. split; [by apply (finished_pending k' io fr)|].
  destruct (finished_reclaimed k' io fr W' Hf) as (k'' & E & W''); [|exists k''; split; [done|apply W'']].
  intros x Hx. assert (Hi : io <> []) by (intros ->; by apply elem_of_nil in Hx).
  destruct (Hn Hi) as [n ->]. rewrite Ht' by done. by apply Ht.
Qed.

(** C17: When the times of all its requests have come, a round of a worker puts the requests that
    complete into a queue into its ring, each once and in the order of the work list: a host that
    polls the ring by the phase bit reads their queue, slot and command id, across the wrap of the
    ring; the list of the worker is empty of requests then, and the vector of the queue is
    signalled if the queue belongs to the worker. Faults of the FTL excepted, the round ends. *)
Theorem worker_round_delivers d pcs wi k cqid q T :
  io_inv (d, pcs) -> get_worker d wi = Ok k -> get_cq d cqid = Ok q -> cq_at q T -> 0 <= d_nr_cq d ->
  let ts := for_cq cqid (worker_pending k) in
  let size := cq_queue_size q in
  Z.of_nat (length ts) <= size ->
  (forall n w, w ∈ walk (length (work_queue k)) k (io_seq k) ->
     w_nsecs_target w <= u64 (cpu_clock n + (cpu_clock (d_clk d) - cpu_clock (S (d_clk d))))) ->
  match nvmev_io_worker_round (length (work_queue k)) d wi with
  | Ok d' => exists k' q' l, get_worker d' wi = Ok k' /\ worker_pending k' = [] /\
      get_cq d' cqid = Ok q' /\ cq_at q' (T + Z.of_nat (length ts)) /\
      map cqe_seen (host_poll (S (length ts)) (cq_entries q') size (T mod size) (phase_at size T)) = map tag_seen ts /\
      d_irqs d' = d_irqs d ++ l /\
      (ts <> [] -> cq_irq_enabled q = true -> 1 <= cqid <= d_nr_cq d ->
       __get_io_worker d cqid = Ok (worker_id k) -> cq_irq_vector q ∈ l)
  | NoFuel => False
  | _ => True
  end.
Proof.
  intros I Hk Hq C Hncq ts size Hroom Hlate. destruct (round_lists _ _ _ _ I Hk) as (Hcf & io & fr & W & Hio & Hpend & Hlen & Hin).
  unfold nvmev_io_worker_round. cbn [local_clock]. set (d0 := set_dclk _ _).
  rewrite (Hk : get_worker d0 wi = _). cbn [obind]. set (delta := _ - _) in *. rewrite Hio.
  assert (Ht : forall n x, x ∈ io -> target_at k x <= u64 (cpu_clock n + delta)).
  { intros n x Hx. destruct (Hin x Hx) as (w & Hw & Hx'). unfold target_at. rewrite Hw. by apply Hlate. }
  pose proof (scan_drains (length (work_queue k)) d0 wi delta k io fr [] io Hk W eq_refl Hlen Ht Hcf ltac:(constructor) ltac:(done)) as Hs.
  destruct (worker_scan _ _ _ _ _) as [d1| | |] eqn:E; try done. cbn [obind].
  destruct Hs as (k1 & Hk1 & W1 & Hf & _ & _).
  destruct (scan_posts _ d0 wi delta k io fr [] io d1 cqid q Hk W eq_refl Ht Hcf Hq E)
    as (ws & q1 & k1' & G1 & P1 & T1 & (I1 & I2 & I3) & Hk1' & Id). assert (k1' = k1) as -> by congruence.
  rewrite <- Hpend in T1. fold ts in T1. assert (Hl : length ts = length ws) by (by rewrite <- T1, length_map).
  destruct (post_all_polled q T ws C) as (q1' & P1' & C1 & Hpoll); [by rewrite <- Hl|]. assert (q1' = q1) as -> by congruence.
  destruct (post_all_same _ _ _ P1) as [(S1 & S2 & S3) Hrdy].
  pose proof (irqs_ends d1 wi) as He. destruct (worker_irqs d1 wi) as [d2| | |] eqn:E2; try done.
  destruct (irqs_signal _ _ _ _ _ _ E2 Hk1 G1) as (b & l & G2 & L2 & Hsig); [by rewrite I2|].
  destruct (worker_irqs_workers _ _ _ E2) as [D2 _]. exists k1, (set_interrupt_ready q1 b), l.
  split; [unfold get_worker; by rewrite D2|]. split; [by apply (finished_pending k1 io fr)|]. split; [done|]. rewrite Hl.
  split; [by destruct C1; split|]. split; [change (cq_entries (set_interrupt_ready q1 b)) with (cq_entries q1); unfold size; by rewrite Hpoll, cqes_seen, T1|]. split; [by rewrite L2, I1|].
  intros Hne Hen Hr Hg. rewrite <- S2. apply Hsig; [by rewrite I2|by unfold __get_io_worker in *; rewrite I3, Id|by rewrite S3|].
  apply Hrdy. intros ->. by rewrite <- T1 in Hne.
Qed.

End Queue.

(** ** The order of the requests *)
Definition ordered (hi : Z) (k : nvmev_io_worker) (x y : Z) : Prop :=
  target_at k x <= hi \/ target_at k x <= target_at k y.

(** C16: __insert_req_sorted puts a request into the list before every entry that is due later
    and behind entries that are due earlier or were due already at the last visit of the worker;
    the list stays sorted by target time up to those overdue entries and nothing else changes. *)
Theorem insert_keeps_order k io fr out e w hi :
  wq_lists k io fr (e :: out) -> work k e = Ok w -> w_next w = NIL -> w_prev w = NIL ->
  latest_nsecs k <= hi -> StronglySorted (ordered hi k) io ->
  exists k' a b, __insert_req_sorted e k (w_nsecs_target w) = Ok k' /\ io = a ++ b /\
    wq_lists k' (a ++ e :: b) fr out /\ same_queue (work_queue k) (work_queue k') /\
    StronglySorted (ordered hi k') (a ++ e :: b) /\
    Forall (fun x => w_nsecs_target w < target_at k x) b.
Proof.
  intros W Hw Hn Hp Hhi Hs.
  destruct (insert_req_sorted_spec k io fr out e w (w_nsecs_target w) W Hw Hn Hp)
    as (k' & a & b & E & -> & W' & S & _ & _ & Hl & He).
  exists k', a, b. split; [done|]. split; [done|]. split; [done|]. split; [done|].
  assert (Ht : forall x, target_at k' x = target_at k x).
  { intros x. by apply target_same. }
  assert (Hte : target_at k e = w_nsecs_target w) by (unfold target_at; by rewrite Hw).
  assert (Hb : Forall (fun x => w_nsecs_target w < target_at k x) b).
  { eapply Forall_impl; [exact Hl|]. intros x (v & Hv & _ & Hlt). unfold target_at. by rewrite Hv. }
  split; [|done]. apply (StronglySorted_weaken (ordered hi k)); [intros x y; unfold ordered; by rewrite !Ht|].
  apply StronglySorted_app in Hs as (Hab & Ha & Hbs). apply StronglySorted_app. split; [|split].
  - intros x y Hx [->|Hy]%elem_of_cons; [|by apply Hab]. destruct He as [->|He]; [by apply elem_of_nil in Hx|].
    assert (Hlast : target_at k (lastZ a) <= hi \/ target_at k (lastZ a) <= w_nsecs_target w).
    { destruct He as (v & Hv & [Hv1|Hv1]); unfold target_at; rewrite Hv; [left; lia|by right]. }
    assert (Hxl : x = lastZ a \/ ordered hi k x (lastZ a)).
    { destruct a as [|c a _] using rev_ind; [by apply elem_of_nil in Hx|]. rewrite lastZ_snoc in *.
      apply elem_of_app in Hx as [Hx|Hx%list_elem_of_singleton]; [|by left]. right.
      apply StronglySorted_app in Ha as (Hac & _ & _). apply Hac; set_solver. }
    unfold ordered. rewrite Hte. destruct Hxl as [->|[Hx1|Hx1]]; [done|by left|]. destruct Hlast; [left; lia|right; lia].
  - done.
  - apply StronglySorted_cons. split; [|done]. eapply Forall_impl; [exact Hb|]. intros y Hy. right. rewrite Hte. simpl in Hy. lia.
Qed.

(** ** The completion queue *)
(** A host that polls the phase bit of a completion queue with room receives exactly the
    completions posted, in order, with command id, status, queue and results as posted, across the
    wrap of the ring. *)
Theorem completions_delivered q T ws :
  cq_at q T -> Z.of_nat (length ws) <= cq_queue_size q ->
  exists q', post_all q ws = Ok q' /\ cq_at q' (T + Z.of_nat (length ws)) /\
    host_poll (S (length ws)) (cq_entries q') (cq_queue_size q) (T mod cq_queue_size q)
      (phase_at (cq_queue_size q) T) = cqes_from (cq_queue_size q) T ws.
Proof. apply post_all_polled. Qed.

(** ** The DMA copy *)
Section Dma.
Context `{DmaEngineLaws} {K : Type} `{DmaKernelLaws K}.

(** C20: ioat_dma_chan_set returns, and claims a channel (answers 0) exactly when none of this
    name is registered and one is available; once claimed, the copy through the engine, which
    merges adjacent pages into one submission, leaves physical memory as the page-wise copy leaves
    host pages and storage, for commands of at most 512 pages on the first namespace whose pages
    lie outside the storage. *)
Theorem dma_copy_equivalent fuel info0 k val phys storage dlen cmd :
  (length (free_channels k) < fuel)%nat -> dma_inv info0 -> (String.length val < CHANNEL_NAME_LEN)%nat ->
  strim val <> ""%string ->
  let len := __cmd_io_size cmd in
  let addr := prp_addr phys (prp1 cmd) (prp2 cmd) len in
  prp_wf phys (prp1 cmd) (prp2 cmd) len -> (io_dir cmd = PRP_TO_HOST -> prp_disjoint phys (prp1 cmd) (prp2 cmd) len) ->
  __cmd_io_offset cmd + len <= dlen -> len <= prp_first (prp1 cmd) + 511 * 4096 ->
  (forall k, 0 <= k < len -> 0 <= addr k < 18446744073709547520 /\ ~ (storage <= addr k < storage + dlen)) ->
  exists ret info k', ioat_dma_chan_set fuel info0 k val = Ok (ret, info, k') /\
    (ret = 0 <-> ~ registered info0 (strim val) /\ available k (strim val)) /\
    (ret = 0 ->
     exists phys' host' dev', __do_perform_io_using_dma info phys storage dlen cmd = Ok phys' /\
       __do_perform_io phys (fun a => phys (storage + a)) dlen cmd = Ok (host', dev') /\
       forall a, phys' a = if (storage <=? a) && (a <? storage + dlen) then dev' (a - storage) else host' a).
Proof.
  intros Hf I0 Hval Hname len addr Hw Hd Hdl Hp Ha.
  destruct (chan_set_claims fuel info0 k val Hf I0 Hval Hname) as (ret & info & k' & _ & Eset & _ & _ & _ & Hiff & Hdc & _).
  exists ret, info, k'. split; [done|]. split; [done|]. intros Hret. destruct (Hdc Hret) as (dc & Hchan & _). clear Hdc Hiff Eset Hret.
  set (off := __cmd_io_offset cmd) in *. pose proof (pw_len _ _ _ _ Hw) as Hpos.
  assert (Hoff : 0 <= off) by apply u64_range. assert (Hlen : len < 4294967296).
  { unfold len, __cmd_io_size, LBA_BITS. rewrite Z.shiftl_mul_pow2 by lia. pose proof (rw_length_range cmd). change (2 ^ 9) with 512. lia. }
  assert (Haddr : forall t, 0 <= t < len -> 0 <= addr t < 18446744073709547520) by (intros t Ht; by apply Ha).
  assert (Hap : forall t, 0 <= t < len -> ~ (storage + off <= addr t < storage + off + len)) by (intros t Ht; destruct (Ha t Ht); lia).
  unfold __do_perform_io_using_dma, __do_perform_io. fold off len.
  destruct (collect_spec phys (prp1 cmd) (prp2 cmd) off len dlen Hw Hdl Hp (Z.to_nat len) 0
    (mk_prp phys phys off len 0 0 None) (replicate NR_PADDR 0)) as (st & l & N & -> & <- & HN & Hend & Hlast & Hc).
  - done.
  - done.
  - by apply loop_start.
  - split; [done|]. intros i Hi. lia.
  - change (kpos (prp1 cmd) len 0) with 0. lia.
  - cbn [obind]. assert (HN0 : 0 < ps_prp_offs st).
    { destruct (decide (ps_prp_offs st = 0)) as [E|]; [|lia]. rewrite E in Hend. change (kpos (prp1 cmd) len 0) with 0 in Hend. lia. }
    destruct (transfer_spec info dc Hchan phys (prp1 cmd) (prp2 cmd) off len storage Hw Hp Haddr l (ps_prp_offs st) Hc HN0 (Hlast HN0) Hend
      Hlen Hap (Z.to_nat len) (io_dir cmd) 0 phys Hd ltac:(lia)) as (m & Em & Hm).
    + apply dma_done_0.
    + change (kpos (prp1 cmd) len 0) with 0. lia.
    + change (kpos (prp1 cmd) len 0) with 0 in Em. change (0 + 1) with 1 in Em. rewrite Z.add_0_r, Z.sub_0_r in Em. rewrite Em.
      destruct (prp_transfer_spec phys (fun a => phys (storage + a)) (prp1 cmd) (prp2 cmd) off len dlen Hw (io_dir cmd) Hd Hdl)
        as (host & dev & -> & Hcp). exists m, host, dev. split; [done|]. split; [done|]. intros a.
      by apply (dma_split phys (prp1 cmd) (prp2 cmd) off len dlen storage Hoff Hdl (fun k Hk => proj2 (Ha k Hk)) (io_dir cmd)).
Qed.
End Dma.

(** ** The data of a zone append *)
Section Append.
Context `{ClockRange}.
Variables (spp : ssdparams) (z : znsparams).
Notation zl := (zlbas z).

Lemma set_rw_slba_get c v : 0 <= v < 4294967296 -> rw_slba (set_rw_slba c v) = v.
Proof.
  intros Hv. unfold rw_slba, set_rw_slba. simpl. rewrite (Z.shiftr_div_pow2 v 32) by lia.
  rewrite Z.div_small by (change (2 ^ 32) with 4294967296; lia). rewrite (u32_id v) by lia. change (Z.shiftl (u32 0) 32) with 0. lia.
Qed.

(** The bytes of a transfer whose sectors lie in the storage. *)
Lemma perform_bytes c lba n :
  rw_slba c = lba -> nlb c = n -> 0 <= lba -> lba + n <= 4294967296 ->
  __cmd_io_offset c = lba * 512 /\ __cmd_io_size c = n * 512.
Proof.
  intros E1 E2 H1 H2. unfold __cmd_io_offset, __cmd_io_size. rewrite E1. pose proof (nlb_range c) as Hn. rewrite E2 in Hn.
  change (rw_length c + 1) with (nlb c). rewrite E2. unfold LBA_BITS. rewrite !Z.shiftl_mul_pow2 by lia.
  change (2 ^ 9) with 512. rewrite u64_id by lia. done.
Qed.

(** The hardware that the FTL of a namespace sees at clock [clk]. *)
Definition store_hw (s : zns_store) (clk : nat) : hw := mk_hw (zs_pcie s) (zs_wb s) clk [].

(** What the FTL does with an append that the zone and its buffer can take. *)
Lemma append_admitted s clk host req ret i d :
  zgeom spp z -> ns_inv spp z (zs_ns s) -> hw_ok (store_hw s clk) ->
  u64_ok (req_nsecs_start req) -> opcode (req_cmd req) = nvme_cmd_zone_append ->
  0 <= rw_slba (req_cmd req) < nr_zones z * zl -> i = rw_slba (req_cmd req) / zl ->
  get_zone (zn_ftl (zs_ns s)) i = Ok d -> zrwav d = 0 ->
  admissible spp z (zn_ftl (zs_ns s)) i d (zd_wp d) (nlb (req_cmd req)) ->
  (forall room, buffer_room (zn_ftl (zs_ns s)) (store_hw s clk) i = Ok room -> nlb (req_cmd req) * 512 <= room) ->
  exists o, proc_io_cmd s clk host req ret = Ok o /\
    o_ok o = true /\ ret_status (o_ret o) = NVME_SC_SUCCESS /\
    o_cmd o = set_rw_slba (req_cmd req) (zd_wp d) /\ o_host o = host /\
    zn_size (zs_ns (o_ns o)) = zn_size (zs_ns s).
Proof.
  intros G [N1 N2 N3] Hh Hst Hop Hs Ei Hd Hz Ha Hroom. simpl. unfold zns_handler_proc, zns_proc_nvme_io_cmd.
  rewrite N1, N2. cbn [Z.eqb NVME_CSI_ZNS Pos.eqb]. rewrite Hop. change (nvme_cmd_zone_append =? nvme_cmd_write) with false.
  rewrite Z.eqb_refl. cbn [orb].
  rewrite (zns_write_plain spp z (zn_ftl (zs_ns s)) _ req ret i d G N3 Hs Ei Hd), Hz. cbn [Z.eqb].
  destruct (__zns_write_spec spp z G (zn_ftl (zs_ns s)) _ req ret i d N3 Hh Hst Hs Ei Hd)
    as (ok & f' & h' & ret' & E & [_ _ (room & Hr & Hok) W4] & _).
  assert (ok = true) as -> by (apply Hok, Hroom, Hr). unfold write_lba in W4. rewrite Hop, Z.eqb_refl in W4.
  fold (store_hw s clk). rewrite E. cbn [obind zd_hw zd_ok zd_ns zd_host zd_cmd zd_ret]. eexists. split; [reflexivity|]. simpl.
  unfold write_cmd. rewrite Hop, Z.eqb_refl. split; [done|]. split; [|done].
  by destruct W4 as [(_ & Est & _)|([?|[_ Hna]] & _)].
Qed.

(** C19: A zone append that the zone and its buffer can take succeeds and writes its start
    address back into the command; the worker that then performs it stores the bytes of the host
    at that address and nowhere else, and a read of these sectors returns them. *)
Theorem append_read_back s clk host req ret i d :
  zgeom spp z -> ns_inv spp z (zs_ns s) -> hw_ok (store_hw s clk) ->
  u64_ok (req_nsecs_start req) -> opcode (req_cmd req) = nvme_cmd_zone_append ->
  0 <= rw_slba (req_cmd req) < nr_zones z * zl -> i = rw_slba (req_cmd req) / zl ->
  get_zone (zn_ftl (zs_ns s)) i = Ok d -> zrwav d = 0 ->
  nr_zones z * zl * 512 <= zn_size (zs_ns s) ->
  admissible spp z (zn_ftl (zs_ns s)) i d (zd_wp d) (nlb (req_cmd req)) ->
  (forall room, buffer_room (zn_ftl (zs_ns s)) (store_hw s clk) i = Ok room -> nlb (req_cmd req) * 512 <= room) ->
  let cmd := req_cmd req in
  let len := nlb cmd * 512 in
  exists o, proc_io_cmd s clk host req ret = Ok o /\
    o_ok o = true /\ ret_status (o_ret o) = NVME_SC_SUCCESS /\
    (forall host1 st r, prp_wf host1 (prp1 cmd) (prp2 cmd) len ->
     exists s1, perform_io (o_ns o) host1 (o_cmd o) st r = Ok (s1, host1, st, r) /\
       (forall a, ~ (zd_wp d * 512 <= a < zd_wp d * 512 + len) ->
          zf_storage (zn_ftl (zs_ns s1)) a = zf_storage (zn_ftl (zs_ns (o_ns o))) a) /\
       forall rc host2 st2 r2, opcode rc = nvme_cmd_read -> rw_slba rc = zd_wp d -> nlb rc = nlb cmd ->
       prp_wf host2 (prp1 rc) (prp2 rc) len -> prp_disjoint host2 (prp1 rc) (prp2 rc) len ->
       exists s2 host3, perform_io s1 host2 rc st2 r2 = Ok (s2, host3, st2, r2) /\
         forall k, 0 <= k < len ->
           host3 (prp_addr host2 (prp1 rc) (prp2 rc) len k) = host1 (prp_addr host1 (prp1 cmd) (prp2 cmd) len k)).
Proof.
  intros G N Hh Hst Hop Hs Ei Hd Hz Hsz Had Hroom cmd len.
  destruct (append_admitted s clk host req ret i d G N Hh Hst Hop Hs Ei Hd Hz Had Hroom)
    as (o & E & Hok & Hst0 & Ec & _ & Esz).
  exists o. split; [done|]. split; [done|]. split; [done|]. intros host1 st r Hwf. fold cmd in Ec.
  destruct (zone_bounds spp z G _ i d (nz_ftl _ _ _ N) Hd) as (Hi & [_ _ K3 _ _] & Hz0 & Hend & Hcap).
  pose proof (nlb_range cmd) as Hn. pose proof (ad_fits _ _ _ _ _ _ _ Had) as Hfit. fold cmd in Hfit.
  assert (Hin : zd_wp d + nlb cmd <= nr_zones z * zl) by (unfold zone_end in *; lia).
  assert (Hwp : 0 <= zd_wp d) by nia.
  assert (Hsl : rw_slba (o_cmd o) = zd_wp d) by (rewrite Ec; apply set_rw_slba_get; lia).
  assert (Hnl : nlb (o_cmd o) = nlb cmd) by (by rewrite Ec).
  destruct (perform_bytes (o_cmd o) (zd_wp d) (nlb cmd) Hsl Hnl) as [Eo El]; [lia|lia|].
  simpl. unfold zns_handler_perform, __do_perform_io. rewrite Eo, El, Esz.
  assert (Ed : io_dir (o_cmd o) = PRP_TO_DEV) by (unfold io_dir; rewrite Ec; simpl; by rewrite (Hop : opcode cmd = _)).
  rewrite Ed, Ec. change (prp1 (set_rw_slba cmd (zd_wp d))) with (prp1 cmd). change (prp2 (set_rw_slba cmd (zd_wp d))) with (prp2 cmd). fold len.
  destruct (prp_transfer_spec host1 (zf_storage (zn_ftl (zs_ns (o_ns o)))) (prp1 cmd) (prp2 cmd) (zd_wp d * 512) len
    (zn_size (zs_ns s)) Hwf PRP_TO_DEV) as (h1 & dev & -> & -> & Hdev); [done|unfold len; lia|].
  cbn [obind]. eexists. split; [reflexivity|]. simpl. split.
  - intros a Ha. rewrite Hdev. destruct (Z.leb_spec (zd_wp d * 512) a), (Z.ltb_spec a (zd_wp d * 512 + len)); simpl; lia || done.
  - intros rc host2 st2 r2 Hrop Hrs Hrn Hrw Hrd.
    destruct (perform_bytes rc (zd_wp d) (nlb cmd) Hrs Hrn) as [Eo2 El2]; [lia|lia|].
    rewrite Eo2, El2, Esz. assert (Ed2 : io_dir rc = PRP_TO_HOST) by (unfold io_dir; by rewrite Hrop). rewrite Ed2. fold len.
    destruct (prp_transfer_spec host2 dev (prp1 rc) (prp2 rc) (zd_wp d * 512) len (zn_size (zs_ns s)) Hrw PRP_TO_HOST)
      as (h3 & dev2 & -> & _ & Hh3 & _); [done|unfold len; lia|].
    cbn [obind]. eexists _, h3. split; [reflexivity|]. intros k Hk. rewrite Hh3 by done. rewrite Hdev.
    rewrite (proj2 (Z.leb_le _ _)), (proj2 (Z.ltb_lt _ _)) by lia. simpl. f_equal. f_equal. lia.
Qed.
End Append.

(** The initial worker has 16384 items: it is not computed. *)
Lemma nr_pos : 1 < NR_MAX_PARALLEL_IO.
Proof. done. Qed.
#[local] Opaque init_worker NR_MAX_PARALLEL_IO.

(** ** Witnesses: a device with one queue of two commands and one worker *)
Definition demo_cmd : nvme_command := mk_nvme_command nvme_cmd_write 0 5 1 0 0 0 8192 0 0 0 7 0 0 0.
Definition demo_sq : nvmev_submission_queue := mk_sq 1 1 0 true 2 (mk_stat 0 0 0 0 0) [demo_cmd; demo_cmd].
Definition demo_cq : nvmev_completion_queue :=
  mk_cq 1 0 true false true 2 1 0 (-1) [mk_cqe 0 0 0 0 0 0; mk_cqe 0 0 0 0 0 0].
Definition demo_dev : nvmev_dev zns_store :=
  mk_dev [None; Some demo_sq] [None; Some demo_cq] [] (fun _ => 0) 0%nat [] 0 1 1 1 [].

Lemma init_queues {F} (d d0 : nvmev_dev F) : NVMEV_IO_WORKER_INIT d = Ok d0 -> d_sqes d0 = d_sqes d.
Proof. unfold NVMEV_IO_WORKER_INIT. destruct (forO _ _ _ _); try done. by intros [= <-]. Qed.

Lemma demo_workers : 0 < d_nr_io_workers demo_dev < 4294967296.
Proof. done. Qed.

Lemma demo_start : exists d0, NVMEV_IO_WORKER_INIT demo_dev = Ok d0 /\ io_inv (d0, all_idle) /\
  get_sq d0 1 = Ok demo_sq.
Proof.
  destruct (init_inv demo_dev demo_workers) as (d0 & E & I & _). exists d0. split; [done|]. split; [done|].
  unfold get_sq. by rewrite (init_queues _ _ E).
Qed.

(** One request, queued and in flight. *)
Lemma io_exactly_once_witness : exists d0 evs s,
  NVMEV_IO_WORKER_INIT demo_dev = Ok d0 /\ io_steps (d0, all_idle) evs s /\
  exists ts, Forall2 completes ts (posted evs) /\ submitted evs ≡ₚ ts ++ dev_pending s.1.
Proof.
  destruct demo_start as (d0 & E & I & Hq).
  destruct (enqueue_total d0 all_idle 1 1 0 0 (mk_nvmev_result 0 7) demo_sq demo_cmd I Hq eq_refl) as (d1 & E1 & _).
  set (evs := enqueue_event d0 1 1 0 (mk_nvmev_result 0 7)).
  assert (Hs : io_steps (d0, all_idle) evs (d1, all_idle)).
  { apply io_steps_one. by eapply st_enqueue. }
  exists d0, evs, (d1, all_idle). split; [exact E|]. split; [exact Hs|].
  destruct (io_exactly_once demo_dev evs (d1, all_idle) demo_workers) as (d0' & E' & Hx).
  assert (d0' = d0) as -> by congruence. by apply Hx.
Defined.


(** The request of [demo_cmd] in the list of the worker, due at time 0; an
    earlier visit has copied its data. *)
Definition demo_fill : nvmev_io_work -> nvmev_io_work := fill_request 1 1 0 5 0 0 (mk_nvmev_result 0 0).
Definition demo_copied (w : nvmev_io_work) : nvmev_io_work := set_copied (demo_fill w) 0 0.
Definition demo_at (k : nvmev_io_worker) : nvmev_dev zns_store := set_workers demo_dev [k] 0.

Lemma demo_queued : exists k e w0 p, io_inv (demo_at k, all_idle) /\ worker_id k = 0 /\
  io_seq k = e /\ e <> NIL /\ work k e = Ok (set_links (demo_copied w0) NIL p) /\
  walk (length (work_queue k)) k (io_seq k) = [set_links (demo_copied w0) NIL p] /\ (0 < length (work_queue k))%nat.
Proof.
  destruct (init_worker_spec 0) as (k0 & _ & W & Hid & _ & Hw0).
  destruct (take_free_spec k0 [] _ W) as (e & fr & Efr & _ & Hmore).
  assert (Hfr : fr <> []).
  { intros Hf. apply (f_equal length) in Efr. rewrite Hf, length_seqZ in Efr. simpl in Efr. pose proof nr_pos. lia. }
  destruct (Hmore Hfr) as (k1 & _ & W1 & Q & _ & Hid1). clear Efr Hmore.
  assert (Hr : forall x w, work k1 x = Ok w -> same_work work_0 w).
  { intros x w. unfold work. rewrite Q. apply Hw0. }
  destruct (wl_work _ _ _ _ W1 e) as [w Hw]; [apply (wl_range _ _ _ _ W1); set_solver|].
  destruct (fill_insert_spec k1 [] fr e w demo_copied 0 W1 Hw eq_refl eq_refl)
    as (k2 & k & a & b & _ & _ & Eab & W' & _ & Hid2 & Hs & (v & Hv & (n & p & ->))).
  destruct a, b; try discriminate Eab. simpl in W'.
  pose proof (wl_io_next _ _ _ _ W') as [(u & Hu & Hn) _]. assert (Ene : e <> NIL) by (apply (wl_not_nil _ _ _ _ W'); set_solver).
  simpl in Hn. assert (u = set_links (demo_copied w) n p) as -> by (unfold work in Hv; congruence). simpl in Hn. subst n.
  exists k, e, w, p. rewrite (wl_io _ _ _ _ W'), (wl_len _ _ _ _ W'). split; [split|]; simpl.
  - done.
  - done.
  - intros i kj Hi. apply nthZ_Ok in Hi as [_ Hi]. apply list_lookup_singleton_Some in Hi as [_ <-].
    split; [|by exists [e], fr]. intros x u Hx Hd. destruct (decide (x = e)) as [->|Hne].
    + rewrite Hv in Hx. injection Hx as <-. discriminate Hd.
    + destruct (work_back k1 k x u) as [u1 Hu1]; [by rewrite (wl_len _ _ _ _ W'), (wl_len _ _ _ _ W1)|done|].
      destruct (Hs x u1 Hne Hu1) as (u2 & Hu2 & (n2 & p2 & ->)). rewrite Hu2 in Hx. injection Hx as <-.
      destruct (Hr x u1 Hu1) as (n3 & p3 & ->). discriminate Hd.
  - assert (En : Z.to_nat NR_MAX_PARALLEL_IO = S (Z.to_nat (NR_MAX_PARALLEL_IO - 1))) by (pose proof nr_pos; lia).
    split; [congruence|]. split; [done|]. split; [done|]. split; [done|]. rewrite En. split; [|lia].
    simpl. change (hdZ [e]) with e. rewrite (proj2 (Z.eqb_neq e NIL) Ene). rewrite Hv. simpl.
    assert (Ew : forall m, walk m k NIL = []) by (by intros []). by rewrite Ew.
Qed.

(** The scan of this list returns. *)
Lemma demo_scan k e w0 p n delta clk : worker_id k = 0 -> e <> NIL -> work k e = Ok (set_links (demo_copied w0) NIL p) ->
  exists d', worker_scan (S n) (set_dclk (demo_at k) clk) 0 e delta = Ok d' /\ exists d2, worker_irqs d' 0 = Ok d2.
Proof.
  intros Hid He Hw. simpl. rewrite (proj2 (Z.eqb_neq e NIL) He). unfold worker_visit.
  change (get_worker (set_dclk (demo_at k) clk) 0) with (Ok k). cbn [obind local_clock]. rewrite Hw. cbn [obind].
  change (w_is_completed (set_links (demo_copied w0) NIL p)) with false. cbn [copy_data].
  unfold copy_data. change (w_is_copied (set_links (demo_copied w0) NIL p)) with true. cbn [obind].
  rewrite (proj2 (Z.leb_le _ _)) by (apply u64_range). set (now := u64 _).
  unfold complete. change (w_is_internal (set_links (demo_copied w0) NIL p)) with false.
  destruct (with_work_ex (set_latest k now) e (fun _ => set_completed (set_links (demo_copied w0) NIL p)) _ Hw) as (q & E & _ & Eq).
  rewrite E. clear E.
  change (S (d_clk (set_dclk (demo_at k) clk))) with (S clk). set (d1 := set_dclk (set_dclk (demo_at k) clk) (S clk)).
  assert (Hf : exists es, __fill_cq_result d1 (set_links (demo_copied w0) NIL p) =
    Ok (set_cqes d1 [None; Some (mk_cq 1 0 true true true 2 1 1 (-1) es)])) by (eexists; reflexivity).
  destruct Hf as [es Hf]. rewrite Hf. cbn [obind].
  set (k2 := set_queue (set_latest k now) q).
  set (d3 := set_workers (set_cqes d1 [None; Some (mk_cq 1 0 true true true 2 1 1 (-1) es)]) [k2] 0).
  change (put_worker (set_cqes d1 [None; Some (mk_cq 1 0 true true true 2 1 1 (-1) es)]) 0 k2) with (Ok d3).
  cbn [obind]. change (get_worker d3 0) with (Ok k2). cbn [obind]. unfold work. simpl (work_queue k2). rewrite Eq, Z.eqb_refl.
  cbn [obind]. exists d3. split; [by destruct n|].
  assert (Hi : worker_irqs d3 0 = Ok (set_irqs (set_cqes d3 [None; Some (mk_cq 1 0 true false true 2 1 1 (-1) es)]) [0])).
  { unfold worker_irqs. change (get_worker d3 0) with (Ok k2). cbn [obind]. change (worker_id k2) with (worker_id k).
    rewrite Hid. reflexivity. }
  eexists. exact Hi.
Qed.

Lemma worker_scan_completes_witness : exists k d' k',
  worker_pending k <> [] /\ worker_scan (length (work_queue k)) (demo_at k) 0 (io_seq k) 0 = Ok d' /\
  get_worker d' 0 = Ok k' /\ worker_pending k' = [].
Proof.
  destruct demo_queued as (k & e & w0 & p & I & Hid & He & Hne & Hw & Hl & Hn).
  destruct (demo_scan k e w0 p (length (work_queue k) - 1) 0 0 Hid Hne Hw) as (d' & E & _).
  rewrite <- He in E. replace (S (length (work_queue k) - 1)) with (length (work_queue k)) in E by lia.
  pose proof (worker_scan_completes (demo_at k) all_idle 0 k 0 I eq_refl) as Hs.
  rewrite (E : worker_scan _ (demo_at k) 0 _ _ = _), Hl in Hs.
  destruct Hs as (k' & Hk' & Hp' & _).
  { intros n v. intros ->%list_elem_of_singleton. apply u64_range. }
  exists k, d', k'. split; [unfold worker_pending; rewrite Hl; discriminate|]. split; [exact E|]. by split.
Defined.

Lemma demo_cq_at : cq_at demo_cq 0.
Proof. split; simpl; [lia|lia|done|done|]. intros j Hj. assert (j = -2 \/ j = -1) as [-> | ->] by lia; by eexists. Qed.

(** The host reads the completion of command 5 and the vector is signalled. *)
Lemma worker_round_delivers_witness : exists k d' q',
  nvmev_io_worker_round (length (work_queue k)) (demo_at k) 0 = Ok d' /\ get_cq d' 1 = Ok q' /\
  map cqe_seen (host_poll 2 (cq_entries q') 2 0 1) = [(1, 0, 5)] /\ 0 ∈ d_irqs d'.
Proof.
  destruct demo_queued as (k & e & w0 & p & I & Hid & He & Hne & Hw & Hl & Hn).
  destruct (demo_scan k e w0 p (length (work_queue k) - 1) (cpu_clock 0 - cpu_clock 1) 2 Hid Hne Hw) as (d1 & E1 & d2 & E2).
  rewrite <- He in E1. replace (S (length (work_queue k) - 1)) with (length (work_queue k)) in E1 by lia.
  assert (Hp : worker_pending k = [mk_tag 1 1 0 5 0]) by (unfold worker_pending; rewrite Hl; reflexivity).
  assert (E : nvmev_io_worker_round (length (work_queue k)) (demo_at k) 0 = Ok d2).
  { unfold nvmev_io_worker_round. cbn [local_clock]. change (get_worker _ 0) with (Ok k). cbn [obind].
    transitivity (let* d := (Ok d1 : outcome (nvmev_dev zns_store)) in worker_irqs d 0); [|exact E2]. f_equal. exact E1. }
  pose proof (worker_round_delivers (demo_at k) all_idle 0 k 1 demo_cq 0 I eq_refl eq_refl demo_cq_at ltac:(done)) as Hs.
  rewrite E, Hp, Hl in Hs. destruct Hs as (k' & q' & l & _ & _ & G & _ & P & L & S).
  { done. }
  { intros n v. intros ->%list_elem_of_singleton. apply u64_range. }
  exists k, d2, q'. split; [exact E|]. split; [exact G|]. split; [exact P|]. rewrite L. apply S; [done|done|done|].
  rewrite Hid. reflexivity.
Defined.

Lemma completions_delivered_witness : exists q',
  post_all demo_cq [demo_fill work_0; demo_fill work_0] = Ok q' /\
  host_poll 3 (cq_entries q') 2 0 1 = cqes_from 2 0 [demo_fill work_0; demo_fill work_0].
Proof.
  destruct (completions_delivered demo_cq 0 [demo_fill work_0; demo_fill work_0] demo_cq_at ltac:(done)) as (q' & E & _ & Hp).
  exists q'. split; [exact E|exact Hp].
Defined.

(** The item off the lists goes before the request that is due later. *)
Lemma insert_keeps_order_witness : exists k e w k',
  work k e = Ok w /\ __insert_req_sorted e k (w_nsecs_target w) = Ok k' /\
  exists fr, wq_lists k' [e] fr [].
Proof.
  destruct (init_worker_spec 0) as (k0 & _ & W & _ & _ & Hw0).
  destruct (take_free_spec k0 [] _ W) as (e & fr & Efr & _ & Hmore).
  assert (Hfr : fr <> []).
  { intros Hf. apply (f_equal length) in Efr. rewrite Hf, length_seqZ in Efr. simpl in Efr. pose proof nr_pos. lia. }
  destruct (Hmore Hfr) as (k1 & _ & W1 & Q & _). clear Efr Hmore.
  destruct (wl_work _ _ _ _ W1 e) as [w Hw]; [apply (wl_range _ _ _ _ W1); set_solver|].
  destruct (with_work_ex k1 e demo_fill w Hw) as (q & _ & L & Eq).
  assert (W2 : wq_lists (set_queue k1 q) [] fr [e]).
  { apply lists_update; [done|done|]. intros x v Hx Hv. exists v. split; [|done]. rewrite Eq.
    rewrite (proj2 (Z.eqb_neq x e)); [done|]. intros ->. pose proof (wl_nodup _ _ _ _ W1) as Hn. simpl in Hx, Hn.
    apply NoDup_app in Hn as (_ & Hn & _). apply (Hn e Hx). set_solver. }
  assert (He : work (set_queue k1 q) e = Ok (demo_fill w)) by (unfold work; simpl; by rewrite Eq, Z.eqb_refl).
  destruct (insert_keeps_order (set_queue k1 q) [] fr [] e (demo_fill w) (latest_nsecs k1) W2 He eq_refl eq_refl
    (Z.le_refl _) (SSorted_nil _)) as (k' & a & b & E & Eab & W' & _).
  destruct a, b; try discriminate Eab. exists (set_queue k1 q), e, (demo_fill w), k'.
  split; [exact He|]. split; [exact E|]. by exists fr.
Defined.

(** Eight sectors from the host page at 8192, appended to the empty zone 1 and read back. *)
Lemma append_read_back_witness : exists s o host1,
  proc_io_cmd s 0%nat (fun _ => 5) (zcmd nvme_cmd_zone_append 64 7 0) (mk_nvmev_result 0 0) = Ok o /\
  o_ok o = true /\
  forall st r, exists s1, perform_io (o_ns o) host1 (o_cmd o) st r = Ok (s1, host1, st, r).
Proof.
  destruct (zdemo_ftl zdemo ltac:(by left)) as (f & h & I & Hh & Hb & _ & Hr & Hz).
  set (s := mk_zns_store (mk_zns_ns NVME_CSI_ZNS 1 131072 f) (hw_pcie h) (hw_write_buffer h)).
  destruct (append_read_back (tiny 16) zdemo s 0%nat (fun _ => 5) (zcmd nvme_cmd_zone_append 64 7 0)
    (mk_nvmev_result 0 0) 1 (zone_0 64 64) (zdemo_geom zdemo ltac:(by left)) ltac:(by split))
    as (o & E & Hok & _ & Ho); [done|done|done|by split|done|by apply Hz|done|done| | |].
  - split; [done|done|done|]. split; simpl; unfold is_zone_resource_full; rewrite Hr; done.
  - intros room. unfold buffer_room, s. simpl. rewrite (zi_zp _ _ _ I). simpl. rewrite Hb. intros [= <-]. done.
  - exists s, o, (fun a => a). split; [exact E|]. split; [exact Hok|]. intros st r.
    destruct (Ho (fun a => a) st r) as (s1 & E1 & _); [|by exists s1].
    split; [done|by intros|done].
Defined.

(** Three pages written by an engine that copies bytes, two of them adjacent:
    the engine gets two copies. *)
#[local] Instance demo_engine : DmaEngine := fun _ m dst src n => (Waited DMA_COMPLETE, memcpy m dst m src n).
#[local] Instance demo_engine_laws : DmaEngineLaws.
Proof. intros c m dst src n _. by eexists. Qed.
Definition demo_chans : list dma_chan := [mk_chan "dma7chan0"%string "dma7" true false].

Definition dma_cmd : nvme_command := mk_nvme_command nvme_cmd_write 0 5 1 0 0 0 8192 40960 0 0 23 0 0 0.
(** The list at 40960 names the pages 12288 and 20480. *)
Definition dma_phys : mem := fun a =>
  if a =? 40961 then 48 else if a =? 40969 then 80 else if (40960 <=? a) && (a <? 40976) then 0 else a mod 256.

Lemma dma_addr t : 0 <= t < 12288 ->
  prp_addr dma_phys (prp1 dma_cmd) (prp2 dma_cmd) 12288 t =
  if t <? 4096 then 8192 + t else if t <? 8192 then 12288 + (t - 4096) else 20480 + (t - 8192).
Proof.
  intros Ht. unfold prp_addr. change (prp_first (prp1 dma_cmd)) with 4096.
  change (prp_big (prp1 dma_cmd) 12288) with true. cbn iota. destruct (Z.ltb_spec t 4096); [done|].
  destruct (Z.ltb_spec t 8192).
  - assert ((t - 4096) / 4096 = 0) as -> by (apply Z.div_small; lia). rewrite Z.mod_small by lia. done.
  - assert ((t - 4096) / 4096 = 1) as -> by (symmetry; apply (Z.div_unique_pos _ _ _ (t - 8192)); lia).
    replace ((t - 4096) mod 4096) with (t - 8192) by (apply (Z.mod_unique_pos _ _ 1); lia). done.
Qed.

Lemma dma_cmd_wf : prp_wf dma_phys (prp1 dma_cmd) (prp2 dma_cmd) 12288.
Proof.
  split; [done|done|]. intros _ p Hp Hl. change (prp_first (prp1 dma_cmd)) with 4096 in Hl.
  assert (p = 0 \/ p = 1) as [-> | ->] by lia; by split.
Qed.

Lemma dma_copy_equivalent_witness : exists info k' phys' host' dev',
  ioat_dma_chan_set 2 test_info demo_chans "dma7chan0"%string = Ok (0, info, k') /\
  __do_perform_io_using_dma info dma_phys 1048576 65536 dma_cmd = Ok phys' /\
  __do_perform_io dma_phys (fun a => dma_phys (1048576 + a)) 65536 dma_cmd = Ok (host', dev') /\
  forall a, phys' a = if (1048576 <=? a) && (a <? 1048576 + 65536) then dev' (a - 1048576) else host' a.
Proof.
  destruct (dma_copy_equivalent 2 test_info demo_chans "dma7chan0"%string dma_phys 1048576 65536 dma_cmd)
    as (ret & info & k' & E & Hr & Hc);
    [simpl; lia|apply test_info_inv|unfold CHANNEL_NAME_LEN; simpl; lia|discriminate|exact dma_cmd_wf|done|done|done| |].
  - intros t Ht. change (__cmd_io_size dma_cmd) with 12288 in *. rewrite dma_addr by done.
    destruct (Z.ltb_spec t 4096); [lia|]. destruct (Z.ltb_spec t 8192); lia.
  - assert (H0 : ret = 0).
    { apply Hr. split; [intros Hx; by apply Exists_nil in Hx|]. by left. }
    subst ret. destruct (Hc eq_refl) as (phys' & host' & dev' & H1 & H2 & H3). by exists info, k', phys', host', dev'.
Defined.

(** What the engine is asked for: 8192 bytes from the first page, 4096 from the third. *)
Example dma_cmd_merged : dma_merge 511 [0; 8192; 12288; 20480] 3 2 4096 = Ok (3, 8192).
Proof. reflexivity. Qed.
