(* ===== verification/KvTheorems.v ===== *)
(** * KvTheorems: the key-value namespace as a map

    For keys of one length the commands implement a map from keys to values,
    whatever allocator is behind the table; iterators deliver the keys. *)
From stdpp Require Import base list numbers sets.
From Stdlib Require Import ZArith Lia.
From S2P Require Import Prelude ChannelModel Nvme Prp PrpFacts HostMem.
From S2P Require Import KvData KvFtl KvTable KvAlloc KvState KvCommands KvBatch KvIter.

Open Scope Z_scope.
Open Scope nvmev_scope.

Section Map.
Context {A : Type} {size : Z} `{AllocatorLaws A size} (klen : Z).
Implicit Type kv : kv_ftl A.

(** ** Initialisation: the empty map *)
Lemma init_entry slots s e : nthZ (replicate (Z.to_nat slots) entry_init) s = Ok e -> e = entry_init.
Proof. rewrite nthZ_Ok. intros [_ Hs]. by apply lookup_replicate in Hs as [-> _]. Qed.

Lemma kv_init_ok table_size a last :
  alloc_startable a -> 0 < size < 9223372036854775808 -> 0 <= klen <= 16 ->
  0 < table_size / KV_MAPPING_ENTRY_SIZE < SLOT_NONE ->
  exists kv, kv_init_ftl size table_size a last = Ok kv /\ kv_inv (size := size) klen kv /\
    has_free (kv_mapping_table kv) /\ alloc_inv (kv_allocator kv) [] /\
    iter_handle kv = replicate 16 ITER_NULL ++ [last] /\
    forall storage k, klen <= Z.of_nat (length k) -> kv_lookup klen kv storage k = None.
Proof.
  intros Ha Hs Hk Ht. unfold kv_init_ftl. destruct (alloc_init_ok a Ha) as (a' & -> & HR). cbn [obind].
  set (slots := table_size / KV_MAPPING_ENTRY_SIZE) in *. eexists. split; [reflexivity|].
  assert (I : kv_inv (size := size) klen
    (mk_kv_ftl (replicate (Z.to_nat slots) entry_init) slots a' (replicate 16 ITER_NULL ++ [last]))).
  { split; simpl.
    - done.
    - split; [done|rewrite length_replicate; lia|done|..].
      + intros s e ->%init_entry. split; [done|]. split; [by left|done].
      + exists (fun _ => 0%nat). by intros s e ->%init_entry.
    - exists []. split; [done|]. intros s e ->%init_entry Hf. by destruct Hf.
    - intros s1 s2 e1 e2 ->%init_entry _ Hf. by destruct Hf. }
  split; [done|]. split.
  { exists 0, entry_init. split; [|done]. simpl. apply nthZ_Ok. split; [done|]. apply lookup_replicate. split; [done|lia]. }
  split; [done|]. split; [done|]. intros storage k Hlk.
  destruct (get_entry_spec klen _ storage k I Hlk) as (h & r & _ & _ & _ & F & -> & _). destruct r as [s|]; [|done].
  destruct (found_hit klen _ h k s F) as (e & He & Hf & _). simpl in He. apply init_entry in He as ->. by destruct Hf.
Qed.

(** ** The commands *)
(** C8: For keys of one length, any allocator that keeps its contract and well-formed PRP lists,
    the key-value commands implement a map. A store puts the bytes of the host under the key,
    provided that a new key finds a free slot and a place, and that a known key keeps its length
    or stays within a value of at most 1024 bytes; a retrieve returns a prefix of the value and
    nothing else changes in host memory; exist and the missing-key status tell membership; a
    delete removes its key, changes no other value, and loses no other key when the entry ends its
    chain. *)
Theorem kv_commands_refine kv host storage cmd status :
  kv_inv (size := size) klen kv -> cmd_key_length cmd = klen ->
  let k := kv_key cmd in
  let m := kv_lookup klen kv storage in
  let want := cmd_value_length cmd in
  let run := __do_perform_kv_io size kv host storage cmd status in
  (opcode cmd = nvme_cmd_kv_store -> prp_wf host (prp1 cmd) (prp2 cmd) want ->
   match m k with
   | None => has_free (kv_mapping_table kv) /\ alloc_room (kv_allocator kv) want
   | Some v => want = Z.of_nat (length v) \/ want <= Z.of_nat (length v) <= SMALL_LENGTH
   end ->
   exists kv' storage', run = Ok (mk_kv_out kv' host storage' status 0) /\ kv_inv (size := size) klen kv' /\
     forall k', klen <= Z.of_nat (length k') ->
       kv_lookup klen kv' storage' k' = kv_put klen m k (prp_data host (prp1 cmd) (prp2 cmd) want) k') /\
  (opcode cmd = nvme_cmd_kv_retrieve ->
   match m k with
   | None => run = Ok (mk_kv_out kv host storage KV_ERR_KEY_NOT_EXIST 0)
   | Some v =>
       let n := Z.min (Z.of_nat (length v)) want in
       prp_wf host (prp1 cmd) (prp2 cmd) n -> prp_disjoint host (prp1 cmd) (prp2 cmd) n ->
       exists host', run = Ok (mk_kv_out kv host' storage status n) /\
         map (fun i => host' (prp_addr host (prp1 cmd) (prp2 cmd) n i)) (seqZ 0 n) = take (Z.to_nat n) v /\
         forall a, (forall i, 0 <= i < n -> prp_addr host (prp1 cmd) (prp2 cmd) n i <> a) -> host' a = host a
   end) /\
  (opcode cmd = nvme_cmd_kv_exist ->
   run = Ok (mk_kv_out kv host storage (match m k with Some _ => status | None => KV_ERR_KEY_NOT_EXIST end) 0)) /\
  (opcode cmd = nvme_cmd_kv_delete ->
   match m k with
   | None => run = Ok (mk_kv_out kv host storage KV_ERR_KEY_NOT_EXIST 0)
   | Some _ =>
       exists kv' s es, run = Ok (mk_kv_out kv' host storage status 0) /\ kv_inv (size := size) klen kv' /\
         kv_lookup klen kv' storage k = None /\
         find_key (hash_slots kv) (kv_mapping_table kv) k klen = Ok (Some s) /\ nthZ (kv_mapping_table kv) s = Ok es /\
         forall k', klen <= Z.of_nat (length k') -> prefix_of klen k' <> prefix_of klen k ->
           (kv_lookup klen kv' storage k' = m k' \/ kv_lookup klen kv' storage k' = None) /\
           (me_next_slot es = SLOT_NONE -> kv_lookup klen kv' storage k' = m k')
   end).
Proof.
  intros I Hl k m want run. split; [|split; [|split]].
  - intros Hop Hw Hm. destruct (m k) as [v|] eqn:Hv.
    + by apply (store_update klen kv host storage cmd status I Hl v).
    + destruct Hm as [Hfree Hroom]. by apply (store_new klen kv host storage cmd status I Hl).
  - intros Hop. by apply (retrieve_ok klen kv host storage cmd status I Hl).
  - intros Hop. by apply (exist_ok klen kv host storage cmd status I Hl).
  - intros Hop. by apply (delete_ok klen kv host storage cmd status I Hl).
Qed.

(** ** Batches *)
(** C18: A batch of stores is the sequence of its stores: with the attributes, keys and values of
    up to eight pairs in the pages of the host where the format puts them, executing the command
    returns, keeps the invariant and the iterators, and leaves the map in which the values were
    put under their keys in the order of the batch, for every allocator with the contract, as long
    as new keys find a slot and a place and known keys keep their length. *)
Theorem kv_batch_refines kmalloc_bytes kv host storage cmd status items :
  let len := cmd_value_length cmd in
  let m := kv_lookup klen kv storage in
  kv_inv (size := size) klen kv -> prp_wf host (prp1 cmd) (prp2 cmd) len -> kv_batch_rsvd4 cmd = Z.of_nat (length items) -> (length items <= 8)%nat ->
  batch_at klen (fun i => host (prp_addr host (prp1 cmd) (prp2 cmd) len i)) len 0 ALIGN_LEN items ->
  batch_fits klen m (kv_allocator kv) (nfree (kv_mapping_table kv)) items ->
  exists kv' storage', __do_perform_kv_batch size kmalloc_bytes kv host storage cmd status = Ok (mk_kv_out kv' host storage' status 0) /\
    kv_inv (size := size) klen kv' /\ iter_handle kv' = iter_handle kv /\
    forall k, klen <= Z.of_nat (length k) -> kv_lookup klen kv' storage' k = put_all klen m items k.
Proof.
  intros len m I Hw Hn H8 Hb Hf. unfold __do_perform_kv_batch. fold len. pose proof (ki_wf klen kv I) as W.
  destruct (prp_transfer_spec host kmalloc_bytes (prp1 cmd) (prp2 cmd) 0 len len Hw PRP_TO_DEV) as (h1 & buffer & -> & -> & Hbuf);
    [done|lia|]. cbn [obind]. rewrite Hn.
  assert (Hb' : batch_at klen buffer len 0 ALIGN_LEN items).
  { apply (batch_at_ext klen (fun i => host (prp_addr host (prp1 cmd) (prp2 cmd) len i)) buffer len items); try done; try (unfold ALIGN_LEN; lia);
      [apply (tw_klen _ _ _ W)|].
    intros x Hx. rewrite Hbuf, (proj2 (Z.leb_le _ _)), (proj2 (Z.ltb_lt _ _)) by lia. simpl. by rewrite Z.sub_0_r. }
  destruct (batch_loop klen buffer len items 0 ALIGN_LEN kv storage I ltac:(done) ltac:(lia) ltac:(unfold ALIGN_LEN; lia) Hb' Hf)
    as (kv' & storage' & off' & E & I' & Hit & Hl).
  rewrite Z.add_0_l in E. rewrite E. cbn [obind]. by eexists _, _.
Qed.

(** ** Iterators *)
(** C21: A read of an iterator delivers to the host the number and the keys of the matching
    entries from its position on, at most 51, in slot order; it stops at the end of the table,
    which it reports, or after 51 keys, and the next read goes on there. *)
Theorem kv_iter_read_delivers kv host cmd status c :
  table_wf (hash_slots kv) klen (kv_mapping_table kv) ->
  nthZ (iter_handle kv) (kv_iter_handle cmd) = Ok (ITER c) -> 0 <= ic_current_pos c <= hash_slots kv ->
  exists pos' ks n,
    ks = iter_keys (kv_mapping_table kv) (ic_prefix c) (ic_bitmask c) (ic_current_pos c) pos' /\
    n = 4 + 20 * nr ks /\ ic_current_pos c <= pos' <= hash_slots kv /\ nr ks <= 51 /\
    (pos' < hash_slots kv -> nr ks = 51) /\
    (prp_wf host (prp1 cmd) (prp2 cmd) n -> prp_disjoint host (prp1 cmd) (prp2 cmd) n ->
     exists hs host' c', kv_iter_read kv host cmd status =
         Ok (set_iters kv hs, host',
             if negb (ic_current_pos c =? hash_slots kv) && (pos' =? hash_slots kv) then KV_ITER_END else 0, n) /\
       nthZ hs (kv_iter_handle cmd) = Ok (ITER c') /\ ic_current_pos c' = pos' /\
       ic_prefix c' = ic_prefix c /\ ic_bitmask c' = ic_bitmask c /\
       (forall j, j <> kv_iter_handle cmd -> nthZ hs j = nthZ (iter_handle kv) j) /\
       map (fun i => host' (prp_addr host (prp1 cmd) (prp2 cmd) n i)) (seqZ 0 n) = le_int (nr ks) ++ iter_records ks).
Proof.
  intros W Hc Hp. pose proof (nthZ_range _ _ _ Hc) as Hr.
  assert (Hkeys : forall s e, nthZ (kv_mapping_table kv) s = Ok e -> length (me_key e) = 18%nat) by (intros s e He; by apply (tw_entry _ _ _ W s)).
  destruct (iter_scan_spec _ (ic_prefix c) (ic_bitmask c) Hkeys (length (kv_mapping_table kv)) (hash_slots kv)
    (ic_current_pos c) (ic_buf c) 4 0 (tw_len _ _ _ W) Hp) as (pos' & buf & fin & Es & H1 & H2 & H3 & H4 & H5 & H6);
    [pose proof (tw_len _ _ _ W); lia|lia|].
  set (ks := iter_keys _ _ _ _ pos') in *. exists pos', ks, (4 + 20 * nr ks). split; [done|]. split; [done|]. split; [done|].
  split; [lia|]. split; [lia|]. intros Hw Hd. unfold kv_iter_read. rewrite Hc. cbn [obind]. rewrite Es. cbn [obind].
  rewrite Z.add_0_l. set (buf1 := write_bytes buf 0 (le_int (nr ks))).
  assert (E : bytes buf1 0 (4 + 20 * nr ks) = le_int (nr ks) ++ iter_records ks).
  { rewrite bytes_app by (unfold nr; lia). rewrite (bytes_write buf 0 (le_int (nr ks)) : bytes buf1 0 4 = _). f_equal.
    rewrite <- H5. apply bytes_same. intros x Hx. apply write_other. change (Z.of_nat (length (le_int (nr ks)))) with 4. lia. }
  destruct (prp_transfer_spec host buf1 (prp1 cmd) (prp2 cmd) 0 (4 + 20 * nr ks) 32768 Hw PRP_TO_HOST)
    as (h1 & dev & -> & -> & Hcp & _); [done|lia|]. cbn [obind]. rewrite updZ_Ok by done. cbn [obind]. rewrite H2.
  eexists _, h1, _. split; [reflexivity|]. split; [by rewrite nthZ_insert, Z.eqb_refl|]. simpl. do 3 (split; [done|]). split.
  { intros j Hj. rewrite nthZ_insert by done. by rewrite (proj2 (Z.eqb_neq _ _) Hj). }
  transitivity (bytes buf1 0 (4 + 20 * nr ks)); [by apply map_seqZ_ext|exact E].
Qed.
End Map.

(** ** Witnesses: three slots and 16 KiB of storage, appended to *)
Lemma demo_size : 0 <= 16384 < 18446744073709551616.
Proof. lia. Qed.
#[local] Instance demo_append : AllocatorLaws append_only 16384 := append_only_laws 16384 demo_size.

Definition demo_kv : kv_ftl append_only :=
  mk_kv_ftl (replicate 3 entry_init) 3 (mk_append_only 0 16384 0) (replicate 16 ITER_NULL ++ [ITER_GARBAGE]).
Definition kv_cmd (op dw11 : Z) : nvme_command := mk_nvme_command op 0 0 1 0 0 0 8192 0 2 dw11 97 98 99 100.

Lemma demo_kv_ok : kv_inv (size := 16384) 16 demo_kv /\ has_free (kv_mapping_table demo_kv) /\
  forall storage k, 16 <= Z.of_nat (length k) -> kv_lookup 16 demo_kv storage k = None.
Proof.
  destruct (kv_init_ok (size := 16384) 16 144 (mk_append_only 0 0 0) ITER_GARBAGE) as (kv & E & I & F & _ & _ & Hl); [done|done|done|done|].
  assert (Ok kv = Ok demo_kv) as [= ->] by (rewrite <- E; reflexivity). done.
Qed.

(** Eight bytes stored under a key of sixteen. *)
Lemma kv_commands_refine_witness : exists kv' storage',
  __do_perform_kv_io 16384 demo_kv (fun a => a mod 256) (fun _ => 0) (kv_cmd nvme_cmd_kv_store 15) 0 =
    Ok (mk_kv_out kv' (fun a => a mod 256) storage' 0 0) /\
  kv_lookup 16 kv' storage' (kv_key (kv_cmd nvme_cmd_kv_store 15)) = Some [0; 1; 2; 3; 4; 5; 6; 7].
Proof.
  destruct demo_kv_ok as (I & F & Hl).
  destruct (kv_commands_refine (size := 16384) 16 demo_kv (fun a => a mod 256) (fun _ => 0) (kv_cmd nvme_cmd_kv_store 15) 0 I eq_refl)
    as [Hs _].
  destruct (Hs eq_refl) as (kv' & storage' & E & _ & Hv).
  - by split.
  - rewrite Hl by done. by split.
  - exists kv', storage'. split; [exact E|]. rewrite Hv by done. unfold kv_put. by rewrite decide_True by done.
Defined.

(** An iterator over the empty table ends at once. *)
Lemma kv_iter_read_delivers_witness : exists hs host',
  kv_iter_read (set_iters demo_kv (ITER_NULL :: ITER (mk_iter 0 0 (fun _ => 7) 0) :: replicate 15 ITER_NULL)) (fun _ => 0)
    (kv_cmd nvme_cmd_kv_iter_read 1) 0 = Ok (set_iters demo_kv hs, host', KV_ITER_END, 4).
Proof.
  destruct demo_kv_ok as (I & _ & _).
  destruct (kv_iter_read_delivers 16
    (set_iters demo_kv (ITER_NULL :: ITER (mk_iter 0 0 (fun _ => 7) 0) :: replicate 15 ITER_NULL)) (fun _ => 0)
    (kv_cmd nvme_cmd_kv_iter_read 1) 0 (mk_iter 0 0 (fun _ => 7) 0) (ki_wf 16 demo_kv I) eq_refl ltac:(done))
    as (pos' & ks & n & Eks & -> & Hp & _ & Hf & Hr).
  assert (Hn : forall p, iter_keys (replicate 3 entry_init) 0 0 0 p = []).
  { intros p. unfold iter_keys. generalize (seqZ 0 (p - 0)). intros l. induction l as [|x l IH]; [done|]. cbn [flat_map].
    rewrite IH, app_nil_r. unfold slot_keys. destruct (nthZ _ x) as [e| | |] eqn:E; [|done..]. by apply (init_entry 3) in E as ->. }
  assert (ks = []) as -> by (rewrite Eks; exact (Hn pos')).
  cbn [hash_slots set_iters demo_kv ic_current_pos] in *.
  assert (pos' = 3) as -> by (destruct (decide (pos' < 3)) as [Hd|?]; [specialize (Hf Hd); discriminate Hf|lia]).
  destruct Hr as (hs & host' & c' & E & _); [done| |by exists hs, host'].
  split; [|done]. intros j i Hj Hi. change (4 + 20 * nr []) with 4 in *. unfold prp_addr, prp_first. simpl.
  change (4096 - 8192 mod 4096) with 4096. rewrite !(proj2 (Z.ltb_lt _ 4096)) by lia. lia.
Defined.

(** Three pairs in a batch, the first key written twice: attributes, and each
    key and value behind 64 bytes. *)
Definition batch_key (c : Z) : list Z := replicate 16 c.
Definition batch_items : list (list Z * list Z) := [(batch_key 97, [1; 2; 3; 4]); (batch_key 98, [5; 6]); (batch_key 97, [7; 8; 9; 10])].
Definition batch_attr (v : list Z) : list Z := [129; 16; 0; 0] ++ le_int (Z.of_nat (length v)) ++ replicate 8 0.
Definition pad64 (l : list Z) : list Z := l ++ replicate (64 - length l) 0.
Definition batch_page : list Z :=
  let attrs := concat (map (fun '(_, v) => batch_attr v) batch_items) in
  attrs ++ replicate (512 - length attrs) 0 ++ concat (map (fun '(k, v) => replicate 64 0 ++ pad64 k ++ pad64 v) batch_items).
Definition batch_host : mem := fun a => nth (Z.to_nat a) batch_page 0.
Definition batch_cmd : nvme_command := mk_nvme_command nvme_cmd_kv_batch 0 0 1 0 0 0 0 4096 272 (3 * 2 ^ 24 + 15) 0 0 0 0.

Lemma kv_batch_refines_witness : exists kv' storage',
  __do_perform_kv_batch 16384 (fun _ => 77) demo_kv batch_host (fun _ => 0) batch_cmd 0 = Ok (mk_kv_out kv' batch_host storage' 0 0) /\
  kv_lookup 16 kv' storage' (batch_key 97) = Some [7; 8; 9; 10] /\ kv_lookup 16 kv' storage' (batch_key 98) = Some [5; 6].
Proof.
  destruct demo_kv_ok as (I & F & Hl).
  assert (Hw : prp_wf batch_host 0 4096 (cmd_value_length batch_cmd)) by (split; [done|done|intros Hb; discriminate Hb]).
  destruct (kv_batch_refines (size := 16384) 16 (fun _ => 77) demo_kv batch_host (fun _ => 0) batch_cmd 0 batch_items I Hw eq_refl)
    as (kv' & storage' & E & _ & _ & Hv).
  - simpl. lia.
  - do 3 (split; [constructor; first [vm_compute; reflexivity|vm_compute; split; [reflexivity|discriminate]|vm_compute; discriminate]|]).
    exact Logic.I.
  - cbn [batch_items batch_fits]. rewrite Hl by done. split; [vm_compute; lia|]. split; [done|]. intros off a [= _ <-].
    change (kv_put 16 ?m (batch_key 97) ?v (batch_key 98)) with (m (batch_key 98)). rewrite Hl by done. split; [vm_compute; lia|]. split; [done|].
    intros off' a' [= _ <-]. split; [done|]. done.
  - exists kv', storage'. split; [exact E|]. rewrite (Hv (batch_key 97)), (Hv (batch_key 98)) by (vm_compute; discriminate). split; vm_compute; reflexivity.
Defined.
