(* ===== verification/CtrlTheorems.v ===== *)
(** * CtrlTheorems: what the controller guarantees

    A module that accepts its parameters divides the storage; a host that sets
    up the administration queue at its own pace finds the controller ready after
    at most four iterations of the dispatcher; administration commands are
    answered once each and in order; a doorbell is served up to the first
    command that the FTL refuses; and all of this keeps the promises of the I/O
    queues. *)
From Stdlib Require Import Strings.String.
From stdpp Require Import base list numbers sets.
From Stdlib Require Import ZArith Lia.
From S2P Require Import Prelude ChannelModel SsdConfig Ssd Nvme Prp HostMem.
From S2P Require Import WorkQueue WorkQueueSpec IoDev IoQueue IoSteps IoCalls CqRing Admin IoDoorbell AdminFacts Ctrl.
From S2P Require Import IoUnits ZnsData Boot CtrlFacts CtrlCalls BootFacts IoFtl Demo IoTheorems.
From S2P Require Import PciFacts Layout NvmeStructs HostStructs.

Open Scope Z_scope.
Open Scope nvmev_scope.

(** A fresh queue of pages that the host has cleared is a ring without entries. *)
Lemma fresh_ring m aqa asq acq q : fresh_queue m aqa asq acq q -> acq <> 0 ->
  (forall x, page_base acq <= x -> m x = 0) -> aq_at q 0.
Proof.
  intros Fq Ha Hz. pose proof (fq_cq _ _ _ _ _ Fq Ha) as Hcq. split; [by rewrite Hcq|]. unfold aq_ring. rewrite Hcq. simpl.
  rewrite (fq_phase _ _ _ _ _ Fq), (fq_head _ _ _ _ _ Fq), (fq_cq_depth _ _ _ _ _ Fq). set (S := aqa_acqs aqa + 1).
  assert (HS : 1 <= S) by (pose proof (getf_range aqa 16 12 ltac:(lia)); unfold S, aqa_acqs; lia).
  set (n := DIV_ROUND_UP (S * 16) PAGE_SIZE). unfold cq_map_pages, cq_pages. fold S n. change NR_CQE_PER_PAGE with 256.
  assert (Hn : S <= n * 256).
  { unfold n, DIV_ROUND_UP, PAGE_SIZE. pose proof (Z.div_mod (S * 16 + 4096 - 1) 4096 ltac:(lia)).
    pose proof (Z.mod_pos_bound (S * 16 + 4096 - 1) 4096 ltac:(lia)). lia. }
  assert (Hd : forall a, page_base acq <= a -> decode_cqe m a = mk_cqe 0 0 0 0 0 0).
  { assert (G : forall a k, page_base acq <= a -> get_le m a k = 0).
    { intros a k Hk. unfold get_le, bytes. rewrite (map_seqZ_ext _ (fun _ => 0)) by (intros i Hi; apply Hz; lia).
      induction (seqZ 0 k) as [|x l IH]; simpl; [done|]. by rewrite IH. }
    intros a Hk. unfold decode_cqe. by rewrite !G by lia. }
  clearbody n S. split; cbn [cq_queue_size cq_entries cq_head cq_phase].
  - rewrite length_map, length_seqZ. lia.
  - done.
  - by rewrite Z.mod_0_l by lia.
  - unfold phase_at. by rewrite Z.div_0_l by lia.
  - intros j Hj. exists (mk_cqe 0 0 0 0 0 0). pose proof (Z.mod_pos_bound j S ltac:(lia)). split.
    + apply nthZ_Ok. split; [lia|]. rewrite list_lookup_fmap, lookup_seqZ_lt by lia. simpl. f_equal. apply Hd. lia.
    + unfold phase_at, cqe_phase. simpl. replace (j / S) with (-1); [done|].
      apply (Z.div_unique j S (-1) (j + S)); lia.
Qed.

(** ** From the module to a ready controller *)
Section Boot.
Context {F : Type} `{NsInfo F} `{IoHandler F} `{Clock}.
Variables (mapped_ram mapped_reserved : Z -> Z -> bool) (simple_strtol : string -> Z).
Variables (simple_init conv_init zns_init kv_init : Z -> Z -> Z -> outcome F) (host : mem).
Variables (bc : base_config) (kv : bool) (p : module_params) (disp : string) (workers : list string).
Notation init := (NVMeV_init mapped_ram mapped_reserved simple_strtol simple_init conv_init zns_init kv_init host bc kv p).
Notation ok := (boot_ok mapped_ram mapped_reserved simple_init conv_init zns_init kv_init bc kv p disp workers).
Notation bytes_used := (usable kv p - MB 1).

(** C22: With parameters that it accepts the module comes up with one worker per CPU of the list
    after the first, the storage 1 MiB behind the start of the reserved memory, and namespaces
    that lie in it side by side, each with its share of what was left and initialised for its
    type; a last namespace without capacity limit takes the rest. *)
Theorem module_init_layout : ok ->
  exists cfg c nss e, init = Ok (Some (cfg, c)) /\
    cfg_cpu_nr_io_workers cfg = map (cpu_of simple_strtol) workers /\ d_nr_io_workers (c_dev c) = Z.of_nat (length workers) /\
    cfg_storage_start cfg = memmap_start p + MB 1 /\ cfg_storage_start cfg + bytes_used <= memmap_start p + memmap_size p /\
    d_ns (c_dev c) = map (fun x => x.1.1) nss /\ Z.of_nat (length nss) = NR_NAMESPACES bc /\
    tiles 0 (map (fun x => (x.1.2, x.2)) nss) e /\ e <= cfg_storage_size cfg /\
    (NS_CAPACITY bc (NR_NAMESPACES bc - 1) = Ok 0 -> e = cfg_storage_size cfg) /\
    forall i ns addr size, nthZ nss i = Ok (ns, addr, size) ->
      size = ns_share bc i (cfg_storage_size cfg - addr) /\
      exists ty, NS_SSD_TYPE bc i = Ok ty /\ init_of simple_init conv_init zns_init kv_init ty i size addr = Ok ns.
Proof.
  intros B. destruct (init_booted mapped_ram mapped_reserved simple_strtol _ _ _ _ host bc kv p disp workers B)
    as (c & nss & e & E & Bt & He & Hn). exists (boot_config simple_strtol kv p disp workers), c, nss, e.
  split; [exact E|]. split; [done|]. split; [apply (bt_workers _ _ _ _ _ _ _ Bt)|]. split; [done|].
  split; [|destruct Bt; by split_and!].
  simpl. unfold usable. change (MB 1) with 1048576. change KV_MAPPING_TABLE_SIZE with 1073741824. destruct kv; lia.
Qed.

(** C5: However the host spreads its writes to AQA, ASQ, ACQ and CC over the iterations of the
    dispatcher, with AQA before CC, no iteration fails, and as many further iterations as
    registers are pending (at most four) reach a state that the dispatcher leaves alone: ready
    exactly when enabled, with the administration queue mapped at the addresses that the host
    wrote last. *)
Theorem controller_bring_up cq_fuel aqa evs : ok ->
  aqa <> 0 -> host_ok aqa false evs -> aqa_written false evs = true ->
  exists cfg c0 c1 c2 q, init = Ok (Some (cfg, c0)) /\ host_run bc cq_fuel c0 evs = Ok c1 /\
    (pending_regs c1 <= 4)%nat /\ rounds bc cq_fuel (pending_regs c1) c1 = Ok c2 /\
    dispatcher_round bc cq_fuel c2 = Ok c2 /\ host_regs (c_bar c2) = foldl host_write (0, 0, 0, 0) evs /\
    csts_rdy (r_csts (c_bar c2)) = cc_en (r_cc (c_bar c2)) /\ c_admin_q c2 = Some q /\
    fresh_queue (c_host c0) aqa (r_asq (c_bar c2)) (r_acq (c_bar c2)) q /\
    (r_acq (c_bar c2) <> 0 -> (forall x, page_base (r_acq (c_bar c2)) <= x -> c_host c0 x = 0) -> aq_at q 0).
Proof.
  intros B Ha Hok Hw. destruct (init_booted mapped_ram mapped_reserved simple_strtol _ _ _ _ host bc kv p disp workers B)
    as (c0 & nss & e & E & Bt & _). pose proof (bt_up _ _ _ _ _ _ _ Bt aqa) as U0.
  destruct (up_run bc cq_fuel aqa (c_dev c0) evs false c0 Ha U0 Hok) as (c1 & E1 & U1 & R1). rewrite Hw in U1.
  rewrite (bt_regs _ _ _ _ _ _ _ Bt) in R1.
  destruct (up_rounds bc cq_fuel aqa (c_dev c0) (pending_regs c1) c1 Ha U1 ltac:(lia)) as (c2 & E2 & U2 & R2 & P2).
  destruct (up_settled aqa (c_dev c0) c2 Ha U2 P2) as (q & Hq & Hf & Hr).
  exists (boot_config simple_strtol kv p disp workers), c0, c1, c2, q. split; [exact E|]. split; [done|]. split; [apply pending_max|].
  destruct (up_round bc cq_fuel aqa true (c_dev c0) c2 Ha U2) as (c3 & E3 & _ & _ & Hfix). destruct (Hfix eq_refl) as [_ H3].
  rewrite (H3 P2) in E3. split; [done|]. split; [exact E3|]. split; [by rewrite R2|]. split; [done|]. split; [done|].
  split; [done|]. intros Hcq Hz. by eapply fresh_ring.
Qed.

(** The same for the whole system: every interleaving of host, dispatcher and
    workers is a run of the queues. *)
Theorem dispatcher_exactly_once cq_fuel : ok ->
  exists cfg c0, init = Ok (Some (cfg, c0)) /\ forall s, sys_steps bc cq_fuel (c0, all_idle) s ->
    exists evs, io_steps (queue_state (c0, all_idle)) evs (queue_state s) /\
      exists ts, Forall2 completes ts (posted evs) /\ submitted evs ≡ₚ ts ++ dev_pending (c_dev s.1).
Proof.
  intros B. destruct (init_booted mapped_ram mapped_reserved simple_strtol _ _ _ _ host bc kv p disp workers B)
    as (c0 & nss & e & E & Bt & _). exists (boot_config simple_strtol kv p disp workers), c0. split; [exact E|]. intros s Hs.
  destruct (sys_steps_run bc cq_fuel _ _ Hs) as (evs & He). exists evs. split; [done|].
  destruct (io_steps_inv _ _ _ He (bt_inv _ _ _ _ _ _ _ Bt)) as (_ & ts & T & P). exists ts. split; [done|].
  rewrite <- P. simpl. by rewrite (bt_pending _ _ _ _ _ _ _ Bt), app_nil_r.
Qed.
End Boot.

(** ** Commands of the administration queue *)
Section Admin.
Context {F : Type} `{NsInfo F}.
Implicit Type c : nvmev_ctrl F.
Variable bc : base_config.

(** C6: Ringing the administration doorbell answers every command between the two values but
    Abort exactly once and in their order, provided that the commands name what exists (the
    namespace id of an identify is in range, so not FFFFFFFFh; a log page stays inside its object;
    queue ids are at most 72) and that the completion ring has room for all answers: a host that
    polls the ring by its phase bit reads slot, command id and status of each (success, or invalid
    opcode for what the device does not know), and vector 0 is signalled once. *)
Theorem admin_answers_delivered c cmds depth T q old_db new_db :
  let slots := ring_slots depth old_db (Z.to_nat (ring_dist depth old_db new_db)) in
  let answers := omap (answer_at cmds) slots in
  admin_at c cmds depth T q -> 0 <= old_db < depth -> 0 <= new_db < depth -> depth <= 4096 ->
  Forall (valid_at bc (d_ns (c_dev c)) cmds) slots -> Z.of_nat (length answers) <= aq_cq_depth q ->
  exists c' q', nvmev_proc_admin_sq bc c new_db old_db = Ok c' /\
    admin_at c' cmds depth (T + Z.of_nat (length answers)) q' /\ d_irqs (c_dev c') = d_irqs (c_dev c) ++ [0] /\
    map cqe_answer (host_poll (S (length answers)) (default [] (aq_nvme_cq q')) (aq_cq_depth q)
      (T mod aq_cq_depth q) (phase_at (aq_cq_depth q) T)) = answers.
Proof.
  intros slots answers A Ho Hn Hd V Hl. set (N := ring_dist depth old_db new_db) in slots.
  unfold nvmev_proc_admin_sq. rewrite s32_id by lia. unfold get_aq at 1. rewrite (at_q _ _ _ _ _ A). cbn [obind of_option].
  rewrite (at_depth _ _ _ _ _ A).
  assert (En : (if new_db - old_db <? 0 then Ok (new_db - old_db + depth) else Ok (new_db - old_db)) = Ok N).
  { unfold N, ring_dist. destruct (Z.ltb_spec (new_db - old_db) 0), (Z.ltb_spec new_db old_db); (done || lia). }
  rewrite En. cbn [obind].
  destruct (loop_answers bc cmds depth (Z.to_nat N) c old_db T q A V) as (c' & q' & ws & -> & K & P & A' & M & Fs).
  fold slots answers in M. assert (Hw : length ws = length answers) by (by rewrite <- M, length_map). rewrite Hw in A'.
  cbn [obind]. exists (nvmev_signal_irq c' 0), q'. split; [done|]. split; [by destruct A' as [? ? ? ? []]; split|].
  split; [simpl; by rewrite (proj1 (proj2 K))|].
  destruct (post_all_polled (aq_ring q) T ws (proj2 (at_ring _ _ _ _ _ A))) as (r & P' & _ & Hp); [simpl; lia|].
  assert (r = aq_ring q') as -> by congruence. unfold aq_ring in Hp. cbn [cq_entries cq_queue_size] in Hp. rewrite Hw in Hp. rewrite Hp, cqes_answers by done. exact M.
Qed.

Theorem identify_namespace_size c cmds depth T q eid cmd ns :
  admin_at c cmds depth T q -> nthZ cmds eid = Ok cmd -> opcode cmd = nvme_admin_identify -> id_cns cmd = 0 ->
  nthZ (d_ns (c_dev c)) (u32 (nsid cmd - 1)) = Ok ns -> (512 | info_size ns) -> 0 <= info_size ns < 18446744073709551616 ->
  exists c' q', __nvmev_proc_admin_req bc c eid = Ok c' /\ admin_at c' cmds depth (T + 1) q' /\ kept c c' /\
    (let p := prp1 cmd in
     let nsze := get_le (c_host c') p 8 in
     let flbas := get_le (c_host c') (p + 26) 1 in
     let ds := get_le (c_host c') (p + 128 + 4 * flbas + 2) 1 in
     nsze * 2 ^ ds = info_size ns /\ get_le (c_host c') (p + 8) 8 = nsze /\ flbas <= get_le (c_host c') (p + 25) 1 /\
     forall x, ~ (p <= x < p + PAGE_SIZE) -> c_host c' x = c_host c x).
Proof.
  intros A Hc Hop Hid Hns Hdiv Hsz. assert (Ha : admin_cmd c eid = Ok cmd).
  { unfold admin_cmd, get_aq, aq_sq_entry. rewrite (at_q _ _ _ _ _ A). cbn [obind of_option]. by rewrite (at_cmds _ _ _ _ _ A). }
  unfold __nvmev_proc_admin_req. rewrite Ha. cbn [obind]. rewrite Hop. cbn. unfold __nvmev_admin_identify. rewrite Ha. cbn [obind].
  rewrite Hid. change (0 =? 0) with true. cbn iota. rewrite (identify_ns_host c eid cmd ns Ha Hns).
  set (p := prp1 cmd). set (nsze := Z.shiftr (info_size ns) 9). set (m := put_fields _ p _).
  destruct (answer_posts c (set_host c m) cmds depth T q eid cmd NVME_SC_SUCCESS 0 A) as (c' & q' & E & K & _ & A' & _);
    [by apply same_host, (at_wf _ _ _ _ _ A)|done|]. exists c', q'. unfold __make_cq_entry. split; [exact E|]. split; [done|]. split; [done|].
  assert (Hh : c_host c' = m) by by apply make_host in E.
  rewrite Hh. cbv zeta.
  assert (G : forall l1 o n v l2, ns_page_fields nsze = l1 ++ (o, n, v) :: l2 -> 0 <= n -> forallb (apart o n) l2 = true ->
    get_le m (p + o) n = v mod 2 ^ (8 * n)) by (intros l1 o n v l2 El Hn Hl; unfold m; rewrite El; by apply get_fields).
  assert (Hz : 0 <= nsze < 2 ^ 64).
  { unfold nsze. rewrite Z.shiftr_div_pow2 by done. change (2 ^ 9) with 512. change (2 ^ 64) with 18446744073709551616.
    split; [apply Z.div_pos; lia|]. apply Z.div_lt_upper_bound; lia. }
  assert (G26 : get_le m (p + 26) 1 = 0) by by apply (G lbaf_fields 26 1 0 _ eq_refl).
  assert (G25 : get_le m (p + 25) 1 = 6) by by apply (G (lbaf_fields ++ [(26, 1, 0)]) 25 1 6 _ eq_refl).
  assert (G130 : get_le m (p + 130) 1 = 9) by by apply (G [(128, 2, 0)] 130 1 9 _ eq_refl).
  assert (G0 : get_le m p 8 = nsze).
  { rewrite <- (Z.add_0_r p), (G (lbaf_fields ++ [(26, 1, 0); (25, 1, 6); (29, 1, 0)]) 0 8 nsze _ eq_refl) by done. by apply Z.mod_small. }
  assert (G8 : get_le m (p + 8) 8 = nsze).
  { rewrite (G (lbaf_fields ++ [(26, 1, 0); (25, 1, 6); (29, 1, 0); (0, 8, nsze)]) 8 8 nsze _ eq_refl) by done. by apply Z.mod_small. }
  rewrite G0, G26, G8, G25. replace (p + 128 + 4 * 0 + 2) with (p + 130) by lia. rewrite G130. split; [|split; [done|split; [lia|]]].
  - unfold nsze. rewrite Z.shiftr_div_pow2 by done. change (2 ^ 9) with 512. destruct Hdiv as [k ->]. by rewrite Z.div_mul.
  - intros x Hx. unfold m. rewrite put_fields_other; [unfold memset0; destruct (Z.leb_spec p x), (Z.ltb_spec x (p + PAGE_SIZE)); simpl; (done || lia)|].
    unfold ns_page_fields, lbaf_fields. simpl. unfold PAGE_SIZE in Hx. repeat constructor; lia.
Qed.

(** C24: Every identify command with a description (namespace, controller, namespace
    identification, zoned namespace) fills one page of the host with the structure of nvme.h: each
    member that the code assigns reads back by its name with its value, every other member of the
    structure is 0, and nothing outside the page changes; the command is answered with success and
    queues and namespaces are left alone. *)
Theorem identify_pages c cmds depth T q eid cmd t ms :
  admin_at c cmds depth T q -> nthZ cmds eid = Ok cmd -> opcode cmd = nvme_admin_identify -> is_bytes (c_host c) ->
  id_page bc c cmd = Ok (t, ms) ->
  exists c' q', __nvmev_proc_admin_req bc c eid = Ok c' /\ admin_at c' cmds depth (T + 1) q' /\ kept c c' /\
    Forall (fun '(p, v) => get_at (c_host c') (prp1 cmd) t p = Some (v mod 2 ^ width_at t p)) ms /\
    (forall p o w, leaf_at t p = Some (o, w) -> forallb (fun p' => diverge p' p) (map fst ms) = true ->
       get_at (c_host c') (prp1 cmd) t p = Some 0) /\
    forall x, ~ (prp1 cmd <= x < prp1 cmd + PAGE_SIZE) -> c_host c' x = c_host c x.
Proof.
  intros A Hc Hop Hm Hp. assert (Ha : admin_cmd c eid = Ok cmd).
  { unfold admin_cmd, get_aq, aq_sq_entry. rewrite (at_q _ _ _ _ _ A). cbn [obind of_option]. by rewrite (at_cmds _ _ _ _ _ A). }
  unfold __nvmev_proc_admin_req. rewrite Ha. cbn [obind]. rewrite Hop. cbn.
  destruct (identify_host bc c eid cmd t ms Ha Hm Hp) as (m' & -> & [Hset Hzero] & Hout).
  destruct (answer_posts c (set_host c m') cmds depth T q eid cmd NVME_SC_SUCCESS 0 A) as (c' & q' & E & K & _ & A' & _);
    [by apply same_host, (at_wf _ _ _ _ _ A)|done|]. exists c', q'. unfold __make_cq_entry. split; [exact E|]. split; [done|]. split; [done|].
  assert (Hh : c_host c' = m') by by apply make_host in E. rewrite Hh. by split_and!.
Qed.
End Admin.

(** ** The doorbells of the I/O queues *)
Section Doorbell.
Context {F : Type} `{IoHandler F} `{Clock}.
Context (good : F -> Prop) (cmd_good : nvme_command -> Prop) (m : nat) `{!IoServes F good cmd_good m}.
Implicit Type c : nvmev_ctrl F.

(** C7: With room in the work queues the dispatcher takes the commands between the old and the
    new value of a submission doorbell from the ring in their order, each queued once with its
    slot and command id, up to the first one that the FTL refuses; the doorbell value that it
    keeps is the slot behind the last one taken, so that the rest is tried again, and an FTL that
    accepts its commands leaves nothing behind. *)
Theorem doorbell_in_order c pcs sqid cqid size ids q old_db new_db r :
  let n := Z.to_nat (ring_dist size old_db new_db) in
  io_inv (c_dev c, pcs) -> has_room (c_dev c) (n * S m + r) -> served good cmd_good (c_dev c) sqid cqid size ids q ->
  read_db (c_dbs c) (sqid * 2) = Ok new_db -> read_db (c_old_dbs c) (sqid * 2) = Ok old_db ->
  0 <= old_db < size -> 0 <= new_db < size -> size <= 65536 ->
  exists j c' evs q', proc_sq_db c sqid = Ok c' /\ (j <= n)%nat /\ io_steps (c_dev c, pcs) evs (c_dev c', pcs) /\
    map tag_slot (submitted evs) = map (fun e => (sqid, cqid, e, ids e)) (ring_slots size old_db j) /\
    read_db (c_old_dbs c') (sqid * 2) = Ok ((old_db + Z.of_nat j) mod size) /\ c_dbs c' = c_dbs c /\
    has_room (c_dev c') r /\ served good cmd_good (c_dev c') sqid cqid size ids q' /\
    (accepting F good cmd_good -> j = n /\ (old_db + Z.of_nat j) mod size = new_db).
Proof.
  intros n I R Hs Hnew Hold Ho Hn H16. unfold proc_sq_db. pose proof (sv_q _ _ _ _ _ _ _ _ Hs) as Hq. unfold get_sq in Hq.
  destruct (nthZ (d_sqes (c_dev c)) sqid) as [[q0|]| | |]; try done. cbn [obind]. rewrite Hnew, Hold. cbn [obind].
  destruct (Z.eqb_spec new_db old_db) as [E|E].
  - exists 0%nat, c, [], q. assert (n = 0%nat) as ->.
    { unfold n, ring_dist. rewrite E, Z.ltb_irrefl. lia. }
    change (Z.of_nat 0) with 0. rewrite Z.add_0_r, Z.mod_small by done. split; [done|]. split; [done|]. split; [constructor|].
    by split_and!.
  - destruct (doorbell_served good cmd_good m (c_dev c) pcs sqid cqid size ids q old_db new_db r I R Hs Ho Hn H16)
      as (j & d' & evs & q' & -> & Hj & T & M & R' & V & A). cbn [obind]. unfold set_old_db. simpl.
    assert (Hl : 0 <= sqid * 2 < Z.of_nat (length (c_old_dbs c))).
    { unfold read_db in Hold. destruct (nthZ (c_old_dbs c) (sqid * 2)) eqn:El; try done. by eapply nthZ_range. }
    rewrite updZ_Ok by done. cbn [obind]. eexists j, _, evs, q'. split; [done|]. split; [done|]. split; [done|]. split; [done|].
    split; [|by split_and!]. unfold read_db. simpl. rewrite nthZ_insert, Z.eqb_refl by done. cbn [obind]. f_equal.
    pose proof (Z.mod_pos_bound (old_db + Z.of_nat j) size ltac:(lia)). rewrite u32_id by lia. apply s32_id. lia.
Qed.
End Doorbell.

(** The simple FTL accepts every command. *)
Section Simple.
Context `{Clock}.
Variable cfg : nvmev_config.
Context (Hm : 0 < cfg_nr_io_units cfg < 2147483648) (Hs : LBA_BITS <= cfg_io_unit_shift cfg < 31).
#[local] Existing Instance simple_handler.

Definition simple_good (s : simple_store) : Prop :=
  si_csi s = NVME_CSI_NVM /\ Z.of_nat (length (si_stat s)) = cfg_nr_io_units cfg.

Lemma flush_total s : simple_good s -> exists t, __schedule_flush cfg (si_stat s) = Ok t.
Proof.
  intros [_ Hl]. unfold __schedule_flush.
  destruct (forO_ind (fun _ _ => True) 0 (cfg_nr_io_units cfg) 0 (fun latest i => let* t := nthZ (si_stat s) i in Ok (Z.max latest t)))
    as (t & E & _); [lia|done| |by exists t]. intros i t Hi _. destruct (nthZ_in_range (si_stat s) i) as [x ->]; [lia|]. by eexists.
Qed.

Lemma simple_total s clk req ret : simple_good s ->
  exists s' clk' ret', simple_proc_nvme_io_cmd cfg s clk req ret = Ok (s', clk', ret') /\ simple_good s'.
Proof.
  intros [G1 G2]. unfold simple_proc_nvme_io_cmd. rewrite G1. change (NVME_CSI_NVM =? NVME_CSI_NVM) with true. cbn iota.
  destruct (is_write _ || is_read _).
  - set (w := is_write _). set (r := is_read _). set (len := u32 (__cmd_io_size (req_cmd req))).
    assert (Hlen : 0 < len /\ len + 2 ^ cfg_io_unit_shift cfg <= 4294967296).
    { unfold len, __cmd_io_size, LBA_BITS. rewrite Z.shiftl_mul_pow2 by lia. pose proof (rw_length_range (req_cmd req)).
      change (2 ^ 9) with 512. rewrite u32_id by lia. split; [lia|].
      assert (2 ^ cfg_io_unit_shift cfg <= 2 ^ 30) by (apply Z.pow_le_mono_r; lia). change (2 ^ 30) with 1073741824 in *. lia. }
    pose proof (schedule_units_spec cfg (si_stat s) w r (rw_slba (req_cmd req)) len (cpu_clock clk)) as Hspec.
    destruct (unit_times cfg w r) as [[dl lat] tr]. destruct Hspec as (busy & stat' & _ & E & L & _);
      [exact Hm|exact Hs|exact G2|apply Hlen|apply Hlen|].
    rewrite E. cbn [obind]. eexists _, _, _. split; [done|]. by split.
  - destruct (_ =? nvme_cmd_flush); [|by eexists _, _, _].
    destruct (flush_total s (conj G1 G2)) as [t ->]. by eexists _, _, _.
Qed.

Lemma simple_serves : @IoServes simple_store (simple_handler cfg) simple_good (fun _ => True) 0.
Proof.
  split. intros s clk host req ret G _. simpl. unfold simple_handler_proc.
  destruct (simple_total s clk req ret G) as (s' & clk' & ret' & -> & G'). cbn [obind]. eexists. split; [done|]. simpl. auto.
Qed.

Lemma simple_accepting : @accepting simple_store (simple_handler cfg) simple_good (fun _ => True).
Proof.
  intros s clk host req ret o G _. simpl. unfold simple_handler_proc.
  destruct (simple_proc_nvme_io_cmd _ _ _ _ _) as [[[? ?] ?]| | |]; try done. by intros [= <-].
Qed.
End Simple.

(** ** Witnesses: the simple device with two workers *)
#[local] Opaque init_worker NR_MAX_PARALLEL_IO.
#[local] Existing Instance simple_info.

Definition demo_params : module_params := mk_params 4294967296 67108864 1 0 0 1 0 0 8 12 (Some "0,1,2"%string).
Definition demo_strtol (s : string) : Z := if String.eqb s "1" then 1 else if String.eqb s "2" then 2 else 0.
Definition demo_simple_init (i size addr : Z) : outcome simple_store := Ok (simple_init_namespace size (fun _ => 0) (replicate 8 0)).
Definition no_init {F} (i size addr : Z) : outcome F := Bug.
#[local] Instance demo_handler : IoHandler simple_store := simple_handler demo_cfg.

Lemma demo_boot : boot_ok (fun _ _ => false) (fun _ _ => true) demo_simple_init no_init no_init no_init INTEL_OPTANE false
  demo_params "0" ["1"; "2"]%string.
Proof.
  split; try done. split; [done| |].
  - intros i Hi. simpl in Hi. assert (i = 0) as -> by lia. by exists 0.
  - intros i ty size addr Hi Ht _. simpl in Hi. assert (i = 0) as -> by lia. injection Ht as <-. by eexists.
Qed.

Definition demo_init : outcome (option (nvmev_config * nvmev_ctrl simple_store)) :=
  NVMeV_init (fun _ _ => false) (fun _ _ => true) demo_strtol demo_simple_init no_init no_init no_init (fun _ => 0)
    INTEL_OPTANE false demo_params.

Lemma module_init_layout_witness : exists cfg c, demo_init = Ok (Some (cfg, c)) /\ cfg_cpu_nr_io_workers cfg = [1; 2] /\
  cfg_storage_start cfg = 4296015872 /\ length (d_ns (c_dev c)) = 1%nat.
Proof.
  destruct (module_init_layout (fun _ _ => false) (fun _ _ => true) demo_strtol demo_simple_init no_init no_init no_init (fun _ => 0)
    INTEL_OPTANE false demo_params "0" ["1"; "2"]%string demo_boot) as (cfg & c & nss & e & E & W & _ & S & _ & D & L & _).
  exists cfg, c. split; [exact E|]. split; [by rewrite W|]. split; [by rewrite S|]. rewrite D, length_map.
  change (NR_NAMESPACES INTEL_OPTANE) with 1 in L. lia.
Defined.

(** 32 entries in both queues; the host waits for nothing. *)
Definition demo_evs : list host_ev := [WrAqa 2031647; Round; WrAsq 8192; WrAcq 16384; WrCc 1].

Lemma controller_bring_up_witness : exists cfg c0 c1 c2 q, demo_init = Ok (Some (cfg, c0)) /\
  host_run INTEL_OPTANE 0 c0 demo_evs = Ok c1 /\ rounds INTEL_OPTANE 0 (pending_regs c1) c1 = Ok c2 /\
  csts_rdy (r_csts (c_bar c2)) = 1 /\ c_admin_q c2 = Some q /\ aq_sq_depth q = 32 /\ aq_nvme_sq q <> None.
Proof.
  destruct (controller_bring_up (fun _ _ => false) (fun _ _ => true) demo_strtol demo_simple_init no_init no_init no_init (fun _ => 0)
    INTEL_OPTANE false demo_params "0" ["1"; "2"]%string 0 2031647 demo_evs demo_boot ltac:(done) ltac:(done) eq_refl)
    as (cfg & c0 & c1 & c2 & q & E & E1 & _ & E2 & _ & R & Y & Hq & Fq & _).
  exists cfg, c0, c1, c2, q. split; [exact E|]. split; [exact E1|]. split; [exact E2|].
  unfold host_regs in R. simpl in R. injection R as Ra Rs Rc Rcc. split; [by rewrite Y, Rcc|]. split; [done|].
  split; [by rewrite (fq_sq_depth _ _ _ _ _ Fq)|]. rewrite (fq_sq _ _ _ _ _ Fq); [done|by rewrite Rs].
Defined.

(** The host writes a register, the dispatcher looks at it, a worker starts. *)
Lemma dispatcher_exactly_once_witness : exists cfg c0 s, demo_init = Ok (Some (cfg, c0)) /\
  sys_steps INTEL_OPTANE 0 (c0, all_idle) s /\ r_aqa (c_bar s.1) = 2031647 /\
  exists evs ts, Forall2 completes ts (posted evs) /\ submitted evs ≡ₚ ts ++ dev_pending (c_dev s.1).
Proof.
  destruct (init_booted (fun _ _ => false) (fun _ _ => true) demo_strtol _ _ _ _ (fun _ => 0) INTEL_OPTANE false demo_params "0"
    ["1"; "2"]%string demo_boot) as (c0 & nss & e & E & Bt & _).
  assert (H0 : 2031647 <> 0 /\ host_ok 2031647 false [WrAqa 2031647; Round]) by (clear; done). destruct H0 as [H0 Hok].
  destruct (up_run INTEL_OPTANE 0 2031647 (c_dev c0) [WrAqa 2031647; Round] false c0 H0 (bt_up _ _ _ _ _ _ _ Bt _) Hok)
    as (c1 & E1 & U1 & R1).
  assert (Hs : sys_steps INTEL_OPTANE 0 (c0, all_idle) (c1, all_idle)).
  { clear - E1. unfold host_run in E1. cbn [foldO host_step] in E1. cbn [obind] in E1. set (c := set_bars _ _ _) in E1.
    destruct (dispatcher_round INTEL_OPTANE 0 c) as [c'| | |] eqn:E2; try done. injection E1 as ->.
    apply (sys_cons _ _ _ (c, all_idle)); [apply sys_host; split; reflexivity|].
    by apply round_sys_steps. }
  destruct (dispatcher_exactly_once (fun _ _ => false) (fun _ _ => true) demo_strtol demo_simple_init no_init no_init no_init (fun _ => 0)
    INTEL_OPTANE false demo_params "0" ["1"; "2"]%string 0 demo_boot) as (cfg & c0' & E' & Hx).
  assert (Ec : c0' = c0) by congruence. subst c0'. exists cfg, c0, (c1, all_idle). split; [exact E'|]. split; [exact Hs|]. split.
  - apply (up_bar_aqa _ _ _ _ U1).
  - destruct (Hx _ Hs) as (evs & _ & ts & T & P). exists evs, ts. exact (conj T P).
Defined.

(** An administration queue of four commands: Identify Namespace, Abort, Get
    Features and one that the device does not know. *)
Definition demo_admin (op cid : Z) : nvme_command := mk_nvme_command op 0 cid 1 0 0 0 8192 0 0 0 0 0 0 0.
Definition demo_admin_cmds : list nvme_command :=
  [demo_admin nvme_admin_identify 11; demo_admin nvme_admin_abort_cmd 12; demo_admin nvme_admin_get_features 13; demo_admin 99 14].
Definition demo_aq : nvmev_admin_queue := mk_aq 1 4 4 0 (Some demo_admin_cmds) (Some (replicate 4 (mk_cqe 0 0 0 0 0 0))).
Definition demo_store : simple_store := simple_init_namespace 1048576 (fun _ => 0) (replicate 8 0).
Definition demo_ctrl : nvmev_ctrl simple_store :=
  mk_ctrl (empty_dev (fun _ => 255) [demo_store] 1) (Some demo_aq) (replicate 1024 0) (replicate 1024 0)
    (__init_nvme_ctrl_regs INTEL_OPTANE) (__init_nvme_ctrl_regs INTEL_OPTANE) 1 5.

Lemma demo_admin_at : admin_at demo_ctrl demo_admin_cmds 4 0 demo_aq.
Proof.
  split; [done| |done|done|by split]. split; [done|]. split; simpl; try done.
  intros j Hj. exists (mk_cqe 0 0 0 0 0 0). assert (j = -4 \/ j = -3 \/ j = -2 \/ j = -1) as [->|[->|[->| ->]]] by lia; done.
Qed.

Lemma admin_answers_delivered_witness : exists c' q', nvmev_proc_admin_sq INTEL_OPTANE demo_ctrl 1 2 = Ok c' /\
  d_irqs (c_dev c') = [0] /\
  map cqe_answer (host_poll 4 (default [] (aq_nvme_cq q')) 4 0 1) = [(2, 13, 0); (3, 14, 1); (0, 11, 0)].
Proof.
  destruct (admin_answers_delivered INTEL_OPTANE demo_ctrl demo_admin_cmds 4 0 demo_aq 2 1 demo_admin_at ltac:(lia) ltac:(lia)
    ltac:(lia)) as (c' & q' & E & _ & I & P).
  - repeat constructor; eexists; (split; [reflexivity|vm_compute; reflexivity]).
  - vm_compute. discriminate.
  - exists c', q'. split; [exact E|]. split; [exact I|exact P].
Defined.

Lemma identify_namespace_size_witness : exists c', __nvmev_proc_admin_req INTEL_OPTANE demo_ctrl 0 = Ok c' /\
  get_le (c_host c') 8192 8 * 2 ^ get_le (c_host c') (8192 + 128 + 4 * get_le (c_host c') (8192 + 26) 1 + 2) 1 = 1048576 /\
  c_host c' 12288 = 255.
Proof.
  destruct (identify_namespace_size INTEL_OPTANE demo_ctrl demo_admin_cmds 4 0 demo_aq 0 (demo_admin nvme_admin_identify 11)
    demo_store demo_admin_at eq_refl eq_refl eq_refl eq_refl) as (c' & q' & E & _ & _ & Hx & _ & _ & Ho).
  - exists 2048. reflexivity.
  - simpl. lia.
  - exists c'. split; [exact E|]. split; [exact Hx|]. rewrite Ho; [reflexivity|].
    unfold PAGE_SIZE. simpl. lia.
Defined.

(** The serial number and the number of namespaces, as the driver reads them. *)
Definition demo_id_cmd : nvme_command := mk_nvme_command nvme_admin_identify 0 21 0 0 0 0 8192 0 1 0 0 0 0 0.
Definition demo_id_aq : nvmev_admin_queue := mk_aq 1 4 4 0 (Some [demo_id_cmd]) (Some (replicate 4 (mk_cqe 0 0 0 0 0 0))).
Definition demo_ctrl_id : nvmev_ctrl simple_store := set_aq demo_ctrl demo_id_aq.

Lemma identify_pages_witness : exists c', __nvmev_proc_admin_req INTEL_OPTANE demo_ctrl_id 0 = Ok c' /\
  let get := get_at (c_host c') 8192 struct_nvme_id_ctrl in
  map (fun i => get [Fld "sn"; Idx i]) (seqZ 0 4) = [Some 67; Some 83; Some 76; Some 95] /\ get [Fld "nn"] = Some 1 /\
  get [Fld "vid"] = Some 0 /\ get [Fld "psd"; Idx 31; Fld "max_power"] = Some 0 /\ c_host c' 12288 = 255.
Proof.
  destruct (identify_pages INTEL_OPTANE demo_ctrl_id [demo_id_cmd] 4 0 demo_id_aq 0 demo_id_cmd struct_nvme_id_ctrl (ctrl_page 1 5))
    as (c' & q' & E & _ & _ & Hs & Hz & Ho).
  - split; [done| |done|done|by split]. split; [done|]. split; simpl; try done.
    intros j Hj. exists (mk_cqe 0 0 0 0 0 0). assert (j = -4 \/ j = -3 \/ j = -2 \/ j = -1) as [->|[->|[->| ->]]] by lia; done.
  - reflexivity.
  - reflexivity.
  - intros x. change (0 <= 255 < 256). lia.
  - reflexivity.
  - exists c'. split; [exact E|]. cbv zeta.
    assert (G : forall p v, In (p, v) (ctrl_page 1 5) -> get_at (c_host c') 8192 struct_nvme_id_ctrl p = Some (v mod 2 ^ width_at struct_nvme_id_ctrl p)).
    { intros p v Hin. rewrite List.Forall_forall in Hs. exact (Hs _ Hin). }
    split; [|split; [|split; [|split]]].
    + change (map (fun i => get_at (c_host c') 8192 struct_nvme_id_ctrl [Fld "sn"; Idx i]) [0; 1; 2; 3] = [Some 67; Some 83; Some 76; Some 95]).
      cbn [map]. by rewrite (G [Fld "sn"; Idx 0] 67), (G [Fld "sn"; Idx 1] 83), (G [Fld "sn"; Idx 2] 76), (G [Fld "sn"; Idx 3] 95) by (vm_compute; tauto).
    + by rewrite (G [Fld "nn"] 1) by (vm_compute; tauto).
    + by apply (Hz [Fld "vid"] 0 16).
    + by apply (Hz [Fld "psd"; Idx 31; Fld "max_power"] 24320 16).
    + rewrite Ho; [reflexivity|]. unfold PAGE_SIZE. simpl. lia.
Defined.

(** A queue of four commands on the device that came up; its doorbell moves
    from slot 3 to slot 2 across the end of the ring. *)
Definition demo_io (cid : Z) : nvme_command := mk_nvme_command nvme_cmd_read 0 cid 1 0 0 0 8192 0 0 0 7 0 0 0.
Definition demo_ring : nvmev_submission_queue := mk_sq 1 1 0 true 4 (mk_stat 0 0 0 0 0) (map demo_io [20; 21; 22; 23]).
Definition with_ring (c : nvmev_ctrl simple_store) : nvmev_ctrl simple_store :=
  set_dbs (set_dev c (set_sqes (c_dev c) [None; Some demo_ring])) [0; 0; 2; 0] [0; 0; 3; 0].

Lemma demo_init_good ty i size addr ns :
  init_of demo_simple_init no_init no_init no_init ty i size addr = Ok ns -> simple_good demo_cfg ns.
Proof. destruct ty; try done. by intros [= <-]. Qed.

Lemma doorbell_in_order_witness : exists cfg c0 c' evs, demo_init = Ok (Some (cfg, c0)) /\
  proc_sq_db (with_ring c0) 1 = Ok c' /\ map tag_slot (submitted evs) = [(1, 1, 3, 23); (1, 1, 0, 20); (1, 1, 1, 21)] /\
  read_db (c_old_dbs c') 2 = Ok 2.
Proof.
  destruct (init_booted (fun _ _ => false) (fun _ _ => true) demo_strtol _ _ _ _ (fun _ => 0) INTEL_OPTANE false demo_params "0"
    ["1"; "2"]%string demo_boot) as (c0 & nss & e & E & Bt & _ & Hn).
  assert (H8 : 0 < cfg_nr_io_units demo_cfg < 2147483648 /\ LBA_BITS <= cfg_io_unit_shift demo_cfg < 31) by (clear; done).
  assert (Hns : d_ns (c_dev (with_ring c0)) = map (fun x => x.1.1) nss) by exact (bt_ns _ _ _ _ _ _ _ Bt).
  assert (Hl : length (d_ns (c_dev (with_ring c0))) = 1%nat).
  { rewrite Hns, length_map. pose proof (bt_nr _ _ _ _ _ _ _ Bt) as Hr. change (NR_NAMESPACES INTEL_OPTANE) with 1 in Hr. clear - Hr. lia. }
  pose proof (simple_serves demo_cfg (proj1 H8) (proj2 H8)) as Hserves.
  destruct (doorbell_in_order (simple_good demo_cfg) (fun _ => True) 0 (with_ring c0) all_idle 1 1 4 (fun i => 20 + i) demo_ring 3 2 0)
    as (j & c' & evs & q' & Ec & _ & _ & M & D & _ & _ & _ & A).
  - destruct (io_steps_inv (c_dev c0, all_idle) [] (c_dev (with_ring c0), all_idle)) as (I & _); [by apply st_same|apply Bt|exact I].
  - intros i k. apply (bt_room _ _ _ _ _ _ _ Bt). vm_compute. reflexivity.
  - split; try (clear; reflexivity).
    + intros i Hi. assert (i = 0 \/ i = 1 \/ i = 2 \/ i = 3) as Hc by lia. exists (demo_io (20 + i)).
      rewrite Hl. clear - Hc. destruct Hc as [->|[->|[->| ->]]]; (split; [reflexivity|]); by split_and!.
    + rewrite Hns. apply Forall_map, Forall_lookup. intros i [[ns ad] sz] Hi.
      destruct (Hn (Z.of_nat i) ns ad sz) as (_ & ty & Ht & Hok); [apply nthZ_Ok; split; [lia|by rewrite Nat2Z.id]|].
      by apply demo_init_good in Hok.
  - reflexivity.
  - reflexivity.
  - clear; lia.
  - clear; lia.
  - clear; lia.
  - destruct (A (simple_accepting demo_cfg)) as [Ej Ed]. eexists _, c0, c', evs. split; [exact E|]. split; [exact Ec|].
    rewrite Ed in D. split; [|exact D]. rewrite M, Ej. reflexivity.
Defined.
